(* ===== verification/_CoqProject ===== *)
-Q . S2P
Prelude.v
Rounding.v
PyFloat.v
PyDecimal.v
PyData.v
PyValue.v
Models.v
Config.v
Precision.v
Quoting.v
Risk.v
Canary.v
Reconcile.v
Inventory.v
Strategy.v
Liquidity.v
Volume.v
Surveillance.v
Backtest.v
Store.v
Paper.v
Venue.v
RateLimit.v
Crypto.v
Signing.v
Client.v
CoinstoreRules.v
CoinstoreService.v
MMRuntime.v
RuntimeProps.v
OrderBook.v
MarketData.v
MarketDataRuntime.v
MarketDataProps.v
ConfigStore.v
ControlPlane.v
Daemon.v
Hardening.v
Access.v
Alerts.v
Json.v
RedisStore.v
Environment.v
PublicExchange.v
Migrations.v
ApiBase.v
ApiReads.v
ApiControl.v
ApiAccounts.v
ApiStream.v
Api.v
Cli.v
UnitOfWork.v
Columns.v
Stress.v
Logging.v
Relational.v
Schema.v
ConcurrentConfig.v
Interleaving.v
Lifecycle.v
