(* ===== verification/Prelude.v ===== *)
(** * mmbot: a verification library for the market-making bot

    mmbot (under src/src/mmbot/) quotes a two-sided ladder around the mid price
    of a pair, on paper or live on Coinstore. A runtime
    (engines/market_making/runtime.py) reacts to ticks and bus messages: it
    reads market data, asks the quote engine for a ladder, passes every quote
    through the risk engine and the canary controller, and hands what is left
    to the paper engine or to the live execution service. The live service
    signs and sends REST requests through a rate-limited client, checks the
    answers, stores orders, fills and balances, and reconciles them with the
    venue. Around this core stand inventory, volume, liquidity, strategy,
    surveillance, reconciliation and backtesting engines, which are pure
    computations on records. A second runtime collects market data: websocket
    connectors rebuild order books and pass messages to it, and it publishes
    and stores books, trades and statistics. Both runtimes run under a daemon
    that supervises ticks, health and shutdown, and both obey commands that a
    configuration service, called by the REST API behind permission guards,
    stores and publishes over Redis. The API also manages exchange accounts,
    emergency stops and an operations stream; a command line issues its tokens
    and runs the migrations of the database, whose session audits every change.

    ** Files

    Foundations.
    - [Prelude]: exceptions, the [result] type, the state-and-exception monad
      [SE] (the state survives a raise), its loops and weakest preconditions,
      shared lemmas and tactics.
    - [Rounding], [PyFloat], [PyDecimal]: round-half-even in any base; Python's
      [float] as IEEE binary64 with infinities and NaN (operations are the
      exact rational result, rounded); [decimal.Decimal] with 28 digits.
    - [PyData], [PyValue]: insertion-ordered dicts with their abstraction to
      [gmap], stable sorting, ASCII text; dynamic JSON-like values with
      truthiness, [str], [int] and [Decimal(str(v))].
    - [Models], [Config]: execution/models.py, exchanges/types.py, the enums of
      db/models.py and production/canary.py; the runtime configuration of
      core/config.py with its validators and default.
    Engines.
    - [Precision] (execution/precision.py), [Quoting]
      (engines/market_making/engine.py), [Risk] (engines/risk/engine.py),
      [Canary] (production/canary.py), [Reconcile] (reconciliation/engine.py),
      [Inventory] (engines/inventory/engine.py), [Strategy]
      (engines/strategy/advanced.py), [Liquidity]
      (engines/liquidity/shaping.py), [Volume] (engines/volume/engine.py),
      [Surveillance] (surveillance/anti_manipulation.py), [Backtest]
      (simulation/backtesting.py).
    Execution.
    - [Store]: the database session as an interface with laws, and an in-memory
      instance. [Paper] (execution/paper.py): orders are mutable objects in a
      heap, shared by the open-order dict and the fill loop.
    - [Venue] (exchanges/registry.py, execution/specs.py, status.py,
      errors.py), [RateLimit] (exchanges/rate_limit.py), [Crypto] (SHA-1, SHA-2,
      HMAC, base64 with published test vectors), [Signing]
      (execution/signing.py, exchanges/auth.py), [Client]
      (execution/client.py).
    - [CoinstoreRules] (execution/coinstore_validation.py,
      coinstore_safety.py, coinstore_reconciliation.py and the parsing half of
      coinstore.py), [CoinstoreService] (the stateful half of coinstore.py).
    Orchestration.
    - [MMRuntime] (engines/market_making/runtime.py, runtime/events.py,
      observability/metrics.py); it uses the live service through the interface
      [LiveVenue], of which [coinstore_venue] is an instance. [RuntimeProps]:
      its safety theorems.
    Market data.
    - [OrderBook] (websocket/connectors.py): subscriptions, sequence checks,
      order book reconstruction and the reconnect loop. [MarketData]
      (engines/market_data/engine.py), [MarketDataRuntime]
      (engines/market_data/runtime.py) and its theorems [MarketDataProps].
    Control.
    - [ConfigStore] (db/repositories.py, runtime/config_service.py): versioned
      configuration documents, audit records and commands. [ControlPlane]: the
      service composed with the runtimes that consume its commands. [Daemon]
      (engines/runtime.py): the supervision loop over the interface
      [EngineRuntime], which both runtimes implement.
    - [ConcurrentConfig]: requests that update the configuration at the same
      time, as a step relation on their sessions. [Interleaving]: a shutdown
      command handled while a tick is under way. [Lifecycle] (api/main.py,
      get_settings of core/config.py, cli/engine.py, construction and closing in
      db/session.py and redis/manager.py, start-up and shutdown of
      engines/runtime.py and of the market maker): what a service holds, read
      off the log of its calls.
    - [Environment] (the settings validators of core/config.py and
      scripts/validate_env.py).
    Services.
    - [Hardening] (security/hardening.py), [Access] (core/security.py,
      security/secrets.py), [Alerts] (alerts/delivery.py), [Json] (Python's
      json module), [RedisStore] (redis/manager.py, over the interface
      [RedisServer] of the Redis commands), [PublicExchange]
      (exchanges/client.py, exchanges/adapters.py, execution/coinstore_ws.py),
      [Stress] (stress/testing.py), [Logging] (observability/logging.py).
    REST API (api/routes.py, api/schemas.py, api/dependencies.py).
    - [ApiBase]: the state behind a request (tables, keys, bus), the session
      that is committed or rolled back, payloads of rows. [ApiReads]: the
      endpoints that only read. [ApiControl]: configuration, commands and
      emergency endpoints. [ApiAccounts]: exchange accounts and connection
      tests. [ApiStream]: the operations websocket. [Api]: all of them as one
      dispatcher with their guards, and sequences of requests.
    - [Cli] (cli/auth.py, cli/database.py): tokens over the interface [Jwt],
      and the database command.
    Database.
    - [Migrations] (db/migrations.py, db/seeds.py): splitting of scripts and the
      two runners. [UnitOfWork] (the audit hook of db/session.py, over the
      interface [Orm]). [Columns] (the column types of db/models.py).
      [Relational]: declarations of tables and their meaning, with SQL's
      three-valued checks. [Schema]: the tables of db/models.py and those of
      database/migrations.

    An object with state is a record, a method is a function of the state monad
    or a pure state transformer, a raised exception is a value of type [exn],
    and [try/except] is [se_catch]. Times are UTC microseconds. What the
    repository does not contain is a parameter: the clock, uuid4, the HTTP
    transport, the SQL session, Redis, pydantic's coercion of a document, the
    JWT library, the cipher of stored secrets and [float ** int]. The runtimes
    also take [json.loads] as a parameter, since their theorems hold for any
    decoder; the later files use the one of [Json]. Where a theorem needs a law
    of a parameter, it is a named field of a class ([SessionLaws],
    [RedisServer], [Fernet], [Jwt], [Orm]) or an explicit hypothesis, and a
    concrete instance is given.

    ** What the theorems show

    - Runtime ([RuntimeProps]): with trading off no sequence of events creates
      an order or turns trading on, other than the commands meant to; an order
      is created only if the risk engine and the canary admit it; a shutdown
      command takes effect also when part of its work raises; the cached kill
      switch stops a tick and fails closed outside paper and shadow mode. Two
      defects: a configuration reload forgets the kill switch, and a stale quote
      is replaced by two orders.
    - Quoting: quotes never cross, the ladder's shape and sizes, the spread
      band, in binary64 arithmetic; with the default settings and no inventory
      the first bid is above mid.
    - Precision: [quantize_down] is the floor to the grid; what
      [apply_symbol_precision] accepts passes validation.
    - Risk and Canary: exact conditions for admitting an order, kill switches
      that stay on, breakers, limits as invariants, the range of the score.
    - Paper: no order is overfilled, the account is the fold of the recorded
      fills, fills respect the limit price, a cancel reaches the database.
    - Client and Coinstore: the token bucket stays within capacity, an order is
      sent at most three times, the exact condition of the safety check, the
      message flattening terminates. Defects: no balance is ever parsed, so
      live reconciliation always raises; non-retryable errors are retried.
    - Reconcile, Surveillance, Liquidity, Strategy, Volume, Backtest: mismatch
      reports are complete and precise, alerts have the evidence they claim,
      sizes, spreads and multipliers stay in their ranges, the backtest accounts
      for every event.
    - Market data: the reconstructed book refines finite maps and stays sorted,
      spreads and imbalances are in range, price windows are the last 1000
      prices, rows are written at the configured rate, book payloads survive
      the bus. Defects: a sequence gap is permanent, a one-sided update ends
      the session, a book is published for every symbol of its connector, no
      analytics message is complete.
    - Control: configuration versions are consecutive, an update is read back,
      merging is idempotent; a shutdown command and a liquidity update issued
      through the service take effect in the runtime that consumes them; the
      daemon stops when told to, backs off within bounds and reports its health
      faithfully. Defects: a Redis outage ends the daemon, and the market maker
      keeps row ids a rollback has removed. A validated environment satisfies
      the settings validators, list settings are well formed.
    - Interleaving: overlapping configuration requests store consecutive
      versions, each a merge into an earlier one; after the synchronous part of
      a shutdown command no order is created, whatever the tick it interrupted
      has left to do. Defects: an overlapping update can be lost, a version is
      announced before it is stored, and a pause does not cut a tick.
    - Lifecycle: a service that has started releases exactly what it opened,
      however its body ends, provided that closing does not fail; settings are
      read once. Defects: one failing close keeps the rest open, a failed
      subscription of the market maker is never repeated, and the accepted log
      level TRACE prevents every start.
    - Services: audit logs verify and tampering needs a collision, the request
      limit forwards the first requests of each window, one-time passwords are
      accepted exactly inside their window, guards grant exactly the allowed
      roles and permissions and keep analysts out of write operations, alerts
      go to every subscribed notifier and escalate at the threshold, JSON and
      sessions round trip, locks exclude each other, counts last their window,
      retries are bounded, and the private websocket delivers each frame at
      most once and in order. Log lines are JSON, stress runs count every
      operation once.
    - REST API: an emergency stop sets the kill switch before it announces
      anything, reaches the engine, and leaves no trace in the tables when it
      fails; analysts change nothing, whatever they send; accounts stay unique
      under any requests; a failed request changes no table; connected
      credentials decrypt to what was sent; the stream announces a row once; a
      token from the command line opens exactly the guards it names until it
      expires. Defects: enabling trading removes the kill switch before the
      command is published, and short API keys are shown in full.
    - Database: migrations run once and in order, a failed run changes nothing;
      a commit audits every change after at most two flushes; identifiers and
      documents round trip through their columns; the migrated database takes
      only rows the models take and fills what the models leave out; orders of
      the paper engine satisfy the migrated checks. Defects: a function body on
      one line swallows the rest of a script, a crossed ticker is refused by the
      migrated database only, and a database created from the models is taken
      for a migrated one.

    ** Bounds

    The retry loop makes 3 attempts, as the decorator says. The flattening of a
    private message runs on fuel equal to the size of its candidates, which
    [private_payloads_total] shows to be enough. [json.loads] runs on the length
    of the text plus one, which the round trip shows to be enough for what
    [json.dumps] writes, and the list settings on the length of the value, which
    [parse_string_lists_type] shows to be enough. The daemon's loop runs on one
    unit per turn and is shown to end within the turn the shutdown event is set.
    Text scanned as JSON has characters below 256. The paper invariants assume
    quantities on a common decimal grid with fewer than 10^28 units, so that
    28-digit arithmetic is exact on them. Decimals are finite: a NaN or infinite
    [Decimal] is not represented, and converting such a float raises in the
    model. Strings are sequences of bytes with ASCII case mapping.

    ** Not modelled, and why

    Handlers of the runtimes run one after another, and so do requests of the
    API, except in [ConcurrentConfig] and [Interleaving], which take the two
    places where an overlap decides the outcome; other interleavings at [await]
    points are left out. Cancelled tasks end at once, waiting times are recorded
    where a theorem is about them, and most logging is left out. The execution
    of SQL, indexes, triggers and referential actions belong to the database,
    and tables are either lists of rows behind an interface or declarations.
    Calls that open and close connections are events that may raise; what the
    libraries do inside them, argparse and pydantic's reading of the
    environment are not modelled, nor is the FastAPI object. Also
    left out is a report without effect on later behaviour: the health dict of
    the market maker, which prints dataclasses as Python shows them. Dashboards
    and deployment files are not Python. *)

From stdpp Require Export prelude strings gmap pretty.
From Stdlib Require Export ZArith QArith Qabs Qpower Qround Lqa Lia.

(** ** Exceptions *)

(** The exception classes the modelled code raises, catches or lets escape. *)
Inductive exn_class : Type :=
  | ValueError | TypeError | KeyError | IndexError | AttributeError
  | ZeroDivisionError | OverflowError | RuntimeError
  | DecimalException | MultipleResultsFound | NoResultFound
  | PrecisionError | ValidationError
  | ExchangeError | RateLimitExceededError | NonRetryableExchangeExecutionError
  | RiskViolationError | KillSwitchActiveError
  | CoinstoreSafetyError | CoinstoreValidationError
  | TransportError
  | IntegrityError | PendingRollbackError | HTTPException | InvalidToken | PyJWTError
  | JSONDecodeError | TimeoutError | FileNotFoundError
  | StructError | BinasciiError | HTTPStatusError | RetryError | WebSocketDisconnect.

#[export] Instance exn_class_eq_dec : EqDecision exn_class.
Proof. solve_decision. Defined.

(** Direct base class, where the base is one of the classes above. *)
Definition exn_base (c : exn_class) : option exn_class :=
  match c with
  | PrecisionError | ValidationError | JSONDecodeError | BinasciiError => Some ValueError
  | RateLimitExceededError | NonRetryableExchangeExecutionError => Some ExchangeError
  | KillSwitchActiveError => Some RiskViolationError
  | CoinstoreSafetyError | CoinstoreValidationError => Some RuntimeError
  | _ => None
  end.

(** [isinstance] on exceptions: the hierarchy has depth two. *)
Definition exn_isinstance (c base : exn_class) : bool :=
  bool_decide (c = base) || bool_decide (exn_base c = Some base).

Record exn : Type := mkExn { ex_class : exn_class; ex_msg : string }.

#[export] Instance exn_eq_dec : EqDecision exn.
Proof. solve_decision. Defined.

(** ** Fallible code: a result type with stdpp's monad notations *)

Inductive result (A : Type) : Type :=
  | Ok (a : A)
  | Err (e : exn).
Arguments Ok {A} a.
Arguments Err {A} e.

Definition raise {A} (c : exn_class) (msg : string) : result A := Err (mkExn c msg).

#[export] Instance result_ret : MRet result := fun A => @Ok A.
#[export] Instance result_bind : MBind result :=
  fun A B k m => match m with Ok a => k a | Err e => Err e end.
#[export] Instance result_fmap : FMap result :=
  fun A B f m => match m with Ok a => Ok (f a) | Err e => Err e end.

Definition is_ok {A} (m : result A) : bool :=
  match m with Ok _ => true | Err _ => false end.

Fixpoint result_mapM {A B} (f : A -> result B) (l : list A) : result (list B) :=
  match l with
  | [] => Ok []
  | x :: l' => y ← f x; ys ← result_mapM f l'; Ok (y :: ys)
  end.

Lemma result_bind_ok {A B} (m : result A) (k : A -> result B) b :
  (m ≫= k) = Ok b <-> exists a, m = Ok a /\ k a = Ok b.
Proof.
  destruct m as [a|e]; unfold mbind, result_bind; split.
  - intros H. by exists a.
  - intros (a' & [= <-] & H). done.
  - discriminate.
  - intros (a' & H & _). discriminate.
Qed.

(** ** Stateful fallible code: the state survives an exception *)

Definition SE (S A : Type) : Type := S -> S * result A.

#[export] Instance se_ret S : MRet (SE S) := fun A a s => (s, Ok a).
#[export] Instance se_bind S : MBind (SE S) :=
  fun A B k m s => match m s with
                   | (s', Ok a) => k a s'
                   | (s', Err e) => (s', Err e)
                   end.

Definition se_get {S} : SE S S := fun s => (s, Ok s).
Definition se_put {S} (s' : S) : SE S unit := fun _ => (s', Ok tt).
Definition se_modify {S} (f : S -> S) : SE S unit := fun s => (f s, Ok tt).
Definition se_raise {S A} (c : exn_class) (msg : string) : SE S A :=
  fun s => (s, raise c msg).
Definition se_lift {S A} (m : result A) : SE S A := fun s => (s, m).

(** [try: m except Exception as exc: h exc] *)
Definition se_catch {S A} (m : SE S A) (h : exn -> SE S A) : SE S A :=
  fun s => match m s with
           | (s', Ok a) => (s', Ok a)
           | (s', Err e) => h e s'
           end.

Fixpoint se_iter {S A} (f : A -> SE S unit) (l : list A) : SE S unit :=
  match l with
  | [] => mret tt
  | x :: l' => _ ← f x; se_iter f l'
  end.

(** An invariant kept by every iteration, also by those that raise, is kept by
    the loop. *)
Lemma se_iter_inv {S A} (I : S -> Prop) (f : A -> SE S unit) l s :
  (forall x s', x ∈ l -> I s' -> I (f x s').1) -> I s -> I (se_iter f l s).1.
Proof.
  revert s. induction l as [|x l IH]; intros s Hf Hs; simpl; [done|].
  unfold mbind, se_bind.
  pose proof (Hf x s ltac:(set_solver) Hs) as H1.
  destruct (f x s) as [s1 [[]|e]]; simpl in *; [|done].
  apply IH; [|done]. intros; apply Hf; [set_solver|done].
Qed.

(** *** Weakest preconditions

    [wp m Q E s]: running [m] from [s] ends in [Q] with its value, or raises in
    a state that satisfies [E]. *)
Definition wp {S A} (m : SE S A) (Q : A -> S -> Prop) (E : S -> Prop) (s : S) : Prop :=
  match m s with
  | (s', Ok a) => Q a s'
  | (s', Err _) => E s'
  end.

Lemma wp_bind {S A B} (m : SE S A) (k : A -> SE S B) Q E s :
  wp m (fun a => wp (k a) Q E) E s -> wp (m ≫= k) Q E s.
Proof. unfold wp, mbind, se_bind. by destruct (m s) as [s' [a|e]]. Qed.

(** The same for the bind written out, which unification then matches first. *)
Lemma wp_seq {S A B} (m : SE S A) (k : A -> SE S B) Q E s :
  wp m (fun a => wp (k a) Q E) E s -> wp (se_bind S A B k m) Q E s.
Proof. apply wp_bind. Qed.

Lemma wp_mono {S A} (m : SE S A) (Q Q' : A -> S -> Prop) (E E' : S -> Prop) s :
  wp m Q E s -> (forall a s', Q a s' -> Q' a s') -> (forall s', E s' -> E' s') -> wp m Q' E' s.
Proof. unfold wp. destruct (m s) as [s' [a|e]]; auto. Qed.

Lemma wp_elim {S A} (m : SE S A) Q E s s' a : wp m Q E s -> m s = (s', Ok a) -> Q a s'.
Proof. unfold wp. intros H F. by rewrite F in H. Qed.

Lemma wp_iter {S A} (I : S -> Prop) (E : S -> Prop) (f : A -> SE S unit) l s :
  (forall x s', x ∈ l -> I s' -> wp (f x) (fun _ => I) E s') -> I s -> wp (se_iter f l) (fun _ => I) E s.
Proof.
  revert s. induction l as [|x l IH]; intros s Hf Hs; [done|].
  cbn [se_iter]. apply wp_bind. eapply wp_mono; [apply Hf; [by left|done]| |done].
  intros [] s1 H1. apply IH; [|done]. intros y s2 Hy. apply Hf. by right.
Qed.

Lemma wp_ret {S A} (a : A) Q E (s : S) : Q a s -> wp (se_ret S A a) Q E s.
Proof. done. Qed.
Lemma wp_get {S} Q E (s : S) : Q s s -> wp se_get Q E s.
Proof. done. Qed.
Lemma wp_modify {S} (f : S -> S) Q E s : Q tt (f s) -> wp (se_modify f) Q E s.
Proof. done. Qed.
Lemma wp_lift {S A} (r : result A) Q E (s : S) :
  (forall a, r = Ok a -> Q a s) -> (forall e, r = Err e -> E s) -> wp (se_lift r) Q E s.
Proof. unfold wp, se_lift. destruct r; eauto. Qed.

(** *** Frames and invariants

    [frame v m]: the operation [m] does not change the view [v] of the state,
    whether it returns or raises; [stable I m]: it keeps the invariant [I]. *)

Definition stable {S A} (I : S -> Prop) (m : SE S A) : Prop := forall s, I s -> I (m s).1.
Definition frame {S A V} (v : S -> V) (m : SE S A) : Prop := forall s, v (m s).1 = v s.

Section Generic.
Context {S : Type}.
Implicit Type I : S -> Prop.

Lemma stable_bind {A B} I (m : SE S A) (k : A -> SE S B) :
  stable I m -> (forall a, stable I (k a)) -> stable I (se_bind _ _ _ k m).
Proof.
  intros Hm Hk s Hs. unfold se_bind. specialize (Hm s Hs). destruct (m s) as [s' [a|e]]; simpl in *; [|done]. by apply Hk.
Qed.
Lemma stable_ret {A} I (a : A) : stable I (se_ret S A a).
Proof. intros s Hs. exact Hs. Qed.
Lemma stable_catch {A} I (m : SE S A) h : stable I m -> (forall e, stable I (h e)) -> stable I (se_catch m h).
Proof.
  intros Hm Hh s Hs. unfold se_catch. specialize (Hm s Hs). destruct (m s) as [s' [a|e]]; simpl in *; [done|]. by apply Hh.
Qed.
Lemma frame_stable {A V} (v : S -> V) (P : V -> Prop) (m : SE S A) : frame v m -> stable (fun s => P (v s)) m.
Proof. intros Hf s. by rewrite Hf. Qed.
Lemma stable_frame {A V} (v : S -> V) (m : SE S A) : (forall x, stable (fun s => v s = x) m) -> frame v m.
Proof. intros Hm s. by apply Hm. Qed.

Context {V : Type} (v : S -> V).
Lemma frame_bind {A B} (m : SE S A) (k : A -> SE S B) :
  frame v m -> (forall a, frame v (k a)) -> frame v (se_bind _ _ _ k m).
Proof.
  intros Hm Hk. apply stable_frame. intros x. apply stable_bind; [|intros a]; by apply (frame_stable v (fun y => y = x)).
Qed.
Lemma frame_ret {A} (a : A) : frame v (se_ret S A a).
Proof. done. Qed.
Lemma frame_catch {A} (m : SE S A) h : frame v m -> (forall e, frame v (h e)) -> frame v (se_catch m h).
Proof.
  intros Hm Hh. apply stable_frame. intros x. apply stable_catch; [|intros a]; by apply (frame_stable v (fun y => y = x)).
Qed.

Lemma stable_iter {A} I (f : A -> SE S unit) l : (forall x, x ∈ l -> stable I (f x)) -> stable I (se_iter f l).
Proof. intros Hf s Hs. apply se_iter_inv; [|done]. intros x s' Hx. by apply Hf. Qed.
Lemma frame_iter {A} (f : A -> SE S unit) l : (forall x, frame v (f x)) -> frame v (se_iter f l).
Proof.
  intros Hf. apply stable_frame. intros x. apply stable_iter. intros y _. by apply (frame_stable v (fun y => y = x)).
Qed.
Lemma frame_lift {A} (r : result A) : frame v (se_lift r).
Proof. done. Qed.
Lemma frame_get : frame v se_get.
Proof. done. Qed.
Lemma frame_modify f : (forall s, v (f s) = v s) -> frame v (se_modify f).
Proof. intros Hf s. apply Hf. Qed.
Lemma stable_lift {A} I (r : result A) : stable I (se_lift r).
Proof. intros s Hs. exact Hs. Qed.
Lemma stable_modify I f : (forall s, I s -> I (f s)) -> stable I (se_modify f).
Proof. intros Hf s. apply Hf. Qed.
Lemma stable_wp {A} I (m : SE S A) : stable I m <-> forall s, I s -> wp m (fun _ => I) I s.
Proof. unfold stable, wp. split; intros Hm s Hs; specialize (Hm s Hs); by destruct (m s) as [s' [a|e]]. Qed.
End Generic.

Create HintDb frames.
#[export] Hint Resolve frame_lift frame_get : frames.
