(* ===== verification/Rounding.v ===== *)
(** * Rounding: round-half-even arithmetic in an arbitrary radix

    Both numeric types of the program round every result: Python's [float]
    (IEEE 754 binary64: radix 2, 53 digits, smallest exponent -1074) and
    [decimal.Decimal] under the default context (radix 10, 28 digits).
    This file states rounding once, on rationals, for a radix [b], a
    precision [p] and an optional smallest exponent, and proves what the
    components need of it: it is monotone, odd, compatible with [==], exact
    on representable numbers, and never leaves a representable interval. *)

From Stdlib Require Import ZArith QArith Qabs Qpower Qround Lqa Lia Bool.

#[local] Open Scope Z_scope.

(** ** Nearest-even integer division *)

(** [rne n d] is the integer nearest to [n / d] (for [0 < d]), ties to even. *)
Definition rne (n d : Z) : Z :=
  let q := n / d in
  let r := n mod d in
  match 2 * r ?= d with
  | Lt => q
  | Gt => q + 1
  | Eq => if Z.even q then q else q + 1
  end.

Lemma rne_cases n d : 0 < d ->
  exists r, n = d * rne n d + r /\ - d <= 2 * r <= d /\
    (2 * r = d -> Z.even (rne n d) = true) /\
    (2 * r = - d -> Z.even (rne n d) = true).
Proof.
  intros Hd. unfold rne.
  pose proof (Z.div_mod n d ltac:(lia)) as E.
  pose proof (Z.mod_pos_bound n d Hd) as B.
  destruct (Z.compare_spec (2 * (n mod d)) d) as [C|C|C].
  - destruct (Z.even (n / d)) eqn:Ev.
    + exists (n mod d). repeat split; try lia. auto.
    + exists (n mod d - d). repeat split; try lia; try nia.
      intros _. rewrite Z.add_1_r, Z.even_succ, <- Z.negb_even, Ev. reflexivity.
  - exists (n mod d). repeat split; try lia.
  - exists (n mod d - d). repeat split; try lia; try nia.
Qed.

Lemma rne_mono n1 d1 n2 d2 :
  0 < d1 -> 0 < d2 -> n1 * d2 <= n2 * d1 -> rne n1 d1 <= rne n2 d2.
Proof.
  intros H1 H2 Hle.
  destruct (rne_cases n1 d1 H1) as (r1 & E1 & B1 & T1 & T1').
  destruct (rne_cases n2 d2 H2) as (r2 & E2 & B2 & T2 & T2').
  set (a := rne n1 d1) in *. set (b := rne n2 d2) in *. clearbody a b.
  destruct (Z_le_gt_dec a b) as [|G]; [assumption | exfalso].
  (* a >= b + 1 forces both remainders onto the tie *)
  assert (D : (a - b) * (d1 * d2) <= r2 * d1 - r1 * d2) by nia.
  assert (D' : 2 * (r2 * d1 - r1 * d2) <= 2 * (d1 * d2)) by nia.
  assert (P : 0 < d1 * d2) by nia.
  assert (a = b + 1) by nia. subst a.
  assert (2 * r2 = d2) by nia.
  assert (2 * r1 = - d1) by nia.
  specialize (T2 ltac:(assumption)). specialize (T1' ltac:(assumption)).
  rewrite Z.add_1_r, Z.even_succ, <- Z.negb_even, T2 in T1'. discriminate.
Qed.

Lemma rne_exact k d : 0 < d -> rne (k * d) d = k.
Proof.
  intros Hd. unfold rne. rewrite Z.div_mul, Z.mod_mul by lia.
  destruct (Z.compare_spec (2 * 0) d); lia.
Qed.

Lemma rne_opp n d : 0 < d -> rne (- n) d = - rne n d.
Proof.
  intros Hd.
  destruct (rne_cases n d Hd) as (r & E & B & T & T').
  destruct (rne_cases (- n) d Hd) as (s & E2 & B2 & T2 & T2').
  set (a := rne n d) in *. set (b := rne (- n) d) in *. clearbody a b.
  assert (C : (a + b) * d = - (r + s)) by lia.
  assert (b = - a \/ a + b = 1 \/ a + b = -1) as [|[S|S]] by nia; [assumption| |].
  - assert (2 * r = - d) by nia. assert (2 * s = - d) by nia.
    assert (b = 1 - a) as -> by lia. specialize (T2' ltac:(assumption)).
    rewrite Z.even_sub, (T' ltac:(assumption)) in T2'. discriminate.
  - assert (2 * r = d) by nia. assert (2 * s = d) by nia.
    assert (b = - (1) - a) as -> by lia. specialize (T2 ltac:(assumption)).
    rewrite Z.even_sub, (T ltac:(assumption)) in T2. discriminate.
Qed.

Lemma rne_error n d : 0 < d -> 2 * Z.abs (rne n d * d - n) <= d.
Proof.
  intros Hd. destruct (rne_cases n d Hd) as (r & E & B & _). nia.
Qed.

#[local] Open Scope Q_scope.

(** Nearest-even rounding of a rational. *)
Definition Qrne (q : Q) : Z := rne (Qnum q) (QDen q).

Lemma Qrne_mono x y : x <= y -> (Qrne x <= Qrne y)%Z.
Proof. unfold Qle. intros H. apply rne_mono; lia. Qed.

#[export] Instance Qrne_proper : Proper (Qeq ==> eq) Qrne.
Proof.
  intros x y E. apply Z.le_antisymm; apply Qrne_mono; rewrite E; apply Qle_refl.
Qed.

Lemma Qrne_inject k : Qrne (inject_Z k) = k.
Proof.
  unfold Qrne. simpl. rewrite <- (Z.mul_1_r k) at 1. now apply rne_exact.
Qed.

Lemma Qrne_opp x : Qrne (- x) = (- Qrne x)%Z.
Proof. unfold Qrne. simpl. now apply rne_opp. Qed.

Lemma Qrne_error x : Qabs (inject_Z (Qrne x) - x) <= 1 # 2.
Proof.
  destruct x as [n d]. unfold Qrne. simpl.
  pose proof (rne_error n (Z.pos d) ltac:(lia)) as E.
  unfold Qle, Qabs, Qminus, Qplus, inject_Z, Qopp. simpl. lia.
Qed.

(** ** Floor logarithm in a radix *)

Section Radix.
Context (b : Z) (Hb : (2 <= b)%Z).

(** Number of radix-[b] digits of [n], less one, by repeated multiplication;
    [fuel = log2 n + 1] suffices since [b >= 2]. *)
Fixpoint ilog_loop (fuel : nat) (n acc : Z) (k : Z) : Z :=
  match fuel with
  | O => k
  | S f => if (n <? acc * b)%Z then k else ilog_loop f n (acc * b)%Z (k + 1)%Z
  end.

Definition ilog (n : Z) : Z := ilog_loop (S (Z.to_nat (Z.log2 n))) n 1%Z 0%Z.

Lemma ilog_loop_spec fuel n k :
  (0 <= k)%Z -> (b ^ k <= n)%Z -> (n < b ^ (k + Z.of_nat fuel))%Z ->
  let r := ilog_loop fuel n (b ^ k)%Z k in
  (k <= r)%Z /\ (b ^ r <= n < b ^ (r + 1))%Z.
Proof.
  revert k. induction fuel as [|f IH]; intros k Hk Hlo Hhi.
  - rewrite Z.add_0_r in Hhi. lia.
  - simpl. replace (b ^ k * b)%Z with (b ^ (k + 1))%Z
      by (rewrite Z.pow_add_r, Z.pow_1_r; lia).
    destruct (Z.ltb_spec n (b ^ (k + 1))%Z); [lia|].
    specialize (IH (k + 1)%Z). destruct IH as [IH1 IH2]; try lia.
    replace (k + 1 + Z.of_nat f)%Z with (k + Z.of_nat (S f))%Z by lia. assumption.
Qed.

Lemma ilog_spec n : (0 < n)%Z -> (0 <= ilog n)%Z /\ (b ^ ilog n <= n < b ^ (ilog n + 1))%Z.
Proof.
  intros Hn. unfold ilog.
  apply (ilog_loop_spec (S (Z.to_nat (Z.log2 n))) n 0); [lia | simpl; lia |].
  pose proof (Z.log2_spec n Hn) as [_ U]. pose proof (Z.log2_nonneg n).
  replace (0 + Z.of_nat (S (Z.to_nat (Z.log2 n))))%Z with (Z.succ (Z.log2 n)) by lia.
  eapply Z.lt_le_trans; [exact U|]. apply Z.pow_le_mono_l. lia.
Qed.

(** Powers of the radix as rationals. *)
Definition bpow (e : Z) : Q := inject_Z b ^ e.

Lemma radix_gt_1 : 1 < inject_Z b.
Proof. change 1 with (inject_Z 1). rewrite <- Zlt_Qlt. lia. Qed.

Lemma bpow_pos e : 0 < bpow e.
Proof. apply Qpower_0_lt. pose proof radix_gt_1. lra. Qed.

Lemma bpow_nz e : ~ bpow e == 0.
Proof. pose proof (bpow_pos e). lra. Qed.

Lemma bpow_add x y : bpow (x + y) == bpow x * bpow y.
Proof. apply Qpower_plus. pose proof radix_gt_1. lra. Qed.

Lemma bpow_le x y : (x <= y)%Z -> bpow x <= bpow y.
Proof. intros. apply Qpower_le_compat_l; [assumption|]. pose proof radix_gt_1. lra. Qed.

Lemma bpow_lt x y : (x < y)%Z -> bpow x < bpow y.
Proof. intros. apply Qpower_lt_compat_l; [assumption|]. apply radix_gt_1. Qed.

Lemma bpow_lt_inv x y : bpow x < bpow y -> (x < y)%Z.
Proof. intros H. eapply Qpower_lt_compat_l_inv; [exact H|]. apply radix_gt_1. Qed.

Lemma bpow_inject n : (0 <= n)%Z -> bpow n == inject_Z (b ^ n).
Proof. intros. unfold bpow. symmetry. now apply Zpower_Qpower. Qed.

(** [qlog q] is the floor of the radix-[b] logarithm of [Qabs q]. *)
Definition qlog (q : Q) : Z :=
  let n := Z.abs (Qnum q) in
  let d := QDen q in
  let k := (ilog n - ilog d)%Z in
  if Qle_bool (bpow k) (Qabs q) then k else (k - 1)%Z.

Lemma ilog_inject n : (0 < n)%Z ->
  bpow (ilog n) <= inject_Z n /\ inject_Z n < bpow (ilog n + 1).
Proof.
  intros Hn. destruct (ilog_spec n Hn) as [H0 [H1 H2]].
  rewrite !bpow_inject by lia. rewrite <- Zle_Qle, <- Zlt_Qlt. lia.
Qed.

Lemma qlog_spec q : ~ q == 0 -> bpow (qlog q) <= Qabs q /\ Qabs q < bpow (qlog q + 1).
Proof.
  intros Hq.
  assert (Hn : (0 < Z.abs (Qnum q))%Z).
  { destruct q as [n d]. unfold Qeq in Hq. simpl in *. lia. }
  destruct (ilog_inject _ Hn) as [N1 N2].
  destruct (ilog_inject (QDen q) ltac:(lia)) as [D1 D2].
  set (a := ilog (Z.abs (Qnum q))) in *. set (c := ilog (QDen q)) in *.
  assert (Dp : 0 < inject_Z (QDen q)).
  { change 0 with (inject_Z 0). rewrite <- Zlt_Qlt. lia. }
  assert (E : Qabs q * inject_Z (QDen q) == inject_Z (Z.abs (Qnum q))).
  { destruct q as [n d]. unfold Qabs, Qeq, inject_Z. simpl. lia. }
  unfold qlog. fold a c.
  destruct (Qle_bool (bpow (a - c)) (Qabs q)) eqn:L.
  - apply Qle_bool_iff in L. split; [assumption|].
    apply Qmult_lt_r with (inject_Z (QDen q)); [assumption|]. rewrite E.
    replace (a + 1)%Z with (a - c + 1 + c)%Z in N2 by lia.
    rewrite bpow_add in N2. pose proof (bpow_pos (a - c + 1)). nra.
  - assert (L' : Qabs q < bpow (a - c)).
    { apply Qnot_le_lt. rewrite <- Qle_bool_iff. congruence. }
    replace (a - c - 1 + 1)%Z with (a - c)%Z by lia. split; [|assumption].
    apply Qlt_le_weak. apply Qmult_lt_r with (inject_Z (QDen q)); [assumption|].
    rewrite E. replace a with (a - c - 1 + (c + 1))%Z in N1 by lia.
    rewrite bpow_add in N1. pose proof (bpow_pos (a - c - 1)). nra.
Qed.

Lemma qlog_unique q k : bpow k <= Qabs q -> Qabs q < bpow (k + 1) -> qlog q = k.
Proof.
  intros L U.
  assert (Hq : ~ q == 0).
  { intros E. rewrite E in L. pose proof (bpow_pos k). change (Qabs 0) with 0 in L. lra. }
  destruct (qlog_spec q Hq) as [L' U'].
  assert (k < qlog q + 1)%Z by (apply bpow_lt_inv; lra).
  assert (qlog q < k + 1)%Z by (apply bpow_lt_inv; lra).
  lia.
Qed.

Lemma qlog_mono x y : ~ x == 0 -> Qabs x <= Qabs y -> (qlog x <= qlog y)%Z.
Proof.
  intros Hx Hle. destruct (qlog_spec x Hx) as [L _].
  assert (Hy : ~ y == 0).
  { intros E. rewrite E in Hle. change (Qabs 0) with 0 in Hle.
    pose proof (bpow_pos (qlog x)). lra. }
  destruct (qlog_spec y Hy) as [_ U].
  enough (qlog x < qlog y + 1)%Z by lia. apply bpow_lt_inv. lra.
Qed.

Lemma qlog_eq x y : ~ x == 0 -> x == y -> qlog x = qlog y.
Proof.
  intros Hx E. apply Z.le_antisymm; apply qlog_mono.
  - assumption.
  - rewrite E. apply Qle_refl.
  - now rewrite <- E.
  - rewrite E. apply Qle_refl.
Qed.

Lemma qlog_opp x : ~ x == 0 -> qlog (- x) = qlog x.
Proof.
  intros Hx. destruct (qlog_spec x Hx). apply qlog_unique; rewrite Qabs_opp; assumption.
Qed.

(** ** Rounding to [p] digits *)

Context (p : Z) (Hp : (1 <= p)%Z) (emin : option Z).

Definition fexp (l : Z) : Z :=
  match emin with
  | Some m => Z.max m (l + 1 - p)
  | None => (l + 1 - p)%Z
  end.

Lemma fexp_mono x y : (x <= y)%Z -> (fexp x <= fexp y)%Z.
Proof. unfold fexp. destruct emin; lia. Qed.

(** The unit in the last place used for [q]. *)
Definition cexp (q : Q) : Z := fexp (qlog q).

(** [round q] is the nearest representable number, ties to even digit. *)
Definition round (q : Q) : Q :=
  if Qeq_bool q 0 then 0
  else let e := cexp q in Qred (inject_Z (Qrne (q / bpow e)) * bpow e).

Lemma round_0 q : q == 0 -> round q = 0.
Proof. intros E. unfold round. apply Qeq_bool_iff in E. now rewrite E. Qed.

Lemma round_nz q : ~ q == 0 -> round q == inject_Z (Qrne (q / bpow (cexp q))) * bpow (cexp q).
Proof.
  intros E. unfold round. destruct (Qeq_bool q 0) eqn:B.
  - apply Qeq_bool_iff in B. contradiction.
  - apply Qred_correct.
Qed.

Lemma round_eq x y : x == y -> round x = round y.
Proof.
  intros E. unfold round. destruct (Qeq_bool x 0) eqn:B.
  - apply Qeq_bool_iff in B. rewrite E in B. apply Qeq_bool_iff in B. now rewrite B.
  - destruct (Qeq_bool y 0) eqn:B'.
    + apply Qeq_bool_iff in B'. rewrite <- E in B'. apply Qeq_bool_iff in B'. congruence.
    + apply Qred_complete. apply Qeq_bool_neq in B. unfold cexp.
      rewrite (qlog_eq x y B E), E. reflexivity.
Qed.

#[export] Instance round_proper : Proper (Qeq ==> Qeq) round.
Proof. intros x y E. now rewrite (round_eq x y E). Qed.

Lemma round_opp q : round (- q) == - round q.
Proof.
  destruct (Qeq_dec q 0) as [Z|Z].
  - rewrite !round_0; [reflexivity | assumption | rewrite Z; reflexivity].
  - assert (Z' : ~ - q == 0) by lra.
    rewrite (round_nz _ Z), (round_nz _ Z'). unfold cexp. rewrite (qlog_opp _ Z).
    assert (E : - q / bpow (fexp (qlog q)) == - (q / bpow (fexp (qlog q)))).
    { field. apply bpow_nz. }
    rewrite E, Qrne_opp, inject_Z_opp. ring.
Qed.

(** A multiple of the unit [bpow e] rounds, at that unit, to itself. *)
Lemma Qrne_bpow_le q e k : q <= inject_Z k * bpow e -> (Qrne (q / bpow e) <= k)%Z.
Proof.
  intros H. rewrite <- (Qrne_inject k). apply Qrne_mono.
  apply Qle_shift_div_r; [apply bpow_pos|]. assumption.
Qed.

Lemma Qrne_bpow_ge q e k : inject_Z k * bpow e <= q -> (k <= Qrne (q / bpow e))%Z.
Proof.
  intros H. rewrite <- (Qrne_inject k). apply Qrne_mono.
  apply Qle_shift_div_l; [apply bpow_pos|]. assumption.
Qed.

(** [z] is a multiple of the unit [bpow e]. *)
Definition multiple (e : Z) (z : Q) : Prop := exists k, z == inject_Z k * bpow e.

Lemma multiple_bpow e m : (e <= m)%Z -> multiple e (bpow m).
Proof.
  intros H. exists (b ^ (m - e))%Z. rewrite <- bpow_inject by lia.
  rewrite <- bpow_add. now replace (m - e + e)%Z with m by lia.
Qed.

Lemma multiple_scale e e' m : (e <= e')%Z -> multiple e (inject_Z m * bpow e').
Proof.
  intros H. destruct (multiple_bpow e e' H) as [k E]. exists (m * k)%Z.
  rewrite E, inject_Z_mult. ring.
Qed.

Lemma round_le_multiple q z : ~ q == 0 -> multiple (cexp q) z -> q <= z -> round q <= z.
Proof.
  intros Hq [k E] H. rewrite round_nz by assumption. rewrite E in H |- *.
  apply Qmult_le_compat_r; [|apply Qlt_le_weak, bpow_pos].
  rewrite <- Zle_Qle. now apply Qrne_bpow_le.
Qed.

Lemma round_ge_multiple q z : ~ q == 0 -> multiple (cexp q) z -> z <= q -> z <= round q.
Proof.
  intros Hq [k E] H. rewrite round_nz by assumption. rewrite E in H |- *.
  apply Qmult_le_compat_r; [|apply Qlt_le_weak, bpow_pos].
  rewrite <- Zle_Qle. now apply Qrne_bpow_ge.
Qed.

Lemma fexp_le_log x y : (fexp x < fexp y)%Z -> (fexp x <= y)%Z /\ (fexp y <= y)%Z.
Proof. unfold fexp. destruct emin; lia. Qed.

Lemma round_mono_pos x y : 0 < x -> x <= y -> round x <= round y.
Proof.
  intros Hx Hxy.
  assert (Zx : ~ x == 0) by lra. assert (Zy : ~ y == 0) by lra.
  assert (L : (qlog x <= qlog y)%Z).
  { apply qlog_mono; [assumption|]. rewrite !Qabs_pos by lra. assumption. }
  destruct (Z.eq_dec (cexp x) (cexp y)) as [E|E].
  - rewrite (round_nz x Zx), (round_nz y Zy), E.
    apply Qmult_le_compat_r; [|apply Qlt_le_weak, bpow_pos].
    rewrite <- Zle_Qle. apply Qrne_mono.
    apply Qmult_le_compat_r; [assumption|]. apply Qlt_le_weak, Qinv_lt_0_compat, bpow_pos.
  - assert (F : (cexp x < cexp y)%Z) by (pose proof (fexp_mono _ _ L); unfold cexp in *; lia).
    destruct (fexp_le_log _ _ F) as [F1 F2].
    destruct (qlog_spec y Zy) as [Ly _]. rewrite Qabs_pos in Ly by lra.
    destruct (qlog_spec x Zx) as [_ Ux]. rewrite Qabs_pos in Ux by lra.
    assert (qlog x < qlog y)%Z.
    { destruct (Z.eq_dec (qlog x) (qlog y)) as [G|G]; [|lia].
      unfold cexp in E. rewrite G in E. contradiction. }
    apply Qle_trans with (bpow (qlog y)).
    + apply round_le_multiple; [assumption | now apply multiple_bpow |].
      pose proof (bpow_le (qlog x + 1) (qlog y) ltac:(lia)). lra.
    + apply round_ge_multiple; [assumption | now apply multiple_bpow | assumption].
Qed.

Lemma round_nonneg x : 0 <= x -> 0 <= round x.
Proof.
  intros Hx. destruct (Qeq_dec x 0) as [Z|Z]; [rewrite round_0 by assumption; lra|].
  apply round_ge_multiple; [assumption | exists 0%Z; symmetry; apply Qmult_0_l | assumption].
Qed.

Lemma round_mono x y : x <= y -> round x <= round y.
Proof.
  intros H. destruct (Qlt_le_dec 0 x) as [Hx|Hx].
  - now apply round_mono_pos.
  - destruct (Qlt_le_dec y 0) as [Hy|Hy].
    + pose proof (round_mono_pos (- y) (- x) ltac:(lra) ltac:(lra)) as R.
      rewrite !round_opp in R. lra.
    + pose proof (round_nonneg (- x) ltac:(lra)) as R1. rewrite round_opp in R1.
      pose proof (round_nonneg y Hy). lra.
Qed.

Lemma round_nonpos x : x <= 0 -> round x <= 0.
Proof. intros H. pose proof (round_nonneg (- x) ltac:(lra)) as R. rewrite round_opp in R. lra. Qed.

(** Numbers with at most [p] digits at an admissible exponent. *)
Definition repr (q : Q) : Prop :=
  exists m e, q == inject_Z m * bpow e /\ (Z.abs m < b ^ p)%Z /\
    match emin with Some x => (x <= e)%Z | None => True end.

Lemma repr_cexp_le m e :
  (m <> 0)%Z -> (Z.abs m < b ^ p)%Z -> (match emin with Some x => (x <= e)%Z | None => True end) ->
  (cexp (inject_Z m * bpow e) <= e)%Z.
Proof.
  intros Hm Hlt He. set (q := inject_Z m * bpow e).
  assert (Hq : ~ q == 0).
  { unfold q. intros E. apply Qmult_integral in E as [E|E].
    - unfold Qeq in E. simpl in E. lia.
    - now apply bpow_nz in E. }
  destruct (qlog_spec q Hq) as [L _].
  assert (A : Qabs q == inject_Z (Z.abs m) * bpow e).
  { unfold q. rewrite Qabs_Qmult, (Qabs_pos (bpow e)) by (apply Qlt_le_weak, bpow_pos).
    reflexivity. }
  assert (U : Qabs q < bpow (p + e)).
  { rewrite A, bpow_add. apply Qmult_lt_r; [apply bpow_pos|].
    rewrite bpow_inject by lia. rewrite <- Zlt_Qlt. assumption. }
  assert (qlog q < p + e)%Z by (apply bpow_lt_inv; lra).
  unfold cexp, fexp. destruct emin; lia.
Qed.

Lemma round_repr q : repr q -> round q == q.
Proof.
  intros (m & e & E & Hm & He).
  destruct (Z.eq_dec m 0) as [->|Hm0].
  - assert (q == 0) as Z by (rewrite E; ring). now rewrite round_0, Z by assumption.
  - assert (Hq : ~ q == 0).
    { rewrite E. intros X. apply Qmult_integral in X as [X|X].
      - unfold Qeq in X. simpl in X. lia.
      - now apply bpow_nz in X. }
    assert (C : (cexp q <= e)%Z).
    { unfold cexp. rewrite (qlog_eq _ _ Hq E). now apply repr_cexp_le. }
    destruct (multiple_scale (cexp q) e m C) as [k K].
    assert (M : multiple (cexp q) q) by (exists k; now rewrite E at 1).
    apply Qle_antisym; [apply round_le_multiple | apply round_ge_multiple];
      (assumption || apply Qle_refl).
Qed.

(** Rounding never crosses a representable number. *)
Lemma round_le_repr x z : repr z -> x <= z -> round x <= z.
Proof. intros R H. rewrite <- (round_repr z R). now apply round_mono. Qed.

Lemma round_ge_repr x z : repr z -> z <= x -> z <= round x.
Proof. intros R H. rewrite <- (round_repr z R). now apply round_mono. Qed.

Lemma repr_opp q : repr q -> repr (- q).
Proof.
  intros (m & e & E & Hm & He). exists (- m)%Z, e. split; [|split; [lia|assumption]].
  rewrite E, inject_Z_opp. ring.
Qed.

Lemma round_abs_le x z : repr z -> Qabs x <= z -> Qabs (round x) <= z.
Proof.
  intros R H. apply Qabs_Qle_condition in H as [H1 H2]. apply Qabs_Qle_condition. split.
  - apply round_ge_repr; [now apply repr_opp | assumption].
  - now apply round_le_repr.
Qed.

Lemma Qrne_abs_le q k : Qabs q <= inject_Z k -> (Z.abs (Qrne q) <= k)%Z.
Proof.
  intros H. apply Qabs_Qle_condition in H as [H1 H2].
  apply Qrne_mono in H1, H2. rewrite Qrne_inject in H2.
  rewrite Qrne_opp, Qrne_inject in H1. lia.
Qed.

(** Every result of [round] is representable. *)
Lemma repr_round q : repr (round q).
Proof.
  destruct (Qeq_dec q 0) as [Z|Z].
  { exists 0%Z, (match emin with Some x => x | None => 0%Z end).
    rewrite round_0 by assumption. repeat split; [|destruct emin; lia].
    change (Z.abs 0) with 0%Z. apply Z.pow_pos_nonneg; lia. }
  assert (Hm : (Z.abs (Qrne (q / bpow (cexp q))) <= b ^ p)%Z).
  { apply Qrne_abs_le. unfold Qdiv. rewrite Qabs_Qmult.
    rewrite (Qabs_pos (/ _)) by (apply Qlt_le_weak, Qinv_lt_0_compat, bpow_pos).
    apply Qle_shift_div_r; [apply bpow_pos|]. rewrite <- bpow_inject by lia.
    rewrite <- bpow_add. destruct (qlog_spec q Z) as [_ U].
    apply Qle_trans with (bpow (qlog q + 1)); [lra|].
    apply bpow_le. unfold cexp, fexp. destruct emin; lia. }
  assert (He : match emin with Some x => (x <= cexp q)%Z | None => True end).
  { unfold cexp, fexp. destruct emin; lia. }
  pose proof (round_nz q Z) as E.
  set (m := Qrne (q / bpow (cexp q))) in *. clearbody m.
  destruct (Z.eq_dec (Z.abs m) (b ^ p)) as [X|X].
  - exists (Z.sgn m), (cexp q + p)%Z. split; [|split].
    + rewrite E, bpow_add, (bpow_inject p) by lia. rewrite <- X.
      rewrite <- (Z.abs_sgn m) at 1. rewrite inject_Z_mult. ring.
    + assert (1 < b ^ p)%Z by (apply Z.pow_gt_1; lia). lia.
    + destruct emin; lia.
  - exists m, (cexp q). repeat split; [assumption | lia | assumption].
Qed.

End Radix.
