(* ===== verification/PyFloat.v ===== *)
(** * PyFloat: Python's [float]

    IEEE 754 binary64 by value: a finite number is the rational it denotes,
    every operation is the exact operation followed by round-half-even to 53
    bits (subnormals included), overflow gives an infinity, and comparisons
    with NaN are false. The sign of zero is not represented: no modelled code
    observes it. [fdiv] is only used where the code's divisor is not zero;
    [fdiv_chk] raises [ZeroDivisionError] as Python does. *)

From S2P Require Import Prelude Rounding.

#[local] Open Scope Q_scope.

Inductive float : Type :=
  | Fin (q : Q)
  | Inf (neg : bool)
  | NaN.

Definition round64 : Q -> Q := round 2 53 (Some (-1074)%Z).
Definition repr64 : Q -> Prop := repr 2 53 (Some (-1074)%Z).
Definition two1024 : Q := inject_Z (2 ^ 1024).

(** Round an exact value, with overflow to infinity. *)
Definition of_Q (q : Q) : float :=
  let r := round64 q in
  if Qle_bool two1024 (Qabs r) then Inf (negb (Qle_bool 0 r)) else Fin r.

Definition of_Z (z : Z) : float := of_Q (inject_Z z).

(** A decimal literal such as [0.05] is the float nearest to [5 / 100]. *)
Definition flit (n : Z) (d : positive) : float := of_Q (n # d).

Definition qneg (q : Q) : bool := negb (Qle_bool 0 q).

Definition fneg (x : float) : float :=
  match x with Fin q => Fin (Qred (- q)) | Inf s => Inf (negb s) | NaN => NaN end.

Definition fabs (x : float) : float :=
  match x with Fin q => Fin (Qabs q) | Inf _ => Inf false | NaN => NaN end.

Definition fadd (x y : float) : float :=
  match x, y with
  | NaN, _ | _, NaN => NaN
  | Fin a, Fin b => of_Q (a + b)
  | Inf s, Inf t => if Bool.eqb s t then Inf s else NaN
  | Inf s, Fin _ | Fin _, Inf s => Inf s
  end.

Definition fsub (x y : float) : float := fadd x (fneg y).

Definition fmul (x y : float) : float :=
  match x, y with
  | NaN, _ | _, NaN => NaN
  | Fin a, Fin b => of_Q (a * b)
  | Inf s, Inf t => Inf (xorb s t)
  | Inf s, Fin a | Fin a, Inf s => if Qeq_bool a 0 then NaN else Inf (xorb s (qneg a))
  end.

Definition fdiv (x y : float) : float :=
  match x, y with
  | NaN, _ | _, NaN => NaN
  | Fin a, Fin b => of_Q (a / b)
  | Inf _, Inf _ => NaN
  | Inf s, Fin b => Inf (xorb s (qneg b))
  | Fin _, Inf _ => Fin 0
  end.

(** Comparisons: false as soon as one side is NaN. *)
Definition flt (x y : float) : bool :=
  match x, y with
  | NaN, _ | _, NaN => false
  | Fin a, Fin b => negb (Qle_bool b a)
  | Inf s, Inf t => s && negb t
  | Inf s, Fin _ => s
  | Fin _, Inf t => negb t
  end.

Definition fle (x y : float) : bool :=
  match x, y with
  | NaN, _ | _, NaN => false
  | Fin a, Fin b => Qle_bool a b
  | Inf s, Inf t => s || negb t
  | Inf s, Fin _ => s
  | Fin _, Inf t => negb t
  end.

Definition feq (x y : float) : bool :=
  match x, y with
  | NaN, _ | _, NaN => false
  | Fin a, Fin b => Qeq_bool a b
  | Inf s, Inf t => Bool.eqb s t
  | _, _ => false
  end.

Definition fgt (x y : float) : bool := flt y x.
Definition fge (x y : float) : bool := fle y x.

(** [x / y] with Python's check. *)
Definition fdiv_chk (x y : float) : result float :=
  if feq y (Fin 0) then raise ZeroDivisionError "float division by zero" else Ok (fdiv x y).

(** [x // y], as CPython computes it: the remainder is exact, and the quotient
    is snapped to the nearest integer below. *)
Definition ffloordiv (x y : float) : result float :=
  if feq y (Fin 0) then raise ZeroDivisionError "float floor division by zero" else
  match x, y with
  | Fin a, Fin b =>
      let t := Z.quot (Qnum (Qred (a / b))) (QDen (Qred (a / b))) in
      let m := Qred (a - b * inject_Z t) in
      let div := fdiv (fsub x (Fin m)) y in
      let div := if negb (Qeq_bool m 0) && negb (Bool.eqb (qneg b) (qneg m)) then fsub div (Fin 1) else div in
      match div with
      | Fin d => let f := inject_Z (Qfloor d) in
                 Ok (if negb (Qle_bool (d - f) (1 # 2)) then fadd (Fin f) (Fin 1) else Fin f)
      | _ => Ok div
      end
  | Fin a, Inf s => Ok (if Qeq_bool a 0 || Bool.eqb (qneg a) s then Fin 0 else Fin (-1))
  | _, _ => Ok NaN
  end.

(** Builtin [min] and [max] of two values: the first argument unless the second
    is strictly better, so a NaN second argument is ignored. *)
Definition fmin (x y : float) : float := if flt y x then y else x.
Definition fmax (x y : float) : float := if flt x y then y else x.

(** [min]/[max] over a non-empty iterable. *)
Definition fmin_list (x : float) (l : list float) : float := foldl fmin x l.
Definition fmax_list (x : float) (l : list float) : float := foldl fmax x l.

(** Builtin [round(x, n)]: the exact value rounded half-even to [n] decimals,
    then to the nearest float. *)
Definition fround (n : Z) (x : float) : float :=
  match x with
  | Fin q => of_Q (inject_Z (Qrne (q * inject_Z (10 ^ n))) / inject_Z (10 ^ n))
  | _ => x
  end.

(** Builtin [sum] over floats, as CPython 3.12 computes it: a running sum with
    a compensation term (Neumaier), added at the end when it is finite and not
    zero. The first element is added to the integer 0. *)
Definition fsum_step (st : float * float) (x : float) : float * float :=
  let '(s, c) := st in
  let t := fadd s x in
  let c' := if fge (fabs s) (fabs x)
            then fadd c (fadd (fsub s t) x)
            else fadd c (fadd (fsub x t) s) in
  (t, c').

Definition fsum (l : list float) : float :=
  match l with
  | [] => Fin 0
  | x :: l' =>
      let '(s, c) := foldl fsum_step (x, Fin 0) l' in
      match c with
      | Fin q => if Qeq_bool q 0 then s else fadd s c
      | _ => s
      end
  end.

Definition is_fin (x : float) : bool := match x with Fin _ => true | _ => false end.
Definition fval (x : float) : Q := match x with Fin q => q | _ => 0 end.

(** ** Laws *)

#[export] Instance round64_proper : Proper (Qeq ==> Qeq) round64.
Proof. apply round_proper. lia. Qed.

Lemma round64_mono x y : x <= y -> round64 x <= round64 y.
Proof. apply round_mono; lia. Qed.

Lemma round64_opp x : round64 (- x) == - round64 x.
Proof. apply round_opp. lia. Qed.

Lemma round64_repr x : repr64 x -> round64 x == x.
Proof. apply round_repr; lia. Qed.

Lemma round64_abs_le x z : repr64 z -> Qabs x <= z -> Qabs (round64 x) <= z.
Proof. apply round_abs_le; lia. Qed.

Lemma round64_nonneg x : 0 <= x -> 0 <= round64 x.
Proof. apply round_nonneg; lia. Qed.

Lemma round64_nonpos x : x <= 0 -> round64 x <= 0.
Proof. apply round_nonpos; lia. Qed.

Lemma repr64_Z z : (Z.abs z < 2 ^ 53)%Z -> repr64 (inject_Z z).
Proof.
  intros H. exists z, 0%Z. split; [|split; [assumption|lia]].
  unfold bpow. simpl. ring.
Qed.

Lemma repr64_pow2 e : (-1074 <= e)%Z -> repr64 (inject_Z 2 ^ e).
Proof. intros H. exists 1%Z, e. split; [unfold bpow; ring|]. split; [lia|assumption]. Qed.

(** *** Order *)

Definition not_nan (x : float) : Prop := x <> NaN.

(** Reflect the boolean tests on rationals and case on the float shapes. *)
Ltac fcase :=
  repeat match goal with
         | x : float |- _ => destruct x as [? | [] |]
         end; simpl in *; try done.

Ltac qhyp :=
  repeat match goal with
         | H : Qle_bool _ _ = true |- _ => apply Qle_bool_iff in H
         | H : negb _ = true |- _ => apply negb_true_iff in H
         | H : negb _ = false |- _ => apply negb_false_iff in H
         | H : Qle_bool ?a ?b = false |- _ =>
             assert (b < a) by (apply Qnot_le_lt; rewrite <- Qle_bool_iff, H; discriminate);
             clear H
         | H : Qeq_bool _ _ = true |- _ => apply Qeq_bool_iff in H
         | H : Qeq_bool _ _ = false |- _ => apply Qeq_bool_neq in H
         end.

Ltac qbool :=
  qhyp;
  repeat match goal with
         | |- Qle_bool _ _ = true => apply Qle_bool_iff
         | |- negb (Qle_bool _ _) = true => apply negb_true_iff
         | |- Qle_bool ?a ?b = false =>
             apply not_true_is_false; rewrite Qle_bool_iff; apply Qlt_not_le
         end.

Lemma fle_refl x : x <> NaN -> fle x x = true.
Proof. intros. fcase. qbool. apply Qle_refl. Qed.

Lemma fle_trans x y z : fle x y = true -> fle y z = true -> fle x z = true.
Proof. intros. fcase. qbool. lra. Qed.

Lemma flt_trans x y z : flt x y = true -> flt y z = true -> flt x z = true.
Proof. intros. fcase. qbool. lra. Qed.

Lemma flt_fle_trans x y z : flt x y = true -> fle y z = true -> flt x z = true.
Proof. intros. fcase. qbool. lra. Qed.

Lemma fle_flt_trans x y z : fle x y = true -> flt y z = true -> flt x z = true.
Proof. intros. fcase. qbool. lra. Qed.

Lemma flt_fle x y : flt x y = true -> fle x y = true.
Proof. intros. fcase. qbool. lra. Qed.

Lemma flt_irrefl x : flt x x = false.
Proof. fcase. rewrite negb_false_iff, Qle_bool_iff. apply Qle_refl. Qed.

Lemma fle_not_flt x y : fle x y = true -> flt y x = false.
Proof. intros. fcase. qbool. by rewrite negb_false_iff, Qle_bool_iff. Qed.

Lemma flt_false_fle x y : x <> NaN -> y <> NaN -> flt x y = false -> fle y x = true.
Proof. intros. fcase. by apply negb_false_iff. Qed.

Lemma fle_nan_l x y : fle x y = true -> x <> NaN.
Proof. by fcase. Qed.

Lemma fle_nan_r x y : fle x y = true -> y <> NaN.
Proof. by fcase. Qed.

Lemma fle_fin a b : fle (Fin a) (Fin b) = true <-> a <= b.
Proof. simpl. apply Qle_bool_iff. Qed.

Lemma flt_fin a b : flt (Fin a) (Fin b) = true <-> a < b.
Proof. simpl. split; intros; qbool; lra. Qed.

(** *** [min] and [max] *)

(** The first argument always bounds the result, whatever the second is. *)
Lemma fmin_le_l x y : x <> NaN -> fle (fmin x y) x = true.
Proof. intros Hx. unfold fmin. destruct (flt y x) eqn:E; [by apply flt_fle | by apply fle_refl]. Qed.

Lemma fmax_ge_l x y : x <> NaN -> fle x (fmax x y) = true.
Proof. intros Hx. unfold fmax. destruct (flt x y) eqn:E; [by apply flt_fle | by apply fle_refl]. Qed.

Lemma fmin_le_r x y : x <> NaN -> y <> NaN -> fle (fmin x y) y = true.
Proof.
  intros Hx Hy. unfold fmin. destruct (flt y x) eqn:E; [by apply fle_refl|].
  by apply flt_false_fle.
Qed.

Lemma fmax_ge_r x y : x <> NaN -> y <> NaN -> fle y (fmax x y) = true.
Proof.
  intros Hx Hy. unfold fmax. destruct (flt x y) eqn:E; [by apply fle_refl|].
  by apply flt_false_fle.
Qed.

Lemma fmin_glb x y z : fle z x = true -> (y = NaN \/ fle z y = true) -> fle z (fmin x y) = true.
Proof. intros H1 [->|H2]; unfold fmin; [by destruct x|]. by destruct (flt y x). Qed.

Lemma fmax_lub x y z : fle x z = true -> (y = NaN \/ fle y z = true) -> fle (fmax x y) z = true.
Proof. intros H1 [->|H2]; unfold fmax; [by destruct x|]. by destruct (flt x y). Qed.

Lemma fmin_or x y : fmin x y = x \/ fmin x y = y.
Proof. unfold fmin. destruct (flt y x); auto. Qed.

Lemma fmax_or x y : fmax x y = x \/ fmax x y = y.
Proof. unfold fmax. destruct (flt x y); auto. Qed.

(** Clamping [min(hi, max(lo, x))] lands in [lo, hi] for every [x], NaN and
    infinities included. *)
Lemma fclamp_bounds lo hi x : fle lo hi = true ->
  let r := fmin hi (fmax lo x) in fle lo r = true /\ fle r hi = true.
Proof.
  intros H r.
  pose proof (fle_nan_l _ _ H) as Hl. pose proof (fle_nan_r _ _ H) as Hh.
  split; [|by apply fmin_le_l].
  apply fmin_glb; [done|]. right. by apply fmax_ge_l.
Qed.

(** *** Rounding of exact values *)

Lemma two1024_pos : 0 < two1024.
Proof. reflexivity. Qed.

Lemma of_Q_not_nan q : of_Q q <> NaN.
Proof. unfold of_Q. by destruct (Qle_bool _ _). Qed.

(** Rounding an exact value is monotone, also through overflow. *)
Lemma of_Q_mono x y : x <= y -> fle (of_Q x) (of_Q y) = true.
Proof.
  intros H. apply round64_mono in H. unfold of_Q.
  set (a := round64 x) in *. set (b := round64 y) in *. clearbody a b.
  pose proof two1024_pos as P.
  destruct (Qle_bool two1024 (Qabs a)) eqn:A, (Qle_bool two1024 (Qabs b)) eqn:B; simpl; qhyp.
  - destruct (Qle_bool 0 a) eqn:C, (Qle_bool 0 b) eqn:D; simpl; try done.
    qbool. exfalso. lra.
  - destruct (Qle_bool 0 a) eqn:C; simpl; [|done]. qbool. exfalso.
    rewrite (Qabs_pos a) in * by lra. rewrite (Qabs_pos b) in * by lra. lra.
  - destruct (Qle_bool 0 b) eqn:D; simpl; [done|]. qbool. exfalso.
    rewrite (Qabs_neg a) in * by lra. rewrite (Qabs_neg b) in * by lra. lra.
  - by qbool.
Qed.

#[export] Instance of_Q_proper : Proper (Qeq ==> eq) of_Q.
Proof.
  intros x y E. unfold of_Q, round64. by rewrite (round_eq 2 ltac:(lia) 53 (Some (-1074)%Z) x y E).
Qed.

Definition pow2 (k : Z) : Q := inject_Z 2 ^ k.

Lemma pow2_pos k : 0 < pow2 k.
Proof. by apply Qpower_0_lt. Qed.

Lemma pow2_le j k : (j <= k)%Z -> pow2 j <= pow2 k.
Proof. intros. by apply Qpower_le_compat_l. Qed.

Lemma pow2_add j k : pow2 (j + k) == pow2 j * pow2 k.
Proof. by apply Qpower_plus. Qed.

(** Values bounded by [2^k]. *)
Definition bnd (k : Z) (q : Q) : Prop := Qabs q <= pow2 k.

#[export] Instance bnd_proper k : Proper (Qeq ==> iff) (bnd k).
Proof. intros x y E. unfold bnd. by rewrite E. Qed.

Lemma of_Q_bnd k q : (-1074 <= k <= 1023)%Z -> bnd k q ->
  of_Q q = Fin (round64 q) /\ bnd k (round64 q).
Proof.
  intros Hk Hq.
  assert (B : bnd k (round64 q)).
  { apply round64_abs_le; [apply repr64_pow2; lia | done]. }
  split; [|done]. unfold of_Q.
  assert (L : Qabs (round64 q) < two1024).
  { apply Qle_lt_trans with (pow2 k); [exact B|].
    apply Qle_lt_trans with (pow2 1023); [apply pow2_le; lia|]. reflexivity. }
  destruct (Qle_bool two1024 (Qabs (round64 q))) eqn:E; [|done]. qbool. lra.
Qed.

Lemma bnd_weaken j k q : (j <= k)%Z -> bnd j q -> bnd k q.
Proof. intros H B. unfold bnd in *. pose proof (pow2_le j k H). lra. Qed.

Lemma bnd_add k a b : bnd k a -> bnd k b -> bnd (k + 1) (a + b).
Proof.
  unfold bnd. intros A B. rewrite pow2_add. change (pow2 1) with 2.
  pose proof (Qabs_triangle a b). lra.
Qed.

Lemma bnd_opp k a : bnd k a -> bnd k (- a).
Proof. unfold bnd. by rewrite Qabs_opp. Qed.

Lemma bnd_mul j k a b : bnd j a -> bnd k b -> bnd (j + k) (a * b).
Proof.
  unfold bnd. intros A B. rewrite pow2_add, Qabs_Qmult.
  pose proof (Qabs_nonneg a). pose proof (Qabs_nonneg b). nra.
Qed.

Lemma bnd_div_ge1 k a b : bnd k a -> 1 <= b -> bnd k (a / b).
Proof.
  unfold bnd. intros A B. unfold Qdiv. rewrite Qabs_Qmult.
  assert (0 < / b <= 1).
  { split; [apply Qinv_lt_0_compat; lra|].
    apply Qle_shift_inv_r; lra. }
  rewrite (Qabs_pos (/ b)) by lra. pose proof (Qabs_nonneg a). nra.
Qed.

(** *** Finite arithmetic

    Operations on bounded finite values stay finite and are the rounded exact
    operation. *)

Lemma fneg_fin a : exists a', fneg (Fin a) = Fin a' /\ a' == - a.
Proof. exists (Qred (- a)). split; [done|]. apply Qred_correct. Qed.

Lemma fadd_bnd k a b : (-1000 <= k <= 1022)%Z -> bnd k a -> bnd k b ->
  fadd (Fin a) (Fin b) = Fin (round64 (a + b)) /\ bnd (k + 1) (round64 (a + b)).
Proof. intros Hk A B. apply of_Q_bnd; [lia|]. by apply bnd_add. Qed.

Lemma fsub_bnd k a b : (-1000 <= k <= 1022)%Z -> bnd k a -> bnd k b ->
  exists r, fsub (Fin a) (Fin b) = Fin r /\ r == round64 (a - b) /\ bnd (k + 1) r.
Proof.
  intros Hk A B. unfold fsub. simpl.
  assert (E : a + Qred (- b) == a - b) by (rewrite Qred_correct; ring).
  destruct (of_Q_bnd (k + 1) (a + Qred (- b))) as [F G]; [lia| |].
  - rewrite E. apply bnd_add; [done|]. by apply bnd_opp.
  - exists (round64 (a + Qred (- b))). rewrite F. split; [done|].
    split; [by rewrite E|done].
Qed.

Lemma fmul_bnd j k a b : (-1000 <= j + k <= 1023)%Z -> bnd j a -> bnd k b ->
  fmul (Fin a) (Fin b) = Fin (round64 (a * b)) /\ bnd (j + k) (round64 (a * b)).
Proof. intros Hk A B. apply of_Q_bnd; [lia|]. by apply bnd_mul. Qed.

Lemma fdiv_bnd k a b : (-1000 <= k <= 1023)%Z -> bnd k a -> 1 <= b ->
  fdiv (Fin a) (Fin b) = Fin (round64 (a / b)) /\ bnd k (round64 (a / b)).
Proof. intros Hk A B. apply of_Q_bnd; [lia|]. by apply bnd_div_ge1. Qed.

(** Builtin [round] is monotone on finite values. *)
Lemma fround_mono n a b : (0 <= n)%Z -> a <= b ->
  fle (fround n (Fin a)) (fround n (Fin b)) = true.
Proof.
  intros Hn H. simpl. apply of_Q_mono.
  assert (P : 0 < inject_Z (10 ^ n)).
  { change 0 with (inject_Z 0). rewrite <- Zlt_Qlt. lia. }
  apply Qmult_le_compat_r; [|by apply Qlt_le_weak, Qinv_lt_0_compat].
  rewrite <- Zle_Qle. apply Qrne_mono. apply Qmult_le_compat_r; [done|lra].
Qed.

(** *** Values in a range [0, u] *)

Definition frange (u : Q) (x : float) : Prop := exists q, x = Fin q /\ 0 <= q <= u.

Lemma of_Q_range q u v : 0 <= q <= u -> of_Q u = Fin v -> frange v (of_Q q).
Proof.
  intros [H0 H1] E. apply of_Q_mono in H0, H1. rewrite E in H1.
  change (of_Q 0) with (Fin 0) in H0.
  destruct (of_Q q) as [r|[]|]; try done. rewrite fle_fin in H0, H1. by exists r.
Qed.

Lemma frange_mul u w v x : frange u x -> 0 <= w -> of_Q (u * w) = Fin v -> frange v (fmul x (Fin w)).
Proof. intros (q & -> & H) Hw E. simpl. apply of_Q_range with (u := u * w); [|done]. nra. Qed.

Lemma frange_add u1 u2 v x y : frange u1 x -> frange u2 y -> of_Q (u1 + u2) = Fin v -> frange v (fadd x y).
Proof. intros (p & -> & H) (q & -> & G) E. simpl. apply of_Q_range with (u := u1 + u2); [|done]. lra. Qed.

Lemma frange_round n u v x : (0 <= n)%Z -> frange u x -> fround n (Fin u) = Fin v -> frange v (fround n x).
Proof.
  intros Hn (q & -> & H0 & H1) E.
  apply (fround_mono n) in H0, H1; try done. rewrite E in H1.
  assert (Z0 : fle (Fin 0) (fround n (Fin 0)) = true).
  { change (fround n (Fin 0)) with (of_Q (inject_Z (Qrne (0 * inject_Z (10 ^ n))) / inject_Z (10 ^ n))).
    change (Fin 0) with (of_Q 0). apply of_Q_mono.
    assert (E0 : Qrne (0 * inject_Z (10 ^ n)) = Qrne 0) by (apply Qrne_proper; ring).
    rewrite E0. change (Qrne 0) with 0%Z. unfold Qdiv. change (inject_Z 0) with 0. lra. }
  destruct (fround n (Fin q)) as [r|[]|], (fround n (Fin 0)) as [z|[]|]; try done.
  rewrite fle_fin in *. exists r. split; [done|lra].
Qed.

(** [min(1.0, x)] of a nonnegative (or NaN) value. *)
Lemma frange_min1 x : x = NaN \/ fle (Fin 0) x = true -> frange 1 (fmin (of_Z 1) x).
Proof.
  intros H. change (of_Z 1) with (Fin 1).
  assert (A : fle (Fin 0) (fmin (Fin 1) x) = true) by (by apply fmin_glb).
  assert (B : fle (fmin (Fin 1) x) (Fin 1) = true) by (by apply fmin_le_l).
  destruct (fmin (Fin 1) x) as [q|[]|]; try done. rewrite fle_fin in A, B. by exists q.
Qed.

Lemma fabs_nonneg x : fabs x = NaN \/ fle (Fin 0) (fabs x) = true.
Proof. destruct x as [q|s|]; [right|by right|by left]. apply fle_fin, Qabs_nonneg. Qed.

(** A quotient of a nonnegative value by a positive one is not negative. *)
Lemma fdiv_nonneg x y : x = NaN \/ fle (Fin 0) x = true -> flt (Fin 0) y = true ->
  fdiv x y = NaN \/ fle (Fin 0) (fdiv x y) = true.
Proof.
  intros [->|Hx] Hy; [by left|].
  destruct x as [a|[]|], y as [b|[]|]; try done; simpl; auto.
  - right. rewrite fle_fin in Hx. rewrite flt_fin in Hy.
    apply (of_Q_mono 0), Qle_shift_div_l; lra.
  - right. rewrite flt_fin in Hy. unfold qneg.
    replace (Qle_bool 0 b) with true; [done|]. symmetry. apply Qle_bool_iff. lra.
Qed.

(** *** Scaling by a factor around one *)

Lemma fsub_le_l a x : fle (Fin 0) x = true -> fle (fsub (Fin a) x) (of_Q a) = true.
Proof.
  intros H. destruct x as [q|[]|]; try done.
  - apply fle_fin in H. apply (of_Q_mono (a + Qred (- q)) a). rewrite Qred_correct. lra.
  - simpl. pose proof (of_Q_not_nan a). by destruct (of_Q a).
Qed.

Lemma fadd_ge_l a x : fle (Fin 0) x = true -> fle (of_Q a) (fadd (Fin a) x) = true.
Proof.
  intros H. destruct x as [q|[]|]; try done.
  - apply fle_fin in H. apply (of_Q_mono a (a + q)). lra.
  - simpl. pose proof (of_Q_not_nan a). by destruct (of_Q a) as [|[]|].
Qed.

Lemma Qeq_bool_pos_false m : 0 < m -> Qeq_bool m 0 = false.
Proof. intros H. apply not_true_is_false. rewrite Qeq_bool_iff. lra. Qed.

Lemma fmul_le_one m x : 0 < m -> fle x (Fin 1) = true -> fle (fmul (Fin m) x) (of_Q m) = true.
Proof.
  intros Hm H. pose proof (of_Q_not_nan m) as N. destruct x as [q|[]|]; try done.
  - apply fle_fin in H. apply (of_Q_mono (m * q) m). nra.
  - simpl. rewrite (Qeq_bool_pos_false m Hm).
    unfold qneg. rewrite (proj2 (Qle_bool_iff 0 m)) by lra. by destruct (of_Q m).
Qed.

Lemma fmul_ge_one m x : 0 < m -> fle (Fin 1) x = true -> fle (of_Q m) (fmul (Fin m) x) = true.
Proof.
  intros Hm H. pose proof (of_Q_not_nan m) as N. destruct x as [q|[]|]; try done.
  - apply fle_fin in H. apply (of_Q_mono m (m * q)). nra.
  - simpl. rewrite (Qeq_bool_pos_false m Hm).
    unfold qneg. rewrite (proj2 (Qle_bool_iff 0 m)) by lra. by destruct (of_Q m) as [|[]|].
Qed.

(** [round] preserves the order, infinities included. *)
Lemma fround_fle n x y : (0 <= n)%Z -> fle x y = true -> fle (fround n x) (fround n y) = true.
Proof.
  intros Hn H. destruct x as [a|[]|], y as [b|[]|]; try done.
  - apply fle_fin in H. by apply fround_mono.
  - cbn [fround]. pose proof (of_Q_not_nan (inject_Z (Qrne (a * inject_Z (10 ^ n))) / inject_Z (10 ^ n))) as N.
    by destruct (of_Q _) as [|[]|].
  - cbn [fround]. pose proof (of_Q_not_nan (inject_Z (Qrne (b * inject_Z (10 ^ n))) / inject_Z (10 ^ n))) as N.
    by destruct (of_Q _) as [|[]|].
Qed.

(** Example: [0.1 + 0.2] is not [0.3], and [round(2.675, 2)] is [2.67]. *)
Example float_example :
  feq (fadd (flit 1 10) (flit 2 10)) (flit 3 10) = false
  /\ feq (fround 2 (flit 2675 1000)) (flit 267 100) = true
  /\ fadd (of_Z (2 ^ 53)) (of_Z 1) = of_Z (2 ^ 53)
  /\ fmul (of_Q (inject_Z (10 ^ 200))) (of_Q (inject_Z (10 ^ 200))) = Inf false
  /\ fsum [flit 1 10; flit 2 10; flit 3 10; flit 4 10] = of_Z 1.
Proof. vm_compute. repeat split. Qed.
