(* ===== verification/PyDecimal.v ===== *)
(** * PyDecimal: Python's [decimal.Decimal] under the default context

    A finite decimal is a coefficient and an exponent; arithmetic is exact and
    then rounded half-even to 28 significant digits ([prec=28],
    [ROUND_HALF_EVEN]). The exponent is kept, because the code reads it
    ([as_tuple().exponent]) and prints it. Not represented: the context's
    exponent range (plus or minus 999999), the sign of zero, infinities and
    NaN. *)

From S2P Require Import Prelude Rounding PyFloat.

#[local] Open Scope Q_scope.

Record dec : Type := mkDec { coef : Z; dexp : Z }.

#[export] Instance dec_eq_dec : EqDecision dec.
Proof. solve_decision. Defined.

Definition pow10 (e : Z) : Q := bpow 10 e.

(** The number a decimal denotes. *)
Definition dval (d : dec) : Q := inject_Z (coef d) * pow10 (dexp d).

Definition dZ (z : Z) : dec := mkDec z 0.
Definition dzero : dec := dZ 0.

Definition prec : Z := 28.
Definition rnd28 : Q -> Q := round 10 prec None.
Definition repr28 : Q -> Prop := repr 10 prec None.

(** The 28-digit decimal nearest to a non-zero [q]; a carry to [10^28] is
    renormalised. *)
Definition dround (q : Q) : dec :=
  let e := cexp 10 prec None q in
  let c := Qrne (q / pow10 e) in
  if (Z.abs c <? 10 ^ prec)%Z then mkDec c e else mkDec (Z.quot c 10) (e + 1).

(** Context rounding of an exact intermediate result ([_fix]). *)
Definition dfix (d : dec) : dec :=
  if (Z.abs (coef d) <? 10 ^ prec)%Z then d else dround (dval d).

Definition align (a : dec) (e : Z) : Z := (coef a * 10 ^ (dexp a - e))%Z.

Definition dadd (a b : dec) : dec :=
  let e := Z.min (dexp a) (dexp b) in
  dfix (mkDec (align a e + align b e) e).

Definition dneg (a : dec) : dec := dfix (mkDec (- coef a) (dexp a)).
Definition dabs (a : dec) : dec := dfix (mkDec (Z.abs (coef a)) (dexp a)).

Definition dsub (a b : dec) : dec :=
  let e := Z.min (dexp a) (dexp b) in
  dfix (mkDec (align a e - align b e) e).

Definition dmul (a b : dec) : dec := dfix (mkDec (coef a * coef b) (dexp a + dexp b)).

(** Remove trailing zeros while the exponent is below [ideal]. *)
Fixpoint strip_zeros (fuel : nat) (ideal : Z) (d : dec) : dec :=
  match fuel with
  | O => d
  | S f =>
      if (dexp d <? ideal)%Z && (coef d mod 10 =? 0)%Z
      then strip_zeros f ideal (mkDec (coef d / 10) (dexp d + 1))
      else d
  end.

(** Division by a non-zero [b]: an exact quotient gets the exponent closest to
    [dexp a - dexp b], an inexact one has 28 digits. *)
Definition ddiv (a b : dec) : dec :=
  let ideal := (dexp a - dexp b)%Z in
  let q := dval a / dval b in
  if (coef a =? 0)%Z then mkDec 0 ideal
  else
    let r := dround q in
    if Qeq_bool (dval r) q then strip_zeros (Z.to_nat prec) ideal r else r.

Definition deq (a b : dec) : bool := Qeq_bool (dval a) (dval b).
Definition dle (a b : dec) : bool := Qle_bool (dval a) (dval b).
Definition dlt (a b : dec) : bool := negb (Qle_bool (dval b) (dval a)).

(** [Decimal.__bool__]. *)
Definition dtruth (a : dec) : bool := negb (coef a =? 0)%Z.

(** [a / b] with Python's exceptions ([DivisionByZero], [InvalidOperation]). *)
Definition ddiv_chk (a b : dec) : result dec :=
  if dtruth b then Ok (ddiv a b) else raise DecimalException "division by zero".

Definition dmin (a b : dec) : dec := if dlt b a then b else a.
Definition dmax (a b : dec) : dec := if dlt a b then b else a.

(** [to_integral_value(rounding=ROUND_DOWN)] *)
Definition to_integral_down (d : dec) : dec :=
  if (0 <=? dexp d)%Z then d else mkDec (Z.quot (coef d) (10 ^ (- dexp d))) 0.

(** [normalize()]: context rounding, then no trailing zeros at all. *)
Fixpoint strip_all (fuel : nat) (d : dec) : dec :=
  match fuel with
  | O => d
  | S f => if (coef d mod 10 =? 0)%Z then strip_all f (mkDec (coef d / 10) (dexp d + 1)) else d
  end.

Definition dnormalize (d : dec) : dec :=
  let r := dfix d in
  if (coef r =? 0)%Z then dzero else strip_all (Z.to_nat prec) r.

(** [float(d)]: the nearest float. *)
Definition float_of_dec (d : dec) : float := of_Q (dval d).

(** [Decimal(str(x))] for a finite float: the shortest decimal that reads back
    as [x] (at most 17 digits), the closest one when several have that
    length. *)
Definition repr_candidate (q : Q) (n : Z) : option dec :=
  let e := (qlog 10 q + 1 - n)%Z in
  let s := q / pow10 e in
  let lo := mkDec (Qfloor s) e in
  let hi := mkDec (Qfloor s + 1) e in
  let ok d := Qeq_bool (round64 (dval d)) q in
  let near := mkDec (Qrne s) e in
  if ok near then Some near
  else if ok lo then Some lo
  else if ok hi then Some hi
  else None.

Fixpoint repr_search (fuel : nat) (q : Q) (n : Z) : option dec :=
  match fuel with
  | O => None
  | S f => match repr_candidate q n with
           | Some d => Some d
           | None => repr_search f q (n + 1)
           end
  end.

(** [repr] writes an integral float below 1e16 with a trailing [".0"]. *)
Definition repr_layout (d : dec) : dec :=
  if (0 <=? dexp d)%Z && (ilog 10 (coef d) + 1 + dexp d <=? 16)%Z
  then mkDec (coef d * 10 ^ (dexp d + 1)) (-1)
  else d.

(** The exact decimal expansion of a float (1074 places always suffice), used
    only if 17 digits did not. *)
Definition dec_exact (q : Q) : dec := mkDec (Qfloor (q * pow10 1074)) (-1074).

Definition dec_of_pos (q : Q) : dec :=
  match repr_search 17 q 1 with
  | Some d => repr_layout (strip_all 17 d)
  | None => dec_exact q
  end.

Definition dec_of_Q (q : Q) : dec :=
  if Qeq_bool q 0 then mkDec 0 (-1)
  else if Qle_bool 0 q then dec_of_pos q
  else let d := dec_of_pos (- q) in mkDec (- coef d) (dexp d).

(** [Decimal(str(x))]; a non-finite [x] gives a special value, which this model
    does not represent and treats as a conversion error. *)
Definition dec_of_float (x : float) : result dec :=
  match x with
  | Fin q => Ok (dec_of_Q q)
  | _ => raise DecimalException "non-finite value"
  end.

Example dec_of_float_examples :
  dec_of_float (flit 1 10) = Ok (mkDec 1 (-1))
  /\ dec_of_float (of_Z 50000) = Ok (mkDec 500000 (-1))
  /\ dec_of_float (fadd (flit 1 10) (flit 2 10)) = Ok (mkDec 30000000000000004 (-17))
  /\ dec_of_float (of_Q (inject_Z (10 ^ 23))) = Ok (mkDec 1 23)
  /\ dec_of_float (of_Q (1 # 2 ^ 44)) = Ok (mkDec 5684341886080802 (-29))
  /\ ddiv (dZ 1) (dZ 8) = mkDec 125 (-3)
  /\ ddiv (dZ 2) (dZ 3) = mkDec 6666666666666666666666666667 (-28)
  /\ ddiv (mkDec 100 (-1)) (mkDec 25 (-1)) = mkDec 4 0
  /\ dnormalize (mkDec 1500 (-2)) = mkDec 15 0.
Proof. vm_compute. repeat split. Qed.

(** ** Values of the operations *)

(** The comparisons decide the order of the numbers denoted. *)

Lemma deq_iff a b : deq a b = true <-> dval a == dval b.
Proof. apply Qeq_bool_iff. Qed.
Lemma dle_iff a b : dle a b = true <-> dval a <= dval b.
Proof. apply Qle_bool_iff. Qed.
Lemma dlt_iff a b : dlt a b = true <-> dval a < dval b.
Proof.
  unfold dlt. rewrite negb_true_iff, <- not_true_iff_false, Qle_bool_iff. split; [apply Qnot_le_lt|apply Qlt_not_le].
Qed.

Lemma pow10_pos e : 0 < pow10 e.
Proof. by apply bpow_pos. Qed.

Lemma pow10_add x y : pow10 (x + y) == pow10 x * pow10 y.
Proof. by apply bpow_add. Qed.

Lemma pow10_inject n : (0 <= n)%Z -> pow10 n == inject_Z (10 ^ n).
Proof. by apply bpow_inject. Qed.

#[export] Instance rnd28_proper : Proper (Qeq ==> Qeq) rnd28.
Proof. apply round_proper. lia. Qed.

Lemma rnd28_mono x y : x <= y -> rnd28 x <= rnd28 y.
Proof. apply round_mono; [lia|]. unfold prec; lia. Qed.

Lemma rnd28_repr x : repr28 x -> rnd28 x == x.
Proof. apply round_repr; [lia|]. unfold prec; lia. Qed.

Lemma rnd28_opp x : rnd28 (- x) == - rnd28 x.
Proof. apply round_opp. lia. Qed.

Lemma rnd28_0 x : x == 0 -> rnd28 x == 0.
Proof. intros H. unfold rnd28. by rewrite round_0. Qed.

Lemma rnd28_nonneg x : 0 <= x -> 0 <= rnd28 x.
Proof. apply round_nonneg; lia. Qed.

Lemma rnd28_nonpos x : x <= 0 -> rnd28 x <= 0.
Proof. apply round_nonpos; lia. Qed.

Lemma repr28_dec d : (Z.abs (coef d) < 10 ^ prec)%Z -> repr28 (dval d).
Proof. intros H. exists (coef d), (dexp d). done. Qed.

Lemma dval_scale c e k : (0 <= k)%Z -> inject_Z (c * 10 ^ k) * pow10 e == inject_Z c * pow10 (e + k).
Proof.
  intros Hk. rewrite inject_Z_mult, pow10_add, <- pow10_inject by done. ring.
Qed.

Lemma dval_align a e : (e <= dexp a)%Z -> inject_Z (align a e) * pow10 e == dval a.
Proof.
  intros H. unfold align. rewrite dval_scale by lia. unfold dval.
  by replace (e + (dexp a - e))%Z with (dexp a) by lia.
Qed.

(** [dround] has the value the generic rounding prescribes. *)
Lemma dval_dround q : ~ q == 0 -> dval (dround q) == rnd28 q.
Proof.
  intros Hq. unfold dround, rnd28.
  rewrite (round_nz 10 prec None q Hq).
  set (e := cexp 10 prec None q).
  assert (Hm : (Z.abs (Qrne (q / pow10 e)) <= 10 ^ prec)%Z).
  { apply Qrne_abs_le. unfold Qdiv. rewrite Qabs_Qmult.
    rewrite (Qabs_pos (/ _)) by (apply Qlt_le_weak, Qinv_lt_0_compat, pow10_pos).
    apply Qle_shift_div_r; [apply pow10_pos|]. rewrite <- pow10_inject by done.
    rewrite <- pow10_add. destruct (qlog_spec 10 ltac:(lia) q Hq) as [_ U].
    replace (prec + e)%Z with (qlog 10 q + 1)%Z by (unfold e, cexp, fexp; lia).
    apply Qlt_le_weak. exact U. }
  change (bpow 10 e) with (pow10 e).
  set (c := Qrne (q / pow10 e)) in *.
  destruct (Z.ltb_spec (Z.abs c) (10 ^ prec)) as [L|L]; [done|].
  unfold dval. cbn [coef dexp]. assert (E : (c = Z.quot c 10 * 10)%Z).
  { assert (c = 10 ^ prec \/ c = - 10 ^ prec)%Z as [-> | ->] by lia; reflexivity. }
  rewrite E at 2. rewrite inject_Z_mult, pow10_add.
  change (pow10 1) with (inject_Z 10). ring.
Qed.

Lemma dval_dfix d : dval (dfix d) == rnd28 (dval d).
Proof.
  unfold dfix. destruct (Z.ltb_spec (Z.abs (coef d)) (10 ^ prec)) as [L|L].
  - symmetry. by apply rnd28_repr, repr28_dec.
  - apply dval_dround. unfold dval. intros E. apply Qmult_integral in E as [E|E].
    + assert (coef d = 0)%Z as Z by (unfold Qeq in E; simpl in E; lia).
      rewrite Z in L. done.
    + pose proof (pow10_pos (dexp d)). lra.
Qed.

Lemma dval_dadd a b : dval (dadd a b) == rnd28 (dval a + dval b).
Proof.
  unfold dadd. rewrite dval_dfix. apply rnd28_proper. unfold dval at 1. cbn [coef dexp].
  rewrite inject_Z_plus, Qmult_plus_distr_l, !dval_align by lia. reflexivity.
Qed.

Lemma dval_dsub a b : dval (dsub a b) == rnd28 (dval a - dval b).
Proof.
  unfold dsub. rewrite dval_dfix. apply rnd28_proper. unfold dval at 1. cbn [coef dexp].
  unfold Zminus. rewrite inject_Z_plus, inject_Z_opp, Qmult_plus_distr_l.
  rewrite <- (dval_align a (dexp a `min` dexp b)) by lia.
  rewrite <- (dval_align b (dexp a `min` dexp b)) by lia. ring.
Qed.

Lemma dval_dmul a b : dval (dmul a b) == rnd28 (dval a * dval b).
Proof.
  unfold dmul. rewrite dval_dfix. apply rnd28_proper. unfold dval. cbn [coef dexp].
  rewrite inject_Z_mult, pow10_add. ring.
Qed.

Lemma dval_dneg a : dval (dneg a) == rnd28 (- dval a).
Proof.
  unfold dneg. rewrite dval_dfix. apply rnd28_proper. unfold dval. cbn [coef dexp].
  rewrite inject_Z_opp. ring.
Qed.

Lemma dval_dabs a : dval (dabs a) == rnd28 (Qabs (dval a)).
Proof.
  unfold dabs. rewrite dval_dfix. apply rnd28_proper. unfold dval. cbn [coef dexp].
  rewrite Qabs_Qmult, (Qabs_pos (pow10 _)) by (apply Qlt_le_weak, pow10_pos). reflexivity.
Qed.

Lemma dval_drop_zero d : (coef d mod 10 = 0)%Z ->
  dval (mkDec (coef d / 10) (dexp d + 1)) == dval d.
Proof.
  intros H. unfold dval. cbn [coef dexp].
  rewrite (Z.div_mod (coef d) 10) at 2 by lia. rewrite H, Z.add_0_r, inject_Z_mult, pow10_add.
  change (pow10 1) with (inject_Z 10). ring.
Qed.

Lemma dval_strip_zeros fuel ideal d : dval (strip_zeros fuel ideal d) == dval d.
Proof.
  revert d. induction fuel as [|f IH]; intros d; simpl; [done|].
  destruct (_ && _) eqn:E; [|done]. apply andb_prop in E as [_ E].
  rewrite IH. apply dval_drop_zero. by apply Z.eqb_eq.
Qed.

Lemma dval_strip_all fuel d : dval (strip_all fuel d) == dval d.
Proof.
  revert d. induction fuel as [|f IH]; intros d; simpl; [done|].
  destruct (_ =? _)%Z eqn:E; [|done]. rewrite IH. apply dval_drop_zero. by apply Z.eqb_eq.
Qed.

Lemma dval_0_iff d : dval d == 0 <-> coef d = 0%Z.
Proof.
  unfold dval. split.
  - intros E. apply Qmult_integral in E as [E|E]; [unfold Qeq in E; simpl in E; lia|].
    pose proof (pow10_pos (dexp d)). lra.
  - intros ->. ring.
Qed.

Lemma dval_ddiv a b : ~ dval b == 0 -> dval (ddiv a b) == rnd28 (dval a / dval b).
Proof.
  intros Hb. unfold ddiv. destruct (Z.eqb_spec (coef a) 0) as [Ha|Ha].
  - rewrite rnd28_0; [by apply dval_0_iff|].
    apply dval_0_iff in Ha. rewrite Ha. field. done.
  - assert (Hq : ~ dval a / dval b == 0).
    { intros E. apply Ha, dval_0_iff. rewrite <- (Qdiv_mult_l (dval a) (dval b)) by done.
      transitivity (dval a / dval b * dval b); [field; done|]. rewrite E. ring. }
    destruct (Qeq_bool _ _); [rewrite dval_strip_zeros|]; by apply dval_dround.
Qed.

Lemma dval_dnormalize d : dval (dnormalize d) == rnd28 (dval d).
Proof.
  unfold dnormalize. rewrite <- dval_dfix.
  destruct (Z.eqb_spec (coef (dfix d)) 0) as [E|E].
  - symmetry. by apply dval_0_iff.
  - apply dval_strip_all.
Qed.

(** [to_integral_down] truncates; on non-negative values it is the floor. *)
Lemma dval_to_integral_down d : 0 <= dval d -> dval (to_integral_down d) == inject_Z (Qfloor (dval d)).
Proof.
  intros Hd.
  assert (Hc : (0 <= coef d)%Z).
  { unfold dval in Hd. pose proof (pow10_pos (dexp d)).
    rewrite Zle_Qle. destruct (Qlt_le_dec (inject_Z (coef d)) 0) as [L|L]; [|done].
    change (inject_Z 0) with 0. exfalso. nra. }
  unfold to_integral_down. destruct (Z.leb_spec 0 (dexp d)) as [L|L].
  - assert (E : dval d == inject_Z (coef d * 10 ^ dexp d)).
    { unfold dval. rewrite pow10_inject, inject_Z_mult by done. reflexivity. }
    rewrite E at 1. rewrite (Qfloor_comp _ _ E), Qfloor_Z. reflexivity.
  - assert (E : dval d == inject_Z (coef d) / inject_Z (10 ^ (- dexp d))).
    { unfold dval. rewrite <- pow10_inject by lia.
      assert (X : pow10 (- dexp d) * pow10 (dexp d) == 1).
      { rewrite <- pow10_add. by replace (- dexp d + dexp d)%Z with 0%Z by lia. }
      pose proof (pow10_pos (- dexp d)). pose proof (pow10_pos (dexp d)).
      apply Qmult_inj_r with (pow10 (- dexp d)); [lra|].
      rewrite <- Qmult_assoc, (Qmult_comm (pow10 (dexp d))), X. field. lra. }
    rewrite (Qfloor_comp _ _ E), <- Zdiv_Qdiv.
    rewrite <- Z.quot_div_nonneg by lia.
    unfold dval. cbn [coef dexp]. change (pow10 0) with 1. ring.
Qed.

Lemma Qfloor_bounds q k : inject_Z k <= q -> q < inject_Z (k + 1) -> Qfloor q = k.
Proof.
  intros L U.
  assert (k <= Qfloor q)%Z by (rewrite <- (Qfloor_Z k); by apply Qfloor_resp_le).
  pose proof (Qfloor_le q) as F.
  assert (inject_Z (Qfloor q) < inject_Z (k + 1)) as G by lra.
  rewrite <- Zlt_Qlt in G. lia.
Qed.

Lemma repr28_Z z : (Z.abs z < 10 ^ prec)%Z -> repr28 (inject_Z z).
Proof.
  intros H. exists z, 0%Z. split; [|done]. unfold bpow. simpl. ring.
Qed.

(** Rounding a quotient of integers of at most 26 digits does not move it
    across the next integer. *)
Lemma floor_rnd28 a b : (0 <= a < 10 ^ 26)%Z -> (0 < b < 10 ^ 26)%Z ->
  Qfloor (rnd28 (inject_Z a / inject_Z b)) = (a / b)%Z.
Proof.
  intros Ha Hb. set (k := (a / b)%Z).
  assert (Hk : (0 <= k)%Z) by (apply Z.div_pos; lia).
  pose proof (Z.div_mod a b ltac:(lia)) as DM. fold k in DM.
  pose proof (Z.mod_pos_bound a b ltac:(lia)) as MB.
  assert (Bp : 0 < inject_Z b) by (change 0 with (inject_Z 0); rewrite <- Zlt_Qlt; lia).
  apply Qfloor_bounds.
  - apply (round_ge_repr 10 ltac:(lia) prec ltac:(done) None); [apply repr28_Z|].
    + assert (k <= a)%Z by (unfold k; apply Z.div_le_upper_bound; nia).
      assert (10 ^ 26 < 10 ^ prec)%Z by reflexivity. lia.
    + apply Qle_shift_div_l; [done|]. rewrite <- inject_Z_mult, <- Zle_Qle. lia.
  - destruct (ilog_spec 10 ltac:(lia) b ltac:(lia)) as (I0 & I1 & I2).
    set (m := (ilog 10 b + 1)%Z) in *.
    assert (P : (10 ^ m = 10 * 10 ^ (ilog 10 b))%Z).
    { unfold m. rewrite Z.pow_add_r by lia. lia. }
    set (x := mkDec ((k + 1) * 10 ^ m - 1) (- m)).
    assert (X : dval x == inject_Z (k + 1) - pow10 (- m)).
    { unfold dval, x. cbn [coef dexp]. unfold Zminus at 1. rewrite inject_Z_plus.
      rewrite Qmult_plus_distr_l, dval_scale by lia.
      replace (- m + m)%Z with 0%Z by lia. change (pow10 0) with 1.
      change (inject_Z (- (1))) with (- (1)). ring. }
    assert (M : pow10 (- m) * inject_Z (10 ^ m) == 1).
    { rewrite <- pow10_inject, <- pow10_add by lia. by replace (- m + m)%Z with 0%Z by lia. }
    assert (Mp : 0 < inject_Z (10 ^ m)) by (rewrite <- pow10_inject by lia; apply pow10_pos).
    apply Qle_lt_trans with (dval x).
    + apply (round_le_repr 10 ltac:(lia) prec ltac:(done) None).
      * apply repr28_dec. unfold x. cbn [coef].
        assert (10 * (10 ^ 26 + 10 ^ 26) < 10 ^ prec)%Z by reflexivity.
        assert (0 < 10 ^ m <= 10 * b)%Z by lia.
        assert (0 < (k + 1) * 10 ^ m <= (k + 1) * (10 * b))%Z by nia.
        assert ((k + 1) * (10 * b) = 10 * (b * k + b))%Z by ring. lia.
      * rewrite X. apply Qle_shift_div_r; [done|].
        assert (inject_Z b * pow10 (- m) <= 1).
        { rewrite <- M, (Qmult_comm (inject_Z b)). apply Qmult_le_l; [apply pow10_pos|].
          rewrite <- Zle_Qle. lia. }
        assert (inject_Z a <= inject_Z (k + 1) * inject_Z b - 1).
        { rewrite <- inject_Z_mult. unfold Qminus.
          change (- (1)) with (inject_Z (- (1))). rewrite <- inject_Z_plus, <- Zle_Qle. lia. }
        set (K := inject_Z (k + 1)) in *. set (B := inject_Z b) in *.
        assert (R : (K - pow10 (- m)) * B == K * B - B * pow10 (- m)) by ring.
        rewrite R. lra.
    + rewrite X. pose proof (pow10_pos (- m)). lra.
Qed.

(** ** [float(Decimal(str(x))) = x] *)

Lemma repr_candidate_ok q n d : repr_candidate q n = Some d -> round64 (dval d) == q.
Proof.
  unfold repr_candidate. intros H.
  repeat match type of H with
         | context [if Qeq_bool ?x ?y then _ else _] =>
             destruct (Qeq_bool x y) eqn:?; [injection H as <-; by apply Qeq_bool_iff|]
         end. done.
Qed.

Lemma repr_search_ok fuel q n d : repr_search fuel q n = Some d -> round64 (dval d) == q.
Proof.
  revert n. induction fuel as [|f IH]; intros n; simpl; [done|].
  destruct (repr_candidate q n) eqn:E; [|apply IH].
  intros [= <-]. by eapply repr_candidate_ok.
Qed.

Lemma dval_repr_layout d : dval (repr_layout d) == dval d.
Proof.
  unfold repr_layout. destruct (_ && _) eqn:E; [|done].
  apply andb_prop in E as [E _]. apply Z.leb_le in E.
  unfold dval at 1. cbn [coef dexp]. rewrite dval_scale by lia.
  by replace (-1 + (dexp d + 1))%Z with (dexp d) by lia.
Qed.

Lemma dval_dec_exact q : repr64 q -> dval (dec_exact q) == q.
Proof.
  intros (m & e & E & _ & He).
  assert (I : exists z, q * pow10 1074 == inject_Z z).
  { exists (m * 2 ^ (e + 1074) * 5 ^ 1074)%Z.
    rewrite !inject_Z_mult, E. rewrite <- (bpow_inject 2) by lia.
    rewrite (bpow_add 2) by lia.
    assert (F : pow10 1074 == bpow 2 1074 * inject_Z (5 ^ 1074)) by (vm_compute; reflexivity).
    rewrite F. ring. }
  destruct I as [z I]. unfold dec_exact, dval. cbn [coef dexp].
  rewrite (Qfloor_comp _ _ I), Qfloor_Z, <- I, <- Qmult_assoc, <- pow10_add.
  change (pow10 (1074 + -1074)) with 1. ring.
Qed.

Lemma round64_dec_of_pos q : repr64 q -> round64 (dval (dec_of_pos q)) == q.
Proof.
  intros R. unfold dec_of_pos. destruct (repr_search 17 q 1) as [d|] eqn:E.
  - rewrite dval_repr_layout, dval_strip_all. by eapply repr_search_ok.
  - rewrite dval_dec_exact by done. by apply round64_repr.
Qed.

Lemma dval_negate c e : dval (mkDec (- c) e) == - dval (mkDec c e).
Proof. unfold dval. cbn [coef dexp]. rewrite inject_Z_opp. ring. Qed.

Lemma round64_dec_of_Q q : repr64 q -> round64 (dval (dec_of_Q q)) == q.
Proof.
  intros R. unfold dec_of_Q. destruct (Qeq_bool q 0) eqn:Z; qbool.
  - rewrite Z. reflexivity.
  - destruct (Qle_bool 0 q); [by apply round64_dec_of_pos|].
    destruct (dec_of_pos (- q)) as [c e] eqn:E. cbn [coef dexp].
    rewrite dval_negate, round64_opp, <- E.
    rewrite round64_dec_of_pos by (by apply repr_opp). ring.
Qed.
