(* ===== verification/PyData.v ===== *)
(** * PyData: Python's built-in data types as the code uses them

    - insertion-ordered dictionaries ([dict]): an update keeps the position of
      the key, a new key goes to the end, [pop] removes; with their abstraction
      to [gmap] and the lemmas that make it a refinement;
    - stable sorting ([sorted], [list.sort]);
    - ASCII text operations ([upper], [replace], [split], ...). *)

From S2P Require Import Prelude.
From Stdlib Require Import Sorted Ascii.

(** ** Ordered dictionaries *)

Section OrderedDict.
Context {K : Type} `{EqDecision K} {V : Type}.
Implicit Types (d : list (K * V)) (k : K) (v : V).

Fixpoint od_get (k : K) (d : list (K * V)) : option V :=
  match d with
  | [] => None
  | (k', v) :: d' => if decide (k = k') then Some v else od_get k d'
  end.

Fixpoint od_set (k : K) (v : V) (d : list (K * V)) : list (K * V) :=
  match d with
  | [] => [(k, v)]
  | (k', v') :: d' => if decide (k = k') then (k', v) :: d' else (k', v') :: od_set k v d'
  end.

Definition od_del (k : K) (d : list (K * V)) : list (K * V) :=
  filter (fun kv => kv.1 ≠ k) d.

Definition od_keys d : list K := d.*1.
Definition od_vals d : list V := d.*2.

(** [{key(x): x for x in l}]: later items win, in the position of the first. *)
Definition od_of_list {A} (key : A -> K) (val : A -> V) (l : list A) : list (K * V) :=
  foldl (fun d x => od_set (key x) (val x) d) [] l.

Lemma od_get_set d k v k' :
  od_get k' (od_set k v d) = if decide (k' = k) then Some v else od_get k' d.
Proof.
  induction d as [|[k1 v1] d IH]; simpl.
  - by repeat case_decide.
  - destruct (decide (k = k1)); simpl.
    + subst k1. by repeat case_decide.
    + rewrite IH. repeat case_decide; congruence.
Qed.

Lemma od_get_set_eq d k v : od_get k (od_set k v d) = Some v.
Proof. rewrite od_get_set. by case_decide. Qed.

Lemma od_get_set_ne d k v k' : k' ≠ k -> od_get k' (od_set k v d) = od_get k' d.
Proof. intros. rewrite od_get_set. by case_decide. Qed.

Lemma od_get_del d k k' : od_get k' (od_del k d) = if decide (k' = k) then None else od_get k' d.
Proof.
  unfold od_del. induction d as [|[k1 v1] d IH]; simpl; [by case_decide|].
  rewrite filter_cons. simpl. destruct (decide (k1 = k)) as [->|E1].
  - rewrite decide_False by tauto. rewrite IH. by repeat case_decide.
  - rewrite decide_True by done. simpl. rewrite IH. repeat case_decide; congruence.
Qed.

Lemma od_keys_set_in d k v : k ∈ od_keys d -> od_keys (od_set k v d) = od_keys d.
Proof.
  unfold od_keys. induction d as [|[k1 v1] d IH]; simpl; [by intros ?%not_elem_of_nil|].
  intros Hin. destruct (decide (k = k1)); [done|]. rewrite !fmap_cons. f_equal. apply IH. set_solver.
Qed.

Lemma od_keys_set_notin d k v : k ∉ od_keys d -> od_set k v d = d ++ [(k, v)].
Proof.
  unfold od_keys. induction d as [|[k1 v1] d IH]; simpl; [done|].
  rewrite not_elem_of_cons. intros [E Hin]. rewrite decide_False by done. by rewrite IH.
Qed.

Lemma od_set_NoDup d k v : NoDup (od_keys d) -> NoDup (od_keys (od_set k v d)).
Proof.
  intros H. destruct (decide (k ∈ od_keys d)) as [Hk|Hk]; [by rewrite od_keys_set_in|].
  rewrite od_keys_set_notin by done. unfold od_keys. rewrite fmap_app.
  apply NoDup_app. split; [done|]. split; [set_solver|]. apply NoDup_singleton.
Qed.

Lemma od_keys_del d k : od_keys (od_del k d) = filter (fun k' => k' ≠ k) (od_keys d).
Proof.
  unfold od_keys, od_del. induction d as [|[k1 v1] d IH]; [done|].
  rewrite fmap_cons, !filter_cons. cbn [fst]. case_decide; [rewrite fmap_cons; f_equal|]; exact IH.
Qed.

Lemma od_del_NoDup d k : NoDup (od_keys d) -> NoDup (od_keys (od_del k d)).
Proof. intros. rewrite od_keys_del. by apply NoDup_filter. Qed.

Lemma od_get_Some_in d k v : od_get k d = Some v -> (k, v) ∈ d.
Proof.
  induction d as [|[k1 v1] d IH]; simpl; [done|]. case_decide.
  - intros [= ->]. subst. by left.
  - intros. right. auto.
Qed.

Lemma od_in_get d k v : NoDup (od_keys d) -> (k, v) ∈ d -> od_get k d = Some v.
Proof.
  unfold od_keys. induction d as [|[k1 v1] d IH]; simpl; [by intros ? ?%not_elem_of_nil|].
  rewrite NoDup_cons. intros [H1 H2] [E|Hin]%elem_of_cons.
  - injection E as -> ->. by case_decide.
  - case_decide; [|auto]. subst. exfalso. apply H1.
    by apply list_elem_of_fmap_2 with (f := fst) in Hin.
Qed.

Lemma od_get_None d k : od_get k d = None <-> k ∉ od_keys d.
Proof.
  unfold od_keys. induction d as [|[k1 v1] d IH]; simpl; [set_solver|].
  case_decide; [split; [done|set_solver]|]. rewrite IH. set_solver.
Qed.

(** A property of every entry survives an update with a good value. *)
Lemma od_set_Forall (P : K * V -> Prop) d k v : P (k, v) -> Forall P d -> Forall P (od_set k v d).
Proof.
  intros Hk. induction 1 as [|[k1 v1] d H1 H2 IH]; simpl; [by repeat constructor|].
  case_decide; subst; by constructor.
Qed.

Lemma od_del_Forall (P : K * V -> Prop) d k : Forall P d -> Forall P (od_del k d).
Proof.
  rewrite !Forall_forall. intros H x [_ Hx]%list_elem_of_filter. auto.
Qed.

Lemma od_set_length_le d k v : (length (od_set k v d) <= S (length d))%nat.
Proof. induction d as [|[k1 v1] d IH]; simpl; [done|]. case_decide; simpl; lia. Qed.

(** *** Abstraction to finite maps *)

Context `{Countable K}.

Definition od_map (d : list (K * V)) : gmap K V := list_to_map d.

Lemma lookup_od_map d k : od_map d !! k = od_get k d.
Proof.
  unfold od_map. induction d as [|[k1 v1] d IH]; simpl; [apply lookup_empty|].
  rewrite lookup_insert, IH. by repeat case_decide.
Qed.

Lemma od_map_set d k v : od_map (od_set k v d) = <[k := v]> (od_map d).
Proof.
  apply map_eq. intros k'. rewrite lookup_od_map, od_get_set, lookup_insert, lookup_od_map.
  repeat case_decide; congruence.
Qed.

Lemma od_map_del d k : od_map (od_del k d) = delete k (od_map d).
Proof.
  apply map_eq. intros k'. rewrite lookup_od_map, od_get_del, lookup_delete, lookup_od_map.
  repeat case_decide; congruence.
Qed.

End OrderedDict.

Create HintDb pydict.
#[export] Hint Resolve od_set_NoDup od_del_NoDup od_set_Forall od_del_Forall : pydict.

(** ** Stable sorting *)

Section Sorting.
Context {A : Type} (le : A -> A -> bool).

Fixpoint insert_sorted (x : A) (l : list A) : list A :=
  match l with
  | [] => [x]
  | y :: l' => if le x y then x :: l else y :: insert_sorted x l'
  end.

(** [sorted(l, key=...)], with [le x y] for [key(x) <= key(y)] (or [>=] with
    [reverse=True]); equal keys keep their order. *)
Definition sorted (l : list A) : list A := foldr insert_sorted [] l.

Lemma insert_sorted_perm x l : insert_sorted x l ≡ₚ x :: l.
Proof.
  induction l as [|y l IH]; simpl; [done|]. destruct (le x y); [done|].
  rewrite IH. apply Permutation_swap.
Qed.

Lemma sorted_perm l : sorted l ≡ₚ l.
Proof.
  induction l as [|x l IH]; simpl; [done|]. by rewrite insert_sorted_perm, IH.
Qed.

Lemma elem_of_sorted x l : x ∈ sorted l <-> x ∈ l.
Proof. by rewrite sorted_perm. Qed.

Lemma sorted_length l : length (sorted l) = length l.
Proof. by rewrite sorted_perm. Qed.

Definition leP (x y : A) : Prop := le x y = true.

Hypothesis le_trans : forall x y z, le x y = true -> le y z = true -> le x z = true.
Hypothesis le_total : forall x y, le x y = true \/ le y x = true.

Lemma insert_sorted_sorted x l : StronglySorted leP l -> StronglySorted leP (insert_sorted x l).
Proof.
  induction 1 as [|y l H1 IH Hy]; simpl.
  - repeat constructor.
  - destruct (le x y) eqn:E.
    + constructor; [by constructor|]. constructor; [done|].
      eapply Forall_impl; [exact Hy|]. intros z Hz. by apply (le_trans x y z).
    + constructor; [done|]. rewrite insert_sorted_perm.
      constructor; [|done]. unfold leP. destruct (le_total y x); congruence.
Qed.

Lemma sorted_sorted l : StronglySorted leP (sorted l).
Proof. induction l; simpl; [constructor|]. by apply insert_sorted_sorted. Qed.

(** The head of a sorted list is a least element. *)
Lemma sorted_head_le x l' l y : sorted l = x :: l' -> y ∈ l -> le x y = true.
Proof.
  intros E Hy. pose proof (sorted_sorted l) as S. rewrite E in S.
  rewrite <- elem_of_sorted, E in Hy. apply elem_of_cons in Hy as [->|Hy].
  - destruct (le_total x x); done.
  - inversion_clear S as [|? ? _ F]. rewrite Forall_forall in F. by apply F.
Qed.

End Sorting.

(** ** Text *)

#[local] Open Scope string_scope.

Definition ascii_upper (c : ascii) : ascii :=
  let n := nat_of_ascii c in
  if (97 <=? n)%nat && (n <=? 122)%nat then ascii_of_nat (n - 32) else c.

Definition ascii_lower (c : ascii) : ascii :=
  let n := nat_of_ascii c in
  if (65 <=? n)%nat && (n <=? 90)%nat then ascii_of_nat (n + 32) else c.

Fixpoint str_map (f : ascii -> ascii) (s : string) : string :=
  match s with
  | "" => ""
  | String c s' => String (f c) (str_map f s')
  end.

Definition str_upper : string -> string := str_map ascii_upper.
Definition str_lower : string -> string := str_map ascii_lower.

(** [s.replace(old, new)] for a non-empty [old]. *)
Fixpoint str_replace_go (old new : string) (skip : nat) (s : string) : string :=
  match s with
  | "" => ""
  | String c s' =>
      match skip with
      | S k => str_replace_go old new k s'
      | O => if String.prefix old s
             then new +:+ str_replace_go old new (String.length old - 1) s'
             else String c (str_replace_go old new 0 s')
      end
  end.
Definition str_replace (old new s : string) : string := str_replace_go old new 0 s.

Definition str_startswith (p s : string) : bool := String.prefix p s.

Fixpoint str_rev_app (s acc : string) : string :=
  match s with "" => acc | String c s' => str_rev_app s' (String c acc) end.
Definition str_endswith (p s : string) : bool :=
  String.prefix (str_rev_app p "") (str_rev_app s "").

Fixpoint str_join (sep : string) (l : list string) : string :=
  match l with
  | [] => ""
  | [s] => s
  | s :: l' => s +:+ sep +:+ str_join sep l'
  end.

(** [s.split(c)] on a single character. *)
Fixpoint str_split_go (c : ascii) (cur : string) (s : string) : list string :=
  match s with
  | "" => [str_rev_app cur ""]
  | String c' s' =>
      if Ascii.eqb c c' then str_rev_app cur "" :: str_split_go c "" s'
      else str_split_go c (String c' cur) s'
  end.
Definition str_split (c : ascii) (s : string) : list string := str_split_go c "" s.

Fixpoint str_contains (c : ascii) (s : string) : bool :=
  match s with "" => false | String c' s' => Ascii.eqb c c' || str_contains c s' end.

(** Lexicographic comparison of strings, [a <= b]. *)
Fixpoint str_le (a b : string) : bool :=
  match a, b with
  | "", _ => true
  | String _ _, "" => false
  | String x a', String y b' =>
      let m := nat_of_ascii x in
      let n := nat_of_ascii y in
      if (m <? n)%nat then true else if (n <? m)%nat then false else str_le a' b'
  end.

Lemma str_le_trans x y z : str_le x y = true -> str_le y z = true -> str_le x z = true.
Proof.
  revert y z. induction x as [|a x IH]; intros [|b y] [|c z]; simpl; try done.
  repeat match goal with
         | |- context [(?m <? ?n)%nat] => destruct (Nat.ltb_spec m n)
         end; try done; try lia. apply IH.
Qed.

Lemma str_le_total x y : str_le x y = true \/ str_le y x = true.
Proof.
  revert y. induction x as [|a x IH]; intros [|b y]; simpl; auto.
  repeat match goal with
         | |- context [(?m <? ?n)%nat] => destruct (Nat.ltb_spec m n)
         end; auto; lia.
Qed.

(** [str(n)] for an integer. *)
Definition str_of_Z (z : Z) : string := pretty z.

Example text_examples :
  str_replace "/" "" "BTC/USDT" = "BTCUSDT"
  /\ str_upper "btc_Usdt" = "BTC_USDT"
  /\ str_split ":"%char "marketdata:ticker:binance:BTC/USDT" = ["marketdata"; "ticker"; "binance"; "BTC/USDT"]
  /\ str_endswith ":BTC/USDT" "binance:BTC/USDT" = true
  /\ str_of_Z (-42) = "-42"
  /\ sorted str_le ["USDT"; "BTC"; "ETH"] = ["BTC"; "ETH"; "USDT"].
Proof. vm_compute. repeat split. Qed.
