(* ===== verification/PyValue.v ===== *)
(** * PyValue: dynamically typed values

    The payloads, metadata dictionaries and venue responses the code handles
    are [dict[str, Any]]. [pyval] is the type of such values, with Python's
    truthiness, [str], [repr], [int] and [Decimal] conversions on it. Text is
    ASCII. *)

From S2P Require Import Prelude PyFloat PyDecimal PyData Rounding.
From Stdlib Require Import Ascii.

#[local] Open Scope string_scope.

(** ** Number printing *)

Definition digits_str (n : Z) : string := str_of_Z (Z.abs n).

Fixpoint str_zeros (n : nat) : string :=
  match n with O => "" | S n' => String "0" (str_zeros n') end.

(** Digits [ds] with the decimal point after [dot] digits. *)
Definition place_point (ds : string) (dot : Z) : string :=
  let len := Z.of_nat (String.length ds) in
  if (dot <=? 0)%Z then "0." +:+ str_zeros (Z.to_nat (- dot)) +:+ ds
  else if (len <=? dot)%Z then ds +:+ str_zeros (Z.to_nat (dot - len))
  else String.substring 0 (Z.to_nat dot) ds +:+ "." +:+
       String.substring (Z.to_nat dot) (String.length ds - Z.to_nat dot) ds.

Definition sign_str (z : Z) : string := if (z <? 0)%Z then "-" else "".

(** [str(d)]: scientific notation only for large or very small exponents. *)
Definition dec_str (d : dec) : string :=
  let ds := digits_str (coef d) in
  let left := (dexp d + Z.of_nat (String.length ds))%Z in
  let fixed := (dexp d <=? 0)%Z && (-6 <? left)%Z in
  let dot := if fixed then left else 1%Z in
  let body := if (dot =? Z.of_nat (String.length ds))%Z then ds else place_point ds dot in
  let ex := (left - dot)%Z in
  sign_str (coef d) +:+ body +:+
    (if (ex =? 0)%Z then "" else "E" +:+ (if (ex <? 0)%Z then "-" else "+") +:+ digits_str ex).

(** [format(d, "f")]: never scientific. *)
Definition dec_format_f (d : dec) : string :=
  let d' := if (coef d =? 0)%Z && (0 <? dexp d)%Z then dzero else d in
  let ds := digits_str (coef d') in
  let dot := (dexp d' + Z.of_nat (String.length ds))%Z in
  sign_str (coef d') +:+
    (if (dot =? Z.of_nat (String.length ds))%Z then ds else place_point ds dot).

(** [repr(x)] of a float, from its shortest digits. *)
Definition float_str (x : float) : string :=
  match x with
  | NaN => "nan"
  | Inf false => "inf"
  | Inf true => "-inf"
  | Fin q =>
      let d := dec_of_Q q in
      if (coef d =? 0)%Z then "0.0" else
      let ds := digits_str (coef d) in
      let left := (dexp d + Z.of_nat (String.length ds))%Z in
      if (-4 <? left)%Z && (left <=? 16)%Z then sign_str (coef d) +:+ place_point ds left
      else
        let ex := (left - 1)%Z in
        let mant := if (String.length ds =? 1)%nat then ds else place_point ds 1 in
        let exs := digits_str ex in
        sign_str (coef d) +:+ mant +:+ "e" +:+ (if (ex <? 0)%Z then "-" else "+") +:+
          (if (String.length exs =? 1)%nat then "0" +:+ exs else exs)
  end.

Example print_examples :
  dec_str (mkDec 12345 (-2)) = "123.45" /\ dec_str (mkDec 1 (-8)) = "1E-8"
  /\ dec_str (mkDec 1 (-6)) = "0.000001" /\ dec_str (mkDec 15 1) = "1.5E+2"
  /\ dec_str (dZ 7) = "7" /\ dec_str (mkDec (-5) (-1)) = "-0.5"
  /\ dec_format_f (mkDec 15 1) = "150" /\ dec_format_f (mkDec 1 (-8)) = "0.00000001"
  /\ dec_format_f (dnormalize (mkDec 100500 (-3))) = "100.5"
  /\ float_str (of_Z 50000) = "50000.0" /\ float_str (flit 1 100000) = "1e-05"
  /\ float_str (flit 1 10) = "0.1" /\ float_str (of_Q (inject_Z (10 ^ 22))) = "1e+22"
  /\ float_str (fneg (flit 25 100)) = "-0.25".
Proof. vm_compute. repeat split. Qed.

(** ** Number parsing *)

Definition is_space (c : ascii) : bool :=
  let n := nat_of_ascii c in ((9 <=? n) && (n <=? 13) || (28 <=? n) && (n <=? 32))%nat.

Fixpoint str_lstrip (s : string) : string :=
  match s with
  | String c s' => if is_space c then str_lstrip s' else s
  | "" => ""
  end.
Definition str_strip (s : string) : string :=
  str_rev_app (str_lstrip (str_rev_app (str_lstrip s) "")) "".

Definition digit_val (c : ascii) : option Z :=
  let n := nat_of_ascii c in
  if ((48 <=? n) && (n <=? 57))%nat then Some (Z.of_nat n - 48)%Z else None.

(** Leading digits: value, count and rest. *)
Fixpoint take_digits (s : string) (acc : Z) (n : Z) : Z * Z * string :=
  match s with
  | String c s' =>
      match digit_val c with
      | Some d => take_digits s' (acc * 10 + d) (n + 1)
      | None => (acc, n, s)
      end
  | "" => (acc, n, "")
  end.

Definition take_sign (s : string) : Z * string :=
  match s with
  | String c s' => if Ascii.eqb c "-" then ((-1)%Z, s') else if Ascii.eqb c "+" then (1%Z, s') else (1%Z, s)
  | "" => (1%Z, s)
  end.

(** [int(s)] on text; single underscores between digits are not supported. *)
Definition int_of_str (s : string) : option Z :=
  let '(sg, s1) := take_sign (str_strip s) in
  let '(v, n, rest) := take_digits s1 0 0 in
  if (0 <? n)%Z && String.eqb rest "" then Some (sg * v)%Z else None.

(** [Decimal(s)] on text; the special values (Infinity, NaN) are not
    represented and are refused like malformed text. *)
Definition dec_of_str (s : string) : option dec :=
  let '(sg, s1) := take_sign (str_replace "_" "" (str_strip s)) in
  let '(v, n, r1) := take_digits s1 0 0 in
  let '(v2, nf, r2) :=
    match r1 with
    | String c r => if Ascii.eqb c "." then
                      let '(w, m, r') := take_digits r v 0 in (w, m, r')
                    else (v, 0%Z, r1)
    | "" => (v, 0%Z, "")
    end in
  if (n + nf =? 0)%Z then None else
  match r2 with
  | "" => Some (mkDec (sg * v2) (- nf))
  | String c r =>
      if Ascii.eqb c "e" || Ascii.eqb c "E" then
        let '(es, r3) := take_sign r in
        let '(ev, en, r4) := take_digits r3 0 0 in
        if (0 <? en)%Z && String.eqb r4 "" then Some (mkDec (sg * v2) (es * ev - nf)) else None
      else None
  end.

Example parse_examples :
  int_of_str " -12 " = Some (-12)%Z /\ int_of_str "3.0" = None /\ int_of_str "" = None
  /\ dec_of_str "0.00000001" = Some (mkDec 1 (-8)) /\ dec_of_str "1.50" = Some (mkDec 150 (-2))
  /\ dec_of_str "-2E+3" = Some (mkDec (-2) 3) /\ dec_of_str ".5" = Some (mkDec 5 (-1))
  /\ dec_of_str "abc" = None /\ dec_of_str "5." = Some (mkDec 5 0).
Proof. vm_compute. repeat split. Qed.

(** ** Dynamic values *)

Inductive pyval : Type :=
  | PNone
  | PBool (b : bool)
  | PInt (z : Z)
  | PFloat (x : float)
  | PDec (d : dec)
  | PStr (s : string)
  | PList (l : list pyval)
  | PDict (d : list (string * pyval)).

(** [bool(v)] *)
Definition truthy (v : pyval) : bool :=
  match v with
  | PNone => false
  | PBool b => b
  | PInt z => negb (z =? 0)%Z
  | PFloat x => negb (feq x (Fin 0))
  | PDec d => dtruth d
  | PStr s => negb (String.eqb s "")
  | PList l => match l with [] => false | _ => true end
  | PDict d => match d with [] => false | _ => true end
  end.

(** [a or b] *)
Definition por (a b : pyval) : pyval := if truthy a then a else b.

(** [d.get(k)] *)
Definition pget (k : string) (d : list (string * pyval)) : pyval :=
  match od_get k d with Some v => v | None => PNone end.

(** [d.get(k1) or d.get(k2) or ... or last] *)
Fixpoint pget_first (ks : list string) (last : pyval) (d : list (string * pyval)) : pyval :=
  match ks with
  | [] => last
  | k :: ks' => por (pget k d) (pget_first ks' last d)
  end.

(** [k in d] *)
Definition phas (k : string) (d : list (string * pyval)) : bool :=
  match od_get k d with Some _ => true | None => false end.

Definition phas_any (ks : list string) (d : list (string * pyval)) : bool :=
  existsb (fun k => phas k d) ks.

(** [repr] of text: quoted with ['], or with double quotes when it contains ['] only. *)
Definition dquote : ascii := ascii_of_nat 34.
Definition squote : ascii := "'".

Fixpoint str_escape (q : ascii) (s : string) : string :=
  match s with
  | "" => ""
  | String c s' =>
      let n := nat_of_ascii c in
      let e := str_escape q s' in
      if Ascii.eqb c "\" || Ascii.eqb c q then String "\" (String c e)
      else if (n =? 9)%nat then "\t" +:+ e
      else if (n =? 10)%nat then "\n" +:+ e
      else if (n =? 13)%nat then "\r" +:+ e
      else String c e
  end.

Definition str_repr (s : string) : string :=
  let q := if str_contains squote s && negb (str_contains dquote s) then dquote else squote in
  String q (str_escape q s +:+ String q "").

Fixpoint py_repr (v : pyval) : string :=
  match v with
  | PNone => "None"
  | PBool true => "True"
  | PBool false => "False"
  | PInt z => str_of_Z z
  | PFloat x => float_str x
  | PDec d => "Decimal('" +:+ dec_str d +:+ "')"
  | PStr s => str_repr s
  | PList l => "[" +:+ str_join ", " (map py_repr l) +:+ "]"
  | PDict d => "{" +:+ str_join ", " (map (fun kv => str_repr kv.1 +:+ ": " +:+ py_repr kv.2) d) +:+ "}"
  end.

(** [str(v)] *)
Definition py_str (v : pyval) : string :=
  match v with
  | PStr s => s
  | PDec d => dec_str d
  | _ => py_repr v
  end.

(** Truncation of a rational toward zero. *)
Definition Qtrunc (q : Q) : Z := Z.quot (Qnum q) (QDen q).

(** [int(v)] *)
Definition py_int (v : pyval) : result Z :=
  match v with
  | PBool b => Ok (if b then 1 else 0)%Z
  | PInt z => Ok z
  | PFloat (Fin q) => Ok (Qtrunc q)
  | PFloat (Inf _) => raise OverflowError "cannot convert float infinity to integer"
  | PFloat NaN => raise ValueError "cannot convert float NaN to integer"
  | PDec d => Ok (Qtrunc (dval d))
  | PStr s => match int_of_str s with
              | Some z => Ok z
              | None => raise ValueError "invalid literal for int() with base 10"
              end
  | PNone | PList _ | PDict _ => raise TypeError "int() argument must be a string or a real number"
  end.

(** [Decimal(str(v))] *)
Definition py_decimal_str (v : pyval) : result dec :=
  match dec_of_str (py_str v) with
  | Some d => Ok d
  | None => raise DecimalException "ConversionSyntax"
  end.

Example pyval_examples :
  por (PStr "") (PInt 0) = PInt 0 /\ por (PInt 7) PNone = PInt 7
  /\ py_str (PDict [("code", PInt 429); ("msg", PStr "it's")]) = "{'code': 429, 'msg': " +:+ str_repr "it's" +:+ "}"
  /\ py_str (PList [PNone; PBool true; PFloat (flit 5 10)]) = "[None, True, 0.5]"
  /\ py_int (PStr "11") = Ok 11%Z /\ py_decimal_str (PFloat (flit 1 1000)) = Ok (mkDec 1 (-3)).
Proof. vm_compute. repeat split. Qed.

Lemma pget_first_none ks last d :
  (forall k, k ∈ ks -> truthy (pget k d) = false) -> pget_first ks last d = last.
Proof.
  induction ks as [|k ks IH]; intros H; [done|]. simpl. unfold por.
  rewrite H by set_solver. apply IH. set_solver.
Qed.

(** [float(s)] on text, with the special values Python accepts. *)
Definition float_of_str (s : string) : option float :=
  let '(sg, body) := take_sign (str_lower (str_strip s)) in
  if String.eqb body "inf" || String.eqb body "infinity" then Some (Inf (sg <? 0)%Z)
  else if String.eqb body "nan" then Some NaN
  else float_of_dec <$> dec_of_str s.

(** [float(v)] *)
Definition py_float (v : pyval) : result float :=
  match v with
  | PBool b => Ok (of_Z (if b then 1 else 0))
  | PInt z => match of_Z z with Fin q => Ok (Fin q) | _ => raise OverflowError "int too large to convert to float" end
  | PFloat x => Ok x
  | PDec d => Ok (float_of_dec d)
  | PStr s => match float_of_str s with Some x => Ok x | None => raise ValueError "could not convert string to float" end
  | _ => raise TypeError "float() argument must be a string or a real number"
  end.

(** ** Dictionaries of values *)

Definition dict : Type := list (string * pyval).

(** [x.get] on a value that is not a dict. *)
Definition as_dict (v : pyval) : result dict :=
  match v with
  | PDict d => Ok d
  | PList _ => raise AttributeError "'list' object has no attribute 'get'"
  | _ => raise AttributeError "object has no attribute 'get'"
  end.

(** [d.get(k, default)] on a value: only a dict has [get]. *)
Definition pget_default (k : string) (default : pyval) (d : dict) : pyval :=
  match od_get k d with Some v => v | None => default end.

(** [v[k]] with a text key *)
Definition item_get (k : string) (v : pyval) : result pyval :=
  match v with
  | PDict d => match od_get k d with Some x => Ok x | None => raise KeyError k end
  | _ => raise TypeError "object is not subscriptable by a string"
  end.

(** [for item in v] *)
Definition iterate (v : pyval) : result (list pyval) :=
  match v with
  | PList l => Ok l
  | PDict d => Ok (map (fun kv => PStr kv.1) d)
  | PStr s => Ok (map (fun c => PStr (String c "")) (String.list_ascii_of_string s))
  | _ => raise TypeError "object is not iterable"
  end.

Definition dict_merge (a b : list (string * pyval)) : list (string * pyval) :=
  foldl (fun d kv => od_set kv.1 kv.2 d) a b.

(** [float(len(l))] *)
Definition flen {A} (l : list A) : float := of_Z (Z.of_nat (length l)).

(** Induction on values through the lists and dictionaries they contain. *)
Section PyvalInd.
Context (P : pyval -> Prop).
Hypothesis P_atom : forall v, (forall l, v <> PList l) -> (forall d, v <> PDict d) -> P v.
Hypothesis P_list : forall l, Forall P l -> P (PList l).
Hypothesis P_dict : forall d, Forall (fun kv => P kv.2) d -> P (PDict d).
Fixpoint pyval_nested_ind (v : pyval) : P v :=
  match v with
  | PList l => P_list l ((fix go l : Forall P l := match l with [] => Forall_nil_2 _ | x :: l' => Forall_cons_2 _ _ _ (pyval_nested_ind x) (go l') end) l)
  | PDict d => P_dict d ((fix go d : Forall (fun kv : string * pyval => P kv.2) d :=
                            match d with [] => Forall_nil_2 _ | kv :: d' => Forall_cons_2 _ _ _ (pyval_nested_ind kv.2) (go d') end) d)
  | v => P_atom v ltac:(discriminate) ltac:(discriminate)
  end.
End PyvalInd.
