(* ===== verification/Models.v ===== *)
(** * Models: the data types shared by the components

    [execution/models.py], [exchanges/types.py], the enums of [db/models.py]
    and [production/canary.py]'s launch mode. A [datetime] is the number of
    microseconds since the epoch in UTC. *)

From S2P Require Import Prelude PyFloat PyDecimal PyData PyValue.

#[local] Open Scope string_scope.

Definition datetime : Type := Z.

(** [timedelta(seconds=n)] and [(a - b).total_seconds()] *)
Definition seconds (n : Z) : Z := (n * 1000000)%Z.
Definition total_seconds (delta : Z) : float := of_Q (delta # 1000000).

Inductive ExecutionVenue : Type := coinstore | mexc | gate | bitmart | kucoin | binance.
Inductive ExecutionSide : Type := buy | sell.
Inductive ExecutionOrderType : Type := ot_limit | ot_market | ot_post_only | ot_ioc | ot_fok.
Inductive TimeInForce : Type := tif_gtc | tif_ioc | tif_fok | tif_post_only.
Inductive NormalizedOrderStatus : Type :=
  | st_new | st_open | st_partially_filled | st_filled | st_cancelled | st_rejected
  | st_expired | st_unknown.

(** [db/models.py] *)
Inductive OrderStatus : Type :=
  | os_created | os_submitted | os_open | os_partially_filled | os_filled
  | os_cancel_pending | os_cancelled | os_rejected | os_expired | os_failed.
Inductive PositionSide : Type := pos_long | pos_short | pos_flat.

#[export] Instance ExecutionVenue_eq_dec : EqDecision ExecutionVenue.
Proof. solve_decision. Defined.
#[export] Instance ExecutionSide_eq_dec : EqDecision ExecutionSide.
Proof. solve_decision. Defined.
#[export] Instance ExecutionOrderType_eq_dec : EqDecision ExecutionOrderType.
Proof. solve_decision. Defined.
#[export] Instance TimeInForce_eq_dec : EqDecision TimeInForce.
Proof. solve_decision. Defined.
#[export] Instance NormalizedOrderStatus_eq_dec : EqDecision NormalizedOrderStatus.
Proof. solve_decision. Defined.
#[export] Instance OrderStatus_eq_dec : EqDecision OrderStatus.
Proof. solve_decision. Defined.
#[export] Instance PositionSide_eq_dec : EqDecision PositionSide.
Proof. solve_decision. Defined.

(** The [.value] of each enum. *)
Definition venue_value (v : ExecutionVenue) : string :=
  match v with
  | coinstore => "coinstore" | mexc => "mexc" | gate => "gate"
  | bitmart => "bitmart" | kucoin => "kucoin" | binance => "binance"
  end.

Definition side_value (s : ExecutionSide) : string :=
  match s with buy => "buy" | sell => "sell" end.

Definition order_type_value (t : ExecutionOrderType) : string :=
  match t with
  | ot_limit => "limit" | ot_market => "market" | ot_post_only => "post_only"
  | ot_ioc => "ioc" | ot_fok => "fok"
  end.

Definition tif_value (t : TimeInForce) : string :=
  match t with
  | tif_gtc => "GTC" | tif_ioc => "IOC" | tif_fok => "FOK" | tif_post_only => "POST_ONLY"
  end.

Definition status_value (s : NormalizedOrderStatus) : string :=
  match s with
  | st_new => "new" | st_open => "open" | st_partially_filled => "partially_filled"
  | st_filled => "filled" | st_cancelled => "cancelled" | st_rejected => "rejected"
  | st_expired => "expired" | st_unknown => "unknown"
  end.

Definition opposite_side (s : ExecutionSide) : ExecutionSide :=
  match s with buy => sell | sell => buy end.

Record SymbolPrecision : Type := mkPrecision {
  sp_symbol : string;
  sp_venue_symbol : string;
  price_tick : dec;
  quantity_step : dec;
  min_quantity : dec;
  min_notional : dec;
  price_precision : Z;
  quantity_precision : Z }.

Record OrderIntent : Type := mkIntent {
  oi_venue : ExecutionVenue;
  oi_symbol : string;
  oi_side : ExecutionSide;
  oi_order_type : ExecutionOrderType;
  oi_quantity : dec;
  oi_price : option dec;
  oi_client_order_id : string;
  oi_time_in_force : TimeInForce;
  oi_reduce_only : bool;
  oi_metadata : list (string * pyval) }.

Record CancelIntent : Type := mkCancel {
  ci_venue : ExecutionVenue;
  ci_symbol : string;
  ci_client_order_id : option string;
  ci_exchange_order_id : option string }.

Record ReplaceIntent : Type := mkReplace {
  ri_cancel : CancelIntent;
  ri_replacement : OrderIntent }.

Record ExecutionOrder : Type := mkExecutionOrder {
  eo_venue : ExecutionVenue;
  eo_symbol : string;
  eo_client_order_id : option string;
  eo_exchange_order_id : option string;
  eo_status : NormalizedOrderStatus;
  eo_side : option ExecutionSide;
  eo_order_type : option ExecutionOrderType;
  eo_price : option dec;
  eo_quantity : option dec;
  eo_filled_quantity : dec;
  eo_average_price : option dec;
  eo_fee : option dec;
  eo_raw : pyval }.

Record Balance : Type := mkBalance {
  bal_venue : ExecutionVenue;
  bal_asset : string;
  bal_total : dec;
  bal_available : dec;
  bal_reserved : dec;
  bal_raw : pyval }.

Record Position : Type := mkPosition {
  po_venue : ExecutionVenue;
  po_symbol : string;
  po_asset : string;
  po_quantity : dec;
  po_notional : dec;
  po_mark_price : option dec;
  po_raw : pyval }.

Record ExecutionErrorContext : Type := mkErrorContext {
  ec_venue : ExecutionVenue;
  ec_code : string;
  ec_message : string;
  ec_retryable : bool;
  ec_raw : pyval }.

(** [exchanges/types.py] *)
Record OrderBookLevel : Type := mkLevel { lv_price : float; lv_size : float }.

Record OrderBookSnapshot : Type := mkBook {
  ob_exchange : string;
  ob_symbol : string;
  bids : list OrderBookLevel;
  asks : list OrderBookLevel;
  ob_source_timestamp : datetime;
  ob_sequence : option string }.

Record RateLimitRule : Type := mkRate { rl_requests : Z; rl_window_seconds : Z }.

(** [production/canary.py] *)
Inductive LaunchMode : Type := lm_read_only | lm_shadow | lm_paper | lm_dry_run | lm_canary | lm_live.

#[export] Instance LaunchMode_eq_dec : EqDecision LaunchMode.
Proof. solve_decision. Defined.

Definition launch_mode_value (m : LaunchMode) : string :=
  match m with
  | lm_read_only => "read_only" | lm_shadow => "shadow" | lm_paper => "paper"
  | lm_dry_run => "dry_run" | lm_canary => "canary" | lm_live => "live"
  end.

(** [max(level.price for level in levels)], for a non-empty list. *)
Definition best_of (pick : float -> float -> float) (ls : list OrderBookLevel) : option float :=
  match ls with
  | [] => None
  | l :: ls' => Some (foldl (fun acc x => pick acc (lv_price x)) (lv_price l) ls')
  end.
Definition best_bid (b : OrderBookSnapshot) : option float := best_of fmax (bids b).
Definition best_ask (b : OrderBookSnapshot) : option float := best_of fmin (asks b).

(** ** [datetime.isoformat()] of a UTC time *)

(** Proleptic Gregorian date of a day number counted from 1970-01-01. *)
Definition civil_of_days (days : Z) : Z * Z * Z :=
  let z := (days + 719468)%Z in
  let era := (z / 146097)%Z in
  let doe := (z - era * 146097)%Z in
  let yoe := ((doe - doe / 1460 + doe / 36524 - doe / 146096) / 365)%Z in
  let doy := (doe - (365 * yoe + yoe / 4 - yoe / 100))%Z in
  let mp := ((5 * doy + 2) / 153)%Z in
  let d := (doy - (153 * mp + 2) / 5 + 1)%Z in
  let m := (if mp <? 10 then mp + 3 else mp - 9)%Z in
  ((yoe + era * 400 + (if m <=? 2 then 1 else 0))%Z, m, d).

Definition pad (n : nat) (z : Z) : string :=
  let s := str_of_Z z in str_zeros (n - String.length s) +:+ s.

Definition isoformat (t : datetime) : string :=
  let '(y, m, d) := civil_of_days (t / seconds 86400) in
  let s := (t mod seconds 86400)%Z in
  let us := (s mod 1000000)%Z in
  pad 4 y +:+ "-" +:+ pad 2 m +:+ "-" +:+ pad 2 d +:+ "T" +:+ pad 2 (s / seconds 3600) +:+ ":"
    +:+ pad 2 (s / seconds 60 mod 60) +:+ ":" +:+ pad 2 (s / seconds 1 mod 60)
    +:+ (if (us =? 0)%Z then "" else "." +:+ pad 6 us) +:+ "+00:00".

Example isoformat_examples :
  isoformat 0%Z = "1970-01-01T00:00:00+00:00"
  /\ isoformat (seconds 1709210096 + 42)%Z = "2024-02-29T12:34:56.000042+00:00".
Proof. vm_compute. split; reflexivity. Qed.
