(* ===== verification/Config.v ===== *)
(** * Config: runtime configuration and its validators ([core/config.py])

    Every settings class is a record; [validate_*] is what constructing the
    pydantic model does: the [Field] constraints and then the model validator,
    a violation being a [ValidationError]. *)

From S2P Require Import Prelude PyFloat PyDecimal PyData PyValue Models.

#[local] Open Scope string_scope.

(** [Field(gt=..)], [Field(ge=..)], [Field(le=..)]; NaN satisfies none. *)
Definition gt0 (x : float) : bool := fgt x (Fin 0).
Definition ge0 (x : float) : bool := fge x (Fin 0).
Definition within (lo hi z : Z) : bool := (lo <=? z)%Z && (z <=? hi)%Z.

Record SpreadSettings : Type := mkSpread {
  base_spread_bps : float;
  min_spread_bps : float;
  max_spread_bps : float;
  volatility_multiplier : float }.

Definition spread_fields_ok (s : SpreadSettings) : bool :=
  gt0 (base_spread_bps s) && gt0 (min_spread_bps s) && gt0 (max_spread_bps s)
  && ge0 (volatility_multiplier s).

Definition validate_spread_bounds (s : SpreadSettings) : result SpreadSettings :=
  if fle (min_spread_bps s) (base_spread_bps s) && fle (base_spread_bps s) (max_spread_bps s)
  then Ok s
  else raise ValueError "spread must satisfy min_spread_bps <= base_spread_bps <= max_spread_bps".

Definition validate_spread (s : SpreadSettings) : result SpreadSettings :=
  if spread_fields_ok s then validate_spread_bounds s else raise ValidationError "spread".

Record StrategySettings : Type := mkStrategy {
  st_trading_enabled : bool;
  st_quoting_enabled : bool;
  st_passive_only : bool;
  st_cancel_replace_enabled : bool;
  quote_refresh_seconds : float;
  stale_market_data_seconds : float;
  max_order_age_seconds : float }.

Definition validate_strategy (s : StrategySettings) : result StrategySettings :=
  if gt0 (quote_refresh_seconds s) && gt0 (stale_market_data_seconds s) && gt0 (max_order_age_seconds s)
  then Ok s else raise ValidationError "strategy".

Record OrderSizeSettings : Type := mkOrderSize {
  base_order_size : float;
  min_order_size : float;
  max_order_size : float;
  ladder_levels : Z;
  ladder_size_multiplier : float }.

Definition order_size_fields_ok (s : OrderSizeSettings) : bool :=
  gt0 (base_order_size s) && gt0 (min_order_size s) && gt0 (max_order_size s)
  && within 1 50 (ladder_levels s) && gt0 (ladder_size_multiplier s).

Definition validate_order_size_bounds (s : OrderSizeSettings) : result OrderSizeSettings :=
  if fle (min_order_size s) (base_order_size s) && fle (base_order_size s) (max_order_size s)
  then Ok s
  else raise ValueError "order size must satisfy min_order_size <= base_order_size <= max_order_size".

Definition validate_order_size (s : OrderSizeSettings) : result OrderSizeSettings :=
  if order_size_fields_ok s then validate_order_size_bounds s else raise ValidationError "order_size".

Record OrderLayerSettings : Type := mkLayers {
  enabled_levels : Z;
  spacing_bps : float;
  outer_level_multiplier : float;
  refresh_threshold_bps : float;
  max_active_orders_per_side : Z }.

Definition validate_order_layers (s : OrderLayerSettings) : result OrderLayerSettings :=
  if within 1 50 (enabled_levels s) && gt0 (spacing_bps s) && fge (outer_level_multiplier s) (Fin 1)
     && gt0 (refresh_threshold_bps s) && within 1 100 (max_active_orders_per_side s)
  then Ok s else raise ValidationError "order_layers".

Record InventorySettings : Type := mkInventory {
  target_base_ratio : float;
  skew_intensity : float;
  max_asset_exposure : float;
  alert_threshold_ratio : float }.

Definition validate_inventory (s : InventorySettings) : result InventorySettings :=
  if ge0 (target_base_ratio s) && fle (target_base_ratio s) (Fin 1) && ge0 (skew_intensity s)
     && gt0 (max_asset_exposure s) && gt0 (alert_threshold_ratio s) && fle (alert_threshold_ratio s) (Fin 1)
  then Ok s else raise ValidationError "inventory".

Record RiskSettings : Type := mkRisk {
  max_position_notional : float;
  max_total_exposure : float;
  max_order_notional : float;
  max_open_orders : Z;
  max_daily_loss : float;
  max_position_quantity : float;
  circuit_breaker_enabled : bool;
  circuit_breaker_error_threshold : Z;
  circuit_breaker_cooldown_seconds : Z;
  auto_recovery_enabled : bool;
  auto_recovery_cooldown_seconds : Z }.

Definition risk_fields_ok (s : RiskSettings) : bool :=
  gt0 (max_position_notional s) && gt0 (max_total_exposure s) && gt0 (max_order_notional s)
  && (1 <=? max_open_orders s)%Z && gt0 (max_daily_loss s) && gt0 (max_position_quantity s)
  && (1 <=? circuit_breaker_error_threshold s)%Z && (1 <=? circuit_breaker_cooldown_seconds s)%Z
  && (1 <=? auto_recovery_cooldown_seconds s)%Z.

Definition validate_risk_hierarchy (s : RiskSettings) : result RiskSettings :=
  if fgt (max_order_notional s) (max_position_notional s) then
    raise ValueError "max_order_notional cannot exceed max_position_notional"
  else if fgt (max_position_notional s) (max_total_exposure s) then
    raise ValueError "max_position_notional cannot exceed max_total_exposure"
  else Ok s.

Definition validate_risk (s : RiskSettings) : result RiskSettings :=
  if risk_fields_ok s then validate_risk_hierarchy s else raise ValidationError "risk".

Record ExchangeSettings : Type := mkExchange {
  enabled_exchanges : list string;
  default_timeout_seconds : float;
  max_reconnect_delay_seconds : float;
  heartbeat_interval_seconds : float }.

Definition validate_exchange (s : ExchangeSettings) : result ExchangeSettings :=
  if gt0 (default_timeout_seconds s) && gt0 (max_reconnect_delay_seconds s) && gt0 (heartbeat_interval_seconds s)
  then Ok s else raise ValidationError "exchange".

Record LiquiditySettings : Type := mkLiquidity {
  depth_levels : Z;
  imbalance_threshold : float;
  min_top_of_book_depth : float;
  target_depth_notional : float;
  build_liquidity : bool }.

Definition validate_liquidity (s : LiquiditySettings) : result LiquiditySettings :=
  if within 1 200 (depth_levels s) && gt0 (imbalance_threshold s) && fle (imbalance_threshold s) (Fin 1)
     && ge0 (min_top_of_book_depth s) && gt0 (target_depth_notional s)
  then Ok s else raise ValidationError "liquidity".

Record VolumeSettings : Type := mkVolume {
  vs_enabled : bool;
  hourly_target_notional : float;
  daily_target_notional : float;
  weekly_target_notional : float;
  max_participation_rate : float;
  pressure_threshold : float;
  max_size_multiplier : float;
  min_seconds_between_pressure_orders : Z;
  external_volume_required : bool }.

Definition volume_fields_ok (s : VolumeSettings) : bool :=
  ge0 (hourly_target_notional s) && ge0 (daily_target_notional s) && ge0 (weekly_target_notional s)
  && gt0 (max_participation_rate s) && fle (max_participation_rate s) (flit 2 10)
  && gt0 (pressure_threshold s) && fle (pressure_threshold s) (Fin 1)
  && fge (max_size_multiplier s) (Fin 1) && fle (max_size_multiplier s) (Fin 5)
  && (1 <=? min_seconds_between_pressure_orders s)%Z.

Definition validate_volume_targets (s : VolumeSettings) : result VolumeSettings :=
  if negb (feq (daily_target_notional s) (Fin 0)) && fgt (hourly_target_notional s) (daily_target_notional s) then
    raise ValueError "hourly_target_notional cannot exceed daily_target_notional"
  else if negb (feq (weekly_target_notional s) (Fin 0)) && fgt (daily_target_notional s) (weekly_target_notional s) then
    raise ValueError "daily_target_notional cannot exceed weekly_target_notional"
  else Ok s.

Definition validate_volume (s : VolumeSettings) : result VolumeSettings :=
  if volume_fields_ok s then validate_volume_targets s else raise ValidationError "volume".

Inductive AlertSeverity : Type := sev_info | sev_warning | sev_critical | sev_emergency.
#[export] Instance AlertSeverity_eq_dec : EqDecision AlertSeverity.
Proof. solve_decision. Defined.

Record AlertSettings : Type := mkAlert {
  enabled_channels : list string;
  min_severity : AlertSeverity;
  telegram_enabled : bool }.

Record RuntimeConfig : Type := mkRuntimeConfig {
  rc_strategy : StrategySettings;
  rc_spread : SpreadSettings;
  rc_order_layers : OrderLayerSettings;
  rc_order_size : OrderSizeSettings;
  rc_volume : VolumeSettings;
  rc_inventory : InventorySettings;
  rc_risk : RiskSettings;
  rc_exchange : ExchangeSettings;
  rc_liquidity : LiquiditySettings;
  rc_alert : AlertSettings }.

(** [RuntimeConfig.model_validate] *)
Definition validate_runtime_config (c : RuntimeConfig) : result RuntimeConfig :=
  _ ← validate_strategy (rc_strategy c); _ ← validate_spread (rc_spread c);
  _ ← validate_order_layers (rc_order_layers c); _ ← validate_order_size (rc_order_size c);
  _ ← validate_volume (rc_volume c); _ ← validate_inventory (rc_inventory c);
  _ ← validate_risk (rc_risk c); _ ← validate_exchange (rc_exchange c);
  _ ← validate_liquidity (rc_liquidity c); Ok c.

Definition default_runtime_config : RuntimeConfig :=
  mkRuntimeConfig
    (mkStrategy true true true true (of_Z 5) (of_Z 30) (of_Z 60))
    (mkSpread (of_Z 20) (of_Z 5) (of_Z 200) (flit 15 10))
    (mkLayers 3 (of_Z 20) (flit 125 100) (of_Z 5) 3)
    (mkOrderSize (flit 1 100) (flit 1 1000) (of_Z 1) 3 (flit 125 100))
    (mkVolume false (of_Z 0) (of_Z 0) (of_Z 0) (flit 5 100) (flit 2 10) (of_Z 2) 30 true)
    (mkInventory (flit 5 10) (flit 75 100) (of_Z 100000) (flit 8 10))
    (mkRisk (of_Z 100000) (of_Z 250000) (of_Z 25000) 100 (of_Z 10000) (of_Z 100) true 5 300 false 900)
    (mkExchange ["binance"; "coinstore"; "mexc"; "gate"; "bitmart"; "kucoin"] (of_Z 10) (of_Z 30) (of_Z 20))
    (mkLiquidity 20 (flit 35 100) (of_Z 0) (of_Z 50000) true)
    (mkAlert ["telegram"; "dashboard"] sev_warning true).
