(* ===== verification/Precision.v ===== *)
(** * Precision: venue precision filters ([execution/precision.py]) *)

From S2P Require Import Prelude Rounding PyFloat PyDecimal PyData PyValue Models.

#[local] Open Scope string_scope.

(** [quantize_down(value, increment)] *)
Definition quantize_down (value increment : dec) : result dec :=
  if dle increment dzero then raise PrecisionError "increment must be positive"
  else Ok (dmul (to_integral_down (ddiv value increment)) increment).

(** [apply_symbol_precision(intent, precision)] *)
Definition apply_symbol_precision (intent : OrderIntent) (p : SymbolPrecision) : result OrderIntent :=
  quantity ← quantize_down (oi_quantity intent) (quantity_step p);
  if dlt quantity (min_quantity p) then
    raise PrecisionError ("quantity " +:+ dec_str quantity +:+ " below minimum " +:+
      dec_str (min_quantity p) +:+ " for " +:+ sp_symbol p)
  else
    price ← match oi_price intent with
            | None => Ok None
            | Some pr => Some <$> quantize_down pr (price_tick p)
            end;
    let notional := dmul quantity (match price with
                                   | Some pr => if dtruth pr then pr else dzero
                                   | None => dzero
                                   end) in
    if match price with Some _ => dlt notional (min_notional p) | None => false end then
      raise PrecisionError ("notional " +:+ dec_str notional +:+ " below minimum " +:+
        dec_str (min_notional p) +:+ " for " +:+ sp_symbol p)
    else
      Ok (mkIntent (oi_venue intent) (oi_symbol intent) (oi_side intent) (oi_order_type intent)
            quantity price (oi_client_order_id intent) (oi_time_in_force intent)
            (oi_reduce_only intent) (oi_metadata intent)).

(** [validate_symbol_precision(intent, precision)] *)
Definition validate_symbol_precision (intent : OrderIntent) (p : SymbolPrecision) : result unit :=
  if dle (oi_quantity intent) dzero then raise PrecisionError "quantity must be positive"
  else if dlt (oi_quantity intent) (min_quantity p) then
    raise PrecisionError ("quantity " +:+ dec_str (oi_quantity intent) +:+ " below minimum " +:+
      dec_str (min_quantity p) +:+ " for " +:+ sp_symbol p)
  else
    q ← quantize_down (oi_quantity intent) (quantity_step p);
    if negb (deq q (oi_quantity intent)) then
      raise PrecisionError ("quantity " +:+ dec_str (oi_quantity intent) +:+
        " does not align to lot size " +:+ dec_str (quantity_step p) +:+ " for " +:+ sp_symbol p)
    else
      match oi_price intent with
      | None => Ok tt
      | Some price =>
          if dle price dzero then raise PrecisionError "price must be positive"
          else
            pq ← quantize_down price (price_tick p);
            if negb (deq pq price) then
              raise PrecisionError ("price " +:+ dec_str price +:+ " does not align to tick size " +:+
                dec_str (price_tick p) +:+ " for " +:+ sp_symbol p)
            else
              let notional := dmul (oi_quantity intent) price in
              if dlt notional (min_notional p) then
                raise PrecisionError ("notional " +:+ dec_str notional +:+ " below minimum " +:+
                  dec_str (min_notional p) +:+ " for " +:+ sp_symbol p)
              else Ok tt
      end.

(** [decimal_to_exchange(value)] *)
Definition decimal_to_exchange (value : option dec) : option string :=
  match value with
  | None => None
  | Some d => Some (dec_format_f (dnormalize d))
  end.

(** ** Quantization *)

#[local] Open Scope Q_scope.

(** Numbers that fit the precision comfortably: at the finer of the two
    exponents, value and increment are integers of at most 26 digits. *)
Definition fits (value increment : dec) : Prop :=
  let e := Z.min (dexp value) (dexp increment) in
  (0 <= align value e < 10 ^ 26)%Z /\ (0 < align increment e < 10 ^ 26)%Z.

#[export] Instance fits_dec v i : Decision (fits v i).
Proof. unfold fits. apply _. Defined.

Lemma fits_dval v i : fits v i ->
  let e := Z.min (dexp v) (dexp i) in
  inject_Z (align v e) * pow10 e == dval v /\ inject_Z (align i e) * pow10 e == dval i /\
  0 <= dval v /\ 0 < dval i.
Proof.
  intros [Ha Hb] e. fold e in Ha, Hb.
  assert (Ev : inject_Z (align v e) * pow10 e == dval v) by (apply dval_align; lia).
  assert (Ei : inject_Z (align i e) * pow10 e == dval i) by (apply dval_align; lia).
  pose proof (pow10_pos e) as Pe. split_and!; [done..| |].
  - rewrite <- Ev. apply Qmult_le_0_compat; [|lra]. rewrite Zle_Qle in Ha. apply Ha.
  - rewrite <- Ei. apply Qmult_lt_0_compat; [|done]. rewrite Zlt_Qlt in Hb. apply Hb.
Qed.

(** The integer quotient is computed exactly. *)
Lemma quantize_quotient v i : fits v i ->
  let e := Z.min (dexp v) (dexp i) in
  dval (to_integral_down (ddiv v i)) == inject_Z (align v e / align i e).
Proof.
  intros F e. destruct (fits_dval v i F) as (Ev & Ei & Vp & Ip).
  destruct F as [Ha Hb]. fold e in Ha, Hb, Ev, Ei.
  set (a := align v e) in *. set (b := align i e) in *. clearbody a b.
  pose proof (pow10_pos e) as Pe.
  assert (Bp : 0 < inject_Z b) by (change 0 with (inject_Z 0); rewrite <- Zlt_Qlt; lia).
  assert (Q : dval v / dval i == inject_Z a / inject_Z b).
  { rewrite <- Ev, <- Ei. field. split; lra. }
  assert (D : dval (ddiv v i) == rnd28 (inject_Z a / inject_Z b)) by (rewrite dval_ddiv, Q; [done|lra]).
  assert (Dn : 0 <= dval (ddiv v i)).
  { rewrite dval_ddiv by lra. apply rnd28_nonneg, Qle_shift_div_l; lra. }
  rewrite (dval_to_integral_down _ Dn), (Qfloor_comp _ _ D), floor_rnd28 by lia. done.
Qed.

Lemma quantize_down_ok v i : 0 < dval i ->
  quantize_down v i = Ok (dmul (to_integral_down (ddiv v i)) i).
Proof.
  intros Ip. unfold quantize_down, dle.
  destruct (Qle_bool (dval i) (dval dzero)) eqn:L; [|done].
  qbool. change (dval dzero) with 0 in L. lra.
Qed.

Lemma quantize_down_value v i : fits v i ->
  let e := Z.min (dexp v) (dexp i) in
  exists r, quantize_down v i = Ok r /\
    dval r == inject_Z (align v e / align i e * align i e) * pow10 e.
Proof.
  intros F e. destruct (fits_dval v i F) as (Ev & Ei & Vp & Ip).
  rewrite (quantize_down_ok v i Ip). eexists. split; [done|].
  rewrite dval_dmul, (quantize_quotient v i F). fold e.
  destruct F as [Ha Hb]. fold e in Ha, Hb, Ev, Ei.
  set (a := align v e) in *. set (b := align i e) in *. clearbody a b.
  rewrite <- Ei, Qmult_assoc, <- inject_Z_mult.
  apply rnd28_repr. exists (a / b * b)%Z, e. split; [done|]. split; [|done].
  pose proof (Z.mul_div_le a b ltac:(lia)). pose proof (Z.div_pos a b ltac:(lia) ltac:(lia)).
  assert (10 ^ 26 < 10 ^ prec)%Z by reflexivity. rewrite Z.abs_eq by nia. nia.
Qed.

(** The quantized value is the largest multiple of the increment that does not
    exceed the value. *)
Lemma quantize_down_floor v i : fits v i ->
  exists r n, quantize_down v i = Ok r /\ (0 <= n)%Z /\ dval r == inject_Z n * dval i /\
    dval r <= dval v /\ dval v < dval r + dval i.
Proof.
  intros F. destruct (quantize_down_value v i F) as (r & E & R).
  destruct F as [Ha Hb]. set (e := Z.min (dexp v) (dexp i)) in *.
  assert (Ev : inject_Z (align v e) * pow10 e == dval v) by (apply dval_align; lia).
  assert (Ei : inject_Z (align i e) * pow10 e == dval i) by (apply dval_align; lia).
  set (a := align v e) in *. set (b := align i e) in *. clearbody a b.
  pose proof (pow10_pos e) as Pe.
  pose proof (Z.div_mod a b ltac:(lia)). pose proof (Z.mod_pos_bound a b ltac:(lia)).
  exists r, (a / b)%Z. split; [done|]. split; [apply Z.div_pos; lia|].
  split; [rewrite R, <- Ei, inject_Z_mult; ring|].
  rewrite R, <- Ev, <- Ei. split.
  - apply Qmult_le_compat_r; [|lra]. rewrite <- Zle_Qle. lia.
  - rewrite <- Qmult_plus_distr_l, <- inject_Z_plus. apply Qmult_lt_r; [done|].
    rewrite <- Zlt_Qlt. lia.
Qed.

(** The representation of the result: it sits at or above the increment's
    exponent and is small, so it can be quantized again. *)
Lemma to_integral_down_shape d : (0 <= coef d)%Z ->
  (0 <= dexp (to_integral_down d))%Z /\ (0 <= coef (to_integral_down d))%Z.
Proof.
  intros H. unfold to_integral_down. destruct (Z.leb_spec 0 (dexp d)); simpl; [done|].
  split; [done|]. apply Z.quot_pos; lia.
Qed.

Lemma dval_nonneg_coef d : 0 <= dval d <-> (0 <= coef d)%Z.
Proof.
  unfold dval. pose proof (pow10_pos (dexp d)) as P. split.
  - intros H. rewrite Zle_Qle. change (inject_Z 0) with 0.
    destruct (Qlt_le_dec (inject_Z (coef d)) 0); [|done]. exfalso. nra.
  - intros H. apply Qmult_le_0_compat; [|lra]. by rewrite Zle_Qle in H.
Qed.

Lemma align_coef d e : (e <= dexp d)%Z -> (0 <= coef d)%Z -> (coef d <= align d e)%Z.
Proof.
  intros H C. unfold align. assert (0 < 10 ^ (dexp d - e))%Z by (apply Z.pow_pos_nonneg; lia). nia.
Qed.

Lemma align_inj_le x y e : (e <= dexp x)%Z -> (e <= dexp y)%Z ->
  dval x <= dval y -> (align x e <= align y e)%Z.
Proof.
  intros Hx Hy H. rewrite <- (dval_align x e), <- (dval_align y e) in H by done.
  pose proof (pow10_pos e). apply Qmult_le_r in H; [|done]. by rewrite Zle_Qle.
Qed.

Lemma align_weaken d e e' : (e <= e' <= dexp d)%Z -> (0 <= coef d)%Z -> (align d e' <= align d e)%Z.
Proof.
  intros H C. unfold align.
  assert (10 ^ (dexp d - e') <= 10 ^ (dexp d - e))%Z by (apply Z.pow_le_mono_r; lia). nia.
Qed.

Lemma quantize_down_fits v i r : fits v i -> quantize_down v i = Ok r -> fits r i.
Proof.
  intros F E. destruct (fits_dval v i F) as (Ev & Ei & Vp & Ip).
  pose proof (quantize_quotient v i F) as T.
  rewrite (quantize_down_ok v i Ip) in E. injection E as <-.
  destruct F as [Ha Hb]. set (e := Z.min (dexp v) (dexp i)) in *.
  set (t := to_integral_down (ddiv v i)) in *.
  assert (Qp : 0 <= dval (ddiv v i)).
  { rewrite dval_ddiv by lra. apply rnd28_nonneg, Qle_shift_div_l; lra. }
  destruct (to_integral_down_shape (ddiv v i)) as [Te Tc]; [by apply dval_nonneg_coef|].
  fold t in Te, Tc.
  assert (Ci : (0 <= coef i)%Z) by (apply dval_nonneg_coef; lra).
  set (x := mkDec (coef t * coef i) (dexp t + dexp i)).
  assert (Xv : dval x <= dval v).
  { assert (X : dval x == dval t * dval i).
    { unfold x, dval. cbn [coef dexp]. rewrite inject_Z_mult, pow10_add. ring. }
    rewrite X, T, <- Ev, <- Ei, Qmult_assoc, <- inject_Z_mult.
    apply Qmult_le_compat_r; [|apply Qlt_le_weak, pow10_pos]. rewrite <- Zle_Qle.
    rewrite Z.mul_comm. apply Z.mul_div_le. lia. }
  assert (Xe : (align x e <= align v e)%Z) by (apply align_inj_le; [simpl; lia|lia|done]).
  assert (Xc : (0 <= coef x)%Z) by (simpl; nia).
  assert (Xs : (coef x <= align x e)%Z) by (apply align_coef; [simpl; lia|done]).
  assert (10 ^ 26 < 10 ^ prec)%Z by reflexivity.
  assert (D : dmul t i = x).
  { unfold dmul, dfix. fold x. destruct (Z.ltb_spec (Z.abs (coef x)) (10 ^ prec)); [done|lia]. }
  rewrite D. unfold fits. replace (dexp x `min` dexp i)%Z with (dexp i) by (simpl; lia).
  assert (align x (dexp i) <= align x e)%Z by (apply align_weaken; [simpl; lia|done]).
  assert (align i (dexp i) <= align i e)%Z by (apply align_weaken; [lia|done]).
  pose proof (align_coef x (dexp i) ltac:(simpl; lia) Xc).
  assert (coef i <> 0)%Z by (rewrite <- dval_0_iff; lra).
  pose proof (align_coef i (dexp i) ltac:(lia) Ci). lia.
Qed.

(** Quantizing twice changes nothing. *)
Lemma quantize_down_idem v i r : fits v i -> quantize_down v i = Ok r ->
  exists r', quantize_down r i = Ok r' /\ dval r' == dval r.
Proof.
  intros F E. pose proof (quantize_down_fits v i r F E) as F'.
  destruct (quantize_down_floor v i F) as (r0 & n & E0 & Hn & V & _).
  rewrite E in E0. injection E0 as <-.
  destruct (quantize_down_floor r i F') as (r' & m & E' & Hm & V' & L & U).
  destruct (fits_dval v i F) as (_ & _ & _ & Ip).
  exists r'. split; [done|]. rewrite V', V in *.
  assert (m = n); [|by subst].
  assert (inject_Z m <= inject_Z n) by (apply Qmult_le_r with (dval i); done).
  assert (inject_Z n < inject_Z (m + 1)).
  { apply Qmult_lt_r with (dval i); [done|]. rewrite inject_Z_plus. change (inject_Z 1) with 1. lra. }
  rewrite <- Zle_Qle in *. rewrite <- Zlt_Qlt in *. lia.
Qed.

(** ** Properties *)

(** The hypotheses of the precision filter on one intent: the quantities and
    prices fit the decimal context next to their increments. *)
Definition intent_fits (intent : OrderIntent) (p : SymbolPrecision) : Prop :=
  fits (oi_quantity intent) (quantity_step p) /\
  match oi_price intent with Some pr => fits pr (price_tick p) | None => True end.

#[export] Instance intent_fits_dec i p : Decision (intent_fits i p).
Proof. unfold intent_fits. destruct (oi_price i); apply _. Defined.

Lemma apply_symbol_precision_inv intent p out : apply_symbol_precision intent p = Ok out ->
  quantize_down (oi_quantity intent) (quantity_step p) = Ok (oi_quantity out) /\
  dlt (oi_quantity out) (min_quantity p) = false /\
  match oi_price intent, oi_price out with
  | Some pr, Some pr' =>
      quantize_down pr (price_tick p) = Ok pr' /\
      dlt (dmul (oi_quantity out) (if dtruth pr' then pr' else dzero)) (min_notional p) = false
  | None, None => True
  | _, _ => False
  end.
Proof.
  unfold apply_symbol_precision. intros H.
  apply result_bind_ok in H as (q & Hq & H).
  destruct (dlt q (min_quantity p)) eqn:Lq; [done|].
  apply result_bind_ok in H as (pr' & Hp & H).
  destruct (oi_price intent) as [pr|] eqn:P.
  - destruct (quantize_down pr (price_tick p)) as [x|e] eqn:Q; [|done].
    unfold fmap, result_fmap in Hp. injection Hp as <-. cbv beta iota in H.
    match type of H with (if ?c then _ else _) = _ => destruct c eqn:Ln; [done|] end.
    injection H as <-. done.
  - injection Hp as <-. injection H as <-. done.
Qed.

Lemma dle_zero_false d : 0 < dval d -> dle d dzero = false.
Proof. intros. unfold dle. change (dval dzero) with 0. by qbool. Qed.



(** The digit bound is needed: with 28 significant digits the division itself
    can round up to the next integer, and the result then exceeds the value. *)
Example quantize_down_can_exceed :
  exists v i r, quantize_down v i = Ok r /\ dlt v r = true /\
    (Z.abs (coef v) < 10 ^ prec)%Z /\ 0 < dval i.
Proof.
  exists (mkDec 8999999999999999999999999999 (-27)), (dZ 3), (dZ 9).
  split_and!; by vm_compute.
Qed.

(** An intent that [apply_symbol_precision] accepts passes
    [validate_symbol_precision] with the same filter, as soon as the filter's
    minimum quantity is positive and the quantized price (if any) is. *)
Theorem apply_then_validate intent p out :
  intent_fits intent p -> 0 < dval (min_quantity p) ->
  apply_symbol_precision intent p = Ok out ->
  match oi_price out with Some pr => 0 < dval pr | None => True end ->
  validate_symbol_precision out p = Ok tt.
Proof.
  intros [Fq Fp] Mp H Pp. apply apply_symbol_precision_inv in H as (Hq & Lq & Hpr).
  assert (Qp : 0 < dval (oi_quantity out)) by (unfold dlt in Lq; qbool; lra).
  unfold validate_symbol_precision. rewrite (dle_zero_false _ Qp), Lq.
  destruct (quantize_down_idem _ _ _ Fq Hq) as (q' & -> & Vq).
  cbn. apply deq_iff in Vq. rewrite Vq. cbn.
  destruct (oi_price intent) as [pr|], (oi_price out) as [pr'|]; try done.
  destruct Hpr as [Hp Ln]. rewrite (dle_zero_false _ Pp).
  destruct (quantize_down_idem _ _ _ Fp Hp) as (p' & -> & Vp).
  cbn. apply deq_iff in Vp. rewrite Vp. cbn.
  assert (T : dtruth pr' = true).
  { unfold dtruth. apply negb_true_iff, Z.eqb_neq. rewrite <- dval_0_iff. lra. }
  rewrite T in Ln. by rewrite Ln.
Qed.

Definition example_precision : SymbolPrecision :=
  mkPrecision "BTC/USDT" "BTCUSDT" (mkDec 1 (-2)) (mkDec 1 (-5)) (mkDec 1 (-4)) (dZ 5) 2 5.
Definition example_intent : OrderIntent :=
  mkIntent coinstore "BTC/USDT" buy ot_limit (mkDec 12345678 (-9)) (Some (mkDec 49876543 (-3)))
    "mm-btcusdt-buy-1" tif_gtc false [].

Lemma apply_then_validate_witness :
  exists out, apply_symbol_precision example_intent example_precision = Ok out /\
    validate_symbol_precision out example_precision = Ok tt.
Proof.
  eexists. split; [vm_compute; reflexivity|].
  apply (apply_then_validate example_intent); [vm_compute; intuition discriminate | done | | done].
  vm_compute. reflexivity.
Defined.
