(* ===== verification/Quoting.v ===== *)
(** * Quoting: spread, skew and the order ladder ([engines/market_making/engine.py])

    The libm power behind [float ** int] and the random part of a client order
    id are parameters ([fpow], [hex]); everything else is computed as the
    code computes it, in binary64. *)

From S2P Require Import Prelude Rounding PyFloat PyDecimal PyData PyValue Models Config.

#[local] Open Scope string_scope.

Record MarketState : Type := mkMarket {
  ms_symbol : string;
  mid_price : float;
  ms_spread_bps : float;
  volatility : float;
  liquidity_imbalance : float }.

Record InventoryState : Type := mkInvState {
  is_base_ratio : float;
  is_target_base_ratio : float;
  is_exposure_notional : float }.

Record Quote : Type := mkQuote {
  qt_side : string;
  qt_price : float;
  qt_quantity : float;
  qt_level : Z;
  qt_client_order_id : string }.

Record ReplacementDecision : Type := mkReplacement {
  rd_replace : bool;
  rd_reason : string;
  rd_desired : Quote;
  rd_existing_order_id : option string }.

Definition f10000 : float := of_Z 10000.
Definition f100 : float := of_Z 100.
Definition f1 : float := of_Z 1.
Definition f2 : float := of_Z 2.
Definition f0 : float := of_Z 0.

(** [SpreadEngine.adjusted_spread_bps] *)
Definition adjusted_spread_bps (s : SpreadSettings) (market : MarketState) : float :=
  let volatility_component := fmul (fmul (volatility market) f10000) (volatility_multiplier s) in
  let liquidity_component := fmul (fabs (liquidity_imbalance market)) (base_spread_bps s) in
  fmin (max_spread_bps s)
    (fmax (min_spread_bps s)
       (fadd (fadd (base_spread_bps s) volatility_component) liquidity_component)).

(** [InventorySkewEngine.skew_bps] *)
Definition skew_bps (s : InventorySettings) (inv : InventoryState) : float :=
  let deviation := fsub (is_base_ratio inv) (is_target_base_ratio inv) in
  fmul (fmul deviation (skew_intensity s)) f100.

(** [VolatilityAdjustmentEngine.price_buffer_bps] *)
Definition price_buffer_bps (vol : float) : float := fmax f0 (fmul vol f10000).

(** [PriceProtectionLayer.protect] *)
Definition protect (side : string) (price mid max_distance_bps : float) : float :=
  let max_distance := fdiv (fmul mid max_distance_bps) f10000 in
  if String.eqb side "buy" then fmin price (fadd mid max_distance)
  else fmax price (fsub mid max_distance).

(** [LiquidityPlacementLayer.improve_for_imbalance] *)
Definition improve_for_imbalance (side : string) (price mid imbalance : float) : float :=
  let adjustment := fdiv (fmul mid (fabs imbalance)) f10000 in
  if fgt imbalance f0 && String.eqb side "sell" then fsub price adjustment
  else if flt imbalance f0 && String.eqb side "buy" then fadd price adjustment
  else price.

(** [OrderLadderEngine._client_id]; [hex] is [uuid.uuid4().hex[:12]]. *)
Definition client_id (symbol side : string) (level : Z) (hex : string) : string :=
  "mm-" +:+ str_lower (str_replace "/" "" symbol) +:+ "-" +:+ side +:+ "-" +:+ str_of_Z level +:+ "-" +:+ hex.

Section Ladder.
Context (fpow : float -> Z -> float) (hex : string -> Z -> string).

Definition level_spread (layers : OrderLayerSettings) (spread volbuf : float) (level : Z) : float :=
  let spacing := fmul (fmul (spacing_bps layers) (of_Z (level - 1))) (outer_level_multiplier layers) in
  fadd (fadd spread spacing) volbuf.

Definition level_quantity (s : OrderSizeSettings) (level : Z) : float :=
  fmin (max_order_size s)
    (fmax (min_order_size s) (fmul (base_order_size s) (fpow (ladder_size_multiplier s) (level - 1)))).

(** The bid and ask prices of one ladder level, before rounding to 8 decimals. *)
Definition level_bid (mid ls skew imbalance : float) : float :=
  let bid_bps := fadd (fdiv ls f2) skew in
  let bid_price := fmul mid (fsub f1 (fdiv bid_bps f10000)) in
  let bid_price := improve_for_imbalance "buy" bid_price mid imbalance in
  protect "buy" bid_price mid (fmax ls f1).

Definition level_ask (mid ls skew imbalance : float) : float :=
  let ask_bps := fsub (fdiv ls f2) skew in
  let ask_price := fmul mid (fadd f1 (fdiv ask_bps f10000)) in
  let ask_price := improve_for_imbalance "sell" ask_price mid imbalance in
  protect "sell" ask_price mid (fmax ls f1).

Definition level_quotes (s : OrderSizeSettings) (layers : OrderLayerSettings) (symbol : string)
    (mid spread skew volbuf imbalance : float) (level : Z) : list Quote :=
  let ls := level_spread layers spread volbuf level in
  let quantity := level_quantity s level in
  [ mkQuote "buy" (fround 8 (level_bid mid ls skew imbalance)) quantity level
      (client_id symbol "buy" level (hex "buy" level));
    mkQuote "sell" (fround 8 (level_ask mid ls skew imbalance)) quantity level
      (client_id symbol "sell" level (hex "sell" level)) ].

Definition ladder_depth (s : OrderSizeSettings) (layers : OrderLayerSettings) : Z :=
  Z.min (Z.min (ladder_levels s) (enabled_levels layers)) (max_active_orders_per_side layers).

(** [range(1, n + 1)] *)
Definition levels_upto (n : Z) : list Z := seqZ 1 n.

(** [OrderLadderEngine.build] *)
Definition build (s : OrderSizeSettings) (layers : OrderLayerSettings) (symbol : string)
    (mid spread skew volbuf imbalance : float) : list Quote :=
  concat (map (level_quotes s layers symbol mid spread skew volbuf imbalance)
            (levels_upto (ladder_depth s layers))).

(** [QuoteEngine.generate_quotes] *)
Definition generate_quotes (sp : SpreadSettings) (s : OrderSizeSettings) (inv : InventorySettings)
    (layers : OrderLayerSettings) (market : MarketState) (inventory : InventoryState) : list Quote :=
  build s layers (ms_symbol market) (mid_price market)
    (adjusted_spread_bps sp market) (skew_bps inv inventory)
    (price_buffer_bps (volatility market)) (liquidity_imbalance market).

End Ladder.

(** [QuoteEngine.__init__]'s default layers. *)
Definition default_layers (sp : SpreadSettings) (s : OrderSizeSettings) : OrderLayerSettings :=
  mkLayers (ladder_levels s) (base_spread_bps sp) (flit 125 100) (of_Z 5) (ladder_levels s).

(** [RefreshEngine.should_refresh] *)
Definition should_refresh (now last_refresh : datetime) (interval_seconds : Z) : bool :=
  fge (total_seconds (now - last_refresh)) (of_Z interval_seconds).

(** An existing order as [OrderReplacementEngine.decisions] reads it. *)
Record ExistingOrder : Type := mkExisting {
  ex_price : float; ex_quantity : float; ex_order_id : option string }.

Definition decision_for (threshold : float) (existing : list ((string * Z) * ExistingOrder)) (q : Quote)
    : result ReplacementDecision :=
  match od_get (qt_side q, qt_level q) existing with
  | None => Ok (mkReplacement true "missing_order" q None)
  | Some cur =>
      r ← fdiv_chk (fabs (fsub (qt_price q) (ex_price cur))) (qt_price q);
      let diff_bps := fmul r f10000 in
      let oid := match ex_order_id cur with Some i => i | None => "None" end in
      if fge diff_bps threshold || fgt (fabs (fsub (qt_quantity q) (ex_quantity cur))) (flit 1 (10 ^ 12))
      then Ok (mkReplacement true "price_or_size_drift" q (Some oid))
      else Ok (mkReplacement false "within_threshold" q (Some oid))
  end.

(** [OrderReplacementEngine.decisions] *)
Definition decisions (desired : list Quote) (existing : list ((string * Z) * ExistingOrder))
    (threshold : float) : result (list ReplacementDecision) :=
  result_mapM (decision_for threshold existing) desired.

(** ** Spread and size bounds *)

#[local] Open Scope Q_scope.

Lemma f0_eq : f0 = Fin 0. Proof. by vm_compute. Qed.
Lemma f1_eq : f1 = Fin 1. Proof. by vm_compute. Qed.
Lemma f2_eq : f2 = Fin 2. Proof. by vm_compute. Qed.
Lemma f100_eq : f100 = Fin 100. Proof. by vm_compute. Qed.
Lemma f10000_eq : f10000 = Fin 10000. Proof. by vm_compute. Qed.

Lemma validate_spread_ok s t : validate_spread s = Ok t ->
  t = s /\ gt0 (min_spread_bps s) = true /\
  fle (min_spread_bps s) (base_spread_bps s) = true /\ fle (base_spread_bps s) (max_spread_bps s) = true.
Proof.
  unfold validate_spread, validate_spread_bounds, spread_fields_ok. intros H.
  repeat (case_match; try done). injection H as <-.
  repeat match goal with H : (_ && _)%bool = true |- _ => apply andb_prop in H as [? ?] end. done.
Qed.

Lemma validate_order_size_ok s t : validate_order_size s = Ok t ->
  t = s /\ gt0 (min_order_size s) = true /\ (1 <= ladder_levels s <= 50)%Z /\
  fle (min_order_size s) (max_order_size s) = true.
Proof.
  unfold validate_order_size, validate_order_size_bounds, order_size_fields_ok, within. intros H.
  repeat (case_match; try done). injection H as <-.
  repeat match goal with H : (_ && _)%bool = true |- _ => apply andb_prop in H as [? ?] end.
  split_and!; [done..|lia|lia|]. by eapply fle_trans.
Qed.

(** [fround] is monotone on every float. *)
Lemma fround_mono_float n x y : (0 <= n)%Z -> fle x y = true -> fle (fround n x) (fround n y) = true.
Proof.
  intros Hn H. destruct x as [a|[]|], y as [b|[]|]; try done.
  - apply fround_mono; [done|]. by apply fle_fin.
  - simpl. destruct (of_Q _) as [|[]|] eqn:E; try done. by destruct (of_Q_not_nan _ E).
  - simpl. destruct (of_Q _) as [|[]|] eqn:E; try done. by destruct (of_Q_not_nan _ E).
Qed.

(** ** One level never crosses itself *)

(** A half-spread, as both sides of a level compute it. *)
Lemma half_spread a : 0 <= a -> bnd 110 a ->
  exists h, fdiv (Fin a) f2 = Fin h /\ 0 <= h /\ bnd 110 h.
Proof.
  intros Ha Ba. rewrite f2_eq. destruct (fdiv_bnd 110 a 2) as [E B]; [lia|done|done|].
  exists (round64 (a / 2)). split; [done|]. split; [|done].
  apply round64_nonneg. apply Qle_shift_div_l; lra.
Qed.

Lemma bps_fraction x : bnd 111 x ->
  fdiv (Fin x) f10000 = Fin (round64 (x / 10000)) /\ bnd 111 (round64 (x / 10000)).
Proof. intros. rewrite f10000_eq. by apply fdiv_bnd. Qed.

Lemma bnd_one k : (0 <= k)%Z -> bnd k 1.
Proof. intros. unfold bnd. change (Qabs 1) with (pow2 0). by apply pow2_le. Qed.

Definition raw_bid (mid ls skew : float) : float :=
  fmul mid (fsub f1 (fdiv (fadd (fdiv ls f2) skew) f10000)).
Definition raw_ask (mid ls skew : float) : float :=
  fmul mid (fadd f1 (fdiv (fsub (fdiv ls f2) skew) f10000)).

Lemma raw_bid_value m a k : bnd 100 m -> 0 <= a -> bnd 110 a -> bnd 110 k ->
  exists h r, raw_bid (Fin m) (Fin a) (Fin k) = Fin (round64 (m * r)) /\ 0 <= h /\
    r == round64 (1 - round64 (round64 (h + k) / 10000)).
Proof.
  intros Bm Ha Ba Bk. unfold raw_bid.
  destruct (half_spread a Ha Ba) as (h & -> & Hh & Bh).
  destruct (fadd_bnd 110 h k) as [-> B1]; [lia|done|done|].
  destruct (bps_fraction _ B1) as [-> B2]. rewrite f1_eq.
  destruct (fsub_bnd 111 1 (round64 (round64 (h + k) / 10000))) as (r & -> & R & B3);
    [lia|by apply bnd_one|done|].
  destruct (fmul_bnd 100 112 m r) as [-> _]; [lia|done|done|].
  by exists h, r.
Qed.

Lemma raw_ask_value m a k : bnd 100 m -> 0 <= a -> bnd 110 a -> bnd 110 k ->
  exists h s, raw_ask (Fin m) (Fin a) (Fin k) = Fin (round64 (m * round64 (1 + round64 (s / 10000)))) /\
    0 <= h /\ s == round64 (h - k).
Proof.
  intros Bm Ha Ba Bk. unfold raw_ask.
  destruct (half_spread a Ha Ba) as (h & -> & Hh & Bh).
  destruct (fsub_bnd 110 h k) as (s & -> & S & B1); [lia|done|done|].
  destruct (bps_fraction s B1) as [-> B2]. rewrite f1_eq.
  destruct (fadd_bnd 111 1 (round64 (s / 10000))) as [-> B3]; [lia|by apply bnd_one|done|].
  destruct (fmul_bnd 100 112 m (round64 (1 + round64 (s / 10000)))) as [-> _]; [lia|done|done|].
  by exists h, s.
Qed.

(** A bid of one level is never above an ask of another, for any skew: the
    roundings of the two sides are mirror images. *)
Lemma raw_bid_le_raw_ask m a b k :
  0 <= m -> bnd 100 m -> 0 <= a -> bnd 110 a -> 0 <= b -> bnd 110 b -> bnd 110 k ->
  fle (raw_bid (Fin m) (Fin a) (Fin k)) (raw_ask (Fin m) (Fin b) (Fin k)) = true.
Proof.
  intros Hm Bm Ha Ba Hb Bb Bk.
  destruct (raw_bid_value m a k) as (h & r & -> & Hh & R); [done..|].
  destruct (raw_ask_value m b k) as (h' & s & -> & Hh' & S); [done..|].
  apply fle_fin, round64_mono. rewrite R.
  assert (D : - round64 (h + k) <= s).
  { rewrite S, <- round64_opp. apply round64_mono. lra. }
  assert (E : - round64 (round64 (h + k) / 10000) <= round64 (s / 10000)).
  { rewrite <- round64_opp. apply round64_mono.
    apply Qle_shift_div_l; [lra|]. field_simplify. lra. }
  assert (F : round64 (1 - round64 (round64 (h + k) / 10000)) <= round64 (1 + round64 (s / 10000)))
    by (apply round64_mono; lra).
  rewrite !(Qmult_comm m). by apply Qmult_le_compat_r.
Qed.

(** ** The ladder *)

(** A finite float of magnitude at most [2^k]. *)
Definition fsmall (k : Z) (x : float) : bool :=
  match x with Fin q => Qle_bool (Qabs q) (pow2 k) | _ => false end.

Lemma fsmall_fin k x : fsmall k x = true -> exists q, x = Fin q /\ bnd k q.
Proof. destruct x as [q| |]; simpl; [|done..]. intros H. exists q. split; [done|]. by qbool. Qed.

Lemma level_bid_zero_imbalance mid ls skew z : z == 0 ->
  level_bid mid ls skew (Fin z) = protect "buy" (raw_bid mid ls skew) mid (fmax ls f1).
Proof.
  intros Z. unfold level_bid, improve_for_imbalance, raw_bid. rewrite f0_eq.
  assert (fgt (Fin z) (Fin 0) = false) as ->.
  { unfold fgt. apply fle_not_flt, fle_fin. rewrite Z. lra. }
  assert (flt (Fin z) (Fin 0) = false) as ->.
  { apply fle_not_flt, fle_fin. rewrite Z. lra. }
  done.
Qed.

Lemma level_ask_zero_imbalance mid ls skew z : z == 0 ->
  level_ask mid ls skew (Fin z) = protect "sell" (raw_ask mid ls skew) mid (fmax ls f1).
Proof.
  intros Z. unfold level_ask, improve_for_imbalance, raw_ask. rewrite f0_eq.
  assert (fgt (Fin z) (Fin 0) = false) as ->.
  { unfold fgt. apply fle_not_flt, fle_fin. rewrite Z. lra. }
  by rewrite andb_false_r.
Qed.

Lemma level_no_cross m a b k z :
  0 <= m -> bnd 100 m -> 0 <= a -> bnd 110 a -> 0 <= b -> bnd 110 b -> bnd 110 k -> z == 0 ->
  fle (fround 8 (level_bid (Fin m) (Fin a) (Fin k) (Fin z)))
      (fround 8 (level_ask (Fin m) (Fin b) (Fin k) (Fin z))) = true.
Proof.
  intros. apply fround_mono_float; [lia|].
  rewrite level_bid_zero_imbalance, level_ask_zero_imbalance by done.
  pose proof (raw_bid_le_raw_ask m a b k) as H'.
  specialize (H' ltac:(done) ltac:(done) ltac:(done) ltac:(done) ltac:(done) ltac:(done) ltac:(done)).
  unfold protect. simpl (String.eqb _ _). cbv iota.
  eapply fle_trans; [apply fmin_le_l; by eapply fle_nan_l|].
  eapply fle_trans; [exact H'|]. apply fmax_ge_l. by eapply fle_nan_r.
Qed.

Lemma elem_of_build fpow hex s layers symbol mid spread skew volbuf imb q :
  q ∈ build fpow hex s layers symbol mid spread skew volbuf imb <->
  exists level, (1 <= level <= ladder_depth s layers)%Z /\
    q ∈ level_quotes fpow hex s layers symbol mid spread skew volbuf imb level.
Proof.
  unfold build, levels_upto. rewrite list_elem_of_In, in_concat. split.
  - intros (l & Hl & Hq). apply in_map_iff in Hl as (level & <- & Hlev).
    rewrite <- list_elem_of_In, elem_of_seqZ in Hlev. exists level.
    rewrite list_elem_of_In. split; [lia|done].
  - intros (level & Hlev & Hq). eexists. split; [|by rewrite <- list_elem_of_In].
    apply in_map_iff. exists level. split; [done|]. rewrite <- list_elem_of_In, elem_of_seqZ. lia.
Qed.

Lemma level_index_fin level : (1 <= level <= 50)%Z ->
  exists n, of_Z (level - 1) = Fin n /\ 0 <= n /\ bnd 6 n.
Proof.
  intros H. destruct (of_Q_bnd 6 (inject_Z (level - 1))) as [E B]; [lia| |].
  { unfold bnd. rewrite Qabs_pos by (change 0 with (inject_Z 0); rewrite <- Zle_Qle; lia).
    change (pow2 6) with (inject_Z 64). rewrite <- Zle_Qle. lia. }
  exists (round64 (inject_Z (level - 1))). split; [done|]. split; [|done].
  apply round64_nonneg. change 0 with (inject_Z 0). rewrite <- Zle_Qle. lia.
Qed.

(** The spread of a ladder level is a non-negative, bounded float. *)
Lemma level_spread_fin layers s v level sp ol :
  (1 <= level <= 50)%Z -> spacing_bps layers = Fin sp -> outer_level_multiplier layers = Fin ol ->
  0 <= sp -> bnd 40 sp -> 0 <= ol -> bnd 40 ol -> 0 <= s -> bnd 40 s -> 0 <= v -> bnd 54 v ->
  exists a, level_spread layers (Fin s) (Fin v) level = Fin a /\ 0 <= a /\ bnd 110 a.
Proof.
  intros Hl Esp Eol Hsp Bsp Hol Bol Hs Bs Hv Bv. unfold level_spread. rewrite Esp, Eol.
  destruct (level_index_fin level Hl) as (n & -> & Hn & Bn).
  destruct (fmul_bnd 40 6 sp n) as [-> B1]; [lia|done|done|].
  assert (P1 : 0 <= round64 (sp * n)) by (by apply round64_nonneg, Qmult_le_0_compat).
  destruct (fmul_bnd 46 40 (round64 (sp * n)) ol) as [-> B2]; [lia|done|done|].
  assert (P2 : 0 <= round64 (round64 (sp * n) * ol)) by (by apply round64_nonneg, Qmult_le_0_compat).
  set (x := round64 (round64 (sp * n) * ol)) in *. clearbody x.
  destruct (fadd_bnd 86 s x) as [-> B3]; [lia|eapply bnd_weaken; [|done]; lia|done|].
  assert (P3 : 0 <= round64 (s + x)) by (apply round64_nonneg; lra).
  destruct (fadd_bnd 87 (round64 (s + x)) v) as [-> B4]; [lia|done|eapply bnd_weaken; [|done]; lia|].
  eexists. split; [done|]. split; [apply round64_nonneg; lra|].
  eapply bnd_weaken; [|done]. lia.
Qed.

Lemma level_quotes_side fpow hex s layers symbol mid spread skew volbuf imb level q :
  q ∈ level_quotes fpow hex s layers symbol mid spread skew volbuf imb level ->
  (qt_side q = "buy"%string -> qt_price q =
     fround 8 (level_bid mid (level_spread layers spread volbuf level) skew imb)) /\
  (qt_side q = "sell"%string -> qt_price q =
     fround 8 (level_ask mid (level_spread layers spread volbuf level) skew imb)) /\
  qt_quantity q = level_quantity fpow s level /\ qt_level q = level.
Proof.
  unfold level_quotes. rewrite !elem_of_cons, elem_of_nil.
  intros [->|[->|[]]]; simpl; split_and!; done.
Qed.

(** ** Properties *)

(** Magnitudes under which no intermediate result overflows: every number the
    ladder reads is finite and at most [2^40]. *)
Definition inputs_small (sp : SpreadSettings) (inv : InventorySettings) (layers : OrderLayerSettings)
    (market : MarketState) (inventory : InventoryState) : bool :=
  fsmall 40 (max_spread_bps sp) && fsmall 40 (skew_intensity inv)
  && fsmall 40 (spacing_bps layers) && fsmall 40 (outer_level_multiplier layers)
  && fsmall 40 (mid_price market) && fsmall 40 (volatility market)
  && fsmall 40 (is_base_ratio inventory) && fsmall 40 (is_target_base_ratio inventory).

Lemma adjusted_spread_fin sp market : validate_spread sp = Ok sp -> fsmall 40 (max_spread_bps sp) = true ->
  exists q, adjusted_spread_bps sp market = Fin q /\ 0 <= q /\ bnd 40 q.
Proof.
  intros V Hs. apply validate_spread_ok in V as (_ & G & L1 & L2).
  destruct (fclamp_bounds (min_spread_bps sp) (max_spread_bps sp)
    (fadd (fadd (base_spread_bps sp) (fmul (fmul (volatility market) f10000) (volatility_multiplier sp)))
       (fmul (fabs (liquidity_imbalance market)) (base_spread_bps sp)))) as [B1 B2];
    [by eapply fle_trans|].
  unfold adjusted_spread_bps. set (r := fmin _ _) in *. clearbody r.
  destruct (fsmall_fin _ _ Hs) as (hi & Eh & Bh). rewrite Eh in *.
  assert (P : fle (Fin 0) r = true) by (eapply fle_trans; [apply flt_fle; exact G|done]).
  destruct r as [q|[]|]; try done. exists q. rewrite fle_fin in *. split; [done|]. split; [done|].
  unfold bnd in *. rewrite Qabs_pos in * by lra. lra.
Qed.

Lemma price_buffer_fin vol : fsmall 40 vol = true ->
  exists v, price_buffer_bps vol = Fin v /\ 0 <= v /\ bnd 54 v.
Proof.
  intros H. destruct (fsmall_fin _ _ H) as (q & -> & B). unfold price_buffer_bps.
  rewrite f10000_eq, f0_eq. destruct (fmul_bnd 40 14 q 10000) as [-> B2]; [lia|done|done|].
  unfold fmax. destruct (flt _ _) eqn:E.
  - eexists. split; [done|]. split; [|done]. apply flt_fin in E. lra.
  - exists 0. split; [done|]. split; [lra|done].
Qed.

Lemma skew_fin inv inventory : fsmall 40 (skew_intensity inv) = true ->
  fsmall 40 (is_base_ratio inventory) = true -> fsmall 40 (is_target_base_ratio inventory) = true ->
  exists k, skew_bps inv inventory = Fin k /\ bnd 110 k.
Proof.
  intros H1 H2 H3. unfold skew_bps. rewrite f100_eq.
  destruct (fsmall_fin _ _ H1) as (si & -> & B1).
  destruct (fsmall_fin _ _ H2) as (br & -> & B2).
  destruct (fsmall_fin _ _ H3) as (tr & -> & B3).
  destruct (fsub_bnd 40 br tr) as (d & -> & _ & B4); [lia|done|done|].
  destruct (fmul_bnd 41 40 d si) as [-> B5]; [lia|done|done|].
  destruct (fmul_bnd 81 7 (round64 (d * si)) 100) as [-> B6]; [lia|done|done|].
  eexists. split; [done|]. eapply bnd_weaken; [|done]. lia.
Qed.

(** The quoted spread is always inside the configured band: for validated
    settings and any market state, NaN or infinite inputs included. *)
Theorem spread_within_band sp market : validate_spread sp = Ok sp ->
  fle (min_spread_bps sp) (adjusted_spread_bps sp market) = true /\
  fle (adjusted_spread_bps sp market) (max_spread_bps sp) = true.
Proof.
  intros V. apply validate_spread_ok in V as (_ & _ & L1 & L2).
  apply fclamp_bounds. by eapply fle_trans.
Qed.

Definition example_market : MarketState := mkMarket "BTC/USDT" (of_Z 50000) (of_Z 2) (flit 1 1000) f0.

Lemma spread_within_band_witness :
  fle (min_spread_bps (rc_spread default_runtime_config))
      (adjusted_spread_bps (rc_spread default_runtime_config) (mkMarket "BTC/USDT" NaN NaN NaN NaN)) = true /\
  fle (adjusted_spread_bps (rc_spread default_runtime_config) (mkMarket "BTC/USDT" NaN NaN NaN NaN))
      (max_spread_bps (rc_spread default_runtime_config)) = true.
Proof. apply spread_within_band. vm_compute. reflexivity. Defined.

(** C34: the ladder has one buy and one sell per level, on the levels
    [1 .. min(ladder_levels, enabled_levels, max_active_orders_per_side)], and
    every quantity lies in the configured size band, whatever the power
    function returns. *)
Theorem ladder_shape fpow hex s layers symbol mid spread skew volbuf imb :
  validate_order_size s = Ok s ->
  let l := build fpow hex s layers symbol mid spread skew volbuf imb in
  map (fun q => (qt_side q, qt_level q)) l =
    concat (map (fun n => [("buy"%string, n); ("sell"%string, n)]) (levels_upto (ladder_depth s layers))) /\
  Forall (fun q => fle (min_order_size s) (qt_quantity q) = true /\
                   fle (qt_quantity q) (max_order_size s) = true) l.
Proof.
  intros V l. apply validate_order_size_ok in V as (_ & _ & _ & L). split.
  - unfold l, build. rewrite concat_map, map_map. done.
  - apply Forall_forall. intros q Hq. apply elem_of_build in Hq as (level & _ & Hq).
    apply level_quotes_side in Hq as (_ & _ & -> & _). by apply fclamp_bounds.
Qed.

(** Correctly rounded power, as an instance of the parameter. *)
Definition fpow_exact (x : float) (n : Z) : float :=
  match x with Fin q => of_Q (q ^ n) | _ => x end.
Definition no_hex (_ : string) (_ : Z) : string := "0123456789ab".

Lemma ladder_shape_witness :
  let s := rc_order_size default_runtime_config in
  let layers := rc_order_layers default_runtime_config in
  let l := build fpow_exact no_hex s layers "BTC/USDT" (of_Z 50000) (of_Z 20) f0 f0 f0 in
  map (fun q => (qt_side q, qt_level q)) l =
    concat (map (fun n => [("buy"%string, n); ("sell"%string, n)]) (levels_upto (ladder_depth s layers))) /\
  Forall (fun q => fle (min_order_size s) (qt_quantity q) = true /\
                   fle (qt_quantity q) (max_order_size s) = true) l.
Proof. apply ladder_shape. vm_compute. reflexivity. Defined.

(** C11: the ladder never crosses itself. With validated settings, finite
    inputs of realistic size, a non-negative mid price and a balanced book,
    every buy price of the ladder is at most every sell price of the ladder,
    for any inventory skew: the binary64 rounding errors cannot invert them. *)
Theorem quotes_never_cross fpow hex sp s inv layers market inventory b a :
  validate_spread sp = Ok sp -> validate_order_size s = Ok s -> validate_order_layers layers = Ok layers ->
  inputs_small sp inv layers market inventory = true ->
  fge (mid_price market) f0 = true -> feq (liquidity_imbalance market) f0 = true ->
  let l := generate_quotes fpow hex sp s inv layers market inventory in
  b ∈ l -> a ∈ l -> qt_side b = "buy"%string -> qt_side a = "sell"%string ->
  fle (qt_price b) (qt_price a) = true.
Proof.
  intros Vsp Vs Vl Hin Hmid Himb l Hb Ha Sb Sa. unfold inputs_small in Hin.
  repeat match goal with H : (_ && _)%bool = true |- _ => apply andb_prop in H as [H ?] end.
  apply validate_order_size_ok in Vs as (_ & _ & Lv & _).
  unfold validate_order_layers in Vl. case_match eqn:Hl; [|done].
  repeat match goal with H : (_ && _)%bool = true |- _ => apply andb_prop in H as [H ?] end.
  unfold l, generate_quotes in *. rewrite elem_of_build in Hb, Ha.
  destruct Hb as (i & Hi & Hb), Ha as (j & Hj & Ha).
  apply level_quotes_side in Hb as (Pb & _). apply level_quotes_side in Ha as (_ & Pa & _).
  rewrite (Pb Sb), (Pa Sa).
  destruct (adjusted_spread_fin sp market Vsp) as (s' & -> & Hs' & Bs'); [done|].
  destruct (price_buffer_fin (volatility market)) as (v & -> & Hv & Bv); [done|].
  destruct (skew_fin inv inventory) as (k & -> & Bk); [done..|].
  destruct (fsmall_fin 40 (spacing_bps layers)) as (spc & Esp & Bsp); [done|].
  destruct (fsmall_fin 40 (outer_level_multiplier layers)) as (ol & Eol & Bol); [done|].
  destruct (fsmall_fin 40 (mid_price market)) as (m & Em & Bm); [done|].
  rewrite Em in *. rewrite f0_eq in *.
  destruct (liquidity_imbalance market) as [z|[]|]; try done.
  assert (Hspc : 0 <= spc) by (rewrite Esp in *; apply fle_fin; by apply flt_fle).
  assert (Hol : 0 <= ol).
  { rewrite Eol in *. apply Qle_trans with 1; [done|]. by apply fle_fin. }
  unfold ladder_depth in *.
  destruct (level_spread_fin layers s' v i spc ol) as (x & -> & Hx & Bx); [lia|done..|].
  destruct (level_spread_fin layers s' v j spc ol) as (y & -> & Hy & By); [lia|done..|].
  apply level_no_cross; try done.
  - by apply fle_fin.
  - eapply bnd_weaken; [|exact Bm]. lia.
  - by apply Qeq_bool_iff.
Qed.

Definition default_quotes (inventory : InventoryState) (market : MarketState) : list Quote :=
  let c := default_runtime_config in
  generate_quotes fpow_exact no_hex (rc_spread c) (rc_order_size c) (rc_inventory c) (rc_order_layers c)
    market inventory.

Definition empty_inventory : InventoryState := mkInvState f0 (flit 5 10) f0.

Lemma quotes_never_cross_witness :
  exists b a, b ∈ default_quotes empty_inventory example_market /\ qt_level b = 1%Z /\
    a ∈ default_quotes empty_inventory example_market /\ qt_level a = 3%Z /\
    fle (qt_price b) (qt_price a) = true.
Proof.
  set (l := default_quotes empty_inventory example_market).
  assert (exists b, l !! 0%nat = Some b /\ qt_side b = "buy"%string /\ qt_level b = 1%Z) as (b & Hb & Sb & Lb)
    by (eexists; split; [vm_compute; reflexivity|]; split; reflexivity).
  assert (exists a, l !! 5%nat = Some a /\ qt_side a = "sell"%string /\ qt_level a = 3%Z) as (a & Ha & Sa & La)
    by (eexists; split; [vm_compute; reflexivity|]; split; reflexivity).
  apply list_elem_of_lookup_2 in Hb, Ha.
  exists b, a. split_and!; try done.
  unfold l, default_quotes in Hb, Ha.
  refine (quotes_never_cross _ _ _ _ _ _ _ _ b a _ _ _ _ _ _ Hb Ha Sb Sa);
    vm_compute; reflexivity.
Defined.

(** The ladder is not passive. With the default configuration and an empty
    base inventory the skew (-37.5 bps) exceeds the half spread (10 bps), so
    the best buy quote is placed above the mid price, 20 bps above it after
    price protection; no code reads [passive_only]. *)
Theorem default_quotes_not_passive :
  exists q, head (default_quotes empty_inventory
      (mkMarket "BTC/USDT" (of_Z 50000) (of_Z 2) f0 f0)) = Some q /\
    qt_side q = "buy"%string /\ feq (qt_price q) (of_Z 50100) = true /\
    st_passive_only (rc_strategy default_runtime_config) = true.
Proof. eexists. split; [vm_compute; reflexivity|]. by vm_compute. Qed.
