(* ===== verification/Risk.v ===== *)
(** * Risk: pre-trade checks, circuit breakers, kill switch ([engines/risk/engine.py])

    The engine is a record threaded through [SE]; an operation that raises
    keeps the mutations made before. [now] is the clock reading of the
    operation. *)

From S2P Require Import Prelude Rounding PyFloat PyDecimal PyData PyValue Models Config.

#[local] Open Scope string_scope.
#[local] Open Scope list_scope.

(** [engines/risk/engine.py]'s own [OrderIntent] (floats). *)
Record RiskOrderIntent : Type := mkRiskIntent {
  ri_symbol : string; ri_side : string; ri_price : float; ri_quantity : float }.

Definition risk_notional (i : RiskOrderIntent) : float := fmul (ri_price i) (ri_quantity i).

Record RiskEvaluation : Type := mkEvaluation {
  ev_accepted : bool; ev_score : float; ev_violations : list string }.

Record CircuitBreaker : Type := mkBreaker {
  cb_name : string;
  cb_threshold : Z;
  cb_cooldown_seconds : Z;
  cb_failures : Z;
  cb_opened_at : option datetime }.

Definition breaker_success (b : CircuitBreaker) : CircuitBreaker :=
  mkBreaker (cb_name b) (cb_threshold b) (cb_cooldown_seconds b) 0 None.

Definition breaker_failure (now : datetime) (b : CircuitBreaker) : CircuitBreaker :=
  let n := (cb_failures b + 1)%Z in
  mkBreaker (cb_name b) (cb_threshold b) (cb_cooldown_seconds b) n
    (if (cb_threshold b <=? n)%Z then Some now else cb_opened_at b).

(** [CircuitBreaker.is_open]: also closes the breaker once the cooldown is over. *)
Definition breaker_is_open (now : datetime) (b : CircuitBreaker) : CircuitBreaker * bool :=
  match cb_opened_at b with
  | None => (b, false)
  | Some t =>
      if (seconds (cb_cooldown_seconds b) <=? now - t)%Z then (breaker_success b, false)
      else (b, true)
  end.

Record KillSwitch : Type := mkKill {
  ks_active : bool; ks_reason : option string; ks_activated_at : option datetime }.

Definition kill_activate (now : datetime) (reason : string) (_ : KillSwitch) : KillSwitch :=
  mkKill true (Some reason) (Some now).
Definition kill_deactivate (_ : KillSwitch) : KillSwitch := mkKill false None None.

Record EmergencyShutdownState : Type := mkShutdown {
  sd_active : bool; sd_reason : option string; sd_started_at : option datetime;
  sd_completed_steps : list string }.

Record RiskEngine : Type := mkRiskEngine {
  rk_settings : RiskSettings;
  rk_kill_switch : KillSwitch;
  rk_breakers : list (string * CircuitBreaker);
  rk_shutdown : EmergencyShutdownState }.

Definition set_breakers (e : RiskEngine) bs :=
  mkRiskEngine (rk_settings e) (rk_kill_switch e) bs (rk_shutdown e).
Definition set_kill (e : RiskEngine) k :=
  mkRiskEngine (rk_settings e) k (rk_breakers e) (rk_shutdown e).
Definition set_shutdown (e : RiskEngine) s :=
  mkRiskEngine (rk_settings e) (rk_kill_switch e) (rk_breakers e) s.

Definition breaker_names : list string :=
  ["exchange_errors"; "market_data_stale"; "dependency_unavailable"].

(** [RiskEngine.__init__] *)
Definition new_risk_engine (s : RiskSettings) : RiskEngine :=
  let mk n := (n, mkBreaker n (circuit_breaker_error_threshold s) (circuit_breaker_cooldown_seconds s) 0 None) in
  mkRiskEngine s (mkKill false None None) (map mk breaker_names) (mkShutdown false None None []).

(** The loop over the breakers in [evaluate_order]. *)
Fixpoint poll_breakers (now : datetime) (bs : list (string * CircuitBreaker))
    : list (string * CircuitBreaker) * list string :=
  match bs with
  | [] => ([], [])
  | (n, b) :: bs' =>
      let '(b', o) := breaker_is_open now b in
      let '(rest, vs) := poll_breakers now bs' in
      ((n, b') :: rest, (if o then ["circuit_breaker:" +:+ cb_name b] else []) ++ vs)
  end.

Definition when (c : bool) (v : string) : list string := if c then [v] else [].

(** The limit checks of [evaluate_order], in source order. *)
Definition limit_violations (s : RiskSettings) (i : RiskOrderIntent) (position_notional total_exposure : float)
    (open_orders : Z) (daily_pnl : float) : list string :=
  when (fgt (risk_notional i) (max_order_notional s)) "max_order_notional" ++
  when (fgt (ri_quantity i) (max_position_quantity s)) "max_position_quantity" ++
  when (fgt (fadd (fabs position_notional) (risk_notional i)) (max_position_notional s)) "max_position_notional" ++
  when (fgt (fadd (fabs total_exposure) (risk_notional i)) (max_total_exposure s)) "max_total_exposure" ++
  when (max_open_orders s <? open_orders + 1)%Z "max_open_orders" ++
  when (fle daily_pnl (fneg (fabs (max_daily_loss s)))) "max_daily_loss".

(** [RiskEngine.risk_score] *)
Definition risk_score (s : RiskSettings) (i : RiskOrderIntent) (total_exposure daily_pnl : float)
    (vs : list string) : result float :=
  o ← fdiv_chk (risk_notional i) (max_order_notional s);
  x ← fdiv_chk (fabs total_exposure) (max_total_exposure s);
  l ← fdiv_chk (fabs (fmin (of_Z 0) daily_pnl)) (max_daily_loss s);
  let order_component := fmin (of_Z 1) o in
  let exposure_component := fmin (of_Z 1) x in
  let loss_component := fmin (of_Z 1) l in
  let violation_component := fmin (of_Z 1) (of_Q (Z.of_nat (length vs) # 5)) in
  Ok (fround 4 (fmul (fadd (fadd (fadd (fmul order_component (flit 25 100))
                                       (fmul exposure_component (flit 3 10)))
                                 (fmul loss_component (flit 25 100)))
                           (fmul violation_component (flit 2 10)))
                     (of_Z 100))).

(** [RiskEngine.evaluate_order] *)
Definition evaluate_order (now : datetime) (i : RiskOrderIntent) (position_notional total_exposure : float)
    (open_orders : Z) (daily_pnl : float) : SE RiskEngine RiskEvaluation :=
  e ← se_get;
  if ks_active (rk_kill_switch e) then
    se_raise KillSwitchActiveError
      (match ks_reason (rk_kill_switch e) with
       | Some r => if String.eqb r "" then "kill switch active" else r
       | None => "kill switch active"
       end)
  else
    let lv := limit_violations (rk_settings e) i position_notional total_exposure open_orders daily_pnl in
    let '(bs, bv) := if circuit_breaker_enabled (rk_settings e)
                     then poll_breakers now (rk_breakers e) else (rk_breakers e, []) in
    let vs := lv ++ bv in
    _ ← se_put (set_breakers e bs);
    sc ← se_lift (risk_score (rk_settings e) i total_exposure daily_pnl vs);
    mret (mkEvaluation (match vs with [] => true | _ => false end) sc vs).

(** [RiskEngine.assert_order_allowed] *)
Definition assert_order_allowed (now : datetime) (i : RiskOrderIntent) (position_notional total_exposure : float)
    (open_orders : Z) (daily_pnl : float) : SE RiskEngine RiskEvaluation :=
  ev ← evaluate_order now i position_notional total_exposure open_orders daily_pnl;
  if ev_accepted ev then mret ev
  else se_raise RiskViolationError (str_join "," (ev_violations ev)).

(** [record_failure] and [record_success]; an unknown name is a [KeyError]. *)
Definition update_breaker (name : string) (f : CircuitBreaker -> CircuitBreaker) : SE RiskEngine unit :=
  e ← se_get;
  match od_get name (rk_breakers e) with
  | None => se_raise KeyError name
  | Some b => se_put (set_breakers e (od_set name (f b) (rk_breakers e)))
  end.
Definition record_failure (now : datetime) (name : string) : SE RiskEngine unit :=
  update_breaker name (breaker_failure now).
Definition record_success (name : string) : SE RiskEngine unit :=
  update_breaker name breaker_success.

Definition activate_kill_switch (now : datetime) (reason : string) : SE RiskEngine unit :=
  se_modify (fun e => set_kill e (kill_activate now reason (rk_kill_switch e))).
Definition deactivate_kill_switch : SE RiskEngine unit :=
  se_modify (fun e => set_kill e (kill_deactivate (rk_kill_switch e))).

Definition shutdown_steps : list string := ["stop_order_creation"; "freeze_strategy_state"; "emit_alerts"].

Definition emergency_shutdown (now : datetime) (reason : string) : SE RiskEngine EmergencyShutdownState :=
  _ ← activate_kill_switch now reason;
  let sd := mkShutdown true (Some reason) (Some now) shutdown_steps in
  _ ← se_modify (fun e => set_shutdown e sd);
  mret sd.

(** [all(not breaker.is_open() for breaker in ...)], stopping at the first open one. *)
Fixpoint all_closed (now : datetime) (bs : list (string * CircuitBreaker))
    : list (string * CircuitBreaker) * bool :=
  match bs with
  | [] => ([], true)
  | (n, b) :: bs' =>
      let '(b', o) := breaker_is_open now b in
      if o then ((n, b') :: bs', false)
      else let '(rest, r) := all_closed now bs' in ((n, b') :: rest, r)
  end.

Definition recovery_ready (now : datetime) : SE RiskEngine bool :=
  e ← se_get;
  if sd_active (rk_shutdown e) && ks_active (rk_kill_switch e) then
    let '(bs, r) := all_closed now (rk_breakers e) in
    _ ← se_put (set_breakers e bs); mret r
  else mret false.

Definition recover (now : datetime) : SE RiskEngine EmergencyShutdownState :=
  ready ← recovery_ready now;
  if ready : bool then
    e ← se_get;
    let sd := rk_shutdown e in
    let sd' := mkShutdown false (sd_reason sd) (sd_started_at sd)
                 (sd_completed_steps sd ++ ["recovery_approved"]) in
    _ ← se_put (set_kill (set_shutdown e sd') (kill_deactivate (rk_kill_switch e)));
    mret sd'
  else se_raise RiskViolationError "recovery prerequisites are not satisfied".

(** ** Circuit breakers *)

#[local] Open Scope Z_scope.

Inductive breaker_event : Type := BSuccess | BFailure | BPoll.

Definition breaker_step (b : CircuitBreaker) (ev : breaker_event * datetime) : CircuitBreaker :=
  match ev with
  | (BSuccess, _) => breaker_success b
  | (BFailure, t) => breaker_failure t b
  | (BPoll, t) => (breaker_is_open t b).1
  end.

Definition breaker_run : CircuitBreaker -> list (breaker_event * datetime) -> CircuitBreaker :=
  foldl breaker_step.

(** A breaker has an opening time exactly when its failures reached the threshold. *)
Definition breaker_wf (b : CircuitBreaker) : Prop :=
  0 <= cb_failures b /\ (is_Some (cb_opened_at b) <-> cb_threshold b <= cb_failures b).

Lemma breaker_step_params b ev :
  cb_threshold (breaker_step b ev) = cb_threshold b /\
  cb_cooldown_seconds (breaker_step b ev) = cb_cooldown_seconds b /\
  cb_name (breaker_step b ev) = cb_name b.
Proof.
  destruct ev as [[] t]; simpl; try done. unfold breaker_is_open.
  repeat case_match; done.
Qed.

Lemma breaker_success_wf b : 1 <= cb_threshold b -> breaker_wf (breaker_success b).
Proof. intros. split; simpl; [lia|]. split; [by intros [? ?]|lia]. Qed.

Lemma breaker_step_wf b ev : 1 <= cb_threshold b -> breaker_wf b -> breaker_wf (breaker_step b ev).
Proof.
  intros Ht [W0 W]. destruct ev as [[] t]; simpl.
  - by apply breaker_success_wf.
  - split; simpl; [lia|]. destruct (Z.leb_spec (cb_threshold b) (cb_failures b + 1)) as [L|L].
    + split; [done|]. by eexists.
    + rewrite W. lia.
  - unfold breaker_is_open. destruct (cb_opened_at b) as [o|] eqn:E; simpl; [|split; [done|by rewrite E]].
    case_match; simpl; [by apply breaker_success_wf|]. split; [done|by rewrite E].
Qed.

Lemma breaker_run_wf b evs : 1 <= cb_threshold b -> breaker_wf b ->
  breaker_wf (breaker_run b evs) /\ cb_threshold (breaker_run b evs) = cb_threshold b.
Proof.
  revert b. induction evs as [|ev evs IH]; intros b Ht W; [done|]. simpl.
  destruct (breaker_step_params b ev) as (P & _). destruct (IH (breaker_step b ev)) as [I1 I2].
  - lia.
  - by apply breaker_step_wf.
  - split; [done|]. by rewrite I2.
Qed.

(** Failures recorded since the last success. *)
Fixpoint trailing_failures (n : Z) (evs : list (breaker_event * datetime)) : Z :=
  match evs with
  | [] => n
  | (BSuccess, _) :: evs' => trailing_failures 0 evs'
  | (BFailure, _) :: evs' => trailing_failures (n + 1) evs'
  | (BPoll, _) :: evs' => trailing_failures n evs'
  end.

Lemma breaker_failures_le b evs n : cb_failures b <= n -> 0 <= n ->
  cb_failures (breaker_run b evs) <= trailing_failures n evs.
Proof.
  revert b n. induction evs as [|[[] t] evs IH]; intros b n H H0; simpl; [done|..].
  - apply IH; simpl; lia.
  - apply IH; simpl; lia.
  - apply IH; [|done]. simpl. unfold breaker_is_open. repeat case_match; simpl; lia.
Qed.

Lemma breaker_run_cooldown b evs : cb_cooldown_seconds (breaker_run b evs) = cb_cooldown_seconds b.
Proof.
  revert b. induction evs as [|ev evs IH]; intros b; [done|]. simpl. rewrite IH.
  by destruct (breaker_step_params b ev) as (_ & ? & _).
Qed.

(** ** Order evaluation *)

Lemma poll_breakers_nil now bs :
  (poll_breakers now bs).2 = [] <-> Forall (fun nb => (breaker_is_open now nb.2).2 = false) bs.
Proof.
  induction bs as [|[n b] bs IH]; simpl; [done|].
  destruct (breaker_is_open now b) as [b' o] eqn:E, (poll_breakers now bs) as [rest vs]; simpl in *.
  rewrite Forall_cons. simpl. rewrite E. simpl. destruct o; simpl.
  - split; [done|]. by intros [? _].
  - rewrite IH. tauto.
Qed.

Lemma when_nil c v : when c v = [] <-> c = false.
Proof. by destruct c. Qed.

Lemma limit_violations_nil s i pos expo n pnl :
  limit_violations s i pos expo n pnl = [] <->
  fgt (risk_notional i) (max_order_notional s) = false /\
  fgt (ri_quantity i) (max_position_quantity s) = false /\
  fgt (fadd (fabs pos) (risk_notional i)) (max_position_notional s) = false /\
  fgt (fadd (fabs expo) (risk_notional i)) (max_total_exposure s) = false /\
  n + 1 <= max_open_orders s /\
  fle pnl (fneg (fabs (max_daily_loss s))) = false.
Proof.
  unfold limit_violations. rewrite !app_nil, !when_nil, Z.ltb_ge. tauto.
Qed.

(** What an admitted order satisfies. *)
Definition admissible (e : RiskEngine) (now : datetime) (i : RiskOrderIntent) (pos expo : float)
    (n : Z) (pnl : float) : Prop :=
  ks_active (rk_kill_switch e) = false /\
  limit_violations (rk_settings e) i pos expo n pnl = [] /\
  (circuit_breaker_enabled (rk_settings e) = true ->
     Forall (fun nb => (breaker_is_open now nb.2).2 = false) (rk_breakers e)).

Lemma gt0_nonzero x : gt0 x = true -> feq x (Fin 0) = false.
Proof.
  unfold gt0, fgt. destruct x as [q|[]|]; simpl; try done. intros H. qbool.
  apply not_true_is_false. rewrite Qeq_bool_iff. lra.
Qed.

Lemma validate_risk_ok s t : validate_risk s = Ok t ->
  t = s /\ gt0 (max_order_notional s) = true /\ gt0 (max_total_exposure s) = true /\
  gt0 (max_daily_loss s) = true /\ gt0 (max_position_notional s) = true /\
  1 <= circuit_breaker_error_threshold s.
Proof.
  unfold validate_risk, validate_risk_hierarchy, risk_fields_ok. intros H.
  repeat (case_match; try done). injection H as <-.
  repeat match goal with H : (_ && _)%bool = true |- _ => apply andb_prop in H as [? ?] end.
  split_and!; try done. lia.
Qed.

Lemma risk_score_total s i expo pnl vs : validate_risk s = Ok s ->
  exists sc, risk_score s i expo pnl vs = Ok sc.
Proof.
  intros V. apply validate_risk_ok in V as (_ & G1 & G2 & G3 & _).
  unfold risk_score, fdiv_chk.
  rewrite (gt0_nonzero _ G1), (gt0_nonzero _ G2), (gt0_nonzero _ G3). by eexists.
Qed.

Ltac weigh H := eapply frange_mul; [exact H|vm_compute; discriminate|vm_compute; reflexivity].

(** The weighted sum of four components in [0, 1] is a percentage. *)
Lemma weighted_score_range a b c d : frange 1 a -> frange 1 b -> frange 1 c -> frange 1 d ->
  frange 100 (fround 4 (fmul (fadd (fadd (fadd (fmul a (flit 25 100)) (fmul b (flit 3 10)))
                                         (fmul c (flit 25 100))) (fmul d (flit 2 10))) (of_Z 100))).
Proof.
  intros A B C D.
  replace (flit 25 100) with (Fin (1 # 4)) by (vm_compute; reflexivity).
  replace (flit 3 10) with (Fin (5404319552844595 # 18014398509481984)) by (vm_compute; reflexivity).
  replace (flit 2 10) with (Fin (3602879701896397 # 18014398509481984)) by (vm_compute; reflexivity).
  replace (of_Z 100) with (Fin 100) by (vm_compute; reflexivity).
  eassert (A' : frange _ (fmul a (Fin (1 # 4)))) by weigh A.
  eassert (B' : frange _ (fmul b (Fin (5404319552844595 # 18014398509481984)))) by weigh B.
  eassert (C' : frange _ (fmul c (Fin (1 # 4)))) by weigh C.
  eassert (D' : frange _ (fmul d (Fin (3602879701896397 # 18014398509481984)))) by weigh D.
  pose proof (frange_add _ _ _ _ _ A' B' ltac:(vm_compute; reflexivity)) as S1.
  pose proof (frange_add _ _ _ _ _ S1 C' ltac:(vm_compute; reflexivity)) as S2.
  pose proof (frange_add _ _ _ _ _ S2 D' ltac:(vm_compute; reflexivity)) as S3.
  eassert (P : frange _ (fmul _ (Fin 100))) by weigh S3.
  eapply frange_round; [done|exact P|vm_compute; reflexivity].
Qed.

(** The outcome of [evaluate_order] once the kill switch is off. *)
Lemma evaluate_order_run e now i pos expo n pnl :
  ks_active (rk_kill_switch e) = false ->
  let '(bs, bv) := if circuit_breaker_enabled (rk_settings e)
                   then poll_breakers now (rk_breakers e) else (rk_breakers e, []) in
  let vs := limit_violations (rk_settings e) i pos expo n pnl ++ bv in
  evaluate_order now i pos expo n pnl e =
    (set_breakers e bs,
     match risk_score (rk_settings e) i expo pnl vs with
     | Ok sc => Ok (mkEvaluation (match vs with [] => true | _ => false end) sc vs)
     | Err x => Err x
     end).
Proof.
  intros K. unfold evaluate_order, mbind, se_bind, se_get, se_put, se_lift, mret, se_ret.
  rewrite K. destruct (circuit_breaker_enabled _).
  - destruct (poll_breakers _ _) as [bs bv]. by destruct (risk_score _ _ _ _ _).
  - by destruct (risk_score _ _ _ _ _).
Qed.

Lemma assert_allowed_ok_iff e now i pos expo n pnl : validate_risk (rk_settings e) = Ok (rk_settings e) ->
  (exists e' ev, assert_order_allowed now i pos expo n pnl e = (e', Ok ev)) <->
  admissible e now i pos expo n pnl.
Proof.
  intros V. unfold admissible.
  destruct (ks_active (rk_kill_switch e)) eqn:K.
  { split; [|by intros (? & _)]. intros (e' & ev & H).
    unfold assert_order_allowed, evaluate_order, mbind, se_bind, se_get in H. rewrite K in H. done. }
  pose proof (evaluate_order_run e now i pos expo n pnl K) as R.
  unfold assert_order_allowed, mbind, se_bind.
  destruct (if circuit_breaker_enabled _ then _ else _) as [bs bv] eqn:P.
  assert (B : bv = [] <-> (circuit_breaker_enabled (rk_settings e) = true ->
     Forall (fun nb => (breaker_is_open now nb.2).2 = false) (rk_breakers e))).
  { destruct (circuit_breaker_enabled (rk_settings e)).
    - rewrite <- poll_breakers_nil, P. simpl. tauto.
    - injection P as <- <-. split; [done|]. done. }
  cbv zeta in R. rewrite R. clear R.
  set (lv := limit_violations _ _ _ _ _ _).
  destruct (risk_score_total (rk_settings e) i expo pnl (lv ++ bv) V) as [sc ->]. simpl.
  rewrite <- B. destruct lv as [|x lv], bv as [|y bv]; simpl; split;
    try (by intros (? & ? & ?)); try (by intros (_ & ? & ?)); intros _; by repeat eexists.
Qed.

Lemma fgt_false_fle x y : x <> NaN -> y <> NaN -> fgt x y = false -> fle x y = true.
Proof. intros. by apply flt_false_fle. Qed.

Lemma fmul_fin_not_nan a b : fmul (Fin a) (Fin b) <> NaN.
Proof. apply of_Q_not_nan. Qed.

Lemma fadd_fin_not_nan a x : x <> NaN -> fadd (Fin a) x <> NaN.
Proof. destruct x; simpl; try done. intros _. apply of_Q_not_nan. Qed.

Lemma gt0_not_nan x : gt0 x = true -> x <> NaN.
Proof. by destruct x. Qed.

(** ** The engine as a state machine *)

(** One call of the engine's public interface; [EvalOrder] stands for
    [evaluate_order] and [assert_order_allowed], which have the same effect. *)
Inductive risk_op : Type :=
  | EvalOrder (i : RiskOrderIntent) (pos expo : float) (n : Z) (pnl : float)
  | RecordFailure (name : string)
  | RecordSuccess (name : string)
  | Activate (reason : string)
  | Deactivate
  | Shutdown (reason : string)
  | Recover.

Definition risk_apply (op : risk_op) (now : datetime) (e : RiskEngine) : RiskEngine :=
  match op with
  | EvalOrder i pos expo n pnl => (evaluate_order now i pos expo n pnl e).1
  | RecordFailure name => (record_failure now name e).1
  | RecordSuccess name => (record_success name e).1
  | Activate reason => (activate_kill_switch now reason e).1
  | Deactivate => (deactivate_kill_switch e).1
  | Shutdown reason => (emergency_shutdown now reason e).1
  | Recover => (recover now e).1
  end.

Inductive risk_step : RiskEngine -> risk_op -> RiskEngine -> Prop :=
  | risk_step_apply e op now : risk_step e op (risk_apply op now e).

Inductive risk_steps : RiskEngine -> list risk_op -> RiskEngine -> Prop :=
  | risk_steps_nil e : risk_steps e [] e
  | risk_steps_cons e op e1 ops e2 :
      risk_step e op e1 -> risk_steps e1 ops e2 -> risk_steps e (op :: ops) e2.

(** Operations that can switch the kill switch off. *)
Definition releases (op : risk_op) : bool :=
  match op with Deactivate | Recover => true | _ => false end.

Lemma update_breaker_kill name f e : rk_kill_switch (update_breaker name f e).1 = rk_kill_switch e.
Proof.
  unfold update_breaker, mbind, se_bind, se_get, se_put, se_raise.
  by destruct (od_get name (rk_breakers e)).
Qed.

Lemma evaluate_order_kill now i pos expo n pnl e :
  rk_kill_switch (evaluate_order now i pos expo n pnl e).1 = rk_kill_switch e.
Proof.
  unfold evaluate_order, mbind, se_bind, se_get, se_put, se_lift, se_raise, mret, se_ret.
  repeat case_match; simplify_eq; done.
Qed.

Lemma kill_switch_persists e op e' :
  risk_step e op e' -> releases op = false ->
  ks_active (rk_kill_switch e) = true -> ks_active (rk_kill_switch e') = true.
Proof.
  intros [e0 op0 now] R K. destruct op0; cbn [risk_apply releases] in *; try done.
  - by rewrite evaluate_order_kill.
  - unfold record_failure. by rewrite update_breaker_kill.
  - unfold record_success. by rewrite update_breaker_kill.
Qed.

Lemma evaluate_blocked e now i pos expo n pnl : ks_active (rk_kill_switch e) = true ->
  exists msg, evaluate_order now i pos expo n pnl e = (e, raise KillSwitchActiveError msg).
Proof.
  intros K. unfold evaluate_order, mbind, se_bind, se_get. rewrite K. by eexists.
Qed.

(** ** Properties *)

(** After [emergency_shutdown] (or an activated kill switch) every order
    evaluation raises [KillSwitchActiveError] and changes nothing, along every
    sequence of operations that contains neither [deactivate_kill_switch] nor
    [recover]. *)
Theorem kill_switch_blocks_orders e ops e' now i pos expo n pnl :
  risk_steps e ops e' -> ks_active (rk_kill_switch e) = true ->
  forallb (fun op => negb (releases op)) ops = true ->
  exists msg, evaluate_order now i pos expo n pnl e' = (e', raise KillSwitchActiveError msg).
Proof.
  intros H K. induction H as [|e op e1 ops e2 H1 H2 IH]; simpl; intros F.
  - by apply evaluate_blocked.
  - apply andb_prop in F as [F1 F2]. apply IH; [|done].
    eapply kill_switch_persists; [done| |done]. by apply negb_true_iff.
Qed.

#[local] Abbreviation fz := (of_Z 0).

Definition default_risk : RiskEngine := new_risk_engine (rc_risk default_runtime_config).

Lemma kill_switch_blocks_orders_witness :
  let e := risk_apply (Shutdown "incident") 0 default_risk in
  let e' := risk_apply (RecordSuccess "exchange_errors") 10 e in
  exists msg, evaluate_order 20 (mkRiskIntent "BTC/USDT" "buy" (of_Z 1) (of_Z 1)) fz fz 0 fz e'
              = (e', raise KillSwitchActiveError msg).
Proof.
  intros e e'. apply (kill_switch_blocks_orders e [RecordSuccess "exchange_errors"]); [|done|done].
  apply (risk_steps_cons _ _ e'); [apply (risk_step_apply e (RecordSuccess "exchange_errors") 10)|constructor].
Defined.


Definition small_order : RiskOrderIntent := mkRiskIntent "BTC/USDT" "buy" (of_Z 50000) (flit 1 100).


(** An accepted order respects every configured limit, for finite inputs:
    its notional, its quantity, the position and the exposure it adds to, the
    number of open orders and the daily loss. *)
Theorem accepted_order_within_limits e now i pos expo n pnl e' ev :
  validate_risk (rk_settings e) = Ok (rk_settings e) ->
  is_fin (ri_price i) && is_fin (ri_quantity i) && is_fin pos && is_fin expo
    && is_fin (max_position_quantity (rk_settings e)) = true ->
  assert_order_allowed now i pos expo n pnl e = (e', Ok ev) ->
  let s := rk_settings e in
  fle (risk_notional i) (max_order_notional s) = true /\
  fle (ri_quantity i) (max_position_quantity s) = true /\
  fle (fadd (fabs pos) (risk_notional i)) (max_position_notional s) = true /\
  fle (fadd (fabs expo) (risk_notional i)) (max_total_exposure s) = true /\
  n < max_open_orders s /\ fle pnl (fneg (fabs (max_daily_loss s))) = false.
Proof.
  intros V F H s.
  assert (A : admissible e now i pos expo n pnl)
    by (apply assert_allowed_ok_iff; [done|]; by exists e', ev).
  destruct A as (_ & L & _). apply limit_violations_nil in L as (L1 & L2 & L3 & L4 & L5 & L6).
  pose proof (validate_risk_ok _ _ V) as (_ & G1 & G2 & G3 & G4 & _).
  repeat match goal with H : (_ && _)%bool = true |- _ => apply andb_prop in H as [H ?] end.
  destruct i as [sy sd pr qy]; simpl in *. destruct pr as [p| |], qy as [q| |]; try done.
  destruct pos as [po| |], expo as [ex| |]; try done.
  assert (Nn : risk_notional (mkRiskIntent sy sd (Fin p) (Fin q)) <> NaN) by apply fmul_fin_not_nan.
  subst s. split_and!; try lia; try done; (apply fgt_false_fle; [| |done]); try done;
    try (by apply gt0_not_nan); try (by apply fadd_fin_not_nan).
  by destruct (max_position_quantity (rk_settings e)).
Qed.

Lemma accepted_order_within_limits_witness :
  fle (risk_notional small_order) (max_order_notional (rk_settings default_risk)) = true.
Proof.
  destruct (assert_order_allowed 0 small_order fz fz 0 fz default_risk) as [e' [ev|x]] eqn:E.
  - apply (accepted_order_within_limits default_risk 0 small_order fz fz 0 fz e' ev);
      [vm_compute; reflexivity|vm_compute; reflexivity|exact E].
  - exfalso. vm_compute in E. discriminate E.
Defined.

(** C35: a fresh breaker that [is_open] reports open after any history of
    failures, successes and polls has seen at least [threshold] failures since
    the last success, and its opening time lies less than the cooldown back. *)
Theorem breaker_open_justified name thr cool evs now :
  1 <= thr ->
  let b := breaker_run (mkBreaker name thr cool 0 None) evs in
  (breaker_is_open now b).2 = true ->
  thr <= trailing_failures 0 evs /\
  exists t, cb_opened_at b = Some t /\ now - t < seconds cool.
Proof.
  intros Ht b. assert (W : breaker_wf (mkBreaker name thr cool 0 None)).
  { split; simpl; [lia|]. split; [by intros [? ?]|lia]. }
  destruct (breaker_run_wf (mkBreaker name thr cool 0 None) evs Ht W) as [[_ Wb] Et]. simpl in Et. fold b in Wb, Et.
  assert (C : cb_cooldown_seconds b = cool) by apply breaker_run_cooldown.
  unfold breaker_is_open. destruct (cb_opened_at b) as [t|] eqn:E; [|done].
  rewrite C. destruct (Z.leb_spec (seconds cool) (now - t)); [done|]. intros _. split.
  - pose proof (breaker_failures_le (mkBreaker name thr cool 0 None) evs 0) as L. simpl in L.
    fold b in L. assert (thr <= cb_failures b) by (rewrite <- Et; apply Wb; by eexists). lia.
  - by exists t.
Qed.

Lemma breaker_open_justified_witness :
  2 <= trailing_failures 0 [(BFailure, 0); (BFailure, 5)].
Proof.
  apply (breaker_open_justified "exchange_errors" 2 30 [(BFailure, 0); (BFailure, 5)] 6);
    [lia|vm_compute; reflexivity].
Defined.

(** Once a breaker's failures reach the threshold, it reports open at every
    poll before the cooldown has elapsed and is reset, closed, by the first poll
    after it. *)
Theorem breaker_opens_then_resets b t now :
  cb_threshold b <= cb_failures b + 1 ->
  let b' := breaker_failure t b in
  (now - t < seconds (cb_cooldown_seconds b) -> breaker_is_open now b' = (b', true)) /\
  (seconds (cb_cooldown_seconds b) <= now - t -> breaker_is_open now b' = (breaker_success b, false)).
Proof.
  intros H b'. unfold b', breaker_is_open, breaker_failure. simpl.
  destruct (Z.leb_spec (cb_threshold b) (cb_failures b + 1)); [|lia].
  destruct (Z.leb_spec (seconds (cb_cooldown_seconds b)) (now - t)); split; try lia; done.
Qed.

Lemma breaker_opens_then_resets_witness :
  let b := mkBreaker "exchange_errors" 2 30 1 None in
  breaker_is_open 31000007 (breaker_failure 7 b) = (breaker_success b, false).
Proof. intros b. apply (breaker_opens_then_resets b 7); [simpl; lia|]. vm_compute. discriminate. Defined.

(** For validated settings the risk score of an order of nonnegative
    notional is a finite number in [0, 100], whatever exposure and PnL are. *)
Theorem risk_score_bounded s i expo pnl vs :
  validate_risk s = Ok s -> fle (Fin 0) (risk_notional i) = true ->
  exists q, risk_score s i expo pnl vs = Ok (Fin q) /\ (0 <= q <= 100)%Q.
Proof.
  intros V Hn. apply validate_risk_ok in V as (_ & G1 & G2 & G3 & _).
  unfold risk_score, fdiv_chk.
  rewrite (gt0_nonzero _ G1), (gt0_nonzero _ G2), (gt0_nonzero _ G3).
  cbn [mbind result_bind].
  match goal with |- exists q, Ok ?x = _ /\ _ => assert (R : frange 100 x) end.
  { apply weighted_score_range.
    - apply frange_min1, fdiv_nonneg; [by right|done].
    - apply frange_min1, fdiv_nonneg; [apply fabs_nonneg|done].
    - apply frange_min1, fdiv_nonneg; [apply fabs_nonneg|done].
    - apply frange_min1. right. change (Fin 0) with (of_Q 0). apply of_Q_mono.
      unfold Qle; simpl. lia. }
  destruct R as (q & -> & R). by exists q.
Qed.

Lemma risk_score_bounded_witness :
  exists q, risk_score (rk_settings default_risk) small_order (of_Z 500) (of_Z (-20)) ["x"] = Ok (Fin q)
            /\ (0 <= q <= 100)%Q.
Proof. apply risk_score_bounded; vm_compute; reflexivity. Defined.

(** Recovery succeeds exactly when a shutdown and the kill switch are in
    force and no breaker is open, and it leaves the kill switch off and the
    shutdown inactive; otherwise it raises and both stay as they were. *)
Theorem recover_spec e now :
  let '(e', r) := recover now e in
  if sd_active (rk_shutdown e) && ks_active (rk_kill_switch e) && (all_closed now (rk_breakers e)).2
  then ks_active (rk_kill_switch e') = false /\ sd_active (rk_shutdown e') = false /\ is_ok r = true
  else rk_kill_switch e' = rk_kill_switch e /\ rk_shutdown e' = rk_shutdown e /\
       r = raise RiskViolationError "recovery prerequisites are not satisfied".
Proof.
  unfold recover, recovery_ready, mbind, se_bind, se_get, se_put, mret, se_ret.
  destruct (sd_active (rk_shutdown e) && ks_active (rk_kill_switch e)); [|done].
  by destruct (all_closed now (rk_breakers e)) as [bs []].
Qed.
