(* ===== verification/Canary.v ===== *)
(** * Canary: the launch controller ([production/canary.py])

    [CanaryState] is threaded explicitly; [now] is the clock reading. The
    controller is also given as a step relation, over which the safety
    properties are proved by rule induction. *)

From S2P Require Import Prelude Rounding PyFloat PyDecimal PyData PyValue Models.

#[local] Open Scope string_scope.
#[local] Open Scope list_scope.
#[local] Open Scope Z_scope.

Record CanaryPolicy : Type := mkPolicy {
  cp_max_position_notional : dec;
  cp_max_daily_loss : dec;
  cp_max_order_count : Z;
  cp_max_inventory_notional : dec;
  cp_max_order_notional : dec;
  cp_allowed_order_types : list ExecutionOrderType }.

Record CanaryState : Type := mkCanary {
  cs_mode : LaunchMode;
  cs_position_notional : dec;
  cs_inventory_notional : dec;
  cs_daily_pnl : dec;
  cs_order_count : Z;
  cs_trading_day : Z;
  cs_kill_switch_active : bool;
  cs_shutdown_reason : option string }.

Record CanaryDecision : Type := mkDecision {
  cd_accepted : bool; cd_execution_allowed : bool; cd_reason : string; cd_mode : LaunchMode }.

(** [datetime.now(timezone.utc).date()] as a day number. *)
Definition utc_day (now : datetime) : Z := now / seconds 86400.

(** [(intent.price or Decimal("0")) * intent.quantity] *)
Definition intent_notional (i : OrderIntent) : dec :=
  dmul (match oi_price i with Some p => if dtruth p then p else dzero | None => dzero end)
       (oi_quantity i).

Definition roll_day_if_needed (now : datetime) (s : CanaryState) : CanaryState :=
  if cs_trading_day s =? utc_day now then s
  else mkCanary (cs_mode s) (cs_position_notional s) (cs_inventory_notional s) dzero 0
         (utc_day now) (cs_kill_switch_active s) (cs_shutdown_reason s).

Definition automatic_shutdown_reason (p : CanaryPolicy) (s : CanaryState) (intent : option OrderIntent)
    : option string :=
  if dlt (cp_max_position_notional p) (dabs (cs_position_notional s)) then
    Some "max_position_limit_exceeded"
  else if dlt (cp_max_inventory_notional p) (cs_inventory_notional s) then
    Some "max_inventory_limit_exceeded"
  else if dle (cs_daily_pnl s) (dneg (dabs (cp_max_daily_loss p))) then
    Some "max_daily_loss_exceeded"
  else if cp_max_order_count p <=? cs_order_count s then
    Some "max_order_count_exceeded"
  else match intent with
       | None => None
       | Some i =>
           if dlt (cp_max_order_notional p) (intent_notional i) then
             Some "max_order_notional_exceeded"
           else if negb (bool_decide (oi_order_type i ∈ cp_allowed_order_types p)) then
             Some "order_type_not_allowed_in_canary"
           else None
       end.

Definition activate_shutdown (reason : string) (s : CanaryState) : CanaryState :=
  mkCanary (cs_mode s) (cs_position_notional s) (cs_inventory_notional s) (cs_daily_pnl s)
    (cs_order_count s) (cs_trading_day s) true (Some reason).

Definition reset_after_approval (mode : LaunchMode) (s : CanaryState) : CanaryState :=
  mkCanary mode (cs_position_notional s) (cs_inventory_notional s) (cs_daily_pnl s)
    0 (cs_trading_day s) false None.

Definition canary_evaluate (p : CanaryPolicy) (now : datetime) (intent : option OrderIntent)
    (s0 : CanaryState) : CanaryState * CanaryDecision :=
  let s := roll_day_if_needed now s0 in
  let reject reason := mkDecision false false reason (cs_mode s) in
  if cs_kill_switch_active s then
    (s, reject (match cs_shutdown_reason s with
                | Some r => if String.eqb r "" then "kill_switch_active" else r
                | None => "kill_switch_active"
                end))
  else
    match automatic_shutdown_reason p s intent with
    | Some r => (activate_shutdown r s, reject r)
    | None =>
        match cs_mode s with
        | lm_read_only => (s, reject "read_only_mode")
        | lm_shadow | lm_paper | lm_dry_run =>
            (s, mkDecision true false (launch_mode_value (cs_mode s) +:+ "_no_external_execution") (cs_mode s))
        | lm_canary | lm_live => (s, mkDecision true true "execution_allowed" (cs_mode s))
        end
    end.

Definition record_order (p : CanaryPolicy) (now : datetime) (i : OrderIntent) (s0 : CanaryState)
    : CanaryState * CanaryDecision :=
  let '(s, d) := canary_evaluate p now (Some i) s0 in
  if cd_accepted d then
    let notional := intent_notional i in
    let pos := dadd (cs_position_notional s)
                 (if bool_decide (side_value (oi_side i) = "buy") then notional else dneg notional) in
    (mkCanary (cs_mode s) pos (dabs pos) (cs_daily_pnl s) (cs_order_count s + 1)
       (cs_trading_day s) (cs_kill_switch_active s) (cs_shutdown_reason s), d)
  else (s, d).

(** ** The controller as a transition system *)

(** [daily_pnl] is written from outside the controller. *)
Inductive canary_event : Type :=
  | CEvaluate (intent : option OrderIntent)
  | CRecord (intent : OrderIntent)
  | CShutdown (reason : string)
  | CReset (mode : LaunchMode)
  | CPnl (pnl : dec).

Definition canary_apply (p : CanaryPolicy) (now : datetime) (ev : canary_event) (s : CanaryState)
    : CanaryState :=
  match ev with
  | CEvaluate i => (canary_evaluate p now i s).1
  | CRecord i => (record_order p now i s).1
  | CShutdown r => activate_shutdown r s
  | CReset m => reset_after_approval m s
  | CPnl v => mkCanary (cs_mode s) (cs_position_notional s) (cs_inventory_notional s) v
                (cs_order_count s) (cs_trading_day s) (cs_kill_switch_active s) (cs_shutdown_reason s)
  end.

Inductive canary_reach (p : CanaryPolicy) : CanaryState -> list canary_event -> CanaryState -> Prop :=
  | reach_refl s : canary_reach p s [] s
  | reach_step s evs s1 now ev :
      canary_reach p s evs s1 -> canary_reach p s (evs ++ [ev]) (canary_apply p now ev s1).

Definition is_reset (ev : canary_event) : bool := match ev with CReset _ => true | _ => false end.

(** ** Lemmas *)

Lemma roll_day_fields now s :
  cs_mode (roll_day_if_needed now s) = cs_mode s /\
  cs_position_notional (roll_day_if_needed now s) = cs_position_notional s /\
  cs_inventory_notional (roll_day_if_needed now s) = cs_inventory_notional s /\
  cs_kill_switch_active (roll_day_if_needed now s) = cs_kill_switch_active s.
Proof. unfold roll_day_if_needed. by case_match. Qed.

(** [evaluate] on every branch. *)
Lemma canary_evaluate_cases p now i s :
  let s1 := roll_day_if_needed now s in
  let '(s', d) := canary_evaluate p now i s in
  (cs_kill_switch_active s1 = true /\ s' = s1 /\ cd_accepted d = false /\ cd_execution_allowed d = false) \/
  (exists r, cs_kill_switch_active s1 = false /\ automatic_shutdown_reason p s1 i = Some r /\
     s' = activate_shutdown r s1 /\ cd_accepted d = false /\ cd_execution_allowed d = false) \/
  (cs_kill_switch_active s1 = false /\ automatic_shutdown_reason p s1 i = None /\ s' = s1 /\
     cd_accepted d = negb (bool_decide (cs_mode s1 = lm_read_only)) /\
     cd_execution_allowed d = bool_decide (cs_mode s1 = lm_canary \/ cs_mode s1 = lm_live)).
Proof.
  intros s1. unfold canary_evaluate. fold s1.
  destruct (cs_kill_switch_active s1) eqn:K; [by left|].
  destruct (automatic_shutdown_reason p s1 i) as [r|] eqn:A; [right; left; by exists r|].
  destruct (cs_mode s1); right; right; split_and!; done.
Qed.

Lemma automatic_reason_none p s i :
  automatic_shutdown_reason p s i = None ->
  (dval (dabs (cs_position_notional s)) <= dval (cp_max_position_notional p))%Q /\
  (dval (cs_inventory_notional s) <= dval (cp_max_inventory_notional p))%Q /\
  (dval (dneg (dabs (cp_max_daily_loss p))) < dval (cs_daily_pnl s))%Q /\
  cs_order_count s < cp_max_order_count p /\
  (forall o, i = Some o -> (dval (intent_notional o) <= dval (cp_max_order_notional p))%Q /\
                           oi_order_type o ∈ cp_allowed_order_types p).
Proof.
  unfold automatic_shutdown_reason, dlt, dle. intros H.
  repeat (case_match; try done); qbool; split_and!; try done; try lia;
    intros ? [= <-]; split; try done.
  by eapply bool_decide_eq_true_1.
Qed.

Lemma canary_kill_persists p now ev s :
  is_reset ev = false -> cs_kill_switch_active s = true ->
  cs_kill_switch_active (canary_apply p now ev s) = true.
Proof.
  intros R K. destruct ev as [i|i|r|m|v]; try done; cbn [canary_apply].
  - pose proof (canary_evaluate_cases p now i s) as C.
    pose proof (roll_day_fields now s) as (_ & _ & _ & F). rewrite K in F.
    destruct (canary_evaluate p now i s) as [s' d]. simpl in *.
    destruct C as [(_ & -> & _)|[(r & C & _)|(C & _)]]; congruence.
  - pose proof (canary_evaluate_cases p now (Some i) s) as C.
    pose proof (roll_day_fields now s) as (_ & _ & _ & F). rewrite K in F.
    unfold record_order. destruct (canary_evaluate p now (Some i) s) as [s' d].
    destruct C as [(_ & -> & A & _)|[(r & C & _)|(C & _)]]; try congruence. by rewrite A.
Qed.

(** The largest position a canary run can reach: the configured limit plus one
    order, as the code adds them. *)
Definition position_bound (p : CanaryPolicy) : Q :=
  rnd28 (dval (cp_max_position_notional p) + dval (cp_max_order_notional p)).

Lemma rnd28_idem q : (rnd28 (rnd28 q) == rnd28 q)%Q.
Proof. apply rnd28_repr. apply repr_round; [lia|]. unfold prec; lia. Qed.

Lemma rnd28_abs q : (rnd28 (Qabs q) == Qabs (rnd28 q))%Q.
Proof.
  apply (Qabs_case q); intros H.
  - rewrite Qabs_pos; [done|]. by apply rnd28_nonneg.
  - rewrite rnd28_opp, Qabs_neg; [done|]. by apply rnd28_nonpos.
Qed.

Lemma rnd28_abs_le q b : (Qabs q <= b -> Qabs (rnd28 q) <= rnd28 b)%Q.
Proof. intros H. rewrite <- rnd28_abs. by apply rnd28_mono. Qed.

(** Positions are 28-digit numbers and never exceed the bound; the order count
    stays within the policy. *)
Definition canary_inv (p : CanaryPolicy) (s : CanaryState) : Prop :=
  (rnd28 (dval (cs_position_notional s)) == dval (cs_position_notional s))%Q /\
  (Qabs (dval (cs_position_notional s)) <= position_bound p)%Q /\
  0 <= cs_order_count s <= cp_max_order_count p.

Lemma signed_notional_val i : (0 <= dval (intent_notional i))%Q ->
  (Qabs (dval (if bool_decide (side_value (oi_side i) = "buy") then intent_notional i
               else dneg (intent_notional i))) <= dval (intent_notional i))%Q.
Proof.
  intros H. case_bool_decide.
  - rewrite Qabs_pos by done. lra.
  - rewrite dval_dneg, rnd28_opp, Qabs_opp.
    assert (E : (rnd28 (dval (intent_notional i)) == dval (intent_notional i))%Q)
      by (unfold intent_notional; rewrite dval_dmul; apply rnd28_idem).
    rewrite E, Qabs_pos by done. lra.
Qed.

Lemma roll_day_inv p now s : 0 <= cp_max_order_count p -> canary_inv p s -> canary_inv p (roll_day_if_needed now s).
Proof.
  intros H (I1 & I2 & I3). unfold roll_day_if_needed. case_match; split_and!; simpl; try done; lia.
Qed.

Lemma record_order_inv p now i s : 0 <= cp_max_order_count p -> (0 <= dval (intent_notional i))%Q ->
  canary_inv p s -> canary_inv p (record_order p now i s).1.
Proof.
  intros Hc Hn I. apply (roll_day_inv p now) in I; [|done].
  pose proof (canary_evaluate_cases p now (Some i) s) as C. unfold record_order.
  destruct (canary_evaluate p now (Some i) s) as [s' d].
  destruct C as [(_ & -> & A & _)|[(r & _ & _ & -> & A & _)|(_ & N & -> & _)]]; try (rewrite A; done).
  destruct (cd_accepted d); [|done]. apply automatic_reason_none in N as (N1 & _ & _ & N4 & N5).
  destruct (N5 i eq_refl) as [N6 _]. destruct I as (I1 & _ & I3). cbn [fst].
  split_and!; cbn [cs_position_notional cs_order_count]; try lia.
  - rewrite dval_dadd. apply rnd28_idem.
  - rewrite dval_dadd. apply rnd28_abs_le.
    rewrite dval_dabs, rnd28_abs, I1 in N1.
    pose proof (signed_notional_val i Hn). eapply Qle_trans; [apply Qabs_triangle|]. lra.
Qed.

Lemma canary_apply_inv p now ev s : 0 <= cp_max_order_count p ->
  (match ev with CRecord i => (0 <= dval (intent_notional i))%Q | _ => True end) ->
  canary_inv p s -> canary_inv p (canary_apply p now ev s).
Proof.
  intros Hc Hn I. destruct ev as [i|i|r|m|v]; cbn [canary_apply].
  - pose proof (canary_evaluate_cases p now i s) as C. apply (roll_day_inv p now) in I; [|done].
    destruct (canary_evaluate p now i s) as [s' d]. cbn [fst].
    destruct C as [(_ & -> & _)|[(r & _ & _ & -> & _)|(_ & _ & -> & _)]]; done.
  - by apply record_order_inv.
  - done.
  - destruct I as (I1 & I2 & I3). split_and!; try done; simpl; lia.
  - done.
Qed.

(** ** Properties *)

(** External execution is allowed only in canary or live mode, with the
    kill switch off and every limit of the policy respected; any limit violated
    trips the kill switch and rejects the order. *)
Theorem canary_execution_guarded p now i s s' d :
  canary_evaluate p now i s = (s', d) ->
  (cd_execution_allowed d = true ->
     (cs_mode s = lm_canary \/ cs_mode s = lm_live) /\ cs_kill_switch_active s' = false /\
     automatic_shutdown_reason p s' i = None) /\
  (is_Some (automatic_shutdown_reason p (roll_day_if_needed now s) i) ->
     cs_kill_switch_active s' = true /\ cd_accepted d = false).
Proof.
  intros E. pose proof (canary_evaluate_cases p now i s) as C.
  pose proof (roll_day_fields now s) as (F1 & _ & _ & F). rewrite E in C. simpl in C.
  destruct C as [(K & -> & A & B)|[(r & K & R & -> & A & B)|(K & R & -> & A & B)]].
  - rewrite B. done.
  - rewrite B. done.
  - rewrite B, F1, R. split; [|by intros [? ?]]. intros H. apply bool_decide_eq_true in H. done.
Qed.

Definition demo_policy : CanaryPolicy :=
  mkPolicy (dZ 1000) (dZ 50) 10 (dZ 1000) (dZ 100) [ot_limit; ot_post_only].
Definition demo_canary : CanaryState := mkCanary lm_canary dzero dzero dzero 0 0 false None.
Definition demo_intent (q : Z) : OrderIntent :=
  mkIntent coinstore "BTC/USDT" buy ot_limit (dZ q) (Some (dZ 50)) "c1" tif_gtc false [].

Lemma canary_execution_guarded_witness :
  cs_kill_switch_active (canary_evaluate demo_policy 0 (Some (demo_intent 3)) demo_canary).1 = true.
Proof.
  apply (canary_execution_guarded demo_policy 0 (Some (demo_intent 3)) demo_canary _
           (canary_evaluate demo_policy 0 (Some (demo_intent 3)) demo_canary).2); [reflexivity|].
  vm_compute. eexists. reflexivity.
Defined.

(** The canary kill switch is sticky: along every sequence of events
    without [reset_after_approval] it stays on, day changes included. *)
Theorem canary_kill_switch_sticky p s evs s' :
  canary_reach p s evs s' -> cs_kill_switch_active s = true ->
  forallb (fun ev => negb (is_reset ev)) evs = true ->
  cs_kill_switch_active s' = true.
Proof.
  intros R K. induction R as [|s evs s1 now ev R IH]; intros F; [done|].
  rewrite forallb_app in F. apply andb_prop in F as [F1 F2]. simpl in F2.
  rewrite andb_true_r in F2. apply canary_kill_persists; [by apply negb_true_iff|auto].
Qed.

Lemma canary_kill_switch_sticky_witness :
  let s := activate_shutdown "operator" demo_canary in
  cs_kill_switch_active (canary_apply demo_policy (seconds 200000) (CRecord (demo_intent 1)) s) = true.
Proof.
  intros s. apply (canary_kill_switch_sticky demo_policy s ([] ++ [CRecord (demo_intent 1)]));
    [|reflexivity|reflexivity]. apply reach_step, reach_refl.
Defined.

(** From a fresh state, along every sequence of events whose recorded
    orders have nonnegative notional, the position never exceeds the position
    limit plus one order and the order count never exceeds the policy. *)
Theorem canary_limits_invariant p mode day evs s :
  canary_reach p (mkCanary mode dzero dzero dzero 0 day false None) evs s ->
  0 <= cp_max_order_count p -> (0 <= position_bound p)%Q ->
  Forall (fun ev => match ev with CRecord i => (0 <= dval (intent_notional i))%Q | _ => True end) evs ->
  (Qabs (dval (cs_position_notional s)) <= position_bound p)%Q /\
  0 <= cs_order_count s <= cp_max_order_count p.
Proof.
  intros R Hc Hb F.
  assert (I : canary_inv p s); [|by destruct I as (_ & ? & ?)].
  remember (mkCanary mode dzero dzero dzero 0 day false None) as s0 eqn:E0.
  induction R as [|s evs s1 now ev R IH]; subst.
  - split_and!; simpl; try done; lia.
  - apply Forall_app in F as [F1 F2]. apply Forall_cons in F2 as [F2 _].
    apply canary_apply_inv; [done|done|]. by apply IH.
Qed.

Lemma canary_limits_invariant_witness :
  let s := canary_apply demo_policy 0 (CRecord (demo_intent 2))
             (mkCanary lm_canary dzero dzero dzero 0 0 false None) in
  (Qabs (dval (cs_position_notional s)) <= position_bound demo_policy)%Q.
Proof.
  intros s. apply (canary_limits_invariant demo_policy lm_canary 0 ([] ++ [CRecord (demo_intent 2)]) s).
  - apply reach_step, reach_refl.
  - vm_compute. discriminate.
  - vm_compute. discriminate.
  - repeat constructor. vm_compute. discriminate.
Defined.
