(* ===== verification/Reconcile.v ===== *)
(** * Reconcile: comparison of two account snapshots ([reconciliation/engine.py])

    The three record loops of the source share one shape: the sorted union of
    the keys of two dicts, a missing record on one side, or a field by field
    comparison; [compare_maps] is that loop. *)

From S2P Require Import Prelude Rounding PyFloat PyDecimal PyData PyValue Models.

#[local] Open Scope string_scope.
#[local] Open Scope list_scope.

Inductive ReconciliationSeverity : Type := rs_info | rs_warning | rs_critical.

Definition severity_value (s : ReconciliationSeverity) : string :=
  match s with rs_info => "info" | rs_warning => "warning" | rs_critical => "critical" end.

Record BalanceRecord : Type := mkBalanceRecord {
  br_asset : string; br_total : dec; br_available : dec; br_reserved : dec }.

Record PositionRecord : Type := mkPositionRecord {
  pr_symbol : string; pr_asset : string; pr_quantity : dec; pr_notional : dec }.

Record OrderRecord : Type := mkOrderRecord {
  or_client_order_id : string; or_exchange_order_id : option string; or_symbol : string;
  or_status : string; or_filled_quantity : dec; or_remaining_quantity : dec }.

Record FillRecord : Type := mkFillRecord {
  fr_trade_id : string; fr_order_id : string; fr_symbol : string;
  fr_quantity : dec; fr_price : dec; fr_fee : dec }.

Record PnlRecord : Type := mkPnlRecord { pnl_realized : dec; pnl_unrealized : dec; pnl_fees : dec }.

Record ReconciliationSnapshot : Type := mkSnapshot {
  sn_balances : list BalanceRecord;
  sn_positions : list PositionRecord;
  sn_orders : list OrderRecord;
  sn_fills : list FillRecord;
  sn_pnl : option PnlRecord }.

Record ReconciliationMismatch : Type := mkMismatch {
  mm_category : string; mm_key : string; mm_severity : ReconciliationSeverity;
  mm_message : string; mm_exchange_value : option string; mm_internal_value : option string }.

Record ReconciliationEngine : Type := mkReconciler {
  balance_tolerance : dec; notional_tolerance : dec }.

Definition default_reconciler : ReconciliationEngine := mkReconciler (mkDec 1 (-8)) (mkDec 1 (-2)).

(** [str] of a dataclass instance and of an optional one. *)
Definition dataclass_repr (name : string) (fields : list (string * pyval)) : string :=
  name +:+ "(" +:+ str_join ", " (map (fun f => f.1 +:+ "=" +:+ py_repr f.2) fields) +:+ ")".
Definition opt_str {A} (f : A -> string) (o : option A) : string :=
  match o with Some a => f a | None => "None" end.
Definition pstr_opt (o : option string) : pyval := match o with Some s => PStr s | None => PNone end.

Definition balance_repr (b : BalanceRecord) : string :=
  dataclass_repr "BalanceRecord" [("asset", PStr (br_asset b)); ("total", PDec (br_total b));
    ("available", PDec (br_available b)); ("reserved", PDec (br_reserved b))].
Definition position_repr (p : PositionRecord) : string :=
  dataclass_repr "PositionRecord" [("symbol", PStr (pr_symbol p)); ("asset", PStr (pr_asset p));
    ("quantity", PDec (pr_quantity p)); ("notional", PDec (pr_notional p))].
Definition order_repr (o : OrderRecord) : string :=
  dataclass_repr "OrderRecord" [("client_order_id", PStr (or_client_order_id o));
    ("exchange_order_id", pstr_opt (or_exchange_order_id o)); ("symbol", PStr (or_symbol o));
    ("status", PStr (or_status o)); ("filled_quantity", PDec (or_filled_quantity o));
    ("remaining_quantity", PDec (or_remaining_quantity o))].
Definition pnl_repr (p : PnlRecord) : string :=
  dataclass_repr "PnlRecord" [("realized", PDec (pnl_realized p));
    ("unrealized", PDec (pnl_unrealized p)); ("fees", PDec (pnl_fees p))].

(** [abs(a - b) > tol] *)
Definition differs (tol a b : dec) : bool := dlt tol (dabs (dsub a b)).

Definition report (c : bool) (m : ReconciliationMismatch) : list ReconciliationMismatch :=
  if c then [m] else [].

Section CompareMaps.
Context {K : Type} `{EqDecision K} {A : Type} (le : K -> K -> bool) (key : A -> K).
Context (missing : K -> option A -> option A -> ReconciliationMismatch).
Context (check : K -> A -> A -> list ReconciliationMismatch).

Definition compare_key (ex int : list (K * A)) (k : K) : list ReconciliationMismatch :=
  match od_get k ex, od_get k int with
  | Some l, Some r => check k l r
  | l, r => [missing k l r]
  end.

Definition union_keys (ex int : list (K * A)) : list K :=
  sorted le (remove_dups (od_keys ex ++ od_keys int)).

Definition compare_maps (exchange internal : list A) : list ReconciliationMismatch :=
  let ex := od_of_list key id exchange in
  let int := od_of_list key id internal in
  concat (map (compare_key ex int) (union_keys ex int)).

End CompareMaps.

Definition compare_balances (r : ReconciliationEngine) : list BalanceRecord -> list BalanceRecord -> list ReconciliationMismatch :=
  compare_maps str_le br_asset
    (fun asset l x => mkMismatch "balance" asset rs_critical "missing balance record"
       (Some (opt_str balance_repr l)) (Some (opt_str balance_repr x)))
    (fun asset l x =>
       report (differs (balance_tolerance r) (br_total l) (br_total x))
         (mkMismatch "balance" asset rs_critical "total balance mismatch"
            (Some (dec_str (br_total l))) (Some (dec_str (br_total x)))) ++
       report (differs (balance_tolerance r) (br_available l) (br_available x))
         (mkMismatch "balance" asset rs_warning "available balance mismatch"
            (Some (dec_str (br_available l))) (Some (dec_str (br_available x))))).

(** Order of tuples of two strings. *)
Definition pair_le (a b : string * string) : bool :=
  if bool_decide (a.1 = b.1) then str_le a.2 b.2 else str_le a.1 b.1.

Definition compare_positions (r : ReconciliationEngine) : list PositionRecord -> list PositionRecord -> list ReconciliationMismatch :=
  let name k := str_join "/" [k.1; k.2] in
  compare_maps pair_le (fun p => (pr_symbol p, pr_asset p))
    (fun k l x => mkMismatch "position" (name k) rs_critical "missing position record"
       (Some (opt_str position_repr l)) (Some (opt_str position_repr x)))
    (fun k l x =>
       report (differs (balance_tolerance r) (pr_quantity l) (pr_quantity x))
         (mkMismatch "position" (name k) rs_critical "position quantity mismatch"
            (Some (dec_str (pr_quantity l))) (Some (dec_str (pr_quantity x)))) ++
       report (differs (notional_tolerance r) (pr_notional l) (pr_notional x))
         (mkMismatch "position" (name k) rs_warning "position notional mismatch"
            (Some (dec_str (pr_notional l))) (Some (dec_str (pr_notional x))))).

Definition compare_orders (r : ReconciliationEngine) : list OrderRecord -> list OrderRecord -> list ReconciliationMismatch :=
  compare_maps str_le or_client_order_id
    (fun k l x => mkMismatch "order" k rs_critical "missing order record"
       (Some (opt_str order_repr l)) (Some (opt_str order_repr x)))
    (fun k l x =>
       report (negb (String.eqb (or_status l) (or_status x)))
         (mkMismatch "order" k rs_critical "order status mismatch"
            (Some (or_status l)) (Some (or_status x))) ++
       report (differs (balance_tolerance r) (or_filled_quantity l) (or_filled_quantity x))
         (mkMismatch "order" k rs_warning "filled quantity mismatch"
            (Some (dec_str (or_filled_quantity l))) (Some (dec_str (or_filled_quantity x))))).

Definition bool_str (b : bool) : string := if b then "True" else "False".

Definition compare_fills (exchange internal : list FillRecord) : list ReconciliationMismatch :=
  let ex := remove_dups (map fr_trade_id exchange) in
  let int := remove_dups (map fr_trade_id internal) in
  let mem t l := bool_decide (t ∈ l) in
  let diff := filter (fun t => t ∉ int) ex ++ filter (fun t => t ∉ ex) int in
  map (fun t => mkMismatch "fill" t rs_critical "fill missing from one side"
                  (Some (bool_str (mem t ex))) (Some (bool_str (mem t int))))
      (sorted str_le diff).

Definition compare_pnl (r : ReconciliationEngine) (exchange internal : option PnlRecord) : list ReconciliationMismatch :=
  match exchange, internal with
  | None, None => []
  | Some l, Some x =>
      let field name f :=
        report (differs (notional_tolerance r) (f l) (f x))
          (mkMismatch "pnl" name rs_warning "pnl component mismatch"
             (Some (dec_str (f l))) (Some (dec_str (f x)))) in
      field "realized" pnl_realized ++ field "unrealized" pnl_unrealized ++ field "fees" pnl_fees
  | l, x => [mkMismatch "pnl" "summary" rs_critical "missing pnl record"
               (Some (opt_str pnl_repr l)) (Some (opt_str pnl_repr x))]
  end.

Definition reconcile (r : ReconciliationEngine) (exchange internal : ReconciliationSnapshot) : list ReconciliationMismatch :=
  compare_balances r (sn_balances exchange) (sn_balances internal) ++
  compare_positions r (sn_positions exchange) (sn_positions internal) ++
  compare_orders r (sn_orders exchange) (sn_orders internal) ++
  compare_fills (sn_fills exchange) (sn_fills internal) ++
  compare_pnl r (sn_pnl exchange) (sn_pnl internal).

(** [generate_alerts]: one dict per mismatch. *)
Definition generate_alerts (ms : list ReconciliationMismatch) : list (list (string * string)) :=
  map (fun m => [("severity", severity_value (mm_severity m));
                 ("title", "Reconciliation mismatch: " +:+ mm_category m);
                 ("body", mm_key m +:+ ": " +:+ mm_message m +:+ " exchange=" +:+
                          opt_str id (mm_exchange_value m) +:+ " internal=" +:+
                          opt_str id (mm_internal_value m))]) ms.

(** ** Agreement of snapshots *)

(** Two keyed collections agree when they have the same keys and corresponding
    records are related. *)
Definition maps_agree {K A} `{EqDecision K} (key : A -> K) (R : A -> A -> Prop) (xs ys : list A) : Prop :=
  forall k, match od_get k (od_of_list key id xs), od_get k (od_of_list key id ys) with
            | Some x, Some y => R x y
            | None, None => True
            | _, _ => False
            end.

(** Within tolerance, in the code's own 28-digit arithmetic. *)
Definition close (tol a b : dec) : Prop := (rnd28 (Qabs (rnd28 (dval a - dval b))) <= dval tol)%Q.

Definition balances_agree (r : ReconciliationEngine) : list BalanceRecord -> list BalanceRecord -> Prop :=
  maps_agree br_asset (fun x y =>
    close (balance_tolerance r) (br_total x) (br_total y) /\
    close (balance_tolerance r) (br_available x) (br_available y)).
Definition positions_agree (r : ReconciliationEngine) : list PositionRecord -> list PositionRecord -> Prop :=
  maps_agree (fun p => (pr_symbol p, pr_asset p)) (fun x y =>
    close (balance_tolerance r) (pr_quantity x) (pr_quantity y) /\
    close (notional_tolerance r) (pr_notional x) (pr_notional y)).
Definition orders_agree (r : ReconciliationEngine) : list OrderRecord -> list OrderRecord -> Prop :=
  maps_agree or_client_order_id (fun x y =>
    or_status x = or_status y /\
    close (balance_tolerance r) (or_filled_quantity x) (or_filled_quantity y)).
Definition fills_agree (xs ys : list FillRecord) : Prop :=
  forall t, t ∈ map fr_trade_id xs <-> t ∈ map fr_trade_id ys.
Definition pnl_agree (r : ReconciliationEngine) (x y : option PnlRecord) : Prop :=
  match x, y with
  | None, None => True
  | Some x, Some y =>
      close (notional_tolerance r) (pnl_realized x) (pnl_realized y) /\
      close (notional_tolerance r) (pnl_unrealized x) (pnl_unrealized y) /\
      close (notional_tolerance r) (pnl_fees x) (pnl_fees y)
  | _, _ => False
  end.

(** The abstract contract of reconciliation. *)
Definition snapshots_agree (r : ReconciliationEngine) (x y : ReconciliationSnapshot) : Prop :=
  balances_agree r (sn_balances x) (sn_balances y) /\
  positions_agree r (sn_positions x) (sn_positions y) /\
  orders_agree r (sn_orders x) (sn_orders y) /\
  fills_agree (sn_fills x) (sn_fills y) /\
  pnl_agree r (sn_pnl x) (sn_pnl y).

(** ** Lemmas *)

Lemma differs_close tol a b : differs tol a b = false <-> close tol a b.
Proof.
  unfold differs, close, dlt. rewrite negb_false_iff, Qle_bool_iff.
  rewrite dval_dabs, dval_dsub. done.
Qed.

Lemma report_nil c m : report c m = [] <-> c = false.
Proof. by destruct c. Qed.

Lemma close_sym tol a b : close tol a b <-> close tol b a.
Proof.
  unfold close. assert (E : (dval a - dval b == - (dval b - dval a))%Q) by ring.
  by rewrite E, rnd28_opp, Qabs_opp.
Qed.

Lemma close_refl tol a : (0 <= dval tol)%Q -> close tol a a.
Proof.
  intros H. unfold close. assert (E : (dval a - dval a == 0)%Q) by ring.
  rewrite E, (rnd28_0 0), (rnd28_0 (Qabs 0)) by done. done.
Qed.

Lemma concat_map_nil {A B} (f : A -> list B) l : concat (map f l) = [] <-> forall x, x ∈ l -> f x = [].
Proof.
  induction l as [|x l IH]; simpl.
  - split; [|done]. intros _ y Hy. by apply elem_of_nil in Hy.
  - rewrite app_nil, IH. split.
    + intros [H1 H2] y Hy. apply elem_of_cons in Hy as [->|Hy]; auto.
    + intros H. split; [apply H; by left|]. intros y Hy. apply H. by right.
Qed.

Lemma elem_of_union_keys {K A} `{EqDecision K} le (ex int : list (K * A)) k :
  k ∈ union_keys le ex int <-> is_Some (od_get k ex) \/ is_Some (od_get k int).
Proof.
  unfold union_keys. rewrite elem_of_sorted, elem_of_remove_dups, elem_of_app.
  rewrite <- !not_eq_None_Some, !od_get_None.
  destruct (decide (k ∈ od_keys ex)), (decide (k ∈ od_keys int)); tauto.
Qed.

Lemma compare_maps_nil {K A} `{EqDecision K} le (key : A -> K) missing check (R : A -> A -> Prop) xs ys :
  (forall k x y, check k x y = [] <-> R x y) ->
  compare_maps le key missing check xs ys = [] <-> maps_agree key R xs ys.
Proof.
  intros C. unfold compare_maps, maps_agree. rewrite concat_map_nil.
  setoid_rewrite elem_of_union_keys. unfold compare_key. split; intros H k; specialize (H k).
  - destruct (od_get k (od_of_list key id xs)) as [x|], (od_get k (od_of_list key id ys)) as [y|]; try done.
    + apply (C k), H. by left; eexists.
    + ospecialize (H _); [by left; eexists|]. done.
    + ospecialize (H _); [by right; eexists|]. done.
  - intros Hk. destruct (od_get k (od_of_list key id xs)) as [x|], (od_get k (od_of_list key id ys)) as [y|]; try done.
    + by apply C.
    + by destruct Hk as [[? ?]|[? ?]].
Qed.

Lemma sorted_nil {A} (le : A -> A -> bool) l : sorted le l = [] <-> l = [].
Proof.
  split; [|by intros ->]. intros H. pose proof (sorted_length le l) as L. rewrite H in L.
  by destruct l.
Qed.

Lemma filter_notin_nil {A} `{EqDecision A} (l k : list A) :
  filter (fun t => t ∉ remove_dups k) (remove_dups l) = [] <-> (forall t, t ∈ l -> t ∈ k).
Proof.
  split.
  - intros H t Ht. destruct (decide (t ∈ k)) as [|N]; [done|]. exfalso.
    apply (elem_of_nil t (A:=A)). rewrite <- H. apply list_elem_of_filter.
    by rewrite !elem_of_remove_dups.
  - intros H. destruct (filter _ _) as [|t l'] eqn:E; [done|].
    assert (Ht : t ∈ filter (fun t => t ∉ remove_dups k) (remove_dups l)) by (rewrite E; by left).
    apply list_elem_of_filter in Ht as [H1 H2]. rewrite elem_of_remove_dups in H1, H2. by destruct H1; auto.
Qed.

Lemma map_nil_iff {A B} (f : A -> B) l : map f l = [] <-> l = [].
Proof. by destruct l. Qed.

Lemma compare_fills_nil xs ys : compare_fills xs ys = [] <-> fills_agree xs ys.
Proof.
  unfold compare_fills, fills_agree. rewrite map_nil_iff, sorted_nil, app_nil, !filter_notin_nil.
  firstorder.
Qed.

Lemma compare_pnl_nil r x y : compare_pnl r x y = [] <-> pnl_agree r x y.
Proof.
  unfold compare_pnl, pnl_agree. destruct x as [x|], y as [y|]; try done.
  by rewrite !app_nil, !report_nil, !differs_close.
Qed.

(** Emptiness of the whole report. *)
Lemma reconcile_nil r x y : reconcile r x y = [] <-> snapshots_agree r x y.
Proof.
  unfold reconcile, snapshots_agree. rewrite !app_nil.
  rewrite compare_fills_nil, compare_pnl_nil.
  unfold compare_balances, balances_agree, compare_positions, positions_agree, compare_orders, orders_agree.
  erewrite !compare_maps_nil; [done|intros k a b; rewrite app_nil, !report_nil..].
  - rewrite differs_close, negb_false_iff, String.eqb_eq. done.
  - by rewrite !differs_close.
  - by rewrite !differs_close.
Qed.

(** ** Properties *)

(** C36: reconciliation reports nothing exactly when the snapshots agree: the
    same balances, positions, orders and fills by key, equal order statuses and
    all quantities within the tolerances. *)
Theorem reconcile_clean_iff r x y : reconcile r x y = [] <-> snapshots_agree r x y.
Proof. apply reconcile_nil. Qed.


Lemma maps_agree_sym {K A} `{EqDecision K} (key : A -> K) (R : A -> A -> Prop) xs ys :
  (forall x y, R x y -> R y x) -> maps_agree key R xs ys -> maps_agree key R ys xs.
Proof. intros S H k. specialize (H k). repeat case_match; auto. Qed.

Lemma maps_agree_refl {K A} `{EqDecision K} (key : A -> K) (R : A -> A -> Prop) xs :
  (forall x, R x x) -> maps_agree key R xs xs.
Proof. intros S k. case_match; auto. Qed.

Lemma snapshots_agree_sym r x y : snapshots_agree r x y -> snapshots_agree r y x.
Proof.
  intros (B & P & O & F & N). split_and!.
  - eapply maps_agree_sym, B. intros a b [? ?]; split; by apply close_sym.
  - eapply maps_agree_sym, P. intros a b [? ?]; split; by apply close_sym.
  - eapply maps_agree_sym, O. intros a b [? ?]; split; [done|by apply close_sym].
  - intros t. symmetry. apply F.
  - unfold pnl_agree in *. repeat case_match; try done.
    destruct N as (? & ? & ?). split_and!; by apply close_sym.
Qed.

(** Whether the report is clean does not depend on which side is the
    exchange, and a snapshot reconciles with itself under nonnegative
    tolerances. *)
Theorem reconcile_symmetric_reflexive r x y :
  (reconcile r x y = [] <-> reconcile r y x = []) /\
  (Qle_bool 0 (dval (balance_tolerance r)) && Qle_bool 0 (dval (notional_tolerance r)) = true ->
   reconcile r x x = []).
Proof.
  split.
  - rewrite !reconcile_nil. split; apply snapshots_agree_sym.
  - intros [H1 H2]%andb_prop. apply Qle_bool_iff in H1, H2. apply reconcile_nil. split_and!.
    + apply maps_agree_refl. intros b. split; by apply close_refl.
    + apply maps_agree_refl. intros b. split; by apply close_refl.
    + apply maps_agree_refl. intros b. split; [done|by apply close_refl].
    + done.
    + unfold pnl_agree. case_match; [|done]. split_and!; by apply close_refl.
Qed.

Lemma reconcile_symmetric_reflexive_witness :
  reconcile default_reconciler (mkSnapshot [mkBalanceRecord "BTC" (dZ 1) (dZ 1) dzero] [] [] [] None)
    (mkSnapshot [mkBalanceRecord "BTC" (dZ 1) (dZ 1) dzero] [] [] [] None) = [].
Proof. apply (reconcile_symmetric_reflexive default_reconciler _ (mkSnapshot [] [] [] [] None)). vm_compute. reflexivity. Defined.

Example reconcile_example :
  map (fun m => (mm_key m, mm_message m))
    (reconcile default_reconciler
      (mkSnapshot [mkBalanceRecord "BTC" (dZ 1) (dZ 1) dzero; mkBalanceRecord "USDT" (dZ 5) (dZ 5) dzero] [] [] [] None)
      (mkSnapshot [mkBalanceRecord "BTC" (dZ 2) (dZ 1) dzero] [] [] [] None))
  = [("BTC", "total balance mismatch"); ("USDT", "missing balance record")].
Proof. vm_compute. reflexivity. Qed.
