(* ===== verification/Inventory.v ===== *)
(** * Inventory: exposures and inventory report ([engines/inventory/engine.py]) *)

From S2P Require Import Prelude Rounding PyFloat PyDecimal PyData PyValue Models Config.

#[local] Open Scope string_scope.
#[local] Open Scope list_scope.

Record AssetBalance : Type := mkAssetBalance {
  ab_asset : string; ab_total : float; ab_available : float; ab_reserved : float; ab_price : float }.

Record Exposure : Type := mkExposure {
  ex_asset : string; ex_notional : float; ex_ratio : float; ex_alert : bool }.

Record InventoryReport : Type := mkInventoryReport {
  ir_total_notional : float; ir_exposures : list Exposure;
  ir_target_base_notional : float; ir_skew_bps : float }.

(** [balance.total * balance.price] *)
Definition balance_notional (b : AssetBalance) : float := fmul (ab_total b) (ab_price b).

(** [InventoryEngine.exposures]. The division is only reached when [total] is
    not [<= 0]; a NaN total divides. *)
Definition exposures (s : InventorySettings) (bs : list AssetBalance) : list Exposure :=
  let total := fsum (map balance_notional bs) in
  if fle total (Fin 0) then map (fun b => mkExposure (ab_asset b) (Fin 0) (Fin 0) false) bs
  else map (fun b =>
    let notional := balance_notional b in
    mkExposure (ab_asset b) notional (fdiv notional total)
      (fge notional (fmul (max_asset_exposure s) (alert_threshold_ratio s)))) bs.

(** [next((item for item in exposures if item.asset == asset), default)] *)
Definition find_exposure (asset : string) (es : list Exposure) : option Exposure :=
  List.find (fun e => String.eqb (ex_asset e) asset) es.

Definition inventory_report (s : InventorySettings) (bs : list AssetBalance) (base_asset : string) : InventoryReport :=
  let es := exposures s bs in
  let total := fsum (map ex_notional es) in
  let base := match find_exposure base_asset es with
              | Some e => e | None => mkExposure base_asset (Fin 0) (Fin 0) false end in
  let skew := fmul (fmul (fsub (ex_ratio base) (target_base_ratio s)) (skew_intensity s)) (of_Z 100) in
  mkInventoryReport total es (fmul total (target_base_ratio s)) skew.

Definition inventory_target_delta (s : InventorySettings) (bs : list AssetBalance) (base_asset : string) : float :=
  let r := inventory_report s bs base_asset in
  let current := match find_exposure base_asset (ir_exposures r) with
                 | Some e => ex_notional e | None => Fin 0 end in
  fsub (ir_target_base_notional r) current.

(** ** Lemmas *)

(** One exposure per balance, in order, and an alert exactly when the asset's
    notional reaches the configured share of its maximum. *)
Lemma exposures_assets s bs : map ex_asset (exposures s bs) = map ab_asset bs.
Proof. unfold exposures. case_match; rewrite map_map; done. Qed.

Lemma exposures_alert s bs e : e ∈ exposures s bs -> ex_alert e = true ->
  fge (ex_notional e) (fmul (max_asset_exposure s) (alert_threshold_ratio s)) = true /\
  fle (fsum (map balance_notional bs)) (Fin 0) = false.
Proof.
  unfold exposures. destruct (fle _ _) eqn:T; intros (b & -> & _)%list_elem_of_fmap H; [done|].
  by split.
Qed.

(** The delta moves the base notional to its target. *)
Lemma target_delta_missing s bs base :
  base ∉ map ab_asset bs ->
  inventory_target_delta s bs base = fsub (ir_target_base_notional (inventory_report s bs base)) (Fin 0).
Proof.
  intros H. unfold inventory_target_delta. cbn [ir_exposures inventory_report].
  destruct (find_exposure base (exposures s bs)) as [e|] eqn:F; [|done].
  exfalso. apply H. apply List.find_some in F as [F1 F2]. apply String.eqb_eq in F2 as <-.
  rewrite <- (exposures_assets s). apply list_elem_of_fmap. exists e. split; [done|].
  by apply list_elem_of_In.
Qed.

Example inventory_example :
  let s := mkInventory (flit 5 10) (flit 75 100) (of_Z 1000) (flit 8 10) in
  let bs := [mkAssetBalance "BTC" (of_Z 3) (of_Z 3) (of_Z 0) (of_Z 100);
             mkAssetBalance "USDT" (of_Z 100) (of_Z 100) (of_Z 0) (of_Z 1)] in
  ir_total_notional (inventory_report s bs "BTC") = of_Z 400
  /\ inventory_target_delta s bs "BTC" = of_Z (-100)
  /\ feq (ir_skew_bps (inventory_report s bs "BTC")) (flit 1875 100) = true.
Proof. vm_compute. repeat split. Qed.
