(* ===== verification/Strategy.v ===== *)
(** * Strategy: the regime-aware strategy ([engines/strategy/advanced.py]) *)

From S2P Require Import Prelude Rounding PyFloat PyDecimal PyData PyValue Models.

#[local] Open Scope string_scope.
#[local] Open Scope list_scope.

Inductive MarketRegime : Type := mr_stable | mr_trending | mr_volatile | mr_stressed.

#[export] Instance MarketRegime_eq_dec : EqDecision MarketRegime.
Proof. solve_decision. Defined.

Record MicrostructureSnapshot : Type := mkMicro {
  mi_mid_price : float; mi_spread_bps : float; realized_volatility : float;
  orderbook_imbalance : float; trade_imbalance : float; top_of_book_depth : float;
  depth_slope : float; short_horizon_return_bps : float }.

Record InventoryProfile : Type := mkProfile {
  ip_base_ratio : float; ip_target_base_ratio : float;
  ip_exposure_notional : float; ip_max_exposure_notional : float }.

Record StrategyDecision : Type := mkStrategyDecision {
  sd_regime : MarketRegime; bid_spread_bps : float; ask_spread_bps : float;
  bid_size_multiplier : float; ask_size_multiplier : float; quote_skew_bps : float;
  placement_offset_bps : float; neutralization_required : bool; reduction_side : option string }.

(** [MarketRegimeDetector.detect] *)
Definition detect (m : MicrostructureSnapshot) : MarketRegime :=
  if fgt (realized_volatility m) (flit 5 100) || fgt (fabs (short_horizon_return_bps m)) (of_Z 150) then mr_stressed
  else if fgt (realized_volatility m) (flit 2 100) || fgt (fabs (orderbook_imbalance m)) (flit 6 10) then mr_volatile
  else if fgt (fabs (short_horizon_return_bps m)) (of_Z 35) || fgt (fabs (trade_imbalance m)) (flit 4 10) then mr_trending
  else mr_stable.

Definition regime_multiplier (r : MarketRegime) : float :=
  match r with
  | mr_stable => flit 85 100 | mr_trending => flit 11 10
  | mr_volatile => flit 16 10 | mr_stressed => flit 25 10
  end.

(** [DynamicSpreadModel.spread] *)
Definition dynamic_spread (base : float) (m : MicrostructureSnapshot) (r : MarketRegime) : float :=
  let volatility_component := fmul (realized_volatility m) (of_Z 10000) in
  let liquidity_component :=
    fmul (fmax (of_Z 0) (fsub (of_Z 1) (fmin (of_Z 1) (fdiv (top_of_book_depth m) (of_Z 100000))))) base in
  let imbalance_component := fmul (fabs (orderbook_imbalance m)) base in
  fmax (of_Z 1) (fmul (fadd (fadd (fadd base volatility_component) liquidity_component) imbalance_component)
                      (regime_multiplier r)).

(** [abs(exposure) / max(max_exposure, 1.0)]; the divisor is at least 1 or NaN,
    so the division never raises. *)
Definition utilization (i : InventoryProfile) : float :=
  fdiv (fabs (ip_exposure_notional i)) (fmax (ip_max_exposure_notional i) (of_Z 1)).

(** [InventoryAwareSpreadModel.skew] *)
Definition inventory_skew (i : InventoryProfile) : float :=
  let deviation := fsub (ip_base_ratio i) (ip_target_base_ratio i) in
  fmul (fmul deviation (of_Z 100)) (fadd (of_Z 1) (fmin (of_Z 1) (utilization i))).

(** [AdaptiveQuotePlacement.placement_offset] *)
Definition placement_offset (m : MicrostructureSnapshot) (r : MarketRegime) : float :=
  let stability_bonus := if bool_decide (r = mr_stable) then of_Z 2 else of_Z 0 in
  let penalty := fadd (fmul (fabs (trade_imbalance m)) (of_Z 8))
                      (fmul (fmax (of_Z 0) (fneg (depth_slope m))) (of_Z 5)) in
  fmax (of_Z (-5)) (fmin (of_Z 25) (fsub penalty stability_bonus)).

(** [InventoryNeutralization.decision] *)
Definition neutralization (i : InventoryProfile) : bool * option string :=
  if flt (utilization i) (flit 7 10) then (false, None)
  else if fgt (ip_base_ratio i) (ip_target_base_ratio i) then (true, Some "sell")
  else (true, Some "buy").

(** The regime scaling of a spread at the end of [decide]. *)
Definition scale_spread (r : MarketRegime) (x : float) : float :=
  let y := if bool_decide (r = mr_stable) then fmul x (flit 9 10) else x in
  if bool_decide (r = mr_volatile \/ r = mr_stressed) then fmul y (flit 125 100) else y.

(** [InstitutionalStrategyEngine.decide] *)
Definition decide_strategy (base_spread : float) (m : MicrostructureSnapshot) (i : InventoryProfile) : StrategyDecision :=
  let r := detect m in
  let spread := dynamic_spread base_spread m r in
  let skew := inventory_skew i in
  let offset := placement_offset m r in
  let '(neutralize, side) := neutralization i in
  let adj := fmul (orderbook_imbalance m) (of_Z 5) in
  let half := fdiv spread (of_Z 2) in
  let bid := fmax (of_Z 1) (fadd (fadd (fadd half skew) adj) offset) in
  let ask := fmax (of_Z 1) (fadd (fsub (fsub half skew) adj) offset) in
  let bid_size := if bool_decide (side = Some "sell") then flit 4 10 else of_Z 1 in
  let ask_size := if bool_decide (side = Some "buy") then flit 4 10 else of_Z 1 in
  mkStrategyDecision r (scale_spread r bid) (scale_spread r ask) bid_size ask_size skew offset neutralize side.

(** ** Lemmas *)

(** [max(1.0, x)] is at least 1 for every [x], NaN included. *)
Lemma fmax1_ge x : fle (Fin 1) (fmax (of_Z 1) x) = true.
Proof. change (of_Z 1) with (Fin 1). by apply fmax_ge_l. Qed.

Lemma fmul_ge_scale k v x : (0 < k)%Q -> of_Q (1 * k) = Fin v -> fle (Fin 1) x = true ->
  fle (Fin v) (fmul x (Fin k)) = true.
Proof.
  intros Hk E Hx. destruct x as [q|[]|]; try done.
  - rewrite <- E. change (fmul (Fin q) (Fin k)) with (of_Q (q * k)). apply of_Q_mono.
    apply fle_fin in Hx. nra.
  - simpl. replace (Qeq_bool k 0) with false.
    + unfold qneg. replace (Qle_bool 0 k) with true; [done|]. symmetry. apply Qle_bool_iff. lra.
    + symmetry. apply not_true_is_false. rewrite Qeq_bool_iff. lra.
Qed.

Lemma scale_up_ge x : fle (Fin 1) x = true -> fle (Fin 1) (fmul x (flit 125 100)) = true.
Proof.
  intros H. replace (flit 125 100) with (Fin (5 # 4)) by (vm_compute; reflexivity).
  apply (fle_trans _ (Fin (5 # 4))); [reflexivity|].
  apply fmul_ge_scale; [reflexivity|vm_compute; reflexivity|done].
Qed.

Lemma scale_spread_ge r x : fle (Fin 1) x = true -> fle (flit 9 10) (scale_spread r x) = true.
Proof.
  intros H. assert (L : fle (flit 9 10) (Fin 1) = true) by (vm_compute; reflexivity).
  destruct r.
  - change (scale_spread mr_stable x) with (fmul x (flit 9 10)).
    replace (flit 9 10) with (Fin (8106479329266893 # 9007199254740992)) by (vm_compute; reflexivity).
    apply fmul_ge_scale; [reflexivity|vm_compute; reflexivity|done].
  - change (scale_spread mr_trending x) with x. exact (fle_trans _ _ _ L H).
  - apply (fle_trans _ _ _ L). by apply scale_up_ge.
  - apply (fle_trans _ _ _ L). by apply scale_up_ge.
Qed.

Lemma placement_offset_bounds m r :
  fle (of_Z (-5)) (placement_offset m r) = true /\ fle (placement_offset m r) (of_Z 25) = true.
Proof.
  unfold placement_offset. set (x := fsub _ _).
  assert (U : fle (fmin (of_Z 25) x) (of_Z 25) = true) by (by apply fmin_le_l).
  split; [by apply fmax_ge_l|]. apply fmax_lub; [vm_compute; reflexivity|by right].
Qed.

(** ** Property *)

(** Whatever the market and inventory inputs (NaN and infinities
    included), both quoted spreads are at least 0.9 bps, the placement offset is
    in [-5, 25], and only the side that would grow the inventory is cut to a
    size of 0.4, and only when neutralisation is required. *)
Theorem strategy_decision_bounds base m i :
  let d := decide_strategy base m i in
  fle (flit 9 10) (bid_spread_bps d) = true /\ fle (flit 9 10) (ask_spread_bps d) = true /\
  fle (of_Z (-5)) (placement_offset_bps d) = true /\ fle (placement_offset_bps d) (of_Z 25) = true /\
  (neutralization_required d = false -> reduction_side d = None /\
     bid_size_multiplier d = of_Z 1 /\ ask_size_multiplier d = of_Z 1) /\
  (bid_size_multiplier d = flit 4 10 -> fgt (ip_base_ratio i) (ip_target_base_ratio i) = true).
Proof.
  unfold decide_strategy, neutralization.
  pose proof (placement_offset_bounds m (detect m)) as [P1 P2].
  destruct (flt (utilization i) (flit 7 10)); [|destruct (fgt (ip_base_ratio i) (ip_target_base_ratio i))];
    cbn [bid_spread_bps ask_spread_bps placement_offset_bps neutralization_required reduction_side
         bid_size_multiplier ask_size_multiplier]; split_and!; try done;
    try (apply scale_spread_ge, fmax1_ge); by vm_compute.
Qed.
