(* ===== verification/Liquidity.v ===== *)
(** * Liquidity: depth bands and shaped orders ([engines/liquidity/shaping.py]) *)

From S2P Require Import Prelude Rounding PyFloat PyDecimal PyData PyValue Models.

#[local] Open Scope string_scope.
#[local] Open Scope list_scope.

Record LiquidityBand : Type := mkBand {
  lb_level : Z; lb_min_distance_bps : float; lb_max_distance_bps : float;
  lb_target_depth : float; lb_size_multiplier : float }.

Record ShapedOrder : Type := mkShaped {
  so_side : string; so_level : Z; so_distance_bps : float; so_price : float; so_quantity : float }.

Record LiquidityShape : Type := mkShape {
  ls_orders : list ShapedOrder; ls_concentration_ratio : float; ls_target_depth : float }.

(** One iteration of [LiquidityBandBuilder.build_bands]; [levels >= 1] there, so
    the division is defined. *)
Definition build_band (levels : Z) (base_distance target_depth spacing : float) (level : Z) : LiquidityBand :=
  let min_distance := fmul (fmul base_distance (of_Z level)) spacing in
  mkBand level min_distance (fadd min_distance (fmul base_distance spacing))
    (fdiv target_depth (of_Z levels)) (fadd (of_Z 1) (fmul (of_Z (level - 1)) (flit 2 10))).

Definition build_bands (levels : Z) (base_distance target_depth volatility : float) : list LiquidityBand :=
  let spacing := fadd (of_Z 1) (fmin (of_Z 2) (fmul volatility (of_Z 25))) in
  map (build_band levels base_distance target_depth spacing) (seqZ 1 levels).

Definition band_distance (b : LiquidityBand) : float :=
  fdiv (fadd (lb_min_distance_bps b) (lb_max_distance_bps b)) (of_Z 2).
Definition bid_distance (b : LiquidityBand) (skew imbalance : float) : float :=
  fmax (of_Z 1) (fadd (fadd (band_distance b) skew) (fmul (fmax (of_Z 0) imbalance) (of_Z 10))).
Definition ask_distance (b : LiquidityBand) (skew imbalance : float) : float :=
  fmax (of_Z 1) (fadd (fsub (band_distance b) skew) (fmul (fmax (of_Z 0) (fneg imbalance)) (of_Z 10))).

(** The two orders of one band in [DepthShaper.shape]. *)
Definition shape_band (mid base_quantity skew imbalance : float) (b : LiquidityBand) : list ShapedOrder :=
  let bd := bid_distance b skew imbalance in
  let ad := ask_distance b skew imbalance in
  let bid_qty := fmul (fmul base_quantity (lb_size_multiplier b))
                      (if flt imbalance (flit (-5) 10) then flit 75 100 else of_Z 1) in
  let ask_qty := fmul (fmul base_quantity (lb_size_multiplier b))
                      (if fgt imbalance (flit 5 10) then flit 75 100 else of_Z 1) in
  let bid_price := fmul mid (fsub (of_Z 1) (fdiv bd (of_Z 10000))) in
  let ask_price := fmul mid (fadd (of_Z 1) (fdiv ad (of_Z 10000))) in
  [mkShaped "buy" (lb_level b) bd (fround 8 bid_price) bid_qty;
   mkShaped "sell" (lb_level b) ad (fround 8 ask_price) ask_qty].

(** [DepthShaper.shape] *)
Definition shape (mid base_quantity : float) (bands : list LiquidityBand) (skew imbalance : float) : LiquidityShape :=
  let total_depth := fsum (map lb_target_depth bands) in
  let near_depth := foldl (fun acc b => if (lb_level b =? 1)%Z then fadd acc (lb_target_depth b) else acc)
                          (of_Z 0) bands in
  mkShape (concat (map (shape_band mid base_quantity skew imbalance) bands))
    (if feq total_depth (of_Z 0) then of_Z 0 else fdiv near_depth total_depth) total_depth.

Definition side_depth (side : string) (s : LiquidityShape) : float :=
  fsum (map so_quantity (List.filter (fun o => String.eqb (so_side o) side) (ls_orders s))).

(** [SyntheticOrderBookShaper.synthetic_depth]: bid depth, ask depth, imbalance. *)
Definition synthetic_depth (s : LiquidityShape) : float * float * float :=
  let bid := side_depth "buy" s in
  let ask := side_depth "sell" s in
  (bid, ask, if feq (fadd bid ask) (of_Z 0) then of_Z 0 else fdiv (fsub bid ask) (fadd bid ask)).

(** [LiquidityShapingEngine.build_shape] *)
Definition build_shape (levels : Z) (base_distance target_depth : float)
    (mid base_quantity volatility skew imbalance : float) : LiquidityShape * (float * float * float) :=
  let bands := build_bands levels base_distance target_depth volatility in
  let s := shape mid base_quantity bands skew imbalance in
  (s, synthetic_depth s).

(** ** Lemmas *)

Lemma distance_div_nonneg x : fle (Fin 0) (fdiv (fmax (of_Z 1) x) (of_Z 10000)) = true.
Proof.
  change (of_Z 1) with (Fin 1). replace (of_Z 10000) with (Fin 10000) by (vm_compute; reflexivity).
  assert (G : fle (Fin 1) (fmax (Fin 1) x) = true) by (by apply fmax_ge_l).
  assert (G0 : fle (Fin 0) (fmax (Fin 1) x) = true) by (eapply fle_trans; [|exact G]; done).
  destruct (fdiv_nonneg (fmax (Fin 1) x) (Fin 10000)) as [N|N]; [by right|done| |done].
  exfalso. destruct (fmax (Fin 1) x) as [q|[]|]; try done.
  by apply (of_Q_not_nan (q / 10000)).
Qed.

(** Every buy is at or below the rounded mid price and every sell at or above. *)
Lemma shape_band_price mid bq skew imb b o : (0 < mid)%Q ->
  o ∈ shape_band (Fin mid) bq skew imb b ->
  (so_side o = "buy" /\ fle (so_price o) (fround 8 (of_Q mid)) = true) \/
  (so_side o = "sell" /\ fle (fround 8 (of_Q mid)) (so_price o) = true).
Proof.
  intros Hm Ho. unfold shape_band in Ho.
  apply elem_of_cons in Ho as [->|Ho]; [left|apply list_elem_of_singleton in Ho as ->; right];
    (split; [done|]); cbn [so_price]; apply fround_fle; try done; change (of_Z 1) with (Fin 1).
  - apply fmul_le_one; [done|].
    eapply fle_trans; [apply fsub_le_l, distance_div_nonneg|]. vm_compute; reflexivity.
  - apply fmul_ge_one; [done|].
    eapply fle_trans; [|apply fadd_ge_l, distance_div_nonneg]. vm_compute; reflexivity.
Qed.

(** ** Property *)

(** A shaped book has one buy and one sell per band and is never crossed:
    for a finite positive mid price no buy is priced above a sell, for every
    volatility, skew and imbalance (NaN and infinities included). *)
Theorem shaped_book_not_crossed levels bd depth mid bq vol skew imb b s :
  (0 < mid)%Q ->
  let orders := ls_orders (build_shape levels bd depth (Fin mid) bq vol skew imb).1 in
  length orders = (2 * Z.to_nat levels)%nat /\
  (b ∈ orders -> s ∈ orders -> so_side b = "buy" -> so_side s = "sell" ->
   fle (so_price b) (so_price s) = true).
Proof.
  intros Hm. cbn [build_shape fst shape ls_orders].
  set (bands := build_bands levels bd depth vol). cbv zeta. split.
  - assert (L : length bands = Z.to_nat levels) by (unfold bands, build_bands; by rewrite length_map, length_seqZ).
    rewrite <- L. clear. induction bands as [|x bands IH]; [done|]. cbn [map concat].
    rewrite length_app, IH. simpl. lia.
  - assert (P : forall o, o ∈ concat (map (shape_band (Fin mid) bq skew imb) bands) ->
      (so_side o = "buy" /\ fle (so_price o) (fround 8 (of_Q mid)) = true) \/
      (so_side o = "sell" /\ fle (fround 8 (of_Q mid)) (so_price o) = true)).
    { intros o (l & Hl & Ho)%list_elem_of_In%in_concat. apply in_map_iff in Hl as (x & <- & _).
      eapply shape_band_price; [done|]. by apply list_elem_of_In. }
    intros Hb Hs Eb Es. apply P in Hb as [[_ Hb]|[Hb _]]; [|congruence].
    apply P in Hs as [[Hs _]|[_ Hs]]; [congruence|]. exact (fle_trans _ _ _ Hb Hs).
Qed.

Lemma shaped_book_not_crossed_witness :
  length (ls_orders (build_shape 5 (of_Z 10) (of_Z 1000) (Fin 100) (of_Z 1) (flit 1 100) (of_Z 3) (of_Z 0)).1) = 10%nat.
Proof.
  apply (shaped_book_not_crossed 5 (of_Z 10) (of_Z 1000) 100 (of_Z 1) (flit 1 100) (of_Z 3) (of_Z 0)
    (mkShaped "buy" 1 NaN NaN NaN) (mkShaped "sell" 1 NaN NaN NaN)). reflexivity.
Defined.
