(* ===== verification/Volume.v ===== *)
(** * Volume: target tracking and pressure signal ([engines/volume/engine.py]) *)

From S2P Require Import Prelude Rounding PyFloat PyDecimal PyData PyValue Models Config.

#[local] Open Scope string_scope.
#[local] Open Scope list_scope.

Record VolumeWindowProgress : Type := mkWindow {
  w_target_notional : float; w_executed_notional : float; w_remaining_notional : float;
  w_progress_ratio : float; w_seconds_remaining : float }.

Record ExecutionPressureSignal : Type := mkSignal {
  ep_enabled : bool; ep_size_multiplier : float; ep_spread_multiplier : float;
  ep_urgency : float; ep_reason : string }.

Record VolumeProgressReport : Type := mkVolumeReport {
  vr_hourly : VolumeWindowProgress; vr_daily : VolumeWindowProgress; vr_weekly : VolumeWindowProgress;
  vr_participation_rate : float; vr_pressure : ExecutionPressureSignal }.

Record VolumeEngine : Type := mkVolumeEngine {
  ve_settings : VolumeSettings; ve_last_pressure_order_at : option datetime }.

Definition volume_update_settings (s : VolumeSettings) (e : VolumeEngine) : VolumeEngine :=
  mkVolumeEngine s (ve_last_pressure_order_at e).

(** The three window ends, for UTC times; day 0 of the epoch is a Thursday,
    [weekday() = 3]. *)
Definition next_hour (now : datetime) : datetime := ((now / seconds 3600 + 1) * seconds 3600)%Z.
Definition next_day (now : datetime) : datetime := ((now / seconds 86400 + 1) * seconds 86400)%Z.
Definition weekday (now : datetime) : Z := ((now / seconds 86400 + 3) mod 7)%Z.
Definition next_week (now : datetime) : datetime :=
  (now / seconds 86400 * seconds 86400 + (7 - weekday now) * seconds 86400)%Z.

Definition seconds_until_next_hour (now : datetime) : float := total_seconds (next_hour now - now).
Definition seconds_until_next_day (now : datetime) : float := total_seconds (next_day now - now).
Definition seconds_until_next_week (now : datetime) : float := total_seconds (next_week now - now).

(** [_target_window_seconds]: the window length guessed from the time left. *)
Definition target_window_seconds (w : VolumeWindowProgress) : float :=
  if fle (w_seconds_remaining w) (of_Z 3600) then of_Z 3600
  else if fle (w_seconds_remaining w) (of_Z 86400) then of_Z 86400
  else of_Z 604800.

(** [VolumeEngine._window] *)
Definition window (target executed remaining_seconds : float) : VolumeWindowProgress :=
  mkWindow target executed (fmax (of_Z 0) (fsub target executed))
    (if fle target (of_Z 0) then of_Z 1 else fmin (of_Z 1) (fdiv executed target))
    (fmax (of_Z 0) remaining_seconds).

(** [VolumeEngine._urgency] *)
Definition urgency (w : VolumeWindowProgress) : float :=
  if fle (w_target_notional w) (of_Z 0) then of_Z 0
  else
    let elapsed_ratio := fsub (of_Z 1) (fdiv (w_seconds_remaining w) (target_window_seconds w)) in
    let expected_progress := fmin (of_Z 1) (fmax (of_Z 0) elapsed_ratio) in
    fmax (of_Z 0) (fsub expected_progress (w_progress_ratio w)).

Definition no_pressure (reason : string) : ExecutionPressureSignal :=
  mkSignal false (of_Z 1) (of_Z 1) (of_Z 0) reason.

(** [VolumeEngine.pressure_signal] *)
Definition pressure_signal (s : VolumeSettings) (hourly daily weekly : VolumeWindowProgress)
    (participation external : float) : ExecutionPressureSignal :=
  if negb (vs_enabled s) then no_pressure "volume_engine_disabled"
  else if external_volume_required s && fle external (of_Z 0) then no_pressure "external_volume_required"
  else if fge participation (max_participation_rate s) then no_pressure "participation_limit_reached"
  else
    let u := fmax (fmax (urgency hourly) (urgency daily)) (urgency weekly) in
    if flt u (pressure_threshold s) then mkSignal true (of_Z 1) (of_Z 1) u "on_target"
    else mkSignal true (fmin (max_size_multiplier s) (fadd (of_Z 1) u))
           (fmax (flit 5 10) (fsub (of_Z 1) (fmul u (flit 25 100)))) u "behind_target".

(** [VolumeEngine.progress] *)
Definition progress (s : VolumeSettings) (now : datetime) (hourly daily weekly external : float) : VolumeProgressReport :=
  let h := window (hourly_target_notional s) hourly (seconds_until_next_hour now) in
  let d := window (daily_target_notional s) daily (seconds_until_next_day now) in
  let w := window (weekly_target_notional s) weekly (seconds_until_next_week now) in
  let participation := if fle external (of_Z 0) then of_Z 0 else fdiv daily external in
  mkVolumeReport h d w participation (pressure_signal s h d w participation external).

(** [VolumeEngine.can_apply_pressure_order] *)
Definition can_apply_pressure_order (now : datetime) (e : VolumeEngine) : VolumeEngine * bool :=
  let fire := (mkVolumeEngine (ve_settings e) (Some now), true) in
  match ve_last_pressure_order_at e with
  | None => fire
  | Some t =>
      if flt (total_seconds (now - t)) (Fin (inject_Z (min_seconds_between_pressure_orders (ve_settings e))))
      then (e, false) else fire
  end.

(** ** Lemmas *)

(** The window ends are the next boundaries: strictly ahead, at most a window away. *)
Lemma next_boundary now w : (0 < w)%Z -> let b := ((now / w + 1) * w)%Z in (now < b <= now + w)%Z /\ (b mod w = 0)%Z.
Proof.
  intros Hw b. pose proof (Z.div_mod now w ltac:(lia)). pose proof (Z.mod_pos_bound now w Hw).
  split; [nia|]. apply Z.mod_mul. lia.
Qed.

Lemma next_week_spec now :
  (now < next_week now <= now + seconds 604800)%Z /\ weekday (next_week now) = 0%Z.
Proof.
  unfold next_week, weekday, seconds.
  set (D := (86400 * 1000000)%Z). set (q := (now / D)%Z).
  assert (HD : (0 < D)%Z) by reflexivity.
  pose proof (Z.div_mod now D ltac:(lia)) as E. pose proof (Z.mod_pos_bound now D HD) as B. fold q in E.
  pose proof (Z.mod_pos_bound (q + 3) 7 ltac:(lia)) as W.
  assert (E7 : (604800 * 1000000 = 7 * D)%Z) by reflexivity. rewrite E7. split; [nia|].
  rewrite <- Z.mul_add_distr_r, Z.div_mul by lia.
  replace (q + (7 - (q + 3) mod 7) + 3)%Z with (q + 3 - (q + 3) mod 7 + 1 * 7)%Z by lia.
  rewrite Z.mod_add by lia. rewrite Zminus_mod, Z.mod_mod, Z.sub_diag by lia. done.
Qed.

(** Urgency is never negative and never NaN. *)
Lemma urgency_range w : fle (Fin 0) (urgency w) = true.
Proof.
  unfold urgency. case_match; [vm_compute; reflexivity|]. change (of_Z 0) with (Fin 0).
  by apply fmax_ge_l.
Qed.

Lemma fmax_nonneg x y : fle (Fin 0) x = true -> fle (Fin 0) (fmax x y) = true.
Proof.
  intros H. eapply fle_trans; [exact H|]. apply fmax_ge_l. by destruct x.
Qed.

(** ** Properties *)

(** For validated settings the pressure signal never shrinks the order
    size, never exceeds [max_size_multiplier], keeps the spread multiplier in
    [0.5, 1], and leaves both at 1 whenever it is disabled. *)
Theorem pressure_signal_bounds s h d w part ext :
  validate_volume s = Ok s ->
  let p := pressure_signal s h d w part ext in
  fle (Fin 1) (ep_size_multiplier p) = true /\
  fle (ep_size_multiplier p) (max_size_multiplier s) = true /\
  fle (flit 5 10) (ep_spread_multiplier p) = true /\ fle (ep_spread_multiplier p) (Fin 1) = true /\
  (ep_enabled p = false -> ep_size_multiplier p = Fin 1 /\ ep_spread_multiplier p = Fin 1) /\
  (fge part (max_participation_rate s) = true -> ep_enabled p = false).
Proof.
  intros V p. unfold validate_volume, volume_fields_ok in V. case_match; [|done]. clear V.
  repeat match goal with H : (_ && _)%bool = true |- _ => apply andb_prop in H as [H ?] end.
  assert (M : fle (Fin 1) (max_size_multiplier s) = true) by done.
  assert (HF : fle (flit 5 10) (Fin 1) = true) by (vm_compute; reflexivity).
  subst p. unfold pressure_signal, no_pressure. change (of_Z 1) with (Fin 1).
  destruct (vs_enabled s); cbn [negb]; [|by cbn].
  destruct (_ && _); [by cbn|].
  destruct (fge part (max_participation_rate s)); [by cbn|].
  set (u := fmax _ _). assert (U : fle (Fin 0) u = true).
  { unfold u. apply fmax_nonneg, fmax_nonneg, urgency_range. }
  destruct (flt u (pressure_threshold s)); cbn [ep_size_multiplier ep_spread_multiplier ep_enabled].
  { by cbn. }
  clearbody u. split_and!; try done.
  - apply fmin_glb; [done|]. right. apply (fadd_ge_l 1 u) in U. exact U.
  - apply fmin_le_l. by destruct (max_size_multiplier s).
  - apply fmax_ge_l. by vm_compute.
  - apply fmax_lub; [done|]. right. apply (fsub_le_l 1). 
    replace (flit 25 100) with (Fin (1 # 4)) by (vm_compute; reflexivity).
    destruct u as [q|[]|]; try done. apply fle_fin in U. apply (of_Q_mono 0 (q * (1 # 4))). lra.
Qed.

Lemma pressure_signal_bounds_witness :
  let s := rc_volume default_runtime_config in
  let w := window (of_Z 100) (of_Z 10) (of_Z 1) in
  fle (ep_size_multiplier (pressure_signal s w w w (of_Z 0) (of_Z 5))) (max_size_multiplier s) = true.
Proof. intros s w. apply pressure_signal_bounds. vm_compute. reflexivity. Defined.

(** Half an hour before midnight the daily window is measured against one
    hour instead of a day: a daily target half done looks exactly on schedule
    (urgency 0), while one minute before 23:00 the same progress has urgency
    above 0.45. *)
Theorem daily_urgency_collapses_in_last_hour :
  let at_ h m := seconds (h * 3600 + m * 60) in
  let u now := urgency (window (of_Z 1000) (of_Z 500) (seconds_until_next_day now)) in
  u (at_ 23 30)%Z = of_Z 0 /\ fgt (u (at_ 22 59)%Z) (flit 45 100) = true.
Proof. vm_compute. split; reflexivity. Qed.
