(* ===== verification/Surveillance.v ===== *)
(** * Surveillance: market-abuse detection ([surveillance/anti_manipulation.py])

    Deques are lists with the oldest element first; a [defaultdict(deque)] is an
    ordered dict read with an empty default and written on access. *)

From Stdlib Require Import Sorted.
From S2P Require Import Prelude Rounding PyFloat PyDecimal PyData PyValue Models.

#[local] Open Scope string_scope.
#[local] Open Scope list_scope.

Inductive ManipulationSeverity : Type := ms_warning | ms_critical | ms_emergency.

Record SurveillanceOrder : Type := mkSOrder {
  sv_account_id : string; sv_symbol : string; sv_side : ExecutionSide; sv_price : dec;
  sv_quantity : dec; sv_client_order_id : string; sv_created_at : datetime }.

Record SurveillanceFill : Type := mkSFill {
  sf_account_id : string; sf_counterparty : option string; sf_symbol : string;
  sf_side : ExecutionSide; sf_price : dec; sf_quantity : dec; sf_client_order_id : string;
  sf_trade_id : string; sf_executed_at : datetime }.

Record CancelEvent : Type := mkCancelEvent {
  ce_account_id : string; ce_symbol : string; ce_client_order_id : string; ce_cancelled_at : datetime }.

Record ManipulationAlert : Type := mkManipulationAlert {
  ma_type : string; ma_severity : ManipulationSeverity; ma_symbol : string; ma_message : string;
  ma_evidence : list (string * pyval) }.

Record AntiManipulationEngine : Type := mkAntiManip {
  am_cancel_window : Z;
  am_max_cancels : Z;
  am_max_orders_per_second : Z;
  am_abnormal_fill_notional : dec;
  am_open_orders : list (string * SurveillanceOrder);
  am_cancels : list (string * string * list datetime);
  am_order_times : list (string * string * list datetime);
  am_recent_fills : list (string * string * list SurveillanceFill) }.

Definition new_surveillance (cancel_window_seconds max_cancels max_orders : Z) (abnormal : dec) : AntiManipulationEngine :=
  mkAntiManip (seconds cancel_window_seconds) max_cancels max_orders abnormal [] [] [] [].

Definition dget {A} (k : string * string) (d : list (string * string * list A)) : list A :=
  match od_get k d with Some l => l | None => [] end.

(** [while values and values[0] < cutoff: values.popleft()] *)
Fixpoint popleft_while {A} (old : A -> bool) (l : list A) : list A :=
  match l with
  | [] => []
  | x :: l' => if old x then popleft_while old l' else l
  end.
Definition trim_times (cutoff : datetime) : list datetime -> list datetime :=
  popleft_while (fun t => t <? cutoff)%Z.

Definition crosses (e : AntiManipulationEngine) (o : SurveillanceOrder) (same_account : bool) (x : SurveillanceOrder) : bool :=
  Bool.eqb (String.eqb (sv_account_id x) (sv_account_id o)) same_account
  && String.eqb (sv_symbol x) (sv_symbol o)
  && bool_decide (sv_side x = opposite_side (sv_side o))
  && deq (sv_price x) (sv_price o).

Definition detect_self_trade (e : AntiManipulationEngine) (o : SurveillanceOrder) : list ManipulationAlert :=
  match List.find (crosses e o true) (od_vals (am_open_orders e)) with
  | Some x => [mkManipulationAlert "self_trade_prevention" ms_emergency (sv_symbol o)
                 "opposing same-account orders would cross"
                 [("new_order", PStr (sv_client_order_id o)); ("existing_order", PStr (sv_client_order_id x))]]
  | None => []
  end.

Definition detect_cross_account_collision (e : AntiManipulationEngine) (o : SurveillanceOrder) : list ManipulationAlert :=
  map (fun x => mkManipulationAlert "cross_account_collision" ms_critical (sv_symbol o)
                  "managed accounts have crossing orders"
                  [("new_account", PStr (sv_account_id o)); ("existing_account", PStr (sv_account_id x));
                   ("price", PStr (dec_str (sv_price o)))])
      (List.filter (crosses e o false) (od_vals (am_open_orders e))).

(** [record_order] *)
Definition surveil_order (o : SurveillanceOrder) (e : AntiManipulationEngine) : AntiManipulationEngine * list ManipulationAlert :=
  let key := (sv_account_id o, sv_symbol o) in
  let now := sv_created_at o in
  let times := trim_times (now - seconds 1)%Z (dget key (am_order_times e) ++ [now]) in
  let spam := if (am_max_orders_per_second e <? Z.of_nat (length times))%Z
              then [mkManipulationAlert "order_spam" ms_critical (sv_symbol o) "order submission rate exceeded"
                      [("account_id", PStr (sv_account_id o)); ("orders_last_second", PInt (Z.of_nat (length times)))]]
              else [] in
  let alerts := spam ++ detect_self_trade e o ++ detect_cross_account_collision e o in
  (mkAntiManip (am_cancel_window e) (am_max_cancels e) (am_max_orders_per_second e) (am_abnormal_fill_notional e)
     (od_set (sv_client_order_id o) o (am_open_orders e)) (am_cancels e)
     (od_set key times (am_order_times e)) (am_recent_fills e), alerts).

(** [record_cancel] *)
Definition surveil_cancel (c : CancelEvent) (e : AntiManipulationEngine) : AntiManipulationEngine * list ManipulationAlert :=
  let key := (ce_account_id c, ce_symbol c) in
  let cancels := trim_times (ce_cancelled_at c - am_cancel_window e)%Z (dget key (am_cancels e) ++ [ce_cancelled_at c]) in
  let n := Z.of_nat (length cancels) in
  (mkAntiManip (am_cancel_window e) (am_max_cancels e) (am_max_orders_per_second e) (am_abnormal_fill_notional e)
     (od_del (ce_client_order_id c) (am_open_orders e)) (od_set key cancels (am_cancels e))
     (am_order_times e) (am_recent_fills e),
   if (am_max_cancels e <? n)%Z
   then [mkManipulationAlert "excessive_cancel" ms_critical (ce_symbol c) "cancel rate exceeded"
           [("account_id", PStr (ce_account_id c)); ("cancels", PInt n);
            ("window_seconds", PFloat (total_seconds (am_cancel_window e)))]]
   else []).

Definition detect_abnormal_execution_cluster (f : SurveillanceFill) (fills : list SurveillanceFill) : list ManipulationAlert :=
  let same := List.filter (fun x => deq (sf_price x) (sf_price f) && bool_decide (sf_side x = sf_side f)) fills in
  if (20 <=? length same)%nat
  then [mkManipulationAlert "abnormal_execution" ms_warning (sf_symbol f)
          "clustered executions at identical price and side"
          [("count", PInt (Z.of_nat (length same))); ("price", PStr (dec_str (sf_price f)))]]
  else [].

(** [record_fill] *)
Definition surveil_fill (f : SurveillanceFill) (e : AntiManipulationEngine) : AntiManipulationEngine * list ManipulationAlert :=
  let notional := dmul (sf_price f) (sf_quantity f) in
  let abnormal := if dle (am_abnormal_fill_notional e) notional
    then [mkManipulationAlert "abnormal_fill" ms_warning (sf_symbol f) "large fill detected"
            [("notional", PStr (dec_str notional)); ("trade_id", PStr (sf_trade_id f))]] else [] in
  let wash := match sf_counterparty f with
    | Some a => if negb (String.eqb a "") && String.eqb a (sf_account_id f)
        then [mkManipulationAlert "wash_trade" ms_emergency (sf_symbol f) "same-account execution detected"
                [("trade_id", PStr (sf_trade_id f)); ("account_id", PStr (sf_account_id f))]] else []
    | None => [] end in
  let key := (sf_account_id f, sf_symbol f) in
  let fills := popleft_while (fun x => sf_executed_at x <? sf_executed_at f - seconds 300)%Z
                 (dget key (am_recent_fills e) ++ [f]) in
  (mkAntiManip (am_cancel_window e) (am_max_cancels e) (am_max_orders_per_second e) (am_abnormal_fill_notional e)
     (am_open_orders e) (am_cancels e) (am_order_times e) (od_set key fills (am_recent_fills e)),
   abnormal ++ wash ++ detect_abnormal_execution_cluster f fills).

(** ** Sliding windows *)

#[local] Open Scope Z_scope.

Definition nondecreasing : list Z -> Prop := StronglySorted Z.le.

Lemma popleft_sorted cutoff l : nondecreasing l ->
  trim_times cutoff l = List.filter (fun t => cutoff <=? t) l.
Proof.
  induction 1 as [|x l H IH F]; [done|]. unfold trim_times in *. simpl.
  destruct (Z.ltb_spec x cutoff) as [L|L], (Z.leb_spec cutoff x) as [L'|L']; try lia; [done|].
  f_equal. symmetry. rewrite Forall_forall in F.
  apply List.forallb_filter_id, forallb_forall. intros y Hy. apply Z.leb_le.
  specialize (F y). rewrite list_elem_of_In in F. specialize (F Hy). lia.
Qed.

Lemma filter_filter_ge a b l : a <= b ->
  List.filter (fun t => b <=? t) (List.filter (fun t => a <=? t) l) = List.filter (fun t => b <=? t) l.
Proof.
  intros H. induction l as [|x l IH]; [done|]. simpl.
  destruct (Z.leb_spec a x), (Z.leb_spec b x); simpl; try lia.
  - destruct (Z.leb_spec b x); [by rewrite IH|lia].
  - destruct (Z.leb_spec b x); [lia|done].
  - done.
Qed.

(** The deque after a run of insertions, each followed by a trim. *)
Definition window_push (w : Z) (l : list Z) (t : Z) : list Z := trim_times (t - w) (l ++ [t]).

Lemma nondecreasing_app_inv l1 l2 : nondecreasing (l1 ++ l2) -> nondecreasing l1 /\ nondecreasing l2 /\
  forall x y, x ∈ l1 -> y ∈ l2 -> x <= y.
Proof.
  induction l1 as [|a l1 IH]; simpl; intros H.
  - split_and!; [constructor|done|]. intros x y Hx. by apply elem_of_nil in Hx.
  - inversion_clear H as [|? ? H1 H2]. apply IH in H1 as (A & B & C). apply Forall_app in H2 as [D E].
    rewrite Forall_forall in E. split_and!; [by constructor|done|].
    intros x y [->|Hx]%elem_of_cons Hy; auto.
Qed.

Lemma nondecreasing_snoc l t : nondecreasing l -> (forall x, x ∈ l -> x <= t) -> nondecreasing (l ++ [t]).
Proof.
  induction 1 as [|x l H IH F]; simpl; intros B; [repeat constructor|].
  constructor; [apply IH; intros; apply B; by right|].
  apply Forall_app. split; [done|]. constructor; [apply B; by left|constructor].
Qed.

Lemma filter_sorted f l : nondecreasing l -> nondecreasing (List.filter f l).
Proof.
  induction 1 as [|x l H IH F]; [constructor|]. simpl. destruct (f x); [|done].
  constructor; [done|]. rewrite Forall_forall in *. intros y Hy. apply F.
  apply list_elem_of_In. apply list_elem_of_In, filter_In in Hy. tauto.
Qed.


(** The events of the last [w] microseconds, as of the newest one. *)
Definition window_of (w : Z) (ts : list Z) : list Z :=
  match last ts with None => [] | Some t => List.filter (fun x => t - w <=? x) ts end.

Lemma window_push_spec w ts t : nondecreasing (ts ++ [t]) ->
  window_push w (window_of w ts) t = window_of w (ts ++ [t]).
Proof.
  intros S. pose proof (nondecreasing_app_inv _ _ S) as (S1 & S2 & L).
  assert (R : window_of w (ts ++ [t]) = List.filter (fun x => t - w <=? x) (ts ++ [t])).
  { unfold window_of. by rewrite last_snoc. }
  rewrite R. unfold window_push, window_of.
  destruct (last ts) as [u|] eqn:U.
  - assert (u <= t). { apply L; [by apply last_Some_elem_of|by left]. }
    rewrite popleft_sorted.
    + by rewrite !List.filter_app, filter_filter_ge by lia.
    + apply nondecreasing_snoc; [by apply filter_sorted|]. intros x Hx. apply L; [|by left].
      apply list_elem_of_In in Hx. apply filter_In in Hx as [Hx _]. by apply list_elem_of_In.
  - apply last_None in U as ->. by rewrite popleft_sorted.
Qed.

(** ** Runs of the engine *)

Inductive surveillance_event : Type :=
  | EvOrder (o : SurveillanceOrder) | EvCancel (c : CancelEvent) | EvFill (f : SurveillanceFill).

Definition surveil (ev : surveillance_event) (e : AntiManipulationEngine) : AntiManipulationEngine * list ManipulationAlert :=
  match ev with
  | EvOrder o => surveil_order o e
  | EvCancel c => surveil_cancel c e
  | EvFill f => surveil_fill f e
  end.

Definition surveil_run (evs : list surveillance_event) (e : AntiManipulationEngine) : AntiManipulationEngine :=
  foldl (fun e ev => (surveil ev e).1) e evs.

(** Submission times of the orders of one account and symbol. *)
Definition order_time_of (key : string * string) (ev : surveillance_event) : list Z :=
  match ev with
  | EvOrder o => if decide ((sv_account_id o, sv_symbol o) = key) then [sv_created_at o] else []
  | _ => []
  end.
Definition order_log (key : string * string) (evs : list surveillance_event) : list Z :=
  concat (map (order_time_of key) evs).
Definition cancel_time_of (key : string * string) (ev : surveillance_event) : list Z :=
  match ev with
  | EvCancel c => if decide ((ce_account_id c, ce_symbol c) = key) then [ce_cancelled_at c] else []
  | _ => []
  end.
Definition cancel_log (key : string * string) (evs : list surveillance_event) : list Z :=
  concat (map (cancel_time_of key) evs).

Lemma dget_set {A} k k' (l : list A) d : dget k' (od_set k l d) = if decide (k' = k) then l else dget k' d.
Proof. unfold dget. rewrite od_get_set. by case_decide. Qed.

Lemma surveil_run_snoc evs ev e : surveil_run (evs ++ [ev]) e = (surveil ev (surveil_run evs e)).1.
Proof. unfold surveil_run. by rewrite foldl_app. Qed.

Lemma concat_map_snoc {A B} (f : A -> list B) l x : concat (map f (l ++ [x])) = concat (map f l) ++ f x.
Proof. rewrite map_app, concat_app. simpl. by rewrite app_nil_r. Qed.

(** The configuration is never changed. *)
Lemma surveil_run_config evs e :
  am_cancel_window (surveil_run evs e) = am_cancel_window e /\
  am_max_cancels (surveil_run evs e) = am_max_cancels e /\
  am_max_orders_per_second (surveil_run evs e) = am_max_orders_per_second e.
Proof.
  induction evs as [|ev evs IH] using rev_ind; [done|]. rewrite surveil_run_snoc.
  by destruct ev.
Qed.

Lemma order_times_window evs cw mc mo ab key :
  nondecreasing (order_log key evs) ->
  dget key (am_order_times (surveil_run evs (new_surveillance cw mc mo ab))) = window_of (seconds 1) (order_log key evs).
Proof.
  induction evs as [|ev evs IH] using rev_ind; [done|]. unfold order_log in *.
  rewrite concat_map_snoc. intros S. pose proof (nondecreasing_app_inv _ _ S) as (S1 & _ & _).
  specialize (IH S1). rewrite surveil_run_snoc. set (e1 := surveil_run evs _) in *.
  destruct ev as [o|c|f]; cbn [surveil surveil_order surveil_cancel surveil_fill fst am_order_times order_time_of] in *;
    [|by rewrite app_nil_r..].
  rewrite dget_set. destruct (decide ((sv_account_id o, sv_symbol o) = key)) as [<-|N].
  - rewrite decide_True by done. rewrite IH. by apply window_push_spec.
  - rewrite decide_False by congruence. by rewrite app_nil_r.
Qed.

Lemma cancels_window evs cw mc mo ab key :
  nondecreasing (cancel_log key evs) ->
  dget key (am_cancels (surveil_run evs (new_surveillance cw mc mo ab))) = window_of (seconds cw) (cancel_log key evs).
Proof.
  induction evs as [|ev evs IH] using rev_ind; [done|]. unfold cancel_log in *.
  rewrite concat_map_snoc. intros S. pose proof (nondecreasing_app_inv _ _ S) as (S1 & _ & _).
  specialize (IH S1). rewrite surveil_run_snoc.
  pose proof (surveil_run_config evs (new_surveillance cw mc mo ab)) as (W & _).
  set (e1 := surveil_run evs _) in *.
  destruct ev as [o|c|f]; cbn [surveil surveil_order surveil_cancel surveil_fill fst am_cancels cancel_time_of] in *;
    [by rewrite app_nil_r| |by rewrite app_nil_r].
  rewrite dget_set. destruct (decide ((ce_account_id c, ce_symbol c) = key)) as [<-|N].
  - rewrite decide_True by done. rewrite IH, W. by apply window_push_spec.
  - rewrite decide_False by congruence. by rewrite app_nil_r.
Qed.

Definition has_alert (ty : string) (l : list ManipulationAlert) : bool :=
  existsb (fun a => String.eqb (ma_type a) ty) l.

Lemma has_alert_app ty l1 l2 : has_alert ty (l1 ++ l2) = has_alert ty l1 || has_alert ty l2.
Proof. apply existsb_app. Qed.

Lemma self_trade_no_spam e o : has_alert "order_spam" (detect_self_trade e o) = false.
Proof. unfold detect_self_trade. by case_match. Qed.

Lemma collision_types ty e o : ty <> "cross_account_collision" ->
  has_alert ty (detect_cross_account_collision e o) = false.
Proof.
  intros N. unfold detect_cross_account_collision. induction (List.filter _ _) as [|x l IH]; [done|].
  cbn [map has_alert existsb ma_type]. change (existsb _ _) with (has_alert ty (map (fun x => mkManipulationAlert "cross_account_collision" ms_critical (sv_symbol o)
                  "managed accounts have crossing orders"
                  [("new_account", PStr (sv_account_id o)); ("existing_account", PStr (sv_account_id x));
                   ("price", PStr (dec_str (sv_price o)))]) l)).
  rewrite IH, orb_false_r. apply String.eqb_neq. congruence.
Qed.

(** ** Properties *)

(** After any run of orders, cancels and fills with non-decreasing times
    per account and symbol, a new order raises the [order_spam] alert exactly
    when the account submitted more than the allowed orders for that symbol in
    the last second, the new one included. *)
Theorem order_spam_iff evs cw mc mo ab o :
  let key := (sv_account_id o, sv_symbol o) in
  let log := order_log key evs ++ [sv_created_at o] in
  nondecreasing log ->
  has_alert "order_spam" (surveil_order o (surveil_run evs (new_surveillance cw mc mo ab))).2 = true <->
  mo < Z.of_nat (length (List.filter (fun t => sv_created_at o - seconds 1 <=? t) log)).
Proof.
  intros key log S. pose proof (nondecreasing_app_inv _ _ S) as (S1 & _ & _).
  pose proof (surveil_run_config evs (new_surveillance cw mc mo ab)) as (_ & _ & M).
  pose proof (order_times_window evs cw mc mo ab key S1) as W.
  set (e1 := surveil_run evs _) in *. unfold surveil_order. cbn [snd]. fold key. rewrite W, M.
  change (trim_times (sv_created_at o - seconds 1) (window_of (seconds 1) (order_log key evs) ++ [sv_created_at o]))
    with (window_push (seconds 1) (window_of (seconds 1) (order_log key evs)) (sv_created_at o)).
  assert (R : window_push (seconds 1) (window_of (seconds 1) (order_log key evs)) (sv_created_at o)
              = List.filter (fun t => sv_created_at o - seconds 1 <=? t) log).
  { rewrite (window_push_spec _ _ _ S). unfold window_of, log. by rewrite last_snoc. }
  rewrite R.
  rewrite !has_alert_app, self_trade_no_spam, collision_types, !orb_false_r by done.
  cbn [am_max_orders_per_second new_surveillance].
  set (n := Z.of_nat _). destruct (Z.ltb_spec mo n) as [L|L]; split; try done. intros L'. lia.
Qed.

Definition demo_order (n : Z) (sd : ExecutionSide) : SurveillanceOrder :=
  mkSOrder "acc" "BTC/USDT" sd (dZ 100) (dZ 1) ("c" +:+ str_of_Z n) n.

Lemma order_spam_iff_witness :
  let evs := [EvOrder (demo_order 1 buy); EvOrder (demo_order 2 buy)] in
  has_alert "order_spam" (surveil_order (demo_order 3 buy) (surveil_run evs (new_surveillance 60 100 2 dzero))).2 = true <->
  2 < Z.of_nat (length (List.filter (fun t => 3 - seconds 1 <=? t) (order_log ("acc", "BTC/USDT") evs ++ [3]))).
Proof.
  intros evs. apply (order_spam_iff evs 60 100 2 dzero (demo_order 3 buy)). vm_compute.
  repeat constructor; discriminate.
Defined.

(** A new order raises [self_trade_prevention] exactly when an open order
    of the same account and symbol rests on the opposite side at an equal price. *)
Theorem self_trade_detected_iff e o :
  has_alert "self_trade_prevention" (surveil_order o e).2 = true <->
  exists id x, (id, x) ∈ am_open_orders e /\ sv_account_id x = sv_account_id o /\
    sv_symbol x = sv_symbol o /\ sv_side x = opposite_side (sv_side o) /\ (dval (sv_price x) == dval (sv_price o))%Q.
Proof.
  unfold surveil_order. cbn [snd]. rewrite !has_alert_app, (collision_types _ e), orb_false_r by done.
  match goal with |- has_alert _ ?s || _ = true <-> _ => assert (E : has_alert "self_trade_prevention" s = false) by (by case_match) end.
  rewrite E. cbn [orb]. unfold detect_self_trade. destruct (List.find _ _) as [x|] eqn:F.
  - apply List.find_some in F as [F1 F2]. split; [intros _|done].
    apply list_elem_of_In, list_elem_of_fmap in F1 as ([id y] & -> & F1).
    exists id, y. unfold crosses, deq in F2. rewrite !andb_true_iff, eqb_true_iff, !String.eqb_eq, bool_decide_eq_true, Qeq_bool_iff in F2.
    tauto.
  - split; [done|]. intros (id & x & H & A & B & C & D). exfalso.
    assert (G : crosses e o true x = true).
    { unfold crosses, deq. rewrite !andb_true_iff, eqb_true_iff, !String.eqb_eq, bool_decide_eq_true, Qeq_bool_iff. done. }
    rewrite (List.find_none _ _ F x) in G; [done|].
    apply list_elem_of_In, list_elem_of_fmap. by exists (id, x).
Qed.
