(* ===== verification/Backtest.v ===== *)
(** * Backtest: replay of historical events ([simulation/backtesting.py])

    The simulator calls the strategy and the risk engine; the risk engine's
    state is threaded through the run. [clock n] is the wall-clock reading of
    the [n]-th risk check. *)

From S2P Require Import Prelude Rounding PyFloat PyDecimal PyData PyValue Models Config Strategy Risk.

#[local] Open Scope string_scope.
#[local] Open Scope list_scope.

Inductive ReplayEventType : Type := re_ticker | re_trade | re_orderbook | re_fill.
#[export] Instance ReplayEventType_eq_dec : EqDecision ReplayEventType.
Proof. solve_decision. Defined.

Record ReplayEvent : Type := mkReplayEvent {
  rv_timestamp : datetime; rv_type : ReplayEventType; rv_symbol : string; rv_price : dec;
  rv_quantity : dec; rv_spread_bps : float; rv_volatility : float; rv_imbalance : float; rv_depth : float }.

Record SimulationState : Type := mkSim {
  sm_cash : dec; sm_inventory : dec; sm_realized_pnl : dec; sm_fees : dec;
  sm_decisions : list StrategyDecision; sm_rejected_orders : Z }.

Definition mark_to_market (s : SimulationState) (price : dec) : dec :=
  dadd (sm_cash s) (dmul (sm_inventory s) price).

Record SimulationResult : Type := mkSimResult {
  sr_final_equity : dec; sr_realized_pnl : dec; sr_inventory : dec; sr_fees : dec;
  sr_max_drawdown : dec; sr_decision_count : Z; sr_rejected_orders : Z }.

Definition replay (events : list ReplayEvent) : list ReplayEvent :=
  sorted (fun a b => rv_timestamp a <=? rv_timestamp b)%Z events.

(** The micro-structure and inventory profile built for one event. *)
Definition event_decision (base_spread : float) (max_inventory_notional : dec) (equity total_notional : dec)
    (e : ReplayEvent) : StrategyDecision :=
  let base_ratio := if dlt dzero equity
                    then float_of_dec (ddiv total_notional (dmax equity (dZ 1))) else of_Z 0 in
  decide_strategy base_spread
    (mkMicro (float_of_dec (rv_price e)) (rv_spread_bps e) (rv_volatility e) (rv_imbalance e)
       (of_Z 0) (rv_depth e) (of_Z 0) (of_Z 0))
    (mkProfile base_ratio (flit 5 10) (float_of_dec total_notional) (float_of_dec max_inventory_notional)).

Definition trade_side (d : StrategyDecision) : string :=
  if bool_decide (reduction_side d = Some "buy") then "buy"
  else if bool_decide (reduction_side d = Some "sell") then "sell" else "buy".

Definition trade_quantity (e : ReplayEvent) : dec := dmin (rv_quantity e) (mkDec 1 (-2)).

(** The bookkeeping of one executed trade. *)
Definition apply_trade (fee_bps : dec) (side : string) (price quantity : dec) (s : SimulationState) : SimulationState :=
  let notional := dmul price quantity in
  let fee := ddiv (dmul notional fee_bps) (dZ 10000) in
  if String.eqb side "buy" then
    mkSim (dsub (sm_cash s) (dadd notional fee)) (dadd (sm_inventory s) quantity)
      (sm_realized_pnl s) (dadd (sm_fees s) fee) (sm_decisions s) (sm_rejected_orders s)
  else
    mkSim (dadd (sm_cash s) (dsub notional fee)) (dsub (sm_inventory s) quantity)
      (dadd (sm_realized_pnl s) (dsub notional fee)) (dadd (sm_fees s) fee) (sm_decisions s) (sm_rejected_orders s).

(** One iteration of the replay loop. *)
Definition sim_step (base_spread : float) (fee_bps max_inventory_notional : dec) (now : datetime)
    (e : ReplayEvent) (st : SimulationState * RiskEngine) : SimulationState * RiskEngine * dec :=
  let '(s, risk) := st in
  let equity := mark_to_market s (rv_price e) in
  let total_notional := dabs (dmul (sm_inventory s) (rv_price e)) in
  let d := event_decision base_spread max_inventory_notional equity total_notional e in
  let s1 := mkSim (sm_cash s) (sm_inventory s) (sm_realized_pnl s) (sm_fees s)
              (sm_decisions s ++ [d]) (sm_rejected_orders s) in
  match rv_type e with
  | re_trade =>
      let side := trade_side d in
      let quantity := trade_quantity e in
      let intent := mkRiskIntent (rv_symbol e) side (float_of_dec (rv_price e)) (float_of_dec quantity) in
      let tn := float_of_dec total_notional in
      match assert_order_allowed now intent tn tn 0 (float_of_dec (sm_realized_pnl s1)) risk with
      | (risk', Ok _) => (apply_trade fee_bps side (rv_price e) quantity s1, risk', equity)
      | (risk', Err _) =>
          (mkSim (sm_cash s1) (sm_inventory s1) (sm_realized_pnl s1) (sm_fees s1)
             (sm_decisions s1) (sm_rejected_orders s1 + 1), risk', equity)
      end
  | _ => (s1, risk, equity)
  end.

Fixpoint sim_loop (base_spread : float) (fee_bps max_inv : dec) (clock : nat -> datetime) (n : nat)
    (es : list ReplayEvent) (st : SimulationState * RiskEngine) : SimulationState * RiskEngine * list dec :=
  match es with
  | [] => (st, [])
  | e :: es' =>
      let '(st', equity) := sim_step base_spread fee_bps max_inv (clock n) e st in
      let '(st'', curve) := sim_loop base_spread fee_bps max_inv clock (S n) es' st' in
      (st'', equity :: curve)
  end.

(** [StrategySimulator._max_drawdown] *)
Definition drawdown_step (acc : dec * dec) (equity : dec) : dec * dec :=
  let '(peak, mdd) := acc in
  let peak' := dmax peak equity in
  (peak', if dlt dzero peak' then dmax mdd (ddiv (dsub peak' equity) peak') else mdd).
Definition max_drawdown (curve : list dec) : dec := (foldl drawdown_step (dzero, dzero) curve).2.

(** [StrategySimulator.run] *)
Definition sim_run (base_spread : float) (fee_bps : dec) (risk : RiskEngine) (clock : nat -> datetime)
    (events : list ReplayEvent) (cash inventory max_inv : dec) : SimulationResult * RiskEngine :=
  let es := replay events in
  let '(s, risk', curve) := sim_loop base_spread fee_bps max_inv clock 0 es
                              (mkSim cash inventory dzero dzero [] 0, risk) in
  let final_price := match last es with Some e => rv_price e | None => dzero end in
  (mkSimResult (mark_to_market s final_price) (sm_realized_pnl s) (sm_inventory s) (sm_fees s)
     (max_drawdown curve) (Z.of_nat (length (sm_decisions s))) (sm_rejected_orders s), risk').

(** [PerformanceAnalytics.summarize] *)
Definition summarize (r : SimulationResult) : list (string * pyval) :=
  [("final_equity", PStr (dec_str (sr_final_equity r))); ("realized_pnl", PStr (dec_str (sr_realized_pnl r)));
   ("inventory", PStr (dec_str (sr_inventory r))); ("fees", PStr (dec_str (sr_fees r)));
   ("max_drawdown", PStr (dec_str (sr_max_drawdown r))); ("decision_count", PInt (sr_decision_count r));
   ("rejected_orders", PInt (sr_rejected_orders r))].

(** ** Lemmas *)

Lemma replay_ordered es : replay es ≡ₚ es /\
  Sorted.StronglySorted (fun a b => (rv_timestamp a <=? rv_timestamp b)%Z = true) (replay es).
Proof.
  split; [apply sorted_perm|]. apply sorted_sorted; intros.
  - lia.
  - destruct (Z.leb_spec (rv_timestamp x) (rv_timestamp y)); [by left|right]. lia.
Qed.

Lemma dval_dmax a b : (dval a <= dval (dmax a b))%Q /\ (dval b <= dval (dmax a b))%Q /\
  (dval (dmax a b) == dval a \/ dval (dmax a b) == dval b)%Q.
Proof.
  unfold dmax, dlt. destruct (Qle_bool (dval b) (dval a)) eqn:E; cbn [negb]; qbool; split_and!; try lra; auto.
Qed.

Lemma dlt_dzero x : dlt dzero x = true -> (0 < dval x)%Q.
Proof.
  unfold dlt. rewrite negb_true_iff. intros H. apply Qnot_le_lt. intros L.
  rewrite (proj2 (Qle_bool_iff _ _)) in H; [done|]. assert (Z : (dval dzero == 0)%Q) by reflexivity. by rewrite Z.
Qed.

(** A drawdown of a nonnegative equity below a positive peak is in [0, 1]. *)
Lemma drawdown_unit peak e : (0 < dval peak)%Q -> (rnd28 (dval peak) == dval peak)%Q ->
  (0 <= dval e <= dval peak)%Q -> (0 <= dval (ddiv (dsub peak e) peak) <= 1)%Q.
Proof.
  intros Hp Rp [H0 H1]. rewrite dval_ddiv by lra. rewrite dval_dsub.
  assert (A : (0 <= rnd28 (dval peak - dval e))%Q) by (apply rnd28_nonneg; lra).
  assert (B : (rnd28 (dval peak - dval e) <= dval peak)%Q) by (rewrite <- Rp at 2; apply rnd28_mono; lra).
  assert (O : (rnd28 1 == 1)%Q) by (apply rnd28_repr, (repr28_Z 1); reflexivity).
  split.
  - apply rnd28_nonneg, Qle_shift_div_l; lra.
  - rewrite <- O. apply rnd28_mono, Qle_shift_div_r; lra.
Qed.

Definition drawdown_inv (acc : dec * dec) : Prop :=
  (0 <= dval acc.1)%Q /\ (rnd28 (dval acc.1) == dval acc.1)%Q /\ (0 <= dval acc.2 <= 1)%Q.

Lemma drawdown_step_inv acc e : (0 <= dval e)%Q -> (rnd28 (dval e) == dval e)%Q ->
  drawdown_inv acc -> drawdown_inv (drawdown_step acc e).
Proof.
  destruct acc as [peak mdd]. intros H0 Hr (I1 & I2 & I3). cbn [drawdown_step fst snd] in *.
  destruct (dval_dmax peak e) as (M1 & M2 & M3).
  assert (R : (rnd28 (dval (dmax peak e)) == dval (dmax peak e))%Q).
  { destruct M3 as [M3|M3]; rewrite M3; done. }
  split_and!; cbn [fst snd]; try done; try lra; destruct (dlt dzero (dmax peak e)) eqn:P; try lra.
  - destruct (dval_dmax mdd (ddiv (dsub (dmax peak e) e) (dmax peak e))) as (N1 & _). lra.
  - assert (Hp : (0 < dval (dmax peak e))%Q) by (by apply dlt_dzero).
    destruct (drawdown_unit (dmax peak e) e Hp R) as [D1 D2]; [lra|].
    destruct (dval_dmax mdd (ddiv (dsub (dmax peak e) e) (dmax peak e))) as (_ & _ & [N|N]); rewrite N; lra.
Qed.

Lemma sim_step_counts bs fee mi now e s risk :
  let '(s', _, _) := sim_step bs fee mi now e (s, risk) in
  length (sm_decisions s') = S (length (sm_decisions s)) /\
  (sm_rejected_orders s <= sm_rejected_orders s' <= sm_rejected_orders s + (if decide (rv_type e = re_trade) then 1 else 0))%Z.
Proof.
  unfold sim_step. destruct (rv_type e) eqn:T;
    try (cbn [sm_decisions sm_rejected_orders]; rewrite length_app; simpl; split; lia).
  destruct (assert_order_allowed _ _ _ _ _ _ _) as [risk' [ev|x]].
  - unfold apply_trade. case_match; cbn [sm_decisions sm_rejected_orders]; rewrite length_app; simpl; split; lia.
  - cbn [sm_decisions sm_rejected_orders]; rewrite length_app; simpl; split; lia.
Qed.

Definition trades (es : list ReplayEvent) : nat := length (filter (fun e => rv_type e = re_trade) es).

Lemma sim_loop_counts bs fee mi clock n es s risk :
  let '(s', _, curve) := sim_loop bs fee mi clock n es (s, risk) in
  length (sm_decisions s') = (length (sm_decisions s) + length es)%nat /\ length curve = length es /\
  (sm_rejected_orders s <= sm_rejected_orders s' <= sm_rejected_orders s + Z.of_nat (trades es))%Z.
Proof.
  revert n s risk. induction es as [|e es IH]; intros n s risk.
  - simpl. split_and!; try lia; unfold trades; simpl; lia.
  - cbn [sim_loop]. pose proof (sim_step_counts bs fee mi (clock n) e s risk) as S.
    destruct (sim_step bs fee mi (clock n) e (s, risk)) as [[s1 risk1] eq].
    specialize (IH (Datatypes.S n) s1 risk1).
    destruct (sim_loop bs fee mi clock (Datatypes.S n) es (s1, risk1)) as [[s2 risk2] curve].
    unfold trades in *. rewrite filter_cons. destruct S as [S1 S2], IH as (I1 & I2 & I3).
    destruct (decide (rv_type e = re_trade)); cbn [length]; split_and!; simpl; lia.
Qed.

(** ** Properties *)

(** A backtest takes one decision per event, rejects at most one order per
    trade event, and replays a permutation of the events ordered by time. *)
Theorem backtest_accounting bs fee risk clock es cash inv mi :
  let r := (sim_run bs fee risk clock es cash inv mi).1 in
  sr_decision_count r = Z.of_nat (length es) /\
  (0 <= sr_rejected_orders r <= Z.of_nat (trades es))%Z /\
  replay es ≡ₚ es /\
  Sorted.StronglySorted (fun a b => (rv_timestamp a <=? rv_timestamp b)%Z = true) (replay es).
Proof.
  destruct (replay_ordered es) as [P S]. unfold sim_run.
  pose proof (sim_loop_counts bs fee mi clock 0 (replay es) (mkSim cash inv dzero dzero [] 0) risk) as C.
  destruct (sim_loop _ _ _ _ _ _ _) as [[s risk'] curve].
  cbn [fst sr_decision_count sr_rejected_orders sm_decisions sm_rejected_orders] in *.
  destruct C as (C1 & _ & C3).
  assert (T : trades (replay es) = trades es) by (unfold trades; by rewrite P).
  rewrite T in C3. rewrite C1. split_and!; try done; try lia.
  simpl. f_equal. by rewrite P.
Qed.

(** The maximum drawdown of a nonnegative equity curve of 28-digit numbers
    lies in [0, 1]. *)
Theorem max_drawdown_unit curve :
  Forall (fun e => 0 <= dval e /\ rnd28 (dval e) == dval e)%Q curve ->
  (0 <= dval (max_drawdown curve) <= 1)%Q.
Proof.
  intros F. unfold max_drawdown.
  assert (I : drawdown_inv (foldl drawdown_step (dzero, dzero) curve)); [|apply I].
  assert (I0 : drawdown_inv (dzero, dzero)) by (split_and!; vm_compute; (reflexivity || discriminate)).
  revert I0. generalize (dzero, dzero). induction F as [|e curve [H1 H2] F IH]; intros acc I; [done|].
  simpl. apply IH. by apply drawdown_step_inv.
Qed.

Lemma max_drawdown_unit_witness : (0 <= dval (max_drawdown [dZ 100; dZ 50; dZ 120]) <= 1)%Q.
Proof. apply max_drawdown_unit. repeat constructor; vm_compute; (reflexivity || discriminate). Defined.
