(* ===== verification/Store.v ===== *)
(** * Store: the database session the paper engine persists to

    SQLAlchemy's session is not part of the repository: [Session] is the
    interface [execution/paper.py] uses of it (one operation per query or
    [add]/[flush]), and [SessionLaws] is what its SQL promises about the
    [orders] table. Any operation may raise. [MemDB] is an in-memory instance
    that satisfies the laws. The rows are those of [db/models.py]. *)

From S2P Require Import Prelude PyFloat PyDecimal PyData PyValue Models.

#[local] Open Scope string_scope.
#[local] Open Scope list_scope.

Record TradingPairRow : Type := mkPairRow {
  tp_exchange_name : string; tp_base_asset : string; tp_quote_asset : string;
  tp_normalized_symbol : string; tp_venue_symbol : string; tp_price_precision : Z;
  tp_quantity_precision : Z; tp_min_order_size : option dec; tp_min_notional : option dec;
  tp_tick_size : option dec; tp_lot_size : option dec; tp_is_enabled : bool }.

Record OrderRow : Type := mkOrderRow {
  ow_client_order_id : string; ow_exchange_order_id : option string; ow_exchange_account_id : Z;
  ow_trading_pair_id : Z; ow_side : ExecutionSide; ow_status : OrderStatus; ow_price : option dec;
  ow_quantity : dec; ow_filled_quantity : dec; ow_average_fill_price : option dec;
  ow_metadata : list (string * pyval) }.

Record TradeRow : Type := mkTradeRow {
  tw_order_id : Z; tw_exchange_trade_id : string; tw_exchange_account_id : Z; tw_trading_pair_id : Z;
  tw_side : ExecutionSide; tw_price : dec; tw_quantity : dec; tw_fee_amount : dec;
  tw_fee_asset : option string; tw_traded_at : datetime; tw_metadata : list (string * pyval) }.

Record PositionRow : Type := mkPositionRow {
  pw_exchange_account_id : Z; pw_trading_pair_id : Z; pw_asset : string; pw_side : PositionSide;
  pw_quantity : dec; pw_average_entry_price : option dec; pw_realized_pnl : dec;
  pw_unrealized_pnl : dec; pw_mark_price : option dec }.

(** Rows are addressed by their primary key. *)
Class Session (D : Type) : Type := {
  find_account : SE D (option Z);
  add_account : SE D Z;
  find_pair : string -> SE D (option Z);
  add_pair : TradingPairRow -> SE D Z;
  find_order : string -> SE D (option (Z * OrderRow));
  add_order : OrderRow -> SE D Z;
  save_order : Z -> OrderRow -> SE D unit;
  add_trade : TradeRow -> SE D unit;
  find_position : Z -> Z -> string -> SE D (option (Z * PositionRow));
  add_position : PositionRow -> SE D Z;
  save_position : Z -> PositionRow -> SE D unit }.

(** An operation that leaves the [orders] table alone when it succeeds. *)
Definition keeps_orders {D A} (view : D -> string -> option OrderRow) (m : SE D A) : Prop :=
  forall d d' a, m d = (d', Ok a) -> forall c, view d' c = view d c.

Class SessionLaws (D : Type) `{Session D} : Type := {
  order_view : D -> string -> option OrderRow;
  find_account_keeps : keeps_orders order_view find_account;
  add_account_keeps : keeps_orders order_view add_account;
  find_pair_keeps s : keeps_orders order_view (find_pair s);
  add_pair_keeps r : keeps_orders order_view (add_pair r);
  find_order_keeps c : keeps_orders order_view (find_order c);
  add_trade_keeps t : keeps_orders order_view (add_trade t);
  find_position_keeps a p s : keeps_orders order_view (find_position a p s);
  add_position_keeps r : keeps_orders order_view (add_position r);
  save_position_keeps i r : keeps_orders order_view (save_position i r);
  order_view_key d c row : order_view d c = Some row -> ow_client_order_id row = c;
  find_order_spec d d' c r : find_order c d = (d', Ok r) -> option_map snd r = order_view d c;
  add_order_spec d d' row i : add_order row d = (d', Ok i) ->
    forall c, order_view d' c = if decide (c = ow_client_order_id row) then Some row else order_view d c;
  (** saving a row just found, under its own key *)
  save_order_spec d0 d d' c i row0 row u : find_order c d0 = (d, Ok (Some (i, row0))) ->
    ow_client_order_id row = c -> save_order i row d = (d', Ok u) ->
    forall c', order_view d' c' = if decide (c' = c) then Some row else order_view d c' }.

(** ** An in-memory session *)

Record MemDB : Type := mkMem {
  mem_account : option Z;
  mem_pairs : list (string * Z);
  mem_orders : list (string * (Z * OrderRow));
  mem_trades : list TradeRow;
  mem_positions : list (Z * PositionRow);
  mem_next : Z }.

Definition empty_db : MemDB := mkMem None [] [] [] [] 1.

(** [select(Order).where(client_order_id == c)] *)
Definition mem_find (c : string) (d : MemDB) : option (Z * OrderRow) :=
  match od_get c (mem_orders d) with
  | Some (i, row) => if decide (ow_client_order_id row = c) then Some (i, row) else None
  | None => None
  end.

#[export] Instance mem_session : Session MemDB := {
  find_account := fun d => (d, Ok (mem_account d));
  add_account := fun d =>
    (mkMem (Some (mem_next d)) (mem_pairs d) (mem_orders d) (mem_trades d) (mem_positions d) (mem_next d + 1),
     Ok (mem_next d));
  find_pair := fun s d => (d, Ok (od_get s (mem_pairs d)));
  add_pair := fun r d =>
    (mkMem (mem_account d) (od_set (tp_normalized_symbol r) (mem_next d) (mem_pairs d)) (mem_orders d)
       (mem_trades d) (mem_positions d) (mem_next d + 1), Ok (mem_next d));
  find_order := fun c d => (d, Ok (mem_find c d));
  add_order := fun r d =>
    (mkMem (mem_account d) (mem_pairs d) (od_set (ow_client_order_id r) (mem_next d, r) (mem_orders d))
       (mem_trades d) (mem_positions d) (mem_next d + 1), Ok (mem_next d));
  save_order := fun i r d =>
    (mkMem (mem_account d) (mem_pairs d) (od_set (ow_client_order_id r) (i, r) (mem_orders d))
       (mem_trades d) (mem_positions d) (mem_next d), Ok tt);
  add_trade := fun t d =>
    (mkMem (mem_account d) (mem_pairs d) (mem_orders d) (mem_trades d ++ [t]) (mem_positions d) (mem_next d), Ok tt);
  find_position := fun a p s d =>
    (d, Ok (List.find (fun r => (pw_exchange_account_id r.2 =? a)%Z && (pw_trading_pair_id r.2 =? p)%Z
                                && String.eqb (pw_asset r.2) s) (mem_positions d)));
  add_position := fun r d =>
    (mkMem (mem_account d) (mem_pairs d) (mem_orders d) (mem_trades d)
       (mem_positions d ++ [(mem_next d, r)]) (mem_next d + 1), Ok (mem_next d));
  save_position := fun i r d =>
    (mkMem (mem_account d) (mem_pairs d) (mem_orders d) (mem_trades d)
       (od_set i r (mem_positions d)) (mem_next d), Ok tt) }.

#[export] Instance mem_session_laws : SessionLaws MemDB.
Proof.
  refine {| order_view := fun d c => option_map snd (mem_find c d) |};
    try (intros; intros d d' x E c'; simpl in E; by simplify_eq).
  - intros d c row. unfold mem_find. repeat case_match; intros; by simplify_eq/=.
  - intros d d' c r E. simpl in E. by simplify_eq.
  - intros d d' row i E c. simpl in E. simplify_eq. unfold mem_find. simpl. rewrite od_get_set.
    case_decide; [|done]. subst. simpl. by rewrite decide_True.
  - intros d0 d d' c i row0 row u F <- E c'. simpl in E, F. simplify_eq. unfold mem_find. simpl.
    rewrite od_get_set. case_decide; [|done]. subst. simpl. by rewrite decide_True.
Defined.
