(* ===== verification/Paper.v ===== *)
(** * Paper: the paper-trading execution engine ([execution/paper.py])

    Orders are mutable objects shared by the [open_orders] dict, the snapshot
    the fill loop iterates over and the caller; they live in a heap and are
    referred to by position. The database session is a parameter ([Session]);
    [uuid n] and [clock n] are the [n]-th random identifier and clock reading.
    An operation that raises keeps every mutation made before. *)

From Stdlib Require Import Ascii.
From S2P Require Import Prelude Rounding PyFloat PyDecimal PyData PyValue Models Reconcile Store.

#[local] Open Scope string_scope.
#[local] Open Scope list_scope.

Record PaperOrder : Type := mkPaperOrder {
  pd_intent : OrderIntent;
  pd_status : string;
  pd_exchange_order_id : string;
  pd_filled_quantity : dec;
  pd_average_price : option dec;
  pd_created_at : datetime;
  pd_updated_at : datetime }.

Definition remaining_quantity (o : PaperOrder) : dec :=
  dmax dzero (dsub (oi_quantity (pd_intent o)) (pd_filled_quantity o)).

Definition pd_cid (o : PaperOrder) : string := oi_client_order_id (pd_intent o).

Record PaperFill : Type := mkPaperFill {
  pf_trade_id : string; pf_client_order_id : string; pf_symbol : string; pf_side : ExecutionSide;
  pf_price : dec; pf_quantity : dec; pf_fee : dec; pf_executed_at : datetime }.

Record PaperAccountState : Type := mkPaperAccount {
  pa_cash : dec; pa_base_asset : string; pa_quote_asset : string;
  pa_balances : list (string * dec); pa_realized_pnl : dec; pa_fees : dec }.

Record PaperEngine : Type := mkPaperEngine {
  pe_account : PaperAccountState;
  pe_fee_bps : dec;
  pe_heap : list PaperOrder;
  pe_open_orders : list (string * nat);
  pe_fills : list PaperFill;
  pe_last_mark_price : dec;
  pe_exchange_account_id : option Z;
  pe_trading_pair_ids : list (string * Z) }.

Definition with_account (e : PaperEngine) a := mkPaperEngine a (pe_fee_bps e) (pe_heap e) (pe_open_orders e) (pe_fills e) (pe_last_mark_price e) (pe_exchange_account_id e) (pe_trading_pair_ids e).
Definition with_heap (e : PaperEngine) h := mkPaperEngine (pe_account e) (pe_fee_bps e) h (pe_open_orders e) (pe_fills e) (pe_last_mark_price e) (pe_exchange_account_id e) (pe_trading_pair_ids e).
Definition with_open (e : PaperEngine) o := mkPaperEngine (pe_account e) (pe_fee_bps e) (pe_heap e) o (pe_fills e) (pe_last_mark_price e) (pe_exchange_account_id e) (pe_trading_pair_ids e).
Definition with_fills (e : PaperEngine) f := mkPaperEngine (pe_account e) (pe_fee_bps e) (pe_heap e) (pe_open_orders e) f (pe_last_mark_price e) (pe_exchange_account_id e) (pe_trading_pair_ids e).
Definition with_mark (e : PaperEngine) m := mkPaperEngine (pe_account e) (pe_fee_bps e) (pe_heap e) (pe_open_orders e) (pe_fills e) m (pe_exchange_account_id e) (pe_trading_pair_ids e).
Definition with_ids (e : PaperEngine) i p := mkPaperEngine (pe_account e) (pe_fee_bps e) (pe_heap e) (pe_open_orders e) (pe_fills e) (pe_last_mark_price e) i p.

(** [PaperExecutionEngine.__init__] *)
Definition new_account (cash : dec) (base quote : string) : PaperAccountState :=
  mkPaperAccount cash base quote (od_set base dzero [(quote, cash)]) dzero dzero.
Definition new_paper_engine (cash : dec) (base quote : string) (fee_bps : dec) : PaperEngine :=
  mkPaperEngine (new_account cash base quote) fee_bps [] [] [] dzero None [].

(** [s.split("/", 1)] *)
Fixpoint split_once (c : ascii) (s : string) : option (string * string) :=
  match s with
  | "" => None
  | String c' s' =>
      if Ascii.eqb c c' then Some ("", s')
      else match split_once c s' with Some (a, b) => Some (String c' a, b) | None => None end
  end.

(** [self.account.balances.get(asset, Decimal("0"))] *)
Definition balance_of (a : PaperAccountState) (asset : string) : dec :=
  match od_get asset (pa_balances a) with Some d => d | None => dzero end.

(** The account part of [_apply_fill]. *)
Definition fill_fee (fee_bps price quantity : dec) : dec :=
  ddiv (dmul (dmul price quantity) fee_bps) (dZ 10000).

Definition fill_account (fee_bps : dec) (side : ExecutionSide) (price quantity : dec) (a : PaperAccountState) : PaperAccountState :=
  let notional := dmul price quantity in
  let fee := fill_fee fee_bps price quantity in
  let base := pa_base_asset a in
  let quote := pa_quote_asset a in
  let set k v a := mkPaperAccount (pa_cash a) (pa_base_asset a) (pa_quote_asset a)
                     (od_set k v (pa_balances a)) (pa_realized_pnl a) (pa_fees a) in
  let a2 := match side with
    | buy =>
        let a1 := set base (dadd (balance_of a base) quantity) a in
        set quote (dsub (dsub (balance_of a1 quote) notional) fee) a1
    | sell =>
        let a1 := set base (dsub (balance_of a base) quantity) a in
        let a2 := set quote (dsub (dadd (balance_of a1 quote) notional) fee) a1 in
        mkPaperAccount (pa_cash a2) (pa_base_asset a2) (pa_quote_asset a2) (pa_balances a2)
          (dadd (pa_realized_pnl a2) (dsub notional fee)) (pa_fees a2)
    end in
  mkPaperAccount (pa_cash a2) (pa_base_asset a2) (pa_quote_asset a2) (pa_balances a2)
    (pa_realized_pnl a2) (dadd (pa_fees a2) fee).

(** Sorted levels of the side an order trades against, best first. *)
Definition opposing_levels (side : ExecutionSide) (b : OrderBookSnapshot) : list OrderBookLevel :=
  match side with
  | buy => sorted (fun x y => negb (flt (lv_price y) (lv_price x))) (asks b)
  | sell => sorted (fun x y => negb (flt (lv_price x) (lv_price y))) (bids b)
  end.

Definition price_ok (side : ExecutionSide) (limit price : dec) : bool :=
  match side with buy => dle price limit | sell => dle limit price end.

(** [_match_order]: every level's price is converted before the first fillable
    one is taken. *)
Definition match_order (o : PaperOrder) (b : OrderBookSnapshot) : result (option dec * dec) :=
  let i := pd_intent o in
  match oi_price i with
  | None => Ok (None, dzero)
  | Some limit =>
      if bool_decide (oi_order_type i = ot_limit \/ oi_order_type i = ot_post_only) then
        priced ← result_mapM (fun l => p ← dec_of_float (lv_price l); Ok (p, l)) (opposing_levels (oi_side i) b);
        match List.filter (fun pl => price_ok (oi_side i) limit pl.1) priced with
        | [] => Ok (None, dzero)
        | (p, l) :: _ => size ← dec_of_float (lv_size l); Ok (Some p, dmin (remaining_quantity o) size)
        end
      else Ok (None, dzero)
  end.

(** [Decimal(str((max(bids) + min(asks)) / 2))] when both sides are present. *)
Definition book_mark (b : OrderBookSnapshot) : option (result dec) :=
  match best_bid b, best_ask b with
  | Some x, Some y => Some (dec_of_float (fdiv (fadd x y) (of_Z 2)))
  | _, _ => None
  end.

Definition persisted_status (s : string) : option OrderStatus :=
  od_get s [("NEW", os_created); ("ACKNOWLEDGED", os_open); ("PARTIAL_FILL", os_partially_filled);
            ("FILLED", os_filled); ("CANCELLED", os_cancelled); ("REPLACED", os_cancelled)].

(** [{**a, **b}] *)


Definition unrealized_pnl (e : PaperEngine) : dec :=
  dmul (balance_of (pe_account e) (pa_base_asset (pe_account e))) (pe_last_mark_price e).

Definition exposure_notional (e : PaperEngine) : dec := dabs (unrealized_pnl e).

(** [self.last_mark_price if self.last_mark_price else None] *)
Definition mark_or_none (e : PaperEngine) : option dec :=
  if dtruth (pe_last_mark_price e) then Some (pe_last_mark_price e) else None.

Section Engine.
Context {D : Type} `{Session D} (uuid : nat -> string) (clock : nat -> datetime).

Record World : Type := mkWorld { w_engine : PaperEngine; w_db : D; w_tick : nat }.

Definition M (A : Type) : Type := SE World A.
#[local] Instance M_ret : MRet M := se_ret World.
#[local] Instance M_bind : MBind M := se_bind World.

Definition engine : M PaperEngine := fun w => (w, Ok (w_engine w)).
Definition update (f : PaperEngine -> PaperEngine) : M unit :=
  fun w => (mkWorld (f (w_engine w)) (w_db w) (w_tick w), Ok tt).
Definition db {A} (m : SE D A) : M A :=
  fun w => let '(d, r) := m (w_db w) in (mkWorld (w_engine w) d (w_tick w), r).
Definition now : M datetime := fun w => (mkWorld (w_engine w) (w_db w) (S (w_tick w)), Ok (clock (w_tick w))).
Definition fresh_uuid : M string := fun w => (mkWorld (w_engine w) (w_db w) (S (w_tick w)), Ok (uuid (w_tick w))).
Definition lift {A} (r : result A) : M A := fun w => (w, r).

(** Reading and mutating an order object. *)
Definition order_at (r : nat) : M PaperOrder :=
  fun w => (w, match pe_heap (w_engine w) !! r with Some o => Ok o | None => raise KeyError "order" end).
Definition set_order (r : nat) (f : PaperOrder -> PaperOrder) : M unit :=
  update (fun e => with_heap e (alter f r (pe_heap e))).

Definition set_status (s : string) (o : PaperOrder) : PaperOrder :=
  mkPaperOrder (pd_intent o) s (pd_exchange_order_id o) (pd_filled_quantity o) (pd_average_price o) (pd_created_at o) (pd_updated_at o).
Definition set_updated (t : datetime) (o : PaperOrder) : PaperOrder :=
  mkPaperOrder (pd_intent o) (pd_status o) (pd_exchange_order_id o) (pd_filled_quantity o) (pd_average_price o) (pd_created_at o) t.
Definition set_filled (q : dec) (o : PaperOrder) : PaperOrder :=
  mkPaperOrder (pd_intent o) (pd_status o) (pd_exchange_order_id o) q (pd_average_price o) (pd_created_at o) (pd_updated_at o).
Definition set_average (p : option dec) (o : PaperOrder) : PaperOrder :=
  mkPaperOrder (pd_intent o) (pd_status o) (pd_exchange_order_id o) (pd_filled_quantity o) p (pd_created_at o) (pd_updated_at o).

Definition ensure_exchange_account : M Z :=
  e ← engine;
  match pe_exchange_account_id e with
  | Some i => mret i
  | None =>
      row ← db find_account;
      i ← match row with Some i => mret i | None => db add_account end;
      _ ← update (fun e => with_ids e (Some i) (pe_trading_pair_ids e));
      mret i
  end.

Definition ensure_trading_pair (symbol : string) : M Z :=
  e ← engine;
  match od_get symbol (pe_trading_pair_ids e) with
  | Some i => mret i
  | None =>
      row ← db (find_pair symbol);
      i ← match row with
          | Some i => mret i
          | None =>
              match split_once "/" symbol with
              | None => lift (raise ValueError "not enough values to unpack")
              | Some (base, quote) =>
                  db (add_pair (mkPairRow "paper" base quote symbol (str_replace "/" "" symbol) 8 8
                        (Some (mkDec 1 (-8))) (Some dzero) (Some (mkDec 1 (-8))) (Some (mkDec 1 (-8))) true))
              end
          end;
      _ ← update (fun e => with_ids e (pe_exchange_account_id e) (od_set symbol i (pe_trading_pair_ids e)));
      mret i
  end.

Definition persist_order (r : nat) : M unit :=
  o0 ← order_at r;
  account_id ← ensure_exchange_account;
  pair_id ← ensure_trading_pair (oi_symbol (pd_intent o0));
  row ← db (find_order (pd_cid o0));
  o ← order_at r;
  status ← lift (match persisted_status (pd_status o) with
                 | Some s => Ok s | None => raise KeyError (pd_status o) end);
  let i := pd_intent o in
  match row with
  | None =>
      _ ← db (add_order (mkOrderRow (pd_cid o) (Some (pd_exchange_order_id o)) account_id pair_id (oi_side i)
                status (oi_price i) (oi_quantity i) (pd_filled_quantity o) (pd_average_price o)
                (dict_merge [("mode", PStr "paper")] (oi_metadata i))));
      mret tt
  | Some (id, row) =>
      db (save_order id (mkOrderRow (ow_client_order_id row) (ow_exchange_order_id row) (ow_exchange_account_id row)
            (ow_trading_pair_id row) (ow_side row) status (oi_price i) (oi_quantity i) (pd_filled_quantity o)
            (pd_average_price o) (dict_merge (od_set "mode" (PStr "paper") (ow_metadata row)) (oi_metadata i))))
  end.

Definition persist_trade (r : nat) (f : PaperFill) : M unit :=
  account_id ← ensure_exchange_account;
  pair_id ← ensure_trading_pair (pf_symbol f);
  o ← order_at r;
  row ← db (find_order (pd_cid o));
  match row with
  | None => lift (raise NoResultFound "No row was found when one was required")
  | Some (id, _) =>
      e ← engine;
      db (add_trade (mkTradeRow id (pf_trade_id f) account_id pair_id (pf_side f) (pf_price f) (pf_quantity f)
            (pf_fee f) (Some (pa_quote_asset (pe_account e))) (pf_executed_at f) [("mode", PStr "paper")]))
  end.

Definition position_side (q : dec) : PositionSide :=
  if deq q dzero then pos_flat else if dlt dzero q then pos_long else pos_short.

Definition persist_position (symbol : string) : M unit :=
  account_id ← ensure_exchange_account;
  pair_id ← ensure_trading_pair symbol;
  e0 ← engine;
  let q := balance_of (pe_account e0) (pa_base_asset (pe_account e0)) in
  row ← db (find_position account_id pair_id (pa_base_asset (pe_account e0)));
  e ← engine;
  let a := pe_account e in
  match row with
  | None =>
      _ ← db (add_position (mkPositionRow account_id pair_id (pa_base_asset a) (position_side q) (dabs q)
                (mark_or_none e) (pa_realized_pnl a) (unrealized_pnl e) (mark_or_none e)));
      mret tt
  | Some (id, row) =>
      db (save_position id (mkPositionRow (pw_exchange_account_id row) (pw_trading_pair_id row) (pw_asset row)
            (position_side q) (dabs q) (pw_average_entry_price row) (pa_realized_pnl a)
            (unrealized_pnl e) (mark_or_none e)))
  end.

(** [(order.average_price or price)] *)
Definition avg_or (o : option dec) (price : dec) : dec :=
  match o with Some a => if dtruth a then a else price | None => price end.

(** The new average price; [previous] is the quantity filled before. *)
Definition new_average (o : PaperOrder) (previous filled price quantity : dec) : result dec :=
  if deq previous dzero then Ok price
  else ddiv_chk (dadd (dmul (avg_or (pd_average_price o) price) previous) (dmul price quantity)) filled.

Definition apply_fill (r : nat) (price quantity : dec) : M PaperFill :=
  o ← order_at r;
  _ ← update (fun e => with_account e (fill_account (pe_fee_bps e) (oi_side (pd_intent o)) price quantity (pe_account e)));
  let previous := pd_filled_quantity o in
  let filled := dadd previous quantity in
  _ ← set_order r (set_filled filled);
  avg ← lift (new_average o previous filled price quantity);
  _ ← set_order r (set_average (Some avg));
  id ← fresh_uuid;
  t ← now;
  e ← engine;
  let f := mkPaperFill ("paper-trade-" +:+ id) (pd_cid o) (oi_symbol (pd_intent o)) (oi_side (pd_intent o))
             price quantity (fill_fee (pe_fee_bps e) price quantity) t in
  _ ← update (fun e => with_fills e (pe_fills e ++ [f]));
  _ ← persist_trade r f;
  _ ← persist_position (oi_symbol (pd_intent o));
  mret f.

(** One iteration of the loop of [simulate_fills]; the fills made. *)
Definition fill_one (symbol : string) (b : OrderBookSnapshot) (r : nat) : M (list PaperFill) :=
  o ← order_at r;
  if negb (String.eqb (oi_symbol (pd_intent o)) symbol) || dle (remaining_quantity o) dzero then mret []
  else
    m ← lift (match_order o b);
    match m with
    | (Some price, qty) =>
        if dle qty dzero then mret []
        else
          f ← apply_fill r price qty;
          o1 ← order_at r;
          _ ← (if dle (remaining_quantity o1) dzero then
                 _ ← set_order r (set_status "FILLED");
                 update (fun e => with_open e (od_del (pd_cid o1) (pe_open_orders e)))
               else set_order r (set_status "PARTIAL_FILL"));
          t ← now;
          _ ← set_order r (set_updated t);
          _ ← persist_order r;
          mret [f]
    | (None, _) => mret []
    end.

Fixpoint fill_loop (symbol : string) (b : OrderBookSnapshot) (rs : list nat) : M (list PaperFill) :=
  match rs with
  | [] => mret []
  | r :: rs' => fs ← fill_one symbol b r; fs' ← fill_loop symbol b rs'; mret (fs ++ fs')
  end.

Definition simulate_fills (symbol : string) (b : OrderBookSnapshot) : M (list PaperFill) :=
  _ ← (match book_mark b with
       | None => mret tt
       | Some r => m ← lift r; update (fun e => with_mark e m)
       end);
  e ← engine;
  fill_loop symbol b (od_vals (pe_open_orders e)).

Definition place_order (i : OrderIntent) (book : option OrderBookSnapshot) : M nat :=
  id ← fresh_uuid;
  t1 ← now;
  t2 ← now;
  e ← engine;
  let r := length (pe_heap e) in
  let o := mkPaperOrder i "ACKNOWLEDGED" ("paper-" +:+ id) dzero None t1 t2 in
  _ ← update (fun e => with_open (with_heap e (pe_heap e ++ [o])) (od_set (oi_client_order_id i) r (pe_open_orders e)));
  _ ← persist_order r;
  _ ← (match book with
       | None => mret tt
       | Some b => _ ← simulate_fills (oi_symbol i) b; mret tt
       end);
  mret r.

Definition cancel_order (client_order_id : string) : M (option nat) :=
  e ← engine;
  match od_get client_order_id (pe_open_orders e) with
  | None => mret None
  | Some r =>
      t ← now;
      _ ← set_order r (fun o => set_updated t (set_status "CANCELLED" o));
      _ ← update (fun e => with_open e (od_del client_order_id (pe_open_orders e)));
      _ ← persist_order r;
      mret (Some r)
  end.

Definition replace_order (client_order_id : string) (i : OrderIntent) (book : option OrderBookSnapshot) : M nat :=
  _ ← cancel_order client_order_id;
  place_order i book.

End Engine.

(** ** Read-only views *)

Definition paper_balances (e : PaperEngine) : list BalanceRecord :=
  map (fun kv => mkBalanceRecord kv.1 kv.2 (dsub kv.2 dzero) dzero) (pa_balances (pe_account e)).

Definition paper_positions (e : PaperEngine) : list PositionRecord :=
  let a := pe_account e in
  let q := balance_of a (pa_base_asset a) in
  [mkPositionRecord (pa_base_asset a +:+ "/" +:+ pa_quote_asset a) (pa_base_asset a) q (dmul q (pe_last_mark_price e))].

Definition open_order_objects (e : PaperEngine) : list PaperOrder :=
  omap (fun r => pe_heap e !! r) (od_vals (pe_open_orders e)).

Definition paper_orders (e : PaperEngine) : list OrderRecord :=
  map (fun o => mkOrderRecord (pd_cid o) (Some (pd_exchange_order_id o)) (oi_symbol (pd_intent o))
                  (pd_status o) (pd_filled_quantity o) (remaining_quantity o)) (open_order_objects e).

Definition reconciliation_snapshot (e : PaperEngine) : ReconciliationSnapshot :=
  mkSnapshot (paper_balances e) (paper_positions e) (paper_orders e)
    (map (fun f => mkFillRecord (pf_trade_id f) (pf_client_order_id f) (pf_symbol f) (pf_quantity f) (pf_price f) (pf_fee f))
       (pe_fills e))
    (Some (mkPnlRecord (pa_realized_pnl (pe_account e)) (unrealized_pnl e) (pa_fees (pe_account e)))).

(** ** Frame: persistence touches only the database and the cached row ids *)

Definition core (e : PaperEngine) :=
  (pe_account e, pe_fee_bps e, pe_heap e, pe_open_orders e, pe_fills e, pe_last_mark_price e).

Section Frame.
Context {D : Type} `{Session D} (uuid : nat -> string) (clock : nat -> datetime).

(** [m] leaves the trading state alone, whether it returns or raises. *)
Definition keeps_core {A} (m : M (D := D) A) : Prop := forall w, core (w_engine (m w).1) = core (w_engine w).

Lemma keeps_bind {A B} (m : M (D := D) A) (k : A -> M (D := D) B) :
  keeps_core m -> (forall a, keeps_core (k a)) -> keeps_core (se_bind _ _ _ k m).
Proof.
  intros Hm Hk w. unfold se_bind. specialize (Hm w). destruct (m w) as [w' [a|e]]; simpl in *; [|done].
  by rewrite Hk.
Qed.

Lemma keeps_ret {A} (a : A) : keeps_core (fun w => (w, Ok a)).
Proof. done. Qed.
Lemma keeps_engine : keeps_core engine.
Proof. done. Qed.
Lemma keeps_lift {A} (r : result A) : keeps_core (lift r).
Proof. done. Qed.
Lemma keeps_order_at r : keeps_core (order_at r).
Proof. done. Qed.
Lemma keeps_ids f : (forall e, core (f e) = core e) -> keeps_core (update f).
Proof. intros Hf w. apply Hf. Qed.
Lemma keeps_db {A} (m : SE D A) : keeps_core (db m).
Proof. intros w. unfold db. by destruct (m (w_db w)). Qed.

Lemma keeps_ensure_account : keeps_core ensure_exchange_account.
Proof.
  apply keeps_bind; [apply keeps_engine|]. intros e. case_match; [apply keeps_ret|].
  apply keeps_bind; [apply keeps_db|]. intros row. apply keeps_bind; [case_match; [apply keeps_ret|apply keeps_db]|].
  intros i. apply keeps_bind; [by apply keeps_ids|]. intros _. apply keeps_ret.
Qed.

Lemma keeps_ensure_pair s : keeps_core (ensure_trading_pair s).
Proof.
  apply keeps_bind; [apply keeps_engine|]. intros e. case_match; [apply keeps_ret|].
  apply keeps_bind; [apply keeps_db|]. intros row. apply keeps_bind.
  { repeat case_match; [apply keeps_ret|apply keeps_db|apply keeps_lift]. }
  intros i. apply keeps_bind; [by apply keeps_ids|]. intros _. apply keeps_ret.
Qed.

Ltac keeps :=
  repeat (first [ apply keeps_bind; [|intros ?] | apply keeps_ensure_account | apply keeps_ensure_pair
                | apply keeps_db | apply keeps_engine | apply keeps_lift | apply keeps_order_at
                | apply keeps_ret | progress case_match ]).

Lemma keeps_persist_order r : keeps_core (persist_order r).
Proof. unfold persist_order, mbind, M_bind, mret, M_ret, se_ret. keeps. Qed.
Lemma keeps_persist_trade r f : keeps_core (persist_trade r f).
Proof. unfold persist_trade, mbind, M_bind, mret, M_ret, se_ret. keeps. Qed.
Lemma keeps_persist_position s : keeps_core (persist_position s).
Proof. unfold persist_position, mbind, M_bind, mret, M_ret, se_ret. keeps. Qed.
End Frame.

(** ** Fills *)

(** The order after a fill. *)
Definition filled_order (o : PaperOrder) (avg quantity : dec) : PaperOrder :=
  set_average (Some avg) (set_filled (dadd (pd_filled_quantity o) quantity) o).

Lemma alter_const {A} (f : A -> A) (l : list A) (r : nat) (x : A) : l !! r = Some x -> alter f r l = <[r := f x]> l.
Proof. intros E. rewrite list_insert_alter. apply list_alter_ext; [|done]. intros y. rewrite E. by intros [= ->]. Qed.

Section Fills.
Context {D : Type} `{Session D} (uuid : nat -> string) (clock : nat -> datetime).

Definition after_fill (r : nat) (o : PaperOrder) (avg price quantity : dec) (f : PaperFill) (e : PaperEngine) : PaperEngine :=
  with_fills (with_heap (with_account e (fill_account (pe_fee_bps e) (oi_side (pd_intent o)) price quantity (pe_account e)))
                (<[r := filled_order o avg quantity]> (pe_heap e)))
    (pe_fills e ++ [f]).

Definition fill_for (w : World (D := D)) (o : PaperOrder) (price quantity : dec) : PaperFill :=
  mkPaperFill ("paper-trade-" +:+ uuid (w_tick w)) (pd_cid o) (oi_symbol (pd_intent o)) (oi_side (pd_intent o))
    price quantity (fill_fee (pe_fee_bps (w_engine w)) price quantity) (clock (S (w_tick w))).

Lemma apply_fill_run r o avg price quantity (w : World (D := D)) :
  pe_heap (w_engine w) !! r = Some o ->
  new_average o (pd_filled_quantity o) (dadd (pd_filled_quantity o) quantity) price quantity = Ok avg ->
  let f := fill_for w o price quantity in
  core (w_engine (apply_fill uuid clock r price quantity w).1) = core (after_fill r o avg price quantity f (w_engine w)) /\
  (forall f', (apply_fill uuid clock r price quantity w).2 = Ok f' -> f' = f).
Proof.
  intros Ho Ha f.
  set (w1 := mkWorld (after_fill r o avg price quantity f (w_engine w)) (w_db w) (S (S (w_tick w)))).
  assert (R : apply_fill uuid clock r price quantity w =
    (_ ← persist_trade r f; _ ← persist_position (oi_symbol (pd_intent o)); mret f) w1).
  { unfold apply_fill, mbind, M_bind, se_bind, order_at at 1. rewrite Ho.
    cbn [update set_order lift w_engine w_db w_tick fresh_uuid now engine]. rewrite Ha.
    unfold w1, after_fill, filled_order, f, fill_for.
    cbn [with_account with_heap with_fills pe_heap pe_account pe_fee_bps pe_open_orders pe_fills
         pe_last_mark_price pe_exchange_account_id pe_trading_pair_ids].
    rewrite list_alter_alter_eq, (alter_const _ _ _ o Ho), (alter_const _ _ _ o Ho). done. }
  rewrite R. split.
  - change (core (after_fill r o avg price quantity f (w_engine w))) with (core (w_engine w1)).
    apply keeps_bind; [apply keeps_persist_trade|]. intros []. apply keeps_bind; [apply keeps_persist_position|].
    intros []. apply keeps_ret.
  - intros f'. unfold mbind, M_bind, se_bind. destruct (persist_trade r f w1) as [w2 [[]|]]; [|done].
    destruct (persist_position _ w2) as [w3 [[]|]]; [|done]. intros [= <-]. done.
Qed.
End Fills.

(** ** Invariants *)

(** [d] is [k] units of [10^-g]. *)
Definition grid_val (g : Z) (d : dec) (k : Z) : Prop := (dval d == inject_Z k * pow10 (- g))%Q.

Lemma rnd28_grid g k : (Z.abs k < 10 ^ prec)%Z -> (rnd28 (inject_Z k * pow10 (- g)) == inject_Z k * pow10 (- g))%Q.
Proof. intros H. apply rnd28_repr. by exists k, (- g)%Z. Qed.

Lemma grid_dadd g a b j k : grid_val g a j -> grid_val g b k -> (Z.abs (j + k) < 10 ^ prec)%Z ->
  grid_val g (dadd a b) (j + k).
Proof.
  unfold grid_val. intros Ha Hb B. rewrite dval_dadd, Ha, Hb.
  assert (E : (inject_Z j * pow10 (- g) + inject_Z k * pow10 (- g) == inject_Z (j + k) * pow10 (- g))%Q)
    by (rewrite inject_Z_plus; ring).
  rewrite E. by apply rnd28_grid.
Qed.

Lemma grid_dsub g a b j k : grid_val g a j -> grid_val g b k -> (Z.abs (j - k) < 10 ^ prec)%Z ->
  grid_val g (dsub a b) (j - k).
Proof.
  unfold grid_val. intros Ha Hb B. rewrite dval_dsub, Ha, Hb.
  assert (E : (inject_Z j * pow10 (- g) - inject_Z k * pow10 (- g) == inject_Z (j - k) * pow10 (- g))%Q)
    by (unfold Zminus; rewrite inject_Z_plus, inject_Z_opp; ring).
  rewrite E. by apply rnd28_grid.
Qed.

Lemma grid_le g a b j k : grid_val g a j -> grid_val g b k -> (dval a <= dval b)%Q <-> (j <= k)%Z.
Proof.
  unfold grid_val. intros -> ->. pose proof (pow10_pos (- g)) as P. rewrite (Zle_Qle j k).
  by apply Qmult_le_r.
Qed.

Lemma grid_zero g : grid_val g dzero 0.
Proof. unfold grid_val. change (dval dzero) with (0 * 1)%Q. change (inject_Z 0) with 0%Q. ring. Qed.

Definition order_ok (g : Z) (o : PaperOrder) : Prop :=
  exists kf kq, grid_val g (pd_filled_quantity o) kf /\ grid_val g (oi_quantity (pd_intent o)) kq /\
    (0 <= kf <= kq)%Z /\ (kq < 10 ^ prec)%Z.

(** Quantities an operation brings in: order quantities are [0 <= k < 10^28]
    units, book sizes any number of units. *)
Definition intent_on_grid (g : Z) (i : OrderIntent) : Prop :=
  exists k, grid_val g (oi_quantity i) k /\ (0 <= k < 10 ^ prec)%Z.
Definition book_on_grid (g : Z) (b : OrderBookSnapshot) : Prop :=
  forall l d, l ∈ bids b ++ asks b -> dec_of_float (lv_size l) = Ok d -> exists k, grid_val g d k.

Lemma grid_remaining g o kf kq : grid_val g (pd_filled_quantity o) kf -> grid_val g (oi_quantity (pd_intent o)) kq ->
  (0 <= kf <= kq)%Z -> (kq < 10 ^ prec)%Z -> grid_val g (remaining_quantity o) (kq - kf).
Proof.
  intros Hf Hq B1 B2. assert (S : grid_val g (dsub (oi_quantity (pd_intent o)) (pd_filled_quantity o)) (kq - kf))
    by (apply grid_dsub; [done..|lia]).
  unfold remaining_quantity, dmax, dlt. destruct (Qle_bool _ _) eqn:E; cbn [negb]; [|done].
  apply Qle_bool_iff in E. rewrite (grid_le g _ _ _ _ S (grid_zero g)) in E.
  replace (kq - kf)%Z with 0%Z by lia. apply grid_zero.
Qed.

(** A positive matched quantity is a whole number of units, at most what remains. *)
Lemma grid_matched g o size kf kq ks :
  grid_val g (pd_filled_quantity o) kf -> grid_val g (oi_quantity (pd_intent o)) kq ->
  (0 <= kf <= kq)%Z -> (kq < 10 ^ prec)%Z -> grid_val g size ks ->
  dle (dmin (remaining_quantity o) size) dzero = false ->
  exists k, grid_val g (dmin (remaining_quantity o) size) k /\ (0 < k <= kq - kf)%Z.
Proof.
  intros Hf Hq B1 B2 Hs P. pose proof (grid_remaining g o kf kq Hf Hq B1 B2) as R.
  assert (M : exists k, grid_val g (dmin (remaining_quantity o) size) k /\ (k <= kq - kf)%Z).
  { unfold dmin, dlt. destruct (Qle_bool _ _) eqn:E; cbn [negb]; [by exists (kq - kf)%Z|].
    exists ks. split; [done|]. apply (grid_le g _ _ _ _ Hs R).
    apply Qlt_le_weak, Qnot_le_lt. intros L. apply Qle_bool_iff in L. congruence. }
  destruct M as (k & M & L). exists k. split_and!; [done| |done].
  destruct (Z_lt_le_dec 0 k) as [|N]; [done|]. exfalso.
  apply (grid_le g _ _ _ _ M (grid_zero g)) in N. unfold dle in P. apply Qle_bool_iff in N. congruence.
Qed.

Definition replay_fill (fee_bps : dec) (a : PaperAccountState) (f : PaperFill) : PaperAccountState :=
  fill_account fee_bps (pf_side f) (pf_price f) (pf_quantity f) a.

Definition open_status (s : string) : Prop := s = "ACKNOWLEDGED" \/ s = "PARTIAL_FILL".

Record paper_inv (g : Z) (init : PaperAccountState) (fee_bps : dec) (e : PaperEngine) : Prop := {
  pi_fee : pe_fee_bps e = fee_bps;
  pi_ledger : pe_account e = foldl (replay_fill fee_bps) init (pe_fills e);
  pi_heap : forall r o, pe_heap e !! r = Some o -> order_ok g o;
  pi_open : forall c r, (c, r) ∈ pe_open_orders e ->
    exists o, pe_heap e !! r = Some o /\ pd_cid o = c /\ open_status (pd_status o);
  pi_keys : NoDup (od_keys (pe_open_orders e)) }.

Section Invariant.
Context (g : Z) (init : PaperAccountState) (fee_bps : dec).
#[local] Abbreviation inv := (paper_inv g init fee_bps).

Lemma inv_core e e' : core e = core e' -> inv e -> inv e'.
Proof.
  destruct e, e'. unfold core. cbn. intros E. simplify_eq. intros [F L Hh O K]. by split.
Qed.

(** Replacing an order by one with the same intent and a valid fill. *)
Lemma inv_after_fill r o avg price q f e k kf kq :
  inv e -> pe_heap e !! r = Some o ->
  pf_side f = oi_side (pd_intent o) -> pf_price f = price -> pf_quantity f = q ->
  grid_val g (pd_filled_quantity o) kf -> grid_val g (oi_quantity (pd_intent o)) kq ->
  (0 <= kf <= kq)%Z -> (kq < 10 ^ prec)%Z -> grid_val g q k -> (0 < k <= kq - kf)%Z ->
  inv (after_fill r o avg price q f e).
Proof.
  intros [F L Hh O K] Ho Es <- <- Gf Gq B1 B2 Gk Bk.
  split; cbn [after_fill with_fills with_heap with_account pe_fee_bps pe_account pe_fills pe_heap pe_open_orders]; try done.
  - rewrite foldl_snoc, <- L, F. unfold replay_fill. by rewrite Es.
  - intros r' o' E. destruct (decide (r' = r)) as [->|N].
    + rewrite list_lookup_insert_eq in E by (by eapply lookup_lt_Some). injection E as <-.
      exists (kf + k)%Z, kq. split_and!; try lia; [|done]. apply grid_dadd; [done..|lia].
    + rewrite list_lookup_insert_ne in E by done. by eapply Hh.
  - intros c r' Hc. destruct (O c r' Hc) as (o' & E & C & S). destruct (decide (r' = r)) as [->|N].
    + rewrite list_lookup_insert_eq by (by eapply lookup_lt_Some). simplify_eq. by eexists.
    + rewrite list_lookup_insert_ne by done. by exists o'.
Qed.

(** Changing status and time stamps of an order. *)
Definition same_quantities (h : PaperOrder -> PaperOrder) : Prop :=
  forall o, pd_intent (h o) = pd_intent o /\ pd_filled_quantity (h o) = pd_filled_quantity o.

Lemma order_ok_same h o : same_quantities h -> order_ok g o -> order_ok g (h o).
Proof. intros S (kf & kq & ?). destruct (S o) as [E1 E2]. exists kf, kq. by rewrite E1, E2. Qed.

Lemma inv_alter_heap h r e :
  (forall i o, alter h r (pe_heap e) !! i = Some o -> exists o', pe_heap e !! i = Some o' /\ (o = o' \/ (i = r /\ o = h o'))).
Proof.
  intros i o. destruct (decide (i = r)) as [->|N].
  - rewrite list_lookup_alter_eq. intros (o' & -> & E)%fmap_Some. eauto.
  - rewrite list_lookup_alter_ne by done. eauto.
Qed.

Lemma inv_alter h r e : same_quantities h -> (forall o, open_status (pd_status o) -> open_status (pd_status (h o))) ->
  inv e -> inv (with_heap e (alter h r (pe_heap e))).
Proof.
  intros S Hs [F L Hh O K]. split; cbn [with_heap pe_fee_bps pe_account pe_fills pe_heap pe_open_orders]; try done.
  - intros i o E. apply inv_alter_heap in E as (o' & E & [->|[_ ->]]); [|apply order_ok_same; [done|]]; by eapply Hh.
  - intros c i Hc. destruct (O c i Hc) as (o & E & C & St). destruct (decide (i = r)) as [->|N].
    + rewrite list_lookup_alter_eq, E. simpl. eexists. split; [done|]. unfold pd_cid. destruct (S o) as [-> _]. auto.
    + rewrite list_lookup_alter_ne by done. eauto.
Qed.

(** Closing an order: any status change together with the removal of its key. *)
Lemma inv_close h r o e : same_quantities h -> pe_heap e !! r = Some o ->
  inv e -> inv (with_open (with_heap e (alter h r (pe_heap e))) (od_del (pd_cid o) (pe_open_orders e))).
Proof.
  intros S Ho [F L Hh O K].
  split; cbn [with_open with_heap pe_fee_bps pe_account pe_fills pe_heap pe_open_orders]; try done.
  - intros i x E. apply inv_alter_heap in E as (o' & E & [->|[_ ->]]); [|apply order_ok_same; [done|]]; by eapply Hh.
  - intros c i Hc. apply list_elem_of_filter in Hc as [Nc Hc]. simpl in Nc.
    destruct (O c i Hc) as (x & E & C & St). rewrite list_lookup_alter_ne; [eauto|].
    intros ->. apply Nc. by simplify_eq.
  - by apply od_del_NoDup.
Qed.

Lemma inv_place i id t1 t2 e : intent_on_grid g i -> inv e ->
  inv (with_open (with_heap e (pe_heap e ++ [mkPaperOrder i "ACKNOWLEDGED" id dzero None t1 t2]))
         (od_set (oi_client_order_id i) (length (pe_heap e)) (pe_open_orders e))).
Proof.
  intros (k & Gk & Bk) [F L Hh O K].
  split; cbn [with_open with_heap pe_fee_bps pe_account pe_fills pe_heap pe_open_orders]; try done.
  - intros r o [E|[E1 E2]]%lookup_app_Some; [by eapply Hh|].
    apply list_lookup_singleton_Some in E2 as [_ <-]. exists 0%Z, k. cbn.
    split_and!; try lia; [apply grid_zero|done].
  - intros c r Hc. apply od_in_get in Hc; [|by apply od_set_NoDup]. rewrite od_get_set in Hc.
    destruct (decide (c = oi_client_order_id i)) as [->|N].
    + injection Hc as <-. rewrite lookup_app_r, Nat.sub_diag by done. simpl. eexists. split; [done|]. by split; [|left].
    + apply od_get_Some_in in Hc. destruct (O c r Hc) as (o & E & ?). exists o. split; [|done].
      by apply lookup_app_l_Some.
  - by apply od_set_NoDup.
Qed.

Lemma inv_mark m e : inv e -> inv (with_mark e m).
Proof. by intros [F L Hh O K]. Qed.
End Invariant.

(** ** Matching *)

Lemma result_mapM_elem {A B} (f : A -> result B) l ys y : result_mapM f l = Ok ys -> y ∈ ys ->
  exists x, x ∈ l /\ f x = Ok y.
Proof.
  revert ys. induction l as [|x l IH]; simpl; intros ys E Hy.
  - injection E as <-. by apply elem_of_nil in Hy.
  - apply result_bind_ok in E as (y0 & E0 & E). apply result_bind_ok in E as (ys0 & E1 & [= <-]).
    apply elem_of_cons in Hy as [->|Hy]; [exists x; by split; [left|]|].
    destruct (IH ys0 E1 Hy) as (x' & ? & ?). exists x'. by split; [right|].
Qed.

(** What a match is: the level traded at, its price within the limit and the
    quantity the smaller of the remaining and the level size. *)
Lemma match_order_some o b p q : match_order o b = Ok (Some p, q) ->
  exists limit l size, oi_price (pd_intent o) = Some limit /\
    price_ok (oi_side (pd_intent o)) limit p = true /\
    l ∈ (match oi_side (pd_intent o) with buy => asks b | sell => bids b end) /\
    dec_of_float (lv_price l) = Ok p /\ dec_of_float (lv_size l) = Ok size /\
    q = dmin (remaining_quantity o) size.
Proof.
  unfold match_order. destruct (oi_price (pd_intent o)) as [limit|]; [|done].
  destruct (bool_decide _); [|done]. intros E. apply result_bind_ok in E as (priced & E1 & E).
  destruct (List.filter _ priced) as [|[p' l] rest] eqn:F; [done|].
  apply result_bind_ok in E as (size & Es & [= <- <-]).
  assert (I : In (p', l) (List.filter (fun pl => price_ok (oi_side (pd_intent o)) limit pl.1) priced)) by (rewrite F; by left).
  apply filter_In in I as [I1 I2]. apply list_elem_of_In in I1.
  destruct (result_mapM_elem _ _ _ _ E1 I1) as (x & Hx & Ex).
  apply result_bind_ok in Ex as (px & Ep & [= -> ->]).
  exists limit, l, size. split_and!; try done.
  unfold opposing_levels in Hx. destruct (oi_side (pd_intent o)); by apply elem_of_sorted in Hx.
Qed.

(** ** Every operation keeps the invariant, whether it returns or raises *)

Section Preservation.
Context {D : Type} `{Session D} (uuid : nat -> string) (clock : nat -> datetime).
Context (g : Z) (init : PaperAccountState) (fee_bps : dec).
#[local] Abbreviation inv w := (paper_inv g init fee_bps (w_engine w)).

Definition preserves {A} (m : M (D := D) A) : Prop := forall w, inv w -> inv (m w).1.

Lemma preserves_bind {A B} (m : M A) (k : A -> M B) :
  preserves m -> (forall a, preserves (k a)) -> preserves (se_bind _ _ _ k m).
Proof.
  intros Hm Hk w I. unfold se_bind. specialize (Hm w I). destruct (m w) as [w' [a|e]]; simpl in *; [|done].
  by apply Hk.
Qed.

Lemma preserves_keeps {A} (m : M A) : keeps_core m -> preserves m.
Proof. intros Hk w I. by apply (inv_core g init fee_bps (w_engine w)). Qed.

Lemma preserves_update f : (forall e, paper_inv g init fee_bps e -> paper_inv g init fee_bps (f e)) -> preserves (update f).
Proof. intros Hf w I. by apply Hf. Qed.

Lemma keeps_now : keeps_core (now (D := D) clock).
Proof. done. Qed.
Lemma keeps_uuid : keeps_core (fresh_uuid (D := D) uuid).
Proof. done. Qed.

Lemma new_average_ok o kf k q price : grid_val g (pd_filled_quantity o) kf -> grid_val g q k ->
  (0 <= kf)%Z -> (0 < k)%Z -> (kf + k < 10 ^ prec)%Z ->
  exists avg, new_average o (pd_filled_quantity o) (dadd (pd_filled_quantity o) q) price q = Ok avg.
Proof.
  intros Gf Gk B1 B2 B3. unfold new_average, ddiv_chk. case_match; [by eexists|].
  assert (G : grid_val g (dadd (pd_filled_quantity o) q) (kf + k)) by (apply grid_dadd; [done..|lia]).
  destruct (dtruth _) eqn:T; [by eexists|]. exfalso. unfold dtruth in T. apply negb_false_iff, Z.eqb_eq in T.
  apply dval_0_iff in T.
  assert (L : (kf + k <= 0)%Z).
  { apply (grid_le g _ _ _ _ G (grid_zero g)). rewrite T. vm_compute. discriminate. }
  lia.
Qed.

(** The tail of an iteration, once the fill is recorded. *)
Lemma preserves_settle r : preserves (
  o1 ← order_at (D := D) r;
  _ ← (if dle (remaining_quantity o1) dzero then
         _ ← set_order r (set_status "FILLED");
         update (fun e => with_open e (od_del (pd_cid o1) (pe_open_orders e)))
       else set_order r (set_status "PARTIAL_FILL"));
  t ← now clock; _ ← set_order r (set_updated t); persist_order r).
Proof.
  intros w I. unfold mbind, M_bind, se_bind at 1, order_at.
  destruct (pe_heap (w_engine w) !! r) as [o1|] eqn:Ho; [|done].
  assert (T : preserves (se_bind _ _ _ (fun t => se_bind _ _ _ (fun _ => persist_order r) (set_order r (set_updated t))) (now clock))).
  { apply preserves_bind; [by apply preserves_keeps|]. intros t. apply preserves_bind.
    - apply preserves_update. intros e. by apply inv_alter.
    - intros _. apply preserves_keeps, keeps_persist_order. }
  destruct (dle (remaining_quantity o1) dzero).
  - apply (T (mkWorld (with_open (with_heap (w_engine w) (alter (set_status "FILLED") r (pe_heap (w_engine w))))
                         (od_del (pd_cid o1) (pe_open_orders (w_engine w)))) (w_db w) (w_tick w))).
    by apply inv_close.
  - apply (T (mkWorld (with_heap (w_engine w) (alter (set_status "PARTIAL_FILL") r (pe_heap (w_engine w))))
                (w_db w) (w_tick w))).
    apply inv_alter; [done| |done]. intros o _. by right.
Qed.

Lemma preserves_fill_one symbol b r : book_on_grid g b -> preserves (fill_one uuid clock symbol b r).
Proof.
  intros Hb w I. unfold fill_one, mbind, M_bind at 1, se_bind at 1, order_at at 1.
  destruct (pe_heap (w_engine w) !! r) as [o|] eqn:Ho; [|done].
  destruct (_ || _); [done|]. unfold M_bind at 1, se_bind at 1, lift.
  destruct (match_order o b) as [[[p|] q]|x] eqn:Em; [|done|done].
  destruct (dle q dzero) eqn:Ep; [done|].
  apply match_order_some in Em as (limit & l & size & _ & _ & Hl & _ & Es & ->).
  destruct (pi_heap _ _ _ _ I r o Ho) as (kf & kq & Gf & Gq & B1 & B2).
  destruct (Hb l size) as (ks & Gs); [destruct (oi_side (pd_intent o)); set_solver|done|].
  destruct (grid_matched g o size kf kq ks Gf Gq B1 B2 Gs Ep) as (k & Gk & Bk).
  destruct (new_average_ok o kf k _ p Gf Gk) as (avg & Ea); [lia..|].
  pose proof (apply_fill_run uuid clock r o avg p _ w Ho Ea) as [Ec Ef].
  set (q := dmin (remaining_quantity o) size) in *. set (f := fill_for uuid clock w o p q) in *.
  assert (I1 : inv (apply_fill uuid clock r p q w).1).
  { apply (inv_core g init fee_bps _ _ (eq_sym Ec)).
    by apply (inv_after_fill g init fee_bps r o avg p q f (w_engine w) k kf kq). }
  unfold M_bind at 1, se_bind at 1.
  destruct (apply_fill uuid clock r p q w) as [w1 [f1|x]]; [|done]. cbn [fst] in I1.
  pose proof (preserves_settle r w1 I1) as P. revert P.
  unfold mbind, M_bind, se_bind, mret, M_ret, se_ret. repeat case_match; simpl; try done; intros; simplify_eq; done.
Qed.
End Preservation.

Section Operations.
Context {D : Type} `{Session D} (uuid : nat -> string) (clock : nat -> datetime).
Context (g : Z) (init : PaperAccountState) (fee_bps : dec).
#[local] Abbreviation pres := (preserves (D := D) g init fee_bps).

Lemma preserves_fill_loop symbol b rs : book_on_grid g b -> pres (fill_loop uuid clock symbol b rs).
Proof.
  intros Hb. induction rs as [|r rs IH]; [exact (fun w I => I)|]. apply preserves_bind; [by apply preserves_fill_one|].
  intros fs. apply preserves_bind; [done|]. exact (fun fs' w I => I).
Qed.

Lemma preserves_simulate symbol b : book_on_grid g b -> pres (simulate_fills uuid clock symbol b).
Proof.
  intros Hb. apply preserves_bind.
  - destruct (book_mark b) as [m|]; [|exact (fun w I => I)]. apply preserves_bind; [exact (fun w I => I)|]. intros a.
    apply preserves_update. intros e. apply inv_mark.
  - intros _. apply preserves_bind; [exact (fun w I => I)|]. intros e. by apply preserves_fill_loop.
Qed.

Definition opt_book_on_grid (b : option OrderBookSnapshot) : Prop :=
  match b with Some b => book_on_grid g b | None => True end.

Lemma preserves_place i book : intent_on_grid g i -> opt_book_on_grid book -> pres (place_order uuid clock i book).
Proof.
  intros Hi Hb. apply preserves_bind; [by apply preserves_keeps|]. intros id.
  apply preserves_bind; [by apply preserves_keeps|]. intros t1.
  apply preserves_bind; [by apply preserves_keeps|]. intros t2 w I.
  assert (T : pres (se_bind _ _ _ (fun _ : unit => se_bind _ _ _ (fun _ : unit => mret (length (pe_heap (w_engine w))))
      (match book with None => mret tt | Some b => se_bind _ _ _ (fun _ => mret tt) (simulate_fills uuid clock (oi_symbol i) b) end))
      (persist_order (D := D) (length (pe_heap (w_engine w)))))).
  { apply preserves_bind; [apply preserves_keeps, keeps_persist_order|]. intros _. apply preserves_bind; [|exact (fun _ w I => I)].
    destruct book as [b|]; [|exact (fun w I => I)].
    apply preserves_bind; [by apply preserves_simulate|exact (fun _ w I => I)]. }
  exact (T (mkWorld _ _ _) (inv_place g init fee_bps i _ t1 t2 _ Hi I)).
Qed.

Lemma preserves_cancel c : pres (cancel_order clock c).
Proof.
  intros w I. unfold cancel_order, mbind, M_bind, se_bind at 1, engine.
  destruct (od_get c (pe_open_orders (w_engine w))) as [r|] eqn:E; [|done].
  destruct (pi_open _ _ _ _ I c r (od_get_Some_in _ _ _ E)) as (o & Ho & <- & _).
  unfold se_bind at 1, now.
  assert (T : pres (se_bind _ _ _ (fun _ : unit => mret (Some r)) (persist_order (D := D) r))).
  { apply preserves_bind; [apply preserves_keeps, keeps_persist_order|exact (fun _ w I => I)]. }
  apply (T (mkWorld (with_open (with_heap (w_engine w) (alter (fun o => set_updated (clock (w_tick w)) (set_status "CANCELLED" o)) r (pe_heap (w_engine w))))
                         (od_del (pd_cid o) (pe_open_orders (w_engine w)))) (w_db w) (S (w_tick w)))).
  by apply inv_close.
Qed.

(** The engine's public operations. *)
Inductive paper_op : Type :=
  | OpPlace (i : OrderIntent) (book : option OrderBookSnapshot)
  | OpCancel (c : string)
  | OpReplace (c : string) (i : OrderIntent) (book : option OrderBookSnapshot)
  | OpSimulate (symbol : string) (b : OrderBookSnapshot).

Definition paper_apply (op : paper_op) (w : World (D := D)) : World (D := D) :=
  match op with
  | OpPlace i book => (place_order uuid clock i book w).1
  | OpCancel c => (cancel_order clock c w).1
  | OpReplace c i book => (replace_order uuid clock c i book w).1
  | OpSimulate s b => (simulate_fills uuid clock s b w).1
  end.

Definition op_on_grid (op : paper_op) : Prop :=
  match op with
  | OpPlace i book | OpReplace _ i book => intent_on_grid g i /\ opt_book_on_grid book
  | OpCancel _ => True
  | OpSimulate _ b => book_on_grid g b
  end.

Inductive paper_run : World (D := D) -> list paper_op -> World (D := D) -> Prop :=
  | paper_run_nil w : paper_run w [] w
  | paper_run_cons w op ops w' : paper_run (paper_apply op w) ops w' -> paper_run w (op :: ops) w'.

Lemma paper_apply_inv op w : op_on_grid op -> paper_inv g init fee_bps (w_engine w) ->
  paper_inv g init fee_bps (w_engine (paper_apply op w)).
Proof.
  destruct op as [i b|c|c i b|s b]; cbn [paper_apply op_on_grid]; intros G I.
  - destruct G. by apply preserves_place.
  - by apply preserves_cancel.
  - destruct G. apply preserves_bind; [apply preserves_cancel| |done]. intros _. by apply preserves_place.
  - by apply preserves_simulate.
Qed.

Lemma paper_run_inv w ops w' : paper_run w ops w' -> Forall op_on_grid ops ->
  paper_inv g init fee_bps (w_engine w) -> paper_inv g init fee_bps (w_engine w').
Proof.
  induction 1 as [|w op ops w' R IH]; intros F I; [done|].
  apply Forall_cons in F as [F1 F2]. apply IH; [done|]. by apply paper_apply_inv.
Qed.
End Operations.

Lemma new_engine_inv g cash base quote fee : paper_inv g (new_account cash base quote) fee (new_paper_engine cash base quote fee).
Proof. split; try done; [|constructor]. intros c r Hc. by apply elem_of_nil in Hc. Qed.

(** ** Properties *)

(** C16: along every sequence of operations, some of which may fail on the
    database, no order is ever filled beyond its quantity or below zero, and
    every open order is a live object with its own client id and an open
    status. Order quantities and book sizes are multiples of [10^-g] (with
    order quantities below [10^28] units), so that Decimal is exact on them. *)
Theorem paper_no_overfill (D : Type) (S : Session D) uuid clock g cash base quote fee (d : D) n ops w :
  paper_run uuid clock (mkWorld (new_paper_engine cash base quote fee) d n) ops w ->
  Forall (op_on_grid g) ops ->
  (forall r o, pe_heap (w_engine w) !! r = Some o ->
     (0 <= dval (pd_filled_quantity o) <= dval (oi_quantity (pd_intent o)))%Q) /\
  (forall c r, (c, r) ∈ pe_open_orders (w_engine w) ->
     exists o, pe_heap (w_engine w) !! r = Some o /\ pd_cid o = c /\ open_status (pd_status o)).
Proof.
  intros R F. apply (paper_run_inv uuid clock g (new_account cash base quote) fee) in R; [|done|apply new_engine_inv].
  split; [|apply (pi_open _ _ _ _ R)]. intros r o Ho.
  destruct (pi_heap _ _ _ _ R r o Ho) as (kf & kq & Gf & Gq & B & _).
  pose proof (grid_le g _ _ _ _ (grid_zero g) Gf) as L1. pose proof (grid_le g _ _ _ _ Gf Gq) as L2.
  assert (Z0 : (dval dzero == 0)%Q) by reflexivity. rewrite Z0 in L1. split; [apply L1|apply L2]; lia.
Qed.

(** C15: the account is exactly the replay of the recorded fills, in order:
    balances, realised PnL and fees never move without a recorded fill and no
    recorded fill is lost, also when the database fails half way. *)
Theorem paper_account_is_ledger (D : Type) (S : Session D) uuid clock g cash base quote fee (d : D) n ops w :
  paper_run uuid clock (mkWorld (new_paper_engine cash base quote fee) d n) ops w ->
  Forall (op_on_grid g) ops ->
  pe_account (w_engine w) = foldl (replay_fill fee) (new_account cash base quote) (pe_fills (w_engine w)).
Proof.
  intros R F. apply (paper_run_inv uuid clock g (new_account cash base quote) fee) in R; [|done|apply new_engine_inv].
  apply (pi_ledger _ _ _ _ R).
Qed.

(** C17: a matched order trades at a level of the opposite side whose price is
    within its limit, for at most its remaining quantity and the level's size;
    market, IOC and FOK orders never match. *)
Theorem paper_match_within_limit o b p q : match_order o b = Ok (Some p, q) ->
  exists limit l size, oi_price (pd_intent o) = Some limit /\
    (match oi_side (pd_intent o) with
     | buy => l ∈ asks b /\ (dval p <= dval limit)%Q
     | sell => l ∈ bids b /\ (dval limit <= dval p)%Q
     end) /\
    dec_of_float (lv_price l) = Ok p /\ dec_of_float (lv_size l) = Ok size /\
    (dval q <= dval (remaining_quantity o))%Q /\ (dval q <= dval size)%Q /\
    (oi_order_type (pd_intent o) = ot_limit \/ oi_order_type (pd_intent o) = ot_post_only).
Proof.
  intros E. destruct (match_order_some _ _ _ _ E) as (limit & l & size & E1 & E2 & E3 & E4 & E5 & ->).
  exists limit, l, size. split_and!; try done.
  - unfold price_ok, dle in E2. destruct (oi_side (pd_intent o)); split; try done; by apply Qle_bool_iff.
  - unfold dmin, dlt. destruct (Qle_bool _ _) eqn:L; cbn [negb]; [lra|].
    apply Qlt_le_weak, Qnot_le_lt. intros C. apply Qle_bool_iff in C. congruence.
  - unfold dmin, dlt. destruct (Qle_bool _ _) eqn:L; cbn [negb]; [by apply Qle_bool_iff|lra].
  - unfold match_order in E. rewrite E1 in E. case_bool_decide; done.
Qed.

Definition demo_uuid (n : nat) : string := str_of_Z (Z.of_nat n).
Definition demo_clock (n : nat) : datetime := Z.of_nat n.
Definition demo_book : OrderBookSnapshot :=
  mkBook "coinstore" "BTC/USDT" [mkLevel (of_Z 98) (of_Z 3)] [mkLevel (of_Z 99) (of_Z 1)] 0%Z None.
Definition demo_buy : OrderIntent :=
  mkIntent coinstore "BTC/USDT" buy ot_limit (dZ 2) (Some (dZ 100)) "c1" tif_gtc false [].
Definition demo_paper : World (D := MemDB) :=
  mkWorld (new_paper_engine (dZ 1000) "BTC" "USDT" (dZ 1)) empty_db 0%nat.
Definition demo_ops : list paper_op := [OpPlace demo_buy (Some demo_book); OpCancel "c1"].

Lemma demo_ops_on_grid : Forall (op_on_grid 1) demo_ops.
Proof.
  repeat constructor.
  - exists 20%Z. split; [vm_compute; reflexivity|vm_compute; split; [discriminate|reflexivity]].
  - intros l d Hl E. repeat (apply elem_of_cons in Hl as [->|Hl]; [vm_compute in E; injection E as <-|]).
    + exists 30%Z. vm_compute; reflexivity.
    + exists 10%Z. vm_compute; reflexivity.
    + by apply elem_of_nil in Hl.
Qed.

(** The partial fill of one unit at 99 and the cancellation, as the code runs. *)
Example paper_demo_run :
  let w := paper_apply demo_uuid demo_clock (OpCancel "c1") (paper_apply demo_uuid demo_clock (OpPlace demo_buy (Some demo_book)) demo_paper) in
  map (fun o => (pd_status o, dec_str (pd_filled_quantity o))) (pe_heap (w_engine w)) = [("CANCELLED", "1.0")] /\
  map (fun kv => (kv.1, dec_str kv.2)) (pa_balances (pe_account (w_engine w))) = [("USDT", "900.9901"); ("BTC", "1.0")] /\
  option_map ow_status (order_view (w_db w) "c1") = Some os_cancelled /\
  length (mem_trades (w_db w)) = 1%nat.
Proof. vm_compute. repeat split. Qed.

Definition demo_final : World (D := MemDB) :=
  paper_apply demo_uuid demo_clock (OpCancel "c1") (paper_apply demo_uuid demo_clock (OpPlace demo_buy (Some demo_book)) demo_paper).

Lemma paper_no_overfill_witness :
  match pe_heap (w_engine demo_final) !! 0%nat with
  | Some o => (0 <= dval (pd_filled_quantity o) <= dval (oi_quantity (pd_intent o)))%Q
  | None => False
  end.
Proof.
  destruct (pe_heap (w_engine demo_final) !! 0%nat) as [o|] eqn:E; [|vm_compute in E; discriminate].
  apply (paper_no_overfill MemDB mem_session demo_uuid demo_clock 1 (dZ 1000) "BTC" "USDT" (dZ 1) empty_db 0%nat demo_ops demo_final) with (r := 0%nat).
  - unfold demo_final. repeat constructor.
  - apply demo_ops_on_grid.
  - exact E.
Defined.

Lemma paper_account_is_ledger_witness :
  pe_account (w_engine demo_final) = foldl (replay_fill (dZ 1)) (new_account (dZ 1000) "BTC" "USDT") (pe_fills (w_engine demo_final)).
Proof.
  apply (paper_account_is_ledger MemDB mem_session demo_uuid demo_clock 1 (dZ 1000) "BTC" "USDT" (dZ 1) empty_db 0%nat demo_ops demo_final).
  - unfold demo_final. repeat constructor.
  - apply demo_ops_on_grid.
Defined.

Definition demo_open_order : PaperOrder := mkPaperOrder demo_buy "ACKNOWLEDGED" "paper-0" dzero None 0%Z 0%Z.

Lemma paper_match_within_limit_witness :
  (dval (dmin (remaining_quantity demo_open_order) (mkDec 10 (-1))) <= dval (remaining_quantity demo_open_order))%Q.
Proof.
  destruct (paper_match_within_limit demo_open_order demo_book (mkDec 990 (-1)) (dmin (remaining_quantity demo_open_order) (mkDec 10 (-1))))
    as (limit & l & size & _ & _ & _ & _ & L & _); [vm_compute; reflexivity|exact L].
Defined.

(** ** Persistence *)

Definition row_matches (row : OrderRow) (o : PaperOrder) : Prop :=
  persisted_status (pd_status o) = Some (ow_status row) /\ ow_price row = oi_price (pd_intent o) /\
  ow_quantity row = oi_quantity (pd_intent o) /\ ow_filled_quantity row = pd_filled_quantity o /\
  ow_average_fill_price row = pd_average_price o.

Section Persistence.
Context {D : Type} `{Session D} `{!SessionLaws D} (uuid : nat -> string) (clock : nat -> datetime).

Definition keeps_view {A} (m : M (D := D) A) : Prop :=
  forall w w' a, m w = (w', Ok a) -> forall c, order_view (w_db w') c = order_view (w_db w) c.

Lemma keeps_view_bind {A B} (m : M A) (k : A -> M B) :
  keeps_view m -> (forall a, keeps_view (k a)) -> keeps_view (se_bind _ _ _ k m).
Proof.
  intros Hm Hk w w' b. unfold se_bind. destruct (m w) as [w1 [a|e]] eqn:E; [|done].
  intros E2 c. by rewrite (Hk a w1 w' b E2 c), (Hm w w1 a E c).
Qed.

Lemma keeps_view_db {A} (m : SE D A) : keeps_orders order_view m -> keeps_view (db m).
Proof.
  intros Hm w w' a. unfold db. destruct (m (w_db w)) as [d r] eqn:E. intros [= <- ->] c. by eapply Hm.
Qed.

Lemma keeps_view_same {A} (m : M (D := D) A) : (forall w, w_db (m w).1 = w_db w) -> keeps_view m.
Proof. intros Hm w w' a E c. specialize (Hm w). rewrite E in Hm. simpl in Hm. by rewrite Hm. Qed.

Lemma keeps_view_account : keeps_view ensure_exchange_account.
Proof.
  apply keeps_view_bind; [by apply keeps_view_same|]. intros e. case_match; [by apply keeps_view_same|].
  apply keeps_view_bind; [apply keeps_view_db, find_account_keeps|]. intros row.
  apply keeps_view_bind; [case_match; [by apply keeps_view_same|apply keeps_view_db, add_account_keeps]|].
  intros i. apply keeps_view_bind; by intros; apply keeps_view_same.
Qed.

Lemma keeps_view_pair s : keeps_view (ensure_trading_pair s).
Proof.
  apply keeps_view_bind; [by apply keeps_view_same|]. intros e. case_match; [by apply keeps_view_same|].
  apply keeps_view_bind; [apply keeps_view_db, find_pair_keeps|]. intros row.
  apply keeps_view_bind.
  { repeat case_match; [by apply keeps_view_same|apply keeps_view_db, add_pair_keeps|by apply keeps_view_same]. }
  intros i. apply keeps_view_bind; by intros; apply keeps_view_same.
Qed.

(** A successful [_persist_order] leaves a row that matches the order and
    changes no other row. *)
Lemma persist_order_row r (w w' : World (D := D)) o u :
  pe_heap (w_engine w) !! r = Some o -> persist_order r w = (w', Ok u) ->
  (exists row, order_view (w_db w') (pd_cid o) = Some row /\ row_matches row o) /\
  (forall c, c <> pd_cid o -> order_view (w_db w') c = order_view (w_db w) c).
Proof.
  intros Ho. unfold persist_order, mbind, M_bind, se_bind at 1, order_at at 1. rewrite Ho.
  unfold se_bind at 1. destruct (ensure_exchange_account w) as [w1 [acc|]] eqn:E1; [|done].
  unfold se_bind at 1. destruct (ensure_trading_pair _ w1) as [w2 [pair|]] eqn:E2; [|done].
  unfold se_bind at 1, db at 1. destruct (find_order (pd_cid o) (w_db w2)) as [d3 [row|]] eqn:E3; [|done].
  assert (C : core (w_engine w2) = core (w_engine w)).
  { pose proof (keeps_ensure_pair (D := D) (oi_symbol (pd_intent o)) w1) as K2. rewrite E2 in K2.
    pose proof (keeps_ensure_account (D := D) w) as K1. rewrite E1 in K1. simpl in *. congruence. }
  assert (Ho2 : pe_heap (w_engine w2) !! r = Some o).
  { unfold core in C. assert (Ec : pe_heap (w_engine w2) = pe_heap (w_engine w)) by congruence. by rewrite Ec. }
  assert (V : forall c, order_view d3 c = order_view (w_db w) c).
  { intros c. rewrite (find_order_keeps _ _ _ _ E3), (keeps_view_pair _ _ _ _ E2). apply (keeps_view_account _ _ _ E1). }
  unfold se_bind at 1, order_at. cbn [w_engine]. rewrite Ho2. unfold se_bind at 1, lift.
  destruct (persisted_status (pd_status o)) as [st|] eqn:Es; [|done].
  destruct row as [[id row]|].
  - unfold db. cbn [w_db]. destruct (save_order id _ d3) as [d4 r4] eqn:E4. intros [= <- ->]. cbn [w_db].
    pose proof (find_order_spec _ _ _ _ E3) as Fv. simpl in Fv. symmetry in Fv.
    assert (K : ow_client_order_id row = pd_cid o) by (by eapply order_view_key).
    pose proof (fun X => save_order_spec _ _ _ _ _ _ _ _ E3 X E4) as Sv. specialize (Sv K). split.
    + eexists. rewrite Sv, decide_True by done. by split.
    + intros c N. rewrite Sv, decide_False by done. apply V.
  - unfold se_bind, db. cbn [w_db]. destruct (add_order _ d3) as [d4 r4] eqn:E4.
    destruct r4 as [i|]; [|done]. intros [= <- ?]. cbn [w_db].
    pose proof (add_order_spec _ _ _ _ E4) as Sv. split.
    + eexists. rewrite Sv, decide_True by done. by split.
    + intros c N. rewrite Sv, decide_False by done. apply V.
Qed.
End Persistence.

(** A successful cancellation removes the order from the open orders,
    marks the object cancelled, and leaves a matching row in the database with
    status [cancelled], every other order row unchanged. *)
Theorem paper_cancel_persisted (D : Type) (S : Session D) (L : SessionLaws D) clock c (w w' : World (D := D)) r :
  cancel_order clock c w = (w', Ok (Some r)) ->
  (forall o, pe_heap (w_engine w) !! r = Some o -> pd_cid o = c) -> is_Some (pe_heap (w_engine w) !! r) ->
  od_get c (pe_open_orders (w_engine w')) = None /\
  (exists o row, pe_heap (w_engine w') !! r = Some o /\ pd_status o = "CANCELLED" /\
     order_view (w_db w') c = Some row /\ row_matches row o /\ ow_status row = os_cancelled) /\
  (forall c', c' <> c -> order_view (w_db w') c' = order_view (w_db w) c').
Proof.
  intros E Hc [o Ho]. specialize (Hc o Ho). unfold cancel_order, mbind, M_bind, se_bind at 1, engine in E.
  destruct (od_get c (pe_open_orders (w_engine w))) as [r'|] eqn:G; [|done].
  set (h := fun o => set_updated (clock (w_tick w)) (set_status "CANCELLED" o)).
  set (w1 := mkWorld (with_open (with_heap (w_engine w) (alter h r' (pe_heap (w_engine w))))
                        (od_del c (pe_open_orders (w_engine w)))) (w_db w) (Datatypes.S (w_tick w))).
  change (se_bind _ _ _ (fun _ : unit => mret (Some r')) (persist_order r') w1 = (w', Ok (Some r))) in E.
  unfold se_bind in E. destruct (persist_order r' w1) as [w2 [u|]] eqn:P; [|done].
  injection E as <- <-.
  assert (H1 : pe_heap (w_engine w1) !! r' = Some (h o)).
  { unfold w1. cbn. by rewrite list_lookup_alter_eq, Ho. }
  destruct (persist_order_row r' w1 w2 (h o) u H1 P) as [(row & V & R) Fr].
  pose proof (keeps_persist_order (D := D) r' w1) as K. rewrite P in K. cbn [fst] in K. unfold core in K.
  assert (Kh : pe_heap (w_engine w2) = pe_heap (w_engine w1)) by congruence.
  assert (Ko : pe_open_orders (w_engine w2) = pe_open_orders (w_engine w1)) by congruence.
  change (pd_cid (h o)) with (pd_cid o) in *. rewrite Hc in *. split_and!.
  - rewrite Ko. unfold w1. cbn. rewrite od_get_del. by rewrite decide_True.
  - exists (h o), row. rewrite Kh. split_and!; try done. destruct R as (R & _). by injection R as <-.
  - intros c' N. by rewrite Fr.
Qed.

Definition demo_placed : World (D := MemDB) := paper_apply demo_uuid demo_clock (OpPlace demo_buy None) demo_paper.

Lemma paper_cancel_persisted_witness :
  od_get "c1" (pe_open_orders (w_engine (cancel_order demo_clock "c1" demo_placed).1)) = None.
Proof.
  apply (paper_cancel_persisted MemDB mem_session mem_session_laws demo_clock "c1" demo_placed _ 0%nat).
  - vm_compute. reflexivity.
  - intros o E. vm_compute in E. injection E as <-. reflexivity.
  - vm_compute. eexists. reflexivity.
Defined.
