(* ===== verification/Venue.v ===== *)
(** * Venue: exchange definitions, endpoints, status and error normalisation

    [exchanges/registry.py], [exchanges/types.py], [execution/specs.py],
    [execution/status.py] and [execution/errors.py]. *)

From S2P Require Import Prelude PyFloat PyDecimal PyData PyValue Models.

#[local] Open Scope string_scope.
#[local] Open Scope list_scope.

(** ** [exchanges/types.py] and [exchanges/registry.py] *)

Record ExchangeCapabilities : Type := mkCapabilities {
  cap_rest : bool; cap_websocket : bool; cap_orderbook_stream : bool; cap_trades_stream : bool;
  cap_ticker_stream : bool; cap_kline_stream : bool; cap_private_trading : bool; cap_signed_requests : bool }.

(** [ExchangeName] has the same members as [ExecutionVenue]. *)
Record ExchangeDefinition : Type := mkDefinition {
  xd_name : ExecutionVenue; xd_rest_base_url : string; xd_websocket_url : string;
  xd_rate_limit : RateLimitRule; xd_capabilities : ExchangeCapabilities; xd_health_path : string }.

Definition all_capabilities : ExchangeCapabilities := mkCapabilities true true true true true true true true.

Definition exchange_definitions : list (string * ExchangeDefinition) :=
  [("binance", mkDefinition binance "https://api.binance.com" "wss://stream.binance.com:9443/ws" (mkRate 1200 60) all_capabilities "/api/v3/ping");
   ("coinstore", mkDefinition coinstore "https://api.coinstore.com" "wss://ws.coinstore.com/s/ws" (mkRate 300 60) all_capabilities "/api/v1/public/time");
   ("mexc", mkDefinition mexc "https://api.mexc.com" "wss://wbs.mexc.com/ws" (mkRate 1200 60) all_capabilities "/api/v3/ping");
   ("gate", mkDefinition gate "https://api.gateio.ws/api/v4" "wss://api.gateio.ws/ws/v4/" (mkRate 600 60) all_capabilities "/spot/time");
   ("bitmart", mkDefinition bitmart "https://api-cloud.bitmart.com" "wss://ws-manager-compress.bitmart.com/api?protocol=1.1" (mkRate 600 60) all_capabilities "/system/time");
   ("kucoin", mkDefinition kucoin "https://api.kucoin.com" "wss://ws-api-spot.kucoin.com" (mkRate 1800 60) all_capabilities "/api/v1/timestamp")].

Definition get_exchange_definition (name : string) : result ExchangeDefinition :=
  match od_get (str_lower name) exchange_definitions with
  | Some d => Ok d
  | None => raise KeyError (str_lower name)
  end.

(** ** [execution/specs.py] *)

Inductive SigningStyle : Type := binance_query | mexc_query | gate_v4 | kucoin_v2 | bitmart_v2 | coinstore_hmac.

Record VenueExecutionSpec : Type := mkSpec {
  vx_venue : ExecutionVenue;
  vx_signing_style : SigningStyle;
  vx_place_order_path : string;
  vx_cancel_order_path : string;
  vx_cancel_all_path : string;
  vx_order_status_path : string;
  vx_account_balances_path : string;
  vx_exchange_info_path : string;
  vx_order_replace_path : option string;
  vx_bulk_order_path : option string;
  vx_bulk_cancel_path : option string;
  vx_open_orders_path : option string;
  vx_account_trades_path : option string;
  vx_symbol_separator : string }.

Definition execution_spec (v : ExecutionVenue) : VenueExecutionSpec :=
  match v with
  | binance => mkSpec binance binance_query "/api/v3/order" "/api/v3/order" "/api/v3/openOrders" "/api/v3/order" "/api/v3/account" "/api/v3/exchangeInfo" (Some "/api/v3/order/cancelReplace") None None None None ""
  | mexc => mkSpec mexc mexc_query "/api/v3/order" "/api/v3/order" "/api/v3/openOrders" "/api/v3/order" "/api/v3/account" "/api/v3/exchangeInfo" None None None None None ""
  | gate => mkSpec gate gate_v4 "/spot/orders" "/spot/orders/{order_id}" "/spot/orders" "/spot/orders/{order_id}" "/spot/accounts" "/spot/currency_pairs" None None None None None "_"
  | bitmart => mkSpec bitmart bitmart_v2 "/spot/v2/submit_order" "/spot/v3/cancel_order" "/spot/v1/cancel_orders" "/spot/v1/order_detail" "/spot/v1/wallet" "/spot/v1/symbols/details" (Some "/spot/v1/cancel_order") None None None None ""
  | kucoin => mkSpec kucoin kucoin_v2 "/api/v1/orders" "/api/v1/orders/{order_id}" "/api/v1/orders" "/api/v1/orders/{order_id}" "/api/v1/accounts" "/api/v2/symbols" None None None None None "-"
  | coinstore => mkSpec coinstore coinstore_hmac "/api/trade/order/place" "/api/trade/order/cancel" "/api/trade/order/cancelAll" "/api/trade/order/orderInfo" "/api/spot/accountList" "/api/v1/market/tickers" None None None (Some "/api/trade/order/active") (Some "/api/trade/match/accountMatches") ""
  end.

(** ** [execution/status.py] *)

Definition status_map : list (string * NormalizedOrderStatus) :=
  [("NEW", st_open); ("PARTIALLY_FILLED", st_partially_filled); ("FILLED", st_filled);
   ("CANCELED", st_cancelled); ("CANCELLED", st_cancelled); ("REJECTED", st_rejected); ("EXPIRED", st_expired);
   ("open", st_open); ("closed", st_filled); ("cancelled", st_cancelled); ("canceled", st_cancelled);
   ("done", st_filled); ("active", st_open); ("success", st_open); ("SUBMITTED", st_open); ("PENDING", st_open);
   ("PARTIAL_FILLED", st_partially_filled); ("PARTIAL_CANCELED", st_cancelled); ("PARTIAL_CANCELLED", st_cancelled);
   ("CANCELING", st_open); ("CANCELLING", st_open); ("COMPLETE", st_filled); ("COMPLETED", st_filled)].

Definition normalize_status (v : pyval) : NormalizedOrderStatus :=
  match v with
  | PNone => st_unknown
  | _ => match od_get (py_str v) status_map with
         | Some s => s
         | None => match od_get (str_upper (py_str v)) status_map with
                   | Some s => s
                   | None => st_unknown
                   end
         end
  end.

(** ** [execution/errors.py] *)

Record VenueErrorRule : Type := mkErrorRule { er_code : string; er_normalized : string; er_retryable : bool }.

(** [ERROR_RULES[venue]]: the same table for every venue. *)
Definition error_rules : list (string * VenueErrorRule) :=
  map (fun r => (er_code r, r))
    [mkErrorRule "429" "rate_limited" true; mkErrorRule "418" "ip_banned" false;
     mkErrorRule "500" "venue_internal" true; mkErrorRule "502" "bad_gateway" true;
     mkErrorRule "503" "service_unavailable" true; mkErrorRule "504" "gateway_timeout" true;
     mkErrorRule "INSUFFICIENT_BALANCE" "insufficient_balance" false;
     mkErrorRule "MIN_NOTIONAL" "min_notional" false; mkErrorRule "PRECISION" "precision" false].

(** [_payload_code] *)
Definition payload_code (payload : pyval) : option string :=
  match payload with
  | PDict d =>
      match pget_first ["code"; "err-code"; "errorCode"] (pget "label" d) d with
      | PNone => None
      | v => Some (py_str v)
      end
  | _ => None
  end.

(** [_payload_message] *)
Definition payload_message (payload : pyval) : string :=
  match payload with
  | PDict d => py_str (pget_first ["msg"; "message"; "errorMessage"; "detail"] payload d)
  | _ => py_str payload
  end.

(** [str(status_code or _payload_code(payload) or "UNKNOWN")] *)
Definition error_code (status_code : option Z) (payload : pyval) : string :=
  match status_code with
  | Some z => if (z =? 0)%Z then
                match payload_code payload with
                | Some c => if String.eqb c "" then "UNKNOWN" else c | None => "UNKNOWN" end
              else str_of_Z z
  | None => match payload_code payload with
            | Some c => if String.eqb c "" then "UNKNOWN" else c | None => "UNKNOWN" end
  end.

Definition normalize_exchange_error (venue : ExecutionVenue) (status_code : option Z) (payload : pyval) : ExecutionErrorContext :=
  let code := error_code status_code payload in
  let message := payload_message payload in
  match od_get code error_rules, od_get (str_upper message) error_rules with
  | Some rule, _ | None, Some rule => mkErrorContext venue (er_normalized rule) message (er_retryable rule) payload
  | None, None =>
      mkErrorContext venue code message
        (match status_code with Some z => (500 <=? z)%Z | None => false end) payload
  end.

(** [raise_normalized_error]: the exception raised for a context. *)
Definition normalized_error (c : ExecutionErrorContext) : exn :=
  if String.eqb (ec_code c) "rate_limited" then
    mkExn RateLimitExceededError (venue_value (ec_venue c) +:+ ": " +:+ ec_message c)
  else if negb (ec_retryable c) then
    mkExn NonRetryableExchangeExecutionError (venue_value (ec_venue c) +:+ ":" +:+ ec_code c +:+ ": " +:+ ec_message c)
  else mkExn ExchangeError (venue_value (ec_venue c) +:+ ":" +:+ ec_code c +:+ ": " +:+ ec_message c).

(** ** Lemmas *)

(** Every venue has a definition under its own name, with a positive rate. *)
Lemma venue_definition v : exists d, get_exchange_definition (venue_value v) = Ok d /\ xd_name d = v /\
  (0 < rl_requests (xd_rate_limit d))%Z /\ (0 < rl_window_seconds (xd_rate_limit d))%Z.
Proof. destruct v; vm_compute; eexists; repeat split. Qed.

Lemma execution_spec_venue v : vx_venue (execution_spec v) = v.
Proof. by destruct v. Qed.

(** The exception raised is always an [ExchangeError], and is the plain one
    only for a retryable context. *)
Lemma normalized_error_class c :
  exn_isinstance (ex_class (normalized_error c)) ExchangeError = true /\
  (ex_class (normalized_error c) = NonRetryableExchangeExecutionError <->
   ec_retryable c = false /\ ec_code c <> "rate_limited").
Proof.
  unfold normalized_error. destruct (String.eqb_spec (ec_code c) "rate_limited") as [E|E].
  - split; [done|]. split; [done|]. by intros [_ ?].
  - destruct (ec_retryable c); split; try done; split; try done. by intros [? _].
Qed.

Example error_examples :
  ec_code (normalize_exchange_error coinstore (Some 429%Z) (PDict [])) = "rate_limited"
  /\ ec_code (normalize_exchange_error coinstore (Some 400%Z) (PDict [("msg", PStr "insufficient_balance")])) = "insufficient_balance"
  /\ ec_code (normalize_exchange_error coinstore (Some 400%Z) (PDict [("code", PInt 3103)])) = "400"
  /\ ec_retryable (normalize_exchange_error coinstore (Some 599%Z) (PStr "x")) = true
  /\ normalize_status (PStr "Filled") = st_filled.
Proof. vm_compute. repeat split. Qed.
