(* ===== verification/RateLimit.v ===== *)
(** * RateLimit: the local token bucket ([exchanges/rate_limit.py])

    [acquire] runs under a lock, so calls are serialised; [now] is the
    monotonic clock. *)

From S2P Require Import Prelude Rounding PyFloat PyDecimal PyData PyValue Models.

#[local] Open Scope string_scope.

Record TokenBucket : Type := mkBucket {
  tb_capacity : Z; tb_refill_window_seconds : Z; tb_tokens : float; tb_updated_at : float }.

Definition new_bucket (rule : RateLimitRule) (now : float) : TokenBucket :=
  mkBucket (rl_requests rule) (rl_window_seconds rule) (of_Z (rl_requests rule)) now.

(** The bucket after the refill of one [acquire]. *)
Definition refill (now : float) (b : TokenBucket) : result TokenBucket :=
  rate ← fdiv_chk (of_Z (tb_capacity b)) (of_Z (tb_refill_window_seconds b));
  let elapsed := fsub now (tb_updated_at b) in
  Ok (mkBucket (tb_capacity b) (tb_refill_window_seconds b)
        (fmin (of_Z (tb_capacity b)) (fadd (tb_tokens b) (fmul elapsed rate))) now).

(** [AsyncRateLimiter.acquire] *)
Definition acquire (now : float) (tokens : Z) : SE TokenBucket unit :=
  b ← se_get;
  b1 ← se_lift (refill now b);
  _ ← se_put b1;
  if flt (tb_tokens b1) (of_Z tokens) then
    se_raise RateLimitExceededError "exchange local rate limit exceeded"
  else se_put (mkBucket (tb_capacity b1) (tb_refill_window_seconds b1)
                 (fsub (tb_tokens b1) (of_Z tokens)) (tb_updated_at b1)).

(** ** The bucket stays within its capacity *)

Definition bucket_inv (cap win : Z) (b : TokenBucket) : Prop :=
  tb_capacity b = cap /\ tb_refill_window_seconds b = win /\
  frange (inject_Z cap) (tb_tokens b) /\ is_fin (tb_updated_at b) = true.

Lemma of_Z_exact z : (Z.abs z < 2 ^ 53)%Z -> exists q, of_Z z = Fin q /\ (q == inject_Z z)%Q.
Proof.
  intros H. assert (R : (round64 (inject_Z z) == inject_Z z)%Q) by (apply round64_repr, repr64_Z; lia).
  destruct (of_Q_bnd 53 (inject_Z z)) as [E _]; [lia| |by exists (round64 (inject_Z z))].
  unfold bnd, pow2. change (Qabs (inject_Z z)) with (inject_Z (Z.abs z)). change (inject_Z 2 ^ 53)%Q with (inject_Z (2 ^ 53)).
  rewrite <- Zle_Qle. lia.
Qed.

Lemma fadd_nonneg x y : fle (Fin 0) x = true -> fle (Fin 0) y = true -> fle (Fin 0) (fadd x y) = true.
Proof.
  intros Hx Hy. destruct x as [a|[]|], y as [b|[]|]; try done.
  apply fle_fin in Hx, Hy. apply (of_Q_mono 0 (a + b)). lra.
Qed.

Lemma fmul_nonneg_pos x k : fle (Fin 0) x = true -> (0 < k)%Q -> fle (Fin 0) (fmul x (Fin k)) = true.
Proof.
  intros Hx Hk. destruct x as [a|[]|]; try done.
  - apply fle_fin in Hx. apply (of_Q_mono 0 (a * k)). nra.
  - simpl. rewrite (Qeq_bool_pos_false k Hk). unfold qneg. by rewrite (proj2 (Qle_bool_iff 0 k)) by lra.
Qed.

Lemma fsub_nonneg a b : (b <= a)%Q -> fle (Fin 0) (fsub (Fin a) (Fin b)) = true.
Proof. intros H. apply (of_Q_mono 0 (a + Qred (- b))). rewrite Qred_correct. lra. Qed.

Lemma frange_fmin u x : (0 <= u)%Q -> fle (Fin 0) x = true -> frange u (fmin (Fin u) x).
Proof.
  intros Hu Hx. assert (A : fle (Fin 0) (fmin (Fin u) x) = true)
    by (apply fmin_glb; [by apply fle_fin|by right]).
  assert (B : fle (fmin (Fin u) x) (Fin u) = true) by (by apply fmin_le_l).
  destruct (fmin (Fin u) x) as [q|[]|]; try done. apply fle_fin in A, B. by exists q.
Qed.

Section Bucket.
Context (cap win : Z) (Hcap : (1 <= cap < 2 ^ 53)%Z) (Hwin : (1 <= win < 2 ^ 53)%Z).

(** The refill rate is a positive finite number. *)
Lemma rate_pos : exists k, fdiv_chk (of_Z cap) (of_Z win) = Ok (Fin k) /\ (0 < k)%Q.
Proof.
  destruct (of_Z_exact cap) as (c & -> & Ec); [lia|]. destruct (of_Z_exact win) as (w & -> & Ew); [lia|].
  assert (C1 : (1 <= c)%Q) by (rewrite Ec; change 1%Q with (inject_Z 1); rewrite <- Zle_Qle; lia).
  assert (W1 : (1 <= w)%Q) by (rewrite Ew; change 1%Q with (inject_Z 1); rewrite <- Zle_Qle; lia).
  assert (W2 : (w <= pow2 53)%Q).
  { rewrite Ew. change (pow2 53) with (inject_Z (2 ^ 53)). rewrite <- Zle_Qle. lia. }
  assert (C2 : bnd 53 c).
  { unfold bnd. rewrite Ec. change (Qabs (inject_Z cap)) with (inject_Z (Z.abs cap)). change (pow2 53) with (inject_Z (2 ^ 53)). rewrite <- Zle_Qle. lia. }
  unfold fdiv_chk. cbn [feq]. rewrite Qeq_bool_pos_false by lra.
  destruct (fdiv_bnd 53 c w) as [E _]; [lia|done|done|]. rewrite E. eexists. split; [done|].
  apply Qlt_le_trans with (pow2 (-53)); [apply pow2_pos|].
  assert (P : (pow2 (-53) <= c / w)%Q).
  { apply Qle_shift_div_l; [lra|]. pose proof (pow2_pos (-53)).
    assert (pow2 (-53) * w <= pow2 (-53) * pow2 53)%Q by nra.
    assert (pow2 (-53) * pow2 53 == 1)%Q by reflexivity. lra. }
  apply round64_mono in P. rewrite (round64_repr (pow2 (-53))) in P by (by apply repr64_pow2). exact P.
Qed.

Lemma refill_inv now b b1 : bucket_inv cap win b -> is_fin now = true -> fle (tb_updated_at b) now = true ->
  refill now b = Ok b1 -> bucket_inv cap win b1.
Proof.
  intros (E1 & E2 & (t & Et & Bt) & F) Fn L. unfold refill. rewrite E1, E2.
  destruct rate_pos as (k & -> & Hk). cbn [mbind result_bind]. intros [= <-].
  destruct (of_Z_exact cap) as (c & Ec & Eq); [lia|].
  destruct now as [n| |], (tb_updated_at b) as [u| |]; try done. apply fle_fin in L.
  split_and!; cbn [tb_capacity tb_refill_window_seconds tb_tokens tb_updated_at]; try done.
  assert (R : frange c (fmin (of_Z cap) (fadd (tb_tokens b) (fmul (fsub (Fin n) (Fin u)) (Fin k))))).
  { rewrite Ec, Et. apply frange_fmin.
    - rewrite Eq. change 0%Q with (inject_Z 0). rewrite <- Zle_Qle. lia.
    - apply fadd_nonneg; [apply fle_fin; lra|]. apply fmul_nonneg_pos; [by apply fsub_nonneg|done]. }
  destruct R as (q & -> & R). exists q. split; [done|]. rewrite <- Eq. done.
Qed.

(** Spending tokens that are there keeps the bucket within bounds. *)
Lemma spend_inv n b : (0 <= n < 2 ^ 53)%Z -> bucket_inv cap win b -> flt (tb_tokens b) (of_Z n) = false ->
  frange (inject_Z cap) (fsub (tb_tokens b) (of_Z n)).
Proof.
  intros Hn (_ & _ & (t & Et & Bt) & _) L. destruct (of_Z_exact n) as (m & Em & Eq); [lia|].
  rewrite Et, Em in *. apply flt_false_fle in L; [|done..]. apply fle_fin in L.
  assert (M0 : (0 <= m)%Q) by (rewrite Eq; change 0%Q with (inject_Z 0); rewrite <- Zle_Qle; lia).
  destruct (of_Z_exact cap) as (c & Ec & Ecq); [lia|].
  destruct (of_Q_range (t + Qred (- m)) (inject_Z cap) c) as (q & Q1 & Q2); [rewrite Qred_correct; lra|exact Ec|].
  exists q. split; [exact Q1|]. rewrite <- Ecq. done.
Qed.

Lemma acquire_inv now n b : bucket_inv cap win b -> is_fin now = true -> fle (tb_updated_at b) now = true ->
  (0 <= n < 2 ^ 53)%Z -> bucket_inv cap win (acquire now n b).1.
Proof.
  intros I Fn L Hn. unfold acquire, mbind, se_bind, se_get, se_lift, se_put, se_raise.
  destruct (refill now b) as [b1|] eqn:R; [|done].
  pose proof (refill_inv now b b1 I Fn L R) as I1. destruct (flt (tb_tokens b1) (of_Z n)) eqn:F; [done|].
  destruct I1 as (E1 & E2 & T & U). split_and!; cbn; try done. apply spend_inv; [done|by split_and!|done].
Qed.
End Bucket.

(** A run of calls at the given times. *)
Fixpoint acquire_run (calls : list (float * Z)) (b : TokenBucket) : TokenBucket :=
  match calls with
  | [] => b
  | (t, n) :: calls' => acquire_run calls' (acquire t n b).1
  end.

(** Finite, non-decreasing times starting at [t0]. *)
Fixpoint clock_ok (t0 : float) (calls : list (float * Z)) : bool :=
  match calls with
  | [] => true
  | (t, n) :: calls' => is_fin t && fle t0 t && (0 <=? n)%Z && (n <? 2 ^ 53)%Z && clock_ok t calls'
  end.

Lemma acquire_updated_at now n b b1 : refill now b = Ok b1 -> tb_updated_at (acquire now n b).1 = now.
Proof.
  intros R. unfold acquire, mbind, se_bind, se_get, se_lift, se_put, se_raise. rewrite R.
  assert (tb_updated_at b1 = now).
  { unfold refill in R. apply result_bind_ok in R as (r & _ & [= <-]). done. }
  by destruct (flt _ _).
Qed.

(** ** Property *)

(** For every rule with a positive rate and every sequence of calls at
    non-decreasing times, granted or refused, the number of tokens stays a
    finite number between 0 and the capacity: the limiter never grants a burst
    beyond its capacity and never goes into debt. *)
Theorem bucket_within_capacity rule t0 calls :
  (1 <= rl_requests rule < 2 ^ 53)%Z -> (1 <= rl_window_seconds rule < 2 ^ 53)%Z ->
  is_fin t0 = true -> clock_ok t0 calls = true ->
  exists q, tb_tokens (acquire_run calls (new_bucket rule t0)) = Fin q /\ (0 <= q <= inject_Z (rl_requests rule))%Q.
Proof.
  intros Hc Hw F0 Ck. set (cap := rl_requests rule) in *. set (win := rl_window_seconds rule) in *.
  assert (I : bucket_inv cap win (new_bucket rule t0) /\ tb_updated_at (new_bucket rule t0) = t0).
  { split; [|done]. split_and!; try done. destruct (of_Z_exact cap) as (c & Ec & Eq); [lia|].
    exists c. split; [exact Ec|]. rewrite Eq. split; [|lra].
    change 0%Q with (inject_Z 0). rewrite <- Zle_Qle. lia. }
  revert I Ck F0. generalize (new_bucket rule t0). revert t0.
  induction calls as [|[t n] calls IH]; intros t0 b [I U] Ck F0.
  - destruct I as (_ & _ & R & _). exact R.
  - cbn [clock_ok] in Ck. rewrite !andb_true_iff in Ck. destruct Ck as ((((C1 & C2) & C3) & C4) & C5).
    cbn [acquire_run]. apply (IH t); [|done|done]. split.
    + apply acquire_inv; [done|done|done|done|by rewrite U|lia].
    + destruct (refill t b) as [b1|] eqn:R; [by apply (acquire_updated_at t n b b1)|].
      exfalso. unfold refill in R. destruct I as (E1 & E2 & _). rewrite E1, E2 in R.
      destruct (rate_pos cap win Hc Hw) as (k & Ek & _). by rewrite Ek in R.
Qed.

Lemma bucket_within_capacity_witness :
  exists q, tb_tokens (acquire_run [(of_Z 1, 1%Z); (of_Z 2, 2%Z)] (new_bucket (mkRate 2 60) (of_Z 0))) = Fin q
            /\ (0 <= q <= 2)%Q.
Proof. apply (bucket_within_capacity (mkRate 2 60)); try (vm_compute; reflexivity); simpl; lia. Defined.
