(* ===== verification/Crypto.v ===== *)
(** * Crypto: the digests of Python's [hashlib] and [hmac] the program uses

    SHA-1, SHA-256 and SHA-512 (FIPS 180-4), HMAC (RFC 2104), hexadecimal and
    base64 text. Bytes are integers in [0, 255]; words are integers reduced
    modulo [2^32] or [2^64]. The examples are published test vectors. *)

From Stdlib Require Import Ascii.
From S2P Require Import Prelude PyData.

#[local] Open Scope Z_scope.

Definition bytes : Type := list Z.

(** [s.encode()] for ASCII text. *)
Fixpoint encode (s : string) : bytes :=
  match s with
  | EmptyString => []
  | String c s' => Z.of_nat (nat_of_ascii c) :: encode s'
  end.

(** ** Words *)

Section Words.
Context (w : Z).
Definition wmask (x : Z) : Z := Z.land x (Z.ones w).
Definition wadd (x y : Z) : Z := wmask (x + y).
Definition rotr (n x : Z) : Z := wmask (Z.lor (Z.shiftr x n) (Z.shiftl x (w - n))).
Definition rotl (n x : Z) : Z := rotr (w - n) x.
Definition wnot (x : Z) : Z := Z.lxor x (Z.ones w).
End Words.

(** Big-endian: [n] bytes of a word, and words of [n] bytes from bytes. *)
Fixpoint be_bytes (n : nat) (x : Z) : bytes :=
  match n with O => [] | S n' => Z.land (Z.shiftr x (8 * Z.of_nat n')) 255 :: be_bytes n' x end.
Definition be_word (bs : bytes) : Z := foldl (fun acc b => Z.lor (Z.shiftl acc 8) b) 0 bs.

Fixpoint chunks {A} (fuel : nat) (n : nat) (l : list A) : list (list A) :=
  match fuel, l with
  | S f, _ :: _ => take n l :: chunks f n (drop n l)
  | _, _ => []
  end.

(** Padding to blocks of [bs] bytes with a length field of [len] bytes. *)
Definition md_pad (block len : nat) (m : bytes) : bytes :=
  let l := length m in
  let zeros := (Z.to_nat ((- Z.of_nat (l + 1 + len)) mod Z.of_nat block))%nat in
  m ++ [128] ++ repeat 0 zeros ++ be_bytes len (8 * Z.of_nat l).

Definition blocks (block word : nat) (m : bytes) : list (list Z) :=
  map (fun b => map be_word (chunks block word b)) (chunks (length m) block m).

(** ** SHA-2 *)

Record sha2_params : Type := mkSha2 {
  s2_w : Z; s2_bytes : nat;
  s2_S0 : Z * Z * Z; s2_S1 : Z * Z * Z; s2_s0 : Z * Z * Z; s2_s1 : Z * Z * Z;
  s2_k : list Z; s2_h : list Z }.

Section Sha2.
Context (p : sha2_params).
Definition big_sigma (r : Z * Z * Z) (x : Z) : Z :=
  let '(a, b, c) := r in Z.lxor (rotr (s2_w p) a x) (Z.lxor (rotr (s2_w p) b x) (rotr (s2_w p) c x)).
Definition small_sigma (r : Z * Z * Z) (x : Z) : Z :=
  let '(a, b, c) := r in Z.lxor (rotr (s2_w p) a x) (Z.lxor (rotr (s2_w p) b x) (Z.shiftr x c)).

(** The message schedule, newest word first. *)
Fixpoint schedule (n : nat) (ws : list Z) : list Z :=
  match n with
  | O => ws
  | S n' =>
      let at_ i := nth i ws 0 in
      let x := wadd (s2_w p) (wadd (s2_w p) (small_sigma (s2_s1 p) (at_ 1%nat)) (at_ 6%nat))
                 (wadd (s2_w p) (small_sigma (s2_s0 p) (at_ 14%nat)) (at_ 15%nat)) in
      schedule n' (x :: ws)
  end.

Definition sha2_round (st : list Z) (kw : Z * Z) : list Z :=
  match st with
  | [a; b; c; d; e; f; g; h] =>
      let add := wadd (s2_w p) in
      let ch := Z.lxor (Z.land e f) (Z.land (wnot (s2_w p) e) g) in
      let maj := Z.lxor (Z.land a b) (Z.lxor (Z.land a c) (Z.land b c)) in
      let t1 := add (add (add h (big_sigma (s2_S1 p) e)) (add ch kw.1)) kw.2 in
      let t2 := add (big_sigma (s2_S0 p) a) maj in
      [add t1 t2; a; b; c; add d t1; e; f; g]
  | _ => st
  end.

Definition sha2_block (st ws : list Z) : list Z :=
  let sched := rev (schedule (length (s2_k p) - 16) (rev ws)) in
  zip_with (wadd (s2_w p)) st (foldl sha2_round st (combine (s2_k p) sched)).

Definition sha2 (m : bytes) : bytes :=
  let block := (16 * s2_bytes p)%nat in
  let st := foldl sha2_block (s2_h p) (blocks block (s2_bytes p) (md_pad block (2 * s2_bytes p) m)) in
  concat (map (be_bytes (s2_bytes p)) st).
End Sha2.

(** The constants of FIPS 180-4: the fractional bits of the cube roots of the first primes (the
    round constants) and of the square roots of the first eight (the initial state). *)
Definition is_prime (n : Z) : bool :=
  (2 <=? n) && forallb (fun d => negb (n mod Z.of_nat d =? 0)) (seq 2 (Z.to_nat (Z.sqrt n) - 1)).
Definition primes (k : nat) : list Z := firstn k (List.filter is_prime (map Z.of_nat (seq 2 420))).

(** The largest number whose cube is at most [n], built bit by bit from bit [i] down. *)
Fixpoint cbrt_from (i : nat) (n acc : Z) : Z :=
  match i with
  | O => acc
  | S i' =>
      let acc' := acc + Z.shiftl 1 (Z.of_nat i') in
      cbrt_from i' n (if acc' * acc' * acc' <=? n then acc' else acc)
  end.
Definition cube_frac (w p : Z) : Z := cbrt_from (Z.to_nat w + 4) (Z.shiftl p (3 * w)) 0 mod 2 ^ w.
Definition sqrt_frac (w p : Z) : Z := Z.sqrt (Z.shiftl p (2 * w)) mod 2 ^ w.

Definition sha256_k : list Z := Eval vm_compute in map (cube_frac 32) (primes 64).
Definition sha256_h : list Z := Eval vm_compute in map (sqrt_frac 32) (primes 8).
Definition sha512_k : list Z := Eval vm_compute in map (cube_frac 64) (primes 80).
Definition sha512_h : list Z := Eval vm_compute in map (sqrt_frac 64) (primes 8).

Definition sha256 : bytes -> bytes :=
  sha2 (mkSha2 32 4 (2, 13, 22) (6, 11, 25) (7, 18, 3) (17, 19, 10) sha256_k sha256_h).
Definition sha512 : bytes -> bytes :=
  sha2 (mkSha2 64 8 (28, 34, 39) (14, 18, 41) (1, 8, 7) (19, 61, 6) sha512_k sha512_h).

(** ** SHA-1 *)

Fixpoint sha1_schedule (n : nat) (ws : list Z) : list Z :=
  match n with
  | O => ws
  | S n' =>
      let at_ i := nth i ws 0 in
      sha1_schedule n' (rotl 32 1 (Z.lxor (Z.lxor (at_ 2%nat) (at_ 7%nat)) (Z.lxor (at_ 13%nat) (at_ 15%nat))) :: ws)
  end.

Definition sha1_round (st : list Z) (tw : nat * Z) : list Z :=
  match st with
  | [a; b; c; d; e] =>
      let '(t, w) := tw in
      let '(f, k) :=
        if (t <? 20)%nat then (Z.lxor (Z.land b c) (Z.land (wnot 32 b) d), 0x5a827999)
        else if (t <? 40)%nat then (Z.lxor b (Z.lxor c d), 0x6ed9eba1)
        else if (t <? 60)%nat then (Z.lxor (Z.land b c) (Z.lxor (Z.land b d) (Z.land c d)), 0x8f1bbcdc)
        else (Z.lxor b (Z.lxor c d), 0xca62c1d6) in
      [wadd 32 (wadd 32 (wadd 32 (rotl 32 5 a) f) (wadd 32 e k)) w; a; rotl 32 30 b; c; d]
  | _ => st
  end.

Definition sha1 (m : bytes) : bytes :=
  let step st ws :=
    zip_with (wadd 32) st (foldl sha1_round st (combine (seq 0 80) (rev (sha1_schedule 64 (rev ws))))) in
  concat (map (be_bytes 4)
    (foldl step [0x67452301; 0xefcdab89; 0x98badcfe; 0x10325476; 0xc3d2e1f0] (blocks 64 4 (md_pad 64 8 m)))).

(** ** HMAC *)

Definition hmac (hash : bytes -> bytes) (block : nat) (key msg : bytes) : bytes :=
  let k0 := if (block <? length key)%nat then hash key else key in
  let k := k0 ++ repeat 0 (block - length k0) in
  hash (map (Z.lxor 0x5c) k ++ hash (map (Z.lxor 0x36) k ++ msg)).

Definition hmac_sha1 : bytes -> bytes -> bytes := hmac sha1 64.
Definition hmac_sha256 : bytes -> bytes -> bytes := hmac sha256 64.
Definition hmac_sha512 : bytes -> bytes -> bytes := hmac sha512 128.

(** ** Text forms *)

Definition hex_digit (n : Z) : ascii := ascii_of_nat (Z.to_nat (if n <? 10 then 48 + n else 87 + n)).
Definition hexdigest (bs : bytes) : string :=
  foldr (fun b s => String (hex_digit (Z.shiftr b 4)) (String (hex_digit (Z.land b 15)) s)) EmptyString bs.

Definition b64_char (n : Z) : ascii :=
  ascii_of_nat (Z.to_nat (if n <? 26 then 65 + n else if n <? 52 then 71 + n else if n <? 62 then n - 4
                          else if n =? 62 then 43 else 47)).
Fixpoint b64encode (bs : bytes) : string :=
  match bs with
  | [] => EmptyString
  | [a] => String (b64_char (Z.shiftr a 2)) (String (b64_char (Z.shiftl (Z.land a 3) 4)) (String "=" (String "=" EmptyString)))
  | [a; b] => String (b64_char (Z.shiftr a 2)) (String (b64_char (Z.lor (Z.shiftl (Z.land a 3) 4) (Z.shiftr b 4)))
                (String (b64_char (Z.shiftl (Z.land b 15) 2)) (String "=" EmptyString)))
  | a :: b :: c :: bs' =>
      String (b64_char (Z.shiftr a 2)) (String (b64_char (Z.lor (Z.shiftl (Z.land a 3) 4) (Z.shiftr b 4)))
        (String (b64_char (Z.lor (Z.shiftl (Z.land b 15) 2) (Z.shiftr c 6))) (String (b64_char (Z.land c 63)) (b64encode bs'))))
  end.

Lemma be_bytes_length n x : length (be_bytes n x) = n.
Proof. induction n; simpl; congruence. Qed.

Lemma hexdigest_length bs : String.length (hexdigest bs) = (2 * length bs)%nat.
Proof. induction bs as [|b bs IH]; simpl; lia. Qed.

Lemma foldl_length {A} (f : list Z -> A -> list Z) n l st :
  (forall s a, length s = n -> length (f s a) = n) -> length st = n -> length (foldl f st l) = n.
Proof. intros Hf. revert st. induction l as [|a l IH]; intros st Hs; simpl; auto. Qed.

Lemma concat_be_length n l : length (concat (map (be_bytes n) l)) = (length l * n)%nat.
Proof. induction l as [|x l IH]; simpl; [done|]. rewrite length_app, be_bytes_length, IH. lia. Qed.

Lemma sha2_round_length p st kw : length (sha2_round p st kw) = length st.
Proof. unfold sha2_round. do 9 (destruct st as [|? st]; try done). Qed.

(** A digest has the length of the initial state. *)
Lemma sha2_length p m : length (sha2 p m) = (length (s2_h p) * s2_bytes p)%nat.
Proof.
  unfold sha2. rewrite concat_be_length. f_equal. apply foldl_length; [|done].
  intros s ws Hs. unfold sha2_block. rewrite length_zip_with, (foldl_length _ (length (s2_h p))); [lia| |done].
  intros s' kw Hs'. by rewrite sha2_round_length.
Qed.

Lemma hmac_sha256_length key msg : length (hmac_sha256 key msg) = 32%nat.
Proof. unfold hmac_sha256, hmac, sha256 at 1. by rewrite sha2_length. Qed.

Lemma hmac_sha256_hex_length key msg : String.length (hexdigest (hmac_sha256 key msg)) = 64%nat.
Proof. by rewrite hexdigest_length, hmac_sha256_length. Qed.

Example digest_vectors :
  hexdigest (sha256 (encode "abc")) = "ba7816bf8f01cfea414140de5dae2223b00361a396177a9cb410ff61f20015ad"
  /\ hexdigest (sha512 (encode "abc")) = "ddaf35a193617abacc417349ae20413112e6fa4e89a97ea20a9eeee64b55d39a2192992a274fc1a836ba3c23a3feebbd454d4423643ce80e2a9ac94fa54ca49f"
  /\ hexdigest (sha1 (encode "abc")) = "a9993e364706816aba3e25717850c26c9cd0d89d"
  /\ hexdigest (hmac_sha256 (encode "key") (encode "The quick brown fox jumps over the lazy dog")) = "f7bc83f430538424b13298e6aa6fb143ef4d59a14946175997479dbc2d1a3cd8"
  /\ b64encode (encode "hello") = "aGVsbG8=".
Proof. vm_compute. repeat split. Qed.
