(* ===== verification/Signing.v ===== *)
(** * Signing: request signatures ([execution/signing.py], [exchanges/auth.py])

    [time] is the reading of [time.time()] in seconds. *)

From Stdlib Require Import Ascii.
From S2P Require Import Prelude Rounding PyFloat PyDecimal PyData PyValue Models Crypto Venue.

#[local] Open Scope string_scope.
#[local] Open Scope list_scope.

(** ** [json.dumps(v, separators=(",", ":"))] *)

Definition hex4 (n : nat) : string :=
  hexdigest [Z.shiftr (Z.of_nat n) 8; Z.land (Z.of_nat n) 255].

Fixpoint json_escape (s : string) : string :=
  match s with
  | "" => ""
  | String c s' =>
      let n := nat_of_ascii c in
      let e := json_escape s' in
      if (n =? 34)%nat then "\" +:+ String c e
      else if (n =? 92)%nat then "\\" +:+ e
      else if (n =? 10)%nat then "\n" +:+ e
      else if (n =? 13)%nat then "\r" +:+ e
      else if (n =? 9)%nat then "\t" +:+ e
      else if (n =? 8)%nat then "\b" +:+ e
      else if (n =? 12)%nat then "\f" +:+ e
      else if ((n <? 32) || (126 <? n))%nat then "\u" +:+ hex4 n +:+ e
      else String c e
  end.

Definition json_string (s : string) : string := String dquote (json_escape s +:+ String dquote "").

Definition json_float (x : float) : string :=
  match x with
  | Fin _ => float_str x
  | Inf false => "Infinity" | Inf true => "-Infinity" | NaN => "NaN"
  end.

Fixpoint json_dumps (v : pyval) : result string :=
  match v with
  | PNone => Ok "null"
  | PBool b => Ok (if b then "true" else "false")
  | PInt z => Ok (str_of_Z z)
  | PFloat x => Ok (json_float x)
  | PDec _ => raise TypeError "Object of type Decimal is not JSON serializable"
  | PStr s => Ok (json_string s)
  | PList l =>
      xs ← (fix go l := match l with
                        | [] => Ok []
                        | x :: l' => y ← json_dumps x; ys ← go l'; Ok (y :: ys)
                        end) l;
      Ok ("[" +:+ str_join "," xs +:+ "]")
  | PDict d =>
      xs ← (fix go d := match d with
                        | [] => Ok []
                        | (k, x) :: d' => y ← json_dumps x; ys ← go d'; Ok ((json_string k +:+ ":" +:+ y) :: ys)
                        end) d;
      Ok ("{" +:+ str_join "," xs +:+ "}")
  end.

(** ** [urllib.parse.urlencode] *)

Definition url_safe (n : nat) : bool :=
  ((48 <=? n) && (n <=? 57) || (65 <=? n) && (n <=? 90) || (97 <=? n) && (n <=? 122)
   || (n =? 95) || (n =? 46) || (n =? 45) || (n =? 126))%nat.

Fixpoint quote_plus (s : string) : string :=
  match s with
  | "" => ""
  | String c s' =>
      let n := nat_of_ascii c in
      if url_safe n then String c (quote_plus s')
      else if (n =? 32)%nat then "+" +:+ quote_plus s'
      else "%" +:+ str_upper (hexdigest [Z.of_nat n]) +:+ quote_plus s'
  end.

Definition urlencode (params : list (string * pyval)) : string :=
  str_join "&" (map (fun kv => quote_plus kv.1 +:+ "=" +:+ quote_plus (py_str kv.2)) params).

(** [{k: v for k, v in params.items() if v is not None}] *)
Definition drop_none (params : list (string * pyval)) : list (string * pyval) :=
  List.filter (fun kv => match kv.2 with PNone => false | _ => true end) params.

(** ** Credentials and signed requests *)

Record ExecutionCredentials : Type := mkCredentials {
  cr_api_key : string; cr_api_secret : string; cr_passphrase : option string; cr_memo : option string }.

Record SignedRequest : Type := mkSigned {
  sg_path : string; sg_params : list (string * pyval); sg_body : option (list (string * pyval));
  sg_headers : list (string * string) }.

(** [int(time.time() * 1000)] and [int(time.time())] *)
Definition float_int (x : float) : result Z := py_int (PFloat x).
Definition time_ms (time : float) : result Z := float_int (fmul time (of_Z 1000)).

(** [a or b] on optional strings, ["" ] being false. *)
Definition str_or (a : option string) (b : string) : string :=
  match a with Some s => if String.eqb s "" then b else s | None => b end.

(** [json.dumps(body or {}) if body else ""] *)
Definition body_or_empty (body : option (list (string * pyval))) : result string :=
  match body with
  | Some (kv :: d) => json_dumps (PDict (kv :: d))
  | _ => Ok ""
  end.

(** [json.dumps(body or params or {})] *)
Definition body_or_params (body : option (list (string * pyval))) (params : list (string * pyval)) : result string :=
  match body with
  | Some (kv :: d) => json_dumps (PDict (kv :: d))
  | _ => json_dumps (PDict params)
  end.

Definition sign_binance_like (time : float) (path : string) (params : list (string * pyval))
    (body : option (list (string * pyval))) (c : ExecutionCredentials) : result SignedRequest :=
  ms ← time_ms time;
  let p1 := od_set "timestamp" (PInt ms) (drop_none params) in
  let p2 := if phas "recvWindow" p1 then p1 else od_set "recvWindow" (PInt 5000) p1 in
  let signature := hexdigest (hmac_sha256 (encode (cr_api_secret c)) (encode (urlencode p2))) in
  Ok (mkSigned path (od_set "signature" (PStr signature) p2) body [("X-MBX-APIKEY", cr_api_key c)]).

Definition newline : string := String (ascii_of_nat 10) "".

Definition sign_gate (time : float) (method path : string) (params : list (string * pyval))
    (body : option (list (string * pyval))) (c : ExecutionCredentials) : result SignedRequest :=
  t ← float_int time;
  let timestamp := str_of_Z t in
  payload ← body_or_empty body;
  let hashed := hexdigest (sha512 (encode payload)) in
  let message := str_join newline [str_upper method; path; urlencode (drop_none params); hashed; timestamp] in
  let signature := hexdigest (hmac_sha512 (encode (cr_api_secret c)) (encode message)) in
  Ok (mkSigned path params body [("KEY", cr_api_key c); ("Timestamp", timestamp); ("SIGN", signature)]).

Definition sign_kucoin (time : float) (method path : string) (params : list (string * pyval))
    (body : option (list (string * pyval))) (c : ExecutionCredentials) : result SignedRequest :=
  ms ← time_ms time;
  let timestamp := str_of_Z ms in
  let query := urlencode (drop_none params) in
  let endpoint := if String.eqb query "" then path else path +:+ "?" +:+ query in
  payload ← body_or_empty body;
  let mac m := b64encode (hmac_sha256 (encode (cr_api_secret c)) (encode m)) in
  let headers := [("KC-API-KEY", cr_api_key c); ("KC-API-SIGN", mac (timestamp +:+ str_upper method +:+ endpoint +:+ payload));
                  ("KC-API-TIMESTAMP", timestamp); ("KC-API-KEY-VERSION", "2")] in
  Ok (mkSigned path params body
        (match cr_passphrase c with
         | Some p => if String.eqb p "" then headers else headers ++ [("KC-API-PASSPHRASE", mac p)]
         | None => headers
         end)).

Definition sign_bitmart (time : float) (path : string) (params : list (string * pyval))
    (body : option (list (string * pyval))) (c : ExecutionCredentials) : result SignedRequest :=
  ms ← time_ms time;
  let timestamp := str_of_Z ms in
  let memo := str_or (cr_memo c) (str_or (cr_passphrase c) "") in
  payload ← body_or_params body params;
  let signature := hexdigest (hmac_sha256 (encode (cr_api_secret c)) (encode (timestamp +:+ "#" +:+ memo +:+ "#" +:+ payload))) in
  Ok (mkSigned path params body [("X-BM-KEY", cr_api_key c); ("X-BM-TIMESTAMP", timestamp); ("X-BM-SIGN", signature)]).

(** [str(int(int(expires) / 30000))] *)
Definition coinstore_time_slot (expires : Z) : result Z := float_int (of_Q (expires # 30000)).

Definition coinstore_signature (api_secret : string) (expires : Z) (payload : string) : result string :=
  slot ← coinstore_time_slot expires;
  let key := hmac_sha256 (encode api_secret) (encode (str_of_Z slot)) in
  Ok (hexdigest (hmac_sha256 key (encode payload))).

Definition sign_coinstore (time : float) (path : string) (params : list (string * pyval))
    (body : option (list (string * pyval))) (c : ExecutionCredentials) : result SignedRequest :=
  ms ← time_ms time;
  payload ← body_or_params body params;
  signature ← coinstore_signature (cr_api_secret c) ms payload;
  Ok (mkSigned path params body
        [("X-CS-APIKEY", cr_api_key c); ("X-CS-EXPIRES", str_of_Z ms); ("X-CS-SIGN", signature)]).

Definition sign_request (time : float) (style : SigningStyle) (method path : string) (params : list (string * pyval))
    (body : option (list (string * pyval))) (c : ExecutionCredentials) : result SignedRequest :=
  match style with
  | binance_query | mexc_query => sign_binance_like time path params body c
  | gate_v4 => sign_gate time method path params body c
  | kucoin_v2 => sign_kucoin time method path params body c
  | bitmart_v2 => sign_bitmart time path params body c
  | coinstore_hmac => sign_coinstore time path params body c
  end.

(** [exchanges/auth.py]: [HmacSigner.sign] and [headers], for the default digest. *)
Definition hmac_sign (api_secret payload : string) (base64_output : bool) : string :=
  let d := hmac_sha256 (encode api_secret) (encode payload) in
  if base64_output then b64encode d else hexdigest d.
Definition hmac_headers (api_key api_secret payload : string) (base64_output : bool) : list (string * string) :=
  [("X-API-KEY", api_key); ("X-SIGNATURE", hmac_sign api_secret payload base64_output)].

(** ** Lemmas *)

(** Signing changes neither path nor body, and only the query styles add
    parameters. *)
Lemma sign_request_frame time style method path params body c s :
  sign_request time style method path params body c = Ok s ->
  sg_path s = path /\ sg_body s = body /\
  (match style with binance_query | mexc_query => True | _ => sg_params s = params end).
Proof.
  destruct style; simpl; unfold sign_binance_like, sign_gate, sign_kucoin, sign_bitmart, sign_coinstore; intros H;
    repeat (apply result_bind_ok in H as (? & _ & H)); by injection H as <-.
Qed.

(** A Coinstore signature is always 64 hexadecimal digits. *)
Lemma coinstore_signature_length secret expires payload s :
  coinstore_signature secret expires payload = Ok s -> String.length s = 64%nat.
Proof.
  unfold coinstore_signature. intros (slot & _ & [= <-])%result_bind_ok. apply hmac_sha256_hex_length.
Qed.

(** The signing key changes exactly every 30 seconds: float division does not
    disturb the slot for any time before the year 100000. *)
Lemma coinstore_time_slot_exact ms : (0 <= ms < 2 ^ 52)%Z -> coinstore_time_slot ms = Ok (ms / 30000)%Z.
Proof.
  intros H. unfold coinstore_time_slot, float_int.
  set (k := (ms / 30000)%Z).
  pose proof (Z.div_mod ms 30000 ltac:(lia)) as E. pose proof (Z.mod_pos_bound ms 30000 ltac:(lia)) as B. fold k in E.
  assert (Kb : (0 <= k < 2 ^ 38)%Z) by lia.
  assert (L : (inject_Z k <= ms # 30000)%Q) by (unfold Qle, inject_Z; cbn [Qnum Qden]; lia).
  assert (U : (ms # 30000 <= ((k + 1) * 2 ^ 15 - 1) # (2 ^ 15))%Q) by (unfold Qle; cbn [Qnum Qden]; change (Z.pos (2 ^ 15)) with 32768%Z; change (2 ^ 15)%Z with 32768%Z; nia).
  pose proof (round64_mono _ _ L) as L'. pose proof (round64_mono _ _ U) as U'.
  rewrite (round64_repr (inject_Z k)) in L' by (apply repr64_Z; lia).
  rewrite (round64_repr (((k + 1) * 2 ^ 15 - 1) # (2 ^ 15))) in U'.
  2: { exists ((k + 1) * 2 ^ 15 - 1)%Z, (-15)%Z. split; [|split; lia].
       rewrite Qmake_Qdiv. apply Qmult_comp; reflexivity. }
  destruct (of_Q_bnd 52 (ms # 30000)) as [F _]; [lia| |].
  { unfold bnd, Qle, Qabs. change (pow2 52) with (inject_Z (2 ^ 52)). cbn [Qnum Qden inject_Z]. lia. }
  rewrite F. unfold py_int. f_equal. unfold Qtrunc.
  set (r := round64 (ms # 30000)) in *. clearbody r. clear F L U.
  unfold Qle in L', U'. cbn [Qnum Qden inject_Z] in L', U'.
  change (QDen r) with (Z.pos (Qden r)). set (d := Z.pos (Qden r)) in *. set (n := Qnum r) in *.
  assert (Hd : (0 < d)%Z) by (subst d; lia). clearbody d n.
  rewrite Z.quot_div_nonneg by nia.
  symmetry. apply Z.div_unique with (r := (n - k * d)%Z); [left; nia|nia].
Qed.
