(* ===== verification/Client.v ===== *)
(** * Client: the signed REST client ([execution/client.py])

    The network is a parameter: [http n r] is the outcome of the [n]-th request,
    a response or an exception of the transport. The client's state is its rate
    limiter, the requests sent so far and a counter of clock readings. *)

From S2P Require Import Prelude Rounding PyFloat PyDecimal PyData PyValue Models Precision Crypto Venue RateLimit Signing.

#[local] Open Scope string_scope.
#[local] Open Scope list_scope.



Record HttpRequest : Type := mkHttp {
  hr_method : string; hr_path : string; hr_params : option dict; hr_json : option dict;
  hr_headers : list (string * string) }.

(** [rs_json] is [None] when [response.json()] raises [ValueError]. *)
Record HttpResponse : Type := mkResponse {
  rs_status_code : Z; rs_content : bool; rs_json : option pyval; rs_text : string }.

Record Net : Type := mkNet { nt_bucket : TokenBucket; nt_sent : list HttpRequest; nt_tick : nat }.

(** [PrivateRestExecutionClient]: venue and credentials; spec and definition
    follow from the venue. *)
Record PrivateRestExecutionClient : Type := mkClient {
  cl_venue : ExecutionVenue; cl_credentials : ExecutionCredentials }.
Definition cl_spec (c : PrivateRestExecutionClient) : VenueExecutionSpec := execution_spec (cl_venue c).

(** ** Payloads *)

Definition pstr (o : option string) : pyval := match o with Some s => PStr s | None => PNone end.

Definition venue_symbol (c : PrivateRestExecutionClient) (symbol : option string) : string :=
  match symbol with
  | None => ""
  | Some s => str_upper (str_replace "/" (vx_symbol_separator (cl_spec c)) s)
  end.

Definition format_path (path : string) (order_id : option string) : string :=
  str_replace "{order_id}" (str_or order_id "") path.

Definition body_signed (c : PrivateRestExecutionClient) : bool :=
  match cl_venue c with gate | kucoin | bitmart | coinstore => true | _ => false end.

Definition venue_order_type (i : OrderIntent) : string :=
  match oi_order_type i with
  | ot_post_only => "LIMIT_MAKER"
  | t => str_upper (order_type_value t)
  end.

Definition order_payload (c : PrivateRestExecutionClient) (i : OrderIntent) : dict :=
  let symbol := venue_symbol c (Some (oi_symbol i)) in
  let qty := pstr (decimal_to_exchange (Some (oi_quantity i))) in
  let price := pstr (decimal_to_exchange (oi_price i)) in
  let side := side_value (oi_side i) in
  let ty := order_type_value (oi_order_type i) in
  match cl_venue c with
  | binance | mexc =>
      [("symbol", PStr symbol); ("side", PStr (str_upper side)); ("type", PStr (venue_order_type i));
       ("quantity", qty); ("newClientOrderId", PStr (oi_client_order_id i))]
      ++ (match oi_price i with Some _ => [("price", price)] | None => [] end)
      ++ (if negb (bool_decide (oi_time_in_force i = tif_post_only)) && bool_decide (oi_order_type i = ot_limit)
          then [("timeInForce", PStr (tif_value (oi_time_in_force i)))] else [])
  | gate => [("currency_pair", PStr symbol); ("side", PStr side); ("type", PStr ty); ("amount", qty); ("price", price);
             ("text", PStr (oi_client_order_id i)); ("time_in_force", PStr (str_lower (tif_value (oi_time_in_force i))))]
  | kucoin => [("clientOid", PStr (oi_client_order_id i)); ("symbol", PStr symbol); ("side", PStr side); ("type", PStr ty);
               ("size", qty); ("price", price); ("timeInForce", PStr (tif_value (oi_time_in_force i)))]
  | bitmart => [("client_order_id", PStr (oi_client_order_id i)); ("symbol", PStr symbol); ("side", PStr side);
                ("type", PStr ty); ("size", qty); ("price", price)]
  | coinstore => [("clientOrderId", PStr (oi_client_order_id i)); ("symbol", PStr symbol); ("side", PStr (str_upper side));
                  ("ordType", PStr ty); ("ordQty", qty); ("ordPrice", price)]
  end.

Definition replace_payload (c : PrivateRestExecutionClient) (i : ReplaceIntent) (replacement : OrderIntent) : dict :=
  let payload := order_payload c replacement in
  match cl_venue c with
  | binance => od_set "cancelOrderId" (pstr (ci_exchange_order_id (ri_cancel i)))
                 (od_set "cancelOrigClientOrderId" (pstr (ci_client_order_id (ri_cancel i)))
                    (od_set "cancelReplaceMode" (PStr "STOP_ON_FAILURE") payload))
  | _ => payload
  end.

Definition cancel_payload (c : PrivateRestExecutionClient) (i : CancelIntent) : dict :=
  let symbol := PStr (venue_symbol c (Some (ci_symbol i))) in
  let cid := pstr (ci_client_order_id i) in
  let xid := pstr (ci_exchange_order_id i) in
  match cl_venue c with
  | binance | mexc => [("symbol", symbol); ("orderId", xid); ("origClientOrderId", cid)]
  | gate => [("currency_pair", symbol)]
  | kucoin => [("symbol", symbol); ("clientOid", cid)]
  | bitmart => [("symbol", symbol); ("order_id", xid); ("client_order_id", cid)]
  | coinstore => [("symbol", symbol); ("ordId", xid); ("clientOrderId", cid)]
  end.

(** ** Parsing *)

Definition unwrap (data : pyval) : pyval :=
  match data with
  | PDict d => match pget "data" d with PDict n => PDict n | _ => data end
  | PList _ => data
  | _ => PDict [("value", data)]
  end.



Fixpoint first_list (keys : list string) (d : dict) : option (list pyval) :=
  match keys with
  | [] => None
  | k :: ks => match pget k d with PList l => Some l | _ => first_list ks d end
  end.

(** [_extract_list]; [_unwrap] returns only dicts and lists. *)
Definition extract_list (data : pyval) : list pyval :=
  match unwrap data with
  | PList l => l
  | PDict d => match first_list ["orders"; "data"; "result"] d with Some l => l | None => [PDict d] end
  | v => [v]
  end.

(** [_decimal] *)
Definition parse_decimal (v : pyval) : result (option dec) :=
  match v with
  | PNone => Ok None
  | PStr "" => Ok None
  | _ => Some <$> py_decimal_str v
  end.

(** [_decimal(v) or default] *)
Definition parse_decimal_or (default : dec) (v : pyval) : result dec :=
  d ← parse_decimal v;
  Ok (match d with Some x => if dtruth x then x else default | None => default end).

Definition parse_side (v : pyval) : option ExecutionSide :=
  let n := str_lower (py_str v) in
  if bool_decide (n ∈ ["1"; "buy"; "bid"; "b"]) then Some buy
  else if bool_decide (n ∈ ["-1"; "sell"; "ask"; "s"]) then Some sell
  else None.

Definition parse_order_type (v : pyval) : option ExecutionOrderType :=
  let n := str_lower (py_str v) in
  if bool_decide (n ∈ ["1"; "limit"]) then Some ot_limit
  else if bool_decide (n ∈ ["3"; "market"]) then Some ot_market
  else if bool_decide (n ∈ ["post_only"; "post-only"]) then Some ot_post_only
  else List.find (fun t => String.eqb (order_type_value t) n) [ot_limit; ot_market; ot_post_only; ot_ioc; ot_fok].

Definition numeric_status (z : Z) : NormalizedOrderStatus :=
  match od_get z [(0, st_new); (1, st_open); (2, st_open); (3, st_partially_filled); (4, st_filled); (5, st_cancelled);
                  (6, st_cancelled); (7, st_open); (8, st_rejected); (11, st_rejected); (12, st_rejected)]%Z with
  | Some s => s
  | None => st_unknown
  end.

(** [_parse_status]: only [TypeError] and [ValueError] are caught. *)
Definition parse_status (v : pyval) : result NormalizedOrderStatus :=
  match py_int v with
  | Ok z => Ok (numeric_status z)
  | Err e => if exn_isinstance (ex_class e) TypeError || exn_isinstance (ex_class e) ValueError
             then Ok (normalize_status v) else Err e
  end.

(** [str(v) or None] *)
Definition str_or_none (v : pyval) : option string :=
  let s := py_str v in if String.eqb s "" then None else Some s.

Definition parse_order (c : PrivateRestExecutionClient) (data : pyval) (intent : option OrderIntent) : result ExecutionOrder :=
  raw ← as_dict (unwrap data);
  let from (f : OrderIntent -> pyval) (default : pyval) := match intent with Some i => f i | None => default end in
  let side := parse_side (por (pget "side" raw) (from (fun i => PStr (side_value (oi_side i))) PNone)) in
  let order_type := parse_order_type (pget_first ["type"; "ordType"; "orderType"]
                      (from (fun i => PStr (order_type_value (oi_order_type i))) PNone) raw) in
  status ← parse_status (pget_first ["status"; "state"] (pget "orderStatus" raw) raw);
  price ← parse_decimal (pget_first ["price"; "orderPrice"]
            (from (fun i => match oi_price i with Some p => PDec p | None => PNone end) PNone) raw);
  quantity ← parse_decimal (pget_first ["origQty"; "size"; "amount"; "ordQty"; "orderQty"; "quantity"]
               (from (fun i => PDec (oi_quantity i)) PNone) raw);
  filled ← parse_decimal_or dzero (pget_first ["executedQty"; "filled_size"; "filled_amount"; "cumExecQty"; "matchQty"] (PInt 0) raw);
  average ← parse_decimal (pget_first ["avgPrice"; "deal_avg_price"] (pget "average_price" raw) raw);
  fee ← parse_decimal (pget "fee" raw);
  Ok (mkExecutionOrder (cl_venue c)
        (py_str (pget_first ["symbol"; "currency_pair"; "currencyPair"] (from (fun i => PStr (oi_symbol i)) (PStr "")) raw))
        (str_or_none (pget_first ["clientOrderId"; "client_order_id"; "clientOid"; "clOrdId"; "text"]
                        (from (fun i => PStr (oi_client_order_id i)) (PStr "")) raw))
        (str_or_none (pget_first ["orderId"; "order_id"; "id"; "ordId"] (PStr "") raw))
        status side order_type price quantity filled average fee (PDict raw)).

(** The rows [_parse_balances] and [_parse_symbol_precision] iterate over:
    [a or b or c or payload if isinstance(payload, list) else []] reads as
    [(a or b or c or payload) if isinstance(payload, list) else []]. *)
Definition response_rows (payload : pyval) : result (list pyval) :=
  match payload with
  | PList _ => raise AttributeError "'list' object has no attribute 'get'"
  | _ => Ok []
  end.

Definition parse_balance_row (c : PrivateRestExecutionClient) (row : pyval) : result (list Balance) :=
  r ← as_dict row;
  let asset := pget_first ["asset"; "currency"; "coinName"] (pget "coin" r) r in
  if truthy asset then
    free ← parse_decimal_or dzero (pget_first ["free"; "available"; "available_balance"; "availableBalance"] (PInt 0) r);
    locked ← parse_decimal_or dzero (pget_first ["locked"; "hold"; "frozen"; "reserved"] (PInt 0) r);
    total ← parse_decimal_or (dadd free locked) (pget_first ["total"; "balance"] (pget "totalBalance" r) r);
    Ok [mkBalance (cl_venue c) (py_str asset) total free locked row]
  else Ok [].

Definition parse_balances (c : PrivateRestExecutionClient) (data : pyval) : result (list Balance) :=
  rows ← response_rows (unwrap data);
  found ← result_mapM (parse_balance_row c) rows;
  Ok (concat found).

Definition parse_precision_row (row : pyval) : result (list (string * SymbolPrecision)) :=
  r ← as_dict row;
  let symbol := py_str (pget_first ["symbol"; "id"; "currency_pair"; "symbolName"] (PStr "") r) in
  if String.eqb symbol "" then Ok []
  else
    tick ← parse_decimal_or (mkDec 1 (-8)) (pget_first ["tickSize"; "priceIncrement"; "price_tick"; "price_min_precision"] (PStr "0.00000001") r);
    step ← parse_decimal_or (mkDec 1 (-8)) (pget_first ["stepSize"; "baseIncrement"; "amount_precision"; "quantity_min_precision"] (PStr "0.00000001") r);
    min_qty ← parse_decimal_or dzero (pget_first ["minQty"; "baseMinSize"; "min_base_amount"; "min_amount"] (PStr "0") r);
    min_not ← parse_decimal_or dzero (pget_first ["minNotional"; "quoteMinSize"; "min_quote_amount"; "min_buy_amount"] (PStr "0") r);
    let normalized := str_replace "-" "/" (str_replace "_" "/" symbol) in
    Ok [(normalized, mkPrecision normalized symbol tick step min_qty min_not (Z.abs (dexp tick)) (Z.abs (dexp step)))].

Definition parse_symbol_precision (data : pyval) : result (list (string * SymbolPrecision)) :=
  rows ← response_rows (unwrap data);
  found ← result_mapM parse_precision_row rows;
  Ok (od_of_list fst snd (concat found)).

(** ** Requests *)

Section Requests.
Context (http : nat -> HttpRequest -> result HttpResponse) (time monotonic : nat -> float).

Definition tick : SE Net nat :=
  fun n => (mkNet (nt_bucket n) (nt_sent n) (S (nt_tick n)), Ok (nt_tick n)).

Definition limiter_at (t : float) : SE Net unit :=
  fun n => let '(b, r) := acquire t 1 (nt_bucket n) in (mkNet b (nt_sent n) (nt_tick n), r).
Definition limiter_acquire : SE Net unit := t ← tick; limiter_at (monotonic t).

(** One HTTP exchange; it is recorded even when the transport raises. *)
Definition send (r : HttpRequest) : SE Net HttpResponse :=
  fun n => (mkNet (nt_bucket n) (nt_sent n ++ [r]) (nt_tick n), http (length (nt_sent n)) r).

Definition is_query_method (method : string) : bool :=
  bool_decide (str_upper method ∈ ["GET"; "DELETE"]).

Definition response_payload (r : HttpResponse) : pyval :=
  if rs_content r then match rs_json r with Some v => v | None => PStr (rs_text r) end else PDict [].

(** The body of [_signed_request], one attempt. *)
Definition request_once (c : PrivateRestExecutionClient) (method path : string) (params : dict) (body : option dict)
    (signed : bool) : SE Net pyval :=
  _ ← limiter_acquire;
  let request_params := drop_none params in
  t ← tick;
  s ← (if signed
       then se_lift (sign_request (time t) (vx_signing_style (cl_spec c)) method path request_params body (cl_credentials c))
       else mret (mkSigned path request_params body []));
  let no_body := match sg_body s with Some (_ :: _) => false | _ => true end in
  response ← send (mkHttp method (sg_path s)
                     (if is_query_method method || no_body then Some (sg_params s) else None) (sg_body s) (sg_headers s));
  let payload := response_payload response in
  if (400 <=? rs_status_code response)%Z then
    se_lift (Err (normalized_error (normalize_exchange_error (cl_venue c) (Some (rs_status_code response)) payload)))
  else mret payload.

(** [retry_if_exception_type((ExchangeError, RateLimitExceededError, httpx.TransportError))] *)
Definition retried (e : exn) : bool :=
  exn_isinstance (ex_class e) ExchangeError || exn_isinstance (ex_class e) RateLimitExceededError
  || exn_isinstance (ex_class e) TransportError.

(** tenacity with [stop_after_attempt(n)] and [reraise=True]. *)
Fixpoint with_retry {A} (n : nat) (m : SE Net A) : SE Net A :=
  match n with
  | O => m
  | S O => m
  | S n' => fun s => match m s with
                     | (s', Err e) => if retried e then with_retry n' m s' else (s', Err e)
                     | r => r
                     end
  end.

Definition signed_request (c : PrivateRestExecutionClient) (method path : string) (params : dict) (body : option dict)
    (signed : bool) : SE Net pyval :=
  with_retry 3 (request_once c method path params body signed).

Definition client_place_order (c : PrivateRestExecutionClient) (i : OrderIntent) (p : SymbolPrecision) : SE Net ExecutionOrder :=
  precise ← se_lift (apply_symbol_precision i p);
  let payload := order_payload c precise in
  data ← signed_request c "POST" (vx_place_order_path (cl_spec c)) (if body_signed c then [] else payload)
           (if body_signed c then Some payload else None) true;
  se_lift (parse_order c data (Some precise)).

Definition client_cancel_order (c : PrivateRestExecutionClient) (i : CancelIntent) : SE Net ExecutionOrder :=
  let params := cancel_payload c i in
  data ← signed_request c "DELETE" (format_path (vx_cancel_order_path (cl_spec c)) (ci_exchange_order_id i)) params
           (if body_signed c then Some params else None) true;
  se_lift (parse_order c data None).

Definition client_replace_order (c : PrivateRestExecutionClient) (i : ReplaceIntent) (p : SymbolPrecision) : SE Net ExecutionOrder :=
  match vx_order_replace_path (cl_spec c) with
  | Some path =>
      if String.eqb path "" then
        _ ← client_cancel_order c (ri_cancel i); client_place_order c (ri_replacement i) p
      else
        replacement ← se_lift (apply_symbol_precision (ri_replacement i) p);
        let payload := replace_payload c i replacement in
        data ← signed_request c "POST" path (if body_signed c then [] else payload)
                 (if body_signed c then Some payload else None) true;
        se_lift (parse_order c data (Some replacement))
  | None => _ ← client_cancel_order c (ri_cancel i); client_place_order c (ri_replacement i) p
  end.

(** [str(exc)] *)
Definition exn_str (e : exn) : string :=
  match ex_class e with KeyError => str_repr (ex_msg e) | _ => ex_msg e end.

(** [BulkExecutionResult]: the accepted orders and the rejected intents with
    their reason. *)
Record BulkExecutionResult (I : Type) : Type := mkBulk { bk_accepted : list ExecutionOrder; bk_rejected : list (I * string) }.

(** The loop of the bulk operations: every failure is recorded and skipped. *)
Fixpoint bulk {I} (f : I -> SE Net ExecutionOrder) (xs : list I) : SE Net (BulkExecutionResult I) :=
  match xs with
  | [] => mret (mkBulk I [] [])
  | i :: xs' =>
      fun n => let '(n1, r) := f i n in
               let '(n2, rest) := bulk f xs' n1 in
               (n2, match rest with
                    | Ok b => Ok (match r with
                                  | Ok o => mkBulk I (o :: bk_accepted I b) (bk_rejected I b)
                                  | Err e => mkBulk I (bk_accepted I b) ((i, exn_str e) :: bk_rejected I b)
                                  end)
                    | Err e => Err e
                    end)
  end.

Definition bulk_place_orders (c : PrivateRestExecutionClient) (xs : list OrderIntent) (ps : list (string * SymbolPrecision))
    : SE Net (BulkExecutionResult OrderIntent) :=
  bulk (fun i => match od_get (oi_symbol i) ps with
                 | Some p => client_place_order c i p
                 | None => se_raise KeyError (oi_symbol i)
                 end) xs.

Definition bulk_cancel_orders (c : PrivateRestExecutionClient) (xs : list CancelIntent) : SE Net (BulkExecutionResult CancelIntent) :=
  match vx_bulk_cancel_path (cl_spec c) with
  | Some path =>
      data ← signed_request c "POST" path [] (Some [("orders", PList (map (fun i => PDict (cancel_payload c i)) xs))]) true;
      orders ← se_lift (result_mapM (fun x => parse_order c x None) (extract_list data));
      mret (mkBulk CancelIntent orders [])
  | None => bulk (client_cancel_order c) xs
  end.

(** [{"symbol": ...} if symbol else {}] *)
Definition symbol_params (c : PrivateRestExecutionClient) (symbol : option string) : dict :=
  match symbol with
  | Some s => if String.eqb s "" then [] else [("symbol", PStr (venue_symbol c (Some s)))]
  | None => []
  end.

Definition client_cancel_all_orders (c : PrivateRestExecutionClient) (symbol : option string) : SE Net (list ExecutionOrder) :=
  let params := symbol_params c symbol in
  data ← signed_request c "DELETE" (vx_cancel_all_path (cl_spec c)) params (if body_signed c then Some params else None) true;
  se_lift (result_mapM (fun x => parse_order c x None) (extract_list data)).

Definition client_get_order_status (c : PrivateRestExecutionClient) (i : CancelIntent) : SE Net ExecutionOrder :=
  data ← signed_request c "GET" (format_path (vx_order_status_path (cl_spec c)) (ci_exchange_order_id i)) (cancel_payload c i) None true;
  se_lift (parse_order c data None).

Definition sync_open_orders (c : PrivateRestExecutionClient) (symbol : option string) : SE Net (list ExecutionOrder) :=
  match vx_open_orders_path (cl_spec c) with
  | None => se_raise ExchangeError (venue_value (cl_venue c) +:+ " does not define open-orders endpoint")
  | Some path =>
      data ← signed_request c "GET" path (symbol_params c symbol) None true;
      se_lift (result_mapM (fun x => parse_order c x None) (extract_list data))
  end.

Definition only_dicts (l : list pyval) : list dict :=
  omap (fun v => match v with PDict d => Some d | _ => None end) l.

Definition sync_trade_fills (c : PrivateRestExecutionClient) (symbol : option string) : SE Net (list dict) :=
  match vx_account_trades_path (cl_spec c) with
  | None => se_raise ExchangeError (venue_value (cl_venue c) +:+ " does not define account-trades endpoint")
  | Some path =>
      data ← signed_request c "GET" path (symbol_params c symbol) None true;
      mret (only_dicts (extract_list data))
  end.

Definition sync_balances (c : PrivateRestExecutionClient) : SE Net (list Balance) :=
  data ← signed_request c "GET" (vx_account_balances_path (cl_spec c)) [] None true;
  se_lift (parse_balances c data).

Definition sync_positions (c : PrivateRestExecutionClient) (mark_prices : list (string * dec)) : SE Net (list Position) :=
  balances ← sync_balances c;
  mret (map (fun b => let price := match od_get (bal_asset b) mark_prices with Some p => p | None => dzero end in
                      mkPosition (cl_venue c) (bal_asset b +:+ "/ACCOUNT") (bal_asset b) (bal_total b)
                        (dmul (bal_total b) price) (if dtruth price then Some price else None) (bal_raw b)) balances).

Definition discover_symbol_precision (c : PrivateRestExecutionClient) : SE Net (list (string * SymbolPrecision)) :=
  data ← signed_request c "GET" (vx_exchange_info_path (cl_spec c)) [] None false;
  se_lift (parse_symbol_precision data).

End Requests.

(** ** Retries *)

Section Retries.
Context (http : nat -> HttpRequest -> result HttpResponse) (time monotonic : nat -> float).

Definition sent_by {A} (m : SE Net A) (n : Net) : nat := (length (nt_sent (m n).1) - length (nt_sent n))%nat.

Lemma limiter_sent n : nt_sent (limiter_acquire monotonic n).1 = nt_sent n.
Proof.
  unfold limiter_acquire, mbind, se_bind, tick, limiter_at. cbn.
  by destruct (acquire (monotonic (nt_tick n)) 1 (nt_bucket n)) as [b [[]|]].
Qed.

(** An attempt sends at most one request. *)
Lemma request_once_sent c method path params body signed n :
  (length (nt_sent n) <= length (nt_sent (request_once http time monotonic c method path params body signed n).1)
   <= length (nt_sent n) + 1)%nat.
Proof.
  unfold request_once, mbind, se_bind. pose proof (limiter_sent n) as L.
  destruct (limiter_acquire monotonic n) as [n1 [[]|]]; cbn [fst] in *; [|rewrite L; lia].
  unfold tick. destruct signed; cbn [se_lift mret se_ret].
  - unfold se_lift. destruct (sign_request _ _ _ _ _ _ _) as [s|e]; [|cbn; rewrite L; lia].
    cbn [send]. destruct (http _ _) as [r|e]; [|cbn; rewrite length_app, L; cbn; lia].
    case_match; cbn; rewrite length_app, L; cbn; lia.
  - cbn [send]. destruct (http _ _) as [r|e]; [|cbn; rewrite length_app, L; cbn; lia].
    case_match; cbn; rewrite length_app, L; cbn; lia.
Qed.

Lemma with_retry_sent {A} k (m : SE Net A) :
  (forall n, length (nt_sent n) <= length (nt_sent (m n).1) <= length (nt_sent n) + 1)%nat ->
  forall n, (length (nt_sent n) <= length (nt_sent (with_retry k m n).1) <= length (nt_sent n) + max k 1)%nat.
Proof.
  intros Hm. induction k as [|k IH]; intros n; [specialize (Hm n); cbn; lia|].
  destruct k as [|k]; [specialize (Hm n); cbn; lia|]. specialize (Hm n).
  change (with_retry (S (S k)) m n) with
    (match m n with (s', Err e) => if retried e then with_retry (S k) m s' else (s', Err e) | r => r end).
  destruct (m n) as [n1 [a|e]]; cbn [fst] in *; [lia|].
  destruct (retried e); cbn [fst]; [|lia]. specialize (IH n1). lia.
Qed.

Lemma signed_request_sent c method path params body signed n :
  (sent_by (signed_request http time monotonic c method path params body signed) n <= 3)%nat.
Proof.
  unfold sent_by, signed_request.
  pose proof (with_retry_sent 3 _ (request_once_sent c method path params body signed) n) as H. cbn in H |- *. lia.
Qed.

(** The exceptions that stop the retries. *)
Lemma retried_iff e : retried e = true <->
  ex_class e = ExchangeError \/ ex_class e = RateLimitExceededError \/
  ex_class e = NonRetryableExchangeExecutionError \/ ex_class e = TransportError.
Proof. destruct e as [[] msg]; vm_compute; intuition congruence. Qed.
End Retries.

(** ** Properties *)


(** The balance parser never returns a balance: a dict response gives an
    empty list and a list response raises [AttributeError]; likewise the
    precision parser returns an empty table or raises. *)
Theorem balances_never_parsed c data :
  (parse_balances c data = Ok [] \/ exists msg, parse_balances c data = raise AttributeError msg) /\
  (parse_symbol_precision data = Ok [] \/ exists msg, parse_symbol_precision data = raise AttributeError msg).
Proof.
  unfold parse_balances, parse_symbol_precision, response_rows.
  destruct (unwrap data); split; try (by left); right; by eexists.
Qed.

Definition demo_client : PrivateRestExecutionClient := mkClient coinstore (mkCredentials "key" "secret" None None).
Definition demo_precision : SymbolPrecision := mkPrecision "BTC/USDT" "BTCUSDT" (mkDec 1 (-2)) (mkDec 1 (-4)) (mkDec 1 (-4)) dzero 2 4.
Definition demo_limit : OrderIntent := mkIntent coinstore "BTC/USDT" buy ot_limit (dZ 1) (Some (dZ 50000)) "c1" tif_gtc false [].
Definition reject_http (_ : nat) (_ : HttpRequest) : result HttpResponse :=
  Ok (mkResponse 400 true (Some (PDict [("msg", PStr "INSUFFICIENT_BALANCE")])) "").
Definition demo_net : Net := mkNet (new_bucket (mkRate 300 60) (of_Z 0)) [] 0%nat.

(** An order the venue rejects for good (insufficient balance, a
    [NonRetryableExchangeExecutionError]) is nevertheless submitted three
    times, because the retry predicate matches the base class. *)
Theorem nonretryable_reject_is_retried :
  let '(n, r) := client_place_order reject_http (fun _ => of_Z 1700000000) (fun k => of_Z (Z.of_nat k)) demo_client demo_limit demo_precision demo_net in
  r = raise NonRetryableExchangeExecutionError "coinstore:insufficient_balance: INSUFFICIENT_BALANCE" /\
  map hr_method (nt_sent n) = ["POST"; "POST"; "POST"].
Proof. vm_compute. split; reflexivity. Qed.

