(* ===== verification/CoinstoreRules.v ===== *)
(** * CoinstoreRules: validation, safety and parsing for the Coinstore venue

    [execution/coinstore_validation.py], [execution/coinstore_safety.py], the
    payload functions of [execution/coinstore.py] and the snapshots of
    [execution/coinstore_reconciliation.py]. Database rows come in as the lists
    the queries return. *)

From S2P Require Import Prelude Rounding PyFloat PyDecimal PyData PyValue Models Precision Crypto Venue RateLimit Signing Client Reconcile Store.

#[local] Open Scope string_scope.
#[local] Open Scope list_scope.

(** ** Validation layer *)

Definition required_paths (s : VenueExecutionSpec) : list (string * option string) :=
  [("place_order_path", Some (vx_place_order_path s)); ("cancel_order_path", Some (vx_cancel_order_path s));
   ("cancel_all_path", Some (vx_cancel_all_path s)); ("order_status_path", Some (vx_order_status_path s));
   ("account_balances_path", Some (vx_account_balances_path s)); ("exchange_info_path", Some (vx_exchange_info_path s));
   ("open_orders_path", vx_open_orders_path s); ("account_trades_path", vx_account_trades_path s)].

Fixpoint check_paths (ps : list (string * option string)) : result unit :=
  match ps with
  | [] => Ok tt
  | (field, v) :: ps' =>
      if match v with Some p => str_startswith "/api/" p | None => false end then check_paths ps'
      else raise CoinstoreValidationError ("Coinstore endpoint " +:+ field +:+ " is not configured")
  end.

Definition verify_endpoints : result unit := check_paths (required_paths (execution_spec coinstore)).

Definition signing_headers : list string := ["X-CS-APIKEY"; "X-CS-EXPIRES"; "X-CS-SIGN"].

Definition verify_signing (time : float) (c : ExecutionCredentials) : result unit :=
  signed ← sign_request time coinstore_hmac "POST" (vx_place_order_path (execution_spec coinstore)) []
             (Some [("symbol", PStr "BTCUSDT")]) c;
  let hs := sg_headers signed in
  let missing := List.filter (fun h => match od_get h hs with Some _ => false | None => true end) signing_headers in
  match missing with
  | _ :: _ => raise CoinstoreValidationError
                ("Coinstore signing headers missing: " +:+ py_str (PList (map PStr (sorted str_le missing))))
  | [] =>
      if negb (bool_decide (od_get "X-CS-APIKEY" hs = Some (cr_api_key c)))
         || negb (match od_get "X-CS-SIGN" hs with Some s => (String.length s =? 64)%nat | None => false end)
      then raise CoinstoreValidationError "Coinstore signing output is invalid"
      else Ok tt
  end.

Definition verify_order_response (payload : dict) : result unit :=
  let candidate := match pget "data" payload with PDict d => d | _ => payload end in
  if phas_any ["orderId"; "order_id"; "id"; "ordId"] candidate then Ok tt
  else raise CoinstoreValidationError "Coinstore order response is missing order identifier".

(** [_rows] *)
Definition validation_rows (payload : pyval) : list dict :=
  match payload with
  | PList l => only_dicts l
  | PDict d => match first_list ["data"; "balances"; "accounts"; "items"; "list"; "result"] d with
               | Some l => only_dicts l
               | None => [d]
               end
  | _ => []
  end.

Fixpoint check_rows (checks : list (list string * string)) (rows : list dict) : result unit :=
  match rows with
  | [] => Ok tt
  | r :: rows' =>
      _ ← (fix go cs := match cs with
                        | [] => Ok tt
                        | (keys, msg) :: cs' => if phas_any keys r then go cs' else raise CoinstoreValidationError msg
                        end) checks;
      check_rows checks rows'
  end.

Definition verify_balance_response (payload : pyval) : result unit :=
  match validation_rows payload with
  | [] => raise CoinstoreValidationError "Coinstore balance response is empty"
  | rows => check_rows
      [(["asset"; "currency"; "coin"; "coinName"], "Coinstore balance row is missing asset");
       (["available"; "available_balance"; "availableBalance"; "free"; "normal"], "Coinstore balance row is missing available balance")] rows
  end.

Definition verify_trade_response (payload : pyval) : result unit :=
  check_rows
    [(["tradeId"; "trade_id"; "matchId"; "match_id"], "Coinstore trade row is missing trade identifier");
     (["execQty"; "matchQty"; "quantity"; "filledQty"], "Coinstore trade row is missing execution quantity")]
    (validation_rows payload).

Definition verify_runtime_ready (time : float) (c : ExecutionCredentials) (p : SymbolPrecision) (i : OrderIntent) : result unit :=
  _ ← verify_endpoints;
  _ ← verify_signing time c;
  validate_symbol_precision i p.

(** ** Order rows and safety *)

(** A row of [orders] as the live service uses it. *)
Record LiveOrder : Type := mkLive {
  lo_id : Z; lo_client_order_id : string; lo_exchange_order_id : option string; lo_exchange_account_id : Z;
  lo_trading_pair_id : Z; lo_side : ExecutionSide; lo_order_type : ExecutionOrderType; lo_status : OrderStatus;
  lo_price : option dec; lo_quantity : dec; lo_filled_quantity : dec; lo_average_fill_price : option dec;
  lo_fee_amount : dec; lo_metadata : dict; lo_created_at : datetime; lo_updated_at : option datetime }.

Definition active_statuses : list OrderStatus := [os_open; os_submitted; os_partially_filled].

(** [assert_fill_safe] *)
Definition assert_fill_safe (account_id : string) (payload : dict) : result unit :=
  let counterparty := por (pget "counterpartyAccountId" payload) (pget "counterparty_account_id" payload) in
  if match counterparty with PNone => false | v => String.eqb (py_str v) account_id end then
    raise CoinstoreSafetyError "wash_trade_detected"
  else if bool_decide (str_lower (py_str (pget_first ["selfTrade"; "self_trade"] (PStr "") payload)) ∈ ["true"; "1"; "yes"]) then
    raise CoinstoreSafetyError "self_trade_fill_detected"
  else Ok tt.

Record CoinstoreSafetyReport : Type := mkSafetyReport { sr_stale : list string; sr_orphan : list string }.

(** [detect_stale_and_orphan_orders]; [rows] is the result of its query. *)
Definition detect_stale_and_orphan (now : datetime) (stale_after : Z) (rows : list LiveOrder) (exchange_orders : list string)
    : CoinstoreSafetyReport :=
  let cutoff := (now - stale_after)%Z in
  let ids := List.filter (fun s => negb (String.eqb s "")) exchange_orders in
  let touched o := match lo_updated_at o with Some t => t | None => lo_created_at o end in
  mkSafetyReport
    (map lo_client_order_id (List.filter (fun o => touched o <? cutoff)%Z rows))
    (map lo_client_order_id (List.filter (fun o => match lo_exchange_order_id o with
                                                   | Some x => negb (String.eqb x "") && negb (bool_decide (x ∈ ids))
                                                   | None => false
                                                   end) rows)).

(** The query conditions of [_assert_duplicate_order] and [_assert_no_self_trade]. *)
Definition is_duplicate (account_id : Z) (i : OrderIntent) (o : LiveOrder) : bool :=
  (lo_exchange_account_id o =? account_id)%Z && String.eqb (lo_client_order_id o) (oi_client_order_id i)
  && bool_decide (lo_status o ∈ active_statuses ++ [os_created]).
Definition is_opposite (account_id : Z) (i : OrderIntent) (o : LiveOrder) : bool :=
  (lo_exchange_account_id o =? account_id)%Z && bool_decide (lo_status o ∈ active_statuses)
  && bool_decide (lo_side o = opposite_side (oi_side i)).

(** The loop over the opposite orders. *)
Definition price_crosses (side : ExecutionSide) (price existing : dec) : bool :=
  match side with buy => dle existing price | sell => dle price existing end.

Fixpoint check_self_trade (i : OrderIntent) (price : dec) (rows : list LiveOrder) : result unit :=
  match rows with
  | [] => Ok tt
  | o :: rows' =>
      match lo_price o with
      | None => check_self_trade i price rows'
      | Some existing =>
          if price_crosses (oi_side i) price existing then
            raise CoinstoreSafetyError ("self_trade_prevention:" +:+ oi_client_order_id i +:+ ":" +:+ lo_client_order_id o)
          else check_self_trade i price rows'
      end
  end.

(** [assert_order_safe] over the rows of the [orders] table. *)
Definition assert_order_safe (account_id : Z) (i : OrderIntent) (table : list LiveOrder) : result unit :=
  match List.filter (is_duplicate account_id i) table with
  | [] =>
      match oi_price i with
      | None => Ok tt
      | Some price => check_self_trade i price (List.filter (is_opposite account_id i) table)
      end
  | [_] => raise CoinstoreSafetyError ("duplicate_client_order_id:" +:+ oi_client_order_id i)
  | _ => raise MultipleResultsFound "Multiple rows were found when one or none was required"
  end.

(** ** Payload parsing of the private stream *)

(** [_decimal] of the service: missing values are zero. *)
Definition service_decimal (v : pyval) : result dec :=
  match v with
  | PNone => Ok dzero
  | PStr "" => Ok dzero
  | _ => py_decimal_str v
  end.

(** [_int] *)
Definition opt_int (v : pyval) : result (option Z) :=
  match py_int v with
  | Ok z => Ok (Some z)
  | Err e => if exn_isinstance (ex_class e) TypeError || exn_isinstance (ex_class e) ValueError then Ok None else Err e
  end.

Definition coinstore_order_status (v : pyval) : result NormalizedOrderStatus :=
  n ← opt_int v;
  Ok (match n with Some z => numeric_status z | None => normalize_status v end).

(** [_order_status] *)
Definition db_order_status (s : NormalizedOrderStatus) : OrderStatus :=
  match s with
  | st_new => os_created | st_open => os_open | st_partially_filled => os_partially_filled | st_filled => os_filled
  | st_cancelled => os_cancelled | st_rejected => os_rejected | st_expired => os_expired | st_unknown => os_submitted
  end.

(** [_order_type] of [coinstore.py] *)
Definition coinstore_order_type (v : pyval) : option ExecutionOrderType :=
  let n := str_lower (py_str v) in
  if bool_decide (n ∈ ["1"; "limit"]) then Some ot_limit
  else if bool_decide (n ∈ ["3"; "market"]) then Some ot_market
  else if bool_decide (n ∈ ["post_only"; "post-only"]) then Some ot_post_only
  else None.

Definition message_type_is (z : Z) (payload : dict) : result bool :=
  n ← opt_int (pget "messageType" payload);
  Ok (bool_decide (n = Some z)).

Definition is_balance_payload (p : dict) : result bool :=
  b ← message_type_is 3002 p;
  Ok (b || phas_any ["totalBalance"; "available"; "availableBalance"; "frozenInitMargin"] p).
Definition is_order_payload (p : dict) : result bool :=
  b ← message_type_is 3004 p;
  Ok (b || phas_any ["orderId"; "clientOrderId"; "clOrdId"; "orderStatus"] p).
Definition is_fill_payload (p : dict) : bool :=
  phas_any ["tradeId"; "trade_id"; "matchId"; "match_id"] p && phas_any ["execQty"; "matchQty"; "filledQty"] p.

Definition balance_from_payload (p : dict) : result Balance :=
  let asset := str_upper (py_str (pget_first ["asset"; "currency"; "coin"; "currencyId"] (PStr "") p)) in
  if String.eqb asset "" then raise RuntimeError "Coinstore balance update is missing asset/currency"
  else
    available ← service_decimal (pget_first ["available"; "availableBalance"] (PInt 0) p);
    total ← service_decimal (pget_first ["totalBalance"; "total"; "balance"] (PDec available) p);
    reserved ← service_decimal (pget_first ["reserved"; "locked"; "frozenInitMargin"] (PDec (dmax dzero (dsub total available))) p);
    Ok (mkBalance coinstore asset total available reserved (PDict p)).

Definition normalize_symbol (s : string) : string := str_replace "_" "/" (str_replace "-" "/" (str_upper s)).

Definition symbol_from_payload (p : dict) : result string :=
  match pget_first ["symbol"; "currencyPair"; "instrumentId"] (pget "contractId" p) p with
  | PNone => raise RuntimeError "Coinstore private update is missing symbol/instrument"
  | raw => Ok (normalize_symbol (py_str raw))
  end.

Definition execution_order_from_payload (p : dict) : result ExecutionOrder :=
  symbol ← symbol_from_payload p;
  let side := parse_side (pget "side" p) in
  let order_type := coinstore_order_type (pget_first ["orderType"; "ordType"] (pget "type" p) p) in
  quantity ← service_decimal (pget_first ["quantity"; "orderQty"; "ordQty"; "execQty"; "matchQty"] (PInt 0) p);
  filled ← service_decimal (pget_first ["matchQty"; "execQty"; "filledQty"] (PInt 0) p);
  price ← service_decimal (pget_first ["price"; "orderPrice"; "avgPrice"] (PInt 0) p);
  status ← coinstore_order_status (pget_first ["orderStatus"; "status"] (pget "state" p) p);
  average ← service_decimal (por (pget "avgPrice" p) (pget "averagePrice" p));
  fee ← service_decimal (pget_first ["fee"] (PInt 0) p);
  Ok (mkExecutionOrder coinstore symbol
        (str_or_none (pget_first ["clientOrderId"; "clOrdId"; "client_order_id"] (PStr "") p))
        (str_or_none (pget_first ["orderId"; "order_id"; "ordId"] (PStr "") p))
        status side order_type (if dlt dzero price then Some price else None) (Some quantity) filled
        (if dtruth average then Some average else None) (Some fee) (PDict p)).

(** [_private_payloads]: a work list; [None] when the fuel runs out. *)
Definition nested_rows (d : dict) : pyval :=
  pget_first ["data"; "items"; "orders"; "matches"] (pget "balances" d) d.

Fixpoint flatten (fuel : nat) (candidates : list pyval) (payloads : list dict) : option (list dict) :=
  match candidates with
  | [] => Some payloads
  | item :: rest =>
      match fuel with
      | O => None
      | S f =>
          match item with
          | PList l => flatten f (rest ++ l) payloads
          | PDict d => match nested_rows d with
                       | PList l => flatten f (rest ++ l) payloads
                       | _ => flatten f rest (payloads ++ [d])
                       end
          | _ => flatten f rest payloads
          end
      end
  end.

Definition initial_candidates (message : dict) : list pyval :=
  PDict message :: List.filter (fun v => match v with PNone => false | _ => true end)
    (map (fun k => pget k message) ["body"; "data"; "result"; "payload"]).

(** Number of nodes of a value. *)
Fixpoint psize (v : pyval) : nat :=
  match v with
  | PList l => S ((fix go l := match l with [] => 0 | x :: l' => psize x + go l' end) l)
  | PDict d => S ((fix go d := match d with [] => 0 | (_, x) :: d' => psize x + go d' end) d)
  | _ => 1
  end%nat.
Definition psizes (l : list pyval) : nat := list_sum (map psize l).

Definition private_payloads (message : dict) : option (list dict) :=
  flatten (psizes (initial_candidates message)) (initial_candidates message) [].

(** ** Reconciliation snapshots *)

Definition fill_record (p : dict) : result FillRecord :=
  quantity ← py_decimal_str (pget_first ["execQty"; "matchQty"; "quantity"; "filledQty"] (PInt 0) p);
  price ← py_decimal_str (pget_first ["price"; "avgPrice"; "orderPrice"] (PInt 0) p);
  fee ← py_decimal_str (pget_first ["fee"] (PInt 0) p);
  Ok (mkFillRecord (py_str (pget_first ["tradeId"; "trade_id"; "matchId"; "match_id"] (PStr "") p))
        (py_str (pget_first ["orderId"; "order_id"; "clientOrderId"; "clOrdId"] (PStr "") p))
        (py_str (pget_first ["symbol"; "currencyPair"] (PStr "") p)) quantity price fee).

Definition exchange_snapshot (balances : list Balance) (orders : list ExecutionOrder) (fills : list dict) : result ReconciliationSnapshot :=
  fs ← result_mapM fill_record fills;
  Ok (mkSnapshot
        (map (fun b => mkBalanceRecord (bal_asset b) (bal_total b) (bal_available b) (bal_reserved b)) balances)
        []
        (map (fun o => mkOrderRecord (str_or (eo_client_order_id o) (str_or (eo_exchange_order_id o) ""))
                         (eo_exchange_order_id o) (eo_symbol o) (status_value (eo_status o)) (eo_filled_quantity o)
                         (dmax dzero (dsub (match eo_quantity o with Some q => if dtruth q then q else dzero | None => dzero end)
                                           (eo_filled_quantity o)))) orders)
        fs None).

Record InventoryRow : Type := mkInventoryRow {
  iw_asset : string; iw_total : dec; iw_available : dec; iw_reserved : dec; iw_captured_at : datetime }.

(** The newest snapshot per asset. *)
Definition latest_balances (rows : list InventoryRow) : list (string * InventoryRow) :=
  foldl (fun acc r => match od_get (iw_asset r) acc with
                      | None => od_set (iw_asset r) r acc
                      | Some cur => if (iw_captured_at cur <? iw_captured_at r)%Z then od_set (iw_asset r) r acc else acc
                      end) [] rows.

Definition order_status_value (s : OrderStatus) : string :=
  match s with
  | os_created => "created" | os_submitted => "submitted" | os_open => "open" | os_partially_filled => "partially_filled"
  | os_filled => "filled" | os_cancel_pending => "cancel_pending" | os_cancelled => "cancelled"
  | os_rejected => "rejected" | os_expired => "expired" | os_failed => "failed"
  end.

Definition internal_snapshot (inventory : list InventoryRow) (orders : list LiveOrder) (trades : list TradeRow)
    (pairs : list (Z * string)) : ReconciliationSnapshot :=
  let pair i := match od_get i pairs with Some s => s | None => str_of_Z i end in
  mkSnapshot
    (map (fun r => mkBalanceRecord (iw_asset r) (iw_total r) (iw_available r) (iw_reserved r)) (od_vals (latest_balances inventory)))
    []
    (map (fun o => mkOrderRecord (lo_client_order_id o) (lo_exchange_order_id o) (pair (lo_trading_pair_id o))
                     (order_status_value (lo_status o)) (lo_filled_quantity o)
                     (dmax dzero (dsub (lo_quantity o) (lo_filled_quantity o)))) orders)
    (map (fun t => mkFillRecord (tw_exchange_trade_id t) (str_of_Z (tw_order_id t)) (pair (tw_trading_pair_id t))
                     (tw_quantity t) (tw_price t) (tw_fee_amount t)) trades)
    None.

Record CoinstoreReconciliationReport : Type := mkReport {
  rp_exchange : ReconciliationSnapshot; rp_internal : ReconciliationSnapshot;
  rp_mismatches : list ReconciliationMismatch; rp_stale : list string; rp_orphan : list string }.

(** [CoinstoreLiveReconciler.reconcile] *)
Definition live_reconcile (balances : list Balance) (orders : list ExecutionOrder) (fills : list dict)
    (internal : ReconciliationSnapshot) (stale orphan : list string) : result CoinstoreReconciliationReport :=
  ex ← exchange_snapshot balances orders fills;
  Ok (mkReport ex internal
        (reconcile default_reconciler ex internal
         ++ map (fun id => mkMismatch "order" id rs_warning "local order is stale" (Some "fresh") (Some "stale")) stale
         ++ map (fun id => mkMismatch "order" id rs_critical "local order missing from exchange active order set" (Some "missing") (Some "present")) orphan)
        stale orphan).

(** ** Lemmas *)

(** The self-check of the signing layer accepts every credential. *)
Lemma verify_signing_ok time c ms : time_ms time = Ok ms -> is_ok (coinstore_time_slot ms) = true ->
  verify_signing time c = Ok tt.
Proof.
  intros T S. unfold verify_signing, sign_request, sign_coinstore. rewrite T. cbn [mbind result_bind body_or_params].
  destruct (json_dumps _) as [payload|] eqn:J; [|vm_compute in J; discriminate]. cbn [mbind result_bind].
  destruct (coinstore_signature (cr_api_secret c) ms payload) as [s|] eqn:E.
  - apply coinstore_signature_length in E. cbn [sg_headers mbind result_bind].
    set (hs := [("X-CS-APIKEY", cr_api_key c); ("X-CS-EXPIRES", str_of_Z ms); ("X-CS-SIGN", s)]).
    assert (G1 : od_get "X-CS-APIKEY" hs = Some (cr_api_key c)) by reflexivity.
    assert (G2 : od_get "X-CS-EXPIRES" hs = Some (str_of_Z ms)) by reflexivity.
    assert (G3 : od_get "X-CS-SIGN" hs = Some s) by reflexivity.
    unfold signing_headers. cbn [List.filter]. rewrite G1, G2, G3, E. by rewrite bool_decide_eq_true_2.
  - unfold coinstore_signature in E. destruct (coinstore_time_slot ms); [|done].
    unfold mbind, result_bind in E. discriminate.
Qed.

Lemma check_self_trade_spec i price rows :
  check_self_trade i price rows = Ok tt <->
  forall o existing, o ∈ rows -> lo_price o = Some existing -> price_crosses (oi_side i) price existing = false.
Proof.
  induction rows as [|o rows IH]; simpl.
  - split; [|done]. intros _ o e Ho. by apply elem_of_nil in Ho.
  - destruct (lo_price o) as [existing|] eqn:P.
    + destruct (price_crosses (oi_side i) price existing) eqn:C.
      * split; [done|]. intros H. specialize (H o existing ltac:(by left) P). congruence.
      * rewrite IH. split; intros H o' e Ho E; [|apply (H o' e); [by right|done]].
        apply elem_of_cons in Ho as [->|Ho]; [congruence|]. by apply (H o' e).
    + rewrite IH. split; intros H o' e Ho E; [|apply (H o' e); [by right|done]].
      apply elem_of_cons in Ho as [->|Ho]; [congruence|]. by apply (H o' e).
Qed.

Lemma psize_pos v : (1 <= psize v)%nat.
Proof. destruct v; simpl; lia. Qed.

Lemma psize_list l : psize (PList l) = S (psizes l).
Proof. simpl. f_equal. unfold psizes. induction l as [|x l IH]; simpl; [done|]. by rewrite IH. Qed.

Lemma psize_dict_value d k v : od_get k d = Some v -> (psize v < psize (PDict d))%nat.
Proof.
  simpl. induction d as [|[k' v'] d IH]; simpl; [done|]. case_decide; intros E.
  - simplify_eq. lia.
  - specialize (IH E). lia.
Qed.

Lemma pget_size k d : pget k d = PNone \/ (psize (pget k d) < psize (PDict d))%nat.
Proof. unfold pget. destruct (od_get k d) eqn:E; [right; by eapply psize_dict_value|by left]. Qed.

Lemma pget_first_size ks last d : last = PNone \/ (psize last < psize (PDict d))%nat ->
  pget_first ks last d = PNone \/ (psize (pget_first ks last d) < psize (PDict d))%nat.
Proof.
  intros H. induction ks as [|k ks IH]; simpl; [done|]. unfold por. case_match; [apply pget_size|done].
Qed.

Lemma nested_rows_size d l : nested_rows d = PList l -> (S (psizes l) < psize (PDict d))%nat.
Proof.
  intros E. unfold nested_rows in E.
  destruct (pget_first_size ["data"; "items"; "orders"; "matches"] (pget "balances" d) d (pget_size "balances" d)) as [N|N].
  - congruence.
  - rewrite E, psize_list in N. lia.
Qed.

Lemma psizes_app l1 l2 : psizes (l1 ++ l2) = (psizes l1 + psizes l2)%nat.
Proof. unfold psizes. by rewrite map_app, list_sum_app. Qed.

(** The work list always empties: each step removes a node. *)
Lemma flatten_total fuel candidates acc : (psizes candidates <= fuel)%nat ->
  exists out, flatten fuel candidates acc = Some out /\
    (forall p, p ∈ acc -> p ∈ out) /\
    (forall p, p ∈ out -> p ∈ acc \/ (match nested_rows p with PList _ => False | _ => True end)).
Proof.
  revert candidates acc. induction fuel as [|f IH]; intros [|item rest] acc Hf.
  - exists acc. auto.
  - exfalso. pose proof (psize_pos item). unfold psizes in Hf. simpl in Hf. lia.
  - exists acc. auto.
  - pose proof (psize_pos item) as Hp. assert (Hr : (psize item + psizes rest <= S f)%nat) by exact Hf.
    assert (Skip : exists out, flatten f rest acc = Some out /\ (forall p, p ∈ acc -> p ∈ out) /\
      (forall p, p ∈ out -> p ∈ acc \/ (match nested_rows p with PList _ => False | _ => True end))) by (apply IH; lia).
    destruct item as [| | | | | |l|d]; try exact Skip.
    + apply IH. rewrite psizes_app. rewrite psize_list in Hr. lia.
    + cbn [flatten]. destruct (nested_rows d) as [| | | | | |l|d'] eqn:E;
        try (destruct (IH rest (acc ++ [d])) as (out & -> & O1 & O2); [lia|]; exists out; split_and!; [done| |];
             [intros p Hp'; apply O1; set_solver|];
             intros p Hp'; destruct (O2 p Hp') as [Q|Q]; [|by right];
             apply elem_of_app in Q as [Q|Q]; [by left|right; apply list_elem_of_singleton in Q as ->; by rewrite E]).
      apply IH. rewrite psizes_app. apply nested_rows_size in E. lia.
Qed.

(** ** Properties *)

(** [assert_order_safe] accepts a priced order exactly when no active order
    of the account has its client id and no active order of the account on the
    opposite side, whatever its trading pair, has a crossing price. *)
Theorem order_safe_iff account_id i price table : oi_price i = Some price ->
  assert_order_safe account_id i table = Ok tt <->
  (forall o, o ∈ table -> is_duplicate account_id i o = false) /\
  (forall o existing, o ∈ table -> is_opposite account_id i o = true -> lo_price o = Some existing ->
     price_crosses (oi_side i) price existing = false).
Proof.
  intros P. unfold assert_order_safe. rewrite P.
  destruct (List.filter (is_duplicate account_id i) table) as [|d [|d2 ds]] eqn:F.
  - rewrite check_self_trade_spec. split.
    + intros H. split.
      * intros o Ho. apply not_true_iff_false. intros D.
        assert (I : In o (List.filter (is_duplicate account_id i) table)) by (apply filter_In; by rewrite list_elem_of_In in Ho).
        by rewrite F in I.
      * intros o e Ho Op E. apply (H o e); [|done]. apply list_elem_of_In, filter_In. by rewrite list_elem_of_In in Ho.
    + intros [_ H] o e Ho E. apply list_elem_of_In, filter_In in Ho as [Ho Op]. apply (H o e); [by apply list_elem_of_In|done|done].
  - split; [done|]. intros [H _]. assert (I : In d (List.filter (is_duplicate account_id i) table)) by (rewrite F; by left).
    apply filter_In in I as [I D]. rewrite (H d) in D; [done|by apply list_elem_of_In].
  - split; [done|]. intros [H _]. assert (I : In d (List.filter (is_duplicate account_id i) table)) by (rewrite F; by left).
    apply filter_In in I as [I D]. rewrite (H d) in D; [done|by apply list_elem_of_In].
Qed.

(** A resting sell of another pair (id 2) at 3000. *)
Definition eth_sell : LiveOrder :=
  mkLive 1 "eth-1" (Some "9") 7 2 sell ot_limit os_open (Some (dZ 3000)) (dZ 1) dzero None dzero [] 0%Z None.

Lemma order_safe_iff_witness :
  assert_order_safe 7 demo_limit [] = Ok tt <->
  (forall o, o ∈ [] -> is_duplicate 7 demo_limit o = false) /\
  (forall o existing, o ∈ [] -> is_opposite 7 demo_limit o = true -> lo_price o = Some existing ->
     price_crosses (oi_side demo_limit) (dZ 50000) existing = false).
Proof. apply (order_safe_iff 7 demo_limit (dZ 50000) []). reflexivity. Defined.

(** A buy of BTC at 50000 is refused because of a sell of ETH at 3000. *)
Example self_trade_ignores_pair :
  assert_order_safe 7 demo_limit [eth_sell] = raise CoinstoreSafetyError "self_trade_prevention:c1:eth-1".
Proof. vm_compute. reflexivity. Qed.

(** Flattening a private message always terminates (the fuel is its size)
    and returns only dicts without a nested row list. *)
Theorem private_payloads_total message :
  exists out, private_payloads message = Some out /\
    (forall p, p ∈ out -> match nested_rows p with PList _ => False | _ => True end).
Proof.
  destruct (flatten_total _ (initial_candidates message) [] (le_n _)) as (out & E & _ & O).
  exists out. split; [exact E|]. intros p Hp. destruct (O p Hp) as [N|N]; [by apply elem_of_nil in N|done].
Qed.

(** Every row under [data] is delivered twice: once through the message and
    once through the candidate added for the key. *)
Example private_rows_duplicated :
  let row := [("orderId", PInt 1)] in
  private_payloads [("data", PList [PDict row])] = Some [row; row].
Proof. vm_compute. reflexivity. Qed.
