(* ===== verification/CoinstoreService.v ===== *)
(** * CoinstoreService: live execution on Coinstore ([execution/coinstore.py])

    The service combines the REST client, the validation and safety rules and
    the database. The database is the parameter [LiveSession] (one operation
    per query), the stored secrets are decrypted by the parameter [decrypt]. *)

From Stdlib Require Import Ascii.
From S2P Require Import Prelude Rounding PyFloat PyDecimal PyData PyValue Models Precision Crypto Venue RateLimit Signing Client Reconcile Store Paper CoinstoreRules.

#[local] Open Scope string_scope.
#[local] Open Scope list_scope.

Record ExchangeAccount : Type := mkAccount {
  xa_id : Z; xa_api_key_ciphertext : string; xa_api_secret_ciphertext : string;
  xa_passphrase_ciphertext : option string }.

Class LiveSession (D : Type) : Type := {
  ls_account : SE D (option ExchangeAccount);
  ls_pair : string -> string -> SE D (option (Z * TradingPairRow));
  ls_add_pair : TradingPairRow -> SE D Z;
  ls_order : string -> SE D (option LiveOrder);
  ls_add_order : LiveOrder -> SE D LiveOrder;
  ls_save_order : LiveOrder -> SE D unit;
  ls_orders : SE D (list LiveOrder);
  ls_add_snapshot : Z -> InventoryRow -> SE D unit;
  ls_snapshots : Z -> SE D (list InventoryRow);
  ls_trade : Z -> string -> SE D (option TradeRow);
  ls_add_trade : TradeRow -> SE D unit;
  ls_trades : Z -> SE D (list TradeRow);
  ls_pairs : SE D (list (Z * string)) }.

Section Service.
Context {D : Type} `{LiveSession D}.
Context (http : nat -> HttpRequest -> result HttpResponse) (time monotonic : nat -> float).
Context (clock : nat -> datetime) (uuid : nat -> string) (decrypt : string -> result string).
Context (fromtimestamp : float -> result datetime).

Record ServiceState : Type := mkService {
  sv_net : Net; sv_db : D; sv_client : option PrivateRestExecutionClient; sv_account : option ExchangeAccount;
  sv_precision : option (list (string * SymbolPrecision)); sv_tick : nat }.

Definition S_ (A : Type) : Type := SE ServiceState A.
#[local] Instance S_ret : MRet S_ := se_ret ServiceState.
#[local] Instance S_bind : MBind S_ := se_bind ServiceState.

Definition s_db {A} (m : SE D A) : S_ A :=
  fun s => let '(d, r) := m (sv_db s) in
           (mkService (sv_net s) d (sv_client s) (sv_account s) (sv_precision s) (sv_tick s), r).
Definition s_net {A} (m : SE Net A) : S_ A :=
  fun s => let '(n, r) := m (sv_net s) in
           (mkService n (sv_db s) (sv_client s) (sv_account s) (sv_precision s) (sv_tick s), r).
Definition s_lift {A} (r : result A) : S_ A := fun s => (s, r).
Definition s_get : S_ ServiceState := fun s => (s, Ok s).
Definition s_tick : S_ nat :=
  fun s => (mkService (sv_net s) (sv_db s) (sv_client s) (sv_account s) (sv_precision s) (S (sv_tick s)), Ok (sv_tick s)).
Definition set_account (a : ExchangeAccount) : S_ unit :=
  fun s => (mkService (sv_net s) (sv_db s) (sv_client s) (Some a) (sv_precision s) (sv_tick s), Ok tt).
Definition set_client (c : PrivateRestExecutionClient) : S_ unit :=
  fun s => (mkService (sv_net s) (sv_db s) (Some c) (sv_account s) (sv_precision s) (sv_tick s), Ok tt).
Definition set_precision (p : list (string * SymbolPrecision)) : S_ unit :=
  fun s => (mkService (sv_net s) (sv_db s) (sv_client s) (sv_account s) (Some p) (sv_tick s), Ok tt).

Definition service_account : S_ ExchangeAccount :=
  s ← s_get;
  match sv_account s with
  | Some a => mret a
  | None =>
      row ← s_db ls_account;
      match row with
      | None => s_lift (raise RuntimeError "no enabled Coinstore exchange account")
      | Some a => _ ← set_account a; mret a
      end
  end.

(** A new client comes with a full token bucket. *)
Definition service_client : S_ PrivateRestExecutionClient :=
  s ← s_get;
  match sv_client s with
  | Some c => mret c
  | None =>
      a ← service_account;
      key ← s_lift (decrypt (xa_api_key_ciphertext a));
      secret ← s_lift (decrypt (xa_api_secret_ciphertext a));
      if String.eqb key "" || String.eqb secret "" then
        s_lift (raise RuntimeError "enabled Coinstore account is missing API credentials")
      else
        pass ← s_lift (match xa_passphrase_ciphertext a with
                       | None => Ok None | Some c => Some <$> decrypt c end);
        t ← s_tick;
        let c := mkClient coinstore (mkCredentials key secret pass None) in
        _ ← s_net (fun n => (mkNet (new_bucket (mkRate 300 60) (monotonic t)) (nt_sent n) (nt_tick n), Ok tt));
        _ ← set_client c;
        mret c
  end.

Definition service_precision : S_ (list (string * SymbolPrecision)) :=
  s ← s_get;
  match sv_precision s with
  | Some p => mret p
  | None =>
      c ← service_client;
      p ← s_net (discover_symbol_precision http time monotonic c);
      _ ← set_precision p;
      mret p
  end.

Definition compact_symbol (s : string) : string := str_replace "/" "" (normalize_symbol s).

Definition trading_pair (symbol : string) : S_ (Z * TradingPairRow) :=
  row ← s_db (ls_pair (normalize_symbol symbol) (compact_symbol symbol));
  match row with
  | None => s_lift (raise RuntimeError ("Coinstore trading pair " +:+ symbol +:+ " is not configured"))
  | Some r => mret r
  end.

(** [value or 0] on a nullable column. *)
Definition or_zero (o : option dec) : dec :=
  match o with Some d => if dtruth d then d else dzero | None => dzero end.

Definition precision_for_symbol (symbol : string) : S_ SymbolPrecision :=
  precision ← service_precision;
  match od_get (normalize_symbol symbol) precision with
  | Some p => mret p
  | None =>
      match List.find (fun p => String.eqb (str_upper (sp_venue_symbol p)) (compact_symbol symbol)
                                || String.eqb (str_replace "/" "" (str_upper (sp_symbol p))) (compact_symbol symbol))
                      (od_vals precision) with
      | Some p => mret p
      | None =>
          r ← trading_pair symbol;
          match tp_tick_size r.2, tp_lot_size r.2 with
          | Some tick, Some lot =>
              mret (mkPrecision (tp_normalized_symbol r.2) (tp_venue_symbol r.2) tick lot (or_zero (tp_min_order_size r.2))
                      (or_zero (tp_min_notional r.2)) (tp_price_precision r.2) (tp_quantity_precision r.2))
          | _, _ => s_lift (raise RuntimeError ("Coinstore precision unavailable for " +:+ symbol))
          end
      end
  end.

Definition ensure_live_pair (symbol : string) : S_ Z :=
  row ← s_db (ls_pair (normalize_symbol symbol) (compact_symbol symbol));
  match row with
  | Some (i, _) => mret i
  | None =>
      match split_once "/"%char (normalize_symbol symbol) with
      | None => s_lift (raise RuntimeError ("Coinstore order symbol " +:+ symbol +:+ " is not normalized"))
      | Some (base, quote) =>
          p ← precision_for_symbol (normalize_symbol symbol);
          s_db (ls_add_pair (mkPairRow "coinstore" base quote (normalize_symbol symbol) (sp_venue_symbol p) (price_precision p)
                  (quantity_precision p) (Some (min_quantity p)) (Some (min_notional p)) (Some (price_tick p))
                  (Some (quantity_step p)) true))
      end
  end.

(** [a or b] on optional strings, kept optional. *)
Definition opt_or (a b : option string) : option string :=
  match a with Some s => if String.eqb s "" then b else a | None => b end.

Definition live_client_order_id (order : ExecutionOrder) (intent : option OrderIntent) : S_ string :=
  match opt_or (eo_client_order_id order) (option_map oi_client_order_id intent) with
  | Some c => if String.eqb c ""
              then match opt_or (eo_exchange_order_id order) None with
                   | Some x => mret ("coinstore-" +:+ x)
                   | None => t ← s_tick; mret ("coinstore-" +:+ uuid t)
                   end
              else mret c
  | None => match opt_or (eo_exchange_order_id order) None with
            | Some x => mret ("coinstore-" +:+ x)
            | None => t ← s_tick; mret ("coinstore-" +:+ uuid t)
            end
  end.

Definition from_opt {A} (a b : option A) : option A := match a with Some x => Some x | None => b end.

Definition persist_live_order (order : ExecutionOrder) (intent : option OrderIntent) : S_ LiveOrder :=
  account ← service_account;
  pair ← ensure_live_pair (str_or (Some (eo_symbol order)) (match intent with Some i => oi_symbol i | None => "" end));
  cid ← live_client_order_id order intent;
  row ← s_db (ls_order cid);
  let status := db_order_status (eo_status order) in
  match row with
  | None =>
      t ← s_tick;
      s_db (ls_add_order (mkLive 0 cid (eo_exchange_order_id order) (xa_id account) pair
              (match from_opt (eo_side order) (option_map oi_side intent) with Some x => x | None => buy end)
              (match from_opt (eo_order_type order) (option_map oi_order_type intent) with Some x => x | None => ot_limit end)
              status (from_opt (eo_price order) (match intent with Some i => oi_price i | None => None end))
              (match from_opt (eo_quantity order) (option_map oi_quantity intent) with Some q => q | None => dzero end)
              (eo_filled_quantity order) (eo_average_price order) (or_zero (eo_fee order))
              [("mode", PStr "live"); ("venue", PStr "coinstore"); ("raw", eo_raw order)] (clock t) (Some (clock t))))
  | Some r =>
      t ← s_tick;
      let r' := mkLive (lo_id r) (lo_client_order_id r) (opt_or (eo_exchange_order_id order) (lo_exchange_order_id r))
                  (lo_exchange_account_id r) (lo_trading_pair_id r) (lo_side r) (lo_order_type r) status (lo_price r)
                  (lo_quantity r) (eo_filled_quantity order) (eo_average_price order)
                  (match eo_fee order with Some f => if dtruth f then f else lo_fee_amount r | None => lo_fee_amount r end)
                  (od_set "venue" (PStr "coinstore") (od_set "raw" (eo_raw order) (lo_metadata r)))
                  (lo_created_at r) (Some (clock t)) in
      _ ← s_db (ls_save_order r');
      mret r'
  end.

Definition persist_balance_update (b : Balance) : S_ unit :=
  account ← service_account;
  t ← s_tick;
  s_db (ls_add_snapshot (xa_id account) (mkInventoryRow (bal_asset b) (bal_total b) (bal_available b) (bal_reserved b) (clock t))).

(** [_timestamp]: [float(value)], seconds or milliseconds. *)
Definition timestamp (v : pyval) : S_ datetime :=
  let convert :=
    x ← s_lift (py_float v);
    s_lift (fromtimestamp (if fgt x (of_Z 10000000000) then fdiv x (of_Z 1000) else x)) in
  match v with
  | PNone => t ← s_tick; mret (clock t)
  | PStr "" => t ← s_tick; mret (clock t)
  | _ => convert
  end.

Definition persist_fill_update (p : dict) : S_ unit :=
  account ← service_account;
  _ ← s_lift (assert_fill_safe (str_of_Z (xa_id account)) p);
  eo ← s_lift (execution_order_from_payload p);
  order ← persist_live_order eo None;
  let trade_id := py_str (pget_first ["tradeId"; "trade_id"; "matchId"; "match_id"] (PStr "") p) in
  if String.eqb trade_id "" then s_lift (raise RuntimeError "Coinstore fill update is missing tradeId/matchId")
  else
    row ← s_db (ls_trade (xa_id account) trade_id);
    match row with
    | Some _ => mret tt
    | None =>
        price ← s_lift (service_decimal (pget_first ["price"; "avgPrice"; "orderPrice"] (PInt 0) p));
        quantity ← s_lift (service_decimal (pget_first ["execQty"; "matchQty"; "quantity"; "filledQty"] (PInt 0) p));
        fee ← s_lift (service_decimal (pget_first ["fee"] (PInt 0) p));
        let side := match parse_side (pget "side" p) with Some x => x | None => lo_side order end in
        at_ ← timestamp (pget_first ["matchTime"; "time"] (pget "ts" p) p);
        s_db (ls_add_trade (mkTradeRow (lo_id order) trade_id (xa_id account) (lo_trading_pair_id order) side price quantity fee
                (Some (py_str (pget_first ["feeAsset"; "feeCurrency"] (PStr "") p))) at_
                [("source", PStr "coinstore_private_websocket"); ("raw", PDict p)]))
    end.

Definition raw_dict (o : ExecutionOrder) : dict := match eo_raw o with PDict d => d | _ => [] end.

Definition service_place_order (i : OrderIntent) : S_ ExecutionOrder :=
  if bool_decide (oi_venue i = coinstore) then
    account ← service_account;
    precision ← precision_for_symbol (oi_symbol i);
    c ← service_client;
    t ← s_tick;
    _ ← s_lift (verify_runtime_ready (time t) (cl_credentials c) precision i);
    table ← s_db ls_orders;
    _ ← s_lift (assert_order_safe (xa_id account) i table);
    order ← s_net (client_place_order http time monotonic c i precision);
    _ ← s_lift (verify_order_response (raw_dict order));
    _ ← persist_live_order order (Some i);
    mret order
  else s_lift (raise ValueError "CoinstoreExecutionService only accepts coinstore intents").

Definition verified_order (order : ExecutionOrder) : S_ ExecutionOrder :=
  _ ← s_lift (verify_order_response (raw_dict order));
  _ ← persist_live_order order None;
  mret order.

Definition service_cancel_order (i : CancelIntent) : S_ ExecutionOrder :=
  c ← service_client;
  order ← s_net (client_cancel_order http time monotonic c i);
  verified_order order.

Definition service_get_order_status (i : CancelIntent) : S_ ExecutionOrder :=
  c ← service_client;
  order ← s_net (client_get_order_status http time monotonic c i);
  verified_order order.

Fixpoint s_each {A B} (f : A -> S_ B) (l : list A) : S_ (list B) :=
  match l with
  | [] => mret []
  | x :: l' => y ← f x; ys ← s_each f l'; mret (y :: ys)
  end.

Definition service_cancel_all_orders (symbol : option string) : S_ (list ExecutionOrder) :=
  c ← service_client;
  orders ← s_net (client_cancel_all_orders http time monotonic c symbol);
  s_each verified_order orders.

(** Open orders and fills of one symbol. *)
Definition sync_symbol (c : PrivateRestExecutionClient) (symbol : string) : S_ (list ExecutionOrder * list dict) :=
  orders ← s_net (sync_open_orders http time monotonic c (Some symbol));
  fills ← s_net (sync_trade_fills http time monotonic c (Some symbol));
  _ ← s_lift (verify_trade_response (PList (map PDict fills)));
  mret (orders, fills).

Definition reconcile_live (symbols : list string) : S_ CoinstoreReconciliationReport :=
  c ← service_client;
  account ← service_account;
  balances ← s_net (sync_balances http time monotonic c);
  _ ← s_lift (verify_balance_response (PList (map bal_raw balances)));
  synced ← s_each (sync_symbol c) symbols;
  let orders := concat (map fst synced) in
  let fills := concat (map snd synced) in
  _ ← s_each persist_balance_update balances;
  _ ← s_each (fun o => persist_live_order o None) orders;
  _ ← s_each persist_fill_update fills;
  t ← s_tick;
  table ← s_db ls_orders;
  let rows := List.filter (fun o => (lo_exchange_account_id o =? xa_id account)%Z && bool_decide (lo_status o ∈ active_statuses)) table in
  let safety := detect_stale_and_orphan (clock t) (seconds 300) rows (map (fun o => str_or (eo_exchange_order_id o) "") orders) in
  inventory ← s_db (ls_snapshots (xa_id account));
  all ← s_db ls_orders;
  trades ← s_db (ls_trades (xa_id account));
  pairs ← s_db ls_pairs;
  let internal := internal_snapshot inventory (List.filter (fun o => lo_exchange_account_id o =? xa_id account)%Z all) trades pairs in
  s_lift (live_reconcile balances orders fills internal (sr_stale safety) (sr_orphan safety)).

(** [handle_private_message]: the number of orders, fills and balances seen. *)
Definition handle_payload (counts : Z * Z * Z) (p : dict) : S_ (Z * Z * Z) :=
  let '(orders, fills, balances) := counts in
  is_balance ← s_lift (is_balance_payload p);
  balances ← (if is_balance : bool then
                b ← s_lift (balance_from_payload p); _ ← persist_balance_update b; mret (balances + 1)%Z
              else mret balances);
  is_order ← s_lift (is_order_payload p);
  orders ← (if is_order : bool then
              o ← s_lift (execution_order_from_payload p); _ ← persist_live_order o None; mret (orders + 1)%Z
            else mret orders);
  fills ← (if is_fill_payload p then _ ← persist_fill_update p; mret (fills + 1)%Z else mret fills);
  mret (orders, fills, balances).

Fixpoint handle_payloads (counts : Z * Z * Z) (ps : list dict) : S_ (Z * Z * Z) :=
  match ps with
  | [] => mret counts
  | p :: ps' => counts' ← handle_payload counts p; handle_payloads counts' ps'
  end.

Definition handle_private_message (message : dict) : S_ (Z * Z * Z) :=
  match private_payloads message with
  | Some ps => handle_payloads (0, 0, 0)%Z ps
  | None => mret (0, 0, 0)%Z
  end.

End Service.

(** ** Properties *)

Section Facts.
Context {D : Type} `{LiveSession D}.
Context (http : nat -> HttpRequest -> result HttpResponse) (time monotonic : nat -> float).

(** The client's balance synchronisation yields no balance, whatever the venue
    answers. *)
Lemma sync_balances_empty c n n' bs : sync_balances http time monotonic c n = (n', Ok bs) -> bs = [].
Proof.
  unfold sync_balances, mbind, se_bind, se_lift.
  destruct (signed_request _ _ _ _ _ _ _ _ _ n) as [n1 [data|e]]; [|done].
  intros [= _ E]. unfold parse_balances, response_rows in E. destruct (unwrap data); try done; by injection E as <-.
Qed.
End Facts.

(** Live reconciliation never produces a report: on every network, clock,
    database and list of symbols it ends in an exception, because no balance
    is ever parsed and an empty balance list is rejected. *)
Theorem reconcile_live_never_succeeds (D : Type) (L : LiveSession D) http time monotonic clock uuid decrypt fromts symbols
    (s : ServiceState (D := D)) :
  is_ok (reconcile_live http time monotonic clock uuid decrypt fromts symbols s).2 = false.
Proof.
  unfold reconcile_live, mbind, S_bind, se_bind at 1.
  destruct (service_client monotonic decrypt s) as [s1 [c|e]]; [|done].
  unfold se_bind at 1. destruct (service_account s1) as [s2 [a|e]]; [|done].
  unfold se_bind at 1, s_net at 1.
  destruct (sync_balances http time monotonic c (sv_net s2)) as [n [bs|e]] eqn:E; [|done].
  apply sync_balances_empty in E as ->. done.
Qed.
