(* ===== verification/MMRuntime.v ===== *)
(** * MMRuntime: the market-maker runtime ([engines/market_making/runtime.py])

    The runtime owns the paper engine, the risk, volume and inventory engines,
    the canary controller and the live execution service, and reacts to ticks
    and bus messages. Its state is grouped in five records. What is outside the
    repository is a parameter: the Redis cache and pub/sub ([cache_get],
    [bus_send]), the session's extra queries ([RuntimeSession]) and pydantic's
    coercion of a configuration document ([model_validate]). The live service
    is used through the interface [LiveVenue]; [coinstore_venue] is the
    Coinstore service as an instance of it. Handlers run one after another:
    the interleaving of the consumer task with a tick at [await] points is not
    modelled. Logging is not modelled. *)

From Stdlib Require Import Ascii.
From S2P Require Import Prelude Rounding PyFloat PyDecimal PyData PyValue Models Config Precision Quoting Risk Canary Reconcile Inventory Volume Store Paper Client CoinstoreRules CoinstoreService.

#[local] Open Scope string_scope.
#[local] Open Scope list_scope.

(** ** Settings and interfaces *)

(** The fields of [Settings] the runtime reads. *)
Record RuntimeSettings : Type := mkSettings {
  st_mode : LaunchMode; st_exchanges : list string; st_symbols : list string;
  st_reconciliation_interval : float; st_starting_cash : float; st_base_asset : string; st_quote_asset : string;
  st_max_canary_notional : float; st_max_canary_position : float }.

Record SnapshotRow : Type := mkSnapshotRow {
  ss_account : Z; ss_asset : string; ss_total : dec; ss_available : dec; ss_reserved : dec; ss_valuation_asset : string;
  ss_price : dec; ss_amount : dec; ss_captured_at : datetime; ss_metadata : dict }.

Class RuntimeSession (D : Type) : Type := {
  rs_trades : SE D (list (option datetime * option dec * option dec));
  rs_orders : Z -> SE D (list (Z * OrderRow));
  rs_add_snapshot : SnapshotRow -> SE D unit;
  rs_add_risk_event : string -> string -> dict -> SE D unit;
  rs_add_runtime_event : dict -> SE D Z }.

(** What the runtime asks of a live execution service; it shares the session. *)
Class LiveVenue (L D : Type) : Type := {
  live_client : SE (L * D) unit;
  live_place_order : OrderIntent -> SE (L * D) ExecutionOrder;
  live_cancel_all : string -> SE (L * D) (list ExecutionOrder);
  live_sync_balances : SE (L * D) (list Balance);
  live_precision : string -> SE (L * D) SymbolPrecision;
  live_account_orders : SE (L * D) (list LiveOrder);
  live_reconcile_all : list string -> SE (L * D) CoinstoreReconciliationReport;
  live_private_message : dict -> SE (L * D) (Z * Z * Z) }.

(** ** State *)

Record Metrics : Type := mkMetrics { mt_counters : list (string * float); mt_gauges : list (string * float) }.

Definition metrics_increment (name : string) (value : float) (m : Metrics) : Metrics :=
  let old := match od_get name (mt_counters m) with Some x => x | None => of_Z 0 end in
  mkMetrics (od_set name (fadd old value) (mt_counters m)) (mt_gauges m).
Definition metrics_set_gauge (name : string) (value : float) (m : Metrics) : Metrics :=
  mkMetrics (mt_counters m) (od_set name value (mt_gauges m)).

Record QuoteSettings : Type := mkQuoteSettings {
  qs_spread : SpreadSettings; qs_size : OrderSizeSettings; qs_inventory : InventorySettings; qs_layers : OrderLayerSettings }.

Record Engines : Type := mkEngines {
  en_config : RuntimeConfig; en_quote : QuoteSettings; en_inventory : InventorySettings; en_risk : RiskEngine;
  en_volume : VolumeEngine; en_policy : CanaryPolicy; en_canary : CanaryState }.

Record Flags : Type := mkFlags { fl_trading : bool; fl_quoting : bool; fl_started : bool; fl_stream : bool }.

Record Market : Type := mkMarketData {
  mk_ticker : list (string * pyval); mk_orderbook : list (string * OrderBookSnapshot); mk_analytics : list (string * pyval);
  mk_volume : option VolumeProgressReport }.

Record Lifecycle : Type := mkLifecycle {
  lc_cancelled : Z; lc_stale : Z; lc_replacements : Z; lc_actions : Z; lc_rejections : list datetime; lc_last_reconciliation : datetime }.

Section Runtime.
Context {L D : Type} `{Session D} `{RuntimeSession D} `{LiveVenue L D}.

(** [rt_sent] records the intents handed to the live service. *)
Record Runtime : Type := mkRuntime {
  rt_world : World (D := D); rt_live : L; rt_sent : list OrderIntent; rt_bus : list (string * pyval);
  rt_metrics : Metrics; rt_engines : Engines; rt_flags : Flags; rt_market : Market; rt_life : Lifecycle }.

Definition set_world (w : World (D := D)) (s : Runtime) := mkRuntime w (rt_live s) (rt_sent s) (rt_bus s) (rt_metrics s) (rt_engines s) (rt_flags s) (rt_market s) (rt_life s).
Definition set_live (l : L) (s : Runtime) := mkRuntime (rt_world s) l (rt_sent s) (rt_bus s) (rt_metrics s) (rt_engines s) (rt_flags s) (rt_market s) (rt_life s).
Definition set_sent (x : list OrderIntent) (s : Runtime) := mkRuntime (rt_world s) (rt_live s) x (rt_bus s) (rt_metrics s) (rt_engines s) (rt_flags s) (rt_market s) (rt_life s).
Definition set_bus (b : list (string * pyval)) (s : Runtime) := mkRuntime (rt_world s) (rt_live s) (rt_sent s) b (rt_metrics s) (rt_engines s) (rt_flags s) (rt_market s) (rt_life s).
Definition set_metrics (m : Metrics) (s : Runtime) := mkRuntime (rt_world s) (rt_live s) (rt_sent s) (rt_bus s) m (rt_engines s) (rt_flags s) (rt_market s) (rt_life s).
Definition set_engines (e : Engines) (s : Runtime) := mkRuntime (rt_world s) (rt_live s) (rt_sent s) (rt_bus s) (rt_metrics s) e (rt_flags s) (rt_market s) (rt_life s).
Definition set_flags (f : Flags) (s : Runtime) := mkRuntime (rt_world s) (rt_live s) (rt_sent s) (rt_bus s) (rt_metrics s) (rt_engines s) f (rt_market s) (rt_life s).
Definition set_market (m : Market) (s : Runtime) := mkRuntime (rt_world s) (rt_live s) (rt_sent s) (rt_bus s) (rt_metrics s) (rt_engines s) (rt_flags s) m (rt_life s).
Definition set_life (l : Lifecycle) (s : Runtime) := mkRuntime (rt_world s) (rt_live s) (rt_sent s) (rt_bus s) (rt_metrics s) (rt_engines s) (rt_flags s) (rt_market s) l.

Definition with_risk (r : RiskEngine) (e : Engines) := mkEngines (en_config e) (en_quote e) (en_inventory e) r (en_volume e) (en_policy e) (en_canary e).
Definition with_volume (v : VolumeEngine) (e : Engines) := mkEngines (en_config e) (en_quote e) (en_inventory e) (en_risk e) v (en_policy e) (en_canary e).
Definition with_canary (c : CanaryState) (e : Engines) := mkEngines (en_config e) (en_quote e) (en_inventory e) (en_risk e) (en_volume e) (en_policy e) c.

Definition R (A : Type) : Type := SE Runtime A.
#[local] Instance R_ret : MRet R := se_ret Runtime.
#[local] Instance R_bind : MBind R := se_bind Runtime.

Context (uuid : nat -> string) (clock : nat -> datetime) (time : nat -> float).
Context (fpow : float -> Z -> float) (quote_hex : nat -> string -> Z -> string).
Context (cache_get : nat -> string -> result pyval) (bus_send : nat -> string -> result unit).
Context (json_loads : string -> result pyval) (model_validate : dict -> result RuntimeConfig).
Context (fromisoformat : pyval -> result datetime).
Context (st : RuntimeSettings).

(** ** Lifting the components *)

Definition gets {A} (f : Runtime -> A) : R A := fun s => (s, Ok (f s)).
Definition modify (f : Runtime -> Runtime) : R unit := fun s => (f s, Ok tt).
Definition ok_or {A} (r : result A) : R A := fun s => (s, r).

Definition paper {A} (m : M (D := D) A) : R A :=
  fun s => let '(w, r) := m (rt_world s) in (set_world w s, r).
Definition session {A} (m : SE D A) : R A := paper (db m).
Definition live {A} (m : SE (L * D) A) : R A :=
  fun s => let w := rt_world s in
           let '((l, d), r) := m (rt_live s, w_db w) in
           (set_live l (set_world (mkWorld (w_engine w) d (w_tick w)) s), r).
Definition risk {A} (m : SE RiskEngine A) : R A :=
  fun s => let '(k, r) := m (en_risk (rt_engines s)) in (set_engines (with_risk k (rt_engines s)) s, r).

Definition utcnow : R datetime := paper (now clock).
Definition new_uuid : R string := paper (fresh_uuid uuid).
(** The position in the outside world's answers. *)
Definition oracle : R nat :=
  paper (fun w => (mkWorld (w_engine w) (w_db w) (S (w_tick w)), Ok (w_tick w))).

Definition increment (name : string) (value : float) : R unit :=
  modify (fun s => set_metrics (metrics_increment name value (rt_metrics s)) s).
Definition bump (name : string) : R unit := increment name (of_Z 1).
Definition set_gauge (name : string) (value : float) : R unit :=
  modify (fun s => set_metrics (metrics_set_gauge name value (rt_metrics s)) s).
Definition set_trading (trading quoting : bool) : R unit :=
  modify (fun s => set_flags (mkFlags trading quoting (fl_started (rt_flags s)) (fl_stream (rt_flags s))) s).
Definition set_started : R unit :=
  modify (fun s => set_flags (mkFlags (fl_trading (rt_flags s)) (fl_quoting (rt_flags s)) true (fl_stream (rt_flags s))) s).
Definition set_stream : R unit :=
  modify (fun s => set_flags (mkFlags (fl_trading (rt_flags s)) (fl_quoting (rt_flags s)) (fl_started (rt_flags s)) true) s).
Definition canary_shutdown (reason : string) : R unit :=
  modify (fun s => set_engines (with_canary (activate_shutdown reason (en_canary (rt_engines s))) (rt_engines s)) s).
Definition canary_at (t : datetime) (i : OrderIntent) : R CanaryDecision :=
  fun s => let e := rt_engines s in
           let '(c, d) := canary_evaluate (en_policy e) t (Some i) (en_canary e) in
           (set_engines (with_canary c e) s, Ok d).
Definition canary_check (i : OrderIntent) : R CanaryDecision := t ← utcnow; canary_at t i.
Definition life (f : Lifecycle -> Lifecycle) : R unit := modify (fun s => set_life (f (rt_life s)) s).

Fixpoint each {A} (f : A -> R unit) (l : list A) : R unit :=
  match l with
  | [] => mret tt
  | x :: l' => _ ← f x; each f l'
  end.

Definition paper_engine : R PaperEngine := gets (fun s => w_engine (rt_world s)).
Definition config : R RuntimeConfig := gets (fun s => en_config (rt_engines s)).
Definition is_live_mode : bool := match st_mode st with lm_canary | lm_live => true | _ => false end.

(** [bus.cache.get_json(key)] *)
Definition get_json (key : string) : R pyval := t ← oracle; ok_or (cache_get t key).
(** [set_json] and [publish]: recorded once the call succeeds. *)
Definition send (channel : string) (payload : pyval) : R unit :=
  t ← oracle;
  _ ← ok_or (bus_send t channel);
  modify (fun s => set_bus (rt_bus s ++ [(channel, payload)]) s).



Definition ladder_key (symbol side : string) (level : Z) : string :=
  symbol +:+ ":" +:+ side +:+ ":" +:+ str_of_Z level.

(** [publish_runtime_ack] of [runtime/events.py] *)
Definition publish_runtime_ack (component : string) (command_id : option string) (event_type status : string)
    (payload : dict) : R unit :=
  acknowledged_at ← utcnow;
  t ← oracle;
  let cid := match command_id with Some c => PStr c | None => PNone end in
  let ack := [("event_type", PStr event_type); ("component", PStr component); ("command_id", cid); ("status", PStr status);
              ("payload", PDict payload); ("acknowledged_at", PStr (isoformat acknowledged_at)); ("published_at", PFloat (time t))] in
  row ← session (rs_add_runtime_event [("event_type", PStr event_type); ("source_component", PStr component);
                   ("status", PStr status); ("command_id", cid); ("payload", PDict payload)]);
  let ack := PDict (ack ++ [("runtime_event_id", PStr (str_of_Z row))]) in
  _ ← (match command_id with
       | Some c => if String.eqb c "" then mret tt else send ("runtime:ack:" +:+ c +:+ ":" +:+ component) ack
       | None => mret tt
       end);
  send "runtime.acks" ack.

(** ** Market data *)

Definition book_level (item : pyval) : result OrderBookLevel :=
  p ← item_get "price" item; price ← py_float p;
  q ← item_get "size" item; size ← py_float q;
  Ok (mkLevel price size).

Definition book_side (k : string) (d : dict) : result (list OrderBookLevel) :=
  items ← iterate (pget_default k (PList []) d);
  result_mapM book_level items.

Definition orderbook_from_payload (payload : pyval) : result OrderBookSnapshot :=
  exchange ← item_get "exchange" payload;
  symbol ← item_get "symbol" payload;
  d ← as_dict payload;
  bs ← book_side "bids" d;
  as_ ← book_side "asks" d;
  ts ← item_get "source_timestamp" payload;
  source_timestamp ← fromisoformat ts;
  Ok (mkBook (py_str exchange) (py_str symbol) bs as_ source_timestamp
        (match pget "sequence" d with PNone => None | v => Some (py_str v) end)).

Definition put_ticker (k : string) (v : pyval) (m : Market) : Market :=
  mkMarketData (od_set k v (mk_ticker m)) (mk_orderbook m) (mk_analytics m) (mk_volume m).
Definition put_orderbook (k : string) (b : OrderBookSnapshot) (m : Market) : Market :=
  mkMarketData (mk_ticker m) (od_set k b (mk_orderbook m)) (mk_analytics m) (mk_volume m).
Definition put_analytics (k : string) (v : pyval) (m : Market) : Market :=
  mkMarketData (mk_ticker m) (mk_orderbook m) (od_set k v (mk_analytics m)) (mk_volume m).
Definition market (f : Market -> Market) : R unit := modify (fun s => set_market (f (rt_market s)) s).

Definition ingest_market_event (channel : string) (payload : pyval) : R unit :=
  match str_split ":"%char channel with
  | _ :: kind :: exchange :: _ :: _ =>
      let symbol := str_join ":" (skipn 3 (str_split ":"%char channel)) in
      let key := exchange +:+ ":" +:+ symbol in
      if String.eqb kind "ticker" then market (put_ticker key payload)
      else if String.eqb kind "orderbook" then
        book ← ok_or (orderbook_from_payload payload);
        _ ← market (put_orderbook key book);
        fills ← paper (simulate_fills uuid clock symbol book);
        _ ← increment "paper.fills" (flen fills);
        e ← paper_engine;
        increment "paper.pnl" (float_of_dec (pa_realized_pnl (pe_account e)))
      else if String.eqb kind "analytics" then market (put_analytics key payload)
      else mret tt
  | _ => mret tt
  end.

Definition optional_cache_get_json (key : string) : R pyval :=
  se_catch (get_json key) (fun _ => _ ← bump "runtime.cache_read_misses"; mret PNone).

Definition load_one (kind exchange symbol : string) : R unit :=
  payload ← optional_cache_get_json ("latest:marketdata:" +:+ kind +:+ ":" +:+ exchange +:+ ":" +:+ symbol);
  match payload with
  | PDict _ => ingest_market_event ("marketdata:" +:+ kind +:+ ":" +:+ exchange +:+ ":" +:+ symbol) payload
  | _ => mret tt
  end.

Definition load_latest_market_state : R unit :=
  each (fun exchange => each (fun symbol => each (fun kind => load_one kind exchange symbol)
                                              ["ticker"; "orderbook"; "analytics"]) (st_symbols st)) (st_exchanges st).

(** ** Kill switch *)

Definition kill_switch_active : R bool :=
  state ← se_catch (v ← get_json "risk:kill_switch"; mret (Some v)) (fun _ => mret None);
  match state with
  | None =>
      _ ← bump "risk.kill_switch_read_failures";
      match st_mode st with
      | lm_paper | lm_shadow => mret false
      | _ => _ ← canary_shutdown "kill_switch_state_unavailable"; mret true
      end
  | Some (PDict d) =>
      if truthy (pget "active" d) then
        _ ← canary_shutdown (py_str (por (pget "reason" d) (PStr "kill_switch_active")));
        mret true
      else mret false
  | Some _ => mret false
  end.

(** ** Order lifecycle *)

Definition cancel_paper_lifecycle_order (client_order_id : string) : R unit :=
  cancelled ← paper (cancel_order clock client_order_id);
  match cancelled with
  | None => mret tt
  | Some _ =>
      _ ← life (fun l => mkLifecycle (lc_cancelled l + 1) (lc_stale l) (lc_replacements l) (lc_actions l + 1) (lc_rejections l) (lc_last_reconciliation l));
      bump "order_lifecycle.cancelled_orders"
  end.

Definition count_stale : R unit :=
  life (fun l => mkLifecycle (lc_cancelled l) (lc_stale l + 1) (lc_replacements l) (lc_actions l) (lc_rejections l) (lc_last_reconciliation l)).
Definition count_replacement : R unit :=
  life (fun l => mkLifecycle (lc_cancelled l) (lc_stale l) (lc_replacements l + 1) (lc_actions l) (lc_rejections l) (lc_last_reconciliation l)).

Definition quote_drifted (threshold : float) (o : PaperOrder) (desired : Quote) : bool :=
  match oi_price (pd_intent o) with
  | None => true
  | Some p =>
      let price := float_of_dec p in
      let quantity := float_of_dec (oi_quantity (pd_intent o)) in
      let price_diff_bps := fmul (fdiv (fabs (fsub (qt_price desired) price)) (fmax (fabs (qt_price desired)) (flit 1 (10 ^ 12)))) (of_Z 10000) in
      let quantity_diff := fabs (fsub (qt_quantity desired) quantity) in
      fge price_diff_bps threshold || fgt quantity_diff (flit 1 (10 ^ 12))
  end.

Definition order_ladder_key (o : PaperOrder) : result (option string) :=
  let i := pd_intent o in
  let md := oi_metadata i in
  if truthy (pget "ladder_key" md) then Ok (Some (py_str (pget "ladder_key" md)))
  else
    let side := por (pget "side" md) (PStr (side_value (oi_side i))) in
    let symbol := por (pget "symbol" md) (PStr (oi_symbol i)) in
    match pget "level" md with
    | PNone => Ok None
    | level => n ← py_int level; Ok (Some (ladder_key (py_str symbol) (py_str side) n))
    end.

Definition lifecycle_metrics (t : datetime) (e : PaperEngine) (l : Lifecycle) : Lifecycle * list (string * float) :=
  let orders := open_order_objects e in
  let ages := map (fun o => total_seconds (t - pd_created_at o)) orders in
  let count s := flen (List.filter (fun o => bool_decide (oi_side (pd_intent o) = s)) orders) in
  let recent := List.filter (fun x => t - seconds 3600 <=? x)%Z (lc_rejections l) in
  (mkLifecycle (lc_cancelled l) (lc_stale l) (lc_replacements l) (lc_actions l) recent (lc_last_reconciliation l),
   [("open_orders_count", flen orders); ("active_buy_orders", count buy); ("active_sell_orders", count sell);
    ("average_order_age", match ages with [] => of_Z 0 | _ => fround 3 (fdiv (fsum ages) (flen ages)) end);
    ("stale_orders_count", of_Z (lc_stale l)); ("cancelled_orders_count", of_Z (lc_cancelled l));
    ("replacement_count", of_Z (lc_replacements l)); ("reconciliation_actions", of_Z (lc_actions l));
    ("risk_rejections_last_hour", flen recent)]).

Definition update_lifecycle_gauges : R unit :=
  t ← utcnow;
  e ← paper_engine;
  l ← gets rt_life;
  let '(l', metrics) := lifecycle_metrics t e l in
  _ ← life (fun _ => l');
  each (fun kv => set_gauge ("order_lifecycle." +:+ kv.1) kv.2) metrics.

(** *** [_sync_paper_ladder] *)

(** The dict of existing orders, by ladder key, in insertion order. *)
Definition add_existing (key cid : string) (r : nat) (d : list (string * list (string * nat))) : list (string * list (string * nat)) :=
  od_set key (match od_get key d with Some l => l | None => [] end ++ [(cid, r)]) d.

Fixpoint collect_existing (symbol : string) (items : list (string * nat)) (d : list (string * list (string * nat)))
    : R (list (string * list (string * nat))) :=
  match items with
  | [] => mret d
  | (cid, r) :: items' =>
      o ← paper (order_at r);
      if negb (String.eqb (oi_symbol (pd_intent o)) symbol) then collect_existing symbol items' d
      else
        key ← ok_or (order_ladder_key o);
        match key with
        | None => _ ← cancel_paper_lifecycle_order cid; collect_existing symbol items' d
        | Some k => collect_existing symbol items' (add_existing k cid r d)
        end
  end.

(** [a == b] or [a is b] on quotes: a NaN field does not make a quote differ from itself. *)
Definition fsame (x y : float) : bool := feq x y || (negb (feq x x) && negb (feq y y)).
Definition same_quote (a b : Quote) : bool :=
  String.eqb (qt_side a) (qt_side b) && fsame (qt_price a) (qt_price b) && fsame (qt_quantity a) (qt_quantity b)
  && (qt_level a =? qt_level b)%Z && String.eqb (qt_client_order_id a) (qt_client_order_id b).

(** What the newest order of a key needs: keep it, or cancel it and place the quote. *)
Definition sync_newest (t : datetime) (max_age threshold : float) (q : Quote) (cid : string) (r : nat)
    : R (option string * list Quote) :=
  o ← paper (order_at r);
  if fge (total_seconds (t - pd_created_at o)) max_age then
    _ ← cancel_paper_lifecycle_order cid; _ ← count_stale; mret (None, [q])
  else if quote_drifted threshold o q then
    _ ← cancel_paper_lifecycle_order cid; _ ← count_replacement; mret (None, [q])
  else mret (Some cid, []).

Definition ladder_state : Type := list Quote * list (string * Quote).

(** The end of an iteration for one key: [to_place] and [desired_by_key]. *)
Definition settle_key (key : string) (q : Quote) (keep : option string) (st_ : ladder_state) : ladder_state :=
  let '(to_place, desired) := st_ in
  match keep with
  | Some cid =>
      if String.eqb cid "" then
        if existsb (same_quote q) to_place then (to_place, desired) else (to_place ++ [q], od_del key desired)
      else (to_place, od_del key desired)
  | None => if existsb (same_quote q) to_place then (to_place, desired) else (to_place ++ [q], od_del key desired)
  end.

Definition created_at (r : nat) (e : PaperEngine) : datetime :=
  match pe_heap e !! r with Some o => pd_created_at o | None => 0%Z end.
(** [orders.sort(key=created_at, reverse=True)]: stable. *)
Definition newest_first (e : PaperEngine) : list (string * nat) -> list (string * nat) :=
  sorted (fun a b => created_at b.2 e <=? created_at a.2 e)%Z.

Definition sync_key (t : datetime) (max_age threshold : float) (key : string) (orders : list (string * nat))
    (ls : ladder_state) : R ladder_state :=
  match od_get key ls.2 with
  | None => _ ← each (fun x => cancel_paper_lifecycle_order x.1) orders; mret ls
  | Some q =>
      e ← paper_engine;
      match newest_first e orders with
      | [] => mret (settle_key key q None ls)
      | (cid, r) :: rest =>
          d ← sync_newest t max_age threshold q cid r;
          _ ← each (fun x => cancel_paper_lifecycle_order x.1) rest;
          mret (settle_key key q d.1 (ls.1 ++ d.2, ls.2))
      end
  end.

Fixpoint sync_keys (t : datetime) (max_age threshold : float) (existing : list (string * list (string * nat)))
    (ls : ladder_state) : R ladder_state :=
  match existing with
  | [] => mret ls
  | (key, orders) :: existing' => ls' ← sync_key t max_age threshold key orders ls; sync_keys t max_age threshold existing' ls'
  end.

Definition desired_by_key (symbol : string) (desired : list Quote) : list (string * Quote) :=
  od_of_list (fun q => ladder_key symbol (qt_side q) (qt_level q)) (fun q => q) desired.

Definition sync_paper_ladder (symbol : string) (desired : list Quote) : R (list Quote) :=
  t ← utcnow;
  c ← config;
  e ← paper_engine;
  existing ← collect_existing symbol (pe_open_orders e) [];
  ls ← sync_keys t (max_order_age_seconds (rc_strategy c)) (refresh_threshold_bps (rc_order_layers c)) existing
         ([], desired_by_key symbol desired);
  _ ← update_lifecycle_gauges;
  mret (ls.1 ++ od_vals ls.2).

(** *** [_submit_quotes] *)

Definition place_live_order (i : OrderIntent) : R unit :=
  _ ← modify (fun s => set_sent (rt_sent s ++ [i]) s);
  _ ← live (live_place_order i);
  bump "coinstore.orders_created".

Definition quote_side (q : Quote) : ExecutionSide := if String.eqb (qt_side q) "buy" then buy else sell.

Definition quote_intent (symbol : string) (q : Quote) : result OrderIntent :=
  quantity ← dec_of_float (qt_quantity q);
  price ← dec_of_float (qt_price q);
  Ok (mkIntent (if is_live_mode then coinstore else binance) symbol (quote_side q) ot_limit quantity (Some price)
        (qt_client_order_id q) tif_gtc false
        [("symbol", PStr symbol); ("side", PStr (qt_side q)); ("level", PInt (qt_level q));
         ("ladder_key", PStr (ladder_key symbol (qt_side q) (qt_level q)))]).

Definition persist_risk_event (symbol message : string) : R unit :=
  session (rs_add_risk_event "PAPER_ORDER_REJECTED" message
             [("symbol", PStr symbol); ("mode", PStr (launch_mode_value (st_mode st)))]).

(** The body of the [try] block: the risk check, the canary check, the order. *)
Definition risk_gate (i : RiskOrderIntent) : R RiskEvaluation :=
  e ← paper_engine;
  t ← utcnow;
  let exposure := float_of_dec (exposure_notional e) in
  risk (assert_order_allowed t i exposure exposure (Z.of_nat (length (pe_open_orders e)))
          (float_of_dec (pa_realized_pnl (pe_account e)))).

Definition submit_checked (book : OrderBookSnapshot) (i : OrderIntent) (ri : RiskOrderIntent) : R unit :=
  _ ← risk_gate ri;
  _ ← bump "risk.approvals";
  d ← canary_check i;
  if negb (cd_accepted d) then bump "market_maker.quote_rejections"
  else if bool_decide (st_mode st = lm_paper) then
    _ ← paper (place_order uuid clock i (Some book)); bump "paper.orders_created"
  else if cd_execution_allowed d then place_live_order i
  else bump "market_maker.quote_rejections".

Definition submit_quote (symbol : string) (book : OrderBookSnapshot) (q : Quote) : R unit :=
  i ← ok_or (quote_intent symbol q);
  se_catch (submit_checked book i (mkRiskIntent symbol (qt_side q) (qt_price q) (qt_quantity q)))
    (fun e =>
       _ ← bump "risk.rejections";
       _ ← bump "market_maker.quote_rejections";
       t ← utcnow;
       _ ← life (fun l => mkLifecycle (lc_cancelled l) (lc_stale l) (lc_replacements l) (lc_actions l) (lc_rejections l ++ [t]) (lc_last_reconciliation l));
       persist_risk_event symbol (exn_str e)).

Definition submit_quotes (symbol : string) (quotes : list Quote) (book : OrderBookSnapshot) : R unit :=
  f ← gets rt_flags;
  if negb (fl_trading f) then bump "market_maker.trading_disabled_blocks"
  else
    quotes ← (if bool_decide (st_mode st = lm_paper) then sync_paper_ladder symbol quotes else mret quotes);
    each (submit_quote symbol book) quotes.

(** ** Inventory and volume *)

Definition asset_balances (e : PaperEngine) (mid : float) : list AssetBalance :=
  let total asset := float_of_dec (balance_of (pe_account e) asset) in
  [mkAssetBalance (st_base_asset st) (total (st_base_asset st)) (total (st_base_asset st)) (of_Z 0) mid;
   mkAssetBalance (st_quote_asset st) (total (st_quote_asset st)) (total (st_quote_asset st)) (of_Z 0) (of_Z 1)].

Definition persist_snapshot (symbol : string) (account_id : Z) (b : AssetBalance) : R unit :=
  total ← ok_or (dec_of_float (ab_total b));
  available ← ok_or (dec_of_float (ab_available b));
  reserved ← ok_or (dec_of_float (ab_reserved b));
  price ← ok_or (dec_of_float (ab_price b));
  amount ← ok_or (dec_of_float (fmul (ab_total b) (ab_price b)));
  t ← utcnow;
  session (rs_add_snapshot (mkSnapshotRow account_id (ab_asset b) total available reserved (st_quote_asset st) price amount t
             [("symbol", PStr symbol); ("mode", PStr "paper")])).

Definition persist_inventory (symbol : string) (balances : list AssetBalance) : R unit :=
  account_id ← paper ensure_exchange_account;
  each (persist_snapshot symbol account_id) balances.

Definition since_hour (t : datetime) : datetime := (t / seconds 3600 * seconds 3600)%Z.
Definition since_day (t : datetime) : datetime := (t / seconds 86400 * seconds 86400)%Z.
Definition since_week (t : datetime) : datetime := (since_day t - weekday t * seconds 86400)%Z.

Definition or_zero_float (o : option dec) : float := match o with Some d => float_of_dec d | None => of_Z 0 end.

(** The notional traded since [since], summed in row order. *)
Definition traded_since (since : datetime) (rows : list (option datetime * option dec * option dec)) : float :=
  foldl (fun acc row => match row with
                        | (Some ts, p, q) => if (since <=? ts)%Z then fadd acc (fmul (or_zero_float p) (or_zero_float q)) else acc
                        | (None, _, _) => acc
                        end) (of_Z 0) rows.

(** [next((key for key in d if key.endswith(f":{symbol}")), None)] *)
Definition key_for {A} (symbol : string) (d : list (string * A)) : option string :=
  List.find (str_endswith (":" +:+ symbol)) (od_keys d).

Definition volume_progress (symbol : string) (mid : float) : R VolumeProgressReport :=
  t ← utcnow;
  rows ← session rs_trades;
  m ← gets rt_market;
  let ticker := match od_get (match key_for symbol (mk_ticker m) with Some k => k | None => "" end) (mk_ticker m) with
                | Some v => v | None => PDict [] end in
  d ← ok_or (as_dict ticker);
  volume ← ok_or (py_float (pget_first ["volume_24h"; "volume"] (PFloat (of_Z 0)) d));
  v ← gets (fun s => en_volume (rt_engines s));
  let report := progress (ve_settings v) t (traded_since (since_hour t) rows) (traded_since (since_day t) rows)
                  (traded_since (since_week t) rows) (fmul volume mid) in
  _ ← market (fun m => mkMarketData (mk_ticker m) (mk_orderbook m) (mk_analytics m) (Some report));
  _ ← set_gauge "volume.hourly_progress_ratio" (w_progress_ratio (vr_hourly report));
  _ ← set_gauge "volume.daily_progress_ratio" (w_progress_ratio (vr_daily report));
  _ ← set_gauge "volume.weekly_progress_ratio" (w_progress_ratio (vr_weekly report));
  _ ← set_gauge "volume.participation_rate" (vr_participation_rate report);
  _ ← set_gauge "volume.execution_urgency" (ep_urgency (vr_pressure report));
  mret report.

Definition pressured_quote (max_size multiplier best_bid best_ask : float) (q : Quote) : Quote :=
  let quantity := fmin max_size (fmul (qt_quantity q) multiplier) in
  let price := if String.eqb (qt_side q) "buy" then fmin (qt_price q) (fmul best_ask (flit 999999 1000000))
               else fmax (qt_price q) (fmul best_bid (flit 1000001 1000000)) in
  mkQuote (qt_side q) (fround 8 price) quantity (qt_level q) (qt_client_order_id q).

Definition apply_volume_pressure (quotes : list Quote) (report : VolumeProgressReport) (best_bid best_ask : float) : R (list Quote) :=
  let signal := vr_pressure report in
  if negb (ep_enabled signal) || feq (ep_size_multiplier signal) (of_Z 1) then mret quotes
  else
    t ← utcnow;
    e ← gets rt_engines;
    let '(v, fire) := can_apply_pressure_order t (en_volume e) in
    _ ← modify (fun s => set_engines (with_volume v (rt_engines s)) s);
    if negb fire then mret quotes
    else mret (map (pressured_quote (max_order_size (rc_order_size (en_config e))) (ep_size_multiplier signal) best_bid best_ask) quotes).

(** ** [_quote_symbol] *)

Definition dict_or_empty (v : pyval) : dict := match v with PDict d => d | _ => [] end.

Definition quote_book (symbol key : string) (book : OrderBookSnapshot) (bid ask : float) : R unit :=
  let mid := fdiv (fadd bid ask) (of_Z 2) in
  m ← gets rt_market;
  let analytics := dict_or_empty (match od_get key (mk_analytics m) with Some v => v | None => PDict [] end) in
  let spread_data := pget_default "spread" (PDict []) analytics in
  let liquidity_data := dict_or_empty (pget_default "liquidity" (PDict []) analytics) in
  volatility ← ok_or (py_float (pget_default "realized_volatility" (PFloat (of_Z 0)) analytics));
  imbalance ← ok_or (py_float (pget_default "imbalance_ratio" (PFloat (of_Z 0)) liquidity_data));
  e ← paper_engine;
  let balances := asset_balances e mid in
  inv ← gets (fun s => en_inventory (rt_engines s));
  let report := inventory_report inv balances (st_base_asset st) in
  let inventory := mkInvState (match find_exposure (st_base_asset st) (ir_exposures report) with Some x => ex_ratio x | None => of_Z 0 end)
                     (target_base_ratio inv) (float_of_dec (exposure_notional e)) in
  sd ← ok_or (as_dict spread_data);
  spread ← ok_or (py_float (pget_default "spread_bps" (PFloat (of_Z 0)) sd));
  vol ← volume_progress symbol mid;
  let adjusted := mkMarket symbol mid (fmax (of_Z 1) (fmul spread (ep_spread_multiplier (vr_pressure vol)))) volatility imbalance in
  t ← oracle;
  q ← gets (fun s => en_quote (rt_engines s));
  let quotes := generate_quotes fpow (quote_hex t) (qs_spread q) (qs_size q) (qs_inventory q) (qs_layers q) adjusted inventory in
  quotes ← apply_volume_pressure quotes vol bid ask;
  _ ← bump "market_maker.quote_refreshes";
  _ ← increment "market_maker.quotes_generated" (flen quotes);
  _ ← submit_quotes symbol quotes book;
  persist_inventory symbol balances.

Definition quote_symbol (symbol : string) : R unit :=
  f ← gets rt_flags;
  c ← config;
  if negb (fl_trading f) || negb (fl_quoting f) || negb (st_quoting_enabled (rc_strategy c)) then bump "market_maker.strategy_blocks"
  else
    m ← gets rt_market;
    match key_for symbol (mk_orderbook m) with
    | None => mret tt
    | Some key =>
        match od_get key (mk_orderbook m) with
        | None => mret tt
        | Some book =>
            match best_bid book, best_ask book with
            | Some bid, Some ask => quote_book symbol key book bid ask
            | _, _ => mret tt
            end
        end
    end.

(** ** Cancelling and closing *)

Definition cancel_live_symbol (symbol : string) : R unit :=
  cancelled ← live (live_cancel_all symbol);
  increment "coinstore.orders_cancelled" (flen cancelled).

Definition cancel_all_orders : R unit :=
  e ← paper_engine;
  _ ← each (fun cid => _ ← paper (cancel_order clock cid); mret tt) (od_keys (pe_open_orders e));
  _ ← (if is_live_mode then each cancel_live_symbol (st_symbols st) else mret tt);
  bump "runtime.cancel_all_orders".

Definition active_or_created : list OrderStatus := [os_open; os_submitted; os_partially_filled; os_created].

Definition coinstore_open_order_count : R Z :=
  orders ← live live_account_orders;
  mret (Z.of_nat (length (List.filter (fun o => bool_decide (lo_status o ∈ active_or_created)) orders))).

Definition close_result (symbol status reason : string) (more : dict) : pyval :=
  PDict ([("symbol", PStr symbol); ("status", PStr status); ("reason", PStr reason)] ++ more).

Definition opt_str (o : option string) : pyval := match o with Some s => PStr s | None => PNone end.

(** The first 12 characters of a uuid's hex. *)
Definition uuid12 : R string := u ← new_uuid; mret (String.substring 0 12 u).

(** The body of the [try] block of [_close_coinstore_positions]. *)
Definition close_balance (symbol : string) (balance : Balance) (bid : float) : R pyval :=
  precision ← live (live_precision symbol);
  quantity ← ok_or (quantize_down (bal_available balance) (quantity_step precision));
  raw_price ← ok_or (dec_of_float bid);
  price ← ok_or (quantize_down raw_price (price_tick precision));
  if dlt quantity (min_quantity precision) then
    mret (close_result symbol "skipped" "quantity_below_minimum" [("quantity", PStr (dec_str quantity))])
  else
    let notional := dmul quantity price in
    if dlt notional (min_notional precision) then
      mret (close_result symbol "skipped" "notional_below_minimum" [("notional", PStr (dec_str notional))])
    else
      u ← uuid12;
      let i := mkIntent coinstore symbol sell ot_limit quantity (Some price) ("emergency-close-" +:+ u) tif_ioc true
                 [("action", PStr "close_position")] in
      n ← coinstore_open_order_count;
      t ← utcnow;
      _ ← risk (assert_order_allowed t (mkRiskIntent symbol "sell" (float_of_dec price) (float_of_dec quantity))
                  (float_of_dec notional) (float_of_dec notional) n (of_Z 0));
      d ← canary_check i;
      if negb (cd_accepted d) || negb (cd_execution_allowed d) then
        mret (close_result symbol "rejected" (cd_reason d) [])
      else
        _ ← modify (fun s => set_sent (rt_sent s ++ [i]) s);
        order ← live (live_place_order i);
        _ ← bump "coinstore.positions_close_orders";
        mret (PDict [("symbol", PStr symbol); ("status", PStr "submitted"); ("client_order_id", opt_str (eo_client_order_id order));
                     ("exchange_order_id", opt_str (eo_exchange_order_id order)); ("quantity", PStr (dec_str quantity));
                     ("price", PStr (dec_str price))]).

Definition close_symbol (balances : list Balance) (symbol : string) : R pyval :=
  match split_once "/"%char symbol with
  | None => mret (close_result symbol "skipped" "symbol_not_normalized" [])
  | Some (base, _) =>
      match List.find (fun b => String.eqb (str_upper (bal_asset b)) (str_upper base)) balances with
      | None => mret (close_result symbol "skipped" "no_available_base_balance" [])
      | Some balance =>
          if dle (bal_available balance) dzero then mret (close_result symbol "skipped" "no_available_base_balance" [])
          else
            m ← gets rt_market;
            match key_for symbol (mk_orderbook m) ≫= fun k => od_get k (mk_orderbook m) with
            | None => mret (close_result symbol "skipped" "orderbook_unavailable" [])
            | Some book =>
                match best_bid book with
                | None => mret (close_result symbol "skipped" "best_bid_unavailable" [])
                | Some bid =>
                    se_catch (close_balance symbol balance bid)
                      (fun e => mret (close_result symbol "failed" (exn_str e) []))
                end
            end
      end
  end.

Fixpoint each_result {A} (f : A -> R pyval) (l : list A) : R (list pyval) :=
  match l with
  | [] => mret []
  | x :: l' => y ← f x; ys ← each_result f l'; mret (y :: ys)
  end.

Definition close_coinstore_positions : R pyval :=
  _ ← live live_client;
  balances ← live live_sync_balances;
  results ← each_result (close_symbol balances) (st_symbols st);
  mret (PDict [("venue", PStr "coinstore"); ("results", PList results)]).

Definition paper_close_result (r : dict) : pyval := PDict [("venue", PStr "paper"); ("results", PList [PDict r])].

(** Side, price and quantity of the order that closes a paper position. *)
Definition paper_close_order (base_quantity : dec) (book : OrderBookSnapshot) : result (option (ExecutionSide * dec * dec)) :=
  match dlt dzero base_quantity, best_bid book, dlt base_quantity dzero, best_ask book with
  | true, Some bid, _, _ => p ← dec_of_float bid; Ok (Some (sell, p, base_quantity))
  | _, _, true, Some ask => p ← dec_of_float ask; Ok (Some (buy, p, dabs base_quantity))
  | _, _, _, _ => Ok None
  end.

Definition close_paper_positions : R pyval :=
  m ← gets rt_market;
  match mk_orderbook m with
  | [] => mret (paper_close_result [("status", PStr "skipped"); ("reason", PStr "orderbook_unavailable")])
  | (_, book) :: _ =>
      e ← paper_engine;
      let base_quantity := balance_of (pe_account e) (st_base_asset st) in
      if deq base_quantity dzero then mret (paper_close_result [("status", PStr "skipped"); ("reason", PStr "no_position")])
      else
        o ← ok_or (paper_close_order base_quantity book);
        match o with
        | None => mret (paper_close_result [("status", PStr "skipped"); ("reason", PStr "close_price_unavailable")])
        | Some (side, price, quantity) =>
            u ← uuid12;
            let i := mkIntent binance (st_base_asset st +:+ "/" +:+ st_quote_asset st) side ot_limit quantity (Some price)
                       ("emergency-close-" +:+ u) tif_ioc false [] in
            r ← paper (place_order uuid clock i (Some book));
            _ ← bump "runtime.close_positions";
            o ← paper (order_at r);
            mret (paper_close_result [("status", PStr "submitted"); ("client_order_id", PStr (pd_cid o));
                    ("exchange_order_id", PStr (pd_exchange_order_id o)); ("quantity", PStr (dec_str quantity)); ("price", PStr (dec_str price))])
        end
  end.

Definition close_positions : R pyval := if is_live_mode then close_coinstore_positions else close_paper_positions.

(** ** Reconciliation *)

Definition cancel_if_stale (t : datetime) (max_age : float) (actions : Z) (x : string * nat) : R Z :=
  o ← paper (order_at x.2);
  if fge (total_seconds (t - pd_created_at o)) max_age then
    _ ← cancel_paper_lifecycle_order x.1; _ ← count_stale; mret (actions + 1)%Z
  else mret actions.

Definition orphan_row (t : datetime) (row : OrderRow) : OrderRow :=
  mkOrderRow (ow_client_order_id row) (ow_exchange_order_id row) (ow_exchange_account_id row) (ow_trading_pair_id row) (ow_side row)
    os_cancelled (ow_price row) (ow_quantity row) (ow_filled_quantity row) (ow_average_fill_price row)
    (od_set "orphan_cleanup_at" (PStr (isoformat t)) (od_set "orphan_cleanup" (PBool true) (ow_metadata row))).

Definition clean_orphan (t : datetime) (active : list string) (actions : Z) (x : Z * OrderRow) : R Z :=
  if bool_decide (ow_client_order_id x.2 ∈ active) then mret actions
  else
    _ ← session (save_order x.1 (orphan_row t x.2));
    _ ← life (fun l => mkLifecycle (lc_cancelled l + 1) (lc_stale l) (lc_replacements l) (lc_actions l + 1) (lc_rejections l) (lc_last_reconciliation l));
    mret (actions + 1)%Z.

Fixpoint fold_actions {A} (f : Z -> A -> R Z) (l : list A) (n : Z) : R Z :=
  match l with
  | [] => mret n
  | x :: l' => n' ← f n x; fold_actions f l' n'
  end.

Definition reconcile_paper_order_state : R Z :=
  t ← utcnow;
  c ← config;
  e ← paper_engine;
  actions ← fold_actions (cancel_if_stale t (max_order_age_seconds (rc_strategy c))) (pe_open_orders e) 0%Z;
  account_id ← paper ensure_exchange_account;
  rows ← session (rs_orders account_id);
  e ← paper_engine;
  let open_rows := List.filter (fun x => bool_decide (ow_status x.2 ∈ active_or_created)) rows in
  actions ← fold_actions (clean_orphan t (od_keys (pe_open_orders e))) open_rows actions;
  _ ← update_lifecycle_gauges;
  mret actions.

Definition handle_reconciliation_mismatches (n : Z) : R unit :=
  _ ← increment "reconciliation.alerts" (of_Z n);
  canary_shutdown "reconciliation_mismatch".

Definition mismatch_dict (x : ReconciliationMismatch) : pyval :=
  PDict [("category", PStr (mm_category x)); ("key", PStr (mm_key x)); ("severity", PStr (severity_value (mm_severity x)));
         ("message", PStr (mm_message x)); ("exchange_value", opt_str (mm_exchange_value x)); ("internal_value", opt_str (mm_internal_value x))].

Definition reconcile_live_orders : R unit :=
  report ← live (live_reconcile_all (st_symbols st));
  let mismatches := rp_mismatches report in
  _ ← bump "reconciliation.runs";
  _ ← increment "reconciliation.mismatches" (flen mismatches);
  _ ← increment "coinstore.reconciliation.stale_orders" (flen (rp_stale report));
  _ ← increment "coinstore.reconciliation.orphan_orders" (flen (rp_orphan report));
  match mismatches with
  | [] => mret tt
  | _ =>
      let n := Z.of_nat (length mismatches) in
      _ ← session (rs_add_risk_event "COINSTORE_RECONCILIATION_MISMATCH" (str_of_Z n +:+ " Coinstore reconciliation mismatches")
                     [("mismatches", PList (map mismatch_dict mismatches))]);
      handle_reconciliation_mismatches n
  end.

(** In paper mode the list of mismatches is always empty. *)
Definition reconcile_paper : R unit :=
  actions ← reconcile_paper_order_state;
  _ ← bump "reconciliation.runs";
  _ ← increment "reconciliation.mismatches" (of_Z 0);
  increment "order_lifecycle.reconciliation_actions" (of_Z actions).

Definition maybe_reconcile : R unit :=
  t ← utcnow;
  l ← gets rt_life;
  if flt (total_seconds (t - lc_last_reconciliation l)) (st_reconciliation_interval st) then mret tt
  else
    _ ← life (fun l => mkLifecycle (lc_cancelled l) (lc_stale l) (lc_replacements l) (lc_actions l) (lc_rejections l) t);
    if is_live_mode then reconcile_live_orders else reconcile_paper.

(** ** Configuration and commands *)

Definition reload_engines (c : RuntimeConfig) (e : Engines) : Engines :=
  mkEngines c (mkQuoteSettings (rc_spread c) (rc_order_size c) (rc_inventory c) (rc_order_layers c)) (rc_inventory c)
    (new_risk_engine (rc_risk c)) (volume_update_settings (rc_volume c) (en_volume e)) (en_policy e) (en_canary e).

(** [payload.get("runtime_config") or payload.get("payload", {}).get("runtime_config")] *)
Definition runtime_payload (payload : pyval) : result pyval :=
  d ← as_dict payload;
  if truthy (pget "runtime_config" d) then Ok (pget "runtime_config" d)
  else inner ← as_dict (pget_default "payload" (PDict []) d); Ok (pget "runtime_config" inner).

Definition apply_config_payload (payload : pyval) (command_id : option string) : R unit :=
  r ← ok_or (runtime_payload payload);
  match r with
  | PDict doc =>
      c ← ok_or (model_validate doc);
      _ ← modify (fun s => set_engines (reload_engines c (rt_engines s)) s);
      _ ← set_trading (st_trading_enabled (rc_strategy c)) (st_quoting_enabled (rc_strategy c));
      _ ← bump "runtime.config_reloads";
      d ← ok_or (as_dict payload);
      let cid := match opt_or command_id None with
                 | Some c => c | None => py_str (por (pget "command_id" d) (PStr "")) end in
      publish_runtime_ack "market-maker-engine" (Some cid) "runtime_config_reload_ack" "acknowledged"
        [("domains", PList (map (fun kv => PStr kv.1) doc))]
  | _ => mret tt
  end.

(** [STRATEGY_COMMAND] *)
Definition strategy_command (payload : dict) : R unit :=
  let action := str_lower (py_str (por (pget "action" payload) (PStr ""))) in
  if bool_decide (action ∈ ["pause"; "stop"]) then
    _ ← set_trading false false;
    if String.eqb action "stop" then cancel_all_orders else mret tt
  else if bool_decide (action ∈ ["start"; "resume"]) then
    k ← kill_switch_active;
    if k : bool then mret tt else set_trading true true
  else mret tt.

Definition clear_market : R unit := market (fun m => mkMarketData [] [] [] (mk_volume m)).

(** The body of a command; the extra entries of its acknowledgement. *)
Definition run_command (command : string) (command_id : string) (payload : dict) : R dict :=
  if String.eqb command "CONFIG_RELOAD" then
    _ ← apply_config_payload (PDict payload) (Some command_id); mret []
  else if bool_decide (command ∈ ["DISABLE_TRADING"; "EMERGENCY_SHUTDOWN"]) then
    _ ← set_trading false false;
    t ← utcnow;
    _ ← risk (activate_kill_switch t (py_str (por (pget "reason" payload) (PStr (str_lower command)))));
    _ ← cancel_all_orders; mret []
  else if String.eqb command "ENABLE_TRADING" then
    k ← kill_switch_active;
    _ ← (if k : bool then mret tt else set_trading true true); mret []
  else if String.eqb command "CANCEL_ALL_ORDERS" then _ ← cancel_all_orders; mret []
  else if String.eqb command "CLOSE_POSITIONS" then r ← close_positions; mret [("close_positions", r)]
  else if String.eqb command "RUNTIME_RESTART" then _ ← cancel_all_orders; _ ← clear_market; mret []
  else if String.eqb command "STRATEGY_COMMAND" then _ ← strategy_command payload; mret []
  else mret [].

Definition command_of (message : dict) : string := str_upper (py_str (por (pget "command_type" message) (PStr ""))).

Definition handle_command (message : pyval) : R unit :=
  d ← ok_or (as_dict message);
  let command_id := py_str (por (pget "command_id" d) (PStr "")) in
  let command := command_of d in
  extra ← run_command command command_id (dict_or_empty (pget "payload" d));
  _ ← bump ("runtime.commands." +:+ (if String.eqb command "" then "unknown" else str_lower command));
  publish_runtime_ack "market-maker-engine" (opt_or (Some command_id) None) "runtime_command_ack" "acknowledged"
    (dict_merge [("command_type", PStr command)] extra).

(** ** The bus consumer and the tick *)

(** One message of the consumer loop; [None] is a message whose channel or data
    is not text. *)
Definition dispatch (channel data : string) : R unit :=
  payload ← ok_or (json_loads data);
  if str_startswith "marketdata:" channel then ingest_market_event channel payload
  else if str_startswith "runtime.config." channel then
    let cid := match payload with PDict d => pget "command_id" d | _ => PNone end in
    apply_config_payload payload (if truthy cid then Some (py_str cid) else None)
  else if String.eqb channel "engine.commands.market-maker-engine" then handle_command payload
  else mret tt.

Definition consume (message : option (string * string)) : R unit :=
  match message with
  | None => mret tt
  | Some (channel, data) => se_catch (dispatch channel data) (fun _ => bump "market_maker.bus_consumer_errors")
  end.

Definition private_message (message : dict) : R unit :=
  counts ← live (live_private_message message);
  let '(orders, fills, balances) := counts in
  _ ← increment "coinstore.private_order_updates" (of_Z orders);
  _ ← increment "coinstore.private_trade_updates" (of_Z fills);
  _ ← increment "coinstore.private_fill_updates" (of_Z fills);
  increment "coinstore.private_balance_updates" (of_Z balances).

Definition start_coinstore_private_stream : R unit :=
  f ← gets rt_flags;
  if fl_stream f then mret tt else _ ← live live_client; set_stream.

(** [psubscribe] may raise after the runtime is marked as started. *)
Definition ensure_started : R unit :=
  f ← gets rt_flags;
  if fl_started f then mret tt
  else
    _ ← set_started;
    t ← oracle;
    _ ← ok_or (bus_send t "psubscribe");
    if is_live_mode then start_coinstore_private_stream else mret tt.

Definition tick : R unit :=
  _ ← ensure_started;
  k ← kill_switch_active;
  if k : bool then bump "risk.kill_switch_blocks"
  else
    _ ← load_latest_market_state;
    _ ← each quote_symbol (st_symbols st);
    maybe_reconcile.

End Runtime.

(** ** [MarketMakerRuntime.__init__] *)

Definition canary_policy (st : RuntimeSettings) (c : RuntimeConfig) : result CanaryPolicy :=
  position ← dec_of_float (fmin (max_position_notional (rc_risk c)) (st_max_canary_position st));
  loss ← dec_of_float (max_daily_loss (rc_risk c));
  inventory ← dec_of_float (fmin (max_asset_exposure (rc_inventory c)) (st_max_canary_position st));
  notional ← dec_of_float (fmin (max_order_notional (rc_risk c)) (st_max_canary_notional st));
  Ok (mkPolicy position loss (max_open_orders (rc_risk c)) inventory notional [ot_limit; ot_post_only]).

Definition new_runtime {L D} (st : RuntimeSettings) (q : QuoteSettings) (c : RuntimeConfig) (t : datetime) (l : L) (d : D) : result (Runtime (L := L) (D := D)) :=
  cash ← dec_of_float (st_starting_cash st);
  policy ← canary_policy st c;
  Ok (mkRuntime (mkWorld (new_paper_engine cash (st_base_asset st) (st_quote_asset st) (dZ 1)) d 0) l [] []
        (mkMetrics [] [])
        (mkEngines c q (rc_inventory c) (new_risk_engine (rc_risk c)) (mkVolumeEngine (rc_volume c) None) policy
           (mkCanary (st_mode st) dzero dzero dzero 0 (utc_day t) false None))
        (mkFlags (st_trading_enabled (rc_strategy c)) (st_quoting_enabled (rc_strategy c)) false false)
        (mkMarketData [] [] [] None) (mkLifecycle 0 0 0 0 [] t)).

(** ** The Coinstore service as the live venue *)

Section Coinstore.
Context {D : Type} `{LiveSession D}.
Context (http : nat -> HttpRequest -> result HttpResponse) (time monotonic : nat -> float).
Context (clock : nat -> datetime) (uuid : nat -> string) (decrypt : string -> result string).
Context (fromtimestamp : float -> result datetime).

(** Run a service operation on the session it shares with the runtime. *)
Definition on_session {A} (m : SE (ServiceState (D := D)) A) : SE (ServiceState (D := D) * D) A :=
  fun '(s, d) =>
    let '(s', r) := m (mkService (sv_net s) d (sv_client s) (sv_account s) (sv_precision s) (sv_tick s)) in
    ((s', sv_db s'), r).

Definition coinstore_venue : LiveVenue (ServiceState (D := D)) D := {|
  live_client := on_session (s ← service_client monotonic decrypt; mret tt);
  live_place_order i := on_session (service_place_order http time monotonic clock uuid decrypt i);
  live_cancel_all symbol := on_session (service_cancel_all_orders http time monotonic clock uuid decrypt (Some symbol));
  live_sync_balances :=
    on_session (c ← service_client monotonic decrypt; s_net (sync_balances http time monotonic c));
  live_precision symbol := on_session (precision_for_symbol http time monotonic decrypt symbol);
  live_account_orders :=
    on_session (a ← service_account; table ← s_db ls_orders;
                mret (List.filter (fun o => lo_exchange_account_id o =? xa_id a)%Z table));
  live_reconcile_all symbols := on_session (reconcile_live http time monotonic clock uuid decrypt fromtimestamp symbols);
  live_private_message message :=
    on_session (handle_private_message http time monotonic clock uuid decrypt fromtimestamp message) |}.

End Coinstore.
