(* ===== verification/RuntimeProps.v ===== *)
(** * RuntimeProps: safety of the market-maker runtime

    The frame of each handler (the part of the state it leaves alone, see
    [frame] in the prelude) is derived from the frames of what it calls. *)

From Stdlib Require Import Ascii.
From S2P Require Import Prelude Rounding PyFloat PyDecimal PyData PyValue Models Config Precision Quoting Risk Canary Reconcile Inventory Volume Store Paper Client CoinstoreRules CoinstoreService MMRuntime.

#[local] Open Scope string_scope.
#[local] Open Scope list_scope.

(** Follow the code: binds, catches, branches; what is left is found among the
    frames already proved. *)
Ltac open_code := unfold mbind, R_bind, M_bind, mret, R_ret, M_ret in *; cbv beta.
Ltac frames :=
  open_code;
  repeat (first [ solve [eauto with frames nocore] | apply frame_bind; [|intros ?] | apply frame_ret
                | apply frame_catch; [|intros ?] | progress case_match ]).

(** ** The paper engine: only [place_order] creates an order *)

Section PaperFrames.
Context {D : Type} `{Session D} (uuid : nat -> string) (clock : nat -> datetime).

Definition heap_size (w : World (D := D)) : nat := length (pe_heap (w_engine w)).

Lemma frame_core {A} (m : M (D := D) A) : keeps_core m -> frame heap_size m.
Proof. intros K w. specialize (K w). unfold core in K. unfold heap_size. congruence. Qed.

Lemma heap_engine : frame heap_size (engine (D := D)).
Proof. done. Qed.
Lemma heap_lift {A} (r : result A) : frame heap_size (lift (D := D) r).
Proof. done. Qed.
Lemma heap_order_at r : frame heap_size (order_at (D := D) r).
Proof. done. Qed.
Lemma heap_now : frame heap_size (now (D := D) clock).
Proof. done. Qed.
Lemma heap_uuid : frame heap_size (fresh_uuid (D := D) uuid).
Proof. done. Qed.
Lemma heap_db {A} (m : SE D A) : frame heap_size (db m).
Proof. apply frame_core, keeps_db. Qed.
Lemma heap_update f : (forall e, length (pe_heap (f e)) = length (pe_heap e)) -> frame heap_size (update (D := D) f).
Proof. intros Hf w. apply Hf. Qed.
Lemma heap_set_order r f : frame heap_size (set_order (D := D) r f).
Proof. apply heap_update. intros e. simpl. apply length_alter. Qed.
Lemma heap_update_open f : frame heap_size (update (D := D) (fun e => with_open e (f e))).
Proof. by apply heap_update. Qed.
Lemma heap_update_mark x : frame heap_size (update (D := D) (fun e => with_mark e x)).
Proof. by apply heap_update. Qed.
Lemma heap_update_fills f : frame heap_size (update (D := D) (fun e => with_fills e (f e))).
Proof. by apply heap_update. Qed.
Lemma heap_update_account f : frame heap_size (update (D := D) (fun e => with_account e (f e))).
Proof. by apply heap_update. Qed.
Lemma heap_ensure_account : frame heap_size (ensure_exchange_account (D := D)).
Proof. apply frame_core, keeps_ensure_account. Qed.
Lemma heap_persist_order r : frame heap_size (persist_order (D := D) r).
Proof. apply frame_core, keeps_persist_order. Qed.
Lemma heap_persist_trade r f : frame heap_size (persist_trade (D := D) r f).
Proof. apply frame_core, keeps_persist_trade. Qed.
Lemma heap_persist_position s : frame heap_size (persist_position (D := D) s).
Proof. apply frame_core, keeps_persist_position. Qed.
#[local] Hint Resolve heap_engine heap_lift heap_order_at heap_now heap_uuid heap_db heap_set_order heap_update_open
  heap_update_mark heap_update_fills heap_update_account heap_persist_order heap_persist_trade heap_persist_position : frames.

Lemma heap_apply_fill r p q : frame heap_size (apply_fill uuid clock r p q).
Proof. unfold apply_fill. frames. Qed.
#[local] Hint Resolve heap_apply_fill : frames.
Lemma heap_fill_one symbol b r : frame heap_size (fill_one uuid clock symbol b r).
Proof. unfold fill_one. frames. Qed.
#[local] Hint Resolve heap_fill_one : frames.
Lemma heap_fill_loop symbol b rs : frame heap_size (fill_loop uuid clock symbol b rs).
Proof. induction rs; simpl; frames. Qed.
#[local] Hint Resolve heap_fill_loop : frames.
Lemma heap_simulate_fills symbol b : frame heap_size (simulate_fills uuid clock symbol b).
Proof. unfold simulate_fills. frames. Qed.
Lemma heap_cancel_order cid : frame heap_size (cancel_order clock cid).
Proof. unfold cancel_order. frames. Qed.
End PaperFrames.
#[export] Hint Resolve heap_order_at heap_now heap_uuid heap_db heap_ensure_account heap_simulate_fills heap_cancel_order : frames.

(** ** What trading is gated by *)

Section RuntimeFrames.
Context {L D : Type} `{Session D} `{RuntimeSession D} `{LiveVenue L D}.
Context (uuid : nat -> string) (clock : nat -> datetime) (time : nat -> float).
Context (fpow : float -> Z -> float) (quote_hex : nat -> string -> Z -> string).
Context (cache_get : nat -> string -> result pyval) (bus_send : nat -> string -> result unit).
Context (json_loads : string -> result pyval) (model_validate : dict -> result RuntimeConfig).
Context (fromisoformat : pyval -> result datetime) (st : RuntimeSettings).
#[local] Abbreviation RT := (Runtime (L := L) (D := D)).

(** The orders created so far: on paper, and sent to the live venue. *)
Definition orders_made (s : RT) : nat * list OrderIntent := (heap_size (rt_world s), rt_sent s).

(** The orders, the trading flags and the risk engine. *)
Definition gate (s : RT) : nat * list OrderIntent * bool * bool * RiskEngine :=
  (orders_made s, fl_trading (rt_flags s), fl_quoting (rt_flags s), en_risk (rt_engines s)).

Lemma gate_gets {A} (f : RT -> A) : frame gate (gets f).
Proof. done. Qed.
Lemma gate_ok_or {A} (r : result A) : frame gate (ok_or r).
Proof. done. Qed.
Lemma gate_modify f : (forall s, gate (f s) = gate s) -> frame gate (modify f).
Proof. intros Hf s. apply Hf. Qed.
Lemma gate_increment name x : frame gate (increment name x).
Proof. done. Qed.
Lemma gate_bump name : frame gate (bump name).
Proof. done. Qed.
Lemma gate_set_gauge name x : frame gate (set_gauge name x).
Proof. done. Qed.
Lemma gate_set_started : frame gate set_started.
Proof. done. Qed.
Lemma gate_set_stream : frame gate set_stream.
Proof. done. Qed.
Lemma gate_canary_shutdown r : frame gate (canary_shutdown r).
Proof. done. Qed.
Lemma gate_life f : frame gate (life f).
Proof. done. Qed.
Lemma gate_market f : frame gate (market f).
Proof. done. Qed.
Lemma gate_paper_engine : frame gate paper_engine.
Proof. done. Qed.
Lemma gate_config : frame gate config.
Proof. done. Qed.
Lemma gate_paper {A} (m : M (D := D) A) : frame heap_size m -> frame gate (paper m).
Proof.
  intros Hm s. unfold paper. specialize (Hm (rt_world s)). destruct (m (rt_world s)) as [w r]. simpl in Hm.
  unfold gate, orders_made. simpl. by rewrite Hm.
Qed.
Lemma gate_session {A} (m : SE D A) : frame gate (session m).
Proof. apply gate_paper. eauto with frames. Qed.
Lemma gate_utcnow : frame gate (utcnow clock).
Proof. apply gate_paper. eauto with frames. Qed.
Lemma gate_new_uuid : frame gate (new_uuid uuid).
Proof. apply gate_paper. eauto with frames. Qed.
Lemma gate_oracle : frame gate oracle.
Proof. by apply gate_paper. Qed.
Lemma gate_live {A} (m : SE (L * D) A) : frame gate (live m).
Proof. intros s. unfold live. by destruct (m (rt_live s, w_db (rt_world s))) as [[l d] r]. Qed.
#[local] Hint Resolve gate_gets gate_ok_or gate_increment gate_bump gate_set_gauge gate_set_started gate_set_stream gate_canary_shutdown
  gate_life gate_market gate_paper_engine gate_config gate_paper gate_session gate_utcnow gate_new_uuid gate_oracle gate_live : frames.

Lemma gate_each {A} (f : A -> R unit) l : (forall x, frame gate (f x)) -> frame gate (each f l).
Proof. intros Hf. induction l; simpl; frames. Qed.
#[local] Hint Resolve gate_each : frames.
Lemma gate_fold {A} (f : Z -> A -> R Z) l n : (forall n x, frame gate (f n x)) -> frame gate (fold_actions f l n).
Proof. intros Hf. revert n. induction l; simpl; intros; frames. Qed.
#[local] Hint Resolve gate_fold : frames.

Lemma gate_send channel p : frame gate (send bus_send channel p).
Proof. unfold send. frames. Qed.
#[local] Hint Resolve gate_send : frames.
Lemma gate_ack component cid ev status p : frame gate (publish_runtime_ack clock time bus_send component cid ev status p).
Proof. unfold publish_runtime_ack. frames. Qed.
Lemma gate_get_json key : frame gate (get_json cache_get key).
Proof. unfold get_json. frames. Qed.
#[local] Hint Resolve gate_ack gate_get_json : frames.
Lemma gate_kill_switch : frame gate (kill_switch_active cache_get st).
Proof. unfold kill_switch_active. frames. Qed.
Lemma gate_ingest channel p : frame gate (ingest_market_event uuid clock fromisoformat channel p).
Proof. unfold ingest_market_event. frames. Qed.
#[local] Hint Resolve gate_kill_switch gate_ingest : frames.
Lemma gate_load : frame gate (load_latest_market_state uuid clock cache_get fromisoformat st).
Proof.
  unfold load_latest_market_state. apply gate_each. intros x. apply gate_each. intros y. apply gate_each. intros k.
  unfold load_one, optional_cache_get_json. frames.
Qed.
Lemma gate_cancel_lifecycle cid : frame gate (cancel_paper_lifecycle_order clock cid).
Proof. unfold cancel_paper_lifecycle_order. frames. Qed.
#[local] Hint Resolve gate_load gate_cancel_lifecycle : frames.
Lemma gate_gauges : frame gate (update_lifecycle_gauges clock).
Proof. unfold update_lifecycle_gauges. frames. Qed.
#[local] Hint Resolve gate_gauges : frames.
Lemma gate_cancel_all : frame gate (cancel_all_orders clock st).
Proof.
  unfold cancel_all_orders, cancel_live_symbol. frames; apply gate_each; intros; frames.
Qed.
Lemma gate_reconcile : frame gate (maybe_reconcile clock st).
Proof.
  unfold maybe_reconcile, reconcile_live_orders, reconcile_paper, reconcile_paper_order_state, handle_reconciliation_mismatches.
  frames; apply gate_fold; intros; unfold cancel_if_stale, clean_orphan, count_stale; frames.
Qed.
Lemma gate_started : frame gate (ensure_started bus_send st).
Proof. unfold ensure_started, start_coinstore_private_stream. frames. Qed.
Lemma gate_private m : frame gate (private_message m).
Proof. unfold private_message. frames. Qed.
End RuntimeFrames.
#[export] Hint Resolve gate_gets gate_ok_or gate_increment gate_bump gate_set_gauge gate_paper_engine gate_config gate_paper gate_session
  gate_utcnow gate_oracle gate_live gate_life gate_ack gate_kill_switch gate_ingest gate_load gate_cancel_all gate_reconcile gate_started gate_private
  gate_market : frames.

(** ** Events *)

Inductive rt_event : Type :=
  | ETick
  | EMessage (channel data : string)
  | EPrivate (message : dict).

(** The commands that can create an order or turn trading on again. *)
Definition command_resumes (message : dict) : bool :=
  bool_decide (command_of message ∈ ["CONFIG_RELOAD"; "ENABLE_TRADING"; "CLOSE_POSITIONS"])
  || (String.eqb (command_of message) "STRATEGY_COMMAND"
      && bool_decide (str_lower (py_str (por (pget "action" (dict_or_empty (pget "payload" message))) (PStr ""))) ∈ ["start"; "resume"])).

Definition message_resumes (channel : string) (payload : pyval) : bool :=
  str_startswith "runtime.config." channel
  || (String.eqb channel "engine.commands.market-maker-engine" && match payload with PDict d => command_resumes d | _ => false end).

Section Safety.
Context {L D : Type} `{Session D} `{RuntimeSession D} `{LiveVenue L D}.
Context (uuid : nat -> string) (clock : nat -> datetime) (time : nat -> float).
Context (fpow : float -> Z -> float) (quote_hex : nat -> string -> Z -> string).
Context (cache_get : nat -> string -> result pyval) (bus_send : nat -> string -> result unit).
Context (json_loads : string -> result pyval) (model_validate : dict -> result RuntimeConfig).
Context (fromisoformat : pyval -> result datetime) (st : RuntimeSettings).
#[local] Abbreviation RT := (Runtime (L := L) (D := D)).

Definition event_resumes (ev : rt_event) : bool :=
  match ev with
  | EMessage channel data => match json_loads data with Ok p => message_resumes channel p | Err _ => false end
  | _ => false
  end.

Definition rt_apply (ev : rt_event) (s : RT) : RT :=
  match ev with
  | ETick => (tick uuid clock fpow quote_hex cache_get bus_send fromisoformat st s).1
  | EMessage channel data =>
      (consume uuid clock time cache_get bus_send json_loads model_validate fromisoformat st (Some (channel, data)) s).1
  | EPrivate m => (private_message m s).1
  end.

Inductive rt_run : RT -> list rt_event -> RT -> Prop :=
  | run_nil s : rt_run s [] s
  | run_cons s ev evs s' : rt_run (rt_apply ev s) evs s' -> rt_run s (ev :: evs) s'.

(** Trading is off and the orders made so far are [o]. *)
Definition paused (o : nat * list OrderIntent) (s : RT) : Prop :=
  fl_trading (rt_flags s) = false /\ orders_made s = o.

Lemma gate_paused {A} o (m : R A) : frame gate m -> stable (paused o) m.
Proof. intros Hf s [E1 E2]. specialize (Hf s). unfold gate in Hf. unfold paused. split; congruence. Qed.

Lemma paused_set_trading o q : stable (paused o) (set_trading false q).
Proof. intros s [_ E]. by split. Qed.

Lemma paused_quote_symbol o symbol : stable (paused o) (quote_symbol uuid clock fpow quote_hex st symbol).
Proof. intros s [E1 E2]. unfold quote_symbol, mbind, R_bind, se_bind, gets, config. simpl. by rewrite E1. Qed.

Lemma paused_each {A} o (f : A -> R unit) l : (forall x, stable (paused o) (f x)) -> stable (paused o) (each f l).
Proof.
  intros Hf. induction l as [|x l IH]; [apply stable_ret|]. simpl. apply stable_bind; [done|]. intros _. exact IH.
Qed.

Lemma paused_tick o : stable (paused o) (tick uuid clock fpow quote_hex cache_get bus_send fromisoformat st).
Proof.
  unfold tick. open_code. apply stable_bind; [apply gate_paused; eauto with frames|intros _].
  apply stable_bind; [apply gate_paused; eauto with frames|intros []]; [apply gate_paused; eauto with frames|].
  apply stable_bind; [apply gate_paused; eauto with frames|intros _].
  apply stable_bind; [apply paused_each, paused_quote_symbol|intros _]. apply gate_paused. eauto with frames.
Qed.

(** A command that does not resume trading keeps it off. *)
Lemma paused_command o d cid : command_resumes d = false ->
  stable (paused o) (run_command uuid clock time cache_get bus_send model_validate st (command_of d) cid (dict_or_empty (pget "payload" d))).
Proof.
  unfold command_resumes. intros C. apply orb_false_iff in C as [C1 C2]. apply bool_decide_eq_false_1 in C1.
  unfold run_command. open_code.
  destruct (String.eqb_spec (command_of d) "CONFIG_RELOAD") as [E|_]; [set_solver|].
  destruct (bool_decide (_ ∈ ["DISABLE_TRADING"; "EMERGENCY_SHUTDOWN"])).
  { apply stable_bind; [apply paused_set_trading|intros _]. apply stable_bind; [apply gate_paused; eauto with frames|intros t].
    apply stable_bind; [intros s P; exact P|intros _].
    apply stable_bind; [apply gate_paused; eauto with frames|intros _]. apply stable_ret. }
  destruct (String.eqb_spec (command_of d) "ENABLE_TRADING") as [E|_]; [set_solver|].
  destruct (String.eqb _ "CANCEL_ALL_ORDERS"); [apply gate_paused; frames|].
  destruct (String.eqb_spec (command_of d) "CLOSE_POSITIONS") as [E|_]; [set_solver|].
  destruct (String.eqb _ "RUNTIME_RESTART"); [apply gate_paused; unfold clear_market; frames|].
  destruct (String.eqb _ "STRATEGY_COMMAND"); [|apply stable_ret].
  apply stable_bind; [|intros _; apply stable_ret]. unfold strategy_command. open_code.
  destruct (bool_decide (_ ∈ ["pause"; "stop"])); [apply stable_bind; [apply paused_set_trading|intros _; apply gate_paused; frames]|].
  simpl in C2. rewrite C2. apply stable_ret.
Qed.

(** A computation that starts with a pure result. *)
Lemma stable_pure {A B} I (r : result A) (k : A -> R B) :
  (forall a, r = Ok a -> stable I (k a)) -> stable I (se_bind RT A B k (ok_or r)).
Proof. intros Hk s Hs. unfold se_bind, ok_or. destruct r as [a|e]; [by apply Hk|done]. Qed.

Lemma paused_dispatch o channel data : event_resumes (EMessage channel data) = false ->
  stable (paused o) (dispatch uuid clock time cache_get bus_send json_loads model_validate fromisoformat st channel data).
Proof.
  intros C. unfold dispatch. open_code. apply stable_pure. intros p J. simpl in C. rewrite J in C.
  unfold message_resumes in C. apply orb_false_iff in C as [C1 C2]. rewrite C1.
  destruct (str_startswith "marketdata:" channel); [apply gate_paused; eauto with frames|].
  destruct (String.eqb channel _); [|apply stable_ret]. unfold handle_command. open_code.
  apply stable_pure. intros d E. destruct p; try done. injection E as <-. simpl in C2.
  apply stable_bind; [by apply paused_command|intros extra].
  apply stable_bind; [apply gate_paused; eauto with frames|intros _]. apply gate_paused; eauto with frames.
Qed.

Lemma paused_apply o ev s : event_resumes ev = false -> paused o s -> paused o (rt_apply ev s).
Proof.
  intros C P. destruct ev as [|channel data|m]; simpl.
  - by apply paused_tick.
  - revert s P. unfold consume. apply stable_catch; [by apply paused_dispatch|intros e]. apply gate_paused. eauto with frames.
  - revert s P. apply gate_paused. eauto with frames.
Qed.

Lemma paused_run o s evs s' : rt_run s evs s' -> forallb (fun ev => negb (event_resumes ev)) evs = true -> paused o s -> paused o s'.
Proof.
  induction 1 as [|s ev evs s' Hr IH]; [done|]. simpl. intros [C1 C2]%andb_prop P. apply IH; [done|].
  apply paused_apply; [by apply negb_true_iff|done].
Qed.
End Safety.

(** C1: once trading is off, no sequence of ticks, bus messages and private
    stream messages creates an order, on paper or at the live venue, or turns
    trading on again, unless a message is one of the commands meant to: a
    configuration reload, ENABLE_TRADING, CLOSE_POSITIONS or the start and
    resume actions. Handlers that raise are included. *)
Theorem paused_runtime_places_nothing {L D} (S1 : Session D) (S2 : RuntimeSession D) (V : LiveVenue L D)
    uuid clock time fpow hex cache_get bus_send json_loads model_validate fromiso st (s s' : Runtime (L := L) (D := D)) evs :
  rt_run uuid clock time fpow hex cache_get bus_send json_loads model_validate fromiso st s evs s' ->
  fl_trading (rt_flags s) = false -> forallb (fun ev => negb (event_resumes json_loads ev)) evs = true ->
  orders_made s' = orders_made s /\ fl_trading (rt_flags s') = false.
Proof.
  intros Hr T C. destruct (paused_run _ _ _ _ _ _ _ _ _ _ _ (orders_made s) _ _ _ Hr C) as [P1 P2]; [by split|done].
Qed.

(** ** The kill switch in the cache *)

Section KillSwitch.
Context {L D : Type} `{Session D} `{RuntimeSession D} `{LiveVenue L D}.
Context (cache_get : nat -> string -> result pyval) (bus_send : nat -> string -> result unit) (st : RuntimeSettings).
#[local] Abbreviation RT := (Runtime (L := L) (D := D)).

(** The cached kill switch stops trading: it is active, or it cannot be read
    and the mode is neither paper nor shadow. *)
Definition kill_state_blocks (r : result pyval) : bool :=
  match r with
  | Err _ => negb (bool_decide (st_mode st ∈ [lm_paper; lm_shadow]))
  | Ok (PDict d) => truthy (pget "active" d)
  | Ok _ => false
  end.

Definition engine_view (s : RT) : PaperEngine * list OrderIntent := (w_engine (rt_world s), rt_sent s).

Lemma engine_started : frame engine_view (ensure_started bus_send st).
Proof.
  assert (Lv : forall A (m : SE (L * D) A), frame engine_view (live m)).
  { intros A m s. unfold live. by destruct (m (rt_live s, w_db (rt_world s))) as [[l d] r]. }
  unfold ensure_started, start_coinstore_private_stream. open_code.
  repeat (first [apply frame_bind; [|intros ?] | apply Lv | done | apply frame_ret | progress case_match]).
Qed.

Lemma kill_switch_run (s : RT) : (forall n, kill_state_blocks (cache_get n "risk:kill_switch") = true) ->
  exists s', kill_switch_active cache_get st s = (s', Ok true) /\ engine_view s' = engine_view s /\
             cs_kill_switch_active (en_canary (rt_engines s')) = true.
Proof.
  intros K. specialize (K (w_tick (rt_world s))). unfold kill_switch_active, get_json, se_catch.
  unfold mbind, R_bind, mret, R_ret, se_ret, se_bind, oracle, paper, ok_or.
  destruct (cache_get _ _) as [[]|e]; simpl in K; try done.
  - cbv beta iota. rewrite K. eexists. split_and!; reflexivity.
  - cbv beta iota. apply negb_true_iff, bool_decide_eq_false_1 in K.
    destruct (st_mode st); try (exfalso; apply K; set_solver); eexists; split_and!; reflexivity.
Qed.
End KillSwitch.


(** ** Commands *)

Section Commands.
Context {L D : Type} `{Session D} `{RuntimeSession D} `{LiveVenue L D}.
Context (uuid : nat -> string) (clock : nat -> datetime) (time : nat -> float).
Context (cache_get : nat -> string -> result pyval) (bus_send : nat -> string -> result unit).
Context (json_loads : string -> result pyval) (model_validate : dict -> result RuntimeConfig).
Context (fromisoformat : pyval -> result datetime) (st : RuntimeSettings).
#[local] Abbreviation RT := (Runtime (L := L) (D := D)).

(** Trading and quoting are off, the kill switch is active, the orders are [o]. *)
Definition stopped (o : nat * list OrderIntent) (s : RT) : Prop :=
  fl_trading (rt_flags s) = false /\ fl_quoting (rt_flags s) = false /\
  ks_active (rk_kill_switch (en_risk (rt_engines s))) = true /\ orders_made s = o.

Lemma gate_stopped {A} o (m : R A) : frame gate m -> stable (stopped o) m.
Proof.
  intros Hf s (O1 & O2 & O3 & O4). specialize (Hf s). unfold gate in Hf. unfold stopped.
  injection Hf as E1 E2 E3 E4 E5. unfold orders_made in *. rewrite E1, E2, E3, E4, E5. done.
Qed.

Definition shutdown_commands : list string := ["DISABLE_TRADING"; "EMERGENCY_SHUTDOWN"].

Lemma shutdown_run command cid p (s : RT) : command ∈ shutdown_commands ->
  stopped (orders_made s) (run_command uuid clock time cache_get bus_send model_validate st command cid p s).1.
Proof.
  intros C. unfold run_command.
  replace (String.eqb command "CONFIG_RELOAD") with false
    by (symmetry; apply String.eqb_neq; intros ->; unfold shutdown_commands in C; set_solver).
  rewrite bool_decide_eq_true_2 by done. open_code.
  unfold se_bind at 1. cbn [set_trading modify]. unfold se_bind at 1. cbn [utcnow paper now].
  unfold se_bind at 1. unfold risk, activate_kill_switch, se_modify. cbv beta iota zeta.
  match goal with |- stopped ?o (se_bind _ _ _ _ _ ?x).1 => assert (P : stopped o x) by (by split_and!) end.
  revert P. apply stable_bind; [apply gate_stopped; eauto with frames|intros _]. apply stable_ret.
Qed.

Lemma shutdown_dispatch data d (s : RT) : json_loads data = Ok (PDict d) -> command_of d ∈ shutdown_commands ->
  stopped (orders_made s) (dispatch uuid clock time cache_get bus_send json_loads model_validate fromisoformat st
                             "engine.commands.market-maker-engine" data s).1.
Proof.
  intros J C. unfold dispatch, handle_command. open_code. rewrite J. unfold se_bind at 1, ok_or at 1.
  change (str_startswith "marketdata:" _) with false. change (str_startswith "runtime.config." _) with false.
  change (String.eqb "engine.commands.market-maker-engine" _) with true. cbv iota.
  unfold se_bind at 1, ok_or at 1. cbn [as_dict]. unfold se_bind at 1.
  pose proof (shutdown_run (command_of d) (py_str (por (pget "command_id" d) (PStr ""))) (dict_or_empty (pget "payload" d)) s C) as P.
  destruct (run_command _ _ _ _ _ _ _ _ _ _ s) as [s1 [extra|e]]; [|done]. simpl in P. revert P.
  apply gate_stopped. frames.
Qed.
End Commands.

(** C3: an emergency shutdown or a DISABLE_TRADING command switches trading
    and quoting off and activates the risk engine's kill switch, and creates no
    order, also when cancelling the open orders or acknowledging the command
    raises. *)
Theorem shutdown_command_stops_trading {L D} (S1 : Session D) (S2 : RuntimeSession D) (V : LiveVenue L D)
    uuid clock time cache_get bus_send json_loads model_validate fromiso st (s s' : Runtime (L := L) (D := D)) data d r :
  json_loads data = Ok (PDict d) -> command_of d ∈ shutdown_commands ->
  consume uuid clock time cache_get bus_send json_loads model_validate fromiso st
    (Some ("engine.commands.market-maker-engine", data)) s = (s', r) ->
  fl_trading (rt_flags s') = false /\ fl_quoting (rt_flags s') = false /\
  ks_active (rk_kill_switch (en_risk (rt_engines s'))) = true /\ orders_made s' = orders_made s.
Proof.
  intros J C E. pose proof (shutdown_dispatch uuid clock time cache_get bus_send json_loads model_validate fromiso st data d s J C) as P.
  unfold consume, se_catch in E. destruct (dispatch _ _ _ _ _ _ _ _ _ _ _ s) as [s1 [[]|e]]; by injection E as <- <-.
Qed.

(** A configuration reload replaces the risk engine, whatever the state of
    the old one: an active kill switch and open circuit breakers are forgotten,
    and the trading flags become those of the document. The canary controller
    and its limits are kept. *)
Theorem config_reload_replaces_risk_engine {L D} (S1 : Session D) (S2 : RuntimeSession D)
    clock time bus_send model_validate (s s' : Runtime (L := L) (D := D)) payload cid doc c r :
  runtime_payload payload = Ok (PDict doc) -> model_validate doc = Ok c ->
  apply_config_payload clock time bus_send model_validate payload cid s = (s', r) ->
  en_risk (rt_engines s') = new_risk_engine (rc_risk c) /\ ks_active (rk_kill_switch (en_risk (rt_engines s'))) = false /\
  fl_trading (rt_flags s') = st_trading_enabled (rc_strategy c) /\ fl_quoting (rt_flags s') = st_quoting_enabled (rc_strategy c) /\
  orders_made s' = orders_made s.
Proof.
  intros P M. unfold apply_config_payload. open_code. unfold se_bind at 1, ok_or at 1. rewrite P.
  unfold se_bind at 1, ok_or at 1. rewrite M. do 3 (unfold se_bind at 1; cbn [modify set_trading bump increment]).
  match goal with |- se_bind _ _ _ ?k ?m ?x = _ -> _ => assert (F : frame gate (se_bind _ _ _ k m)) by frames; specialize (F x) end.
  intros E. rewrite E in F. unfold gate in F. cbn in F. injection F as F1 F2 F3 F4 F5.
  unfold orders_made. rewrite F1, F2, F3, F4, F5. by split_and!.
Qed.

(** ** Submission *)

Section Submission.
Context {L D : Type} `{Session D} `{RuntimeSession D} `{LiveVenue L D}.
Context (uuid : nat -> string) (clock : nat -> datetime) (st : RuntimeSettings).
#[local] Abbreviation RT := (Runtime (L := L) (D := D)).

(** The risk engine admits the order in the state the runtime is in. *)
Definition risk_admits (s : RT) (i : RiskOrderIntent) : Prop :=
  let e := w_engine (rt_world s) in
  let exposure := float_of_dec (exposure_notional e) in
  exists t, admissible (en_risk (rt_engines s)) t i exposure exposure (Z.of_nat (length (pe_open_orders e)))
              (float_of_dec (pa_realized_pnl (pe_account e))).

(** The parts of the state the checks read and keep. *)
Definition checks_view (s : RT) : nat * list OrderIntent * CanaryPolicy * CanaryState :=
  (orders_made s, en_policy (rt_engines s), en_canary (rt_engines s)).

Lemma risk_gate_run i (s s1 : RT) r : validate_risk (rk_settings (en_risk (rt_engines s))) = Ok (rk_settings (en_risk (rt_engines s))) ->
  risk_gate clock i s = (s1, r) -> checks_view s1 = checks_view s /\ (is_ok r = true -> risk_admits s i).
Proof.
  intros V. unfold risk_gate. open_code. unfold se_bind at 1, paper_engine, gets. unfold se_bind at 1, utcnow, paper, now.
  unfold risk. destruct (assert_order_allowed _ _ _ _ _ _ _) as [k res] eqn:E. intros [= <- <-]. split; [done|].
  destruct res as [ev|x]; [|done]. intros _. eexists. apply (assert_allowed_ok_iff _ _ _ _ _ _ _ V). by exists k, ev.
Qed.

Lemma canary_check_run i (s s1 : RT) r : canary_check clock i s = (s1, r) ->
  orders_made s1 = orders_made s /\
  exists d, r = Ok d /\
    (cd_accepted d = true -> cs_kill_switch_active (en_canary (rt_engines s)) = false /\
       (dval (intent_notional i) <= dval (cp_max_order_notional (en_policy (rt_engines s))))%Q).
Proof.
  unfold canary_check, canary_at. open_code. unfold se_bind at 1, utcnow, paper, now. cbv zeta. simpl rt_engines.
  set (t := clock _).
  pose proof (canary_evaluate_cases (en_policy (rt_engines s)) t (Some i) (en_canary (rt_engines s))) as C.
  pose proof (roll_day_fields t (en_canary (rt_engines s))) as (_ & _ & _ & F).
  destruct (canary_evaluate _ t _ _) as [c d]. intros [= <- <-]. split; [done|]. exists d. split; [done|]. intros A.
  destruct C as [(_ & _ & B & _)|[(x & _ & _ & _ & B & _)|(K & N & _)]]; [congruence..|].
  rewrite F in K. split; [done|]. apply automatic_reason_none in N as (_ & _ & _ & _ & N). by apply N.
Qed.

Lemma submit_checked_approved book i ri (s s1 : RT) r :
  validate_risk (rk_settings (en_risk (rt_engines s))) = Ok (rk_settings (en_risk (rt_engines s))) ->
  submit_checked uuid clock st book i ri s = (s1, r) -> orders_made s1 <> orders_made s ->
  risk_admits s ri /\ cs_kill_switch_active (en_canary (rt_engines s)) = false /\
  (dval (intent_notional i) <= dval (cp_max_order_notional (en_policy (rt_engines s))))%Q.
Proof.
  intros V. unfold submit_checked. open_code. unfold se_bind at 1.
  destruct (risk_gate clock ri s) as [s2 [ev|x]] eqn:E1; apply risk_gate_run in E1 as [F1 A1]; try done;
    unfold checks_view in F1; injection F1 as F1 F2 F3 F4.
  2:{ intros [= <- _] Ne. destruct Ne. unfold orders_made. congruence. }
  unfold se_bind at 1. cbn [bump increment modify]. unfold se_bind at 1.
  match goal with |- context [canary_check clock i ?x] => set (s3 := x) end.
  destruct (canary_check clock i s3) as [s4 r4] eqn:E2. apply canary_check_run in E2 as (O & d & -> & A2).
  change (orders_made s3) with (orders_made s2) in O.
  change (en_canary (rt_engines s3)) with (en_canary (rt_engines s2)) in A2.
  change (en_policy (rt_engines s3)) with (en_policy (rt_engines s2)) in A2. rewrite F3, F4 in A2.
  destruct (cd_accepted d) eqn:Ad; simpl negb; cbv iota.
  - intros _ _. split; [by apply A1|by apply A2].
  - intros [= <- _] Ne. destruct Ne. unfold orders_made in *. simpl. congruence.
Qed.
End Submission.

(** C2: submitting a quote creates an order, on paper or at the live venue,
    only if the risk engine admits it in the current state (kill switch off, no
    limit violated, no circuit breaker open), the canary controller is not shut
    down and the order's notional is within the canary limit. *)
Theorem submitted_order_is_approved {L D} (S1 : Session D) (S2 : RuntimeSession D) (V : LiveVenue L D)
    uuid clock st symbol book q i (s s' : Runtime (L := L) (D := D)) r :
  validate_risk (rk_settings (en_risk (rt_engines s))) = Ok (rk_settings (en_risk (rt_engines s))) ->
  quote_intent st symbol q = Ok i ->
  submit_quote uuid clock st symbol book q s = (s', r) -> orders_made s' <> orders_made s ->
  risk_admits s (mkRiskIntent symbol (qt_side q) (qt_price q) (qt_quantity q)) /\
  cs_kill_switch_active (en_canary (rt_engines s)) = false /\
  (dval (intent_notional i) <= dval (cp_max_order_notional (en_policy (rt_engines s))))%Q.
Proof.
  intros Vr Q. unfold submit_quote. open_code. unfold se_bind at 1, ok_or at 1. rewrite Q. unfold se_catch.
  destruct (submit_checked _ _ _ _ _ _ s) as [s1 [[]|x]] eqn:E.
  - intros [= <- <-]. by apply (submit_checked_approved uuid clock st book i _ s s1 (Ok tt)).
  - match goal with |- ?m s1 = _ -> _ => assert (F : frame gate m) by (unfold persist_risk_event; frames); specialize (F s1) end.
    intros Em. rewrite Em in F. unfold gate in F. injection F as F1 F2 _ _ _. intros Ne.
    apply (submit_checked_approved uuid clock st book i _ s s1 (Err x) Vr E). unfold orders_made in *. simpl in *. congruence.
Qed.

(** ** A concrete runtime *)

#[export] Instance mem_runtime_session : RuntimeSession MemDB := {
  rs_trades := fun d => (d, Ok (map (fun t => (Some (tw_traded_at t), Some (tw_price t), Some (tw_quantity t))) (mem_trades d)));
  rs_orders := fun a d => (d, Ok (List.filter (fun x => ow_exchange_account_id x.2 =? a)%Z (od_vals (mem_orders d))));
  rs_add_snapshot := fun _ d => (d, Ok tt);
  rs_add_risk_event := fun _ _ _ d => (d, Ok tt);
  rs_add_runtime_event := fun _ d => (d, Ok 1%Z) }.

(** A venue that is down. *)
Definition no_venue {A} : SE (unit * MemDB) A := fun s => (s, raise RuntimeError "no venue").
#[export] Instance down_venue : LiveVenue unit MemDB := {
  live_client := no_venue; live_place_order _ := no_venue; live_cancel_all _ := no_venue; live_sync_balances := no_venue;
  live_precision _ := no_venue; live_account_orders := no_venue; live_reconcile_all _ := no_venue; live_private_message _ := no_venue }.

Definition demo_settings (m : LaunchMode) : RuntimeSettings :=
  mkSettings m ["binance"] ["BTC/USDT"] (of_Z 60) (of_Z 100000) "BTC" "USDT" (of_Z 5000) (of_Z 2500).
Definition demo_quote_settings : QuoteSettings :=
  mkQuoteSettings (rc_spread default_runtime_config) (rc_order_size default_runtime_config)
    (rc_inventory default_runtime_config) (rc_order_layers default_runtime_config).

(** The clock advances by a minute per reading. *)
Definition minute_clock (n : nat) : datetime := seconds (60 * Z.of_nat n).

Definition demo_world : World (D := MemDB) := mkWorld (new_paper_engine (dZ 100000) "BTC" "USDT" (dZ 1)) empty_db 0.
Definition demo_runtime (m : LaunchMode) : Runtime (L := unit) (D := MemDB) :=
  match new_runtime (demo_settings m) demo_quote_settings default_runtime_config 0%Z tt empty_db with
  | Ok s => s
  | Err _ => mkRuntime demo_world tt [] [] (mkMetrics [] [])
               (mkEngines default_runtime_config demo_quote_settings (rc_inventory default_runtime_config)
                  (new_risk_engine (rc_risk default_runtime_config)) (mkVolumeEngine (rc_volume default_runtime_config) None)
                  (mkPolicy dzero dzero 0 dzero dzero []) (mkCanary m dzero dzero dzero 0 0 false None))
               (mkFlags false false false false) (mkMarketData [] [] [] None) (mkLifecycle 0 0 0 0 [] 0%Z)
  end.

(** A book whose levels do not reach the quote. *)
Definition far_book : OrderBookSnapshot :=
  mkBook "binance" "BTC/USDT" [mkLevel (of_Z 49000) (of_Z 1)] [mkLevel (of_Z 51000) (of_Z 1)] 0%Z None.
Definition old_quote : Quote := mkQuote "buy" (of_Z 49500) (flit 1 100) 1 "mm-btcusdt-buy-1-old".
Definition new_quote : Quote := mkQuote "buy" (of_Z 49500) (flit 1 100) 1 "mm-btcusdt-buy-1-new".

(** One quote on the book, then the ladder is refreshed with its successor. *)
Definition after_first_quote : Runtime (L := unit) (D := MemDB) :=
  (submit_quotes demo_uuid minute_clock (demo_settings lm_paper) "BTC/USDT" [old_quote] far_book (demo_runtime lm_paper)).1.

(** When the order of a ladder level is stale, the ladder returns its
    replacement twice, and the runtime places both orders under one client
    order id: after the refresh the level has two orders where one was desired,
    and only the second is still tracked as open. *)
Theorem stale_quote_is_placed_twice :
  (sync_paper_ladder minute_clock "BTC/USDT" [new_quote] after_first_quote).2 = Ok [new_quote; new_quote] /\
  let s := (submit_quotes demo_uuid minute_clock (demo_settings lm_paper) "BTC/USDT" [new_quote] far_book after_first_quote).1 in
  map pd_cid (pe_heap (w_engine (rt_world s))) = ["mm-btcusdt-buy-1-old"; "mm-btcusdt-buy-1-new"; "mm-btcusdt-buy-1-new"] /\
  pe_open_orders (w_engine (rt_world s)) = [("mm-btcusdt-buy-1-new", 2%nat)].
Proof. vm_compute. split_and!; reflexivity. Qed.

Definition demo_json (s : string) : result pyval :=
  if String.eqb s "stop" then Ok (PDict [("command_type", PStr "emergency_shutdown")]) else Ok (PDict []).
Definition empty_cache (_ : nat) (_ : string) : result pyval := Ok PNone.
Definition broken_cache (_ : nat) (_ : string) : result pyval := raise RuntimeError "redis is down".
Definition good_bus (_ : nat) (_ : string) : result unit := Ok tt.
Definition demo_time (_ : nat) : float := of_Z 0.
Definition demo_hex (_ : nat) : string -> Z -> string := no_hex.
Definition demo_iso (_ : pyval) : result datetime := Ok 0%Z.
Definition demo_validate (_ : dict) : result RuntimeConfig := Ok default_runtime_config.

Definition paused_demo : Runtime (L := unit) (D := MemDB) := set_flags (mkFlags false false false false) (demo_runtime lm_paper).
Definition demo_events : list rt_event := [ETick; EMessage "marketdata:ticker:binance:BTC/USDT" "x"; EPrivate []].
#[local] Abbreviation demo_apply :=
  (rt_apply demo_uuid minute_clock demo_time fpow_exact demo_hex empty_cache good_bus demo_json demo_validate demo_iso (demo_settings lm_paper)).

Lemma paused_runtime_places_nothing_witness :
  fl_trading (rt_flags paused_demo) = false /\
  orders_made (foldl (fun s ev => demo_apply ev s) paused_demo demo_events) = (0%nat, []).
Proof.
  split; [reflexivity|].
  pose proof (paused_runtime_places_nothing _ _ _ demo_uuid minute_clock demo_time fpow_exact demo_hex empty_cache good_bus demo_json
    demo_validate demo_iso (demo_settings lm_paper) paused_demo (foldl (fun s ev => demo_apply ev s) paused_demo demo_events) demo_events) as T.
  rewrite (proj1 (T ltac:(repeat constructor) eq_refl eq_refl)). reflexivity.
Defined.


Lemma shutdown_command_stops_trading_witness :
  fl_trading (rt_flags after_first_quote) = true /\
  let s := (consume demo_uuid minute_clock demo_time empty_cache good_bus demo_json demo_validate demo_iso (demo_settings lm_paper)
              (Some ("engine.commands.market-maker-engine", "stop")) after_first_quote).1 in
  fl_trading (rt_flags s) = false /\ ks_active (rk_kill_switch (en_risk (rt_engines s))) = true.
Proof.
  split; [vm_compute; reflexivity|]. destruct (consume _ _ _ _ _ _ _ _ _ _ _) as [s' r] eqn:E.
  pose proof (shutdown_command_stops_trading _ _ _ demo_uuid minute_clock demo_time empty_cache good_bus demo_json demo_validate demo_iso
    (demo_settings lm_paper) after_first_quote s' "stop" [("command_type", PStr "emergency_shutdown")] r) as T.
  destruct T as (T & _ & K & _); [reflexivity|vm_compute; apply list_elem_of_further, list_elem_of_here|exact E|split; assumption].
Defined.

Definition killed_demo : Runtime (L := unit) (D := MemDB) :=
  (consume demo_uuid minute_clock demo_time empty_cache good_bus demo_json demo_validate demo_iso (demo_settings lm_paper)
     (Some ("engine.commands.market-maker-engine", "stop")) (demo_runtime lm_paper)).1.

Lemma config_reload_replaces_risk_engine_witness :
  ks_active (rk_kill_switch (en_risk (rt_engines killed_demo))) = true /\
  let s := (apply_config_payload minute_clock demo_time good_bus demo_validate
              (PDict [("runtime_config", PDict [("risk", PDict [])])]) None killed_demo).1 in
  ks_active (rk_kill_switch (en_risk (rt_engines s))) = false /\ fl_trading (rt_flags s) = true.
Proof.
  split; [vm_compute; reflexivity|]. destruct (apply_config_payload _ _ _ _ _ _ _) as [s' r] eqn:E.
  destruct (config_reload_replaces_risk_engine _ _ minute_clock demo_time good_bus demo_validate killed_demo s'
    (PDict [("runtime_config", PDict [("risk", PDict [])])]) None [("risk", PDict [])] default_runtime_config r
    eq_refl eq_refl E) as (_ & K & T & _ & _). split; [exact K|exact T].
Defined.

Lemma submitted_order_is_approved_witness :
  orders_made (submit_quote demo_uuid minute_clock (demo_settings lm_paper) "BTC/USDT" far_book old_quote (demo_runtime lm_paper)).1 = (1%nat, [])
  /\ risk_admits (demo_runtime lm_paper) (mkRiskIntent "BTC/USDT" "buy" (of_Z 49500) (flit 1 100)).
Proof.
  assert (O : orders_made (submit_quote demo_uuid minute_clock (demo_settings lm_paper) "BTC/USDT" far_book old_quote (demo_runtime lm_paper)).1
              = (1%nat, [])) by (vm_compute; reflexivity).
  split; [exact O|].
  destruct (quote_intent (demo_settings lm_paper) "BTC/USDT" old_quote) as [i|e] eqn:Q; [|vm_compute in Q; discriminate].
  destruct (submit_quote _ _ _ _ _ _ _) as [s' r] eqn:E.
  apply (submitted_order_is_approved _ _ _ demo_uuid minute_clock (demo_settings lm_paper) "BTC/USDT" far_book old_quote i (demo_runtime lm_paper) s' r).
  - vm_compute. reflexivity.
  - exact Q.
  - exact E.
  - cbn [fst] in O. rewrite O. vm_compute. discriminate.
Defined.
