(* ===== verification/OrderBook.v ===== *)
(** * OrderBook: websocket connectors ([websocket/connectors.py])

    - [SequenceState] and [OrderBookReconstructor]: incremental order books, as
      a refinement of a finite map from prices to sizes;
    - [VenueWebSocketCodec]: subscription messages and sequence numbers;
    - [VenueWebSocketConnector]: the connection loop. The environment is a list
      of events: connection attempts (refused, or a session with its frames and
      its end) and calls of [stop]. The socket's [send], the clock,
      [json.loads] and the caller's callbacks are parameters; the waits are
      recorded. Logging is not modelled. *)

From Stdlib Require Import Ascii Sorted.
From Stdlib Require Qcanon.
From S2P Require Import Prelude Rounding PyFloat PyDecimal PyData PyValue Models Venue Signing.

#[local] Open Scope string_scope.
#[local] Open Scope list_scope.

(** ** Dictionaries keyed by decimals *)

(** Decimals that are numerically equal are the same key; an update keeps the
    key that is already there. *)
Definition price_key (d : dec) : Qcanon.Qc := Qcanon.Q2Qc (dval d).
Abbreviation side_book := (list (dec * dec)).

Fixpoint dd_get (p : dec) (d : side_book) : option dec :=
  match d with
  | [] => None
  | (p', s) :: d' => if decide (price_key p = price_key p') then Some s else dd_get p d'
  end.

Fixpoint dd_set (p s : dec) (d : side_book) : side_book :=
  match d with
  | [] => [(p, s)]
  | (p', s') :: d' => if decide (price_key p = price_key p') then (p', s) :: d' else (p', s') :: dd_set p s d'
  end.

(** [d.pop(p, None)] *)
Definition dd_pop (p : dec) (d : side_book) : side_book :=
  filter (fun kv => price_key kv.1 ≠ price_key p) d.

(** ** Subscriptions and sequences *)

Inductive StreamKind : Type :=
  | k_orderbook | k_trades | k_ticker | k_kline | k_user_data | k_balance_updates | k_order_updates | k_execution_reports.

#[export] Instance StreamKind_eq_dec : EqDecision StreamKind.
Proof. solve_decision. Defined.

Definition kind_value (k : StreamKind) : string :=
  match k with
  | k_orderbook => "orderbook" | k_trades => "trades" | k_ticker => "ticker" | k_kline => "kline"
  | k_user_data => "user_data" | k_balance_updates => "balance_updates" | k_order_updates => "order_updates"
  | k_execution_reports => "execution_reports"
  end.

Record StreamSubscription : Type := mkSubscription {
  su_venue : ExecutionVenue; su_symbol : option string; su_kind : StreamKind;
  su_interval : option string; su_token : option string }.

Record SequenceState : Type := mkSequence { last_sequence : option Z; gaps_detected : Z }.
Definition new_sequence : SequenceState := mkSequence None 0.

(** [SequenceState.validate] *)
Definition validate_sequence (sequence previous_sequence : option Z) (st : SequenceState) : SequenceState * bool :=
  match sequence with
  | None => (st, true)
  | Some sequence =>
      match last_sequence st with
      | None => (mkSequence (Some sequence) (gaps_detected st), true)
      | Some last =>
          let expected_previous := match previous_sequence with None => last | Some p => p end in
          if negb (expected_previous =? last)%Z || (sequence <=? last)%Z
          then (mkSequence (Some last) (gaps_detected st + 1), false)
          else (mkSequence (Some sequence) (gaps_detected st), true)
      end
  end.

(** ** Reconstructed books *)

Record ReconstructedOrderBook : Type := mkRBook { rb_bids : side_book; rb_asks : side_book; rb_sequence : option Z }.

(** Comparison of the [(price, size)] tuples of [sorted(d.items())]. *)
Definition item_le (x y : dec * dec) : bool :=
  if deq x.1 y.1 then dle x.2 y.2 else dlt x.1 y.1.
Definition item_ge (x y : dec * dec) : bool := item_le y x.

Definition positive_size (x : dec * dec) : bool := dlt dzero x.2.
Definition book_levels (le : dec * dec -> dec * dec -> bool) (d : side_book) : list (dec * dec) :=
  List.filter positive_size (sorted le d).
Definition level_of (x : dec * dec) : OrderBookLevel := mkLevel (float_of_dec x.1) (float_of_dec x.2).

Definition snapshot (venue symbol : string) (now : datetime) (b : ReconstructedOrderBook) : OrderBookSnapshot :=
  mkBook venue symbol (map level_of (book_levels item_ge (rb_bids b))) (map level_of (book_levels item_le (rb_asks b)))
    now (str_of_Z <$> rb_sequence b).

Definition book_id : Type := ExecutionVenue * string.
Record OrderBookReconstructor : Type := mkReconstructor {
  rc_books : list (book_id * ReconstructedOrderBook); rc_sequences : list (book_id * SequenceState) }.
Definition new_reconstructor : OrderBookReconstructor := mkReconstructor [] [].

(** [price, size, *_ = item] *)
Definition unpack2 (item : pyval) : result (pyval * pyval) :=
  l ← iterate item;
  match l with
  | a :: b :: _ => Ok (a, b)
  | _ => raise ValueError "not enough values to unpack"
  end.

(** [Decimal(str(price)), Decimal(str(size))] of one raw level. *)
Definition parse_level (item : pyval) : result (dec * dec) :=
  '(p, s) ← unpack2 item;
  price ← py_decimal_str p;
  size ← py_decimal_str s;
  Ok (price, size).

Definition side_of_levels (ls : list (dec * dec)) : side_book :=
  foldl (fun d kv => dd_set kv.1 kv.2 d) [] ls.

Definition RC (A : Type) : Type := SE OrderBookReconstructor A.
#[local] Instance RC_ret : MRet RC := se_ret OrderBookReconstructor.
#[local] Instance RC_bind : MBind RC := se_bind OrderBookReconstructor.

Definition put_book (k : book_id) (b : ReconstructedOrderBook) (r : OrderBookReconstructor) : OrderBookReconstructor :=
  mkReconstructor (od_set k b (rc_books r)) (rc_sequences r).
Definition put_sequence (k : book_id) (s : SequenceState) (r : OrderBookReconstructor) : OrderBookReconstructor :=
  mkReconstructor (rc_books r) (od_set k s (rc_sequences r)).

Definition apply_snapshot (now : datetime) (venue : ExecutionVenue) (symbol : string) (bids asks : list pyval)
    (sequence : option Z) : RC OrderBookSnapshot :=
  bs ← se_lift (result_mapM parse_level bids);
  as_ ← se_lift (result_mapM parse_level asks);
  let book := mkRBook (side_of_levels bs) (side_of_levels as_) sequence in
  _ ← se_modify (put_book (venue, symbol) book);
  _ ← se_modify (put_sequence (venue, symbol) (mkSequence sequence 0));
  mret (snapshot (venue_value venue) symbol now book).

(** One level of a delta: a zero size removes the price. *)
Definition delta_level (d : side_book) (price size : dec) : side_book :=
  if deq size dzero then dd_pop price d else dd_set price size d.

Definition update_bids (f : side_book -> side_book) (b : ReconstructedOrderBook) : ReconstructedOrderBook :=
  mkRBook (f (rb_bids b)) (rb_asks b) (rb_sequence b).
Definition update_asks (f : side_book -> side_book) (b : ReconstructedOrderBook) : ReconstructedOrderBook :=
  mkRBook (rb_bids b) (f (rb_asks b)) (rb_sequence b).

(** The body of one of the two loops of [apply_delta]: the book is changed in
    place, level by level. *)
Definition delta_step (k : book_id) (update : (side_book -> side_book) -> ReconstructedOrderBook -> ReconstructedOrderBook)
    (item : pyval) : RC unit :=
  '(price, size) ← se_lift (parse_level item);
  se_modify (fun r => match od_get k (rc_books r) with
                      | Some b => put_book k (update (fun d => delta_level d price size) b) r
                      | None => r
                      end).

(** [self.sequences.setdefault(key, SequenceState())] *)
Definition sequence_of (k : book_id) (r : OrderBookReconstructor) : SequenceState :=
  match od_get k (rc_sequences r) with Some s => s | None => new_sequence end.

Definition apply_delta (now : datetime) (venue : ExecutionVenue) (symbol : string) (bids asks : list pyval)
    (sequence previous_sequence : option Z) : RC (bool * option OrderBookSnapshot) :=
  let k := (venue, symbol) in
  r ← se_get;
  match od_get k (rc_books r) with
  | None => mret (false, None)
  | Some _ =>
      let '(st', valid) := validate_sequence sequence previous_sequence (sequence_of k r) in
      _ ← se_modify (put_sequence k st');
      if negb valid then mret (false, None) else
      _ ← se_iter (delta_step k update_bids) bids;
      _ ← se_iter (delta_step k update_asks) asks;
      r' ← se_get;
      match od_get k (rc_books r') with
      | None => mret (false, None)
      | Some b =>
          let b' := mkRBook (rb_bids b) (rb_asks b) sequence in
          _ ← se_modify (put_book k b');
          mret (true, Some (snapshot (venue_value venue) symbol now b'))
      end
  end.

(** ** Codec *)

(** [x or default] on optional text *)
Definition text_or (o : option string) (d : string) : string :=
  match o with Some s => if String.eqb s "" then d else s | None => d end.

Definition codec_symbol (s : StreamSubscription) : string :=
  let symbol := text_or (su_symbol s) "" in
  match su_venue s with
  | gate | bitmart => str_upper (str_replace "/" "_" symbol)
  | kucoin => str_upper (str_replace "/" "-" symbol)
  | binance => str_lower (str_replace "/" "" symbol)
  | _ => str_upper (str_replace "/" "" symbol)
  end.

Definition key_error {A} (k : StreamKind) : result A := raise KeyError (kind_value k).

Definition binance_stream (s : StreamSubscription) (symbol : string) : result string :=
  let mapped := match su_kind s with
                | k_orderbook => Ok (symbol +:+ "@depth@100ms")
                | k_trades => Ok (symbol +:+ "@trade")
                | k_ticker => Ok (symbol +:+ "@ticker")
                | k_kline => Ok (symbol +:+ "@kline_" +:+ text_or (su_interval s) "1m")
                | k => key_error k
                end in
  match su_token s with
  | Some t => if String.eqb t "" then mapped else Ok t
  | None => mapped
  end.

Definition mexc_stream (s : StreamSubscription) (symbol : string) : string :=
  match su_kind s with
  | k_orderbook => "spot@public.limit.depth.v3.api@" +:+ symbol +:+ "@20"
  | k_trades => "spot@public.deals.v3.api@" +:+ symbol
  | k_ticker => "spot@public.ticker.v3.api@" +:+ symbol
  | k_kline => "spot@public.kline.v3.api@" +:+ symbol +:+ "@" +:+ text_or (su_interval s) "Min1"
  | _ => "spot@private.orders.v3.api"
  end.

Definition gate_channel (s : StreamSubscription) : string :=
  match su_kind s with
  | k_orderbook => "spot.order_book_update" | k_trades => "spot.trades" | k_ticker => "spot.tickers"
  | k_kline => "spot.candlesticks" | k_user_data => "spot.usertrades" | k_order_updates => "spot.orders"
  | k_balance_updates => "spot.balances" | k_execution_reports => "spot.usertrades"
  end.

Definition gate_payload (s : StreamSubscription) (symbol : string) : list pyval :=
  match su_kind s with
  | k_kline => [PStr (text_or (su_interval s) "1m"); PStr symbol]
  | _ => [PStr symbol]
  end.

Definition bitmart_stream (s : StreamSubscription) (symbol : string) : result string :=
  match su_kind s with
  | k_orderbook => Ok ("spot/depth50:" +:+ symbol)
  | k_trades => Ok ("spot/trade:" +:+ symbol)
  | k_ticker => Ok ("spot/ticker:" +:+ symbol)
  | k_kline => Ok ("spot/kline" +:+ text_or (su_interval s) "1m" +:+ ":" +:+ symbol)
  | k_order_updates => Ok "spot/user/order"
  | k_balance_updates => Ok "spot/user/balance"
  | k_execution_reports => Ok "spot/user/trade"
  | k => key_error k
  end.

Definition kucoin_topic (s : StreamSubscription) (symbol : string) : result string :=
  match su_kind s with
  | k_orderbook => Ok ("/market/level2:" +:+ symbol)
  | k_trades => Ok ("/market/match:" +:+ symbol)
  | k_ticker => Ok ("/market/ticker:" +:+ symbol)
  | k_kline => Ok ("/market/candles:" +:+ symbol +:+ "_" +:+ text_or (su_interval s) "1min")
  | k_order_updates => Ok "/spotMarket/tradeOrders"
  | k_balance_updates => Ok "/account/balance"
  | k_execution_reports => Ok "/spotMarket/tradeOrders"
  | k => key_error k
  end.

Definition coinstore_channel (s : StreamSubscription) (symbol : string) : string :=
  match su_kind s with
  | k_orderbook => symbol +:+ "@depth"
  | k_trades => symbol +:+ "@trade"
  | k_ticker => symbol +:+ "@ticker"
  | k_kline => symbol +:+ "@kline_" +:+ text_or (su_interval s) "1m"
  | k => symbol +:+ "@" +:+ kind_value k
  end.

Definition private_kind (k : StreamKind) : bool :=
  match k with k_user_data | k_balance_updates | k_order_updates | k_execution_reports => true | _ => false end.

(** [subscribe_payload]; [time] is [time.time()]. *)
Definition subscribe_payload (time : float) (s : StreamSubscription) : result pyval :=
  let symbol := codec_symbol s in
  match su_venue s with
  | binance =>
      stream ← binance_stream s symbol;
      id ← float_int time;
      Ok (PDict [("method", PStr "SUBSCRIBE"); ("params", PList [PStr stream]); ("id", PInt id)])
  | mexc => Ok (PDict [("method", PStr "SUBSCRIPTION"); ("params", PList [PStr (mexc_stream s symbol)])])
  | gate =>
      t ← float_int time;
      Ok (PDict [("time", PInt t); ("channel", PStr (gate_channel s)); ("event", PStr "subscribe");
                 ("payload", PList (gate_payload s symbol))])
  | bitmart =>
      stream ← bitmart_stream s symbol;
      Ok (PDict [("op", PStr "subscribe"); ("args", PList [PStr stream])])
  | kucoin =>
      id ← time_ms time;
      topic ← kucoin_topic s symbol;
      Ok (PDict [("id", PStr (str_of_Z id)); ("type", PStr "subscribe"); ("topic", PStr topic);
                 ("privateChannel", PBool (private_kind (su_kind s))); ("response", PBool true)])
  | coinstore =>
      id ← float_int time;
      Ok (PDict [("op", PStr "SUB"); ("channel", PList [PStr (coinstore_channel s symbol)]); ("id", PInt id)])
  end.

(** [_int] *)
Definition int_or_none (v : pyval) : result (option Z) :=
  match v with
  | PNone => Ok None
  | PStr "" => Ok None
  | _ => match py_int v with
         | Ok z => Ok (Some z)
         | Err e => if exn_isinstance (ex_class e) TypeError || exn_isinstance (ex_class e) ValueError then Ok None else Err e
         end
  end.

Definition sequence_pair (a b : pyval) : result (option Z * option Z) :=
  s ← int_or_none a; p ← int_or_none b; Ok (s, p).

Definition parse_sequence (venue : ExecutionVenue) (message : dict) : result (option Z * option Z) :=
  match venue with
  | binance | mexc => sequence_pair (por (pget "u" message) (pget "lastUpdateId" message)) (por (pget "pu" message) (pget "U" message))
  | gate =>
      r ← as_dict (pget_default "result" (PDict []) message);
      sequence_pair (por (pget "u" r) (pget "last_update_id" r)) (pget "U" r)
  | kucoin =>
      d ← as_dict (pget_default "data" (PDict []) message);
      sequence_pair (por (pget "sequenceEnd" d) (pget "sequence" d)) (pget "sequenceStart" d)
  | bitmart =>
      let data := pget_default "data" (PList [PDict []]) message in
      row ← as_dict (match data with PList (x :: _) => x | _ => data end);
      sequence_pair (por (pget "ms_t" row) (pget "sequence" row)) PNone
  | coinstore => sequence_pair (por (pget "sequence" message) (pget "seq" message)) (pget "prevSeq" message)
  end.

(** ** Connector *)

(** What a socket does: it refuses, or delivers frames and then closes, with or
    without an exception. *)
Inductive Frame : Type := Text (s : string) | Binary (hex : string).
Inductive Socket : Type :=
  | Refused (e : exn)
  | WsSession (frames : list Frame) (failure : option exn).
Inductive ConnectorEvent : Type := Attempt (s : Socket) | StopCalled.

Section Connector.
Context {H : Type} (handler : dict -> SE H unit) (recover : option (StreamSubscription -> SE H unit)).
Context (json_loads : string -> result pyval) (time : nat -> float) (ws_send : nat -> string -> result unit).

Record Connector : Type := mkConnector {
  cn_venue : ExecutionVenue; cn_max_delay : float; cn_reconstructor : OrderBookReconstructor;
  cn_stopped : bool; cn_connected : bool; cn_attempts : Z; cn_received : Z; cn_callbacks : Z; cn_subscriptions_sent : Z;
  cn_samples : list dict;
  cn_delay : float;               (* the local variable of [connect] *)
  cn_sleeps : list float;         (* the waits, in order *)
  cn_wire : list string;          (* the texts sent *)
  cn_tick : nat; cn_host : H }.

Definition new_connector (venue : ExecutionVenue) (max_delay : float) (h : H) : Connector :=
  mkConnector venue max_delay new_reconstructor false false 0 0 0 0 [] (of_Z 1) [] [] 0 h.

Definition CN (A : Type) : Type := SE Connector A.
#[local] Instance CN_ret : MRet CN := se_ret Connector.
#[local] Instance CN_bind : MBind CN := se_bind Connector.

Definition cn_upd_recon (f : OrderBookReconstructor -> OrderBookReconstructor) (c : Connector) : Connector :=
  mkConnector (cn_venue c) (cn_max_delay c) (f (cn_reconstructor c)) (cn_stopped c) (cn_connected c) (cn_attempts c) (cn_received c)
    (cn_callbacks c) (cn_subscriptions_sent c) (cn_samples c) (cn_delay c) (cn_sleeps c) (cn_wire c) (cn_tick c) (cn_host c).
Definition cn_set_stopped (c : Connector) : Connector :=
  mkConnector (cn_venue c) (cn_max_delay c) (cn_reconstructor c) true (cn_connected c) (cn_attempts c) (cn_received c)
    (cn_callbacks c) (cn_subscriptions_sent c) (cn_samples c) (cn_delay c) (cn_sleeps c) (cn_wire c) (cn_tick c) (cn_host c).
Definition cn_set_connected (b : bool) (c : Connector) : Connector :=
  mkConnector (cn_venue c) (cn_max_delay c) (cn_reconstructor c) (cn_stopped c) b (cn_attempts c) (cn_received c)
    (cn_callbacks c) (cn_subscriptions_sent c) (cn_samples c) (cn_delay c) (cn_sleeps c) (cn_wire c) (cn_tick c) (cn_host c).
Definition cn_add_attempt (c : Connector) : Connector :=
  mkConnector (cn_venue c) (cn_max_delay c) (cn_reconstructor c) (cn_stopped c) (cn_connected c) (cn_attempts c + 1) (cn_received c)
    (cn_callbacks c) (cn_subscriptions_sent c) (cn_samples c) (cn_delay c) (cn_sleeps c) (cn_wire c) (cn_tick c) (cn_host c).
Definition cn_add_received (c : Connector) : Connector :=
  mkConnector (cn_venue c) (cn_max_delay c) (cn_reconstructor c) (cn_stopped c) (cn_connected c) (cn_attempts c) (cn_received c + 1)
    (cn_callbacks c) (cn_subscriptions_sent c) (cn_samples c) (cn_delay c) (cn_sleeps c) (cn_wire c) (cn_tick c) (cn_host c).
Definition cn_add_callback (c : Connector) : Connector :=
  mkConnector (cn_venue c) (cn_max_delay c) (cn_reconstructor c) (cn_stopped c) (cn_connected c) (cn_attempts c) (cn_received c)
    (cn_callbacks c + 1) (cn_subscriptions_sent c) (cn_samples c) (cn_delay c) (cn_sleeps c) (cn_wire c) (cn_tick c) (cn_host c).
Definition cn_add_sent (text : string) (c : Connector) : Connector :=
  mkConnector (cn_venue c) (cn_max_delay c) (cn_reconstructor c) (cn_stopped c) (cn_connected c) (cn_attempts c) (cn_received c)
    (cn_callbacks c) (cn_subscriptions_sent c + 1) (cn_samples c) (cn_delay c) (cn_sleeps c) (cn_wire c ++ [text]) (cn_tick c) (cn_host c).
Definition cn_set_samples (l : list dict) (c : Connector) : Connector :=
  mkConnector (cn_venue c) (cn_max_delay c) (cn_reconstructor c) (cn_stopped c) (cn_connected c) (cn_attempts c) (cn_received c)
    (cn_callbacks c) (cn_subscriptions_sent c) l (cn_delay c) (cn_sleeps c) (cn_wire c) (cn_tick c) (cn_host c).
Definition cn_set_delay (d : float) (c : Connector) : Connector :=
  mkConnector (cn_venue c) (cn_max_delay c) (cn_reconstructor c) (cn_stopped c) (cn_connected c) (cn_attempts c) (cn_received c)
    (cn_callbacks c) (cn_subscriptions_sent c) (cn_samples c) d (cn_sleeps c) (cn_wire c) (cn_tick c) (cn_host c).
Definition cn_add_sleep (d : float) (c : Connector) : Connector :=
  mkConnector (cn_venue c) (cn_max_delay c) (cn_reconstructor c) (cn_stopped c) (cn_connected c) (cn_attempts c) (cn_received c)
    (cn_callbacks c) (cn_subscriptions_sent c) (cn_samples c) (cn_delay c) (cn_sleeps c ++ [d]) (cn_wire c) (cn_tick c) (cn_host c).
Definition cn_set_host (t : nat) (h : H) (c : Connector) : Connector :=
  mkConnector (cn_venue c) (cn_max_delay c) (cn_reconstructor c) (cn_stopped c) (cn_connected c) (cn_attempts c) (cn_received c)
    (cn_callbacks c) (cn_subscriptions_sent c) (cn_samples c) (cn_delay c) (cn_sleeps c) (cn_wire c) t h.

(** The callbacks of the caller run on the caller's state. *)
Definition cn_host_call (m : SE H unit) : CN unit :=
  fun c => let '(h, r) := m (cn_host c) in (cn_set_host (cn_tick c) h c, r).
Definition cn_now : CN nat := fun c => (cn_set_host (S (cn_tick c)) (cn_host c) c, Ok (cn_tick c)).

Definition stop (c : Connector) : Connector := cn_set_stopped c.

Definition capture_raw_sample (message : dict) (c : Connector) : Connector :=
  if (20 <=? length (cn_samples c))%nat then c else cn_set_samples (cn_samples c ++ [message]) c.

Definition coinstore_established (message : dict) : bool :=
  let message_type := str_lower (py_str (por (pget "T" message) (PStr ""))) in
  (String.eqb message_type "req" || String.eqb message_type "resp")
  && String.eqb (str_lower (py_str (por (pget "M" message) (PStr "")))) "established".

(** A payload is a dict; the list and text cases of [_subscribe] are not used. *)
Definition subscribe_one (s : StreamSubscription) : CN unit :=
  t ← cn_now;
  payload ← se_lift (subscribe_payload (time t) s);
  text ← se_lift (json_dumps payload);
  t' ← cn_now;
  _ ← se_lift (ws_send t' text);
  se_modify (cn_add_sent text).
Definition subscribe (subscriptions : list StreamSubscription) : CN unit := se_iter subscribe_one subscriptions.

(** The first order-book subscription with a symbol decides. *)
Definition book_subscription (subscriptions : list StreamSubscription) : option (StreamSubscription * string) :=
  match List.find (fun s => bool_decide (su_kind s = k_orderbook) && negb (String.eqb (text_or (su_symbol s) "") "")) subscriptions with
  | Some s => match su_symbol s with Some sym => Some (s, sym) | None => None end
  | None => None
  end.

Definition gap_detected (message : dict) (subscriptions : list StreamSubscription) : CN bool :=
  c ← se_get;
  '(sequence, previous) ← se_lift (parse_sequence (cn_venue c) message);
  match sequence with
  | None => mret false
  | Some _ =>
      match book_subscription subscriptions with
      | None => mret false
      | Some (s, symbol) =>
          let k := (cn_venue c, symbol) in
          let '(st', valid) := validate_sequence sequence previous (sequence_of k (cn_reconstructor c)) in
          _ ← se_modify (cn_upd_recon (put_sequence k st'));
          if valid then mret false
          else
            _ ← (match recover with Some f => cn_host_call (f s) | None => mret tt end);
            mret true
      end
  end.

Definition handle_frame (subscriptions : list StreamSubscription) (f : Frame) : CN unit :=
  v ← se_lift (match f with Text s => json_loads s | Binary hex => Ok (PDict [("binary", PStr hex)]) end);
  _ ← se_modify cn_add_received;
  message ← se_lift (as_dict v);
  _ ← se_modify (capture_raw_sample message);
  c ← se_get;
  if bool_decide (cn_venue c = coinstore) && coinstore_established message then
    _ ← subscribe subscriptions;
    _ ← se_modify cn_add_callback;
    cn_host_call (handler message)
  else
    gap ← gap_detected message subscriptions;
    match gap with
    | true => subscribe subscriptions
    | false => _ ← se_modify cn_add_callback; cn_host_call (handler message)
    end.

(** The body of the [try] in the loop of [connect]. *)
Definition run_socket (subscriptions : list StreamSubscription) (s : Socket) : CN unit :=
  _ ← se_modify cn_add_attempt;
  match s with
  | Refused e => se_lift (Err e)
  | WsSession frames failure =>
      _ ← se_modify (cn_set_connected true);
      c ← se_get;
      _ ← (if bool_decide (cn_venue c = coinstore) then mret tt else subscribe subscriptions);
      _ ← se_modify (cn_set_delay (of_Z 1));
      _ ← se_iter (handle_frame subscriptions) frames;
      match failure with Some e => se_lift (Err e) | None => mret tt end
  end.

(** One turn of the loop: an exception is followed by a wait. *)
Definition connect_turn (subscriptions : list StreamSubscription) (s : Socket) (c : Connector) : Connector :=
  (se_catch (run_socket subscriptions s)
     (fun _ => _ ← se_modify (cn_set_connected false);
               c ← se_get;
               _ ← se_modify (cn_add_sleep (cn_delay c));
               se_modify (cn_set_delay (fmin (cn_max_delay c) (fmul (cn_delay c) (of_Z 2))))) c).1.

Fixpoint connect_loop (subscriptions : list StreamSubscription) (events : list ConnectorEvent) (c : Connector) : Connector :=
  match events with
  | [] => c
  | StopCalled :: events' => connect_loop subscriptions events' (stop c)
  | Attempt s :: events' =>
      if cn_stopped c then c else connect_loop subscriptions events' (connect_turn subscriptions s c)
  end.
Definition connect (subscriptions : list StreamSubscription) (events : list ConnectorEvent) (c : Connector) : Connector :=
  connect_loop subscriptions events (cn_set_delay (of_Z 1) c).

End Connector.

(** ** A book is a finite map from prices to sizes *)

Definition price_map (d : side_book) : gmap Qcanon.Qc dec := list_to_map (map (fun kv => (price_key kv.1, kv.2)) d).

(** No price occurs twice. *)
Definition wf_side (d : side_book) : Prop := NoDup (map (fun kv => price_key kv.1) d).
Definition wf_book (b : ReconstructedOrderBook) : Prop := wf_side (rb_bids b) /\ wf_side (rb_asks b).
Definition wf_reconstructor (r : OrderBookReconstructor) : Prop := Forall (fun kb => wf_book kb.2) (rc_books r).

(** The specification of a level and of a delta. *)
Definition spec_level (m : gmap Qcanon.Qc dec) (l : dec * dec) : gmap Qcanon.Qc dec :=
  if deq l.2 dzero then delete (price_key l.1) m else <[price_key l.1 := l.2]> m.
Definition spec_delta (m : gmap Qcanon.Qc dec) (ls : list (dec * dec)) : gmap Qcanon.Qc dec := foldl spec_level m ls.

Lemma price_map_cons p s d : price_map ((p, s) :: d) = <[price_key p := s]> (price_map d).
Proof. done. Qed.

Lemma price_map_set p s d : price_map (dd_set p s d) = <[price_key p := s]> (price_map d).
Proof.
  induction d as [|[p' s'] d IH]; [done|]. simpl. case_decide as E.
  - rewrite !price_map_cons, E. by rewrite insert_insert_eq.
  - rewrite !price_map_cons, IH. by rewrite insert_insert_ne by congruence.
Qed.

Lemma price_map_pop p d : price_map (dd_pop p d) = delete (price_key p) (price_map d).
Proof.
  unfold dd_pop. induction d as [|[p' s'] d IH]; [unfold price_map; simpl; by rewrite delete_empty|].
  rewrite filter_cons. simpl. case_decide as E; rewrite !price_map_cons.
  - by rewrite delete_insert_ne, IH by done.
  - by rewrite E, delete_insert_eq, IH.
Qed.

Lemma price_map_delta d p s : price_map (delta_level d p s) = spec_level (price_map d) (p, s).
Proof. unfold delta_level, spec_level. simpl. destruct (deq s dzero); [apply price_map_pop|apply price_map_set]. Qed.

Lemma keys_dd_set p s d : map (fun kv => price_key kv.1) (dd_set p s d) =
  if decide (price_key p ∈ map (fun kv => price_key kv.1) d) then map (fun kv => price_key kv.1) d
  else map (fun kv => price_key kv.1) d ++ [price_key p].
Proof.
  induction d as [|[p' s'] d IH]; [by rewrite decide_False by set_solver|]. cbn [map dd_set fst].
  destruct (decide (price_key p = price_key p')) as [E|E]; cbn [map fst].
  - rewrite decide_True; [done|]. rewrite E. by left.
  - rewrite IH. destruct (decide (price_key p ∈ map (fun kv => price_key kv.1) d)) as [D|D].
    + rewrite decide_True; [done|by right].
    + rewrite decide_False; [done|]. by intros [?|?]%elem_of_cons.
Qed.

Lemma wf_dd_set p s d : wf_side d -> wf_side (dd_set p s d).
Proof.
  unfold wf_side. rewrite keys_dd_set. case_decide as D; [done|]. intros H1.
  apply NoDup_app. split; [done|]. split; [|apply NoDup_singleton].
  by intros x Hx ->%list_elem_of_singleton.
Qed.

Lemma wf_dd_pop p d : wf_side d -> wf_side (dd_pop p d).
Proof.
  unfold wf_side, dd_pop. induction d as [|[p' s'] d IH]; [done|].
  rewrite filter_cons. simpl. rewrite NoDup_cons. intros [H1 H2].
  case_decide; [|auto]. simpl. apply NoDup_cons. split; [|auto].
  intros (kv & E & [_ Hin]%list_elem_of_filter)%list_elem_of_fmap. apply H1. rewrite E.
  by apply list_elem_of_fmap_2 with (f := fun kv : dec * dec => price_key kv.1).
Qed.

Lemma wf_delta_level d p s : wf_side d -> wf_side (delta_level d p s).
Proof. unfold delta_level. destruct (deq s dzero); [apply wf_dd_pop|apply wf_dd_set]. Qed.

Create HintDb books.
#[export] Hint Resolve wf_dd_set wf_dd_pop wf_delta_level : books.

Lemma wf_side_of_levels ls : wf_side (side_of_levels ls).
Proof.
  unfold side_of_levels. assert (H : wf_side []) by constructor. revert H.
  generalize (@nil (dec * dec)). induction ls as [|l ls IH]; simpl; auto with books.
Qed.

Lemma price_map_of_levels ls :
  price_map (side_of_levels ls) = foldl (fun m l => <[price_key l.1 := l.2]> m) ∅ ls.
Proof.
  unfold side_of_levels. change (∅ : gmap Qcanon.Qc dec) with (price_map []). generalize (@nil (dec * dec)).
  induction ls as [|l ls IH]; intros d; simpl; [done|]. by rewrite IH, price_map_set.
Qed.

(** *** The loops of a delta *)

Definition delta_side (d : side_book) (ls : list (dec * dec)) : side_book :=
  foldl (fun d l => delta_level d l.1 l.2) d ls.

Lemma price_map_delta_side d ls : price_map (delta_side d ls) = spec_delta (price_map d) ls.
Proof.
  unfold delta_side, spec_delta. revert d. induction ls as [|[p s] ls IH]; intros d; simpl; [done|].
  by rewrite IH, price_map_delta.
Qed.

Lemma wf_delta_side d ls : wf_side d -> wf_side (delta_side d ls).
Proof. unfold delta_side. revert d. induction ls as [|[p s] ls IH]; simpl; auto with books. Qed.
#[export] Hint Resolve wf_delta_side wf_side_of_levels : books.

Lemma put_book_put k b b' r : put_book k b (put_book k b' r) = put_book k b r.
Proof.
  unfold put_book. simpl. f_equal. induction (rc_books r) as [|[k1 b1] l IH]; simpl; [by rewrite decide_True|].
  case_decide as E; simpl; [by rewrite decide_True|]. rewrite decide_False by done. by rewrite IH.
Qed.

Lemma delta_step_ok k update item p s r b :
  parse_level item = Ok (p, s) -> od_get k (rc_books r) = Some b ->
  delta_step k update item r = (put_book k (update (fun d => delta_level d p s) b) r, Ok tt).
Proof. intros P G. unfold delta_step, mbind, RC_bind, se_bind, se_lift, se_modify. by rewrite P, G. Qed.

(** A loop over parsed levels, as one update of the book. *)
Lemma delta_loop_ok k update items ls r b :
  (forall f g x, update g (update f x) = update (fun d => g (f d)) x) ->
  (forall x, update (fun d => d) x = x) ->
  result_mapM parse_level items = Ok ls ->
  se_iter (delta_step k update) items (put_book k b r) = (put_book k (update (fun d => delta_side d ls) b) r, Ok tt).
Proof.
  intros C I. revert ls b. induction items as [|x items IH]; intros ls b; simpl.
  { intros [= <-]. simpl. by rewrite I. }
  intros ([p s] & P & (ls' & Q & [= <-])%result_bind_ok)%result_bind_ok.
  unfold mbind, se_bind. rewrite (delta_step_ok k update x p s _ b P) by apply od_get_set_eq.
  rewrite put_book_put, (IH ls') by done. by rewrite C.
Qed.

Lemma put_book_id k b r : od_get k (rc_books r) = Some b -> put_book k b r = r.
Proof.
  unfold put_book. destruct r as [bs ss]. simpl. intros G. f_equal. revert G.
  induction bs as [|[k1 b1] l IH]; simpl; [done|]. case_decide; [intros [= ->]|intros G]; [done|]. by rewrite IH.
Qed.

(** *** Snapshots are sorted *)

Lemma item_le_iff x y :
  item_le x y = true <-> dval x.1 < dval y.1 \/ dval x.1 == dval y.1 /\ dval x.2 <= dval y.2.
Proof.
  unfold item_le. destruct (deq x.1 y.1) eqn:E.
  - apply deq_iff in E. rewrite dle_iff. split; [tauto|]. intros [?|[]]; [lra|done].
  - assert (~ dval x.1 == dval y.1) by (rewrite <- deq_iff; congruence). rewrite dlt_iff. tauto.
Qed.

Lemma item_le_trans x y z : item_le x y = true -> item_le y z = true -> item_le x z = true.
Proof. rewrite !item_le_iff. intros [?|[]] [?|[]]; (left; lra) || (right; split; lra). Qed.

Lemma item_le_total x y : item_le x y = true \/ item_le y x = true.
Proof.
  rewrite !item_le_iff. destruct (Qlt_le_dec (dval x.1) (dval y.1)); [tauto|].
  destruct (Qlt_le_dec (dval y.1) (dval x.1)); [tauto|].
  destruct (Qlt_le_dec (dval x.2) (dval y.2)); [left|right]; right; split; lra.
Qed.

Lemma price_key_eq p q : price_key p = price_key q <-> dval p == dval q.
Proof. apply Qcanon.Q2Qc_eq_iff. Qed.

(** Sorting well-formed items by [le] sorts them strictly by price. *)
Lemma sorted_strict (le : dec * dec -> dec * dec -> bool) (lt : Q -> Q -> Prop) (l : side_book) :
  (forall x y, le x y = true -> lt (dval x.1) (dval y.1) \/ dval x.1 == dval y.1) ->
  wf_side l -> StronglySorted (leP le) l -> StronglySorted (fun x y => lt (dval x.1) (dval y.1)) l.
Proof.
  intros Hle. unfold wf_side. induction l as [|x l IH]; [constructor|]. simpl.
  rewrite NoDup_cons. intros [H1 H2] S. inversion_clear S as [|? ? S1 F]. constructor; [auto|].
  rewrite Forall_forall in F |- *. intros y Hy. destruct (Hle x y (F y Hy)) as [|E]; [done|].
  destruct H1. apply price_key_eq in E. rewrite E.
  by apply list_elem_of_fmap_2 with (f := fun kv : dec * dec => price_key kv.1).
Qed.

Lemma StronglySorted_List_filter {A} (R : A -> A -> Prop) f (l : list A) :
  StronglySorted R l -> StronglySorted R (List.filter f l).
Proof.
  induction 1 as [|x l S IH F]; simpl; [constructor|]. destruct (f x); [|done]. constructor; [done|].
  rewrite Forall_forall in F |- *. intros y [Hy _]%list_elem_of_In%filter_In. by apply F, list_elem_of_In.
Qed.

Lemma wf_side_perm d d' : d ≡ₚ d' -> wf_side d -> wf_side d'.
Proof. unfold wf_side. intros P. by rewrite P. Qed.

Lemma asks_sorted d : wf_side d -> StronglySorted (fun x y => dval x.1 < dval y.1) (book_levels item_le d).
Proof.
  intros W. apply StronglySorted_List_filter, (sorted_strict item_le Qlt).
  - intros x y [|[]]%item_le_iff; tauto.
  - eapply wf_side_perm; [symmetry; apply sorted_perm|done].
  - apply sorted_sorted; [apply item_le_trans|apply item_le_total].
Qed.

Lemma bids_sorted d : wf_side d -> StronglySorted (fun x y => dval y.1 < dval x.1) (book_levels item_ge d).
Proof.
  intros W. apply StronglySorted_List_filter, (sorted_strict item_ge (fun a b => b < a)).
  - intros x y [|[]]%item_le_iff; [tauto|right; by symmetry].
  - eapply wf_side_perm; [symmetry; apply sorted_perm|done].
  - apply sorted_sorted; unfold item_ge; intros; [eapply item_le_trans; eassumption|apply item_le_total].
Qed.

Lemma price_map_lookup d k s : wf_side d ->
  price_map d !! k = Some s <-> exists p, (p, s) ∈ d /\ price_key p = k.
Proof.
  intros W. unfold price_map. rewrite <- elem_of_list_to_map.
  - rewrite list_elem_of_fmap. split; [intros ([p s'] & [= -> ->] & ?)|intros (p & ? & <-)]; eauto.
    by exists (p, s).
  - unfold wf_side in W. rewrite <- list_fmap_compose. exact W.
Qed.

(** Exactly the prices with a positive size are listed. *)
Lemma book_levels_spec le d k s : wf_side d ->
  (exists p, (p, s) ∈ book_levels le d /\ price_key p = k) <-> price_map d !! k = Some s /\ 0 < dval s.
Proof.
  intros W. rewrite price_map_lookup by done. unfold book_levels.
  assert (Z0 : dval dzero == 0) by reflexivity.
  split.
  - intros (p & [Hin Hp]%list_elem_of_In%filter_In & E). apply dlt_iff in Hp. simpl in Hp.
    split; [|lra]. exists p. split; [|done]. by rewrite <- elem_of_sorted, list_elem_of_In.
  - intros [(p & Hin & E) Hs]. exists p. split; [|done]. apply list_elem_of_In, filter_In.
    split; [by rewrite <- list_elem_of_In, elem_of_sorted|]. apply dlt_iff. simpl. lra.
Qed.

(** A snapshot that lists a pair of price maps: bids strictly descending, asks
    strictly ascending, exactly the prices with a positive size. *)
Definition lists_side (R : Q -> Q -> Prop) (m : gmap Qcanon.Qc dec) (levels : list OrderBookLevel) : Prop :=
  exists l : side_book, levels = map level_of l /\ StronglySorted (fun x y => R (dval x.1) (dval y.1)) l
    /\ forall k s, (exists p, (p, s) ∈ l /\ price_key p = k) <-> m !! k = Some s /\ 0 < dval s.
Definition lists_book (mb ma : gmap Qcanon.Qc dec) (snap : OrderBookSnapshot) : Prop :=
  lists_side (fun a b => b < a) mb (bids snap) /\ lists_side Qlt ma (asks snap).

Lemma snapshot_lists venue symbol now b :
  wf_book b -> lists_book (price_map (rb_bids b)) (price_map (rb_asks b)) (snapshot venue symbol now b).
Proof.
  intros [Wb Wa]. split.
  - exists (book_levels item_ge (rb_bids b)). split; [done|]. split; [by apply bids_sorted|].
    intros. by apply book_levels_spec.
  - exists (book_levels item_le (rb_asks b)). split; [done|]. split; [by apply asks_sorted|].
    intros. by apply book_levels_spec.
Qed.

Lemma wf_put_book k b r : wf_book b -> wf_reconstructor r -> wf_reconstructor (put_book k b r).
Proof. intros. by apply od_set_Forall. Qed.

Lemma wf_lookup k b r : wf_reconstructor r -> od_get k (rc_books r) = Some b -> wf_book b.
Proof. intros W G%od_get_Some_in. unfold wf_reconstructor in W. rewrite Forall_forall in W. exact (W _ G). Qed.

Lemma apply_delta_eq now venue symbol items_b items_a sequence previous r b ls_b ls_a st' :
  od_get (venue, symbol) (rc_books r) = Some b ->
  result_mapM parse_level items_b = Ok ls_b -> result_mapM parse_level items_a = Ok ls_a ->
  validate_sequence sequence previous (sequence_of (venue, symbol) r) = (st', true) ->
  let b' := mkRBook (delta_side (rb_bids b) ls_b) (delta_side (rb_asks b) ls_a) sequence in
  apply_delta now venue symbol items_b items_a sequence previous r =
    (put_book (venue, symbol) b' (put_sequence (venue, symbol) st' r), Ok (true, Some (snapshot (venue_value venue) symbol now b'))).
Proof.
  intros G Pb Pa V b'. unfold apply_delta, mbind, RC_bind, se_bind at 1, se_get.
  cbv zeta. rewrite G, V. cbn [negb]. unfold se_bind at 1, se_modify.
  set (r1 := put_sequence (venue, symbol) st' r).
  assert (G1 : od_get (venue, symbol) (rc_books r1) = Some b) by exact G.
  rewrite <- (put_book_id _ _ _ G1). unfold se_bind at 1.
  rewrite (delta_loop_ok _ update_bids _ ls_b) by (done || by intros []). unfold se_bind at 1.
  rewrite (delta_loop_ok _ update_asks _ ls_a) by (done || by intros []). unfold se_bind, mret, RC_ret, se_ret.
  cbn [rc_books put_book]. rewrite od_get_set_eq. cbn [rb_bids rb_asks update_asks update_bids].
  rewrite put_book_put. by rewrite (put_book_id _ _ _ G1).
Qed.

(** C13: a delta accepted by the sequence check updates the book as the finite
    map specification says (a zero size removes the price, any other size
    replaces it), leaves the other books alone, and returns a snapshot that
    lists exactly the prices with a positive size, bids strictly descending
    and asks strictly ascending. *)
Theorem apply_delta_refines now venue symbol items_b items_a sequence previous r b ls_b ls_a :
  wf_reconstructor r ->
  od_get (venue, symbol) (rc_books r) = Some b ->
  result_mapM parse_level items_b = Ok ls_b -> result_mapM parse_level items_a = Ok ls_a ->
  (validate_sequence sequence previous (sequence_of (venue, symbol) r)).2 = true ->
  exists r' b' snap,
    apply_delta now venue symbol items_b items_a sequence previous r = (r', Ok (true, Some snap))
    /\ wf_reconstructor r'
    /\ od_get (venue, symbol) (rc_books r') = Some b'
    /\ price_map (rb_bids b') = spec_delta (price_map (rb_bids b)) ls_b
    /\ price_map (rb_asks b') = spec_delta (price_map (rb_asks b)) ls_a
    /\ lists_book (price_map (rb_bids b')) (price_map (rb_asks b')) snap
    /\ forall k, k <> (venue, symbol) -> od_get k (rc_books r') = od_get k (rc_books r).
Proof.
  intros W G Pb Pa V. pose proof (wf_lookup _ _ _ W G) as [Wb Wa].
  destruct (validate_sequence _ _ _) as [st' v] eqn:E. simpl in V. subst v.
  set (b' := mkRBook (delta_side (rb_bids b) ls_b) (delta_side (rb_asks b) ls_a) sequence).
  assert (W' : wf_book b') by (split; simpl; auto with books).
  eexists _, b', _. split; [by apply apply_delta_eq|]. repeat split.
  - by apply wf_put_book.
  - apply od_get_set_eq.
  - apply price_map_delta_side.
  - apply price_map_delta_side.
  - by apply (snapshot_lists _ _ _ b').
  - by apply (snapshot_lists _ _ _ b').
  - intros k Hk. by apply od_get_set_ne.
Qed.

Definition demo_level (p s : string) : pyval := PList [PStr p; PStr s].
Definition demo_reconstructor : OrderBookReconstructor :=
  (apply_snapshot 0%Z binance "BTC/USDT" [demo_level "100.0" "1"; demo_level "99" "2"] [demo_level "101" "3"] (Some 10%Z)
     new_reconstructor).1.

Lemma apply_delta_refines_witness :
  exists r' b' snap,
    apply_delta 0%Z binance "BTC/USDT" [demo_level "100.00" "0"; demo_level "98.5" "4"] [] (Some 12%Z) (Some 10%Z)
      demo_reconstructor = (r', Ok (true, Some snap))
    /\ od_get (binance, "BTC/USDT") (rc_books r') = Some b'
    /\ bids snap = [mkLevel (of_Z 99) (of_Z 2); mkLevel (flit 985 10) (of_Z 4)].
Proof.
  destruct (apply_delta_refines 0%Z binance "BTC/USDT" [demo_level "100.00" "0"; demo_level "98.5" "4"] [] (Some 12%Z) (Some 10%Z)
    demo_reconstructor (mkRBook [(mkDec 1000 (-1), dZ 1); (dZ 99, dZ 2)] [(dZ 101, dZ 3)] (Some 10%Z))
    [(mkDec 10000 (-2), dzero); (mkDec 985 (-1), dZ 4)] []) as (r' & b' & snap & E & W & G & _).
  - constructor; [|constructor]. split; repeat constructor; vm_compute; intros H; repeat (inversion H; subst; clear H; try (rename H2 into H)).
  - vm_compute. reflexivity.
  - vm_compute. reflexivity.
  - reflexivity.
  - vm_compute. reflexivity.
  - exists r', b', snap. split; [exact E|]. split; [exact G|]. vm_compute in E. injection E as <- <-. vm_compute. reflexivity.
Defined.

(** ** The connector after a sequence gap *)

Section ConnectorProps.
Context {H : Type} (handler : dict -> SE H unit).
Context (json_loads : string -> result pyval) (time : nat -> float) (ws_send : nat -> string -> result unit).
Context (subscriptions : list StreamSubscription) (venue : ExecutionVenue) (symbol : string) (last : Z).

(** What the sequence check and the callbacks depend on. *)
Definition cn_view (c : Connector (H := H)) : ExecutionVenue * OrderBookReconstructor * H * Z :=
  (cn_venue c, cn_reconstructor c, cn_host c, cn_callbacks c).

#[local] Ltac view_frames :=
  unfold mbind, CN_bind, mret, CN_ret;
  repeat (first [ solve [eauto with frames nocore] | apply frame_bind; [|intros ?] | apply frame_ret
                | apply frame_iter; intros ? | by apply frame_modify | progress case_match ]).

Lemma view_now : frame cn_view (cn_now (H := H)).
Proof. done. Qed.
#[local] Hint Resolve view_now : frames.
Lemma view_subscribe : frame cn_view (subscribe time ws_send subscriptions).
Proof. unfold subscribe, subscribe_one. view_frames. Qed.

(** A message whose previous sequence number is not the last accepted one. *)
Definition discontinuous (message : dict) : Prop :=
  exists s p, parse_sequence venue message = Ok (Some s, Some p) /\ p <> last.

Definition blocked_frame (f : Frame) : Prop :=
  forall s v message, f = Text s -> json_loads s = Ok v -> as_dict v = Ok message ->
    discontinuous message /\ (venue = coinstore -> coinstore_established message = false).
Definition blocked_event (e : ConnectorEvent) : Prop :=
  match e with
  | Attempt (WsSession frames _) => Forall (fun f => (exists s, f = Text s) /\ blocked_frame f) frames
  | _ => True
  end.

Definition stuck (h : H) (callbacks : Z) (c : Connector) : Prop :=
  cn_venue c = venue /\ last_sequence (sequence_of (venue, symbol) (cn_reconstructor c)) = Some last
  /\ cn_host c = h /\ cn_callbacks c = callbacks.

Context (book : exists s, book_subscription subscriptions = Some (s, symbol)).

Lemma stuck_view h n c c' : cn_view c' = cn_view c -> stuck h n c -> stuck h n c'.
Proof. unfold cn_view, stuck. intros [= -> -> -> ->]. done. Qed.

Lemma stuck_frame {A} (m : CN A) h n : frame cn_view m -> stable (stuck h n) m.
Proof. intros F c. by apply stuck_view. Qed.

Lemma validate_discontinuous st s p : last_sequence st = Some last -> p <> last ->
  validate_sequence (Some s) (Some p) st = (mkSequence (Some last) (gaps_detected st + 1), false).
Proof.
  intros E Hp. unfold validate_sequence. rewrite E. by rewrite (proj2 (Z.eqb_neq p last) Hp).
Qed.

Lemma gap_blocked h n message c : discontinuous message -> stuck h n c ->
  exists c', gap_detected None message subscriptions c = (c', Ok true) /\ stuck h n c'.
Proof.
  intros (s & p & P & Hp) (Ev & El & Eh & En). destruct book as [sub Hb].
  unfold gap_detected, mbind, CN_bind, se_bind, se_get, se_lift. rewrite Ev, P, Hb.
  rewrite (validate_discontinuous _ _ _ El Hp). eexists. split; [reflexivity|].
  unfold stuck, sequence_of. simpl. rewrite od_get_set_eq. done.
Qed.

Lemma frame_blocked h n s : blocked_frame (Text s) -> stable (stuck h n) (handle_frame handler None json_loads time ws_send subscriptions (Text s)).
Proof.
  intros B c Sc. unfold handle_frame, mbind, CN_bind, se_bind at 1, se_lift.
  destruct (json_loads s) as [v|e] eqn:J; [|done]. unfold se_bind at 1, se_modify, se_bind at 1.
  assert (S1 : stuck h n (cn_add_received c)) by exact Sc.
  destruct (as_dict v) as [message|e] eqn:D; [|done]. destruct (B s v message eq_refl J D) as [Hd He].
  unfold se_bind at 1. set (c1 := capture_raw_sample message _).
  assert (S2 : stuck h n c1) by (unfold c1, capture_raw_sample; by case_match).
  unfold se_bind at 1, se_get. destruct (gap_blocked h n message c1 Hd S2) as (c2 & G & S3).
  assert (Est : bool_decide (cn_venue c1 = coinstore) && coinstore_established message = false).
  { destruct S2 as [-> _]. case_bool_decide; [by apply He|done]. }
  rewrite Est. unfold se_bind. rewrite G. by apply (stuck_frame _ _ _ view_subscribe).
Qed.

Lemma turn_blocked h n s c : blocked_event (Attempt s) -> stuck h n c ->
  stuck h n (connect_turn handler None json_loads time ws_send subscriptions s c).
Proof.
  intros B Sc. unfold connect_turn.
  apply (stable_catch (stuck h n)); [| |done].
  - unfold run_socket, mbind, CN_bind. apply stable_bind; [by apply stable_modify|]. intros _.
    destruct s as [e|frames failure]; [apply stable_lift|]. simpl in B. rewrite Forall_forall in B.
    apply stable_bind; [by apply stable_modify|]. intros _.
    apply stable_bind; [by apply stuck_frame|]. intros c'.
    apply stable_bind; [case_bool_decide; apply stuck_frame; [done|apply view_subscribe]|]. intros _.
    apply stable_bind; [by apply stable_modify|]. intros _.
    apply stable_bind.
    + apply stable_iter. intros f Hf. destruct (B f Hf) as [[t ->] Bf]. by apply frame_blocked.
    + intros _. destruct failure; [apply stable_lift|apply stuck_frame; done].
  - intros e. apply stuck_frame. view_frames.
Qed.

Lemma connect_blocked h n events c : Forall blocked_event events -> stuck h n c ->
  stuck h n (connect handler None json_loads time ws_send subscriptions events c).
Proof.
  intros B Sc. unfold connect. assert (S0 : stuck h n (cn_set_delay (of_Z 1) c)) by exact Sc. revert S0.
  generalize (cn_set_delay (of_Z 1) c). clear Sc. induction B as [|e events Be B IH]; intros c1 S1; [done|].
  destruct e as [s|]; simpl; [|by apply IH]. destruct (cn_stopped c1); [done|]. by apply IH, turn_blocked.
Qed.

End ConnectorProps.

(** *** A handler that raises ends the session *)

Section HandlerRaises.
Context {H : Type} (handler : dict -> SE H unit) (recover : option (StreamSubscription -> SE H unit)).
Context (json_loads : string -> result pyval) (time : nat -> float) (ws_send : nat -> string -> result unit).
Context (subscriptions : list StreamSubscription).

Definition cn_progress (c : Connector (H := H)) : ExecutionVenue * OrderBookReconstructor * Z * list float :=
  (cn_venue c, cn_reconstructor c, cn_received c, cn_sleeps c).

Lemma progress_subscribe : frame cn_progress (subscribe time ws_send subscriptions).
Proof.
  unfold subscribe, subscribe_one, mbind, CN_bind. apply frame_iter. intros s.
  repeat (first [ solve [eauto with frames nocore] | by apply frame_modify | apply frame_bind; [|intros ?] | done ]).
Qed.

(** The sequence check accepts the message, or does not apply to it. *)
Definition sequence_accepts (venue : ExecutionVenue) (r : OrderBookReconstructor) (message : dict) : Prop :=
  match parse_sequence venue message, book_subscription subscriptions with
  | Ok (Some s, p), Some (_, symbol) => (validate_sequence (Some s) p (sequence_of (venue, symbol) r)).2 = true
  | Ok _, _ => True
  | Err _, _ => False
  end.

Lemma gap_accepts message c : sequence_accepts (cn_venue c) (cn_reconstructor c) message ->
  exists c', gap_detected recover message subscriptions c = (c', Ok false) /\ cn_received c' = cn_received c /\ cn_sleeps c' = cn_sleeps c.
Proof.
  unfold sequence_accepts, gap_detected, mbind, CN_bind, se_bind, se_get, se_lift.
  destruct (parse_sequence _ _) as [[[s|] p]|e]; [| |done]; [|by eexists].
  destruct (book_subscription subscriptions) as [[sub symbol]|]; [|by eexists].
  destruct (validate_sequence _ _ _) as [st' v]. simpl. intros ->. by eexists.
Qed.

Lemma handler_error_ends_session text message rest failure c :
  cn_venue c <> coinstore ->
  json_loads text = Ok (PDict message) ->
  sequence_accepts (cn_venue c) (cn_reconstructor c) message ->
  (forall h, exists h' e, handler message h = (h', Err e)) ->
  let c' := connect_turn handler recover json_loads time ws_send subscriptions (WsSession (Text text :: rest) failure) c in
  cn_connected c' = false /\ (exists d, cn_sleeps c' = cn_sleeps c ++ [d]) /\ (cn_received c' <= cn_received c + 1)%Z.
Proof.
  intros Hv J A Hh. cbv zeta. unfold connect_turn, se_catch.
  assert (R : exists c1 e, run_socket handler recover json_loads time ws_send subscriptions (WsSession (Text text :: rest) failure) c = (c1, Err e)
                /\ cn_sleeps c1 = cn_sleeps c /\ (cn_received c1 <= cn_received c + 1)%Z).
  { unfold run_socket, mbind, CN_bind, se_bind at 1, se_modify, se_bind at 1, se_bind at 1, se_get.
    set (c1 := cn_set_connected true (cn_add_attempt c)).
    rewrite bool_decide_eq_false_2 by exact Hv. unfold se_bind at 1.
    pose proof (progress_subscribe c1) as P. destruct (subscribe time ws_send subscriptions c1) as [c2 [[]|e]]; simpl in P.
    2: { exists c2, e. injection P as _ _ P3 P4. rewrite P3, P4. simpl. split; [done|]. split; [done|lia]. }
    injection P as P1 P2 P3 P4. unfold se_bind at 1. cbn [se_iter].
    set (c3 := cn_add_received (cn_set_delay (of_Z 1) c2)).
    set (c4 := capture_raw_sample message c3).
    assert (E4 : cn_venue c4 = cn_venue c /\ cn_reconstructor c4 = cn_reconstructor c /\ cn_received c4 = (cn_received c + 1)%Z
                 /\ cn_sleeps c4 = cn_sleeps c).
    { unfold c4, capture_raw_sample. destruct (20 <=? _)%nat; simpl; rewrite P1, P2, P3, P4; done. }
    destruct E4 as (E1 & E2 & E3 & E4).
    destruct (gap_accepts message c4) as (c5 & G & R5 & S5); [by rewrite E1, E2|].
    destruct (Hh (cn_host (cn_add_callback c5))) as (h' & e & Eh).
    exists (cn_set_host (cn_tick c5) h' (cn_add_callback c5)), e. split; [|split; [simpl; congruence|simpl; lia]].
    unfold mbind, CN_bind, se_bind at 1 2. unfold handle_frame, mbind, CN_bind, se_lift, se_bind at 1. rewrite J.
    unfold se_modify, se_bind at 1 2 3 4. cbn [as_dict]. fold c3. fold c4. unfold se_get.
    rewrite bool_decide_eq_false_2 by (rewrite E1; exact Hv). cbn [andb]. unfold se_bind at 1. rewrite G.
    unfold se_bind, cn_host_call. by rewrite Eh. }
  destruct R as (c1 & e & R & S1 & R1). rewrite R. unfold mbind, CN_bind, se_bind, se_modify, se_get. simpl.
  rewrite S1. split; [done|]. split; [by eexists|done].
Qed.

End HandlerRaises.

(** Once a message was lost, the connector never delivers another one: as
    long as every message that arrives, over any number of reconnections,
    names a previous sequence number other than the last one accepted, no
    message reaches the handler and the last accepted number never moves. The
    market-data runtime passes no snapshot recovery. *)
Theorem gap_is_permanent {H} (handler : dict -> SE H unit) json_loads time ws_send subscriptions s venue symbol last events c :
  book_subscription subscriptions = Some (s, symbol) ->
  cn_venue c = venue ->
  last_sequence (sequence_of (venue, symbol) (cn_reconstructor c)) = Some last ->
  Forall (blocked_event json_loads venue last) events ->
  let c' := connect handler None json_loads time ws_send subscriptions events c in
  cn_host c' = cn_host c /\ cn_callbacks c' = cn_callbacks c
  /\ last_sequence (sequence_of (venue, symbol) (cn_reconstructor c')) = Some last.
Proof.
  intros Hb Hv Hl B. simpl.
  destruct (connect_blocked handler json_loads time ws_send subscriptions venue symbol last (ex_intro _ s Hb)
              (cn_host c) (cn_callbacks c) events c B) as (_ & ? & ? & ?); [by repeat split|done].
Qed.

(** A stream [10, 11, 12, 13] whose message 11 is lost: 12 and 13 follow each
    other and are both refused, before and after a reconnection. *)
Definition depth_message (u pu : Z) : pyval := PDict [("e", PStr "depthUpdate"); ("u", PInt u); ("pu", PInt pu)].
Definition demo_loads (s : string) : result pyval :=
  if String.eqb s "m10" then Ok (depth_message 10 9)
  else if String.eqb s "m12" then Ok (depth_message 12 11)
  else if String.eqb s "m13" then Ok (depth_message 13 12)
  else raise ValueError "Expecting value".
Definition demo_handler (m : dict) : SE (list pyval) unit := se_modify (fun l => l ++ [PDict m]).
Definition demo_subscriptions : list StreamSubscription := [mkSubscription binance (Some "BTC/USDT") k_orderbook None None].
Definition demo_connector : Connector :=
  connect demo_handler None demo_loads (fun _ => of_Z 0) (fun _ _ => Ok tt) demo_subscriptions [Attempt (WsSession [Text "m10"] None)]
    (new_connector binance (of_Z 30) []).

Lemma gap_is_permanent_witness :
  let events := [Attempt (WsSession [Text "m12"; Text "m13"] (Some (mkExn TransportError "reset"))); Attempt (WsSession [Text "m13"] None)] in
  let c := demo_connector in
  let c' := connect demo_handler None demo_loads (fun _ => of_Z 0) (fun _ _ => Ok tt) demo_subscriptions events c in
  cn_received c' = 4%Z /\ cn_callbacks c' = 1%Z /\ cn_host c' = [depth_message 10 9].
Proof.
  intros events c c'. split; [vm_compute; reflexivity|].
  assert (B : forall s u p, demo_loads s = Ok (depth_message u p) -> p <> 10%Z -> p <> 0%Z -> u <> 0%Z ->
    (exists s', Text s = Text s') /\ blocked_frame demo_loads binance 10 (Text s)).
  { intros s u p E Hp Hp0 Hu. split; [by exists s|]. intros s' v m [= <-] J D. rewrite E in J. injection J as <-. injection D as <-.
    split; [|discriminate]. exists u, p. split; [|exact Hp].
    unfold parse_sequence. simpl. unfold por. simpl.
    by rewrite (proj2 (Z.eqb_neq u 0) Hu), (proj2 (Z.eqb_neq p 0) Hp0). }
  pose proof (gap_is_permanent demo_handler demo_loads (fun _ => of_Z 0) (fun _ _ => Ok tt) demo_subscriptions
    (mkSubscription binance (Some "BTC/USDT") k_orderbook None None) binance "BTC/USDT" 10 events c eq_refl eq_refl eq_refl) as G.
  destruct G as (G1 & G2 & _).
  - pose proof (B "m12" 12%Z 11%Z eq_refl ltac:(done) ltac:(done) ltac:(done)) as B12.
    pose proof (B "m13" 13%Z 12%Z eq_refl ltac:(done) ltac:(done) ltac:(done)) as B13.
    apply Forall_cons. split; [apply Forall_cons; split; [exact B12|]; apply Forall_cons; split; [exact B13|constructor]|].
    apply Forall_cons. split; [apply Forall_cons; split; [exact B13|constructor]|constructor].
  - unfold c'. rewrite G1, G2. vm_compute. split; reflexivity.
Defined.

(** *** Waiting times *)

Definition backoff (i : nat) : float := of_Z (Z.min 30 (2 ^ Z.of_nat i)).

Lemma backoff_next i : fmin (of_Z 30) (fmul (backoff i) (of_Z 2)) = backoff (S i).
Proof.
  destruct (decide (i < 5)%nat) as [Hi|Hi].
  - do 5 (destruct i as [|i]; [vm_compute; reflexivity|]). lia.
  - assert (E : forall j, (5 <= j)%nat -> backoff j = of_Z 30).
    { intros j Hj. unfold backoff. f_equal. apply Z.min_l.
      transitivity (2 ^ 5)%Z; [done|]. apply Z.pow_le_mono_r; lia. }
    rewrite !E by lia. vm_compute. reflexivity.
Qed.

(** While the venue refuses connections, the waits double from 1 second
    up to the configured 30 seconds: the i-th wait is min(30, 2^i). *)
Theorem reconnect_backoff {H} (handler : dict -> SE H unit) recover json_loads time ws_send subscriptions venue refusals h :
  let c := connect handler recover json_loads time ws_send subscriptions (map (fun e => Attempt (Refused e)) refusals)
             (new_connector venue (of_Z 30) h) in
  cn_sleeps c = map backoff (seq 0 (length refusals)) /\ cn_attempts c = Z.of_nat (length refusals) /\ cn_host c = h.
Proof.
  assert (G : forall i es c, cn_stopped c = false -> cn_max_delay c = of_Z 30 -> cn_delay c = backoff i ->
    let c' := connect_loop handler recover json_loads time ws_send subscriptions (map (fun e => Attempt (Refused e)) es) c in
    cn_sleeps c' = cn_sleeps c ++ map backoff (seq i (length es)) /\ cn_attempts c' = (cn_attempts c + Z.of_nat (length es))%Z
    /\ cn_host c' = cn_host c).
  { intros i es. revert i. induction es as [|e es IH]; intros i c Hs Hm Hd; simpl.
    { rewrite app_nil_r. split; [done|]. split; [lia|done]. }
    rewrite Hs. destruct (IH (S i) (connect_turn handler recover json_loads time ws_send subscriptions (Refused e) c)) as (E1 & E2 & E3).
    - exact Hs.
    - exact Hm.
    - simpl. rewrite Hm, Hd. apply backoff_next.
    - rewrite E1, E2, E3. simpl. rewrite Hd, <- app_assoc. split; [done|]. split; [lia|done]. }
  simpl. destruct (G 0%nat refusals (cn_set_delay (of_Z 1) (new_connector venue (of_Z 30) h))) as (E1 & E2 & E3); try done.
Qed.
