(* ===== verification/MarketData.v ===== *)
(** * MarketData: analytics of the market-data engine ([engines/market_data/engine.py])

    Spread, depth and trade statistics of a symbol. [math.log] is the platform's
    logarithm, a parameter; square roots and [statistics.pstdev] are exact
    computations rounded once, as CPython 3.12 does them. The integer 0 that
    [sum] returns for an empty list is the float 0. Persistence and
    distribution are in [MarketDataRuntime]. *)

From S2P Require Import Prelude Rounding PyFloat PyDecimal PyData PyValue Models Config.

#[local] Open Scope string_scope.
#[local] Open Scope list_scope.

(** ** Records of [exchanges/types.py] *)

Record TradeTick : Type := mkTick {
  tk_exchange : string; tk_symbol : string; tk_trade_id : string; tk_price : float; tk_quantity : float; tk_side : string;
  tk_traded_at : datetime; tk_metadata : dict }.

Record Ticker : Type := mkTicker {
  ti_exchange : string; ti_symbol : string; ti_bid_price : option float; ti_bid_size : option float; ti_ask_price : option float;
  ti_ask_size : option float; ti_last_price : option float; ti_volume_24h : option float; ti_source_timestamp : datetime }.

Record Kline : Type := mkKline {
  kl_exchange : string; kl_symbol : string; kl_interval : string; kl_open_time : datetime; kl_close_time : datetime;
  kl_open : float; kl_high : float; kl_low : float; kl_close : float; kl_volume : float }.

(** ** Square roots *)

(** The float nearest to the square root of [q]: enough bits of the root, with
    a last bit that says whether more follow. *)
Definition sqrt_bits : Z := 1200.
Definition fsqrt_Q (q : Q) : float :=
  let n := (Qnum q * 4 ^ sqrt_bits)%Z in
  let r := Z.sqrt (n / QDen q) in
  let sticky := if (r * r * QDen q =? n)%Z then 0%Z else 1%Z in
  of_Q (inject_Z (2 * r + sticky) / inject_Z (2 ^ (sqrt_bits + 1))).

(** [math.sqrt(n)] of a length, [statistics.pstdev] of floats. *)
Definition sqrt_nat (n : nat) : float := fsqrt_Q (inject_Z (Z.of_nat n)).

Definition Qsum (l : list Q) : Q := foldr Qplus 0 l.
Definition pvariance (l : list Q) : Q :=
  let n := inject_Z (Z.of_nat (length l)) in
  let mu := Qsum l / n in
  Qred (Qsum (map (fun x => (x - mu) * (x - mu)) l) / n).

Definition pstdev (l : list float) : result float :=
  if forallb is_fin l then Ok (fsqrt_Q (pvariance (map fval l)))
  else raise AttributeError "'float' object has no attribute 'numerator'".

Example sqrt_examples :
  fsqrt_Q 2 = flit 14142135623730951 10000000000000000 /\ fsqrt_Q (9 # 4) = flit 3 2 /\ fsqrt_Q 0 = Fin 0
  /\ pstdev [of_Z 1; of_Z 2; of_Z 3; of_Z 4] = Ok (flit 11180339887498950 10000000000000000).
Proof. vm_compute. repeat split. Qed.

(** ** The engine *)

Record SpreadMetrics : Type := mkSpreadMetrics { sm_bid : float; sm_ask : float; sm_mid : float; sm_spread : float; sm_spread_bps : float }.

Record LiquidityAnalytics : Type := mkLiquidityAnalytics {
  la_top_of_book_depth : float; la_depth_1pct : float; la_depth_5pct : float; la_imbalance_ratio : float; la_imbalance_detected : bool }.

Record MarketStatistics : Type := mkStatistics {
  ms_last_price : option float; ms_trade_count : Z; ms_volume : float; ms_realized_volatility : float;
  ms_high_price : option float; ms_low_price : option float }.

Definition calculate_spread (b : OrderBookSnapshot) : result SpreadMetrics :=
  match best_bid b, best_ask b with
  | Some bid, Some ask =>
      if fle bid (of_Z 0) || fle ask (of_Z 0) || flt ask bid then raise ValueError "orderbook top of book is invalid"
      else
        let mid := fdiv (fadd bid ask) (of_Z 2) in
        let spread := fsub ask bid in
        r ← fdiv_chk spread mid;
        Ok (mkSpreadMetrics bid ask mid spread (fmul r (of_Z 10000)))
  | _, _ => raise ValueError "orderbook requires at least one bid and one ask"
  end.

Definition depth_within (b : OrderBookSnapshot) (mid percent : float) : float :=
  let min_bid := fmul mid (fsub (of_Z 1) percent) in
  let max_ask := fmul mid (fadd (of_Z 1) percent) in
  let bid_depth := fsum (map lv_size (List.filter (fun l => fge (lv_price l) min_bid) (bids b))) in
  let ask_depth := fsum (map lv_size (List.filter (fun l => fle (lv_price l) max_ask) (asks b))) in
  fadd bid_depth ask_depth.

(** The sum of the sizes of [levels[:n]]; [n] is at least 1 in a valid configuration. *)
Definition top_depth (n : Z) (ls : list OrderBookLevel) : float := fsum (map lv_size (take (Z.to_nat n) ls)).

Definition imbalance (bid_depth ask_depth : float) : result float :=
  let total := fadd bid_depth ask_depth in
  if feq total (of_Z 0) then Ok (of_Z 0) else fdiv_chk (fsub bid_depth ask_depth) total.

Definition liquidity_analytics (s : LiquiditySettings) (b : OrderBookSnapshot) : result LiquidityAnalytics :=
  spread ← calculate_spread b;
  let bid_depth := top_depth (depth_levels s) (bids b) in
  let ask_depth := top_depth (depth_levels s) (asks b) in
  let depth_1pct := depth_within b (sm_mid spread) (flit 1 100) in
  let depth_5pct := depth_within b (sm_mid spread) (flit 5 100) in
  i ← imbalance bid_depth ask_depth;
  Ok (mkLiquidityAnalytics (fadd bid_depth ask_depth) depth_1pct depth_5pct i (fge (fabs i) (imbalance_threshold s))).

(** [l[-n:]] for a positive [n] *)
Definition take_last {A} (n : nat) (l : list A) : list A := drop (length l - n) l.

(** [zip(l, l[1:])] *)
Fixpoint pairs {A} (l : list A) : list (A * A) :=
  match l with
  | a :: (b :: _) as l' => (a, b) :: pairs l'
  | _ => []
  end.

Definition fpositive (x : float) : bool := fgt x (of_Z 0).

(** [_trade_prices] *)
Definition PriceWindows : Type := list (string * list float).
Definition window_of_symbol (symbol : string) (w : PriceWindows) : list float :=
  match od_get symbol w with Some l => l | None => [] end.

Section Statistics.
Context (log : float -> result float).

Definition log_returns (l : list float) : result (list float) :=
  result_mapM (fun ab => r ← fdiv_chk ab.2 ab.1; log r) (List.filter (fun ab => fpositive ab.1 && fpositive ab.2) (pairs l)).

Definition last_of {A} (l : list A) : option A := List.last (map Some l) None.

(** [max(l) if l else None], [min(l) if l else None] *)
Definition max_of (l : list float) : option float := match l with [] => None | x :: l' => Some (fmax_list x l') end.
Definition min_of (l : list float) : option float := match l with [] => None | x :: l' => Some (fmin_list x l') end.

Definition realized_volatility (returns : list float) : result float :=
  if (1 <? length returns)%nat then sd ← pstdev returns; Ok (fmul sd (sqrt_nat (length returns))) else Ok (of_Z 0).

Definition market_statistics (symbol : string) (trades : list TradeTick) (klines : list Kline) : SE PriceWindows MarketStatistics :=
  fun w =>
    let prices := List.filter fpositive (map tk_price trades) in
    let window := take_last 1000 (window_of_symbol symbol w ++ prices) in
    (od_set symbol window w,
     returns ← log_returns window;
     vol ← realized_volatility returns;
     let volume := fsum (map tk_quantity trades) in
     let kline_prices := map kl_close klines in
     let all_prices := prices ++ kline_prices in
     Ok (mkStatistics (match last_of prices with Some p => Some p | None => last_of kline_prices end)
           (Z.of_nat (length trades)) volume vol (max_of all_prices) (min_of all_prices))).

End Statistics.

(** ** Spread *)

Lemma round64_le x z : repr64 z -> x <= z -> round64 x <= z.
Proof. intros R H. rewrite <- (round64_repr z R). by apply round64_mono. Qed.
Lemma round64_ge x z : repr64 z -> z <= x -> z <= round64 x.
Proof. intros R H. rewrite <- (round64_repr z R). by apply round64_mono. Qed.

Lemma repr64_double a : repr64 a -> repr64 (2 * a).
Proof.
  intros (m & e & E & Hm & He). exists m, (e + 1)%Z. split; [|split; [done|lia]].
  rewrite E. unfold bpow. rewrite Qpower_plus by discriminate. ring.
Qed.

Lemma repr64_half a : repr64 a -> pow2 (-1000) <= a -> repr64 (a / 2).
Proof.
  intros (m & e & E & Hm & He) Ha.
  assert (He' : (-1073 <= e)%Z).
  { destruct (Z.le_gt_cases (-1073) e) as [|Hlt]; [done|]. exfalso.
    assert (He2 : e = (-1074)%Z) by lia. subst e. rewrite E in Ha. clear E.
    assert (Hm' : inject_Z m <= inject_Z (2 ^ 53)) by (rewrite <- Zle_Qle; lia).
    assert (P : 0 < bpow 2 (-1074)) by reflexivity.
    assert (L : inject_Z (2 ^ 53) * bpow 2 (-1074) < pow2 (-1000)) by reflexivity.
    pose proof (Qmult_le_compat_r _ _ (bpow 2 (-1074)) Hm' ltac:(lra)). lra. }
  exists m, (e - 1)%Z. split; [|split; [done|lia]].
  rewrite E. unfold bpow. replace (e - 1)%Z with (e + (-1))%Z by lia. rewrite Qpower_plus by discriminate.
  change (inject_Z 2 ^ (-1)) with (1 # 2). field.
Qed.

(** The midpoint of two floats lies between them, and is at least half of the larger one. *)
Lemma midpoint_between a b : repr64 a -> repr64 b -> pow2 (-1000) <= a -> 0 < b <= a ->
  let c := round64 (round64 (b + a) / 2) in b <= c <= a /\ a / 2 <= c.
Proof.
  intros Ra Rb La [Hb Hab] c.
  assert (L1 : 2 * b <= round64 (b + a)) by (apply round64_ge; [by apply repr64_double|lra]).
  assert (L2 : round64 (b + a) <= 2 * a) by (apply round64_le; [by apply repr64_double|lra]).
  assert (L3 : a <= round64 (b + a)) by (apply round64_ge; [done|lra]).
  assert (H2 : forall x y, x <= y -> x / 2 <= y / 2) by (intros x y Hxy; apply Qmult_le_compat_r; [exact Hxy|discriminate]).
  assert (E2 : forall x, 2 * x / 2 == x) by (intros; field).
  repeat split.
  - apply round64_ge; [done|]. apply Qle_trans with (2 * b / 2); [rewrite E2; lra|by apply H2].
  - apply round64_le; [done|]. apply Qle_trans with (2 * a / 2); [by apply H2|rewrite E2; lra].
  - apply round64_ge; [by apply repr64_half|]. by apply H2.
Qed.

Definition book_top (bid ask : Q) (b : OrderBookSnapshot) : Prop :=
  best_bid b = Some (Fin bid) /\ best_ask b = Some (Fin ask).

(** On a book whose best prices are positive floats between 2^-1000 and
    2^1000 and not crossed, the spread computation succeeds, the mid price
    lies between bid and ask, and the spread in basis points between 0 and
    20000. *)
Theorem spread_bounds bid ask b :
  book_top bid ask b -> repr64 bid -> repr64 ask -> pow2 (-1000) <= ask <= pow2 1000 -> 0 < bid <= ask ->
  exists mid spread bps,
    calculate_spread b = Ok (mkSpreadMetrics (Fin bid) (Fin ask) (Fin mid) (Fin spread) (Fin bps))
    /\ bid <= mid <= ask /\ 0 <= spread <= ask /\ 0 <= bps <= 20000.
Proof.
  intros [Tb Ta] Rb Ra [La Ua] [Pb Hle]. unfold calculate_spread. rewrite Tb, Ta.
  assert (G : fle (Fin bid) (of_Z 0) || fle (Fin ask) (of_Z 0) || flt (Fin ask) (Fin bid) = false).
  { change (of_Z 0) with (Fin 0). apply orb_false_iff. split; [apply orb_false_iff; split|];
      apply not_true_is_false; rewrite ?fle_fin, ?flt_fin; lra. }
  rewrite G.
  assert (Bb : bnd 1000 bid) by (unfold bnd; rewrite Qabs_pos; lra).
  assert (Ba : bnd 1000 ask) by (unfold bnd; rewrite Qabs_pos; lra).
  destruct (fadd_bnd 1000 bid ask ltac:(lia) Bb Ba) as [F1 B1]. rewrite F1.
  change (of_Z 2) with (Fin 2).
  destruct (fdiv_bnd 1001 _ 2 ltac:(lia) B1 ltac:(lra)) as [F2 B2]. rewrite F2.
  destruct (midpoint_between ask bid Ra Rb La (conj Pb Hle)) as [Hm Hh]. set (mid := round64 (round64 (bid + ask) / 2)) in *.
  destruct (fsub_bnd 1000 ask bid ltac:(lia) Ba Bb) as (s & F3 & Es & B3). rewrite F3.
  assert (Hs : 0 <= s <= ask).
  { rewrite Es. split; [apply round64_nonneg; lra|]. apply round64_le; [done|lra]. }
  assert (Hr : 0 <= s / mid <= 2).
  { split; [apply Qle_shift_div_l; lra|]. apply Qle_shift_div_r; [lra|].
    assert (E2 : ask == 2 * (ask / 2)) by field. lra. }
  assert (Bq : bnd 1 (s / mid)) by (unfold bnd; change (pow2 1) with 2; rewrite Qabs_pos; lra).
  destruct (of_Q_bnd 1 (s / mid) ltac:(lia) Bq) as [F4 B4].
  assert (Rr : 0 <= round64 (s / mid) <= 2).
  { split; [apply round64_nonneg; lra|]. apply round64_le; [apply (repr64_Z 2); lia|lra]. }
  assert (Bt : bnd 15 10000) by (unfold bnd; vm_compute; discriminate).
  destruct (fmul_bnd 1 15 _ 10000 ltac:(lia) B4 Bt) as [F5 _].
  exists mid, s, (round64 (round64 (s / mid) * 10000)). split.
  - unfold fdiv_chk. assert (Z0 : feq (Fin mid) (Fin 0) = false).
    { apply Qeq_bool_pos_false. lra. }
    replace (fdiv (Fin s) (Fin mid)) with (Fin (round64 (s / mid))) by (symmetry; exact F4).
    rewrite ?Z0. cbn [mbind result_bind]. by rewrite <- F5.
  - split; [done|]. split; [done|]. split; [apply round64_nonneg; lra|].
    apply round64_le; [apply (repr64_Z 20000); lia|lra].
Qed.

Definition demo_snapshot : OrderBookSnapshot :=
  mkBook "binance" "BTC/USDT" [mkLevel (of_Z 98) (of_Z 1); mkLevel (of_Z 99) (of_Z 3)] [mkLevel (of_Z 101) (of_Z 1)] 0%Z None.

Lemma spread_bounds_witness :
  exists mid spread bps,
    calculate_spread demo_snapshot = Ok (mkSpreadMetrics (Fin 99) (Fin 101) (Fin mid) (Fin spread) (Fin bps))
    /\ 99 <= mid <= 101 /\ 0 <= spread <= 101 /\ 0 <= bps <= 20000.
Proof.
  apply spread_bounds.
  - split; vm_compute; reflexivity.
  - apply (repr64_Z 99). lia.
  - apply (repr64_Z 101). lia.
  - split; vm_compute; discriminate.
  - split; [reflexivity|vm_compute; discriminate].
Defined.

(** ** Imbalance *)

(** When the depths of the two sides are finite and not negative, the
    imbalance lies between -1 and 1. *)
Theorem imbalance_bounds (bd ad : Q) r :
  0 <= bd <= pow2 1000 -> 0 <= ad <= pow2 1000 -> imbalance (Fin bd) (Fin ad) = Ok r ->
  exists q, r = Fin q /\ -1 <= q <= 1.
Proof.
  intros [Pb Ub] [Pa Ua]. unfold imbalance.
  assert (Bb : bnd 1000 bd) by (unfold bnd; rewrite Qabs_pos; lra).
  assert (Ba : bnd 1000 ad) by (unfold bnd; rewrite Qabs_pos; lra).
  destruct (fadd_bnd 1000 bd ad ltac:(lia) Bb Ba) as [F1 _]. rewrite F1.
  destruct (fsub_bnd 1000 bd ad ltac:(lia) Bb Ba) as (s & F2 & Es & _). rewrite F2.
  set (t := round64 (bd + ad)) in *.
  assert (Hs : - t <= s <= t).
  { rewrite Es. unfold t. rewrite <- round64_opp. split; apply round64_mono; lra. }
  change (of_Z 0) with (Fin 0). destruct (feq (Fin t) (Fin 0)) eqn:Z0.
  - intros [= <-]. exists 0. split; [done|lra].
  - unfold fdiv_chk. rewrite ?Z0. intros [= <-]. simpl in Z0. apply Qeq_bool_neq in Z0.
    assert (Ht : 0 < t) by (pose proof (round64_nonneg (bd + ad) ltac:(lra)); fold t in H; lra).
    assert (Hq : -1 <= s / t <= 1).
    { split; [apply Qle_shift_div_l|apply Qle_shift_div_r]; lra. }
    assert (Bq : bnd 0 (s / t)) by (unfold bnd; apply Qabs_Qle_condition; change (pow2 0) with 1; lra).
    destruct (of_Q_bnd 0 (s / t) ltac:(lia) Bq) as [F4 B4].
    exists (round64 (s / t)). split; [exact F4|]. unfold bnd in B4. change (pow2 0) with 1 in B4.
    apply Qabs_Qle_condition in B4. lra.
Qed.

Lemma imbalance_bounds_witness :
  imbalance (Fin 4) (Fin 1) = Ok (flit 6 10) /\ exists q, flit 6 10 = Fin q /\ -1 <= q <= 1.
Proof.
  assert (E : imbalance (Fin 4) (Fin 1) = Ok (flit 6 10)) by (vm_compute; reflexivity).
  split; [exact E|]. apply (imbalance_bounds 4 1); [split; vm_compute; discriminate..|exact E].
Defined.

(** ** Price windows *)

Lemma take_last_length {A} n (l : list A) : (length (take_last n l) <= n)%nat.
Proof. unfold take_last. rewrite length_drop. lia. Qed.

Lemma take_last_app {A} n (l x : list A) : take_last n (take_last n l ++ x) = take_last n (l ++ x).
Proof.
  unfold take_last. rewrite !length_app, length_drop.
  destruct (decide (length l <= n)%nat) as [Hl|Hl].
  - replace (length l - n)%nat with 0%nat by lia. rewrite drop_0. f_equal. lia.
  - rewrite <- (drop_app_le l x (length l - n)) by lia. rewrite drop_drop. f_equal. lia.
Qed.

(** A sequence of calls of [market_statistics], exceptions included. *)
Definition statistics_call : Type := string * list TradeTick * list Kline.
Definition run_statistics (log : float -> result float) (calls : list statistics_call) (w : PriceWindows) : PriceWindows :=
  foldl (fun w c => (market_statistics log c.1.1 c.1.2 c.2 w).1) w calls.

(** The positive prices of a symbol, in order of arrival. *)
Definition prices_seen (symbol : string) (calls : list statistics_call) : list float :=
  concat (map (fun c => if String.eqb c.1.1 symbol then List.filter fpositive (map tk_price c.1.2) else []) calls).

Lemma window_set symbol s l (w : PriceWindows) :
  window_of_symbol symbol (od_set s l w) = if decide (symbol = s) then l else window_of_symbol symbol w.
Proof. unfold window_of_symbol. rewrite od_get_set. by case_decide. Qed.

(** C39: after any calls, the window of a symbol is exactly the last 1000
    positive trade prices seen for that symbol, whatever happened on the
    others and whether or not a computation raised. *)
Theorem window_is_last_1000 log calls symbol :
  window_of_symbol symbol (run_statistics log calls []) = take_last 1000 (prices_seen symbol calls).
Proof.
  unfold run_statistics, prices_seen.
  assert (G : forall w l, window_of_symbol symbol w = take_last 1000 l ->
    window_of_symbol symbol (foldl (fun w c => (market_statistics log c.1.1 c.1.2 c.2 w).1) w calls)
    = take_last 1000 (l ++ concat (map (fun c => if String.eqb c.1.1 symbol then List.filter fpositive (map tk_price c.1.2) else []) calls))).
  { induction calls as [|[[s t] k] calls IH]; intros w l E; simpl; [by rewrite app_nil_r|].
    rewrite app_assoc. apply IH. cbn [fst snd]. rewrite window_set. case_decide as D.
    - subst s. rewrite String.eqb_refl, E. apply take_last_app.
    - rewrite (proj2 (String.eqb_neq s symbol)) by congruence. by rewrite app_nil_r. }
  apply (G [] []). done.
Qed.
