(* ===== verification/MarketDataRuntime.v ===== *)
(** * MarketDataRuntime: ingestion of market data ([engines/market_data/runtime.py])

    - [MarketDataNormalizer]: venue messages to tickers, trades, books, klines;
    - [MarketDataRuntime]: start-up, the handler of the connectors, publication
      on the bus, persistence of every N-th item, trading-pair rows, the
      configuration listener and the health check.

    Parameters: the clock, [uuid4], [datetime.fromtimestamp], the platform's
    logarithm, the database session (class [MarketSession]), Redis (which calls
    fail), [json.loads] and pydantic's coercion. Messages on the bus are the
    values JSON transports; a [datetime] is its text. Tasks run one handler at
    a time; logging, task cancellation and waiting are not modelled. *)

From Stdlib Require Import Ascii.
From S2P Require Import Prelude Rounding PyFloat PyDecimal PyData PyValue Models Config Store Paper MMRuntime OrderBook MarketData.

#[local] Open Scope string_scope.
#[local] Open Scope list_scope.

(** [sub in s] *)
Fixpoint str_in (sub s : string) : bool :=
  String.prefix sub s || match s with "" => false | String _ s' => str_in sub s' end.
Definition any_token (tokens : list string) (s : string) : bool := existsb (fun t => str_in t s) tokens.

(** [str(t)] of a UTC datetime: its ISO form with a space. *)
Definition datetime_str (t : datetime) : string := str_replace "T" " " (isoformat t).

(** [d.get(k1) or ... or d.get(kn)] *)
Fixpoint get_or (ks : list string) (d : dict) : pyval :=
  match ks with
  | [] => PNone
  | [k] => pget k d
  | k :: ks' => por (pget k d) (get_or ks' d)
  end.

(** ** Normalizer *)

Inductive Normalized : Type :=
  | NTicker (t : Ticker) | NTrade (t : TradeTick) | NBook (b : OrderBookSnapshot) | NKline (k : Kline).

Section Normalizer.
Context (clock : nat -> datetime) (uuid : nat -> string) (fromtimestamp : float -> result datetime).

(** The state is the position in the answers of the clock and of [uuid4]. *)
Definition NM (A : Type) : Type := SE nat A.
#[local] Instance NM_ret : MRet NM := se_ret nat.
#[local] Instance NM_bind : MBind NM := se_bind nat.

Definition n_now : NM datetime := fun t => (S t, Ok (clock t)).
Definition n_uuid : NM string := fun t => (S t, Ok (uuid t)).

Definition to_timestamp (v : pyval) : result (option datetime) :=
  match v with
  | PNone => Ok None
  | _ =>
      number ← py_float v;
      let number := if fgt number (of_Z 10000000000) then fdiv number (of_Z 1000) else number in
      Some <$> fromtimestamp number
  end.

(** [self._timestamp(v) or now] *)
Definition timestamp_or (v : pyval) (now : datetime) : NM datetime :=
  t ← se_lift (to_timestamp v);
  match t with Some t => mret t | None => mret now end.
(** [self._timestamp(v) or datetime.now(timezone.utc)] *)
Definition timestamp_or_now (v : pyval) : NM datetime :=
  t ← se_lift (to_timestamp v);
  match t with Some t => mret t | None => n_now end.

Definition to_float (v : pyval) : result (option float) :=
  match v with
  | PNone => Ok None
  | PStr "" => Ok None
  | _ => Some <$> py_float v
  end.

(** [x or 0.0] *)
Definition float_or_zero (o : option float) : float :=
  match o with Some x => if feq x (of_Z 0) then of_Z 0 else x | None => of_Z 0 end.

(** [[OrderBookLevel(float(price), float(size)) for price, size, *_ in levels]] *)
Definition raw_level (item : pyval) : result OrderBookLevel :=
  '(p, s) ← unpack2 item;
  price ← py_float p;
  size ← py_float s;
  Ok (mkLevel price size).
Definition raw_levels (v : pyval) : result (list OrderBookLevel) := items ← iterate v; result_mapM raw_level items.

Definition text_or_none (v : pyval) : option string := match v with PNone => None | _ => Some (py_str v) end.

(** [float(a or b or 0)] *)
Definition float_first (ks : list string) (d : dict) : result float := py_float (pget_first ks (PInt 0) d).

Definition build_ticker (exchange symbol : string) (d : dict) (bid bid_size ask ask_size last volume time : list string) : NM Ticker :=
  now ← n_now;
  b ← se_lift (to_float (get_or bid d));
  bs ← se_lift (to_float (get_or bid_size d));
  a ← se_lift (to_float (get_or ask d));
  as_ ← se_lift (to_float (get_or ask_size d));
  l ← se_lift (to_float (get_or last d));
  v ← se_lift (to_float (get_or volume d));
  ts ← timestamp_or (get_or time d) now;
  mret (mkTicker exchange symbol b bs a as_ l v ts).

Definition normalize_ticker (venue : ExecutionVenue) (symbol : string) (d : dict) : NM Ticker :=
  build_ticker (venue_value venue) symbol d ["b"; "bid"; "best_bid"; "bidPrice"] ["B"; "bidSize"; "best_bid_size"]
    ["a"; "ask"; "best_ask"; "askPrice"] ["A"; "askSize"; "best_ask_size"] ["c"; "last"; "lastPrice"; "price"]
    ["v"; "volume"; "baseVolume"] ["E"; "time"; "ts"].

Definition coinstore_ticker (symbol : string) (d : dict) : NM Ticker :=
  build_ticker "coinstore" symbol d ["bid"; "bestBid"; "best_bid"; "bidPrice"; "b"] ["bidSize"; "bid_size"; "B"]
    ["ask"; "bestAsk"; "best_ask"; "askPrice"; "a"] ["askSize"; "ask_size"; "A"] ["last"; "lastPrice"; "close"; "price"; "c"]
    ["volume"; "volume24h"; "baseVolume"; "v"] ["time"; "ts"; "E"].

(** [str(payload.get(k1) or ... or uuid.uuid4())] *)
Definition trade_id_of (ks : list string) (d : dict) : NM string :=
  let v := get_or ks d in
  if truthy v then mret (py_str v) else n_uuid.

Definition normalize_trade (venue : ExecutionVenue) (symbol : string) (d : dict) : NM TradeTick :=
  price ← se_lift (to_float (get_or ["p"; "price"; "trade_price"] d));
  quantity ← se_lift (to_float (get_or ["q"; "quantity"; "size"; "amount"] d));
  let side_raw := str_lower (py_str (pget_first ["side"; "S"] (PStr (if truthy (pget "m" d) then "sell" else "buy")) d)) in
  trade_id ← trade_id_of ["t"; "trade_id"; "id"] d;
  traded_at ← timestamp_or_now (get_or ["T"; "time"; "ts"] d);
  mret (mkTick (venue_value venue) symbol trade_id (float_or_zero price) (float_or_zero quantity)
          (if String.eqb side_raw "sell" || String.eqb side_raw "s" then "sell" else "buy") traded_at d).

Definition coinstore_trade (symbol : string) (d : dict) : NM TradeTick :=
  let side_raw := str_lower (py_str (pget_first ["takerSide"; "side"; "S"] (PStr "") d)) in
  trade_id ← trade_id_of ["tradeId"; "trade_id"; "id"] d;
  price ← se_lift (to_float (get_or ["price"; "p"] d));
  quantity ← se_lift (to_float (get_or ["volume"; "quantity"; "size"; "amount"; "q"] d));
  traded_at ← timestamp_or_now (get_or ["time"; "ts"; "T"] d);
  mret (mkTick "coinstore" symbol trade_id (float_or_zero price) (float_or_zero quantity)
          (if String.eqb side_raw "sell" || String.eqb side_raw "s" || String.eqb side_raw "-1" then "sell" else "buy") traded_at d).

Definition build_orderbook (exchange symbol : string) (d : dict) (bid ask time sequence : list string) : NM OrderBookSnapshot :=
  bs ← se_lift (raw_levels (pget_first bid (PList []) d));
  as_ ← se_lift (raw_levels (pget_first ask (PList []) d));
  ts ← timestamp_or_now (get_or time d);
  mret (mkBook exchange symbol bs as_ ts (text_or_none (get_or sequence d))).

Definition normalize_orderbook (venue : ExecutionVenue) (symbol : string) (d : dict) : NM OrderBookSnapshot :=
  build_orderbook (venue_value venue) symbol d ["b"; "bids"] ["a"; "asks"] ["E"; "time"; "ts"] ["u"; "sequence"; "lastUpdateId"].

Definition coinstore_orderbook (symbol : string) (d : dict) : NM OrderBookSnapshot :=
  build_orderbook "coinstore" symbol d ["bids"; "b"; "bid"] ["asks"; "a"; "ask"] ["time"; "ts"; "E"] ["sequence"; "seq"; "u"].

Definition inner_kline (d : dict) : dict := match pget "k" d with PDict k => k | _ => d end.

Definition build_kline (exchange symbol : string) (k : dict) (interval open_time close_time open high low close volume : list string) : NM Kline :=
  now ← n_now;
  let i := py_str (pget_first interval (PStr "1m") k) in
  ot ← timestamp_or (get_or open_time k) now;
  ct ← timestamp_or (get_or close_time k) now;
  o ← se_lift (float_first open k);
  h ← se_lift (float_first high k);
  l ← se_lift (float_first low k);
  c ← se_lift (float_first close k);
  v ← se_lift (float_first volume k);
  mret (mkKline exchange symbol i ot ct o h l c v).

Definition normalize_kline (venue : ExecutionVenue) (symbol : string) (d : dict) : NM Kline :=
  build_kline (venue_value venue) symbol (inner_kline d) ["i"; "interval"] ["t"; "open_time"] ["T"; "close_time"]
    ["o"; "open"] ["h"; "high"] ["l"; "low"] ["c"; "close"] ["v"; "volume"].

Definition coinstore_kline (symbol : string) (d : dict) : NM Kline :=
  build_kline "coinstore" symbol (inner_kline d) ["interval"; "range"] ["open_time"; "openTime"; "t"; "time"; "ts"]
    ["close_time"; "closeTime"; "T"; "time"; "ts"] ["open"; "o"] ["high"; "h"] ["low"; "l"] ["close"; "c"; "price"] ["volume"; "v"].

Definition is_coinstore_control_message (m : dict) : bool :=
  existsb (fun key => existsb (String.eqb (str_lower (py_str (por (pget key m) (PStr "")))))
                        ["ping"; "pong"; "heartbeat"; "resp"; "echo"; "command.received"; "sub.channel.success"; "established"])
    ["T"; "M"; "op"; "event"; "type"].

Fixpoint coinstore_payload_from (keys : list string) (m : dict) : dict :=
  match keys with
  | [] => m
  | key :: keys' =>
      match pget key m with
      | PDict value => dict_merge value (List.filter (fun kv => negb (phas kv.1 value)) m)
      | PList (PDict value :: _) => dict_merge value (List.filter (fun kv => negb (String.eqb kv.1 key)) m)
      | _ => coinstore_payload_from keys' m
      end
  end.
Definition coinstore_payload : dict -> dict := coinstore_payload_from ["data"; "result"; "tick"; "payload"; "body"; "D"].

(** [raw[:-n]] *)
Definition drop_suffix (n : nat) (s : string) : string := String.substring 0 (String.length s - n) s.

Definition coinstore_symbol (d : dict) (default : string) : string :=
  let raw := py_str (pget_first ["symbol"; "currencyPair"; "channel"] (PStr default) d) in
  let raw := match str_split "@" raw with p :: _ => p | [] => raw end in
  let raw := str_replace "_" "/" (str_replace "-" "/" (str_upper raw)) in
  if str_contains "/" raw then raw else
  if negb (String.eqb raw "") && String.eqb raw (str_upper (str_replace "/" "" default)) then default else
  match List.find (fun quote => str_endswith quote raw && (String.length quote <? String.length raw)%nat)
          ["USDT"; "USDC"; "USD"; "BTC"; "ETH"] with
  | Some quote => drop_suffix (String.length quote) raw +:+ "/" +:+ quote
  | None => default
  end.

Definition coinstore_is_orderbook (event : string) (d : dict) : bool :=
  any_token ["depth"; "orderbook"; "order_book"; "snapshot_depth"] event || phas_any ["bids"; "asks"] d.
Definition coinstore_is_trade (event : string) (d : dict) : bool :=
  any_token ["trade"; "deal"; "future_tick"] event || phas "tradeId" d || (phas "price" d && phas_any ["volume"; "quantity"; "size"] d).
Definition coinstore_is_ticker (event : string) (d : dict) : bool :=
  any_token ["ticker"; "indicator"] event || phas_any ["last"; "lastPrice"; "bid"; "ask"; "bestBid"; "bestAsk"; "close"] d.
Definition coinstore_is_kline (event : string) (d : dict) : bool :=
  any_token ["kline"; "candle"] event || forallb (fun k => phas k d) ["open"; "high"; "low"; "close"].

Definition normalize_coinstore (symbol : string) (m : dict) : NM (option Normalized) :=
  if is_coinstore_control_message m then mret None else
  let d := coinstore_payload m in
  let event := str_lower (py_str (por (get_or ["T"; "type"; "event"; "channel"] m) (pget_first ["T"; "type"; "event"; "channel"] (PStr "") d))) in
  let symbol := coinstore_symbol d symbol in
  if coinstore_is_orderbook event d then b ← coinstore_orderbook symbol d; mret (Some (NBook b))
  else if coinstore_is_trade event d then t ← coinstore_trade symbol d; mret (Some (NTrade t))
  else if coinstore_is_ticker event d then t ← coinstore_ticker symbol d; mret (Some (NTicker t))
  else if coinstore_is_kline event d then k ← coinstore_kline symbol d; mret (Some (NKline k))
  else mret None.

Definition has_scalar_ticker_fields (m : dict) : bool :=
  existsb (fun key => match pget key m with PNone | PList _ => false | _ => true end) ["b"; "a"; "bid"; "ask"; "last"; "lastPrice"].

Definition message_payload (m : dict) : dict :=
  match pget "data" m with
  | PDict d => d
  | _ => match pget "result" m with PDict d => d | _ => m end
  end.

Definition normalize (venue : ExecutionVenue) (symbol : string) (m : dict) : NM (option Normalized) :=
  match venue with
  | coinstore => normalize_coinstore symbol m
  | _ =>
      let event := str_lower (py_str (pget_first ["e"; "event"; "channel"; "type"] (PStr "") m)) in
      let d := message_payload m in
      if any_token ["depth"; "order_book"; "level2"] event || phas "bids" d || phas "asks" d then
        b ← normalize_orderbook venue symbol d; mret (Some (NBook b))
      else if any_token ["ticker"; "tickers"] event || has_scalar_ticker_fields m then
        t ← normalize_ticker venue symbol d; mret (Some (NTicker t))
      else if any_token ["trade"; "match"; "deals"] event || (phas "price" d && phas "quantity" d && phas "trade_id" d) then
        t ← normalize_trade venue symbol d; mret (Some (NTrade t))
      else if any_token ["kline"; "candle"; "candlestick"] event then
        k ← normalize_kline venue symbol d; mret (Some (NKline k))
      else mret None
  end.

End Normalizer.

(** ** Values on the bus: [asdict] of the records *)

Definition pfloat_opt (o : option float) : pyval := match o with Some x => PFloat x | None => PNone end.
Definition pstr_opt (o : option string) : pyval := match o with Some x => PStr x | None => PNone end.
Definition level_dict (l : OrderBookLevel) : pyval := PDict [("price", PFloat (lv_price l)); ("size", PFloat (lv_size l))].

Section AsDict.
(** How the consumer writes a [datetime]: [str] on the bus, [isoformat] in the database. *)
Context (show : datetime -> string).

Definition orderbook_dict (b : OrderBookSnapshot) : dict :=
  [("exchange", PStr (ob_exchange b)); ("symbol", PStr (ob_symbol b)); ("bids", PList (map level_dict (bids b)));
   ("asks", PList (map level_dict (asks b))); ("source_timestamp", PStr (show (ob_source_timestamp b)));
   ("sequence", pstr_opt (ob_sequence b))].

Definition ticker_dict (t : Ticker) : dict :=
  [("exchange", PStr (ti_exchange t)); ("symbol", PStr (ti_symbol t)); ("bid_price", pfloat_opt (ti_bid_price t));
   ("bid_size", pfloat_opt (ti_bid_size t)); ("ask_price", pfloat_opt (ti_ask_price t)); ("ask_size", pfloat_opt (ti_ask_size t));
   ("last_price", pfloat_opt (ti_last_price t)); ("volume_24h", pfloat_opt (ti_volume_24h t));
   ("source_timestamp", PStr (show (ti_source_timestamp t)))].

Definition trade_dict (t : TradeTick) : dict :=
  [("exchange", PStr (tk_exchange t)); ("symbol", PStr (tk_symbol t)); ("trade_id", PStr (tk_trade_id t)); ("price", PFloat (tk_price t));
   ("quantity", PFloat (tk_quantity t)); ("side", PStr (tk_side t)); ("traded_at", PStr (show (tk_traded_at t)));
   ("metadata", PDict (tk_metadata t))].
End AsDict.

Definition spread_dict (s : SpreadMetrics) : dict :=
  [("bid", PFloat (sm_bid s)); ("ask", PFloat (sm_ask s)); ("mid", PFloat (sm_mid s)); ("spread", PFloat (sm_spread s));
   ("spread_bps", PFloat (sm_spread_bps s))].
Definition liquidity_dict (a : LiquidityAnalytics) : dict :=
  [("top_of_book_depth", PFloat (la_top_of_book_depth a)); ("depth_1pct", PFloat (la_depth_1pct a)); ("depth_5pct", PFloat (la_depth_5pct a));
   ("imbalance_ratio", PFloat (la_imbalance_ratio a)); ("imbalance_detected", PBool (la_imbalance_detected a))].
Definition statistics_dict (s : MarketStatistics) : dict :=
  [("last_price", pfloat_opt (ms_last_price s)); ("trade_count", PInt (ms_trade_count s)); ("volume", PFloat (ms_volume s));
   ("realized_volatility", PFloat (ms_realized_volatility s)); ("high_price", pfloat_opt (ms_high_price s));
   ("low_price", pfloat_opt (ms_low_price s))].

(** ** The runtime *)

Record MarketDataSettings : Type := mkMDSettings {
  mds_exchanges : list string; mds_symbols : list string; mds_streams : list string; mds_connect_on_start : bool;
  mds_persist_every : Z; mds_max_reconnect_delay : float }.

(** The database as the runtime uses it; rows are identified by numbers. *)
Class MarketSession (D : Type) : Type := {
  md_is_active : D -> bool;
  md_rollback : SE D unit;
  md_get_pair : Z -> SE D bool;
  md_find_pair : string -> string -> string -> SE D (option Z);
  md_add_pair : dict -> SE D Z;
  md_insert : string -> dict -> SE D unit;
  md_add_event : dict -> SE D Z }.

Inductive MDCounter : Type :=
  | websocket_messages_received | runtime_handle_message_enter | normalization_attempt | normalization_success
  | redis_publish_success | raw_messages_logged | active_subscriptions | reconnect_count | sequence_gaps
  | redis_publish_count | db_insert_count | market_data_rows_written | liquidity_rows_written | volatility_rows_written
  | persist_counter.
#[export] Instance MDCounter_eq_dec : EqDecision MDCounter.
Proof. solve_decision. Defined.

(** A connector and its task. *)
Inductive TaskState : Type := task_running | task_finished | task_cancelled.
Record ConnectorTask : Type := mkTask {
  ct_venue : ExecutionVenue; ct_subscriptions : list StreamSubscription; ct_connected : bool; ct_callbacks : Z; ct_samples : list dict;
  ct_state : TaskState }.
Definition ct_done (t : ConnectorTask) : bool := match ct_state t with task_running => false | _ => true end.

Record MDTimes : Type := mkTimes {
  tm_websocket : option datetime; tm_by_venue : list (string * datetime); tm_message : list (string * datetime);
  tm_publish : option datetime; tm_db_insert : option datetime }.

Record MDPairs : Type := mkPairs { pr_ids : list (string * string * Z); pr_validated : bool; pr_count : Z }.

Definition venue_of_value (s : string) : result ExecutionVenue :=
  match List.find (fun v => String.eqb (venue_value v) s) [coinstore; mexc; gate; bitmart; kucoin; binance] with
  | Some v => Ok v
  | None => raise ValueError (str_repr s +:+ " is not a valid ExecutionVenue")
  end.
Definition kind_of_value (s : string) : result StreamKind :=
  match List.find (fun k => String.eqb (kind_value k) s)
          [k_orderbook; k_trades; k_ticker; k_kline; k_user_data; k_balance_updates; k_order_updates; k_execution_reports] with
  | Some k => Ok k
  | None => raise ValueError (str_repr s +:+ " is not a valid StreamKind")
  end.

Section Runtime.
Context {D : Type} `{MarketSession D}.
Context (clock : nat -> datetime) (uuid : nat -> string) (fromtimestamp : float -> result datetime) (time : nat -> float).
Context (log : float -> result float) (redis_call : nat -> string -> result unit).
Context (json_loads : string -> result pyval) (model_validate : dict -> result RuntimeConfig).
Context (st : MarketDataSettings).

Record MarketDataRuntime : Type := mkMD {
  md_metrics : Metrics; md_windows : PriceWindows; md_liquidity : LiquiditySettings;
  md_cache : list (string * pyval); md_bus : list (string * pyval); md_counts : list (MDCounter * Z); md_times : MDTimes;
  md_pairs : MDPairs; md_session : option D; md_tasks : list ConnectorTask; md_started : bool; md_listening : bool; md_tick : nat }.

Definition with_metrics x r := mkMD x (md_windows r) (md_liquidity r) (md_cache r) (md_bus r) (md_counts r) (md_times r) (md_pairs r) (md_session r) (md_tasks r) (md_started r) (md_listening r) (md_tick r).
Definition with_windows x r := mkMD (md_metrics r) x (md_liquidity r) (md_cache r) (md_bus r) (md_counts r) (md_times r) (md_pairs r) (md_session r) (md_tasks r) (md_started r) (md_listening r) (md_tick r).
Definition with_liquidity x r := mkMD (md_metrics r) (md_windows r) x (md_cache r) (md_bus r) (md_counts r) (md_times r) (md_pairs r) (md_session r) (md_tasks r) (md_started r) (md_listening r) (md_tick r).
Definition with_cache x r := mkMD (md_metrics r) (md_windows r) (md_liquidity r) x (md_bus r) (md_counts r) (md_times r) (md_pairs r) (md_session r) (md_tasks r) (md_started r) (md_listening r) (md_tick r).
Definition with_bus x r := mkMD (md_metrics r) (md_windows r) (md_liquidity r) (md_cache r) x (md_counts r) (md_times r) (md_pairs r) (md_session r) (md_tasks r) (md_started r) (md_listening r) (md_tick r).
Definition with_counts x r := mkMD (md_metrics r) (md_windows r) (md_liquidity r) (md_cache r) (md_bus r) x (md_times r) (md_pairs r) (md_session r) (md_tasks r) (md_started r) (md_listening r) (md_tick r).
Definition with_times x r := mkMD (md_metrics r) (md_windows r) (md_liquidity r) (md_cache r) (md_bus r) (md_counts r) x (md_pairs r) (md_session r) (md_tasks r) (md_started r) (md_listening r) (md_tick r).
Definition with_pairs x r := mkMD (md_metrics r) (md_windows r) (md_liquidity r) (md_cache r) (md_bus r) (md_counts r) (md_times r) x (md_session r) (md_tasks r) (md_started r) (md_listening r) (md_tick r).
Definition with_session x r := mkMD (md_metrics r) (md_windows r) (md_liquidity r) (md_cache r) (md_bus r) (md_counts r) (md_times r) (md_pairs r) x (md_tasks r) (md_started r) (md_listening r) (md_tick r).
Definition with_tasks x r := mkMD (md_metrics r) (md_windows r) (md_liquidity r) (md_cache r) (md_bus r) (md_counts r) (md_times r) (md_pairs r) (md_session r) x (md_started r) (md_listening r) (md_tick r).
Definition with_started r := mkMD (md_metrics r) (md_windows r) (md_liquidity r) (md_cache r) (md_bus r) (md_counts r) (md_times r) (md_pairs r) (md_session r) (md_tasks r) true (md_listening r) (md_tick r).
Definition with_listening r := mkMD (md_metrics r) (md_windows r) (md_liquidity r) (md_cache r) (md_bus r) (md_counts r) (md_times r) (md_pairs r) (md_session r) (md_tasks r) (md_started r) true (md_tick r).
Definition with_tick x r := mkMD (md_metrics r) (md_windows r) (md_liquidity r) (md_cache r) (md_bus r) (md_counts r) (md_times r) (md_pairs r) (md_session r) (md_tasks r) (md_started r) (md_listening r) x.

Definition MD (A : Type) : Type := SE MarketDataRuntime A.
#[local] Instance MD_ret : MRet MD := se_ret MarketDataRuntime.
#[local] Instance MD_bind : MBind MD := se_bind MarketDataRuntime.

Definition md_oracle : MD nat := fun r => (with_tick (S (md_tick r)) r, Ok (md_tick r)).
Definition md_now : MD datetime := t ← md_oracle; mret (clock t).

Definition count_of (c : MDCounter) (r : MarketDataRuntime) : Z :=
  match od_get c (md_counts r) with Some n => n | None => 0 end.
(** [self.<counter> += n] *)
Definition add_count (c : MDCounter) (n : Z) : MD unit :=
  se_modify (fun r => with_counts (od_set c (count_of c r + n)%Z (md_counts r)) r).
Definition md_increment (name : string) : MD unit :=
  se_modify (fun r => with_metrics (metrics_increment name (of_Z 1) (md_metrics r)) r).
Definition md_gauge (name : string) (x : float) : MD unit :=
  se_modify (fun r => with_metrics (metrics_set_gauge name x (md_metrics r)) r).
Definition count_gauge (name : string) (c : MDCounter) : MD unit :=
  r ← se_get; md_gauge name (of_Z (count_of c r)).
Definition normalizer {A} (m : NM A) : MD A :=
  fun r => let '(t, x) := m (md_tick r) in (with_tick t r, x).

(** Redis: [set_json] and [publish]. *)
Definition cache_set (key : string) (v : pyval) : MD unit :=
  t ← md_oracle;
  _ ← se_lift (redis_call t key);
  se_modify (fun r => with_cache (od_set key v (md_cache r)) r).
Definition bus_publish (channel : string) (v : pyval) : MD unit :=
  t ← md_oracle;
  _ ← se_lift (redis_call t channel);
  se_modify (fun r => with_bus (md_bus r ++ [(channel, v)]) r).

(** [EngineCommunicationLayer.publish_event] *)
Definition publish_event (engine event_type : string) (payload : dict) : MD unit :=
  t ← md_oracle;
  let event := PDict [("engine", PStr engine); ("event_type", PStr event_type); ("payload", PDict payload); ("published_at", PFloat (time t))] in
  _ ← cache_set ("engine:last_event:" +:+ engine) event;
  bus_publish ("engine.events." +:+ engine) event.

Definition distribute_orderbook (b : OrderBookSnapshot) : MD unit :=
  publish_event "market-data" "orderbook" (orderbook_dict datetime_str b).

Definition publish (channel : string) (payload : dict) : MD unit :=
  _ ← cache_set ("latest:" +:+ channel) (PDict payload);
  _ ← bus_publish channel (PDict payload);
  _ ← add_count redis_publish_count 1;
  _ ← add_count redis_publish_success 1;
  now ← md_now;
  _ ← se_modify (fun r => let t := md_times r in with_times (mkTimes (tm_websocket t) (tm_by_venue t) (tm_message t) (Some now) (tm_db_insert t)) r);
  md_increment "market_data.redis_publish_success".

(** *** Trading pairs *)

Definition md_db {A} (m : SE D A) : MD A :=
  fun r => match md_session r with
           | None => (r, raise AttributeError "'NoneType' object has no attribute 'execute'")
           | Some d => let '(d', x) := m d in (with_session (Some d') r, x)
           end.

Definition set_pairs (p : MDPairs) : MD unit := se_modify (with_pairs p).
Definition pair_key : Type := string * string.
Definition pair_cached (k : pair_key) (r : MarketDataRuntime) : option Z := od_get k (pr_ids (md_pairs r)).
Definition pair_forget (k : pair_key) : MD unit :=
  se_modify (fun r => let p := md_pairs r in with_pairs (mkPairs (od_del k (pr_ids p)) (pr_validated p) (pr_count p)) r).
Definition pair_remember (k : pair_key) (id : Z) : MD unit :=
  se_modify (fun r => let p := md_pairs r in with_pairs (mkPairs (od_set k id (pr_ids p)) (pr_validated p) (pr_count p)) r).

Definition handle_session_rollback : MD unit := set_pairs (mkPairs [] false 0).

Definition normalize_exchange (exchange : string) : result string :=
  let n := str_lower (str_strip exchange) in
  if String.eqb n "" then raise ValueError "exchange name is required" else Ok n.

(** [s.split("/", 1)], for a text that contains a slash *)
Definition split_slash (s : string) : string * string :=
  match str_split "/" s with
  | [] => ("", "")
  | base :: rest => (base, str_join "/" rest)
  end.

Definition normalize_trading_symbol (symbol : string) : result string :=
  let n := str_upper (str_strip symbol) in
  if negb (str_contains "/" n) then raise ValueError ("configured trading symbol must use BASE/QUOTE format: " +:+ symbol) else
  let '(b, q) := split_slash n in
  let base := str_strip b in
  let quote := str_strip q in
  if String.eqb base "" || String.eqb quote "" then
    raise ValueError ("configured trading symbol must include base and quote assets: " +:+ symbol)
  else Ok (base +:+ "/" +:+ quote).

Definition rollback_and_forget : MD unit := _ ← md_db md_rollback; handle_session_rollback.

(** [try: m except cls as e: h e] *)
Definition except_class {A} (cls : exn_class) (m : MD A) (h : exn -> MD A) : MD A :=
  se_catch m (fun e => if exn_isinstance (ex_class e) cls then h e else se_lift (Err e)).

(** The lookup of the cached id: [Some id] when the row still exists. *)
Definition check_cached (k : pair_key) : MD (option Z) :=
  r ← se_get;
  match pair_cached k r with
  | None => mret None
  | Some id =>
      except_class PendingRollbackError
        (found ← md_db (md_get_pair id);
         match found with
         | true => mret (Some id)
         | false => _ ← pair_forget k; mret None
         end)
        (fun _ => _ ← rollback_and_forget; mret None)
  end.

Definition pair_row (exchange base quote normalized venue_symbol : string) : dict :=
  [("exchange_name", PStr exchange); ("base_asset", PStr base); ("quote_asset", PStr quote); ("normalized_symbol", PStr normalized);
   ("venue_symbol", PStr venue_symbol); ("price_precision", PInt 8); ("quantity_precision", PInt 8); ("is_enabled", PBool true)].

(** [add] and [flush] in a savepoint; a row added by someone else is looked up. *)
Definition create_pair (k : pair_key) (exchange base quote normalized venue_symbol : string) : MD Z :=
  except_class IntegrityError
    (md_db (md_add_pair (pair_row exchange base quote normalized venue_symbol)))
    (fun e =>
       _ ← pair_forget k;
       row ← md_db (md_find_pair exchange normalized venue_symbol);
       match row with Some id => mret id | None => se_lift (Err e) end).

Definition ensure_trading_pair (exchange symbol : string) : MD (option Z) :=
  r ← se_get;
  match md_session r with
  | None => mret None
  | Some d =>
      exchange_key ← se_lift (normalize_exchange exchange);
      normalized ← se_lift (normalize_trading_symbol symbol);
      let '(base, quote) := split_slash normalized in
      let venue_symbol := str_replace "/" "" normalized in
      let k := (exchange_key, normalized) in
      _ ← (if md_is_active d then mret tt else rollback_and_forget);
      cached ← check_cached k;
      match cached with
      | Some id => mret (Some id)
      | None =>
          row ← md_db (md_find_pair exchange_key normalized venue_symbol);
          id ← (match row with
                | Some id => mret id
                | None => create_pair k exchange_key base quote normalized venue_symbol
                end);
          _ ← pair_remember k id;
          mret (Some id)
      end
  end.

Definition validate_configured_trading_pairs : MD unit :=
  r ← se_get;
  match md_session r with
  | None => mret tt
  | Some _ =>
      let all := List.list_prod (mds_exchanges st) (mds_symbols st) in
      _ ← se_iter (fun es => _ ← ensure_trading_pair es.1 es.2; mret tt) all;
      se_modify (fun r => with_pairs (mkPairs (pr_ids (md_pairs r)) true (Z.of_nat (length all))) r)
  end.

(** *** Persistence *)

(** Decimals become text; a [datetime] is text already. *)
Fixpoint json_safe (v : pyval) : pyval :=
  match v with
  | PDec d => PStr (dec_str d)
  | PList l => PList (map json_safe l)
  | PDict d => PDict (map (fun kv => (kv.1, json_safe kv.2)) d)
  | _ => v
  end.

(** [self._persist_counter += 1]; whether this item is stored. *)
Definition persist_due : MD bool :=
  _ ← add_count persist_counter 1;
  r ← se_get;
  match md_session r with
  | None => mret false
  | Some _ =>
      if (mds_persist_every st =? 0)%Z then se_raise ZeroDivisionError "integer modulo by zero"
      else mret (count_of persist_counter r mod mds_persist_every st =? 0)%Z
  end.

Definition pair_id_of (exchange symbol : string) : MD Z :=
  id ← ensure_trading_pair exchange symbol;
  match id with
  | None => se_raise RuntimeError "trading pair id unavailable"
  | Some id => mret id
  end.

Definition record_insert (rows : MDCounter) (metric : string) : MD unit :=
  _ ← add_count db_insert_count 1;
  _ ← add_count rows 1;
  now ← md_now;
  _ ← se_modify (fun r => let t := md_times r in with_times (mkTimes (tm_websocket t) (tm_by_venue t) (tm_message t) (tm_publish t) (Some now)) r);
  md_increment metric.

Definition insert_market_data (exchange symbol data_type : string) (source_timestamp : datetime) (payload : dict)
    (bid_price bid_size ask_price ask_size last_price volume_24h : option float) : MD unit :=
  id ← pair_id_of exchange symbol;
  _ ← md_db (md_insert "market_data"
        [("exchange_name", PStr exchange); ("trading_pair_id", PInt id); ("data_type", PStr data_type); ("bid_price", pfloat_opt bid_price);
         ("bid_size", pfloat_opt bid_size); ("ask_price", pfloat_opt ask_price); ("ask_size", pfloat_opt ask_size);
         ("last_price", pfloat_opt last_price); ("volume_24h", pfloat_opt volume_24h); ("source_timestamp", PStr (isoformat source_timestamp));
         ("payload", json_safe (PDict payload))]);
  record_insert market_data_rows_written "market_data.rows_written".

Definition maybe_persist_ticker (t : Ticker) : MD unit :=
  due ← persist_due;
  match due with
  | false => mret tt
  | true => insert_market_data (ti_exchange t) (ti_symbol t) "ticker" (ti_source_timestamp t) (ticker_dict isoformat t)
              (ti_bid_price t) (ti_bid_size t) (ti_ask_price t) (ti_ask_size t) (ti_last_price t) (ti_volume_24h t)
  end.

(** [MarketDataEngine.persist_ticker]: the engine's own insertion, for a pair
    that is already known, announced once it is stored. *)
Definition persist_ticker (trading_pair_id : Z) (t : Ticker) : MD unit :=
  let payload := map (fun kv => (kv.1, json_safe kv.2)) (ticker_dict isoformat t) in
  _ ← md_db (md_insert "market_data"
        [("exchange_name", PStr (ti_exchange t)); ("trading_pair_id", PInt trading_pair_id); ("data_type", PStr "ticker");
         ("bid_price", pfloat_opt (ti_bid_price t)); ("bid_size", pfloat_opt (ti_bid_size t)); ("ask_price", pfloat_opt (ti_ask_price t));
         ("ask_size", pfloat_opt (ti_ask_size t)); ("last_price", pfloat_opt (ti_last_price t)); ("volume_24h", pfloat_opt (ti_volume_24h t));
         ("source_timestamp", PStr (isoformat (ti_source_timestamp t))); ("payload", PDict payload)]);
  publish_event "market-data" "ticker" payload.

(** [max(levels, key=price)] and [min(levels, key=price)]: the first best level. *)
Definition best_level (better : float -> float -> bool) (ls : list OrderBookLevel) : option OrderBookLevel :=
  match ls with
  | [] => None
  | l :: ls' => Some (foldl (fun acc x => if better (lv_price x) (lv_price acc) then x else acc) l ls')
  end.

Definition maybe_persist_orderbook (b : OrderBookSnapshot) (spread : SpreadMetrics) : MD unit :=
  due ← persist_due;
  match due with
  | false => mret tt
  | true =>
      let best_bid := best_level fgt (bids b) in
      let best_ask := best_level flt (asks b) in
      insert_market_data (ob_exchange b) (ob_symbol b) "order_book" (ob_source_timestamp b) (orderbook_dict isoformat b)
        (lv_price <$> best_bid) (lv_size <$> best_bid) (lv_price <$> best_ask) (lv_size <$> best_ask) (Some (sm_mid spread)) None
  end.

Definition maybe_persist_orderbook_metrics (b : OrderBookSnapshot) (a : LiquidityAnalytics) (spread : SpreadMetrics) : MD unit :=
  due ← persist_due;
  match due with
  | false => mret tt
  | true =>
      id ← pair_id_of (ob_exchange b) (ob_symbol b);
      _ ← md_db (md_insert "liquidity_metrics"
            [("exchange_name", PStr (ob_exchange b)); ("trading_pair_id", PInt id); ("spread_bps", PFloat (sm_spread_bps spread));
             ("top_of_book_depth", PFloat (la_top_of_book_depth a)); ("depth_1pct", PFloat (la_depth_1pct a));
             ("depth_5pct", PFloat (la_depth_5pct a)); ("imbalance_ratio", PFloat (la_imbalance_ratio a));
             ("captured_at", PStr (isoformat (ob_source_timestamp b))); ("metadata_json", PDict [("mode", PStr "paper")])]);
      record_insert liquidity_rows_written "liquidity.rows_written"
  end.

Definition maybe_persist_volatility (k : Kline) (volatility : float) : MD unit :=
  due ← persist_due;
  match due with
  | false => mret tt
  | true =>
      id ← pair_id_of (kl_exchange k) (kl_symbol k);
      _ ← md_db (md_insert "volatility_metrics"
            [("exchange_name", PStr (kl_exchange k)); ("trading_pair_id", PInt id); ("window_seconds", PInt 60);
             ("realized_volatility", PFloat volatility); ("high_price", PFloat (kl_high k)); ("low_price", PFloat (kl_low k));
             ("open_price", PFloat (kl_open k)); ("close_price", PFloat (kl_close k)); ("captured_at", PStr (isoformat (kl_close_time k)));
             ("metadata_json", PDict [("interval", PStr (kl_interval k))])]);
      record_insert volatility_rows_written "volatility.rows_written"
  end.

(** *** Messages *)

Definition record_websocket_message (venue : ExecutionVenue) : MD unit :=
  now ← md_now;
  _ ← add_count websocket_messages_received 1;
  _ ← se_modify (fun r => let t := md_times r in
        with_times (mkTimes (Some now) (od_set (venue_value venue) now (tm_by_venue t)) (tm_message t) (tm_publish t) (tm_db_insert t)) r);
  _ ← md_increment "market_data.websocket_messages_received";
  r ← se_get;
  if bool_decide (venue = coinstore) && (count_of raw_messages_logged r <? 20)%Z then add_count raw_messages_logged 1 else mret tt.

Definition statistics (symbol : string) (trades : list TradeTick) (klines : list Kline) : MD MarketStatistics :=
  fun r => let '(w, x) := market_statistics log symbol trades klines (md_windows r) in (with_windows w r, x).

Definition channel_name (kind : string) (venue : ExecutionVenue) (symbol : string) : string :=
  "marketdata:" +:+ kind +:+ ":" +:+ venue_value venue +:+ ":" +:+ symbol.

(** The part of [_handle_message] after the normalization. *)
Definition dispatch (venue : ExecutionVenue) (symbol : string) (n : Normalized) : MD unit :=
  match n with
  | NTicker t =>
      _ ← publish (channel_name "ticker" venue symbol) (ticker_dict datetime_str t);
      maybe_persist_ticker t
  | NTrade t =>
      _ ← publish (channel_name "trades" venue symbol) (trade_dict datetime_str t);
      stats ← statistics symbol [t] [];
      publish (channel_name "analytics" venue symbol) (statistics_dict stats)
  | NBook b =>
      r ← se_get;
      analytics ← se_lift (liquidity_analytics (md_liquidity r) b);
      spread ← se_lift (calculate_spread b);
      _ ← distribute_orderbook b;
      _ ← publish (channel_name "orderbook" venue symbol) (orderbook_dict datetime_str b);
      _ ← publish (channel_name "analytics" venue symbol)
            [("spread", PDict (spread_dict spread)); ("liquidity", PDict (liquidity_dict analytics))];
      _ ← maybe_persist_orderbook b spread;
      maybe_persist_orderbook_metrics b analytics spread
  | NKline k =>
      stats ← statistics symbol [] [k];
      _ ← publish (channel_name "analytics" venue symbol) (statistics_dict stats);
      maybe_persist_volatility k (ms_realized_volatility stats)
  end.

(** [Some None]: nothing to do; [None]: the normalizer raised. *)
Definition try_normalize (venue : ExecutionVenue) (symbol : string) (m : dict) : MD (option (option Normalized)) :=
  se_catch (n ← normalizer (normalize clock uuid fromtimestamp venue symbol m); mret (Some n)) (fun _ => mret None).

Definition handle_message (venue : ExecutionVenue) (symbol : string) (m : dict) : MD unit :=
  _ ← add_count runtime_handle_message_enter 1;
  _ ← md_increment "market_data.runtime_handle_message_enter";
  _ ← add_count normalization_attempt 1;
  _ ← md_increment "market_data.normalization_attempt";
  n ← try_normalize venue symbol m;
  match n with
  | None => md_increment "market_data.normalization_errors"
  | Some None => md_increment "market_data.normalization_dropped"
  | Some (Some n) =>
      _ ← add_count normalization_success 1;
      _ ← md_increment "market_data.normalization_success";
      now ← md_now;
      _ ← se_modify (fun r => let t := md_times r in
            with_times (mkTimes (tm_websocket t) (tm_by_venue t) (od_set (venue_value venue +:+ ":" +:+ symbol) now (tm_message t))
                          (tm_publish t) (tm_db_insert t)) r);
      _ ← md_increment "market_data.messages";
      _ ← count_gauge "market_data.active_subscriptions" active_subscriptions;
      dispatch venue symbol n
  end.

(** The [handler] of [_run_connector]: every subscription gets the message. *)
Definition connector_handler (venue : ExecutionVenue) (subscriptions : list StreamSubscription) (m : dict) : MD unit :=
  _ ← record_websocket_message venue;
  se_iter (fun s => handle_message (su_venue s) (text_or (su_symbol s) "") m) subscriptions.

(** [_run_connector]: [connect] handles every exception itself, so the loop
    around it has nothing to catch. *)
Definition run_connector (ws_send : nat -> string -> result unit) (subscriptions : list StreamSubscription)
    (events : list ConnectorEvent) (c : Connector (H := MarketDataRuntime)) : Connector :=
  connect (connector_handler (cn_venue c) subscriptions) None json_loads time ws_send subscriptions events c.

(** *** Life cycle *)

Definition subscriptions_of (venue : ExecutionVenue) : result (list StreamSubscription) :=
  result_mapM (fun sk => k ← kind_of_value sk.2; Ok (mkSubscription venue (Some sk.1) k None None))
    (List.list_prod (mds_symbols st) (mds_streams st)).

Definition start_command_listener : MD unit :=
  r ← se_get;
  if md_listening r then mret tt
  else t ← md_oracle; _ ← se_lift (redis_call t "psubscribe"); se_modify with_listening.

Definition start_connector (exchange : string) : MD unit :=
  venue ← se_lift (venue_of_value (str_lower exchange));
  subscriptions ← se_lift (subscriptions_of venue);
  _ ← add_count active_subscriptions (Z.of_nat (length subscriptions));
  se_modify (fun r => with_tasks (md_tasks r ++ [mkTask venue subscriptions false 0 [] task_running]) r).

Definition ensure_started : MD unit :=
  r ← se_get;
  if md_started r then mret tt else
  _ ← validate_configured_trading_pairs;
  _ ← se_modify with_started;
  _ ← start_command_listener;
  if negb (mds_connect_on_start st) then mret tt else
  _ ← se_iter start_connector (mds_exchanges st);
  count_gauge "market_data.active_subscriptions" active_subscriptions.

Definition validate_health : MD unit :=
  r ← se_get;
  if negb (mds_connect_on_start st) then mret tt else
  if (count_of active_subscriptions r <=? 0)%Z then se_raise RuntimeError "market data has no active subscriptions" else
  match md_tasks r with
  | [] => se_raise RuntimeError "market data has no connector tasks"
  | tasks =>
      if existsb ct_done tasks then se_raise RuntimeError "market data connector tasks stopped" else
      if negb (existsb ct_connected tasks) && negb (existsb (fun t => negb (ct_done t)) tasks && (0 <? count_of websocket_messages_received r)%Z)
      then se_raise RuntimeError "market data has no active websocket connections" else
      if (count_of websocket_messages_received r <=? 0)%Z then se_raise RuntimeError "market data has not received any websocket messages"
      else mret tt
  end.

Definition market_data_tick : MD unit :=
  _ ← ensure_started;
  _ ← count_gauge "market_data.active_subscriptions" active_subscriptions;
  _ ← count_gauge "market_data.sequence_gaps" sequence_gaps;
  _ ← count_gauge "market_data.reconnect_count" reconnect_count;
  validate_health.

(** Connectors are told to stop, tasks that still run are cancelled. *)
Definition market_data_stop : MD unit :=
  se_modify (fun r => with_tasks (map (fun t => mkTask (ct_venue t) (ct_subscriptions t) (ct_connected t) (ct_callbacks t) (ct_samples t)
                                        (match ct_state t with task_running => task_cancelled | x => x end)) (md_tasks r)) r).

(** [publish_runtime_ack] for this component *)
Definition market_data_ack (command_id : option string) (event_type status : string) (payload : dict) : MD unit :=
  acknowledged_at ← md_now;
  t ← md_oracle;
  let cid := pstr_opt command_id in
  let ack := [("event_type", PStr event_type); ("component", PStr "market-data-engine"); ("command_id", cid); ("status", PStr status);
              ("payload", PDict payload); ("acknowledged_at", PStr (isoformat acknowledged_at)); ("published_at", PFloat (time t))] in
  r ← se_get;
  ack ← (match md_session r with
         | None => mret ack
         | Some _ =>
             row ← md_db (md_add_event [("event_type", PStr event_type); ("source_component", PStr "market-data-engine");
                            ("status", PStr status); ("command_id", cid); ("payload", PDict payload)]);
             mret (ack ++ [("runtime_event_id", PStr (str_of_Z row))])
         end);
  _ ← (match command_id with
       | Some c => cache_set ("runtime:ack:" +:+ c +:+ ":market-data-engine") (PDict ack)
       | None => mret tt
       end);
  bus_publish "runtime.acks" (PDict ack).

(** One message of [_consume_runtime_commands]. *)
Definition apply_command (data : pyval) : MD unit :=
  match data with
  | PStr text =>
      v ← se_lift (json_loads text);
      payload ← se_lift (as_dict v);
      let command_id := py_str (por (pget "command_id" payload) (PStr "")) in
      runtime_payload ←
        (if truthy (pget "runtime_config" payload) then mret (pget "runtime_config" payload)
         else inner ← se_lift (as_dict (pget_default "payload" (PDict []) payload)); mret (pget "runtime_config" inner));
      match runtime_payload with
      | PDict doc =>
          config ← se_lift (model_validate doc);
          _ ← se_modify (with_liquidity (rc_liquidity config));
          _ ← md_increment "runtime.config_reloads";
          market_data_ack (if String.eqb command_id "" then None else Some command_id) "runtime_config_reload_ack" "acknowledged"
            [("domains", PList (map (fun kv => PStr kv.1) doc))]
      | _ => mret tt
      end
  | _ => mret tt
  end.
Definition consume_command (data : pyval) : MD unit :=
  se_catch (apply_command data) (fun _ => md_increment "market_data.runtime_command_errors").

End Runtime.
