(* ===== verification/MarketDataProps.v ===== *)
(** * MarketDataProps: properties of market-data ingestion

    The publications of the runtime, the rate of its database rows, and its
    composition with the connector ([OrderBook]) and with the market maker
    ([MMRuntime]), which reads what is published. *)

From Stdlib Require Import Ascii.
From S2P Require Import Prelude Rounding PyFloat PyDecimal PyData PyValue Models Config Store Paper MMRuntime OrderBook MarketData MarketDataRuntime.

#[local] Open Scope string_scope.
#[local] Open Scope list_scope.

(** ** What the market maker reads is what was published *)

Lemma book_level_dict l : book_level (level_dict l) = Ok l.
Proof. by destruct l. Qed.

Lemma mapM_level_dict ls : result_mapM book_level (map level_dict ls) = Ok ls.
Proof. induction ls as [|l ls IH]; [done|]. cbn [map result_mapM]. rewrite book_level_dict. cbn [mbind result_bind]. by rewrite IH. Qed.

(** The order book the market maker reconstructs from a published message
    is the order book that was published, for a [fromisoformat] that reads the
    text of a [datetime]. *)
Theorem orderbook_payload_round_trip (fromisoformat : pyval -> result datetime) b :
  fromisoformat (PStr (datetime_str (ob_source_timestamp b))) = Ok (ob_source_timestamp b) ->
  orderbook_from_payload fromisoformat (PDict (orderbook_dict datetime_str b)) = Ok b.
Proof.
  intros Hiso. set (d := orderbook_dict datetime_str b).
  assert (Ge : od_get "exchange" d = Some (PStr (ob_exchange b))) by reflexivity.
  assert (Gs : od_get "symbol" d = Some (PStr (ob_symbol b))) by reflexivity.
  assert (Gb : od_get "bids" d = Some (PList (map level_dict (bids b)))) by reflexivity.
  assert (Ga : od_get "asks" d = Some (PList (map level_dict (asks b)))) by reflexivity.
  assert (Gt : od_get "source_timestamp" d = Some (PStr (datetime_str (ob_source_timestamp b)))) by reflexivity.
  assert (Gq : od_get "sequence" d = Some (pstr_opt (ob_sequence b))) by reflexivity.
  unfold orderbook_from_payload, book_side, item_get, pget_default, pget. rewrite Ge, Gs.
  cbn [mbind result_bind as_dict]. rewrite Gb, Ga, Gt, Gq. cbn [mbind result_bind iterate].
  rewrite !mapM_level_dict. cbn [mbind result_bind]. rewrite Hiso. cbn [mbind result_bind].
  destruct b as [ex sym bs as_ ts sq]. by destruct sq.
Qed.

(** A [fromisoformat] for the test book's time. *)
Definition demo_fromiso (v : pyval) : result datetime :=
  match v with PStr s => if String.eqb s (datetime_str 0%Z) then Ok 0%Z else raise ValueError "Invalid isoformat string" | _ => raise TypeError "" end.

Lemma orderbook_payload_round_trip_witness :
  orderbook_from_payload demo_fromiso (PDict (orderbook_dict datetime_str demo_snapshot)) = Ok demo_snapshot.
Proof. apply orderbook_payload_round_trip. vm_compute. reflexivity. Defined.

(** ** Frames *)

Section Frames.
Context {D : Type} `{MarketSession D}.
Context (clock : nat -> datetime) (uuid : nat -> string) (fromtimestamp : float -> result datetime) (time : nat -> float).
Context (log : float -> result float) (redis_call : nat -> string -> result unit).
Context (json_loads : string -> result pyval) (model_validate : dict -> result RuntimeConfig).
Context (st : MarketDataSettings).

#[local] Ltac md_open := unfold mbind, MD_bind, mret, MD_ret in *; cbv beta.
#[local] Ltac md_frames :=
  md_open;
  repeat (first [ solve [eauto with frames nocore] | apply frame_bind; [|intros ?] | apply frame_ret | apply frame_lift | apply frame_get
                | apply frame_catch; [|intros ?] | apply frame_iter; intros ? | by apply frame_modify | progress case_match ]).

Abbreviation MDS := (MarketDataRuntime (D := D)).

(** *** Views that only counters, publications and the life cycle change *)

Section View.
Context {V : Type} (v : MDS -> V).

Class quiet : Prop := {
  q_tick x r : v (with_tick x r) = v r;
  q_metrics x r : v (with_metrics x r) = v r;
  q_times x r : v (with_times x r) = v r;
  q_cache x r : v (with_cache x r) = v r;
  q_pairs x r : v (with_pairs x r) = v r;
  q_session x r : v (with_session x r) = v r;
  q_windows x r : v (with_windows x r) = v r }.
Context `{quiet}.

Lemma quiet_oracle : frame v md_oracle.
Proof. intros r. apply q_tick. Qed.
Lemma quiet_now : frame v (md_now clock).
Proof. intros r. apply q_tick. Qed.
Lemma quiet_increment name : frame v (md_increment name).
Proof. intros r. apply q_metrics. Qed.
Lemma quiet_gauge name c : frame v (count_gauge name c).
Proof. intros r. apply q_metrics. Qed.
Lemma quiet_set_times f : frame v (se_modify (fun r => with_times (f r) r)).
Proof. intros r. apply q_times. Qed.
Lemma quiet_normalizer {A} (m : NM A) : frame v (normalizer m).
Proof. intros r. unfold normalizer. destruct (m (md_tick r)). apply q_tick. Qed.
#[local] Hint Resolve quiet_oracle : frames.
Lemma quiet_cache_set key x : frame v (cache_set redis_call key x).
Proof. unfold cache_set. md_open. apply frame_bind; [md_frames|]. intros t. apply frame_bind; [md_frames|]. intros _ r. apply q_cache. Qed.
Lemma quiet_db {A} (m : SE D A) : frame v (md_db m).
Proof. intros r. unfold md_db. destruct (md_session r) as [d|]; [|done]. destruct (m d). apply q_session. Qed.
Lemma quiet_pair_forget k : frame v (pair_forget k).
Proof. intros r. apply q_pairs. Qed.
Lemma quiet_pair_remember k id : frame v (pair_remember k id).
Proof. intros r. apply q_pairs. Qed.
Lemma quiet_rollback : frame v rollback_and_forget.
Proof. unfold rollback_and_forget. md_open. apply frame_bind; [apply quiet_db|]. intros _ r. apply q_pairs. Qed.
Lemma quiet_statistics s t k : frame v (statistics log s t k).
Proof. intros r. unfold statistics. destruct (market_statistics _ _ _ _ _). apply q_windows. Qed.
#[local] Hint Resolve quiet_now quiet_increment quiet_gauge quiet_normalizer quiet_cache_set quiet_db quiet_pair_forget
  quiet_pair_remember quiet_rollback : frames.
Lemma quiet_ensure_pair e s : frame v (ensure_trading_pair e s).
Proof. unfold ensure_trading_pair, check_cached, create_pair, except_class. md_frames. Qed.
#[local] Hint Resolve quiet_ensure_pair : frames.
Lemma quiet_pair_id e s : frame v (pair_id_of e s).
Proof. unfold pair_id_of. md_frames. Qed.
Lemma quiet_try_normalize w s m : frame v (try_normalize clock uuid fromtimestamp w s m).
Proof. unfold try_normalize. md_frames. Qed.
End View.
#[local] Hint Resolve quiet_oracle quiet_now quiet_increment quiet_gauge quiet_set_times quiet_normalizer quiet_cache_set quiet_db
  quiet_pair_id quiet_statistics quiet_try_normalize : frames.

(** *** The bus is changed by publications only *)

Abbreviation bus := (md_bus (D := D)).
Instance bus_quiet : quiet bus.
Proof. by constructor. Qed.
#[local] Hint Resolve bus_quiet : frames.

Lemma bus_count c n : frame bus (add_count c n).
Proof. done. Qed.
#[local] Hint Resolve bus_count : frames.
Lemma bus_persist_due : frame bus (persist_due st).
Proof. unfold persist_due. md_frames. Qed.
Lemma bus_record_insert c m : frame bus (record_insert clock c m).
Proof. unfold record_insert. md_frames. Qed.
#[local] Hint Resolve bus_persist_due bus_record_insert : frames.
Lemma bus_persist_ticker t : frame bus (maybe_persist_ticker clock st t).
Proof. unfold maybe_persist_ticker, insert_market_data. md_frames. Qed.
Lemma bus_persist_orderbook b s : frame bus (maybe_persist_orderbook clock st b s).
Proof. unfold maybe_persist_orderbook, insert_market_data. md_frames. Qed.
Lemma bus_persist_metrics b a s : frame bus (maybe_persist_orderbook_metrics clock st b a s).
Proof. unfold maybe_persist_orderbook_metrics. md_frames. Qed.
Lemma bus_persist_volatility k v : frame bus (maybe_persist_volatility clock st k v).
Proof. unfold maybe_persist_volatility. md_frames. Qed.
#[local] Hint Resolve bus_persist_ticker bus_persist_orderbook bus_persist_metrics bus_persist_volatility : frames.
Lemma bus_record_websocket v : frame bus (record_websocket_message clock v).
Proof. unfold record_websocket_message. md_frames. Qed.
#[local] Hint Resolve bus_record_websocket : frames.

(** A property of the bus is kept when every publication keeps it. *)
Section Published.
Context (I : list (string * pyval) -> Prop) (P : string -> pyval -> Prop).
Hypothesis I_step : forall l ch v, P ch v -> I l -> I (l ++ [(ch, v)]).
Definition on_bus (r : MDS) : Prop := I (md_bus r).

Lemma published_frame {A} (m : MD A) : frame bus m -> stable on_bus m.
Proof. apply (frame_stable bus I). Qed.

Lemma published_bus_publish ch v : P ch v -> stable on_bus (bus_publish redis_call ch v).
Proof.
  intros HP. unfold bus_publish. md_open. apply stable_bind; [by apply published_frame|]. intros t.
  apply stable_bind; [apply stable_lift|]. intros _. apply stable_modify. intros r Hr.
  by apply I_step.
Qed.

Lemma published_publish ch d : P ch (PDict d) -> stable on_bus (publish clock redis_call ch d).
Proof.
  intros HP. unfold publish. md_open. apply stable_bind; [apply published_frame; md_frames|]. intros _.
  apply stable_bind; [by apply published_bus_publish|]. intros _. apply published_frame. md_frames.
Qed.

Hypothesis P_events : forall ch v, ~ (exists venue s, ch = channel_name "analytics" venue s) -> P ch v.
Hypothesis P_book : forall venue s spread liquidity,
  P (channel_name "analytics" venue s) (PDict [("spread", PDict (spread_dict spread)); ("liquidity", PDict (liquidity_dict liquidity))]).
Hypothesis P_statistics : forall venue s stats, P (channel_name "analytics" venue s) (PDict (statistics_dict stats)).

Lemma not_analytics ch : String.prefix "marketdata:analytics:" ch = false -> ~ (exists venue s, ch = channel_name "analytics" venue s).
Proof. intros E (v & s & ->). unfold channel_name in E. by destruct v. Qed.

Lemma published_dispatch venue symbol n : stable on_bus (dispatch clock time log redis_call st venue symbol n).
Proof.
  unfold dispatch. md_open. destruct n as [t|t|b|k].
  - apply stable_bind; [apply published_publish, P_events, not_analytics; by destruct venue|]. intros _. apply published_frame. md_frames.
  - apply stable_bind; [apply published_publish, P_events, not_analytics; by destruct venue|]. intros _.
    apply stable_bind; [apply published_frame; md_frames|]. intros stats. by apply published_publish.
  - apply stable_bind; [by apply published_frame|]. intros r.
    apply stable_bind; [apply stable_lift|]. intros a. apply stable_bind; [apply stable_lift|]. intros s.
    apply stable_bind.
    { unfold distribute_orderbook, publish_event. md_open. apply stable_bind; [by apply published_frame|]. intros t.
      apply stable_bind; [apply published_frame; md_frames|]. intros _.
      apply published_bus_publish, P_events, not_analytics. done. }
    intros _. apply stable_bind; [apply published_publish, P_events, not_analytics; by destruct venue|]. intros _.
    apply stable_bind; [by apply published_publish|]. intros _. apply published_frame. md_frames.
  - apply stable_bind; [apply published_frame; md_frames|]. intros stats.
    apply stable_bind; [by apply published_publish|]. intros _. apply published_frame. md_frames.
Qed.

Lemma published_handle_message venue symbol m :
  stable on_bus (handle_message clock uuid fromtimestamp time log redis_call st venue symbol m).
Proof.
  unfold handle_message. md_open. repeat (apply stable_bind; [apply published_frame; md_frames|intros ?]).
  destruct a3 as [[n|]|]; [|by apply published_frame..].
  repeat (apply stable_bind; [apply published_frame; md_frames|intros ?]). apply published_dispatch.
Qed.

Lemma published_connector_handler venue subs m :
  stable on_bus (connector_handler clock uuid fromtimestamp time log redis_call st venue subs m).
Proof.
  unfold connector_handler. md_open. apply stable_bind; [apply published_frame; md_frames|]. intros _.
  apply stable_iter. intros s _. apply published_handle_message.
Qed.
End Published.

(** *** What was published stays on the bus *)

Definition sent (ch : string) (v : pyval) (r : MDS) : Prop := (ch, v) ∈ md_bus r.

Lemma sent_handle_message ch v venue symbol m :
  stable (sent ch v) (handle_message clock uuid fromtimestamp time log redis_call st venue symbol m).
Proof.
  apply (published_handle_message (fun l => (ch, v) ∈ l) (fun _ _ => True)); try done.
  intros l ch' v' _ Hl. apply elem_of_app. by left.
Qed.

Lemma stable_wp_true {A} (J : MDS -> Prop) (m : MD A) r : stable J m -> J r -> wp m (fun _ => J) (fun _ => True) r.
Proof. intros Hm Hr. eapply wp_mono; [apply (proj1 (stable_wp _ _) Hm r Hr)|done|done]. Qed.

Lemma wp_trivial {A} (m : MD (D := D) A) r : wp m (fun _ _ => True) (fun _ => True) r.
Proof. unfold wp. by destruct (m r) as [r' [a|e]]. Qed.

Lemma wp_publish_sent ch d r : wp (publish clock redis_call ch d) (fun _ => sent ch (PDict d)) (fun _ => True) r.
Proof.
  unfold publish. md_open. apply wp_seq. eapply wp_mono; [apply wp_trivial| |done]. intros _ r1 _.
  apply wp_seq. unfold bus_publish. md_open. apply wp_seq. eapply wp_mono; [apply wp_trivial| |done]. intros t r2 _.
  apply wp_seq, wp_lift; [|done]. intros [] _.
  match goal with |- wp _ ?Q _ ?x => change (Q tt (with_bus (md_bus x ++ [(ch, PDict d)]) x)) end. cbv beta.
  apply stable_wp_true; [|unfold sent; simpl; apply elem_of_app; right; by left].
  apply (published_frame (fun l => (ch, PDict d) ∈ l)). md_frames.
Qed.

Lemma wp_dispatch_book venue symbol b r :
  wp (dispatch clock time log redis_call st venue symbol (NBook b))
     (fun _ => sent (channel_name "orderbook" venue symbol) (PDict (orderbook_dict datetime_str b))) (fun _ => True) r.
Proof.
  unfold dispatch. md_open. do 4 (apply wp_seq; eapply wp_mono; [apply wp_trivial|intros ? ? _|done]).
  apply wp_seq. eapply wp_mono; [apply wp_publish_sent| |done]. intros ? r1 Hr1. cbv beta in Hr1. apply stable_wp_true; [|exact Hr1].
  apply stable_bind.
  - apply (published_publish (fun l => (_, _) ∈ l) (fun _ _ => True)); [|done]. intros l ch v _ Hl. apply elem_of_app. by left.
  - intros _. apply (published_frame (fun l => (_, _) ∈ l)). md_frames.
Qed.

(** A message read as a book, whatever the clock says. *)
Definition reads_book (venue : ExecutionVenue) (symbol : string) (m : dict) (bs as_ : list OrderBookLevel) : Prop :=
  forall t t' n, normalize clock uuid fromtimestamp venue symbol m t = (t', Ok n) ->
    exists b, n = Some (NBook b) /\ ob_symbol b = symbol /\ bids b = bs /\ asks b = as_.

Definition book_sent (venue : ExecutionVenue) (symbol : string) (bs as_ : list OrderBookLevel) (r : MDS) : Prop :=
  exists b, sent (channel_name "orderbook" venue symbol) (PDict (orderbook_dict datetime_str b)) r
            /\ ob_symbol b = symbol /\ bids b = bs /\ asks b = as_.

Lemma book_sent_stable venue symbol bs as_ v s m :
  stable (book_sent venue symbol bs as_) (handle_message clock uuid fromtimestamp time log redis_call st v s m).
Proof. intros r (b & Hs & E). exists b. split; [by apply sent_handle_message|done]. Qed.

Lemma wp_eq {A} (m : MD (D := D) A) Q E r r' a : m r = (r', Ok a) -> Q a r' -> wp m Q E r.
Proof. unfold wp. by intros ->. Qed.

Lemma try_normalize_ok venue symbol m (r : MDS) t' n :
  normalize clock uuid fromtimestamp venue symbol m (md_tick r) = (t', Ok n) ->
  try_normalize clock uuid fromtimestamp venue symbol m r = (with_tick t' r, Ok (Some n)).
Proof. intros N. unfold try_normalize, se_catch. md_open. unfold se_bind, normalizer. by rewrite N. Qed.

Lemma wp_handle_book venue symbol m bs as_ r :
  reads_book venue symbol m bs as_ ->
  (forall t, exists t' n, normalize clock uuid fromtimestamp venue symbol m t = (t', Ok n)) ->
  wp (handle_message clock uuid fromtimestamp time log redis_call st venue symbol m) (fun _ => book_sent venue symbol bs as_) (fun _ => True) r.
Proof.
  intros Hb Hok. unfold handle_message. md_open. do 4 (apply wp_seq; eapply wp_mono; [apply wp_trivial|intros ? ? _|done]).
  apply wp_seq. match goal with |- wp _ _ _ ?x => destruct (Hok (md_tick x)) as (t' & n & N) end. destruct (Hb _ _ _ N) as (b & -> & E).
  eapply wp_eq; [apply try_normalize_ok; exact N|]. cbv beta iota.
  do 6 (apply wp_seq; eapply wp_mono; [apply wp_trivial|intros ? ? _|done]).
  eapply wp_mono; [apply wp_dispatch_book| |done]. intros ? r1 Hr1. cbv beta in Hr1. by exists b.
Qed.

(** *** At most one row in N counted items *)

Definition rows_and_items (r : MDS) : Z * Z := (count_of db_insert_count r, count_of persist_counter r).
Instance rows_quiet : quiet rows_and_items.
Proof. by constructor. Qed.
#[local] Hint Resolve rows_quiet : frames.

(** Every stored row is one of the counted items that N divides. *)
Definition rate_ok (r : MDS) : Prop :=
  (0 <= count_of persist_counter r /\ count_of db_insert_count r <= count_of persist_counter r / mds_persist_every st)%Z.

Lemma rate_frame {A} (m : MD A) : frame rows_and_items m -> stable rate_ok m.
Proof. apply (frame_stable rows_and_items (fun x => 0 <= x.2 /\ x.1 <= x.2 / mds_persist_every st)%Z). Qed.

Lemma rows_count c n : c <> db_insert_count -> c <> persist_counter -> frame rows_and_items (add_count c n).
Proof.
  intros H1 H2 r. unfold rows_and_items, add_count, se_modify. cbn [fst].
  unfold count_of at 1 3. cbn [md_counts with_counts]. by rewrite !od_get_set_ne by congruence.
Qed.
Lemma rows_publish ch d : frame rows_and_items (publish clock redis_call ch d).
Proof.
  unfold publish, bus_publish. md_open.
  repeat (first [ solve [eauto with frames nocore] | by apply rows_count | by apply frame_modify | apply frame_bind; [|intros ?] ]).
Qed.
Lemma rows_distribute b : frame rows_and_items (distribute_orderbook time redis_call b).
Proof. unfold distribute_orderbook, publish_event, bus_publish. md_frames. Qed.
#[local] Hint Resolve rows_publish rows_distribute : frames.

Hypothesis every_positive : (0 < mds_persist_every st)%Z.

Lemma count_add c n (r : MDS) : count_of c (add_count c n r).1 = (count_of c r + n)%Z.
Proof. unfold add_count, se_modify, count_of. simpl. by rewrite od_get_set_eq. Qed.
Lemma count_add_ne c c' n (r : MDS) : c' <> c -> count_of c' (add_count c n r).1 = count_of c' r.
Proof. intros Hc. unfold add_count, se_modify, count_of. simpl. by rewrite od_get_set_ne. Qed.

(** When an item is due, there is room for its row. *)
Definition room (r : MDS) : Prop :=
  rate_ok r /\ (count_of db_insert_count r + 1 <= count_of persist_counter r / mds_persist_every st)%Z.

Lemma wp_persist_due r : rate_ok r -> wp (persist_due st) (fun due r' => rate_ok r' /\ (due = true -> room r')) rate_ok r.
Proof.
  intros [H1 H2]. unfold persist_due. md_open. apply wp_seq.
  set (r1 := (add_count persist_counter 1 r).1).
  assert (C1 : count_of persist_counter r1 = (count_of persist_counter r + 1)%Z) by apply count_add.
  assert (C2 : count_of db_insert_count r1 = count_of db_insert_count r) by by apply count_add_ne.
  assert (R1 : rate_ok r1).
  { unfold rate_ok. rewrite C1, C2. split; [lia|]. etransitivity; [exact H2|]. apply Z.div_le_mono; lia. }
  match goal with |- wp _ ?Q _ _ => change (Q tt r1) end. cbv beta.
  apply wp_seq, wp_get. destruct (md_session r1); [|by apply wp_ret].
  rewrite (proj2 (Z.eqb_neq _ 0)) by lia. apply wp_ret. split; [done|]. intros E%Z.eqb_eq. split; [done|].
  rewrite C1, C2 in *. set (n := mds_persist_every st) in *. set (p := count_of persist_counter r) in *.
  assert (E1 : (p + 1 = n * ((p + 1) / n))%Z) by (pose proof (Z.div_mod (p + 1) n ltac:(lia)); lia).
  assert (p / n < (p + 1) / n)%Z; [|lia]. apply Z.div_lt_upper_bound; lia.
Qed.

Lemma rate_record_insert c m r : c <> db_insert_count -> c <> persist_counter -> room r -> rate_ok (record_insert clock c m r).1.
Proof.
  intros Hc1 Hc2 [[H1 H2] H3]. unfold record_insert. md_open.
  set (r1 := (add_count db_insert_count 1 r).1).
  match goal with |- rate_ok (se_bind _ _ _ ?k _ _).1 => change (rate_ok (k tt r1).1) end. cbv beta.
  assert (R1 : rate_ok r1).
  { unfold rate_ok, r1. rewrite count_add, count_add_ne by done. lia. }
  revert R1. generalize r1. apply rate_frame. apply frame_bind; [by apply rows_count|]. intros _. md_frames.
Qed.

Lemma rate_persist (body : MD unit) :
  (forall r, room r -> rate_ok (body r).1) ->
  stable rate_ok (se_bind _ bool unit (fun due => match due with true => body | false => se_ret MDS unit tt end) (persist_due st)).
Proof.
  intros Hb. apply stable_wp. intros r Hr. apply wp_seq. eapply wp_mono; [by apply wp_persist_due| |done].
  intros [|] r1 [R1 R2]; [|done]. specialize (Hb r1 (R2 eq_refl)). unfold wp. by destruct (body r1) as [r2 [[]|e]].
Qed.

Lemma room_frame {A} (m : MD A) : frame rows_and_items m -> stable room m.
Proof.
  apply (frame_stable rows_and_items (fun x => (0 <= x.2 /\ x.1 <= x.2 / mds_persist_every st) /\ x.1 + 1 <= x.2 / mds_persist_every st)%Z).
Qed.

(** A row whose preparation does not touch the counters. *)
Lemma rate_insert {A} (prepare : MD A) (k : A -> MD unit) r :
  frame rows_and_items prepare -> (forall a r, room r -> rate_ok (k a r).1) -> room r -> rate_ok (se_bind _ _ _ k prepare r).1.
Proof.
  intros F Hk Hr. unfold se_bind. pose proof (room_frame prepare F r Hr) as R1.
  destruct (prepare r) as [r1 [a|e]]; simpl in *; [by apply Hk|by destruct R1].
Qed.

Lemma rate_insert_market_data ex sy ty ts pl a1 a2 a3 a4 a5 a6 r :
  room r -> rate_ok (insert_market_data clock ex sy ty ts pl a1 a2 a3 a4 a5 a6 r).1.
Proof.
  unfold insert_market_data. md_open. apply rate_insert; [md_frames|]. intros id r1. apply rate_insert; [md_frames|].
  intros _ r2. by apply rate_record_insert.
Qed.

Lemma rate_dispatch venue symbol n : stable rate_ok (dispatch clock time log redis_call st venue symbol n).
Proof.
  unfold dispatch. md_open. destruct n as [t|t|b|k].
  - apply stable_bind; [apply rate_frame; md_frames|]. intros _. apply (rate_persist (insert_market_data _ _ _ _ _ _ _ _ _ _ _ _)).
    intros r. apply rate_insert_market_data.
  - apply rate_frame. md_frames.
  - do 6 (apply stable_bind; [apply rate_frame; md_frames|intros ?]).
    apply stable_bind; [apply (rate_persist (insert_market_data _ _ _ _ _ _ _ _ _ _ _ _)); intros r0; apply rate_insert_market_data|].
    intros _. unfold maybe_persist_orderbook_metrics. md_open. apply rate_persist. intros r0.
    apply rate_insert; [md_frames|]. intros id r1. apply rate_insert; [md_frames|]. intros _ r2. by apply rate_record_insert.
  - do 2 (apply stable_bind; [apply rate_frame; md_frames|intros ?]). unfold maybe_persist_volatility. md_open. apply rate_persist. intros r0.
    apply rate_insert; [md_frames|]. intros id r1. apply rate_insert; [md_frames|]. intros _ r2. by apply rate_record_insert.
Qed.

Lemma rate_handle_message venue symbol m :
  stable rate_ok (handle_message clock uuid fromtimestamp time log redis_call st venue symbol m).
Proof.
  assert (C : forall c n, c <> db_insert_count -> c <> persist_counter -> stable rate_ok (add_count c n)).
  { intros c n H1 H2. by apply rate_frame, rows_count. }
  unfold handle_message. md_open.
  apply stable_bind; [by apply C|intros _]. apply stable_bind; [apply rate_frame; md_frames|intros _].
  apply stable_bind; [by apply C|intros _]. do 2 (apply stable_bind; [apply rate_frame; md_frames|intros ?]).
  destruct a0 as [[n|]|]; [|apply rate_frame; md_frames..].
  apply stable_bind; [by apply C|intros _]. do 5 (apply stable_bind; [apply rate_frame; md_frames|intros ?]). apply rate_dispatch.
Qed.

Lemma rate_connector_handler venue subs m :
  stable rate_ok (connector_handler clock uuid fromtimestamp time log redis_call st venue subs m).
Proof.
  unfold connector_handler. md_open. apply stable_bind.
  - apply rate_frame. unfold record_websocket_message. md_open.
    repeat (first [ solve [eauto with frames nocore] | by apply rows_count | apply frame_bind; [|intros ?] | apply frame_get
                  | apply frame_ret | progress case_match ]).
  - intros _. apply stable_iter. intros s _. apply rate_handle_message.
Qed.

End Frames.

(** ** Runs of the handler *)

Section Runs.
Context {D : Type} `{MarketSession D}.
Context (clock : nat -> datetime) (uuid : nat -> string) (fromtimestamp : float -> result datetime) (time : nat -> float).
Context (log : float -> result float) (redis_call : nat -> string -> result unit).
Context (st : MarketDataSettings).

(** Messages of any connectors, in the order in which they are handled; an
    exception ends the handling of one message. *)
Definition delivery : Type := ExecutionVenue * list StreamSubscription * dict.
Definition run_handler (ms : list delivery) (r : MarketDataRuntime (D := D)) : MarketDataRuntime :=
  foldl (fun r m => (connector_handler clock uuid fromtimestamp time log redis_call st m.1.1 m.1.2 m.2 r).1) r ms.

Lemma run_handler_stable (I : MarketDataRuntime -> Prop) ms r :
  (forall v s m, stable I (connector_handler clock uuid fromtimestamp time log redis_call st v s m)) -> I r -> I (run_handler ms r).
Proof. intros Hs. unfold run_handler. revert r. induction ms as [|m ms IH]; intros r Hr; simpl; [done|]. apply IH. by apply Hs. Qed.

(** What the market maker reads from an analytics message, with its defaults. *)
Definition read_volatility (d : dict) : pyval := pget_default "realized_volatility" (PFloat (of_Z 0)) d.
Definition read_spread (d : dict) : pyval := pget_default "spread" (PDict []) d.

(** No analytics message has both the volatility and the spread: the
    statistics of trades and klines and the analytics of order books go to the
    same channel and the same cache key, so a reader sees volatility 0 after a
    book and an empty spread after a trade. *)
Theorem analytics_never_complete ms r venue symbol v :
  md_bus r = [] -> (channel_name "analytics" venue symbol, v) ∈ md_bus (run_handler ms r) ->
  exists d, v = PDict d /\ (read_volatility d = PFloat (of_Z 0) \/ read_spread d = PDict []).
Proof.
  intros E Hin.
  set (P := fun (ch : string) (v : pyval) => (exists venue s, ch = channel_name "analytics" venue s) ->
              exists d, v = PDict d /\ (read_volatility d = PFloat (of_Z 0) \/ read_spread d = PDict [])).
  assert (A : on_bus (Forall (fun cv => P cv.1 cv.2)) (run_handler ms r)).
  { apply run_handler_stable; [|unfold on_bus; rewrite E; constructor].
    intros v0 s m. apply (published_connector_handler _ _ _ _ _ _ _ _ P).
    - intros l ch w Hp Hl. apply Forall_app. split; [done|]. by repeat constructor.
    - intros ch w Hn Hc. contradiction.
    - intros v1 s1 sp lq _. eexists. split; [reflexivity|]. by left.
    - intros v1 s1 stats _. eexists. split; [reflexivity|]. by right. }
  unfold on_bus in A. rewrite Forall_forall in A. apply (A _ Hin). by exists venue, symbol.
Qed.

(** C38: with N = MARKET_DATA_PERSIST_EVERY_N_MESSAGES, the number of rows
    written is at most the number of items counted divided by N, whatever the
    messages and the failures. *)
Theorem persisted_rows_rate ms r :
  (0 < mds_persist_every st)%Z -> md_counts r = [] ->
  let r' := run_handler ms r in
  (count_of db_insert_count r' * mds_persist_every st <= count_of persist_counter r')%Z.
Proof.
  intros Hn E r'. assert (R : rate_ok st r').
  { apply run_handler_stable; [intros; by apply rate_connector_handler|].
    unfold rate_ok, count_of. rewrite E. simpl. split; [done|]. rewrite Z.div_0_l; lia. }
  destruct R as [H1 H2]. pose proof (Z.mul_div_le (count_of persist_counter r') (mds_persist_every st) Hn). nia.
Qed.

End Runs.

(** *** A database in memory *)

Record MemMarket : Type := mkMemMarket { mm_pairs : list (string * string * string * Z); mm_rows : list (string * dict) }.
#[export] Instance mem_market : MarketSession MemMarket := {|
  md_is_active _ := true;
  md_rollback := mret tt;
  md_get_pair id := fun d => (d, Ok (existsb (fun p => p.2 =? id)%Z (mm_pairs d)));
  md_find_pair ex sym vs := fun d =>
    (d, Ok (snd <$> List.find (fun p => String.eqb p.1.1.1 ex && (String.eqb p.1.2 vs || String.eqb p.1.1.2 sym)) (mm_pairs d)));
  md_add_pair row := fun d =>
    let id := Z.of_nat (length (mm_pairs d)) in
    (mkMemMarket (mm_pairs d ++ [(py_str (pget "exchange_name" row), py_str (pget "normalized_symbol" row), py_str (pget "venue_symbol" row), id)])
       (mm_rows d), Ok id);
  md_insert table row := fun d => (mkMemMarket (mm_pairs d) (mm_rows d ++ [(table, row)]), Ok tt);
  md_add_event row := fun d => (mkMemMarket (mm_pairs d) (mm_rows d ++ [("runtime_events", row)]), Ok (Z.of_nat (length (mm_rows d)))) |}.

Definition demo_md_settings : MarketDataSettings :=
  mkMDSettings ["binance"] ["BTC/USDT"; "ETH/USDT"] ["orderbook"] true 2 (of_Z 30).
Definition demo_md : MarketDataRuntime (D := MemMarket) :=
  mkMD (mkMetrics [] []) [] (rc_liquidity default_runtime_config) [] [] [] (mkTimes None [] [] None None) (mkPairs [] false 0)
    (Some (mkMemMarket [] [])) [] false false 0.
Definition eth_book : dict :=
  [("e", PStr "depthUpdate"); ("s", PStr "ETHUSDT"); ("b", PList [PList [PStr "99"; PStr "1"]]); ("a", PList [PList [PStr "101"; PStr "2"]])].
Definition btc_trade : dict := [("e", PStr "trade"); ("p", PStr "100"); ("q", PStr "2"); ("t", PInt 7)].
Definition demo_book_subs : list StreamSubscription :=
  [mkSubscription binance (Some "BTC/USDT") k_orderbook None None; mkSubscription binance (Some "ETH/USDT") k_orderbook None None].
Abbreviation demo_run :=
  (run_handler (D := MemMarket) (fun _ => 0%Z) (fun _ => "id") (fun _ => Ok 0%Z) (fun _ => of_Z 0) (fun x => Ok x) (fun _ _ => Ok tt) demo_md_settings).

Lemma analytics_never_complete_witness :
  exists v, (channel_name "analytics" binance "BTC/USDT", v) ∈ md_bus (demo_run [(binance, demo_book_subs, eth_book)] demo_md)
  /\ exists d, v = PDict d /\ (read_volatility d = PFloat (of_Z 0) \/ read_spread d = PDict []).
Proof.
  assert (E : exists v, (channel_name "analytics" binance "BTC/USDT", v) ∈ md_bus (demo_run [(binance, demo_book_subs, eth_book)] demo_md)).
  { eexists. vm_compute. do 2 right. left. }
  destruct E as [v Hv]. exists v. split; [exact Hv|].
  exact (analytics_never_complete _ _ _ _ _ _ _ _ demo_md binance "BTC/USDT" v eq_refl Hv).
Defined.

Lemma persisted_rows_rate_witness :
  let r' := demo_run [(binance, demo_book_subs, eth_book)] demo_md in
  count_of db_insert_count r' = 2%Z /\ (count_of db_insert_count r' * 2 <= count_of persist_counter r')%Z.
Proof.
  split; [vm_compute; reflexivity|].
  exact (persisted_rows_rate _ _ _ _ _ _ demo_md_settings [(binance, demo_book_subs, eth_book)] demo_md ltac:(done) eq_refl).
Defined.

(** ** Composition with the connector *)

Section Composition.
Context {D : Type} `{MarketSession D}.
Context (clock : nat -> datetime) (uuid : nat -> string) (fromtimestamp : float -> result datetime) (time : nat -> float).
Context (log : float -> result float) (redis_call : nat -> string -> result unit) (json_loads : string -> result pyval).
Context (st : MarketDataSettings) (ws_send : nat -> string -> result unit).

(** A message the normalizer reads as a book with an empty side, such as an
    incremental update that touches one side only. *)
Definition one_sided (venue : ExecutionVenue) (symbol : string) (m : dict) : Prop :=
  forall t, exists t' b, normalize clock uuid fromtimestamp venue symbol m t = (t', Ok (Some (NBook b))) /\ (bids b = [] \/ asks b = []).

Lemma spread_one_sided b : bids b = [] \/ asks b = [] ->
  calculate_spread b = raise ValueError "orderbook requires at least one bid and one ask".
Proof. unfold calculate_spread, best_bid, best_ask. intros [E|E]; rewrite E; [done|]. by destruct (best_of fmax (bids b)). Qed.

Lemma handle_one_sided venue symbol m r : one_sided venue symbol m ->
  exists r' e, handle_message clock uuid fromtimestamp time log redis_call st venue symbol m r = (r', Err e).
Proof.
  intros Ho. unfold handle_message, mbind, MD_bind, se_bind at 1 2 3 4, add_count, md_increment, se_modify.
  match goal with |- context [se_bind _ _ _ _ (try_normalize _ _ _ _ _ _) ?x] => set (r1 := x) end.
  destruct (Ho (md_tick r1)) as (t' & b & N & Hb).
  unfold se_bind at 1, try_normalize, se_catch, mbind, MD_bind, se_bind at 1, normalizer. rewrite N.
  unfold mret, MD_ret, se_ret. unfold se_bind at 1 2 3 4 5 6. unfold md_now, md_oracle, mbind, MD_bind, mret, MD_ret, se_ret, count_gauge, se_bind at 1, se_get.
  cbv beta iota zeta.
  unfold dispatch, mbind, MD_bind, se_bind at 1, se_get, liquidity_analytics, se_lift.
  unfold se_bind. rewrite (spread_one_sided b Hb). cbn. eauto.
Qed.

Lemma handler_one_sided venue s subs m r : one_sided (su_venue s) (text_or (su_symbol s) "") m ->
  exists r' e, connector_handler clock uuid fromtimestamp time log redis_call st venue (s :: subs) m r = (r', Err e).
Proof.
  intros Ho. unfold connector_handler, mbind, MD_bind, se_bind at 1.
  destruct (record_websocket_message clock venue r) as [r1 [[]|e]]; [|eauto]. cbn [se_iter]. unfold mbind, se_bind.
  destruct (handle_one_sided _ _ m r1 Ho) as (r' & e & ->). eauto.
Qed.

(** An order-book message with an empty side (an incremental update that
    touches one side only) makes the handler raise, and the connector answers
    by dropping the session, whatever messages follow, and waiting before it
    reconnects. *)
Theorem one_sided_update_disconnects (c : Connector (H := MarketDataRuntime (D := D))) s subs text m rest failure :
  cn_venue c <> coinstore ->
  json_loads text = Ok (PDict m) ->
  sequence_accepts (s :: subs) (cn_venue c) (cn_reconstructor c) m ->
  one_sided (su_venue s) (text_or (su_symbol s) "") m ->
  let handler := connector_handler clock uuid fromtimestamp time log redis_call st (cn_venue c) (s :: subs) in
  let c' := connect_turn handler None json_loads time ws_send (s :: subs) (WsSession (Text text :: rest) failure) c in
  cn_connected c' = false /\ (exists d, cn_sleeps c' = cn_sleeps c ++ [d]) /\ (cn_received c' <= cn_received c + 1)%Z.
Proof.
  intros Hv J A Ho. apply (handler_error_ends_session _ None json_loads time ws_send (s :: subs) text m rest failure c Hv J A).
  intros h. by apply handler_one_sided.
Qed.


(** A message read as a book is published for every subscription of the
    connector, under the subscription's symbol and with that symbol written
    into the book: with several symbols, the book of one market is published
    as the book of the others. *)
Theorem book_reaches_every_symbol venue subs m bs as_ r r' :
  (forall s, s ∈ subs -> forall t, exists t' b, normalize clock uuid fromtimestamp (su_venue s) (text_or (su_symbol s) "") m t = (t', Ok (Some (NBook b)))
     /\ ob_symbol b = text_or (su_symbol s) "" /\ bids b = bs /\ asks b = as_) ->
  connector_handler clock uuid fromtimestamp time log redis_call st venue subs m r = (r', Ok tt) ->
  forall s, s ∈ subs -> exists b,
    (channel_name "orderbook" (su_venue s) (text_or (su_symbol s) ""), PDict (orderbook_dict datetime_str b)) ∈ md_bus r'
    /\ ob_symbol b = text_or (su_symbol s) "" /\ bids b = bs /\ asks b = as_.
Proof.
  intros Hn. unfold connector_handler, mbind, MD_bind, se_bind at 1.
  destruct (record_websocket_message clock venue r) as [r1 [[]|e]]; [|discriminate]. revert r1.
  induction subs as [|s0 subs IH]; intros r1 R s Hs; [by apply not_elem_of_nil in Hs|].
  cbn [se_iter] in R. unfold mbind, se_bind in R.
  destruct (handle_message _ _ _ _ _ _ _ (su_venue s0) _ m r1) as [r2 [[]|e]] eqn:E1; [|discriminate].
  apply elem_of_cons in Hs as [->|Hs].
  - assert (B : book_sent (su_venue s0) (text_or (su_symbol s0) "") bs as_ r2).
    { refine (wp_elim _ (fun _ => book_sent (su_venue s0) (text_or (su_symbol s0) "") bs as_) (fun _ => True) r1 r2 tt _ E1).
      apply wp_handle_book.
      - intros t t' n N. destruct (Hn s0 ltac:(by left) t) as (t2 & b & N2 & E). rewrite N in N2. injection N2 as -> ->. by exists b.
      - intros t. destruct (Hn s0 ltac:(by left) t) as (t2 & b & N2 & _). eauto. }
    assert (S2 : stable (book_sent (su_venue s0) (text_or (su_symbol s0) "") bs as_)
                   (se_iter (fun s => handle_message clock uuid fromtimestamp time log redis_call st (su_venue s) (text_or (su_symbol s) "") m) subs)).
    { apply stable_iter. intros s _. apply book_sent_stable. }
    specialize (S2 r2 B). rewrite R in S2. exact S2.
  - refine (IH _ r2 R s Hs). intros s1 Hs1. apply Hn. by right.
Qed.

End Composition.

(** A depth update without asks. *)
Definition bid_update : dict := [("e", PStr "depthUpdate"); ("u", PInt 5); ("b", PList [PList [PStr "99"; PStr "1"]]); ("a", PList [])].
Definition update_loads (s : string) : result pyval := if String.eqb s "update" then Ok (PDict bid_update) else raise JSONDecodeError "Expecting value".

Lemma one_sided_update_disconnects_witness :
  let handler := connector_handler (fun _ => 0%Z) (fun _ => "id") (fun _ => Ok 0%Z) (fun _ => of_Z 0) (fun x => Ok x) (fun _ _ => Ok tt) demo_md_settings binance
                   [mkSubscription binance (Some "BTC/USDT") k_orderbook None None] in
  let c' := connect_turn handler None update_loads (fun _ => of_Z 0) (fun _ _ => Ok tt) [mkSubscription binance (Some "BTC/USDT") k_orderbook None None]
              (WsSession [Text "update"; Text "update"] None) (new_connector binance (of_Z 30) demo_md) in
  cn_connected c' = false /\ (exists d, cn_sleeps c' = [] ++ [d]) /\ (cn_received c' <= 0 + 1)%Z.
Proof.
  apply (one_sided_update_disconnects (fun _ => 0%Z) (fun _ => "id") (fun _ => Ok 0%Z) (fun _ => of_Z 0) (fun x => Ok x) (fun _ _ => Ok tt) update_loads
           demo_md_settings (fun _ _ => Ok tt) (new_connector binance (of_Z 30) demo_md) (mkSubscription binance (Some "BTC/USDT") k_orderbook None None) []
           "update" bid_update [Text "update"] None).
  - discriminate.
  - reflexivity.
  - vm_compute. reflexivity.
  - intros t. eexists _, _. split; [vm_compute; reflexivity|]. right. reflexivity.
Defined.

Lemma book_reaches_every_symbol_witness :
  exists b, (channel_name "orderbook" binance "BTC/USDT", PDict (orderbook_dict datetime_str b))
              ∈ md_bus (demo_run [(binance, demo_book_subs, eth_book)] demo_md)
  /\ ob_symbol b = "BTC/USDT" /\ bids b = [mkLevel (of_Z 99) (of_Z 1)] /\ asks b = [mkLevel (of_Z 101) (of_Z 2)].
Proof.
  destruct (connector_handler (fun _ => 0%Z) (fun _ => "id") (fun _ => Ok 0%Z) (fun _ => of_Z 0) (fun x => Ok x) (fun _ _ => Ok tt) demo_md_settings
              binance demo_book_subs eth_book demo_md) as [r' x] eqn:E.
  assert (X : x = Ok tt) by (vm_compute in E; by injection E as _ <-). subst x.
  pose proof (book_reaches_every_symbol (fun _ => 0%Z) (fun _ => "id") (fun _ => Ok 0%Z) (fun _ => of_Z 0) (fun x => Ok x) (fun _ _ => Ok tt) demo_md_settings
    binance demo_book_subs eth_book [mkLevel (of_Z 99) (of_Z 1)] [mkLevel (of_Z 101) (of_Z 2)] demo_md r') as T.
  unfold run_handler. cbn [foldl fst snd]. rewrite E.
  refine (T _ E (mkSubscription binance (Some "BTC/USDT") k_orderbook None None) _); [|by left].
  intros s Hs t. apply elem_of_cons in Hs as [->|Hs]; [|apply list_elem_of_singleton in Hs as ->];
    eexists _, _; (split; [vm_compute; reflexivity|]); vm_compute; repeat split.
Defined.
