(* ===== verification/ConfigStore.v ===== *)
(** * ConfigStore: versioned configuration documents

    [db/repositories.py] (the configuration, audit and runtime-event
    repositories and [_deep_merge]) and [runtime/config_service.py], which
    stores a new version of a domain and announces it on the bus.

    A table is the list of its rows in order of insertion and a query is its
    definition on that list. Parameters: [flush] (which may raise), Redis
    (which calls raise), the clock, [uuid4], [uuid.UUID], pydantic's validation
    ([model_validate] followed by [model_dump]) of a domain and of the whole
    configuration, and the dump of the default configuration. *)

From Stdlib Require Import Ascii.
From S2P Require Import Prelude Rounding PyFloat PyDecimal PyData PyValue Models Config.

#[local] Open Scope string_scope.
#[local] Open Scope list_scope.

(** ** [_deep_merge] *)

(** The value stored for a key: [new] merged into the old value when both are
    dictionaries. *)
Fixpoint merge_value (new old : pyval) : pyval :=
  match new, old with
  | PDict o, PDict b =>
      PDict ((fix go (o b : list (string * pyval)) : list (string * pyval) :=
                match o with
                | [] => b
                | (k, v) :: o' => go o' (od_set k (merge_value v (pget k b)) b)
                end) o b)
  | _, _ => new
  end.

Fixpoint deep_merge (base overlay : dict) : dict :=
  match overlay with
  | [] => base
  | (k, v) :: o' => deep_merge (od_set k (merge_value v (pget k base)) base) o'
  end.

Lemma merge_value_dict o b : merge_value (PDict o) (PDict b) = PDict (deep_merge b o).
Proof. simpl. f_equal. revert b. induction o as [|[k v] o IH]; intros b; [done|]. apply IH. Qed.

(** ** Tables *)

Record BotConfigRow : Type := mkBotConfig {
  bc_id : string; bc_name : string; bc_version : Z; bc_status : string; bc_config : dict; bc_created_by : option string;
  bc_approved_at : datetime }.

Record AuditRow : Type := mkAudit {
  au_id : string; au_actor_user : option string; au_actor_service : string; au_action : string; au_resource_type : string;
  au_resource : option string; au_before : option dict; au_after : option dict; au_metadata : dict }.

Record EventRow : Type := mkEvent {
  ev_id : string; ev_type : string; ev_source : string; ev_status : string; ev_command_id : option string; ev_domain : option string;
  ev_version : option Z; ev_correlation : option string; ev_payload : dict; ev_acknowledged_at : option datetime; ev_metadata : dict }.

Record ConfigStore : Type := mkStore {
  cs_configs : list BotConfigRow; cs_audits : list AuditRow; cs_events : list EventRow;
  cs_cache : list (string * pyval); cs_bus : list (string * pyval); cs_tick : nat }.

Section Store.
Context (clock : nat -> datetime) (time : nat -> float) (uuid4 : nat -> string) (parse_uuid : string -> option string).
Context (flush : nat -> result unit) (redis_call : nat -> string -> result unit).
Context (default_dump : list (string * dict)).
Context (validate_domain : string -> dict -> result dict) (validate_runtime : list (string * dict) -> result dict).

Definition CS (A : Type) : Type := SE ConfigStore A.
#[local] Instance CS_ret : MRet CS := se_ret ConfigStore.
#[local] Instance CS_bind : MBind CS := se_bind ConfigStore.

Definition cs_next : CS nat :=
  fun s => (mkStore (cs_configs s) (cs_audits s) (cs_events s) (cs_cache s) (cs_bus s) (S (cs_tick s)), Ok (cs_tick s)).
Definition put_configs (l : list BotConfigRow) (s : ConfigStore) : ConfigStore :=
  mkStore l (cs_audits s) (cs_events s) (cs_cache s) (cs_bus s) (cs_tick s).
Definition put_audits (l : list AuditRow) (s : ConfigStore) : ConfigStore :=
  mkStore (cs_configs s) l (cs_events s) (cs_cache s) (cs_bus s) (cs_tick s).
Definition put_events (l : list EventRow) (s : ConfigStore) : ConfigStore :=
  mkStore (cs_configs s) (cs_audits s) l (cs_cache s) (cs_bus s) (cs_tick s).

(** [session.add(row)] and [flush]; the row is not stored when [flush] raises. *)
Definition flush_then (f : ConfigStore -> ConfigStore) : CS unit :=
  t ← cs_next;
  _ ← se_lift (flush t);
  se_modify f.

(** *** [ConfigRepository] *)

(** The row of the highest version: [order_by(desc(version)).limit(1)]. *)
Definition later (best : option BotConfigRow) (r : BotConfigRow) : option BotConfigRow :=
  match best with
  | Some b => if (bc_version b <? bc_version r)%Z then Some r else Some b
  | None => Some r
  end.
Definition latest_in (name : string) (rows : list BotConfigRow) : option BotConfigRow :=
  foldl later None (List.filter (fun r => String.eqb (bc_name r) name) rows).
Definition get_latest (name : string) : CS (option BotConfigRow) := s ← se_get; mret (latest_in name (cs_configs s)).

Definition upsert_domain (domain : string) (config : dict) (actor : option string) : CS BotConfigRow :=
  current ← get_latest domain;
  let version := match current with None => 1%Z | Some r => (bc_version r + 1)%Z end in
  t ← cs_next;
  let row := mkBotConfig (uuid4 t) domain version "enabled" config actor (clock t) in
  _ ← flush_then (fun s => put_configs (cs_configs s ++ [row]) s);
  mret row.

Definition effective_domain_config (domain : string) (overlay : option dict) : CS dict :=
  match od_get domain default_dump with
  | None => se_raise KeyError domain
  | Some base =>
      row ← get_latest domain;
      let merged := match row with Some r => deep_merge base (bc_config r) | None => base end in
      mret (match overlay with Some o => deep_merge merged o | None => merged end)
  end.

(** The stored rows merged over the defaults, domain by domain. *)
Definition merged_runtime (rows : list BotConfigRow) : list (string * dict) :=
  map (fun kd => (kd.1, match latest_in kd.1 rows with Some r => deep_merge kd.2 (bc_config r) | None => kd.2 end)) default_dump.
Definition stored_runtime_config : CS dict := s ← se_get; se_lift (validate_runtime (merged_runtime (cs_configs s))).

(** *** [AuditRepository.record], [RuntimeEventRepository.record] *)

Definition record_audit (actor_service action resource_type : string) (resource : option string) (metadata : dict)
    (actor : option string) (before after : option dict) : CS AuditRow :=
  t ← cs_next;
  let row := mkAudit (uuid4 t) actor actor_service action resource_type resource before after metadata in
  _ ← flush_then (fun s => put_audits (cs_audits s ++ [row]) s);
  mret row.

Definition record_event (event_type source status : string) (payload : dict) (command_id domain : option string) (version : option Z)
    (correlation : option string) (acknowledged_at : option datetime) (metadata : dict) : CS EventRow :=
  t ← cs_next;
  let row := mkEvent (uuid4 t) event_type source status command_id domain version correlation payload acknowledged_at metadata in
  _ ← flush_then (fun s => put_events (cs_events s ++ [row]) s);
  mret row.

(** *** Redis *)

Definition redis_set (key : string) (v : pyval) : CS unit :=
  t ← cs_next;
  _ ← se_lift (redis_call t key);
  se_modify (fun s => mkStore (cs_configs s) (cs_audits s) (cs_events s) (od_set key v (cs_cache s)) (cs_bus s) (cs_tick s)).
Definition redis_publish (channel : string) (v : pyval) : CS unit :=
  t ← cs_next;
  _ ← se_lift (redis_call t channel);
  se_modify (fun s => mkStore (cs_configs s) (cs_audits s) (cs_events s) (cs_cache s) (cs_bus s ++ [(channel, v)]) (cs_tick s)).

(** *** [RuntimeConfigService.update_domain] *)

Definition actor_uuid (actor : dict) : option string :=
  let v := pget "sub" actor in
  if truthy v then parse_uuid (py_str v) else None.

Definition market_maker_channel : string := "engine.commands.market-maker-engine".
Definition market_data_channel : string := "engine.commands.market-data-engine".

Definition reload_command (command_id : string) (event : dict) (now : float) : dict :=
  [("command_id", PStr command_id); ("command_type", PStr "CONFIG_RELOAD"); ("payload", PDict event); ("published_at", PFloat now)].

(** The announcements of a stored version, in order. *)
Definition announce (domain command_id : string) (validated runtime_config event : dict) : CS unit :=
  _ ← redis_set "runtime:config:latest" (PDict runtime_config);
  _ ← redis_set ("runtime:config:" +:+ domain +:+ ":latest") (PDict validated);
  _ ← redis_publish "runtime.config.updated" (PDict event);
  _ ← redis_publish ("runtime.config." +:+ domain +:+ ".updated") (PDict event);
  _ ← redis_publish "runtime.events" (PDict event);
  t ← cs_next;
  _ ← redis_publish market_maker_channel (PDict (reload_command command_id event (time t)));
  if String.eqb domain "exchange" || String.eqb domain "liquidity" then
    t' ← cs_next;
    redis_publish market_data_channel (PDict (reload_command command_id event (time t')))
  else mret tt.

Definition update_event (command_id domain : string) (version : Z) (validated runtime_config : dict) (audit : string) (sub : pyval) (now : float) : dict :=
  [("event_type", PStr "runtime_config_updated"); ("command_id", PStr command_id); ("domain", PStr domain); ("version", PInt version);
   ("config", PDict validated); ("runtime_config", PDict runtime_config); ("audit_log_id", PStr audit); ("actor", sub); ("published_at", PFloat now)].

Definition update_domain (domain : string) (payload actor : dict) : CS (Z * dict) :=
  before ← get_latest domain;
  effective ← effective_domain_config domain (Some payload);
  validated ← se_lift (validate_domain domain effective);
  let user := actor_uuid actor in
  row ← upsert_domain domain validated user;
  runtime_config ← stored_runtime_config;
  let sub := pget "sub" actor in
  audit ← record_audit "api" "CONFIG_UPDATE" "bot_configs" (Some (bc_id row))
            [("domain", PStr domain); ("version", PInt (bc_version row)); ("actor", sub)] user (bc_config <$> before) (Some validated);
  t ← cs_next;
  _ ← se_lift (flush t);
  t' ← cs_next;
  let command_id := uuid4 t' in
  let event := update_event command_id domain (bc_version row) validated runtime_config (au_id audit) sub (time t') in
  runtime_event ← record_event "runtime_config_updated" "api" "published" event (Some command_id) (Some domain) (Some (bc_version row))
                    (Some (au_id audit)) None
                    [("redis_channels", PList [PStr "runtime.config.updated"; PStr ("runtime.config." +:+ domain +:+ ".updated");
                        PStr "runtime.events"; PStr market_maker_channel])];
  let event := od_set "runtime_event_id" (PStr (ev_id runtime_event)) event in
  _ ← announce domain command_id validated runtime_config event;
  mret (bc_version row, validated).

(** *** [publish_runtime_command] *)

Definition publish_runtime_command (actor : dict) (command_type : string) (payload : dict) (channel resource_type : string)
    (action : option string) : CS dict :=
  let user := actor_uuid actor in
  let sub := pget "sub" actor in
  let act := match action with Some a => if String.eqb a "" then command_type else a | None => command_type end in
  audit ← record_audit "api" act resource_type None
            (dict_merge [("command_type", PStr command_type); ("actor", sub)] payload) user None (Some payload);
  t ← cs_next;
  _ ← se_lift (flush t);
  t' ← cs_next;
  let command_id := uuid4 t' in
  let event := [("command_id", PStr command_id); ("command_type", PStr command_type);
                ("payload", PDict (dict_merge payload [("audit_log_id", PStr (au_id audit)); ("actor", sub)])); ("published_at", PFloat (time t'))] in
  runtime_event ← record_event "runtime_command" "api" "published" event (Some command_id) None None (Some (au_id audit)) None
                    [("redis_channel", PStr channel)];
  let event := od_set "runtime_event_id" (PStr (ev_id runtime_event)) event in
  _ ← redis_publish channel (PDict event);
  _ ← redis_publish "runtime.events" (PDict (dict_merge [("event_type", PStr "runtime_command")] event));
  mret event.

End Store.

(** ** Laws of [_deep_merge] *)

(** Keys occur once, at every depth, as in every Python dictionary. *)
Inductive wf_value : pyval -> Prop :=
  | wf_atom v : (forall d, v <> PDict d) -> wf_value v
  | wf_dict d : NoDup (od_keys d) -> Forall (fun kv => wf_value kv.2) d -> wf_value (PDict d).
Definition wf_document (d : dict) : Prop := wf_value (PDict d).

Lemma deep_merge_lookup k b o : NoDup (od_keys o) ->
  od_get k (deep_merge b o) = match od_get k o with Some v => Some (merge_value v (pget k b)) | None => od_get k b end.
Proof.
  revert b. induction o as [|[k1 v1] o IH]; intros b; [done|]. cbn [od_keys fmap list_fmap]. rewrite NoDup_cons. intros [H1 H2].
  cbn [deep_merge]. rewrite IH by done. simpl. case_decide as E.
  - subst k1. apply od_get_None in H1. simpl in H1. rewrite H1. by rewrite od_get_set_eq.
  - unfold pget. by rewrite !od_get_set_ne by done.
Qed.

Lemma od_set_same (k : string) (v : pyval) d : od_get k d = Some v -> od_set k v d = d.
Proof.
  induction d as [|[k1 v1] d IH]; simpl; [done|]. case_decide; [by intros [= ->]; subst|]. intros E. by rewrite IH.
Qed.

(** An overlay whose values are already in place changes nothing. *)
Lemma deep_merge_absorb d o :
  (forall k v, (k, v) ∈ o -> exists w, od_get k d = Some w /\ merge_value v w = w) -> deep_merge d o = d.
Proof.
  induction o as [|[k v] o IH]; intros Ho; [done|]. simpl. destruct (Ho k v ltac:(by left)) as (w & G & E).
  unfold pget. rewrite G, E, od_set_same by done. apply IH. intros k' v' Hin. apply Ho. by right.
Qed.

Lemma merge_value_idem v x : wf_value v -> merge_value v (merge_value v x) = merge_value v x.
Proof.
  revert x. induction v as [v Hl Hd|l _|o IH] using pyval_nested_ind; intros x Hw.
  - destruct v; try done. by destruct (Hd d).
  - done.
  - inversion Hw as [? H0|? Hn Hf]; subst; [by destruct (H0 o)|].
    assert (A : forall b, deep_merge (deep_merge b o) o = deep_merge b o).
    { intros b. apply deep_merge_absorb. intros k v Hin. exists (merge_value v (pget k b)). split.
      - rewrite deep_merge_lookup by done. by rewrite (od_in_get o k v Hn Hin).
      - rewrite Forall_forall in IH, Hf. apply (IH _ Hin). apply (Hf _ Hin). }
    assert (S0 : merge_value (PDict o) (PDict o) = PDict o).
    { rewrite merge_value_dict. f_equal. apply deep_merge_absorb. intros k v Hin. exists v. split; [by apply od_in_get|].
      rewrite Forall_forall in IH, Hf. pose proof (IH _ Hin PNone (Hf _ Hin)) as E. simpl in E. by destruct v. }
    destruct x as [| | | | | | |b]; [exact S0..|]. by rewrite merge_value_dict, merge_value_dict, A.
Qed.

(** Applying the same overlay twice gives what applying it once gives. *)
Theorem deep_merge_idempotent base overlay :
  wf_document overlay -> deep_merge (deep_merge base overlay) overlay = deep_merge base overlay.
Proof.
  intros Hw. pose proof (merge_value_idem (PDict overlay) (PDict base) Hw) as E. rewrite !merge_value_dict in E. by injection E.
Qed.

Lemma deep_merge_idempotent_witness :
  let overlay := [("a", PInt 2); ("n", PDict [("y", PInt 3)])] in
  let base := [("n", PDict [("x", PInt 1)])] in
  deep_merge (deep_merge base overlay) overlay = deep_merge base overlay
  /\ deep_merge base overlay = [("n", PDict [("x", PInt 1); ("y", PInt 3)]); ("a", PInt 2)].
Proof.
  intros overlay base. split; [|vm_compute; reflexivity]. apply deep_merge_idempotent.
  apply wf_dict; [by apply (bool_decide_unpack _); vm_compute|]. constructor; [by apply wf_atom|].
  constructor; [|constructor]. apply wf_dict; [by apply (bool_decide_unpack _); vm_compute|]. constructor; [by apply wf_atom|constructor].
Defined.

(** ** Versions *)

Definition rows_named (name : string) (rows : list BotConfigRow) : list BotConfigRow :=
  List.filter (fun r => String.eqb (bc_name r) name) rows.

(** The versions of a domain are 1, 2, ..., n in order of insertion. *)
Definition versions_ok (rows : list BotConfigRow) : Prop :=
  forall name, map bc_version (rows_named name rows) = map Z.of_nat (seq 1 (length (rows_named name rows))).

Lemma latest_is_last name rows : versions_ok rows -> latest_in name rows = last (rows_named name rows).
Proof.
  intros V. specialize (V name). unfold latest_in. fold (rows_named name rows).
  induction (rows_named name rows) as [|r l IH] using rev_ind; [done|].
  rewrite length_app, map_app in V. simpl in V. rewrite Nat.add_1_r, seq_S, map_app in V. simpl in V.
  apply app_inj_tail in V as [V1 V2]. rewrite foldl_app, last_snoc. simpl. rewrite IH by done.
  destruct (last l) as [b|] eqn:E; [|done]. simpl.
  assert (Hb : (bc_version b <= Z.of_nat (length l))%Z).
  { apply last_Some in E as [l' ->]. rewrite length_app, map_app in V1. simpl in V1. rewrite Nat.add_1_r, seq_S, map_app in V1.
    apply app_inj_tail in V1 as [_ V1]. rewrite length_app. simpl. lia. }
  rewrite (proj2 (Z.ltb_lt _ _)); [done|lia].
Qed.

Lemma rows_named_snoc name rows r :
  rows_named name (rows ++ [r]) = rows_named name rows ++ (if String.eqb (bc_name r) name then [r] else []).
Proof. unfold rows_named. rewrite List.filter_app. simpl. by destruct (String.eqb _ _). Qed.

Definition next_version (name : string) (rows : list BotConfigRow) : Z :=
  match latest_in name rows with None => 1%Z | Some r => (bc_version r + 1)%Z end.

Lemma next_version_length name rows : versions_ok rows -> next_version name rows = Z.of_nat (S (length (rows_named name rows))).
Proof.
  intros V. unfold next_version. rewrite latest_is_last by done. specialize (V name).
  destruct (rows_named name rows) as [|r l _] using rev_ind; [done|]. rewrite last_snoc.
  rewrite length_app, map_app in V. simpl in V. rewrite Nat.add_1_r, seq_S, map_app in V.
  apply app_inj_tail in V as [_ V]. rewrite length_app. simpl. simpl in V. lia.
Qed.

Lemma versions_snoc rows r : versions_ok rows -> bc_version r = next_version (bc_name r) rows -> versions_ok (rows ++ [r]).
Proof.
  intros V E name. rewrite rows_named_snoc. destruct (String.eqb (bc_name r) name) eqn:N; [|rewrite app_nil_r; apply V].
  apply String.eqb_eq in N. subst name. rewrite next_version_length in E by done.
  rewrite length_app, map_app, (V (bc_name r)). simpl. rewrite Nat.add_1_r, seq_S, map_app. simpl. by rewrite E.
Qed.

Section StoreProps.
Context (clock : nat -> datetime) (time : nat -> float) (uuid4 : nat -> string) (parse_uuid : string -> option string).
Context (flush : nat -> result unit) (redis_call : nat -> string -> result unit).
Context (default_dump : list (string * dict)).
Context (validate_domain : string -> dict -> result dict) (validate_runtime : list (string * dict) -> result dict).

#[local] Ltac cs_open := unfold mbind, CS_bind, mret, CS_ret in *; cbv beta.
#[local] Ltac cs_frames :=
  cs_open;
  repeat (first [ solve [eauto with frames nocore] | apply frame_bind; [|intros ?] | apply frame_ret | apply frame_lift | apply frame_get
                | by apply frame_modify | progress case_match ]).

Lemma configs_next : frame cs_configs cs_next.
Proof. done. Qed.
#[local] Hint Resolve configs_next : frames.
Lemma configs_redis_set k v : frame cs_configs (redis_set redis_call k v).
Proof. unfold redis_set. cs_frames. Qed.
Lemma configs_redis_publish k v : frame cs_configs (redis_publish redis_call k v).
Proof. unfold redis_publish. cs_frames. Qed.
#[local] Hint Resolve configs_redis_set configs_redis_publish : frames.
Lemma configs_announce d c v r e : frame cs_configs (announce time redis_call d c v r e).
Proof. unfold announce. cs_frames. Qed.
Lemma configs_audit a b c d e f g h : frame cs_configs (record_audit uuid4 flush a b c d e f g h).
Proof. unfold record_audit, flush_then. cs_frames. Qed.
Lemma configs_event a b c d e f g h i j : frame cs_configs (record_event uuid4 flush a b c d e f g h i j).
Proof. unfold record_event, flush_then. cs_frames. Qed.
Lemma configs_latest n : frame cs_configs (get_latest n).
Proof. done. Qed.
Lemma configs_effective d o : frame cs_configs (effective_domain_config default_dump d o).
Proof. unfold effective_domain_config. cs_frames. Qed.
#[local] Hint Resolve configs_announce configs_audit configs_event configs_latest configs_effective : frames.

Lemma configs_command actor ty payload ch rt act :
  frame cs_configs (publish_runtime_command time uuid4 parse_uuid flush redis_call actor ty payload ch rt act).
Proof. unfold publish_runtime_command. cs_frames. Qed.

(** What a call of [upsert_domain] does to the table. *)
Lemma upsert_spec domain config actor s : versions_ok (cs_configs s) ->
  wp (upsert_domain clock uuid4 flush domain config actor)
     (fun row s' => cs_configs s' = cs_configs s ++ [row] /\ bc_name row = domain /\ bc_config row = config
                    /\ bc_version row = next_version domain (cs_configs s))
     (fun s' => cs_configs s' = cs_configs s) s.
Proof.
  intros V. unfold upsert_domain, get_latest, flush_then, wp. cs_open. unfold se_bind, se_get, se_ret, cs_next, se_lift, se_modify.
  simpl. destruct (flush _); simpl; [|done]. by repeat split.
Qed.

Definition cs_versions (s : ConfigStore) : Prop := versions_ok (cs_configs s).

Lemma versions_frame {A} (m : CS A) : frame cs_configs m -> stable cs_versions m.
Proof. apply (frame_stable cs_configs versions_ok). Qed.

Lemma wp_versions {A} (m : CS A) s : frame cs_configs m -> cs_versions s -> wp m (fun _ => cs_versions) (fun _ => True) s.
Proof. intros F V. unfold wp, cs_versions. specialize (F s). destruct (m s) as [s3 [x|e]]; [|done]. simpl in F. by rewrite F. Qed.

Lemma versions_upsert domain config actor : stable cs_versions (upsert_domain clock uuid4 flush domain config actor).
Proof.
  apply stable_wp. intros s V. eapply wp_mono; [by apply upsert_spec| |].
  - intros row s' (E & N & _ & Hv). unfold cs_versions. rewrite E. apply versions_snoc; [done|]. by rewrite N.
  - intros s' E. unfold cs_versions. by rewrite E.
Qed.

Lemma versions_update domain payload actor :
  stable cs_versions (update_domain clock time uuid4 parse_uuid flush redis_call default_dump validate_domain validate_runtime domain payload actor).
Proof.
  unfold update_domain. cs_open. do 3 (apply stable_bind; [apply versions_frame; cs_frames|intros ?]).
  apply stable_bind; [apply versions_upsert|]. intros row. apply versions_frame. unfold stored_runtime_config. cs_frames.
Qed.

(** The calls of the service, in any order; a call that raises keeps what it has stored. *)
Inductive ConfigCall : Type :=
  | CallUpdate (domain : string) (payload actor : dict)
  | CallCommand (actor : dict) (command_type : string) (payload : dict) (channel resource_type : string) (action : option string).
Definition run_call (s : ConfigStore) (c : ConfigCall) : ConfigStore :=
  match c with
  | CallUpdate d p a => (update_domain clock time uuid4 parse_uuid flush redis_call default_dump validate_domain validate_runtime d p a s).1
  | CallCommand a ty p ch rt act => (publish_runtime_command time uuid4 parse_uuid flush redis_call a ty p ch rt act s).1
  end.

(** Whatever calls are made, and whichever of them fail in the database or
    on the bus, the versions stored for a domain are 1, 2, ..., n without gap
    or repetition, and the latest configuration is the last one stored. *)
Theorem config_versions_consecutive calls s name :
  cs_configs s = [] ->
  let rows := cs_configs (foldl run_call s calls) in
  map bc_version (rows_named name rows) = map Z.of_nat (seq 1 (length (rows_named name rows)))
  /\ latest_in name rows = last (rows_named name rows).
Proof.
  intros E rows. assert (V : cs_versions (foldl run_call s calls)).
  { assert (V0 : cs_versions s) by (unfold cs_versions; rewrite E; done). clear E rows. revert s V0.
    induction calls as [|c calls IH]; intros s V0; [done|]. simpl. apply IH. destruct c; simpl.
    - by apply versions_update.
    - by apply (versions_frame _ (configs_command _ _ _ _ _ _)). }
  split; [apply V|by apply latest_is_last].
Qed.

(** A document that fixes every field of a flat default. *)
Definition covers (doc base : dict) : Prop :=
  NoDup (od_keys doc) /\ (forall k, od_get k base <> None -> od_get k doc <> None) /\ (forall k v d, od_get k doc = Some v -> v <> PDict d).

Lemma deep_merge_covers base doc k : covers doc base -> od_get k (deep_merge base doc) = od_get k doc.
Proof.
  intros (N & C & F). rewrite deep_merge_lookup by done. destruct (od_get k doc) as [v|] eqn:E.
  - f_equal. destruct v; try done. by destruct (F k _ d E).
  - destruct (od_get k base) eqn:B; [|done]. by destruct (C k); rewrite ?B.
Qed.

(** C18: after a successful update, reading the domain back gives the
    validated document, field by field, for documents that fix every field of
    the flat defaults. *)
Theorem config_update_read_back domain payload actor s s' version doc base :
  cs_versions s ->
  od_get domain default_dump = Some base ->
  covers doc base ->
  update_domain clock time uuid4 parse_uuid flush redis_call default_dump validate_domain validate_runtime domain payload actor s
    = (s', Ok (version, doc)) ->
  exists read, effective_domain_config default_dump domain None s' = (s', Ok read)
    /\ (forall k, od_get k read = od_get k doc)
    /\ (exists row, latest_in domain (cs_configs s') = Some row /\ bc_version row = version).
Proof.
  intros V B C U.
  assert (W : exists row, latest_in domain (cs_configs s') = Some row /\ bc_version row = version /\ bc_config row = doc).
  { refine (wp_elim _ (fun vd s' => exists row, latest_in domain (cs_configs s') = Some row /\ bc_version row = vd.1 /\ bc_config row = vd.2)
              (fun _ => True) s s' (version, doc) _ U).
    unfold update_domain. cs_open.
    do 3 (apply wp_seq; eapply wp_mono; [apply wp_versions; [cs_frames|eassumption]|cbv beta; intros ? ? ?|done]).
    apply wp_seq. eapply wp_mono; [by apply upsert_spec| |done]. intros row s1 (E & Hn & Hc & Hv).
    assert (L : latest_in domain (cs_configs s1) = Some row).
    { assert (V1 : versions_ok (cs_configs s1)) by (rewrite E; apply versions_snoc; [done|by rewrite Hn]).
      rewrite latest_is_last by done. rewrite E, rows_named_snoc, Hn, String.eqb_refl. apply last_snoc. }
    set (Q := fun (vd : Z * dict) (s' : ConfigStore) => _). clear E.
    assert (G : forall A (m : CS A) s2, frame cs_configs m -> latest_in domain (cs_configs s2) = Some row ->
              wp m (fun _ s3 => latest_in domain (cs_configs s3) = Some row) (fun _ => True) s2).
    { intros A m s2 F L2. unfold wp. specialize (F s2). destruct (m s2) as [s3 [x|e]]; [|done]. simpl in F. by rewrite F. }
    do 6 (apply wp_seq; eapply wp_mono; [apply G; [unfold stored_runtime_config; cs_frames|eassumption]|intros ? ? ?|done]).
    apply wp_seq; eapply wp_mono; [apply G; [cs_frames|eassumption]|intros ? ? ?|done]. apply wp_ret. exists row. by rewrite Hc. }
  destruct W as (row & L & Hv & Hc).
  exists (deep_merge base (bc_config row)). split; [|split; [|by exists row]].
  - unfold effective_domain_config. rewrite B. unfold get_latest. cs_open. unfold se_bind, se_get, se_ret. by rewrite L.
  - intros k. rewrite Hc. by apply deep_merge_covers.
Qed.
End StoreProps.

(** *** A store in which nothing fails *)

Definition demo_defaults : list (string * dict) :=
  [("liquidity", [("depth_levels", PInt 20); ("build_liquidity", PBool true)]); ("risk", [("max_open_orders", PInt 10)])].
Definition demo_store : ConfigStore := mkStore [] [] [] [] [] 0.
Definition demo_uuid (t : nat) : string := "id-" +:+ str_of_Z (Z.of_nat t).
Definition demo_validate_runtime (l : list (string * dict)) : result dict := Ok (map (fun kd => (kd.1, PDict kd.2)) l).
Abbreviation demo_update domain payload :=
  (update_domain (fun _ => 0%Z) (fun _ => of_Z 0) demo_uuid Some (fun _ => Ok tt) (fun _ _ => Ok tt) demo_defaults (fun _ d => Ok d) demo_validate_runtime
     domain payload []).

Lemma config_versions_consecutive_witness :
  let calls := [CallUpdate "liquidity" [("depth_levels", PInt 5)] []; CallUpdate "nope" [] []; CallUpdate "risk" [] [];
                CallUpdate "liquidity" [("depth_levels", PInt 7)] []] in
  let rows := cs_configs (foldl (run_call (fun _ => 0%Z) (fun _ => of_Z 0) demo_uuid Some (fun _ => Ok tt) (fun _ _ => Ok tt) demo_defaults
                                   (fun _ d => Ok d) demo_validate_runtime) demo_store calls) in
  map bc_version (rows_named "liquidity" rows) = [1%Z; 2%Z] /\ latest_in "liquidity" rows = last (rows_named "liquidity" rows).
Proof.
  intros calls rows.
  destruct (config_versions_consecutive (fun _ => 0%Z) (fun _ => of_Z 0) demo_uuid Some (fun _ => Ok tt) (fun _ _ => Ok tt) demo_defaults
              (fun _ d => Ok d) demo_validate_runtime calls demo_store "liquidity" eq_refl) as [E1 E2].
  split; [|exact E2]. unfold rows. rewrite E1. vm_compute. reflexivity.
Defined.

Lemma config_update_read_back_witness :
  exists s' read, demo_update "liquidity" [("depth_levels", PInt 5)] demo_store = (s', Ok (1%Z, [("depth_levels", PInt 5); ("build_liquidity", PBool true)]))
  /\ effective_domain_config demo_defaults "liquidity" None s' = (s', Ok read) /\ od_get "depth_levels" read = Some (PInt 5).
Proof.
  destruct (demo_update "liquidity" [("depth_levels", PInt 5)] demo_store) as [s' x] eqn:E.
  assert (X : x = Ok (1%Z, [("depth_levels", PInt 5); ("build_liquidity", PBool true)])) by (vm_compute in E; by injection E as _ <-). subst x.
  destruct (config_update_read_back (fun _ => 0%Z) (fun _ => of_Z 0) demo_uuid Some (fun _ => Ok tt) (fun _ _ => Ok tt) demo_defaults
              (fun _ d => Ok d) demo_validate_runtime "liquidity" [("depth_levels", PInt 5)] [] demo_store s' 1
              [("depth_levels", PInt 5); ("build_liquidity", PBool true)] [("depth_levels", PInt 20); ("build_liquidity", PBool true)])
    as (read & E1 & E2 & _).
  - intros name. reflexivity.
  - reflexivity.
  - split; [by apply (bool_decide_unpack _); vm_compute|]. split.
    + intros k. simpl. by repeat case_decide.
    + intros k v d. simpl. repeat case_decide; congruence.
  - exact E.
  - exists s', read. split; [reflexivity|]. split; [exact E1|]. by rewrite E2.
Defined.
