(* ===== verification/ControlPlane.v ===== *)
(** * ControlPlane: from the service calls to the engines

    What [ConfigStore] announces on the bus is what the market-maker runtime
    ([MMRuntime]) and the market-data runtime ([MarketDataRuntime]) read. *)

From Stdlib Require Import Ascii.
From S2P Require Import Prelude Rounding PyFloat PyDecimal PyData PyValue Models Config Risk Store Paper MMRuntime RuntimeProps OrderBook MarketData MarketDataRuntime ConfigStore.

#[local] Open Scope string_scope.
#[local] Open Scope list_scope.

Section Published.
Context (clock : nat -> datetime) (time : nat -> float) (uuid4 : nat -> string) (parse_uuid : string -> option string).
Context (flush : nat -> result unit) (redis_call : nat -> string -> result unit).
Context (default_dump : list (string * dict)).
Context (validate_domain : string -> dict -> result dict) (validate_runtime : list (string * dict) -> result dict).

#[local] Ltac cs_open := unfold mbind, CS_bind, mret, CS_ret in *; cbv beta.

(** A message on the bus stays there. *)
Definition on_wire (ch : string) (v : pyval) (s : ConfigStore) : Prop := (ch, v) ∈ cs_bus s.

Lemma wire_publish ch v ch' v' : stable (on_wire ch v) (redis_publish redis_call ch' v').
Proof.
  unfold redis_publish. cs_open. apply stable_bind; [intros s Hs; exact Hs|]. intros t. apply stable_bind; [apply stable_lift|]. intros _.
  apply stable_modify. intros s Hs. unfold on_wire. simpl. apply elem_of_app. by left.
Qed.

Lemma wp_publish ch v s : wp (redis_publish redis_call ch v) (fun _ => on_wire ch v) (fun _ => True) s.
Proof.
  unfold redis_publish, wp. cs_open. unfold se_bind, cs_next, se_lift, se_modify. simpl. destruct (redis_call _ ch); [|done].
  unfold on_wire. simpl. apply elem_of_app. right. by left.
Qed.

Lemma wp_any {A} (m : CS A) s : wp m (fun _ _ => True) (fun _ => True) s.
Proof. unfold wp. by destruct (m s) as [s' [a|e]]. Qed.

Lemma wp_keep {A} (J : ConfigStore -> Prop) (m : CS A) s : stable J m -> J s -> wp m (fun _ => J) (fun _ => True) s.
Proof. intros Hm Hs. eapply wp_mono; [apply (proj1 (stable_wp _ _) Hm s Hs)|done|done]. Qed.

(** ** Commands *)

(** The message of a command as the engines receive it. *)
Definition is_command (command_type : string) (payload : dict) (d : dict) : Prop :=
  pget "command_type" d = PStr command_type
  /\ exists extra, pget "payload" d = PDict (dict_merge payload extra).

Lemma command_announced actor ty payload channel rt act s s' event :
  publish_runtime_command time uuid4 parse_uuid flush redis_call actor ty payload channel rt act s = (s', Ok event) ->
  on_wire channel (PDict event) s' /\ is_command ty payload event.
Proof.
  intros E.
  refine (wp_elim _ (fun event s' => on_wire channel (PDict event) s' /\ is_command ty payload event) (fun _ => True) s s' event _ E).
  unfold publish_runtime_command. cs_open. do 5 (apply wp_seq; eapply wp_mono; [apply wp_any|intros ? ? _|done]).
  apply wp_seq. eapply wp_mono; [apply wp_publish| |done]. intros ? s1 H1. cbv beta in H1.
  apply wp_seq. eapply wp_mono; [apply wp_keep; [apply wire_publish|exact H1]| |done]. intros ? s2 H2. cbv beta in H2.
  apply wp_ret. split; [exact H2|]. split; [reflexivity|]. eexists. reflexivity.
Qed.

(** An EMERGENCY_SHUTDOWN or DISABLE_TRADING command issued through the
    service is on the bus when the call returns, and the market-maker runtime
    that consumes it switches trading and quoting off and activates the kill
    switch, creating no order. *)
Theorem shutdown_reaches_engine actor ty payload rt act s s' event
    {L D} (S1 : Session D) (S2 : RuntimeSession D) (V : LiveVenue L D)
    uuid clk tm cache_get bus_send json_loads model_validate fromiso st (r : Runtime (L := L) (D := D)) data :
  str_upper ty ∈ shutdown_commands ->
  publish_runtime_command time uuid4 parse_uuid flush redis_call actor ty payload market_maker_channel rt act s = (s', Ok event) ->
  json_loads data = Ok (PDict event) ->
  on_wire market_maker_channel (PDict event) s' /\
  let r' := (consume uuid clk tm cache_get bus_send json_loads model_validate fromiso st (Some (market_maker_channel, data)) r).1 in
  fl_trading (rt_flags r') = false /\ fl_quoting (rt_flags r') = false
  /\ ks_active (rk_kill_switch (en_risk (rt_engines r'))) = true /\ orders_made r' = orders_made r.
Proof.
  intros Hty E J. destruct (command_announced _ _ _ _ _ _ _ _ _ E) as [W [C _]]. split; [exact W|].
  assert (Hc : command_of event ∈ shutdown_commands).
  { unfold command_of. rewrite C. unfold por. destruct ty as [|c ty]; [|exact Hty].
    exfalso. revert Hty. apply (bool_decide_unpack _). vm_compute. exact I. }
  pose proof (shutdown_dispatch uuid clk tm cache_get bus_send json_loads model_validate fromiso st data event r J Hc) as P.
  unfold consume, se_catch, market_maker_channel in *. by destruct (MMRuntime.dispatch _ _ _ _ _ _ _ _ _ _ _ r) as [s1 [[]|e]].
Qed.

(** ** Configuration updates *)

(** The reload command of an update, with the document it carries. *)
Definition is_reload (rc d : dict) : Prop :=
  exists cid event now, d = reload_command cid event now /\ pget "runtime_config" event = PDict rc.

Lemma wire_announce ch v domain cid validated rc event : stable (on_wire ch v) (announce time redis_call domain cid validated rc event).
Proof.
  assert (F : forall A (m : CS A), frame cs_bus m -> stable (on_wire ch v) m).
  { intros A m. apply (frame_stable cs_bus (fun l => (ch, v) ∈ l)). }
  assert (FS : forall k x, frame cs_bus (redis_set redis_call k x)).
  { intros k x. unfold redis_set. cs_open. apply frame_bind; [done|]. intros t. apply frame_bind; [apply frame_lift|]. intros _. by apply frame_modify. }
  unfold announce. cs_open. do 2 (apply stable_bind; [apply F, FS|intros _]). do 3 (apply stable_bind; [apply wire_publish|intros _]).
  apply stable_bind; [by apply F|]. intros t. apply stable_bind; [apply wire_publish|]. intros _.
  destruct (_ || _); [|by apply F]. apply stable_bind; [by apply F|]. intros t'. apply wire_publish.
Qed.

Lemma wp_announce domain cid validated rc event s :
  wp (announce time redis_call domain cid validated rc event)
     (fun _ s' => (exists now, on_wire market_maker_channel (PDict (reload_command cid event now)) s')
                  /\ (domain = "exchange" \/ domain = "liquidity" -> exists now, on_wire market_data_channel (PDict (reload_command cid event now)) s'))
     (fun _ => True) s.
Proof.
  unfold announce. cs_open. do 6 (apply wp_seq; eapply wp_mono; [apply wp_any|intros ? ? _|done]).
  apply wp_seq. eapply wp_mono; [apply wp_publish| |done]. intros ? s1 H1. cbv beta in H1.
  destruct (String.eqb domain "exchange" || String.eqb domain "liquidity") eqn:E.
  - apply wp_seq. eapply wp_mono; [apply (wp_keep (on_wire market_maker_channel (PDict (reload_command cid event (time a4)))) cs_next); [|exact H1]| |done].
    { intros s2 H2. exact H2. }
    intros t s2 H2. cbv beta in H2.
    pose proof (wp_publish market_data_channel (PDict (reload_command cid event (time t))) s2) as W.
    pose proof (wire_publish market_maker_channel (PDict (reload_command cid event (time a4))) market_data_channel (PDict (reload_command cid event (time t))) s2 H2) as K.
    unfold wp in *. destruct (redis_publish _ _ _ s2) as [s3 [[]|e]]; [|done]. split; [by exists (time a4)|]. intros _. by exists (time t).
  - apply wp_ret. split; [by exists (time a4)|]. apply orb_false_iff in E as [E1 E2]. apply String.eqb_neq in E1, E2. by intros [|].
Qed.

Lemma update_announced domain payload actor s s' version doc :
  update_domain clock time uuid4 parse_uuid flush redis_call default_dump validate_domain validate_runtime domain payload actor s
    = (s', Ok (version, doc)) ->
  exists rc, validate_runtime (merged_runtime default_dump (cs_configs s')) = Ok rc
    /\ (exists d, on_wire market_maker_channel (PDict d) s' /\ is_reload rc d)
    /\ (domain = "exchange" \/ domain = "liquidity" -> exists d, on_wire market_data_channel (PDict d) s' /\ is_reload rc d).
Proof.
  intros E.
  refine (wp_elim _ (fun _ s' => exists rc, validate_runtime (merged_runtime default_dump (cs_configs s')) = Ok rc
    /\ (exists d, on_wire market_maker_channel (PDict d) s' /\ is_reload rc d)
    /\ (domain = "exchange" \/ domain = "liquidity" -> exists d, on_wire market_data_channel (PDict d) s' /\ is_reload rc d))
    (fun _ => True) s s' (version, doc) _ E).
  unfold update_domain. cs_open. do 4 (apply wp_seq; eapply wp_mono; [apply wp_any|intros ? ? _|done]).
  apply wp_seq. unfold stored_runtime_config. cs_open. apply wp_seq, wp_get, wp_lift; [|done]. intros rc Hrc.
  match type of Hrc with context [cs_configs ?x] => set (s1 := x) in * end.
  assert (G : forall A (m : CS A) s2, frame cs_configs m -> cs_configs s2 = cs_configs s1 -> wp m (fun _ s3 => cs_configs s3 = cs_configs s1) (fun _ => True) s2).
  { intros A m s2 F E2. unfold wp. specialize (F s2). destruct (m s2) as [s3 [x|e]]; [|done]. simpl in F. by rewrite F. }
  assert (E1 : cs_configs s1 = cs_configs s1) by reflexivity.
  apply wp_seq. eapply wp_mono; [apply G; [apply configs_audit|exact E1]| |done]. intros audit s2 E2. cbv beta in E2.
  apply wp_seq. eapply wp_mono; [apply G; [done|exact E2]| |done]. intros t s3 E3. cbv beta in E3.
  apply wp_seq. eapply wp_mono; [apply G; [apply frame_lift|exact E3]| |done]. intros u s4 E4. cbv beta in E4.
  apply wp_seq. eapply wp_mono; [apply G; [done|exact E4]| |done]. intros t' s5 E5. cbv beta in E5.
  apply wp_seq. eapply wp_mono; [apply G; [apply configs_event|exact E5]| |done]. intros re s6 E6. cbv beta in E6.
  apply wp_seq. set (event := od_set _ _ _).
  assert (D : pget "runtime_config" event = PDict rc) by reflexivity.
  match goal with |- wp ?m _ _ _ => pose proof (wp_announce domain (uuid4 t') a1 rc event s6) as W; pose proof (G _ m s6 (configs_announce _ _ _ _ _ _ _) E6) as K end.
  unfold wp in W, K |- * at 1. destruct (announce _ _ _ _ _ _ _ s6) as [s7 [[]|e]]; [|done].
  destruct W as [[now W1] W2]. apply wp_ret. exists rc. rewrite K. split; [exact Hrc|]. split.
  - exists (reload_command (uuid4 t') event now). split; [exact W1|]. by exists (uuid4 t'), event, now.
  - intros Hd. destruct (W2 Hd) as [now' W3]. exists (reload_command (uuid4 t') event now'). split; [exact W3|]. by exists (uuid4 t'), event, now'.
Qed.

(** Consuming a reload command installs the liquidity settings it carries, also
    when the acknowledgement fails. *)
Lemma market_data_reload {D} `{MarketSession D} clk tm redis_call' json_loads model_validate (r : MarketDataRuntime (D := D)) data rc d c :
  json_loads data = Ok (PDict d) -> is_reload rc d -> model_validate rc = Ok c ->
  md_liquidity (consume_command clk tm redis_call' json_loads model_validate (PStr data) r).1 = rc_liquidity c.
Proof.
  intros J (cid & event & now & -> & Hrc) M. unfold consume_command, se_catch.
  assert (F : frame (md_liquidity (D := D)) (market_data_ack clk tm redis_call' (if String.eqb (py_str (por (PStr cid) (PStr ""))) "" then None else Some (py_str (por (PStr cid) (PStr ""))))
      "runtime_config_reload_ack" "acknowledged" [("domains", PList (map (fun kv => PStr kv.1) rc))])).
  { unfold market_data_ack, mbind, MD_bind, mret, MD_ret.
    assert (F1 : forall A (m : SE D A), frame (md_liquidity (D := D)) (md_db m)).
    { intros A m r0. unfold md_db. destruct (md_session r0) as [d0|]; [|done]. by destruct (m d0). }
    assert (F2 : forall k v, frame (md_liquidity (D := D)) (cache_set redis_call' k v)).
    { intros k v. unfold cache_set, mbind, MD_bind. repeat (apply frame_bind; [done|intros ?]). by apply frame_modify. }
    assert (F3 : forall k v, frame (md_liquidity (D := D)) (bus_publish redis_call' k v)).
    { intros k v. unfold bus_publish, mbind, MD_bind. repeat (apply frame_bind; [done|intros ?]). by apply frame_modify. }
    do 3 (apply frame_bind; [done|intros ?]). apply frame_bind.
    { destruct (md_session a1); [|done]. apply frame_bind; [apply F1|]. done. }
    intros ack. apply frame_bind; [destruct (String.eqb _ ""); [done|apply F2]|]. intros _. apply F3. }
  unfold apply_command, mbind, MD_bind, se_bind at 1, se_lift. rewrite J. unfold se_bind at 1. cbn [as_dict].
  change (truthy (pget "runtime_config" (reload_command cid event now))) with false. cbv iota.
  unfold se_bind at 1. unfold se_bind at 1. change (pget_default "payload" (PDict []) (reload_command cid event now)) with (PDict event).
  cbn [as_dict]. unfold mret, MD_ret, se_ret. rewrite Hrc. unfold se_bind at 1. rewrite M.
  unfold se_bind at 1, se_modify, se_bind at 1, md_increment, se_modify.
  set (r1 := with_metrics _ _). specialize (F r1). change (pget "command_id" (reload_command cid event now)) with (PStr cid).
  destruct (market_data_ack _ _ _ _ _ _ _ r1) as [r2 [[]|e]]; simpl in F |- *; rewrite F; reflexivity.
Qed.

(** After a successful update of the liquidity (or exchange) domain, a
    reload command with the validated configuration of everything stored is on
    the market-data channel, and the market-data runtime that consumes it runs
    with its liquidity settings. *)
Theorem liquidity_update_reaches_engine domain payload actor s s' version doc
    {D} `{MarketSession D} clk tm redis_call' json_loads model_validate (r : MarketDataRuntime (D := D)) :
  domain = "exchange" \/ domain = "liquidity" ->
  update_domain clock time uuid4 parse_uuid flush redis_call default_dump validate_domain validate_runtime domain payload actor s
    = (s', Ok (version, doc)) ->
  exists rc d, validate_runtime (merged_runtime default_dump (cs_configs s')) = Ok rc
    /\ (market_data_channel, PDict d) ∈ cs_bus s'
    /\ forall data c, json_loads data = Ok (PDict d) -> model_validate rc = Ok c ->
       md_liquidity (consume_command clk tm redis_call' json_loads model_validate (PStr data) r).1 = rc_liquidity c.
Proof.
  intros Hd E. destruct (update_announced _ _ _ _ _ _ _ E) as (rc & V & _ & W). destruct (W Hd) as (d & Wd & R).
  exists rc, d. split; [exact V|]. split; [exact Wd|]. intros data c J M. by apply (market_data_reload _ _ _ _ _ _ _ rc d).
Qed.

End Published.

Lemma shutdown_reaches_engine_witness :
  exists s' event,
    publish_runtime_command (fun _ => of_Z 0) demo_uuid Some (fun _ => Ok tt) (fun _ _ => Ok tt) [("sub", PStr "admin")] "EMERGENCY_SHUTDOWN" []
      market_maker_channel "runtime_command" None demo_store = (s', Ok event)
    /\ (market_maker_channel, PDict event) ∈ cs_bus s'
    /\ let r' := (consume demo_uuid (fun _ => 0%Z) (fun _ => of_Z 0) (fun _ _ => Ok PNone) (fun _ _ => Ok tt) (fun _ => Ok (PDict event)) (fun _ => Ok default_runtime_config)
                    (fun _ => Ok 0%Z) (demo_settings lm_paper) (Some (market_maker_channel, "")) (demo_runtime lm_paper)).1 in
       fl_trading (rt_flags r') = false.
Proof.
  destruct (publish_runtime_command (fun _ => of_Z 0) demo_uuid Some (fun _ => Ok tt) (fun _ _ => Ok tt) [("sub", PStr "admin")] "EMERGENCY_SHUTDOWN" []
      market_maker_channel "runtime_command" None demo_store) as [s' x] eqn:E.
  destruct x as [event|e]; [|exfalso; vm_compute in E; discriminate]. exists s', event. split; [reflexivity|].
  destruct (shutdown_reaches_engine (fun _ => of_Z 0) demo_uuid Some (fun _ => Ok tt) (fun _ _ => Ok tt) [("sub", PStr "admin")] "EMERGENCY_SHUTDOWN" []
    "runtime_command" None demo_store s' event (L := unit) (D := MemDB) _ _ _ demo_uuid (fun _ => 0%Z) (fun _ => of_Z 0) (fun _ _ => Ok PNone) (fun _ _ => Ok tt)
    (fun _ => Ok (PDict event)) (fun _ => Ok default_runtime_config) (fun _ => Ok 0%Z) (demo_settings lm_paper) (demo_runtime lm_paper) "") as (H1 & H2 & _).
  - apply (bool_decide_unpack _). vm_compute. exact I.
  - exact E.
  - reflexivity.
  - split; [exact H1|exact H2].
Defined.

Lemma liquidity_update_reaches_engine_witness :
  exists s' rc d, demo_update "liquidity" [("depth_levels", PInt 5)] demo_store = (s', Ok (1%Z, [("depth_levels", PInt 5); ("build_liquidity", PBool true)]))
  /\ demo_validate_runtime (merged_runtime demo_defaults (cs_configs s')) = Ok rc /\ (market_data_channel, PDict d) ∈ cs_bus s'.
Proof.
  destruct (demo_update "liquidity" [("depth_levels", PInt 5)] demo_store) as [s' x] eqn:E.
  assert (X : x = Ok (1%Z, [("depth_levels", PInt 5); ("build_liquidity", PBool true)])) by (vm_compute in E; by injection E as _ <-). subst x.
  destruct (liquidity_update_reaches_engine (fun _ => 0%Z) (fun _ => of_Z 0) demo_uuid Some (fun _ => Ok tt) (fun _ _ => Ok tt) demo_defaults
              (fun _ d => Ok d) demo_validate_runtime "liquidity" [("depth_levels", PInt 5)] [] demo_store s' 1
              [("depth_levels", PInt 5); ("build_liquidity", PBool true)] (D := unit) (H := {| md_is_active _ := true; md_rollback := mret tt;
                 md_get_pair _ := mret true; md_find_pair _ _ _ := mret None; md_add_pair _ := mret 1%Z; md_insert _ _ := mret tt; md_add_event _ := mret 1%Z |})
              (fun _ => 0%Z) (fun _ => of_Z 0) (fun _ _ => Ok tt) (fun _ => Ok PNone) (fun _ => Ok default_runtime_config)
              (mkMD (mkMetrics [] []) [] (rc_liquidity default_runtime_config) [] [] [] (mkTimes None [] [] None None) (mkPairs [] false 0) None [] false false 0)
              (or_intror eq_refl) E) as (rc & d & H1 & H2 & _).
  exists s', rc, d. split; [reflexivity|]. split; [exact H1|exact H2].
Defined.
