(* ===== verification/Daemon.v ===== *)
(** * Daemon: the supervision loop of an engine ([engines/runtime.py])

    [EngineDaemon] runs an engine (interface [EngineRuntime]) tick by tick,
    writes its health to a file and to Redis, waits between ticks, backs off on
    errors and shuts down on a signal. The environment answers by position:
    which Redis, database and file operations fail, what the clock says, and
    during which turns of the loop the shutdown event is set. Task
    cancellation and logging are not modelled; what the start-up opens and the
    shutdown closes is in [Lifecycle]. *)

From Stdlib Require Import Ascii.
From S2P Require Import Prelude Rounding PyFloat PyDecimal PyData PyValue Models Config Store Paper MMRuntime OrderBook MarketData MarketDataRuntime.

#[local] Open Scope string_scope.
#[local] Open Scope list_scope.

(** ** The engines behind the daemon *)

(** [er_discard] is the effect of the session's [rollback] on the engine's
    database, [er_on_rollback] its [handle_session_rollback], if it has one. *)
Class EngineRuntime (H : Type) : Type := {
  er_tick : SE H unit;
  er_stop : SE H unit;
  er_health : H -> dict;
  er_discard : H -> H;
  er_on_rollback : option (H -> H) }.

Record EngineHealthSnapshot : Type := mkHealth {
  eh_component : string; eh_status : string; eh_started_at : string; eh_last_heartbeat_at : string; eh_uptime : float;
  eh_iterations : Z; eh_errors : Z; eh_last_error : option string }.

(** [exc.__class__.__name__] *)
Definition exn_name (c : exn_class) : string :=
  match c with
  | ValueError => "ValueError" | TypeError => "TypeError" | KeyError => "KeyError" | IndexError => "IndexError"
  | AttributeError => "AttributeError" | ZeroDivisionError => "ZeroDivisionError" | OverflowError => "OverflowError"
  | RuntimeError => "RuntimeError" | DecimalException => "DecimalException" | MultipleResultsFound => "MultipleResultsFound"
  | NoResultFound => "NoResultFound" | PrecisionError => "PrecisionError" | ValidationError => "ValidationError"
  | ExchangeError => "ExchangeError" | RateLimitExceededError => "RateLimitExceededError"
  | NonRetryableExchangeExecutionError => "NonRetryableExchangeExecutionError" | RiskViolationError => "RiskViolationError"
  | KillSwitchActiveError => "KillSwitchActiveError" | CoinstoreSafetyError => "CoinstoreSafetyError"
  | CoinstoreValidationError => "CoinstoreValidationError" | TransportError => "TransportError" | IntegrityError => "IntegrityError"
  | PendingRollbackError => "PendingRollbackError" | HTTPException => "HTTPException" | InvalidToken => "InvalidToken"
  | PyJWTError => "PyJWTError" | JSONDecodeError => "JSONDecodeError" | TimeoutError => "TimeoutError" | FileNotFoundError => "FileNotFoundError"
  | StructError => "error" | BinasciiError => "Error" | HTTPStatusError => "HTTPStatusError" | RetryError => "RetryError" | WebSocketDisconnect => "WebSocketDisconnect"
  end.

Section Daemon.
Context {H : Type} `{EngineRuntime H}.
Context (clock : nat -> datetime) (redis_ping database_ping : nat -> result bool).
Context (commit rollback redis_set file_write close : nat -> result unit).
(** The shutdown event is set during this turn of the loop. *)
Context (signal : nat -> bool).

Record EngineDaemon : Type := mkDaemon {
  dm_component : string; dm_interval : float; dm_started_at : datetime; dm_last_heartbeat : datetime;
  dm_iterations : Z; dm_errors : Z; dm_last_error : option string; dm_shutdown : bool;
  dm_file : option EngineHealthSnapshot;      (* the health file *)
  dm_redis : option dict;                     (* the health entry in Redis *)
  dm_waits : list float; dm_tick : nat; dm_engine : H }.

Definition dm_set_heartbeat t d := mkDaemon (dm_component d) (dm_interval d) (dm_started_at d) t (dm_iterations d) (dm_errors d) (dm_last_error d) (dm_shutdown d) (dm_file d) (dm_redis d) (dm_waits d) (dm_tick d) (dm_engine d).
Definition dm_add_iteration d := mkDaemon (dm_component d) (dm_interval d) (dm_started_at d) (dm_last_heartbeat d) (dm_iterations d + 1) (dm_errors d) (dm_last_error d) (dm_shutdown d) (dm_file d) (dm_redis d) (dm_waits d) (dm_tick d) (dm_engine d).
Definition dm_set_errors n e d := mkDaemon (dm_component d) (dm_interval d) (dm_started_at d) (dm_last_heartbeat d) (dm_iterations d) n e (dm_shutdown d) (dm_file d) (dm_redis d) (dm_waits d) (dm_tick d) (dm_engine d).
Definition dm_set_shutdown b d := mkDaemon (dm_component d) (dm_interval d) (dm_started_at d) (dm_last_heartbeat d) (dm_iterations d) (dm_errors d) (dm_last_error d) b (dm_file d) (dm_redis d) (dm_waits d) (dm_tick d) (dm_engine d).
Definition dm_set_file f d := mkDaemon (dm_component d) (dm_interval d) (dm_started_at d) (dm_last_heartbeat d) (dm_iterations d) (dm_errors d) (dm_last_error d) (dm_shutdown d) (Some f) (dm_redis d) (dm_waits d) (dm_tick d) (dm_engine d).
Definition dm_set_redis x d := mkDaemon (dm_component d) (dm_interval d) (dm_started_at d) (dm_last_heartbeat d) (dm_iterations d) (dm_errors d) (dm_last_error d) (dm_shutdown d) (dm_file d) (Some x) (dm_waits d) (dm_tick d) (dm_engine d).
Definition dm_add_wait w d := mkDaemon (dm_component d) (dm_interval d) (dm_started_at d) (dm_last_heartbeat d) (dm_iterations d) (dm_errors d) (dm_last_error d) (dm_shutdown d) (dm_file d) (dm_redis d) (dm_waits d ++ [w]) (dm_tick d) (dm_engine d).
Definition dm_next d := mkDaemon (dm_component d) (dm_interval d) (dm_started_at d) (dm_last_heartbeat d) (dm_iterations d) (dm_errors d) (dm_last_error d) (dm_shutdown d) (dm_file d) (dm_redis d) (dm_waits d) (S (dm_tick d)) (dm_engine d).
Definition dm_set_engine h d := mkDaemon (dm_component d) (dm_interval d) (dm_started_at d) (dm_last_heartbeat d) (dm_iterations d) (dm_errors d) (dm_last_error d) (dm_shutdown d) (dm_file d) (dm_redis d) (dm_waits d) (dm_tick d) h.

Definition DM (A : Type) : Type := SE EngineDaemon A.
#[local] Instance DM_ret : MRet DM := se_ret EngineDaemon.
#[local] Instance DM_bind : MBind DM := se_bind EngineDaemon.

(** Ask the environment. *)
Definition ask {A} (f : nat -> result A) : DM A := fun d => (dm_next d, f (dm_tick d)).
Definition dm_now : DM datetime := fun d => (dm_next d, Ok (clock (dm_tick d))).
Definition on_engine {A} (m : SE H A) : DM A := fun d => let '(h, x) := m (dm_engine d) in (dm_set_engine h d, x).

Definition take_snapshot (status : string) : DM EngineHealthSnapshot :=
  now ← dm_now;
  _ ← se_modify (dm_set_heartbeat now);
  d ← se_get;
  mret (mkHealth (dm_component d) status (isoformat (dm_started_at d)) (isoformat now) (total_seconds (now - dm_started_at d))
          (dm_iterations d) (dm_errors d) (dm_last_error d)).

(** The temporary file replaces the health file once it is written. *)
Definition write_health (status : string) : DM unit :=
  s ← take_snapshot status;
  _ ← ask file_write;
  se_modify (dm_set_file s).

Definition health_dict (s : EngineHealthSnapshot) : dict :=
  [("component_name", PStr (eh_component s)); ("status", PStr (eh_status s)); ("started_at", PStr (eh_started_at s));
   ("last_heartbeat_at", PStr (eh_last_heartbeat_at s)); ("uptime_seconds", PFloat (eh_uptime s)); ("loop_iterations", PInt (eh_iterations s));
   ("consecutive_errors", PInt (eh_errors s)); ("last_error", match eh_last_error s with Some e => PStr e | None => PNone end)].

Definition publish_heartbeat (redis_ok database_ok : bool) (status : string) : DM unit :=
  d ← se_get;
  let runtime_health := er_health (dm_engine d) in
  s ← take_snapshot status;
  _ ← ask redis_set;
  se_modify (dm_set_redis (health_dict s ++ [("redis_ok", PBool redis_ok); ("database_ok", PBool database_ok); ("runtime", PDict runtime_health)])).

Definition service_tick : DM unit :=
  _ ← se_modify dm_add_iteration;
  redis_ok ← ask redis_ping;
  database_ok ← ask database_ping;
  if negb redis_ok || negb database_ok then se_raise RuntimeError "dependency health failed" else
  _ ← on_engine er_tick;
  _ ← ask commit;
  publish_heartbeat redis_ok database_ok "healthy".

Definition rollback_session : DM unit :=
  _ ← ask rollback;
  _ ← se_modify (fun d => dm_set_engine (er_discard (dm_engine d)) d);
  match er_on_rollback with
  | Some f => se_modify (fun d => dm_set_engine (f (dm_engine d)) d)
  | None => mret tt
  end.

Definition database_ok_after_error : DM bool := se_catch (ask database_ping) (fun _ => mret false).

Definition wait_for_shutdown (timeout : float) : DM unit := se_modify (dm_add_wait timeout).

(** [min(30.0, max(1.0, n))] *)
Definition error_backoff (n : Z) : float := fmin (of_Z 30) (fmax (of_Z 1) (of_Z n)).

Definition healthy_turn : DM unit :=
  _ ← service_tick;
  _ ← se_modify (dm_set_errors 0 None);
  _ ← write_health "healthy";
  d ← se_get;
  wait_for_shutdown (dm_interval d).

Definition recover_turn (e : exn) : DM unit :=
  _ ← rollback_session;
  _ ← se_modify (fun d => dm_set_errors (dm_errors d + 1) (Some (exn_name (ex_class e) +:+ ": " +:+ ex_msg e)) d);
  _ ← write_health "degraded";
  database_ok ← database_ok_after_error;
  _ ← publish_heartbeat true database_ok "degraded";
  d ← se_get;
  wait_for_shutdown (error_backoff (dm_errors d)).

(** One turn of the loop; [n] counts the turns. *)
Definition turn (n : nat) : DM unit :=
  fun d => let '(d', r) := se_catch healthy_turn recover_turn d in
           (if signal n then dm_set_shutdown true d' else d', r).

(** The loop: [None] when the fuel is used up, otherwise the exception that
    left it, if any. *)
Fixpoint main_loop (fuel n : nat) (d : EngineDaemon) : option (EngineDaemon * result unit) :=
  if dm_shutdown d then Some (d, Ok tt) else
  match fuel with
  | O => None
  | S fuel' =>
      match turn n d with
      | (d', Ok _) => main_loop fuel' (S n) d'
      | (d', Err e) => Some (d', Err e)
      end
  end.

Definition shutdown : DM unit :=
  _ ← write_health "stopping";
  _ ← on_engine er_stop;
  _ ← ask close;
  _ ← ask close;
  _ ← ask close;
  write_health "stopped".

(** [try: loop finally: shutdown]: an exception of the shutdown wins. *)
Definition run_daemon (fuel : nat) (d : EngineDaemon) : option (EngineDaemon * result unit) :=
  match write_health "starting" d with
  | (d1, Err e) => Some (d1, Err e)
  | (d1, Ok _) =>
      match main_loop fuel 0 d1 with
      | None => None
      | Some (d2, r) =>
          match shutdown d2 with
          | (d3, Err e) => Some (d3, Err e)
          | (d3, Ok _) => Some (d3, r)
          end
      end
  end.

(** [read_health], on the content of the health file. *)
Definition read_health (fromisoformat : string -> result datetime) (now : datetime) (max_age : float) (file : option EngineHealthSnapshot)
    : result EngineHealthSnapshot :=
  match file with
  | None => raise FileNotFoundError "health.json"
  | Some s =>
      last_heartbeat ← fromisoformat (eh_last_heartbeat_at s);
      let age := total_seconds (now - last_heartbeat) in
      if negb (String.eqb (eh_status s) "healthy") then raise RuntimeError (eh_component s +:+ " health status is " +:+ eh_status s)
      else if fgt age max_age then raise RuntimeError (eh_component s +:+ " heartbeat is stale")
      else Ok s
  end.

End Daemon.

(** [_initialize_dependencies]: the stored configuration, or the default when it
    cannot be read; only two components exist. *)
Definition initialize {H} (component : string) (stored : result RuntimeConfig) (rollback : result unit)
    (market_data market_maker : RuntimeConfig -> result H) : result H :=
  config ← (match stored with Ok c => Ok c | Err _ => _ ← rollback; Ok default_runtime_config end);
  if String.eqb component "market-data-engine" then market_data config
  else if String.eqb component "market-maker-engine" then market_maker config
  else raise ValueError ("Unsupported engine component: " +:+ component).

(** ** Properties *)

Section DaemonProps.
Context {H : Type} `{EngineRuntime H}.
Context (clock : nat -> datetime) (redis_ping database_ping : nat -> result bool).
Context (commit rollback redis_set file_write close : nat -> result unit) (signal : nat -> bool).

Abbreviation loop := (main_loop clock redis_ping database_ping commit rollback redis_set file_write signal).
Abbreviation a_turn := (turn clock redis_ping database_ping commit rollback redis_set file_write signal).
#[local] Ltac dm_open := unfold mbind, DM_bind, mret, DM_ret in *; cbv beta.

Lemma turn_signal n d : signal n = true -> dm_shutdown (a_turn n d).1 = true.
Proof. intros S. unfold turn. destruct (se_catch _ _ d). by rewrite S. Qed.

Lemma loop_ends k n fuel d : signal (n + k) = true -> (k < fuel)%nat -> exists x, loop fuel n d = Some x.
Proof.
  revert n fuel d. induction k as [|k IH]; intros n fuel d S Hf; destruct fuel as [|fuel]; try lia; simpl.
  all: destruct (dm_shutdown d); [by eexists|].
  - rewrite Nat.add_0_r in S. pose proof (turn_signal n d S) as T. destruct (a_turn n d) as [d' [[]|e]]; [|by eexists]. simpl in T.
    destruct fuel; simpl; rewrite T; by eexists.
  - destruct (a_turn n d) as [d' [[]|e]]; [|by eexists]. apply IH; [by rewrite Nat.add_succ_comm|lia].
Qed.

(** No failure on the way down: health writes, the engine's [stop], [close]. *)
Definition orderly : Prop :=
  (forall t, file_write t = Ok tt) /\ (forall t, close t = Ok tt) /\ (forall h, exists h', er_stop h = (h', Ok tt)).

Lemma write_health_ok status (d : EngineDaemon (H := H)) : (forall t, file_write t = Ok tt) ->
  exists d' s, write_health clock file_write status d = (d', Ok tt) /\ dm_file d' = Some s /\ eh_status s = status
    /\ dm_engine d' = dm_engine d /\ dm_iterations d' = dm_iterations d /\ dm_shutdown d' = dm_shutdown d.
Proof.
  intros F. unfold write_health, take_snapshot. dm_open. unfold se_bind, dm_now, se_modify, se_get, se_ret, ask. simpl. rewrite F.
  eexists _, _. split; [reflexivity|]. by split_and!.
Qed.

Lemma shutdown_ok (d : EngineDaemon (H := H)) : orderly ->
  exists d' s, shutdown clock file_write close d = (d', Ok tt) /\ dm_file d' = Some s /\ eh_status s = "stopped" /\ dm_iterations d' = dm_iterations d.
Proof.
  intros (F & C & E). unfold shutdown. dm_open. unfold se_bind at 1.
  destruct (write_health_ok "stopping" d F) as (d1 & s1 & W1 & _ & _ & _ & I1 & _). rewrite W1. unfold se_bind at 1, on_engine.
  destruct (E (dm_engine d1)) as (h' & ->). unfold se_bind, ask. rewrite !C.
  match goal with |- context [write_health _ _ "stopped" ?x] => destruct (write_health_ok "stopped" x F) as (d2 & s2 & W2 & F2 & S2 & _ & I2 & _) end.
  rewrite W2. exists d2, s2. simpl in I2. by rewrite I2.
Qed.

(** C28: once the shutdown event is set (during turn k), the daemon stops: with
    more than k turns of fuel the run is over, whatever failed before, and if
    health writes, closing and the engine's stop do not fail the health file
    says stopped. *)
Theorem daemon_shuts_down k fuel d :
  signal k = true -> (k < fuel)%nat -> orderly ->
  exists d' r s, run_daemon clock redis_ping database_ping commit rollback redis_set file_write close signal fuel d = Some (d', r)
    /\ dm_file d' = Some s /\ eh_status s = "stopped".
Proof.
  intros S Hf O. pose proof O as (F & _ & _). unfold run_daemon.
  destruct (write_health_ok "starting" d F) as (d1 & s1 & W1 & _). rewrite W1.
  destruct (loop_ends k 0 fuel d1 S Hf) as [[d2 r] L]. rewrite L.
  destruct (shutdown_ok d2 O) as (d3 & s3 & E3 & F3 & S3 & _). rewrite E3. by exists d3, r, s3.
Qed.

(** *** Back-off *)

Lemma error_backoff_spec n : (0 <= n < 2 ^ 53)%Z -> error_backoff n = of_Z (Z.min 30 (Z.max 1 n)).
Proof.
  intros Hn. unfold error_backoff.
  assert (Z1 : forall z, (0 <= z < 2 ^ 53)%Z -> exists q, of_Z z = Fin q /\ q == inject_Z z).
  { intros z Hz. exists (round64 (inject_Z z)). assert (R : round64 (inject_Z z) == inject_Z z) by (apply round64_repr, repr64_Z; lia).
    split; [|exact R]. unfold of_Z, of_Q. replace (Qle_bool two1024 (Qabs (round64 (inject_Z z)))) with false; [done|]. symmetry.
    apply not_true_is_false. rewrite Qle_bool_iff. intros L. rewrite R in L. rewrite Qabs_pos in L by (change 0 with (inject_Z 0); rewrite <- Zle_Qle; lia).
    unfold two1024 in L. rewrite <- Zle_Qle in L. lia. }
  assert (LT : forall a b, (0 <= a < 2 ^ 53)%Z -> (0 <= b < 2 ^ 53)%Z -> flt (of_Z a) (of_Z b) = (a <? b)%Z).
  { intros a b Ha Hb. destruct (Z1 a Ha) as (qa & -> & Ea). destruct (Z1 b Hb) as (qb & -> & Eb).
    destruct (Z.ltb_spec a b) as [L|L].
    - apply flt_fin. rewrite Ea, Eb. by rewrite <- Zlt_Qlt.
    - apply not_true_is_false. rewrite flt_fin, Ea, Eb. rewrite <- Zlt_Qlt. lia. }
  assert (M : fmax (of_Z 1) (of_Z n) = of_Z (Z.max 1 n)).
  { unfold fmax. rewrite LT by lia. destruct (Z.ltb_spec 1 n); f_equal; lia. }
  rewrite M. unfold fmin. rewrite LT by lia. destruct (Z.ltb_spec (Z.max 1 n) 30); f_equal; lia.
Qed.

(** In the n-th consecutive turn in which the tick fails and the recovery
    does not, the daemon counts n errors and waits min(30, n) seconds. *)
Theorem daemon_backs_off n d d' e :
  (0 <= dm_errors d < 2 ^ 52)%Z ->
  (exists d1, healthy_turn clock redis_ping database_ping commit redis_set file_write d = (d1, Err e) /\ dm_errors d1 = dm_errors d /\ dm_waits d1 = dm_waits d) ->
  a_turn n d = (d', Ok tt) ->
  dm_errors d' = (dm_errors d + 1)%Z /\ dm_waits d' = dm_waits d ++ [of_Z (Z.min 30 (dm_errors d + 1))].
Proof.
  intros Hb (d1 & T & E1 & E2). unfold turn, se_catch. rewrite T.
  set (view := fun d : EngineDaemon (H := H) => (dm_errors d, dm_waits d)).
  assert (W : wp (recover_turn clock database_ping rollback redis_set file_write e)
                 (fun _ d2 => dm_errors d2 = (dm_errors d + 1)%Z /\ dm_waits d2 = dm_waits d ++ [of_Z (Z.min 30 (dm_errors d + 1))]) (fun _ => True) d1).
  { assert (G : forall A (m : DM A) d2 x, frame view m -> view d2 = x -> wp m (fun _ d3 => view d3 = x) (fun _ => True) d2).
    { intros A m d2 x F V. unfold wp. specialize (F d2). destruct (m d2) as [d3 [a|e']]; [|done]. simpl in F. by rewrite F. }
    assert (FS : forall s, frame view (take_snapshot clock s)) by done.
    unfold recover_turn. dm_open. apply wp_seq. eapply wp_mono; [apply (G _ _ _ (dm_errors d, dm_waits d))| |done].
    { unfold rollback_session. dm_open. apply frame_bind; [done|intros _]. apply frame_bind; [by apply frame_modify|intros _]. by destruct er_on_rollback. }
    { unfold view. congruence. }
    intros ? d2 V2. cbv beta in V2. apply wp_seq.
    match goal with |- wp _ ?Q _ _ => change (Q tt (dm_set_errors (dm_errors d2 + 1) (Some (exn_name (ex_class e) +:+ ": " +:+ ex_msg e)) d2)) end. cbv beta.
    set (x := ((dm_errors d + 1)%Z, dm_waits d)).
    assert (V3 : view (dm_set_errors (dm_errors d2 + 1) (Some (exn_name (ex_class e) +:+ ": " +:+ ex_msg e)) d2) = x).
    { unfold view in *. injection V2 as V4 V5. simpl. unfold x. by rewrite V4, V5. }
    apply wp_seq. eapply wp_mono; [apply (G _ _ _ x); [|exact V3]| |done].
    { unfold write_health. dm_open. apply frame_bind; [apply FS|intros s]. apply frame_bind; [done|intros _]. by apply frame_modify. }
    intros ? d3 V4. cbv beta in V4. apply wp_seq. eapply wp_mono; [apply (G _ _ _ x); [|exact V4]| |done].
    { unfold database_ok_after_error. apply frame_catch; [done|]. done. }
    intros ok d4 V5. cbv beta in V5. apply wp_seq. eapply wp_mono; [apply (G _ _ _ x); [|exact V5]| |done].
    { unfold publish_heartbeat. dm_open. apply frame_bind; [done|intros ?]. apply frame_bind; [apply FS|intros s]. apply frame_bind; [done|intros _]. by apply frame_modify. }
    intros ? d5 V6. cbv beta in V6. unfold view, x in V6. injection V6 as V7 V8.
    unfold wp, wait_for_shutdown. unfold se_bind, se_get, se_modify. simpl. rewrite V7, V8. split; [done|].
    rewrite error_backoff_spec by lia. do 3 f_equal. lia. }
  unfold wp in W. destruct (recover_turn _ _ _ _ _ e d1) as [d2 [[]|e']]; [|by destruct (signal n)].
  destruct (signal n); intros [= <-]; exact W.
Qed.

(** *** A Redis outage *)

Lemma recover_needs_redis e err (d : EngineDaemon (H := H)) :
  (forall t, file_write t = Ok tt) -> (forall t, redis_set t = Err err) -> (forall t, rollback t = Ok tt) ->
  exists d', recover_turn clock database_ping rollback redis_set file_write e d = (d', Err err) /\ dm_iterations d' = dm_iterations d.
Proof.
  intros F RS RB. unfold recover_turn. dm_open. unfold se_bind at 1.
  assert (R : exists d1, rollback_session rollback d = (d1, Ok tt) /\ dm_iterations d1 = dm_iterations d).
  { unfold rollback_session. dm_open. unfold se_bind, ask, se_modify. rewrite RB. destruct er_on_rollback; by eexists. }
  destruct R as (d1 & -> & I1). unfold se_bind at 1, se_modify. unfold se_bind at 1.
  match goal with |- context [write_health _ _ _ ?x] => destruct (write_health_ok "degraded" x F) as (d2 & s2 & -> & _ & _ & _ & I2 & _) end.
  unfold se_bind at 1.
  assert (Q : exists b d3, database_ok_after_error database_ping d2 = (d3, Ok b) /\ dm_iterations d3 = dm_iterations d2).
  { unfold database_ok_after_error, se_catch, ask. destruct (database_ping (dm_tick d2)); by eexists _, _. }
  destruct Q as (b & d3 & -> & I3). unfold se_bind at 1, publish_heartbeat, take_snapshot. dm_open.
  unfold se_bind, se_get, dm_now, se_modify, se_ret, ask. simpl. rewrite RS. eexists. split; [reflexivity|]. simpl in *. congruence.
Qed.

(** When Redis is down (the health check and the health entry both raise),
    the daemon does not back off: the recovery itself raises when it publishes
    the degraded status, so the run ends with an exception after the first
    turn. *)
Theorem redis_outage_ends_daemon fuel d ping_error set_error :
  (0 < fuel)%nat -> dm_shutdown d = false -> orderly ->
  (forall t, redis_ping t = Err ping_error) -> (forall t, redis_set t = Err set_error) -> (forall t, rollback t = Ok tt) ->
  exists d', run_daemon clock redis_ping database_ping commit rollback redis_set file_write close signal fuel d = Some (d', Err set_error)
    /\ dm_iterations d' = (dm_iterations d + 1)%Z.
Proof.
  intros Hf Sd O RP RS RB. pose proof O as (F & _ & _). unfold run_daemon.
  destruct (write_health_ok "starting" d F) as (d1 & s1 & W1 & _ & _ & _ & I1 & S1). rewrite W1.
  destruct fuel as [|fuel]; [lia|]. cbn [main_loop]. rewrite S1, Sd.
  assert (T : exists d2, healthy_turn clock redis_ping database_ping commit redis_set file_write d1 = (d2, Err ping_error)
                /\ dm_iterations d2 = (dm_iterations d + 1)%Z).
  { unfold healthy_turn, service_tick. dm_open. unfold se_bind, se_modify, ask. rewrite RP. eexists. split; [reflexivity|]. simpl. by rewrite I1. }
  destruct T as (d2 & T & I2). unfold turn, se_catch. rewrite T.
  destruct (recover_needs_redis ping_error set_error d2 F RS RB) as (d3 & -> & I3).
  set (d4 := if signal 0 then dm_set_shutdown true d3 else d3).
  assert (I4 : dm_iterations d4 = dm_iterations d3) by (unfold d4; by destruct (signal 0)).
  destruct (shutdown_ok d4 O) as (d5 & s5 & E5 & _ & _ & I5). rewrite E5. exists d5. split; [reflexivity|]. lia.
Qed.

End DaemonProps.

(** The health probe accepts exactly a file written with status healthy
    whose heartbeat is not older than the limit. *)
Theorem read_health_iff fromisoformat now max_age s t :
  fromisoformat (eh_last_heartbeat_at s) = Ok t ->
  read_health fromisoformat now max_age (Some s) = Ok s <->
  eh_status s = "healthy" /\ fgt (total_seconds (now - t)) max_age = false.
Proof.
  intros T. unfold read_health. rewrite T. cbn [mbind result_bind].
  destruct (String.eqb_spec (eh_status s) "healthy") as [E|E]; cbn [negb]; [|by split; [|intros [? _]]].
  destruct (fgt _ max_age); by split; [|intros [_ ?]].
Qed.

(** ** The two engines as instances *)

Section Engines.
Context (monotonic : float) (started : float).

(** [RuntimeMetrics.snapshot] *)
Definition metrics_snapshot (m : Metrics) : dict :=
  let floats l := PDict (map (fun kx => (kx.1, PFloat kx.2)) l) in
  [("uptime_seconds", PFloat (fsub monotonic started)); ("counters", floats (mt_counters m)); ("gauges", floats (mt_gauges m))].

Definition iso_opt (o : option datetime) : pyval := match o with Some t => PStr (isoformat t) | None => PNone end.
Definition iso_all (l : list (string * datetime)) : pyval := PDict (map (fun kt => (kt.1, PStr (isoformat kt.2))) l).
Definition count_tasks (f : ConnectorTask -> bool) (l : list ConnectorTask) : pyval := PInt (Z.of_nat (length (List.filter f l))).

Context {D : Type} `{MarketSession D}.

(** [_raw_message_samples] *)
Definition raw_message_samples (l : list ConnectorTask) : dict :=
  foldl (fun d t => match ct_samples t with
                    | [] => d
                    | samples => od_set (venue_value (ct_venue t)) (PList (map PDict samples)) d
                    end) [] l.

(** [MarketDataRuntime.health] *)
Definition market_data_health (r : MarketDataRuntime (D := D)) : dict :=
  let n c := PInt (count_of c r) in
  let tasks := md_tasks r in
  [("active_subscriptions", n active_subscriptions); ("websocket_messages_received", n websocket_messages_received);
   ("connector_callback_invoked", PInt (foldr Z.add 0%Z (map ct_callbacks tasks)));
   ("runtime_handle_message_enter", n runtime_handle_message_enter); ("normalization_attempt", n normalization_attempt);
   ("normalization_success", n normalization_success); ("redis_publish_success", n redis_publish_success);
   ("last_websocket_message_timestamp", iso_opt (tm_websocket (md_times r)));
   ("last_websocket_message_by_venue", iso_all (tm_by_venue (md_times r))); ("last_message_timestamp", iso_all (tm_message (md_times r)));
   ("reconnect_count", n reconnect_count); ("sequence_gaps", n sequence_gaps);
   ("connector_tasks_total", PInt (Z.of_nat (length tasks))); ("connector_tasks_running", count_tasks (fun t => negb (ct_done t)) tasks);
   ("connector_tasks_failed", count_tasks (fun t => match ct_state t with task_finished => true | _ => false end) tasks);
   ("raw_message_samples", PDict (raw_message_samples tasks)); ("redis_publish_count", n redis_publish_count);
   ("last_publish_timestamp", iso_opt (tm_publish (md_times r))); ("db_insert_count", n db_insert_count);
   ("market_data_rows_written", n market_data_rows_written); ("liquidity_rows_written", n liquidity_rows_written);
   ("volatility_rows_written", n volatility_rows_written); ("last_db_insert_timestamp", iso_opt (tm_db_insert (md_times r)));
   ("websocket_state", PStr (match tasks with [] => "disabled" | _ => if forallb (fun t => negb (ct_done t)) tasks then "active" else "disabled" end));
   ("configured_trading_pairs_validated", PBool (pr_validated (md_pairs r))); ("configured_trading_pairs_count", PInt (pr_count (md_pairs r)));
   ("metrics", PDict (metrics_snapshot (md_metrics r)))].

Context (clock : nat -> datetime) (redis_call : nat -> string -> result unit) (st : MarketDataSettings) (discard : D -> D).

Definition market_data_engine : EngineRuntime (MarketDataRuntime (D := D)) := {|
  er_tick := market_data_tick redis_call st;
  er_stop := market_data_stop;
  er_health := market_data_health;
  er_discard r := with_session (discard <$> md_session r) r;
  er_on_rollback := Some (fun r => (handle_session_rollback r).1) |}.
End Engines.

(** The market maker has no [handle_session_rollback]: the row ids its paper
    engine has cached survive a rollback. Its [stop] ends tasks only. *)
Definition market_maker_engine {L D} (discard : D -> D) (tick : SE (Runtime (L := L) (D := D)) unit) (health : Runtime -> dict) :
    EngineRuntime (Runtime (L := L) (D := D)) := {|
  er_tick := tick;
  er_stop := mret tt;
  er_health := health;
  er_discard r := let w := rt_world r in set_world (mkWorld (w_engine w) (discard (w_db w)) (w_tick w)) r;
  er_on_rollback := None |}.

(** A failed tick leaves the market-data engine without cached row ids,
    while the market maker's paper engine keeps the ids of rows the rollback
    has removed. *)
Theorem rollback_and_row_caches {D} `{MarketSession D} mono started redis_call st discard (d d' : EngineDaemon (H := MarketDataRuntime (D := D)))
    {L D2} discard2 tick health (m m' : EngineDaemon (H := Runtime (L := L) (D := D2))) rollback :
  rollback_session (H0 := market_data_engine mono started redis_call st discard) rollback d = (d', Ok tt) ->
  rollback_session (H0 := market_maker_engine discard2 tick health) rollback m = (m', Ok tt) ->
  pr_ids (md_pairs (dm_engine d')) = []
  /\ w_engine (rt_world (dm_engine m')) = w_engine (rt_world (dm_engine m))
  /\ w_db (rt_world (dm_engine m')) = discard2 (w_db (rt_world (dm_engine m))).
Proof.
  unfold rollback_session, mbind, DM_bind, se_bind, ask, se_modify.
  destruct (rollback (dm_tick d)); [|discriminate]. destruct (rollback (dm_tick m)); [|discriminate]. simpl.
  intros [= <-] [= <-]. by split_and!.
Qed.

(** *** An engine for the examples *)

Definition idle_engine (tick : SE unit unit) : EngineRuntime unit := {|
  er_tick := tick; er_stop := mret tt; er_health _ := []; er_discard u := u; er_on_rollback := None |}.
Definition failing_tick : SE unit unit := se_raise RuntimeError "market data has no active websocket connections".
Definition demo_daemon : EngineDaemon (H := unit) :=
  mkDaemon "market-data-engine" (of_Z 60) 0%Z 0%Z 0 0 None false None None [] 0 tt.

Lemma daemon_shuts_down_witness :
  exists d' r s, run_daemon (H0 := idle_engine failing_tick) (fun _ => 0%Z) (fun _ => Ok true) (fun _ => Ok true) (fun _ => Ok tt) (fun _ => Ok tt) (fun _ => Ok tt)
    (fun _ => Ok tt) (fun _ => Ok tt) (Nat.eqb 2) 3 demo_daemon = Some (d', r) /\ dm_file d' = Some s /\ eh_status s = "stopped".
Proof.
  apply (daemon_shuts_down (H0 := idle_engine failing_tick) _ _ _ _ _ _ _ _ _ 2 3 demo_daemon); [reflexivity|lia|].
  split; [done|]. split; [done|]. intros h. by exists h.
Defined.

Lemma daemon_backs_off_witness :
  exists d', turn (H0 := idle_engine failing_tick) (fun _ => 0%Z) (fun _ => Ok true) (fun _ => Ok true) (fun _ => Ok tt) (fun _ => Ok tt) (fun _ => Ok tt) (fun _ => Ok tt)
    (fun _ => false) 0 demo_daemon = (d', Ok tt) /\ dm_errors d' = 1%Z /\ dm_waits d' = [] ++ [of_Z 1].
Proof.
  destruct (turn (H0 := idle_engine failing_tick) (fun _ => 0%Z) (fun _ => Ok true) (fun _ => Ok true) (fun _ => Ok tt) (fun _ => Ok tt) (fun _ => Ok tt) (fun _ => Ok tt)
    (fun _ => false) 0 demo_daemon) as [d' x] eqn:E.
  assert (X : x = Ok tt) by (vm_compute in E; by injection E as _ <-). subst x. exists d'. split; [reflexivity|].
  apply (daemon_backs_off (H0 := idle_engine failing_tick) (fun _ => 0%Z) (fun _ => Ok true) (fun _ => Ok true) (fun _ => Ok tt) (fun _ => Ok tt) (fun _ => Ok tt)
           (fun _ => Ok tt) (fun _ => false) 0 demo_daemon d'
           (mkExn RuntimeError "market data has no active websocket connections")).
  - vm_compute. split; [discriminate|reflexivity].
  - eexists. split; [vm_compute; reflexivity|]. split; reflexivity.
  - exact E.
Defined.

Lemma redis_outage_ends_daemon_witness :
  exists d', run_daemon (H0 := idle_engine (mret tt)) (fun _ => 0%Z) (fun _ => raise TransportError "ping") (fun _ => Ok true) (fun _ => Ok tt) (fun _ => Ok tt)
    (fun _ => raise TransportError "set") (fun _ => Ok tt) (fun _ => Ok tt) (fun _ => false) 5 demo_daemon = Some (d', raise TransportError "set")
  /\ dm_iterations d' = (0 + 1)%Z.
Proof.
  apply (redis_outage_ends_daemon (H0 := idle_engine (mret tt)) _ _ _ _ _ _ _ _ _ 5 demo_daemon (mkExn TransportError "ping") (mkExn TransportError "set")).
  - lia.
  - reflexivity.
  - split; [done|]. split; [done|]. intros h. by exists h.
  - reflexivity.
  - reflexivity.
  - reflexivity.
Defined.

Definition demo_health (status : string) : EngineHealthSnapshot :=
  mkHealth "market-data-engine" status (isoformat 0%Z) (isoformat 0%Z) (of_Z 0) 1 0 None.

Lemma read_health_iff_witness :
  read_health (fun _ => Ok 0%Z) (seconds 100) (of_Z 180) (Some (demo_health "healthy")) = Ok (demo_health "healthy")
  /\ read_health (fun _ => Ok 0%Z) (seconds 100) (of_Z 180) (Some (demo_health "degraded")) <> Ok (demo_health "degraded").
Proof.
  split.
  - apply (read_health_iff (fun _ => Ok 0%Z) (seconds 100) (of_Z 180) (demo_health "healthy") 0%Z eq_refl). split; [reflexivity|vm_compute; reflexivity].
  - intros E. apply (read_health_iff (fun _ => Ok 0%Z) (seconds 100) (of_Z 180) (demo_health "degraded") 0%Z eq_refl) in E. destruct E as [E _]. discriminate E.
Defined.

Lemma rollback_and_row_caches_witness :
  let E := market_data_engine (D := unit) (H := {| md_is_active _ := true; md_rollback := mret tt; md_get_pair _ := mret true; md_find_pair _ _ _ := mret None;
             md_add_pair _ := mret 1%Z; md_insert _ _ := mret tt; md_add_event _ := mret 1%Z |}) (of_Z 0) (of_Z 0) (fun _ _ => Ok tt)
             (mkMDSettings [] [] [] false 1 (of_Z 30)) (fun u => u) in
  let r := mkMD (mkMetrics [] []) [] (rc_liquidity default_runtime_config) [] [] [] (mkTimes None [] [] None None)
             (mkPairs [("binance", "BTC/USDT", 7%Z)] true 1) (Some tt) [] true true 0 in
  pr_ids (md_pairs (dm_engine (rollback_session (H0 := E) (fun _ => Ok tt) (mkDaemon "market-data-engine" (of_Z 60) 0%Z 0%Z 0 0 None false None None [] 0 r)).1)) = [].
Proof.
  intros E r.
  destruct (new_runtime (mkSettings lm_paper [] [] (of_Z 60) (of_Z 1000) "BTC" "USDT" (of_Z 10) (of_Z 10))
              (mkQuoteSettings (rc_spread default_runtime_config) (rc_order_size default_runtime_config) (rc_inventory default_runtime_config)
                 (rc_order_layers default_runtime_config)) default_runtime_config 0%Z tt tt) as [m|e] eqn:M; [|vm_compute in M; discriminate].
  destruct (rollback_and_row_caches (of_Z 0) (of_Z 0) (fun _ _ => Ok tt) (mkMDSettings [] [] [] false 1 (of_Z 30)) (fun u : unit => u)
              (mkDaemon "market-data-engine" (of_Z 60) 0%Z 0%Z 0 0 None false None None [] 0 r)
              (rollback_session (H0 := E) (fun _ => Ok tt) (mkDaemon "market-data-engine" (of_Z 60) 0%Z 0%Z 0 0 None false None None [] 0 r)).1
              (fun u : unit => u) (mret tt) (fun _ => []) (mkDaemon "market-maker-engine" (of_Z 60) 0%Z 0%Z 0 0 None false None None [] 0 m)
              (rollback_session (H0 := market_maker_engine (fun u : unit => u) (mret tt) (fun _ => [])) (fun _ => Ok tt)
                 (mkDaemon "market-maker-engine" (of_Z 60) 0%Z 0%Z 0 0 None false None None [] 0 m)).1 (fun _ => Ok tt) eq_refl eq_refl) as [R _].
  exact R.
Defined.
