(* ===== verification/Hardening.v ===== *)
(** * Hardening: security services ([security/hardening.py])

    Secret providers and rotation, time-based one-time passwords, the address
    allow-list and the in-memory request limit, role policies, and the signed
    audit chain. The environment variables, the Vault HTTP call and the parsing
    of addresses ([ipaddress]) are parameters; [now] is [time.time()]. *)

From Stdlib Require Import Ascii.
From S2P Require Import Prelude Rounding PyFloat PyDecimal PyData PyValue Models RateLimit Crypto Signing.

#[local] Open Scope string_scope.
#[local] Open Scope list_scope.

(** ** Secrets *)

Inductive SecretScope : Type := scope_exchange | scope_alerting | scope_jwt | scope_database.

Definition scope_value (s : SecretScope) : string :=
  match s with
  | scope_exchange => "exchange" | scope_alerting => "alerting" | scope_jwt => "jwt" | scope_database => "database"
  end.

Record SecretRecord : Type := mkSecret { se_key : string; se_value : pyval; se_version : string; se_scope : SecretScope }.

(** [EnvSecretProvider.get_secret]: [environ] is the process environment. *)
Definition env_get_secret (environ : list (string * string)) (key : string) (scope : SecretScope) : result SecretRecord :=
  match od_get key environ with
  | None => raise KeyError key
  | Some value =>
      Ok (mkSecret key (PStr value) (match od_get (key +:+ "_VERSION") environ with Some v => v | None => "env" end) scope)
  end.

Record VaultSecretProvider : Type := mkVault { va_base_url : string; va_token : string; va_mount : string }.

(** [s.rstrip("/")] and [s.strip("/")] *)
Fixpoint lstrip_slash (s : string) : string :=
  match s with
  | String c s' => if Ascii.eqb c "/" then lstrip_slash s' else s
  | "" => ""
  end.
Definition rstrip_slash (s : string) : string := String.rev (lstrip_slash (String.rev s)).

Definition new_vault (base_url token mount : string) : VaultSecretProvider :=
  mkVault (rstrip_slash base_url) token (lstrip_slash (rstrip_slash mount)).

Definition vault_path (v : VaultSecretProvider) (key : string) (scope : SecretScope) : string :=
  va_base_url v +:+ "/v1/" +:+ va_mount v +:+ "/data/" +:+ scope_value scope +:+ "/" +:+ key.

(** [VaultSecretProvider.get_secret]: [http_get path token] gives the status
    and the decoded body, or a transport failure. *)
Definition vault_get_secret (http_get : string -> string -> result (Z * pyval)) (v : VaultSecretProvider)
    (key : string) (scope : SecretScope) : result SecretRecord :=
  '(status, body) ← http_get (vault_path v key scope) (va_token v);
  _ ← (if ((200 <=? status) && (status <=? 299))%Z then Ok tt else raise HTTPStatusError (str_of_Z status));
  payload ← item_get "data" body;
  data ← item_get "data" payload;
  value ← item_get "value" data;
  fields ← as_dict payload;
  metadata ← as_dict (pget_default "metadata" (PDict []) fields);
  Ok (mkSecret key value (py_str (pget_default "version" (PStr "vault") metadata)) scope).

(** [SecretRotationManager.observe]: the state is [active_versions]. *)
Definition observe (secret : SecretRecord) : SE (list (string * string)) bool :=
  versions ← se_get;
  let previous := od_get (se_key secret) versions in
  _ ← se_put (od_set (se_key secret) (se_version secret) versions);
  mret (match previous with Some v => negb (String.eqb v (se_version secret)) | None => false end).

(** ** One-time passwords *)

Record TotpMfaVerifier : Type := mkTotp { tv_window : Z; tv_digits : nat; tv_interval : Z }.
Definition default_totp : TotpMfaVerifier := mkTotp 1 6 30.

(** [base64.b32decode], after [binascii]: a character's value, and the value of
    a quantum of at most eight characters. *)
Definition b32_value (c : ascii) : option Z :=
  let n := Z.of_nat (nat_of_ascii c) in
  if ((65 <=? n) && (n <=? 90))%Z then Some (n - 65)%Z
  else if ((50 <=? n) && (n <=? 55))%Z then Some (n - 24)%Z else None.

Fixpoint b32_quantum (acc : Z) (cs : list ascii) : result Z :=
  match cs with
  | [] => Ok acc
  | c :: cs' => match b32_value c with
                | Some v => b32_quantum (Z.shiftl acc 5 + v) cs'
                | None => raise BinasciiError "Non-base32 digit found"
                end
  end.

(** The quanta decoded to five bytes each, with the value of the last one. *)
Fixpoint b32_quanta (qs : list (list ascii)) (acc : Z) (decoded : bytes) : result (Z * bytes) :=
  match qs with
  | [] => Ok (acc, decoded)
  | q :: qs' => a ← b32_quantum 0 q; b32_quanta qs' a (decoded ++ be_bytes 5 a)
  end.

Fixpoint drop_pad (cs : list ascii) : list ascii :=
  match cs with c :: cs' => if Ascii.eqb c "=" then drop_pad cs' else cs | [] => [] end.

Definition is_ascii (s : string) : bool := forallb (fun c => (nat_of_ascii c <? 128)%nat) (String.list_ascii_of_string s).

Definition b32decode (s : string) : result bytes :=
  if negb (is_ascii s) then raise ValueError "string argument should contain only ASCII characters" else
  let cs := String.list_ascii_of_string s in
  let l := length cs in
  if negb (l mod 8 =? 0)%nat then raise BinasciiError "Incorrect padding" else
  let body := reverse (drop_pad (reverse cs)) in
  let padchars := (l - length body)%nat in
  '(acc, decoded) ← b32_quanta (chunks (length body) 8 body) 0 [];
  if negb (bool_decide (padchars ∈ [0; 1; 3; 4; 6]%nat)) then raise BinasciiError "Incorrect padding" else
  Ok (if negb (padchars =? 0)%nat && negb (bool_decide (decoded = [])) then
        take (length decoded - 5) decoded ++
        take ((43 - 5 * padchars) / 8) (be_bytes 5 (Z.shiftl acc (5 * Z.of_nat padchars)))
      else decoded).

(** [struct.pack(">Q", n)] *)
Definition pack_Q (n : Z) : result bytes :=
  if ((0 <=? n) && (n <? 2 ^ 64))%Z then Ok (be_bytes 8 n) else raise StructError "int too large to convert".

(** [s.zfill(n)] on digits *)
Fixpoint zfill_by (k : nat) (s : string) : string := match k with O => s | S k' => String "0" (zfill_by k' s) end.
Definition zfill (n : nat) (s : string) : string := zfill_by (n - String.length s) s.

(** [str.__mul__] of ["="] *)
Fixpoint pad_equals (k : nat) : string := match k with O => "" | S k' => String "=" (pad_equals k') end.

Definition totp_key (secret_base32 : string) : result bytes :=
  b32decode (str_upper secret_base32 +:+ pad_equals ((8 - String.length secret_base32 mod 8) mod 8)).

(** [int(at_time / interval)] *)
Definition totp_counter (at_time interval : Z) : result Z :=
  if (interval =? 0)%Z then raise ZeroDivisionError "division by zero"
  else py_int (PFloat (of_Q (inject_Z at_time / inject_Z interval))).

(** The code of a counter: truncation of the HMAC-SHA1 digest. *)
Definition hotp (digits : nat) (key counter_bytes : bytes) : string :=
  let digest := hmac_sha1 key counter_bytes in
  let offset := Z.to_nat (Z.land (List.last digest 0) 15)%Z in
  let binary := Z.land (be_word (take 4 (drop offset digest))) 0x7FFFFFFF in
  zfill digits (str_of_Z (binary mod 10 ^ Z.of_nat digits)).

Definition generate (v : TotpMfaVerifier) (secret_base32 : string) (at_time : Z) : result string :=
  key ← totp_key secret_base32;
  counter ← totp_counter at_time (tv_interval v);
  packed ← pack_Q counter;
  Ok (hotp (tv_digits v) key packed).

(** [hmac.compare_digest] on text *)
Definition compare_digest (a b : string) : result bool :=
  if is_ascii a && is_ascii b then Ok (String.eqb a b)
  else raise TypeError "comparing strings with non-ASCII characters is not supported".

(** [range(lo, hi)] *)
Definition py_range (lo hi : Z) : list Z := map (fun i => lo + Z.of_nat i)%Z (seq 0 (Z.to_nat (hi - lo))).

Definition verify_offsets (v : TotpMfaVerifier) (secret_base32 code : string) (at_time : Z) : list Z -> result bool :=
  fix go offsets :=
    match offsets with
    | [] => Ok false
    | offset :: rest =>
        g ← generate v secret_base32 (at_time + offset * tv_interval v);
        same ← compare_digest g code;
        if (same : bool) then Ok true else go rest
    end.

Definition totp_verify (v : TotpMfaVerifier) (secret_base32 code : string) (at_time : Z) : result bool :=
  verify_offsets v secret_base32 code at_time (py_range (- tv_window v) (tv_window v + 1)).

(** The RFC 6238 test vector, shortened to six digits. *)
Example rfc6238_59 : generate default_totp "GEZDGNBVGY3TQOJQGEZDGNBVGY3TQOJQ" 59 = Ok "287082".
Proof. vm_compute. reflexivity. Qed.

(** ** Request middleware *)

(** What the middleware reads of a request: the [authorization] header and the
    peer's host. *)
Record Request : Type := mkRequest { rq_authorization : option string; rq_client : option string; rq_path : string }.

Section Allowlist.
Context {IPAddress IPNetwork Response A : Type}.
Context (ip_network : string -> result IPNetwork) (ip_address : string -> result IPAddress).
Context (contains : IPNetwork -> IPAddress -> bool).

Definition new_allowlist (cidrs : list string) : result (list IPNetwork) := result_mapM ip_network cidrs.

(** [IPAllowlistMiddleware.dispatch]; [call_next] is the wrapped application. *)
Definition allowlist_dispatch (networks : list IPNetwork) (call_next : Request -> SE A Response) (request : Request) : SE A Response :=
  _ ← (match networks with
       | [] => mret tt
       | _ => match rq_client request with
              | None => se_raise HTTPException "403: client address unavailable"
              | Some host =>
                  client_ip ← se_lift (ip_address host);
                  if existsb (fun network => contains network client_ip) networks then mret tt
                  else se_raise HTTPException "403: ip not allowed"
              end
       end);
  call_next request.
End Allowlist.

Section RateLimitMiddleware.
Context {Response A : Type}.
Context (limit window_seconds : Z).

(** The buckets of the middleware beside the state of the application. *)
Definition Buckets : Type := list ((string * Z) * Z).

Definition identity_of (request : Request) : string :=
  match rq_authorization request with
  | Some a => if String.eqb a "" then match rq_client request with Some h => h | None => "anonymous" end else a
  | None => match rq_client request with Some h => h | None => "anonymous" end
  end.

(** [int(time.time() // self.window_seconds)] *)
Definition bucket_index (now : float) : result Z :=
  b ← ffloordiv now (of_Z window_seconds); py_int (PFloat b).

Definition bucket_count (key : string * Z) (b : Buckets) : Z :=
  match od_get key b with Some n => n | None => 0%Z end.

(** [InMemoryRateLimitMiddleware.dispatch] *)
Definition ratelimit_dispatch (call_next : Request -> SE A Response) (now : float) (request : Request) : SE (Buckets * A) Response :=
  bucket ← se_lift (bucket_index now);
  let key := (identity_of request, bucket) in
  _ ← se_modify (fun s : Buckets * A => (od_set key (bucket_count key s.1 + 1)%Z s.1, s.2));
  s ← se_get;
  if (limit <? bucket_count key s.1)%Z then se_raise HTTPException "429: rate limit exceeded"
  else fun s => let '(a, r) := call_next request s.2 in ((s.1, a), r).
End RateLimitMiddleware.

(** ** Role policies *)

Record RbacPolicy : Type := mkPolicy { rp_role : string; rp_resource : string; rp_action : string; rp_requires_mfa : bool }.

Definition policy_applies (roles : gset string) (resource action : string) (p : RbacPolicy) : bool :=
  bool_decide (rp_role p ∈ roles) && String.eqb (rp_resource p) resource && String.eqb (rp_action p) action.

(** [AdvancedRbacEngine.authorize] *)
Fixpoint authorize (policies : list RbacPolicy) (roles : gset string) (resource action : string) (mfa_verified : bool) : bool :=
  match policies with
  | [] => false
  | p :: policies' =>
      if policy_applies roles resource action p then
        if rp_requires_mfa p && negb mfa_verified then false else true
      else authorize policies' roles resource action mfa_verified
  end.

(** ** The signed audit chain *)

(** [sorted(d.items())], and the value with every dict in key order, as
    [json.dumps(v, sort_keys=True)] visits it. *)
Fixpoint insert_item (kv : string * pyval) (d : dict) : dict :=
  match d with
  | [] => [kv]
  | kv' :: d' => if str_le kv.1 kv'.1 then kv :: d else kv' :: insert_item kv d'
  end.
Definition sort_items (d : dict) : dict := foldr insert_item [] d.

Fixpoint sort_keys (v : pyval) : pyval :=
  match v with
  | PList l => PList (map sort_keys l)
  | PDict d => PDict (sort_items (map (fun kv => (kv.1, sort_keys kv.2)) d))
  | _ => v
  end.

Record SignedAuditRecord : Type := mkAuditRecord {
  ar_sequence : Z; ar_payload : dict; ar_previous_signature : string; ar_signature : string }.

Record SignedAuditChain : Type := mkChain { ch_signing_key : bytes; ch_previous_signature : string; ch_sequence : Z }.

Definition new_chain (signing_key : string) : SignedAuditChain := mkChain (encode signing_key) "GENESIS" 0.

(** The signed text of a record. *)
Definition canonical (sequence : Z) (payload : dict) (previous_signature : string) : result string :=
  json_dumps (sort_keys (PDict [("sequence", PInt sequence); ("payload", PDict payload); ("previous_signature", PStr previous_signature)])).

Definition sign (key : bytes) (text : string) : string := hexdigest (hmac_sha256 key (encode text)).

(** [SignedAuditChain.append]: the sequence number advances before the payload
    is serialised. *)
Definition append (payload : dict) : SE SignedAuditChain SignedAuditRecord :=
  _ ← se_modify (fun c => mkChain (ch_signing_key c) (ch_previous_signature c) (ch_sequence c + 1));
  c ← se_get;
  text ← se_lift (canonical (ch_sequence c) payload (ch_previous_signature c));
  let signature := sign (ch_signing_key c) text in
  let record := mkAuditRecord (ch_sequence c) payload (ch_previous_signature c) signature in
  _ ← se_put (mkChain (ch_signing_key c) signature (ch_sequence c));
  mret record.

Fixpoint verify_from (key : bytes) (previous : string) (records : list SignedAuditRecord) : result bool :=
  match records with
  | [] => Ok true
  | r :: rest =>
      text ← canonical (ar_sequence r) (ar_payload r) previous;
      same ← compare_digest (sign key text) (ar_signature r);
      if (same : bool) then verify_from key (ar_signature r) rest else Ok false
  end.

(** [SignedAuditChain.verify] *)
Definition chain_verify (c : SignedAuditChain) (records : list SignedAuditRecord) : result bool :=
  verify_from (ch_signing_key c) "GENESIS" records.

Record TamperEvidentLog : Type := mkLog { lg_chain : SignedAuditChain; lg_records : list SignedAuditRecord }.

Definition new_log (signing_key : string) : TamperEvidentLog := mkLog (new_chain signing_key) [].

(** [TamperEvidentLog.write] *)
Definition log_write (event : dict) : SE TamperEvidentLog SignedAuditRecord :=
  fun l => match append event (lg_chain l) with
           | (c, Ok r) => (mkLog c (lg_records l ++ [r]), Ok r)
           | (c, Err e) => (mkLog c (lg_records l), Err e)
           end.

(** [TamperEvidentLog.verify]: the key is decoded and encoded again, which is
    the identity on the bytes of text. *)
Definition log_verify (l : TamperEvidentLog) : result bool :=
  chain_verify (mkChain (ch_signing_key (lg_chain l)) "GENESIS" 0) (lg_records l).

(** ** One-time passwords: the acceptance window *)

(** Printable text without quotes or backslashes, which JSON leaves as it is. *)
Definition plain_char (c : ascii) : bool :=
  let n := nat_of_ascii c in ((32 <=? n) && (n <=? 126) && negb (n =? 34) && negb (n =? 92))%nat.
Definition plain (s : string) : bool := forallb plain_char (String.list_ascii_of_string s).

Lemma plain_ascii s : plain s = true -> is_ascii s = true.
Proof.
  unfold plain, is_ascii. rewrite !forallb_forall. intros H c Hc. specialize (H c Hc). unfold plain_char in H. cbv zeta in H.
  rewrite !andb_true_iff, !Nat.leb_le in H. apply Nat.ltb_lt. lia.
Qed.

Lemma plain_cons c s : plain (String c s) = plain_char c && plain s.
Proof. done. Qed.

Lemma pretty_N_char_plain x : plain_char (pretty_N_char x) = true.
Proof. unfold pretty_N_char. by repeat case_match. Qed.

Lemma pretty_N_go_plain x s : plain s = true -> plain (pretty_N_go x s) = true.
Proof.
  revert s. induction (N.lt_wf_0 x) as [x _ IH]; intros s Hs.
  destruct (decide (x = 0)%N) as [->|]; [by rewrite pretty_N_go_0|].
  rewrite pretty_N_go_step by lia. apply IH; [by apply N.div_lt; lia|].
  by rewrite plain_cons, pretty_N_char_plain.
Qed.

Lemma str_of_Z_plain z : plain (str_of_Z z) = true.
Proof.
  assert (P : forall p : positive, plain (pretty p) = true).
  { intros p. unfold pretty, pretty_positive, pretty, pretty_N. case_decide; [done|]. by apply pretty_N_go_plain. }
  destruct z as [|p|p]; [done|apply P|]. change (plain (String "-" (pretty p)) = true). rewrite plain_cons, P. done.
Qed.

Lemma zfill_plain n s : plain s = true -> plain (zfill n s) = true.
Proof.
  intros H. unfold zfill. induction (n - String.length s)%nat as [|k IH]; [done|]. cbn [zfill_by]. by rewrite plain_cons, IH.
Qed.

(** [int(t / interval)] in floating point is the integer quotient. *)
Lemma totp_counter_div t i : (1 <= i <= 2 ^ 20)%Z -> (0 <= t < i * 2 ^ 32)%Z -> totp_counter t i = Ok (t / i)%Z.
Proof.
  intros Hi Ht. unfold totp_counter. rewrite (proj2 (Z.eqb_neq i 0)) by lia.
  set (k := (t / i)%Z). assert (K : (0 <= k < 2 ^ 32)%Z) by (split; [apply Z.div_pos; lia|apply Z.div_lt_upper_bound; lia]).
  set (q := (inject_Z t / inject_Z i)%Q). set (u := (inject_Z (k * 2 ^ 20 + (2 ^ 20 - 1)) * bpow 2 (-20))%Q).
  assert (I0 : (0 < inject_Z i)%Q) by (change 0%Q with (inject_Z 0); rewrite <- Zlt_Qlt; lia).
  assert (LO : (inject_Z k <= q)%Q).
  { apply Qle_shift_div_l; [done|]. rewrite <- inject_Z_mult, <- Zle_Qle. unfold k. rewrite Z.mul_comm. apply Z.mul_div_le. lia. }
  assert (HI : (q <= u)%Q).
  { apply Qle_shift_div_r; [done|]. unfold u, bpow. change (inject_Z 2 ^ (-20))%Q with (1 # (2 ^ 20)).
    pose proof (Z.mod_pos_bound t i ltac:(lia)). pose proof (Z.div_mod t i ltac:(lia)) as D. fold k in D.
    unfold Qle, inject_Z, Qmult. simpl Qnum. simpl Qden. rewrite !Z.mul_1_r. change (Z.pos (1 * (2 ^ 20) * 1)) with (2 ^ 20)%Z. nia. }
  assert (RU : repr64 u) by (eexists _, _; split; [reflexivity|split; lia]).
  assert (B : of_Q q = Fin (round64 q)).
  { apply (of_Q_bnd 33); [lia|]. unfold bnd. rewrite Qabs_pos by (eapply Qle_trans; [|exact LO]; change 0%Q with (inject_Z 0); rewrite <- Zle_Qle; lia).
    eapply Qle_trans; [exact HI|]. unfold u, bpow. change (pow2 33) with (inject_Z (2 ^ 33)). change (inject_Z 2 ^ (-20))%Q with (1 # (2 ^ 20)).
    unfold Qle, inject_Z, Qmult. simpl Qnum. simpl Qden. lia. }
  rewrite B. unfold py_int. f_equal.
  apply round64_mono in LO, HI. rewrite (round64_repr u RU) in HI. rewrite (round64_repr _ (repr64_Z k ltac:(lia))) in LO.
  assert (LT : (round64 q < inject_Z (k + 1))%Q).
  { eapply Qle_lt_trans; [exact HI|]. unfold u, bpow. change (inject_Z 2 ^ (-20))%Q with (1 # (2 ^ 20)).
    unfold Qlt, inject_Z, Qmult. simpl Qnum. simpl Qden. lia. }
  unfold Qtrunc, Qle, Qlt in *. simpl in *. rewrite Z.quot_div_nonneg by nia. symmetry.
  apply Z.div_unique with (Qnum (round64 q) - k * QDen (round64 q))%Z; [left|]; lia.
Qed.

(** The code of every moment is the code of its interval's counter. *)
Lemma generate_at v secret key t :
  totp_key secret = Ok key -> (1 <= tv_interval v <= 2 ^ 20)%Z -> (0 <= t < tv_interval v * 2 ^ 32)%Z ->
  generate v secret t = Ok (hotp (tv_digits v) key (be_bytes 8 (t / tv_interval v))).
Proof.
  intros Hk Hi Ht. unfold generate. rewrite Hk. unfold mbind, result_bind. rewrite totp_counter_div by lia. unfold pack_Q.
  assert (0 <= t / tv_interval v < 2 ^ 64)%Z as [A B].
  { split; [apply Z.div_pos; lia|]. apply Z.lt_trans with (2 ^ 32)%Z; [apply Z.div_lt_upper_bound; lia|lia]. }
  rewrite (proj2 (Z.leb_le _ _) A), (proj2 (Z.ltb_lt _ _) B). done.
Qed.

Lemma hotp_ascii d key b : is_ascii (hotp d key b) = true.
Proof. apply plain_ascii, zfill_plain, str_of_Z_plain. Qed.

Lemma elem_of_py_range lo hi z : z ∈ py_range lo hi <-> (lo <= z < hi)%Z.
Proof.
  unfold py_range. rewrite list_elem_of_fmap. split.
  - intros (i & -> & H%elem_of_seq). lia.
  - intros H. exists (Z.to_nat (z - lo)). rewrite elem_of_seq. lia.
Qed.

(** Scanning offsets whose codes are all defined accepts exactly their codes. *)
Lemma verify_offsets_iff v secret code t offsets (g : Z -> string) :
  is_ascii code = true ->
  (forall o, o ∈ offsets -> generate v secret (t + o * tv_interval v) = Ok (g o) /\ is_ascii (g o) = true) ->
  verify_offsets v secret code t offsets = Ok (existsb (fun o => String.eqb (g o) code) offsets).
Proof.
  intros Hc. induction offsets as [|o l IH]; intros Hg; simpl; [done|].
  destruct (Hg o ltac:(set_solver)) as [-> A]. unfold mbind, result_bind, compare_digest. rewrite A, Hc.
  simpl. destruct (String.eqb (g o) code); simpl; [done|]. apply IH. intros. apply Hg. set_solver.
Qed.

#[local] Opaque hotp.

(** C32: [TotpMfaVerifier.verify] accepts a code at time [t] exactly when it is
    the code of some moment at most [window] intervals away, counted in whole
    intervals: nothing is lost to the floating-point division, and no code from
    outside the window is accepted. *)
Theorem totp_verify_iff v secret key code t :
  totp_key secret = Ok key -> is_ascii code = true ->
  (1 <= tv_interval v <= 2 ^ 20)%Z -> (0 <= tv_window v)%Z ->
  (tv_window v * tv_interval v <= t)%Z -> (t + tv_window v * tv_interval v < tv_interval v * 2 ^ 32)%Z ->
  (exists b, totp_verify v secret code t = Ok b) /\
  (totp_verify v secret code t = Ok true <->
   exists t', (0 <= t')%Z /\ (Z.abs (t' / tv_interval v - t / tv_interval v) <= tv_window v)%Z /\ generate v secret t' = Ok code).
Proof.
  intros Hk Hc Hi Hw Hlo Hhi. set (i := tv_interval v) in *. set (w := tv_window v) in *.
  set (g := fun o => hotp (tv_digits v) key (be_bytes 8 (t / i + o))).
  assert (G : forall o, o ∈ py_range (- w) (w + 1) -> generate v secret (t + o * i) = Ok (g o) /\ is_ascii (g o) = true).
  { intros o Ho%elem_of_py_range. split; [|exact (hotp_ascii _ _ _)].
    rewrite (generate_at v secret key _ Hk Hi); [|unfold i in *; nia]. unfold g, i. do 3 f_equal. apply Z.div_add. lia. }
  unfold totp_verify. fold w. rewrite (verify_offsets_iff v secret code t _ g Hc G). split; [by eexists|].
  assert (T : forall t', (0 <= t')%Z -> (Z.abs (t' / i - t / i) <= w)%Z -> (t' < i * 2 ^ 32)%Z).
  { intros t' H0 H1. assert ((t / i + w < 2 ^ 32)%Z).
    { rewrite <- Z.div_add by lia. apply Z.div_lt_upper_bound; lia. }
    pose proof (Z.mod_pos_bound t' i ltac:(lia)). pose proof (Z.div_mod t' i ltac:(lia)). nia. }
  split.
  - intros [= E]. apply existsb_exists in E as (o & Ho & E%String.eqb_eq).
    assert (Ho' : o ∈ py_range (- w) (w + 1)) by (by apply list_elem_of_In). pose proof (proj1 (elem_of_py_range _ _ _) Ho').
    exists (t + o * i)%Z. split; [nia|]. rewrite Z.div_add by lia. split; [lia|]. destruct (G o Ho') as [-> _]. by rewrite E.
  - intros (t' & H0 & H1 & E). rewrite (generate_at v secret key t' Hk Hi) in E by (split; [done|by apply T]). f_equal.
    apply existsb_exists. exists (t' / i - t / i)%Z. split.
    + apply list_elem_of_In, elem_of_py_range. lia.
    + apply String.eqb_eq. injection E as <-. unfold g. by replace (t / i + (t' / i - t / i))%Z with (t' / i)%Z by lia.
Qed.

#[local] Transparent hotp.

Lemma totp_verify_iff_witness :
  totp_verify default_totp "GEZDGNBVGY3TQOJQGEZDGNBVGY3TQOJQ" "287082" 89 = Ok true.
Proof.
  refine (proj2 (proj2 (totp_verify_iff default_totp "GEZDGNBVGY3TQOJQGEZDGNBVGY3TQOJQ" (encode "12345678901234567890") "287082" 89 _ _ _ _ _ _)) _).
  - vm_compute. reflexivity.
  - vm_compute. reflexivity.
  - simpl. lia.
  - simpl. lia.
  - simpl. lia.
  - simpl. lia.
  - exists 59%Z. split; [lia|]. split; [vm_compute; congruence|]. vm_compute. reflexivity.
Defined.

(** ** The request limit against its specification *)

Section LimitSpec.
Context {Response A : Type} (limit window_seconds : Z) (Hlimit : (0 <= limit)%Z).
Context (call_next : Request -> SE A Response).

(** A stream of requests served one after another, each with its time. *)
Definition serve (requests : list (float * Request)) (s : Buckets * A) : Buckets * A :=
  foldl (fun s q => (ratelimit_dispatch limit window_seconds call_next q.1 q.2 s).1) s requests.

Definition limit_key (q : float * Request) : option (string * Z) :=
  match bucket_index window_seconds q.1 with Ok b => Some (identity_of q.2, b) | Err _ => None end.

Definition requests_of (key : string * Z) (requests : list (float * Request)) : list (float * Request) :=
  filter (fun q => limit_key q = Some key) requests.

(** The requests that fewer than [limit] earlier requests of the same identity
    and window precede. *)
Fixpoint admitted (before requests : list (float * Request)) : list (float * Request) :=
  match requests with
  | [] => []
  | q :: rest =>
      match limit_key q with
      | Some key => if (Z.of_nat (length (requests_of key before)) <? limit)%Z then q :: admitted (before ++ [q]) rest
                    else admitted (before ++ [q]) rest
      | None => admitted (before ++ [q]) rest
      end
  end.

Lemma requests_of_snoc key before q :
  length (requests_of key (before ++ [q])) =
  (length (requests_of key before) + if decide (limit_key q = Some key) then 1 else 0)%nat.
Proof. unfold requests_of. rewrite filter_app, length_app, filter_cons. by case_decide. Qed.

(** Each bucket counts the requests seen with its key. *)
Definition buckets_count (before : list (float * Request)) (b : Buckets) : Prop :=
  forall key, bucket_count key b = Z.of_nat (length (requests_of key before)).

Lemma dispatch_step before q s :
  buckets_count before s.1 ->
  let s' := (ratelimit_dispatch limit window_seconds call_next q.1 q.2 s).1 in
  buckets_count (before ++ [q]) s'.1 /\
  s'.2 = match limit_key q with
         | Some key => if (Z.of_nat (length (requests_of key before)) <? limit)%Z then (call_next q.2 s.2).1 else s.2
         | None => s.2
         end.
Proof.
  intros C. assert (W : forall key, length (requests_of key (before ++ [q])) = _) by (intros; apply requests_of_snoc).
  unfold ratelimit_dispatch, limit_key, mbind, se_bind, se_lift, se_modify, se_get in *.
  destruct (bucket_index window_seconds q.1) as [b|e] eqn:E; simpl; cycle 1.
  { split; [|done]. intros key. rewrite W, C. case_decide; [done|lia]. }
  set (key := (identity_of q.2, b)) in *.
  pose proof (C key) as Ck. set (b1 := od_set key (bucket_count key s.1 + 1)%Z s.1).
  assert (K1 : bucket_count key b1 = (bucket_count key s.1 + 1)%Z) by (unfold b1, bucket_count at 1; by rewrite od_get_set_eq).
  assert (B : buckets_count (before ++ [q]) b1).
  { intros k. rewrite W. unfold b1. unfold bucket_count at 1. rewrite od_get_set.
    destruct (decide (k = key)) as [->|D]; [rewrite decide_True by done; lia|].
    rewrite decide_False by congruence. pose proof (C k) as Ck'. unfold bucket_count in Ck'. lia. }
  rewrite !K1, Ck. destruct (Z.ltb_spec (Z.of_nat (length (requests_of key before))) limit).
  - rewrite (proj2 (Z.ltb_ge _ _)) by lia. simpl. by destruct (call_next q.2 s.2).
  - rewrite (proj2 (Z.ltb_lt _ _)) by lia. done.
Qed.

Lemma serve_admitted before requests s :
  buckets_count before s.1 ->
  (serve requests s).2 = foldl (fun a q => (call_next q.2 a).1) s.2 (admitted before requests).
Proof.
  revert before s. induction requests as [|q rest IH]; intros before s C; simpl; [done|].
  destruct (dispatch_step before q s C) as [C' E]. etransitivity; [exact (IH (before ++ [q]) _ C')|]. rewrite E.
  destruct (limit_key q) as [key|]; [|done]. by destruct (Z.of_nat (length (requests_of key before)) <? limit)%Z.
Qed.

Lemma admitted_count key before requests :
  Z.of_nat (length (requests_of key (admitted before requests))) =
  (Z.min limit (Z.of_nat (length (requests_of key (before ++ requests)))) -
   Z.min limit (Z.of_nat (length (requests_of key before))))%Z.
Proof.
  revert before. induction requests as [|q rest IH]; intros before; simpl; [rewrite app_nil_r; unfold requests_of; simpl; lia|].
  replace (before ++ q :: rest) with ((before ++ [q]) ++ rest) by (by rewrite <- app_assoc).
  specialize (IH (before ++ [q])). rewrite (requests_of_snoc key before q) in IH.
  destruct (limit_key q) as [k|] eqn:K; [|rewrite decide_False in IH by done; lia].
  destruct (decide (Some k = Some key)) as [[= ->]|D]; cycle 1.
  { case_match; [|lia]. unfold requests_of at 1. rewrite filter_cons_False by (by rewrite K). fold (requests_of key (admitted (before ++ [q]) rest)). lia. }
  destruct (Z.ltb_spec (Z.of_nat (length (requests_of key before))) limit); [|lia].
  unfold requests_of at 1. rewrite filter_cons_True by done. fold (requests_of key (admitted (before ++ [q]) rest)). simpl. lia.
Qed.

End LimitSpec.

(** C31: [InMemoryRateLimitMiddleware] forwards to the application exactly the
    requests that fewer than [limit] earlier requests of the same identity and
    window precede, in order, so of each identity in each window it forwards
    the first [limit] requests and no other, whatever the application does. *)
Theorem rate_limit_forwards {Response A} limit window_seconds (call_next : Request -> SE A Response) requests a :
  (0 <= limit)%Z ->
  (serve limit window_seconds call_next requests ([], a)).2 =
    foldl (fun a q => (call_next q.2 a).1) a (admitted limit window_seconds [] requests) /\
  forall key, Z.of_nat (length (requests_of window_seconds key (admitted limit window_seconds [] requests))) =
              Z.min limit (Z.of_nat (length (requests_of window_seconds key requests))).
Proof.
  intros Hl. split; [by apply (serve_admitted limit window_seconds call_next [] requests ([], a))|].
  intros key. rewrite admitted_count by done. change (requests_of window_seconds key []) with (@nil (float * Request)). simpl. lia.
Qed.

Lemma rate_limit_forwards_witness :
  let requests := [(Fin 10, mkRequest None (Some "10.0.0.1") "/a"); (Fin 11, mkRequest None (Some "10.0.0.1") "/b");
                   (Fin 12, mkRequest None (Some "10.0.0.1") "/c"); (Fin 61, mkRequest None (Some "10.0.0.1") "/d")] in
  (serve 2 60 (fun r log => (log ++ [rq_path r], Ok tt)) requests ([], [])).2 = ["/a"; "/b"; "/d"].
Proof.
  intros requests. rewrite (proj1 (rate_limit_forwards 2 60 (fun r log => (log ++ [rq_path r], Ok tt)) requests [] ltac:(lia))).
  vm_compute. reflexivity.
Defined.

(** ** Role policies *)

(** [authorize] grants a request exactly when the first policy, in list
    order, that names one of the roles, the resource and the action does not
    ask for a second factor or the second factor was verified. *)
Theorem authorize_iff policies roles resource action mfa :
  authorize policies roles resource action mfa = true <->
  exists before p after, policies = before ++ p :: after /\
    Forall (fun q => policy_applies roles resource action q = false) before /\
    policy_applies roles resource action p = true /\ (rp_requires_mfa p = true -> mfa = true).
Proof.
  induction policies as [|p l IH]; simpl.
  { split; [done|]. intros (b & p & a & E & _). by destruct b. }
  destruct (policy_applies roles resource action p) eqn:P.
  - split.
    + intros H. exists [], p, l. repeat split; [constructor|done|]. destruct (rp_requires_mfa p), mfa; done.
    + intros (b & p' & a & E & F & P' & M). destruct b as [|q b]; simplify_list_eq.
      * destruct (rp_requires_mfa p'); simpl; [rewrite (M eq_refl); done|done].
      * apply Forall_cons in F as [F _]. congruence.
  - rewrite IH. split.
    + intros (b & p' & a & -> & F & H). exists (p :: b), p', a. repeat split; [|apply H..]. by constructor.
    + intros (b & p' & a & E & F & P' & M). destruct b as [|q b]; simplify_list_eq; [congruence|].
      apply Forall_cons in F as [_ F]. by exists b, p', a.
Qed.

(** ** The audit chain *)

Lemma json_escape_plain s : plain s = true -> json_escape s = s.
Proof.
  induction s as [|c s IH]; [done|]. unfold plain. cbn [String.list_ascii_of_string forallb]. intros [H Hs]%andb_true_iff.
  cbn [json_escape]. rewrite (IH Hs). unfold plain_char in H. cbv zeta in H |- *.
  rewrite !andb_true_iff, !negb_true_iff, !Nat.leb_le, !Nat.eqb_neq in H. destruct H as [[[H1 H2] H3] H4].
  set (n := nat_of_ascii c) in *. repeat match goal with |- context [(n =? ?k)%nat] => rewrite (proj2 (Nat.eqb_neq n k)) by lia end.
  by rewrite (proj2 (Nat.ltb_ge n 32)), (proj2 (Nat.ltb_ge 126 n)) by lia.
Qed.

Lemma hex_digit_plain n : (0 <= n < 16)%Z -> plain_char (hex_digit n) = true.
Proof.
  intros H. assert (F : forallb (fun n => plain_char (hex_digit n)) (py_range 0 16) = true) by reflexivity.
  rewrite forallb_forall in F. apply F, list_elem_of_In, elem_of_py_range. lia.
Qed.

Lemma hexdigest_plain bs : Forall (fun b => 0 <= b < 256)%Z bs -> plain (hexdigest bs) = true.
Proof.
  induction 1 as [|b bs Hb _ IH]; [done|]. unfold plain in *.
  cbn [hexdigest foldr String.list_ascii_of_string forallb]. fold (hexdigest bs). rewrite IH.
  assert (Z.shiftr b 4 = b / 16)%Z as -> by (rewrite Z.shiftr_div_pow2; [done|lia]).
  assert (Z.land b 15 = b mod 16)%Z as -> by (apply (Z.land_ones b 4); lia).
  rewrite !hex_digit_plain; [done|apply Z.mod_pos_bound; lia|].
  split; [apply Z.div_pos; lia|apply Z.div_lt_upper_bound; lia].
Qed.

Lemma be_bytes_range n x : Forall (fun b => 0 <= b < 256)%Z (be_bytes n x).
Proof.
  induction n as [|n IH]; simpl; constructor; [|done].
  change 255%Z with (Z.ones 8). rewrite Z.land_ones by lia. apply Z.mod_pos_bound. lia.
Qed.

Lemma sha2_range p m : Forall (fun b => 0 <= b < 256)%Z (sha2 p m).
Proof. unfold sha2. induction (foldl _ _ _) as [|x l IH]; simpl; [constructor|]. apply Forall_app. split; [apply be_bytes_range|done]. Qed.

Lemma sign_plain key text : plain (sign key text) = true.
Proof. apply hexdigest_plain, sha2_range. Qed.

Lemma sign_length key text : String.length (sign key text) = 64%nat.
Proof. apply hmac_sha256_hex_length. Qed.

(** A signature compares equal exactly to itself. *)
Lemma compare_sign key text s : compare_digest (sign key text) s = Ok true <-> s = sign key text.
Proof.
  unfold compare_digest. rewrite (plain_ascii _ (sign_plain key text)). split.
  - destruct (is_ascii s); [|done]. simpl. intros [= E%String.eqb_eq]. done.
  - intros ->. rewrite (plain_ascii _ (sign_plain key text)). simpl. by rewrite String.eqb_refl.
Qed.

(** The signed text, field by field in key order. *)
Definition payload_text (payload : dict) : result string := json_dumps (sort_keys (PDict payload)).

Lemma canonical_fields n payload previous :
  canonical n payload previous =
  (p ← payload_text payload;
   Ok ("{" +:+ str_join "," [json_string "payload" +:+ ":" +:+ p; json_string "previous_signature" +:+ ":" +:+ json_string previous;
                             json_string "sequence" +:+ ":" +:+ str_of_Z n] +:+ "}")).
Proof. unfold payload_text, canonical. change (sort_keys (PDict [("sequence", PInt n); ("payload", PDict payload); ("previous_signature", PStr previous)]))
  with (PDict [("payload", sort_keys (PDict payload)); ("previous_signature", PStr previous); ("sequence", PInt n)]).
  generalize (sort_keys (PDict payload)). intros v. simpl. unfold mbind, result_bind. destruct (json_dumps v); done.
Qed.

(** Text as characters. *)
Notation chars := String.list_ascii_of_string.

Lemma chars_app a b : chars (a +:+ b) = chars a ++ chars b.
Proof. induction a as [|c a IH]; [done|]. simpl. by rewrite IH. Qed.

Lemma chars_inj a b : chars a = chars b -> a = b.
Proof. intros E. rewrite <- (String.string_of_list_ascii_of_string a), E. apply String.string_of_list_ascii_of_string. Qed.

Lemma plain_no_quote s : plain s = true -> dquote ∉ chars s.
Proof. unfold plain. rewrite forallb_forall. intros H Hin%list_elem_of_In. by specialize (H _ Hin). Qed.

(** A list is cut at the last occurrence of a separator in one way. *)
Lemma split_last {X} (q : X) x1 y1 x2 y2 :
  q ∉ y1 -> q ∉ y2 -> x1 ++ q :: y1 = x2 ++ q :: y2 -> x1 = x2 /\ y1 = y2.
Proof.
  revert y2. induction y1 as [|c y1 IH] using rev_ind; intros y2 H1 H2 E; destruct y2 as [|d y2 _] using rev_ind.
  - apply app_inj_tail in E. naive_solver.
  - rewrite app_comm_cons, app_assoc in E. apply app_inj_tail in E as [_ E]. set_solver.
  - rewrite app_comm_cons, app_assoc in E. apply app_inj_tail in E as [_ E]. set_solver.
  - rewrite !app_comm_cons, !app_assoc in E. apply app_inj_tail in E as [E ->].
    destruct (IH y2) as [-> ->]; [set_solver..|done|done].
Qed.

Lemma chars_json_string s : plain s = true -> chars (json_string s) = dquote :: chars s ++ [dquote].
Proof. intros P. unfold json_string. rewrite (json_escape_plain _ P). cbn [chars]. by rewrite chars_app. Qed.

(** The characters of a signed text, cut at its last four quotes. *)
Definition text_parts (payload previous sequence : string) : list ascii :=
  (((chars "{" ++ chars (json_string "payload") ++ chars ":" ++ chars payload ++ chars "," ++ chars (json_string "previous_signature") ++ chars ":")
    ++ dquote :: chars previous) ++ dquote :: chars ",") ++ dquote :: chars "sequence" ++ dquote :: chars ":" ++ chars sequence ++ chars "}".

Lemma chars_canonical n payload previous t :
  plain previous = true -> canonical n payload previous = Ok t ->
  exists p, payload_text payload = Ok p /\ chars t = text_parts p previous (str_of_Z n).
Proof.
  intros P. rewrite canonical_fields. intros (p & E & [= <-])%result_bind_ok. exists p. split; [done|].
  unfold text_parts, str_join. rewrite !chars_app, (chars_json_string _ P), (chars_json_string "sequence") by reflexivity.
  generalize (chars "{") (chars "}") (chars ":") (chars ",") (chars "sequence") (chars (json_string "payload")) (chars (json_string "previous_signature")).
  intros. by repeat (rewrite <- app_assoc; cbn [app]).
Qed.

Lemma text_parts_inj p1 s1 z1 p2 s2 z2 :
  plain s1 = true -> plain s2 = true -> plain z1 = true -> plain z2 = true ->
  text_parts p1 s1 z1 = text_parts p2 s2 z2 -> p1 = p2 /\ s1 = s2 /\ z1 = z2.
Proof.
  intros S1%plain_no_quote S2%plain_no_quote Z1%plain_no_quote Z2%plain_no_quote. unfold text_parts.
  assert (Q : forall z, dquote ∉ chars z -> dquote ∉ chars ":" ++ chars z ++ chars "}").
  { intros z Hz. rewrite !elem_of_app. by intros [H%(bool_decide_pack _)|[H|H%(bool_decide_pack _)]]. }
  assert (C : dquote ∉ chars ",") by (by apply (bool_decide_unpack _)).
  assert (W : dquote ∉ chars "sequence") by (by apply (bool_decide_unpack _)).
  rewrite !(app_comm_cons (chars "sequence") _ dquote), !(app_assoc _ (dquote :: chars "sequence")).
  intros [E Ez]%split_last; [|by apply Q..].
  apply app_inv_head, app_inv_tail, chars_inj in Ez.
  apply split_last in E as [E _]; [|done..]. apply split_last in E as [E _]; [|done..].
  apply split_last in E as [E Es%chars_inj]; [|done..].
  do 3 apply app_inv_head in E. apply app_inv_tail, chars_inj in E. done.
Qed.

Lemma canonical_inj n1 p1 s1 n2 p2 s2 t :
  plain s1 = true -> plain s2 = true -> canonical n1 p1 s1 = Ok t -> canonical n2 p2 s2 = Ok t ->
  n1 = n2 /\ s1 = s2 /\ payload_text p1 = payload_text p2.
Proof.
  intros P1 P2 (x1 & -> & E1)%chars_canonical (x2 & -> & E2)%chars_canonical; [|done..].
  rewrite E1 in E2. apply text_parts_inj in E2 as (-> & -> & E); [|done|done|apply str_of_Z_plain..].
  by apply (inj pretty) in E.
Qed.

(** The signature the next record must extend. *)
Definition tip (records : list SignedAuditRecord) : string :=
  match last records with Some r => ar_signature r | None => "GENESIS" end.

Lemma tip_snoc l r : tip (l ++ [r]) = ar_signature r.
Proof. unfold tip. by rewrite last_snoc. Qed.

Definition links (key : bytes) (previous : string) (r : SignedAuditRecord) : Prop :=
  exists t, canonical (ar_sequence r) (ar_payload r) previous = Ok t /\ ar_signature r = sign key t.

Lemma verify_from_cons key previous r rest :
  verify_from key previous (r :: rest) = Ok true <-> links key previous r /\ verify_from key (ar_signature r) rest = Ok true.
Proof.
  cbn [verify_from]. unfold links. split.
  - intros (t & C & (b & S & V)%result_bind_ok)%result_bind_ok. destruct b; [|done].
    apply compare_sign in S. eauto.
  - intros [(t & C & S) V]. rewrite C. unfold mbind, result_bind. rewrite (proj2 (compare_sign key t _) S). done.
Qed.

Lemma verify_snoc key l r :
  verify_from key "GENESIS" (l ++ [r]) = Ok true <-> verify_from key "GENESIS" l = Ok true /\ links key (tip l) r.
Proof.
  assert (G : forall previous, verify_from key previous (l ++ [r]) = Ok true <->
    verify_from key previous l = Ok true /\ links key (match last l with Some x => ar_signature x | None => previous end) r); [|apply G].
  induction l as [|x l IH]; intros previous; cbn [app].
  - rewrite verify_from_cons. simpl. naive_solver.
  - rewrite !verify_from_cons, IH, last_cons. destruct (last l); naive_solver.
Qed.

Lemma tip_plain key l : verify_from key "GENESIS" l = Ok true -> plain (tip l) = true.
Proof.
  destruct l as [|r l _] using rev_ind; [done|]. rewrite verify_snoc, tip_snoc. intros [_ (t & _ & ->)]. apply sign_plain.
Qed.

Lemma tip_genesis key l : verify_from key "GENESIS" l = Ok true -> tip l = "GENESIS" -> l = [].
Proof.
  destruct l as [|r l _] using rev_ind; [done|]. rewrite verify_snoc, tip_snoc. intros [_ (t & _ & ->)] E.
  pose proof (sign_length key t) as L. by rewrite E in L.
Qed.

(** *** Writing *)

Definition write_all (events : list dict) (l : TamperEvidentLog) : TamperEvidentLog :=
  foldl (fun l event => (log_write event l).1) l events.

Definition log_ok (key : bytes) (l : TamperEvidentLog) : Prop :=
  ch_signing_key (lg_chain l) = key /\ ch_previous_signature (lg_chain l) = tip (lg_records l) /\
  verify_from key "GENESIS" (lg_records l) = Ok true.

Lemma canonical_is_ok n p s : is_ok (canonical n p s) = is_ok (payload_text p).
Proof. rewrite canonical_fields. by destruct (payload_text p). Qed.

Lemma log_write_ok key event l :
  log_ok key l -> let l' := (log_write event l).1 in
  log_ok key l' /\ ar_payload <$> lg_records l' = (ar_payload <$> lg_records l) ++ (if is_ok (payload_text event) then [event] else []).
Proof.
  intros (K & P & V). unfold log_write, append, mbind, se_bind, se_modify, se_get, se_lift, se_put. cbn [ch_sequence ch_previous_signature ch_signing_key].
  rewrite P, K. rewrite <- (canonical_is_ok (ch_sequence (lg_chain l) + 1) event (tip (lg_records l))).
  destruct (canonical _ _ _) as [t|e] eqn:C; unfold log_ok; cbn [mret se_ret fst lg_chain lg_records ch_signing_key ch_previous_signature is_ok].
  - split; [|by rewrite fmap_app]. split; [done|]. split; [by rewrite tip_snoc|].
    apply verify_snoc. split; [done|]. by exists t.
  - rewrite app_nil_r. done.
Qed.

(** A [TamperEvidentLog] verifies after any sequence of writes, and holds
    the payloads written, in order: those [json.dumps] refuses raise and are
    left out. *)
Theorem audit_log_verifies key events :
  let l := write_all events (new_log key) in
  log_verify l = Ok true /\ ar_payload <$> lg_records l = List.filter (fun e => is_ok (payload_text e)) events.
Proof.
  assert (G : forall l, log_ok (encode key) l -> log_ok (encode key) (write_all events l) /\
    ar_payload <$> lg_records (write_all events l) = (ar_payload <$> lg_records l) ++ List.filter (fun e => is_ok (payload_text e)) events).
  { induction events as [|e es IH]; intros l H; [by rewrite app_nil_r|].
    destruct (log_write_ok (encode key) e l H) as [H' E]. destruct (IH _ H') as [H2 E2]. split; [done|].
    etransitivity; [exact E2|]. rewrite E, <- app_assoc. simpl. by destruct (is_ok (payload_text e)). }
  destruct (G (new_log key)) as [(K & _ & V) E]; [done|]. split; [|done].
  unfold log_verify, chain_verify. simpl. by rewrite K.
Qed.

(** *** Tampering *)

(** What the signatures protect of two records. *)
Definition same_record (a b : SignedAuditRecord) : Prop :=
  ar_sequence a = ar_sequence b /\ payload_text (ar_payload a) = payload_text (ar_payload b) /\ ar_signature a = ar_signature b.

(** The texts signed by the records of a log. *)
Fixpoint signed_texts (previous : string) (records : list SignedAuditRecord) : list string :=
  match records with
  | [] => []
  | r :: rest => match canonical (ar_sequence r) (ar_payload r) previous with Ok t => [t] | Err _ => [] end
                 ++ signed_texts (ar_signature r) rest
  end.

Lemma signed_texts_snoc l r t :
  canonical (ar_sequence r) (ar_payload r) (tip l) = Ok t -> signed_texts "GENESIS" (l ++ [r]) = signed_texts "GENESIS" l ++ [t].
Proof.
  unfold tip. generalize "GENESIS". induction l as [|x l IH]; intros previous; cbn [app signed_texts last].
  - by intros ->.
  - change (match l with [] => Some x | _ :: _ => last l end) with (last (x :: l)). rewrite last_cons. intros E. rewrite <- app_assoc. f_equal. apply IH.
    by destruct (last l).
Qed.

(** C30: two verified logs that end in the same signature are the same record by
    record (sequence numbers, payloads as JSON, signatures), or two different
    texts signed in them have the same HMAC-SHA256 under the signing key:
    nothing before a trusted signature can be changed, inserted, removed or
    reordered without a collision among the signed texts. *)
Theorem audit_chain_tamper_evident c records records' :
  chain_verify c records = Ok true -> chain_verify c records' = Ok true -> tip records = tip records' ->
  Forall2 same_record records records' \/
  exists t t', t ∈ signed_texts "GENESIS" records /\ t' ∈ signed_texts "GENESIS" records' /\
    t <> t' /\ sign (ch_signing_key c) t = sign (ch_signing_key c) t'.
Proof.
  unfold chain_verify. set (key := ch_signing_key c). revert records'.
  induction records as [|r l IH] using rev_ind; intros l' V V' T.
  - left. rewrite (tip_genesis key l' V' (eq_sym T)). constructor.
  - destruct l' as [|r' l' _] using rev_ind; [by apply (tip_genesis key) in T; [destruct l|]|].
    rewrite !tip_snoc in T. apply verify_snoc in V as [V (t & C & S)], V' as [V' (t' & C' & S')].
    rewrite (signed_texts_snoc _ _ _ C), (signed_texts_snoc _ _ _ C'). setoid_rewrite elem_of_app. setoid_rewrite list_elem_of_singleton.
    destruct (decide (t = t')) as [<-|D]; [|right; exists t, t'; repeat split; [by right..|done|congruence]].
    destruct (canonical_inj _ _ _ _ _ _ _ (tip_plain key l V) (tip_plain key l' V') C C') as (E1 & E2 & E3).
    destruct (IH l' V V' E2) as [F|(u & u' & H1 & H2 & H3)]; [left|right; exists u, u'; repeat split; [by left..|apply H3|apply H3]]. apply Forall2_app; [done|]. repeat constructor; done.
Qed.

Abbreviation demo_log := (write_all [[("event", PStr "start")]; [("event", PStr "stop"); ("code", PInt 3)]] (new_log "key")).

Lemma audit_chain_tamper_evident_witness :
  let forged := [mkAuditRecord 1 [("event", PStr "start")] "anything" (tip (take 1 (lg_records demo_log)));
                 mkAuditRecord 2 [("code", PInt 3); ("event", PStr "stop")] "" (tip (lg_records demo_log))] in
  Forall2 same_record (lg_records demo_log) forged \/
  exists t t', t ∈ signed_texts "GENESIS" (lg_records demo_log) /\ t' ∈ signed_texts "GENESIS" forged /\
    t <> t' /\ sign (encode "key") t = sign (encode "key") t'.
Proof.
  intros forged. apply (audit_chain_tamper_evident (new_chain "key") (lg_records demo_log) forged); vm_compute; reflexivity.
Defined.

(** A verified log stays verified when records are removed from its end. *)
Theorem truncation_verifies c records n :
  chain_verify c records = Ok true -> chain_verify c (take n records) = Ok true.
Proof.
  unfold chain_verify. generalize "GENESIS". revert n. induction records as [|r l IH]; intros n previous V; [by destruct n|].
  destruct n as [|n]; [done|]. rewrite firstn_cons. apply verify_from_cons in V as [L V]. apply verify_from_cons. split; [done|]. by apply IH.
Qed.
