(* ===== verification/Access.v ===== *)
(** * Access: bearer tokens and permission guards ([core/security.py],
    [security/secrets.py])

    Logging is kept: the state is the list of log records, an event name with
    its fields. The JWT library is a parameter: [jwt_decode token secret
    algorithm] gives the verified payload or raises; when it raises a
    [PyJWTError], the exception's message stands for the name of its class.
    Fernet, the cipher of [cryptography], is the interface [Fernet]. *)

From Stdlib Require Import Ascii.
From S2P Require Import Prelude Rounding PyFloat PyDecimal PyData PyValue Models Crypto.

#[local] Open Scope string_scope.
#[local] Open Scope list_scope.

(** ** Metadata for the log *)

Definition str_last (n : nat) (s : string) : string := String.substring (String.length s - n) n s.

(** [_auth_metadata]: [path] is [request.url.path], if there is a request. *)
Definition auth_metadata (path : option string) (token raw_authorization : option string) : dict :=
  let value := default "" token in
  let raw_value := default "" raw_authorization in
  [("path", match path with Some p => PStr p | None => PNone end);
   ("raw_authorization_present", PBool (match raw_authorization with Some _ => true | None => false end));
   ("raw_authorization_length", PInt (Z.of_nat (String.length raw_value)));
   ("raw_authorization_prefix", PStr (String.substring 0 12 raw_value));
   ("raw_authorization_suffix", PStr (str_last 12 raw_value));
   ("token_length", PInt (Z.of_nat (String.length value)));
   ("token_segments", PInt (if String.eqb value "" then 0 else Z.of_nat (length (str_split "." value))));
   ("token_prefix", PStr (String.substring 0 12 value));
   ("token_suffix", PStr (str_last 12 value))].

Definition LogRecord : Type := string * dict.
Definition A (T : Type) : Type := SE (list LogRecord) T.
#[local] Instance A_ret : MRet A := se_ret _.
#[local] Instance A_bind : MBind A := se_bind _.

Definition log (event : string) (extra : dict) : A unit := se_modify (fun l => l ++ [(event, extra)]).

(** ** [datetime.fromtimestamp(x, tz=timezone.utc)]

    The fraction is scaled to microseconds in floating point and rounded
    half-even; years are 1 to 9999. *)
Definition min_datetime : datetime := (-62135596800000000)%Z.
Definition max_datetime : datetime := 253402300799999999%Z.

Definition fromtimestamp (x : float) : result datetime :=
  match x with
  | NaN => raise ValueError "Invalid value NaN (not a number)"
  | Inf _ => raise OverflowError "cannot convert float infinity to integer"
  | Fin q =>
      let s := Qtrunc q in
      let us := fval (fmul (Fin (Qred (q - inject_Z s))) (of_Z 1000000)) in
      let t := (s * 1000000 + Qrne us)%Z in
      if ((2 ^ 63 <=? s) || (s <? - 2 ^ 63))%Z then raise OverflowError "timestamp out of range for platform time_t"
      else if ((min_datetime <=? t) && (t <=? max_datetime))%Z then Ok t
      else raise ValueError "year is out of range"
  end.

(** ** Tokens *)

Record JwtSettings : Type := mkJwt { JWT_SECRET : string; JWT_ALGORITHM : string }.

(** The parts of a request the guards read: its path, the raw header and the
    credentials [HTTPBearer] extracted from it. *)
Record AuthRequest : Type := mkAuthRequest {
  aq_path : string; aq_authorization : option string; aq_credentials : option string }.

Section Guards.
Context (jwt_decode : string -> string -> string -> result dict).
Context (st : JwtSettings) (now : datetime).

(** [expires is not None and datetime.fromtimestamp(float(expires), ...) < now] *)
Definition token_expired (payload : dict) : result bool :=
  match pget "exp" payload with
  | PNone => Ok false
  | expires => x ← py_float expires; t ← fromtimestamp x; Ok (t <? now)%Z
  end.

Definition decode_token (token : string) (path raw_authorization : option string) : A dict :=
  let metadata := auth_metadata path (Some token) raw_authorization in
  payload ← (match jwt_decode token (JWT_SECRET st) (JWT_ALGORITHM st) with
             | Ok payload => mret payload
             | Err exc =>
                 if exn_isinstance (ex_class exc) PyJWTError then
                   _ ← log "jwt_decode_failed" (dict_merge metadata [("reason", PStr (ex_msg exc))]);
                   se_raise HTTPException "401: invalid token"
                 else se_lift (Err exc)
             end);
  expired ← se_lift (token_expired payload);
  match expired with
  | true =>
      _ ← log "jwt_decode_failed" (dict_merge metadata [("reason", PStr "expired")]);
      se_raise HTTPException "401: token expired"
  | false =>
      _ ← log "jwt_decode_success" (dict_merge metadata [("roles", pget_default "roles" (PList []) payload);
                                                          ("permissions", pget_default "permissions" (PList []) payload)]);
      mret payload
  end.

(** [raise _missing_credentials(request, reason)] *)
Definition missing_credentials {T} (request : AuthRequest) (reason : string) : A T :=
  _ ← log "jwt_decode_failed" (dict_merge (auth_metadata (Some (aq_path request)) None (aq_authorization request)) [("reason", PStr reason)]);
  se_raise HTTPException "401: invalid token".

(** [set(v)]: its elements, without the order and the removal of duplicates,
    which only the log would show; lists and dicts cannot be hashed. *)
Definition hashable (v : pyval) : bool := match v with PList _ | PDict _ => false | _ => true end.
Definition py_set (v : pyval) : result (list pyval) :=
  items ← iterate v;
  if forallb hashable items then Ok items else raise TypeError "unhashable type".

(** [s in items] for a text [s] *)
Definition text_in (items : list pyval) (s : string) : bool :=
  existsb (fun v => match v with PStr s' => String.eqb s' s | _ => false end) items.

(** The authenticated part common to the guards: payload, permissions, roles. *)
Definition authenticate (request : AuthRequest) : A (dict * list pyval * list pyval) :=
  match aq_credentials request with
  | None => missing_credentials request "missing_or_malformed_authorization"
  | Some credentials =>
      _ ← log "jwt_auth_request" (auth_metadata (Some (aq_path request)) (Some credentials) (aq_authorization request));
      payload ← decode_token credentials (Some (aq_path request)) (aq_authorization request);
      permissions ← se_lift (py_set (pget_default "permissions" (PList []) payload));
      roles ← se_lift (py_set (pget_default "roles" (PList []) payload));
      mret (payload, permissions, roles)
  end.

Definition refuse {T} (request : AuthRequest) (reason : string) (roles permissions : list pyval) : A T :=
  _ ← log "jwt_authorization_failed"
        (dict_merge (auth_metadata (Some (aq_path request)) (aq_credentials request) (aq_authorization request))
           [("reason", PStr reason); ("roles", PList roles); ("permissions", PList permissions)]);
  se_raise HTTPException "403: insufficient permissions".

Definition require_admin (request : AuthRequest) : A dict :=
  '(payload, permissions, roles) ← authenticate request;
  if negb (text_in roles "platform_admin") && negb (text_in permissions "config:write")
  then refuse request "insufficient_admin_permissions" roles permissions
  else mret payload.

Definition require_access (allowed_roles allowed_permissions : list string) (reason : string) (request : AuthRequest) : A dict :=
  '(payload, permissions, roles) ← authenticate request;
  if negb (existsb (text_in roles) allowed_roles) && negb (existsb (text_in permissions) allowed_permissions)
  then refuse request reason roles permissions
  else mret payload.

Definition require_operations_access : AuthRequest -> A dict :=
  require_access ["platform_admin"; "risk_manager"; "trader_operator"; "incident_responder"; "read_only_analyst"]
    ["operations:read"; "config:read"; "risk:read"] "insufficient_operations_permissions".
Definition require_config_write : AuthRequest -> A dict :=
  require_access ["platform_admin"; "risk_manager"; "trader_operator"] ["config:write"] "insufficient_config_write_permissions".
Definition require_risk_write : AuthRequest -> A dict :=
  require_access ["platform_admin"; "risk_manager"] ["risk:write"] "insufficient_risk_write_permissions".
Definition require_trading_control : AuthRequest -> A dict :=
  require_access ["platform_admin"; "trader_operator"] ["trading:write"; "config:write"] "insufficient_trading_control_permissions".
Definition require_incident_response : AuthRequest -> A dict :=
  require_access ["platform_admin"; "incident_responder"; "risk_manager"] ["incident:write"; "risk:write"]
    "insufficient_incident_response_permissions".
End Guards.

(** ** What a guard decides *)

Section Decisions.
Context (jwt_decode : string -> string -> string -> result dict) (st : JwtSettings) (now : datetime).

(** The request carries a token that the library verifies, that has not
    expired and whose claims are well formed. *)
Definition authenticated (request : AuthRequest) (payload : dict) (permissions roles : list pyval) : Prop :=
  exists token, aq_credentials request = Some token /\
    jwt_decode token (JWT_SECRET st) (JWT_ALGORITHM st) = Ok payload /\
    (pget "exp" payload = PNone \/
     exists x t, py_float (pget "exp" payload) = Ok x /\ fromtimestamp x = Ok t /\ (now <= t)%Z) /\
    py_set (pget_default "permissions" (PList []) payload) = Ok permissions /\
    py_set (pget_default "roles" (PList []) payload) = Ok roles.

Lemma token_expired_false payload :
  token_expired now payload = Ok false <->
  pget "exp" payload = PNone \/ exists x t, py_float (pget "exp" payload) = Ok x /\ fromtimestamp x = Ok t /\ (now <= t)%Z.
Proof.
  unfold token_expired.
  assert (G : forall v, (x ← py_float v; t ← fromtimestamp x; Ok (t <? now)%Z) = Ok false <->
    exists x t, py_float v = Ok x /\ fromtimestamp x = Ok t /\ (now <= t)%Z).
  { intros v. split.
    - intros (x & F & (t & T & [= L%Z.ltb_ge])%result_bind_ok)%result_bind_ok. eauto.
    - intros (x & t & F & T & L). rewrite F. unfold mbind, result_bind. rewrite T. f_equal. by apply Z.ltb_ge. }
  destruct (pget "exp" payload) eqn:E; [naive_solver|rewrite G; naive_solver..].
Qed.

Lemma decode_token_ok token path raw l payload :
  (decode_token jwt_decode st now token path raw l).2 = Ok payload <->
  jwt_decode token (JWT_SECRET st) (JWT_ALGORITHM st) = Ok payload /\ token_expired now payload = Ok false.
Proof.
  unfold decode_token, mbind, A_bind, se_bind, se_lift, mret, A_ret, se_ret.
  destruct (jwt_decode token _ _) as [p|e]; [|destruct (exn_isinstance _ _); (split; [done|by intros [? _]])].
  destruct (token_expired now p) as [[]|] eqn:X; (split; [by intros [= <-]|intros [[= <-] X']; try done; rewrite X in X'; done]).
Qed.

Lemma authenticate_ok request l payload permissions roles :
  (authenticate jwt_decode st now request l).2 = Ok (payload, permissions, roles) <->
  authenticated request payload permissions roles.
Proof.
  unfold authenticated. setoid_rewrite <- token_expired_false. unfold authenticate.
  destruct (aq_credentials request) as [token|]; [|split; [done|by intros (? & ? & _)]].
  unfold mbind, A_bind, se_bind, log, se_modify, se_lift, mret, A_ret, se_ret.
  match goal with |- context [decode_token _ _ _ _ ?path ?raw ?l1] => pose proof (decode_token_ok token path raw l1) as D;
    destruct (decode_token _ _ _ _ path raw l1) as [l2 [p|e]]; simpl in D end.
  - destruct (proj1 (D p) eq_refl) as [J X]. split.
    + destruct (py_set (pget_default "permissions" _ p)) as [ps|] eqn:P; [|done].
      destruct (py_set (pget_default "roles" _ p)) as [rs|] eqn:R; [|done]. intros [= <- <- <-]. by exists token.
    + intros (t & [= <-] & J' & _ & P & R). rewrite J in J'. injection J' as <-. by rewrite P, R.
  - split; [done|]. intros (t & [= <-] & J & X & _). discriminate (proj2 (D payload) (conj J X)).
Qed.

(** A guard built on [authenticate]: it grants when the test passes. *)
Lemma guard_ok (m : A (dict * list pyval * list pyval)) request reason (test : list pyval -> list pyval -> bool) l :
  ('(payload, permissions, roles) ← m;
   if test permissions roles then refuse request reason roles permissions else mret payload : A dict) l =
  match m l with
  | (l', Ok (payload, permissions, roles)) =>
      if test permissions roles then (refuse request reason roles permissions l' : _ * result dict) else (l', Ok payload)
  | (l', Err e) => (l', Err e)
  end.
Proof. unfold mbind, A_bind, se_bind. destruct (m l) as [l' [[[p ps] rs]|e]]; [|done]. by destruct (test ps rs). Qed.

Lemma text_in_iff items s : text_in items s = true <-> PStr s ∈ items.
Proof.
  unfold text_in. rewrite existsb_exists. setoid_rewrite <- list_elem_of_In. split.
  - intros (v & Hin & E). destruct v; try done. apply String.eqb_eq in E. by subst.
  - intros H. exists (PStr s). split; [done|]. apply String.eqb_refl.
Qed.

Lemma text_in_any items l : existsb (text_in items) l = true <-> exists s, s ∈ l /\ PStr s ∈ items.
Proof. rewrite existsb_exists. setoid_rewrite <- list_elem_of_In. by setoid_rewrite text_in_iff. Qed.

Lemma require_access_eq allowed_roles allowed_permissions reason request l :
  require_access jwt_decode st now allowed_roles allowed_permissions reason request l =
  match authenticate jwt_decode st now request l with
  | (l', Ok (payload, permissions, roles)) =>
      if existsb (text_in roles) allowed_roles || existsb (text_in permissions) allowed_permissions then (l', Ok payload)
      else refuse request reason roles permissions l'
  | (l', Err e) => (l', Err e)
  end.
Proof.
  unfold require_access. rewrite (guard_ok _ _ _ (fun permissions roles => negb (existsb (text_in roles) allowed_roles) && negb (existsb (text_in permissions) allowed_permissions))).
  destruct (authenticate _ _ _ _ _) as [l' [[[p ps] rs]|e]]; [|done]. rewrite <- negb_orb. by destruct (_ || _).
Qed.

Lemma require_admin_eq request l :
  require_admin jwt_decode st now request l =
  require_access jwt_decode st now ["platform_admin"] ["config:write"] "insufficient_admin_permissions" request l.
Proof.
  rewrite require_access_eq. unfold require_admin.
  rewrite (guard_ok _ _ _ (fun permissions roles => negb (text_in roles "platform_admin") && negb (text_in permissions "config:write"))).
  destruct (authenticate _ _ _ _ _) as [l' [[[p ps] rs]|e]]; [|done]. simpl. rewrite !orb_false_r, <- negb_orb. by destruct (_ || _).
Qed.
End Decisions.

(** A guard returns a payload exactly when the request carries a token the
    JWT library verifies under the configured secret and algorithm, that has
    not expired, whose claims are sets of hashable values, and one of whose
    roles or permissions is among those the guard allows. *)
Theorem guard_grants_iff jwt_decode st now allowed_roles allowed_permissions reason request l payload :
  (require_access jwt_decode st now allowed_roles allowed_permissions reason request l).2 = Ok payload <->
  exists permissions roles, authenticated jwt_decode st now request payload permissions roles /\
    ((exists r, r ∈ allowed_roles /\ PStr r ∈ roles) \/ (exists p, p ∈ allowed_permissions /\ PStr p ∈ permissions)).
Proof.
  rewrite require_access_eq. pose proof (authenticate_ok jwt_decode st now request l) as G.
  setoid_rewrite <- text_in_any. setoid_rewrite <- orb_true_iff.
  destruct (authenticate _ _ _ _ _) as [l' [[[p ps] rs]|e]]; simpl in G.
  - pose proof (proj1 (G p ps rs) eq_refl) as H. split.
    + destruct (_ || _) eqn:T; [|done]. intros [= <-]. by exists ps, rs.
    + intros (ps' & rs' & [= <- <- <-]%G & T). by rewrite T.
  - split; [done|]. by intros (ps & rs & ?%G & _).
Qed.

(** The guards in front of the endpoints that change something. *)
Definition write_guards (jwt_decode : string -> string -> string -> result dict) (st : JwtSettings) (now : datetime) : list (AuthRequest -> A dict) :=
  [require_admin jwt_decode st now; require_config_write jwt_decode st now; require_risk_write jwt_decode st now;
   require_trading_control jwt_decode st now; require_incident_response jwt_decode st now].

(** Read roles and permissions pass no write guard. *)
Lemma analyst_refused jwt_decode st now request payload permissions roles guard l :
  authenticated jwt_decode st now request payload permissions roles ->
  (forall s, PStr s ∈ roles -> s = "read_only_analyst") ->
  (forall s, PStr s ∈ permissions -> s ∈ ["operations:read"; "config:read"; "risk:read"]) ->
  guard ∈ write_guards jwt_decode st now -> (guard request l).2 = raise HTTPException "403: insufficient permissions".
Proof.
  intros H Hr Hp Hg.
  assert (R : forall rs ps reason, forallb (fun r => negb (String.eqb r "read_only_analyst")) rs = true ->
    forallb (fun p => negb (bool_decide (p ∈ ["operations:read"; "config:read"; "risk:read"]))) ps = true ->
    (require_access jwt_decode st now rs ps reason request l).2 = raise HTTPException "403: insufficient permissions").
  { intros rs ps reason Frs Fps. rewrite require_access_eq. apply (authenticate_ok jwt_decode st now request l) in H.
    destruct (authenticate _ _ _ _ _) as [l' r]. simpl in H. subst r.
    destruct (existsb (text_in roles) rs || existsb (text_in permissions) ps) eqn:T; [|done]. exfalso.
    rewrite forallb_forall in Frs, Fps. apply orb_true_iff in T as [(s & S & I)%text_in_any|(s & S & I)%text_in_any].
    - apply Hr in I as ->. by specialize (Frs _ (proj1 (list_elem_of_In _ _) S)).
    - specialize (Fps _ (proj1 (list_elem_of_In _ _) S)). rewrite bool_decide_true in Fps by (by apply Hp). done. }
  unfold write_guards in Hg. rewrite !elem_of_cons in Hg.
  destruct Hg as [->|[->|[->|[->|[->|Hg]]]]]; [rewrite require_admin_eq| | | | |by apply not_elem_of_nil in Hg]; by apply R.
Qed.

(** A token that verifies but carries no role other than
    [read_only_analyst] and no permission other than the three read
    permissions is refused with 403 by every guard of a write operation, and
    admitted by the guard of the read operations as soon as it carries one of
    them. *)
Theorem analyst_is_read_only jwt_decode st now request payload permissions roles :
  authenticated jwt_decode st now request payload permissions roles ->
  (forall s, PStr s ∈ roles -> s = "read_only_analyst") ->
  (forall s, PStr s ∈ permissions -> s ∈ ["operations:read"; "config:read"; "risk:read"]) ->
  (forall guard l, guard ∈ write_guards jwt_decode st now -> (guard request l).2 = raise HTTPException "403: insufficient permissions") /\
  (forall s l, PStr s ∈ roles \/ PStr s ∈ permissions -> (require_operations_access jwt_decode st now request l).2 = Ok payload).
Proof.
  intros H Hr Hp. split.
  - intros guard l Hg. by eapply analyst_refused.
  - intros s l Hs. apply guard_grants_iff. exists permissions, roles. split; [done|]. destruct Hs as [Hs|Hs]; [left|right].
    + exists s. split; [|done]. rewrite (Hr _ Hs). apply (bool_decide_unpack _). by vm_compute.
    + exists s. split; [by apply Hp|done].
Qed.

Lemma analyst_is_read_only_witness :
  let payload := [("sub", PStr "a"); ("exp", PInt 2000000000); ("roles", PList [PStr "read_only_analyst"]); ("permissions", PList [PStr "risk:read"])] in
  let decode := fun token _ _ => if String.eqb token "good" then Ok payload else raise PyJWTError "DecodeError" in
  let request := mkAuthRequest "/x" (Some "Bearer good") (Some "good") in
  (require_admin decode (mkJwt "secret" "HS256") (seconds 1700000000) request []).2 = raise HTTPException "403: insufficient permissions"
  /\ (require_operations_access decode (mkJwt "secret" "HS256") (seconds 1700000000) request []).2 = Ok payload.
Proof.
  intros payload decode request.
  destruct (analyst_is_read_only decode (mkJwt "secret" "HS256") (seconds 1700000000) request payload [PStr "risk:read"] [PStr "read_only_analyst"]) as [W R].
  - exists "good". split; [reflexivity|]. split; [reflexivity|]. split; [|split; reflexivity].
    right. eexists (of_Z 2000000000), (seconds 2000000000). split; [vm_compute; reflexivity|].
    split; [vm_compute; reflexivity|]. unfold seconds. lia.
  - intros s H%list_elem_of_singleton. by injection H.
  - intros s H%list_elem_of_singleton. injection H as ->. apply (bool_decide_unpack _). by vm_compute.
  - split.
    + exact (W (require_admin decode (mkJwt "secret" "HS256") (seconds 1700000000)) [] ltac:(left)).
    + refine (R "risk:read" [] _). right. left.
Defined.

(** ** Stored secrets ([security/secrets.py]) *)

(** What the code relies on of [cryptography.fernet.Fernet]: a key decrypts the
    tokens it encrypted. [nonce] is the randomness and time of a token. *)
Class Fernet (Token : Type) : Type := {
  fernet_encrypt : string -> nat -> bytes -> Token;
  fernet_decrypt : string -> Token -> result bytes;
  fernet_round_trip key nonce message : fernet_decrypt key (fernet_encrypt key nonce message) = Ok message }.

(** [base64.urlsafe_b64encode] *)
Definition urlsafe_b64encode (bs : bytes) : string :=
  str_map (fun c => if Ascii.eqb c "+" then "-"%char else if Ascii.eqb c "/" then "_"%char else c) (b64encode bs).

(** [bs.decode("utf-8")] for ASCII bytes *)
Definition decode (bs : bytes) : string := foldr (fun b s => String (ascii_of_nat (Z.to_nat b)) s) "" bs.

Lemma decode_encode s : decode (encode s) = s.
Proof. induction s as [|c s IH]; [done|]. cbn [encode decode foldr]. fold (decode (encode s)). by rewrite IH, Nat2Z.id, ascii_nat_embedding. Qed.

Record SecretCipher : Type := mkCipher { sc_key_id : string; sc_fernet_key : string }.

Definition new_cipher (st : JwtSettings) : SecretCipher :=
  let digest := sha256 (encode (JWT_SECRET st)) in
  mkCipher (String.substring 0 16 (hexdigest (sha256 digest))) (urlsafe_b64encode digest).

Section Cipher.
Context {Token : Type} `{Fernet Token}.

Definition encrypt (c : SecretCipher) (nonce : nat) (value : option string) : option Token :=
  match value with None => None | Some v => Some (fernet_encrypt (sc_fernet_key c) nonce (encode v)) end.

Definition decrypt (c : SecretCipher) (value : option Token) : result (option string) :=
  match value with
  | None => Ok None
  | Some t => match fernet_decrypt (sc_fernet_key c) t with
              | Ok bs => Ok (Some (decode bs))
              | Err exc => if exn_isinstance (ex_class exc) InvalidToken
                           then raise ValueError "stored secret cannot be decrypted with the active key"
                           else Err exc
              end
  end.

(** A stored secret, or its absence, is read back under the same settings. *)
Theorem secret_round_trip st nonce value : decrypt (new_cipher st) (encrypt (new_cipher st) nonce value) = Ok value.
Proof. destruct value as [v|]; [|done]. simpl. by rewrite fernet_round_trip, decode_encode. Qed.
End Cipher.
