(* ===== verification/Alerts.v ===== *)
(** * Alerts: delivery, routing and escalation ([alerts/delivery.py])

    A notifier is anything with [send] (interface [Notifier]); the three
    notifiers of the module implement it over an HTTP post and an SMTP session,
    which are parameters acting on the outside world [W]. *)

From Stdlib Require Import Ascii.
From S2P Require Import Prelude Rounding PyFloat PyDecimal PyData PyValue Config.

#[local] Open Scope string_scope.
#[local] Open Scope list_scope.

Definition alert_severity_value (s : AlertSeverity) : string :=
  match s with sev_info => "info" | sev_warning => "warning" | sev_critical => "critical" | sev_emergency => "emergency" end.

(** [list(AlertSeverity)] *)
Definition severities : list AlertSeverity := [sev_info; sev_warning; sev_critical; sev_emergency].

Record AlertMessage : Type := mkAlert { al_severity : AlertSeverity; al_title : string; al_body : string; al_metadata : dict }.

Record DeliveryResult : Type := mkDelivery { dr_channel : string; dr_delivered : bool; dr_response : string }.

(** ["\n"] *)
Definition newline : string := String (ascii_of_nat 10) "".

Definition heading (alert : AlertMessage) : string :=
  "[" +:+ str_upper (alert_severity_value (al_severity alert)) +:+ "] " +:+ al_title alert.

(** ** Notifiers *)

Class Notifier (N W : Type) : Type := {
  nt_class_name : N -> string;
  nt_send : N -> AlertMessage -> SE W DeliveryResult }.

Record TelegramNotifier : Type := mkTelegram { tg_bot_token : string; tg_chat_id : string }.
Record DiscordNotifier : Type := mkDiscord { dc_webhook_url : string }.
Record EmailNotifier : Type := mkEmail {
  em_smtp_host : string; em_smtp_port : Z; em_username : string; em_password : string; em_sender : string;
  em_recipients : list string; em_use_tls : bool }.

Record EmailMessage : Type := mkMessage { ms_from : string; ms_to : string; ms_subject : string; ms_content : string }.

(** The steps of an SMTP session. *)
Inductive SmtpCommand : Type :=
  | Connect (host : string) (port : Z)
  | StartTls
  | Login (username password : string)
  | SendMessage (message : EmailMessage)
  | SmtpQuit.

Section Senders.
Context {W : Type}.
Context (post : string -> pyval -> SE W (Z * string)) (smtp : SmtpCommand -> SE W unit).

Definition telegram_send (n : TelegramNotifier) (alert : AlertMessage) : SE W DeliveryResult :=
  let url := "https://api.telegram.org/bot" +:+ tg_bot_token n +:+ "/sendMessage" in
  let text := heading alert +:+ newline +:+ al_body alert in
  '(status, body) ← post url (PDict [("chat_id", PStr (tg_chat_id n)); ("text", PStr text); ("disable_web_page_preview", PBool true)]);
  mret (mkDelivery "telegram" (status <? 400)%Z (String.substring 0 500 body)).

Definition discord_send (n : DiscordNotifier) (alert : AlertMessage) : SE W DeliveryResult :=
  let payload := PDict [("content", PStr ("**" +:+ heading alert +:+ "**" +:+ newline +:+ al_body alert))] in
  '(status, body) ← post (dc_webhook_url n) payload;
  mret (mkDelivery "discord" (status <? 400)%Z (String.substring 0 500 body)).

(** [_send_sync]: the session is closed whether the body succeeds or raises. *)
Definition email_send (n : EmailNotifier) (alert : AlertMessage) : SE W DeliveryResult :=
  let message := mkMessage (em_sender n) (str_join ", " (em_recipients n)) (heading alert) (al_body alert) in
  _ ← smtp (Connect (em_smtp_host n) (em_smtp_port n));
  _ ← se_catch
        (_ ← (if em_use_tls n then smtp StartTls else mret tt);
         _ ← smtp (Login (em_username n) (em_password n));
         smtp (SendMessage message))
        (fun exc => _ ← smtp SmtpQuit; se_lift (Err exc));
  _ ← smtp SmtpQuit;
  mret (mkDelivery "email" true "sent").

Inductive AnyNotifier : Type :=
  | Telegram (n : TelegramNotifier) | Discord (n : DiscordNotifier) | Email (n : EmailNotifier).

#[export] Instance any_notifier : Notifier AnyNotifier W := {
  nt_class_name n := match n with Telegram _ => "TelegramNotifier" | Discord _ => "DiscordNotifier" | Email _ => "EmailNotifier" end;
  nt_send n := match n with Telegram n => telegram_send n | Discord n => discord_send n | Email n => email_send n end }.
End Senders.

(** ** Routing *)

Section Router.
Context {N W : Type} `{Notifier N W}.

Definition AlertRouter : Type := list (AlertSeverity * list N).

Definition new_router : AlertRouter := map (fun severity => (severity, [])) severities.

(** [order[order.index(minimum_severity):]] *)
Definition index_of (s : AlertSeverity) : nat :=
  match s with sev_info => 0 | sev_warning => 1 | sev_critical => 2 | sev_emergency => 3 end%nat.

Definition add_route (minimum_severity : AlertSeverity) (notifier : N) (routes : AlertRouter) : AlertRouter :=
  foldl (fun r severity => od_set severity (default [] (od_get severity r) ++ [notifier]) r)
        routes (drop (index_of minimum_severity) severities).

(** One notifier: an exception becomes a failed delivery. *)
Definition deliver (alert : AlertMessage) (notifier : N) : SE W DeliveryResult :=
  se_catch (nt_send notifier alert) (fun exc => mret (mkDelivery (nt_class_name (W := W) notifier) false (ex_msg exc))).

Fixpoint deliver_all (alert : AlertMessage) (notifiers : list N) : SE W (list DeliveryResult) :=
  match notifiers with
  | [] => mret []
  | n :: rest => r ← deliver alert n; rs ← deliver_all alert rest; mret (r :: rs)
  end.

(** [AlertRouter.route] *)
Definition route (routes : AlertRouter) (alert : AlertMessage) : SE W (list DeliveryResult) :=
  deliver_all alert (default [] (od_get (al_severity alert) routes)).

(** Routers built by the code: routes added to a new router. *)
Definition build_router (registrations : list (AlertSeverity * N)) : AlertRouter :=
  foldl (fun r mn => add_route mn.1 mn.2 r) new_router registrations.

(** The notifiers whose minimum severity an alert reaches. *)
Definition subscribed (registrations : list (AlertSeverity * N)) (s : AlertSeverity) : list N :=
  map snd (List.filter (fun mn => (index_of mn.1 <=? index_of s)%nat) registrations).

Lemma add_route_get m n r s :
  od_get s (add_route m n r) =
  if (index_of m <=? index_of s)%nat then Some (default [] (od_get s r) ++ [n]) else od_get s r.
Proof.
  unfold add_route. destruct m; simpl; rewrite !od_get_set; destruct s; simpl;
    repeat (rewrite od_get_set; simpl); done.
Qed.

Lemma build_router_get registrations s : od_get s (build_router registrations) = Some (subscribed registrations s).
Proof.
  unfold build_router. assert (G : forall r l, od_get s r = Some l ->
    od_get s (foldl (fun r mn => add_route mn.1 mn.2 r) r registrations) = Some (l ++ subscribed registrations s)).
  { induction registrations as [|[m n] rest IH]; intros r l E; simpl; [by rewrite app_nil_r|].
    unfold subscribed in *. simpl. destruct (index_of m <=? index_of s)%nat eqn:B; simpl.
    - rewrite (IH _ (l ++ [n])); [by rewrite <- app_assoc|]. by rewrite add_route_get, B, E.
    - apply IH. by rewrite add_route_get, B. }
  apply (G _ []). by destruct s.
Qed.


(** What routing means: every subscribed notifier is tried in turn, and one
    that raises counts as a failed delivery. *)
Fixpoint attempts (alert : AlertMessage) (notifiers : list N) (w : W) : W * list DeliveryResult :=
  match notifiers with
  | [] => (w, [])
  | n :: rest =>
      let '(w1, r) := nt_send n alert w in
      let '(w2, rs) := attempts alert rest w1 in
      (w2, match r with Ok d => d | Err e => mkDelivery (nt_class_name (W := W) n) false (ex_msg e) end :: rs)
  end.

Lemma deliver_all_attempts alert notifiers w :
  deliver_all alert notifiers w = (let '(w', rs) := attempts alert notifiers w in (w', Ok rs)).
Proof.
  revert w. induction notifiers as [|n rest IH]; intros w; cbn [deliver_all attempts]; [done|].
  unfold deliver, se_catch, mbind, se_bind. destruct (nt_send n alert w) as [w1 [d|e]]; simpl; rewrite IH; by destruct (attempts alert rest w1).
Qed.

(** A router built with any sequence of [add_route] calls tries, for an
    alert, exactly the notifiers whose minimum severity the alert reaches, in
    the order they were added; it returns one result per notifier and never
    raises, a notifier that raises giving a failed result and not stopping the
    ones behind it; and a more severe alert reaches at least the same
    notifiers. *)
Theorem alert_routing registrations alert w :
  route (build_router registrations) alert w =
    (let '(w', results) := attempts alert (subscribed registrations (al_severity alert)) w in (w', Ok results)) /\
  length (attempts alert (subscribed registrations (al_severity alert)) w).2 = length (subscribed registrations (al_severity alert)) /\
  forall s, (index_of (al_severity alert) <= index_of s)%nat ->
    sublist (subscribed registrations (al_severity alert)) (subscribed registrations s).
Proof.
  split; [unfold route; rewrite build_router_get; apply deliver_all_attempts|]. split.
  - generalize (subscribed registrations (al_severity alert)). intros l. revert w. induction l as [|n l IH]; intros w; simpl; [done|].
    destruct (nt_send n alert w) as [w1 r]. specialize (IH w1). destruct (attempts alert l w1). simpl in *. lia.
  - intros s Hs. unfold subscribed. induction registrations as [|[m n] rest IH]; simpl; [constructor|].
    destruct (Nat.leb_spec (index_of m) (index_of (al_severity alert))); simpl.
    + rewrite (proj2 (Nat.leb_le _ _)) by lia. simpl. by constructor.
    + destruct (index_of m <=? index_of s)%nat; simpl; [by constructor|done].
Qed.
End Router.

(** ** Escalation *)

Record AlertEscalationPolicy : Type := mkEscalation { ep_critical_after_failures : Z; ep_failures : list (string * Z) }.

Definition failed_count (results : list DeliveryResult) : Z :=
  Z.of_nat (length (List.filter (fun r => negb (dr_delivered r)) results)).

Definition failures_of (title : string) (p : AlertEscalationPolicy) : Z := default 0%Z (od_get title (ep_failures p)).

(** [AlertEscalationPolicy.escalate] *)
Definition escalate (alert : AlertMessage) (delivery_results : list DeliveryResult) : SE AlertEscalationPolicy AlertMessage :=
  let failed := failed_count delivery_results in
  if (failed =? 0)%Z then mret alert else
  _ ← se_modify (fun p => mkEscalation (ep_critical_after_failures p)
                            (od_set (al_title alert) (failures_of (al_title alert) p + failed)%Z (ep_failures p)));
  p ← se_get;
  if (ep_critical_after_failures p <=? failures_of (al_title alert) p)%Z && bool_decide (al_severity alert ∈ [sev_info; sev_warning])
  then mret (mkAlert sev_critical (al_title alert) ("Escalated after delivery failures." +:+ newline +:+ al_body alert) (al_metadata alert))
  else mret alert.

(** A history of escalation decisions, and the failures it holds for a title. *)
Definition escalations (history : list (AlertMessage * list DeliveryResult)) (p : AlertEscalationPolicy) : AlertEscalationPolicy :=
  foldl (fun p ar => (escalate ar.1 ar.2 p).1) p history.

Definition total_failures (title : string) (history : list (AlertMessage * list DeliveryResult)) : Z :=
  foldr (fun ar n => (if String.eqb (al_title ar.1) title then failed_count ar.2 else 0) + n)%Z 0%Z history.

Lemma failed_count_nonneg results : (0 <= failed_count results)%Z.
Proof. unfold failed_count. lia. Qed.

Lemma escalate_state alert results p :
  let p' := (escalate alert results p).1 in
  ep_critical_after_failures p' = ep_critical_after_failures p /\
  forall title, failures_of title p' = (failures_of title p + if String.eqb (al_title alert) title then failed_count results else 0)%Z.
Proof.
  unfold escalate. destruct (Z.eqb_spec (failed_count results) 0) as [E|E]; simpl.
  { split; [done|]. intros title. rewrite E. by destruct (String.eqb _ _); lia. }
  unfold mbind, se_bind, se_modify, se_get. set (p1 := mkEscalation _ _).
  assert (G : ep_critical_after_failures p1 = ep_critical_after_failures p /\ forall title,
    failures_of title p1 = (failures_of title p + if String.eqb (al_title alert) title then failed_count results else 0)%Z).
  { split; [done|]. intros title. unfold failures_of at 1. simpl. rewrite od_get_set.
    destruct (String.eqb_spec (al_title alert) title) as [->|D]; [by rewrite decide_True|].
    rewrite decide_False by done. unfold failures_of. lia. }
  destruct (_ && _); exact G.
Qed.

Lemma escalations_state history p :
  ep_critical_after_failures (escalations history p) = ep_critical_after_failures p /\
  forall title, failures_of title (escalations history p) = (failures_of title p + total_failures title history)%Z.
Proof.
  revert p. induction history as [|[a r] rest IH]; intros p; simpl; [split; [done|intros; lia]|].
  destruct (IH (escalate a r p).1) as [C F]. destruct (escalate_state a r p) as [C' F']. unfold escalations in *. simpl in *.
  split; [congruence|]. intros title. rewrite F, F'. lia.
Qed.

(** After any history, an alert is escalated to critical exactly when a
    delivery of it failed, it is of severity info or warning, and the failed
    deliveries of its title in the whole history, this time included, have
    reached the threshold; otherwise it is returned unchanged. *)
Theorem escalation_iff threshold history alert results :
  let outcome := (escalate alert results (escalations history (mkEscalation threshold []))).2 in
  let escalated := mkAlert sev_critical (al_title alert) ("Escalated after delivery failures." +:+ newline +:+ al_body alert) (al_metadata alert) in
  outcome = Ok (if (0 <? failed_count results)%Z && bool_decide (al_severity alert ∈ [sev_info; sev_warning])
                   && (threshold <=? total_failures (al_title alert) (history ++ [(alert, results)]))%Z
                then escalated else alert).
Proof.
  cbv zeta. set (p := escalations history (mkEscalation threshold [])).
  destruct (escalations_state history (mkEscalation threshold [])) as [C F]. fold p in C, F. simpl in C.
  assert (T : total_failures (al_title alert) (history ++ [(alert, results)]) = (failures_of (al_title alert) p + failed_count results)%Z).
  { rewrite F. change (failures_of (al_title alert) (mkEscalation threshold [])) with 0%Z. clear. induction history as [|x l IH]; simpl; [rewrite String.eqb_refl; lia|].
    unfold total_failures in *. rewrite IH. lia. }
  rewrite T. unfold escalate. pose proof (failed_count_nonneg results).
  destruct (Z.eqb_spec (failed_count results) 0) as [->|E]; [done|]. rewrite (proj2 (Z.ltb_lt 0 _)) by lia.
  unfold mbind, se_bind, se_modify, se_get. cbn [ep_critical_after_failures]. rewrite C.
  unfold failures_of at 1. cbn [ep_failures]. rewrite od_get_set_eq. cbn [default].
  rewrite (andb_comm (_ <=? _)%Z). cbn [andb]. by destruct (bool_decide _ && _).
Qed.
