(* ===== verification/Json.v ===== *)
(** * Json: Python's [json] module as the program uses it

    [dumps] with separators and [default=str], and [loads]. Text is a sequence
    of characters below 256; an escape above that range is refused. The main
    result is the round trip [loads (dumps v) = v] for values without floats
    and decimals, with the compact and with the default separators. *)

From Stdlib Require Import Ascii.
From S2P Require Import Prelude Rounding PyFloat PyDecimal PyData PyValue Crypto Signing.

#[local] Open Scope string_scope.
#[local] Open Scope list_scope.

(** ** Printing *)

Section Dumps.
Context (item_separator key_separator : string).

(** [json.dumps(v, default=str, separators=(item_separator, key_separator))] *)
Fixpoint dumps_with (v : pyval) : string :=
  match v with
  | PNone => "null"
  | PBool b => if b then "true" else "false"
  | PInt z => str_of_Z z
  | PFloat x => json_float x
  | PDec d => json_string (dec_str d)
  | PStr s => json_string s
  | PList l => "[" +:+ str_join item_separator (map dumps_with l) +:+ "]"
  | PDict d => "{" +:+ str_join item_separator (map (fun kv => json_string kv.1 +:+ key_separator +:+ dumps_with kv.2) d) +:+ "}"
  end.
End Dumps.

(** [json.dumps(v, default=str, separators=(",", ":"))] and
    [json.dumps(v, default=str)] *)
Definition dumps_compact : pyval -> string := dumps_with "," ":".
Definition dumps_default : pyval -> string := dumps_with ", " ": ".

(** ** Scanning *)

Definition decode_error {A} (msg : string) : result A := raise JSONDecodeError msg.

Definition is_json_ws (c : ascii) : bool :=
  let n := nat_of_ascii c in ((n =? 32) || (n =? 9) || (n =? 10) || (n =? 13))%nat.

Fixpoint skip_ws (s : string) : string :=
  match s with String c s' => if is_json_ws c then skip_ws s' else s | "" => "" end.

Definition hex_val (c : ascii) : option Z :=
  let n := Z.of_nat (nat_of_ascii c) in
  if ((48 <=? n) && (n <=? 57))%Z then Some (n - 48)%Z
  else if ((97 <=? n) && (n <=? 102))%Z then Some (n - 87)%Z
  else if ((65 <=? n) && (n <=? 70))%Z then Some (n - 55)%Z else None.

Definition hex_val4 (a b c d : ascii) : option Z :=
  a ← hex_val a; b ← hex_val b; c ← hex_val c; d ← hex_val d; Some (((a * 16 + b) * 16 + c) * 16 + d)%Z.

Definition simple_escape (c : ascii) : option ascii :=
  let n := nat_of_ascii c in
  if ((n =? 34) || (n =? 92) || (n =? 47))%nat then Some c
  else if (n =? 98)%nat then Some (ascii_of_nat 8) else if (n =? 102)%nat then Some (ascii_of_nat 12)
  else if (n =? 110)%nat then Some (ascii_of_nat 10) else if (n =? 114)%nat then Some (ascii_of_nat 13)
  else if (n =? 116)%nat then Some (ascii_of_nat 9) else None.

(** The rest of a string literal after its opening quote. *)
Fixpoint scan_string (s : string) : result (string * string) :=
  match s with
  | "" => decode_error "Unterminated string"
  | String c s' =>
      if Ascii.eqb c dquote then Ok ("", s')
      else if (nat_of_ascii c =? 92)%nat then
        match s' with
        | String e s2 =>
            match simple_escape e with
            | Some x => '(t, r) ← scan_string s2; Ok (String x t, r)
            | None =>
                match s2 with
                | String h1 (String h2 (String h3 (String h4 s3))) =>
                    match (if Ascii.eqb e "u" then hex_val4 h1 h2 h3 h4 else None) with
                    | Some n => if (n <? 256)%Z then '(t, r) ← scan_string s3; Ok (String (ascii_of_nat (Z.to_nat n)) t, r)
                                else decode_error "character out of range"
                    | None => decode_error "Invalid \escape"
                    end
                | _ => decode_error "Invalid \escape"
                end
            end
        | "" => decode_error "Unterminated string"
        end
      else if (nat_of_ascii c <? 32)%nat then decode_error "Invalid control character"
      else '(t, r) ← scan_string s'; Ok (String c t, r)
  end.

(** The number pattern: an integer without leading zeros, then an optional
    fraction and an optional exponent; only a bare integer is an [int]. *)
Definition scan_fraction (s : string) (acc : Z) : option (Z * Z * string) :=
  match s with
  | String c r => if Ascii.eqb c "." then
                    let '(v, n, rest) := take_digits r acc 0 in if (0 <? n)%Z then Some (v, n, rest) else None
                  else None
  | "" => None
  end.

Definition scan_exponent (s : string) : option (Z * string) :=
  match s with
  | String c r => if Ascii.eqb c "e" || Ascii.eqb c "E" then
                    let '(sg, r1) := take_sign r in
                    let '(v, n, rest) := take_digits r1 0 0 in if (0 <? n)%Z then Some ((sg * v)%Z, rest) else None
                  else None
  | "" => None
  end.

Definition scan_unsigned (sg : Z) (s : string) : option (pyval * string) :=
  match s with
  | String c s' =>
      match digit_val c with
      | None => None
      | Some d =>
          let '(v, _, r) := if (d =? 0)%Z then (0%Z, 1%Z, s') else take_digits s 0 0 in
          match scan_fraction r v with
          | Some (v', nf, r') =>
              match scan_exponent r' with
              | Some (e, r2) => Some (PFloat (float_of_dec (mkDec (sg * v') (e - nf))), r2)
              | None => Some (PFloat (float_of_dec (mkDec (sg * v') (- nf))), r')
              end
          | None =>
              match scan_exponent r with
              | Some (e, r2) => Some (PFloat (float_of_dec (mkDec (sg * v) e)), r2)
              | None => Some (PInt (sg * v), r)
              end
          end
      end
  | "" => None
  end.

Definition scan_number (s : string) : option (pyval * string) :=
  match s with
  | String c s' => if Ascii.eqb c "-" then scan_unsigned (-1) s' else scan_unsigned 1 s
  | "" => None
  end.

(** The text after a literal. *)
Fixpoint after (literal s : string) : option string :=
  match literal, s with
  | "", _ => Some s
  | String a l', String b s' => if Ascii.eqb a b then after l' s' else None
  | String _ _, "" => None
  end.

Definition scan_literals (s : string) : option (pyval * string) :=
  match after "null" s, after "true" s, after "false" s, after "NaN" s, after "Infinity" s, after "-Infinity" s with
  | Some r, _, _, _, _, _ => Some (PNone, r)
  | _, Some r, _, _, _, _ => Some (PBool true, r)
  | _, _, Some r, _, _, _ => Some (PBool false, r)
  | _, _, _, Some r, _, _ => Some (PFloat NaN, r)
  | _, _, _, _, Some r, _ => Some (PFloat (Inf false), r)
  | _, _, _, _, _, Some r => Some (PFloat (Inf true), r)
  | _, _, _, _, _, _ => None
  end.

Section Scan.
Context (scan : string -> result (pyval * string)).

(** The elements of an array, from the first character of an element. *)
Fixpoint scan_items (fuel : nat) (s : string) : result (list pyval * string) :=
  match fuel with
  | O => decode_error "fuel"
  | S fuel' =>
      '(v, r) ← scan s;
      match skip_ws r with
      | String c r1 =>
          if Ascii.eqb c "]" then Ok ([v], r1)
          else if Ascii.eqb c "," then '(vs, r2) ← scan_items fuel' (skip_ws r1); Ok (v :: vs, r2)
          else decode_error "Expecting ',' delimiter"
      | "" => decode_error "Expecting ',' delimiter"
      end
  end.

(** The entries of an object, from the quote of a key. *)
Fixpoint scan_entries (fuel : nat) (s : string) : result (dict * string) :=
  match fuel with
  | O => decode_error "fuel"
  | S fuel' =>
      match s with
      | String q s1 =>
          if Ascii.eqb q dquote then
            '(k, r) ← scan_string s1;
            match skip_ws r with
            | String c r1 =>
                if Ascii.eqb c ":" then
                  '(v, r2) ← scan (skip_ws r1);
                  match skip_ws r2 with
                  | String c2 r3 =>
                      if Ascii.eqb c2 "}" then Ok ([(k, v)], r3)
                      else if Ascii.eqb c2 "," then '(kvs, r4) ← scan_entries fuel' (skip_ws r3); Ok ((k, v) :: kvs, r4)
                      else decode_error "Expecting ',' delimiter"
                  | "" => decode_error "Expecting ',' delimiter"
                  end
                else decode_error "Expecting ':' delimiter"
            | "" => decode_error "Expecting ':' delimiter"
            end
          else decode_error "Expecting property name enclosed in double quotes"
      | "" => decode_error "Expecting property name enclosed in double quotes"
      end
  end.
End Scan.

(** [scan_once]: the fuel bounds the nesting and the length of lists. *)
Fixpoint scan_once (fuel : nat) (s : string) : result (pyval * string) :=
  match fuel with
  | O => decode_error "fuel"
  | S fuel' =>
      match s with
      | "" => decode_error "Expecting value"
      | String c r =>
          if Ascii.eqb c dquote then '(t, r1) ← scan_string r; Ok (PStr t, r1)
          else if Ascii.eqb c "{" then
            match skip_ws r with
            | String c1 r1 => if Ascii.eqb c1 "}" then Ok (PDict [], r1)
                              else '(kvs, r2) ← scan_entries (scan_once fuel') fuel' (skip_ws r); Ok (PDict (dict_merge [] kvs), r2)
            | "" => decode_error "Expecting property name enclosed in double quotes"
            end
          else if Ascii.eqb c "[" then
            match skip_ws r with
            | String c1 r1 => if Ascii.eqb c1 "]" then Ok (PList [], r1)
                              else '(vs, r2) ← scan_items (scan_once fuel') fuel' (skip_ws r); Ok (PList vs, r2)
            | "" => decode_error "Expecting value"
            end
          else match scan_literals s with
               | Some vr => Ok vr
               | None => match scan_number s with Some vr => Ok vr | None => decode_error "Expecting value" end
               end
      end
  end.

(** [json.loads(s)]: a value takes at least one character, so the length of
    the text bounds nesting and lengths. *)
Definition loads (s : string) : result pyval :=
  '(v, r) ← scan_once (S (String.length s)) (skip_ws s);
  if String.eqb (skip_ws r) "" then Ok v else decode_error "Extra data".

(** Text with single quotes turned into double quotes, for the examples. *)
Definition dq (s : string) : string := str_map (fun c => if Ascii.eqb c "'" then dquote else c) s.

Example loads_examples :
  loads (dq " {'a': [1, -2.5e1, null, true], 'b\u0041\n': {}, 'a': 'x'} ") =
    Ok (PDict [("a", PStr "x"); (String "b" (String "A" (String (ascii_of_nat 10) "")), PDict [])])
  /\ loads "[1,]" = decode_error "Expecting value" /\ loads "01" = decode_error "Extra data"
  /\ loads "" = decode_error "Expecting value" /\ loads "-0" = Ok (PInt 0).
Proof. vm_compute. repeat split. Qed.

(** ** The round trip *)

(** Values JSON represents exactly: no floats or decimals, and dicts with
    distinct keys. *)
Fixpoint json_exact (v : pyval) : bool :=
  match v with
  | PFloat _ | PDec _ => false
  | PList l => forallb json_exact l
  | PDict d => bool_decide (NoDup d.*1) && forallb (fun kv => json_exact kv.2) d
  | _ => true
  end.

(** *** Strings *)

Definition escape_char (c : ascii) : string := json_escape (String c "").

Lemma json_escape_cons c s : json_escape (String c s) = escape_char c +:+ json_escape s.
Proof.
  unfold escape_char. cbn [json_escape]. cbv zeta.
  repeat match goal with |- context [if ?b then _ else _] => destruct b; [reflexivity|] end. reflexivity.
Qed.

Lemma scan_escape c t : scan_string (escape_char c +:+ t) = ('(x, r) ← scan_string t; Ok (String c x, r)).
Proof. destruct c as [[] [] [] [] [] [] [] []]; reflexivity. Qed.

Lemma append_assoc (a b c : string) : (a +:+ b) +:+ c = a +:+ (b +:+ c).
Proof. induction a as [|x a IH]; [done|]. change (String x ((a +:+ b) +:+ c) = String x (a +:+ (b +:+ c))). by rewrite IH. Qed.

Lemma scan_string_escape s rest : scan_string (json_escape s +:+ String dquote rest) = Ok (s, rest).
Proof.
  induction s as [|c s IH]; [reflexivity|]. rewrite json_escape_cons, append_assoc, scan_escape, IH. reflexivity.
Qed.

(** *** Integers *)

Definition number_end (s : string) : bool :=
  match s with
  | "" => true
  | String c _ => match digit_val c with Some _ => false | None => negb (Ascii.eqb c ".") && negb (Ascii.eqb c "e") && negb (Ascii.eqb c "E") end
  end.

Lemma pretty_N_go_app x s rest : pretty_N_go x s +:+ rest = pretty_N_go x (s +:+ rest).
Proof.
  revert s. induction (N.lt_wf_0 x) as [x _ IH]; intros s.
  destruct (decide (x = 0)%N) as [->|]; [by rewrite !pretty_N_go_0|].
  rewrite !(pretty_N_go_step x) by lia. rewrite IH by (apply N.div_lt; lia). done.
Qed.

Lemma digit_val_char d : (d < 10)%N -> digit_val (pretty_N_char d) = Some (Z.of_N d).
Proof.
  intros H. assert (E : Forall (fun d => digit_val (pretty_N_char d) = Some (Z.of_N d)) (map N.of_nat (seq 0 10))) by (vm_compute; by repeat constructor).
  rewrite Forall_forall in E. apply E. apply list_elem_of_fmap. exists (N.to_nat d). rewrite elem_of_seq. lia.
Qed.

Lemma take_digits_pretty x s acc n :
  exists k, (0 <= k)%Z /\ take_digits (pretty_N_go x s) acc n = take_digits s (acc * 10 ^ k + Z.of_N x) (n + k).
Proof.
  revert s acc n. induction (N.lt_wf_0 x) as [x _ IH]; intros s acc n.
  destruct (decide (x = 0)%N) as [->|]; [exists 0%Z; rewrite pretty_N_go_0; split; [done|f_equal; lia]|].
  rewrite pretty_N_go_step by lia. destruct (IH (x / 10)%N ltac:(apply N.div_lt; lia) (String (pretty_N_char (x mod 10)) s) acc n) as (k & Hk & ->).
  exists (k + 1)%Z. split; [lia|]. cbn [take_digits]. rewrite digit_val_char by (apply N.mod_lt; lia).
  pose proof (N.div_mod x 10 ltac:(lia)). rewrite Z.pow_add_r by lia. f_equal; lia.
Qed.

Lemma pretty_N_go_head x s : (0 < x)%N ->
  exists c t d, pretty_N_go x s = String c t /\ digit_val c = Some d /\ d <> 0%Z.
Proof.
  revert s. induction (N.lt_wf_0 x) as [x _ IH]; intros s Hx. rewrite pretty_N_go_step by lia.
  destruct (decide (x < 10)%N).
  - rewrite (N.div_small x 10), pretty_N_go_0, (N.mod_small x 10) by lia. eexists _, _, _. split; [done|].
    rewrite digit_val_char by lia. split; [done|lia].
  - apply IH; [apply N.div_lt; lia|]. apply N.div_str_pos. lia.
Qed.

Lemma number_end_stops rest : number_end rest = true ->
  (forall acc n, take_digits rest acc n = (acc, n, rest)) /\ (forall v, scan_fraction rest v = None) /\ scan_exponent rest = None.
Proof.
  destruct rest as [|c r]; [done|]. cbn [number_end take_digits scan_fraction scan_exponent].
  destruct (digit_val c); [done|]. destruct (Ascii.eqb c "."), (Ascii.eqb c "e"), (Ascii.eqb c "E"); done.
Qed.

Lemma scan_unsigned_pos sg p rest : number_end rest = true ->
  scan_unsigned sg (pretty p +:+ rest) = Some (PInt (sg * Z.pos p), rest).
Proof.
  intros E. destruct (number_end_stops rest E) as (T & F & X).
  unfold pretty, pretty_positive, pretty, pretty_N. rewrite decide_False by done. rewrite pretty_N_go_app.
  change ("" +:+ rest) with rest. destruct (pretty_N_go_head (N.pos p) rest ltac:(lia)) as (c & t & d & G & D & Z0).
  destruct (take_digits_pretty (N.pos p) rest 0 0) as (k & _ & K). unfold scan_unsigned. rewrite G in *. rewrite D.
  rewrite (proj2 (Z.eqb_neq d 0)) by done. rewrite K, T. cbn [fst snd]. rewrite F, X. done.
Qed.

Lemma scan_number_Z z rest : number_end rest = true -> scan_number (str_of_Z z +:+ rest) = Some (PInt z, rest).
Proof.
  intros E. destruct z as [|p|p].
  - destruct (number_end_stops rest E) as (T & F & X). change (scan_unsigned 1 (String "0" rest) = Some (PInt 0, rest)).
    unfold scan_unsigned. change (digit_val "0") with (Some 0%Z). cbn [Z.eqb]. by rewrite F, X.
  - pose proof (scan_unsigned_pos 1 p rest E) as S. unfold scan_number, str_of_Z.
    change (pretty (Z.pos p)) with (pretty p). destruct (pretty p +:+ rest) as [|c t] eqn:G; [done|].
    destruct (Ascii.eqb_spec c "-") as [->|]; [done|]. rewrite S. f_equal.
  - exact (scan_unsigned_pos (-1) p rest E).
Qed.

Lemma digit_char_apart c d : digit_val c = Some d ->
  forallb (fun x => negb (Ascii.eqb c x)) [dquote; "{"; "["; "]"; "}"; "n"; "t"; "f"; "N"; "I"; "-"]%char = true /\ is_json_ws c = false.
Proof. destruct c as [[] [] [] [] [] [] [] []]; done. Qed.

Lemma pretty_pos_head (p : positive) rest : exists c t d, pretty p +:+ rest = String c t /\ digit_val c = Some d.
Proof.
  unfold pretty, pretty_positive, pretty, pretty_N. rewrite decide_False by done. rewrite pretty_N_go_app.
  destruct (pretty_N_go_head (N.pos p) ("" +:+ rest) ltac:(lia)) as (c & t & d & G & D & _). eauto.
Qed.

(** A first character that starts a value and nothing else. *)
Definition value_start (s : string) : bool :=
  match s with String c _ => negb (is_json_ws c) && negb (Ascii.eqb c "]") | "" => false end.

(** An integer begins like no other token. *)
Lemma scan_once_other fuel s :
  scan_literals s = None ->
  match s with String c _ => negb (Ascii.eqb c dquote) && negb (Ascii.eqb c "{") && negb (Ascii.eqb c "[") | "" => false end = true ->
  scan_once (S fuel) s = match scan_number s with Some vr => Ok vr | None => decode_error "Expecting value" end.
Proof.
  intros L. destruct s as [|c r]; [done|]. cbn [scan_once]. rewrite L.
  destruct (Ascii.eqb c dquote), (Ascii.eqb c "{"), (Ascii.eqb c "["); done.
Qed.

Lemma scan_literals_digit c t d : digit_val c = Some d -> scan_literals (String c t) = None.
Proof.
  intros D. destruct (digit_char_apart c d D) as [A _]. unfold scan_literals. cbn [after]. rewrite !(Ascii.eqb_sym _ c). cbn [forallb] in A.
  destruct (Ascii.eqb c "n"), (Ascii.eqb c "t"), (Ascii.eqb c "f"), (Ascii.eqb c "N"), (Ascii.eqb c "I"), (Ascii.eqb c "-");
    rewrite ?andb_false_r in A; try done; by rewrite ?andb_false_r in A.
Qed.

Lemma scan_literals_minus s :
  scan_literals (String "-" s) = match after "Infinity" s with Some r => Some (PFloat (Inf true), r) | None => None end.
Proof. reflexivity. Qed.

Lemma scan_once_Z fuel z rest : number_end rest = true ->
  scan_once (S fuel) (str_of_Z z +:+ rest) = Ok (PInt z, rest) /\ value_start (str_of_Z z +:+ rest) = true.
Proof.
  intros E. pose proof (scan_number_Z z rest E) as S.
  destruct z as [|p|p]; unfold str_of_Z in *.
  - split; [|done]. rewrite scan_once_other, S; done.
  - change (pretty (Z.pos p)) with (pretty p) in *. destruct (pretty_pos_head p rest) as (c & t & d & G & D). rewrite G in *.
    destruct (digit_char_apart c d D) as [A W]. cbn [forallb] in A. rewrite !andb_true_iff in A. destruct A as (A1 & A2 & A3 & A4 & _).
    split; [|cbn [value_start]; by rewrite W, A4]. rewrite scan_once_other, S; [done|by eapply scan_literals_digit|by rewrite A1, A2, A3].
  - split; [|done]. rewrite scan_once_other, S; [done| |done]. destruct (pretty_pos_head p rest) as (c & t & d & G & D).
    change (pretty (Z.neg p) +:+ rest) with (String "-" (pretty p +:+ rest)). rewrite G.
    destruct (digit_char_apart c d D) as [A _]. rewrite scan_literals_minus. cbn [after]. rewrite (Ascii.eqb_sym "I" c).
    cbn [forallb] in A. rewrite !andb_true_iff in A. destruct A as (_ & _ & _ & _ & _ & _ & _ & _ & _ & A & _).
    by destruct (Ascii.eqb c "I").
Qed.

Lemma append_nil (s : string) : s +:+ "" = s.
Proof. induction s as [|c s IH]; [done|]. change (String c (s +:+ "") = String c s). by rewrite IH. Qed.

(** The text of an integer is a number and nothing else. *)
Lemma scan_number_whole z : scan_number (str_of_Z z) = Some (PInt z, "").
Proof. rewrite <- (append_nil (str_of_Z z)) at 1. by apply scan_number_Z. Qed.

(** *** Values *)

Section RoundTrip.
Context (wi wk : string) (Hwi : forallb is_json_ws (String.list_ascii_of_string wi) = true)
        (Hwk : forallb is_json_ws (String.list_ascii_of_string wk) = true).

Notation dumps := (dumps_with (String "," wi) (String ":" wk)).

Lemma skip_ws_app w s : forallb is_json_ws (String.list_ascii_of_string w) = true -> skip_ws (w +:+ s) = skip_ws s.
Proof.
  induction w as [|c w IH]; [done|]. cbn [String.list_ascii_of_string forallb]. intros [Hc Hw]%andb_true_iff.
  change (String c w +:+ s) with (String c (w +:+ s)). cbn [skip_ws]. rewrite Hc. by apply IH.
Qed.

Lemma skip_ws_start s : value_start s = true -> skip_ws s = s.
Proof. destruct s as [|c s]; [done|]. cbn [value_start skip_ws]. by destruct (is_json_ws c). Qed.

(** What is shown of a value: it is scanned back whatever follows it. *)
Definition scans (v : pyval) : Prop :=
  forall fuel rest, (String.length (dumps v) < fuel)%nat -> number_end rest = true ->
    scan_once fuel (dumps v +:+ rest) = Ok (v, rest) /\ value_start (dumps v +:+ rest) = true.

Lemma str_length_app (a b : string) : String.length (a +:+ b) = (String.length a + String.length b)%nat.
Proof. induction a as [|c a IH]; [done|]. change (String.length (String c a +:+ b)) with (S (String.length (a +:+ b))). by rewrite IH. Qed.

(** The text of the elements of a list, one after another. *)
Lemma str_join_cons sep (x y : string) l : str_join sep (x :: y :: l) = x +:+ sep +:+ str_join sep (y :: l).
Proof. done. Qed.

Lemma scans_nonempty v : scans v -> (1 <= String.length (dumps v))%nat.
Proof.
  intros H. destruct (H (S (String.length (dumps v))) "" ltac:(lia) eq_refl) as [_ V].
  destruct (dumps v); [done|]. cbn. lia.
Qed.

Lemma scan_items_ok l fuel g rest :
  Forall scans l -> l <> [] -> (String.length (str_join (String "," wi) (map dumps l)) < fuel)%nat -> (length l <= g)%nat ->
  scan_items (scan_once fuel) g (str_join (String "," wi) (map dumps l) +:+ String "]" rest) = Ok (l, rest) /\
  value_start (str_join (String "," wi) (map dumps l) +:+ String "]" rest) = true /\
  (length l <= String.length (str_join (String "," wi) (map dumps l)))%nat.
Proof.
  intros F. revert g. induction F as [|v l Hv F IH]; intros g N B G; [done|]. destruct g as [|g]; [cbn in G; lia|].
  pose proof (scans_nonempty v Hv). destruct l as [|v' l].
  - cbn [map str_join] in *. destruct (Hv fuel (String "]" rest) B eq_refl) as [Sv V]. split; [|split; [done|cbn; lia]].
    cbn [scan_items]. rewrite Sv. done.
  - cbn [map] in *. rewrite str_join_cons in *. rewrite str_length_app in B. rewrite !append_assoc in *.
    change (String "," wi +:+ str_join (String "," wi) (dumps v' :: map dumps l)) with (String "," (wi +:+ str_join (String "," wi) (dumps v' :: map dumps l))) in B.
    cbn [String.length] in B. rewrite str_length_app in B.
    set (tail := str_join (String "," wi) (dumps v' :: map dumps l)) in *.
    destruct (IH g ltac:(done) ltac:(lia) ltac:(cbn in G |- *; lia)) as (S1 & V1 & L1).
    destruct (Hv fuel (String "," wi +:+ (tail +:+ String "]" rest)) ltac:(lia) eq_refl) as [Sv V]. split; [|split; [done|]].
    + cbn [scan_items]. rewrite Sv. unfold mbind, result_bind. cbn [fst snd].
      change (skip_ws (String "," wi +:+ (tail +:+ String "]" rest))) with (String "," (wi +:+ (tail +:+ String "]" rest))).
      cbn [Ascii.eqb Bool.eqb]. rewrite (skip_ws_app wi _ Hwi), (skip_ws_start _ V1), S1. done.
    + rewrite str_length_app. change (String.length (String "," wi +:+ tail)) with (S (String.length (wi +:+ tail))). rewrite str_length_app. cbn [length] in *. lia.
Qed.

Notation entry := (fun kv : string * pyval => json_string kv.1 +:+ String ":" wk +:+ dumps kv.2).

(** One entry of an object, up to what follows its value. *)
Lemma scan_entry_ok (k : string) v fuel g rest :
  scans v -> (String.length (entry (k, v)) < fuel)%nat -> number_end rest = true ->
  scan_entries (scan_once fuel) (S g) (entry (k, v) +:+ rest) =
  match skip_ws rest with
  | String c2 r3 =>
      if Ascii.eqb c2 "}" then Ok ([(k, v)], r3)
      else if Ascii.eqb c2 "," then '(kvs, r4) ← scan_entries (scan_once fuel) g (skip_ws r3); Ok ((k, v) :: kvs, r4)
      else decode_error "Expecting ',' delimiter"
  | "" => decode_error "Expecting ',' delimiter"
  end.
Proof.
  intros Hv B E. cbn [fst snd] in *. rewrite !str_length_app in B. cbn [String.length] in B.
  destruct (Hv fuel rest ltac:(lia) E) as [Sv V]. unfold json_string. rewrite !append_assoc.
  change (String dquote (json_escape k +:+ String dquote "") +:+ (String ":" wk +:+ (dumps v +:+ rest)))
    with (String dquote ((json_escape k +:+ String dquote "") +:+ (String ":" wk +:+ (dumps v +:+ rest)))).
  rewrite append_assoc. change (String dquote "" +:+ (String ":" wk +:+ (dumps v +:+ rest))) with (String dquote (String ":" (wk +:+ (dumps v +:+ rest)))).
  cbn [scan_entries]. rewrite Ascii.eqb_refl, scan_string_escape. unfold mbind at 1, result_bind at 1. cbn [skip_ws].
  change (is_json_ws ":") with false. cbv iota. change (Ascii.eqb ":" ":") with true. cbv iota.
  rewrite (skip_ws_app wk _ Hwk), (skip_ws_start _ V), Sv. done.
Qed.

Lemma scan_entries_ok d fuel g rest :
  Forall (fun kv => scans kv.2) d -> d <> [] -> (String.length (str_join (String "," wi) (map entry d)) < fuel)%nat -> (length d <= g)%nat ->
  scan_entries (scan_once fuel) g (str_join (String "," wi) (map entry d) +:+ String "}" rest) = Ok (d, rest) /\
  (length d <= String.length (str_join (String "," wi) (map entry d)))%nat.
Proof.
  intros F. revert g. induction F as [|[k v] d Hv F IH]; intros g N B G; [done|]. destruct g as [|g]; [cbn in G; lia|].
  cbn [snd] in Hv. destruct d as [|kv d].
  - cbn [map str_join] in *. split; [|rewrite !str_length_app; cbn; lia]. by rewrite (scan_entry_ok k v fuel g (String "}" rest) Hv B eq_refl).
  - assert (E : exists tail, str_join (String "," wi) (map entry (kv :: d)) = tail) by eauto. destruct E as [tail T].
    assert (J : str_join (String "," wi) (map entry ((k, v) :: kv :: d)) = entry (k, v) +:+ (String "," wi +:+ tail)) by (by rewrite <- T).
    rewrite T in IH. rewrite J in *. rewrite !str_length_app in B. cbn [fst snd String.length] in B.
    destruct (IH g ltac:(done) ltac:(lia) ltac:(cbn in G |- *; lia)) as (S1 & L1). split.
    + rewrite append_assoc. change ((String "," wi +:+ tail) +:+ String "}" rest) with (String "," ((wi +:+ tail) +:+ String "}" rest)).
      rewrite (scan_entry_ok k v fuel g _ Hv); [|rewrite !str_length_app; cbn [fst snd String.length]; lia|done].
      cbn [skip_ws]. change (is_json_ws ",") with false. cbv iota. change (Ascii.eqb "," "}") with false. change (Ascii.eqb "," ",") with true. cbv iota.
      rewrite append_assoc, (skip_ws_app wi _ Hwi). rewrite (skip_ws_start (tail +:+ String "}" rest)), S1; [done|].
      rewrite <- T. destruct kv as [k' v']. by destruct d.
    + rewrite !str_length_app. cbn [fst snd String.length length] in *. lia.
Qed.

Lemma od_set_fresh (d : dict) k v : k ∉ d.*1 -> od_set k v d = d ++ [(k, v)].
Proof. apply (od_keys_set_notin d k v). Qed.

Lemma dict_merge_fresh a b : NoDup (a ++ b).*1 -> dict_merge a b = a ++ b.
Proof.
  unfold dict_merge. revert a. induction b as [|[k v] b IH]; intros a N; simpl; [by rewrite app_nil_r|].
  rewrite od_set_fresh. { rewrite IH; [by rewrite <- app_assoc|]. by rewrite <- app_assoc. }
  rewrite fmap_app, NoDup_app in N. destruct N as (_ & N & _). intros Hk. apply (N _ Hk). left.
Qed.

Lemma exact_scans v : json_exact v = true -> scans v.
Proof.
  induction v as [v Nl Nd|l IH|d IH] using pyval_nested_ind; intros E fuel rest B R.
  { destruct fuel as [|fuel]; [lia|]. destruct v as [|b|z|x|d|s|l|d]; try done.
    - by destruct b.
    - by apply scan_once_Z.
    - cbn [dumps_with]. unfold json_string.
      change (String dquote (json_escape s +:+ String dquote "") +:+ rest) with (String dquote ((json_escape s +:+ String dquote "") +:+ rest)).
      split; [|done]. rewrite append_assoc. change (String dquote "" +:+ rest) with (String dquote rest).
      cbn [scan_once]. rewrite Ascii.eqb_refl, scan_string_escape. done.
    - by destruct (Nl l).
    - by destruct (Nd d). }
  - destruct fuel as [|fuel]; [lia|]. cbn [json_exact] in E. rewrite forallb_forall in E.
    assert (F : Forall scans l) by (rewrite Forall_forall in IH |- *; intros x Hx; apply IH, E, list_elem_of_In; done).
    cbn [dumps_with] in *. rewrite !str_length_app in B. cbn [String.length] in B. split; [|done]. rewrite !append_assoc.
    set (body := str_join (String "," wi) (map dumps l)) in *.
    change ("[" +:+ (body +:+ ("]" +:+ rest))) with (String "[" (body +:+ String "]" rest)).
    cbn [scan_once]. change (Ascii.eqb "[" dquote) with false. change (Ascii.eqb "[" "{") with false. change (Ascii.eqb "[" "[") with true. cbv iota.
    destruct (decide (l = [])) as [->|N]; [done|].
    assert (L : (length l <= fuel)%nat).
    { destruct (scan_items_ok l (S (String.length body)) (length l) rest F N ltac:(unfold body; lia) ltac:(lia)) as (_ & _ & L). fold body in L. lia. }
    destruct (scan_items_ok l fuel fuel rest F N ltac:(fold body; lia) L) as (S1 & V & _). fold body in S1, V.
    rewrite (skip_ws_start _ V), S1. destruct (body +:+ String "]" rest) as [|c t]; [done|].
    cbn [value_start] in V. apply andb_true_iff in V as [_ V]. by destruct (Ascii.eqb c "]").
  - destruct fuel as [|fuel]; [lia|]. cbn [json_exact] in E. apply andb_true_iff in E as [ND%bool_decide_eq_true E]. rewrite forallb_forall in E.
    assert (F : Forall (fun kv => scans kv.2) d) by (rewrite Forall_forall in IH |- *; intros x Hx; apply IH, E, list_elem_of_In; done).
    cbn [dumps_with] in *. rewrite !str_length_app in B. cbn [String.length] in B. split; [|done]. rewrite !append_assoc.
    set (body := str_join (String "," wi) (map entry d)) in *.
    change ("{" +:+ (body +:+ ("}" +:+ rest))) with (String "{" (body +:+ String "}" rest)).
    cbn [scan_once]. change (Ascii.eqb "{" dquote) with false. change (Ascii.eqb "{" "{") with true. cbv iota.
    destruct (decide (d = [])) as [->|N]; [done|].
    assert (V : exists t, body +:+ String "}" rest = String dquote t).
    { unfold body. destruct d as [|[k v] [|kv d]]; [done|by eexists..]. }
    destruct V as [t V].
    assert (L : (length d <= fuel)%nat).
    { destruct (scan_entries_ok d (S (String.length body)) (length d) rest F N ltac:(unfold body; lia) ltac:(lia)) as (_ & L). fold body in L. lia. }
    destruct (scan_entries_ok d fuel fuel rest F N ltac:(fold body; lia) L) as (S1 & _). fold body in S1.
    rewrite V in *. cbn [skip_ws]. change (is_json_ws dquote) with false. cbv iota. change (Ascii.eqb dquote "}") with false. cbv iota.
    rewrite S1. unfold mbind, result_bind. by rewrite (dict_merge_fresh [] d).
Qed.

Lemma loads_dumps v : json_exact v = true -> loads (dumps v) = Ok v.
Proof.
  intros E. destruct (exact_scans v E (S (String.length (dumps v))) "" ltac:(lia) eq_refl) as [S1 V].
  rewrite append_nil in *. unfold loads. rewrite (skip_ws_start _ V), S1. done.
Qed.
End RoundTrip.

(** [json.loads] gives back what [json.dumps(..., default=str)] was given,
    with the compact separators of the cache and of pub/sub as well as with the
    default ones of the session store, for every value of nulls, booleans,
    integers, text, lists and dicts with distinct keys. *)
Theorem json_round_trip v :
  json_exact v = true -> loads (dumps_compact v) = Ok v /\ loads (dumps_default v) = Ok v.
Proof.
  intros E. split; [exact (loads_dumps "" "" eq_refl eq_refl v E)|exact (loads_dumps " " " " eq_refl eq_refl v E)].
Qed.

Lemma json_round_trip_witness :
  let v := PDict [("a", PList [PInt (-12); PNone; PBool true]); ("q", PStr (dq "say 'hi'
"))] in
  loads (dumps_compact v) = Ok v.
Proof. intros v. apply (json_round_trip v). vm_compute. reflexivity. Defined.

(** [json.dumps] without [default], on such values, writes the same text. *)
Lemma json_dumps_exact v : json_exact v = true -> json_dumps v = Ok (dumps_compact v).
Proof.
  unfold dumps_compact. induction v as [v Hl Hd|l IH|d IH] using pyval_nested_ind; intros Ex.
  - destruct v as [| | | | | |l|d]; try done; [by destruct (Hl l)|by destruct (Hd d)].
  - cbn [json_dumps dumps_with json_exact] in *.
    match goal with |- context [mbind _ (?go l)] => assert (G : go l = Ok (map (dumps_with "," ":") l)) end.
    { induction IH as [|x l Hx Hl IHl]; [done|]. cbn [forallb] in Ex. apply andb_true_iff in Ex as [E1 E2].
      rewrite (Hx E1). cbn. by rewrite IHl. }
    by rewrite G.
  - cbn [json_dumps dumps_with json_exact] in *. apply andb_true_iff in Ex as [_ Ex].
    match goal with |- context [mbind _ (?go d)] =>
      assert (G : go d = Ok (map (fun kv => json_string kv.1 +:+ ":" +:+ dumps_with "," ":" kv.2) d)) end.
    { induction IH as [|[k x] l Hx Hl IHl]; [done|]. cbn [forallb snd] in Ex. apply andb_true_iff in Ex as [E1 E2].
      cbn [snd] in Hx. rewrite (Hx E1). cbn. by rewrite IHl. }
    by rewrite G.
Qed.
