(* ===== verification/RedisStore.v ===== *)
(** * RedisStore: the Redis services ([redis/manager.py])

    Cache, pub/sub, distributed locks, rate limits, sessions and the engine
    channels, over the interface [RedisServer]: the commands the module issues
    and what the Redis documentation promises of them, through a view of the
    live keys with their values and remaining lifetimes in milliseconds.
    [gmap_server] is a server that keeps the promises. The clock of the server
    moves with [rd_elapse]; [now] is [time.time()]; tokens are [uuid] values. *)

From Stdlib Require Import Ascii.
From S2P Require Import Prelude Rounding PyFloat PyDecimal PyData PyValue Models Signing Hardening Json.

#[local] Open Scope string_scope.
#[local] Open Scope list_scope.

Notation Keys := (gmap string (string * option Z)).

(** The keys left after [ms] milliseconds. *)
Definition age_entry (ms : Z) (e : string * option Z) : option (string * option Z) :=
  match e.2 with
  | None => Some e
  | Some ttl => if (ttl <=? ms)%Z then None else Some (e.1, Some (ttl - ms)%Z)
  end.
Definition age (ms : Z) (m : Keys) : Keys := omap (age_entry ms) m.

Class RedisServer (R : Type) : Type := {
  rd_view : R -> Keys;
  rd_get : string -> R -> option string;
  rd_set : string -> string -> bool -> option Z -> SE R bool;   (* key, value, nx, lifetime *)
  rd_del : string -> SE R Z;
  rd_incr : string -> SE R Z;
  rd_expire : string -> Z -> SE R unit;
  rd_publish : string -> string -> SE R Z;
  rd_elapse : Z -> R -> R;
  rd_get_spec k r : rd_get k r = fst <$> rd_view r !! k;
  rd_set_spec k v nx ttl r : match ttl with Some t => (0 < t)%Z | None => True end ->
    exists r', rd_set k v nx ttl r =
      (r', Ok (negb (nx && bool_decide (is_Some (rd_view r !! k))))) /\
      rd_view r' = if nx && bool_decide (is_Some (rd_view r !! k)) then rd_view r else <[k := (v, ttl)]> (rd_view r);
  rd_del_spec k r : exists r', rd_del k r = (r', Ok (if bool_decide (is_Some (rd_view r !! k)) then 1 else 0)%Z) /\
    rd_view r' = delete k (rd_view r);
  rd_incr_new k r : rd_view r !! k = None ->
    exists r', rd_incr k r = (r', Ok 1%Z) /\ rd_view r' = <[k := (str_of_Z 1, None)]> (rd_view r);
  rd_incr_spec k r n ttl : rd_view r !! k = Some (str_of_Z n, ttl) -> (n + 1 < 2 ^ 63)%Z ->
    exists r', rd_incr k r = (r', Ok (n + 1)%Z) /\ rd_view r' = <[k := (str_of_Z (n + 1), ttl)]> (rd_view r);
  rd_expire_spec k ttl r : (0 < ttl)%Z ->
    exists r', rd_expire k ttl r = (r', Ok tt) /\ rd_view r' = alter (fun e => (e.1, Some ttl)) k (rd_view r);
  rd_publish_spec channel message r :
    exists r' n, rd_publish channel message r = (r', Ok n) /\ rd_view r' = rd_view r;
  rd_elapse_spec ms r : rd_view (rd_elapse ms r) = age ms (rd_view r) }.

(** ** A server that keeps the promises *)

#[export] Instance gmap_server : RedisServer Keys.
Proof.
  refine {| rd_view r := r; rd_get k r := fst <$> r !! k;
    rd_set k v nx ttl r := if nx && bool_decide (is_Some (r !! k)) then (r, Ok false) else (<[k := (v, ttl)]> r, Ok true);
    rd_del k r := (delete k r, Ok (if bool_decide (is_Some (r !! k)) then 1 else 0)%Z);
    rd_incr k r := match r !! k with
                   | None => (<[k := (str_of_Z 1, None)]> r, Ok 1%Z)
                   | Some (s, ttl) => match scan_number s with
                                      | Some (PInt n, _) => if (n + 1 <? 2 ^ 63)%Z then (<[k := (str_of_Z (n + 1), ttl)]> r, Ok (n + 1)%Z)
                                                  else (r, raise ValueError "increment would overflow")
                                      | _ => (r, raise ValueError "value is not an integer")
                                      end
                   end;
    rd_expire k ttl r := (alter (fun e => (e.1, Some ttl)) k r, Ok tt);
    rd_publish _ _ r := (r, Ok 0%Z);
    rd_elapse := age |}.
  - done.
  - intros k v nx ttl r _. destruct (nx && _); by eexists.
  - intros. by eexists.
  - intros k r ->. by eexists.
  - intros k r n ttl -> B. rewrite scan_number_whole. rewrite (proj2 (Z.ltb_lt _ _)) by done. by eexists.
  - intros. by eexists.
  - intros. by eexists _, _.
  - done.
Defined.

(** [RedisManager.health_check]: three attempts ([ping] answers by attempt),
    then tenacity's [RetryError]. *)
Fixpoint retry_ping (ping : nat -> result bool) (attempt left : nat) : result bool :=
  match left with
  | O => raise RetryError "RetryError"
  | S left' => match ping attempt with Ok b => Ok b | Err _ => retry_ping ping (S attempt) left' end
  end.
Definition health_check (ping : nat -> result bool) : result bool := retry_ping ping 0 3.

Section Services.
Context {R : Type} `{RedisServer R}.

(** ** [CacheManager], [PubSubFramework] *)

Definition ttl_ms (seconds : option Z) : option Z := (fun s => s * 1000)%Z <$> seconds.

Definition set_json (key : string) (value : pyval) (ttl_seconds : option Z) : SE R unit :=
  _ ← rd_set key (dumps_compact value) false (ttl_ms ttl_seconds); mret tt.

Definition get_json (key : string) : SE R pyval :=
  fun r => (r, match rd_get key r with None => Ok PNone | Some value => loads value end).

Definition cache_delete (key : string) : SE R unit := _ ← rd_del key; mret tt.

Definition pubsub_publish (channel : string) (payload : pyval) : SE R Z := rd_publish channel (dumps_compact payload).

(** ** [DistributedLockManager]

    The release script runs as one command on the server. *)
Definition release_script (key token : string) : SE R Z :=
  fun r => if bool_decide (rd_get key r = Some token) then rd_del key r else (r, Ok 0%Z).

Definition lock_acquire (uuid : string) (key : string) (ttl_ms : Z) : SE R (option string) :=
  acquired ← rd_set key uuid true (Some ttl_ms);
  mret (if (acquired : bool) then Some uuid else None).

Definition release (key token : string) : SE R bool :=
  n ← release_script key token; mret (negb (n =? 0)%Z).

(** ** [RateLimitStorage] *)

Definition rate_bucket (key : string) (bucket : Z) : string := "rate:" +:+ key +:+ ":" +:+ str_of_Z bucket.

Definition allow (now : float) (key : string) (limit window_seconds : Z) : SE R (bool * Z) :=
  bucket ← se_lift (bucket_index window_seconds now);
  count ← rd_incr (rate_bucket key bucket);
  _ ← (if (count =? 1)%Z then rd_expire (rate_bucket key bucket) (window_seconds * 1000) else mret tt);
  mret ((count <=? limit)%Z, Z.max 0 (limit - count)).

(** ** [SessionStorage] *)

Definition session_key (session_id : string) : string := "session:" +:+ session_id.

Definition session_create (session_id : string) (payload : dict) (ttl_seconds : Z) : SE R unit :=
  _ ← rd_set (session_key session_id) (dumps_default (PDict payload)) false (ttl_ms (Some ttl_seconds)); mret tt.

Definition session_get (session_id : string) : SE R pyval :=
  fun r => (r, match rd_get (session_key session_id) r with None => Ok PNone | Some data => loads data end).

Definition session_revoke (session_id : string) : SE R unit := _ ← rd_del (session_key session_id); mret tt.

(** ** [EngineCommunicationLayer] *)

Definition publish_event (now : float) (engine event_type : string) (payload : dict) : SE R Z :=
  let event := PDict [("engine", PStr engine); ("event_type", PStr event_type); ("payload", PDict payload); ("published_at", PFloat now)] in
  _ ← set_json ("engine:last_event:" +:+ engine) event (Some 86400%Z);
  pubsub_publish ("engine.events." +:+ engine) event.

Definition publish_command (now : float) (engine command_type : string) (payload : dict) : SE R Z :=
  let command := PDict [("engine", PStr engine); ("command_type", PStr command_type); ("payload", PDict payload); ("published_at", PFloat now)] in
  pubsub_publish ("engine.commands." +:+ engine) command.
End Services.

(** ** Lifetimes *)

Section Lifetimes.
Context {R : Type} `{RedisServer R}.

Lemma lookup_age ms m k : age ms m !! k = m !! k ≫= age_entry ms.
Proof. unfold age. apply lookup_omap. Qed.

(** A value set with a lifetime is there until the lifetime is over. *)
Lemma set_lives k v ttl ms (r : R) : (0 < ttl)%Z ->
  rd_get k (rd_elapse ms (rd_set k v false (Some ttl) r).1) = if (ttl <=? ms)%Z then None else Some v.
Proof.
  intros T. destruct (rd_set_spec k v false (Some ttl) r T) as (r' & -> & V). cbn [fst andb] in *.
  rewrite rd_get_spec, rd_elapse_spec, lookup_age, V, lookup_insert_eq. cbn. unfold age_entry. cbn. by destruct (ttl <=? ms)%Z.
Qed.

Lemma rd_set_ok k v nx ttl (r : R) : (0 < ttl)%Z -> exists b, (rd_set k v nx (Some ttl) r).2 = Ok b.
Proof. intros T. destruct (rd_set_spec k v nx (Some ttl) r T) as (r' & -> & _). eauto. Qed.

Lemma session_create_state id payload ttl (r : R) : (0 < ttl)%Z ->
  session_create id payload ttl r = ((rd_set (session_key id) (dumps_default (PDict payload)) false (Some (ttl * 1000)%Z) r).1, Ok tt).
Proof.
  intros T. unfold session_create, mbind, se_bind. cbn [ttl_ms fmap option_fmap option_map].
  destruct (rd_set_spec (session_key id) (dumps_default (PDict payload)) false (Some (ttl * 1000)%Z) r ltac:(cbn; lia)) as (r' & -> & _). done.
Qed.
End Lifetimes.

(** A session created with a lifetime of [ttl] seconds is read back with
    exactly its payload until the lifetime is over, and is gone from then on;
    revoking it makes it gone at once. *)
Theorem session_lifetime {R} `{RedisServer R} id payload ttl ms (r : R) :
  json_exact (PDict payload) = true -> (0 < ttl)%Z ->
  let r1 := (session_create id payload ttl r).1 in
  (session_create id payload ttl r).2 = Ok tt /\
  (session_get id (rd_elapse ms r1)).2 = Ok (if (ms <? ttl * 1000)%Z then PDict payload else PNone) /\
  (session_get id (session_revoke id r1).1).2 = Ok PNone.
Proof.
  intros E T. rewrite session_create_state by done. cbn [fst snd]. split; [done|]. split.
  - unfold session_get. cbn [snd]. rewrite set_lives by lia. rewrite Z.leb_antisym.
    destruct (ms <? ttl * 1000)%Z; cbn [negb]; [|done]. by apply (json_round_trip (PDict payload) E).
  - unfold session_revoke, mbind, se_bind. set (r1 := (rd_set _ _ _ _ _).1).
    destruct (rd_del_spec (session_key id) r1) as (r2 & -> & V). unfold session_get. cbn [fst snd mret se_ret].
    by rewrite rd_get_spec, V, lookup_delete_eq.
Qed.

Lemma session_lifetime_witness :
  (session_get "s" (rd_elapse 59999 (session_create "s" [("user", PInt 7)] 60 (∅ : Keys)).1)).2 = Ok (PDict [("user", PInt 7)]).
Proof. apply (session_lifetime "s" [("user", PInt 7)] 60 59999 (∅ : Keys)); [reflexivity|lia]. Defined.

(** ** Locks *)

Section Locks.
Context {R : Type} `{RedisServer R} (uuid : nat -> string) `{!Inj (=) (=) uuid}.

(** What a client was told: it holds [key] under [token] for the remaining
    time. *)
Record Lease : Type := mkLease { le_client : nat; le_key : string; le_token : string; le_remaining : Z }.

(** The server, the tokens handed out so far, and the leases in force. *)
Record LockSystem : Type := mkLocks {
  lk_server : R; lk_issued : list (nat * string * string); lk_leases : list Lease }.

Definition age_lease (ms : Z) (l : Lease) : option Lease :=
  if (le_remaining l <=? ms)%Z then None else Some (mkLease (le_client l) (le_key l) (le_token l) (le_remaining l - ms)).

(** Clients lock_acquire, with a new token each time, release with tokens they were
    issued, at any time, and time passes; the answer to an acquisition may be
    lost on its way to the client. *)
Inductive lock_step : LockSystem -> LockSystem -> Prop :=
  | step_acquire s client key ttl r' answer :
      (0 < ttl)%Z ->
      lock_acquire (uuid (length (lk_issued s))) key ttl (lk_server s) = (r', Ok answer) ->
      lock_step s (mkLocks r' (lk_issued s ++ [(client, key, uuid (length (lk_issued s)))])
                     (match answer with
                      | Some token => mkLease client key token ttl :: lk_leases s
                      | None => lk_leases s
                      end))
  | step_acquire_lost s client key ttl r' answer :
      (0 < ttl)%Z ->
      lock_acquire (uuid (length (lk_issued s))) key ttl (lk_server s) = (r', Ok answer) ->
      lock_step s (mkLocks r' (lk_issued s ++ [(client, key, uuid (length (lk_issued s)))]) (lk_leases s))
  | step_release s client key token r' answer :
      (client, key, token) ∈ lk_issued s ->
      release key token (lk_server s) = (r', Ok answer) ->
      lock_step s (mkLocks r' (lk_issued s)
                     (List.filter (fun l => negb ((le_client l =? client)%nat && String.eqb (le_key l) key && String.eqb (le_token l) token)) (lk_leases s)))
  | step_elapse s ms :
      (0 <= ms)%Z ->
      lock_step s (mkLocks (rd_elapse ms (lk_server s)) (lk_issued s) (omap (age_lease ms) (lk_leases s))).

Definition locks_start (s : LockSystem) : Prop := rd_view (lk_server s) = ∅ /\ lk_issued s = [] /\ lk_leases s = [].

(** Every lease in force is on the server, under an issued token; tokens are
    issued once and keys are leased once. *)
Record locks_ok (s : LockSystem) : Prop := {
  lo_held l : l ∈ lk_leases s -> rd_view (lk_server s) !! le_key l = Some (le_token l, Some (le_remaining l)) /\
                                 (le_client l, le_key l, le_token l) ∈ lk_issued s;
  lo_keys : NoDup (le_key <$> lk_leases s);
  lo_tokens i e : lk_issued s !! i = Some e -> e.2 = uuid i }.

Lemma acquire_spec token key ttl (r : R) : (0 < ttl)%Z ->
  exists r', lock_acquire token key ttl r = (r', Ok (if bool_decide (is_Some (rd_view r !! key)) then None else Some token)) /\
    rd_view r' = if bool_decide (is_Some (rd_view r !! key)) then rd_view r else <[key := (token, Some ttl)]> (rd_view r).
Proof.
  intros T. unfold lock_acquire, mbind, se_bind. destruct (rd_set_spec key token true (Some ttl) r T) as (r' & -> & V). cbn [andb] in V.
  exists r'. split; [|done]. by destruct (bool_decide _).
Qed.

Lemma release_spec key token (r : R) :
  exists r', release key token r = (r', Ok (bool_decide (rd_get key r = Some token))) /\
    rd_view r' = if bool_decide (rd_get key r = Some token) then delete key (rd_view r) else rd_view r.
Proof.
  unfold release, release_script, mbind, se_bind. case_bool_decide as D; [|by exists r].
  destruct (rd_del_spec key r) as (r' & -> & V). exists r'. split; [|done].
  rewrite rd_get_spec in D. rewrite bool_decide_true; [done|]. destruct (rd_view r !! key); [done|]. done.
Qed.

Lemma issued_once s c1 k1 c2 k2 t : locks_ok s -> (c1, k1, t) ∈ lk_issued s -> (c2, k2, t) ∈ lk_issued s -> c1 = c2 /\ k1 = k2.
Proof.
  intros O (i & Hi)%list_elem_of_lookup (j & Hj)%list_elem_of_lookup.
  pose proof (lo_tokens s O _ _ Hi) as Ti. pose proof (lo_tokens s O _ _ Hj) as Tj. simpl in Ti, Tj. rewrite Ti in Tj.
  apply (inj uuid) in Tj as <-. rewrite Hi in Hj. by injection Hj.
Qed.

Lemma issue_tokens s c k : locks_ok s ->
  forall i e, (lk_issued s ++ [(c, k, uuid (length (lk_issued s)))]) !! i = Some e -> e.2 = uuid i.
Proof.
  intros O i e [Hi|[Hi Hl]]%lookup_app_Some; [by apply (lo_tokens s O)|].
  apply list_lookup_singleton_Some in Hl as [E <-]. simpl. f_equal. lia.
Qed.

Lemma acquired_ok s c k ttl r' answer : locks_ok s -> (0 < ttl)%Z ->
  lock_acquire (uuid (length (lk_issued s))) k ttl (lk_server s) = (r', Ok answer) ->
  locks_ok (mkLocks r' (lk_issued s ++ [(c, k, uuid (length (lk_issued s)))]) (lk_leases s)) /\
  forall token, answer = Some token ->
    rd_view r' !! k = Some (token, Some ttl) /\ token = uuid (length (lk_issued s)) /\ k ∉ (le_key <$> lk_leases s).
Proof.
  intros O T E. destruct (acquire_spec (uuid (length (lk_issued s))) k ttl (lk_server s) T) as (r1 & E1 & V).
  rewrite E in E1. injection E1 as <- ->.
  assert (F : bool_decide (is_Some (rd_view (lk_server s) !! k)) = false -> k ∉ (le_key <$> lk_leases s)).
  { intros B. apply bool_decide_eq_false in B. intros (l & -> & Hl)%list_elem_of_fmap. apply B. destruct (lo_held s O l Hl) as [-> _]. by eexists. }
  split; [split|].
  - intros l Hl. destruct (lo_held s O l Hl) as [Hv Hi]. split; [|set_solver]. cbn [lk_server]. rewrite V.
    case_bool_decide as B; [done|]. rewrite lookup_insert_ne; [done|]. intros ->. apply B. rewrite Hv. by eexists.
  - apply (lo_keys s O).
  - by apply issue_tokens.
  - intros token A. destruct (bool_decide _) eqn:B; [done|]. injection A as <-. rewrite V, lookup_insert_eq. auto.
Qed.

Lemma age_lease_keys ms l : sublist (le_key <$> omap (age_lease ms) l) (le_key <$> l).
Proof.
  induction l as [|x l IH]; simpl; [done|]. unfold age_lease at 1. destruct (le_remaining x <=? ms)%Z; simpl; by constructor.
Qed.

Lemma filter_sublist {X} (f : X -> bool) l : sublist (List.filter f l) l.
Proof. induction l as [|x l IH]; simpl; [done|]. destruct (f x); by constructor. Qed.

Lemma lock_step_ok s s' : locks_ok s -> lock_step s s' -> locks_ok s'.
Proof.
  intros O St. destruct St as [s c k ttl r' answer T E|s c k ttl r' answer T E|s c k token r' answer Hin E|s ms Hms].
  - destruct (acquired_ok s c k ttl r' answer O T E) as [[Hh Hk Ht] A]. destruct answer as [token|]; [|by split].
    destruct (A token eq_refl) as (V & -> & F). split; [|by constructor|done].
    intros l [->|Hl]%elem_of_cons; [cbn|by apply Hh]. split; [done|]. set_solver.
  - by apply (acquired_ok s c k ttl r' answer).
  - destruct (release_spec k token (lk_server s)) as (r1 & E1 & V). rewrite E in E1. injection E1 as <- ->.
    split; [|eapply sublist_NoDup; [apply (lo_keys s O)|apply fmap_sublist, filter_sublist]|apply (lo_tokens s O)].
    cbn [lk_leases lk_server lk_issued]. intros l [Hl N]%list_elem_of_In%filter_In. apply list_elem_of_In in Hl.
    destruct (lo_held s O l Hl) as [Hv Hi]. split; [|done]. rewrite V. case_bool_decide as B; [|done].
    destruct (decide (le_key l = k)) as [D|D]; [|by rewrite lookup_delete_ne]. exfalso. subst k.
    rewrite rd_get_spec, Hv in B. injection B as B. subst token. destruct (issued_once s _ _ _ _ _ O Hi Hin) as [C _].
    by rewrite C, Nat.eqb_refl, !String.eqb_refl in N.
  - split; [|eapply sublist_NoDup; [apply (lo_keys s O)|apply age_lease_keys]|apply (lo_tokens s O)].
    cbn [lk_leases lk_server lk_issued]. intros l (x & Hx & A)%list_elem_of_omap. destruct (lo_held s O x Hx) as [Hv Hi].
    unfold age_lease in A. destruct (le_remaining x <=? ms)%Z eqn:B; [done|]. injection A as <-. cbn. split; [|done].
    rewrite rd_elapse_spec, lookup_age, Hv. cbn. unfold age_entry. cbn. by rewrite B.
Qed.
End Locks.

(** C14: mutual exclusion. Whatever the clients do with the locks (lock_acquire,
    lose the answer, release early, late or twice) and however time passes, at
    most one lease per key is in force, the server holds exactly its token, and
    a second acquisition is refused; a key that is released or expired can be
    acquired. The tokens only have to be distinct. *)
Theorem lock_mutual_exclusion {R} `{RedisServer R} (uuid : nat -> string) `{!Inj (=) (=) uuid} (s0 s : LockSystem (R := R)) :
  locks_start s0 -> rtc (lock_step uuid) s0 s ->
  (forall l1 l2, l1 ∈ lk_leases s -> l2 ∈ lk_leases s -> le_key l1 = le_key l2 -> l1 = l2) /\
  (forall l token ttl, l ∈ lk_leases s -> (0 < ttl)%Z ->
     rd_get (le_key l) (lk_server s) = Some (le_token l) /\ (lock_acquire token (le_key l) ttl (lk_server s)).2 = Ok None) /\
  (forall key token ttl, rd_get key (lk_server s) = None -> (0 < ttl)%Z -> (lock_acquire token key ttl (lk_server s)).2 = Ok (Some token)).
Proof.
  intros (V0 & I0 & L0) St.
  assert (O : locks_ok uuid s).
  { assert (O0 : locks_ok uuid s0) by (split; rewrite ?I0, ?L0; [by intros ? ?%not_elem_of_nil|constructor|done]).
    clear V0 I0 L0. induction St as [s|s1 s2 s3 S1 _ IH]; [done|]. eapply IH, lock_step_ok; eauto. }
  split; [|split].
  - intros l1 l2 (i & Hi)%list_elem_of_lookup (j & Hj)%list_elem_of_lookup K.
    assert (i = j) as <-; [|congruence].
    apply (NoDup_lookup (le_key <$> lk_leases s) i j (le_key l1)); [apply (lo_keys uuid s O)|..]; rewrite list_lookup_fmap; [by rewrite Hi|by rewrite Hj, K].
  - intros l token ttl Hl T. destruct (lo_held uuid s O l Hl) as [Hv _]. split; [by rewrite rd_get_spec, Hv|].
    destruct (acquire_spec token (le_key l) ttl (lk_server s) T) as (r' & -> & _). by rewrite Hv.
  - intros key token ttl G T. destruct (acquire_spec token key ttl (lk_server s) T) as (r' & -> & _).
    rewrite rd_get_spec in G. by destruct (rd_view (lk_server s) !! key).
Qed.

Definition demo_token (n : nat) : string := str_of_Z (Z.of_nat n).

#[export] Instance demo_token_inj : Inj (=) (=) demo_token.
Proof. intros a b E. unfold demo_token, str_of_Z in E. apply (inj pretty) in E. lia. Qed.

(** Client 1 takes a lock for a second, client 2 is refused after 400 ms. *)
Lemma lock_mutual_exclusion_witness :
  let s := mkLocks (<["k" := ("0", Some 600%Z)]> (∅ : Keys)) [(1%nat, "k", "0"); (2%nat, "k", "1")] [mkLease 1 "k" "0" 600%Z] in
  (lock_acquire "2" "k" 50%Z (lk_server s)).2 = Ok None.
Proof.
  intros s.
  refine (proj2 (proj1 (proj2 (lock_mutual_exclusion demo_token (mkLocks (∅ : Keys) [] []) s _ _)) (mkLease 1 "k" "0" 600%Z) "2" 50%Z _ _)).
  - done.
  - eapply rtc_l; [apply (step_acquire demo_token _ 1 "k" 1000%Z); [lia|reflexivity]|].
    eapply rtc_l; [apply (step_elapse demo_token _ 400%Z); lia|].
    eapply rtc_l; [apply (step_acquire demo_token _ 2 "k" 1000%Z); [lia|reflexivity]|]. apply rtc_refl.
  - left.
  - lia.
Defined.

(** ** Rate limits *)

Section Rates.
Context {R : Type} `{RedisServer R} (key : string) (limit window : Z) (bucket : Z).
Context (Hw : (0 < window)%Z).

(** Calls in one window: the time before each call, in milliseconds, and what
    the clock says at it. *)
Fixpoint allow_all (calls : list (Z * float)) (r : R) : list (result (bool * Z)) :=
  match calls with
  | [] => []
  | (ms, now) :: rest => let '(r', a) := allow now key limit window (rd_elapse ms r) in a :: allow_all rest r'
  end.

Lemma allow_next now r n ttl :
  bucket_index window now = Ok bucket -> (0 < n < 2 ^ 62)%Z -> rd_view r !! rate_bucket key bucket = Some (str_of_Z n, ttl) ->
  exists r', allow now key limit window r = (r', Ok ((n + 1 <=? limit)%Z, Z.max 0 (limit - (n + 1)))) /\
    rd_view r' !! rate_bucket key bucket = Some (str_of_Z (n + 1), ttl).
Proof.
  intros B Hn V. unfold allow, mbind, se_bind, se_lift. rewrite B.
  destruct (rd_incr_spec (rate_bucket key bucket) r n ttl V ltac:(lia)) as (r' & -> & V').
  rewrite (proj2 (Z.eqb_neq (n + 1) 1)) by lia. exists r'. split; [done|]. by rewrite V', lookup_insert_eq.
Qed.

Lemma allow_all_from calls r n ttl :
  Forall (fun c => 0 <= c.1 /\ bucket_index window c.2 = Ok bucket)%Z calls ->
  (foldr (fun c t => c.1 + t) 0 calls < ttl)%Z -> (0 < n)%Z -> (n + Z.of_nat (length calls) < 2 ^ 62)%Z ->
  rd_view r !! rate_bucket key bucket = Some (str_of_Z n, Some ttl) ->
  allow_all calls r = map (fun i => Ok ((n + Z.of_nat i <=? limit)%Z, Z.max 0 (limit - (n + Z.of_nat i)))) (seq 1 (length calls)).
Proof.
  intros F. revert r n ttl. induction F as [|[ms now] rest [H0 HB] F IH]; intros r n ttl T N L V; [done|]. cbn [allow_all foldr length fst snd] in *.
  assert (0 <= foldr (fun c t => c.1 + t) 0 rest)%Z.
  { clear - F. induction F as [|c l [] _ IHl]; simpl; lia. }
  destruct (allow_next now (rd_elapse ms r) n (Some (ttl - ms)%Z) HB ltac:(lia)) as (r' & -> & V').
  { rewrite rd_elapse_spec, lookup_age, V. cbn. unfold age_entry. cbn. by rewrite (proj2 (Z.leb_gt _ _)) by lia. }
  cbn [seq map]. f_equal. rewrite (IH r' (n + 1)%Z (ttl - ms)%Z) by (done || lia).
  rewrite <- (seq_shift (length rest) 1), map_map. apply map_ext. intros i. by replace (n + 1 + Z.of_nat i)%Z with (n + Z.of_nat (S i))%Z by lia.
Qed.
End Rates.

(** Of the calls made in one window, starting from a bucket that is not
    there, [RateLimitStorage.allow] answers the i-th with whether i is within
    the limit and how many calls are left: the expiry set at the first call
    keeps the count for the whole window. *)
Theorem allow_counts {R} `{RedisServer R} key limit window bucket (r : R) now calls :
  (0 < window)%Z -> rd_view r !! rate_bucket key bucket = None -> bucket_index window now = Ok bucket ->
  Forall (fun c => 0 <= c.1 /\ bucket_index window c.2 = Ok bucket)%Z calls ->
  (foldr (fun c t => c.1 + t) 0 calls < window * 1000)%Z -> (Z.of_nat (length calls) < 2 ^ 61)%Z ->
  allow_all key limit window ((0%Z, now) :: calls) r =
  map (fun i => Ok ((Z.of_nat i <=? limit)%Z, Z.max 0 (limit - Z.of_nat i))) (seq 1 (S (length calls))).
Proof.
  intros Hw V B F T L. cbn [allow_all]. unfold allow, mbind, se_bind, se_lift. rewrite B.
  destruct (rd_incr_new (rate_bucket key bucket) (rd_elapse 0 r)) as (r1 & -> & V1).
  { by rewrite rd_elapse_spec, lookup_age, V. }
  cbn [Z.eqb Pos.eqb]. destruct (rd_expire_spec (rate_bucket key bucket) (window * 1000) r1 ltac:(lia)) as (r2 & -> & V2).
  cbn [mret se_ret seq map]. f_equal.
  rewrite (allow_all_from key limit window bucket calls r2 1 (window * 1000)); [|done..|lia|lia|].
  - rewrite <- (seq_shift (length calls) 1), map_map. apply map_ext. intros i. by replace (1 + Z.of_nat i)%Z with (Z.of_nat (S i))%Z by lia.
  - by rewrite V2, lookup_alter_eq, V1, lookup_insert_eq.
Qed.

Lemma allow_counts_witness :
  allow_all "api" 2 60 [(0%Z, Fin 120); (500%Z, Fin 121); (1500%Z, Fin 122)] (∅ : Keys) =
  [Ok (true, 1%Z); Ok (true, 0%Z); Ok (false, 0%Z)].
Proof.
  apply (allow_counts "api" 2 60 2 (∅ : Keys) (Fin 120) [(500%Z, Fin 121); (1500%Z, Fin 122)]);
    [lia|reflexivity|vm_compute; reflexivity| |cbn; lia|cbn; lia].
  repeat constructor; cbn; try lia; vm_compute; reflexivity.
Defined.
