(* ===== verification/Environment.v ===== *)
(** * Environment: settings from the environment ([core/config.py],
    [scripts/validate_env.py])

    The field validators of [Settings], and the deployment script that checks
    an environment before the services start. The environment and files are
    values: [environ] lists the variables, a file is its text. Messages of a
    [JSONDecodeError] are kept without the position Python appends. *)

From Stdlib Require Import Ascii.
From S2P Require Import Prelude Rounding PyFloat PyDecimal PyData PyValue Signing Access Json.

#[local] Open Scope string_scope.
#[local] Open Scope list_scope.

(** ** Text *)

(** [sub in s] *)
Fixpoint str_in (sub s : string) : bool :=
  String.prefix sub s || match s with String _ s' => str_in sub s' | "" => false end.

(** [s.strip(c)] for one character *)
Fixpoint lstrip_char (c : ascii) (s : string) : string :=
  match s with String x s' => if Ascii.eqb x c then lstrip_char c s' else s | "" => "" end.
Definition strip_char (c : ascii) (s : string) : string :=
  str_rev_app (lstrip_char c (str_rev_app (lstrip_char c s) "")) "".

Definition str_head (s : string) : option ascii := match s with String c _ => Some c | "" => None end.
Fixpoint str_tail_char (s : string) : option ascii :=
  match s with "" => None | String c "" => Some c | String _ s' => str_tail_char s' end.

(** [[str(item).strip() for item in items if str(item).strip()]] *)
Definition clean_items (items : list pyval) : list string :=
  List.filter (fun s => negb (String.eqb s "")) (map (fun v => str_strip (py_str v)) items).

(** ** Validators of [Settings] *)

Definition log_levels : list string := ["TRACE"; "DEBUG"; "INFO"; "WARNING"; "WARN"; "ERROR"; "CRITICAL"].

Definition validate_log_level (value : string) : result string :=
  let normalized := str_upper value in
  if bool_decide (normalized ∈ log_levels) then Ok normalized else raise ValueError "LOG_LEVEL must be one of the known levels".

(** [url.replace(old, new, 1)] where [url] starts with [old] *)
Definition replace_prefix (old new url : string) : string :=
  new +:+ String.substring (String.length old) (String.length url - String.length old) url.

Definition normalize_database_url (value : pyval) : result string :=
  let url := py_str value in
  if str_startswith "postgresql://" url then Ok (replace_prefix "postgresql://" "postgresql+asyncpg://" url)
  else if str_startswith "postgres://" url then Ok (replace_prefix "postgres://" "postgresql+asyncpg://" url)
  else if str_startswith "postgresql+psycopg2://" url || str_startswith "postgresql+psycopg://" url
  then raise ValueError "DATABASE_URL must use an async driver: postgresql+asyncpg://"
  else Ok url.

(** The end of [parse_string_lists] on text: quotes around the whole, a JSON
    array, or comma-separated items. *)
Definition parse_list_text (stripped : string) : result (list string) :=
  let quoted := (2 <=? String.length stripped)%nat && bool_decide (str_head stripped = str_tail_char stripped)
                && bool_decide (str_head stripped ∈ [Some squote; Some dquote]) in
  let stripped := if quoted then str_strip (String.substring 1 (String.length stripped - 2) stripped) else stripped in
  if str_startswith "[" stripped then
    parsed ← loads stripped;
    match parsed with
    | PList l => Ok (clean_items l)
    | _ => raise ValueError "expected a JSON array"
    end
  else Ok (List.filter (fun s => negb (String.eqb s "")) (map str_strip (str_split "," stripped))).

(** [parse_string_lists]: a JSON string is parsed again, which its length
    bounds. *)
Fixpoint parse_lists (fuel : nat) (value : pyval) : result (list string) :=
  match value with
  | PList l => Ok (clean_items l)
  | PStr s =>
      let stripped := str_strip s in
      let handle (exc : exn) := if exn_isinstance (ex_class exc) JSONDecodeError then parse_list_text stripped else Err exc in
      match loads stripped with
      | Ok (PList l) => Ok (clean_items l)
      | Ok (PStr t) =>
          match fuel with
          | O => raise RuntimeError "maximum recursion depth exceeded"
          | S fuel' => match parse_lists fuel' (PStr t) with Ok l => Ok l | Err exc => handle exc end
          end
      | Ok _ => parse_list_text stripped
      | Err exc => handle exc
      end
  | _ => raise ValueError "expected list, JSON array string, or comma-separated string"
  end.

Definition parse_string_lists (value : pyval) : result (list string) :=
  parse_lists (match value with PStr s => String.length s | _ => 0 end)%nat value.

(** [parse_exchange_maps]; pydantic then checks that the values are text. *)
Definition parse_exchange_maps (value : pyval) : result dict :=
  match value with
  | PDict d => Ok d
  | PStr s =>
      parsed ← loads s;
      match parsed with
      | PDict d => Ok (od_of_list fst snd (map (fun kv => (kv.1, PStr (py_str kv.2))) d))
      | _ => raise ValueError "exchange credential values must be JSON objects"
      end
  | _ => raise ValueError "exchange credential values must be JSON objects"
  end.

Definition validate_jwt_secret (value : string) : result string :=
  if (String.length value <? 32)%nat then raise ValueError "JWT_SECRET must contain at least 32 characters" else Ok value.

(** [exchange_credentials]: a missing alias is a [KeyError]. *)
Definition exchange_credentials (api_keys api_secrets : dict) (alias : string) : result (pyval * pyval) :=
  key ← item_get alias (PDict api_keys);
  secret ← item_get alias (PDict api_secrets);
  Ok (key, secret).

Example list_spellings :
  parse_string_lists (PStr " binance , gate,, ") = Ok ["binance"; "gate"]
  /\ parse_string_lists (PStr (dq "['BTC/USDT', 'ETH/USDT']")) = Ok ["BTC/USDT"; "ETH/USDT"]
  /\ parse_string_lists (PStr (dq "'a,b'")) = Ok ["a"; "b"]
  /\ parse_string_lists (PStr "'[1, 2]'") = Ok ["1"; "2"]
  /\ normalize_database_url (PStr "postgres://u@h/db") = Ok "postgresql+asyncpg://u@h/db".
Proof. vm_compute. repeat split. Qed.

(** ** The environment file *)

(** [text.splitlines()] on ASCII line boundaries *)
Fixpoint splitlines_go (cur : string) (s : string) : list string :=
  match s with
  | "" => if String.eqb cur "" then [] else [str_rev_app cur ""]
  | String c s' =>
      let n := nat_of_ascii c in
      if (n =? 13)%nat then
        str_rev_app cur "" :: match s' with
                              | String c2 s2 => if (nat_of_ascii c2 =? 10)%nat then splitlines_go "" s2 else splitlines_go "" s'
                              | "" => []
                              end
      else if ((10 <=? n) && (n <=? 12) || (28 <=? n) && (n <=? 30) || (n =? 133))%nat then str_rev_app cur "" :: splitlines_go "" s'
      else splitlines_go (String c cur) s'
  end.
Definition splitlines (s : string) : list string := splitlines_go "" s.

(** [line.split("=", 1)] of a line that contains ["="] *)
Fixpoint split_once (c : ascii) (s : string) : option (string * string) :=
  match s with
  | "" => None
  | String x s' => if Ascii.eqb x c then Some ("", s')
                   else match split_once c s' with Some (a, b) => Some (String x a, b) | None => None end
  end.

Definition Env : Type := list (string * string).

Definition parse_env_line (raw_line : string) (values : Env) : result Env :=
  let line := str_strip raw_line in
  if String.eqb line "" || str_startswith "#" line then Ok values else
  match split_once "=" line with
  | None => raise ValueError "expected KEY=VALUE format"
  | Some (key, value) =>
      let key := str_strip key in
      let value := strip_char squote (strip_char dquote (str_strip value)) in
      if String.eqb key "" then raise ValueError "empty environment key" else Ok (od_set key value values)
  end.

Fixpoint parse_env_lines (lines : list string) (values : Env) : result Env :=
  match lines with
  | [] => Ok values
  | l :: rest => values' ← parse_env_line l values; parse_env_lines rest values'
  end.

(** [parse_env_file]: [file] is the text, [None] when the path does not exist. *)
Definition parse_env_file (file : option string) : result Env :=
  match file with
  | None => raise FileNotFoundError "Environment file not found"
  | Some text => parse_env_lines (splitlines text) []
  end.

(** [merged_environment]: [env_file] is the file named on the command line. *)
Definition merged_environment (environ : Env) (env_file : option (option string)) : result Env :=
  match env_file with
  | None => Ok environ
  | Some file => values ← parse_env_file file; Ok (foldl (fun e kv => od_set kv.1 kv.2 e) environ values)
  end.

(** ** The checks of the script *)

Definition required_keys : list string :=
  ["DATABASE_URL"; "REDIS_URL"; "REDIS_PASSWORD"; "JWT_SECRET"; "TELEGRAM_BOT_TOKEN"; "TELEGRAM_CHAT_ID"; "EXCHANGE_API_KEYS";
   "EXCHANGE_API_SECRETS"; "POSTGRES_DB"; "POSTGRES_USER"; "POSTGRES_PASSWORD"; "MARKET_DATA_EXCHANGES"; "MARKET_DATA_SYMBOLS";
   "SERVER_IP"; "SERVER_PORT"; "LOG_LEVEL"; "APP_ENV"].

Definition required_jwt_roles : list string := ["incident_responder"; "platform_admin"; "risk_manager"; "trader_operator"].
Definition required_jwt_permissions : list string := ["config:write"; "incident:write"; "operations:read"; "risk:write"].
Definition required_openapi_paths : list string :=
  ["/operations/runtime-config"; "/operations/runtime-events"; "/admin/strategy/command"; "/operations/volume"; "/admin/coinstore/accounts";
   "/admin/coinstore/health"; "/admin/coinstore/balance-sync"; "/admin/emergency/cancel-all-orders"; "/admin/emergency/close-positions";
   "/admin/emergency/shutdown"].
Definition allowed_app_envs : list string := ["development"; "production"; "staging"; "test"].

(** [re.search] of a word, an optional separator among [-_ ], and a word, in
    text already in lower case. *)
Definition is_separator (c : ascii) : bool := Ascii.eqb c "-" || Ascii.eqb c "_" || Ascii.eqb c " ".
Fixpoint two_words (a b s : string) : bool :=
  (match after a s with
   | Some r => str_startswith b r || match r with String c r' => is_separator c && str_startswith b r' | "" => false end
   | None => false
   end) || match s with String _ s' => two_words a b s' | "" => false end.

(** [^\$\{[A-Z0-9_]+\}$]: the end also matches before a final newline. *)
Definition is_placeholder_char (c : ascii) : bool :=
  let n := nat_of_ascii c in ((65 <=? n) && (n <=? 90) || (48 <=? n) && (n <=? 57) || (n =? 95))%nat.
Fixpoint placeholder_rest (seen : bool) (s : string) : bool :=
  match s with
  | "" => false
  | String c s' =>
      if is_placeholder_char c then placeholder_rest true s'
      else seen && Ascii.eqb c "}" && (String.eqb s' "" || String.eqb s' (String (ascii_of_nat 10) ""))
  end.
Definition is_placeholder (s : string) : bool :=
  match after "${" s with Some r => placeholder_rest false r | None => false end.

Definition is_template_value (value : string) : bool :=
  two_words "change" "me" (str_lower value) || two_words "sample" "value" (str_lower value) || is_placeholder value.

(** [parse_json_object]: the object, or the error. *)
Definition is_text (v : pyval) : bool := match v with PStr s => negb (String.eqb (str_strip s) "") | _ => false end.

Definition parse_json_object (name value : string) : result (dict + string) :=
  match loads value with
  | Err exc => if exn_isinstance (ex_class exc) JSONDecodeError then Ok (inr (name +:+ " must be a valid JSON object: " +:+ ex_msg exc)) else Err exc
  | Ok (PDict ((_ :: _) as parsed)) =>
      if negb (forallb (fun kv => negb (String.eqb (str_strip kv.1) "")) parsed) then Ok (inr (name +:+ " contains empty or non-string keys"))
      else match List.filter (fun kv => negb (is_text kv.2)) parsed with
           | [] => Ok (inl parsed)
           | bad => Ok (inr (name +:+ " contains empty or non-string values for keys: " +:+ str_join ", " bad.*1))
           end
  | Ok _ => Ok (inr (name +:+ " must be a non-empty JSON object keyed by exchange/account alias"))
  end.

(** [values.get(key, default)] *)
Definition env_get (key default : string) (values : Env) : string := match od_get key values with Some v => v | None => default end.

Definition required_errors (values : Env) (allow_template_values : bool) : list string :=
  concat (map (fun key =>
    let value := env_get key "" values in
    if String.eqb value "" then ["Missing required environment variable: " +:+ key]
    else if negb allow_template_values && is_template_value value then [key +:+ " contains a template value"] else []) required_keys).

Definition choice_errors (values : Env) : list string :=
  let app_env := env_get "APP_ENV" "" values in
  let log_level := str_upper (env_get "LOG_LEVEL" "" values) in
  (if negb (String.eqb app_env "") && negb (bool_decide (app_env ∈ allowed_app_envs))
   then ["APP_ENV must be one of: " +:+ str_join ", " allowed_app_envs] else [])
  ++ (if negb (String.eqb log_level "") && negb (bool_decide (log_level ∈ log_levels))
      then ["LOG_LEVEL must be one of: " +:+ str_join ", " (sorted str_le log_levels)] else []).

Definition port_errors (values : Env) : list string :=
  match int_of_str (env_get "SERVER_PORT" "" values) with
  | Some port => if ((1 <=? port) && (port <=? 65535))%Z then [] else ["SERVER_PORT must be between 1 and 65535"]
  | None => ["SERVER_PORT must be an integer"]
  end.

Definition jwt_errors (values : Env) (allow_template_values : bool) : list string :=
  let jwt_secret := env_get "JWT_SECRET" "" values in
  if negb (String.eqb jwt_secret "") && negb allow_template_values && (String.length jwt_secret <? 32)%nat
  then ["JWT_SECRET must be at least 32 characters"] else [].

Definition missing_in (a b : dict) : list string := sorted str_le (List.filter (fun k => negb (phas k b)) a.*1).

Definition alias_errors (api_keys api_secrets : dict) : list string :=
  (match missing_in api_keys api_secrets with [] => [] | l => ["EXCHANGE_API_SECRETS missing aliases: " +:+ str_join ", " l] end)
  ++ (match missing_in api_secrets api_keys with [] => [] | l => ["EXCHANGE_API_KEYS missing aliases: " +:+ str_join ", " l] end).

Definition validate (values : Env) (allow_template_values : bool) : result (list string) :=
  let errors := required_errors values allow_template_values ++ choice_errors values ++ port_errors values
                ++ jwt_errors values allow_template_values in
  let keys_value := env_get "EXCHANGE_API_KEYS" "{}" values in
  let secrets_value := env_get "EXCHANGE_API_SECRETS" "{}" values in
  if allow_template_values && (is_template_value keys_value || is_template_value secrets_value) then Ok errors else
  api_keys ← parse_json_object "EXCHANGE_API_KEYS" keys_value;
  api_secrets ← parse_json_object "EXCHANGE_API_SECRETS" secrets_value;
  Ok (errors ++ match api_keys with inr e => [e] | inl _ => [] end ++ match api_secrets with inr e => [e] | inl _ => [] end
      ++ match api_keys, api_secrets with inl k, inl s => alias_errors k s | _, _ => [] end).

(** ** Release files, claims and endpoints *)

(** The files the release check reads: the [*.sql] names of the migrations
    directory (empty when it does not exist) and the text of four files. *)
Record ReleaseTree : Type := mkTree {
  tr_migrations : list string; tr_schema : option string; tr_migration_0002 : option string; tr_openapi : option string; tr_compose : option string }.

Definition unless (ok : bool) (error : string) : list string := if ok then [] else [error].

Definition order_error (migrations : list string) : list string :=
  unless (bool_decide (migrations = []) || bool_decide (migrations = sorted str_le migrations)) "Database migrations are not lexicographically ordered".

Definition validate_release_files (root : ReleaseTree) : list string :=
  let migrations := sorted str_le (tr_migrations root) in
  let schema_text := default "" (tr_schema root) in
  let migration_text := default "" (tr_migration_0002 root) in
  let openapi_text := default "" (tr_openapi root) in
  let compose_text := default "" (tr_compose root) in
  unless (bool_decide ("0001_initial_schema.sql" ∈ migrations)) "Missing database/migrations/0001_initial_schema.sql"
  ++ unless (bool_decide ("0002_runtime_events_and_rbac.sql" ∈ migrations)) "Missing database/migrations/0002_runtime_events_and_rbac.sql"
  ++ order_error migrations
  ++ unless (str_in "CREATE TABLE runtime_events" schema_text) "runtime_events table is missing from database/schema.sql"
  ++ unless (str_in "CREATE TABLE IF NOT EXISTS runtime_events" migration_text) "runtime_events migration is missing from 0002_runtime_events_and_rbac.sql"
  ++ concat (map (fun p => unless (str_in p migration_text) ("RBAC migration missing permission " +:+ p)) ["operations:read"; "trading:write"; "incident:write"; "exchange:write"])
  ++ concat (map (fun p => unless (str_in p openapi_text) ("OpenAPI contract missing " +:+ p)) required_openapi_paths)
  ++ unless (negb (str_in "redis-server" compose_text && negb (str_in "appendonly" compose_text))) "docker-compose Redis service does not enable appendonly persistence".

Definition validate_jwt_claims (claims : dict) : result (list string) :=
  roles ← py_set (por (pget "roles" claims) (PList []));
  permissions ← py_set (por (pget "permissions" claims) (PList []));
  Ok (unless (existsb (text_in roles) required_jwt_roles) ("JWT roles must include at least one of: " +:+ str_join ", " required_jwt_roles)
      ++ unless (existsb (text_in permissions) required_jwt_permissions) ("JWT permissions must include at least one of: " +:+ str_join ", " required_jwt_permissions)
      ++ unless (phas "exp" claims) "JWT claims should include exp").

(** [urlopen url] gives a status, or fails with a [URLError]. *)
Definition validate_health_endpoints (urlopen : string -> Z + string) (api_base_url : string) : list string :=
  let base := str_rev_app (lstrip_char "/" (str_rev_app api_base_url "")) "" in
  concat (map (fun path =>
    match urlopen (base +:+ path) with
    | inl status => if (400 <=? status)%Z then [base +:+ path +:+ " returned HTTP " +:+ str_of_Z status] else []
    | inr reason => [base +:+ path +:+ " failed: " +:+ reason]
    end) ["/health"; "/ready"]).

(** [main]: the exit status and the errors printed. *)
Record Args : Type := mkArgs {
  ag_env_file : option (option string); ag_allow_template_values : bool; ag_release_checks : option ReleaseTree;
  ag_jwt_claims_file : option string; ag_api_base_url : option string }.

Definition main (environ : Env) (urlopen : string -> Z + string) (args : Args) : Z * list string :=
  let errors :=
    env ← merged_environment environ (ag_env_file args);
    e1 ← validate env (ag_allow_template_values args);
    e2 ← Ok (match ag_release_checks args with Some root => validate_release_files root | None => [] end);
    e3 ← (match ag_jwt_claims_file args with
          | Some text => claims ← loads text; d ← as_dict claims; validate_jwt_claims d
          | None => Ok []
          end);
    e4 ← Ok (match ag_api_base_url args with
             | Some url => if String.eqb url "" then [] else validate_health_endpoints urlopen url
             | None => []
             end);
    Ok (e1 ++ e2 ++ e3 ++ e4) in
  match errors with
  | Err exc => (2%Z, [ex_msg exc])
  | Ok [] => (0%Z, [])
  | Ok errors => (1%Z, errors)
  end.

(** ** What the parsers promise *)

(** *** Stripping *)

Lemma str_rev_app_acc s acc : str_rev_app s acc = str_rev_app s "" +:+ acc.
Proof.
  revert acc. induction s as [|c s IH]; intros acc; [done|]. cbn [str_rev_app]. rewrite IH, (IH (String c "")), append_assoc. done.
Qed.

Lemma str_rev_snoc s c : str_rev_app (s +:+ String c "") "" = String c (str_rev_app s "").
Proof.
  induction s as [|x s IH]; [done|]. change (String x s +:+ String c "") with (String x (s +:+ String c "")). cbn [str_rev_app].
  rewrite (str_rev_app_acc _ (String x "")), IH, (str_rev_app_acc s (String x "")). done.
Qed.

Lemma str_rev_invol s : str_rev_app (str_rev_app s "") "" = s.
Proof.
  induction s as [|c s IH]; [done|]. cbn [str_rev_app]. rewrite (str_rev_app_acc s (String c "")), str_rev_snoc. by rewrite IH.
Qed.

(** Text without leading, or without trailing, space. *)
Definition no_lead (s : string) : bool := match s with String c _ => negb (is_space c) | "" => true end.

Lemma lstrip_no_lead s : no_lead (str_lstrip s) = true.
Proof. induction s as [|c s IH]; [done|]. cbn [str_lstrip]. destruct (is_space c) eqn:E; [done|]. cbn [no_lead]. by rewrite E. Qed.

Lemma no_lead_lstrip s : no_lead s = true -> str_lstrip s = s.
Proof. destruct s as [|c s]; [done|]. cbn [no_lead str_lstrip]. by destruct (is_space c). Qed.

Lemma no_lead_app a b : a <> "" -> no_lead (a +:+ b) = no_lead a.
Proof. by destruct a. Qed.

(** Removing trailing space keeps the beginning. *)
Lemma rstrip_prefix s : exists t, s = str_rev_app (str_lstrip (str_rev_app s "")) "" +:+ t.
Proof.
  assert (G : forall r, exists w, r = w +:+ str_lstrip r).
  { induction r as [|c r [w E]]; [by exists ""|]. cbn [str_lstrip]. destruct (is_space c); [|by exists ""].
    exists (String c w). change (String c w +:+ str_lstrip r) with (String c (w +:+ str_lstrip r)). by rewrite <- E. }
  destruct (G (str_rev_app s "")) as [w E]. exists (str_rev_app w "").
  assert (R : forall a b, str_rev_app (a +:+ b) "" = str_rev_app b "" +:+ str_rev_app a "").
  { induction a as [|c a IH]; intros b; [by rewrite append_nil|]. change (String c a +:+ b) with (String c (a +:+ b)). cbn [str_rev_app].
    rewrite (str_rev_app_acc _ (String c "")), IH, append_assoc. f_equal. by rewrite <- str_rev_app_acc. }
  rewrite <- R, <- E. by rewrite str_rev_invol.
Qed.

Definition stripped (s : string) : Prop := str_strip s = s.

Lemma str_strip_stripped s : stripped (str_strip s).
Proof.
  unfold stripped, str_strip. set (a := str_lstrip s). set (b := str_lstrip (str_rev_app a "")).
  assert (L : no_lead (str_rev_app b "") = true).
  { destruct (rstrip_prefix a) as [t E]. fold b in E. pose proof (lstrip_no_lead s) as A. fold a in A. rewrite E in A.
    destruct (str_rev_app b ""); [done|]. by rewrite no_lead_app in A. }
  rewrite (no_lead_lstrip _ L), str_rev_invol. rewrite (no_lead_lstrip b) by apply lstrip_no_lead. done.
Qed.

(** *** Lists of names *)

(** A list the settings accept: no empty name, no surrounding space. *)
Definition name_ok (s : string) : Prop := s <> "" /\ stripped s.

Lemma filter_strip_ok {X} (f : X -> string) l :
  Forall name_ok (List.filter (fun s => negb (String.eqb s "")) (map (fun x => str_strip (f x)) l)).
Proof.
  apply Forall_forall. intros s [Hs N]%list_elem_of_In%filter_In. apply in_map_iff in Hs as (x & <- & _).
  split; [|apply str_strip_stripped]. intros E. by rewrite E in N.
Qed.

Lemma parse_list_text_ok s l : parse_list_text s = Ok l -> Forall name_ok l.
Proof.
  unfold parse_list_text. case_match.
  - intros (v & _ & E)%result_bind_ok. destruct v; try done. injection E as <-. apply (filter_strip_ok py_str).
  - intros [= <-]. apply (filter_strip_ok (fun s => s)).
Qed.

Lemma parse_lists_ok fuel v l : parse_lists fuel v = Ok l -> Forall name_ok l.
Proof.
  revert v l. induction fuel as [|fuel IH]; intros v l; destruct v; try done; cbn [parse_lists].
  all: try (intros [= <-]; apply (filter_strip_ok py_str)).
  all: destruct (loads (str_strip s)) as [[]|e]; try apply parse_list_text_ok; try done.
  all: try (intros [= <-]; apply (filter_strip_ok py_str)).
  all: try (destruct (exn_isinstance _ _); [apply parse_list_text_ok|done]).
  destruct (parse_lists fuel (PStr s0)) as [l'|e] eqn:P.
  - intros [= <-]. by apply (IH _ _ P).
  - destruct (exn_isinstance _ _); [apply parse_list_text_ok|done].
Qed.

(** *** Errors and sizes of [loads] *)

Definition json_err {X} (m : result X) : Prop := match m with Ok _ => True | Err e => ex_class e = JSONDecodeError end.

Lemma json_err_bind {X Y} (m : result X) (k : X -> result Y) : json_err m -> (forall x, json_err (k x)) -> json_err (m ≫= k).
Proof. destruct m; [|done]. intros _ H. apply H. Qed.

Lemma scan_string_spec s : json_err (scan_string s) /\
  forall t r, scan_string s = Ok (t, r) -> (String.length t + String.length r < String.length s)%nat.
Proof.
  assert (G : forall n s, (String.length s <= n)%nat -> json_err (scan_string s) /\
    forall t r, scan_string s = Ok (t, r) -> (String.length t + String.length r < String.length s)%nat); [|by apply (G (String.length s))].
  clear s. induction n as [|n IH]; intros s L; [destruct s; [done|cbn in L; lia]|]. destruct s as [|c s']; [done|].
  assert (Step : forall c' s2, (String.length s2 <= String.length s')%nat ->
    json_err ('(t, r) ← scan_string s2; Ok (String c' t, r)) /\
    forall t r, ('(t, r) ← scan_string s2; Ok (String c' t, r)) = Ok (t, r) -> (String.length t + String.length r < String.length (String c s'))%nat).
  { intros c' s2 L2. cbn [String.length] in L. destruct (IH s2 ltac:(lia)) as [E H]. split; [apply json_err_bind; [done|by intros []]|].
    intros t r ([t' r'] & S1 & [= <- <-])%result_bind_ok. apply H in S1. cbn [String.length]. lia. }
  cbn [scan_string]. destruct (Ascii.eqb c dquote); [split; [done|intros t r [= <- <-]; cbn; lia]|].
  destruct (nat_of_ascii c =? 92)%nat; [|destruct (nat_of_ascii c <? 32)%nat; [done|apply Step; done]].
  destruct s' as [|e s2]; [done|]. destruct (simple_escape e); [apply Step; cbn; lia|].
  destruct s2 as [|h1 [|h2 [|h3 [|h4 s3]]]]; try done.
  destruct (if Ascii.eqb e "u" then hex_val4 h1 h2 h3 h4 else None) as [m|]; [|done].
  destruct (m <? 256)%Z; [apply Step; cbn; lia|done].
Qed.

Lemma scan_items_err scan fuel s : (forall x, json_err (scan x)) -> json_err (scan_items scan fuel s).
Proof.
  intros H. revert s. induction fuel as [|fuel IH]; intros s; [done|]. cbn [scan_items]. apply json_err_bind; [done|]. intros [v r].
  destruct (skip_ws r) as [|c r1]; [done|]. destruct (Ascii.eqb c "]"); [done|]. destruct (Ascii.eqb c ","); [|done].
  apply json_err_bind; [done|]. by intros [].
Qed.

Lemma scan_entries_err scan fuel s : (forall x, json_err (scan x)) -> json_err (scan_entries scan fuel s).
Proof.
  intros H. revert s. induction fuel as [|fuel IH]; intros s; [done|]. cbn [scan_entries].
  destruct s as [|q s1]; [done|]. destruct (Ascii.eqb q dquote); [|done]. apply json_err_bind; [apply scan_string_spec|]. intros [k r].
  destruct (skip_ws r) as [|c r1]; [done|]. destruct (Ascii.eqb c ":"); [|done]. apply json_err_bind; [done|]. intros [v r2].
  destruct (skip_ws r2) as [|c2 r3]; [done|]. destruct (Ascii.eqb c2 "}"); [done|]. destruct (Ascii.eqb c2 ","); [|done].
  apply json_err_bind; [done|]. by intros [].
Qed.

Lemma scan_once_err fuel s : json_err (scan_once fuel s).
Proof.
  revert s. induction fuel as [|fuel IH]; intros s; [done|]. cbn [scan_once]. destruct s as [|c r]; [done|].
  destruct (Ascii.eqb c dquote); [apply json_err_bind; [apply scan_string_spec|by intros []]|].
  destruct (Ascii.eqb c "{").
  { destruct (skip_ws r) as [|c1 r1]; [done|]. destruct (Ascii.eqb c1 "}"); [done|].
    apply json_err_bind; [by apply scan_entries_err|by intros []]. }
  destruct (Ascii.eqb c "[").
  { destruct (skip_ws r) as [|c1 r1]; [done|]. destruct (Ascii.eqb c1 "]"); [done|].
    apply json_err_bind; [by apply scan_items_err|by intros []]. }
  destruct (scan_literals _); [done|]. by destruct (scan_number _).
Qed.

Lemma loads_err s : json_err (loads s).
Proof. unfold loads. apply json_err_bind; [apply scan_once_err|]. intros [v r]. by destruct (String.eqb _ _). Qed.

Lemma skip_ws_length s : (String.length (skip_ws s) <= String.length s)%nat.
Proof. induction s as [|c s IH]; [done|]. cbn [skip_ws]. destruct (is_json_ws c); cbn [String.length]; lia. Qed.

Lemma scan_number_not_str s t r : scan_number s <> Some (PStr t, r).
Proof.
  unfold scan_number, scan_unsigned. intros E. repeat case_match; simplify_eq.
Qed.

Lemma scan_literals_not_str s t r : scan_literals s <> Some (PStr t, r).
Proof. unfold scan_literals. intros E. repeat case_match; simplify_eq. Qed.

(** A JSON string is longer than the text it denotes. *)
Lemma loads_shorter s t : loads s = Ok (PStr t) -> (String.length t < String.length s)%nat.
Proof.
  unfold loads. intros ([v r] & S1 & E)%result_bind_ok. destruct (String.eqb _ _); [|done]. injection E as ->.
  pose proof (skip_ws_length s). revert S1 H. generalize (skip_ws s). intros s1 S1 H. cbn [scan_once] in S1. destruct s1 as [|c s2]; [done|].
  destruct (Ascii.eqb c dquote).
  { apply result_bind_ok in S1 as ([t' r'] & S2 & [= <- <-]). apply scan_string_spec in S2. cbn [String.length] in H. lia. }
  destruct (Ascii.eqb c "{"). { repeat case_match; try done. by apply result_bind_ok in S1 as ([] & _ & [=]). }
  destruct (Ascii.eqb c "["). { repeat case_match; try done. by apply result_bind_ok in S1 as ([] & _ & [=]). }
  destruct (scan_literals _) as [[]|] eqn:L; [injection S1 as -> ->; by apply scan_literals_not_str in L|].
  destruct (scan_number _) as [[]|] eqn:N; [injection S1 as -> ->; by apply scan_number_not_str in N|done].
Qed.

Lemma str_rev_length s acc : String.length (str_rev_app s acc) = (String.length s + String.length acc)%nat.
Proof. revert acc. induction s as [|c s IH]; intros acc; [done|]. cbn [str_rev_app]. rewrite IH. cbn. lia. Qed.

Lemma str_lstrip_length s : (String.length (str_lstrip s) <= String.length s)%nat.
Proof. induction s as [|c s IH]; [done|]. cbn [str_lstrip]. destruct (is_space c); cbn [String.length]; lia. Qed.

Lemma str_strip_length s : (String.length (str_strip s) <= String.length s)%nat.
Proof.
  unfold str_strip. rewrite str_rev_length. pose proof (str_lstrip_length (str_rev_app (str_lstrip s) "")) as A.
  rewrite str_rev_length in A. pose proof (str_lstrip_length s). cbn [String.length] in *. lia.
Qed.

Definition value_error {X} (m : result X) : Prop := match m with Ok _ => True | Err e => exn_isinstance (ex_class e) ValueError = true end.

Lemma json_value_error {X} (m : result X) : json_err m -> value_error m.
Proof. unfold json_err, value_error. destruct m; [done|]. by intros ->. Qed.

Lemma parse_list_text_err s : value_error (parse_list_text s).
Proof.
  unfold parse_list_text. cbv zeta. match goal with |- context [loads ?x] => pose proof (json_value_error _ (loads_err x)) as E; destruct (loads x) as [v|e] end.
  - case_match; [by destruct v|done].
  - case_match; done.
Qed.

Lemma parse_lists_err fuel s : (String.length s <= fuel)%nat -> value_error (parse_lists fuel (PStr s)).
Proof.
  revert s. induction fuel as [|fuel IH]; intros s L; cbn [parse_lists]; pose proof (str_strip_length s) as B;
    pose proof (loads_err (str_strip s)) as E; destruct (loads (str_strip s)) as [v|e] eqn:V; cbn [json_err] in E.
  2, 4: rewrite E; apply parse_list_text_err.
  - destruct v; try done; try apply parse_list_text_err. apply loads_shorter in V. lia.
  - destruct v as [| | | | |t| |]; try done; try apply parse_list_text_err. apply loads_shorter in V.
    specialize (IH t ltac:(lia)). destruct (parse_lists fuel (PStr t)) as [|e]; [done|]. destruct (exn_isinstance (ex_class e) JSONDecodeError); [apply parse_list_text_err|done].
Qed.

(** C37: the list settings (exchanges, symbols, streams) given as a list or as
    text are read as names without surrounding space and never empty, or
    refused with a [ValueError], which pydantic reports; the parser never
    fails otherwise, however often the text is quoted inside itself. *)
Theorem parse_string_lists_type v :
  match v with PList _ | PStr _ => True | _ => False end ->
  match parse_string_lists v with
  | Ok names => Forall name_ok names
  | Err e => exn_isinstance (ex_class e) ValueError = true
  end.
Proof.
  intros Hv. assert (E : value_error (parse_string_lists v)).
  { unfold parse_string_lists. destruct v; try done. by apply parse_lists_err. }
  destruct (parse_string_lists v) as [l|e] eqn:P; [by apply parse_lists_ok in P|done].
Qed.

Lemma parse_string_lists_type_witness :
  match parse_string_lists (PStr (dq " ['BTC/USDT', ' ETH/USDT '] ")) with
  | Ok names => Forall name_ok names
  | Err e => exn_isinstance (ex_class e) ValueError = true
  end /\ parse_string_lists (PStr (dq " ['BTC/USDT', ' ETH/USDT '] ")) = Ok ["BTC/USDT"; "ETH/USDT"].
Proof. split; [exact (parse_string_lists_type (PStr (dq " ['BTC/USDT', ' ETH/USDT '] ")) I)|vm_compute; reflexivity]. Defined.

(** ** A validated environment loads *)

Lemma dict_merge_NoDup a b : NoDup a.*1 -> NoDup (dict_merge a b).*1.
Proof.
  unfold dict_merge. revert a. induction b as [|[k v] b IH]; intros a N; [done|]. apply IH. by apply (od_set_NoDup a k v).
Qed.

(** The dicts [loads] makes have distinct keys. *)
Lemma loads_NoDup s d : loads s = Ok (PDict d) -> NoDup d.*1.
Proof.
  unfold loads. intros ([v r] & S1 & E)%result_bind_ok. destruct (String.eqb _ _); [|done]. injection E as ->.
  cbn [scan_once] in S1. destruct (skip_ws s) as [|c s2]; [done|].
  destruct (Ascii.eqb c dquote); [by apply result_bind_ok in S1 as ([] & _ & [=])|].
  destruct (Ascii.eqb c "{").
  { destruct (skip_ws s2) as [|c1 r1]; [done|]. destruct (Ascii.eqb c1 "}"); [injection S1 as <- _; constructor|].
    apply result_bind_ok in S1 as ([kvs r2] & _ & [= <- _]). apply dict_merge_NoDup. constructor. }
  destruct (Ascii.eqb c "["); [repeat case_match; try done; by apply result_bind_ok in S1 as ([] & _ & [=])|].
  destruct (scan_literals _) as [[]|] eqn:L.
  { injection S1 as -> ->. unfold scan_literals in L. repeat case_match; simplify_eq. }
  destruct (scan_number _) as [[]|] eqn:N; [|done]. injection S1 as -> ->. unfold scan_number, scan_unsigned in N. repeat case_match; simplify_eq.
Qed.

(** An object the script accepts is what the settings read. *)
Lemma parse_json_object_ok name value d : parse_json_object name value = Ok (inl d) ->
  parse_exchange_maps (PStr value) = Ok d /\ Forall (fun kv => is_text kv.2 = true) d.
Proof.
  unfold parse_json_object, parse_exchange_maps. pose proof (loads_NoDup value) as ND.
  destruct (loads value) as [[| | | | | | |[|kv d']]|e]; try done; [|by case_match].
  set (d1 := kv :: d') in *. clearbody d1. case_match; [done|]. destruct (List.filter _ d1) eqn:F; [|done]. intros [= <-].
  assert (T : Forall (fun kv => is_text kv.2 = true) d1).
  { apply Forall_forall. intros x Hx%list_elem_of_In. destruct (is_text x.2) eqn:E; [done|].
    assert (In x (List.filter (fun kv => negb (is_text kv.2)) d1)) as B by (apply filter_In; split; [done|by rewrite E]). by rewrite F in B. }
  split; [|done]. unfold mbind, result_bind. f_equal.
  assert (M : map (fun kv : string * pyval => (kv.1, PStr (py_str kv.2))) d1 = d1).
  { clear - T. induction T as [|[k v] l Hv _ IH]; [done|]. cbn [map fst snd]. rewrite IH. by destruct v. }
  rewrite M. unfold od_of_list. exact (dict_merge_fresh [] d1 (ND d1 eq_refl)).
Qed.

Lemma concat_nil_map {X} (f : X -> list string) l x : concat (map f l) = [] -> x ∈ l -> f x = [].
Proof.
  induction l as [|y l IH]; intros E Hx; [by apply not_elem_of_nil in Hx|]. cbn in E. apply app_eq_nil in E as [E1 E2].
  apply elem_of_cons in Hx as [->|Hx]; auto.
Qed.

Lemma required_errors_nil values key : required_errors values false = [] -> key ∈ required_keys ->
  env_get key "" values <> "" /\ is_template_value (env_get key "" values) = false.
Proof.
  intros E Hk. pose proof (concat_nil_map _ _ key E Hk) as K. cbv beta zeta in K.
  destruct (String.eqb_spec (env_get key "" values) ""); [done|]. split; [done|]. cbn [negb andb] in K. by destruct (is_template_value _).
Qed.

Lemma missing_in_nil a b : missing_in a b = [] -> forall k, k ∈ a.*1 -> phas k b = true.
Proof.
  unfold missing_in. intros E k Hk. assert (F : List.filter (fun k => negb (phas k b)) a.*1 = []).
  { pose proof (sorted_length str_le (List.filter (fun k => negb (phas k b)) a.*1)) as L. rewrite E in L. by apply nil_length_inv. }
  destruct (phas k b) eqn:P; [done|]. exfalso.
  assert (In k (List.filter (fun k => negb (phas k b)) a.*1)) as B by (apply filter_In; split; [by apply list_elem_of_In|by rewrite P]). by rewrite F in B.
Qed.

Lemma alias_errors_nil a b : alias_errors a b = [] ->
  Forall (fun kv => is_text kv.2 = true) a -> Forall (fun kv => is_text kv.2 = true) b ->
  forall alias, alias ∈ a.*1 -> exists k s, exchange_credentials a b alias = Ok (PStr k, PStr s) /\ str_strip k <> "" /\ str_strip s <> "".
Proof.
  unfold alias_errors. intros [E _]%app_eq_nil Ta Tb alias Ha. assert (M : missing_in a b = []) by (by destruct (missing_in a b)).
  apply (missing_in_nil a b M) in Ha as Hb. unfold exchange_credentials, item_get, phas in *.
  destruct (od_get alias a) as [va|] eqn:Ga; [|by apply (od_get_None a alias) in Ga].
  destruct (od_get alias b) as [vb|] eqn:Gb; [|done].
  apply od_get_Some_in in Ga, Gb. rewrite Forall_forall in Ta, Tb. apply Ta in Ga. apply Tb in Gb. cbn [snd] in Ga, Gb.
  destruct va as [| | | | |k| |]; try done. destruct vb as [| | | | |s| |]; try done. exists k, s. split; [done|].
  cbn [is_text] in Ga, Gb. by destruct (String.eqb_spec (str_strip k) ""), (String.eqb_spec (str_strip s) "").
Qed.

(** An environment in which the deployment script finds nothing, template
    values not allowed, satisfies the validators of [Settings] it stands for:
    every required variable has a value that is not a template, the log level
    and the JWT secret are accepted, the port is a TCP port, the environment
    name is known, and the exchange credentials are read as two maps with the
    same aliases, so that every alias has a non-empty key and secret. *)
Theorem validated_environment_loads values :
  validate values false = Ok [] ->
  (forall key, key ∈ required_keys -> env_get key "" values <> "" /\ is_template_value (env_get key "" values) = false) /\
  validate_log_level (env_get "LOG_LEVEL" "" values) = Ok (str_upper (env_get "LOG_LEVEL" "" values)) /\
  validate_jwt_secret (env_get "JWT_SECRET" "" values) = Ok (env_get "JWT_SECRET" "" values) /\
  env_get "APP_ENV" "" values ∈ allowed_app_envs /\
  (exists port, int_of_str (env_get "SERVER_PORT" "" values) = Some port /\ (1 <= port <= 65535)%Z) /\
  exists api_keys api_secrets,
    parse_exchange_maps (PStr (env_get "EXCHANGE_API_KEYS" "{}" values)) = Ok api_keys /\
    parse_exchange_maps (PStr (env_get "EXCHANGE_API_SECRETS" "{}" values)) = Ok api_secrets /\
    forall alias, alias ∈ api_keys.*1 -> exists k s,
      exchange_credentials api_keys api_secrets alias = Ok (PStr k, PStr s) /\ str_strip k <> "" /\ str_strip s <> "".
Proof.
  unfold validate. cbn [andb]. intros (ks & Kk & (ss & Ks & [= E])%result_bind_ok)%result_bind_ok.
  apply app_eq_nil in E as [E E2]. apply app_eq_nil in E as [Er E]. apply app_eq_nil in E as [Ec E]. apply app_eq_nil in E as [Ep Ej].
  apply app_eq_nil in E2 as [E1 E2]. apply app_eq_nil in E2 as [E3 E4].
  destruct ks as [ks|]; [|done]. destruct ss as [ss|]; [|done].
  pose proof (required_errors_nil values) as RQ. specialize (fun k => RQ k Er).
  apply parse_json_object_ok in Kk as [Pk Tk], Ks as [Ps Ts].
  unfold choice_errors in Ec. cbv zeta in Ec. apply app_eq_nil in Ec as [Ea El].
  destruct (RQ "LOG_LEVEL") as [Nl _]; [apply (bool_decide_unpack _); by vm_compute|].
  destruct (RQ "APP_ENV") as [Na _]; [apply (bool_decide_unpack _); by vm_compute|].
  destruct (RQ "JWT_SECRET") as [Nj _]; [apply (bool_decide_unpack _); by vm_compute|].
  split; [done|]. split; [|split; [|split; [|split]]].
  - assert (U : str_upper (env_get "LOG_LEVEL" "" values) <> "") by (intros U; apply Nl; by destruct (env_get "LOG_LEVEL" "" values)).
    rewrite (proj2 (String.eqb_neq _ _) U) in El. unfold validate_log_level. cbv zeta.
    by destruct (bool_decide (str_upper (env_get "LOG_LEVEL" "" values) ∈ log_levels)).
  - unfold jwt_errors in Ej. cbv zeta in Ej. unfold validate_jwt_secret. revert Ej. rewrite (proj2 (String.eqb_neq _ _) Nj). cbn [negb andb].
    by destruct (String.length _ <? 32)%nat.
  - rewrite (proj2 (String.eqb_neq _ _) Na) in Ea.
    destruct (bool_decide (env_get "APP_ENV" "" values ∈ allowed_app_envs)) eqn:B; [by apply bool_decide_eq_true in B|done].
  - unfold port_errors in Ep. destruct (int_of_str _) as [port|]; [|done]. exists port. split; [done|].
    destruct ((1 <=? port) && (port <=? 65535))%Z eqn:B; [|done]. apply andb_true_iff in B as [?%Z.leb_le ?%Z.leb_le]. lia.
  - exists ks, ss. split; [done|]. split; [done|]. by apply alias_errors_nil.
Qed.

Abbreviation demo_env := [("DATABASE_URL", "postgresql+psycopg2://u@h/db"); ("REDIS_URL", "redis://h"); ("REDIS_PASSWORD", "p");
  ("JWT_SECRET", "0123456789abcdef0123456789abcdef"); ("TELEGRAM_BOT_TOKEN", "t"); ("TELEGRAM_CHAT_ID", "1");
  ("EXCHANGE_API_KEYS", dq "{'gate': 'k'}"); ("EXCHANGE_API_SECRETS", dq "{'gate': 's'}"); ("POSTGRES_DB", "db"); ("POSTGRES_USER", "u");
  ("POSTGRES_PASSWORD", "x"); ("MARKET_DATA_EXCHANGES", "gate"); ("MARKET_DATA_SYMBOLS", "BTC/USDT"); ("SERVER_IP", "127.0.0.1");
  ("SERVER_PORT", "8000"); ("LOG_LEVEL", "info"); ("APP_ENV", "staging")].

Lemma validated_environment_loads_witness :
  exists api_keys api_secrets,
    parse_exchange_maps (PStr (dq "{'gate': 'k'}")) = Ok api_keys /\ parse_exchange_maps (PStr (dq "{'gate': 's'}")) = Ok api_secrets /\
    forall alias, alias ∈ api_keys.*1 -> exists k s,
      exchange_credentials api_keys api_secrets alias = Ok (PStr k, PStr s) /\ str_strip k <> "" /\ str_strip s <> "".
Proof. apply (validated_environment_loads demo_env). vm_compute. reflexivity. Defined.

(** The script does not check the database driver: it accepts an environment
    whose [DATABASE_URL] the settings refuse. *)
Theorem accepted_environment_refused :
  validate demo_env false = Ok [] /\
  normalize_database_url (PStr (env_get "DATABASE_URL" "" demo_env)) = raise ValueError "DATABASE_URL must use an async driver: postgresql+asyncpg://".
Proof. split; vm_compute; reflexivity. Qed.

Lemma sorted_idem (l : list string) : sorted str_le (sorted str_le l) = sorted str_le l.
Proof.
  pose proof (sorted_sorted str_le str_le_trans str_le_total l) as S. revert S. generalize (sorted str_le l). clear l. intros l S.
  induction S as [|x l S IH F]; [done|]. change (insert_sorted str_le x (sorted str_le l) = x :: l). rewrite IH.
  destruct F as [|y l Hy F]; [done|]. cbn [insert_sorted]. unfold leP in Hy. by rewrite Hy.
Qed.

(** The check of the order of migrations looks at a list that was just sorted. *)
Theorem migration_order_unchecked root : order_error (sorted str_le (tr_migrations root)) = [].
Proof.
  unfold order_error. rewrite sorted_idem. rewrite (bool_decide_true (sorted str_le (tr_migrations root) = sorted str_le (tr_migrations root))) by done.
  by destruct (bool_decide _).
Qed.
