(* ===== verification/PublicExchange.v ===== *)
(** * PublicExchange: the REST and websocket clients behind the adapters
    ([exchanges/client.py], [exchanges/adapters.py], [execution/coinstore_ws.py])

    The HTTP exchange is a parameter that answers by attempt; the monotonic
    clock of the rate limiter is [now], by attempt. A websocket connection is
    described by its turns: refused, or opened, delivering frames and then
    closed or broken. Waiting is recorded, not performed. *)

From Stdlib Require Import Ascii.
From S2P Require Import Prelude Rounding PyFloat PyDecimal PyData PyValue Models Venue RateLimit Crypto Signing Hardening Json Environment.

#[local] Open Scope string_scope.
#[local] Open Scope list_scope.

(** ** [RestClient] *)

Record Reply : Type := mkReply { rp_status : Z; rp_text : string; rp_content_type : string }.

Record Call : Type := mkCall {
  ca_method : string; ca_path : string; ca_params : option dict; ca_json : option dict; ca_headers : list (string * string) }.

Section Rest.
(** [http n call] answers the n-th request sent; [venue_text] is the venue's
    name in messages; [signer] the key and secret, if any. *)
Context (http : nat -> Call -> result Reply) (now : nat -> float).
Context (venue_text : string) (signer : option (string * string)).

(** The limiter, the number of attempts made and the requests sent. *)
Record RestState : Type := mkRest { rs_limiter : TokenBucket; rs_attempts : nat; rs_sent : list Call }.

Definition limiter {A} (m : SE TokenBucket A) : SE RestState A :=
  fun s => let '(b, r) := m (rs_limiter s) in (mkRest b (rs_attempts s) (rs_sent s), r).

Definition send_call (c : Call) : SE RestState Reply :=
  fun s => (mkRest (rs_limiter s) (rs_attempts s) (rs_sent s ++ [c]), http (length (rs_sent s)) c).

(** [json_body or params or {}] *)
Definition signed_payload (params json_body : option dict) : dict :=
  match json_body, params with
  | Some (_ :: _ as d), _ => d
  | _, Some d => d
  | _, None => []
  end.

(** One attempt of [request]: the body under the retry decorator. *)
Definition rest_attempt (method path : string) (params json_body : option dict) (signed : bool) : SE RestState pyval :=
  s ← se_get;
  _ ← se_put (mkRest (rs_limiter s) (S (rs_attempts s)) (rs_sent s));
  _ ← limiter (RateLimit.acquire (now (rs_attempts s)) 1);
  headers ← (match signed with
             | true => match signer with
                       | None => se_raise ExchangeError "signed request requires credentials"
                       | Some (key, secret) =>
                           payload ← se_lift (json_dumps (sort_keys (PDict (signed_payload params json_body))));
                           mret (hmac_headers key secret payload false)
                       end
             | false => mret []
             end);
  response ← send_call (mkCall method path params json_body headers);
  if (400 <=? rp_status response)%Z
  then se_raise ExchangeError (venue_text +:+ " REST error " +:+ str_of_Z (rp_status response) +:+ ": " +:+ String.substring 0 300 (rp_text response))
  else if String.eqb (rp_text response) "" then mret PNone
  else if str_in "json" (rp_content_type response) then se_lift (loads (rp_text response)) else mret (PStr (rp_text response)).

(** [@retry(stop=stop_after_attempt(3))]: any exception is retried, and the
    last one is wrapped in a [RetryError]. *)
Fixpoint rest_retry {A} (attempts : nat) (m : SE RestState A) : SE RestState A :=
  match attempts with
  | O => se_raise RetryError "RetryError"
  | S attempts' => se_catch m (fun _ => rest_retry attempts' m)
  end.

Definition request (method path : string) (params json_body : option dict) (signed : bool) : SE RestState pyval :=
  rest_retry 3 (rest_attempt method path params json_body signed).

Definition health (definition : ExchangeDefinition) : SE RestState bool :=
  _ ← request "GET" (xd_health_path definition) None None false; mret true.
End Rest.

(** ** [BaseExchangeAdapter] *)

Record AdapterSettings : Type := mkAdapterSettings {
  as_api_keys : dict; as_api_secrets : dict; as_http_timeout : float; as_max_delay : float }.

Record Adapter : Type := mkAdapter {
  ad_definition : ExchangeDefinition; ad_signer : option (string * string); ad_limiter : TokenBucket;
  ad_max_delay : float; ad_heartbeat : float; ad_stopped : bool }.

(** The constructor: credentials are looked up when the alias has a key; a key
    without a secret is a [KeyError]. [Settings] has no attribute [exchange],
    so the heartbeat interval is 20 seconds. *)
Definition new_adapter (definition : ExchangeDefinition) (st : AdapterSettings) (credential_alias : option string) (now : float) : result Adapter :=
  signer ← (match credential_alias with
            | Some alias => if phas alias (as_api_keys st) then
                              '(key, secret) ← exchange_credentials (as_api_keys st) (as_api_secrets st) alias;
                              Ok (Some (py_str key, py_str secret))
                            else Ok None
            | None => Ok None
            end);
  Ok (mkAdapter definition signer (new_bucket (xd_rate_limit definition) now) (as_max_delay st) (of_Z 20) false).

(** [create_adapter]: the adapters' names are those of the definitions. *)
Definition create_adapter (name : string) (st : AdapterSettings) (credential_alias : option string) (now : float) : result Adapter :=
  let alias := match credential_alias with Some a => if String.eqb a "" then str_lower name else a | None => str_lower name end in
  definition ← get_exchange_definition (str_lower name);
  new_adapter definition st (Some alias) now.

(** ** [WebSocketClient.stream] and [CoinstorePrivateWebSocketClient.run] *)

Inductive Frame : Type :=
  | Text (s : string)
  | Binary (b : bytes).

(** [json.loads(raw) if isinstance(raw, str) else {"binary": raw.hex()}] *)
Definition frame_message (f : Frame) : result pyval :=
  match f with Text s => loads s | Binary b => Ok (PDict [("binary", PStr (hexdigest b))]) end.

(** A connection attempt: refused, or opened and delivering frames until it is
    closed ([None]) or breaks. *)
Inductive Connection : Type :=
  | Refused (e : exn)
  | Opened (frames : list Frame) (ending : option exn).

Section PrivateSocket.
Context {H : Type} (handler : pyval -> SE H unit).
(** [time n] is the clock at the n-th reading, [send_fails n] the failure of
    the n-th frame sent, if any. *)
Context (time : nat -> float) (send_fails : nat -> option exn).
Context (credentials : ExecutionCredentials) (max_delay : float).

Record WsClient : Type := mkWsClient {
  sk_connected : bool; sk_attempts : Z; sk_subscriptions : Z; sk_messages : Z;
  sk_delay : float; sk_waits : list float; sk_sent : list pyval; sk_clock : nat; sk_host : H }.

Definition new_ws_client (h : H) : WsClient := mkWsClient false 0 0 0 (of_Z 1) [] [] 0 h.

Definition set_connected b s := mkWsClient b (sk_attempts s) (sk_subscriptions s) (sk_messages s) (sk_delay s) (sk_waits s) (sk_sent s) (sk_clock s) (sk_host s).
Definition add_attempt s := mkWsClient (sk_connected s) (sk_attempts s + 1) (sk_subscriptions s) (sk_messages s) (sk_delay s) (sk_waits s) (sk_sent s) (sk_clock s) (sk_host s).
Definition add_subscription s := mkWsClient (sk_connected s) (sk_attempts s) (sk_subscriptions s + 1) (sk_messages s) (sk_delay s) (sk_waits s) (sk_sent s) (sk_clock s) (sk_host s).
Definition add_message s := mkWsClient (sk_connected s) (sk_attempts s) (sk_subscriptions s) (sk_messages s + 1) (sk_delay s) (sk_waits s) (sk_sent s) (sk_clock s) (sk_host s).
Definition set_delay d s := mkWsClient (sk_connected s) (sk_attempts s) (sk_subscriptions s) (sk_messages s) d (sk_waits s) (sk_sent s) (sk_clock s) (sk_host s).
Definition add_wait w s := mkWsClient (sk_connected s) (sk_attempts s) (sk_subscriptions s) (sk_messages s) (sk_delay s) (sk_waits s ++ [w]) (sk_sent s) (sk_clock s) (sk_host s).

Definition K (A : Type) : Type := SE WsClient A.
#[local] Instance K_ret : MRet K := se_ret _.
#[local] Instance K_bind : MBind K := se_bind _.

Definition read_time : K float :=
  fun s => (mkWsClient (sk_connected s) (sk_attempts s) (sk_subscriptions s) (sk_messages s) (sk_delay s) (sk_waits s) (sk_sent s) (S (sk_clock s)) (sk_host s), Ok (time (sk_clock s))).

Definition on_host {A} (m : SE H A) : K A :=
  fun s => let '(h, r) := m (sk_host s) in
           (mkWsClient (sk_connected s) (sk_attempts s) (sk_subscriptions s) (sk_messages s) (sk_delay s) (sk_waits s) (sk_sent s) (sk_clock s) h, r).

Definition push_frame (v : pyval) : K unit :=
  fun s => match send_fails (length (sk_sent s)) with
           | Some e => (s, Err e)
           | None => (mkWsClient (sk_connected s) (sk_attempts s) (sk_subscriptions s) (sk_messages s) (sk_delay s) (sk_waits s) (sk_sent s ++ [v]) (sk_clock s) (sk_host s), Ok tt)
           end.

(** [ws.send(json.dumps(v, separators=(",", ":")))]: the value is recorded when
    it is sent. *)
Definition ws_send (v : pyval) : K unit := _ ← se_lift (json_dumps v); push_frame v.

(** [_signature]: the payload is the text of the expiry. *)
Definition private_signature (expires : Z) : result string :=
  coinstore_signature (cr_api_secret credentials) expires (str_of_Z expires).

(** [auth_payload()] with the expiry read from the clock. *)
Definition auth_payload : K pyval :=
  t ← read_time;
  expires ← se_lift (time_ms t);
  signature ← se_lift (private_signature expires);
  mret (PList [PStr "auth";
               PDict [("header", PDict [("type", PInt 1001)]);
                      ("body", PDict [("apiKey", PStr (cr_api_key credentials)); ("expires", PStr (str_of_Z expires)); ("signature", PStr signature)])]]).

Definition match_subscription : pyval :=
  PList [PStr "subscribe"; PDict [("header", PDict [("type", PInt 1003)]); ("body", PDict [("topics", PList [PDict [("topic", PStr "match")]])])]].

Definition authenticate_and_subscribe : K unit :=
  auth ← auth_payload;
  _ ← ws_send auth;
  _ ← ws_send match_subscription;
  se_modify add_subscription.

(** [str(message.get(k1) or message.get(k2) or ... or "").lower()] *)
Definition token_of (keys : list string) (message : dict) : string := str_lower (py_str (pget_first keys (PStr "") message)).

Definition is_heartbeat (message : dict) : bool :=
  bool_decide (token_of ["op"; "event"; "type"; "T"] message ∈ ["ping"; "pong"; "heartbeat"]).

Definition heartbeat_response (message : dict) : K unit :=
  if String.eqb (token_of ["op"; "event"; "type"] message) "ping" then
    ts ← (if truthy (pget "ts" message) then mret (pget "ts" message)
          else t ← read_time; ms ← se_lift (time_ms t); mret (PInt ms));
    ws_send (PDict [("op", PStr "pong"); ("ts", ts)])
  else mret tt.

Definition private_frame (f : Frame) : K unit :=
  message ← se_lift (frame_message f);
  _ ← se_modify add_message;
  d ← se_lift (as_dict message);
  if is_heartbeat d then heartbeat_response d else on_host (handler message).

(** The body of the [try]: one connection from opening to its end. *)
Definition connection_body (c : Connection) : K unit :=
  _ ← se_modify add_attempt;
  match c with
  | Refused e => se_lift (Err e)
  | Opened frames ending =>
      _ ← se_modify (set_connected true);
      _ ← authenticate_and_subscribe;
      _ ← se_modify (set_delay (of_Z 1));
      _ ← se_iter private_frame frames;
      match ending with None => mret tt | Some e => se_lift (Err e) end
  end.

(** One iteration of [run]. *)
Definition run_turn (c : Connection) : K unit :=
  se_catch (connection_body c) (fun _ =>
    _ ← se_modify (set_connected false);
    s ← se_get;
    _ ← se_modify (add_wait (sk_delay s));
    se_modify (set_delay (fmin max_delay (fmul (sk_delay s) (of_Z 2))))).

(** [run] until the client is stopped, after the given connections. *)
Definition run (connections : list Connection) : K unit := se_iter run_turn connections.

(** [WebSocketClient.stream] with the handler of [WebSocketClient.run]: an
    exception of the handler ends [run] (the inner result), any other
    exception of the connection leads to the next one. *)
Definition yield_message (message : pyval) : K (result unit) :=
  fun s => let '(s', r) := on_host (handler message) s in (s', Ok r).

Fixpoint stream_frames (frames : list Frame) : K (result unit) :=
  match frames with
  | [] => mret (Ok tt)
  | f :: rest =>
      message ← se_lift (frame_message f);
      r ← yield_message message;
      match r with Ok _ => stream_frames rest | Err e => mret (Err e) end
  end.

Definition stream_body (payloads : list pyval) (c : Connection) : K (result unit) :=
  match c with
  | Refused e => se_lift (Err e)
  | Opened frames ending =>
      _ ← se_iter ws_send payloads;
      _ ← se_modify (set_delay (of_Z 1));
      r ← stream_frames frames;
      match r, ending with
      | Ok _, Some e => se_lift (Err e)
      | _, _ => mret r
      end
  end.

Definition stream_turn (payloads : list pyval) (c : Connection) : K (result unit) :=
  se_catch (stream_body payloads c) (fun _ =>
    s ← se_get;
    _ ← se_modify (add_wait (sk_delay s));
    _ ← se_modify (set_delay (fmin max_delay (fmul (sk_delay s) (of_Z 2))));
    mret (Ok tt)).

Fixpoint stream_run (payloads : list pyval) (connections : list Connection) : K (result unit) :=
  match connections with
  | [] => mret (Ok tt)
  | c :: rest => r ← stream_turn payloads c; match r with Ok _ => stream_run payloads rest | Err e => mret (Err e) end
  end.
End PrivateSocket.

(** ** Retries *)

Section Retries.
Context (http : nat -> Call -> result Reply) (now : nat -> float) (venue_text : string) (signer : option (string * string)).

Definition attempt_spec {A} (m : SE RestState A) : Prop :=
  forall s, rs_attempts (m s).1 = S (rs_attempts s) /\
    (rs_sent (m s).1 = rs_sent s \/ exists c, rs_sent (m s).1 = rs_sent s ++ [c]).

Lemma limiter_frame {A} (m : SE TokenBucket A) s :
  rs_attempts (limiter m s).1 = rs_attempts s /\ rs_sent (limiter m s).1 = rs_sent s.
Proof. unfold limiter. by destruct (m (rs_limiter s)). Qed.

Lemma rest_attempt_spec method path params json_body signed :
  attempt_spec (rest_attempt http now venue_text signer method path params json_body signed).
Proof.
  intros s. unfold rest_attempt, mbind, se_bind, se_get, se_put. set (s0 := mkRest _ _ _).
  pose proof (limiter_frame (RateLimit.acquire (now (rs_attempts s)) 1) s0) as [L1 L2].
  destruct (limiter _ s0) as [s1 [[]|e]]; cbn [fst] in *; [|split; [done|by left]].
  assert (F : forall headers s2, rs_attempts s2 = S (rs_attempts s) -> rs_sent s2 = rs_sent s ->
    forall k : Reply -> SE RestState pyval, (forall r x, (k r x).1 = x) ->
    let s3 := ((send_call http (mkCall method path params json_body headers) ≫= k) s2).1 in
    rs_attempts s3 = S (rs_attempts s) /\ (rs_sent s3 = rs_sent s \/ exists c, rs_sent s3 = rs_sent s ++ [c])).
  { intros headers s2 A2 S2 k Hk. unfold send_call, mbind, se_bind. destruct (http _ _) as [r|e]; cbn; rewrite ?Hk; cbn; rewrite A2, S2; eauto. }
  assert (Kok : forall r x, ((if (400 <=? rp_status r)%Z
      then se_raise ExchangeError (venue_text +:+ " REST error " +:+ str_of_Z (rp_status r) +:+ ": " +:+ String.substring 0 300 (rp_text r))
      else if String.eqb (rp_text r) "" then mret PNone
      else if str_in "json" (rp_content_type r) then se_lift (loads (rp_text r)) else mret (PStr (rp_text r)) : SE RestState pyval) x).1 = x).
  { intros r x. repeat case_match; done. }
  destruct signed; [|by apply (F [] s1); [..|exact Kok]]. destruct signer as [[key secret]|]; [|split; [done|by left]].
  unfold se_lift at 1. destruct (json_dumps _) as [payload|e]; [|split; [done|by left]].
  by apply (F (hmac_headers key secret payload false) s1); [..|exact Kok].
Qed.

Lemma rest_retry_spec {A} (m : SE RestState A) n s : attempt_spec m ->
  exists k, (k <= n)%nat /\ rs_attempts (rest_retry n m s).1 = (rs_attempts s + k)%nat /\
    (length (rs_sent (rest_retry n m s).1) <= length (rs_sent s) + k)%nat /\
    forall e, (rest_retry n m s).2 = Err e -> k = n /\ ex_class e = RetryError.
Proof.
  intros Hm. revert s. induction n as [|n IH]; intros s.
  { exists 0%nat. cbn. split; [lia|]. split; [lia|]. split; [lia|]. intros e [= <-]. done. }
  cbn [rest_retry]. unfold se_catch. pose proof (Hm s) as [A1 S1]. destruct (m s) as [s1 [a|e]]; cbn [fst snd] in *.
  - exists 1%nat. split; [lia|]. split; [lia|]. split; [|done]. destruct S1 as [->|[c ->]]; rewrite ?length_app; cbn; lia.
  - destruct (IH s1) as (k & K1 & K2 & K3 & K4). exists (S k). split; [lia|]. split; [lia|].
    split; [destruct S1 as [E|[c E]]; rewrite E in K3; rewrite ?length_app in K3; cbn in *; lia|].
    intros e' He. destruct (K4 e' He). split; [lia|done].
Qed.
End Retries.

(** [RestClient.request] makes at most three attempts, each sending at
    most one HTTP request; when it fails it has made exactly three, and what
    its caller sees is tenacity's [RetryError], never the [ExchangeError] or
    [RateLimitExceededError] raised inside. *)
Theorem rest_request_retries http now venue_text signer method path params json_body signed s :
  let s' := (request http now venue_text signer method path params json_body signed s).1 in
  exists k, (k <= 3)%nat /\ rs_attempts s' = (rs_attempts s + k)%nat /\ (length (rs_sent s') <= length (rs_sent s) + k)%nat /\
    forall e, (request http now venue_text signer method path params json_body signed s).2 = Err e -> k = 3%nat /\ ex_class e = RetryError.
Proof. apply rest_retry_spec, rest_attempt_spec. Qed.

(** ** Delivery on the private websocket *)

Section Delivery.
Context {H : Type} (handler : pyval -> SE H unit) (time : nat -> float) (send_fails : nat -> option exn).
Context (credentials : ExecutionCredentials) (max_delay : float).

(** What a frame does to the handler's state. *)
Definition deliver_frame (h : H) (f : Frame) : H :=
  match frame_message f with
  | Ok (PDict d) => if is_heartbeat d then h else (handler (PDict d) h).1
  | _ => h
  end.

Notation host_frame m := (frame (sk_host (H := H)) m).

Lemma host_ws_send v : host_frame (ws_send send_fails v).
Proof.
  unfold ws_send. apply frame_bind; [apply frame_lift|]. intros _ s. unfold push_frame. by destruct (send_fails _).
Qed.

Lemma host_read_time : host_frame (read_time time).
Proof. done. Qed.

Lemma host_heartbeat d : host_frame (heartbeat_response time send_fails d).
Proof.
  unfold heartbeat_response. case_match; [|apply frame_ret]. apply frame_bind; [|intros; apply host_ws_send].
  case_match; [apply frame_ret|]. apply frame_bind; [apply host_read_time|]. intros t. apply frame_bind; [apply frame_lift|]. intros; apply frame_ret.
Qed.

Lemma host_subscribe : host_frame (authenticate_and_subscribe time send_fails credentials).
Proof.
  unfold authenticate_and_subscribe, auth_payload. apply frame_bind.
  - apply frame_bind; [apply host_read_time|]. intros t. apply frame_bind; [apply frame_lift|]. intros ms.
    apply frame_bind; [apply frame_lift|]. intros; apply frame_ret.
  - intros auth. apply frame_bind; [apply host_ws_send|]. intros _. apply frame_bind; [apply host_ws_send|]. intros _. by apply frame_modify.
Qed.

Lemma host_private_frame f s : sk_host (private_frame handler time send_fails f s).1 = deliver_frame (sk_host s) f.
Proof.
  unfold private_frame, deliver_frame, mbind, K_bind, se_bind, se_lift, se_modify. destruct (frame_message f) as [v|e]; [|done].
  destruct v as [| | | | | | |d]; try done. cbn [as_dict]. destruct (is_heartbeat d); [exact (host_heartbeat d (add_message s))|].
  unfold on_host. cbn. by destruct (handler (PDict d) (sk_host s)).
Qed.

Lemma host_frames frames s :
  let r := se_iter (private_frame handler time send_fails) frames s in
  exists k, sk_host r.1 = foldl deliver_frame (sk_host s) (take k frames) /\ (is_ok r.2 = true -> take k frames = frames).
Proof.
  revert s. induction frames as [|f frames IH]; intros s; [by exists 0%nat|]. cbn [se_iter]. unfold mbind, se_bind.
  pose proof (host_private_frame f s) as F. destruct (private_frame _ _ _ f s) as [s1 [[]|e]]; cbn [fst] in *.
  - destruct (IH s1) as (k & E & C). exists (S k). rewrite F in E. split; [exact E|]. intros O. cbn [take]. by rewrite C.
  - exists 1%nat. split; [by rewrite F|done].
Qed.

Definition frames_of (c : Connection) : list Frame := match c with Refused _ => [] | Opened frames _ => frames end.

Lemma connection_body_opened frames ending s :
  connection_body handler time send_fails credentials (Opened frames ending) s =
  match authenticate_and_subscribe time send_fails credentials (set_connected true (add_attempt s)) with
  | (s1, Ok _) =>
      match se_iter (private_frame handler time send_fails) frames (set_delay (of_Z 1) s1) with
      | (s2, Ok _) => (s2, match ending with None => Ok tt | Some e => Err e end)
      | (s2, Err e) => (s2, Err e)
      end
  | (s1, Err e) => (s1, Err e)
  end.
Proof.
  unfold connection_body, mbind, K_bind, se_bind, se_modify. destruct (authenticate_and_subscribe _ _ _ _) as [s1 [[]|e]]; [|done].
  destruct (se_iter _ frames _) as [s2 [[]|e]]; [|done]. by destruct ending.
Qed.

Lemma host_body c s :
  let r := connection_body handler time send_fails credentials c s in
  exists k, sk_host r.1 = foldl deliver_frame (sk_host s) (take k (frames_of c)) /\ (is_ok r.2 = true -> take k (frames_of c) = frames_of c).
Proof.
  destruct c as [e|frames ending]; [by exists 0%nat|]. rewrite connection_body_opened. set (s0 := set_connected true (add_attempt s)).
  pose proof (host_subscribe s0) as F. destruct (authenticate_and_subscribe _ _ _ s0) as [s1 [[]|e]]; cbn [fst] in F; [|by exists 0%nat].
  destruct (host_frames frames (set_delay (of_Z 1) s1)) as (k & E & C).
  destruct (se_iter _ frames _) as [s2 [[]|e]]; cbn [fst snd is_ok] in *; exists k; rewrite E.
  - split; [|intros _; by apply C]. change (sk_host (set_delay (of_Z 1) s1)) with (sk_host s1). by rewrite F.
  - split; [|done]. change (sk_host (set_delay (of_Z 1) s1)) with (sk_host s1). by rewrite F.
Qed.

Lemma host_turn c s :
  let r := connection_body handler time send_fails credentials c s in
  sk_host (run_turn handler time send_fails credentials max_delay c s).1 = sk_host r.1 /\ (run_turn handler time send_fails credentials max_delay c s).2 = Ok tt.
Proof. unfold run_turn, se_catch. by destruct (connection_body _ _ _ _ c s) as [s1 [[]|e]]. Qed.
End Delivery.

(** Over any number of connections of the private websocket, the handler
    sees of each connection a prefix of its frames, in order and each once,
    less the heartbeats: nothing is duplicated or reordered by reconnecting,
    heartbeats never reach it, and the loop itself never raises. *)
Theorem private_socket_delivery {H} (handler : pyval -> SE H unit) time send_fails credentials max_delay connections s :
  let r := run handler time send_fails credentials max_delay connections s in
  r.2 = Ok tt /\
  exists seen, Forall2 prefix seen (map frames_of connections) /\ sk_host r.1 = foldl (deliver_frame handler) (sk_host s) (concat seen).
Proof.
  unfold run. revert s. induction connections as [|c cs IH]; intros s; [split; [done|]; exists []; split; [constructor|done]|].
  cbn [se_iter]. unfold mbind, se_bind. destruct (host_turn handler time send_fails credentials max_delay c s) as [E O].
  destruct (host_body handler time send_fails credentials c s) as (k & B & _). destruct (run_turn _ _ _ _ _ c s) as [s1 r1]. cbn [fst snd] in *. subst r1.
  destruct (IH s1) as [O' (seen & P & F)]. split; [done|]. exists (take k (frames_of c) :: seen). split.
  - constructor; [|done]. exists (drop k (frames_of c)). symmetry. apply take_drop.
  - cbn [concat]. rewrite foldl_app, F, E, B. done.
Qed.

(** A connection that opens and is closed by the peer without an error is
    reopened at once: the client neither waits nor marks itself disconnected. *)
Theorem clean_close_reconnects_at_once {H} (handler : pyval -> SE H unit) time credentials max_delay n (h : H) :
  (forall i, exists ms, time_ms (time i) = Ok ms /\ is_ok (coinstore_time_slot ms) = true) ->
  let r := run handler time (fun _ => None) credentials max_delay (repeat (Opened [] None) (S n)) (new_ws_client h) in
  sk_waits r.1 = [] /\ sk_attempts r.1 = Z.of_nat (S n) /\ sk_connected r.1 = true.
Proof.
  intros T. unfold run.
  assert (G : forall m s, sk_waits (H := H) s = [] -> (m = 0%nat -> sk_connected s = true) ->
    let r := se_iter (run_turn handler time (fun _ => None) credentials max_delay) (repeat (Opened [] None) m) s in
    sk_waits r.1 = [] /\ sk_attempts r.1 = (sk_attempts s + Z.of_nat m)%Z /\ sk_connected r.1 = true).
  { induction m as [|m IH]; intros s W C; [cbn; split; [done|]; split; [lia|by apply C]|]. cbn [repeat se_iter]. unfold mbind, se_bind.
    assert (B : exists s1, run_turn handler time (fun _ => None) credentials max_delay (Opened [] None) s = (s1, Ok tt) /\
      sk_waits s1 = [] /\ sk_attempts s1 = (sk_attempts s + 1)%Z /\ sk_connected s1 = true).
    { unfold run_turn, se_catch, connection_body, authenticate_and_subscribe, auth_payload, mbind, K_bind, se_bind, se_modify, se_lift, read_time.
      cbn [sk_clock add_attempt set_connected]. destruct (T (sk_clock s)) as (ms & E & O). rewrite E.
      unfold private_signature, coinstore_signature, mbind, result_bind. destruct (coinstore_time_slot ms); [|done].
      eexists. split; [reflexivity|]. done. }
    destruct B as (s1 & -> & W1 & A1 & C1). destruct (IH s1 W1 (fun _ => C1)) as (R1 & R2 & R3). split; [done|]. split; [|done]. rewrite R2, A1. lia. }
  destruct (G (S n) (new_ws_client h) eq_refl ltac:(done)) as (R1 & R2 & R3). split; [done|]. split; [|done]. rewrite R2. cbn. lia.
Qed.

(** [WebSocketClient.run] ends early only with an exception of its handler:
    no failure of a connection, of a subscription or of a frame escapes. *)
Theorem stream_run_errors {H} (handler : pyval -> SE H unit) send_fails max_delay payloads connections s :
  match (stream_run handler send_fails max_delay payloads connections s).2 with
  | Ok (Ok _) => True
  | Ok (Err e) => exists message h, (handler message h).2 = Err e
  | Err _ => False
  end.
Proof.
  assert (F : forall frames s e, (stream_frames handler frames s).2 = Ok (Err e) -> exists message h, (handler message h).2 = Err e).
  { induction frames as [|f frames IH]; intros s0 e; [done|]. cbn [stream_frames]. unfold mbind, K_bind, se_bind, se_lift, yield_message, on_host.
    destruct (frame_message f) as [m|]; [|done]. destruct (handler m (sk_host s0)) as [h [[]|e']] eqn:E; [apply IH|].
    intros [= <-]. exists m, (sk_host s0). by rewrite E. }
  assert (B : forall c s e, (stream_body handler send_fails payloads c s).2 = Ok (Err e) -> exists message h, (handler message h).2 = Err e).
  { intros [e'|frames ending] s0 e; [done|]. cbn [stream_body]. unfold mbind, K_bind, se_bind, se_modify.
    destruct (se_iter _ payloads s0) as [s1 [[]|]]; [|done]. pose proof (F frames (set_delay (of_Z 1) s1)) as F1.
    destruct (stream_frames _ frames _) as [s2 [[[]|e2]|]]; [by destruct ending| |done]. intros E. apply F1. by destruct ending. }
  revert s. induction connections as [|c cs IH]; intros s; [done|]. cbn [stream_run]. unfold mbind, K_bind, se_bind, stream_turn, se_catch.
  pose proof (B c s) as B1. destruct (stream_body _ _ payloads c s) as [s1 [[[]|e]|e]]; [apply IH|by apply B1|apply IH].
Qed.
