(* ===== verification/Migrations.v ===== *)
(** * Migrations: versioned SQL scripts ([db/migrations.py], [db/seeds.py])

    A connection is the list of recorded versions, the list of the script
    statements executed and a call counter. Executing SQL is a parameter that
    may raise, by call; which tables exist is a parameter, a function of the
    statements executed. [engine.begin()] commits at the end and rolls
    everything back when an exception leaves the block. *)

From Stdlib Require Import Ascii Sorted.
From S2P Require Import Prelude PyFloat PyDecimal PyData PyValue Signing Environment.

#[local] Open Scope string_scope.
#[local] Open Scope list_scope.

(** ** [_split_sql] *)

Definition join_lines (lines : list string) : string := str_strip (str_join newline lines).
Definition keep_statement (s : string) : list string := if String.eqb s "" then [] else [s].

(** A line toggles the function body, and ends a statement outside of one. *)
Definition toggles (line : string) : bool := str_in "$$" (str_strip line).
Definition ends_statement (line : string) : bool := str_endswith ";" (str_strip line).

Fixpoint split_lines (lines current : list string) (in_function : bool) : list string :=
  match lines with
  | [] => keep_statement (join_lines current)
  | line :: rest =>
      let in_function := xorb in_function (toggles line) in
      let current := current ++ [line] in
      if ends_statement line && negb in_function
      then keep_statement (join_lines current) ++ split_lines rest [] in_function
      else split_lines rest current in_function
  end.

Definition split_sql (sql : string) : list string := split_lines (splitlines sql) [] false.

Example split_example :
  split_sql ("CREATE FUNCTION f() AS $$" +:+ newline +:+ "BEGIN x; END;" +:+ newline +:+ "$$ LANGUAGE plpgsql;" +:+ newline
             +:+ newline +:+ "SELECT 1;" +:+ newline +:+ "-- end")
  = ["CREATE FUNCTION f() AS $$" +:+ newline +:+ "BEGIN x; END;" +:+ newline +:+ "$$ LANGUAGE plpgsql;"; "SELECT 1;"; "-- end"].
Proof. vm_compute. reflexivity. Qed.

(** A body on one line leaves the splitter inside it. *)
Lemma one_line_body_swallows :
  split_sql ("CREATE FUNCTION f() AS $$ SELECT 1; $$;" +:+ newline +:+ "SELECT 2;" +:+ newline +:+ "SELECT 3;")
  = ["CREATE FUNCTION f() AS $$ SELECT 1; $$;" +:+ newline +:+ "SELECT 2;" +:+ newline +:+ "SELECT 3;"].
Proof. vm_compute. reflexivity. Qed.

(** ** The runners *)

Record Script : Type := mkScript { sc_name : string; sc_text : string }.

Record Conn : Type := mkConn { cn_versions : list string; cn_log : list string; cn_calls : nat }.

Definition INITIAL_MIGRATION : string := "0001_initial_schema.sql".
Definition INITIAL_SCHEMA_TABLES : list string :=
  ["roles"; "permissions"; "user_roles"; "role_permissions"; "bot_configs"; "exchange_accounts"; "trading_pairs"; "orders"; "trades";
   "inventory_snapshots"; "audit_logs"].

(** [sorted(path.glob("*.sql"))]: the files are in one directory. *)
Definition glob_sql (directory : list Script) : list Script :=
  sorted (fun a b => str_le (sc_name a) (sc_name b)) (List.filter (fun f => str_endswith ".sql" (sc_name f)) directory).

Section Runners.
Context (execute : nat -> string -> result unit) (has_table : list string -> string -> bool).

(** [conn.execute(text(sql))] *)
Definition sql (statement : string) : SE Conn unit :=
  fun c => (mkConn (cn_versions c) (cn_log c) (S (cn_calls c)), execute (cn_calls c) statement).

Definition script_statement (statement : string) : SE Conn unit :=
  _ ← sql statement; se_modify (fun c => mkConn (cn_versions c) (cn_log c ++ [statement]) (cn_calls c)).

(** The insertion of a name in the history table. *)
Definition record_version (insert name : string) : SE Conn unit :=
  _ ← sql insert; se_modify (fun c => mkConn (cn_versions c ++ [name]) (cn_log c) (cn_calls c)).

(** The loop over the scripts: [existing] was read before it. *)
Fixpoint apply_scripts (insert : string) (existing : list string) (scripts : list Script) : SE Conn (list string) :=
  match scripts with
  | [] => mret []
  | f :: rest =>
      if bool_decide (sc_name f ∈ existing) then apply_scripts insert existing rest
      else
        _ ← se_iter script_statement (split_sql (sc_text f));
        _ ← record_version insert (sc_name f);
        applied ← apply_scripts insert existing rest;
        mret (sc_name f :: applied)
  end.

(** [async with engine.begin() as conn] *)
Definition in_transaction {A} (m : SE Conn A) : SE Conn A :=
  fun c => match m c with
           | (c', Ok a) => match execute (cn_calls c') "COMMIT" with
                           | Ok _ => (mkConn (cn_versions c') (cn_log c') (S (cn_calls c')), Ok a)
                           | Err e => (mkConn (cn_versions c) (cn_log c) (S (cn_calls c')), Err e)
                           end
           | (c', Err e) => (mkConn (cn_versions c) (cn_log c) (cn_calls c'), Err e)
           end.

(** [_initial_schema_exists] *)
Definition initial_schema_exists (c : Conn) : bool := forallb (has_table (cn_log c)) INITIAL_SCHEMA_TABLES.

Definition insert_migration : string := "INSERT INTO schema_migrations(version) VALUES (:version)".
Definition insert_seed : string := "INSERT INTO seed_history(name) VALUES (:name)".

(** [existing], after the initial schema has been recorded if it is there. *)
Definition baseline : SE Conn (list string) :=
  _ ← sql "SELECT version FROM schema_migrations";
  c ← se_get;
  if negb (bool_decide (INITIAL_MIGRATION ∈ cn_versions c)) && initial_schema_exists c
  then _ ← record_version insert_migration INITIAL_MIGRATION; mret (cn_versions c ++ [INITIAL_MIGRATION])
  else mret (cn_versions c).

Definition migrate (directory : list Script) : SE Conn (list string) :=
  in_transaction (
    _ ← sql "CREATE TABLE IF NOT EXISTS schema_migrations (version TEXT PRIMARY KEY, applied_at TIMESTAMPTZ DEFAULT CURRENT_TIMESTAMP)";
    existing ← baseline;
    apply_scripts insert_migration existing (glob_sql directory)).

Definition seed (directory : list Script) : SE Conn (list string) :=
  in_transaction (
    _ ← sql "CREATE TABLE IF NOT EXISTS seed_history (name TEXT PRIMARY KEY, applied_at TIMESTAMPTZ DEFAULT CURRENT_TIMESTAMP)";
    _ ← sql "SELECT name FROM seed_history";
    c ← se_get;
    apply_scripts insert_seed (cn_versions c) (glob_sql directory)).
End Runners.

(** ** Properties of the splitting *)

(** Lines that continue a statement, and the state of the function body after
    a group of lines. *)
Definition body_after (b : bool) (lines : list string) : bool := foldl (fun b l => xorb b (toggles l)) b lines.

(** A group is complete when its last line, and no other, ends a statement
    outside of a function body; [b] is the state before the group. *)
Fixpoint complete_group (b : bool) (group : list string) : bool :=
  match group with
  | [] => false
  | [l] => ends_statement l && negb (xorb b (toggles l))
  | l :: rest => negb (ends_statement l && negb (xorb b (toggles l))) && complete_group (xorb b (toggles l)) rest
  end.
Fixpoint open_group (b : bool) (group : list string) : bool :=
  match group with
  | [] => true
  | l :: rest => negb (ends_statement l && negb (xorb b (toggles l))) && open_group (xorb b (toggles l)) rest
  end.

Definition statements_of (groups : list (list string)) : list string := concat (map (fun g => keep_statement (join_lines g)) groups).

(** A complete group leaves no function body open. *)
Fixpoint complete_groups (b : bool) (groups : list (list string)) : bool :=
  match groups with [] => true | g :: rest => complete_group b g && complete_groups (body_after b g) rest end.

Lemma body_after_snoc b current line : body_after b (current ++ [line]) = xorb (body_after b current) (toggles line).
Proof. unfold body_after. by rewrite foldl_app. Qed.

Lemma open_snoc b current line : open_group b current = true ->
  ends_statement line && negb (xorb (body_after b current) (toggles line)) = false -> open_group b (current ++ [line]) = true.
Proof.
  revert b. induction current as [|l current IH]; intros b; simpl; [by intros _ ->|].
  intros [-> H]%andb_true_iff E. by apply IH.
Qed.

Lemma complete_snoc b current line : open_group b current = true ->
  ends_statement line && negb (xorb (body_after b current) (toggles line)) = true -> complete_group b (current ++ [line]) = true.
Proof.
  revert b. induction current as [|l current IH]; intros b; simpl; [by intros _ ->|].
  intros [H1 H]%andb_true_iff E. rewrite H1, (IH _ H E). by destruct (current ++ [line]) eqn:X; [destruct current|].
Qed.

Lemma split_lines_groups b current lines : open_group b current = true ->
  exists groups last, concat groups ++ last = current ++ lines /\
    split_lines lines current (body_after b current) = statements_of (groups ++ [last]) /\
    complete_groups b groups = true /\ open_group (foldl body_after b groups) last = true.
Proof.
  revert b current. induction lines as [|line lines IH]; intros b current Hc.
  - exists [], current. rewrite app_nil_r. split; [done|]. split; [|done]. simpl. unfold statements_of. simpl. by rewrite app_nil_r.
  - simpl. rewrite <- body_after_snoc. destruct (ends_statement line && negb (body_after b (current ++ [line]))) eqn:E.
    + destruct (IH (body_after b (current ++ [line])) []) as (groups & rest & E1 & E2 & E3 & E4); [done|].
      exists ((current ++ [line]) :: groups), rest. simpl. split; [by rewrite <- app_assoc, E1, <- app_assoc|].
      split; [change (body_after b (current ++ [line])) with (body_after (body_after b (current ++ [line])) []) at 1; rewrite E2; done|].
      rewrite E3. split; [|done]. rewrite body_after_snoc in E. by rewrite complete_snoc.
    + destruct (IH b (current ++ [line])) as (groups & rest & E1 & E2 & E3 & E4).
      { rewrite body_after_snoc in E. by apply open_snoc. }
      exists groups, rest. rewrite <- app_assoc in E1. done.
Qed.

(** Splitting a script cuts its lines, all of them and in order, after
    each line that ends in a semicolon outside of a function body, and nowhere
    else; every non-blank group becomes one statement. *)
Theorem split_sql_groups text :
  exists groups last, concat groups ++ last = splitlines text /\
    split_sql text = statements_of (groups ++ [last]) /\
    complete_groups false groups = true /\ open_group (foldl body_after false groups) last = true.
Proof. apply (split_lines_groups false []). done. Qed.

(** ** Properties of the runners *)

Section Runs.
Context (execute : nat -> string -> result unit) (has_table : list string -> string -> bool).

Lemma sql_eq s c : sql execute s c = (mkConn (cn_versions c) (cn_log c) (S (cn_calls c)), execute (cn_calls c) s).
Proof. done. Qed.

Definition pending (existing : list string) (scripts : list Script) : list Script :=
  List.filter (fun f => negb (bool_decide (sc_name f ∈ existing))) scripts.
Definition statements (scripts : list Script) : list string := concat (map (fun f => split_sql (sc_text f)) scripts).

Lemma run_statements l c c' : se_iter (script_statement execute) l c = (c', Ok tt) ->
  cn_versions c' = cn_versions c /\ cn_log c' = cn_log c ++ l.
Proof.
  revert c. induction l as [|x l IH]; intros c; cbn [se_iter].
  - intros [= <-]. by rewrite app_nil_r.
  - unfold mbind, se_bind, script_statement at 1. unfold mbind, se_bind, sql, se_modify.
    destruct (execute (cn_calls c) x) as [[]|]; [|done]. intros [-> ->]%IH. simpl. by rewrite <- app_assoc.
Qed.

Lemma apply_scripts_ok insert existing scripts c c' names :
  apply_scripts execute insert existing scripts c = (c', Ok names) ->
  names = map sc_name (pending existing scripts) /\ cn_versions c' = cn_versions c ++ names /\
  cn_log c' = cn_log c ++ statements (pending existing scripts).
Proof.
  revert c c' names. induction scripts as [|f scripts IH]; intros c c' names; cbn [apply_scripts].
  - intros [= <- <-]. by rewrite !app_nil_r.
  - unfold pending. cbn [List.filter]. destruct (bool_decide (sc_name f ∈ existing)) eqn:E; cbn [negb]; [apply IH|].
    unfold mbind, se_bind. destruct (se_iter _ _ c) as [c1 [[]|]] eqn:R; [|done]. apply run_statements in R as [V1 L1].
    unfold record_version, mbind, se_bind, sql, se_modify. destruct (execute (cn_calls c1) insert) as [[]|]; [|done].
    destruct (apply_scripts _ _ _ scripts _) as [c2 [applied|]] eqn:A; [|done]. apply IH in A as (-> & V2 & L2).
    intros [= <- <-]. simpl in *. rewrite V2, L2, V1, L1. split; [done|]. unfold statements. simpl. by rewrite <- !app_assoc.
Qed.

Lemma pending_nil existing scripts : (forall f, f ∈ scripts -> sc_name f ∈ existing) -> pending existing scripts = [].
Proof.
  induction scripts as [|f l IH]; intros H; [done|]. unfold pending. cbn [List.filter]. rewrite bool_decide_true by (apply H; by left).
  apply IH. intros g Hg. apply H. by right.
Qed.
End Runs.

(** The versions recorded when the loop starts. *)
Definition recorded (has_table : list string -> string -> bool) (c : Conn) : list string :=
  if negb (bool_decide (INITIAL_MIGRATION ∈ cn_versions c)) && forallb (has_table (cn_log c)) INITIAL_SCHEMA_TABLES
  then cn_versions c ++ [INITIAL_MIGRATION] else cn_versions c.

Lemma migrate_ok execute has_table directory c c' names :
  migrate execute has_table directory c = (c', Ok names) ->
  let todo := pending (recorded has_table c) (glob_sql directory) in
  names = map sc_name todo /\ cn_versions c' = recorded has_table c ++ names /\ cn_log c' = cn_log c ++ statements todo.
Proof.
  unfold migrate, in_transaction, mbind, se_bind. rewrite sql_eq.
  destruct (execute (cn_calls c) _) as [[]|]; [|done]. unfold baseline, mbind, se_bind. rewrite sql_eq. simpl.
  destruct (execute (S (cn_calls c)) _) as [[]|]; [|done]. unfold se_get. simpl. unfold recorded, initial_schema_exists. simpl.
  destruct (negb _ && _).
  - unfold record_version, mbind, se_bind. rewrite sql_eq. destruct (execute _ insert_migration) as [[]|]; [|done]. simpl.
    destruct (apply_scripts _ _ _ _ _) as [c2 [applied|]] eqn:A; [|done]. apply apply_scripts_ok in A as (-> & V & L).
    destruct (execute _ "COMMIT") as [[]|]; [|done]. intros [= <- <-]. done.
  - unfold mret, se_ret. simpl. destruct (apply_scripts execute _ _ _ _) as [c2 [applied|]] eqn:A; [|done]. apply apply_scripts_ok in A as (-> & V & L).
    destruct (execute _ "COMMIT") as [[]|]; [|done]. intros [= <- <-]. done.
Qed.

Lemma apply_scripts_total execute insert existing scripts c : (forall n s, execute n s = Ok tt) ->
  exists c' names, apply_scripts execute insert existing scripts c = (c', Ok names).
Proof.
  intros X. revert c. induction scripts as [|f scripts IH]; intros c; cbn [apply_scripts]; [by eexists _, _|].
  destruct (bool_decide _); [apply IH|]. unfold mbind, se_bind.
  assert (R : forall l c, exists c1, se_iter (script_statement execute) l c = (c1, Ok tt)).
  { intros l. induction l as [|x l IHl]; intros c0; cbn [se_iter]; [by eexists|].
    unfold mbind, se_bind, script_statement at 1. unfold mbind, se_bind. rewrite sql_eq, X. apply IHl. }
  destruct (R (split_sql (sc_text f)) c) as [c1 ->]. unfold record_version, mbind, se_bind. rewrite sql_eq, X. unfold se_modify.
  match goal with |- context [apply_scripts _ _ _ _ ?c0] => destruct (IH c0) as (c2 & names & ->) end. by eexists _, _.
Qed.

Lemma migrate_total execute has_table directory c : (forall n s, execute n s = Ok tt) ->
  exists c' names, migrate execute has_table directory c = (c', Ok names).
Proof.
  intros X. unfold migrate, in_transaction, baseline, mbind, se_bind. rewrite sql_eq, X. rewrite ?sql_eq, ?X. unfold se_get, mret, se_ret.
  destruct (negb _ && _).
  - unfold record_version, mbind, se_bind. rewrite sql_eq, X. unfold se_modify.
    match goal with |- context [apply_scripts _ _ _ _ ?c0] => edestruct (apply_scripts_total execute) as (c2 & names & E); [exact X|rewrite E] end.
    rewrite X. by eexists _, _.
  - edestruct (apply_scripts_total execute) as (c2 & names & E); [exact X|rewrite E]. rewrite X. by eexists _, _.
Qed.

(** A run that raises is rolled back. *)
Lemma migrate_failed execute has_table directory c c' e :
  migrate execute has_table directory c = (c', Err e) -> cn_versions c' = cn_versions c /\ cn_log c' = cn_log c.
Proof.
  unfold migrate, in_transaction. match goal with |- context [match ?m with _ => _ end] => destruct m as [c1 [a|e1]] end; [|by intros [= <- _]].
  destruct (execute _ "COMMIT"); [done|]. by intros [= <- _].
Qed.

Lemma recorded_incl has_table c v : v ∈ cn_versions c -> v ∈ recorded has_table c.
Proof. unfold recorded. destruct (negb _ && _); set_solver. Qed.

Lemma pending_or_recorded existing scripts f : f ∈ scripts -> sc_name f ∈ existing ++ map sc_name (pending existing scripts).
Proof.
  intros H. apply elem_of_app. destruct (decide (sc_name f ∈ existing)) as [D|D]; [by left|right].
  apply list_elem_of_In, in_map, filter_In. split; [by apply list_elem_of_In|]. by rewrite bool_decide_false.
Qed.

(** C23: a migration run that returns has executed the statements of exactly
    the scripts not yet recorded, in the order of their names, and recorded
    them; the next run of the same directory executes nothing and, unless the
    database refuses, reports nothing applied. A run that raises leaves
    versions and statements as they were, and a run on a database that accepts
    every statement returns. *)
Theorem migrations_run_once execute has_table directory c :
  (forall c' names, migrate execute has_table directory c = (c', Ok names) ->
     let todo := pending (recorded has_table c) (glob_sql directory) in
     names = map sc_name todo /\ cn_log c' = cn_log c ++ statements todo /\ cn_versions c' = recorded has_table c ++ names /\
     StronglySorted (leP (fun a b => str_le (sc_name a) (sc_name b))) (glob_sql directory) /\
     forall execute' c2 r, migrate execute' has_table directory c' = (c2, r) ->
       cn_log c2 = cn_log c' /\ (r = Ok [] \/ exists e, r = Err e)) /\
  (forall c' e, migrate execute has_table directory c = (c', Err e) -> cn_versions c' = cn_versions c /\ cn_log c' = cn_log c) /\
  ((forall n s, execute n s = Ok tt) -> exists c' names, migrate execute has_table directory c = (c', Ok names)).
Proof.
  split; [|split; [apply migrate_failed|apply migrate_total]].
  intros c' names E. apply migrate_ok in E as (E1 & E2 & E3). split; [done|]. split; [done|]. split; [done|]. split.
  { apply sorted_sorted; [intros x y z; apply str_le_trans|intros x y; apply str_le_total]. }
  intros execute' c2 [names2|e] R; [|apply migrate_failed in R as [_ ->]; eauto].
  apply migrate_ok in R as (R1 & R2 & R3).
  assert (N : pending (recorded has_table c') (glob_sql directory) = []).
  { apply pending_nil. intros f Hf. apply recorded_incl. rewrite E2, E1. by apply pending_or_recorded. }
  rewrite N in R1, R3. rewrite R3. split; [apply app_nil_r|]. left. by rewrite R1.
Qed.
