(* ===== verification/ApiBase.v ===== *)
(** * ApiBase: state, environment and views of the REST API
    ([api/routes.py], [api/dependencies.py], [db/session.py])

    The state of the API is the configuration store (configuration documents,
    audit records, runtime events, the bus), the text keys of Redis it reads
    and writes itself, the exchange accounts, the risk events and the tables
    the engines write. [ApiEnv] is the environment: clocks, [uuid4], what the
    database and Redis refuse, pydantic's validation of stored documents, the
    times the database server gives to new rows ([e_stamp], by row id) and
    the network. The audit records are those the code writes itself; the ones
    the session's flush hook adds are in [UnitOfWork]. HTTP errors are [HTTPException] with the message "status: detail". *)

From Stdlib Require Import Ascii.
From S2P Require Import Prelude Rounding PyFloat PyDecimal PyData PyValue Models Venue Crypto Signing Config CoinstoreRules Volume Daemon ConfigStore Access Json RedisStore Environment Client PublicExchange.

#[local] Open Scope string_scope.
#[local] Open Scope list_scope.

(** ** Rows *)

Inductive RiskSeverity : Type := sev_low | sev_medium | sev_high | sev_critical.
Definition severity_value (s : RiskSeverity) : string :=
  match s with sev_low => "low" | sev_medium => "medium" | sev_high => "high" | sev_critical => "critical" end.

Record RiskRow : Type := mkRiskRow {
  rr_id : string; rr_severity : RiskSeverity; rr_event_type : string; rr_source : string; rr_message : string;
  rr_breaker : bool; rr_kill_switch : bool; rr_metadata : dict }.

(** A stored secret is absent ([None], the empty ciphertext) or a token. *)
Record AccountRow (Token : Type) : Type := mkAccountRow {
  ac_id : string; ac_exchange_name : string; ac_account_alias : string; ac_environment : string;
  ac_api_key : option Token; ac_api_secret : option Token; ac_passphrase : option Token; ac_key_id : string;
  ac_permissions : list string; ac_enabled : bool;
  ac_rest : bool; ac_websocket : bool; ac_private_ws : bool; ac_status : string;
  ac_tested_at : option datetime; ac_success_at : option datetime; ac_failure_at : option datetime; ac_error : option string;
  ac_created_at : datetime; ac_updated_at : datetime }.
Arguments mkAccountRow {Token}.
Arguments ac_id {Token}. Arguments ac_exchange_name {Token}. Arguments ac_account_alias {Token}. Arguments ac_environment {Token}.
Arguments ac_api_key {Token}. Arguments ac_api_secret {Token}. Arguments ac_passphrase {Token}. Arguments ac_key_id {Token}.
Arguments ac_permissions {Token}. Arguments ac_enabled {Token}. Arguments ac_rest {Token}. Arguments ac_websocket {Token}.
Arguments ac_private_ws {Token}. Arguments ac_status {Token}. Arguments ac_tested_at {Token}. Arguments ac_success_at {Token}.
Arguments ac_failure_at {Token}. Arguments ac_error {Token}. Arguments ac_created_at {Token}. Arguments ac_updated_at {Token}.

Record ApiOrder : Type := mkApiOrder {
  ao_id : string; ao_client_order_id : string; ao_exchange_order_id : option string; ao_pair : string; ao_side : ExecutionSide;
  ao_type : ExecutionOrderType; ao_status : OrderStatus; ao_price : option dec; ao_quantity : dec; ao_filled : dec;
  ao_created_at : datetime; ao_updated_at : datetime }.

Record ApiTrade : Type := mkApiTrade {
  at_id : string; at_trade_id : string; at_pair : string; at_side : ExecutionSide; at_price : dec; at_quantity : dec; at_fee : dec;
  at_fee_asset : option string; at_traded_at : datetime }.

Record ApiPosition : Type := mkApiPosition {
  po_id : string; po_pair : string; po_asset : string; po_side : PositionSide; po_quantity : dec; po_realized : dec;
  po_unrealized : dec; po_mark_price : option dec; po_updated_at : datetime }.

Record Snapshot : Type := mkSnap {
  sn_id : string; sn_account : string; sn_asset : string; sn_total : dec; sn_available : dec; sn_reserved : dec;
  sn_valuation_asset : string; sn_valuation_price : option dec; sn_valuation_amount : option dec; sn_captured_at : datetime }.

(** ** State *)

Record Api (Token : Type) : Type := mkApi {
  ap_store : ConfigStore;
  ap_keys : list (string * string);
  ap_accounts : list (AccountRow Token);
  ap_risks : list RiskRow;
  ap_pairs : list (string * string);
  ap_orders : list ApiOrder; ap_trades : list ApiTrade; ap_positions : list ApiPosition; ap_snapshots : list Snapshot }.
Arguments mkApi {Token}.
Arguments ap_store {Token}. Arguments ap_keys {Token}. Arguments ap_accounts {Token}. Arguments ap_risks {Token}.
Arguments ap_pairs {Token}. Arguments ap_orders {Token}. Arguments ap_trades {Token}. Arguments ap_positions {Token}. Arguments ap_snapshots {Token}.

Record ApiSettings : Type := mkApiSettings {
  ap_jwt : JwtSettings; ap_adapter : AdapterSettings; ap_trading_mode : string; ap_max_canary_notional : float;
  ap_max_canary_position : float; ap_paper_base_asset : string }.

(** Answers of the network are by the moment of the request and, inside a
    client, by request. *)
Class ApiEnv : Type := {
  e_settings : ApiSettings;
  e_database_ping : nat -> nat -> result bool; e_redis_ping : nat -> nat -> result bool; e_perf : nat -> float;
  e_rest : nat -> nat -> Call -> result Reply; e_monotonic : nat -> nat -> float; e_ws : nat -> string -> result unit;
  e_private_ws : nat -> Connection; e_http : nat -> nat -> HttpRequest -> result HttpResponse;
  e_clock : nat -> datetime; e_time : nat -> float; e_uuid4 : nat -> string; e_parse_uuid : string -> option string;
  e_flush : nat -> result unit; e_commit : nat -> result unit; e_redis : nat -> string -> result unit;
  e_defaults : list (string * dict); e_validate_domain : string -> dict -> result dict;
  e_validate_runtime : list (string * dict) -> result dict; e_validate_volume : dict -> result VolumeSettings;
  e_stamp : string -> datetime }.

Section Base.
Context {Token : Type} {E : ApiEnv}.
Notation Api := (Api Token).

Definition with_store (f : ConfigStore -> ConfigStore) (s : Api) : Api :=
  mkApi (f (ap_store s)) (ap_keys s) (ap_accounts s) (ap_risks s) (ap_pairs s) (ap_orders s) (ap_trades s) (ap_positions s) (ap_snapshots s).
Definition with_keys (f : list (string * string) -> list (string * string)) (s : Api) : Api :=
  mkApi (ap_store s) (f (ap_keys s)) (ap_accounts s) (ap_risks s) (ap_pairs s) (ap_orders s) (ap_trades s) (ap_positions s) (ap_snapshots s).
Definition with_accounts (f : list (AccountRow Token) -> list (AccountRow Token)) (s : Api) : Api :=
  mkApi (ap_store s) (ap_keys s) (f (ap_accounts s)) (ap_risks s) (ap_pairs s) (ap_orders s) (ap_trades s) (ap_positions s) (ap_snapshots s).
Definition with_risks (f : list RiskRow -> list RiskRow) (s : Api) : Api :=
  mkApi (ap_store s) (ap_keys s) (ap_accounts s) (f (ap_risks s)) (ap_pairs s) (ap_orders s) (ap_trades s) (ap_positions s) (ap_snapshots s).
Definition with_snapshots (f : list Snapshot -> list Snapshot) (s : Api) : Api :=
  mkApi (ap_store s) (ap_keys s) (ap_accounts s) (ap_risks s) (ap_pairs s) (ap_orders s) (ap_trades s) (ap_positions s) (f (ap_snapshots s)).

(** An operation of the configuration store on the state of the API. *)
Definition on_store {A} (m : SE ConfigStore A) : SE Api A :=
  fun s => let '(c, r) := m (ap_store s) in (with_store (fun _ => c) s, r).

Definition tick : SE Api nat := on_store cs_next.
Definition utcnow : SE Api datetime := t ← tick; mret (e_clock t).
Definition http_error {A} (status : Z) (detail : string) : SE Api A := se_raise HTTPException (str_of_Z status +:+ ": " +:+ detail).
Definition api_flush : SE Api unit := t ← tick; se_lift (e_flush t).

(** *** Redis: [redis.client.get], [set], [delete] on text keys *)

Definition client_get (key : string) : SE Api (option string) :=
  t ← tick; _ ← se_lift (e_redis t key); s ← se_get; mret (od_get key (ap_keys s)).
Definition client_set (key value : string) : SE Api unit :=
  t ← tick; _ ← se_lift (e_redis t key); se_modify (with_keys (od_set key value)).
Definition client_delete (key : string) : SE Api unit :=
  t ← tick; _ ← se_lift (e_redis t key); se_modify (with_keys (od_del key)).

(** *** [Database.session]: commit at the end, rollback on any exception

    What a rollback restores: the tables, not Redis, the bus or the clocks. *)
Definition rollback (before after : Api) : Api :=
  mkApi (mkStore (cs_configs (ap_store before)) (cs_audits (ap_store before)) (cs_events (ap_store before))
                 (cs_cache (ap_store after)) (cs_bus (ap_store after)) (cs_tick (ap_store after)))
        (ap_keys after) (ap_accounts before) (ap_risks before) (ap_pairs before) (ap_orders before) (ap_trades before)
        (ap_positions before) (ap_snapshots before).

Definition in_session {A} (m : SE Api A) : SE Api A :=
  fun s => match m s with
           | (s', Ok a) => match tick s' with
                           | (s2, Ok t) => match e_commit t with Ok _ => (s2, Ok a) | Err e => (rollback s s2, Err e) end
                           | (s2, Err e) => (rollback s s2, Err e)
                           end
           | (s', Err e) => (rollback s s', Err e)
           end.

(** ** Small functions of [routes.py] *)

(** [_float] on a nullable column and on a value *)
Definition float_col (d : option dec) : float := match d with Some d => float_of_dec d | None => of_Z 0 end.
Definition float_value (v : pyval) : result float := match v with PNone => Ok (of_Z 0) | _ => py_float v end.

(** [_loads_json] of a Redis reply, which is text *)
Definition loads_json (value : option string) : result pyval := match value with None => Ok PNone | Some s => loads s end.

(** [_int_counter]: only [TypeError] and [ValueError] are caught. *)
Definition int_counter (value : pyval) : result Z :=
  match (x ← py_float (por value (PInt 0)); py_int (PFloat x)) with
  | Ok z => Ok z
  | Err e => if exn_isinstance (ex_class e) TypeError || exn_isinstance (ex_class e) ValueError then Ok 0%Z else Err e
  end.

(** [_require_confirmation] *)
Definition require_confirmation (value expected : string) : SE Api unit :=
  if str_in (str_lower expected) (str_lower value) then mret tt
  else http_error 400 ("confirmation must include '" +:+ expected +:+ "'").

(** [_mask_secret] *)
Definition mask_secret (value : option string) : option string :=
  match value with
  | None | Some "" => None
  | Some v => if (String.length v <=? 8)%nat then Some (String.substring 0 2 v +:+ "****" +:+ str_last 2 v)
              else Some (String.substring 0 4 v +:+ "********" +:+ str_last 4 v)
  end.

(** ** Payloads *)

Definition opt_str (o : option string) : pyval := match o with Some s => PStr s | None => PNone end.
Definition opt_dict (o : option dict) : pyval := match o with Some d => PDict d | None => PNone end.

(** [order_by(desc(key)).limit(n)] *)
Definition newest {A} (key : A -> datetime) (n : nat) (rows : list A) : list A :=
  firstn n (sorted (fun a b => (key b <=? key a)%Z) rows).

Definition pair_symbol (pairs : list (string * string)) (id : string) : string :=
  match od_get id pairs with Some s => s | None => id end.

Definition order_payload (pairs : list (string * string)) (row : ApiOrder) : dict :=
  [("id", PStr (ao_id row)); ("client_order_id", PStr (ao_client_order_id row)); ("exchange_order_id", opt_str (ao_exchange_order_id row));
   ("symbol", PStr (pair_symbol pairs (ao_pair row))); ("side", PStr (side_value (ao_side row)));
   ("type", PStr (order_type_value (ao_type row))); ("status", PStr (order_status_value (ao_status row)));
   ("price", PFloat (float_col (ao_price row))); ("quantity", PFloat (float_of_dec (ao_quantity row)));
   ("filled_quantity", PFloat (float_of_dec (ao_filled row))); ("created_at", PStr (isoformat (ao_created_at row)));
   ("updated_at", PStr (isoformat (ao_updated_at row)))].

Definition trade_payload (pairs : list (string * string)) (row : ApiTrade) : dict :=
  [("id", PStr (at_id row)); ("trade_id", PStr (at_trade_id row)); ("symbol", PStr (pair_symbol pairs (at_pair row)));
   ("side", PStr (side_value (at_side row))); ("price", PFloat (float_of_dec (at_price row)));
   ("quantity", PFloat (float_of_dec (at_quantity row))); ("fee", PFloat (float_of_dec (at_fee row)));
   ("fee_asset", opt_str (at_fee_asset row)); ("traded_at", PStr (isoformat (at_traded_at row)))].

Definition position_side_value (s : PositionSide) : string :=
  match s with pos_long => "long" | pos_short => "short" | pos_flat => "flat" end.

Definition position_payload (pairs : list (string * string)) (row : ApiPosition) : dict :=
  [("id", PStr (po_id row)); ("symbol", PStr (pair_symbol pairs (po_pair row))); ("asset", PStr (po_asset row));
   ("side", PStr (position_side_value (po_side row))); ("quantity", PFloat (float_of_dec (po_quantity row)));
   ("notional", PFloat (fmul (float_of_dec (po_quantity row)) (float_col (po_mark_price row))));
   ("realized_pnl", PFloat (float_of_dec (po_realized row))); ("unrealized_pnl", PFloat (float_of_dec (po_unrealized row)));
   ("mark_price", PFloat (float_col (po_mark_price row))); ("updated_at", PStr (isoformat (po_updated_at row)))].

Definition inventory_payload (row : Snapshot) : dict :=
  [("id", PStr (sn_id row)); ("asset", PStr (sn_asset row)); ("total_balance", PFloat (float_of_dec (sn_total row)));
   ("available_balance", PFloat (float_of_dec (sn_available row))); ("reserved_balance", PFloat (float_of_dec (sn_reserved row)));
   ("valuation_asset", PStr (sn_valuation_asset row)); ("valuation_price", PFloat (float_col (sn_valuation_price row)));
   ("valuation_amount", PFloat (float_col (sn_valuation_amount row))); ("captured_at", PStr (isoformat (sn_captured_at row)))].

Definition risk_payload (row : RiskRow) : dict :=
  [("id", PStr (rr_id row)); ("severity", PStr (severity_value (rr_severity row))); ("event_type", PStr (rr_event_type row));
   ("source_component", PStr (rr_source row)); ("message", PStr (rr_message row)); ("occurred_at", PStr (isoformat (e_stamp (rr_id row))))].

Definition audit_payload (row : AuditRow) : dict :=
  [("id", PStr (au_id row)); ("actor_user_id", opt_str (au_actor_user row)); ("actor_service", PStr (au_actor_service row));
   ("action", PStr (au_action row)); ("resource_type", PStr (au_resource_type row)); ("resource_id", opt_str (au_resource row));
   ("metadata", PDict (au_metadata row)); ("before_state", opt_dict (au_before row)); ("after_state", opt_dict (au_after row));
   ("occurred_at", PStr (isoformat (e_stamp (au_id row))))].

Definition runtime_event_payload (row : EventRow) : dict :=
  [("id", PStr (ev_id row)); ("event_type", PStr (ev_type row)); ("source_component", PStr (ev_source row)); ("status", PStr (ev_status row));
   ("command_id", opt_str (ev_command_id row)); ("config_domain", opt_str (ev_domain row));
   ("config_version", match ev_version row with Some z => PInt z | None => PNone end); ("correlation_id", opt_str (ev_correlation row));
   ("payload", PDict (ev_payload row)); ("metadata", PDict (ev_metadata row)); ("acknowledged_at", iso_opt (ev_acknowledged_at row));
   ("created_at", PStr (isoformat (e_stamp (ev_id row))))].
End Base.

(** A short key is shown in full. *)
Lemma short_key_shown : mask_secret (Some "abcd") = Some "ab****cd" /\ mask_secret (Some "ab") = Some "ab****ab".
Proof. vm_compute. split; reflexivity. Qed.

(** ** A concrete environment

    A cipher that keeps the key beside the message, venues that answer and a
    database and a Redis that accept everything, by [flush], [commit] and
    [redis]. *)

#[export, refine] Instance demo_fernet : Fernet (string * bytes) := {
  fernet_encrypt key _ message := (key, message);
  fernet_decrypt key token := if String.eqb token.1 key then Ok token.2 else raise ValueError "InvalidToken";
  fernet_round_trip := _ }.
Proof. intros key nonce message. simpl. by rewrite String.eqb_refl. Defined.

Definition demo_api_settings : ApiSettings :=
  mkApiSettings (mkJwt "secret" "HS256") (mkAdapterSettings [] [] (of_Z 10) (of_Z 30)) "paper" (of_Z 100) (of_Z 50) "BTC".

Definition demo_env (flush commit : nat -> result unit) (redis : nat -> string -> result unit) : ApiEnv := {|
  e_settings := demo_api_settings;
  e_database_ping _ _ := Ok true; e_redis_ping _ _ := Ok true; e_perf _ := of_Z 0;
  e_rest _ _ _ := Ok (mkReply 200 "{}" "application/json"); e_monotonic _ _ := of_Z 0; e_ws _ _ := Ok tt;
  e_private_ws _ := Opened [] None; e_http _ _ _ := Ok (mkResponse 200 true (Some (PDict [])) "{}");
  e_clock t := (seconds 1700000000 + Z.of_nat t)%Z; e_time _ := of_Z 1700000000; e_uuid4 := demo_token; e_parse_uuid := Some;
  e_flush := flush; e_commit := commit; e_redis := redis;
  e_defaults := []; e_validate_domain _ d := Ok d; e_validate_runtime _ := Ok []; e_validate_volume _ := Ok (rc_volume default_runtime_config);
  e_stamp _ := seconds 1700000000 |}.

Definition accepting : ApiEnv := demo_env (fun _ => Ok tt) (fun _ => Ok tt) (fun _ _ => Ok tt).
Definition demo_api : Api (string * bytes) := mkApi (mkStore [] [] [] [] [] 0) [] [] [] [] [] [] [] [].
