(* ===== verification/ApiReads.v ===== *)
(** * ApiReads: the endpoints that only read ([api/routes.py])

    Health, configuration, accounts, balances, operations views, volume
    progress and the kill switch. Each is a program over the state of the API;
    the response is the JSON document the endpoint returns. The order in which
    Redis scans keys is that of the key list. *)

From Stdlib Require Import Ascii.
From S2P Require Import Prelude Rounding PyFloat PyDecimal PyData PyValue Models Venue RateLimit Signing Config Volume Daemon ConfigStore Access Json RedisStore Environment Client PublicExchange ApiBase.

#[local] Open Scope string_scope.
#[local] Open Scope list_scope.

(** ** [supported_exchanges], [metadata] *)

Definition definition_dict (d : ExchangeDefinition) : dict :=
  let c := xd_capabilities d in
  [("name", PStr (venue_value (xd_name d))); ("rest_base_url", PStr (xd_rest_base_url d)); ("websocket_url", PStr (xd_websocket_url d));
   ("rate_limit", PDict [("requests", PInt (rl_requests (xd_rate_limit d))); ("window_seconds", PInt (rl_window_seconds (xd_rate_limit d)))]);
   ("capabilities", PDict [("rest", PBool (cap_rest c)); ("websocket", PBool (cap_websocket c)); ("orderbook_stream", PBool (cap_orderbook_stream c));
      ("trades_stream", PBool (cap_trades_stream c)); ("ticker_stream", PBool (cap_ticker_stream c)); ("kline_stream", PBool (cap_kline_stream c));
      ("private_trading", PBool (cap_private_trading c)); ("signed_requests", PBool (cap_signed_requests c))]);
   ("health_path", PStr (xd_health_path d))].
Definition supported_exchanges : dict := map (fun kd => (kd.1, PDict (definition_dict kd.2))) exchange_definitions.

(** [DOMAIN_MODELS] *)
Definition domain_names : list string :=
  ["strategy"; "spread"; "order_layers"; "order_size"; "volume"; "inventory"; "risk"; "exchange"; "liquidity"; "alert"].

(** [sum(...)]: the integer 0 for no summand. *)
Definition py_sum (l : list float) : pyval := match l with [] => PInt 0 | _ => PFloat (fsum l) end.

(** [x or {}] followed by [.get] *)
Definition or_empty (v : pyval) : result dict := as_dict (por v (PDict [])).

(** [SUM] over a [NUMERIC] column is exact. *)
Definition exact_add (a b : dec) : dec :=
  let e := Z.min (dexp a) (dexp b) in
  mkDec (coef a * 10 ^ (dexp a - e) + coef b * 10 ^ (dexp b - e)) e.
Definition db_sum (l : list dec) : dec := foldl exact_add dzero l.

Section Reads.
Context {Token : Type} `{Fernet Token} {E : ApiEnv}.
Notation Api := (Api Token).

(** The response of an endpoint is a document. *)
Definition Endpoint : Type := SE Api pyval.

(** ** Health, configuration *)

(** [database.health_check()], [redis.health_check()]: three attempts each. *)
Definition database_health_check : SE Api bool := t ← tick; se_lift (RedisStore.health_check (e_database_ping t)).
Definition redis_health_check : SE Api bool := t ← tick; se_lift (RedisStore.health_check (e_redis_ping t)).

Definition dependency (check : SE Api bool) : SE Api string :=
  se_catch (_ ← check; mret "healthy") (fun exc => mret ("unhealthy:" +:+ exn_name (ex_class exc))).

Definition health_endpoint : Endpoint :=
  database ← dependency database_health_check;
  redis ← dependency redis_health_check;
  let status_value := if String.eqb database "healthy" && String.eqb redis "healthy" then "ok" else "degraded" in
  mret (PDict [("status", PStr status_value); ("dependencies", PDict [("database", PStr database); ("redis", PStr redis)])]).

Definition ready : Endpoint := health_endpoint.
Definition version (package_version : string) : Endpoint := mret (PDict [("version", PStr package_version)]).

(** [ConfigRepository(session).runtime_config()].[model_dump()] *)
Definition runtime_config_dump : SE Api dict := on_store (stored_runtime_config e_defaults e_validate_runtime).
Definition get_runtime_config : Endpoint := d ← runtime_config_dump; mret (PDict d).
Definition operations_runtime_config : Endpoint := get_runtime_config.

Definition config_response (domain : string) (version : Z) (config : dict) : pyval :=
  PDict [("domain", PStr domain); ("version", PInt version); ("config", PDict config)].

Definition get_domain_config (domain : string) : Endpoint :=
  if negb (bool_decide (domain ∈ domain_names)) then http_error 404 "unknown configuration domain" else
  row ← on_store (get_latest domain);
  config ← on_store (effective_domain_config e_defaults domain None);
  mret (config_response domain (match row with None => 0%Z | Some r => bc_version r end) config).

(** ** Exchange accounts *)

Definition connected (b : bool) : pyval := PStr (if b then "connected" else "disconnected").

(** [_exchange_account_payload(row, settings)] *)
Definition exchange_account_payload (settings : option JwtSettings) (row : AccountRow Token) : dict :=
  let masked_api_key :=
    match settings, ac_api_key row with
    | Some st, Some token => match Access.decrypt (new_cipher st) (Some token) with Ok key => mask_secret key | Err _ => None end
    | _, _ => None
    end in
  let present (o : option Token) := PBool (match o with Some _ => true | None => false end) in
  [("id", PStr (ac_id row)); ("exchange_name", PStr (ac_exchange_name row)); ("account_alias", PStr (ac_account_alias row));
   ("environment", PStr (ac_environment row)); ("permissions", PList (map PStr (ac_permissions row))); ("is_enabled", PBool (ac_enabled row));
   ("enabled", PBool (ac_enabled row)); ("api_key_masked", opt_str masked_api_key); ("has_api_key", present (ac_api_key row));
   ("has_api_secret", present (ac_api_secret row)); ("has_passphrase", present (ac_passphrase row)); ("encryption_key_id", PStr (ac_key_id row));
   ("rest_status", connected (ac_rest row)); ("websocket_status", connected (ac_websocket row));
   ("private_ws_status", connected (ac_private_ws row)); ("connection_status", PStr (ac_status row)); ("last_tested_at", iso_opt (ac_tested_at row));
   ("last_success_at", iso_opt (ac_success_at row)); ("last_failure_at", iso_opt (ac_failure_at row)); ("last_error_message", opt_str (ac_error row));
   ("created_at", PStr (isoformat (ac_created_at row))); ("updated_at", PStr (isoformat (ac_updated_at row)))].

(** [_exchange_accounts]: ordered by name, then alias. *)
Definition account_le (a b : AccountRow Token) : bool :=
  if String.eqb (ac_exchange_name a) (ac_exchange_name b) then str_le (ac_account_alias a) (ac_account_alias b)
  else str_le (ac_exchange_name a) (ac_exchange_name b).
Definition exchange_accounts : SE Api (list (AccountRow Token)) := s ← se_get; mret (sorted account_le (ap_accounts s)).

Definition same_account (exchange_name account_alias environment : string) (r : AccountRow Token) : bool :=
  String.eqb (ac_exchange_name r) exchange_name && String.eqb (ac_account_alias r) account_alias && String.eqb (ac_environment r) environment.

(** [scalar_one_or_none] of a selection *)
Definition one_or_none {A} (rows : list A) : SE Api (option A) :=
  match rows with
  | [] => mret None
  | [r] => mret (Some r)
  | _ => se_raise MultipleResultsFound "Multiple rows were found when one or none was required"
  end.

(** [_exchange_account] *)
Definition exchange_account (exchange_name account_alias environment : string) : SE Api (option (AccountRow Token)) :=
  s ← se_get; one_or_none (List.filter (same_account exchange_name account_alias environment) (ap_accounts s)).

(** [_aggregate_exchange_status] *)
Definition aggregate_exchange_status (accounts : list (AccountRow Token)) : string :=
  let any status := existsb (fun r => String.eqb (ac_status r) status) accounts in
  match accounts with
  | [] => "disconnected"
  | _ => if any "connected" then "connected" else if any "invalid_credentials" then "invalid_credentials"
         else if any "testing" then "testing" else if any "error" then "error" else "disconnected"
  end.

Definition api_settings : option JwtSettings := Some (ap_jwt e_settings).

Definition exchange_capabilities : Endpoint := mret (PDict supported_exchanges).

Definition exchanges : Endpoint :=
  accounts ← exchange_accounts;
  let item (kd : string * pyval) :=
    let own := List.filter (fun r => String.eqb (ac_exchange_name r) kd.1) accounts in
    PDict [("exchange_name", PStr kd.1); ("capabilities", kd.2);
           ("accounts", PList (map (fun r => PDict (exchange_account_payload api_settings r)) own));
           ("status", PStr (aggregate_exchange_status own))] in
  mret (PDict [("items", PList (map item supported_exchanges))]).

Definition exchanges_status : Endpoint :=
  accounts ← exchange_accounts;
  mret (PDict [("items", PList (map (fun r => PDict (exchange_account_payload api_settings r)) accounts))]).

(** Without settings the key is not shown. *)
Definition coinstore_accounts : Endpoint :=
  s ← se_get;
  let rows := sorted (fun a b => (ac_updated_at b <=? ac_updated_at a)%Z)
                (List.filter (fun r => String.eqb (ac_exchange_name r) "coinstore") (ap_accounts s)) in
  mret (PDict [("items", PList (map (fun r => PDict (exchange_account_payload None r)) rows))]).

(** ** Balances *)

Definition exchange_balance_payload (row : Snapshot) : dict :=
  [("asset", PStr (sn_asset row)); ("available_balance", PFloat (float_of_dec (sn_available row)));
   ("locked_balance", PFloat (float_of_dec (sn_reserved row))); ("reserved_balance", PFloat (float_of_dec (sn_reserved row)));
   ("total_balance", PFloat (float_of_dec (sn_total row))); ("valuation_asset", PStr (sn_valuation_asset row));
   ("valuation_price", PFloat (float_col (sn_valuation_price row))); ("valuation_amount", PFloat (float_col (sn_valuation_amount row)));
   ("captured_at", PStr (isoformat (sn_captured_at row)))].

(** [latest.setdefault(snapshot.asset, snapshot)] over the newest first *)
Definition set_default {A} (key : string) (v : A) (d : list (string * A)) : list (string * A) :=
  match od_get key d with Some _ => d | None => d ++ [(key, v)] end.
Definition latest_snapshots (account : string) (rows : list Snapshot) : list Snapshot :=
  od_vals (foldl (fun d r => set_default (sn_asset r) r d) []
             (sorted (fun a b => (sn_captured_at b <=? sn_captured_at a)%Z) (List.filter (fun r => String.eqb (sn_account r) account) rows))).

(** [float(x or 0)] of a float *)
Definition float_or_zero (x : float) : float := if feq x (Fin 0) then of_Z 0 else x.
Definition value_of (r : Snapshot) : float := float_or_zero (float_col (sn_valuation_amount r)).

(** The summands of the portfolio value: the valuations, or the stable coins
    when nothing is valued. *)
Definition portfolio_summands (rows : list Snapshot) : list float :=
  let valued := map value_of rows in
  if fle (fsum valued) (of_Z 0)
  then map (fun r => float_or_zero (float_of_dec (sn_total r))) (List.filter (fun r => bool_decide (sn_asset r ∈ ["USDT"; "USD"; "USDC"])) rows)
  else valued.
Definition portfolio_value (rows : list Snapshot) : float := fsum (portfolio_summands rows).

Definition exposure_percent (portfolio : float) (r : Snapshot) : float :=
  if fle portfolio (of_Z 0) then of_Z 0 else fround 6 (fmul (fdiv (value_of r) portfolio) (of_Z 100)).

Definition inventory_ratio (rows : list Snapshot) : float :=
  let portfolio := portfolio_value rows in
  let base := fsum (map value_of (List.filter (fun r => String.eqb (sn_asset r) (str_upper (ap_paper_base_asset e_settings))) rows)) in
  if fle portfolio (of_Z 0) then of_Z 0 else fdiv base portfolio.

(** [_exchange_balances_payload] *)
Definition exchange_balances_payload (row : AccountRow Token) : SE Api dict :=
  s ← se_get;
  let rows := latest_snapshots (ac_id row) (ap_snapshots s) in
  let portfolio := portfolio_value rows in
  mret [("exchange_name", PStr (ac_exchange_name row)); ("account_alias", PStr (ac_account_alias row)); ("environment", PStr (ac_environment row));
        ("portfolio_value", py_sum (portfolio_summands rows)); ("inventory_ratio", PFloat (inventory_ratio rows));
        ("balances", PList (map (fun r => PDict (od_set "exposure_percent" (PFloat (exposure_percent portfolio r)) (exchange_balance_payload r))) rows))].

Definition exchange_balances (exchange_name account_alias environment : string) : Endpoint :=
  row ← exchange_account (str_lower exchange_name) account_alias environment;
  match row with
  | None => http_error 404 "exchange account not found"
  | Some row => d ← exchange_balances_payload row; mret (PDict d)
  end.

(** ** Operations *)

Definition items (l : list dict) : pyval := PDict [("items", PList (map PDict l))].

Definition operations_audit_logs (limit : nat) : Endpoint :=
  s ← se_get; mret (items (map audit_payload (newest (fun r => e_stamp (au_id r)) limit (cs_audits (ap_store s))))).
Definition operations_runtime_events (limit : nat) : Endpoint :=
  s ← se_get; mret (items (map runtime_event_payload (newest (fun r => e_stamp (ev_id r)) limit (cs_events (ap_store s))))).
Definition operations_orders (limit : nat) : Endpoint :=
  s ← se_get; mret (items (map (order_payload (ap_pairs s)) (newest ao_created_at limit (ap_orders s)))).
Definition operations_trades (limit : nat) : Endpoint :=
  s ← se_get; mret (items (map (trade_payload (ap_pairs s)) (newest at_traded_at limit (ap_trades s)))).
Definition operations_positions : Endpoint :=
  s ← se_get;
  mret (items (map (position_payload (ap_pairs s)) (sorted (fun a b => (po_updated_at b <=? po_updated_at a)%Z) (ap_positions s)))).
Definition operations_risk_events (limit : nat) : Endpoint :=
  s ← se_get; mret (items (map risk_payload (newest (fun r => e_stamp (rr_id r)) limit (ap_risks s)))).

Definition operations_inventory (limit : nat) : Endpoint :=
  s ← se_get;
  let rows := newest sn_captured_at limit (ap_snapshots s) in
  let exposure := py_sum (map value_of rows) in
  mret (PDict [("items", PList (map (fun r => PDict (inventory_payload r)) rows)); ("exposure_notional", exposure); ("total_notional", exposure)]).

Definition operations_pnl : Endpoint :=
  s ← se_get;
  let realized := float_of_dec (db_sum (map po_realized (ap_positions s))) in
  let unrealized := float_of_dec (db_sum (map po_unrealized (ap_positions s))) in
  mret (PDict [("realized", PFloat realized); ("unrealized", PFloat unrealized); ("total", PFloat (fadd realized unrealized))]).

(** A key of Redis read as a document. *)
Definition get_document (key : string) : SE Api pyval := v ← client_get key; se_lift (loads_json v).

Fixpoint each_document (keys : list string) : SE Api (list (string * option string)) :=
  match keys with
  | [] => mret []
  | k :: rest => v ← client_get k; l ← each_document rest; mret ((k, v) :: l)
  end.

Definition health_prefix : string := "engine:health:".
(** [str(key).split("engine:health:", 1)[-1]] of a key that starts so *)
Definition engine_name (key : string) : string := match after health_prefix key with Some r => r | None => key end.

Definition operations_engines : SE Api dict :=
  s ← se_get;
  found ← each_document (List.filter (str_startswith health_prefix) (od_keys (ap_keys s)));
  engines ← se_lift (result_mapM (fun kv => v ← loads_json kv.2; Ok (engine_name kv.1, v)) found);
  mret [("engines", PDict (dict_merge [] engines))].

Definition operations_infrastructure : Endpoint :=
  t0 ← tick; database_ok ← database_health_check; t1 ← tick;
  t2 ← tick; redis_ok ← redis_health_check; t3 ← tick;
  let status (b : bool) := PStr (if b then "healthy" else "unhealthy") in
  let latency a b := PFloat (fround 3 (fmul (fsub (e_perf b) (e_perf a)) (of_Z 1000))) in
  mret (PDict [("database", status database_ok); ("redis", status redis_ok); ("database_latency_ms", latency t0 t1); ("redis_latency_ms", latency t2 t3)]).

(** An entry of [operations_exchanges]: status, symbols, last timestamp. *)
Definition XEntry : Type := string * list string * pyval.
Definition seen_entry (d : list (string * XEntry)) (kt : string * pyval) : list (string * XEntry) :=
  let '(exchange, symbol) := match split_once ":"%char kt.1 with Some (a, b) => (a, Some b) | None => (kt.1, None) end in
  let '(status, symbols, _) := default ("connected", [], kt.2) (od_get exchange d) in
  od_set exchange (status, symbols ++ match symbol with Some s => [s] | None => [] end, kt.2) d.

Definition entry_dict (websocket_state : pyval) (active : Z) (kx : string * XEntry) : string * pyval :=
  let '(name, (status, symbols, ts)) := kx in
  (name, PDict [("exchange", PStr name); ("status", PStr status); ("symbols", PList (map PStr symbols)); ("last_message_timestamp", ts);
                ("websocket_state", websocket_state); ("active_subscriptions", PInt active)]).

Definition operations_exchanges : SE Api dict :=
  health ← get_document "engine:health:market-data-engine";
  data_health ← se_lift (or_empty health);
  runtime ← se_lift (or_empty (pget "runtime" data_health));
  active ← se_lift (py_int (por (pget "active_subscriptions" runtime) (PInt 0)));
  let websocket_state := por (pget "websocket_state" runtime) (PStr "unknown") in
  last_messages ← se_lift (or_empty (pget "last_message_timestamp" runtime));
  let seen := foldl seen_entry [] last_messages in
  let all := foldl (fun d name => set_default name ("configured_no_messages", [], PNone) d) seen (od_keys supported_exchanges) in
  mret [("exchanges", PDict (map (entry_dict websocket_state active) all))].

(** [(((health or {}).get("runtime") or {}).get("metrics") or {}).get("counters") or {}] *)
Definition counters_of (health : pyval) : result dict :=
  h ← or_empty health;
  runtime ← or_empty (pget "runtime" h);
  metrics ← or_empty (pget "metrics" runtime);
  or_empty (pget "counters" metrics).

Definition operations_reconciliation : SE Api dict :=
  health ← get_document "engine:health:market-maker-engine";
  counters ← se_lift (counters_of health);
  let count k := py_int (por (pget_default k (PInt 0) counters) (PInt 0)) in
  mismatches ← se_lift (count "reconciliation.mismatches");
  alerts ← se_lift (count "reconciliation.alerts");
  runs ← se_lift (count "reconciliation.runs");
  let status := if (0 <? runs)%Z && (mismatches =? 0)%Z then "ok" else if (0 <? runs)%Z then "warning" else "not_running" in
  mret [("status", PStr status); ("runs", PInt runs); ("mismatch_count", PInt mismatches); ("alert_count", PInt alerts); ("mismatches", PList [])].

(** [operations_kill_switch_status], [admin_kill_switch_status] *)
Definition kill_switch_status : Endpoint :=
  state ← get_document "risk:kill_switch"; mret (por state (PDict [("active", PBool false)])).

Definition operations_canary_limits : Endpoint :=
  mret (PDict [("max_canary_notional", PFloat (ap_max_canary_notional e_settings)); ("max_canary_position", PFloat (ap_max_canary_position e_settings));
               ("trading_mode", PStr (ap_trading_mode e_settings))]).

(** [RestClient.health] of a fresh client *)
Definition rest_health (t : nat) (definition : ExchangeDefinition) (signer : option (string * string)) : result bool :=
  (PublicExchange.health (e_rest t) (e_monotonic t) (venue_value (xd_name definition)) signer definition
     (mkRest (new_bucket (xd_rate_limit definition) (e_monotonic t 0)) 0 [])).2.

Definition coinstore_health (actor : dict) : Endpoint :=
  t0 ← tick;
  adapter ← se_lift (create_adapter "coinstore" (ap_adapter e_settings) (Some "coinstore") (e_monotonic t0 0));
  t1 ← tick;
  let '(rest_status, rest_error) :=
    match rest_health t1 (ad_definition adapter) (ad_signer adapter) with
    | Ok _ => ("healthy", PNone)
    | Err exc => ("unhealthy", PStr (exn_name (ex_class exc) +:+ ": " +:+ ex_msg exc))
    end in
  t2 ← tick;
  let latency_ms := fround 3 (fmul (fsub (e_perf t2) (e_perf t1)) (of_Z 1000)) in
  health ← get_document "engine:health:market-data-engine";
  data_health ← se_lift (or_empty health);
  runtime ← se_lift (or_empty (pget "runtime" data_health));
  keys ← se_lift (iterate (por (pget "last_message_timestamp" runtime) (PDict [])));
  let websocket_keys := List.filter (fun k => str_startswith "coinstore:" (py_str k)) keys in
  rate_limit ← se_lift (d ← item_get "coinstore" (PDict supported_exchanges); item_get "rate_limit" d);
  mret (PDict [("rest", PDict [("status", PStr rest_status); ("latency_ms", PFloat latency_ms); ("error", rest_error)]);
               ("websocket", PDict [("status", match websocket_keys with [] => pget_default "websocket_state" (PStr "no_messages") runtime | _ => PStr "healthy" end);
                                    ("last_message_keys", PList websocket_keys)]);
               ("rate_limit", rate_limit); ("actor", pget "sub" actor)]).

(** ** Volume progress *)

Definition since_hour (now : datetime) : datetime := (now / seconds 3600 * seconds 3600)%Z.
Definition since_day (now : datetime) : datetime := (now / seconds 86400 * seconds 86400)%Z.
Definition since_week (now : datetime) : datetime := (since_day now - seconds 86400 * weekday now)%Z.

Definition notional (t : ApiTrade) : float := fmul (float_of_dec (at_price t)) (float_of_dec (at_quantity t)).

(** [total += notional] over the trades since a moment, in table order *)
Definition executed_since (since : datetime) (trades : list ApiTrade) : float :=
  foldl (fun acc t => if (since <=? at_traded_at t)%Z then fadd acc (notional t) else acc) (of_Z 0) trades.

Fixpoint external_volume (keys : list pyval) (acc : float) : SE Api float :=
  match keys with
  | [] => mret acc
  | key :: rest =>
      document ← get_document ("latest:marketdata:ticker:" +:+ py_str key);
      latest ← se_lift (or_empty document);
      volume ← se_lift (float_value (pget "volume_24h" latest));
      price ← se_lift (float_value (pget_first ["last_price"; "bid_price"; "ask_price"] (PInt 0) latest));
      external_volume rest (fadd acc (fmul volume price))
  end.

Definition window_dict (w : VolumeWindowProgress) : pyval :=
  PDict [("target_notional", PFloat (w_target_notional w)); ("executed_notional", PFloat (w_executed_notional w));
         ("remaining_notional", PFloat (w_remaining_notional w)); ("progress_ratio", PFloat (w_progress_ratio w));
         ("seconds_remaining", PFloat (w_seconds_remaining w))].
Definition pressure_dict (p : ExecutionPressureSignal) : pyval :=
  PDict [("enabled", PBool (ep_enabled p)); ("size_multiplier", PFloat (ep_size_multiplier p)); ("spread_multiplier", PFloat (ep_spread_multiplier p));
         ("urgency", PFloat (ep_urgency p)); ("reason", PStr (ep_reason p))].

(** [_volume_progress_payload] *)
Definition volume_progress_payload (config_payload : dict) : SE Api dict :=
  now ← utcnow;
  settings ← se_lift (e_validate_volume config_payload);
  s ← se_get;
  let executed since := executed_since since (ap_trades s) in
  health ← get_document "engine:health:market-data-engine";
  data_health ← se_lift (or_empty health);
  runtime ← se_lift (or_empty (pget "runtime" data_health));
  keys ← se_lift (iterate (por (pget_default "last_message_timestamp" (PDict []) runtime) (PDict [])));
  external ← external_volume keys (of_Z 0);
  let report := progress settings now (executed (since_hour now)) (executed (since_day now)) (executed (since_week now)) external in
  mret [("settings", PDict config_payload); ("hourly", window_dict (vr_hourly report)); ("daily", window_dict (vr_daily report));
        ("weekly", window_dict (vr_weekly report)); ("participation_rate", PFloat (vr_participation_rate report));
        ("pressure", pressure_dict (vr_pressure report)); ("external_market_volume_notional", PFloat external)].

Definition operations_volume : Endpoint :=
  config ← runtime_config_dump;
  volume ← se_lift (as_dict (pget "volume" config));
  d ← volume_progress_payload volume;
  mret (PDict d).
End Reads.

(** ** Reading changes nothing *)

(** Everything but the position of the clocks. *)
Definition api_data {Token} (s : Api Token) : Api Token :=
  with_store (fun c => mkStore (cs_configs c) (cs_audits c) (cs_events c) (cs_cache c) (cs_bus c) 0) s.

(** [reads m]: [m] changes no table, no key and nothing on the bus, and the
    clocks do not go back. *)
Definition reads {Token A} (m : SE (Api Token) A) : Prop :=
  forall s, api_data (m s).1 = api_data s /\ (cs_tick (ap_store s) <= cs_tick (ap_store (m s).1))%nat.

Section Frames.
Context {Token : Type} `{Fernet Token} {E : ApiEnv}.
Notation Api := (Api Token).

Lemma reads_bind {A B} (m : SE Api A) (k : A -> SE Api B) : reads m -> (forall a, reads (k a)) -> reads (m ≫= k).
Proof.
  intros Hm Hk s. unfold mbind, se_bind. destruct (Hm s) as [E1 L1]. destruct (m s) as [s1 [a|e]]; simpl in *; [|done].
  destruct (Hk a s1) as [E2 L2]. split; [congruence|lia].
Qed.
Lemma reads_catch {A} (m : SE Api A) h : reads m -> (forall e, reads (h e)) -> reads (se_catch m h).
Proof.
  intros Hm Hh s. unfold se_catch. destruct (Hm s) as [E1 L1]. destruct (m s) as [s1 [a|e]]; simpl in *; [done|].
  destruct (Hh e s1) as [E2 L2]. split; [congruence|lia].
Qed.
Lemma reads_pure {A} (r : Api -> result A) : reads (fun s : Api => (s, r s)).
Proof. intros s. split; [done|apply le_n]. Qed.
Lemma reads_ret {A} (a : A) : reads (mret a : SE Api A).
Proof. apply reads_pure. Qed.
Lemma reads_lift {A} (r : result A) : reads (se_lift r : SE Api A).
Proof. apply reads_pure. Qed.
Lemma reads_get : reads (se_get : SE Api Api).
Proof. apply reads_pure. Qed.
Lemma reads_raise {A} c msg : reads (se_raise c msg : SE Api A).
Proof. apply reads_pure. Qed.
Lemma reads_tick : reads (tick : SE Api nat).
Proof. intros s. split; [by destruct s|simpl; lia]. Qed.
Lemma reads_on_store {A} (m : SE ConfigStore A) : (forall c, (m c).1 = c) -> reads (on_store m : SE Api A).
Proof.
  intros F s. unfold on_store. specialize (F (ap_store s)). destruct (m (ap_store s)) as [c r]. simpl in F. subst. split; [done|apply le_n].
Qed.

(** A session around a program that only reads changes nothing either. *)
Lemma reads_session {A} (m : SE Api A) : reads m -> reads (in_session m).
Proof.
  intros Hm s. unfold in_session. destruct (Hm s) as [E1 L1]. destruct (m s) as [s' [a|e]]; simpl in E1, L1.
  - unfold tick, on_store, cs_next. destruct (e_commit _); simpl; [split; [exact E1|lia]|].
    split; [|simpl; lia]. unfold api_data, with_store in *. simpl in *. injection E1; intros. f_equal; [f_equal; assumption|assumption].
  - simpl. split; [|lia]. unfold api_data, with_store in *. simpl in *. injection E1; intros. f_equal; [f_equal; assumption|assumption].
Qed.
End Frames.

Create HintDb reads.
#[export] Hint Resolve reads_ret reads_lift reads_get reads_raise reads_tick : reads.

(** Walk through a program: binds, branches, matches and handlers. *)
Ltac reads_step :=
  match goal with
  | |- forall _, _ => intros
  | |- reads (mbind _ _) => apply reads_bind
  | |- reads (se_catch _ _) => apply reads_catch
  | |- reads (if ?b then _ else _) => destruct b
  | |- reads (match ?x with _ => _ end) => destruct x
  | |- reads (let _ := _ in _) => cbv zeta
  end.
Ltac reads_tac := repeat first [solve [eauto with reads] | reads_step].

Section ReadEndpoints.
Context {Token : Type} `{Fernet Token} {E : ApiEnv}.
Notation Api := (Api Token).

Lemma reads_http_error {A} n msg : reads (http_error n msg : SE Api A).
Proof. apply reads_raise. Qed.
#[local] Hint Resolve reads_http_error : reads.

Lemma reads_client_get k : reads (client_get k : SE Api _).
Proof. unfold client_get. reads_tac. Qed.
#[local] Hint Resolve reads_client_get : reads.
Lemma reads_document k : reads (get_document k : SE Api _).
Proof. unfold get_document. reads_tac. Qed.
#[local] Hint Resolve reads_document : reads.
Lemma reads_utcnow : reads (utcnow : SE Api _).
Proof. unfold utcnow. reads_tac. Qed.
#[local] Hint Resolve reads_utcnow : reads.
Lemma reads_runtime_config : reads (runtime_config_dump : SE Api _).
Proof. apply reads_on_store. done. Qed.
Lemma reads_latest d : reads (on_store (get_latest d) : SE Api _).
Proof. apply reads_on_store. done. Qed.
Lemma reads_effective d : reads (on_store (effective_domain_config e_defaults d None) : SE Api _).
Proof.
  apply reads_on_store. intros c. unfold effective_domain_config, mbind, se_bind. by destruct (od_get d e_defaults).
Qed.
#[local] Hint Resolve reads_runtime_config reads_latest reads_effective : reads.
Lemma reads_one {A} (l : list A) : reads (one_or_none l : SE Api _).
Proof. unfold one_or_none. reads_tac. Qed.
#[local] Hint Resolve reads_one : reads.
Lemma reads_account n a e : reads (exchange_account n a e : SE Api _).
Proof. unfold exchange_account. reads_tac. Qed.
Lemma reads_accounts : reads (exchange_accounts : SE Api _).
Proof. unfold exchange_accounts. reads_tac. Qed.
#[local] Hint Resolve reads_account reads_accounts : reads.
Lemma reads_balances row : reads (exchange_balances_payload row : SE Api _).
Proof. unfold exchange_balances_payload. reads_tac. Qed.
#[local] Hint Resolve reads_balances : reads.
Lemma reads_each ks : reads (each_document ks : SE Api _).
Proof. induction ks; cbn [each_document]; reads_tac. Qed.
Lemma reads_external ks acc : reads (external_volume ks acc : SE Api _).
Proof. revert acc. induction ks; intros acc; cbn [external_volume]; reads_tac. Qed.
#[local] Hint Resolve reads_each reads_external : reads.
Lemma reads_database_check : reads (database_health_check : SE Api _).
Proof. unfold database_health_check. reads_tac. Qed.
Lemma reads_redis_check : reads (redis_health_check : SE Api _).
Proof. unfold redis_health_check. reads_tac. Qed.
#[local] Hint Resolve reads_database_check reads_redis_check : reads.
Lemma reads_dependency c : reads c -> reads (dependency c : SE Api _).
Proof. intros Hc. unfold dependency. reads_tac. Qed.
#[local] Hint Resolve reads_dependency : reads.
Lemma reads_engines : reads (operations_engines : SE Api _).
Proof. unfold operations_engines. reads_tac. Qed.
Lemma reads_exchanges_state : reads (operations_exchanges : SE Api _).
Proof. unfold operations_exchanges. reads_tac. Qed.
Lemma reads_reconciliation : reads (operations_reconciliation : SE Api _).
Proof. unfold operations_reconciliation. reads_tac. Qed.
Lemma reads_volume_payload d : reads (volume_progress_payload d : SE Api _).
Proof. unfold volume_progress_payload. reads_tac. Qed.
#[local] Hint Resolve reads_engines reads_exchanges_state reads_reconciliation reads_volume_payload : reads.

Lemma reads_health : reads (health_endpoint : SE Api _).
Proof. unfold health_endpoint. reads_tac. Qed.
Lemma reads_domain_config d : reads (get_domain_config d : SE Api _).
Proof. unfold get_domain_config. reads_tac. Qed.
Lemma reads_exchanges : reads (exchanges : SE Api _).
Proof. unfold exchanges. reads_tac. Qed.
Lemma reads_exchanges_status : reads (exchanges_status : SE Api _).
Proof. unfold exchanges_status. reads_tac. Qed.
Lemma reads_coinstore_accounts : reads (coinstore_accounts : SE Api _).
Proof. unfold coinstore_accounts. reads_tac. Qed.
Lemma reads_exchange_balances n a e : reads (exchange_balances n a e : SE Api _).
Proof. unfold exchange_balances. reads_tac. Qed.
Lemma reads_infrastructure : reads (operations_infrastructure : SE Api _).
Proof. unfold operations_infrastructure. reads_tac. Qed.
Lemma reads_kill_switch : reads (kill_switch_status : SE Api _).
Proof. unfold kill_switch_status. reads_tac. Qed.
Lemma reads_coinstore_health a : reads (coinstore_health a : SE Api _).
Proof. unfold coinstore_health. reads_tac. Qed.
Lemma reads_volume : reads (operations_volume : SE Api _).
Proof. unfold operations_volume. reads_tac. Qed.
Lemma reads_audit_logs limit : reads (operations_audit_logs limit : SE Api pyval).
Proof. unfold operations_audit_logs. reads_tac. Qed.
Lemma reads_runtime_events limit : reads (operations_runtime_events limit : SE Api pyval).
Proof. unfold operations_runtime_events. reads_tac. Qed.
Lemma reads_orders limit : reads (operations_orders limit : SE Api pyval).
Proof. unfold operations_orders. reads_tac. Qed.
Lemma reads_trades limit : reads (operations_trades limit : SE Api pyval).
Proof. unfold operations_trades. reads_tac. Qed.
Lemma reads_positions : reads (operations_positions : SE Api pyval).
Proof. unfold operations_positions. reads_tac. Qed.
Lemma reads_risk_events limit : reads (operations_risk_events limit : SE Api pyval).
Proof. unfold operations_risk_events. reads_tac. Qed.
Lemma reads_inventory limit : reads (operations_inventory limit : SE Api pyval).
Proof. unfold operations_inventory. reads_tac. Qed.
Lemma reads_pnl : reads (operations_pnl : SE Api pyval).
Proof. unfold operations_pnl. reads_tac. Qed.
End ReadEndpoints.
#[export] Hint Resolve reads_http_error reads_document reads_utcnow reads_runtime_config reads_account reads_balances reads_engines reads_exchanges_state
  reads_reconciliation reads_health reads_domain_config reads_exchanges reads_exchanges_status reads_coinstore_accounts reads_exchange_balances
  reads_infrastructure reads_kill_switch reads_coinstore_health reads_volume
  reads_audit_logs reads_runtime_events reads_orders reads_trades reads_positions reads_risk_events reads_inventory reads_pnl : reads.
