(* ===== verification/ApiControl.v ===== *)
(** * ApiControl: configuration updates, the kill switch and the emergency
    endpoints ([api/routes.py], [api/schemas.py])

    The endpoints run inside a database session ([in_session]) and issue
    commands through [publish_runtime_command] of the configuration service.
    A request is the record its schema describes, [*_ok] its field constraints. *)

From Stdlib Require Import Ascii.
From S2P Require Import Prelude Rounding PyFloat PyDecimal PyData PyValue Models Venue Signing Config Risk Store Paper MMRuntime RuntimeProps Daemon ConfigStore ControlPlane Access Json RedisStore Environment Client PublicExchange ApiBase ApiReads.

#[local] Open Scope string_scope.
#[local] Open Scope list_scope.

(** ** Requests *)

Definition min_length (n : nat) (s : string) : bool := (n <=? String.length s)%nat.

Record ConfirmedActionRequest : Type := mkConfirmed { cq_confirmation : string; cq_reason : string }.
Definition confirmed_action_ok (r : ConfirmedActionRequest) : bool := min_length 3 (cq_confirmation r) && min_length 3 (cq_reason r).

Record StrategyCommandRequest : Type := mkStrategyCommand { sq_action : ConfirmedActionRequest; sq_command : string }.
Definition strategy_command_ok (r : StrategyCommandRequest) : bool :=
  confirmed_action_ok (sq_action r) && bool_decide (sq_command r ∈ ["start"; "pause"; "resume"; "stop"]).

Record ConfigUpdateRequest : Type := mkConfigUpdate { uq_config : dict }.

Section Control.
Context {Token : Type} {E : ApiEnv}.
Notation Api := (Api Token).

Definition publish (actor : dict) (command_type : string) (payload : dict) (channel resource_type : string) (action : option string) : SE Api dict :=
  on_store (publish_runtime_command e_time e_uuid4 e_parse_uuid e_flush e_redis actor command_type payload channel resource_type action).

(** The defaults of [publish_runtime_command]. *)
Definition command (actor : dict) (command_type : string) (payload : dict) (action : string) : SE Api dict :=
  publish actor command_type payload market_maker_channel "runtime_command" (Some action).

(** [AuditRepository(session).record("api", ...)] *)
Definition audit (action resource_type : string) (resource : option string) (metadata : dict) (before after : option dict) : SE Api unit :=
  _ ← on_store (record_audit e_uuid4 e_flush "api" action resource_type resource metadata None before after); mret tt.

(** [session.add(models.RiskEvent(...))] *)
Definition add_risk_event (severity : RiskSeverity) (event_type message : string) (kill_switch breaker : bool) (actor : dict) : SE Api unit :=
  t ← tick;
  se_modify (with_risks (fun l => l ++ [mkRiskRow (e_uuid4 t) severity event_type "operations-api" message breaker kill_switch
                                          [("actor", pget "sub" actor)]])).

Definition accepted (extra : dict) (event : dict) : pyval := PDict ([("accepted", PBool true)] ++ extra ++ [("event", PDict event)]).

(** [redis.client.set(key, json.dumps(state, separators=(",", ":")))] *)
Definition set_state (key : string) (state : dict) : SE Api unit := text ← se_lift (json_dumps (PDict state)); client_set key text.

(** ** Configuration *)

Definition trading_domains : list string := ["strategy"; "spread"; "order_layers"; "order_size"; "volume"; "liquidity"; "inventory"].

(** [_require_config_domain_actor] *)
Definition require_config_domain_actor (domain : string) (actor : dict) : SE Api unit :=
  roles ← se_lift (py_set (pget_default "roles" (PList []) actor));
  permissions ← se_lift (py_set (pget_default "permissions" (PList []) actor));
  if text_in roles "platform_admin" then mret tt
  else if String.eqb domain "risk" && negb (text_in roles "risk_manager") && negb (text_in permissions "risk:write")
  then http_error 403 "risk config requires risk_manager or risk:write"
  else if bool_decide (domain ∈ trading_domains) && negb (existsb (text_in roles) ["trader_operator"; "risk_manager"])
          && negb (text_in permissions "config:write")
  then http_error 403 "trading config requires trader_operator/risk_manager/config:write"
  else mret tt.

Definition update_domain_config (domain : string) (request : ConfigUpdateRequest) (actor : dict) : SE Api pyval :=
  if negb (bool_decide (domain ∈ domain_names)) then http_error 404 "unknown configuration domain" else
  _ ← require_config_domain_actor domain actor;
  '(version, config) ← on_store (update_domain e_clock e_time e_uuid4 e_parse_uuid e_flush e_redis e_defaults e_validate_domain e_validate_runtime
                                   domain (uq_config request) actor);
  mret (config_response domain version config).

(** ** Strategy *)

Definition strategy_state_name (command : string) : string :=
  if bool_decide (command ∈ ["start"; "resume"]) then "running" else if String.eqb command "pause" then "paused" else "stopped".

Definition admin_strategy_command (request : StrategyCommandRequest) (actor : dict) : SE Api pyval :=
  let cmd := sq_command request in
  let reason := PStr (cq_reason (sq_action request)) in
  _ ← require_confirmation (cq_confirmation (sq_action request)) cmd;
  now ← utcnow;
  let state := [("state", PStr (strategy_state_name cmd)); ("reason", reason); ("actor", pget "sub" actor); ("updated_at", PStr (isoformat now))] in
  _ ← set_state "runtime:strategy:state" state;
  event ← command actor "STRATEGY_COMMAND" [("action", PStr cmd); ("reason", reason); ("state", PDict state)] ("STRATEGY_" +:+ str_upper cmd);
  mret (PDict [("state", PDict state); ("event", PDict event)]).

(** ** Kill switch *)

Definition kill_switch_key : string := "risk:kill_switch".

Definition kill_switch_state (reason : string) (actor : dict) (now : datetime) : dict :=
  [("active", PBool true); ("reason", PStr reason); ("actor", pget "sub" actor); ("activated_at", PStr (isoformat now))].

Definition admin_kill_switch_enable (request : dict) (actor : dict) : SE Api pyval :=
  let reason := py_str (por (pget "reason" request) (PStr "operator_request")) in
  now ← utcnow;
  let state := kill_switch_state reason actor now in
  _ ← set_state kill_switch_key state;
  _ ← add_risk_event sev_critical "KILL_SWITCH_ACTIVATED" reason true false actor;
  mret (PDict state).

Definition admin_kill_switch_disable (actor : dict) : SE Api pyval :=
  _ ← client_delete kill_switch_key;
  _ ← add_risk_event sev_high "KILL_SWITCH_CLEARED" "operator_clear" false false actor;
  mret (PDict [("active", PBool false)]).

(** ** Emergency endpoints *)

Definition emergency_cancel_all_orders (request : ConfirmedActionRequest) (actor : dict) : SE Api pyval :=
  _ ← require_confirmation (cq_confirmation request) "cancel";
  event ← command actor "CANCEL_ALL_ORDERS" [("reason", PStr (cq_reason request)); ("confirmed", PBool true)] "EMERGENCY_CANCEL_ALL_ORDERS";
  _ ← add_risk_event sev_high "EMERGENCY_CANCEL_ALL_ORDERS" (cq_reason request) false false actor;
  mret (accepted [] event).

Definition emergency_disable_trading (request : ConfirmedActionRequest) (actor : dict) : SE Api pyval :=
  _ ← require_confirmation (cq_confirmation request) "disable";
  now ← utcnow;
  let state := kill_switch_state (cq_reason request) actor now in
  _ ← set_state kill_switch_key state;
  event ← command actor "DISABLE_TRADING" [("reason", PStr (cq_reason request)); ("kill_switch", PDict state)] "EMERGENCY_DISABLE_TRADING";
  _ ← add_risk_event sev_critical "TRADING_DISABLED" (cq_reason request) true false actor;
  mret (accepted [("kill_switch", PDict state)] event).

Definition emergency_enable_trading (request : ConfirmedActionRequest) (actor : dict) : SE Api pyval :=
  _ ← require_confirmation (cq_confirmation request) "enable";
  _ ← client_delete kill_switch_key;
  event ← command actor "ENABLE_TRADING" [("reason", PStr (cq_reason request))] "EMERGENCY_ENABLE_TRADING";
  _ ← add_risk_event sev_high "TRADING_ENABLED" (cq_reason request) false false actor;
  mret (accepted [] event).

Definition emergency_close_positions (request : ConfirmedActionRequest) (actor : dict) : SE Api pyval :=
  _ ← require_confirmation (cq_confirmation request) "close";
  event ← command actor "CLOSE_POSITIONS" [("reason", PStr (cq_reason request)); ("reduce_only", PBool true)] "EMERGENCY_CLOSE_POSITIONS";
  _ ← add_risk_event sev_critical "CLOSE_POSITIONS_REQUESTED" (cq_reason request) false false actor;
  mret (accepted [] event).

Definition emergency_runtime_restart (request : ConfirmedActionRequest) (actor : dict) : SE Api pyval :=
  _ ← require_confirmation (cq_confirmation request) "restart";
  event ← command actor "RUNTIME_RESTART" [("reason", PStr (cq_reason request))] "EMERGENCY_RUNTIME_RESTART";
  _ ← add_risk_event sev_high "RUNTIME_RESTART_REQUESTED" (cq_reason request) false false actor;
  mret (accepted [] event).

Definition emergency_shutdown (request : ConfirmedActionRequest) (actor : dict) : SE Api pyval :=
  _ ← require_confirmation (cq_confirmation request) "shutdown";
  now ← utcnow;
  let state := kill_switch_state (cq_reason request) actor now ++ [("shutdown", PBool true)] in
  _ ← set_state kill_switch_key state;
  event ← command actor "EMERGENCY_SHUTDOWN" [("reason", PStr (cq_reason request)); ("kill_switch", PDict state)] "EMERGENCY_SHUTDOWN";
  _ ← add_risk_event sev_critical "EMERGENCY_SHUTDOWN" (cq_reason request) true true actor;
  mret (accepted [("kill_switch", PDict state)] event).
End Control.

(** ** What the operations do to the state *)

Section Effects.
Context {Token : Type} {E : ApiEnv}.
Notation Api := (Api Token).

Definition bus (s : Api) : list (string * pyval) := cs_bus (ap_store s).
Definition audits (s : Api) : list AuditRow := cs_audits (ap_store s).

Lemma wp_on_store {A} (m : SE ConfigStore A) (Q : A -> Api -> Prop) (X : Api -> Prop) s :
  wp m (fun a c => Q a (with_store (fun _ => c) s)) (fun c => X (with_store (fun _ => c) s)) (ap_store s) -> wp (on_store m) Q X s.
Proof. unfold wp, on_store. by destruct (m (ap_store s)) as [c [a|e]]. Qed.

(** The parts of the store a program leaves alone. *)
Definition tables (c : ConfigStore) := (cs_configs c, cs_cache c).
Definition log (c : ConfigStore) := (cs_audits c, cs_events c, cs_bus c).

Lemma log_parts c a e b : log c = (a, e, b) -> cs_audits c = a /\ cs_events c = e /\ cs_bus c = b.
Proof. by intros [= <- <- <-]. Qed.

Lemma audit_effect service action rt resource metadata user before after c :
  wp (record_audit e_uuid4 e_flush service action rt resource metadata user before after)
     (fun row c' => tables c' = tables c /\ log c' = (cs_audits c ++ [row], cs_events c, cs_bus c) /\ au_action row = action /\ au_resource_type row = rt)
     (fun c' => cs_bus c' = cs_bus c) c.
Proof.
  unfold wp, record_audit, flush_then, mbind, CS_bind, se_bind, mret, CS_ret, se_ret, cs_next, se_lift, se_modify.
  cbn [cs_tick]. destruct (e_flush _); [split_and!; reflexivity|reflexivity].
Qed.

Lemma event_effect ty source status payload cid domain version corr ack metadata c :
  wp (record_event e_uuid4 e_flush ty source status payload cid domain version corr ack metadata)
     (fun row c' => tables c' = tables c /\ log c' = (cs_audits c, cs_events c ++ [row], cs_bus c)) (fun c' => cs_bus c' = cs_bus c) c.
Proof.
  unfold wp, record_event, flush_then, mbind, CS_bind, se_bind, mret, CS_ret, se_ret, cs_next, se_lift, se_modify.
  cbn [cs_tick]. destruct (e_flush _); [split_and!; reflexivity|reflexivity].
Qed.

Lemma publish_message_effect channel v c :
  wp (redis_publish e_redis channel v)
     (fun _ c' => tables c' = tables c /\ log c' = (cs_audits c, cs_events c, cs_bus c ++ [(channel, v)])) (fun c' => cs_bus c' = cs_bus c) c.
Proof.
  unfold wp, redis_publish, mbind, CS_bind, se_bind, cs_next, se_lift, se_modify.
  cbn [cs_tick]. destruct (e_redis _ _); [split_and!; reflexivity|reflexivity].
Qed.

(** A command: one audit record, one runtime event and two messages; when it
    raises, at most the first message has been sent. *)
Lemma publish_effect actor ty payload channel rt act c :
  wp (publish_runtime_command e_time e_uuid4 e_parse_uuid e_flush e_redis actor ty payload channel rt (Some act))
     (fun event c' => is_command ty payload event /\ tables c' = tables c /\ exists audit ev v,
        log c' = (cs_audits c ++ [audit], cs_events c ++ [ev], cs_bus c ++ [(channel, PDict event); ("runtime.events", v)])
        /\ au_action audit = (if String.eqb act "" then ty else act) /\ au_resource_type audit = rt)
     (fun c' => cs_bus c' = cs_bus c \/ exists event, is_command ty payload event /\ cs_bus c' = cs_bus c ++ [(channel, PDict event)]) c.
Proof.
  unfold publish_runtime_command. unfold mbind, CS_bind, mret, CS_ret. cbv beta zeta.
  apply wp_seq. eapply wp_mono; [apply audit_effect| |by left]. intros audit c1 (T1 & L1 & A1 & A2). cbv beta.
  apply wp_seq. unfold wp at 1, cs_next. apply wp_seq, wp_lift; [intros _ _|intros _ _; left; apply log_parts in L1; tauto].
  apply wp_seq. unfold wp at 1, cs_next.
  apply wp_seq. eapply wp_mono; [apply event_effect| |intros c' ->; left; apply log_parts in L1 as (_ & _ & L1); exact L1].
  intros ev c4 (T4 & L4). cbv beta. cbn [cs_tick cs_audits cs_events cs_bus] in L4.
  apply log_parts in L1 as (La1 & Le1 & Lb1). apply log_parts in L4 as (La4 & Le4 & Lb4).
  apply wp_seq. eapply wp_mono; [apply publish_message_effect| |intros c' ->; left; congruence].
  intros [] c5 (T5 & L5). apply log_parts in L5 as (La5 & Le5 & Lb5).
  assert (C : forall a extra cid now,
    is_command ty payload (od_set "runtime_event_id" a [("command_id", cid); ("command_type", PStr ty); ("payload", PDict (dict_merge payload extra)); ("published_at", now)])).
  { intros. split; [reflexivity|]. eexists. reflexivity. }
  apply wp_seq. eapply wp_mono; [apply publish_message_effect| |intros c' Hc; right; eexists; split; [|rewrite Hc, Lb5, Lb4, Lb1; reflexivity]; apply C].
  intros [] c6 (T6 & L6). apply log_parts in L6 as (La6 & Le6 & Lb6). apply wp_ret. split; [apply C|]. split; [unfold tables in *; simpl in *; congruence|].
  eexists audit, ev, _. split_and!; [|done|done]. unfold log. rewrite La6, Le6, Lb6, La5, Le5, Lb5, La4, Le4, Lb4, La1, Le1, Lb1, <- app_assoc. reflexivity.
Qed.

Definition bump (c : ConfigStore) : ConfigStore := mkStore (cs_configs c) (cs_audits c) (cs_events c) (cs_cache c) (cs_bus c) (S (cs_tick c)).

Lemma wp_utcnow Q X (s : Api) : Q (e_clock (cs_tick (ap_store s))) (with_store bump s) -> wp utcnow Q X s.
Proof. done. Qed.

(** The rest of the state, which neither commands nor the kill switch touch. *)
Definition others (s : Api) := (ap_accounts s, ap_pairs s, ap_orders s, ap_trades s, ap_positions s, ap_snapshots s).

Lemma command_effect actor ty payload action s :
  wp (command actor ty payload action)
     (fun event s' => is_command ty payload event /\ ap_keys s' = ap_keys s /\ ap_risks s' = ap_risks s /\ others s' = others s /\
        (exists row, audits s' = audits s ++ [row] /\ au_action row = (if String.eqb action "" then ty else action)) /\
        exists v, bus s' = bus s ++ [(market_maker_channel, PDict event); ("runtime.events", v)])
     (fun s' => ap_keys s' = ap_keys s /\
        (bus s' = bus s \/ exists event, is_command ty payload event /\ bus s' = bus s ++ [(market_maker_channel, PDict event)])) s.
Proof.
  apply wp_on_store. eapply wp_mono; [apply publish_effect| |].
  - intros event c (C & _ & audit & ev & v & L & A & _). apply log_parts in L as (La & _ & Lb). unfold audits, bus. simpl. eauto 10.
  - intros c Hc. split; [done|exact Hc].
Qed.

Lemma set_state_effect key state s : json_exact (PDict state) = true ->
  wp (set_state key state)
     (fun _ s' => od_get key (ap_keys s') = Some (dumps_compact (PDict state)) /\ (forall k, k <> key -> od_get k (ap_keys s') = od_get k (ap_keys s)) /\
        bus s' = bus s /\ audits s' = audits s /\ ap_risks s' = ap_risks s /\ others s' = others s)
     (fun s' => ap_keys s' = ap_keys s /\ bus s' = bus s) s.
Proof.
  intros X. unfold set_state, client_set, tick. rewrite json_dumps_exact by done.
  unfold wp, mbind, se_bind, se_lift, on_store, cs_next, se_modify. destruct (e_redis _ _); [|done].
  split; [apply od_get_set_eq|]. split; [|done]. intros k Hk. simpl. by apply od_get_set_ne.
Qed.

Lemma risk_event_effect severity ty message ks breaker actor s :
  wp (add_risk_event severity ty message ks breaker actor)
     (fun _ s' => ap_keys s' = ap_keys s /\ bus s' = bus s /\ audits s' = audits s /\ others s' = others s /\
        exists row, ap_risks s' = ap_risks s ++ [row] /\ rr_event_type row = ty /\ rr_message row = message /\ rr_kill_switch row = ks)
     (fun _ => False) s.
Proof. cbn. split_and!; try done. by eexists. Qed.

Lemma wp_in_session {A} (m : SE Api A) (Q : A -> Api -> Prop) (X : Api -> Prop) s :
  wp m (fun a s' => (forall t, e_commit t = Ok tt -> Q a (with_store bump s')) /\
          X (rollback s (with_store bump s')))
       (fun s' => X (rollback s s')) s ->
  wp (in_session m) Q X s.
Proof.
  unfold wp, in_session. destruct (m s) as [s' [a|e]]; [|done]. intros [H1 H2]. unfold tick, on_store, cs_next.
  destruct (e_commit (cs_tick (ap_store s'))) as [[]|] eqn:C; [by apply (H1 _ C)|exact H2].
Qed.
End Effects.

(** ** Stopping *)

(** What any reader of Redis finds under the kill switch key. *)
Definition kill_switch_on {Token} (s : Api Token) : Prop :=
  exists d, loads_json (od_get kill_switch_key (ap_keys s)) = Ok (PDict d) /\ truthy (pget "active" d) = true.

Section Stop.
Context {Token : Type} {E : ApiEnv}.
Notation Api := (Api Token).

(** The two endpoints that stop trading have one shape. *)
Definition stop_endpoint (word command_type event_type action : string) (extra : dict) (breaker : bool)
    (request : ConfirmedActionRequest) (actor : dict) : SE Api pyval :=
  _ ← require_confirmation (cq_confirmation request) word;
  now ← utcnow;
  let state := kill_switch_state (cq_reason request) actor now ++ extra in
  _ ← set_state kill_switch_key state;
  event ← command actor command_type [("reason", PStr (cq_reason request)); ("kill_switch", PDict state)] action;
  _ ← add_risk_event sev_critical event_type (cq_reason request) true breaker actor;
  mret (accepted [("kill_switch", PDict state)] event).

Lemma disable_stops : emergency_disable_trading = stop_endpoint "disable" "DISABLE_TRADING" "TRADING_DISABLED" "EMERGENCY_DISABLE_TRADING" [] false.
Proof. reflexivity. Qed.
Lemma shutdown_stops :
  emergency_shutdown = stop_endpoint "shutdown" "EMERGENCY_SHUTDOWN" "EMERGENCY_SHUTDOWN" "EMERGENCY_SHUTDOWN" [("shutdown", PBool true)] true.
Proof. reflexivity. Qed.

(** The outcomes of a stop. *)
Definition stopped_by (command_type action : string) (s s' : Api) : Prop :=
  kill_switch_on s' /\
  (exists event payload, is_command command_type payload event /\ on_wire market_maker_channel (PDict event) (ap_store s')) /\
  (exists row, row ∈ audits s' /\ au_action row = action) /\
  (exists row, row ∈ ap_risks s' /\ rr_kill_switch row = true).

Lemma stop_wp word ty etype action extra breaker request actor s :
  action <> "" -> (forall now, json_exact (PDict (kill_switch_state (cq_reason request) actor now ++ extra)) = true) ->
  wp (stop_endpoint word ty etype action extra breaker request actor)
     (fun _ s' => stopped_by ty action s s') (fun s' => bus s' = bus s \/ kill_switch_on s') s.
Proof.
  intros Ha J. unfold stop_endpoint. apply wp_bind. unfold require_confirmation.
  destruct (str_in _ _); [|unfold wp, http_error, se_raise, raise; by left]. apply wp_ret.
  apply wp_bind, wp_utcnow. set (s1 := with_store bump s). assert (B : bus s1 = bus s) by done. clearbody s1. cbv zeta.
  apply wp_bind. eapply wp_mono; [apply set_state_effect, J| |intros s2 [_ ->]; by left].
  intros [] s2 (K2 & _ & B2 & _ & _ & _).
  assert (K : forall s3, ap_keys s3 = ap_keys s2 -> kill_switch_on (s3 : Api)).
  { intros s3 E3. eexists. rewrite E3, K2. cbn [loads_json]. rewrite (proj1 (json_round_trip _ (J _))). split; reflexivity. }
  apply wp_bind. eapply wp_mono; [apply command_effect| |intros s3 [K3 _]; right; by apply K].
  intros event s3 (C & K3 & _ & _ & (row & A & Ar) & v & B3).
  apply wp_bind. eapply wp_mono; [apply risk_event_effect| |done].
  intros [] s4 (K4 & B4 & A4 & _ & rrow & R4 & _ & _ & Rk). apply wp_ret. split_and!.
  - apply K. congruence.
  - eexists event, _. split; [exact C|]. unfold on_wire. fold (bus s4). rewrite B4, B3. apply elem_of_app. right. by left.
  - exists row. rewrite A4, A. split; [apply elem_of_app; right; by left|]. rewrite Ar. by destruct (String.eqb_spec action "").
  - exists rrow. rewrite R4. split; [apply elem_of_app; right; by left|exact Rk].
Qed.
End Stop.

Definition stop_endpoints {Token} {E : ApiEnv} : list (ConfirmedActionRequest -> dict -> SE (Api Token) pyval) :=
  [emergency_disable_trading; emergency_shutdown].

Lemma stop_state_exact reason actor now extra : extra ∈ [[]; [("shutdown", PBool true)]] -> json_exact (pget "sub" actor) = true ->
  json_exact (PDict (kill_switch_state reason actor now ++ extra)) = true.
Proof.
  intros Hx Hs. apply elem_of_cons in Hx as [->|Hx%list_elem_of_singleton]; [|subst]; cbn [json_exact kill_switch_state app forallb snd];
    rewrite Hs; reflexivity.
Qed.

Lemma stop_session {Token} {E : ApiEnv} stop request actor (s s' : Api Token) r :
  stop ∈ stop_endpoints -> json_exact (pget "sub" actor) = true -> in_session (stop request actor) s = (s', r) ->
  (bus s' = bus s \/ kill_switch_on s') /\
  match r with
  | Ok _ => exists ty action, (ty ∈ shutdown_commands /\ str_startswith "EMERGENCY_" action = true /\ str_upper ty = ty) /\ stopped_by ty action s s'
  | Err _ => audits s' = audits s /\ ap_risks s' = ap_risks s
  end.
Proof.
  intros Hs J R.
  assert (W : exists ty action, (ty ∈ shutdown_commands /\ str_startswith "EMERGENCY_" action = true /\ str_upper ty = ty) /\
    wp (stop request actor) (fun _ s' => stopped_by ty action s s') (fun s' => bus s' = bus s \/ kill_switch_on s') s).
  { apply elem_of_cons in Hs as [->|Hs%list_elem_of_singleton]; [|subst].
    - eexists _, _. split; [|rewrite disable_stops; apply stop_wp; [done|intros now; apply stop_state_exact; [by left|done]]]. split; [set_solver|done].
    - eexists _, _. split; [|rewrite shutdown_stops; apply stop_wp; [done|intros now; apply stop_state_exact; [right; by left|done]]]. split; [set_solver|done]. }
  destruct W as (ty & action & Hty & W). unfold wp in W. unfold in_session in R. destruct (stop request actor s) as [s1 [a|e]].
  - unfold tick, on_store, cs_next in R. destruct (e_commit _) as [[]|]; injection R as <- <-.
    + split; [right; apply W|]. by exists ty, action.
    + split; [right; apply W|done].
  - injection R as <- <-. by split.
Qed.

(** C5: a disable-trading or shutdown request that returns has set the kill
    switch every engine reads, put the command on the bus and recorded it in
    the audit log and among the risk events; the market-maker runtime that
    consumes the command switches trading and quoting off and creates no order. *)
Theorem emergency_stop_reaches_engine {Token} {X : ApiEnv} stop request actor (s s' : Api Token) response :
  stop ∈ stop_endpoints -> json_exact (pget "sub" actor) = true ->
  in_session (stop request actor) s = (s', Ok response) ->
  kill_switch_on s' /\ (exists row, row ∈ audits s' /\ str_startswith "EMERGENCY_" (au_action row) = true) /\
  (exists row, row ∈ ap_risks s' /\ rr_kill_switch row = true) /\
  exists event, on_wire market_maker_channel (PDict event) (ap_store s') /\
    forall {L D} (S1 : Session D) (S2 : RuntimeSession D) (V : LiveVenue L D)
      uuid clk tm cache_get bus_send json_loads model_validate fromiso st (r : Runtime (L := L) (D := D)) data,
      json_loads data = Ok (PDict event) ->
      let r' := (consume uuid clk tm cache_get bus_send json_loads model_validate fromiso st (Some (market_maker_channel, data)) r).1 in
      fl_trading (rt_flags r') = false /\ fl_quoting (rt_flags r') = false /\ orders_made r' = orders_made r.
Proof.
  intros Hs J R. destruct (stop_session _ _ _ _ _ _ Hs J R) as [_ (ty & action & (Hty & Ha & Hu) & K & (event & payload & [C _] & W) & (row & A & <-) & Rk)].
  split; [done|]. split; [by exists row|]. split; [done|]. exists event. split; [done|].
  intros L D S1 S2 V uuid clk tm cache_get bus_send json_loads model_validate fromiso st r data Jl.
  assert (Hc : command_of event ∈ shutdown_commands).
  { unfold command_of. rewrite C. unfold por. destruct ty as [|c ty]; [|rewrite <- Hu in Hty; exact Hty].
    exfalso. revert Hty. apply (bool_decide_unpack _). vm_compute. exact I. }
  pose proof (shutdown_dispatch uuid clk tm cache_get bus_send json_loads model_validate fromiso st data event r Jl Hc) as P.
  unfold consume, se_catch, market_maker_channel in *. destruct (MMRuntime.dispatch _ _ _ _ _ _ _ _ _ _ _ r) as [r1 [[]|e]];
    destruct P as (P1 & P2 & _ & P4); done.
Qed.

(** C6: the kill switch is set before anything is announced: however a
    disable-trading or shutdown request ends, if the bus has changed then the
    kill switch is on; a request that raises leaves the audit log and the risk
    events as they were. *)
Theorem emergency_stop_fails_safe {Token} {X : ApiEnv} stop request actor (s s' : Api Token) r :
  stop ∈ stop_endpoints -> json_exact (pget "sub" actor) = true -> in_session (stop request actor) s = (s', r) ->
  (bus s' = bus s \/ kill_switch_on s') /\ (is_ok r = false -> audits s' = audits s /\ ap_risks s' = ap_risks s).
Proof. intros Hs J R. destruct (stop_session _ _ _ _ _ _ Hs J R) as [B O]. split; [done|]. by destruct r. Qed.

(** Enabling trading clears the kill switch before anything is recorded:
    when the database refuses the audit record, the request fails and leaves
    no record and no message, but the switch is off. *)
Theorem enable_trading_fails_open {Token} {X : ApiEnv} request actor (s : Api Token) e :
  str_in "enable" (str_lower (cq_confirmation request)) = true ->
  (forall t, e_redis t kill_switch_key = Ok tt) -> (forall t, e_flush t = Err e) ->
  exists s', in_session (emergency_enable_trading request actor) s = (s', Err e) /\
    od_get kill_switch_key (ap_keys s') = None /\ audits s' = audits s /\ ap_risks s' = ap_risks s /\ bus s' = bus s.
Proof.
  intros Hc Hr Hf. unfold in_session, emergency_enable_trading, require_confirmation, client_delete, tick.
  unfold mbind, se_bind. change (str_lower "enable") with "enable". rewrite Hc. unfold mret, se_ret, on_store, cs_next, se_lift. rewrite Hr.
  unfold se_modify, command, publish, on_store, publish_runtime_command, record_audit, flush_then.
  unfold mbind, CS_bind, se_bind, cs_next, se_lift. rewrite Hf. eexists. split; [reflexivity|]. split; [|done].
  simpl. rewrite od_get_del. by rewrite decide_True.
Qed.

(** A shutdown on an accepting database and Redis. *)
Lemma emergency_stop_reaches_engine_witness :
  let X := accepting in
  exists s' response, in_session (emergency_shutdown (mkConfirmed "SHUTDOWN now" "drill") [("sub", PStr "op")]) demo_api = (s', Ok response) /\ kill_switch_on s'.
Proof.
  intros X. destruct (in_session (emergency_shutdown (mkConfirmed "SHUTDOWN now" "drill") [("sub", PStr "op")]) demo_api) as [s' [response|e]] eqn:R;
    [|exfalso; vm_compute in R; discriminate].
  exists s', response. split; [reflexivity|].
  exact (proj1 (emergency_stop_reaches_engine emergency_shutdown (mkConfirmed "SHUTDOWN now" "drill") [("sub", PStr "op")] demo_api s' response ltac:(right; left) ltac:(reflexivity) R)).
Defined.

(** The bus refuses the command: no record, and the switch is on. *)
Lemma emergency_stop_fails_safe_witness :
  let X := demo_env (fun _ => Ok tt) (fun _ => Ok tt) (fun _ key => if String.eqb key kill_switch_key then Ok tt else raise RuntimeError "connection lost") in
  let run := in_session (emergency_disable_trading (mkConfirmed "disable" "drill") [("sub", PStr "op")]) demo_api in
  is_ok run.2 = false /\ od_get kill_switch_key (ap_keys run.1) <> None /\ audits run.1 = [].
Proof.
  intros X run. split; [vm_compute; reflexivity|]. split; [vm_compute; discriminate|].
  destruct (emergency_stop_fails_safe emergency_disable_trading (mkConfirmed "disable" "drill") [("sub", PStr "op")] demo_api run.1 run.2) as [_ A].
  - left.
  - reflexivity.
  - apply surjective_pairing.
  - apply A. vm_compute. reflexivity.
Defined.

Lemma enable_trading_fails_open_witness :
  let e := mkExn RuntimeError "database unavailable" in
  let X := demo_env (fun _ => Err e) (fun _ => Ok tt) (fun _ _ => Ok tt) in
  let s := with_keys (od_set kill_switch_key "{}") demo_api in
  exists s', in_session (emergency_enable_trading (mkConfirmed "enable" "drill over") []) s = (s', Err e) /\ od_get kill_switch_key (ap_keys s') = None.
Proof.
  intros e X s. destruct (enable_trading_fails_open (mkConfirmed "enable" "drill over") [] s e) as (s' & R & K & _).
  - reflexivity.
  - reflexivity.
  - reflexivity.
  - exists s'. split; [exact R|exact K].
Defined.
