(* ===== verification/ApiAccounts.v ===== *)
(** * ApiAccounts: exchange accounts, connection tests and balance
    synchronisation ([api/routes.py], [api/schemas.py], [coinstore_ws.py]'s
    connection test)

    Accounts are addressed by exchange, alias and environment. Secrets are
    stored as Fernet tokens. The service of [execution/coinstore.py] is used
    with the account already set. The expiry of attributes after a flush is
    not modelled. *)

From Stdlib Require Import Ascii.
From S2P Require Import Prelude Rounding PyFloat PyDecimal PyData PyValue Models Venue RateLimit Signing Config CoinstoreRules CoinstoreService Daemon ConfigStore ControlPlane Access Json RedisStore Environment Client PublicExchange ApiBase ApiReads ApiControl.

#[local] Open Scope string_scope.
#[local] Open Scope list_scope.

(** ** Requests *)

Definition environments : list string := ["sandbox"; "staging"; "production"].
Definition exchange_names : list string := ["coinstore"; "mexc"; "gate"; "bitmart"; "kucoin"; "binance"].

Record ExchangeAccountCreateRequest : Type := mkCreate {
  xq_account_alias : string; xq_environment : string; xq_api_key : string; xq_api_secret : string; xq_passphrase : option string;
  xq_permissions : list string; xq_is_enabled : bool }.
Definition account_create_ok (r : ExchangeAccountCreateRequest) : bool :=
  min_length 1 (xq_account_alias r) && bool_decide (xq_environment r ∈ environments) && min_length 1 (xq_api_key r) && min_length 1 (xq_api_secret r).

(** [ExchangeConnectRequest]: the fields of a creation, for an exchange. *)
Record ExchangeConnectRequest : Type := mkConnect { nq_exchange_name : string; nq_account : ExchangeAccountCreateRequest }.
Definition connect_ok (r : ExchangeConnectRequest) : bool :=
  bool_decide (nq_exchange_name r ∈ exchange_names) && account_create_ok (nq_account r).

Record ExchangeAccountStatusRequest : Type := mkStatusRequest { tq_is_enabled : bool; tq_action : ConfirmedActionRequest }.

(** [ExchangeTestRequest], and [ExchangeRemoveRequest] with its confirmation. *)
Record ExchangeTestRequest : Type := mkTestRequest { eq_exchange_name : string; eq_account_alias : string; eq_environment : string }.
Definition test_request_ok (r : ExchangeTestRequest) : bool :=
  bool_decide (eq_exchange_name r ∈ exchange_names) && min_length 1 (eq_account_alias r) && bool_decide (eq_environment r ∈ environments).
Record ExchangeRemoveRequest : Type := mkRemove { mq_account : ExchangeTestRequest; mq_confirmation : string }.
Definition remove_request_ok (r : ExchangeRemoveRequest) : bool := test_request_ok (mq_account r) && min_length 3 (mq_confirmation r).
Record ExchangeSyncRequest : Type := mkSync { yq_account_alias : string; yq_environment : string }.

(** ** [CoinstorePrivateWebSocketClient.test_connection] *)

(** The frames the server sends in reply; waiting for one that does not come
    ends in a timeout, or in the failure of the connection. *)
Definition test_connection (time : nat -> float) (credentials : ExecutionCredentials) (c : Connection) : result dict :=
  match c with
  | Refused e => Err e
  | Opened frames ending =>
      let recv (l : list Frame) : result (Frame * list Frame) :=
        match l with
        | f :: rest => Ok (f, rest)
        | [] => match ending with Some e => Err e | None => raise TimeoutError "" end
        end in
      expires ← time_ms (time 0%nat);
      signature ← private_signature credentials expires;
      '(auth, rest) ← recv frames;
      '(subscribed, _) ← recv rest;
      auth_response ← frame_message auth;
      subscribe_response ← frame_message subscribed;
      Ok [("connected", PBool true); ("auth_response", auth_response); ("subscribe_response", subscribe_response)]
  end.

Section Accounts.
Context {Token : Type} `{Fernet Token} {E : ApiEnv}.
Notation Api := (Api Token).
Notation AccountRow := (AccountRow Token).

Definition cipher : SecretCipher := new_cipher (ap_jwt e_settings).

(** [cipher.encrypt(value)] with fresh randomness *)
Definition seal (value : option string) : SE Api (option Token) := t ← tick; mret (Access.encrypt cipher t value).

(** [cipher.decrypt] of a required column: the empty ciphertext is refused. *)
Definition unseal (c : option Token) : result string :=
  match c with
  | None => raise ValueError "stored secret cannot be decrypted with the active key"
  | Some token => v ← Access.decrypt cipher (Some token); Ok (default "" v)
  end.

(** [session.add(row)] and an update in place. *)
Definition add_account (row : AccountRow) : SE Api unit := se_modify (with_accounts (fun l => l ++ [row])).
Definition save_account (row : AccountRow) : SE Api unit :=
  se_modify (with_accounts (map (fun r => if String.eqb (ac_id r) (ac_id row) then row else r))).
Definition delete_account (row : AccountRow) : SE Api unit :=
  se_modify (with_accounts (List.filter (fun r => negb (String.eqb (ac_id r) (ac_id row))))).

Definition account_payload (row : AccountRow) : dict := exchange_account_payload api_settings row.

(** The credentials of a request, sealed. *)
Definition sealed_secrets (q : ExchangeAccountCreateRequest) : SE Api (option Token * option Token * option Token) :=
  key ← seal (Some (xq_api_key q));
  secret ← seal (Some (xq_api_secret q));
  passphrase ← seal (xq_passphrase q);
  mret (key, secret, passphrase).

Definition new_account (exchange_name : string) (q : ExchangeAccountCreateRequest) : SE Api AccountRow :=
  '(key, secret, passphrase) ← sealed_secrets q;
  t ← tick;
  mret (mkAccountRow (e_uuid4 t) exchange_name (xq_account_alias q) (xq_environment q) key secret passphrase (sc_key_id cipher)
          (xq_permissions q) (xq_is_enabled q) false false false "disconnected" None None None None (e_clock t) (e_clock t)).

(** New credentials for an account; [reset] forgets the connection state. *)
Definition updated_account (reset : bool) (q : ExchangeAccountCreateRequest) (r : AccountRow) : SE Api AccountRow :=
  '(key, secret, passphrase) ← sealed_secrets q;
  t ← tick;
  mret (if reset
        then mkAccountRow (ac_id r) (ac_exchange_name r) (ac_account_alias r) (ac_environment r) key secret passphrase (sc_key_id cipher)
               (xq_permissions q) (xq_is_enabled q) false false false "disconnected" (ac_tested_at r) (ac_success_at r) (ac_failure_at r) None
               (ac_created_at r) (e_clock t)
        else mkAccountRow (ac_id r) (ac_exchange_name r) (ac_account_alias r) (ac_environment r) key secret passphrase (sc_key_id cipher)
               (xq_permissions q) (xq_is_enabled q) (ac_rest r) (ac_websocket r) (ac_private_ws r) (ac_status r) (ac_tested_at r)
               (ac_success_at r) (ac_failure_at r) (ac_error r) (ac_created_at r) (e_clock t)).

(** The account stored for the request: updated when there is one, else new. *)
Definition store_account (reset : bool) (exchange_name : string) (q : ExchangeAccountCreateRequest) (found : option AccountRow) : SE Api AccountRow :=
  row ← (match found with
         | None => row ← new_account exchange_name q; _ ← add_account row; mret row
         | Some r => row ← updated_account reset q r; _ ← save_account row; mret row
         end);
  _ ← api_flush;
  mret row.

Definition announce_account (actor : dict) (command_type : string) (payload : dict) (resource_type : string) : SE Api dict :=
  publish actor command_type payload market_data_channel resource_type None.

(** ** Endpoints *)

Definition exchanges_connect (request : ExchangeConnectRequest) (actor : dict) : SE Api pyval :=
  if negb (phas (nq_exchange_name request) supported_exchanges) then http_error 404 "unsupported exchange" else
  let q := nq_account request in
  found ← exchange_account (nq_exchange_name request) (xq_account_alias q) (xq_environment q);
  let before := account_payload <$> found in
  row ← store_account true (nq_exchange_name request) q found;
  let payload := account_payload row in
  _ ← audit "EXCHANGE_CONNECT" "exchange_accounts" (Some (ac_id row))
        [("actor", pget "sub" actor); ("exchange_name", PStr (ac_exchange_name row)); ("account_alias", PStr (ac_account_alias row))] before (Some payload);
  _ ← announce_account actor "EXCHANGE_ACCOUNT_UPDATED"
        [("account_id", PStr (ac_id row)); ("exchange_name", PStr (ac_exchange_name row)); ("account_alias", PStr (ac_account_alias row))] "exchange_accounts";
  mret (PDict payload).

Definition coinstore_account_upsert (q : ExchangeAccountCreateRequest) (actor : dict) : SE Api pyval :=
  found ← exchange_account "coinstore" (xq_account_alias q) (xq_environment q);
  let before := exchange_account_payload None <$> found in
  row ← store_account false "coinstore" q found;
  let payload := exchange_account_payload None row in
  _ ← audit "COINSTORE_ACCOUNT_UPSERT" "exchange_accounts" (Some (ac_id row))
        [("actor", pget "sub" actor); ("account_alias", PStr (ac_account_alias row))] before (Some payload);
  _ ← announce_account actor "COINSTORE_ACCOUNT_UPDATED" [("account_id", PStr (ac_id row)); ("account_alias", PStr (ac_account_alias row))] "exchange_accounts";
  mret (PDict payload).

Definition set_enabled (b : bool) (now : datetime) (r : AccountRow) : AccountRow :=
  mkAccountRow (ac_id r) (ac_exchange_name r) (ac_account_alias r) (ac_environment r) (ac_api_key r) (ac_api_secret r) (ac_passphrase r) (ac_key_id r)
    (ac_permissions r) b (ac_rest r) (ac_websocket r) (ac_private_ws r) (ac_status r) (ac_tested_at r) (ac_success_at r) (ac_failure_at r) (ac_error r)
    (ac_created_at r) now.

(** [session.get(models.ExchangeAccount, account_id)] *)
Definition account_by_id (id : string) : SE Api (option AccountRow) :=
  s ← se_get; mret (List.find (fun r => String.eqb (ac_id r) id) (ap_accounts s)).

Definition coinstore_account_status (account_id : string) (request : ExchangeAccountStatusRequest) (actor : dict) : SE Api pyval :=
  let reason := PStr (cq_reason (tq_action request)) in
  _ ← require_confirmation (cq_confirmation (tq_action request)) (if tq_is_enabled request then "enable" else "disable");
  found ← account_by_id account_id;
  match found with
  | Some r =>
      if negb (String.eqb (ac_exchange_name r) "coinstore") then http_error 404 "coinstore account not found" else
      let before := exchange_account_payload None r in
      now ← utcnow;
      let row := set_enabled (tq_is_enabled request) now r in
      _ ← save_account row;
      _ ← api_flush;
      let payload := exchange_account_payload None row in
      _ ← audit "COINSTORE_ACCOUNT_STATUS" "exchange_accounts" (Some (ac_id row)) [("actor", pget "sub" actor); ("reason", reason)] (Some before) (Some payload);
      _ ← announce_account actor "COINSTORE_ACCOUNT_STATUS"
            [("account_id", PStr (ac_id row)); ("is_enabled", PBool (ac_enabled row)); ("reason", reason)] "exchange_accounts";
      mret (PDict payload)
  | None => http_error 404 "coinstore account not found"
  end.

Definition exchanges_remove (request : ExchangeRemoveRequest) (actor : dict) : SE Api pyval :=
  let q := mq_account request in
  let names := [("exchange_name", PStr (eq_exchange_name q)); ("account_alias", PStr (eq_account_alias q))] in
  _ ← require_confirmation (mq_confirmation request) "remove";
  found ← exchange_account (eq_exchange_name q) (eq_account_alias q) (eq_environment q);
  match found with
  | None => http_error 404 "exchange account not found"
  | Some row =>
      let before := account_payload row in
      _ ← delete_account row;
      _ ← audit "EXCHANGE_REMOVE" "exchange_accounts" (Some (ac_id row)) ([("actor", pget "sub" actor)] ++ names) (Some before) None;
      _ ← announce_account actor "EXCHANGE_ACCOUNT_REMOVED" names "exchange_accounts";
      mret (PDict ([("removed", PBool true)] ++ names))
  end.

(** *** Connection tests *)

Definition set_test (row : AccountRow) (status : string) (rest ws private : bool) (tested success failure : option datetime) (error : option string) (updated : datetime) : AccountRow :=
  mkAccountRow (ac_id row) (ac_exchange_name row) (ac_account_alias row) (ac_environment row) (ac_api_key row) (ac_api_secret row) (ac_passphrase row)
    (ac_key_id row) (ac_permissions row) (ac_enabled row) rest ws private status tested success failure error (ac_created_at row) updated.

Definition fail_with (result : dict) (entries : dict) : dict := dict_merge result entries.
Definition exn_text (prefix : string) (exc : exn) : pyval := PStr (prefix +:+ ":" +:+ exn_name (ex_class exc) +:+ ":" +:+ ex_msg exc).

(** The REST client of an account, with its own limiter. *)
Definition fresh_net (t : nat) : Net := mkNet (new_bucket (mkRate 300 60) (e_monotonic t 0)) [] 0.
Definition account_balances (t : nat) (credentials : ExecutionCredentials) : result (list Balance) :=
  (sync_balances (e_http t) (fun n => e_time (t + n)) (e_monotonic t) (mkClient coinstore credentials) (fresh_net t)).2.

(** The private part of the test, for Coinstore. *)
Definition test_private (row : AccountRow) (result : dict) : SE Api dict :=
  api_key ← se_lift (unseal (ac_api_key row));
  api_secret ← se_lift (unseal (ac_api_secret row));
  if String.eqb api_key "" || String.eqb api_secret ""
  then mret (fail_with result [("private_ws_status", PStr "invalid_credentials"); ("status", PStr "invalid_credentials");
                               ("error", PStr "INVALID_CREDENTIALS:missing_api_key_or_secret")])
  else
    passphrase ← se_lift (Access.decrypt cipher (ac_passphrase row));
    let credentials := mkCredentials api_key api_secret passphrase None in
    t ← tick;
    match account_balances t credentials with
    | Err exc =>
        let invalid := str_in "signature" (str_lower (ex_msg exc)) || str_in "401" (ex_msg exc) in
        mret (fail_with result [("private_ws_status", PStr "not_tested"); ("status", PStr (if invalid then "invalid_credentials" else "rest_failed"));
                                ("error", exn_text "AUTH_REST_FAILED" exc)])
    | Ok balances =>
        let result := dict_merge result [("authenticated_rest_status", PStr "connected"); ("account_assets_seen", PInt (Z.of_nat (length balances)))] in
        t' ← tick;
        match test_connection (fun n => e_time (t' + n)) credentials (e_private_ws t') with
        | Ok reply =>
            mret (dict_merge result [("private_ws_status", PStr (if truthy (pget "connected" reply) then "connected" else "error"));
                                     ("private_ws_auth_response", pget "auth_response" reply);
                                     ("private_ws_subscribe_response", pget "subscribe_response" reply); ("status", PStr "connected")])
        | Err exc => mret (fail_with result [("private_ws_status", PStr "error"); ("status", PStr "private_ws_failed"); ("error", exn_text "PRIVATE_WS_FAILED" exc)])
        end
    end.

(** [_test_exchange_connection] *)
Definition test_exchange_connection (row : AccountRow) : SE Api dict :=
  now ← utcnow;
  definition ← se_lift (get_exchange_definition (ac_exchange_name row));
  let result := [("exchange_name", PStr (ac_exchange_name row)); ("account_alias", PStr (ac_account_alias row)); ("environment", PStr (ac_environment row));
                 ("status", PStr "testing"); ("rest_status", PStr "testing"); ("websocket_status", PStr "testing");
                 ("private_ws_status", PStr "not_supported"); ("last_tested_at", PStr (isoformat now)); ("error", PNone)] in
  _ ← save_account (set_test row "testing" (ac_rest row) (ac_websocket row) (ac_private_ws row) (Some now) (ac_success_at row) (ac_failure_at row)
                      (ac_error row) (ac_updated_at row));
  t ← tick;
  match rest_health t definition None with
  | Err exc => mret (fail_with result [("rest_status", PStr "error"); ("status", PStr "network_error"); ("error", exn_text "REST_FAILED" exc)])
  | Ok _ =>
      let result := dict_merge result [("rest_status", PStr "connected")] in
      t' ← tick;
      match e_ws t' (xd_websocket_url definition) with
      | Err exc => mret (fail_with result [("websocket_status", PStr "error"); ("status", PStr "network_error"); ("error", exn_text "WEBSOCKET_FAILED" exc)])
      | Ok _ =>
          let result := dict_merge result [("websocket_status", PStr "connected")] in
          if String.eqb (ac_exchange_name row) "coinstore" then test_private row result
          else mret (dict_merge result [("status", PStr "connected")])
      end
  end.

(** [result.get(k) == v] for a text [v] *)
Definition is_str (v : string) (x : pyval) : bool := match x with PStr s => String.eqb s v | _ => false end.

(** [_apply_exchange_test_result] *)
Definition apply_exchange_test_result (row : AccountRow) (result : dict) (now : datetime) : AccountRow :=
  let rest := is_str "connected" (pget "rest_status" result) in
  let ws := is_str "connected" (pget "websocket_status" result) in
  let private := is_str "connected" (pget "private_ws_status" result) || is_str "not_supported" (pget "private_ws_status" result) in
  let status := py_str (por (pget "status" result) (PStr "error")) in
  if String.eqb status "connected" then set_test row status rest ws private (Some now) (Some now) (ac_failure_at row) None now
  else set_test row status rest ws private (Some now) (ac_success_at row) (Some now) (Some (py_str (por (pget "error" result) (PStr status)))) now.

Definition exchanges_test (q : ExchangeTestRequest) : SE Api pyval :=
  found ← exchange_account (eq_exchange_name q) (eq_account_alias q) (eq_environment q);
  match found with
  | None => http_error 404 "exchange account not found"
  | Some row =>
      result ← test_exchange_connection row;
      now ← utcnow;
      let row := apply_exchange_test_result row result now in
      _ ← save_account row;
      _ ← api_flush;
      mret (PDict (od_set "test_result" (PDict result) (account_payload row)))
  end.

(** *** Balance synchronisation *)

(** [CoinstoreExecutionService.client()] for the account of the service *)
Definition account_credentials (row : AccountRow) : result ExecutionCredentials :=
  api_key ← unseal (ac_api_key row);
  api_secret ← unseal (ac_api_secret row);
  if String.eqb api_key "" || String.eqb api_secret "" then raise RuntimeError "enabled Coinstore account is missing API credentials"
  else
    passphrase ← Access.decrypt cipher (ac_passphrase row);
    Ok (mkCredentials api_key api_secret passphrase None).

(** [persist_balance_update] *)
Definition persist_snapshot (row : AccountRow) (b : Balance) : SE Api unit :=
  t ← tick;
  _ ← se_modify (with_snapshots (fun l => l ++ [mkSnap (e_uuid4 t) (ac_id row) (bal_asset b) (bal_total b) (bal_available b) (bal_reserved b) "USDT" None None (e_clock t)]));
  api_flush.

Definition sync_exchange_balances (row : AccountRow) : SE Api dict :=
  if negb (String.eqb (ac_exchange_name row) "coinstore") then http_error 400 "balance sync is currently supported for coinstore" else
  credentials ← se_lift (account_credentials row);
  t ← tick;
  balances ← se_lift (account_balances t credentials);
  _ ← se_lift (verify_balance_response (PList (map bal_raw balances)));
  _ ← se_iter (persist_snapshot row) balances;
  payload ← exchange_balances_payload row;
  now ← utcnow;
  mret (dict_merge payload [("rows_written", PInt (Z.of_nat (length balances))); ("synced_at", PStr (isoformat now))]).

Definition exchange_balance_sync (exchange_name : string) (q : ExchangeSyncRequest) (actor : dict) : SE Api pyval :=
  found ← exchange_account (str_lower exchange_name) (yq_account_alias q) (yq_environment q);
  match found with
  | None => http_error 404 "exchange account not found"
  | Some row =>
      result ← sync_exchange_balances row;
      let names := [("exchange_name", PStr (ac_exchange_name row)); ("account_alias", PStr (ac_account_alias row)); ("rows_written", pget "rows_written" result)] in
      _ ← audit "EXCHANGE_BALANCE_SYNC" "inventory_snapshots" (Some (ac_id row)) ([("actor", pget "sub" actor)] ++ names) None None;
      _ ← announce_account actor "EXCHANGE_BALANCE_SYNC" ([("account_id", PStr (ac_id row))] ++ names) "inventory_snapshots";
      mret (PDict result)
  end.

(** The newest enabled Coinstore account. *)
Definition coinstore_balance_sync (request : ConfirmedActionRequest) (actor : dict) : SE Api pyval :=
  _ ← require_confirmation (cq_confirmation request) "sync";
  s ← se_get;
  match newest ac_updated_at 1 (List.filter (fun r => String.eqb (ac_exchange_name r) "coinstore" && ac_enabled r) (ap_accounts s)) with
  | [] => http_error 409 "no enabled coinstore account"
  | row :: _ =>
      payload ← sync_exchange_balances row;
      let rows := ("rows_written", pget "rows_written" payload) in
      _ ← audit "COINSTORE_BALANCE_SYNC" "inventory_snapshots" (Some (ac_id row))
            [("actor", pget "sub" actor); rows; ("reason", PStr (cq_reason request))] None None;
      _ ← announce_account actor "COINSTORE_BALANCE_SYNC" [("account_id", PStr (ac_id row)); rows] "inventory_snapshots";
      mret (PDict payload)
  end.
End Accounts.

(** *** [_parse_balance_rows] *)

(** [x.get(k1) or x.get(k2) or ...] down to the list of rows *)
Definition balance_list (raw : pyval) : result (list pyval) :=
  let payload := match raw with PDict d => pget_first ["data"; "balances"; "result"] raw d | _ => raw end in
  let payload := match payload with PDict d => pget_first ["list"; "items"; "accounts"] (PList []) d | _ => payload end in
  match payload with
  | PList l => Ok l
  | _ => raise HTTPException "502: coinstore balance response format is unsupported"
  end.

Definition parse_balance_row (item : pyval) : result (option dict) :=
  match item with
  | PDict d =>
      let asset := str_upper (py_str (pget_first ["asset"; "currency"; "coin"] (PStr "") d)) in
      if String.eqb asset "" then Ok None else
      available ← float_value (pget_first ["available"; "free"; "normal"] (PInt 0) d);
      reserved ← float_value (pget_first ["reserved"; "locked"; "freeze"] (PInt 0) d);
      total ← float_value (por (pget "total" d) (PFloat (fadd available reserved)));
      Ok (Some [("asset", PStr asset); ("available", PFloat available); ("reserved", PFloat reserved); ("total", PFloat total)])
  | _ => Ok None
  end.

Definition parse_balance_rows (raw : pyval) : result (list dict) :=
  l ← balance_list raw;
  rows ← result_mapM parse_balance_row l;
  Ok (concat (map (fun o : option dict => match o with Some r => [r] | None => [] end) rows)).

(** ** Programs that leave the accounts alone *)

Section AccountFrames.
Context {Token : Type} `{Fernet Token} {E : ApiEnv}.
Notation Api := (Api Token).

(** Accounts stay, the clock does not go back. *)
Definition later (s s' : Api) : Prop := (cs_tick (ap_store s) <= cs_tick (ap_store s'))%nat.
Definition keeps_accounts {A} (m : SE Api A) : Prop := forall s, ap_accounts (m s).1 = ap_accounts s /\ later s (m s).1.

Lemma keeps_accounts_bind {A B} (m : SE Api A) (k : A -> SE Api B) : keeps_accounts m -> (forall a, keeps_accounts (k a)) -> keeps_accounts (m ≫= k).
Proof.
  intros Hm Hk s. unfold mbind, se_bind, later in *. specialize (Hm s). unfold later in Hm. destruct (m s) as [s1 [a|e]]; simpl in *; [|done].
  destruct Hm as [Em Lm], (Hk a s1) as [E1 L1]. unfold later in L1. split; [congruence|lia].
Qed.
Lemma keeps_accounts_ret {A} (a : A) : keeps_accounts (mret a : SE Api A).
Proof. intros s. split; [done|apply le_n]. Qed.
Lemma keeps_accounts_lift {A} (r : result A) : keeps_accounts (se_lift r : SE Api A).
Proof. intros s. split; [done|apply le_n]. Qed.
Lemma keeps_get : keeps_accounts (se_get : SE Api Api).
Proof. intros s. split; [done|apply le_n]. Qed.
Lemma keeps_raise {A} c msg : keeps_accounts (se_raise c msg : SE Api A).
Proof. intros s. split; [done|apply le_n]. Qed.
Lemma keeps_http_error {A} n msg : keeps_accounts (http_error n msg : SE Api A).
Proof. intros s. split; [done|apply le_n]. Qed.
Lemma keeps_catch {A} (m : SE Api A) h : keeps_accounts m -> (forall e, keeps_accounts (h e)) -> keeps_accounts (se_catch m h).
Proof.
  intros Hm Hh s. unfold se_catch, later in *. specialize (Hm s). unfold later in Hm. destruct (m s) as [s1 [a|e]]; simpl in *; [done|].
  destruct Hm as [Em Lm], (Hh e s1) as [E1 L1]. unfold later in L1. split; [congruence|lia].
Qed.

(** The clock of the configuration store does not go back. *)
Definition forward {A} (m : SE ConfigStore A) : Prop := forall c, (cs_tick c <= cs_tick (m c).1)%nat.
Lemma keeps_on_store {A} (m : SE ConfigStore A) : forward m -> keeps_accounts (on_store m : SE Api A).
Proof. intros F s. unfold on_store, later. specialize (F (ap_store s)). by destruct (m (ap_store s)). Qed.
Lemma forward_bind {A B} (m : SE ConfigStore A) (k : A -> SE ConfigStore B) : forward m -> (forall a, forward (k a)) -> forward (se_bind _ _ _ k m).
Proof.
  intros Hm Hk c. unfold se_bind. specialize (Hm c). destruct (m c) as [c1 [a|e]]; simpl in *; [|done]. specialize (Hk a c1). lia.
Qed.
Lemma forward_lift {A} (r : result A) : forward (se_lift r).
Proof. intros c. apply le_n. Qed.
Lemma forward_ret {A} (a : A) : forward (se_ret _ _ a).
Proof. intros c. apply le_n. Qed.
Lemma forward_next : forward cs_next.
Proof. intros c. simpl. lia. Qed.
Lemma forward_get : forward se_get.
Proof. intros c. apply le_n. Qed.
Lemma forward_modify f : (forall c, cs_tick (f c) = cs_tick c) -> forward (se_modify f).
Proof. intros F c. simpl. rewrite F. apply le_n. Qed.
End AccountFrames.

#[local] Hint Resolve keeps_accounts_ret keeps_accounts_lift keeps_get keeps_raise keeps_http_error : accounts.
#[local] Hint Resolve forward_lift forward_ret forward_next forward_get : accounts.

Ltac forward_tac :=
  unfold mbind, CS_bind, mret, CS_ret in *; cbv beta zeta;
  repeat first [solve [eauto with accounts] | apply forward_bind; [|intros] | apply forward_modify; by intros | progress case_match].
Ltac keeps_tac :=
  repeat first [solve [eauto with accounts] | match goal with
    | |- forall _, _ => intros
    | |- keeps_accounts (mbind _ _) => apply keeps_accounts_bind
    | |- keeps_accounts (se_catch _ _) => apply keeps_catch
    | |- keeps_accounts (if ?b then _ else _) => destruct b
    | |- keeps_accounts (match ?x with _ => _ end) => destruct x
    | |- keeps_accounts (let _ := _ in _) => cbv zeta
    end].

Section KeepAccounts.
Context {Token : Type} `{Fernet Token} {E : ApiEnv}.
Notation Api := (Api Token).

Lemma keeps_tick : keeps_accounts (tick : SE Api nat).
Proof. apply keeps_on_store, forward_next. Qed.
#[local] Hint Resolve keeps_tick : accounts.
Lemma keeps_utcnow : keeps_accounts (utcnow : SE Api _).
Proof. unfold utcnow. keeps_tac. Qed.
Lemma keeps_flush : keeps_accounts (api_flush : SE Api _).
Proof. unfold api_flush. keeps_tac. Qed.
Lemma keeps_confirmation v w : keeps_accounts (require_confirmation v w : SE Api _).
Proof. unfold require_confirmation. keeps_tac. Qed.
Lemma forward_audit service action rt resource metadata user before after :
  forward (record_audit e_uuid4 e_flush service action rt resource metadata user before after).
Proof. unfold record_audit. forward_tac. Qed.
Lemma forward_event ty source status payload cid domain version corr ack metadata :
  forward (record_event e_uuid4 e_flush ty source status payload cid domain version corr ack metadata).
Proof. unfold record_event. forward_tac. Qed.
Lemma forward_redis_publish ch v : forward (redis_publish e_redis ch v).
Proof. unfold redis_publish. forward_tac. Qed.
Lemma forward_redis_set k v : forward (ConfigStore.redis_set e_redis k v).
Proof. unfold ConfigStore.redis_set. forward_tac. Qed.
#[local] Hint Resolve forward_audit forward_event forward_redis_publish forward_redis_set : accounts.
Lemma forward_command actor ty payload channel rt act :
  forward (publish_runtime_command e_time e_uuid4 e_parse_uuid e_flush e_redis actor ty payload channel rt act).
Proof. unfold publish_runtime_command. forward_tac. Qed.
Lemma forward_update domain payload actor :
  forward (update_domain e_clock e_time e_uuid4 e_parse_uuid e_flush e_redis e_defaults e_validate_domain e_validate_runtime domain payload actor).
Proof.
  unfold update_domain, announce, get_latest, effective_domain_config, upsert_domain, stored_runtime_config, get_latest. forward_tac.
Qed.
Lemma keeps_publish actor ty payload channel rt act : keeps_accounts (publish actor ty payload channel rt act : SE Api _).
Proof. apply keeps_on_store, forward_command. Qed.
Lemma keeps_audit action rt resource metadata before after : keeps_accounts (audit action rt resource metadata before after : SE Api _).
Proof. unfold audit. keeps_tac. apply keeps_on_store, forward_audit. Qed.
Lemma keeps_announce actor ty payload rt : keeps_accounts (announce_account actor ty payload rt : SE Api _).
Proof. apply keeps_publish. Qed.
End KeepAccounts.
#[export] Hint Resolve keeps_accounts_ret keeps_accounts_lift keeps_get keeps_raise keeps_http_error keeps_tick keeps_utcnow keeps_flush keeps_confirmation keeps_publish keeps_audit keeps_announce : accounts.

(** ** The accounts are unique *)

Section Unique.
Context {Token : Type} `{Fernet Token} {E : ApiEnv}.
Notation Api := (Api Token).
Notation AccountRow := (AccountRow Token).
Context {uuid_inj : Inj (=) (=) e_uuid4}.

Definition account_key (r : AccountRow) : string * string * string := (ac_exchange_name r, ac_account_alias r, ac_environment r).

(** One account per exchange, alias and environment; identifiers are distinct
    and were drawn before. *)
Definition accounts_ok (s : Api) : Prop :=
  NoDup (map account_key (ap_accounts s)) /\ NoDup (map ac_id (ap_accounts s)) /\
  Forall (fun r => exists t, (t < cs_tick (ap_store s))%nat /\ ac_id r = e_uuid4 t) (ap_accounts s).

Lemma accounts_ok_later s s' : ap_accounts s' = ap_accounts s -> later s s' -> accounts_ok s -> accounts_ok s'.
Proof.
  intros E1 L (K & I & F). unfold accounts_ok. rewrite E1. split_and!; [done|done|]. eapply Forall_impl; [exact F|].
  intros r (t & Ht & Hr). exists t. unfold later in L. split; [lia|done].
Qed.

Lemma later_trans (s1 s2 s3 : Api) : later s1 s2 -> later s2 s3 -> later s1 s3.
Proof. unfold later. lia. Qed.

(** A session that ends well keeps what its body establishes, one that raises
    restores the accounts. *)
Lemma accounts_session {A} (m : SE Api A) s : accounts_ok s -> wp m (fun _ s' => accounts_ok s' /\ later s s') (later s) s ->
  accounts_ok (in_session m s).1.
Proof.
  intros O W. unfold wp in W. unfold in_session. destruct (m s) as [s' [a|e]].
  - destruct W as [O' L]. unfold tick, on_store, cs_next. destruct (e_commit _) as [[]|]; cbn [fst].
    + apply (accounts_ok_later s'); [done|unfold later; simpl; lia|done].
    + apply (accounts_ok_later s); [done|unfold later in *; simpl; lia|done].
  - apply (accounts_ok_later s); [done|exact W|done].
Qed.

(** Chaining programs under the invariant. *)
Definition ok_from (s0 s : Api) : Prop := accounts_ok s /\ later s0 s.
Lemma wp_keeps {A} (m : SE Api A) s0 s Q : keeps_accounts m -> later s0 s ->
  (forall a s', ap_accounts s' = ap_accounts s -> later s s' -> Q a s') -> wp m Q (later s0) s.
Proof.
  intros K L HQ. unfold wp. specialize (K s). destruct (m s) as [s' [a|e]]; destruct K as [K1 K2]; [by apply HQ|by eapply later_trans].
Qed.

Lemma exchange_account_spec n a e s0 (s : Api) : later s0 s ->
  wp (exchange_account n a e) (fun o s' => s' = s /\ match o with
                                                     | None => (n, a, e) ∉ map account_key (ap_accounts s)
                                                     | Some r => r ∈ ap_accounts s /\ account_key r = (n, a, e) end) (later s0) s.
Proof.
  intros L. unfold exchange_account, one_or_none, wp, mbind, se_bind, se_get.
  assert (F : forall r, r ∈ List.filter (same_account n a e) (ap_accounts s) <-> r ∈ ap_accounts s /\ account_key r = (n, a, e)).
  { intros r. rewrite !list_elem_of_In, filter_In. unfold same_account, account_key. rewrite !andb_true_iff, !String.eqb_eq. naive_solver. }
  destruct (List.filter _ _) as [|r [|r' l]]; [|split; [done|apply F; by left]|done].
  split; [done|]. intros (r & Hr & Hin)%list_elem_of_In%in_map_iff. apply list_elem_of_In in Hin.
  pose proof (proj2 (F r) (conj Hin Hr)) as X. by apply not_elem_of_nil in X.
Qed.

Lemma add_account_ok row s : accounts_ok s -> account_key row ∉ map account_key (ap_accounts s) ->
  (exists t, (t < cs_tick (ap_store s))%nat /\ ac_id row = e_uuid4 t) -> ac_id row ∉ map ac_id (ap_accounts s) ->
  accounts_ok (with_accounts (fun l => l ++ [row]) s).
Proof.
  intros (K & I & F) Hk Ht Hi. unfold accounts_ok. simpl. rewrite !map_app. simpl. split_and!.
  - apply NoDup_app. split; [done|]. split; [intros x Hx ->%list_elem_of_singleton; done|apply NoDup_singleton].
  - apply NoDup_app. split; [done|]. split; [intros x Hx ->%list_elem_of_singleton; done|apply NoDup_singleton].
  - apply Forall_app. split; [done|]. by constructor.
Qed.

Lemma save_account_ok row r s : accounts_ok s -> r ∈ ap_accounts s -> ac_id row = ac_id r -> account_key row = account_key r ->
  accounts_ok (save_account row s).1 /\ row ∈ ap_accounts (save_account row s).1.
Proof.
  intros (K & I & F) Hr Hi Hk. unfold accounts_ok, save_account, se_modify. simpl.
  assert (U : forall r', r' ∈ ap_accounts s -> ac_id r' = ac_id row -> r' = r).
  { intros r' Hr' E'. apply list_elem_of_lookup in Hr as [i Hi'], Hr' as [j Hj]. rewrite Hi in E'.
    assert (i = j) as ->; [|congruence]. eapply (NoDup_lookup (map ac_id (ap_accounts s))); [done| |].
    - change (map ac_id (ap_accounts s)) with (ac_id <$> ap_accounts s). rewrite list_lookup_fmap, Hi'. reflexivity.
    - change (map ac_id (ap_accounts s)) with (ac_id <$> ap_accounts s). rewrite list_lookup_fmap, Hj. simpl. by f_equal. }
  assert (M : forall (B : Type) (f : AccountRow -> B), f row = f r ->
    map f (map (fun r' => if String.eqb (ac_id r') (ac_id row) then row else r') (ap_accounts s)) = map f (ap_accounts s)).
  { intros B f Hf. rewrite map_map. apply map_ext_in. intros r' Hr'%list_elem_of_In. destruct (String.eqb_spec (ac_id r') (ac_id row)) as [e|e]; [|done].
    by rewrite (U r' Hr' e). }
  rewrite !M by done. split_and!; [done|done| |].
  - apply Forall_forall. intros r' (r0 & <- & Hr0)%list_elem_of_In%in_map_iff. apply list_elem_of_In in Hr0. rewrite Forall_forall in F.
    destruct (String.eqb_spec (ac_id r0) (ac_id row)) as [e|e]; [rewrite <- e|]; by apply F.
  - apply list_elem_of_In, in_map_iff. exists r. rewrite Hi, String.eqb_refl. split; [done|by apply list_elem_of_In].
Qed.

Lemma filter_map_NoDup {A B} (f : A -> B) (p : A -> bool) l : NoDup (map f l) -> NoDup (map f (List.filter p l)).
Proof.
  induction l as [|x l IH]; simpl; [done|]. rewrite NoDup_cons. intros [Hx Hn]. destruct (p x); simpl; [|by apply IH].
  apply NoDup_cons. split; [|by apply IH]. intros (y & Ey & Hy)%list_elem_of_In%in_map_iff. apply filter_In in Hy as [Hy _].
  apply Hx, list_elem_of_In, in_map_iff. eauto.
Qed.

Lemma delete_account_ok row s : accounts_ok s -> accounts_ok (delete_account row s).1.
Proof.
  intros (K & I & F). unfold accounts_ok, delete_account, se_modify. simpl.
  split_and!; [by apply filter_map_NoDup|by apply filter_map_NoDup|]. apply Forall_forall. intros r [Hr _]%list_elem_of_In%filter_In. rewrite Forall_forall in F.
  by apply F, list_elem_of_In.
Qed.

(** The account holds the secrets of the request, under the active key. *)
Definition holds_secrets (row : AccountRow) (q : ExchangeAccountCreateRequest) : Prop :=
  unseal (ac_api_key row) = Ok (xq_api_key q) /\ unseal (ac_api_secret row) = Ok (xq_api_secret q) /\
  Access.decrypt cipher (ac_passphrase row) = Ok (xq_passphrase q).

Lemma unseal_encrypt t v : unseal (Access.encrypt cipher t (Some v)) = Ok v.
Proof.
  pose proof (secret_round_trip (ap_jwt e_settings) t (Some v)) as R. unfold unseal, cipher, Access.encrypt in *. by rewrite R.
Qed.

Lemma secrets_sealed row q t1 t2 t3 :
  ac_api_key row = Access.encrypt cipher t1 (Some (xq_api_key q)) -> ac_api_secret row = Access.encrypt cipher t2 (Some (xq_api_secret q)) ->
  ac_passphrase row = Access.encrypt cipher t3 (xq_passphrase q) -> holds_secrets row q.
Proof. intros E1 E2 E3. unfold holds_secrets. rewrite E1, E2, E3, !unseal_encrypt. split_and!; [done|done|]. apply secret_round_trip. Qed.

Definition found_spec (n a e : string) (s : Api) (found : option AccountRow) : Prop :=
  match found with
  | None => (n, a, e) ∉ map account_key (ap_accounts s)
  | Some r => r ∈ ap_accounts s /\ account_key r = (n, a, e)
  end.

Lemma fresh_id s t : accounts_ok s -> (cs_tick (ap_store s) <= t)%nat -> e_uuid4 t ∉ map ac_id (ap_accounts s).
Proof.
  intros (_ & _ & F) Ht (r & Er & Hr)%list_elem_of_In%in_map_iff. apply list_elem_of_In in Hr. rewrite Forall_forall in F.
  destruct (F r Hr) as (t' & Ht' & E'). rewrite Er in E'. apply (inj e_uuid4) in E'. lia.
Qed.

Lemma store_account_spec reset n q found s0 s : accounts_ok s -> later s0 s -> found_spec n (xq_account_alias q) (xq_environment q) s found ->
  wp (store_account reset n q found)
     (fun row s' => ok_from s0 s' /\ row ∈ ap_accounts s' /\ account_key row = (n, xq_account_alias q, xq_environment q) /\ holds_secrets row q) (later s0) s.
Proof.
  intros O L F. unfold store_account. apply wp_bind.
  match goal with |- wp _ ?Q _ _ => enough (W : wp (match found with None => row ← new_account n q; _ ← add_account row; mret row
      | Some r => row ← updated_account reset q r; _ ← save_account row; mret row end)
      (fun row s' => accounts_ok s' /\ later s0 s' /\ row ∈ ap_accounts s' /\ account_key row = (n, xq_account_alias q, xq_environment q) /\ holds_secrets row q) (later s0) s);
    [eapply wp_mono; [exact W| |done]|] end.
  - intros row s1 (O1 & L1 & Hin & Hk & Hs). apply wp_bind, wp_keeps; [apply keeps_flush|done|]. intros _ s2 E2 L2. apply wp_ret.
    split; [split; [by eapply accounts_ok_later|by eapply later_trans]|]. by rewrite E2.
  - destruct found as [r|].
    + destruct F as [Hr Hk]. destruct reset.
      all: unfold updated_account, sealed_secrets, seal, tick, wp, mbind, se_bind, mret, se_ret, on_store, cs_next; cbv beta iota zeta; cbn [with_store ap_store cs_tick];
        match goal with |- context [save_account ?row0 ?s0'] => set (row := row0); set (s1 := s0') end;
        (destruct (save_account_ok row r s1) as [O1 Hin]; [apply (accounts_ok_later s); [done|unfold later; simpl; lia|done]|done|done|done|]);
        change (save_account row s1) with ((save_account row s1).1, @Ok unit tt); cbv iota beta; split; [done|];
        (split; [eapply later_trans; [exact L|unfold later; simpl; lia]|]); (split; [done|]); (split; [exact Hk|]);
        by eapply secrets_sealed.
    + unfold new_account, sealed_secrets, seal, tick, wp, mbind, se_bind, mret, se_ret, on_store, cs_next; cbv beta iota zeta; cbn [with_store ap_store cs_tick].
      unfold add_account, se_modify. cbv beta iota.
      match goal with |- context [with_accounts (fun l => l ++ [?row0]) ?s0'] => set (row := row0); set (s1 := s0') end.
      assert (O1 : accounts_ok s1) by (apply (accounts_ok_later s); [done|unfold later; simpl; lia|done]).
      split; [apply add_account_ok; [done|exact F|eexists; split; [|reflexivity]; simpl; lia|]|].
      { apply (fresh_id s); [done|simpl; lia]. }
      split; [eapply later_trans; [exact L|unfold later; simpl; lia]|]. split; [apply elem_of_app; right; by left|]. split; [done|].
      by eapply secrets_sealed.
Qed.

(** *** The endpoints *)

Lemma wp_save row r s0 s Q : accounts_ok s -> later s0 s -> r ∈ ap_accounts s -> ac_id row = ac_id r -> account_key row = account_key r ->
  (forall s', ok_from s0 s' -> row ∈ ap_accounts s' -> Q tt s') -> wp (save_account row) Q (later s0) s.
Proof.
  intros O L Hr Hi Hk HQ. destruct (save_account_ok row r s O Hr Hi Hk) as [O1 H1].
  change (Q tt (save_account row s).1). apply HQ; [split; [done|exact L]|done].
Qed.

(** What remains after the accounts are in place. *)
Lemma wp_rest {A} (m : SE Api A) s0 s : keeps_accounts m -> ok_from s0 s -> wp m (fun _ s' => ok_from s0 s') (later s0) s.
Proof.
  intros K [O L]. apply wp_keeps; [done|done|]. intros _ s' E' L'. split; [by eapply accounts_ok_later|by eapply later_trans].
Qed.

Lemma later_refl (s : Api) : later s s.
Proof. apply le_n. Qed.

Lemma account_find n a e s0 s {B} (k : option AccountRow -> SE Api B) Q : ok_from s0 s ->
  (forall found, found_spec n a e s found -> wp (k found) Q (later s0) s) -> wp (exchange_account n a e ≫= k) Q (later s0) s.
Proof.
  intros [O L] Hk. apply wp_bind. eapply wp_mono; [by apply exchange_account_spec| |done]. intros found s' [-> F]. by apply Hk.
Qed.

Lemma connect_wp rq actor s : accounts_ok s ->
  wp (exchanges_connect rq actor)
     (fun response s' => ok_from s s' /\ exists row, row ∈ ap_accounts s' /\ account_key row = (nq_exchange_name rq, xq_account_alias (nq_account rq), xq_environment (nq_account rq))
        /\ holds_secrets row (nq_account rq) /\ response = PDict (account_payload row)) (later s) s.
Proof.
  intros O. unfold exchanges_connect. destruct (negb _); [apply later_refl|]. cbv zeta. apply account_find; [split; [done|apply later_refl]|]. intros found F.
  apply wp_bind. eapply wp_mono; [apply store_account_spec; [done|apply later_refl|exact F]| |done].
  intros row s1 ([O1 L1] & Hin & Hk & Hs).
  apply wp_bind, wp_keeps; [apply keeps_audit|done|]. intros _ s2 E2 L2.
  apply wp_bind, wp_keeps; [apply keeps_publish|by eapply later_trans|]. intros _ s3 E3 L3. apply wp_ret.
  assert (Ea : ap_accounts s3 = ap_accounts s1) by congruence. split.
  - split; [apply (accounts_ok_later s1); [done|by eapply later_trans|done]|]. eapply later_trans; [exact L1|]. by eapply later_trans.
  - exists row. rewrite Ea. done.
Qed.

Lemma upsert_wp q actor s : accounts_ok s -> wp (coinstore_account_upsert q actor) (fun _ s' => ok_from s s') (later s) s.
Proof.
  intros O. unfold coinstore_account_upsert. apply account_find; [split; [done|apply later_refl]|]. intros found F.
  cbv zeta. apply wp_bind. eapply wp_mono; [apply store_account_spec; [done|apply later_refl|exact F]| |done].
  intros row s1 (O1 & _). apply wp_rest; [keeps_tac|exact O1].
Qed.

Lemma account_by_id_spec id (s : Api) :
  wp (account_by_id id) (fun o s' => s' = s /\ match o with Some r => r ∈ ap_accounts s | None => True end) (fun _ => False) s.
Proof.
  unfold account_by_id, wp, mbind, se_bind, se_get, mret, se_ret. split; [done|].
  destruct (List.find _ (ap_accounts s)) as [r|] eqn:Fr; [|done]. by apply find_some in Fr as [Hr%list_elem_of_In _].
Qed.

Lemma status_wp id rq actor s : accounts_ok s -> wp (coinstore_account_status id rq actor) (fun _ s' => ok_from s s') (later s) s.
Proof.
  intros O. unfold coinstore_account_status. cbv zeta. apply wp_bind, wp_keeps; [apply keeps_confirmation|apply later_refl|]. intros _ s1 E1 L1.
  assert (O1 : accounts_ok s1) by (by eapply accounts_ok_later).
  apply wp_bind. eapply wp_mono; [apply account_by_id_spec| |done]. intros [r|] s' [-> Hr]; [|exact L1].
  destruct (negb _); [exact L1|]. apply wp_bind, wp_keeps; [apply keeps_utcnow|done|]. intros now s2 E2 L2.
  apply wp_bind. apply (wp_save _ r); [by eapply accounts_ok_later|by eapply later_trans|by rewrite E2|done|done|].
  intros s3 O3 _. apply wp_rest; [keeps_tac|exact O3].
Qed.

Lemma remove_wp rq actor s : accounts_ok s -> wp (exchanges_remove rq actor) (fun _ s' => ok_from s s') (later s) s.
Proof.
  intros O. unfold exchanges_remove. cbv zeta. apply wp_bind, wp_keeps; [apply keeps_confirmation|apply later_refl|]. intros _ s1 E1 L1.
  apply account_find; [split; [by eapply accounts_ok_later|done]|]. intros [row|] _; [|exact L1].
  apply wp_bind. change (wp (delete_account row) ?Q ?X s1) with (Q tt (delete_account row s1).1).
  apply wp_rest; [keeps_tac|]. split; [apply delete_account_ok; by eapply accounts_ok_later|exact L1].
Qed.

Lemma keeps_test_private row d : keeps_accounts (test_private row d : SE Api dict).
Proof. unfold test_private. keeps_tac. Qed.

Lemma test_accounts row s : accounts_ok s -> row ∈ ap_accounts s ->
  wp (test_exchange_connection row)
     (fun _ s' => ok_from s s' /\ exists r, r ∈ ap_accounts s' /\ ac_id r = ac_id row /\ account_key r = account_key row) (later s) s.
Proof.
  intros O Hr. unfold test_exchange_connection.
  apply wp_bind, wp_keeps; [apply keeps_utcnow|apply later_refl|]. intros now s1 E1 L1.
  apply wp_bind, wp_keeps; [apply keeps_accounts_lift|done|]. intros definition s2 E2 L2. cbv zeta.
  apply wp_bind. apply (wp_save _ row); [apply (accounts_ok_later s); [congruence|by eapply later_trans|done]|by eapply later_trans|congruence|done|done|].
  intros s3 [O3 L3] H3.
  match goal with |- wp ?m _ _ _ => apply (wp_keeps m) end; [keeps_tac; apply keeps_test_private|done|]. intros result s4 E4 L4.
  split; [split; [by eapply accounts_ok_later|by eapply later_trans]|]. eexists. rewrite E4. split; [exact H3|done].
Qed.

Lemma keeps_iter {A} (f : A -> SE Api unit) l : (forall x, keeps_accounts (f x)) -> keeps_accounts (se_iter f l).
Proof. intros Hf. induction l as [|x l IH]; cbn [se_iter]; [apply keeps_accounts_ret|]. apply keeps_accounts_bind; [apply Hf|by intros _]. Qed.
Lemma keeps_snapshot row b : keeps_accounts (persist_snapshot row b : SE Api unit).
Proof. unfold persist_snapshot. keeps_tac. intros s. split; [done|apply le_n]. Qed.
Lemma keeps_balances row : keeps_accounts (exchange_balances_payload row : SE Api dict).
Proof. unfold exchange_balances_payload. keeps_tac. Qed.
Lemma keeps_sync row : keeps_accounts (sync_exchange_balances row : SE Api dict).
Proof. unfold sync_exchange_balances. keeps_tac; [apply keeps_iter, keeps_snapshot|apply keeps_balances]. Qed.
Lemma keeps_account n a e : keeps_accounts (exchange_account n a e : SE Api _).
Proof. unfold exchange_account, one_or_none. keeps_tac. Qed.
Lemma keeps_exchange_sync n q actor : keeps_accounts (exchange_balance_sync n q actor : SE Api _).
Proof. unfold exchange_balance_sync. keeps_tac; [apply keeps_account|apply keeps_sync]. Qed.
Lemma keeps_coinstore_sync rq actor : keeps_accounts (coinstore_balance_sync rq actor : SE Api _).
Proof. unfold coinstore_balance_sync. keeps_tac; apply keeps_sync. Qed.
End Unique.

(** C20: connecting an account stores it once: the row of that exchange, alias
    and environment is unique, its ciphertexts decrypt to the credentials of
    the request, the response is its payload, and the uniqueness of accounts
    and identifiers is kept. *)
Theorem connect_stores_account {Token} {F : Fernet Token} {X : ApiEnv} rq actor (s s' : Api Token) response :
  Inj (=) (=) e_uuid4 -> accounts_ok s -> in_session (exchanges_connect rq actor) s = (s', Ok response) ->
  accounts_ok s' /\
  exists row, row ∈ ap_accounts s' /\ account_key row = (nq_exchange_name rq, xq_account_alias (nq_account rq), xq_environment (nq_account rq)) /\
    (forall r, r ∈ ap_accounts s' -> account_key r = account_key row -> r = row) /\
    holds_secrets row (nq_account rq) /\ response = PDict (account_payload row).
Proof.
  intros I O R. pose proof (connect_wp (uuid_inj := I) rq actor s O) as W. unfold wp in W. unfold in_session in R.
  destruct (exchanges_connect rq actor s) as [s1 [a|e]]; [|done]. destruct W as [[O1 L1] (row & Hin & Hk & Hs & Ha)].
  unfold tick, on_store, cs_next in R. destruct (e_commit _); [|done]. injection R as <- <-.
  split; [apply (accounts_ok_later s1); [done|unfold later; simpl; lia|done]|]. exists row. split; [done|]. split; [done|]. split; [|done].
  intros r Hr Er. destruct O1 as (K & _ & _). apply list_elem_of_lookup in Hin as [i Hi]. cbn [with_store ap_accounts] in Hr. apply list_elem_of_lookup in Hr as [j Hj].
  assert (i = j) as ->; [|congruence]. change (map account_key (ap_accounts s1)) with (account_key <$> ap_accounts s1) in K.
  eapply (NoDup_lookup (account_key <$> ap_accounts s1)); [done|rewrite list_lookup_fmap, Hi; reflexivity|]. rewrite list_lookup_fmap, Hj. simpl. by f_equal.
Qed.

(** ** What a connection test records *)

Section Tests.
Context {Token : Type} `{Fernet Token} {E : ApiEnv}.
Notation Api := (Api Token).
Notation AccountRow := (AccountRow Token).

Definition failed_statuses : list string := ["network_error"; "invalid_credentials"; "rest_failed"; "private_ws_failed"].

(** A result names its verdict, and the verdict "connected" is justified. *)
Definition justified (result : dict) : Prop :=
  (pget "status" result = PStr "connected" /\ pget "rest_status" result = PStr "connected" /\ pget "websocket_status" result = PStr "connected" /\
   (pget "private_ws_status" result = PStr "connected" \/ pget "private_ws_status" result = PStr "not_supported")) \/
  exists status error, pget "status" result = PStr status /\ status ∈ failed_statuses /\ pget "error" result = PStr error /\ error <> "".

(** Look a key up through the updates of a result. *)
Ltac pget_simpl := unfold fail_with, dict_merge, pget; cbn [foldl fst snd]; repeat (rewrite od_get_set_eq || rewrite od_get_set_ne by discriminate).

Lemma failed_justified result entries status error :
  pget "status" (fail_with result entries) = PStr status -> status ∈ failed_statuses -> pget "error" (fail_with result entries) = PStr error -> error <> "" ->
  justified (fail_with result entries).
Proof. intros. right. by exists status, error. Qed.

Ltac failed := eapply failed_justified; [pget_simpl; reflexivity|apply (bool_decide_unpack _); vm_compute; exact I|pget_simpl; reflexivity|discriminate].

Lemma test_private_justified row result s :
  pget "rest_status" result = PStr "connected" -> pget "websocket_status" result = PStr "connected" ->
  wp (test_private row result) (fun result' (_ : Api) => justified result') (fun _ => True) s.
Proof.
  intros Hr Hw. unfold test_private. apply wp_bind, wp_lift; [intros api_key _|done]. apply wp_bind, wp_lift; [intros api_secret _|done].
  destruct (_ || _); [apply wp_ret; failed|]. apply wp_bind, wp_lift; [intros passphrase _|done]. apply wp_bind. unfold wp at 1, tick, on_store, cs_next.
  destruct (account_balances _ _) as [balances|exc].
  - apply wp_bind. unfold wp at 1, tick, on_store, cs_next. destruct (test_connection _ _ _) as [reply|exc] eqn:T.
    + apply wp_ret. left.
      assert (C : truthy (pget "connected" reply) = true).
      { unfold test_connection in T. destruct (e_private_ws _) as [e0|frames ending]; [done|].
        apply result_bind_ok in T as (expires & _ & (signature & _ & ([auth rest] & _ & ([subscribed ?] & _ & (r1 & _ & (r2 & _ & T)%result_bind_ok)%result_bind_ok)%result_bind_ok)%result_bind_ok)%result_bind_ok).
        by injection T as <-. }
      rewrite C. unfold pget in *. cbn [dict_merge foldl fst snd]. split_and!; [|rewrite <- Hr|rewrite <- Hw|left]; pget_simpl; reflexivity.
    + apply wp_ret. failed.
  - apply wp_ret. destruct (_ || _); failed.
Qed.

Lemma test_justified row s : wp (test_exchange_connection row) (fun result (_ : Api) => justified result) (fun _ => True) s.
Proof.
  unfold test_exchange_connection. apply wp_bind, wp_utcnow. apply wp_bind, wp_lift; [intros definition _|done]. cbv zeta.
  set (result0 := [("exchange_name", _); _; _; _; _; _; _; _; _]).
  assert (P : pget "private_ws_status" result0 = PStr "not_supported") by reflexivity. clearbody result0.
  apply wp_bind. unfold wp at 1, save_account, se_modify. apply wp_bind. unfold wp at 1, tick, on_store, cs_next.
  destruct (rest_health _ _ _) as [b|exc]; [|apply wp_ret; failed]. apply wp_bind. unfold wp at 1, tick, on_store, cs_next.
  destruct (e_ws _ _) as [[]|exc]; [|apply wp_ret; failed]. destruct (String.eqb _ _).
  - apply test_private_justified; pget_simpl; reflexivity.
  - apply wp_ret. left. split_and!; [..|right; rewrite <- P]; pget_simpl; reflexivity.
Qed.

(** The row after a test: connected with every flag set and no error, or
    failed with an error. *)
Definition consistent_row (row : AccountRow) : Prop :=
  (ac_status row = "connected" /\ ac_rest row = true /\ ac_websocket row = true /\ ac_private_ws row = true /\ ac_error row = None /\ ac_success_at row = ac_tested_at row) \/
  (ac_status row ∈ failed_statuses /\ (exists e, ac_error row = Some e /\ e <> "") /\ ac_failure_at row = ac_tested_at row).

Lemma justified_row row result now : justified result -> consistent_row (apply_exchange_test_result row result now).
Proof.
  unfold apply_exchange_test_result. intros [(S1 & S2 & S3 & S4)|(status & error & S1 & S2 & S3 & S4)].
  - rewrite S1, S2, S3. left. cbn. destruct S4 as [->| ->]; split_and!; reflexivity.
  - rewrite S1, S3.
    assert (status <> "" /\ status <> "connected") as [N1 N2].
    { unfold failed_statuses in S2. rewrite !elem_of_cons in S2. destruct S2 as [->|[->|[->|[->|S2]]]]; [done..|]. by apply not_elem_of_nil in S2. }
    assert (P : forall t d, t <> "" -> por (PStr t) d = PStr t).
    { intros t d Ht. unfold por, truthy. by destruct (String.eqb_spec t ""). }
    rewrite !P by done. cbn [py_str]. destruct (String.eqb_spec status "connected") as [|_]; [done|].
    right. split; [exact S2|]. split; [|done]. by exists error.
Qed.
End Tests.

Lemma wp_and {S A} (m : SE S A) (Q Q' : A -> S -> Prop) (X X' : S -> Prop) s :
  wp m Q X s -> wp m Q' X' s -> wp m (fun a s' => Q a s' /\ Q' a s') X s.
Proof. unfold wp. by destruct (m s) as [s' [a|e]]. Qed.

Lemma test_wp {Token} `{Fernet Token} {E : ApiEnv} q (s : Api Token) : accounts_ok s ->
  wp (exchanges_test q)
     (fun _ s' => ok_from s s' /\ exists row, row ∈ ap_accounts s' /\ account_key row = (eq_exchange_name q, eq_account_alias q, eq_environment q) /\ consistent_row row)
     (later s) s.
Proof.
  intros O. unfold exchanges_test. apply account_find; [split; [done|apply later_refl]|]. intros [row|] F; [|apply later_refl].
  destruct F as [Hr Hk]. apply wp_bind. eapply wp_mono; [eapply wp_and; [by apply test_accounts|apply test_justified]| |done].
  intros result s4 [[[O4 L4] (r & Hin & Hid & Hkey)] J].
  apply wp_bind, wp_keeps; [apply keeps_utcnow|done|]. intros now s5 E5 L5. cbv zeta.
  set (row' := apply_exchange_test_result row result now).
  assert (ac_id row' = ac_id row /\ account_key row' = account_key row) as [I1 I2] by (unfold row', apply_exchange_test_result; by destruct (String.eqb _ _)).
  apply wp_bind. apply (wp_save _ r); [by eapply accounts_ok_later|by eapply later_trans|by rewrite E5|congruence|congruence|].
  intros s6 [O6 L6] H6. apply wp_bind, wp_keeps; [apply keeps_flush|done|]. intros _ s7 E7 L7. apply wp_ret.
  split; [split; [by eapply accounts_ok_later|by eapply later_trans]|]. exists row'. rewrite E7. split; [done|]. split; [congruence|by apply justified_row].
Qed.

(** A connection test that returns leaves the account connected, with
    every connection flag set and no error, or failed, with one of the four
    failure statuses, an error message and the time of the failure. *)
Theorem connection_test_recorded {Token} {F : Fernet Token} {X : ApiEnv} q (s s' : Api Token) response :
  accounts_ok s -> in_session (exchanges_test q) s = (s', Ok response) ->
  exists row, row ∈ ap_accounts s' /\ account_key row = (eq_exchange_name q, eq_account_alias q, eq_environment q) /\ consistent_row row.
Proof.
  intros O R. pose proof (test_wp q s O) as W. unfold wp in W. unfold in_session in R.
  destruct (exchanges_test q s) as [s1 [a|e]]; [|done]. destruct W as [_ W].
  unfold tick, on_store, cs_next in R. destruct (e_commit _); [|done]. by injection R as <- <-.
Qed.

(** A venue whose REST endpoint does not answer is recorded as a network error
    with its private websocket connected, and an exchange whose only account
    failed that way is shown as disconnected, not in error. *)
Lemma unreachable_account_shown {Token} {F : Fernet Token} {X : ApiEnv} (row : AccountRow Token) s s' result now :
  (forall t definition, is_ok (rest_health t definition None) = false) ->
  test_exchange_connection row s = (s', Ok result) ->
  let row' := apply_exchange_test_result row result now in
  ac_status row' = "network_error" /\ ac_rest row' = false /\ ac_private_ws row' = true /\ aggregate_exchange_status [row'] = "disconnected".
Proof.
  intros Hh R.
  refine (wp_elim _ (fun result _ => let row' := apply_exchange_test_result row result now in
    ac_status row' = "network_error" /\ ac_rest row' = false /\ ac_private_ws row' = true /\ aggregate_exchange_status [row'] = "disconnected") (fun _ => True) s s' result _ R).
  unfold test_exchange_connection. apply wp_bind, wp_utcnow. apply wp_bind, wp_lift; [intros definition _|done]. cbv zeta.
  apply wp_bind. unfold wp at 1, save_account, se_modify. apply wp_bind. unfold wp at 1, tick, on_store, cs_next.
  specialize (Hh (cs_tick (with_store bump s).(ap_store)) definition). cbn in Hh |- *.
  destruct (rest_health _ _ _) as [b|exc]; [done|]. split_and!; reflexivity.
Qed.

(** Balance synchronisation always raises: the client parses no balance, and
    an empty list of balances is refused. *)
Lemma sync_never_succeeds {Token} {F : Fernet Token} {X : ApiEnv} (row : AccountRow Token) s : is_ok (sync_exchange_balances row s).2 = false.
Proof.
  unfold sync_exchange_balances. destruct (negb _); [done|]. unfold mbind, se_bind, se_lift. destruct (account_credentials row) as [c|]; [|done].
  unfold tick, on_store, cs_next. destruct (account_balances _ c) as [bs|] eqn:B; [|done]. unfold account_balances in B.
  destruct (sync_balances _ _ _ _ _) as [n r] eqn:S0. simpl in B. subst r. apply sync_balances_empty in S0 as ->. done.
Qed.

Lemma demo_api_accounts {X : ApiEnv} : accounts_ok demo_api.
Proof. split_and!; [constructor|constructor|constructor]. Qed.

Definition demo_connect : ExchangeConnectRequest :=
  mkConnect "coinstore" (mkCreate "primary" "production" "key-1234567890" "secret-1234567890" None ["trade"] true).

Lemma connect_stores_account_witness :
  let X := accepting in
  exists s' response row, in_session (exchanges_connect demo_connect [("sub", PStr "op")]) demo_api = (s', Ok response) /\
    row ∈ ap_accounts s' /\ unseal (ac_api_key row) = Ok "key-1234567890".
Proof.
  intros X. destruct (in_session (exchanges_connect demo_connect [("sub", PStr "op")]) demo_api) as [s' [response|e]] eqn:R; [|exfalso; vm_compute in R; discriminate].
  destruct (connect_stores_account (X := accepting) demo_connect [("sub", PStr "op")] demo_api s' response demo_token_inj demo_api_accounts R) as (_ & row & H1 & _ & _ & (H2 & _) & _).
  exists s', response, row. split; [reflexivity|]. split; [exact H1|exact H2].
Defined.

(** The account of [demo_connect], tested against a venue whose private socket
    does not answer. *)
Lemma connection_test_recorded_witness :
  let X := accepting in
  let s := (in_session (exchanges_connect demo_connect [("sub", PStr "op")]) demo_api).1 in
  exists s' response row, in_session (exchanges_test (mkTestRequest "coinstore" "primary" "production")) s = (s', Ok response) /\ row ∈ ap_accounts s' /\ consistent_row row.
Proof.
  intros X s. assert (O : accounts_ok s).
  { apply accounts_session; [apply demo_api_accounts|]. eapply wp_mono; [apply connect_wp, demo_api_accounts|by intros ? ? []|done]. }
  destruct (in_session (exchanges_test (mkTestRequest "coinstore" "primary" "production")) s) as [s' [response|e]] eqn:R; [|exfalso; vm_compute in R; discriminate].
  destruct (connection_test_recorded (mkTestRequest "coinstore" "primary" "production") s s' response O R) as (row & H1 & _ & H2).
  exists s', response, row. split; [reflexivity|]. split; [exact H1|exact H2].
Defined.
