(* ===== verification/ApiStream.v ===== *)
(** * ApiStream: the operations websocket ([operations_stream] and
    [_send_operation_events] of [api/routes.py])

    A connection is authenticated, accepted, and then sends what is new every
    two seconds. [send_fails n] is the failure of the n-th message of the
    connection (the client disconnected). Between two turns the engines change
    the tables: a turn starts from a state the environment gives. *)

From Stdlib Require Import Ascii.
From S2P Require Import Prelude Rounding PyFloat PyDecimal PyData PyValue Models Venue Signing Config Daemon ConfigStore Access Json RedisStore Environment Client PublicExchange ApiBase ApiReads.

#[local] Open Scope string_scope.
#[local] Open Scope list_scope.

(** ** Authentication *)

(** What the handler does with the socket. *)
Inductive Admission : Type :=
  | Closed (code : Z)
  | Accepted (actor : dict).

Record WsRequest : Type := mkWsRequest {
  wq_path : string; wq_token : option string; wq_upgrade : option string; wq_connection : option string; wq_key : option string }.

Section Admission.
Context (jwt_decode : string -> string -> string -> result dict) (st : JwtSettings) (now : datetime).
#[local] Instance A_ret' : MRet Access.A := se_ret _.
#[local] Instance A_bind' : MBind Access.A := se_bind _.

Definition str_field (o : option string) : pyval := match o with Some s => PStr s | None => PNone end.

Definition token_fields (token : string) : dict :=
  [("token_length", PInt (Z.of_nat (String.length token))); ("token_prefix", PStr (String.substring 0 12 token));
   ("token_suffix", PStr (str_last 12 token)); ("token_segments", PInt (Z.of_nat (length (str_split "." token))))].

Definition stream_roles : list string := ["platform_admin"; "risk_manager"; "incident_responder"; "read_only_analyst"].
Definition stream_permissions : list string := ["operations:read"; "config:read"; "risk:read"].

Definition refused (q : WsRequest) (reason : string) (extra : dict) : Access.A Admission :=
  _ ← log "websocket_auth_failed" ([("path", PStr (wq_path q)); ("reason", PStr reason)] ++ extra); mret (Closed 1008).

Definition operations_stream (q : WsRequest) : Access.A Admission :=
  let token := default "" (wq_token q) in
  _ ← log "websocket_connection_attempt"
        [("path", PStr (wq_path q)); ("route_registered", PBool true); ("upgrade_header", str_field (wq_upgrade q)); ("connection_header", str_field (wq_connection q));
         ("sec_websocket_key_present", PBool (match wq_key q with Some _ => true | None => false end));
         ("token_present", PBool (match wq_token q with Some _ => true | None => false end)); ("token_length", PInt (Z.of_nat (String.length token)));
         ("token_segments", PInt (if String.eqb token "" then 0 else Z.of_nat (length (str_split "." token))));
         ("token_prefix", PStr (String.substring 0 12 token)); ("token_suffix", PStr (str_last 12 token))];
  if String.eqb token "" then refused q "missing_token" [] else
  decision ← se_catch
    (actor ← decode_token jwt_decode st now token None None;
     roles ← se_lift (py_set (pget_default "roles" (PList []) actor));
     permissions ← se_lift (py_set (pget_default "permissions" (PList []) actor));
     if negb (existsb (text_in roles) stream_roles) && negb (existsb (text_in permissions) stream_permissions)
     then refused q "insufficient_permissions" (token_fields token)
     else
       _ ← log "websocket_auth_success" ([("path", PStr (wq_path q))] ++ token_fields token ++ [("roles", PList roles); ("permissions", PList permissions)]);
       mret (Accepted actor))
    (fun exc => if exn_isinstance (ex_class exc) HTTPException then refused q "decode_failed" (token_fields token) else se_lift (Err exc));
  mret decision.
End Admission.

(** ** One turn *)

Section Stream.
Context {Token : Type} `{Fernet Token} {E : ApiEnv}.
Context (send_fails : nat -> bool).
Notation Api := (Api Token).

(** [last_seen], and the messages sent: type and payload. *)
Record Stream : Type := mkStream {
  sm_api : Api; sm_orders : list string; sm_trades : list string; sm_risks : list string;
  sm_approvals : Z; sm_rejections : Z; sm_runs : Z; sm_reconnects : Z; sm_sent : list (string * pyval) }.

Definition new_stream (s : Api) : Stream := mkStream s [] [] [] 0 0 0 0 [].

Definition set_api (a : Api) (s : Stream) : Stream :=
  mkStream a (sm_orders s) (sm_trades s) (sm_risks s) (sm_approvals s) (sm_rejections s) (sm_runs s) (sm_reconnects s) (sm_sent s).
Definition know_order (id : string) (s : Stream) : Stream :=
  mkStream (sm_api s) (sm_orders s ++ [id]) (sm_trades s) (sm_risks s) (sm_approvals s) (sm_rejections s) (sm_runs s) (sm_reconnects s) (sm_sent s).
Definition know_trade (id : string) (s : Stream) : Stream :=
  mkStream (sm_api s) (sm_orders s) (sm_trades s ++ [id]) (sm_risks s) (sm_approvals s) (sm_rejections s) (sm_runs s) (sm_reconnects s) (sm_sent s).
Definition know_risk (id : string) (s : Stream) : Stream :=
  mkStream (sm_api s) (sm_orders s) (sm_trades s) (sm_risks s ++ [id]) (sm_approvals s) (sm_rejections s) (sm_runs s) (sm_reconnects s) (sm_sent s).
Definition set_approvals (n : Z) (s : Stream) : Stream :=
  mkStream (sm_api s) (sm_orders s) (sm_trades s) (sm_risks s) n (sm_rejections s) (sm_runs s) (sm_reconnects s) (sm_sent s).
Definition set_rejections (n : Z) (s : Stream) : Stream :=
  mkStream (sm_api s) (sm_orders s) (sm_trades s) (sm_risks s) (sm_approvals s) n (sm_runs s) (sm_reconnects s) (sm_sent s).
Definition set_runs (n : Z) (s : Stream) : Stream :=
  mkStream (sm_api s) (sm_orders s) (sm_trades s) (sm_risks s) (sm_approvals s) (sm_rejections s) n (sm_reconnects s) (sm_sent s).
Definition set_reconnects (n : Z) (s : Stream) : Stream :=
  mkStream (sm_api s) (sm_orders s) (sm_trades s) (sm_risks s) (sm_approvals s) (sm_rejections s) (sm_runs s) n (sm_sent s).
Definition add_sent (m : string * pyval) (s : Stream) : Stream :=
  mkStream (sm_api s) (sm_orders s) (sm_trades s) (sm_risks s) (sm_approvals s) (sm_rejections s) (sm_runs s) (sm_reconnects s) (sm_sent s ++ [m]).

Definition on_api {A} (m : SE Api A) : SE Stream A := fun s => let '(a, r) := m (sm_api s) in (set_api a s, r).

(** [websocket.send_text(json.dumps({"type": ..., "payload": ...}, default=str))] *)
Definition send (type : string) (payload : pyval) : SE Stream unit :=
  fun s => if send_fails (length (sm_sent s)) then (s, raise WebSocketDisconnect "") else (add_sent (type, payload) s, Ok tt).

(** A counter that has grown is announced and remembered. *)
Definition announce_counter (type : string) (value : Z) (last : Stream -> Z) (set : Z -> Stream -> Stream) (payload : SE Stream pyval) : SE Stream unit :=
  s ← se_get;
  if (last s <? value)%Z then p ← payload; _ ← send type p; se_modify (set value) else mret tt.

Definition count_payload (n : Z) : SE Stream pyval := mret (PDict [("count", PInt n)]).

(** New rows, one message each, then the whole list. *)
Definition announce_rows {A} (id : A -> string) (payload : A -> dict) (known : Stream -> list string) (know : string -> Stream -> Stream)
    (single many : string) (rows : list A) : SE Stream unit :=
  s ← se_get;
  match List.filter (fun r => negb (bool_decide (id r ∈ known s))) rows with
  | [] => mret tt
  | fresh =>
      _ ← se_iter (fun r => _ ← send single (PDict (payload r)); se_modify (know (id r))) fresh;
      send many (items (map payload rows))
  end.

(** The first unseen risk event sends the whole list, and is remembered. *)
Definition announce_risks (rows : list RiskRow) : SE Stream unit :=
  s ← se_get;
  match List.find (fun r => negb (bool_decide (rr_id r ∈ sm_risks s))) rows with
  | None => mret tt
  | Some r => _ ← send "risk_events" (items (map risk_payload rows)); se_modify (know_risk (rr_id r))
  end.

Definition send_operation_events : SE Stream unit :=
  s0 ← se_get;
  let pairs := ap_pairs (sm_api s0) in
  engines ← on_api operations_engines;
  _ ← send "engine_health" (PDict engines);
  connectivity ← on_api operations_exchanges;
  _ ← send "exchange_connectivity" (PDict connectivity);
  maker_health ← on_api (get_document "engine:health:market-maker-engine");
  data_health ← on_api (get_document "engine:health:market-data-engine");
  counters ← se_lift (counters_of maker_health);
  data_counters ← se_lift (counters_of data_health);
  approvals ← se_lift (int_counter (pget "risk.approvals" counters));
  _ ← announce_counter "risk_approved" approvals sm_approvals set_approvals (count_payload approvals);
  rejections ← se_lift (int_counter (pget "risk.rejections" counters));
  _ ← announce_counter "risk_rejected" rejections sm_rejections set_rejections (count_payload rejections);
  runs ← se_lift (int_counter (pget "reconciliation.runs" counters));
  _ ← announce_counter "reconciliation_completed" runs sm_runs set_runs (d ← on_api operations_reconciliation; mret (PDict d));
  reconnects ← se_lift (int_counter (pget "market_data.reconnect_count" data_counters));
  _ ← announce_counter "websocket_reconnected" reconnects sm_reconnects set_reconnects (count_payload reconnects);
  s1 ← se_get;
  _ ← announce_rows ao_id (order_payload pairs) sm_orders know_order "order_created" "orders" (newest ao_created_at 50 (ap_orders (sm_api s1)));
  s2 ← se_get;
  _ ← announce_rows at_id (trade_payload pairs) sm_trades know_trade "order_filled" "trades" (newest at_traded_at 50 (ap_trades (sm_api s2)));
  s3 ← se_get;
  _ ← announce_risks (newest (fun r => e_stamp (rr_id r)) 50 (ap_risks (sm_api s3)));
  positions ← on_api operations_positions;
  inventory ← on_api (operations_inventory 100);
  pnl ← on_api operations_pnl;
  _ ← send "positions" positions;
  _ ← send "inventory" inventory;
  send "pnl" pnl.

(** [while True: async with database.session(...) as session: ...; sleep(2)]
    over the states the environment presents; [WebSocketDisconnect] ends the
    handler. *)
Definition stream_turn (world : Api -> Api) : SE Stream unit :=
  _ ← se_modify (fun s => set_api (world (sm_api s)) s);
  _ ← send_operation_events;
  on_api (t ← tick; se_lift (e_commit t)).
Definition stream_loop (worlds : list (Api -> Api)) : SE Stream unit :=
  se_catch (se_iter stream_turn worlds)
    (fun exc => if exn_isinstance (ex_class exc) WebSocketDisconnect then mret tt else se_lift (Err exc)).
End Stream.

(** ** Announcements *)

Section Announcements.
Context {Token : Type} `{Fernet Token} {E : ApiEnv}.
Context (send_fails : nat -> bool).
Notation Api := (Api Token).
Notation Stream := (Stream (Token := Token)).

Definition message_id (m : string * pyval) : pyval := match m.2 with PDict d => pget "id" d | _ => PNone end.
(** The identifiers announced under a type, in order. *)
Definition announced (type : string) (s : Stream) : list pyval := map message_id (List.filter (fun m => String.eqb m.1 type) (sm_sent s)).

Lemma announced_add type m s : announced type (add_sent m s) = announced type s ++ (if String.eqb m.1 type then [message_id m] else []).
Proof. unfold announced. simpl. rewrite List.filter_app, map_app. simpl. by destruct (String.eqb _ _). Qed.

Section Rows.
Context {A : Type} (id : A -> string) (payload : A -> dict) (known : Stream -> list string) (know : string -> Stream -> Stream) (single many : string).
Hypothesis payload_id : forall r, pget "id" (payload r) = PStr (id r).
Hypothesis known_know : forall i s, known (know i s) = known s ++ [i].
Hypothesis sent_know : forall i s, sm_sent (know i s) = sm_sent s.
Hypothesis known_sent : forall m s, known (add_sent m s) = known s.
Hypothesis many_single : many <> single.

(** What is known is what has been announced, once each. *)
Definition announced_once (s : Stream) : Prop := announced single s = map PStr (known s) /\ NoDup (known s).

Lemma announce_one r s : announced_once s -> id r ∉ known s ->
  wp (_ ← send send_fails single (PDict (payload r)); se_modify (know (id r))) (fun _ s' => announced_once s' /\ known s' = known s ++ [id r]) announced_once s.
Proof.
  intros [A1 N] Hr. unfold wp, mbind, se_bind, send. destruct (send_fails _); [done|]. simpl.
  rewrite known_know, known_sent. split; [|done]. unfold announced_once. rewrite known_know, known_sent. split.
  - unfold announced at 1. rewrite sent_know. change (map message_id _) with (announced single (add_sent (single, PDict (payload r)) s)).
    rewrite announced_add, A1, map_app. cbn [fst]. rewrite String.eqb_refl. unfold message_id. cbn [snd]. by rewrite payload_id.
  - apply NoDup_app. split; [done|]. split; [intros x Hx ->%list_elem_of_singleton; done|apply NoDup_singleton].
Qed.

Lemma announce_each rows s : announced_once s -> NoDup (map id rows) -> (forall r, r ∈ rows -> id r ∉ known s) ->
  wp (se_iter (fun r => _ ← send send_fails single (PDict (payload r)); se_modify (know (id r))) rows)
     (fun _ s' => announced_once s' /\ known s' = known s ++ map id rows) announced_once s.
Proof.
  revert s. induction rows as [|r rows IH]; intros s J N F; cbn [se_iter].
  - apply wp_ret. simpl. by rewrite app_nil_r.
  - cbn [map] in N. apply NoDup_cons in N as [N1 N2]. apply wp_bind. eapply wp_mono; [apply announce_one; [done|apply F; by left]| |done].
    intros [] s1 [J1 K1]. eapply wp_mono; [apply IH; [done|done|]| |done].
    + intros r' Hr'. rewrite K1, elem_of_app, list_elem_of_singleton. intros [Hk|Hk]; [by eapply F; [right|]|].
      apply N1. rewrite <- Hk. by apply list_elem_of_In, in_map, list_elem_of_In.
    + intros [] s2 [J2 K2]. split; [done|]. rewrite K2, K1, <- app_assoc. done.
Qed.

Lemma announce_rows_spec rows s : announced_once s -> NoDup (map id rows) ->
  wp (announce_rows send_fails id payload known know single many rows)
     (fun _ s' => announced_once s' /\ forall r, r ∈ rows -> id r ∈ known s') announced_once s.
Proof.
  intros J N. unfold announce_rows. apply wp_bind, wp_get.
  assert (K : forall r, r ∈ rows -> id r ∈ known s \/ r ∈ List.filter (fun r => negb (bool_decide (id r ∈ known s))) rows).
  { intros r Hr. destruct (decide (id r ∈ known s)) as [D|D]; [by left|right]. apply list_elem_of_In, filter_In.
    split; [by apply list_elem_of_In|by rewrite bool_decide_false]. }
  assert (N' : NoDup (map id (List.filter (fun r => negb (bool_decide (id r ∈ known s))) rows))).
  { clear K J. induction rows as [|r rows IH]; [done|]. cbn [map] in N. apply NoDup_cons in N as [N1 N2]. cbn [List.filter].
    destruct (negb _); [|by apply IH]. cbn [map]. apply NoDup_cons. split; [|by apply IH].
    intros (y & Ey & Hy)%list_elem_of_In%in_map_iff. apply filter_In in Hy as [Hy _]. apply N1, list_elem_of_In, in_map_iff. eauto. }
  assert (F' : forall r, r ∈ List.filter (fun r => negb (bool_decide (id r ∈ known s))) rows -> id r ∉ known s).
  { intros r [_ Hn]%list_elem_of_In%filter_In. by apply negb_true_iff, bool_decide_eq_false in Hn. }
  destruct (List.filter _ rows) as [|r0 fresh] eqn:Ef.
  - apply wp_ret. split; [done|]. intros r Hr. destruct (K r Hr) as [?|?%not_elem_of_nil]; done.
  - apply wp_bind. eapply wp_mono; [by apply announce_each| |done]. intros [] s1 [J1 K1]. unfold wp, send. destruct (send_fails _); [done|].
    split.
    + unfold announced_once. rewrite announced_add, known_sent. simpl. destruct (String.eqb_spec many single); [done|]. by rewrite app_nil_r.
    + intros r Hr. rewrite known_sent, K1. apply elem_of_app. destruct (K r Hr) as [?|?]; [by left|right]. by apply list_elem_of_In, in_map, list_elem_of_In.
Qed.
End Rows.

(** The rest of a turn announces no order and no trade and changes no table. *)
Definition order_view (s : Stream) := (announced "order_created" s, sm_orders s).
Definition trade_view (s : Stream) := (announced "order_filled" s, sm_trades s).
Definition table_view (s : Stream) := api_data (sm_api s).
Definition quiet_view (s : Stream) := (order_view s, trade_view s, table_view s).
Definition quiet {A} (m : SE Stream A) : Prop := frame quiet_view m.

Lemma quiet_bind {A B} (m : SE Stream A) (k : A -> SE Stream B) : quiet m -> (forall a, quiet (k a)) -> quiet (m ≫= k).
Proof. apply frame_bind. Qed.
Lemma quiet_ret {A} (a : A) : quiet (mret a : SE Stream A).
Proof. apply frame_ret. Qed.
Lemma quiet_lift {A} (r : result A) : quiet (se_lift r : SE Stream A).
Proof. done. Qed.
Lemma quiet_get : quiet (se_get : SE Stream Stream).
Proof. done. Qed.
Lemma quiet_api {A} (m : SE Api A) : reads m -> quiet (on_api m).
Proof.
  intros R s. unfold on_api. destruct (R (sm_api s)) as [R1 _]. destruct (m (sm_api s)) as [a r]. simpl in R1. unfold quiet_view, table_view. simpl. by rewrite R1.
Qed.
Lemma quiet_send type payload : type <> "order_created" -> type <> "order_filled" -> quiet (send send_fails type payload).
Proof.
  intros N1 N2 s. unfold send. destruct (send_fails _); [done|]. unfold quiet_view, order_view, trade_view, table_view. simpl. rewrite !announced_add. simpl.
  destruct (String.eqb_spec type "order_created"); [done|]. destruct (String.eqb_spec type "order_filled"); [done|]. by rewrite !app_nil_r.
Qed.
Lemma quiet_counter type n last set payload : type <> "order_created" -> type <> "order_filled" -> quiet payload ->
  (forall z s, quiet_view (set z s) = quiet_view s) -> quiet (announce_counter send_fails type n last set payload).
Proof.
  intros N1 N2 Hp Hs. unfold announce_counter. apply quiet_bind; [apply quiet_get|]. intros s. destruct (_ <? _)%Z; [|apply quiet_ret].
  apply quiet_bind; [done|]. intros p. apply quiet_bind; [by apply quiet_send|]. intros _. intros s'. apply Hs.
Qed.
Lemma quiet_risks rows : quiet (announce_risks send_fails rows).
Proof.
  unfold announce_risks. apply quiet_bind; [apply quiet_get|]. intros s. destruct (List.find _ _); [|apply quiet_ret].
  apply quiet_bind; [by apply quiet_send|]. by intros _ s'.
Qed.

(** Rows of one kind do not disturb the other. *)
Lemma rows_frame {A V} (v : Stream -> V) (id : A -> string) payload known know single many rows :
  (forall i s, v (know i s) = v s) -> (forall p s, v (add_sent (single, p) s) = v s) -> (forall p s, v (add_sent (many, p) s) = v s) ->
  frame v (announce_rows send_fails id payload known know single many rows).
Proof.
  intros Hk Hs Hm. assert (S0 : forall t p, (forall p s, v (add_sent (t, p) s) = v s) -> frame v (send send_fails t p)).
  { intros t p Ht s. unfold send. destruct (send_fails _); [done|apply Ht]. }
  unfold announce_rows. apply frame_bind; [done|]. intros s. destruct (List.filter _ _) as [|r l]; [done|].
  apply frame_bind; [|intros _; by apply S0]. apply frame_iter. intros x. apply frame_bind; [by apply S0|]. intros _ s'. apply Hk.
Qed.

Lemma newest_NoDup {A} (key : A -> datetime) (id : A -> string) n l : NoDup (map id l) -> NoDup (map id (newest key n l)).
Proof.
  intros N. assert (P : map id (sorted (fun a b => (key b <=? key a)%Z) l) ≡ₚ map id l) by (by rewrite sorted_perm).
  rewrite <- P in N. unfold newest. rewrite <- firstn_map. revert N. generalize (map id (sorted (fun a b => (key b <=? key a)%Z) l)).
  intros l'. revert n. induction l' as [|x l' IH]; intros [|n]; simpl; try (intros; apply NoDup_nil_2).
  rewrite !NoDup_cons. intros [N1 N2]. split; [|by apply IH]. intros Hx. apply N1. apply list_elem_of_In in Hx. apply list_elem_of_In.
  rewrite <- (firstn_skipn n l'). apply in_or_app. by left.
Qed.

(** The invariant of a connection, and what a turn achieves. *)
Definition stream_ok (s : Stream) : Prop :=
  announced_once sm_orders "order_created" s /\ announced_once sm_trades "order_filled" s /\
  NoDup (map ao_id (ap_orders (sm_api s))) /\ NoDup (map at_id (ap_trades (sm_api s))).
Definition orders_told (s : Stream) : Prop := forall r, r ∈ newest ao_created_at 50 (ap_orders (sm_api s)) -> ao_id r ∈ sm_orders s.
Definition trades_told (s : Stream) : Prop := forall r, r ∈ newest at_traded_at 50 (ap_trades (sm_api s)) -> at_id r ∈ sm_trades s.

Lemma quiet_parts s s' : quiet_view s' = quiet_view s ->
  announced "order_created" s' = announced "order_created" s /\ sm_orders s' = sm_orders s /\
  announced "order_filled" s' = announced "order_filled" s /\ sm_trades s' = sm_trades s /\
  ap_orders (sm_api s') = ap_orders (sm_api s) /\ ap_trades (sm_api s') = ap_trades (sm_api s).
Proof.
  unfold quiet_view, order_view, trade_view, table_view. intros [[[E1 E2]%pair_equal_spec [E3 E4]%pair_equal_spec]%pair_equal_spec E5]%pair_equal_spec.
  split_and!; [done..|by apply (f_equal ap_orders) in E5|by apply (f_equal ap_trades) in E5].
Qed.

Lemma quiet_stable {A} (m : SE Stream A) (P : Stream -> Prop) :
  (forall s s', quiet_view s' = quiet_view s -> P s -> P s') -> quiet m -> stable P m.
Proof. intros HP Hq s Hs. by eapply HP; [apply Hq|]. Qed.

Lemma ok_quiet s s' : quiet_view s' = quiet_view s -> stream_ok s -> stream_ok s'.
Proof.
  intros (E1 & E2 & E3 & E4 & E5 & E6)%quiet_parts. unfold stream_ok, announced_once. by rewrite E1, E2, E3, E4, E5, E6.
Qed.
Lemma told_quiet s s' : quiet_view s' = quiet_view s -> stream_ok s /\ orders_told s -> stream_ok s' /\ orders_told s'.
Proof.
  intros Q [O T]. split; [by eapply ok_quiet|]. apply quiet_parts in Q as (E1 & E2 & E3 & E4 & E5 & E6). unfold orders_told. by rewrite E2, E5.
Qed.
Lemma both_quiet s s' : quiet_view s' = quiet_view s -> stream_ok s /\ orders_told s /\ trades_told s -> stream_ok s' /\ orders_told s' /\ trades_told s'.
Proof.
  intros Q (O & T & U). destruct (told_quiet _ _ Q (conj O T)) as [O' T']. split_and!; [done|done|].
  apply quiet_parts in Q as (E1 & E2 & E3 & E4 & E5 & E6). unfold trades_told. by rewrite E4, E6.
Qed.

(** Walk through a quiet part. *)
Lemma wp_quiet {A B} (m : SE Stream A) (k : A -> SE Stream B) (P : Stream -> Prop) Q s :
  (forall s s', quiet_view s' = quiet_view s -> P s -> P s') -> quiet m -> P s -> (forall s', P s' -> stream_ok s') ->
  (forall a s', P s' -> wp (k a) Q stream_ok s') -> wp (m ≫= k) Q stream_ok s.
Proof.
  intros HP Hq Hs Hok Hk. apply wp_bind. eapply wp_mono; [exact (proj1 (stable_wp P m) (quiet_stable m P HP Hq) s Hs)|by intros a s' H'; apply Hk|exact Hok].
Qed.

#[local] Hint Resolve quiet_lift quiet_ret quiet_risks : quiet.
Ltac quiet_tac :=
  first [solve [eauto with quiet] | apply quiet_api; solve [eauto with reads]
        | apply quiet_send; discriminate
        | apply quiet_counter; [discriminate|discriminate|first [apply quiet_ret|apply quiet_bind; [apply quiet_api; eauto with reads|intros; apply quiet_ret]]|by intros]].
(** The next instruction of a turn leaves [P] alone. *)
Ltac quiet_step P HP := apply (wp_quiet _ _ P); [exact HP|quiet_tac|done|intros ? ?; tauto|]; intros ? ? ?.

Lemma orders_step pairs s : stream_ok s ->
  wp (announce_rows send_fails ao_id (order_payload pairs) sm_orders know_order "order_created" "orders" (newest ao_created_at 50 (ap_orders (sm_api s))))
     (fun _ s' => stream_ok s' /\ orders_told s') stream_ok s.
Proof.
  intros (O1 & O2 & N1 & N2).
  pose proof (announce_rows_spec ao_id (order_payload pairs) sm_orders know_order "order_created" "orders" ltac:(done) ltac:(done) ltac:(done) ltac:(done) ltac:(done)
    (newest ao_created_at 50 (ap_orders (sm_api s))) s O1 (newest_NoDup _ _ _ _ N1)) as W.
  assert (F : frame (fun s => (trade_view s, ap_orders (sm_api s), ap_trades (sm_api s)))
    (announce_rows send_fails ao_id (order_payload pairs) sm_orders know_order "order_created" "orders" (newest ao_created_at 50 (ap_orders (sm_api s))))).
  { apply rows_frame; [done|..]; intros p s0; unfold trade_view; rewrite announced_add; simpl; by rewrite app_nil_r. }
  specialize (F s). unfold wp in *. destruct (announce_rows _ _ _ _ _ _ _ _ s) as [s' [[]|e]]; simpl in F;
    apply pair_equal_spec in F as [[[F1 F2]%pair_equal_spec F3]%pair_equal_spec F4].
  - destruct W as [W1 W2]. unfold stream_ok, orders_told, announced_once in *. rewrite F1, F2, F3, F4. tauto.
  - unfold stream_ok, announced_once in *. rewrite F1, F2, F3, F4. tauto.
Qed.

Lemma trades_step pairs s : stream_ok s /\ orders_told s ->
  wp (announce_rows send_fails at_id (trade_payload pairs) sm_trades know_trade "order_filled" "trades" (newest at_traded_at 50 (ap_trades (sm_api s))))
     (fun _ s' => stream_ok s' /\ orders_told s' /\ trades_told s') stream_ok s.
Proof.
  intros [(O1 & O2 & N1 & N2) T].
  pose proof (announce_rows_spec at_id (trade_payload pairs) sm_trades know_trade "order_filled" "trades" ltac:(done) ltac:(done) ltac:(done) ltac:(done) ltac:(done)
    (newest at_traded_at 50 (ap_trades (sm_api s))) s O2 (newest_NoDup _ _ _ _ N2)) as W.
  assert (F : frame (fun s => (order_view s, ap_orders (sm_api s), ap_trades (sm_api s)))
    (announce_rows send_fails at_id (trade_payload pairs) sm_trades know_trade "order_filled" "trades" (newest at_traded_at 50 (ap_trades (sm_api s))))).
  { apply rows_frame; [done|..]; intros p s0; unfold order_view; rewrite announced_add; simpl; by rewrite app_nil_r. }
  specialize (F s). unfold wp in *. destruct (announce_rows _ _ _ _ _ _ _ _ s) as [s' [[]|e]]; simpl in F;
    apply pair_equal_spec in F as [[[F1 F2]%pair_equal_spec F3]%pair_equal_spec F4].
  - destruct W as [W1 W2]. unfold stream_ok, orders_told, trades_told, announced_once in *. rewrite F1, F2, F3, F4. tauto.
  - unfold stream_ok, announced_once in *. rewrite F1, F2, F3, F4. tauto.
Qed.

(** One turn keeps the invariant, also when it is cut short, and leaves none of
    the newest orders and trades untold when it is not. *)
Lemma turn_spec s : stream_ok s ->
  wp (send_operation_events send_fails) (fun _ s' => stream_ok s' /\ orders_told s' /\ trades_told s') stream_ok s.
Proof.
  intros O. unfold send_operation_events. apply wp_bind, wp_get. cbv zeta. revert O. generalize (ap_pairs (sm_api s)). intros pairs O.
  do 16 quiet_step stream_ok ok_quiet.
  apply wp_bind, wp_get. apply wp_bind. eapply wp_mono; [by apply orders_step| |done]. intros [] s1 T1.
  apply wp_bind, wp_get. apply wp_bind. eapply wp_mono; [by apply trades_step| |done]. intros [] s2 T2.
  apply wp_bind, wp_get.
  do 6 quiet_step (fun s => stream_ok s /\ orders_told s /\ trades_told s) both_quiet.
  eapply wp_mono; [apply (proj1 (stable_wp (fun s => stream_ok s /\ orders_told s /\ trades_told s) _)); [|done]| |]; [|done|tauto].
  apply (quiet_stable _ _ both_quiet). by apply quiet_send.
Qed.
End Announcements.

(** The connection as a whole: the environment gives tables with distinct
    identifiers before each turn. *)
Section Connection.
Context {Token : Type} `{Fernet Token} {E : ApiEnv}.
Context (send_fails : nat -> bool).
Notation Api := (Api Token).
Notation Stream := (Stream (Token := Token)).

Definition keyed (world : Api -> Api) : Prop := forall a, NoDup (map ao_id (ap_orders (world a))) /\ NoDup (map at_id (ap_trades (world a))).
Definition seen_ok (s : Stream) : Prop := announced_once sm_orders "order_created" s /\ announced_once sm_trades "order_filled" s.
Definition all_told (s : Stream) : Prop := orders_told s /\ trades_told s.

Lemma turn_ok world s : keyed world -> seen_ok s -> wp (stream_turn send_fails world) (fun _ s' => seen_ok s' /\ all_told s') seen_ok s.
Proof.
  intros K [O1 O2]. unfold stream_turn. apply wp_bind, wp_modify. apply wp_bind.
  eapply wp_mono; [apply turn_spec; split; [exact O1|split; [exact O2|apply K]]| |intros s' (P1 & P2 & _); by split].
  intros [] s1 T1. assert (Q : quiet (on_api (Token := Token) (t ← tick; se_lift (e_commit t)))).
  { apply quiet_api. apply reads_bind; [apply reads_tick|intros; apply reads_lift]. }
  pose proof (proj1 (stable_wp _ _) (quiet_stable _ _ both_quiet Q) s1 T1) as W.
  eapply wp_mono; [exact W|intros [] s2 ((P1 & P2 & _) & T2); by repeat split; apply P1 || apply P2 || apply T2|intros s2 ((P1 & P2 & _) & _); by split].
Qed.

Lemma turns_ok worlds s : Forall keyed worlds -> seen_ok s ->
  wp (se_iter (stream_turn send_fails) worlds) (fun _ s' => seen_ok s' /\ (worlds <> [] \/ all_told s -> all_told s')) seen_ok s.
Proof.
  intros K. revert s. induction K as [|w worlds Kw K IH]; intros s O; cbn [se_iter].
  - apply wp_ret. split; [done|]. intros [?|?]; done.
  - apply wp_bind. eapply wp_mono; [by apply turn_ok| |done]. intros [] s1 [O1 T1].
    eapply wp_mono; [by apply IH| |done]. intros [] s2 [O2 T2]. split; [done|]. intros _. apply T2. by right.
Qed.

Lemma ids_distinct known type (s : Stream) : announced_once known type s -> NoDup (announced type s).
Proof.
  intros [-> N]. change (map PStr (known s)) with (PStr <$> known s). apply NoDup_fmap_2; [by intros ? ? [= ->]|done].
Qed.
End Connection.

(** C21: during a connection of the operations stream no order and no trade is
    announced twice, however the tables grow, whatever the engines report and
    whenever the client goes away; after turns that were not cut short, each
    of the newest fifty orders and trades has been announced. *)
Theorem stream_announces_once {Token} {F : Fernet Token} {X : ApiEnv} send_fails worlds (a : Api Token) :
  Forall keyed worlds ->
  (let s' := (stream_loop send_fails worlds (new_stream a)).1 in NoDup (announced "order_created" s') /\ NoDup (announced "order_filled" s')) /\
  (forall s', se_iter (stream_turn send_fails) worlds (new_stream a) = (s', Ok tt) -> worlds <> [] ->
     (forall r, r ∈ newest ao_created_at 50 (ap_orders (sm_api s')) -> PStr (ao_id r) ∈ announced "order_created" s') /\
     (forall r, r ∈ newest at_traded_at 50 (ap_trades (sm_api s')) -> PStr (at_id r) ∈ announced "order_filled" s')).
Proof.
  intros K.
  assert (O : seen_ok (new_stream a)) by (repeat split; apply NoDup_nil_2).
  pose proof (turns_ok send_fails worlds (new_stream a) K O) as W. unfold wp in W. split.
  - unfold stream_loop, se_catch. destruct (se_iter _ _ _) as [s' [[]|e]].
    + destruct W as [[O1 O2] _]. split; by eapply ids_distinct.
    + destruct W as [O1 O2]. destruct (exn_isinstance _ _); split; by eapply ids_distinct.
  - intros s' R Hw. rewrite R in W. destruct W as [[[A1 _] [A2 _]] T]. destruct (T (or_introl Hw)) as [T1 T2]. rewrite A1, A2.
    split; intros r Hr; apply list_elem_of_In, in_map, list_elem_of_In; [by apply T1|by apply T2].
Qed.

(** Two turns, an order in between, and a client that leaves before the third. *)
Lemma stream_announces_once_witness :
  let X := accepting in
  let order := mkApiOrder "o1" "c1" None "p1" buy ot_limit os_open None dzero dzero 0%Z 0%Z in
  let tables (l : list ApiOrder) (a : Api (string * Crypto.bytes)) :=
    mkApi (ap_store a) (ap_keys a) (ap_accounts a) (ap_risks a) (ap_pairs a) l [] (ap_positions a) (ap_snapshots a) in
  let worlds := [tables []; tables [order]; tables [order]] in
  announced "order_created" (stream_loop (fun _ => false) worlds (new_stream demo_api)).1 = [PStr "o1"] /\
  NoDup (announced "order_created" (stream_loop (fun n => (30 <? n)%nat) worlds (new_stream demo_api)).1).
Proof.
  intros X order tables worlds.
  assert (K : Forall keyed worlds).
  { unfold worlds. repeat apply Forall_cons_2; [..|apply Forall_nil_2]; intros a; (split; [|apply NoDup_nil_2]); first [apply NoDup_nil_2|apply NoDup_singleton]. }
  split; [vm_compute; reflexivity|]. exact (proj1 (proj1 (stream_announces_once (fun n => (30 <? n)%nat) worlds demo_api K))).
Defined.
