(* ===== verification/Api.v ===== *)
(** * Api: the routes ([api/routes.py], [api/main.py])

    A request names its endpoint and carries its parameters; [guard_of] is the
    dependency in front of the endpoint, [handle] the endpoint, [body_ok] the
    constraints of its schema. [serve] runs a request: the guard, the checks of
    the body (422), and the endpoint inside a database session where it has
    one. The theorems are about every route at once. *)

From Stdlib Require Import Ascii.
From S2P Require Import Prelude Rounding PyFloat PyDecimal PyData PyValue Models Venue Signing Config Daemon ConfigStore ControlPlane Access Json RedisStore Environment Client PublicExchange ApiBase ApiReads ApiControl ApiAccounts.

#[local] Open Scope string_scope.
#[local] Open Scope list_scope.

Inductive Request : Type :=
  | GetHealth | GetReady | GetVersion (v : string)
  | GetRuntimeConfig | GetDomainConfig (domain : string) | PutDomainConfig (domain : string) (r : ConfigUpdateRequest)
  | GetCapabilities | GetExchanges | GetExchangesStatus
  | PostConnect (r : ExchangeConnectRequest) | PostTest (q : ExchangeTestRequest) | DeleteAccount (r : ExchangeRemoveRequest)
  | GetBalances (exchange_name account_alias environment : string) | PostSync (exchange_name : string) (q : ExchangeSyncRequest)
  | GetOperationsConfig | GetAuditLogs (limit : nat) | GetRuntimeEvents (limit : nat)
  | PostStrategy (r : StrategyCommandRequest) | GetVolume
  | GetCoinstoreAccounts | PostCoinstoreAccount (q : ExchangeAccountCreateRequest)
  | PutCoinstoreStatus (account_id : string) (r : ExchangeAccountStatusRequest) | GetCoinstoreHealth | PostCoinstoreSync (r : ConfirmedActionRequest)
  | GetEngines | GetInfrastructure | GetConnectivity | GetOrders (limit : nat) | GetTrades (limit : nat) | GetPositions
  | GetInventory (limit : nat) | GetPnl | GetRiskEvents (limit : nat) | GetReconciliation | GetKillSwitch | GetAdminKillSwitch
  | PostKillSwitch (r : dict) | PostKillSwitchClear
  | PostCancelAll (r : ConfirmedActionRequest) | PostDisable (r : ConfirmedActionRequest) | PostEnable (r : ConfirmedActionRequest)
  | PostClosePositions (r : ConfirmedActionRequest) | PostRestart (r : ConfirmedActionRequest) | PostShutdown (r : ConfirmedActionRequest)
  | GetCanaryLimits.

Inductive Guard : Type := no_guard | g_admin | g_operations | g_config | g_risk | g_trading | g_incident.

Definition guard_of (r : Request) : Guard :=
  match r with
  | GetHealth | GetReady | GetVersion _ => no_guard
  | GetRuntimeConfig | GetDomainConfig _ | GetCapabilities | GetAdminKillSwitch | PostKillSwitch _ | PostKillSwitchClear => g_admin
  | PutDomainConfig _ _ | PostConnect _ | PostTest _ | DeleteAccount _ | PostSync _ _ | PostCoinstoreAccount _ | PutCoinstoreStatus _ _
  | PostCoinstoreSync _ => g_config
  | PostStrategy _ => g_trading
  | PostEnable _ => g_risk
  | PostCancelAll _ | PostDisable _ | PostClosePositions _ | PostRestart _ | PostShutdown _ => g_incident
  | GetExchanges | GetExchangesStatus | GetBalances _ _ _ | GetOperationsConfig | GetAuditLogs _ | GetRuntimeEvents _ | GetVolume | GetCoinstoreAccounts
  | GetCoinstoreHealth | GetEngines | GetInfrastructure | GetConnectivity | GetOrders _ | GetTrades _ | GetPositions | GetInventory _ | GetPnl
  | GetRiskEvents _ | GetReconciliation | GetKillSwitch | GetCanaryLimits => g_operations
  end.

(** The endpoints that take a database session. *)
Definition uses_session (r : Request) : bool :=
  match r with
  | GetHealth | GetReady | GetVersion _ | GetCapabilities | GetCoinstoreHealth | GetEngines | GetInfrastructure | GetConnectivity | GetReconciliation
  | GetKillSwitch | GetAdminKillSwitch | GetCanaryLimits => false
  | _ => true
  end.

Definition body_ok (r : Request) : bool :=
  match r with
  | PostConnect q => connect_ok q
  | PostTest q => test_request_ok q
  | DeleteAccount q => remove_request_ok q
  | PostSync _ q => min_length 1 (yq_account_alias q) && bool_decide (yq_environment q ∈ environments)
  | PostStrategy q => strategy_command_ok q
  | PostCoinstoreAccount q => account_create_ok q
  | PutCoinstoreStatus _ q => confirmed_action_ok (tq_action q)
  | PostCoinstoreSync q | PostCancelAll q | PostDisable q | PostEnable q | PostClosePositions q | PostRestart q | PostShutdown q => confirmed_action_ok q
  | _ => true
  end.

Section Routes.
Context {Token : Type} `{Fernet Token} {E : ApiEnv}.
Context (jwt_decode : string -> string -> string -> result dict) (now : datetime).
Notation Api := (Api Token).

Definition dict_response (m : SE Api dict) : SE Api pyval := d ← m; mret (PDict d).

Definition handle (r : Request) (actor : dict) : SE Api pyval :=
  match r with
  | GetHealth => health_endpoint
  | GetReady => ready
  | GetVersion v => version v
  | GetRuntimeConfig => get_runtime_config
  | GetDomainConfig domain => get_domain_config domain
  | PutDomainConfig domain q => update_domain_config domain q actor
  | GetCapabilities => exchange_capabilities
  | GetExchanges => exchanges
  | GetExchangesStatus => exchanges_status
  | PostConnect q => exchanges_connect q actor
  | PostTest q => exchanges_test q
  | DeleteAccount q => exchanges_remove q actor
  | GetBalances n a e => exchange_balances n a e
  | PostSync n q => exchange_balance_sync n q actor
  | GetOperationsConfig => operations_runtime_config
  | GetAuditLogs limit => operations_audit_logs limit
  | GetRuntimeEvents limit => operations_runtime_events limit
  | PostStrategy q => admin_strategy_command q actor
  | GetVolume => operations_volume
  | GetCoinstoreAccounts => coinstore_accounts
  | PostCoinstoreAccount q => coinstore_account_upsert q actor
  | PutCoinstoreStatus id q => coinstore_account_status id q actor
  | GetCoinstoreHealth => coinstore_health actor
  | PostCoinstoreSync q => coinstore_balance_sync q actor
  | GetEngines => dict_response operations_engines
  | GetInfrastructure => operations_infrastructure
  | GetConnectivity => dict_response operations_exchanges
  | GetOrders limit => operations_orders limit
  | GetTrades limit => operations_trades limit
  | GetPositions => operations_positions
  | GetInventory limit => operations_inventory limit
  | GetPnl => operations_pnl
  | GetRiskEvents limit => operations_risk_events limit
  | GetReconciliation => dict_response operations_reconciliation
  | GetKillSwitch | GetAdminKillSwitch => kill_switch_status
  | PostKillSwitch q => admin_kill_switch_enable q actor
  | PostKillSwitchClear => admin_kill_switch_disable actor
  | PostCancelAll q => emergency_cancel_all_orders q actor
  | PostDisable q => emergency_disable_trading q actor
  | PostEnable q => emergency_enable_trading q actor
  | PostClosePositions q => emergency_close_positions q actor
  | PostRestart q => emergency_runtime_restart q actor
  | PostShutdown q => emergency_shutdown q actor
  | GetCanaryLimits => operations_canary_limits
  end.

(** The guard in front of a request; [None] when there is none. *)
Definition guard_function (g : Guard) : option (AuthRequest -> Access.A dict) :=
  let st := ap_jwt e_settings in
  match g with
  | no_guard => None
  | g_admin => Some (require_admin jwt_decode st now)
  | g_operations => Some (require_operations_access jwt_decode st now)
  | g_config => Some (require_config_write jwt_decode st now)
  | g_risk => Some (require_risk_write jwt_decode st now)
  | g_trading => Some (require_trading_control jwt_decode st now)
  | g_incident => Some (require_incident_response jwt_decode st now)
  end.

Definition endpoint (r : Request) (actor : dict) : SE Api pyval :=
  if negb (body_ok r) then http_error 422 "validation error"
  else if uses_session r then in_session (handle r actor) else handle r actor.

(** State and log before and after. *)
Definition serve (r : Request) (auth : AuthRequest) : SE (Api * list LogRecord) pyval :=
  fun '(s, l) =>
    match guard_function (guard_of r) with
    | None => let '(s', x) := endpoint r [] s in ((s', l), x)
    | Some guard => match guard auth l with
                    | (l', Ok actor) => let '(s', x) := endpoint r actor s in ((s', l'), x)
                    | (l', Err e) => ((s, l'), Err e)
                    end
    end.

(** Requests one after another; the client gets every answer. *)
Fixpoint serve_all (requests : list (Request * AuthRequest)) (s : Api * list LogRecord) : Api * list LogRecord :=
  match requests with
  | [] => s
  | (r, auth) :: rest => serve_all rest (serve r auth s).1
  end.

(** ** Which routes only read *)

Definition read_only (r : Request) : bool :=
  match guard_of r with
  | no_guard | g_operations => true
  | g_admin => match r with PostKillSwitch _ | PostKillSwitchClear => false | _ => true end
  | _ => false
  end.

Lemma read_only_handle r actor : read_only r = true -> reads (handle r actor).
Proof.
  destruct r; try done; intros _; cbn [handle];
    unfold ready, version, operations_runtime_config, get_runtime_config, exchange_capabilities, operations_canary_limits, dict_response; reads_tac.
Qed.

Lemma read_only_endpoint r actor : read_only r = true -> reads (endpoint r actor).
Proof.
  intros R. unfold endpoint. destruct (negb _); [apply reads_http_error|]. pose proof (read_only_handle r actor R).
  destruct (uses_session r); [by apply reads_session|done].
Qed.

(** A route that writes is behind one of the write guards. *)
Lemma write_guarded r : read_only r = false ->
  exists guard, guard_function (guard_of r) = Some guard /\ guard ∈ write_guards jwt_decode (ap_jwt e_settings) now.
Proof.
  unfold read_only, write_guards.
  destruct r; cbn [guard_of guard_function]; try done; intros _; eexists; (split; [reflexivity|]); rewrite !elem_of_cons; tauto.
Qed.

Lemma serve_unprivileged r auth s l :
  (forall guard l, guard ∈ write_guards jwt_decode (ap_jwt e_settings) now -> is_ok (guard auth l).2 = false) ->
  api_data (serve r auth (s, l)).1.1 = api_data s.
Proof.
  intros W. unfold serve. destruct (read_only r) eqn:R.
  - assert (K : forall actor, api_data (endpoint r actor s).1 = api_data s) by (intros actor; by apply (read_only_endpoint r actor R s)).
    destruct (guard_function (guard_of r)) as [guard|].
    + destruct (guard auth l) as [l' [actor|e]]; [|done]. specialize (K actor). by destruct (endpoint r actor s).
    + specialize (K []). by destruct (endpoint r [] s).
  - destruct (write_guarded r R) as (guard & -> & Hg). specialize (W guard l Hg). by destruct (guard auth l) as [l' [actor|e]].
Qed.
End Routes.

(** ** Accounts under any sequence of requests *)

Section Accounts.
Context {Token : Type} `{Fernet Token} {E : ApiEnv}.
Context (jwt_decode : string -> string -> string -> result dict) (now : datetime).
Notation Api := (Api Token).

Lemma keeps_of_reads {A} (m : SE Api A) : reads m -> keeps_accounts m.
Proof. intros R s. destruct (R s) as [D L]. split; [by apply (f_equal ap_accounts) in D|exact L]. Qed.

(** Writes to the text keys of Redis and to the risk events. *)
Lemma keeps_modify f : (forall s : Api, ap_accounts (f s) = ap_accounts s /\ ap_store (f s) = ap_store s) -> keeps_accounts (se_modify f).
Proof. intros F s. destruct (F s) as [E1 E2]. unfold later. simpl. rewrite E2. split; [done|apply le_n]. Qed.
Lemma keeps_set k v : keeps_accounts (client_set k v : SE Api unit).
Proof. unfold client_set. keeps_tac. by apply keeps_modify. Qed.
Lemma keeps_delete k : keeps_accounts (client_delete k : SE Api unit).
Proof. unfold client_delete. keeps_tac. by apply keeps_modify. Qed.
Lemma keeps_risk severity ty message ks breaker actor : keeps_accounts (add_risk_event severity ty message ks breaker actor : SE Api unit).
Proof. unfold add_risk_event. keeps_tac. by apply keeps_modify. Qed.
Lemma keeps_state k d : keeps_accounts (set_state k d : SE Api unit).
Proof. unfold set_state. keeps_tac. apply keeps_set. Qed.
Lemma keeps_command actor ty payload action : keeps_accounts (command actor ty payload action : SE Api dict).
Proof. apply keeps_publish. Qed.
Lemma keeps_update domain q actor : keeps_accounts (update_domain_config domain q actor : SE Api pyval).
Proof. unfold update_domain_config, require_config_domain_actor. keeps_tac. apply keeps_on_store, forward_update. Qed.
#[local] Hint Resolve keeps_delete keeps_risk keeps_state keeps_command keeps_update keeps_exchange_sync keeps_coinstore_sync : accounts.

(** The routes that change the table of accounts. *)
Definition writes_accounts (r : Request) : bool :=
  match r with PostConnect _ | PostTest _ | DeleteAccount _ | PostCoinstoreAccount _ | PutCoinstoreStatus _ _ => true | _ => false end.

Lemma handle_keeps r actor : writes_accounts r = false -> keeps_accounts (handle r actor).
Proof.
  intros W. destruct (read_only r) eqn:R; [by apply keeps_of_reads, read_only_handle|].
  destruct r; try discriminate; cbn [handle];
    unfold admin_strategy_command, admin_kill_switch_enable, admin_kill_switch_disable, emergency_cancel_all_orders, emergency_disable_trading,
      emergency_enable_trading, emergency_close_positions, emergency_runtime_restart, emergency_shutdown; keeps_tac.
Qed.

Context {uuid_inj : Inj (=) (=) e_uuid4}.

Lemma handle_accounts r actor s : accounts_ok s -> wp (handle r actor) (fun _ s' => ok_from s s') (later s) s.
Proof.
  intros O. destruct (writes_accounts r) eqn:W; [|apply wp_rest; [by apply handle_keeps|split; [done|apply later_refl]]].
  destruct r; try discriminate; cbn [handle];
    [eapply wp_mono; [by apply connect_wp|by intros ? ? []|done] | eapply wp_mono; [by apply test_wp|by intros ? ? []|done]
    | by apply remove_wp | by apply upsert_wp | by apply status_wp].
Qed.

Lemma endpoint_accounts r actor s : accounts_ok s -> accounts_ok (endpoint r actor s).1.
Proof.
  intros O. unfold endpoint. destruct (negb _); [done|]. destruct (uses_session r) eqn:U; [by apply accounts_session; [|apply handle_accounts]|].
  assert (W : writes_accounts r = false) by (by destruct r). destruct (handle_keeps r actor W s) as [E1 L1]. by eapply accounts_ok_later.
Qed.

Lemma serve_accounts r auth s l : accounts_ok s -> accounts_ok (serve jwt_decode now r auth (s, l)).1.1.
Proof.
  intros O. unfold serve. destruct (guard_function _ _ _) as [guard|].
  - destruct (guard auth l) as [l' [actor|e]]; [|done]. pose proof (endpoint_accounts r actor s O). by destruct (endpoint r actor s).
  - pose proof (endpoint_accounts r [] s O). by destruct (endpoint r [] s).
Qed.
(** A look-up that would meet two rows raises; unique keys exclude it. *)
Lemma account_found n a e (s : Api) : accounts_ok s -> exists found, exchange_account n a e s = (s, Ok found).
Proof.
  intros (K & _ & _). unfold exchange_account, one_or_none, mbind, se_bind, se_get.
  destruct (List.filter _ _) as [|r1 [|r2 l]] eqn:F; [by eexists|by eexists|]. exfalso.
  assert (M : forall r, r ∈ r1 :: r2 :: l -> account_key r = (n, a, e)).
  { intros r Hr. rewrite <- F in Hr. apply list_elem_of_In, filter_In in Hr as [_ Hr]. unfold same_account, account_key in *.
    rewrite !andb_true_iff, !String.eqb_eq in Hr. naive_solver. }
  pose proof (filter_map_NoDup account_key (same_account n a e) _ K) as N. rewrite F in N. cbn [map] in N.
  rewrite (M r1), (M r2) in N by set_solver. apply NoDup_cons in N as [N _]. by apply N; left.
Qed.
End Accounts.

(** C8: whatever requests arrive, by whomever and in whatever order, and
    whichever of them fail, at most one account is stored for an exchange,
    alias and environment, and account identifiers stay distinct; so looking an
    account up never meets two rows. *)
Theorem accounts_stay_unique {Token} {F : Fernet Token} {X : ApiEnv} jwt_decode now requests (s : Api Token) l :
  Inj (=) (=) e_uuid4 -> accounts_ok s ->
  let s' := (serve_all jwt_decode now requests (s, l)).1 in
  accounts_ok s' /\ forall n a e, exists found, exchange_account n a e s' = (s', Ok found).
Proof.
  intros I O. cbv zeta.
  assert (O' : accounts_ok (serve_all jwt_decode now requests (s, l)).1).
  { revert s l O. induction requests as [|[r auth] requests IH]; intros s l O; [done|]. cbn [serve_all].
    pose proof (serve_accounts jwt_decode now r auth s l O) as O1. destruct (serve jwt_decode now r auth (s, l)) as [[s1 l1] x]. by apply IH. }
  split; [exact O'|]. intros n a e. by apply account_found.
Qed.

(** ** Failures *)

(** The tables of the database. *)
Definition database {Token} (s : Api Token) :=
  (cs_configs (ap_store s), cs_audits (ap_store s), cs_events (ap_store s), ap_accounts s, ap_risks s,
   (ap_pairs s, ap_orders s, ap_trades s, ap_positions s, ap_snapshots s)).

(** The text a request must contain to be carried out, and the text it has. *)
Definition confirmation_of (r : Request) : option (string * string) :=
  match r with
  | DeleteAccount q => Some ("remove", mq_confirmation q)
  | PostStrategy q => Some (sq_command q, cq_confirmation (sq_action q))
  | PutCoinstoreStatus _ q => Some (if tq_is_enabled q then "enable" else "disable", cq_confirmation (tq_action q))
  | PostCoinstoreSync q => Some ("sync", cq_confirmation q)
  | PostCancelAll q => Some ("cancel", cq_confirmation q)
  | PostDisable q => Some ("disable", cq_confirmation q)
  | PostEnable q => Some ("enable", cq_confirmation q)
  | PostClosePositions q => Some ("close", cq_confirmation q)
  | PostRestart q => Some ("restart", cq_confirmation q)
  | PostShutdown q => Some ("shutdown", cq_confirmation q)
  | _ => None
  end.

Definition confirmed (r : Request) : bool :=
  match confirmation_of r with Some (word, text) => str_in (str_lower word) (str_lower text) | None => true end.

Section Failures.
Context {Token : Type} `{Fernet Token} {E : ApiEnv}.
Notation Api := (Api Token).

Lemma database_data (s s' : Api) : api_data s' = api_data s -> database s' = database s.
Proof. unfold api_data, database, with_store. intros [= ? ? ? ? ? ? ? ? ? ? ? ? ?]. congruence. Qed.
Lemma rollback_same (s : Api) : rollback s s = s.
Proof. by destruct s as [[]]. Qed.

Lemma unconfirmed_handle r actor (s : Api) : confirmed r = false -> exists e, handle r actor s = (s, Err e) /\ ex_class e = HTTPException.
Proof.
  unfold confirmed. destruct r; cbn [confirmation_of handle]; try discriminate; intros C;
    unfold exchanges_remove, admin_strategy_command, coinstore_account_status, coinstore_balance_sync, emergency_cancel_all_orders,
      emergency_disable_trading, emergency_enable_trading, emergency_close_positions, emergency_runtime_restart, emergency_shutdown, require_confirmation;
    cbv zeta; rewrite C; by eexists.
Qed.
End Failures.

(** C9: a request that fails changes no table of the database, for every
    route and whatever the reason (the guard, the body, the endpoint, the
    commit); and a request that must be confirmed, and is not, is refused with
    an HTTP error and changes nothing at all, no key of Redis and no message
    included. *)
Theorem failed_requests_change_no_table {Token} {F : Fernet Token} {X : ApiEnv} jwt_decode now r auth (s s' : Api Token) l l' x :
  serve jwt_decode now r auth (s, l) = ((s', l'), x) ->
  (is_ok x = false -> database s' = database s) /\ (confirmed r = false -> is_ok x = false /\ s' = s).
Proof.
  assert (D : forall actor, is_ok (endpoint r actor s).2 = false -> database (endpoint r actor s).1 = database s).
  { intros actor. unfold endpoint. destruct (negb _); [done|]. destruct (uses_session r) eqn:U.
    - unfold in_session. destruct (handle r actor s) as [s1 [a|e]]; [|done]. unfold tick, on_store, cs_next. by destruct (e_commit _).
    - intros _. apply database_data, (read_only_handle r actor). by destruct r. }
  assert (C : forall actor, confirmed r = false -> exists e, endpoint r actor s = (s, Err e)).
  { intros actor Hc. unfold endpoint. destruct (negb _); [by eexists|]. destruct (unconfirmed_handle r actor s Hc) as (e & Hh & _).
    exists e. destruct (uses_session r); [|done]. unfold in_session. by rewrite Hh, rollback_same. }
  unfold serve. destruct (guard_function _ _ _) as [guard|].
  - destruct (guard auth l) as [l1 [actor|e]]; [|by intros [= <- <- <-]]. specialize (D actor). specialize (C actor).
    destruct (endpoint r actor s) as [s1 y]. intros [= <- <- <-]. split; [exact D|]. intros Hc. by destruct (C Hc) as (e & [= -> ->]).
  - specialize (D []). specialize (C []). destruct (endpoint r [] s) as [s1 y]. intros [= <- <- <-]. split; [exact D|].
    intros Hc. by destruct (C Hc) as (e & [= -> ->]).
Qed.

(** C7: whatever requests an analyst sends, to whichever routes and in
    whatever order, no table, no Redis key and no message of the bus changes:
    routes that write are behind guards that refuse the analyst, and the other
    routes only read. *)
Theorem analyst_changes_nothing {Token} {F : Fernet Token} {X : ApiEnv} jwt_decode now requests (s : Api Token) l :
  (forall r auth, (r, auth) ∈ requests -> exists payload permissions roles,
     authenticated jwt_decode (ap_jwt e_settings) now auth payload permissions roles /\
     (forall x, PStr x ∈ roles -> x = "read_only_analyst") /\ (forall x, PStr x ∈ permissions -> x ∈ ["operations:read"; "config:read"; "risk:read"])) ->
  api_data (serve_all jwt_decode now requests (s, l)).1 = api_data s.
Proof.
  revert s l. induction requests as [|[r auth] requests IH]; intros s l H; [done|]. cbn [serve_all].
  destruct (H r auth ltac:(by left)) as (payload & permissions & roles & Ha & Hr & Hp).
  pose proof (serve_unprivileged jwt_decode now r auth s l) as U.
  destruct (serve jwt_decode now r auth (s, l)) as [[s' l'] x]. simpl in *. rewrite IH; [|intros r' a' Hin; apply (H r' a'); by right].
  apply U. intros guard l0 Hg. by rewrite (analyst_refused _ _ _ _ _ _ _ guard l0 Ha Hr Hp Hg).
Qed.

Lemma accounts_stay_unique_witness :
  let X := accepting in
  let decode := fun _ _ _ => Ok [("sub", PStr "op"); ("roles", PList [PStr "platform_admin"])] in
  let auth := mkAuthRequest "/x" (Some "Bearer good") (Some "good") in
  let requests := [(PostConnect demo_connect, auth); (PostConnect demo_connect, auth)] in
  length (ap_accounts (serve_all decode 0%Z requests (demo_api, [])).1) = 1%nat /\ accounts_ok (serve_all decode 0%Z requests (demo_api, [])).1.
Proof.
  intros X decode auth requests. split; [vm_compute; reflexivity|].
  exact (proj1 (accounts_stay_unique (X := accepting) decode 0%Z requests demo_api [] demo_token_inj demo_api_accounts)).
Defined.

(** A shutdown whose confirmation does not say so. *)
Lemma failed_requests_change_no_table_witness :
  let X := accepting in
  let decode := fun _ _ _ => Ok [("sub", PStr "op"); ("roles", PList [PStr "platform_admin"])] in
  let auth := mkAuthRequest "/x" (Some "Bearer good") (Some "good") in
  let run := serve decode 0%Z (PostShutdown (mkConfirmed "yes" "drill")) auth (demo_api, []) in
  is_ok run.2 = false /\ run.1.1 = demo_api.
Proof.
  intros X decode auth run.
  refine (proj2 (failed_requests_change_no_table decode 0%Z (PostShutdown (mkConfirmed "yes" "drill")) auth demo_api run.1.1 [] run.1.2 run.2 _) _).
  - fold run. by destruct run as [[]].
  - reflexivity.
Defined.

Lemma analyst_changes_nothing_witness :
  let X := accepting in
  let payload := [("sub", PStr "a"); ("roles", PList [PStr "read_only_analyst"]); ("permissions", PList [PStr "risk:read"])] in
  let decode := fun token _ _ => if String.eqb token "good" then Ok payload else raise PyJWTError "DecodeError" in
  let auth := mkAuthRequest "/x" (Some "Bearer good") (Some "good") in
  let requests := [(GetExchanges, auth); (PostShutdown (mkConfirmed "shutdown" "drill"), auth); (PostConnect demo_connect, auth)] in
  api_data (serve_all decode 0%Z requests (demo_api, [])).1 = api_data demo_api.
Proof.
  intros X payload decode auth requests. apply (analyst_changes_nothing decode 0%Z requests demo_api []). intros r a Hin.
  exists payload, [PStr "risk:read"], [PStr "read_only_analyst"]. split; [|split].
  - assert (a = auth) as -> by set_solver. exists "good". split; [reflexivity|]. split; [reflexivity|]. split; [left; reflexivity|split; reflexivity].
  - intros x H%list_elem_of_singleton. by injection H.
  - intros x H%list_elem_of_singleton. injection H as ->. apply (bool_decide_unpack _). by vm_compute.
Defined.
