(* ===== verification/Cli.v ===== *)
(** * Cli: operator tokens and the database command ([cli/auth.py],
    [cli/database.py])

    PyJWT is the interface [Jwt]: what it encodes under a secret it decodes
    under that secret while the token is current, and refuses once it has
    expired. The parser of the command line gives [Args]. *)

From Stdlib Require Import Ascii.
From S2P Require Import Prelude Rounding PyFloat PyDecimal PyData PyValue Models Access Json RateLimit Environment Migrations.

#[local] Open Scope string_scope.
#[local] Open Scope list_scope.

(** ** PyJWT *)

(** The claims PyJWT checks, in seconds since the epoch. *)
Definition claim_times (payload : dict) (iat exp : Z) : Prop := pget "iat" payload = PInt iat /\ pget "exp" payload = PInt exp.

Class Jwt : Type := {
  jwt_encode : dict -> string -> string -> result string;
  jwt_decode : datetime -> string -> string -> string -> result dict;
  jwt_current now payload secret algorithm token iat exp :
    jwt_encode payload secret algorithm = Ok token -> json_exact (PDict payload) = true -> claim_times payload iat exp ->
    (seconds iat <= now < seconds exp)%Z -> jwt_decode now token secret algorithm = Ok payload;
  jwt_expired now payload secret algorithm token iat exp :
    jwt_encode payload secret algorithm = Ok token -> json_exact (PDict payload) = true -> claim_times payload iat exp ->
    (seconds iat <= now)%Z -> (seconds exp <= now)%Z -> jwt_decode now token secret algorithm = raise PyJWTError "ExpiredSignatureError" }.

(** ** The commands *)

Definition DEFAULT_ROLES : list string := ["platform_admin"].
Definition DEFAULT_PERMISSIONS : list string := ["operations:read"; "config:write"; "risk:read"; "risk:write"; "incident:write"; "trading:write"].

Section Issue.
Context {J : Jwt} (st : JwtSettings).

Definition token_payload (subject : string) (roles permissions : list string) (now expires_in_seconds : Z) : dict :=
  [("sub", PStr subject); ("roles", PList (map PStr roles)); ("permissions", PList (map PStr permissions));
   ("iat", PInt now); ("exp", PInt (now + expires_in_seconds))].

Definition issue_token (time : float) (subject : string) (roles permissions : list string) (expires_in_seconds : Z) : result string :=
  now ← py_int (PFloat time);
  jwt_encode (token_payload subject roles permissions now expires_in_seconds) (JWT_SECRET st) (JWT_ALGORITHM st).

(** [_csv] *)
Definition csv (value : string) : list string :=
  List.filter (fun s => negb (String.eqb s "")) (map str_strip (str_split "," value)).

Record Args : Type := mkArgs { ag_subject : string; ag_roles : string; ag_permissions : string; ag_expires_in_seconds : Z }.
Definition default_args : Args := mkArgs "operator" (str_join "," DEFAULT_ROLES) (str_join "," DEFAULT_PERMISSIONS) 86400.

(** The token printed. *)
Definition main (time : float) (args : Args) : result string :=
  issue_token time (ag_subject args) (csv (ag_roles args)) (csv (ag_permissions args)) (ag_expires_in_seconds args).
End Issue.

(** ** Comma-separated lists *)

Lemma split_go_end c x cur : str_contains c x = false -> str_split_go c cur x = [str_rev_app cur "" +:+ x].
Proof.
  revert cur. induction x as [|a x IH]; intros cur; cbn [str_split_go str_contains]; [by rewrite append_nil|].
  intros [Ha Hx]%orb_false_iff. rewrite Ha, IH by done. cbn [str_rev_app]. by rewrite (str_rev_app_acc cur (String a "")), append_assoc.
Qed.
Lemma split_go_sep c x rest cur : str_contains c x = false ->
  str_split_go c cur (x +:+ String c rest) = (str_rev_app cur "" +:+ x) :: str_split_go c "" rest.
Proof.
  revert cur. induction x as [|a x IH]; intros cur; cbn [str_contains].
  - intros _. change ("" +:+ String c rest) with (String c rest). cbn [str_split_go]. by rewrite Ascii.eqb_refl, append_nil.
  - intros [Ha Hx]%orb_false_iff. change (String a x +:+ String c rest) with (String a (x +:+ String c rest)). cbn [str_split_go]. rewrite Ha, IH by done. cbn [str_rev_app].
    by rewrite (str_rev_app_acc cur (String a "")), append_assoc.
Qed.

Lemma split_join x l : Forall (fun s => str_contains "," s = false) (x :: l) -> str_split "," (str_join "," (x :: l)) = x :: l.
Proof.
  unfold str_split. revert x. induction l as [|y l IH]; intros x F; inversion_clear F as [|? ? Hx Hl].
  - by apply split_go_end.
  - cbn [str_join] in *. change ("," +:+ ?t) with (String "," t). rewrite split_go_sep by done. cbn [str_rev_app String.append]. f_equal. by apply IH.
Qed.

(** What the command line joins, [_csv] gives back: a list of stripped,
    non-empty names without commas. *)
Lemma csv_round_trip l : Forall (fun s => str_contains "," s = false /\ name_ok s) l -> csv (str_join "," l) = l.
Proof.
  intros F. destruct l as [|x l]; [done|]. unfold csv. rewrite split_join by (eapply Forall_impl; [exact F|by intros ? []]).
  induction F as [|y k [_ [Hn Hs]] F IH]; [done|]. cbn [map List.filter]. rewrite Hs.
  destruct (String.eqb_spec y "") as [->|_]; [by destruct Hn|]. cbn [negb]. f_equal. by destruct k; [|apply IH].
Qed.

(** ** Times *)

Lemma Qtrunc_int q z : (q == inject_Z z)%Q -> Qtrunc q = z.
Proof.
  destruct q as [n d]. unfold Qeq, Qtrunc. simpl. rewrite Z.mul_1_r. intros ->. by apply Z.quot_mul.
Qed.

(** Whole seconds up to the year 9999 are converted exactly. *)
Lemma fromtimestamp_int q z : (q == inject_Z z)%Q -> (0 <= z <= 253402300799)%Z -> fromtimestamp (Fin q) = Ok (seconds z).
Proof.
  intros Hq Hz. unfold fromtimestamp. cbv zeta. rewrite (Qtrunc_int q z Hq).
  assert (R : Qred (q - inject_Z z) = 0%Q).
  { change 0%Q with (Qred 0). apply Qred_complete. rewrite Hq. ring. }
  rewrite R. replace (Qrne (fval (fmul (Fin 0) (of_Z 1000000)))) with 0%Z by (vm_compute; reflexivity).
  unfold seconds, min_datetime, max_datetime. rewrite Z.add_0_r.
  replace ((2 ^ 63 <=? z) || (z <? - 2 ^ 63))%Z with false by (symmetry; apply orb_false_iff; split; [apply Z.leb_gt|apply Z.ltb_ge]; lia).
  replace ((-62135596800000000 <=? z * 1000000) && (z * 1000000 <=? 253402300799999999))%Z with true; [done|].
  symmetry. apply andb_true_iff. split; apply Z.leb_le; lia.
Qed.

Lemma py_float_int z : (0 <= z <= 253402300799)%Z -> exists q, py_float (PInt z) = Ok (Fin q) /\ (q == inject_Z z)%Q.
Proof. intros Hz. destruct (of_Z_exact z) as (q & E & Hq); [lia|]. exists q. unfold py_float. by rewrite E. Qed.

(** ** Issued tokens at the guards *)

Section Guards.
Context {J : Jwt} (st : JwtSettings).

Lemma token_payload_exact subject roles permissions now ttl : json_exact (PDict (token_payload subject roles permissions now ttl)) = true.
Proof.
  assert (L : forall l, forallb json_exact (map PStr l) = true) by (intros l; by induction l).
  cbn [token_payload json_exact map fst snd forallb]. rewrite !L. reflexivity.
Qed.

Lemma texts_set l : py_set (PList (map PStr l)) = Ok (map PStr l).
Proof.
  unfold py_set. cbn [iterate]. unfold mbind, result_bind.
  assert (H : forallb hashable (map PStr l) = true) by (by induction l). by rewrite H.
Qed.

Lemma text_elem s l : PStr s ∈ map PStr l <-> s ∈ l.
Proof.
  rewrite !list_elem_of_In, in_map_iff. split; [by intros (x & [= ->] & H)|]. intros H. by exists s.
Qed.

Definition issued (now : datetime) (payload : dict) (roles permissions : list string) (request : AuthRequest) : Prop :=
  authenticated (jwt_decode now) st now request payload (map PStr permissions) (map PStr roles).

Lemma issued_current time subject roles permissions ttl token iat now request :
  issue_token st time subject roles permissions ttl = Ok token -> py_int (PFloat time) = Ok iat -> aq_credentials request = Some token ->
  (seconds iat <= now < seconds (iat + ttl))%Z -> (0 <= iat + ttl <= 253402300799)%Z ->
  issued now (token_payload subject roles permissions iat ttl) roles permissions request.
Proof.
  intros I T C N R. unfold issue_token in I. rewrite T in I. unfold mbind, result_bind in I.
  exists token. split; [done|]. split; [|split; [|split; apply texts_set]].
  - by apply (jwt_current _ _ _ _ _ iat (iat + ttl) I (token_payload_exact _ _ _ _ _)).
  - right. destruct (py_float_int (iat + ttl) R) as (q & F & Q). exists (Fin q), (seconds (iat + ttl)). split; [exact F|].
    split; [by apply fromtimestamp_int|lia].
Qed.
End Guards.

(** A token the library refuses is a 401 at every guard. *)
Lemma refused_token jwt_decode st now request token reason allowed_roles allowed_permissions why l :
  aq_credentials request = Some token -> jwt_decode token (JWT_SECRET st) (JWT_ALGORITHM st) = raise PyJWTError reason ->
  (require_access jwt_decode st now allowed_roles allowed_permissions why request l).2 = raise HTTPException "401: invalid token".
Proof.
  intros C D. rewrite require_access_eq. unfold authenticate. rewrite C.
  unfold mbind, se_bind, log, se_modify, decode_token. rewrite D. reflexivity.
Qed.

(** C22: a token issued for an operator opens exactly the guards its roles and
    permissions name, from the second it is issued until it expires, and its
    holder is then refused with 401 by every guard. *)
Theorem issued_token_opens_guards {J : Jwt} st time subject roles permissions ttl token :
  issue_token st time subject roles permissions ttl = Ok token ->
  exists iat payload, py_int (PFloat time) = Ok iat /\ pget "sub" payload = PStr subject /\
    forall now request l allowed_roles allowed_permissions reason, aq_credentials request = Some token -> (seconds iat <= now)%Z ->
      let answer := (require_access (jwt_decode now) st now allowed_roles allowed_permissions reason request l).2 in
      ((now < seconds (iat + ttl))%Z -> (0 <= iat + ttl <= 253402300799)%Z ->
         answer = Ok payload <-> (exists r, r ∈ allowed_roles /\ r ∈ roles) \/ (exists p, p ∈ allowed_permissions /\ p ∈ permissions)) /\
      ((seconds (iat + ttl) <= now)%Z -> answer = raise HTTPException "401: invalid token").
Proof.
  intros I. pose proof I as I0. unfold issue_token in I0. apply result_bind_ok in I0 as (iat & T & En).
  exists iat, (token_payload subject roles permissions iat ttl). split; [exact T|]. split; [done|].
  intros now request l allowed_roles allowed_permissions reason C N. cbv zeta. split.
  - intros X R. pose proof (issued_current st time subject roles permissions ttl token iat now request I T C (conj N X) R) as A.
    rewrite guard_grants_iff. setoid_rewrite <- (text_elem _ roles). setoid_rewrite <- (text_elem _ permissions). split.
    + intros (ps & rs & (token' & C' & D' & _ & P' & R') & H). destruct A as (token0 & C0 & D0 & _ & P0 & R0).
      rewrite P0 in P'. rewrite R0 in R'. injection P' as <-. injection R' as <-. exact H.
    + intros H. eexists _, _. split; [exact A|exact H].
  - intros X. eapply refused_token; [exact C|].
    by apply (jwt_expired _ _ _ _ _ iat (iat + ttl) En (token_payload_exact _ _ _ _ _)).
Qed.

(** A JWT library that signs nothing. *)
Definition plain_decode (now : datetime) (token : string) : result dict :=
  v ← loads token;
  match v with
  | PDict d =>
      match pget "iat" d, pget "exp" d with
      | PInt iat, PInt exp =>
          if (now <? seconds iat)%Z then raise PyJWTError "ImmatureSignatureError"
          else if (seconds exp <=? now)%Z then raise PyJWTError "ExpiredSignatureError" else Ok d
      | _, _ => Ok d
      end
  | _ => raise PyJWTError "DecodeError"
  end.

#[export, refine] Instance plain_jwt : Jwt := {
  jwt_encode payload _ _ := Ok (dumps_compact (PDict payload));
  jwt_decode now token _ _ := plain_decode now token;
  jwt_current := _; jwt_expired := _ }.
Proof.
  - intros now payload secret algorithm token iat exp En X [I E] [N1 N2]. assert (token = dumps_compact (PDict payload)) as -> by congruence.
    unfold plain_decode, mbind, result_bind. rewrite (proj1 (json_round_trip _ X)), I, E.
    by rewrite (proj2 (Z.ltb_ge _ _) N1), (proj2 (Z.leb_gt _ _) N2).
  - intros now payload secret algorithm token iat exp En X [I E] N1 N2. assert (token = dumps_compact (PDict payload)) as -> by congruence.
    unfold plain_decode, mbind, result_bind. rewrite (proj1 (json_round_trip _ X)), I, E.
    by rewrite (proj2 (Z.ltb_ge _ _) N1), (proj2 (Z.leb_le _ _) N2).
Defined.

(** The default token, issued at 1700000000.5 for a day. *)
Lemma issued_token_opens_guards_witness :
  let st := mkJwt "secret" "HS256" in
  exists token payload, Cli.main st (flit 34000000010 20) default_args = Ok token /\
    forall l, (require_risk_write (jwt_decode (seconds 1700000100)) st (seconds 1700000100) (mkAuthRequest "/x" None (Some token)) l).2 = Ok payload.
Proof.
  intros st. destruct (Cli.main st (flit 34000000010 20) default_args) as [token|e] eqn:M; [|exfalso; vm_compute in M; discriminate].
  unfold Cli.main in M. destruct (issued_token_opens_guards st _ _ _ _ _ token M) as (iat & payload & T & _ & G).
  exists token, payload. split; [reflexivity|]. intros l. vm_compute in T. injection T as <-.
  refine (proj2 (proj1 (G (seconds 1700000100) (mkAuthRequest "/x" None (Some token)) l _ _ _ eq_refl _) _ _) _).
  - vm_compute. discriminate.
  - vm_compute. reflexivity.
  - split; vm_compute; discriminate.
  - left. exists "platform_admin". split; [left|]. apply (bool_decide_unpack _). vm_compute. exact I.
Defined.

(** ** [cli/database.py] *)

(** The database as the two runners see it: each has its own history table. *)
Record Db : Type := mkDb { db_migrations : list string; db_seeds : list string; db_log : list string; db_calls : nat; db_output : list dict }.

Definition on_migrations {A} (m : SE Conn A) : SE Db A :=
  fun d => let '(c, r) := m (mkConn (db_migrations d) (db_log d) (db_calls d)) in
           (mkDb (cn_versions c) (db_seeds d) (cn_log c) (cn_calls c) (db_output d), r).
Definition on_seeds {A} (m : SE Conn A) : SE Db A :=
  fun d => let '(c, r) := m (mkConn (db_seeds d) (db_log d) (db_calls d)) in
           (mkDb (db_migrations d) (cn_versions c) (cn_log c) (cn_calls c) (db_output d), r).

Definition print_applied (name : string) (applied : list string) : SE Db unit :=
  se_modify (fun d => mkDb (db_migrations d) (db_seeds d) (db_log d) (db_calls d) (db_output d ++ [[(name, PList (map PStr applied))]])).

(** [_run] *)
Definition run_database (execute : nat -> string -> result unit) (has_table : list string -> string -> bool) (action : string) (migrations seeds : list Script) : SE Db unit :=
  _ ← (if bool_decide (action ∈ ["migrate"; "all"])
       then applied ← on_migrations (migrate execute has_table migrations); print_applied "migrations_applied" applied else mret tt);
  if bool_decide (action ∈ ["seed"; "all"]) then applied ← on_seeds (seed execute seeds); print_applied "seeds_applied" applied else mret tt.

(** Seeds are only applied to a migrated schema: when the migrations fail,
    nothing of either directory has been applied and nothing is printed. *)
Lemma all_stops_at_migrations execute has_table migrations seeds d d' e :
  on_migrations (migrate execute has_table migrations) d = (d', Err e) ->
  run_database execute has_table "all" migrations seeds d = (d', Err e) /\
  db_seeds d' = db_seeds d /\ db_migrations d' = db_migrations d /\ db_log d' = db_log d /\ db_output d' = db_output d.
Proof.
  intros M. split; [unfold run_database; rewrite (bool_decide_true ("all" ∈ ["migrate"; "all"])) by set_solver; unfold mbind, se_bind; by rewrite M|].
  unfold on_migrations in M. destruct (migrate execute has_table migrations _) as [c r] eqn:R. injection M as <- ->.
  by apply migrate_failed in R as [-> ->].
Qed.
