(* ===== verification/UnitOfWork.v ===== *)
(** * UnitOfWork: the audit hook of the database session ([db/session.py])

    A session holds the objects to insert, the changed ones and the ones to
    delete, as SQLAlchemy presents them to [after_flush]; objects are compared
    by identity, a number here. What SQLAlchemy does with the hook is the
    interface [Orm]. *)

From S2P Require Import Prelude.

#[local] Open Scope string_scope.
#[local] Open Scope list_scope.

(** ** Objects *)

Record AuditEntry : Type := mkEntry { ae_service : string; ae_action : string; ae_resource_type : string; ae_resource_id : string }.

(** An audit record, or an instance with its [__tablename__] and [id], either
    of which may be missing. *)
Inductive Object : Type :=
  | AuditObject (entry : AuditEntry)
  | Row (table : option string) (id : option string).

Definition Tracked : Type := nat * Object.

Record UnitOfWork : Type := mkSession {
  ss_actor_service : option string;
  ss_new : list Tracked; ss_dirty : list Tracked; ss_deleted : list Tracked;
  ss_audit_logs : list AuditEntry; ss_next : nat }.

(** [instance in collection], by identity *)
Definition tracked_in (o : Tracked) (l : list Tracked) : bool := existsb (fun o' => Nat.eqb o.1 o'.1) l.

(** ** The hook *)

Definition audit_action (s : UnitOfWork) (o : Tracked) : string :=
  if tracked_in o (ss_new s) then "INSERT" else if tracked_in o (ss_deleted s) then "DELETE" else "UPDATE".

(** One turn of the loop of [audit_flush]: what it adds for an object. *)
Definition audit_instance (s : UnitOfWork) (service : string) (o : Tracked) : list AuditEntry :=
  match o.2 with
  | AuditObject _ => []
  | Row (Some table) (Some id) => if String.eqb table "" then [] else [mkEntry service (audit_action s o) table id]
  | Row _ _ => []
  end.

Definition audit_flush (s : UnitOfWork) : list AuditEntry :=
  match ss_actor_service s with
  | None | Some "" => []
  | Some service => concat (map (audit_instance s service) (ss_new s ++ ss_dirty s ++ ss_deleted s))
  end.

(** ** Flush and commit *)

Definition is_clean (s : UnitOfWork) : bool :=
  match ss_new s, ss_dirty s, ss_deleted s with [], [], [] => true | _, _, _ => false end.

(** The audit records among the objects to insert are written as they are. *)
Definition entries (l : list Tracked) : list AuditEntry :=
  concat (map (fun o => match o.2 with AuditObject e => [e] | Row _ _ => [] end) l).

Definition track (first : nat) (l : list AuditEntry) : list Tracked := zip (seq first (length l)) (map AuditObject l).

(** The session after a flush whose hook added [added]. *)
Definition flushed (s : UnitOfWork) (added : list AuditEntry) : UnitOfWork :=
  mkSession (ss_actor_service s) (track (ss_next s) added) [] [] (ss_audit_logs s ++ entries (ss_new s)) (ss_next s + length added).

(** SQLAlchemy's session: a flush of pending objects writes them, calls the
    hook and clears the collections; a commit flushes, up to a hundred times,
    until nothing is pending. *)
Class Orm : Type := {
  flush : UnitOfWork -> UnitOfWork;
  commit : UnitOfWork -> result UnitOfWork;
  flush_calls_hook s : is_clean s = false -> flush s = flushed s (audit_flush s);
  commit_flushes n s : (n <= 100)%nat -> is_clean (Nat.iter n flush s) = true -> (forall k, (k < n)%nat -> is_clean (Nat.iter k flush s) = false) ->
    commit s = Ok (Nat.iter n flush s) }.

(** ** What a commit records *)

(** The reference: each changed instance once, with what happened to it. *)
Definition changes (service : string) (s : UnitOfWork) : list AuditEntry :=
  let record (action : string) (o : Tracked) :=
    match o.2 with
    | Row (Some table) (Some id) => if String.eqb table "" then [] else [mkEntry service action table id]
    | _ => []
    end in
  concat (map (record "INSERT") (ss_new s)) ++ concat (map (record "UPDATE") (ss_dirty s)) ++ concat (map (record "DELETE") (ss_deleted s)).

(** The three collections hold each object once. *)
Definition disjoint_session (s : UnitOfWork) : Prop := NoDup (map fst (ss_new s ++ ss_dirty s ++ ss_deleted s)).

Lemma tracked_in_iff o l : tracked_in o l = true <-> o.1 ∈ map fst l.
Proof.
  unfold tracked_in. rewrite existsb_exists, list_elem_of_In, in_map_iff. setoid_rewrite Nat.eqb_eq. naive_solver.
Qed.

Lemma concat_map_ext {A B} (f g : A -> list B) l : (forall x, x ∈ l -> f x = g x) -> concat (map f l) = concat (map g l).
Proof. intros H. f_equal. apply map_ext_in. intros x Hx. by apply H, list_elem_of_In. Qed.

Lemma elem_fst (o : Tracked) l : o ∈ l -> o.1 ∈ map fst l.
Proof. rewrite !list_elem_of_In. apply in_map. Qed.

Lemma audit_flush_changes s service : ss_actor_service s = Some service -> service <> "" -> disjoint_session s ->
  audit_flush s = changes service s.
Proof.
  intros Hs Hne D. unfold audit_flush, changes. rewrite Hs. destruct service as [|c service]; [done|].
  rewrite !map_app, !concat_app. unfold disjoint_session in D. rewrite !map_app in D.
  apply NoDup_app in D as (_ & D1 & D2). apply NoDup_app in D2 as (_ & D2 & _).
  assert (N : forall o l, o.1 ∉ map fst l -> tracked_in o l = false).
  { intros o l H. destruct (tracked_in o l) eqn:E; [|done]. by apply tracked_in_iff in E. }
  f_equal; [|f_equal]; apply concat_map_ext; intros o Ho; unfold audit_instance, audit_action.
  - by rewrite (proj2 (tracked_in_iff o (ss_new s)) (elem_fst _ _ Ho)).
  - rewrite (N o (ss_new s)), (N o (ss_deleted s)); [done|by apply D2, elem_fst|].
    intros H. apply (D1 _ H), elem_of_app. left. by apply elem_fst.
  - rewrite (N o (ss_new s)), (proj2 (tracked_in_iff o (ss_deleted s)) (elem_fst _ _ Ho)); [done|].
    intros H. apply (D1 _ H), elem_of_app. right. by apply elem_fst.
Qed.

(** Audit records are not audited, so a second flush adds nothing. *)
Lemma audit_only s l : ss_new s = track (ss_next s - length l) l -> ss_dirty s = [] -> ss_deleted s = [] -> audit_flush s = [].
Proof.
  intros Hn Hd Hx. unfold audit_flush. destruct (ss_actor_service s) as [[|c service]|]; [done| |done].
  rewrite Hn, Hd, Hx, !app_nil_r. unfold track. generalize (ss_next s - length l)%nat. intros k.
  assert (G : forall (l : list AuditEntry) k s', concat (map (audit_instance s' (String c service)) (zip (seq k (length l)) (map AuditObject l))) = []); [|apply G].
  clear. induction l as [|e l IH]; intros k s'; [done|]. simpl. apply IH.
Qed.

Lemma entries_track k l : entries (track k l) = l.
Proof. unfold entries, track. revert k. induction l as [|e l IH]; intros k; [done|]. simpl. by rewrite IH. Qed.

Lemma track_nil k l : track k l = [] <-> l = [].
Proof. unfold track. by destruct l. Qed.

(** C26: a commit ends after at most two flushes of the session. What it
    leaves in the audit log is the audit records the code added itself,
    followed by one record for each inserted, changed and deleted instance,
    with the matching action; a session without a service adds none; and
    nothing stays pending. *)
Theorem commit_audits_every_change {O : Orm} s :
  disjoint_session s ->
  exists n s', (n <= 2)%nat /\ commit s = Ok s' /\ s' = Nat.iter n flush s /\ is_clean s' = true /\
    ss_audit_logs s' = ss_audit_logs s ++ entries (ss_new s) ++ match ss_actor_service s with Some (String c t) => changes (String c t) s | _ => [] end.
Proof.
  intros D.
  assert (A : audit_flush s = match ss_actor_service s with Some (String c t) => changes (String c t) s | _ => [] end).
  { destruct (ss_actor_service s) as [[|c t]|] eqn:E; [by unfold audit_flush; rewrite E|by apply audit_flush_changes|by unfold audit_flush; rewrite E]. }
  rewrite <- A. destruct (is_clean s) eqn:C.
  { exists 0%nat, s. split; [lia|]. split; [apply (commit_flushes 0); [lia|done|intros; lia]|]. split_and!; [done|done|].
    unfold is_clean in C. destruct (ss_new s) eqn:E1, (ss_dirty s) eqn:E2, (ss_deleted s) eqn:E3; try done.
    rewrite (audit_only s []) by done. by rewrite !app_nil_r. }
  pose proof (flush_calls_hook s C) as F1. destruct (is_clean (flush s)) eqn:C1.
  { exists 1%nat, (flush s). split; [lia|]. split; [apply (commit_flushes 1); [lia|done|intros [|k] ?; [exact C|lia]]|]. split_and!; [done|done|].
    rewrite F1 in C1 |- *. unfold is_clean in C1. cbn in C1 |- *. destruct (track _ _) eqn:T in C1; [|done]. apply track_nil in T as ->. by rewrite app_nil_r. }
  pose proof (flush_calls_hook (flush s) C1) as F2. rewrite (audit_only (flush s) (audit_flush s)) in F2 by (rewrite F1; cbn; done || (f_equal; lia)).
  exists 2%nat, (flush (flush s)). split; [lia|].
  split; [apply (commit_flushes 2); [lia|cbn; by rewrite F2|intros [|[|k]] ?; [exact C|exact C1|lia]]|]. split; [done|].
  rewrite F2. split; [done|]. cbn [flushed ss_audit_logs]. rewrite F1. cbn [flushed ss_audit_logs ss_new]. by rewrite entries_track, <- app_assoc.
Qed.

(** A session that does no more than this. *)
Fixpoint flush_until_clean (step : UnitOfWork -> UnitOfWork) (rounds : nat) (s : UnitOfWork) : result UnitOfWork :=
  if is_clean s then Ok s else
  match rounds with
  | O => raise RuntimeError "Over 100 subsequent flushes have occurred within session.commit()"
  | S rounds' => flush_until_clean step rounds' (step s)
  end.

Lemma flush_until_clean_iter step rounds n s : (n <= rounds)%nat -> is_clean (Nat.iter n step s) = true ->
  (forall k, (k < n)%nat -> is_clean (Nat.iter k step s) = false) -> flush_until_clean step rounds s = Ok (Nat.iter n step s).
Proof.
  revert rounds s. induction n as [|n IH]; intros rounds s Hr C L.
  - by destruct rounds; cbn in *; rewrite C.
  - destruct rounds as [|rounds]; [lia|]. cbn [flush_until_clean]. pose proof (L 0%nat ltac:(lia)) as L0. cbn in L0. rewrite L0. rewrite !Nat.iter_succ_r in *.
    apply IH; [lia|done|]. intros k Hk. specialize (L (S k) ltac:(lia)). by rewrite Nat.iter_succ_r in L.
Qed.

#[export, refine] Instance demo_orm : Orm := {
  flush s := if is_clean s then s else flushed s (audit_flush s);
  commit := flush_until_clean (fun s => if is_clean s then s else flushed s (audit_flush s)) 100;
  flush_calls_hook := _; commit_flushes := _ }.
Proof.
  - intros s C. cbv beta. by rewrite C.
  - intros n s. apply flush_until_clean_iter.
Defined.

Lemma commit_audits_every_change_witness :
  let s := mkSession (Some "api") [(0%nat, Row (Some "orders") (Some "o1")); (1%nat, AuditObject (mkEntry "api" "X" "t" "r"))]
             [(2%nat, Row (Some "positions") (Some "p1"))] [(3%nat, Row None (Some "z"))] [] 4 in
  exists s', commit s = Ok s' /\
    ss_audit_logs s' = [mkEntry "api" "X" "t" "r"; mkEntry "api" "INSERT" "orders" "o1"; mkEntry "api" "UPDATE" "positions" "p1"].
Proof.
  intros s. destruct (commit_audits_every_change s) as (n & s' & _ & C & _ & _ & L).
  - apply (bool_decide_unpack _). vm_compute. exact I.
  - exists s'. split; [exact C|exact L].
Defined.
