(* ===== verification/Columns.v ===== *)
(** * Columns: the portable column types ([db/models.py]) and the JSON
    payloads of the market data engine ([engines/market_data/engine.py])

    [PortableUUID] keeps an identifier as a UUID on PostgreSQL and as text
    elsewhere; [PortableJSON] makes a document JSON before it is bound. A UUID
    is its 128-bit integer. Python objects are [obj]; a set is the list of its
    elements in iteration order. *)

From Stdlib Require Import Ascii.
From S2P Require Import Prelude PyFloat PyDecimal PyData PyValue Models Crypto Signing Environment Json.

#[local] Open Scope string_scope.
#[local] Open Scope list_scope.

(** ** [uuid.UUID] *)

(** ['%0*x' % (n, z)] for [0 <= z < 16 ^ n] *)
Fixpoint hex_digits (n : nat) (z : Z) : string :=
  match n with
  | O => ""
  | S n' => hex_digits n' (z / 16) +:+ String (hex_digit (z mod 16)) ""
  end.

(** [str(u)] *)
Definition uuid_str (u : Z) : string :=
  let hex := hex_digits 32 u in
  let part from n := String.substring from n hex in
  part 0%nat 8%nat +:+ "-" +:+ part 8%nat 4%nat +:+ "-" +:+ part 12%nat 4%nat +:+ "-" +:+ part 16%nat 4%nat +:+ "-" +:+ part 20%nat 12%nat.

(** [int(s, 16)]: blanks around, a sign, a prefix and single underscores
    between digits are accepted. *)
Definition hex_val (c : ascii) : option Z :=
  let n := Z.of_nat (nat_of_ascii c) in
  if (48 <=? n)%Z && (n <=? 57)%Z then Some (n - 48)%Z
  else if (97 <=? n)%Z && (n <=? 102)%Z then Some (n - 87)%Z
  else if (65 <=? n)%Z && (n <=? 70)%Z then Some (n - 55)%Z
  else None.

Fixpoint hex_go (acc : Z) (digit_before : bool) (s : string) : option Z :=
  match s with
  | "" => if digit_before then Some acc else None
  | String c s' =>
      if Ascii.eqb c "_" then (if digit_before then hex_go acc false s' else None)
      else match hex_val c with Some d => hex_go (16 * acc + d)%Z true s' | None => None end
  end.

Definition hex_unsigned (s : string) : option Z :=
  match s with
  | String c0 (String c1 s') =>
      if Ascii.eqb c0 "0" && (Ascii.eqb c1 "x" || Ascii.eqb c1 "X")
      then match s' with
           | String c2 s'' => hex_go 0 false (if Ascii.eqb c2 "_" then s'' else s')
           | "" => None
           end
      else hex_go 0 false s
  | _ => hex_go 0 false s
  end.

Definition int16 (s : string) : option Z :=
  match str_strip s with
  | String c s' as t =>
      if Ascii.eqb c "-" then option_map Z.opp (hex_unsigned s')
      else if Ascii.eqb c "+" then hex_unsigned s' else hex_unsigned t
  | "" => None
  end.

(** [s.strip("{}")] *)
Definition is_brace (c : ascii) : bool := Ascii.eqb c "{" || Ascii.eqb c "}".
Fixpoint strip_left (s : string) : string :=
  match s with "" => "" | String c s' => if is_brace c then strip_left s' else s end.
Definition strip_braces (s : string) : string := str_rev_app (strip_left (str_rev_app (strip_left s) "")) "".

(** [uuid.UUID(text)] *)
Definition uuid_of_text (text : string) : result Z :=
  let hex := str_replace "-" "" (strip_braces (str_replace "uuid:" "" (str_replace "urn:" "" text))) in
  if negb (String.length hex =? 32)%nat then raise ValueError "badly formed hexadecimal UUID string"
  else match int16 hex with
       | None => raise ValueError "invalid literal for int() with base 16"
       | Some z => if (0 <=? z)%Z && (z <? 2 ^ 128)%Z then Ok z else raise ValueError "int is out of range (need a 128-bit value)"
       end.

(** ** [PortableUUID] *)

(** A value of the column: nothing, a [uuid.UUID], or another value with its
    text. *)
Inductive IdValue : Type := id_none | id_uuid (u : Z) | id_text (text : string).

Definition id_str (v : IdValue) : string :=
  match v with id_none => "None" | id_uuid u => uuid_str u | id_text t => t end.

Definition process_bind_param (value : IdValue) (dialect : string) : IdValue :=
  match value with
  | id_none => id_none
  | id_uuid u => if String.eqb dialect "postgresql" then id_uuid u else id_text (uuid_str u)
  | id_text t => id_text t
  end.

Definition process_result_value (value : IdValue) (dialect : string) : result IdValue :=
  match value with
  | id_none | id_uuid _ => Ok value
  | _ => u ← uuid_of_text (id_str value); Ok (id_uuid u)
  end.

Example uuid_examples :
  uuid_str 24197857161011715171395211673843554032 = "12345678-1234-5678-9234-5678123456f0"
  /\ uuid_of_text "{12345678-1234-5678-9234-5678123456F0}" = Ok 24197857161011715171395211673843554032%Z
  /\ is_ok (uuid_of_text "1234") = false.
Proof. vm_compute. split_and!; reflexivity. Qed.

(** ** Identifiers are read back *)

(** Text of hexadecimal digits. *)
Fixpoint hex_text (s : string) : bool :=
  match s with "" => true | String c s' => match hex_val c with Some _ => hex_text s' | None => false end end.

Lemma hex_val_digit d : (0 <= d < 16)%Z -> hex_val (hex_digit d) = Some d.
Proof.
  intros H. assert (d ∈ seqZ 0 16) as Hin by (apply elem_of_seqZ; lia). revert d Hin H.
  apply (Forall_forall (fun d => (0 <= d < 16)%Z -> hex_val (hex_digit d) = Some d)). repeat constructor; by intros.
Qed.

Lemma hex_text_app a b : hex_text (a +:+ b) = hex_text a && hex_text b.
Proof.
  induction a as [|c a IH]; [done|]. change (String c a +:+ b) with (String c (a +:+ b)). cbn [hex_text]. destruct (hex_val c); [exact IH|done].
Qed.

Lemma hex_digits_text n z : hex_text (hex_digits n z) = true.
Proof.
  revert z. induction n as [|n IH]; intros z; [done|]. cbn [hex_digits]. rewrite hex_text_app, IH. cbn [hex_text].
  by rewrite hex_val_digit by (apply Z.mod_pos_bound; lia).
Qed.

Lemma hex_digits_length n z : String.length (hex_digits n z) = n.
Proof. revert z. induction n as [|n IH]; intros z; [done|]. cbn [hex_digits]. rewrite str_length_app, IH. simpl. lia. Qed.

(** Characters that are not digits do not occur. *)
Lemma hex_text_free c s : hex_val c = None -> hex_text s = true -> str_contains c s = false.
Proof.
  intros Hc. induction s as [|a s IH]; [done|]. cbn [hex_text str_contains]. destruct (hex_val a) eqn:E; [|done]. intros H.
  rewrite (IH H), orb_false_r. apply Ascii.eqb_neq. by intros ->; rewrite Hc in E.
Qed.

Lemma contains_app c a b : str_contains c (a +:+ b) = str_contains c a || str_contains c b.
Proof.
  induction a as [|x a IH]; [done|]. change (String x a +:+ b) with (String x (a +:+ b)). cbn [str_contains]. by rewrite IH, orb_assoc.
Qed.

Lemma contains_substring c i n s : str_contains c s = false -> str_contains c (String.substring i n s) = false.
Proof.
  revert i n. induction s as [|a s IH]; intros i n; [by destruct i, n|]. cbn [str_contains]. intros [Ha Hs]%orb_false_iff.
  destruct i, n; cbn [String.substring str_contains]; [done|rewrite Ha; by apply IH|by apply IH|by apply IH].
Qed.

Lemma replace_absent c old new s : str_contains c s = false -> str_replace (String c old) new s = s.
Proof.
  unfold str_replace. induction s as [|a s IH]; [done|]. cbn [str_contains]. intros [Ha Hs]%orb_false_iff.
  cbn [str_replace_go String.prefix]. destruct (ascii_dec c a) as [->|]; [by rewrite Ascii.eqb_refl in Ha|]. by rewrite IH.
Qed.

Lemma remove_sep c a b : str_contains c a = false -> str_replace (String c "") "" (a +:+ String c "" +:+ b) = a +:+ str_replace (String c "") "" b.
Proof.
  change (String c "" +:+ b) with (String c b). unfold str_replace. induction a as [|x a IH]; cbn [str_contains].
  - intros _. change ("" +:+ String c b) with (String c b). cbn [str_replace_go String.prefix String.length Nat.sub].
    destruct (ascii_dec c c) as [_|n]; [|done]. by destruct b.
  - intros [Ha Hs]%orb_false_iff. change (String x a +:+ String c b) with (String x (a +:+ String c b)). cbn [str_replace_go String.prefix].
    destruct (ascii_dec c x) as [->|]; [by rewrite Ascii.eqb_refl in Ha|]. by rewrite IH.
Qed.

Lemma uuid_parts hex : String.length hex = 32%nat ->
  String.substring 0 8 hex +:+ String.substring 8 4 hex +:+ String.substring 12 4 hex +:+ String.substring 16 4 hex +:+ String.substring 20 12 hex = hex.
Proof. intros L. do 32 (destruct hex as [|? hex]; [done|]). by destruct hex. Qed.

Lemma hex_text_rev s acc : hex_text (str_rev_app s acc) = hex_text s && hex_text acc.
Proof.
  revert acc. induction s as [|c s IH]; intros acc; [done|]. cbn [str_rev_app]. rewrite IH. cbn [hex_text]. destruct (hex_val c); [done|by rewrite andb_false_r].
Qed.
Lemma contains_rev c s acc : str_contains c (str_rev_app s acc) = str_contains c s || str_contains c acc.
Proof.
  revert acc. induction s as [|a s IH]; intros acc; [done|]. cbn [str_rev_app str_contains]. rewrite IH. cbn [str_contains].
  destruct (Ascii.eqb c a), (str_contains c s); done.
Qed.

Lemma hex_char c : hex_val c <> None -> is_space c = false /\ Ascii.eqb c "_" = false /\ Ascii.eqb c "-" = false /\ Ascii.eqb c "+" = false
  /\ Ascii.eqb c "x" = false /\ Ascii.eqb c "X" = false.
Proof.
  intros H. split; [|split_and!; apply Ascii.eqb_neq; by intros ->].
  assert (N : (48 <= nat_of_ascii c)%nat).
  { unfold hex_val in H. cbv zeta in H. destruct (Nat.le_gt_cases 48 (nat_of_ascii c)) as [|L]; [done|]. exfalso. apply H.
    repeat match goal with |- context [(?k <=? Z.of_nat (nat_of_ascii c))%Z] => destruct (Z.leb_spec k (Z.of_nat (nat_of_ascii c))); [lia|] end. done. }
  unfold is_space. cbv zeta. destruct (Nat.leb_spec (nat_of_ascii c) 13); [lia|]. destruct (Nat.leb_spec (nat_of_ascii c) 32); [lia|]. by rewrite !andb_false_r.
Qed.

Lemma hex_text_cons c s : hex_text (String c s) = true -> hex_val c <> None /\ hex_text s = true.
Proof. cbn [hex_text]. by destruct (hex_val c). Qed.

Lemma hex_text_stripped s : hex_text s = true -> str_strip s = s.
Proof.
  assert (L : forall s, hex_text s = true -> str_lstrip s = s).
  { intros [|c t]; [done|]. intros [Hc _]%hex_text_cons. cbn [str_lstrip]. by rewrite (proj1 (hex_char c Hc)). }
  intros H. unfold str_strip. rewrite (L s H), (L (str_rev_app s "")); [apply str_rev_invol|]. by rewrite hex_text_rev, H.
Qed.

Lemma no_braces s : str_contains "{" s = false -> str_contains "}" s = false -> strip_braces s = s.
Proof.
  assert (L : forall s, str_contains "{" s = false -> str_contains "}" s = false -> strip_left s = s).
  { intros [|c t]; [done|]. cbn [str_contains strip_left]. intros [H1 _]%orb_false_iff [H2 _]%orb_false_iff. unfold is_brace.
    by rewrite Ascii.eqb_sym, H1, Ascii.eqb_sym, H2. }
  intros H1 H2. unfold strip_braces. rewrite (L s H1 H2), L; [apply str_rev_invol|by rewrite contains_rev, H1|by rewrite contains_rev, H2].
Qed.

(** The number a text of digits denotes. *)
Fixpoint hex_value (acc : Z) (s : string) : Z :=
  match s with "" => acc | String c s' => hex_value (16 * acc + default 0%Z (hex_val c)) s' end.

Lemma hex_go_value acc b s : hex_text s = true -> s <> "" \/ b = true -> hex_go acc b s = Some (hex_value acc s).
Proof.
  revert acc b. induction s as [|c s IH]; intros acc b H B; cbn [hex_go hex_value]; [destruct B as [|B]; [done|by rewrite B]|].
  apply hex_text_cons in H as [Hc H]. rewrite (proj1 (proj2 (hex_char c Hc))). destruct (hex_val c) as [d|]; [|done]. apply IH; [done|by right].
Qed.

Lemma hex_value_app acc a b : hex_value acc (a +:+ b) = hex_value (hex_value acc a) b.
Proof. revert acc. induction a as [|c a IH]; intros acc; [done|]. change (String c a +:+ b) with (String c (a +:+ b)). cbn [hex_value]. by rewrite IH. Qed.

Lemma hex_value_digits n z : hex_value 0 (hex_digits n z) = (z mod 16 ^ Z.of_nat n)%Z.
Proof.
  revert z. induction n as [|n IH]; intros z; [by rewrite Z.mod_1_r|]. cbn [hex_digits]. rewrite hex_value_app, IH. cbn [hex_value].
  rewrite hex_val_digit by (apply Z.mod_pos_bound; lia). cbn [default from_option]. rewrite Nat2Z.inj_succ, Z.pow_succ_r by lia.
  pose proof (Z.pow_pos_nonneg 16 (Z.of_nat n)) as P. rewrite (Z.rem_mul_r z 16) by lia. unfold id. lia.
Qed.

Lemma int16_hex s : hex_text s = true -> s <> "" -> int16 s = Some (hex_value 0 s).
Proof.
  intros H N. unfold int16. rewrite hex_text_stripped by done. destruct s as [|c s]; [done|].
  pose proof (hex_text_cons _ _ H) as [Hc Hs]. destruct (hex_char c Hc) as (_ & _ & -> & -> & _ & _).
  unfold hex_unsigned. destruct s as [|c1 s]; [by apply hex_go_value; [|left]|].
  pose proof (hex_text_cons _ _ Hs) as [Hc1 _]. destruct (hex_char c1 Hc1) as (_ & _ & _ & _ & -> & ->). cbn [orb]. rewrite andb_false_r.
  by apply hex_go_value; [|left].
Qed.

Lemma uuid_text_free c u : hex_val c = None -> c <> "-"%char -> str_contains c (uuid_str u) = false.
Proof.
  intros Hc Hd. unfold uuid_str.
  assert (F : forall i n, str_contains c (String.substring i n (hex_digits 32 u)) = false) by (intros i n; apply contains_substring, hex_text_free; [done|apply hex_digits_text]).
  rewrite !contains_app, !F. cbn [str_contains]. by rewrite (proj2 (Ascii.eqb_neq _ _) Hd).
Qed.

Lemma uuid_of_str u : (0 <= u < 2 ^ 128)%Z -> uuid_of_text (uuid_str u) = Ok u.
Proof.
  intros Hu. unfold uuid_of_text. rewrite (replace_absent "u" "rn:"), (replace_absent "u" "uid:"), no_braces by (by apply uuid_text_free).
  assert (R : str_replace "-" "" (uuid_str u) = hex_digits 32 u).
  { unfold uuid_str.
    assert (F : forall i n, str_contains "-" (String.substring i n (hex_digits 32 u)) = false)
      by (intros i n; apply contains_substring, hex_text_free; [done|apply hex_digits_text]).
    rewrite !remove_sep by apply F. rewrite replace_absent by apply F. apply uuid_parts, hex_digits_length. }
  rewrite R, hex_digits_length, int16_hex; [|apply hex_digits_text|intros E; pose proof (hex_digits_length 32 u) as L; by rewrite E in L].
  rewrite hex_value_digits. change (16 ^ Z.of_nat 32)%Z with (2 ^ 128)%Z. rewrite Z.mod_small by done. cbn [negb Nat.eqb].
  by rewrite (proj2 (Z.leb_le _ _) (proj1 Hu)), (proj2 (Z.ltb_lt _ _) (proj2 Hu)).
Qed.

(** An identifier is read back from the column as it was bound, on PostgreSQL
    and on databases that keep it as text. *)
Lemma identifier_round_trip u dialect : (0 <= u < 2 ^ 128)%Z ->
  process_result_value (process_bind_param (id_uuid u) dialect) dialect = Ok (id_uuid u).
Proof.
  intros Hu. cbn [process_bind_param]. destruct (String.eqb _ _); [done|]. cbn [process_result_value id_str]. by rewrite uuid_of_str.
Qed.

(** ** [PortableJSON] *)

Inductive key : Type := KNone | KBool (b : bool) | KInt (z : Z) | KStr (s : string) | KUuid (u : Z).

Inductive obj : Type :=
  | ONone | OBool (b : bool) | OInt (z : Z) | OFloat (x : float) | OStr (s : string) | ODec (d : dec)
  | ODatetime (t : datetime) | ODate (day : Z) | OUuid (u : Z)
  | OData (fields : list (string * obj))
  | ODict (entries : list (key * obj))
  | OList (items : list obj) | OTuple (items : list obj) | OSet (items : list obj).

Definition key_str (k : key) : string :=
  match k with KNone => "None" | KBool b => if b then "True" else "False" | KInt z => str_of_Z z | KStr s => s | KUuid u => uuid_str u end.

(** [date.isoformat()] *)
Definition date_iso (day : Z) : string :=
  let '(y, m, d) := civil_of_days day in pad 4 y +:+ "-" +:+ pad 2 m +:+ "-" +:+ pad 2 d.

(** A dict display: a later entry with the same key replaces the value. *)
Definition dict_of (l : list (string * obj)) : list (key * obj) :=
  map (fun kv => (KStr kv.1, kv.2)) (foldl (fun d kv => od_set kv.1 kv.2 d) [] l).

(** [_json_safe]; the fields of a dataclass are those of [asdict]. *)
Fixpoint json_safe (v : obj) : obj :=
  match v with
  | ODatetime t => OStr (isoformat t)
  | ODate day => OStr (date_iso day)
  | ODec d => OStr (dec_str d)
  | OUuid u => OStr (uuid_str u)
  | OData fields => ODict (dict_of (map (fun kv => (kv.1, json_safe kv.2)) fields))
  | ODict l => ODict (dict_of (map (fun kv => (key_str kv.1, json_safe kv.2)) l))
  | OList l | OTuple l | OSet l => OList (map json_safe l)
  | _ => v
  end.

(** [MarketDataEngine._json_safe], of the engine's own payloads *)
Fixpoint payload_json_safe (v : obj) : obj :=
  match v with
  | ODatetime t => OStr (isoformat t)
  | ODec d => OStr (dec_str d)
  | ODict l => ODict (dict_of (map (fun kv => (key_str kv.1, payload_json_safe kv.2)) l))
  | OList l | OTuple l => OList (map payload_json_safe l)
  | _ => v
  end.

(** What [json.dumps] is given: the JSON value of an object, for objects JSON
    has and keys that are text. *)
Fixpoint json_value (v : obj) : option pyval :=
  match v with
  | ONone => Some PNone
  | OBool b => Some (PBool b)
  | OInt z => Some (PInt z)
  | OFloat x => Some (PFloat x)
  | OStr s => Some (PStr s)
  | ODict l =>
      d ← (fix go (l : list (key * obj)) : option (list (string * pyval)) :=
             match l with
             | [] => Some []
             | (KStr k, x) :: l' => v ← json_value x; d ← go l'; Some ((k, v) :: d)
             | _ => None
             end) l;
      Some (PDict d)
  | OList l =>
      d ← (fix go (l : list obj) : option (list pyval) :=
             match l with [] => Some [] | x :: l' => v ← json_value x; d ← go l'; Some (v :: d) end) l;
      Some (PList d)
  | _ => None
  end.

(** No float inside. *)
Fixpoint exact (v : obj) : bool :=
  match v with
  | OFloat _ => false
  | OData l => forallb (fun kv => exact kv.2) l
  | ODict l => forallb (fun kv => exact kv.2) l
  | OList l | OTuple l | OSet l => forallb exact l
  | _ => true
  end.

(** Induction that goes inside containers. *)
Section ObjInd.
Context (P : obj -> Prop).
Context (P_leaf : forall v, match v with OData _ | ODict _ | OList _ | OTuple _ | OSet _ => True | _ => P v end).
Context (P_data : forall l, Forall (fun kv => P kv.2) l -> P (OData l)) (P_dict : forall l, Forall (fun kv => P kv.2) l -> P (ODict l)).
Context (P_list : forall l, Forall P l -> P (OList l)) (P_tuple : forall l, Forall P l -> P (OTuple l)) (P_set : forall l, Forall P l -> P (OSet l)).

Fixpoint obj_rect' (v : obj) : P v :=
  let each := fix each (l : list obj) : Forall P l := match l with [] => Forall_nil_2 _ | x :: l' => Forall_cons_2 _ _ _ (obj_rect' x) (each l') end in
  let snds {K} := fix snds (l : list (K * obj)) : Forall (fun kv => P kv.2) l :=
    match l with [] => Forall_nil_2 _ | kx :: l' => Forall_cons_2 _ kx _ (obj_rect' kx.2) (snds l') end in
  match v with
  | OData l => P_data l (snds l)
  | ODict l => P_dict l (snds l)
  | OList l => P_list l (each l)
  | OTuple l => P_tuple l (each l)
  | OSet l => P_set l (each l)
  | v' => P_leaf v'
  end.
End ObjInd.

(** *** Documents *)

Notation text_keys := (map (fun kv : string * obj => (KStr kv.1, kv.2))).
Notation merge := (foldl (fun d (kv : string * obj) => od_set kv.1 kv.2 d)).

Lemma merge_spec (Q : obj -> Prop) l d : Forall (fun kv => Q kv.2) l -> Forall (fun kv => Q kv.2) d -> NoDup (od_keys d) ->
  Forall (fun kv => Q kv.2) (merge d l) /\ NoDup (od_keys (merge d l)).
Proof.
  revert d. induction l as [|[k v] l IH]; intros d Hl Hd N; [done|]. inversion_clear Hl. cbn [foldl fst snd].
  apply IH; [done|by apply od_set_Forall|by apply od_set_NoDup].
Qed.

Lemma merge_distinct l d : NoDup (od_keys (d ++ l)) -> merge d l = d ++ l.
Proof.
  revert d. induction l as [|[k v] l IH]; intros d N; cbn [foldl fst snd]; [by rewrite app_nil_r|].
  rewrite od_keys_set_notin; [rewrite IH; [by rewrite <- app_assoc|by rewrite <- app_assoc]|].
  unfold od_keys in *. rewrite fmap_app in N. apply NoDup_app in N as (_ & N & _). intros Hk. apply (N k Hk). left.
Qed.

(** A safe object has a JSON value, exact if the object has no float, and is
    its own safe form. *)
Definition safe (e : bool) (v : obj) : Prop :=
  (exists w, json_value v = Some w /\ (e = true -> json_exact w = true)) /\ json_safe v = v.

Lemma safe_list e l : Forall (safe e) l -> safe e (OList l).
Proof.
  intros F. split.
  - induction F as [|v l [(w & W & X) _] F (d & D & Xd)]; [by exists (PList [])|]. cbn [json_value] in *.
    apply bind_Some in D as (ds & D & [= <-]). exists (PList (w :: ds)). unfold mbind, option_bind in *. rewrite W, D. split; [done|].
    intros He. cbn [json_exact forallb]. rewrite (X He). by apply (Xd He).
  - cbn [json_safe]. f_equal. induction F as [|v l [_ S] F IH]; [done|]. cbn [map]. by rewrite S, IH.
Qed.

Lemma safe_dict e d : Forall (fun kv => safe e kv.2) d -> NoDup (od_keys d) -> safe e (ODict (text_keys d)).
Proof.
  intros F N. split.
  - assert (G : exists ws, json_value (ODict (text_keys d)) = Some (PDict ws) /\ ws.*1 = d.*1 /\ (e = true -> forallb (fun kv => json_exact kv.2) ws = true)).
    { clear N. induction F as [|[k v] d [(w & W & X) _] F (ws & D & K & Xd)]; [by exists []|]. cbn [json_value map fst snd] in *.
      apply bind_Some in D as (ds & D & [= <-]). exists ((k, w) :: ds). unfold mbind, option_bind in *. rewrite W, D. split; [done|]. split; [cbn; by rewrite K|].
      intros He. cbn [forallb snd]. by rewrite (X He), (Xd He). }
    destruct G as (ws & W & K & X). exists (PDict ws). split; [done|]. intros He. cbn [json_exact]. rewrite (X He), andb_true_r.
    apply bool_decide_true. by rewrite K.
  - cbn [json_safe]. f_equal. unfold dict_of. rewrite map_map. cbn [fst snd key_str].
    assert (E : map (fun kv : string * obj => (kv.1, json_safe kv.2)) d = d).
    { clear N. induction F as [|[k v] d [_ S] F IH]; [done|]. cbn [map fst snd] in *. by rewrite S, IH. }
    rewrite E, (merge_distinct d []) by done. done.
Qed.

Lemma safe_merged {K} e (str : K -> string) (l : list (K * obj)) :
  Forall (fun kv => safe e (json_safe kv.2)) l -> safe e (ODict (dict_of (map (fun kv => (str kv.1, json_safe kv.2)) l))).
Proof.
  intros F. unfold dict_of. destruct (merge_spec (safe e) (map (fun kv => (str kv.1, json_safe kv.2)) l) []) as [S N]; [|constructor|constructor|by apply safe_dict].
  induction F; constructor; done.
Qed.

Lemma exact_each {A} e (f : A -> obj) (l : list A) :
  Forall (fun x => (e = true -> exact (f x) = true) -> safe e (json_safe (f x))) l -> (e = true -> forallb (fun x => exact (f x)) l = true) ->
  Forall (fun x => safe e (json_safe (f x))) l.
Proof.
  intros F X. induction F as [|x l Hx F IH]; constructor; (apply Hx || apply IH); intros He%X; cbn [forallb] in He; apply andb_true_iff in He; tauto.
Qed.

Lemma json_safe_safe e v : (e = true -> exact v = true) -> safe e (json_safe v).
Proof.
  assert (L : forall l, Forall (fun v => (e = true -> exact v = true) -> safe e (json_safe v)) l -> (e = true -> forallb exact l = true) ->
    safe e (OList (map json_safe l))).
  { intros l F X. apply safe_list, Forall_map. exact (exact_each e (fun v => v) l F X). }
  revert v. apply (obj_rect' (fun v => (e = true -> exact v = true) -> safe e (json_safe v))); [|intros l F X..].
  - intros v. destruct v; try done; intros X; cbn [json_safe]; (split; [|done]); eexists; (split; [reflexivity|]); by intros He%X.
  - by apply (safe_merged e (fun s => s)), exact_each.
  - by apply (safe_merged e key_str), exact_each.
  - by apply L.
  - by apply L.
  - by apply L.
Qed.


(** The payload of a ticker: what the engine makes safe itself is what the
    column type makes of it. *)
Fixpoint market_payload (v : obj) : bool :=
  match v with
  | ODate _ | OUuid _ | OData _ | OSet _ => false
  | ODict l => forallb (fun kv => market_payload kv.2) l
  | OList l | OTuple l => forallb market_payload l
  | _ => true
  end.

Lemma payload_safe v : market_payload v = true -> payload_json_safe v = json_safe v.
Proof.
  revert v. apply (obj_rect' (fun v => market_payload v = true -> payload_json_safe v = json_safe v)); [|intros l F X..].
  - by intros [].
  - done.
  - cbn [payload_json_safe json_safe]. do 2 f_equal. cbn [market_payload] in X. apply map_ext_in. intros kv Hin.
    rewrite Forall_forall in F. f_equal. apply F; [by apply list_elem_of_In|]. by rewrite forallb_forall in X; apply X.
  - cbn [payload_json_safe json_safe]. f_equal. cbn [market_payload] in X. apply map_ext_in. intros kv Hin.
    rewrite Forall_forall in F. apply F; [by apply list_elem_of_In|]. by rewrite forallb_forall in X; apply X.
  - cbn [payload_json_safe json_safe]. f_equal. cbn [market_payload] in X. apply map_ext_in. intros kv Hin.
    rewrite Forall_forall in F. apply F; [by apply list_elem_of_In|]. by rewrite forallb_forall in X; apply X.
  - done.
Qed.
