(* ===== verification/Stress.v ===== *)
(** * Stress: the stress harness ([stress/testing.py])

    The state under test is [S]; readings of [perf_counter] and of the clock
    are by tick. Every exception of the model is an [Exception], so the
    harness catches it. *)

From S2P Require Import Prelude Rounding PyFloat PyData PyValue Models Config Risk RateLimit.

#[local] Open Scope string_scope.
#[local] Open Scope list_scope.

Record StressResult : Type := mkStress {
  sr_name : string; sr_operations : Z; sr_errors : Z; sr_latency_p50_ms : float; sr_latency_p95_ms : float; sr_throughput_per_second : float }.

(** [statistics.median] of sorted, non-empty data *)
Definition median (data : list float) : float :=
  let n := length data in
  if Nat.odd n then nth (n / 2) data (of_Z 0)
  else fdiv (fadd (nth (n / 2 - 1) data (of_Z 0)) (nth (n / 2) data (of_Z 0))) (of_Z 2).

(** [min(len(data) - 1, int(len(data) * 0.95))] *)
Definition p95_index (n : nat) : result Z :=
  i ← py_int (PFloat (fmul (of_Z (Z.of_nat n)) (flit 95 100)));
  Ok (Z.min (Z.of_nat n - 1) i).

(** [data[i]] *)
Definition item (data : list float) (i : Z) : result float :=
  let k := if (i <? 0)%Z then (i + Z.of_nat (length data))%Z else i in
  if (k <? 0)%Z then raise IndexError "list index out of range"
  else match data !! Z.to_nat k with Some x => Ok x | None => raise IndexError "list index out of range" end.

(** [_result] *)
Definition stress_result (name : string) (operations errors : Z) (latencies : list float) (elapsed : float) : result StressResult :=
  let sorted_latencies := match sorted fle latencies with [] => [of_Z 0] | l => l end in
  i ← p95_index (length sorted_latencies);
  p95 ← item sorted_latencies i;
  throughput ← fdiv_chk (of_Z operations) elapsed;
  Ok (mkStress name operations errors (median sorted_latencies) p95 throughput).

Section Harness.
Context {S : Type} (perf : nat -> float).

Record Bench : Type := mkBench { bn_state : S; bn_tick : nat }.

Definition perf_counter : SE Bench float := fun b => (mkBench (bn_state b) (Datatypes.S (bn_tick b)), Ok (perf (bn_tick b))).

(** The operation succeeds or raises; what it changed stays. *)
Definition attempt (operation : SE S unit) : SE Bench bool :=
  fun b => let '(s, r) := operation (bn_state b) in (mkBench s (bn_tick b), Ok (is_ok r)).

(** [for index in range(count)] from [index] on: latencies and errors *)
Fixpoint run_operations (operation : nat -> SE S unit) (count index : nat) : SE Bench (list float * Z) :=
  match count with
  | O => mret ([], 0%Z)
  | Datatypes.S count' =>
      op_start ← perf_counter;
      succeeded ← attempt (operation index);
      op_end ← perf_counter;
      '(latencies, errors) ← run_operations operation count' (Datatypes.S index);
      mret (fmul (fsub op_end op_start) (of_Z 1000) :: latencies, ((if (succeeded : bool) then 0 else 1) + errors)%Z)
  end.

Definition high_frequency_orders (name : string) (count : nat) (operation : nat -> SE S unit) : SE Bench StressResult :=
  start ← perf_counter;
  '(latencies, errors) ← run_operations operation count 0;
  finish ← perf_counter;
  se_lift (stress_result name (Z.of_nat count) errors latencies (fmax (fsub finish start) (flit 1 1000000000))).

Definition exchange_disconnect (reconnect_operation : SE S unit) (attempts : nat) : SE Bench StressResult :=
  high_frequency_orders "exchange_disconnect" attempts (fun _ => reconnect_operation).

Definition latency_test (operation : SE S unit) (samples : nat) : SE Bench StressResult :=
  high_frequency_orders "latency" samples (fun _ => operation).

(** [asyncio.gather] of the handlers of a burst: they run one after another
    here; the first failure is raised, the others have run. *)
Definition gather (l : list (SE S unit)) : SE S unit :=
  fun s => foldl (fun '(s, r) m => let '(s', r') := m s in (s', match r with Ok _ => r' | Err e => Err e end)) (s, Ok tt) l.

Definition orderbook_burst (handler : dict -> SE S unit) (bursts messages_per_burst : nat) : SE Bench StressResult :=
  high_frequency_orders "orderbook_burst" bursts (fun index =>
    gather (map (fun item => handler [("sequence", PInt (Z.of_nat (index * messages_per_burst + item))); ("bids", PList []); ("asks", PList [])])
              (seq 0 messages_per_burst))).
End Harness.

(** ** The risk engine under stress *)

Definition risk_trigger_test (perf : nat -> float) (clock : nat -> datetime) (i : RiskOrderIntent) (iterations : nat) : SE (Bench (S := RiskEngine)) StressResult :=
  high_frequency_orders perf "risk_trigger" iterations (fun k =>
    _ ← evaluate_order (clock k) i (of_Z 0) (of_Z 0) 0 (of_Z 0); mret tt).

Definition circuit_breaker_test (clock : nat -> datetime) (breaker_name : string) (failures : nat) : SE RiskEngine bool :=
  _ ← se_iter (fun k => record_failure (clock k) breaker_name) (seq 0 failures);
  e ← se_get;
  match od_get breaker_name (rk_breakers e) with
  | None => se_raise KeyError breaker_name
  | Some b =>
      let '(b', open) := breaker_is_open (clock failures) b in
      _ ← se_put (set_breakers e (od_set breaker_name b' (rk_breakers e)));
      mret open
  end.

(** ** Every run is counted *)

Lemma Qtrunc_ge q k : (0 <= k)%Z -> (inject_Z k <= q)%Q -> (k <= Qtrunc q)%Z.
Proof.
  destruct q as [n d]. unfold Qle, Qtrunc. cbn [Qnum Qden inject_Z]. rewrite Z.mul_1_r. intros Hk H. assert (0 <= k * Z.pos d)%Z by (apply Z.mul_nonneg_nonneg; lia).
  rewrite Z.quot_div_nonneg by lia.
  apply Z.div_le_lower_bound; lia.
Qed.

(** The index of the 95th percentile is a position of the data, in its upper
    half. *)
Lemma p95_index_bounds n : (0 < n)%nat -> (Z.of_nat n < 2 ^ 52)%Z -> exists i, p95_index n = Ok i /\ (Z.of_nat n / 2 <= i < Z.of_nat n)%Z.
Proof.
  intros H0 H1. pose proof (Z.mul_div_le (Z.of_nat n) 2 ltac:(lia)) as Hd. pose proof (Z.div_pos (Z.of_nat n) 2 ltac:(lia) ltac:(lia)) as Hp.
  unfold p95_index. destruct (of_Z_exact (Z.of_nat n)) as (q & E & Hq); [lia|].
  destruct (flit 95 100) as [c| |] eqn:C; [|vm_compute in C; discriminate..].
  assert (Hc : (1 # 2 <= c <= 1)%Q) by (vm_compute in C; injection C as <-; split; vm_compute; discriminate).
  clear C. rewrite E. cbn [fmul]. clear E.
  assert (Hn : (0 <= inject_Z (Z.of_nat n))%Q) by (change 0%Q with (inject_Z 0); rewrite <- Zle_Qle; lia).
  assert (Hq0 : (0 <= q)%Q) by (by rewrite Hq). assert (L : (q * (1 # 2) <= q * c)%Q) by (rewrite (Qmult_comm q (1 # 2)), (Qmult_comm q c); apply Qmult_le_compat_r; [apply Hc|done]).
  assert (U : (0 <= q * c <= q)%Q) by (split; [apply Qmult_le_0_compat; [done|apply Qle_trans with (1 # 2); [done|apply Hc]]|]; rewrite <- (Qmult_1_r q) at 2; rewrite (Qmult_comm q c), (Qmult_comm q 1); apply Qmult_le_compat_r; [apply Hc|done]).
  destruct (of_Q_bnd 53 (q * c)) as [F _]; [lia| |].
  { unfold bnd, pow2. rewrite Qabs_pos by apply U. change (inject_Z 2 ^ 53)%Q with (inject_Z (2 ^ 53)).
    apply Qle_trans with q; [apply U|]. rewrite Hq, <- Zle_Qle. lia. }
  rewrite F. unfold py_int, mbind, result_bind. eexists. split; [reflexivity|].
  assert (R : (inject_Z (Z.of_nat n / 2) <= round64 (q * c))%Q).
  { assert (Hz : (round64 (inject_Z (Z.of_nat n / 2)) == inject_Z (Z.of_nat n / 2))%Q) by (apply round64_repr, repr64_Z; lia).
    rewrite <- Hz. apply round64_mono. apply Qle_trans with (q * (1 # 2))%Q; [|exact L].
    rewrite Hq. change (1 # 2)%Q with (/ 2)%Q. apply (Qle_shift_div_l _ _ 2); [done|]. change 2%Q with (inject_Z 2). rewrite <- inject_Z_mult, <- Zle_Qle. lia. }
  apply Qtrunc_ge in R; [|lia]. lia.
Qed.

Lemma item_in data i : (0 <= i < Z.of_nat (length data))%Z -> exists x, item data i = Ok x /\ x ∈ data.
Proof.
  intros H. unfold item. destruct (Z.ltb_spec i 0); [lia|]. destruct (Z.ltb_spec i 0); [lia|].
  destruct (lookup_lt_is_Some_2 data (Z.to_nat i)) as [x E]; [lia|]. exists x. rewrite E. split; [done|by eapply list_elem_of_lookup_2].
Qed.

(** The operations one after another: the final state and which succeeded. *)
Fixpoint runs {S} (operation : nat -> SE S unit) (count index : nat) (s : S) : S * list bool :=
  match count with
  | O => (s, [])
  | Datatypes.S count' => let '(s', r) := operation index s in let '(s2, l) := runs operation count' (Datatypes.S index) s' in (s2, is_ok r :: l)
  end.

Definition failures_in (l : list bool) : Z := Z.of_nat (length (List.filter negb l)).

Lemma run_operations_spec {S} perf (operation : nat -> SE S unit) count index b :
  exists latencies, length latencies = count /\
    run_operations perf operation count index b =
      (mkBench (runs operation count index (bn_state b)).1 (bn_tick b + 2 * count), Ok (latencies, failures_in (runs operation count index (bn_state b)).2)).
Proof.
  revert index b. induction count as [|count IH]; intros index b.
  - exists []. split; [done|]. cbn. rewrite Nat.add_0_r. by destruct b.
  - cbn [run_operations runs]. unfold mbind, se_bind, perf_counter, attempt. cbn [bn_state bn_tick].
    destruct (operation index (bn_state b)) as [s' r] eqn:O. cbn [bn_state bn_tick].
    edestruct (IH (Datatypes.S index)) as (latencies & Hl & ->). cbn [bn_state bn_tick].
    destruct (runs operation count (Datatypes.S index) s') as [s2 l] eqn:R. eexists. split; [|unfold mret, se_ret; f_equal; [apply f_equal2; [done|lia]|]].
    2: { apply f_equal, f_equal2; [reflexivity|]. cbn [snd]. unfold failures_in. destruct (is_ok r); cbn [List.filter negb length]; lia. }
    cbn [length]. by rewrite Hl.
Qed.

Lemma stress_result_ok name operations errors latencies x : (Z.of_nat (length latencies) < 2 ^ 52)%Z ->
  exists r, stress_result name operations errors latencies (fmax x (flit 1 1000000000)) = Ok r /\
    sr_operations r = operations /\ sr_errors r = errors /\ (sr_latency_p95_ms r ∈ latencies \/ latencies = []).
Proof.
  intros Hl. unfold stress_result. set (data := match sorted fle latencies with [] => [of_Z 0] | l => l end).
  assert (D : (0 < length data)%nat /\ (Z.of_nat (length data) < 2 ^ 52)%Z /\ (forall y, y ∈ data -> y ∈ latencies \/ latencies = [])).
  { pose proof (sorted_length fle latencies) as L. pose proof (sorted_perm fle latencies) as P. unfold data. destruct (sorted fle latencies) as [|y l] eqn:E.
    - split; [simpl; lia|]. split; [done|]. intros y _. right. by destruct latencies.
    - split; [simpl; lia|]. split; [by rewrite L|]. intros z Hz. left. by rewrite <- P. }
  destruct D as (D1 & D2 & D3). destruct (p95_index_bounds (length data) D1 D2) as (i & -> & Hi).
  pose proof (Z.div_pos (Z.of_nat (length data)) 2 ltac:(lia) ltac:(lia)) as Hp.
  destruct (item_in data i) as (p & Ip & Pin); [lia|]. unfold mbind, result_bind. rewrite Ip.
  assert (Z0 : feq (fmax x (flit 1 1000000000)) (Fin 0) = false).
  { destruct (flit 1 1000000000) as [c| |] eqn:C; [|vm_compute in C; discriminate..].
    assert (Hc : (0 < c)%Q) by (vm_compute in C; injection C as <-; reflexivity). clear C.
    assert (N : forall q, (c <= q)%Q -> Qeq_bool q 0 = false).
    { intros q L. destruct (Qeq_bool q 0) eqn:Q; [|done]. apply Qeq_bool_iff in Q. rewrite Q in L. exfalso. by apply (Qlt_not_le _ _ Hc). }
    unfold fmax. destruct (flt x (Fin c)) eqn:F; [by apply N, Qle_refl|]. destruct x as [q|[]|]; [|done..]. cbn [flt feq] in *.
    apply N. by apply negb_false_iff, Qle_bool_iff in F. }
  unfold fdiv_chk. rewrite Z0. eexists. split; [reflexivity|]. cbn. split_and!; [done|done|]. by apply D3.
Qed.

(** A stress run of fewer than 2^52 operations always ends with a result,
    whatever the operations do: every operation has run once and in order, the
    errors are the operations that raised, and the 95th percentile is one of
    the measured latencies. *)
Theorem stress_run_counts {S} perf name count (operation : nat -> SE S unit) b :
  (Z.of_nat count < 2 ^ 52)%Z ->
  exists r b' latencies, high_frequency_orders perf name count operation b = (b', Ok r) /\
    bn_state b' = (runs operation count 0 (bn_state b)).1 /\ length latencies = count /\
    sr_operations r = Z.of_nat count /\ sr_errors r = failures_in (runs operation count 0 (bn_state b)).2 /\
    (0 <= sr_errors r <= sr_operations r)%Z /\ (sr_latency_p95_ms r ∈ latencies \/ count = 0%nat).
Proof.
  intros Hc. unfold high_frequency_orders, mbind, se_bind, perf_counter.
  destruct (run_operations_spec perf operation count 0 (mkBench (bn_state b) (Datatypes.S (bn_tick b)))) as (latencies & Hl & ->).
  cbn [bn_state bn_tick]. unfold se_lift.
  destruct (stress_result_ok name (Z.of_nat count) (failures_in (runs operation count 0 (bn_state b)).2) latencies
    (fsub (perf (Datatypes.S (bn_tick b) + 2 * count)%nat) (perf (bn_tick b)))) as (r & -> & E1 & E2 & E3); [by rewrite Hl|].
  exists r. eexists _, latencies. split; [reflexivity|]. cbn [bn_state]. split_and!; [done|done|done|done| | |].
  - rewrite E2. unfold failures_in. lia.
  - rewrite E1, E2. unfold failures_in. apply inj_le. etransitivity; [apply filter_length_le|].
    assert (L : forall n k s, length (runs operation n k s).2 = n); [|by rewrite L].
    clear. induction n as [|n IH]; intros k s; cbn [runs]; [done|]. destruct (operation k s) as [s' x]. specialize (IH (Datatypes.S k) s').
    destruct (runs operation n _ s'). cbn in *. lia.
  - destruct E3 as [|E3]; [by left|]. right. by rewrite <- Hl, E3.
Qed.

Lemma stress_run_counts_witness :
  let operation (k : nat) : SE nat unit := fun s => (Datatypes.S s, if Nat.even k then Ok tt else raise RuntimeError "odd") in
  exists r b', high_frequency_orders (fun _ => of_Z 0) "t" 5 operation (mkBench 0%nat 0) = (b', Ok r) /\ bn_state b' = 5%nat /\ sr_errors r = 2%Z.
Proof.
  intros operation. destruct (stress_run_counts (fun _ => of_Z 0) "t" 5 operation (mkBench 0%nat 0)) as (r & b' & l & R & H1 & _ & _ & H2 & _).
  - vm_compute. reflexivity.
  - exists r, b'. split; [exact R|]. split; [exact H1|exact H2].
Defined.

(** ** The breaker test *)

(** A breaker that was closed, after [k] failures. *)
Definition after_failures (clock : nat -> datetime) (b : CircuitBreaker) (k : nat) : CircuitBreaker :=
  mkBreaker (cb_name b) (cb_threshold b) (cb_cooldown_seconds b) (Z.of_nat k)
    (if (cb_threshold b <=? Z.of_nat k)%Z then Some (clock (k - 1)%nat) else None).

Lemma se_iter_app {S A} (f : A -> SE S unit) l1 l2 s :
  se_iter f (l1 ++ l2) s = match se_iter f l1 s with (s', Ok _) => se_iter f l2 s' | (s', Err e) => (s', Err e) end.
Proof.
  revert s. induction l1 as [|x l1 IH]; intros s; [done|]. change ((x :: l1) ++ l2) with (x :: (l1 ++ l2)). cbn [se_iter]. unfold mbind, se_bind.
  destruct (f x s) as [s' [[]|e]]; [apply IH|done].
Qed.

Lemma failures_recorded clock name e b n : od_get name (rk_breakers e) = Some b -> cb_failures b = 0%Z -> cb_opened_at b = None -> (1 <= cb_threshold b)%Z ->
  exists e', se_iter (fun k => record_failure (clock k) name) (seq 0 n) e = (e', Ok tt) /\ od_get name (rk_breakers e') = Some (after_failures clock b n).
Proof.
  intros G F O T. induction n as [|n (e1 & R & G1)].
  - exists e. split; [done|]. rewrite G. f_equal. destruct b as [nm th cd f o]. cbn in *. subst. unfold after_failures. cbn.
    change (Z.of_nat 0) with 0%Z. by destruct (Z.leb_spec th 0); [lia|].
  - rewrite seq_S, se_iter_app, R. cbn [se_iter]. unfold record_failure, update_breaker, mbind, se_bind, se_get. rewrite G1. unfold se_put.
    eexists. split; [reflexivity|]. cbn [set_breakers rk_breakers]. rewrite od_get_set_eq. f_equal. unfold after_failures, breaker_failure.
    cbn [cb_name cb_threshold cb_cooldown_seconds cb_failures cb_opened_at].
    replace (Z.of_nat n + 1)%Z with (Z.of_nat (Datatypes.S n)) by lia. replace (Datatypes.S n - 1)%nat with n by lia. f_equal.
    destruct (Z.leb_spec (cb_threshold b) (Z.of_nat (Datatypes.S n))); [done|]. destruct (Z.leb_spec (cb_threshold b) (Z.of_nat n)); [lia|done].
Qed.

(** The breaker test on a closed breaker answers whether the failures reach
    the threshold, when it is polled before the cooldown is over. *)
Lemma breaker_test_threshold clock name e b n : od_get name (rk_breakers e) = Some b -> cb_failures b = 0%Z -> cb_opened_at b = None ->
  (1 <= cb_threshold b)%Z -> (clock n - clock (n - 1)%nat < seconds (cb_cooldown_seconds b))%Z ->
  (circuit_breaker_test clock name n e).2 = Ok (cb_threshold b <=? Z.of_nat n)%Z.
Proof.
  intros G F O T C. destruct (failures_recorded clock name e b n G F O T) as (e' & R & G').
  unfold circuit_breaker_test, mbind, se_bind. rewrite R. unfold se_get. rewrite G'. unfold breaker_is_open, after_failures. cbn.
  destruct (Z.leb_spec (cb_threshold b) (Z.of_nat n)); [|done]. destruct (Z.leb_spec (seconds (cb_cooldown_seconds b)) (clock n - clock (n - 1)%nat)); [lia|done].
Qed.
