(* ===== verification/Logging.v ===== *)
(** * Logging: JSON log lines ([observability/logging.py])

    A record is what [logging] gives the formatter: its creation time, level,
    logger, formatted message, the attributes of its [__dict__] (its own and
    those of [extra], which [logging] keeps apart from the names it reserves)
    and the formatted traceback, if any. *)

From S2P Require Import Prelude Rounding PyFloat PyDecimal PyData PyValue Models Access Json.

#[local] Open Scope string_scope.
#[local] Open Scope list_scope.

Definition RESERVED : list string :=
  ["name"; "msg"; "args"; "levelname"; "levelno"; "pathname"; "filename"; "module"; "exc_info"; "exc_text"; "stack_info"; "lineno"; "funcName";
   "created"; "msecs"; "relativeCreated"; "thread"; "threadName"; "processName"; "process"].

Record LoggedRecord : Type := mkLogged {
  lr_created : float; lr_levelname : string; lr_name : string; lr_message : string; lr_dict : dict; lr_exception : option string }.

Definition shown (key : string) : bool := negb (bool_decide (key ∈ RESERVED)) && negb (str_startswith "_" key).

(** The dict of [JsonFormatter.format] *)
Definition log_payload (timestamp : datetime) (record : LoggedRecord) : dict :=
  let base := [("timestamp", PStr (isoformat timestamp)); ("level", PStr (lr_levelname record)); ("logger", PStr (lr_name record)); ("message", PStr (lr_message record))] in
  let payload := foldl (fun d kv => if shown kv.1 then od_set kv.1 kv.2 d else d) base (lr_dict record) in
  match lr_exception record with Some text => od_set "exception" (PStr text) payload | None => payload end.

Definition format (record : LoggedRecord) : result string :=
  timestamp ← fromtimestamp (lr_created record);
  Ok (dumps_compact (PDict (log_payload timestamp record))).

(** ** Log lines *)

Lemma od_keys_set_elem k v (d : dict) x : x ∈ od_keys (od_set k v d) -> x = k \/ x ∈ od_keys d.
Proof.
  destruct (decide (k ∈ od_keys d)) as [H|H]; [rewrite od_keys_set_in by done; by right|].
  rewrite od_keys_set_notin by done. unfold od_keys. rewrite fmap_app, elem_of_app. intros [Hx|Hx]; [by right|left]. by apply list_elem_of_singleton in Hx.
Qed.

Notation exact_entries := (forallb (fun kv : string * pyval => json_exact kv.2)).

Lemma exact_set k v (d : dict) : json_exact v = true -> exact_entries d = true -> exact_entries (od_set k v d) = true.
Proof.
  intros Hv. induction d as [|[k' v'] d IH]; cbn [od_set forallb snd]; [by rewrite Hv|]. intros [H1 H2]%andb_true_iff.
  destruct (decide _); cbn [forallb snd]; [by rewrite Hv, H2|by rewrite H1, IH].
Qed.

Definition base_keys : list string := ["timestamp"; "level"; "logger"; "message"].

Section Payload.
Context (attributes : dict) (base : dict).
Notation payload := (foldl (fun d (kv : string * pyval) => if shown kv.1 then od_set kv.1 kv.2 d else d) base attributes).

Lemma payload_keys : NoDup (od_keys base) -> NoDup (od_keys payload) /\ forall k, k ∈ od_keys payload -> k ∈ od_keys base \/ (k ∈ od_keys attributes /\ shown k = true).
Proof.
  generalize base. clear base. induction attributes as [|[k v] l IH]; intros base N; cbn [foldl fst snd]; [split; [done|by left]|].
  destruct (shown k) eqn:S.
  - destruct (IH (od_set k v base)) as [N' K]; [by apply od_set_NoDup|]. split; [done|]. intros x Hx.
    destruct (K x Hx) as [Hin|[Hin Hs]]; [|right; split; [by right|done]].
    apply od_keys_set_elem in Hin as [->|Hin]; [right; split; [by left|done]|by left].
  - destruct (IH base N) as [N' K]. split; [done|]. intros x Hx. destruct (K x Hx) as [Hin|[Hin Hs]]; [by left|right; split; [by right|done]].
Qed.

Lemma payload_get k : k ∉ od_keys attributes -> od_get k payload = od_get k base.
Proof.
  generalize base. clear base. induction attributes as [|[k' v] l IH]; intros base N; cbn [foldl fst snd]; [done|].
  apply not_elem_of_cons in N as [N1 N2]. rewrite IH by done. destruct (shown k'); [|done]. by rewrite od_get_set_ne.
Qed.
End Payload.

(** A line is JSON: it is one document, whose keys are the four fields of the
    formatter, the attributes that are neither reserved nor private, and the
    exception; no reserved attribute reaches the line. *)
Lemma log_line_json record timestamp :
  fromtimestamp (lr_created record) = Ok timestamp -> forallb (fun kv => json_exact kv.2) (lr_dict record) = true ->
  exists line, format record = Ok line /\ loads line = Ok (PDict (log_payload timestamp record)) /\
    (forall k, k ∈ od_keys (log_payload timestamp record) -> k ∈ base_keys \/ k = "exception" \/ shown k = true) /\
    ("message" ∉ od_keys (lr_dict record) -> pget "message" (log_payload timestamp record) = PStr (lr_message record)).
Proof.
  intros T X. unfold format. rewrite T. eexists. split; [reflexivity|].
  set (base := [("timestamp", PStr (isoformat timestamp)); ("level", PStr (lr_levelname record)); ("logger", PStr (lr_name record)); ("message", PStr (lr_message record))]).
  destruct (payload_keys (lr_dict record) base) as [N K]; [apply (bool_decide_unpack _); vm_compute; exact I|].
  set (p := foldl _ base (lr_dict record)) in *.
  assert (E : exact_entries p = true).
  { unfold p. assert (B : exact_entries base = true) by done. clearbody base. clear N K p. revert base B.
    induction (lr_dict record) as [|[k v] l IH]; intros base B; cbn [foldl fst snd]; [done|]. cbn [forallb snd] in X. apply andb_true_iff in X as [X1 X2].
    apply IH; [done|]. destruct (shown k); [by apply exact_set|done]. }
  assert (Q : json_exact (PDict (log_payload timestamp record)) = true).
  { unfold log_payload. fold base. fold p. destruct (lr_exception record) as [t|]; cbn [json_exact]; apply andb_true_iff.
    - split; [apply bool_decide_true; by apply od_set_NoDup|by apply exact_set].
    - split; [by apply bool_decide_true|done]. }
  split; [by apply json_round_trip|]. unfold log_payload. fold base. fold p. split.
  - intros k Hk. assert (G : k ∈ od_keys p -> k ∈ base_keys \/ k = "exception" \/ shown k = true).
    { intros Hp. destruct (K k Hp) as [H|[_ H]]; [by left|by right; right]. }
    destruct (lr_exception record); [|by apply G]. apply od_keys_set_elem in Hk as [->|Hk]; [by right; left|by apply G].
  - intros M. unfold pget. assert (G : od_get "message" p = Some (PStr (lr_message record))) by (unfold p; by rewrite payload_get).
    destruct (lr_exception record); [rewrite od_get_set_ne by done|]; by rewrite G.
Qed.
