(* ===== verification/Relational.v ===== *)
(** * Relational: tables and what their declarations mean

    A language for table declarations, used by [Schema] for the models of
    db/models.py and for the tables of database/migrations. [admitted] is the
    documented meaning of a declaration: column types, NOT NULL, CHECK in the
    three-valued logic of SQL, keys in which NULL equals nothing, and foreign
    keys, all of which refer to the column [id]. The values of JSON documents,
    byte strings and network addresses are not looked at by any declaration. *)

From S2P Require Import Prelude PyData.

#[local] Open Scope string_scope.
#[local] Open Scope list_scope.

(** ** Values and rows *)

Inductive cell : Type :=
  | Null | CText (s : string) | CBool (b : bool) | CInt (z : Z) | CNum (q : Q) | CTime (t : Z) | CUuid (u : Z)
  | CJson (text : string) | CBytes (b : string).

(** The columns a statement gives a value to. *)
Notation row := (gmap string cell).
Definition cell_of (r : row) (c : string) : cell := default Null (r !! c).
Definition is_null (c : cell) : bool := match c with Null => true | _ => false end.

Inductive ColumnType : Type :=
  | Text | Citext | Varchar (n : Z) | Boolean | Integer | Numeric (precision scale : Z) | DateTime | Uuid | Json | Bytes | Inet
  | EnumOf (values : list string).
#[export] Instance ColumnType_eq_dec : EqDecision ColumnType.
Proof. solve_decision. Defined.

(** A numeric value is rounded to the scale and must then fit the precision. *)
Definition fits_numeric (precision scale : Z) (q : Q) : bool :=
  negb (Qle_bool (Qpower 10 (precision - scale) - Qpower 10 (- scale) / 2) (Qabs q)).

Definition fits (t : ColumnType) (c : cell) : bool :=
  match t, c with
  | _, Null => true
  | (Text | Citext | Inet), CText _ => true
  | Varchar n, CText s => (Z.of_nat (String.length s) <=? n)%Z
  | EnumOf values, CText s => bool_decide (s ∈ values)
  | Boolean, CBool _ | DateTime, CTime _ | Uuid, CUuid _ | Json, CJson _ | Bytes, CBytes _ => true
  | Integer, CInt z => (- 2 ^ 31 <=? z)%Z && (z <? 2 ^ 31)%Z
  | Numeric p s, CNum q => fits_numeric p s q
  | _, _ => false
  end.

(** Equality of two values of a column: [citext] ignores case. *)
Definition same_value (t : ColumnType) (a b : cell) : bool :=
  match a, b with
  | CText x, CText y => match t with Citext => String.eqb (str_lower x) (str_lower y) | _ => String.eqb x y end
  | CBool x, CBool y => Bool.eqb x y
  | CInt x, CInt y | CTime x, CTime y | CUuid x, CUuid y => (x =? y)%Z
  | CNum x, CNum y => Qeq_bool x y
  | CJson x, CJson y | CBytes x, CBytes y => String.eqb x y
  | _, _ => false
  end.

(** ** CHECK conditions *)

Inductive operand : Type := Col (c : string) | Lit (v : cell).
Inductive cond : Type :=
  | Gt (a b : operand) | Ge (a b : operand) | Ne (a b : operand)
  | OneOf (a : operand) (values : list string) | NotBlank (c : string) | IsNull (c : string)
  | Not (p : cond) | And (p q : cond) | Or (p q : cond).

Definition operand_value (r : row) (o : operand) : cell := match o with Col c => cell_of r c | Lit v => v end.
Definition number (c : cell) : option Q :=
  match c with CInt z | CTime z => Some (inject_Z z) | CNum q => Some q | _ => None end.
Definition compare_numbers (f : Q -> Q -> bool) (a b : cell) : option bool :=
  match number a, number b with Some x, Some y => Some (f x y) | _, _ => None end.

(** Unknown is [None]: it is neither true nor false. *)
Definition k_not (p : option bool) : option bool := negb <$> p.
Definition k_and (p q : option bool) : option bool :=
  match p, q with
  | Some false, _ | _, Some false => Some false
  | Some true, Some true => Some true
  | _, _ => None
  end.
Definition k_or (p q : option bool) : option bool := k_not (k_and (k_not p) (k_not q)).

(** [btrim(s) = '']: trimming removes spaces only. *)
Fixpoint blank (s : string) : bool :=
  match s with EmptyString => true | String c s' => Ascii.eqb c (Ascii.ascii_of_nat 32) && blank s' end.

Fixpoint eval (r : row) (p : cond) : option bool :=
  match p with
  | Gt a b => compare_numbers (fun x y => negb (Qle_bool x y)) (operand_value r a) (operand_value r b)
  | Ge a b => compare_numbers (fun x y => Qle_bool y x) (operand_value r a) (operand_value r b)
  | Ne a b => match operand_value r a, operand_value r b with
              | Null, _ | _, Null => None
              | x, y => Some (negb (same_value Text x y))
              end
  | OneOf a values => match operand_value r a with CText s => Some (bool_decide (s ∈ values)) | _ => None end
  | NotBlank c => match cell_of r c with CText s => Some (negb (blank s)) | _ => None end
  | IsNull c => Some (is_null (cell_of r c))
  | Not p => k_not (eval r p)
  | And p q => k_and (eval r p) (eval r q)
  | Or p q => k_or (eval r p) (eval r q)
  end.

(** A row is refused when a condition is false; unknown passes. *)
Definition passes (r : row) (p : cond) : bool := match eval r p with Some false => false | _ => true end.

(** ** Tables *)

(** Who gives a column its value when the code does not: nobody, SQLAlchemy
    ([default=]) or the database ([server_default=], DEFAULT). *)
Inductive Fill : Type := no_default | client_default | server_default.

Record Column : Type := mkColumn {
  cl_name : string; cl_type : ColumnType; cl_nullable : bool; cl_fill : Fill; cl_references : option string }.

Record Table : Type := mkTable {
  tb_name : string; tb_columns : list Column; tb_primary : list string; tb_unique : list (list string); tb_checks : list cond }.

Definition find_column (c : string) (t : Table) : option Column := List.find (fun cl => String.eqb (cl_name cl) c) (tb_columns t).
Definition find_table (n : string) (l : list Table) : option Table := List.find (fun t => String.eqb (tb_name t) n) l.
Definition column_type (t : Table) (c : string) : ColumnType := from_option cl_type Text (find_column c t).
Definition keys (t : Table) : list (list string) := tb_primary t :: tb_unique t.

Definition Contents : Type := string -> list row.

Definition column_ok (r : row) (cl : Column) : bool :=
  fits (cl_type cl) (cell_of r (cl_name cl)) && (cl_nullable cl || negb (is_null (cell_of r (cl_name cl)))).
Definition conflict (t : Table) (key : list string) (r r' : row) : bool :=
  forallb (fun c => same_value (column_type t c) (cell_of r c) (cell_of r' c)) key.
Definition key_free (db : Contents) (t : Table) (r : row) (key : list string) : bool := negb (existsb (conflict t key r) (db (tb_name t))).
Definition reference_ok (db : Contents) (r : row) (cl : Column) : bool :=
  match cl_references cl with
  | None => true
  | Some parent => is_null (cell_of r (cl_name cl)) || existsb (fun p => same_value Uuid (cell_of p "id") (cell_of r (cl_name cl))) (db parent)
  end.

(** Whether the table takes the row, given the rows stored so far. *)
Definition admitted (db : Contents) (t : Table) (r : row) : bool :=
  forallb (column_ok r) (tb_columns t) && forallb (passes r) (tb_checks t) && forallb (key_free db t r) (keys t) &&
  forallb (reference_ok db r) (tb_columns t).

(** ** Data definition *)

Inductive ddl : Type :=
  | CreateTable (if_not_exists : bool) (t : Table)
  | AddColumn (table : string) (cl : Column).  (** ADD COLUMN IF NOT EXISTS *)

Definition add_column (cl : Column) (t : Table) : Table :=
  if bool_decide (is_Some (find_column (cl_name cl) t)) then t
  else mkTable (tb_name t) (tb_columns t ++ [cl]) (tb_primary t) (tb_unique t) (tb_checks t).

Definition run_ddl (l : list Table) (s : ddl) : result (list Table) :=
  match s with
  | CreateTable if_not_exists t =>
      match find_table (tb_name t) l with
      | Some _ => if if_not_exists then Ok l else raise ValueError "relation already exists"
      | None => if forallb (fun cl => match cl_references cl with
                                      | Some p => String.eqb p (tb_name t) || bool_decide (is_Some (find_table p l))
                                      | None => true end) (tb_columns t)
                then Ok (l ++ [t]) else raise ValueError "relation does not exist"
      end
  | AddColumn n cl =>
      match find_table n l with
      | Some _ => Ok (map (fun t => if String.eqb (tb_name t) n then add_column cl t else t) l)
      | None => raise ValueError "relation does not exist"
      end
  end.

Fixpoint run_script (l : list Table) (ss : list ddl) : result (list Table) :=
  match ss with [] => Ok l | s :: ss' => l' ← run_ddl l s; run_script l' ss' end.

(** ** Comparing two declarations of a table *)

(** Values of the first type are values of the second, with a coarser equality. *)
Definition type_within (a b : ColumnType) : bool :=
  bool_decide (a = b) ||
  match a, b with
  | (Text | Citext), (Text | Citext) => match b with Text => true | _ => false end
  | EnumOf _, Text | Varchar _, Text => true
  | _, _ => false
  end.

(** [m] declares at least what [t] declares of the column. *)
Definition column_stricter (m : Table) (cl : Column) : bool :=
  match find_column (cl_name cl) m with
  | Some cm => type_within (cl_type cm) (cl_type cl) && (cl_nullable cl || negb (cl_nullable cm)) &&
               match cl_references cl with None => true | p => bool_decide (cl_references cm = p) end
  | None => false
  end.
Definition stricter (m t : Table) : bool :=
  String.eqb (tb_name m) (tb_name t) && forallb (column_stricter m) (tb_columns t) &&
  forallb (fun k => bool_decide (k ∈ keys m) && forallb (fun c => bool_decide (is_Some (find_column c t))) k) (keys t) &&
  match tb_checks t with [] => true | _ => false end.

(** A row as SQLAlchemy sends it for a model: only columns of the model, and a
    value for every NOT NULL column the database does not fill. *)
Definition sent (t : Table) (r : row) : Prop :=
  (forall c, is_Some (r !! c) -> is_Some (find_column c t)) /\
  Forall (fun cl => cl_nullable cl = false -> match cl_fill cl with
                    | server_default => r !! cl_name cl <> Some Null
                    | _ => is_null (cell_of r (cl_name cl)) = false end) (tb_columns t).

(** The database fills what the statement does not mention. *)
Definition fill_column (supply : string -> cell) (r : row) (cl : Column) : row :=
  match cl_fill cl, r !! cl_name cl with
  | server_default, None => <[cl_name cl := supply (cl_name cl)]> r
  | _, _ => r
  end.
Definition complete (m : Table) (supply : string -> cell) (r : row) : row := foldl (fill_column supply) r (tb_columns m).

Definition column_fillable (t : Table) (cm : Column) : bool :=
  cl_nullable cm ||
  match find_column (cl_name cm) t with
  | Some cl => negb (cl_nullable cl) && match cl_fill cl, cl_fill cm with server_default, server_default => true | server_default, _ => false | _, _ => true end
  | None => match cl_fill cm with server_default => true | _ => false end
  end.
Definition fillable (t m : Table) : bool := forallb (column_fillable t) (tb_columns m).

(** ** Lemmas *)

Lemma find_column_in c t cl : find_column c t = Some cl -> cl ∈ tb_columns t /\ cl_name cl = c.
Proof. intros E. apply List.find_some in E as [I N]. split; [by apply list_elem_of_In|by apply String.eqb_eq]. Qed.

Lemma find_table_in n l t : find_table n l = Some t -> t ∈ l /\ tb_name t = n.
Proof. intros E. apply List.find_some in E as [I N]. split; [by apply list_elem_of_In|by apply String.eqb_eq]. Qed.

Lemma fits_within a b c : type_within a b = true -> fits a c = true -> fits b c = true.
Proof.
  unfold type_within. destruct (bool_decide (a = b)) eqn:E; [apply bool_decide_eq_true in E as ->; done|].
  destruct a, b; cbn; try done; by destruct c.
Qed.

Lemma same_value_within a b x y : type_within a b = true -> same_value b x y = true -> same_value a x y = true.
Proof.
  unfold type_within. destruct (bool_decide (a = b)) eqn:E; [apply bool_decide_eq_true in E as ->; done|].
  destruct a, b; cbn; try done; destruct x, y; cbn; try done.
  intros _ ->%String.eqb_eq. apply String.eqb_refl.
Qed.

Lemma stricter_column m t cl : stricter m t = true -> cl ∈ tb_columns t ->
  exists cm, find_column (cl_name cl) m = Some cm /\ type_within (cl_type cm) (cl_type cl) = true /\
    (cl_nullable cm = true -> cl_nullable cl = true) /\ (cl_references cl = None \/ cl_references cm = cl_references cl).
Proof.
  intros S I. unfold stricter in S. rewrite !andb_true_iff in S. destruct S as [[[_ S] _] _].
  rewrite forallb_forall in S. specialize (S cl (proj1 (list_elem_of_In _ _) I)). unfold column_stricter in S.
  destruct (find_column (cl_name cl) m) as [cm|] eqn:E; [|done]. rewrite !andb_true_iff in S. destruct S as [[T N] R].
  exists cm. split_and!; [done|done|by destruct (cl_nullable cl), (cl_nullable cm)|].
  destruct (cl_references cl); [right; by apply bool_decide_eq_true in R|by left].
Qed.

(** Rows that clash under the model's key clash under the stricter one's. *)
Lemma conflict_within m t key r r' : stricter m t = true ->
  forallb (fun c => bool_decide (is_Some (find_column c t))) key = true -> conflict t key r r' = true -> conflict m key r r' = true.
Proof.
  intros S. unfold conflict. rewrite !forallb_forall. intros F C c I. specialize (C c I). specialize (F c I).
  apply bool_decide_eq_true in F as [cl F]. unfold column_type in *. rewrite F in C. cbn in C.
  destruct (find_column_in _ _ _ F) as [Icl N]. destruct (stricter_column m t cl S Icl) as (cm & E & T & _). rewrite N in E.
  rewrite E. cbn. by eapply same_value_within.
Qed.

Lemma stricter_keys m t key : stricter m t = true -> key ∈ keys t ->
  key ∈ keys m /\ forallb (fun c => bool_decide (is_Some (find_column c t))) key = true.
Proof.
  intros S I. unfold stricter in S. rewrite !andb_true_iff in S. destruct S as [[_ S] _]. rewrite forallb_forall in S.
  specialize (S key (proj1 (list_elem_of_In _ _) I)). rewrite andb_true_iff in S. destruct S as [S ?]. by apply bool_decide_eq_true in S.
Qed.

(** What the stricter table takes, the other takes. *)
Lemma stricter_admitted db m t r : stricter m t = true -> admitted db m r = true -> admitted db t r = true.
Proof.
  intros S A. unfold admitted in *. rewrite !andb_true_iff, !forallb_forall in *. destruct A as [[[C _] K] R].
  assert (M : forall cl, In cl (tb_columns t) -> exists cm, In cm (tb_columns m) /\ cl_name cm = cl_name cl /\
    type_within (cl_type cm) (cl_type cl) = true /\ (cl_nullable cm = true -> cl_nullable cl = true) /\
    (cl_references cl = None \/ cl_references cm = cl_references cl)).
  { intros cl I. destruct (stricter_column m t cl S (proj2 (list_elem_of_In _ _) I)) as (cm & F & rest).
    apply find_column_in in F as [J N]. exists cm. split; [by apply list_elem_of_In|]. by split. }
  split_and!.
  - intros cl I. destruct (M cl I) as (cm & J & N & T & L & _). specialize (C cm J). unfold column_ok in *. rewrite N in C.
    apply andb_true_iff in C as [Cf Cn]. apply andb_true_iff. split; [by eapply fits_within|].
    destruct (cl_nullable cm) eqn:E; [by rewrite L|]. cbn in Cn. by rewrite Cn, orb_true_r.
  - unfold stricter in S. rewrite !andb_true_iff in S. destruct S as [_ S]. by destruct (tb_checks t).
  - intros key I. destruct (stricter_keys m t key S (proj2 (list_elem_of_In _ _) I)) as [J F]. specialize (K key (proj1 (list_elem_of_In _ _) J)).
    assert (N : tb_name m = tb_name t) by (unfold stricter in S; rewrite !andb_true_iff in S; destruct S as [[[S _] _] _]; by apply String.eqb_eq).
    unfold key_free in *. rewrite N in K. rewrite negb_true_iff in *. apply not_true_iff_false. intros E.
    apply existsb_exists in E as (r' & Ir & E). apply not_true_iff_false in K. apply K, existsb_exists. exists r'.
    split; [done|]. by eapply conflict_within.
  - intros cl I. destruct (M cl I) as (cm & J & N & _ & _ & [E|E]); specialize (R cm J); unfold reference_ok in *; [by rewrite E|].
    by rewrite <- E, <- N.
Qed.

(** Filling changes only the columns that had no value. *)
Lemma fill_column_lookup supply r cl c : fill_column supply r cl !! c =
  match r !! c with
  | Some v => Some v
  | None => if bool_decide (c = cl_name cl) then match cl_fill cl with server_default => Some (supply c) | _ => None end else None
  end.
Proof.
  unfold fill_column. case_bool_decide as D.
  - subst c. destruct (cl_fill cl), (r !! cl_name cl) eqn:E; rewrite ?E; try done. by rewrite lookup_insert_eq.
  - assert (E : forall x : option cell, match x with Some v => Some v | None => None end = x) by (by intros []). rewrite E.
    destruct (cl_fill cl), (r !! cl_name cl); try done. by rewrite lookup_insert_ne.
Qed.

Lemma fill_columns_keep supply cls r c v : r !! c = Some v -> foldl (fill_column supply) r cls !! c = Some v.
Proof. revert r. induction cls as [|cl cls IH]; intros r E; [done|]. apply IH. by rewrite fill_column_lookup, E. Qed.

Lemma fill_columns_filled supply cls r cl : cl ∈ cls -> cl_fill cl = server_default -> r !! cl_name cl = None ->
  foldl (fill_column supply) r cls !! cl_name cl = Some (supply (cl_name cl)).
Proof.
  revert r. induction cls as [|cl' cls IH]; intros r I F N; [by apply not_elem_of_nil in I|]. cbn.
  destruct (fill_column supply r cl' !! cl_name cl) as [v|] eqn:E.
  - rewrite (fill_columns_keep _ _ _ _ v E), <- E, fill_column_lookup, N.
    rewrite fill_column_lookup, N in E. case_bool_decide; [|done]. by destruct (cl_fill cl').
  - apply IH; [|done..]. apply elem_of_cons in I as [->|I]; [|done].
    rewrite fill_column_lookup, N, bool_decide_eq_true_2, F in E by done. done.
Qed.

(** Every NOT NULL column of a table gets a value from what a model sends and
    what the database fills. *)
Lemma fillable_complete t m supply r cm : fillable t m = true -> sent t r -> (forall c, is_null (supply c) = false) ->
  cm ∈ tb_columns m -> cl_nullable cm = false -> is_null (cell_of (complete m supply r) (cl_name cm)) = false.
Proof.
  intros F [D S] P I N. unfold fillable in F. rewrite forallb_forall in F. specialize (F cm (proj1 (list_elem_of_In _ _) I)).
  unfold column_fillable in F. rewrite N in F. cbn in F. unfold complete, cell_of.
  assert (Filled : r !! cl_name cm = None -> cl_fill cm = server_default ->
    is_null (default Null (foldl (fill_column supply) r (tb_columns m) !! cl_name cm)) = false).
  { intros E Fm. rewrite fill_columns_filled by done. apply P. }
  destruct (find_column (cl_name cm) t) as [cl|] eqn:E.
  - apply find_column_in in E as [Icl Ncl]. rewrite Forall_forall in S. specialize (S cl Icl). rewrite Ncl in S.
    apply andb_true_iff in F as [F1 F2]. apply negb_true_iff in F1. specialize (S F1). unfold cell_of in S.
    destruct (r !! cl_name cm) as [v|] eqn:E.
    + rewrite (fill_columns_keep _ _ _ _ v E). destruct (cl_fill cl); try done. by destruct v.
    + destruct (cl_fill cl); try done. apply Filled; [done|]. by destruct (cl_fill cm).
  - assert (E' : r !! cl_name cm = None) by (destruct (r !! cl_name cm) eqn:R; [|done]; destruct (D (cl_name cm)); by eauto || congruence).
    apply Filled; [done|]. by destruct (cl_fill cm).
Qed.
