(* ===== verification/Schema.v ===== *)
(** * Schema: the models of db/models.py and the tables of database/migrations

    The database is declared twice. Tests create it from the models
    ([Base.metadata.create_all]), a deployment runs the migrations, and the
    code sends rows of the models to either. [models] is the first declaration
    and [migrated] the second, after the three scripts. Referential actions
    (ON DELETE), indexes, triggers and the permission rows of the second script
    are not part of these declarations. [models_fit_migrations] compares the
    two; [paper_orders_pass_checks] shows that the orders the paper engine
    stores satisfy the checks only the migrations declare. *)

From S2P Require Import Prelude PyData PyDecimal Models Store Paper CoinstoreRules ConfigStore Migrations Relational.

#[local] Open Scope string_scope.
#[local] Open Scope list_scope.

(** ** The models *)

Definition user_status_values : list string := ["active"; "inactive"; "locked"; "pending"].
Definition bot_status_values : list string := ["draft"; "disabled"; "enabled"; "suspended"; "archived"].
Definition order_side_values : list string := ["buy"; "sell"].
Definition order_type_values : list string := ["limit"; "market"; "post_only"; "ioc"; "fok"].
Definition order_status_values : list string := ["created"; "submitted"; "open"; "partially_filled"; "filled"; "cancel_pending"; "cancelled"; "rejected"; "expired"; "failed"].
Definition risk_severity_values : list string := ["low"; "medium"; "high"; "critical"].
Definition position_side_values : list string := ["long"; "short"; "flat"].
Definition uuid_pk : Column := mkColumn "id" Uuid false client_default None.
Definition timestamps : list Column :=
  [mkColumn "created_at" DateTime false server_default None;
   mkColumn "updated_at" DateTime false server_default None].
Definition roles_model : Table := mkTable "roles"
  ([uuid_pk;
   mkColumn "name" Text false no_default None;
   mkColumn "description" Text true no_default None;
   mkColumn "is_system_role" Boolean false client_default None] ++ timestamps)
  ["id"] [["name"]] [].
Definition permissions_model : Table := mkTable "permissions"
  ([uuid_pk;
   mkColumn "name" Text false no_default None;
   mkColumn "resource" Text false no_default None;
   mkColumn "action" Text false no_default None;
   mkColumn "description" Text true no_default None] ++ timestamps)
  ["id"] [["name"]; ["resource"; "action"]] [].
Definition users_model : Table := mkTable "users"
  ([uuid_pk;
   mkColumn "email" (Varchar 320) false no_default None;
   mkColumn "display_name" Text false no_default None;
   mkColumn "password_hash" Text true no_default None;
   mkColumn "status" (EnumOf user_status_values) false client_default None;
   mkColumn "mfa_enabled" Boolean false client_default None;
   mkColumn "last_login_at" DateTime true no_default None] ++ timestamps)
  ["id"] [["email"]] [].
Definition user_roles_model : Table := mkTable "user_roles"
  ([mkColumn "user_id" Uuid false no_default (Some "users");
   mkColumn "role_id" Uuid false no_default (Some "roles");
   mkColumn "granted_by" Uuid true no_default (Some "users");
   mkColumn "granted_at" DateTime false server_default None])
  ["user_id"; "role_id"] [] [].
Definition role_permissions_model : Table := mkTable "role_permissions"
  ([mkColumn "role_id" Uuid false no_default (Some "roles");
   mkColumn "permission_id" Uuid false no_default (Some "permissions");
   mkColumn "granted_at" DateTime false server_default None])
  ["role_id"; "permission_id"] [] [].
Definition bot_configs_model : Table := mkTable "bot_configs"
  ([uuid_pk;
   mkColumn "name" Text false no_default None;
   mkColumn "version" Integer false client_default None;
   mkColumn "status" (EnumOf bot_status_values) false client_default None;
   mkColumn "config" Json false client_default None;
   mkColumn "risk_limits" Json false client_default None;
   mkColumn "created_by" Uuid true no_default (Some "users");
   mkColumn "approved_by" Uuid true no_default (Some "users");
   mkColumn "approved_at" DateTime true no_default None] ++ timestamps)
  ["id"] [["name"; "version"]] [].
Definition exchange_accounts_model : Table := mkTable "exchange_accounts"
  ([uuid_pk;
   mkColumn "exchange_name" Text false no_default None;
   mkColumn "account_alias" Text false no_default None;
   mkColumn "environment" Text false no_default None;
   mkColumn "api_key_ciphertext" Bytes false no_default None;
   mkColumn "api_secret_ciphertext" Bytes false no_default None;
   mkColumn "passphrase_ciphertext" Bytes true no_default None;
   mkColumn "encryption_key_id" Text false no_default None;
   mkColumn "permissions" Json false client_default None;
   mkColumn "is_enabled" Boolean false client_default None;
   mkColumn "rest_connected" Boolean false client_default None;
   mkColumn "websocket_connected" Boolean false client_default None;
   mkColumn "private_ws_connected" Boolean false client_default None;
   mkColumn "connection_status" Text false client_default None;
   mkColumn "last_tested_at" DateTime true no_default None;
   mkColumn "last_success_at" DateTime true no_default None;
   mkColumn "last_failure_at" DateTime true no_default None;
   mkColumn "last_error_message" Text true no_default None] ++ timestamps)
  ["id"] [["exchange_name"; "account_alias"; "environment"]] [].
Definition trading_pairs_model : Table := mkTable "trading_pairs"
  ([uuid_pk;
   mkColumn "exchange_name" Text false no_default None;
   mkColumn "base_asset" Text false no_default None;
   mkColumn "quote_asset" Text false no_default None;
   mkColumn "normalized_symbol" Text false no_default None;
   mkColumn "venue_symbol" Text false no_default None;
   mkColumn "price_precision" Integer false no_default None;
   mkColumn "quantity_precision" Integer false no_default None;
   mkColumn "min_order_size" (Numeric 38 18) true no_default None;
   mkColumn "min_notional" (Numeric 38 18) true no_default None;
   mkColumn "tick_size" (Numeric 38 18) true no_default None;
   mkColumn "lot_size" (Numeric 38 18) true no_default None;
   mkColumn "is_enabled" Boolean false client_default None] ++ timestamps)
  ["id"] [["exchange_name"; "venue_symbol"]] [].
Definition orders_model : Table := mkTable "orders"
  ([uuid_pk;
   mkColumn "client_order_id" Text false no_default None;
   mkColumn "exchange_order_id" Text true no_default None;
   mkColumn "exchange_account_id" Uuid false no_default (Some "exchange_accounts");
   mkColumn "trading_pair_id" Uuid false no_default (Some "trading_pairs");
   mkColumn "bot_config_id" Uuid true no_default (Some "bot_configs");
   mkColumn "side" (EnumOf order_side_values) false no_default None;
   mkColumn "order_type" (EnumOf order_type_values) false no_default None;
   mkColumn "status" (EnumOf order_status_values) false client_default None;
   mkColumn "price" (Numeric 38 18) true no_default None;
   mkColumn "quantity" (Numeric 38 18) false no_default None;
   mkColumn "filled_quantity" (Numeric 38 18) false client_default None;
   mkColumn "average_fill_price" (Numeric 38 18) true no_default None;
   mkColumn "fee_amount" (Numeric 38 18) false client_default None;
   mkColumn "fee_asset" Text true no_default None;
   mkColumn "submitted_at" DateTime true no_default None;
   mkColumn "last_exchange_update_at" DateTime true no_default None;
   mkColumn "metadata" Json false client_default None] ++ timestamps)
  ["id"] [["client_order_id"]] [].
Definition trades_model : Table := mkTable "trades"
  ([uuid_pk;
   mkColumn "order_id" Uuid false no_default (Some "orders");
   mkColumn "exchange_trade_id" Text false no_default None;
   mkColumn "exchange_account_id" Uuid false no_default (Some "exchange_accounts");
   mkColumn "trading_pair_id" Uuid false no_default (Some "trading_pairs");
   mkColumn "side" (EnumOf order_side_values) false no_default None;
   mkColumn "price" (Numeric 38 18) false no_default None;
   mkColumn "quantity" (Numeric 38 18) false no_default None;
   mkColumn "fee_amount" (Numeric 38 18) false client_default None;
   mkColumn "fee_asset" Text true no_default None;
   mkColumn "traded_at" DateTime false no_default None;
   mkColumn "created_at" DateTime false server_default None;
   mkColumn "metadata" Json false client_default None])
  ["id"] [["exchange_account_id"; "exchange_trade_id"]] [].
Definition positions_model : Table := mkTable "positions"
  ([uuid_pk;
   mkColumn "exchange_account_id" Uuid false no_default (Some "exchange_accounts");
   mkColumn "trading_pair_id" Uuid false no_default (Some "trading_pairs");
   mkColumn "asset" Text false no_default None;
   mkColumn "side" (EnumOf position_side_values) false client_default None;
   mkColumn "quantity" (Numeric 38 18) false client_default None;
   mkColumn "average_entry_price" (Numeric 38 18) true no_default None;
   mkColumn "realized_pnl" (Numeric 38 18) false client_default None;
   mkColumn "unrealized_pnl" (Numeric 38 18) false client_default None;
   mkColumn "mark_price" (Numeric 38 18) true no_default None;
   mkColumn "as_of" DateTime false server_default None] ++ timestamps)
  ["id"] [["exchange_account_id"; "trading_pair_id"; "asset"]] [].
Definition inventory_snapshots_model : Table := mkTable "inventory_snapshots"
  ([uuid_pk;
   mkColumn "exchange_account_id" Uuid false no_default (Some "exchange_accounts");
   mkColumn "bot_config_id" Uuid true no_default (Some "bot_configs");
   mkColumn "asset" Text false no_default None;
   mkColumn "total_balance" (Numeric 38 18) false no_default None;
   mkColumn "available_balance" (Numeric 38 18) false no_default None;
   mkColumn "reserved_balance" (Numeric 38 18) false client_default None;
   mkColumn "valuation_asset" Text false no_default None;
   mkColumn "valuation_price" (Numeric 38 18) true no_default None;
   mkColumn "valuation_amount" (Numeric 38 18) true no_default None;
   mkColumn "captured_at" DateTime false no_default None;
   mkColumn "created_at" DateTime false server_default None;
   mkColumn "metadata" Json false client_default None])
  ["id"] [] [].
Definition market_data_model : Table := mkTable "market_data"
  ([uuid_pk;
   mkColumn "exchange_name" Text false no_default None;
   mkColumn "trading_pair_id" Uuid false no_default (Some "trading_pairs");
   mkColumn "data_type" Text false no_default None;
   mkColumn "bid_price" (Numeric 38 18) true no_default None;
   mkColumn "bid_size" (Numeric 38 18) true no_default None;
   mkColumn "ask_price" (Numeric 38 18) true no_default None;
   mkColumn "ask_size" (Numeric 38 18) true no_default None;
   mkColumn "last_price" (Numeric 38 18) true no_default None;
   mkColumn "volume_24h" (Numeric 38 18) true no_default None;
   mkColumn "source_sequence" Text true no_default None;
   mkColumn "source_timestamp" DateTime false no_default None;
   mkColumn "received_at" DateTime false server_default None;
   mkColumn "payload" Json false client_default None])
  ["id"] [] [].
Definition risk_events_model : Table := mkTable "risk_events"
  ([uuid_pk;
   mkColumn "severity" (EnumOf risk_severity_values) false no_default None;
   mkColumn "event_type" Text false no_default None;
   mkColumn "source_component" Text false no_default None;
   mkColumn "exchange_account_id" Uuid true no_default (Some "exchange_accounts");
   mkColumn "trading_pair_id" Uuid true no_default (Some "trading_pairs");
   mkColumn "bot_config_id" Uuid true no_default (Some "bot_configs");
   mkColumn "message" Text false no_default None;
   mkColumn "limit_name" Text true no_default None;
   mkColumn "observed_value" (Numeric 38 18) true no_default None;
   mkColumn "limit_value" (Numeric 38 18) true no_default None;
   mkColumn "is_circuit_breaker_triggered" Boolean false client_default None;
   mkColumn "is_kill_switch_triggered" Boolean false client_default None;
   mkColumn "occurred_at" DateTime false server_default None;
   mkColumn "created_at" DateTime false server_default None;
   mkColumn "metadata" Json false client_default None])
  ["id"] [] [].
Definition audit_logs_model : Table := mkTable "audit_logs"
  ([uuid_pk;
   mkColumn "actor_user_id" Uuid true no_default (Some "users");
   mkColumn "actor_service" Text true no_default None;
   mkColumn "action" Text false no_default None;
   mkColumn "resource_type" Text false no_default None;
   mkColumn "resource_id" Uuid true no_default None;
   mkColumn "request_id" Text true no_default None;
   mkColumn "correlation_id" Text true no_default None;
   mkColumn "ip_address" Inet true no_default None;
   mkColumn "user_agent" Text true no_default None;
   mkColumn "before_state" Json true no_default None;
   mkColumn "after_state" Json true no_default None;
   mkColumn "metadata" Json false client_default None;
   mkColumn "occurred_at" DateTime false server_default None])
  ["id"] [] [].
Definition runtime_events_model : Table := mkTable "runtime_events"
  ([uuid_pk;
   mkColumn "event_type" Text false no_default None;
   mkColumn "source_component" Text false no_default None;
   mkColumn "status" Text false no_default None;
   mkColumn "command_id" Text true no_default None;
   mkColumn "config_domain" Text true no_default None;
   mkColumn "config_version" Integer true no_default None;
   mkColumn "correlation_id" Text true no_default None;
   mkColumn "payload" Json false client_default None;
   mkColumn "acknowledged_at" DateTime true no_default None;
   mkColumn "created_at" DateTime false server_default None;
   mkColumn "metadata" Json false client_default None])
  ["id"] [] [].
Definition system_health_model : Table := mkTable "system_health"
  ([uuid_pk;
   mkColumn "component" Text false no_default None;
   mkColumn "status" Text false no_default None;
   mkColumn "host" Text true no_default None;
   mkColumn "version" Text true no_default None;
   mkColumn "latency_ms" (Numeric 20 6) true no_default None;
   mkColumn "checked_at" DateTime false server_default None;
   mkColumn "metadata" Json false client_default None])
  ["id"] [] [].
Definition pnl_history_model : Table := mkTable "pnl_history"
  ([uuid_pk;
   mkColumn "exchange_account_id" Uuid false no_default (Some "exchange_accounts");
   mkColumn "trading_pair_id" Uuid true no_default (Some "trading_pairs");
   mkColumn "bot_config_id" Uuid true no_default (Some "bot_configs");
   mkColumn "realized_pnl" (Numeric 38 18) false client_default None;
   mkColumn "unrealized_pnl" (Numeric 38 18) false client_default None;
   mkColumn "fees_paid" (Numeric 38 18) false client_default None;
   mkColumn "funding_paid" (Numeric 38 18) false client_default None;
   mkColumn "valuation_asset" Text false no_default None;
   mkColumn "period_start" DateTime false no_default None;
   mkColumn "period_end" DateTime false no_default None;
   mkColumn "created_at" DateTime false server_default None;
   mkColumn "metadata" Json false client_default None])
  ["id"] [] [].
Definition liquidity_metrics_model : Table := mkTable "liquidity_metrics"
  ([uuid_pk;
   mkColumn "exchange_name" Text false no_default None;
   mkColumn "trading_pair_id" Uuid false no_default (Some "trading_pairs");
   mkColumn "spread_bps" (Numeric 20 8) true no_default None;
   mkColumn "top_of_book_depth" (Numeric 38 18) true no_default None;
   mkColumn "depth_1pct" (Numeric 38 18) true no_default None;
   mkColumn "depth_5pct" (Numeric 38 18) true no_default None;
   mkColumn "imbalance_ratio" (Numeric 20 8) true no_default None;
   mkColumn "slippage_bps" (Numeric 20 8) true no_default None;
   mkColumn "captured_at" DateTime false no_default None;
   mkColumn "created_at" DateTime false server_default None;
   mkColumn "metadata" Json false client_default None])
  ["id"] [] [].
Definition volatility_metrics_model : Table := mkTable "volatility_metrics"
  ([uuid_pk;
   mkColumn "exchange_name" Text false no_default None;
   mkColumn "trading_pair_id" Uuid false no_default (Some "trading_pairs");
   mkColumn "window_seconds" Integer false no_default None;
   mkColumn "realized_volatility" (Numeric 20 10) true no_default None;
   mkColumn "implied_volatility" (Numeric 20 10) true no_default None;
   mkColumn "high_price" (Numeric 38 18) true no_default None;
   mkColumn "low_price" (Numeric 38 18) true no_default None;
   mkColumn "open_price" (Numeric 38 18) true no_default None;
   mkColumn "close_price" (Numeric 38 18) true no_default None;
   mkColumn "captured_at" DateTime false no_default None;
   mkColumn "created_at" DateTime false server_default None;
   mkColumn "metadata" Json false client_default None])
  ["id"] [] [].
Definition models : list Table :=
  [roles_model; permissions_model; users_model; user_roles_model; role_permissions_model; bot_configs_model; exchange_accounts_model; trading_pairs_model; orders_model; trades_model; positions_model; inventory_snapshots_model; market_data_model; risk_events_model; audit_logs_model; runtime_events_model; system_health_model; pnl_history_model; liquidity_metrics_model; volatility_metrics_model].

(** ** The migrations *)

Definition id_column : Column := mkColumn "id" Uuid false server_default None.

Definition user_status_type : ColumnType := EnumOf ["active"; "inactive"; "locked"; "pending"].
Definition bot_status_type : ColumnType := EnumOf ["draft"; "disabled"; "enabled"; "suspended"; "archived"].
Definition order_side_type : ColumnType := EnumOf ["buy"; "sell"].
Definition order_type_type : ColumnType := EnumOf ["limit"; "market"; "post_only"; "ioc"; "fok"].
Definition order_status_type : ColumnType := EnumOf ["created"; "submitted"; "open"; "partially_filled"; "filled"; "cancel_pending"; "cancelled"; "rejected"; "expired"; "failed"].
Definition alert_severity_type : ColumnType := EnumOf ["info"; "warning"; "critical"; "emergency"].
Definition alert_status_type : ColumnType := EnumOf ["open"; "acknowledged"; "resolved"; "suppressed"].
Definition risk_severity_type : ColumnType := EnumOf ["low"; "medium"; "high"; "critical"].
Definition health_status_type : ColumnType := EnumOf ["healthy"; "degraded"; "unhealthy"; "unknown"].
Definition position_side_type : ColumnType := EnumOf ["long"; "short"; "flat"].
Definition roles_table : Table := mkTable "roles"
  [id_column;
   mkColumn "name" Text false no_default None;
   mkColumn "description" Text true no_default None;
   mkColumn "is_system_role" Boolean false server_default None;
   mkColumn "created_at" DateTime false server_default None;
   mkColumn "updated_at" DateTime false server_default None]
  ["id"] [["name"]]
  [NotBlank "name"].
Definition permissions_table : Table := mkTable "permissions"
  [id_column;
   mkColumn "name" Text false no_default None;
   mkColumn "resource" Text false no_default None;
   mkColumn "action" Text false no_default None;
   mkColumn "description" Text true no_default None;
   mkColumn "created_at" DateTime false server_default None;
   mkColumn "updated_at" DateTime false server_default None]
  ["id"] [["name"]; ["resource"; "action"]]
  [NotBlank "resource";
   NotBlank "action"].
Definition users_table : Table := mkTable "users"
  [id_column;
   mkColumn "email" Citext false no_default None;
   mkColumn "display_name" Text false no_default None;
   mkColumn "password_hash" Text true no_default None;
   mkColumn "status" user_status_type false server_default None;
   mkColumn "mfa_enabled" Boolean false server_default None;
   mkColumn "last_login_at" DateTime true no_default None;
   mkColumn "created_at" DateTime false server_default None;
   mkColumn "updated_at" DateTime false server_default None]
  ["id"] [["email"]]
  [NotBlank "display_name"].
Definition user_roles_table : Table := mkTable "user_roles"
  [mkColumn "user_id" Uuid false no_default (Some "users");
   mkColumn "role_id" Uuid false no_default (Some "roles");
   mkColumn "granted_by" Uuid true no_default (Some "users");
   mkColumn "granted_at" DateTime false server_default None]
  ["user_id"; "role_id"] []
  [].
Definition role_permissions_table : Table := mkTable "role_permissions"
  [mkColumn "role_id" Uuid false no_default (Some "roles");
   mkColumn "permission_id" Uuid false no_default (Some "permissions");
   mkColumn "granted_at" DateTime false server_default None]
  ["role_id"; "permission_id"] []
  [].
Definition bot_configs_table : Table := mkTable "bot_configs"
  [id_column;
   mkColumn "name" Text false no_default None;
   mkColumn "version" Integer false server_default None;
   mkColumn "status" bot_status_type false server_default None;
   mkColumn "config" Json false server_default None;
   mkColumn "risk_limits" Json false server_default None;
   mkColumn "created_by" Uuid true no_default (Some "users");
   mkColumn "approved_by" Uuid true no_default (Some "users");
   mkColumn "approved_at" DateTime true no_default None;
   mkColumn "created_at" DateTime false server_default None;
   mkColumn "updated_at" DateTime false server_default None]
  ["id"] [["name"; "version"]]
  [NotBlank "name";
   Gt (Col "version") (Lit (CInt 0))].
Definition exchange_accounts_table : Table := mkTable "exchange_accounts"
  [id_column;
   mkColumn "exchange_name" Text false no_default None;
   mkColumn "account_alias" Text false no_default None;
   mkColumn "environment" Text false no_default None;
   mkColumn "api_key_ciphertext" Bytes false no_default None;
   mkColumn "api_secret_ciphertext" Bytes false no_default None;
   mkColumn "passphrase_ciphertext" Bytes true no_default None;
   mkColumn "encryption_key_id" Text false no_default None;
   mkColumn "permissions" Json false server_default None;
   mkColumn "is_enabled" Boolean false server_default None;
   mkColumn "created_by" Uuid true no_default (Some "users");
   mkColumn "created_at" DateTime false server_default None;
   mkColumn "updated_at" DateTime false server_default None]
  ["id"] [["exchange_name"; "account_alias"; "environment"]]
  [NotBlank "exchange_name";
   NotBlank "account_alias";
   OneOf (Col "environment") ["sandbox"; "staging"; "production"]].
Definition trading_pairs_table : Table := mkTable "trading_pairs"
  [id_column;
   mkColumn "exchange_name" Text false no_default None;
   mkColumn "base_asset" Text false no_default None;
   mkColumn "quote_asset" Text false no_default None;
   mkColumn "normalized_symbol" Text false no_default None;
   mkColumn "venue_symbol" Text false no_default None;
   mkColumn "price_precision" Integer false no_default None;
   mkColumn "quantity_precision" Integer false no_default None;
   mkColumn "min_order_size" (Numeric 38 18) true no_default None;
   mkColumn "min_notional" (Numeric 38 18) true no_default None;
   mkColumn "tick_size" (Numeric 38 18) true no_default None;
   mkColumn "lot_size" (Numeric 38 18) true no_default None;
   mkColumn "is_enabled" Boolean false server_default None;
   mkColumn "created_at" DateTime false server_default None;
   mkColumn "updated_at" DateTime false server_default None]
  ["id"] [["exchange_name"; "venue_symbol"]; ["exchange_name"; "normalized_symbol"]]
  [Ne (Col "base_asset") (Col "quote_asset");
   And (Ge (Col "price_precision") (Lit (CInt 0))) (Ge (Col "quantity_precision") (Lit (CInt 0)))].
Definition orders_table : Table := mkTable "orders"
  [id_column;
   mkColumn "client_order_id" Text false no_default None;
   mkColumn "exchange_order_id" Text true no_default None;
   mkColumn "exchange_account_id" Uuid false no_default (Some "exchange_accounts");
   mkColumn "trading_pair_id" Uuid false no_default (Some "trading_pairs");
   mkColumn "bot_config_id" Uuid true no_default (Some "bot_configs");
   mkColumn "side" order_side_type false no_default None;
   mkColumn "order_type" order_type_type false no_default None;
   mkColumn "status" order_status_type false server_default None;
   mkColumn "price" (Numeric 38 18) true no_default None;
   mkColumn "quantity" (Numeric 38 18) false no_default None;
   mkColumn "filled_quantity" (Numeric 38 18) false server_default None;
   mkColumn "average_fill_price" (Numeric 38 18) true no_default None;
   mkColumn "fee_amount" (Numeric 38 18) false server_default None;
   mkColumn "fee_asset" Text true no_default None;
   mkColumn "submitted_at" DateTime true no_default None;
   mkColumn "last_exchange_update_at" DateTime true no_default None;
   mkColumn "created_at" DateTime false server_default None;
   mkColumn "updated_at" DateTime false server_default None;
   mkColumn "metadata" Json false server_default None]
  ["id"] [["client_order_id"]; ["exchange_account_id"; "exchange_order_id"]]
  [Gt (Col "quantity") (Lit (CInt 0));
   And (Ge (Col "filled_quantity") (Lit (CInt 0))) (Ge (Col "quantity") (Col "filled_quantity"));
   Or (Not (OneOf (Col "order_type") ["limit"; "post_only"])) (Not (IsNull "price"));
   Or (IsNull "price") (Gt (Col "price") (Lit (CInt 0)));
   Ge (Col "fee_amount") (Lit (CInt 0))].
Definition trades_table : Table := mkTable "trades"
  [id_column;
   mkColumn "order_id" Uuid false no_default (Some "orders");
   mkColumn "exchange_trade_id" Text false no_default None;
   mkColumn "exchange_account_id" Uuid false no_default (Some "exchange_accounts");
   mkColumn "trading_pair_id" Uuid false no_default (Some "trading_pairs");
   mkColumn "side" order_side_type false no_default None;
   mkColumn "price" (Numeric 38 18) false no_default None;
   mkColumn "quantity" (Numeric 38 18) false no_default None;
   mkColumn "fee_amount" (Numeric 38 18) false server_default None;
   mkColumn "fee_asset" Text true no_default None;
   mkColumn "traded_at" DateTime false no_default None;
   mkColumn "created_at" DateTime false server_default None;
   mkColumn "metadata" Json false server_default None]
  ["id"] [["exchange_account_id"; "exchange_trade_id"]]
  [Gt (Col "price") (Lit (CInt 0));
   Gt (Col "quantity") (Lit (CInt 0));
   Ge (Col "fee_amount") (Lit (CInt 0))].
Definition positions_table : Table := mkTable "positions"
  [id_column;
   mkColumn "exchange_account_id" Uuid false no_default (Some "exchange_accounts");
   mkColumn "trading_pair_id" Uuid false no_default (Some "trading_pairs");
   mkColumn "asset" Text false no_default None;
   mkColumn "side" position_side_type false server_default None;
   mkColumn "quantity" (Numeric 38 18) false server_default None;
   mkColumn "average_entry_price" (Numeric 38 18) true no_default None;
   mkColumn "realized_pnl" (Numeric 38 18) false server_default None;
   mkColumn "unrealized_pnl" (Numeric 38 18) false server_default None;
   mkColumn "mark_price" (Numeric 38 18) true no_default None;
   mkColumn "as_of" DateTime false server_default None;
   mkColumn "created_at" DateTime false server_default None;
   mkColumn "updated_at" DateTime false server_default None]
  ["id"] [["exchange_account_id"; "trading_pair_id"; "asset"]]
  [Ge (Col "quantity") (Lit (CInt 0))].
Definition inventory_snapshots_table : Table := mkTable "inventory_snapshots"
  [id_column;
   mkColumn "exchange_account_id" Uuid false no_default (Some "exchange_accounts");
   mkColumn "bot_config_id" Uuid true no_default (Some "bot_configs");
   mkColumn "asset" Text false no_default None;
   mkColumn "total_balance" (Numeric 38 18) false no_default None;
   mkColumn "available_balance" (Numeric 38 18) false no_default None;
   mkColumn "reserved_balance" (Numeric 38 18) false server_default None;
   mkColumn "valuation_asset" Text false no_default None;
   mkColumn "valuation_price" (Numeric 38 18) true no_default None;
   mkColumn "valuation_amount" (Numeric 38 18) true no_default None;
   mkColumn "captured_at" DateTime false no_default None;
   mkColumn "created_at" DateTime false server_default None;
   mkColumn "metadata" Json false server_default None]
  ["id"] []
  [And (And (Ge (Col "total_balance") (Lit (CInt 0))) (Ge (Col "available_balance") (Lit (CInt 0)))) (Ge (Col "reserved_balance") (Lit (CInt 0)));
   Ge (Col "total_balance") (Col "available_balance")].
Definition market_data_table : Table := mkTable "market_data"
  [id_column;
   mkColumn "exchange_name" Text false no_default None;
   mkColumn "trading_pair_id" Uuid false no_default (Some "trading_pairs");
   mkColumn "data_type" Text false no_default None;
   mkColumn "bid_price" (Numeric 38 18) true no_default None;
   mkColumn "bid_size" (Numeric 38 18) true no_default None;
   mkColumn "ask_price" (Numeric 38 18) true no_default None;
   mkColumn "ask_size" (Numeric 38 18) true no_default None;
   mkColumn "last_price" (Numeric 38 18) true no_default None;
   mkColumn "volume_24h" (Numeric 38 18) true no_default None;
   mkColumn "source_sequence" Text true no_default None;
   mkColumn "source_timestamp" DateTime false no_default None;
   mkColumn "received_at" DateTime false server_default None;
   mkColumn "payload" Json false server_default None]
  ["id"] []
  [OneOf (Col "data_type") ["ticker"; "order_book"; "trade"; "candle"];
   Or (Or (IsNull "bid_price") (IsNull "ask_price")) (Ge (Col "ask_price") (Col "bid_price"))].
Definition risk_events_table : Table := mkTable "risk_events"
  [id_column;
   mkColumn "severity" risk_severity_type false no_default None;
   mkColumn "event_type" Text false no_default None;
   mkColumn "source_component" Text false no_default None;
   mkColumn "exchange_account_id" Uuid true no_default (Some "exchange_accounts");
   mkColumn "trading_pair_id" Uuid true no_default (Some "trading_pairs");
   mkColumn "bot_config_id" Uuid true no_default (Some "bot_configs");
   mkColumn "message" Text false no_default None;
   mkColumn "limit_name" Text true no_default None;
   mkColumn "observed_value" (Numeric 38 18) true no_default None;
   mkColumn "limit_value" (Numeric 38 18) true no_default None;
   mkColumn "is_circuit_breaker_triggered" Boolean false server_default None;
   mkColumn "is_kill_switch_triggered" Boolean false server_default None;
   mkColumn "occurred_at" DateTime false server_default None;
   mkColumn "created_at" DateTime false server_default None;
   mkColumn "metadata" Json false server_default None]
  ["id"] []
  [NotBlank "event_type";
   NotBlank "message"].
Definition alerts_table : Table := mkTable "alerts"
  [id_column;
   mkColumn "severity" alert_severity_type false no_default None;
   mkColumn "status" alert_status_type false server_default None;
   mkColumn "channel" Text false no_default None;
   mkColumn "title" Text false no_default None;
   mkColumn "message" Text false no_default None;
   mkColumn "risk_event_id" Uuid true no_default (Some "risk_events");
   mkColumn "acknowledged_by" Uuid true no_default (Some "users");
   mkColumn "acknowledged_at" DateTime true no_default None;
   mkColumn "resolved_by" Uuid true no_default (Some "users");
   mkColumn "resolved_at" DateTime true no_default None;
   mkColumn "created_at" DateTime false server_default None;
   mkColumn "updated_at" DateTime false server_default None;
   mkColumn "metadata" Json false server_default None]
  ["id"] []
  [OneOf (Col "channel") ["telegram"; "email"; "pager"; "dashboard"; "webhook"];
   NotBlank "title";
   NotBlank "message"].
Definition audit_logs_table : Table := mkTable "audit_logs"
  [id_column;
   mkColumn "actor_user_id" Uuid true no_default (Some "users");
   mkColumn "actor_service" Text true no_default None;
   mkColumn "action" Text false no_default None;
   mkColumn "resource_type" Text false no_default None;
   mkColumn "resource_id" Uuid true no_default None;
   mkColumn "request_id" Text true no_default None;
   mkColumn "correlation_id" Text true no_default None;
   mkColumn "ip_address" Inet true no_default None;
   mkColumn "user_agent" Text true no_default None;
   mkColumn "before_state" Json true no_default None;
   mkColumn "after_state" Json true no_default None;
   mkColumn "metadata" Json false server_default None;
   mkColumn "occurred_at" DateTime false server_default None]
  ["id"] []
  [Or (Not (IsNull "actor_user_id")) (Not (IsNull "actor_service"));
   NotBlank "action";
   NotBlank "resource_type"].
Definition system_health_table : Table := mkTable "system_health"
  [id_column;
   mkColumn "component" Text false no_default None;
   mkColumn "status" health_status_type false no_default None;
   mkColumn "host" Text true no_default None;
   mkColumn "version" Text true no_default None;
   mkColumn "latency_ms" (Numeric 20 6) true no_default None;
   mkColumn "cpu_percent" (Numeric 8 4) true no_default None;
   mkColumn "memory_percent" (Numeric 8 4) true no_default None;
   mkColumn "disk_percent" (Numeric 8 4) true no_default None;
   mkColumn "checked_at" DateTime false server_default None;
   mkColumn "metadata" Json false server_default None]
  ["id"] []
  [NotBlank "component";
   Or (IsNull "latency_ms") (Ge (Col "latency_ms") (Lit (CInt 0)))].
Definition pnl_history_table : Table := mkTable "pnl_history"
  [id_column;
   mkColumn "exchange_account_id" Uuid false no_default (Some "exchange_accounts");
   mkColumn "trading_pair_id" Uuid true no_default (Some "trading_pairs");
   mkColumn "bot_config_id" Uuid true no_default (Some "bot_configs");
   mkColumn "realized_pnl" (Numeric 38 18) false server_default None;
   mkColumn "unrealized_pnl" (Numeric 38 18) false server_default None;
   mkColumn "fees_paid" (Numeric 38 18) false server_default None;
   mkColumn "funding_paid" (Numeric 38 18) false server_default None;
   mkColumn "valuation_asset" Text false no_default None;
   mkColumn "period_start" DateTime false no_default None;
   mkColumn "period_end" DateTime false no_default None;
   mkColumn "created_at" DateTime false server_default None;
   mkColumn "metadata" Json false server_default None]
  ["id"] []
  [Gt (Col "period_end") (Col "period_start");
   Ge (Col "fees_paid") (Lit (CInt 0))].
Definition liquidity_metrics_table : Table := mkTable "liquidity_metrics"
  [id_column;
   mkColumn "exchange_name" Text false no_default None;
   mkColumn "trading_pair_id" Uuid false no_default (Some "trading_pairs");
   mkColumn "spread_bps" (Numeric 20 8) true no_default None;
   mkColumn "top_of_book_depth" (Numeric 38 18) true no_default None;
   mkColumn "depth_1pct" (Numeric 38 18) true no_default None;
   mkColumn "depth_5pct" (Numeric 38 18) true no_default None;
   mkColumn "imbalance_ratio" (Numeric 20 8) true no_default None;
   mkColumn "slippage_bps" (Numeric 20 8) true no_default None;
   mkColumn "captured_at" DateTime false no_default None;
   mkColumn "created_at" DateTime false server_default None;
   mkColumn "metadata" Json false server_default None]
  ["id"] []
  [Or (IsNull "spread_bps") (Ge (Col "spread_bps") (Lit (CInt 0)));
   And (And (Or (IsNull "top_of_book_depth") (Ge (Col "top_of_book_depth") (Lit (CInt 0)))) (Or (IsNull "depth_1pct") (Ge (Col "depth_1pct") (Lit (CInt 0))))) (Or (IsNull "depth_5pct") (Ge (Col "depth_5pct") (Lit (CInt 0))))].
Definition volatility_metrics_table : Table := mkTable "volatility_metrics"
  [id_column;
   mkColumn "exchange_name" Text false no_default None;
   mkColumn "trading_pair_id" Uuid false no_default (Some "trading_pairs");
   mkColumn "window_seconds" Integer false no_default None;
   mkColumn "realized_volatility" (Numeric 20 10) true no_default None;
   mkColumn "implied_volatility" (Numeric 20 10) true no_default None;
   mkColumn "high_price" (Numeric 38 18) true no_default None;
   mkColumn "low_price" (Numeric 38 18) true no_default None;
   mkColumn "open_price" (Numeric 38 18) true no_default None;
   mkColumn "close_price" (Numeric 38 18) true no_default None;
   mkColumn "captured_at" DateTime false no_default None;
   mkColumn "created_at" DateTime false server_default None;
   mkColumn "metadata" Json false server_default None]
  ["id"] []
  [Gt (Col "window_seconds") (Lit (CInt 0));
   And (Or (IsNull "realized_volatility") (Ge (Col "realized_volatility") (Lit (CInt 0)))) (Or (IsNull "implied_volatility") (Ge (Col "implied_volatility") (Lit (CInt 0))))].
Definition runtime_events_table : Table := mkTable "runtime_events"
  [id_column;
   mkColumn "event_type" Text false no_default None;
   mkColumn "source_component" Text false no_default None;
   mkColumn "status" Text false no_default None;
   mkColumn "command_id" Text true no_default None;
   mkColumn "config_domain" Text true no_default None;
   mkColumn "config_version" Integer true no_default None;
   mkColumn "correlation_id" Text true no_default None;
   mkColumn "payload" Json false server_default None;
   mkColumn "acknowledged_at" DateTime true no_default None;
   mkColumn "created_at" DateTime false server_default None;
   mkColumn "metadata" Json false server_default None]
  ["id"] []
  [NotBlank "event_type";
   NotBlank "source_component";
   NotBlank "status"].
Definition initial_schema : list ddl :=
  [CreateTable false roles_table; CreateTable false permissions_table; CreateTable false users_table; CreateTable false user_roles_table; CreateTable false role_permissions_table; CreateTable false bot_configs_table; CreateTable false exchange_accounts_table; CreateTable false trading_pairs_table; CreateTable false orders_table; CreateTable false trades_table; CreateTable false positions_table; CreateTable false inventory_snapshots_table; CreateTable false market_data_table; CreateTable false risk_events_table; CreateTable false alerts_table; CreateTable false audit_logs_table; CreateTable false system_health_table; CreateTable false pnl_history_table; CreateTable false liquidity_metrics_table; CreateTable false volatility_metrics_table].
Definition runtime_events_and_rbac : list ddl := [CreateTable true runtime_events_table].
Definition exchange_connection_health : list ddl :=
  [AddColumn "exchange_accounts" (mkColumn "rest_connected" Boolean false server_default None);
   AddColumn "exchange_accounts" (mkColumn "websocket_connected" Boolean false server_default None);
   AddColumn "exchange_accounts" (mkColumn "private_ws_connected" Boolean false server_default None);
   AddColumn "exchange_accounts" (mkColumn "connection_status" Text false server_default None);
   AddColumn "exchange_accounts" (mkColumn "last_tested_at" DateTime true no_default None);
   AddColumn "exchange_accounts" (mkColumn "last_success_at" DateTime true no_default None);
   AddColumn "exchange_accounts" (mkColumn "last_failure_at" DateTime true no_default None);
   AddColumn "exchange_accounts" (mkColumn "last_error_message" Text true no_default None)].

(** The scripts in the order of their names. *)
Definition migration_scripts : list ddl := initial_schema ++ runtime_events_and_rbac ++ exchange_connection_health.
Definition migrated : list Table := match run_script [] migration_scripts with Ok l => l | Err _ => [] end.

(** ** The two declarations *)

Lemma scripts_apply : run_script [] migration_scripts = Ok migrated.
Proof. vm_compute. reflexivity. Qed.

(** The second and third scripts can be repeated, the first cannot. *)
Lemma scripts_repeat : run_script migrated (runtime_events_and_rbac ++ exchange_connection_health) = Ok migrated /\
  is_ok (run_script migrated initial_schema) = false.
Proof. vm_compute. done. Qed.

(** A database created from the models counts as migrated, and has no
    [alerts] table. *)
Lemma models_pass_for_initial_schema :
  forallb (fun n => bool_decide (is_Some (find_table n models))) INITIAL_SCHEMA_TABLES = true /\
  find_table "alerts" models = None /\ is_Some (find_table "alerts" migrated).
Proof. split_and!; [vm_compute; done..|]. vm_compute. by eexists. Qed.

(** Whether the migrated table of a model is at least as strict, [users] apart
    (an e-mail address may be longer there), and fills what the model leaves. *)
Definition model_fits (t : Table) : bool :=
  match find_table (tb_name t) migrated with
  | Some m => (String.eqb (tb_name t) "users" || stricter m t) && fillable t m && forallb (fun cl => bool_decide (is_Some (find_column (cl_name cl) m))) (tb_columns t)
  | None => false
  end.

Lemma all_models_fit : forallb model_fits models = true.
Proof. vm_compute. reflexivity. Qed.

(** C24: every model has its table in the migrated database, with all of its
    columns; what the migrated table takes (of any table but [users]), the
    model takes; and a row SQLAlchemy sends for the model has a value for
    every NOT NULL column of the migrated table once the database has filled
    its defaults. *)
Theorem models_fit_migrations name t : find_table name models = Some t ->
  exists m, find_table name migrated = Some m /\
    (forall cl, cl ∈ tb_columns t -> is_Some (find_column (cl_name cl) m)) /\
    (name <> "users" -> forall db r, admitted db m r = true -> admitted db t r = true) /\
    (forall supply r cm, (forall c, is_null (supply c) = false) -> sent t r -> cm ∈ tb_columns m -> cl_nullable cm = false ->
       is_null (cell_of (complete m supply r) (cl_name cm)) = false).
Proof.
  intros F. apply find_table_in in F as [I <-]. pose proof all_models_fit as A. rewrite forallb_forall in A.
  specialize (A t (proj1 (list_elem_of_In _ _) I)). unfold model_fits in A. destruct (find_table (tb_name t) migrated) as [m|] eqn:E; [|done].
  rewrite !andb_true_iff in A. destruct A as [[S L] C]. exists m. split_and!; [done|..].
  - intros cl J. rewrite forallb_forall in C. specialize (C cl (proj1 (list_elem_of_In _ _) J)). by apply bool_decide_eq_true in C.
  - intros N db r. apply orb_true_iff in S as [S%String.eqb_eq|S]; [done|]. by apply stricter_admitted.
  - intros supply r cm P S' J Nn. by eapply fillable_complete.
Qed.

(** ** Rows the migrations refuse and the models take *)

Definition no_rows : Contents := fun _ => [].
Definition with_row (table : string) (r : row) (db : Contents) : Contents := fun n => if String.eqb n table then r :: db n else db n.

(** [models.MarketData(...)] of a ticker, with the columns the database fills. *)
Definition ticker_cells (exchange : string) (pair : Z) (bid ask : Q) (source received : Z) (payload : string) : row :=
  list_to_map [("id", CUuid 1); ("exchange_name", CText exchange); ("trading_pair_id", CUuid pair); ("data_type", CText "ticker");
    ("bid_price", CNum bid); ("ask_price", CNum ask); ("source_timestamp", CTime source); ("received_at", CTime received);
    ("payload", CJson payload)].

(** A ticker whose bid is above its ask, whatever else it has. *)
Lemma crossed_ticker_refused db exchange pair bid ask source received payload : (ask < bid)%Q ->
  admitted db market_data_table (ticker_cells exchange pair bid ask source received payload) = false.
Proof.
  intros L. assert (E : Qle_bool bid ask = false) by (apply not_true_iff_false; rewrite Qle_bool_iff; by apply Qlt_not_le).
  set (r := ticker_cells _ _ _ _ _ _ _). assert (B : cell_of r "bid_price" = CNum bid) by reflexivity.
  assert (A : cell_of r "ask_price" = CNum ask) by reflexivity. clearbody r. unfold admitted.
  replace (forallb (passes r) (tb_checks market_data_table)) with false; [by rewrite andb_false_r|].
  cbn [market_data_table tb_checks forallb]. unfold passes. cbn [eval operand_value]. rewrite A, B. cbn [is_null compare_numbers number].
  rewrite E. by rewrite andb_false_r.
Qed.

Example crossed_ticker_taken_by_model :
  admitted (with_row "trading_pairs" {["id" := CUuid 7]} no_rows) market_data_model (ticker_cells "coinstore" 7 101 100 0 0 "{}") = true.
Proof. vm_compute. reflexivity. Qed.

(** ** Orders of the paper engine *)

Definition text_or_null (o : option string) : cell := from_option CText Null o.
Definition number_or_null (o : option dec) : cell := from_option (fun d => CNum (dval d)) Null o.

(** The row of [models.Order(...)] in [_persist_order]: a limit order without
    a fee; the columns it does not name have their defaults or are NULL. *)
Definition order_cells (id created updated : Z) (metadata : string) (w : OrderRow) : row :=
  list_to_map [("id", CUuid id); ("client_order_id", CText (ow_client_order_id w)); ("exchange_order_id", text_or_null (ow_exchange_order_id w));
    ("exchange_account_id", CUuid (ow_exchange_account_id w)); ("trading_pair_id", CUuid (ow_trading_pair_id w));
    ("side", CText (side_value (ow_side w))); ("order_type", CText "limit"); ("status", CText (order_status_value (ow_status w)));
    ("price", number_or_null (ow_price w)); ("quantity", CNum (dval (ow_quantity w))); ("filled_quantity", CNum (dval (ow_filled_quantity w)));
    ("average_fill_price", number_or_null (ow_average_fill_price w)); ("fee_amount", CNum 0);
    ("created_at", CTime created); ("updated_at", CTime updated); ("metadata", CJson metadata)].

Definition positive_order (i : OrderIntent) : Prop :=
  (0 < dval (oi_quantity i))%Q /\ exists p, oi_price i = Some p /\ (0 < dval p)%Q.

Lemma Qgt_bool_iff x y : negb (Qle_bool x y) = true <-> (y < x)%Q.
Proof.
  rewrite negb_true_iff. split.
  - intros E. apply Qnot_le_lt. intros L. apply Qle_bool_iff in L. congruence.
  - intros L. apply not_true_iff_false. rewrite Qle_bool_iff. by apply Qlt_not_le.
Qed.

(** The checks of the orders table on such a row, spelled out. *)
Lemma order_checks id created updated metadata w :
  forallb (passes (order_cells id created updated metadata w)) (tb_checks orders_table) = true <->
  (0 < dval (ow_quantity w))%Q /\ (0 <= dval (ow_filled_quantity w) <= dval (ow_quantity w))%Q /\
  exists p, ow_price w = Some p /\ (0 < dval p)%Q.
Proof.
  set (r := order_cells _ _ _ _ w). assert (Cq : cell_of r "quantity" = CNum (dval (ow_quantity w))) by reflexivity.
  assert (Cf : cell_of r "filled_quantity" = CNum (dval (ow_filled_quantity w))) by reflexivity.
  assert (Cp : cell_of r "price" = number_or_null (ow_price w)) by reflexivity.
  assert (Ct : cell_of r "order_type" = CText "limit") by reflexivity. assert (Ce : cell_of r "fee_amount" = CNum 0) by reflexivity.
  clearbody r. cbn [orders_table tb_checks forallb]. unfold passes. cbn [eval operand_value]. rewrite Cq, Cf, Cp, Ct, Ce.
  cbn [compare_numbers number]. rewrite bool_decide_eq_true_2 by (by constructor).
  pose proof (Qgt_bool_iff (dval (ow_quantity w)) (inject_Z 0)) as G. pose proof (Qle_bool_iff (inject_Z 0) (dval (ow_filled_quantity w))) as L0.
  pose proof (Qle_bool_iff (dval (ow_filled_quantity w)) (dval (ow_quantity w))) as L1.
  destruct (ow_price w) as [p|]; cbn -[Qle_bool inject_Z dval].
  - pose proof (Qgt_bool_iff (dval p) (inject_Z 0)) as Gp.
    destruct (Qle_bool (dval (ow_quantity w)) (inject_Z 0)), (Qle_bool (inject_Z 0) (dval (ow_filled_quantity w))),
      (Qle_bool (dval (ow_filled_quantity w)) (dval (ow_quantity w))), (Qle_bool (dval p) (inject_Z 0)); cbn; split; try done; intros H.
    all: try (split_and!; [by apply G|by apply L0|by apply L1|exists p; split; [done|by apply Gp]]).
    all: destruct H as (H1 & [H2 H3] & p' & [= <-] & H4); first [by apply G in H1|by apply L0 in H2|by apply L1 in H3|by apply Gp in H4].
  - split; [|by intros (_ & _ & p & E & _)].
    destruct (Qle_bool (dval (ow_quantity w)) (inject_Z 0)), (Qle_bool (inject_Z 0) (dval (ow_filled_quantity w))),
      (Qle_bool (dval (ow_filled_quantity w)) (dval (ow_quantity w))); done.
Qed.



Lemma models_fit_migrations_witness :
  exists m, find_table "orders" migrated = Some m /\ (forall db r, admitted db m r = true -> admitted db orders_model r = true).
Proof.
  destruct (models_fit_migrations "orders" orders_model) as (m & F & _ & A & _); [vm_compute; reflexivity|].
  exists m. split; [exact F|]. apply A. discriminate.
Defined.

(** ** Configuration rows *)

(** [models.BotConfig(...)] of [upsert_domain], with its key and status. *)
Definition config_cells (b : BotConfigRow) : row :=
  list_to_map [("name", CText (bc_name b)); ("version", CInt (bc_version b)); ("status", CText (bc_status b))].

(** The version [upsert_domain] chooses is free: the row clashes with none of
    the stored ones on name and version, and its version is positive. *)
Lemma next_version_admitted rows b (db : Contents) : versions_ok rows -> bc_version b = next_version (bc_name b) rows ->
  db "bot_configs" = map config_cells rows ->
  key_free db bot_configs_table (config_cells b) ["name"; "version"] = true /\
  passes (config_cells b) (Gt (Col "version") (Lit (CInt 0))) = true.
Proof.
  intros V E Hdb. rewrite next_version_length in E by done. split.
  - unfold key_free. apply negb_true_iff, not_true_iff_false. intros C. apply existsb_exists in C as (r & I & C).
    change (tb_name bot_configs_table) with "bot_configs" in I. rewrite Hdb in I. apply in_map_iff in I as (c & <- & I).
    unfold conflict in C. cbn [forallb] in C. rewrite !andb_true_iff in C. destruct C as (C1 & C2 & _).
    change (String.eqb (bc_name b) (bc_name c) = true) in C1. change ((bc_version b =? bc_version c)%Z = true) in C2.
    apply String.eqb_eq in C1. apply Z.eqb_eq in C2.
    assert (J : In (bc_version c) (map bc_version (rows_named (bc_name b) rows))).
    { apply in_map, List.filter_In. split; [done|]. rewrite C1. apply String.eqb_refl. }
    rewrite (V (bc_name b)) in J. apply in_map_iff in J as (x & X & J). apply in_seq in J. lia.
  - unfold passes. cbn [eval operand_value]. change (cell_of (config_cells b) "version") with (CInt (bc_version b)).
    cbn [compare_numbers number]. rewrite (proj2 (Qgt_bool_iff _ _)); [done|]. rewrite <- Zlt_Qlt. lia.
Qed.
