(* ===== verification/ConcurrentConfig.v ===== *)
(** * ConcurrentConfig: configuration updates by requests that run at once

    Each request has a session of its own (api/dependencies.py), reads
    committed rows only, and is committed when its handler returns
    (db/session.py). [update_domain] reads the latest row of its domain before
    it merges the payload and again when [upsert_domain] chooses the version,
    so that other requests can commit in between. A request is a small state
    machine here, one phase per query of the code; the database serialises
    single statements, and the key on name and version
    (uq_bot_configs_name_version) makes an insertion wait for an uncommitted
    row with the same key and refuses it after that row is committed. *)

From stdpp Require Import relations.
From S2P Require Import Prelude PyData PyValue ConfigStore.

#[local] Open Scope string_scope.
#[local] Open Scope list_scope.

(** ** Requests *)

Inductive Phase : Type :=
  | Begun
  | Merged (base : option BotConfigRow) (doc : dict)
  | Numbered (base : option BotConfigRow) (doc : dict) (version : Z)
  | Inserted (base : option BotConfigRow) (row : BotConfigRow)
  | Announced (base : option BotConfigRow) (row : BotConfigRow)
  | Committed (base : option BotConfigRow) (row : BotConfigRow)
  | Failed (e : exn).

Record Update : Type := mkUpdate { up_domain : string; up_payload : dict; up_phase : Phase }.
Definition to_phase (p : Phase) (u : Update) : Update := mkUpdate (up_domain u) (up_payload u) p.

(** What is committed, the configuration messages sent, the requests. *)
Record Sessions : Type := mkSessions {
  sy_rows : list BotConfigRow; sy_bus : list (string * Z * dict); sy_updates : list Update }.

Section Requests.
Context (default_dump : list (string * dict)) (validate_domain : string -> dict -> result dict).

(** [effective_domain_config] and [model_validate], on the committed rows. *)
Definition validated_document (rows : list BotConfigRow) (domain : string) (payload : dict) : result dict :=
  effective ← (effective_domain_config default_dump domain (Some payload) (mkStore rows [] [] [] [] 0)).2;
  validate_domain domain effective.

(** The row a request holds in its open transaction. *)
Definition pending_row (u : Update) : option BotConfigRow :=
  match up_phase u with Inserted _ r | Announced _ r => Some r | _ => None end.

Definition same_key (name : string) (version : Z) (r : BotConfigRow) : bool :=
  String.eqb (bc_name r) name && (bc_version r =? version)%Z.
Definition key_pending (name : string) (version : Z) (us : list Update) : Prop :=
  exists u r, u ∈ us /\ pending_row u = Some r /\ same_key name version r = true.

Definition unique_violation : exn := mkExn IntegrityError "uq_bot_configs_name_version".

Definition set_update (i : nat) (p : Phase) (s : Sessions) : Sessions :=
  mkSessions (sy_rows s) (sy_bus s) (alter (to_phase p) i (sy_updates s)).

Inductive config_step : Sessions -> Sessions -> Prop :=
  | step_begin s domain payload :
      config_step s (mkSessions (sy_rows s) (sy_bus s) (sy_updates s ++ [mkUpdate domain payload Begun]))
  | step_merge s i u doc : sy_updates s !! i = Some u -> up_phase u = Begun ->
      validated_document (sy_rows s) (up_domain u) (up_payload u) = Ok doc ->
      config_step s (set_update i (Merged (latest_in (up_domain u) (sy_rows s)) doc) s)
  | step_number s i u base doc : sy_updates s !! i = Some u -> up_phase u = Merged base doc ->
      config_step s (set_update i (Numbered base doc (next_version (up_domain u) (sy_rows s))) s)
  | step_insert s i u base doc v row : sy_updates s !! i = Some u -> up_phase u = Numbered base doc v ->
      ~ key_pending (up_domain u) v (sy_updates s) -> existsb (same_key (up_domain u) v) (sy_rows s) = false ->
      bc_name row = up_domain u -> bc_version row = v -> bc_config row = doc ->
      config_step s (set_update i (Inserted base row) s)
  | step_refused s i u base doc v : sy_updates s !! i = Some u -> up_phase u = Numbered base doc v ->
      ~ key_pending (up_domain u) v (sy_updates s) -> existsb (same_key (up_domain u) v) (sy_rows s) = true ->
      config_step s (set_update i (Failed unique_violation) s)
  | step_announce s i u base row : sy_updates s !! i = Some u -> up_phase u = Inserted base row ->
      config_step s (mkSessions (sy_rows s) (sy_bus s ++ [(bc_name row, bc_version row, bc_config row)])
                       (alter (to_phase (Announced base row)) i (sy_updates s)))
  | step_commit s i u base row : sy_updates s !! i = Some u -> up_phase u = Announced base row ->
      config_step s (mkSessions (sy_rows s ++ [row]) (sy_bus s) (alter (to_phase (Committed base row)) i (sy_updates s)))
  (** anything the handler calls may raise, and so may the commit *)
  | step_fail s i u e : sy_updates s !! i = Some u -> (forall base row, up_phase u <> Committed base row) ->
      config_step s (set_update i (Failed e) s).

Definition no_requests : Sessions := mkSessions [] [] [].
Definition config_reachable (s : Sessions) : Prop := rtc config_step no_requests s.

(** ** The invariant *)

(** The document a request computes on the row it has read. *)
Definition document_on (base : option BotConfigRow) (domain : string) (payload : dict) : result dict :=
  validated_document (option_list base) domain payload.
Definition base_version (base : option BotConfigRow) : Z := from_option bc_version 0%Z base.

Definition based (rows : list BotConfigRow) (u : Update) (base : option BotConfigRow) (doc : dict) : Prop :=
  document_on base (up_domain u) (up_payload u) = Ok doc /\
  match base with None => True | Some r => r ∈ rows /\ bc_name r = up_domain u end.

Definition update_ok (rows : list BotConfigRow) (u : Update) : Prop :=
  match up_phase u with
  | Begun | Failed _ => True
  | Merged base doc => based rows u base doc /\ (base_version base < next_version (up_domain u) rows)%Z
  | Numbered base doc v => based rows u base doc /\ (base_version base < v <= next_version (up_domain u) rows)%Z /\ (1 <= v)%Z
  | Inserted base r | Announced base r =>
      based rows u base (bc_config r) /\ bc_name r = up_domain u /\ (base_version base < bc_version r)%Z /\
      bc_version r = next_version (up_domain u) rows
  | Committed base r =>
      based rows u base (bc_config r) /\ bc_name r = up_domain u /\ (base_version base < bc_version r)%Z /\ r ∈ rows
  end.

(** Pending rows are of different domains, and stored rows of committed requests. *)
Definition one_pending (us : list Update) : Prop :=
  forall i j u u' r r', us !! i = Some u -> us !! j = Some u' -> pending_row u = Some r -> pending_row u' = Some r' ->
    bc_name r = bc_name r' -> i = j.
Definition row_accounted (us : list Update) (r : BotConfigRow) : Prop :=
  exists u base, u ∈ us /\ up_phase u = Committed base r.

Record sessions_ok (s : Sessions) : Prop := {
  so_versions : versions_ok (sy_rows s);
  so_updates : Forall (update_ok (sy_rows s)) (sy_updates s);
  so_pending : one_pending (sy_updates s);
  so_accounted : Forall (row_accounted (sy_updates s)) (sy_rows s) }.

(** *** Versions *)

Lemma next_version_pos name rows : versions_ok rows -> (1 <= next_version name rows)%Z.
Proof. intros V. rewrite next_version_length by done. lia. Qed.

Lemma latest_in_spec name rows r : versions_ok rows -> latest_in name rows = Some r ->
  r ∈ rows /\ bc_name r = name /\ (bc_version r < next_version name rows)%Z.
Proof.
  intros V E. assert (N : next_version name rows = (bc_version r + 1)%Z) by (unfold next_version; by rewrite E).
  rewrite latest_is_last in E by done. apply last_Some in E as [l E].
  assert (I : In r (rows_named name rows)) by (rewrite E; apply in_app_iff; right; by left).
  apply List.filter_In in I as [I Q]. split_and!; [by apply list_elem_of_In|by apply String.eqb_eq|lia].
Qed.

Lemma validated_document_eq rows domain payload : validated_document rows domain payload =
  match od_get domain default_dump with
  | None => raise KeyError domain
  | Some base => validate_domain domain (deep_merge (match latest_in domain rows with Some r => deep_merge base (bc_config r) | None => base end) payload)
  end.
Proof. unfold validated_document, effective_domain_config. by destruct (od_get domain default_dump). Qed.

Lemma document_on_latest rows domain payload : versions_ok rows ->
  validated_document rows domain payload = document_on (latest_in domain rows) domain payload.
Proof.
  intros V. unfold document_on. rewrite !validated_document_eq. destruct (latest_in domain rows) as [r|] eqn:E; [|done].
  destruct (latest_in_spec _ _ _ V E) as (_ & N & _). replace (latest_in domain (option_list (Some r))) with (Some r); [done|].
  unfold latest_in. cbn. by rewrite N, String.eqb_refl.
Qed.

Lemma version_taken name v rows : versions_ok rows -> (1 <= v < next_version name rows)%Z -> existsb (same_key name v) rows = true.
Proof.
  intros V B. rewrite next_version_length in B by done.
  assert (I : In v (map bc_version (rows_named name rows))).
  { rewrite (V name). apply in_map_iff. exists (Z.to_nat v). split; [lia|]. apply in_seq. lia. }
  apply in_map_iff in I as (r & <- & I). apply List.filter_In in I as [I N].
  apply existsb_exists. exists r. split; [done|]. unfold same_key. by rewrite N, Z.eqb_refl.
Qed.

Lemma next_version_snoc rows r name : versions_ok rows -> bc_version r = next_version (bc_name r) rows ->
  next_version name (rows ++ [r]) = if String.eqb (bc_name r) name then (next_version name rows + 1)%Z else next_version name rows.
Proof.
  intros V E. rewrite !next_version_length by (try apply versions_snoc; done). rewrite rows_named_snoc, length_app.
  destruct (String.eqb _ _); simpl; lia.
Qed.

(** *** Preservation *)

Lemma based_mono rows rows' u base doc : (forall r, r ∈ rows -> r ∈ rows') -> based rows u base doc -> based rows' u base doc.
Proof. intros M [D B]. split; [done|]. destruct base as [r|]; [|done]. destruct B. split; [by apply M|done]. Qed.

Lemma update_ok_grow rows row u : versions_ok rows -> bc_version row = next_version (bc_name row) rows ->
  (forall r, pending_row u = Some r -> bc_name r <> bc_name row) -> update_ok rows u -> update_ok (rows ++ [row]) u.
Proof.
  intros V E P O. unfold update_ok, pending_row in *.
  assert (M : forall base doc, based rows u base doc -> based (rows ++ [row]) u base doc)
    by (intros base doc; apply based_mono; intros r I; apply elem_of_app; by left).
  assert (N : (next_version (up_domain u) rows <= next_version (up_domain u) (rows ++ [row]))%Z)
    by (rewrite next_version_snoc by done; destruct (String.eqb _ _); lia).
  assert (K : forall r, bc_name r <> bc_name row -> bc_name r = up_domain u ->
    next_version (up_domain u) (rows ++ [row]) = next_version (up_domain u) rows).
  { intros r D Q. rewrite next_version_snoc by done. destruct (String.eqb_spec (bc_name row) (up_domain u)); congruence. }
  destruct (up_phase u) as [|base doc|base doc v|base r|base r|base r|e]; try done.
  - destruct O. split; [by apply M|lia].
  - destruct O as (O & B & L). split_and!; [by apply M|lia..].
  - destruct O as (O & Q & B & L). rewrite (K r) by auto. split_and!; [by apply M|done..].
  - destruct O as (O & Q & B & L). rewrite (K r) by auto. split_and!; [by apply M|done..].
  - destruct O as (O & Q & B & L). split_and!; [by apply M|done..|]. apply elem_of_app; by left.
Qed.

Lemma updates_alter rows us i u p : us !! i = Some u -> Forall (update_ok rows) us -> update_ok rows (to_phase p u) ->
  Forall (update_ok rows) (alter (to_phase p) i us).
Proof. intros L F O. apply Forall_alter; [done|]. intros x E _. congruence. Qed.

Lemma pending_alter us i u p : us !! i = Some u -> one_pending us ->
  (forall r, pending_row (to_phase p u) = Some r -> forall j u' r', i <> j -> us !! j = Some u' -> pending_row u' = Some r' -> bc_name r <> bc_name r') ->
  one_pending (alter (to_phase p) i us).
Proof.
  intros L O N j k x y r r' J K Px Py Q.
  destruct (decide (i = j)) as [<-|Hj]; destruct (decide (i = k)) as [<-|Hk]; try done.
  - rewrite list_lookup_alter_eq, L in J. injection J as <-. rewrite list_lookup_alter_ne in K by done. by destruct (N r Px k y r' Hk K Py).
  - rewrite list_lookup_alter_eq, L in K. injection K as <-. rewrite list_lookup_alter_ne in J by done. by destruct (N r' Py j x r Hj J Px).
  - rewrite list_lookup_alter_ne in J, K by done. by apply (O j k x y r r').
Qed.

Lemma accounted_alter us i u p r : us !! i = Some u -> (forall base row, up_phase u <> Committed base row) ->
  row_accounted us r -> row_accounted (alter (to_phase p) i us) r.
Proof.
  intros L N (x & base & I & E). exists x, base. split; [|done]. apply list_elem_of_lookup in I as [j J].
  apply list_elem_of_lookup. exists j. destruct (decide (i = j)) as [<-|D]; [|by rewrite list_lookup_alter_ne].
  rewrite L in J. injection J as ->. by destruct (N base r).
Qed.

(** A change of one request that stores nothing. *)
Lemma sessions_ok_alter s bus i u p : sy_updates s !! i = Some u -> (forall base row, up_phase u <> Committed base row) ->
  sessions_ok s -> update_ok (sy_rows s) (to_phase p u) ->
  (forall r, pending_row (to_phase p u) = Some r -> forall j u' r', i <> j -> sy_updates s !! j = Some u' -> pending_row u' = Some r' -> bc_name r <> bc_name r') ->
  sessions_ok (mkSessions (sy_rows s) bus (alter (to_phase p) i (sy_updates s))).
Proof.
  intros L N [V U P A] O Q. split; cbn; [done|by eapply updates_alter|by eapply pending_alter|].
  apply (Forall_impl _ _ _ A). intros r. by apply (accounted_alter _ _ u).
Qed.

Lemma sessions_update s i u : sessions_ok s -> sy_updates s !! i = Some u -> update_ok (sy_rows s) u.
Proof. intros [_ U _ _] L. rewrite Forall_forall in U. apply U, list_elem_of_lookup. by exists i. Qed.

Lemma insert_ok s i u base doc v row : sessions_ok s -> sy_updates s !! i = Some u -> up_phase u = Numbered base doc v ->
  ~ key_pending (up_domain u) v (sy_updates s) -> existsb (same_key (up_domain u) v) (sy_rows s) = false ->
  bc_name row = up_domain u -> bc_version row = v -> bc_config row = doc -> sessions_ok (set_update i (Inserted base row) s).
Proof.
  intros I L E K X N Hv C. pose proof (sessions_update _ _ _ I L) as O. unfold update_ok in O. rewrite E in O. destruct O as (B & R & P).
  assert (Next : v = next_version (up_domain u) (sy_rows s)).
  { destruct (Z.eq_dec v (next_version (up_domain u) (sy_rows s))); [done|].
    rewrite version_taken in X; [done|apply (so_versions s I)|lia]. }
  apply (sessions_ok_alter s _ i u); try done; [by rewrite E| |].
  - cbn. rewrite Hv, C. split_and!; [done|done|lia|done].
  - cbn. intros r [= <-] j u' r' D J Pe Q. apply K. exists u', r'. split_and!; [apply list_elem_of_lookup; by exists j|done|].
    pose proof (sessions_update _ _ _ I J) as O. unfold update_ok, pending_row in *. unfold same_key.
    destruct (up_phase u'); try done; injection Pe as ->; destruct O as (_ & O1 & _ & O2);
      rewrite <- Q, N, String.eqb_refl, O2, <- O1, <- Q, N, <- Next; apply Z.eqb_refl.
Qed.

Lemma commit_ok s i u base row : sessions_ok s -> sy_updates s !! i = Some u -> up_phase u = Announced base row ->
  sessions_ok (mkSessions (sy_rows s ++ [row]) (sy_bus s) (alter (to_phase (Committed base row)) i (sy_updates s))).
Proof.
  intros I L E. pose proof (sessions_update _ _ _ I L) as O. unfold update_ok in O. rewrite E in O. destruct O as (B & N & R & Next).
  destruct I as [V U P A]. assert (Next' : bc_version row = next_version (bc_name row) (sy_rows s)) by (by rewrite N).
  assert (J : row ∈ sy_rows s ++ [row]) by (apply elem_of_app; right; by constructor).
  split; cbn.
  - by apply versions_snoc.
  - apply Forall_lookup. intros j x Hx. destruct (decide (i = j)) as [<-|D].
    + rewrite list_lookup_alter_eq, L in Hx. injection Hx as <-. cbn. split_and!; try done.
      apply (based_mono (sy_rows s)); [intros r Hr; apply elem_of_app; by left|done].
    + rewrite list_lookup_alter_ne in Hx by done. apply update_ok_grow; [done..| |by eapply Forall_lookup_1].
      intros r Pr Q. apply D. apply (P i j u x row r); try done. unfold pending_row. by rewrite E.
  - eapply pending_alter; [done..|]. done.
  - apply Forall_app. split.
    + apply (Forall_impl _ _ _ A). intros r. apply (accounted_alter _ _ u); [done|]. by rewrite E.
    + apply Forall_singleton. exists (to_phase (Committed base row) u), base. split; [|done]. apply list_elem_of_lookup. exists i.
      by rewrite list_lookup_alter_eq, L.
Qed.

Lemma begin_ok s domain payload : sessions_ok s ->
  sessions_ok (mkSessions (sy_rows s) (sy_bus s) (sy_updates s ++ [mkUpdate domain payload Begun])).
Proof.
  intros [V U P A]. split; cbn; [done|by apply Forall_app_2; [|apply Forall_singleton]| |].
  - intros i j x y r r' X Y Px Py.
    apply lookup_app_Some in X as [X|[_ X]]; [|apply list_lookup_singleton_Some in X as [_ <-]; done].
    apply lookup_app_Some in Y as [Y|[_ Y]]; [|apply list_lookup_singleton_Some in Y as [_ <-]; done]. by apply (P i j x y r r').
  - apply (Forall_impl _ _ _ A). intros r (u & base & I & E). exists u, base. split; [apply elem_of_app; by left|done].
Qed.

Lemma config_step_ok s s' : config_step s s' -> sessions_ok s -> sessions_ok s'.
Proof.
  intros St I. pose proof (so_versions s I) as V.
  destruct St as [s d p|s i u doc L E D|s i u base doc L E|s i u base doc v row L E K X N Hv C|s i u base doc v L E K X|s i u base row L E|s i u base row L E|s i u e L N].
  - by apply begin_ok.
  - apply (sessions_ok_alter s _ i u); try done; [by rewrite E|]. cbn. rewrite document_on_latest in D by done.
    destruct (latest_in (up_domain u) (sy_rows s)) as [r|] eqn:Lr.
    + destruct (latest_in_spec _ _ _ V Lr) as (? & ? & ?). by split_and!.
    + split; [by split|]. cbn. pose proof (next_version_pos (up_domain u) _ V). lia.
  - pose proof (sessions_update _ _ _ I L) as O. unfold update_ok in O. rewrite E in O. destruct O as [B R].
    apply (sessions_ok_alter s _ i u); try done; [by rewrite E|]. cbn. pose proof (next_version_pos (up_domain u) _ V).
    split_and!; [done|lia..].
  - by eapply insert_ok.
  - apply (sessions_ok_alter s _ i u); try done. by rewrite E.
  - pose proof (sessions_update _ _ _ I L) as O. unfold update_ok in O. rewrite E in O.
    apply (sessions_ok_alter s _ i u); try done; [by rewrite E|]. cbn. intros r [= <-] j u' r' D J Pe Q.
    apply D. apply (so_pending s I i j u u' row r'); try done. unfold pending_row. by rewrite E.
  - by eapply commit_ok.
  - apply (sessions_ok_alter s _ i u); done.
Qed.

Lemma config_reachable_ok s : config_reachable s -> sessions_ok s.
Proof.
  intros R. assert (I : sessions_ok no_requests) by (split; try constructor; by intros ??).
  induction R as [s|s s1 s2 St R IH]; [done|]. apply IH. by eapply config_step_ok.
Qed.

(** ** Schedules *)

(** The same steps as a function of the request that moves. *)
Inductive Move : Type :=
  | MBegin (domain : string) (payload : dict) | MMerge (i : nat) | MNumber (i : nat) | MInsert (i : nat) (id : string)
  | MAnnounce (i : nat) | MCommit (i : nat) | MFail (i : nat) (e : exn).

Definition pending_key (name : string) (version : Z) (u : Update) : bool :=
  match pending_row u with Some r => same_key name version r | None => false end.

Definition move (s : Sessions) (m : Move) : option Sessions :=
  match m with
  | MBegin domain payload => Some (mkSessions (sy_rows s) (sy_bus s) (sy_updates s ++ [mkUpdate domain payload Begun]))
  | MMerge i =>
      u ← sy_updates s !! i;
      match up_phase u, validated_document (sy_rows s) (up_domain u) (up_payload u) with
      | Begun, Ok doc => Some (set_update i (Merged (latest_in (up_domain u) (sy_rows s)) doc) s)
      | _, _ => None
      end
  | MNumber i =>
      u ← sy_updates s !! i;
      match up_phase u with
      | Merged base doc => Some (set_update i (Numbered base doc (next_version (up_domain u) (sy_rows s))) s)
      | _ => None
      end
  | MInsert i id =>
      u ← sy_updates s !! i;
      match up_phase u with
      | Numbered base doc v =>
          if existsb (pending_key (up_domain u) v) (sy_updates s) then None
          else if existsb (same_key (up_domain u) v) (sy_rows s) then Some (set_update i (Failed unique_violation) s)
          else Some (set_update i (Inserted base (mkBotConfig id (up_domain u) v "enabled" doc None 0%Z)) s)
      | _ => None
      end
  | MAnnounce i =>
      u ← sy_updates s !! i;
      match up_phase u with
      | Inserted base row => Some (mkSessions (sy_rows s) (sy_bus s ++ [(bc_name row, bc_version row, bc_config row)])
                                     (alter (to_phase (Announced base row)) i (sy_updates s)))
      | _ => None
      end
  | MCommit i =>
      u ← sy_updates s !! i;
      match up_phase u with
      | Announced base row => Some (mkSessions (sy_rows s ++ [row]) (sy_bus s) (alter (to_phase (Committed base row)) i (sy_updates s)))
      | _ => None
      end
  | MFail i e =>
      u ← sy_updates s !! i;
      match up_phase u with Committed _ _ => None | _ => Some (set_update i (Failed e) s) end
  end.

Fixpoint moves (s : Sessions) (ms : list Move) : option Sessions :=
  match ms with [] => Some s | m :: ms' => s' ← move s m; moves s' ms' end.

Lemma not_key_pending name v us : existsb (pending_key name v) us = false -> ~ key_pending name v us.
Proof.
  intros E (u & r & I & P & K). apply not_true_iff_false in E. apply E, existsb_exists. exists u.
  split; [by apply list_elem_of_In|]. unfold pending_key. by rewrite P.
Qed.

Lemma move_step s m s' : move s m = Some s' -> config_step s s'.
Proof.
  destruct m as [d p|i|i|i id|i|i|i e]; cbn; [intros [= <-]; constructor|..];
    (destruct (sy_updates s !! i) as [u|] eqn:L; [|done]); cbn; destruct (up_phase u) as [|base doc|base doc v|base r|base r|base r|x] eqn:E; try done.
  all: try (intros [= <-]; by econstructor).
  { destruct (validated_document _ _ _) as [doc|] eqn:D; [|done]. intros [= <-]. by eapply step_merge. }
  { destruct (existsb (pending_key _ _) _) eqn:K; [done|]. apply not_key_pending in K.
    destruct (existsb (same_key _ _) _) eqn:X; intros [= <-]; [by eapply step_refused|by eapply step_insert]. }
  all: intros [= <-]; eapply step_fail; [done|]; by rewrite E.
Qed.

Lemma moves_steps ms s s' : moves s ms = Some s' -> rtc config_step s s'.
Proof.
  revert s. induction ms as [|m ms IH]; intros s; cbn; [intros [= <-]; constructor|].
  destruct (move s m) as [s1|] eqn:E; [|done]. intros R. eapply rtc_l; [by apply (move_step _ m)|by apply IH].
Qed.
End Requests.

(** C19: however requests that update the configuration overlap, whichever of
    them fail and wherever, the stored versions of a domain are 1, 2, ..., n;
    every stored row is that of one committed request; and its document is the
    validated merge of that request's payload into an earlier version of the
    domain, or into the defaults. *)
Theorem concurrent_updates_consistent default_dump validate_domain s : config_reachable default_dump validate_domain s ->
  (forall name, map bc_version (rows_named name (sy_rows s)) = map Z.of_nat (seq 1 (length (rows_named name (sy_rows s))))) /\
  (forall r, r ∈ sy_rows s -> exists u base, u ∈ sy_updates s /\ up_phase u = Committed base r) /\
  (forall u base r, u ∈ sy_updates s -> up_phase u = Committed base r ->
     r ∈ sy_rows s /\ bc_name r = up_domain u /\ (base_version base < bc_version r)%Z /\
     document_on default_dump validate_domain base (up_domain u) (up_payload u) = Ok (bc_config r) /\
     match base with None => True | Some b => b ∈ sy_rows s /\ bc_name b = up_domain u end).
Proof.
  intros R. apply config_reachable_ok in R as [V U P A]. split_and!; [exact V|..].
  - intros r I. rewrite Forall_forall in A. by apply A.
  - intros u base r I E. rewrite Forall_forall in U. specialize (U u I). unfold update_ok in U. rewrite E in U.
    destruct U as ([D B] & N & L & J). by split_and!.
Qed.

(** ** Two requests *)

Definition demo_defaults2 : list (string * dict) := [("risk", [("a", PInt 0); ("b", PInt 0)])].
Definition accept_all (_ : string) (d : dict) : result dict := Ok d.

(** Both read the defaults, the second is committed first, and the first then
    takes the next version: the change of the second is gone. *)
Definition overlapping : list Move :=
  [MBegin "risk" [("a", PInt 1)]; MBegin "risk" [("b", PInt 1)]; MMerge 0;
   MMerge 1; MNumber 1; MInsert 1 "r1"; MAnnounce 1; MCommit 1;
   MNumber 0; MInsert 0 "r0"; MAnnounce 0; MCommit 0].

Lemma update_can_be_lost : exists s,
  moves demo_defaults2 accept_all no_requests overlapping = Some s /\ config_reachable demo_defaults2 accept_all s /\
  Forall (fun u => exists base r, up_phase u = Committed base r) (sy_updates s) /\
  map (fun r => (bc_version r, bc_config r)) (sy_rows s)
    = [(1%Z, [("a", PInt 0); ("b", PInt 1)]); (2%Z, [("a", PInt 1); ("b", PInt 0)])].
Proof.
  destruct (moves demo_defaults2 accept_all no_requests overlapping) as [s|] eqn:E; [|vm_compute in E; discriminate].
  exists s. split_and!; [done|by eapply moves_steps|..]; vm_compute in E; injection E as <-; [|done]. repeat constructor; by do 2 eexists.
Qed.

(** One request sends its configuration to the engines and then fails to
    commit; the next one stores the same version with another document. *)
Definition announced_then_failed : list Move :=
  [MBegin "risk" [("a", PInt 1)]; MMerge 0; MNumber 0; MInsert 0 "r0"; MAnnounce 0; MFail 0 (mkExn IntegrityError "commit");
   MBegin "risk" [("b", PInt 1)]; MMerge 1; MNumber 1; MInsert 1 "r1"; MAnnounce 1; MCommit 1].

Lemma announced_version_not_stored : exists s,
  config_reachable demo_defaults2 accept_all s /\
  sy_bus s = [("risk", 1%Z, [("a", PInt 1); ("b", PInt 0)]); ("risk", 1%Z, [("a", PInt 0); ("b", PInt 1)])] /\
  map bc_config (sy_rows s) = [[("a", PInt 0); ("b", PInt 1)]].
Proof.
  destruct (moves demo_defaults2 accept_all no_requests announced_then_failed) as [s|] eqn:E; [|vm_compute in E; discriminate].
  exists s. split; [by eapply moves_steps|]. vm_compute in E. by injection E as <-.
Qed.

Lemma concurrent_updates_consistent_witness : exists s,
  moves demo_defaults2 accept_all no_requests overlapping = Some s /\
  map bc_version (rows_named "risk" (sy_rows s)) = map Z.of_nat (seq 1 (length (rows_named "risk" (sy_rows s)))).
Proof.
  destruct (moves demo_defaults2 accept_all no_requests overlapping) as [s|] eqn:E; [|vm_compute in E; discriminate].
  exists s. split; [reflexivity|]. apply (concurrent_updates_consistent demo_defaults2 accept_all s). eapply moves_steps. exact E.
Defined.
