(* ===== verification/Interleaving.v ===== *)
(** * Interleaving: a shutdown command while a tick is under way

    The tick, the bus consumer and the private stream of
    engines/market_making/runtime.py are tasks of one event loop: a task that
    awaits lets the others run. When the consumer handles DISABLE_TRADING or
    EMERGENCY_SHUTDOWN, a tick may be suspended anywhere. Up to its first await
    the handler switches trading off, activates the kill switch and lists the
    open orders ([stop_trading]); it then cancels them one by one. What is left
    of the tick is any list of the pieces a tick consists of between its awaits
    ([TickAction]). A task that raises ends. *)

From stdpp Require Import relations.
From Stdlib Require Import Ascii.
From S2P Require Import Prelude Rounding PyFloat PyDecimal PyData PyValue Models Config Precision Quoting Risk Canary Reconcile Inventory Volume Store Paper Client CoinstoreRules CoinstoreService MMRuntime RuntimeProps.

#[local] Open Scope string_scope.
#[local] Open Scope list_scope.

(** ** Open orders of the paper engine *)

Create HintDb shrinks.
Ltac shrinks :=
  open_code;
  repeat (first [ solve [eauto with shrinks nocore] | apply stable_bind; [|intros ?] | apply stable_ret
                | apply stable_catch; [|intros ?] | progress case_match ]).

Section PaperOrders.
Context {D : Type} `{Session D} (uuid : nat -> string) (clock : nat -> datetime) (K : string -> Prop).

(** Every open order has a client id in [K]. *)
Definition open_in (w : World (D := D)) : Prop := forall c, c ∈ od_keys (pe_open_orders (w_engine w)) -> K c.

Lemma open_core {A} (m : M (D := D) A) : keeps_core m -> stable open_in m.
Proof. intros C w O. specialize (C w). unfold core in C. unfold open_in in *. by replace (pe_open_orders (w_engine (m w).1)) with (pe_open_orders (w_engine w)) by congruence. Qed.

Lemma open_update f : (forall e, pe_open_orders (f e) = pe_open_orders e) -> stable open_in (update (D := D) f).
Proof. intros E w O. unfold open_in, update in *. cbn. by rewrite E. Qed.

Lemma open_delete c : stable open_in (update (D := D) (fun e => with_open e (od_del c (pe_open_orders e)))).
Proof. intros w O c'. unfold update. cbn [fst w_engine with_open pe_open_orders]. rewrite od_keys_del. intros [_ I]%list_elem_of_filter. by apply O. Qed.

Lemma open_engine : stable open_in (engine (D := D)).
Proof. apply open_core, keeps_engine. Qed.
Lemma open_lift {A} (r : result A) : stable open_in (lift (D := D) r).
Proof. apply open_core, keeps_lift. Qed.
Lemma open_order_at r : stable open_in (order_at (D := D) r).
Proof. apply open_core, keeps_order_at. Qed.
Lemma open_now : stable open_in (now (D := D) clock).
Proof. apply open_core, keeps_now. Qed.
Lemma open_uuid : stable open_in (fresh_uuid (D := D) uuid).
Proof. apply open_core, keeps_uuid. Qed.
Lemma open_db {A} (m : SE D A) : stable open_in (db m).
Proof. apply open_core, keeps_db. Qed.
Lemma open_set_order r f : stable open_in (set_order (D := D) r f).
Proof. by apply open_update. Qed.
Lemma open_with_account f : stable open_in (update (D := D) (fun e => with_account e (f e))).
Proof. by apply open_update. Qed.
Lemma open_with_fills f : stable open_in (update (D := D) (fun e => with_fills e (f e))).
Proof. by apply open_update. Qed.
Lemma open_with_mark x : stable open_in (update (D := D) (fun e => with_mark e x)).
Proof. by apply open_update. Qed.
Lemma open_account : stable open_in (ensure_exchange_account (D := D)).
Proof. apply open_core, keeps_ensure_account. Qed.
Lemma open_persist r : stable open_in (persist_order (D := D) r).
Proof. apply open_core, keeps_persist_order. Qed.
Lemma open_persist_trade r f : stable open_in (persist_trade (D := D) r f).
Proof. apply open_core, keeps_persist_trade. Qed.
Lemma open_persist_position s : stable open_in (persist_position (D := D) s).
Proof. apply open_core, keeps_persist_position. Qed.
#[local] Hint Resolve open_delete open_engine open_lift open_order_at open_now open_uuid open_db open_set_order open_with_account open_with_fills
  open_with_mark open_persist open_persist_trade open_persist_position : shrinks.

Lemma open_fill_one symbol b r : stable open_in (fill_one uuid clock symbol b r).
Proof. unfold fill_one, apply_fill. shrinks. Qed.
#[local] Hint Resolve open_fill_one : shrinks.
Lemma open_fill_loop symbol b rs : stable open_in (fill_loop uuid clock symbol b rs).
Proof. induction rs; simpl; shrinks. Qed.
#[local] Hint Resolve open_fill_loop : shrinks.
Lemma open_fills symbol b : stable open_in (simulate_fills uuid clock symbol b).
Proof. unfold simulate_fills. shrinks. Qed.
Lemma open_cancel c : stable open_in (cancel_order clock c).
Proof. unfold cancel_order. shrinks. Qed.
End PaperOrders.

(** A cancelled order is not open any more, also when storing it fails. *)
Lemma cancel_closes {D} `{Session D} clock c (w : World (D := D)) :
  c ∉ od_keys (pe_open_orders (w_engine (cancel_order clock c w).1)).
Proof.
  unfold cancel_order, engine. open_code. unfold se_bind at 1. destruct (od_get c (pe_open_orders (w_engine w))) as [r|] eqn:E.
  - unfold se_bind at 1, now. unfold se_bind at 1, set_order, update. unfold se_bind at 1. cbv zeta.
    match goal with |- context [(se_bind _ _ _ _ _ ?x).1] => set (w1 := x) end.
    assert (O : open_in (fun c' => c' <> c) w1) by (intros c'; unfold w1; cbn [w_engine with_open pe_open_orders]; rewrite od_keys_del; by intros [? _]%list_elem_of_filter).
    assert (S : stable (open_in (D := D) (fun c' => c' <> c)) (se_bind _ _ _ (fun _ : unit => mret (Some r)) (persist_order r))).
    { open_code. apply stable_bind; [apply open_persist|intros _; apply stable_ret]. }
    intros I. by apply (S w1 O c I).
  - by apply od_get_None.
Qed.

(** ** Tasks *)

Section Tasks.
Context {L D : Type} `{Session D} `{RuntimeSession D} `{LiveVenue L D}.
Context (uuid : nat -> string) (clock : nat -> datetime) (fpow : float -> Z -> float) (quote_hex : nat -> string -> Z -> string).
Context (fromisoformat : pyval -> result datetime) (st : RuntimeSettings).
#[local] Abbreviation RT := (Runtime (L := L) (D := D)).

(** A piece of a tick: a quote of the ladder being submitted, the rest of
    [place_order] for an order that is already open, a cancellation by the
    ladder or the reconciliation, a cached market message, the next symbol,
    the inventory rows, the reconciliation. *)
Inductive TickAction : Type :=
  | TQuote (symbol : string) (book : OrderBookSnapshot) (q : Quote)
  | TSettle (order : nat) (symbol : string) (book : OrderBookSnapshot)
  | TCancel (client_order_id : string)
  | TIngest (channel : string) (payload : pyval)
  | TSymbol (symbol : string)
  | TInventory (symbol : string) (balances : list AssetBalance)
  | TReconcile.

Definition act (a : TickAction) : R (L := L) (D := D) unit :=
  match a with
  | TQuote symbol book q => submit_quote uuid clock st symbol book q
  | TSettle r symbol book => _ ← paper (persist_order r); _ ← paper (simulate_fills uuid clock symbol book); bump "paper.orders_created"
  | TCancel c => cancel_paper_lifecycle_order clock c
  | TIngest channel payload => ingest_market_event uuid clock fromisoformat channel payload
  | TSymbol symbol => quote_symbol uuid clock fpow quote_hex st symbol
  | TInventory symbol balances => persist_inventory clock st symbol balances
  | TReconcile => maybe_reconcile clock st
  end.

(** The handler of a shutdown command up to its first await. *)
Definition stop_trading (reason : string) : R (L := L) (D := D) (list string) :=
  _ ← set_trading false false;
  t ← utcnow clock;
  _ ← risk (activate_kill_switch t reason);
  e ← paper_engine;
  mret (od_keys (pe_open_orders e)).

(** The runtime, what is left of the tick, and the orders the handler has still
    to cancel ([None] when it has raised). *)
Record Tasks : Type := mkTasks { tk_runtime : RT; tk_tick : list TickAction; tk_cancels : option (list string) }.

Inductive task_step : Tasks -> Tasks -> Prop :=
  | tick_acts s a rest h s' : act a s = (s', Ok tt) -> task_step (mkTasks s (a :: rest) h) (mkTasks s' rest h)
  | tick_raises s a rest h s' e : act a s = (s', Err e) -> task_step (mkTasks s (a :: rest) h) (mkTasks s' [] h)
  | tick_starts s tick h : task_step (mkTasks s [] h) (mkTasks s tick h)
  | handler_cancels s tick c cs s' r : paper (cancel_order clock c) s = (s', Ok r) ->
      task_step (mkTasks s tick (Some (c :: cs))) (mkTasks s' tick (Some cs))
  | handler_raises s tick c cs s' e : paper (cancel_order clock c) s = (s', Err e) ->
      task_step (mkTasks s tick (Some (c :: cs))) (mkTasks s' tick None)
  | stream_delivers s tick h m : task_step (mkTasks s tick h) (mkTasks (private_message m s).1 tick h).

(** *** What every task keeps *)

(** Trading is stopped with the orders [o], and the open ones are in [K]. *)
Definition halted (o : nat * list OrderIntent) (K : string -> Prop) (s : RT) : Prop := stopped o s /\ open_in K (rt_world s).

Definition open_runtime (K : string -> Prop) (s : RT) : Prop := open_in K (rt_world s).

Lemma halted_stable {A} o K (m : R A) : frame gate m -> stable (open_runtime K) m -> stable (halted o K) m.
Proof. intros F S s [P O]. split; [by apply gate_stopped|by apply S]. Qed.

Lemma open_paper {A} K (m : M (D := D) A) : stable (open_in K) m -> stable (open_runtime K) (paper m).
Proof. intros S s O. unfold paper, open_runtime in *. specialize (S _ O). by destruct (m (rt_world s)). Qed.
Lemma open_session {A} K (m : SE D A) : stable (open_runtime K) (session m).
Proof. apply open_paper, open_db. Qed.
Lemma open_live {A} K (m : SE (L * D) A) : stable (open_runtime K) (live m).
Proof. intros s O. unfold live, open_runtime, open_in in *. destruct (m _) as [[l d] r]. exact O. Qed.
Lemma open_modify K f : (forall s, w_engine (rt_world (f s)) = w_engine (rt_world s)) -> stable (open_runtime K) (modify f).
Proof. intros E s O. unfold open_runtime, open_in, modify in *. cbn. by rewrite E. Qed.
Lemma open_gets {A} K (f : RT -> A) : stable (open_runtime K) (gets f).
Proof. by intros s O. Qed.
Lemma open_ok_or {A} K (r : result A) : stable (open_runtime K) (ok_or r).
Proof. by intros s O. Qed.
Lemma open_increment K name x : stable (open_runtime K) (increment name x).
Proof. by apply open_modify. Qed.
Lemma open_bump K name : stable (open_runtime K) (bump name).
Proof. by apply open_modify. Qed.
Lemma open_gauge K name x : stable (open_runtime K) (set_gauge name x).
Proof. by apply open_modify. Qed.
Lemma open_life K f : stable (open_runtime K) (life f).
Proof. by apply open_modify. Qed.
Lemma open_market K f : stable (open_runtime K) (market f).
Proof. by apply open_modify. Qed.
Lemma open_canary_shutdown K r : stable (open_runtime K) (canary_shutdown r).
Proof. by apply open_modify. Qed.
Lemma open_utcnow K : stable (open_runtime K) (utcnow clock).
Proof. apply open_paper, open_now. Qed.
Lemma open_paper_engine K : stable (open_runtime K) paper_engine.
Proof. by apply open_gets. Qed.
Lemma open_config K : stable (open_runtime K) config.
Proof. by apply open_gets. Qed.
Lemma open_paper_cancel K c : stable (open_runtime K) (paper (cancel_order clock c)).
Proof. apply open_paper, (open_cancel uuid). Qed.
Lemma open_paper_fills K symbol b : stable (open_runtime K) (paper (simulate_fills uuid clock symbol b)).
Proof. apply open_paper, open_fills. Qed.
Lemma open_paper_persist K r : stable (open_runtime K) (paper (persist_order r)).
Proof. apply open_paper, open_persist. Qed.
Lemma open_paper_account K : stable (open_runtime K) (paper ensure_exchange_account).
Proof. apply open_paper, open_account. Qed.
Lemma open_paper_order K r : stable (open_runtime K) (paper (order_at r)).
Proof. apply open_paper, open_order_at. Qed.
#[local] Hint Resolve open_session open_live open_gets open_ok_or open_increment open_bump open_gauge open_life open_market open_canary_shutdown
  open_utcnow open_paper_engine open_config open_paper_cancel open_paper_fills open_paper_persist open_paper_account open_paper_order : shrinks.

Lemma open_each {A} K (f : A -> R unit) l : (forall x, stable (open_runtime K) (f x)) -> stable (open_runtime K) (each f l).
Proof. intros Hf. induction l; simpl; shrinks. Qed.
Lemma open_fold {A} K (f : Z -> A -> R Z) l n : (forall n x, stable (open_runtime K) (f n x)) -> stable (open_runtime K) (fold_actions f l n).
Proof. intros Hf. revert n. induction l; simpl; intros; shrinks. Qed.
#[local] Hint Resolve open_each open_fold : shrinks.

Lemma open_lifecycle K c : stable (open_runtime K) (cancel_paper_lifecycle_order clock c).
Proof. unfold cancel_paper_lifecycle_order. shrinks. Qed.
#[local] Hint Resolve open_lifecycle : shrinks.
Lemma open_gauges K : stable (open_runtime K) (update_lifecycle_gauges clock).
Proof. unfold update_lifecycle_gauges. shrinks. Qed.
#[local] Hint Resolve open_gauges : shrinks.
Lemma open_ingest K channel p : stable (open_runtime K) (ingest_market_event uuid clock fromisoformat channel p).
Proof. unfold ingest_market_event. shrinks. Qed.
Lemma open_inventory K symbol balances : stable (open_runtime K) (persist_inventory clock st symbol balances).
Proof. unfold persist_inventory. shrinks. apply open_each. intros x. unfold persist_snapshot. shrinks. Qed.
Lemma open_reconcile K : stable (open_runtime K) (maybe_reconcile clock st).
Proof.
  unfold maybe_reconcile, reconcile_live_orders, reconcile_paper, reconcile_paper_order_state, handle_reconciliation_mismatches.
  shrinks; apply open_fold; intros; unfold cancel_if_stale, clean_orphan, count_stale; shrinks.
Qed.
Lemma open_private K m : stable (open_runtime K) (private_message m).
Proof. unfold private_message. shrinks. Qed.

(** With the kill switch active the risk check raises and changes nothing. *)
Lemma risk_gate_blocked o K i (s : RT) : halted o K s -> exists s' e, risk_gate clock i s = (s', Err e) /\ halted o K s'.
Proof.
  intros [(T & Q & Kill & O) P]. unfold risk_gate. open_code. unfold se_bind at 1, paper_engine, gets. unfold se_bind at 1, utcnow, paper, now.
  unfold risk. unfold assert_order_allowed, mbind, se_bind. cbn [set_world rt_engines].
  match goal with |- context [evaluate_order ?t i ?a ?b ?n ?p ?k] => destruct (evaluate_blocked k t i a b n p Kill) as [msg ->] end.
  eexists _, _. split; [reflexivity|]. by split.
Qed.

Lemma halted_quote o K symbol book q : stable (halted o K) (submit_quote uuid clock st symbol book q).
Proof.
  unfold submit_quote. open_code. apply stable_pure. intros i _. apply stable_catch.
  - intros s P. destruct (risk_gate_blocked o K (mkRiskIntent symbol (qt_side q) (qt_price q) (qt_quantity q)) s P) as (s' & e & E & P').
    unfold submit_checked. open_code. unfold se_bind at 1. by rewrite E.
  - intros e. unfold persist_risk_event. apply halted_stable; [frames|shrinks].
Qed.

Lemma halted_symbol o K symbol : stable (halted o K) (quote_symbol uuid clock fpow quote_hex st symbol).
Proof.
  intros s P. pose proof P as [(T & _) _]. unfold quote_symbol, mbind, R_bind, se_bind, gets, config. simpl. rewrite T.
  by apply (halted_stable o K (bump "market_maker.strategy_blocks")); [eauto with frames|shrinks|].
Qed.

Lemma halted_act o K a : stable (halted o K) (act a).
Proof.
  destruct a as [symbol book q|r symbol book|c|channel payload|symbol|symbol balances|]; cbn [act].
  - apply halted_quote.
  - open_code. apply halted_stable; [|shrinks]. frames. apply gate_paper, heap_persist_order.
  - apply halted_stable; [unfold cancel_paper_lifecycle_order; frames|shrinks].
  - apply halted_stable; [eauto with frames|apply open_ingest].
  - apply halted_symbol.
  - apply halted_stable; [|apply open_inventory]. unfold persist_inventory. frames. apply gate_each. intros x. unfold persist_snapshot. frames.
  - apply halted_stable; [eauto with frames|apply open_reconcile].
Qed.

(** *** The invariant of the tasks *)

(** Only orders the handler has still to cancel are open. *)
Definition to_cancel (h : option (list string)) (c : string) : Prop := match h with Some cs => c ∈ cs | None => True end.
Definition tasks_halted (o : nat * list OrderIntent) (t : Tasks) : Prop := halted o (to_cancel (tk_cancels t)) (tk_runtime t).

Lemma halted_weaken o (K K' : string -> Prop) s : (forall c, K c -> K' c) -> halted o K s -> halted o K' s.
Proof. intros W [P O]. split; [done|]. intros c I. by apply W, O. Qed.

Lemma halted_cancel o c cs (s : RT) : halted o (to_cancel (Some (c :: cs))) s -> halted o (to_cancel (Some cs)) (paper (cancel_order clock c) s).1.
Proof.
  intros P. pose proof (halted_stable o (to_cancel (Some (c :: cs))) (paper (cancel_order clock c))) as S.
  destruct (S ltac:(eauto with frames) (open_paper_cancel _ c) s P) as [P' O]. split; [done|]. intros c' I.
  specialize (O c' I). cbn in O |- *. apply elem_of_cons in O as [->|O]; [|done].
  destruct (cancel_closes clock c (rt_world s)). unfold paper in I. by destruct (cancel_order clock c (rt_world s)).
Qed.

Lemma task_step_halted o t t' : task_step t t' -> tasks_halted o t -> tasks_halted o t'.
Proof.
  unfold tasks_halted. destruct 1 as [s a rest h s' E|s a rest h s' e E|s tick h|s tick c cs s' r E|s tick c cs s' e E|s tick h m]; cbn; intros P.
  - pose proof (halted_act o (to_cancel h) a s P) as Q. by rewrite E in Q.
  - pose proof (halted_act o (to_cancel h) a s P) as Q. by rewrite E in Q.
  - done.
  - pose proof (halted_cancel o c cs s P) as Q. by rewrite E in Q.
  - pose proof (halted_cancel o c cs s P) as Q. rewrite E in Q. by apply (halted_weaken _ (to_cancel (Some cs))).
  - revert s P. apply halted_stable; [eauto with frames|apply open_private].
Qed.

(** The first segment of the handler establishes it. *)
Lemma stop_trading_halts reason (s s' : RT) cs : stop_trading reason s = (s', Ok cs) ->
  halted (orders_made s) (to_cancel (Some cs)) s' /\ pe_open_orders (w_engine (rt_world s')) = pe_open_orders (w_engine (rt_world s)).
Proof.
  unfold stop_trading. open_code. unfold se_bind at 1. cbn [set_trading modify]. unfold se_bind at 1. cbn [utcnow paper now].
  unfold se_bind at 1. unfold risk, activate_kill_switch, se_modify. cbv beta iota zeta. unfold se_bind, paper_engine, gets, se_ret.
  intros [= <- <-]. split; [|done]. split; [by split_and!|]. by intros c I.
Qed.

Lemma tasks_run_halted o t t' : rtc task_step t t' -> tasks_halted o t -> tasks_halted o t'.
Proof. induction 1 as [t|t t1 t' St R IH]; [done|]. intros P. apply IH. by eapply task_step_halted. Qed.
End Tasks.


(** ** Examples *)

Definition second_quote : Quote := mkQuote "buy" (of_Z 49400) (flit 1 100) 2 "mm-btcusdt-buy-2".
Definition stopped_demo : Runtime (L := unit) (D := MemDB) := (stop_trading minute_clock "drill" after_first_quote).1.

Definition left_quote : TickAction := TQuote "BTC/USDT" far_book second_quote.
#[local] Abbreviation demo_act := (act demo_uuid minute_clock fpow_exact demo_hex demo_iso (demo_settings lm_paper)).
Definition refused_demo : Runtime (L := unit) (D := MemDB) := (demo_act left_quote stopped_demo).1.
Definition cancelled_demo : Runtime (L := unit) (D := MemDB) := (paper (cancel_order minute_clock "mm-btcusdt-buy-1-old") refused_demo).1.

Lemma demo_stop : stop_trading minute_clock "drill" after_first_quote = (stopped_demo, Ok ["mm-btcusdt-buy-1-old"]).
Proof. vm_compute. reflexivity. Qed.
Lemma demo_refused : demo_act left_quote stopped_demo = (refused_demo, Ok tt).
Proof. vm_compute. reflexivity. Qed.
Lemma demo_cancelled : paper (cancel_order minute_clock "mm-btcusdt-buy-1-old") refused_demo = (cancelled_demo, Ok (Some 0%nat)).
Proof. vm_compute. reflexivity. Qed.

Definition final_tasks : Tasks (L := unit) (D := MemDB) := mkTasks cancelled_demo [] (Some []).
Lemma demo_tasks : rtc (task_step demo_uuid minute_clock fpow_exact demo_hex demo_iso (demo_settings lm_paper))
  (mkTasks stopped_demo [left_quote] (Some ["mm-btcusdt-buy-1-old"])) final_tasks.
Proof.
  exact (rtc_l _ _ _ _ (tick_acts _ _ _ _ _ _ _ left_quote [] _ _ demo_refused)
    (rtc_l _ _ _ _ (handler_cancels _ _ _ _ _ _ _ _ _ _ _ _ demo_cancelled) (rtc_refl _ _))).
Qed.


(** The order was open, and the quote was not placed. *)
Example shutdown_demo :
  map fst (pe_open_orders (w_engine (rt_world refused_demo))) = ["mm-btcusdt-buy-1-old"] /\ orders_made refused_demo = (1%nat, []).
Proof. vm_compute. split; reflexivity. Qed.

(** The pause command does not do the same: it does not activate the kill
    switch, and the quotes left in the ladder become orders. *)
Definition pause_message (_ : string) : result pyval :=
  Ok (PDict [("command_type", PStr "STRATEGY_COMMAND"); ("payload", PDict [("action", PStr "pause")])]).
Lemma pause_does_not_cut_the_tick :
  let s1 := (consume demo_uuid minute_clock demo_time empty_cache good_bus pause_message demo_validate demo_iso (demo_settings lm_paper)
               (Some ("engine.commands.market-maker-engine", "{}")) after_first_quote).1 in
  let s2 := (submit_quote demo_uuid minute_clock (demo_settings lm_paper) "BTC/USDT" far_book second_quote s1).1 in
  fl_trading (rt_flags s1) = false /\ orders_made s1 = (1%nat, []) /\ orders_made s2 = (2%nat, []).
Proof. vm_compute. repeat split. Qed.
