(* ===== verification/Lifecycle.v ===== *)
(** * Lifecycle: opening and closing what the services hold ([api/main.py],
    [core/config.py], [db/session.py], [redis/manager.py],
    [engines/runtime.py], [engines/market_making/runtime.py],
    [observability/logging.py], [cli/engine.py])

    Calls of SQLAlchemy, Redis, httpx, asyncio and the file system are events
    of a log: [answer n c] says whether the call [c], the [n]th of the log,
    raises. What a service holds at a moment is read off the log, and is
    undefined once something is opened twice or released without being held.
    The code between opening and closing is a parameter. *)

From Stdlib Require Import Ascii.
From S2P Require Import Prelude Rounding PyFloat PyDecimal PyData PyValue Models Json Environment Daemon.

#[local] Open Scope string_scope.
#[local] Open Scope list_scope.

(** ** Logging *)

(** Levels the logging library knows by name. *)
Definition level_of_name : list (string * Z) :=
  [("CRITICAL", 50); ("FATAL", 50); ("ERROR", 40); ("WARN", 30); ("WARNING", 30); ("INFO", 20); ("DEBUG", 10); ("NOTSET", 0)]%Z.

Record RootLogger : Type := mkRoot { rl_handlers : list string; rl_level : Z }.

(** The handlers are replaced before the level is looked up. *)
Definition configure_root (level : string) : SE RootLogger unit :=
  _ ← se_modify (fun r => mkRoot [] (rl_level r));
  _ ← se_modify (fun r => mkRoot (rl_handlers r ++ ["JsonFormatter on stdout"]) (rl_level r));
  match od_get level level_of_name with
  | Some z => se_modify (fun r => mkRoot (rl_handlers r) z)
  | None => se_raise ValueError ("Unknown level: '" +:+ level +:+ "'")
  end.

(** ** Calls and what they hold *)

Inductive Resource : Type :=
  | database_engine | redis_client | db_session | pubsub | bus_task | private_task | rest_client (n : nat).

#[export] Instance Resource_eq_dec : EqDecision Resource.
Proof. solve_decision. Defined.

Inductive Call : Type :=
  | CreateEngine (url : string) (options : dict) | DisposeEngine
  | FromUrl (url : string) (options : dict) | CloseRedis
  | OpenSession | RollbackSession | CloseSession
  | OpenPubSub | Subscribe (channels : list string) | PSubscribe (patterns : list string) | Unsubscribe (channels : list string) | ClosePubSub
  | CreateBusTask | CancelBusTask | CreatePrivateTask | CancelPrivateTask | StopStream
  | OpenClient (n : nat) | CloseClient (n : nat)
  | LoadSettings | ReadConfig | NewEngine (component : string)
  | AddSignalHandler (sig : string) | SetSignal (sig : string)
  | MakeDir (path : string) | WriteHealth (status : string) | Info (message : string)
  | Serve (app host : string) (port : Z) (reload : bool).

Definition opens (c : Call) : option Resource :=
  match c with
  | CreateEngine _ _ => Some database_engine | FromUrl _ _ => Some redis_client | OpenSession => Some db_session
  | OpenPubSub => Some pubsub | CreateBusTask => Some bus_task | CreatePrivateTask => Some private_task
  | OpenClient n => Some (rest_client n) | _ => None
  end.

Definition releases (c : Call) : option Resource :=
  match c with
  | DisposeEngine => Some database_engine | CloseRedis => Some redis_client | CloseSession => Some db_session
  | ClosePubSub => Some pubsub | CancelBusTask => Some bus_task | CancelPrivateTask => Some private_task
  | CloseClient n => Some (rest_client n) | _ => None
  end.

(** Effect of a call that returned ([true]) or raised. *)
Definition hold (held : list Resource) (e : Call * bool) : option (list Resource) :=
  if negb e.2 then Some held
  else match opens e.1, releases e.1 with
       | Some r, _ => if bool_decide (r ∈ held) then None else Some (r :: held)
       | None, Some r => if bool_decide (r ∈ held) then Some (List.filter (fun x => negb (bool_decide (x = r))) held) else None
       | None, None => Some held
       end.

Fixpoint held_after (held : list Resource) (l : list (Call * bool)) : option (list Resource) :=
  match l with
  | [] => Some held
  | e :: l' => held' ← hold held e; held_after held' l'
  end.

(** ** Services *)

(** The settings the services read at start-up. *)
Record ServiceSettings : Type := mkService {
  sv_log_level : string; sv_server_ip : string; sv_server_port : Z;
  sv_database_url : string; sv_pool_size : Z; sv_max_overflow : Z; sv_pool_timeout : Z;
  sv_redis_url : string; sv_redis_password : option string; sv_redis_timeout : float;
  sv_market_data : list (string * list string) }.     (* the three MARKET_DATA lists *)

Record World : Type := mkWorld {
  w_log : list (Call * bool); w_root : RootLogger;
  w_settings : option ServiceSettings;                (* the cache of get_settings *)
  w_stderr : list string }.

Definition w_add e w := mkWorld (w_log w ++ [e]) (w_root w) (w_settings w) (w_stderr w).
Definition w_set_root r w := mkWorld (w_log w) r (w_settings w) (w_stderr w).
Definition w_cache s w := mkWorld (w_log w) (w_root w) (Some s) (w_stderr w).
Definition w_print line w := mkWorld (w_log w) (w_root w) (w_settings w) (w_stderr w ++ [line]).

(** [try: m finally: c]: an exception of [c] wins. *)
Definition se_finally {S A} (m : SE S A) (c : SE S unit) : SE S A :=
  fun s => let '(s1, r) := m s in
           match c s1 with
           | (s2, Ok _) => (s2, r)
           | (s2, Err e) => (s2, Err e)
           end.

Section Services.
Context (answer : nat -> Call -> option exn) (load : nat -> result ServiceSettings) (environ : string -> option string).
(** The event loop supports signal handlers. *)
Context (loop_signals : bool).

Definition call (c : Call) : SE World unit :=
  fun w => match answer (length (w_log w)) c with
           | None => (w_add (c, true) w, Ok tt)
           | Some e => (w_add (c, false) w, Err e)
           end.

(** A call that cannot raise. *)
Definition note (c : Call) : SE World unit := se_modify (w_add (c, true)).

Definition configure_logging (level : string) : SE World unit :=
  fun w => let '(r, x) := configure_root level (w_root w) in (w_set_root r w, x).

(** *** Settings *)

Definition diagnostics_fields : list string := ["MARKET_DATA_EXCHANGES"; "MARKET_DATA_SYMBOLS"; "MARKET_DATA_STREAMS"].

Definition diagnostics_line (settings : option ServiceSettings) (field : string) : dict :=
  let raw := environ field in
  let decoded := match settings with Some s => od_get field (sv_market_data s) | None => None end in
  [("event", PStr "settings_startup_diagnostics"); ("field", PStr field);
   ("source_provider", PStr (if raw then "EnvSettingsSource(os.environ)" else "DefaultSettingsSource"));
   ("raw_env_value", match raw with Some s => PStr s | None => PNone end);
   ("decoded_value", match decoded with Some l => PList (map PStr l) | None => PNone end);
   ("phase", PStr (if settings then "after" else "before"))].

Definition emit_diagnostics (settings : option ServiceSettings) : SE World unit :=
  se_iter (fun field => se_modify (w_print (dumps_compact (PDict (diagnostics_line settings field))))) diagnostics_fields.

(** [Settings()], which reads the environment. *)
Definition load_settings : SE World ServiceSettings :=
  fun w => let r := load (length (w_log w)) in
           (w_add (LoadSettings, match r with Ok _ => true | Err _ => false end) w, r).

(** [lru_cache] keeps a result, not an exception. *)
Definition get_settings : SE World ServiceSettings :=
  w ← se_get;
  match w_settings w with
  | Some s => mret s
  | None =>
      _ ← emit_diagnostics None;
      s ← load_settings;
      _ ← emit_diagnostics (Some s);
      _ ← se_modify (w_cache s);
      mret s
  end.

(** *** Connections *)

Definition engine_options (st : ServiceSettings) : dict :=
  let sqlite := str_startswith "sqlite" (sv_database_url st) in
  [("pool_pre_ping", PBool true); ("connect_args", PDict (if sqlite then [("check_same_thread", PBool false)] else []))]
  ++ (if sqlite then [] else
      [("pool_size", PInt (sv_pool_size st)); ("max_overflow", PInt (sv_max_overflow st)); ("pool_timeout", PInt (sv_pool_timeout st))]).

Definition new_database (st : ServiceSettings) : SE World unit := call (CreateEngine (sv_database_url st) (engine_options st)).
Definition database_close : SE World unit := call DisposeEngine.

Definition redis_options (st : ServiceSettings) : dict :=
  [("password", match sv_redis_password st with Some p => PStr p | None => PNone end);
   ("socket_timeout", PFloat (sv_redis_timeout st)); ("decode_responses", PBool true)].

Definition new_redis (st : ServiceSettings) : SE World unit := call (FromUrl (sv_redis_url st) (redis_options st)).
Definition redis_close : SE World unit := call CloseRedis.

(** [PubSubFramework.subscribe] around [body] *)
Definition open_subscription (channels : list string) : SE World unit :=
  _ ← call OpenPubSub; call (Subscribe channels).
Definition close_subscription (channels : list string) : SE World unit :=
  _ ← call (Unsubscribe channels); call ClosePubSub.
Definition subscribe {A} (channels : list string) (body : SE World A) : SE World A :=
  _ ← open_subscription channels; se_finally body (close_subscription channels).

(** [gather(..., return_exceptions=True)] of the calls *)
Fixpoint close_many (clients : list nat) : SE World unit :=
  match clients with
  | [] => mret tt
  | n :: rest => _ ← se_catch (call (CloseClient n)) (fun _ => mret tt); close_many rest
  end.

(** *** The API service *)

Definition open_services : SE World unit :=
  st ← get_settings;
  _ ← configure_logging (sv_log_level st);
  _ ← new_database st;
  new_redis st.
Definition close_services : SE World unit := _ ← redis_close; database_close.

Definition lifespan {A} (serving : SE World A) : SE World A := _ ← open_services; se_finally serving close_services.

Definition run_api : SE World unit :=
  st ← get_settings;
  call (Serve "mmbot.api.main:app" (sv_server_ip st) (sv_server_port st) false).

(** *** The engine daemon *)

Definition install_signal_handlers : SE World unit :=
  se_iter (fun sig => call (if loop_signals then AddSignalHandler sig else SetSignal sig)) ["SIGTERM"; "SIGINT"].

(** Redis first, then the database and a session; an unreadable configuration
    is replaced by the default. *)
Definition initialize_dependencies (st : ServiceSettings) (component : string) : SE World unit :=
  _ ← new_redis st;
  _ ← new_database st;
  _ ← call OpenSession;
  _ ← se_catch (call ReadConfig) (fun _ => call RollbackSession);
  if String.eqb component "market-data-engine" || String.eqb component "market-maker-engine" then call (NewEngine component)
  else se_raise ValueError ("Unsupported engine component: " +:+ component).

Definition startup_message (component : string) : string :=
  if String.eqb component "market-data-engine" then "Market Data Engine Started"
  else if String.eqb component "market-maker-engine" then "Market Maker Engine Started"
  else component +:+ " Started".

Definition start_daemon (st : ServiceSettings) (component health_dir : string) : SE World unit :=
  _ ← configure_logging (sv_log_level st);
  _ ← install_signal_handlers;
  _ ← call (MakeDir health_dir);
  _ ← initialize_dependencies st component;
  _ ← note (Info (startup_message component));
  call (WriteHealth "starting").

Definition stop_daemon (stop_engine : SE World unit) : SE World unit :=
  _ ← note (Info "engine_shutdown_started");
  _ ← call (WriteHealth "stopping");
  _ ← stop_engine;
  _ ← call CloseSession;
  _ ← redis_close;
  _ ← database_close;
  _ ← call (WriteHealth "stopped");
  note (Info "engine_shutdown_completed").

Definition daemon_run (st : ServiceSettings) (component health_dir : string) (loop stop_engine : SE World unit) : SE World unit :=
  _ ← start_daemon st component health_dir; se_finally loop (stop_daemon stop_engine).

(** *** The market maker's connections and tasks *)

Record Maker : Type := mkMaker {
  mk_started : bool; mk_pubsub : bool; mk_consumer : bool; mk_stream : bool; mk_client : bool }.

Definition patterns : list string :=
  ["marketdata:ticker:*"; "marketdata:trades:*"; "marketdata:orderbook:*"; "marketdata:analytics:*"; "runtime.config.*"; "engine.commands.market-maker-engine"].

(** [ensure_started]: the runtime with what has been set before an exception. *)
Definition maker_start (live : bool) (k : Maker) : World -> World * (Maker * result unit) := fun w =>
  if mk_started k then (w, (k, Ok tt)) else
  match call OpenPubSub w with
  | (w1, Err e) => (w1, (mkMaker true (mk_pubsub k) (mk_consumer k) (mk_stream k) (mk_client k), Err e))
  | (w1, Ok _) =>
      match call (PSubscribe patterns) w1 with
      | (w2, Err e) => (w2, (mkMaker true true (mk_consumer k) (mk_stream k) (mk_client k), Err e))
      | (w2, Ok _) =>
          let w3 := w_add (CreateBusTask, true) w2 in
          if live && negb (mk_stream k) then
            match (if mk_client k then (w3, Ok tt) else call (OpenClient 0) w3) with
            | (w4, Err e) => (w4, (mkMaker true true true (mk_stream k) (mk_client k), Err e))
            | (w4, Ok _) => (w_add (CreatePrivateTask, true) w4, (mkMaker true true true true true, Ok tt))
            end
          else (w3, (mkMaker true true true (mk_stream k) (mk_client k), Ok tt))
      end
  end.

(** [stop]; the tasks' own exceptions are collected. *)
Definition maker_stop (k : Maker) : SE World unit :=
  _ ← (if mk_consumer k then note CancelBusTask else mret tt);
  _ ← (if mk_pubsub k then call ClosePubSub else mret tt);
  _ ← (if mk_stream k then note StopStream else mret tt);
  _ ← (if mk_stream k then note CancelPrivateTask else mret tt);
  if mk_client k then call (CloseClient 0) else mret tt.

Definition maker_holds (k : Maker) : list Resource :=
  (if mk_stream k then [private_task] else []) ++ (if mk_client k then [rest_client 0] else [])
  ++ (if mk_consumer k then [bus_task] else []) ++ (if mk_pubsub k then [pubsub] else []).

(** *** The engine command *)

Record EngineArgv : Type := mkArgv {
  av_command : string; av_component : option string; av_interval : option string; av_health_dir : option string; av_max_age : option string }.
Record EngineArgs : Type := mkEngineArgs {
  ea_command : string; ea_component : string; ea_interval : float; ea_health_dir : string; ea_max_age : float }.

(** What the command line ends in: the exit status of a usage error, the end of
    the daemon, or the snapshot printed. *)
Inductive Outcome : Type := Usage | Finished | Printed (s : EngineHealthSnapshot).

(** [type=float] on a given option *)
Definition float_option (given : option string) (default : float) : option float :=
  match given with Some s => float_of_str s | None => Some default end.

Definition parse_engine_args (home : string) (interval max_age : float) (a : EngineArgv) : option EngineArgs :=
  if negb (bool_decide (av_command a ∈ ["run"; "health"])) then None else
  interval ← float_option (av_interval a) interval;
  max_age ← float_option (av_max_age a) max_age;
  Some (mkEngineArgs (av_command a)
          (default (default "market-maker-engine" (environ "COMPONENT_NAME")) (av_component a)) interval
          (default (default (home +:+ "/.mmbot/health") (environ "ENGINE_HEALTH_DIR")) (av_health_dir a)) max_age).

(** [files dir name] is the health file of that name. *)
Definition engine_main (home : string) (files : string -> string -> option EngineHealthSnapshot) (fromisoformat : string -> result datetime)
    (now : datetime) (daemon : ServiceSettings -> string -> float -> string -> SE World unit) (a : EngineArgv) : SE World Outcome :=
  interval ← se_lift (py_float (PStr (default "60" (environ "ENGINE_HEARTBEAT_INTERVAL_SECONDS"))));
  max_age ← se_lift (py_float (PStr (default "180" (environ "ENGINE_MAX_HEALTH_AGE_SECONDS"))));
  match parse_engine_args home interval max_age a with
  | None => mret Usage
  | Some args =>
      if String.eqb (ea_command args) "run" then
        st ← get_settings;
        _ ← daemon st (ea_component args) (ea_interval args) (ea_health_dir args);
        mret Finished
      else
        s ← se_lift (read_health fromisoformat now (ea_max_age args) (files (ea_health_dir args) (ea_component args +:+ ".health.json")));
        mret (Printed s)
  end.

End Services.

(** ** Held resources along a program *)

Definition traced (w w' : World) (h h' : list Resource) : Prop := exists l, w_log w' = w_log w ++ l /\ held_after h l = Some h'.

(** From [h], [m] ends in [h'] if it returns, and in [E] if it raises. *)
Definition moves {A} (h : list Resource) (m : SE World A) (h' : list Resource) (E : list Resource -> Prop) : Prop :=
  forall w, match m w with
            | (w', Ok _) => traced w w' h h'
            | (w', Err _) => exists h'', traced w w' h h'' /\ E h''
            end.

(** From [h], [m] ends in [h'], whether it returns or raises. *)
Definition keeps {A} (h : list Resource) (m : SE World A) (h' : list Resource) : Prop := forall w, traced w (m w).1 h h'.

Lemma held_after_app h l l' : held_after h (l ++ l') = (h' ← held_after h l; held_after h' l').
Proof. revert h. induction l as [|e l IH]; intros h; [done|]. cbn. destruct (hold h e); [apply IH|done]. Qed.

Lemma traced_refl w h : traced w w h h.
Proof. exists []. by rewrite app_nil_r. Qed.

Lemma traced_same w w' h : w_log w' = w_log w -> traced w w' h h.
Proof. intros E. exists []. by rewrite app_nil_r. Qed.

Lemma traced_trans w1 w2 w3 h1 h2 h3 : traced w1 w2 h1 h2 -> traced w2 w3 h2 h3 -> traced w1 w3 h1 h3.
Proof.
  intros (l & E & F) (l' & E' & F'). exists (l ++ l'). by rewrite E', E, app_assoc, held_after_app, F.
Qed.

Lemma traced_add w c (b : bool) h h' : hold h (c, b) = Some h' -> traced w (w_add (c, b) w) h h'.
Proof. intros H. exists [(c, b)]. split; [done|]. cbn. by rewrite H. Qed.

Section Moves.
Context (answer : nat -> Call -> option exn).

Lemma moves_ret {A} (a : A) h E : moves h (mret a) h E.
Proof. intros w. apply traced_refl. Qed.

Lemma moves_bind {A B} h h1 h2 E (m : SE World A) (k : A -> SE World B) :
  moves h m h1 E -> (forall a, moves h1 (k a) h2 E) -> moves h (m ≫= k) h2 E.
Proof.
  intros M K w. specialize (M w). unfold mbind, se_bind. destruct (m w) as [w1 [a|e]]; [|done].
  specialize (K a w1). destruct (k a w1) as [w2 [b|e]]; [by eapply traced_trans|].
  destruct K as (h' & T & HE). exists h'. split; [by eapply traced_trans|done].
Qed.

Lemma moves_call c h h' (E : list Resource -> Prop) : hold h (c, true) = Some h' -> E h -> moves h (call answer c) h' E.
Proof.
  intros H HE w. unfold call. destruct (answer _ c) as [e|]; [|by apply traced_add].
  exists h. split; [by apply traced_add|done].
Qed.

Lemma moves_sure c h h' E : hold h (c, true) = Some h' -> (forall n, answer n c = None) -> moves h (call answer c) h' E.
Proof. intros H S w. unfold call. rewrite S. by apply traced_add. Qed.

Lemma moves_note c h h' E : hold h (c, true) = Some h' -> moves h (note c) h' E.
Proof. intros H w. by apply traced_add. Qed.

Lemma moves_modify (f : World -> World) h E : (forall w, w_log (f w) = w_log w) -> moves h (se_modify f) h E.
Proof. intros F w. by apply traced_same. Qed.

Lemma moves_catch {A} h h' h1 (m : SE World A) k E :
  moves h m h' (eq h1) -> (forall e, moves h1 (k e) h' E) -> moves h (se_catch m k) h' E.
Proof.
  intros M K w. specialize (M w). unfold se_catch. destruct (m w) as [w1 [a|e]]; [done|].
  destruct M as (h'' & T & <-). specialize (K e w1). destruct (k e w1) as [w2 [b|e']]; [by eapply traced_trans|].
  destruct K as (h2 & T' & HE). exists h2. split; [by eapply traced_trans|done].
Qed.

Lemma moves_iter {A} (f : A -> SE World unit) l h E : (forall x, moves h (f x) h E) -> moves h (se_iter f l) h E.
Proof. intros F. induction l as [|x l IH]; [apply moves_ret|]. eapply moves_bind; [apply F|intros _; apply IH]. Qed.

Lemma moves_configure level h (E : list Resource -> Prop) : E h -> moves h (configure_logging level) h E.
Proof.
  intros HE w. unfold configure_logging. destruct (configure_root level (w_root w)) as [r [[]|e]]; [by apply traced_same|].
  exists h. split; [by apply traced_same|done].
Qed.

(** [start; try: body finally: stop], once [start] has returned. *)
Lemma bracket_released {A} h h1 h2 E (start : SE World unit) (body : SE World A) (stop : SE World unit) w w1 :
  moves h start h1 E -> keeps h1 body h2 -> moves h2 stop h (fun _ => False) -> start w = (w1, Ok tt) ->
  traced w ((_ ← start; se_finally body stop) w).1 h h /\ ((_ ← start; se_finally body stop) w).2 = (body w1).2.
Proof.
  intros M K S R. specialize (M w). unfold mbind, se_bind, se_finally. rewrite R in *. specialize (K w1).
  destruct (body w1) as [w2 r]. specialize (S w2). destruct (stop w2) as [w3 [[]|e]]; [|by destruct S as (? & _ & [])].
  split; [|done]. eapply traced_trans; [done|]. by eapply traced_trans.
Qed.

(** [start] has raised: [body] does not run and [stop] does not either. *)
Lemma bracket_refused {A} h h1 E (start : SE World unit) (body : SE World A) (stop : SE World unit) w w1 e :
  moves h start h1 E -> start w = (w1, Err e) ->
  (_ ← start; se_finally body stop) w = (w1, Err e) /\ exists h', traced w w1 h h' /\ E h'.
Proof. intros M R. specialize (M w). unfold mbind, se_bind. by rewrite R in *. Qed.
End Moves.

(** Calls on the way out of a service. *)
Definition exit_call (c : Call) : bool :=
  match c with Unsubscribe _ | WriteHealth _ => true | _ => bool_decide (is_Some (releases c)) end.

Section Claims.
Context (answer : nat -> Call -> option exn) (load : nat -> result ServiceSettings) (environ : string -> option string) (loop_signals : bool).

Lemma moves_settings h (E : list Resource -> Prop) : E h -> moves h (get_settings load environ) h E.
Proof.
  intros HE. unfold get_settings. eapply moves_bind; [intros w; apply traced_refl|]. intros w. destruct (w_settings w) as [s|]; [apply moves_ret|].
  eapply moves_bind; [apply moves_iter; intros f; by apply moves_modify|intros _].
  eapply moves_bind with (h1 := h).
  { intros v. unfold load_settings. destruct (load _) as [st|e]; [by apply traced_add|]. exists h. split; [by apply traced_add|done]. }
  intros st. eapply moves_bind; [apply moves_iter; intros f; by apply moves_modify|intros _].
  eapply moves_bind; [by apply moves_modify|intros _; apply moves_ret].
Qed.

(** What a failed start-up of the API may leave open. *)
Definition api_leftover (h : list Resource) : Prop := h = [] \/ h = [database_engine].

Lemma moves_open_services : moves [] (open_services answer load environ) [redis_client; database_engine] api_leftover.
Proof.
  unfold open_services. eapply moves_bind; [apply moves_settings; by left|intros st]. eapply moves_bind; [apply moves_configure; by left|intros _].
  eapply moves_bind; [apply moves_call; [reflexivity|by left]|intros _]. apply moves_call; [reflexivity|by right].
Qed.

Definition daemon_leftover (h : list Resource) : Prop :=
  h ∈ [[]; [redis_client]; [database_engine; redis_client]; [db_session; database_engine; redis_client]].

Lemma moves_start_daemon st component dir :
  moves [] (start_daemon answer loop_signals st component dir) [db_session; database_engine; redis_client] daemon_leftover.
Proof.
  clear load environ.
  unfold start_daemon, initialize_dependencies, new_redis, new_database.
  eapply moves_bind; [apply moves_configure; set_solver|intros _].
  eapply moves_bind; [apply moves_iter; intros sig; apply moves_call; [by destruct loop_signals|set_solver]|intros _].
  eapply moves_bind; [apply moves_call; [reflexivity|set_solver]|intros _].
  eapply moves_bind with (h1 := [db_session; database_engine; redis_client]).
  - do 3 (eapply moves_bind; [apply moves_call; [reflexivity|set_solver]|intros _]).
    eapply moves_bind; [eapply moves_catch; [by apply moves_call|intros e; apply moves_call; [reflexivity|set_solver]]|intros _].
    destruct (_ || _); [apply moves_call; [reflexivity|set_solver]|]. intros w. eexists. split; [apply traced_refl|set_solver].
  - intros _. eapply moves_bind; [by apply moves_note|intros _]. apply moves_call; [reflexivity|set_solver].
Qed.

Hypothesis exits : forall n c, exit_call c = true -> answer n c = None.

Lemma exits_release c r : releases c = Some r -> forall n, answer n c = None.
Proof. intros R n. apply exits. destruct c; try done; by apply bool_decide_eq_true. Qed.

Lemma moves_close_services : moves [redis_client; database_engine] (close_services answer) [] (fun _ => False).
Proof.
  unfold close_services, redis_close, database_close.
  eapply moves_bind; [by eapply moves_sure, exits_release|intros _; by eapply moves_sure, exits_release].
Qed.

Lemma moves_stop_daemon h stop_engine :
  moves h stop_engine [db_session; database_engine; redis_client] (fun _ => False) -> moves h (stop_daemon answer stop_engine) [] (fun _ => False).
Proof.
  intros M. unfold stop_daemon, redis_close, database_close. eapply moves_bind; [by apply moves_note|intros _].
  eapply moves_bind; [apply moves_sure; [reflexivity|intros n; by apply exits]|intros _]. eapply moves_bind; [exact M|intros _].
  do 3 (eapply moves_bind; [by eapply moves_sure, exits_release|intros _]).
  eapply moves_bind; [apply moves_sure; [reflexivity|intros n; by apply exits]|intros _]. by apply moves_note.
Qed.

Lemma hold_release_fresh c r h : opens c = None -> releases c = Some r -> r ∉ h -> hold (r :: h) (c, true) = Some h.
Proof.
  intros O R F. unfold hold. cbn [fst snd negb]. rewrite O, R, bool_decide_eq_true_2 by set_solver. cbn [List.filter].
  rewrite bool_decide_eq_true_2 by done. cbn [negb]. f_equal. apply forallb_filter_id. apply forallb_forall. intros x Hx.
  apply negb_true_iff, bool_decide_eq_false. intros ->. by apply F, list_elem_of_In.
Qed.

Lemma hold_open_fresh c r h : opens c = Some r -> r ∉ h -> hold h (c, true) = Some (r :: h).
Proof. intros O F. unfold hold. cbn. by rewrite O, bool_decide_eq_false_2. Qed.

Lemma moves_open_subscription h channels : pubsub ∉ h ->
  moves h (open_subscription answer channels) (pubsub :: h) (fun h' => h' = h \/ h' = pubsub :: h).
Proof.
  intros F. unfold open_subscription.
  eapply moves_bind; [apply moves_call; [by apply hold_open_fresh|by left]|intros _]. apply moves_call; [done|by right].
Qed.

Lemma moves_close_subscription h channels : pubsub ∉ h -> moves (pubsub :: h) (close_subscription answer channels) h (fun _ => False).
Proof.
  intros F. unfold close_subscription.
  eapply moves_bind; [apply moves_sure; [done|intros n; by apply exits]|intros _].
  eapply moves_sure; [by apply hold_release_fresh|by eapply exits_release].
Qed.

(** The maker stops with everything it has started. *)
Lemma moves_maker_stop k :
  moves (maker_holds k ++ [db_session; database_engine; redis_client]) (maker_stop answer k) [db_session; database_engine; redis_client] (fun _ => False).
Proof.
  destruct k as [? [] [] [] []]; unfold maker_stop; cbn [mk_consumer mk_pubsub mk_stream mk_client].
  all: do 4 (eapply moves_bind; [first [apply moves_ret | by apply moves_note | by eapply moves_sure, exits_release]|intros _]).
  all: first [apply moves_ret | by eapply moves_sure, exits_release].
Qed.
End Claims.

(** C29: when closing, cancelling and writing the health file do not fail, a
    service that has started ends with nothing it opened still open and nothing
    released twice, and with the result of its body, whether the body returned
    or raised: the API around its serving, the engine daemon around its loop,
    whatever the engine has opened and [stop] releases, and a Redis
    subscription around its use. A service whose start-up raises ends there
    with the same exception, without running its body. *)
Theorem services_release_what_they_open answer load environ loop_signals :
  (forall n c, exit_call c = true -> answer n c = None) ->
  (forall A (serving : SE World A) w w1, keeps [redis_client; database_engine] serving [redis_client; database_engine] ->
     let run := lifespan answer load environ serving in
     (open_services answer load environ w = (w1, Ok tt) -> traced w (run w).1 [] [] /\ (run w).2 = (serving w1).2) /\
     (forall e, open_services answer load environ w = (w1, Err e) -> run w = (w1, Err e) /\ exists h, traced w w1 [] h /\ api_leftover h)) /\
  (forall st component dir (loop stop_engine : SE World unit) h w w1, keeps [db_session; database_engine; redis_client] loop h ->
     moves h stop_engine [db_session; database_engine; redis_client] (fun _ => False) ->
     let run := daemon_run answer loop_signals st component dir loop stop_engine in
     let start := start_daemon answer loop_signals st component dir in
     (start w = (w1, Ok tt) -> traced w (run w).1 [] [] /\ (run w).2 = (loop w1).2) /\
     (forall e, start w = (w1, Err e) -> run w = (w1, Err e) /\ exists h', traced w w1 [] h' /\ daemon_leftover h')) /\
  (forall A channels (body : SE World A) h w w1, pubsub ∉ h -> keeps (pubsub :: h) body (pubsub :: h) ->
     open_subscription answer channels w = (w1, Ok tt) ->
     traced w (subscribe answer channels body w).1 h h /\ (subscribe answer channels body w).2 = (body w1).2).
Proof.
  intros X. split_and!.
  - intros A serving w w1 K run. split.
    + intros R. by eapply bracket_released; [apply moves_open_services|exact K|apply moves_close_services|].
    + intros e R. exact (bracket_refused _ _ _ _ _ _ w w1 e (moves_open_services answer load environ) R).
  - intros st component dir loop stop_engine h w w1 K S run start. split.
    + intros R. by eapply bracket_released; [apply moves_start_daemon|exact K|apply moves_stop_daemon|].
    + intros e R. exact (bracket_refused _ _ _ _ _ _ w w1 e (moves_start_daemon answer loop_signals st component dir) R).
  - intros A channels body h w w1 F K R. by eapply bracket_released; [apply moves_open_subscription|exact K|apply moves_close_subscription|].
Qed.

(** *** The market maker as the engine of the daemon *)

Definition new_maker : Maker := mkMaker false false false false false.

(** However far the start of the maker gets, its fields name what it holds. *)
Lemma maker_start_holds answer live w :
  let '(w', (k, _)) := maker_start answer live new_maker w in
  traced w w' [db_session; database_engine; redis_client] (maker_holds k ++ [db_session; database_engine; redis_client]).
Proof.
  unfold maker_start, new_maker, call. cbn [mk_started mk_pubsub mk_consumer mk_stream mk_client negb andb].
  destruct (answer _ OpenPubSub); [|destruct (answer _ (PSubscribe patterns)); [|destruct live; cbn [andb]; [destruct (answer _ (OpenClient 0))|]]].
  all: eexists; split; [cbn [w_log w_add]; rewrite <- ?app_assoc; reflexivity|reflexivity].
Qed.

Definition calm (n : nat) (c : Call) : option exn := None.
Definition demo_service : ServiceSettings :=
  mkService "INFO" "127.0.0.1" 8000 "sqlite+aiosqlite:///mm.db" 10 20 30 "redis://localhost" None (of_Z 5)
    [("MARKET_DATA_EXCHANGES", ["coinstore"]); ("MARKET_DATA_SYMBOLS", ["BTC/USDT"]); ("MARKET_DATA_STREAMS", ["ticker"])].
Definition blank_world : World := mkWorld [] (mkRoot ["default"] 30) None [].

(** A maker that starts, and a tick that fails for good. *)
Definition maker_loop : SE World unit := fun w =>
  let '(w', _) := maker_start calm true new_maker w in (w', raise RuntimeError "tick failed").
Definition maker_running : Maker := mkMaker true true true true true.

Lemma maker_loop_keeps : keeps [db_session; database_engine; redis_client] maker_loop (maker_holds maker_running ++ [db_session; database_engine; redis_client]).
Proof. intros w. exact (maker_start_holds calm true w). Qed.

Lemma services_release_what_they_open_witness :
  let run := daemon_run calm true demo_service "market-maker-engine" "health" maker_loop (maker_stop calm maker_running) in
  traced blank_world (run blank_world).1 [] [] /\ (run blank_world).2 = raise RuntimeError "tick failed".
Proof.
  intros run. assert (X : forall n c, exit_call c = true -> calm n c = None) by done.
  destruct (services_release_what_they_open calm (fun _ => Ok demo_service) (fun _ => None) true X) as (_ & D & _).
  eapply (proj1 (D demo_service "market-maker-engine" "health" maker_loop (maker_stop calm maker_running) _ blank_world _ maker_loop_keeps (moves_maker_stop calm X maker_running))).
  vm_compute. reflexivity.
Defined.

(** ** What is left open when a call fails *)

Definition fails_at (c : Call) (n : nat) (c' : Call) : option exn :=
  match c, c' with
  | CloseRedis, CloseRedis | ClosePubSub, ClosePubSub | FromUrl _ _, FromUrl _ _ | PSubscribe _, PSubscribe _ => Some (mkExn TransportError "connection lost")
  | _, _ => None
  end.

Definition left_open {A} (x : World * result A) : option (list Resource) := held_after [] (w_log x.1).

(** Closing Redis first, without its own [try], keeps the database engine open
    when that raises. *)
Lemma redis_close_failure_keeps_database :
  left_open (lifespan (fails_at CloseRedis) (fun _ => Ok demo_service) (fun _ => None) (mret tt) blank_world) = Some [redis_client; database_engine].
Proof. vm_compute. reflexivity. Qed.

(** The services are opened before the [try]: a Redis client that cannot be
    built keeps the database engine open. *)
Lemma failed_redis_keeps_database :
  left_open (lifespan (fails_at (FromUrl "" [])) (fun _ => Ok demo_service) (fun _ => None) (mret tt) blank_world) = Some [database_engine].
Proof. vm_compute. reflexivity. Qed.

(** The component is looked at after everything is open and before the [try]. *)
Lemma unsupported_component_keeps_connections :
  let run := daemon_run calm true demo_service "volume-engine" "health" (mret tt) (mret tt) blank_world in
  run.2 = raise ValueError "Unsupported engine component: volume-engine" /\ left_open run = Some [db_session; database_engine; redis_client].
Proof. vm_compute. done. Qed.

(** A failing [aclose] of the subscription leaves the private stream, its REST
    client and, through the daemon's shutdown, every connection. *)
Lemma pubsub_close_failure_keeps_stream :
  left_open (daemon_run (fails_at ClosePubSub) true demo_service "market-maker-engine" "health" maker_loop (maker_stop (fails_at ClosePubSub) maker_running) blank_world)
  = Some [private_task; rest_client 0; pubsub; db_session; database_engine; redis_client].
Proof. vm_compute. reflexivity. Qed.

(** A start of the maker that fails at the subscription is never made up for:
    later ticks find it started and do nothing, so no message, in particular no
    shutdown command, is ever read. *)
Lemma failed_subscription_is_final live w :
  let '(_, (k, r)) := maker_start (fails_at (PSubscribe [])) live new_maker w in
  (exists e, r = Err e) /\ mk_consumer k = false /\ forall answer w', maker_start answer live k w' = (w', (k, Ok tt)).
Proof. cbn. split_and!; [by eexists|done|done]. Qed.

(** ** Settings and logging *)

Lemma emit_diagnostics_prints environ settings w :
  emit_diagnostics environ settings w =
  (mkWorld (w_log w) (w_root w) (w_settings w) (w_stderr w ++ map (fun f => dumps_compact (PDict (diagnostics_line environ settings f))) diagnostics_fields), Ok tt).
Proof.
  unfold emit_diagnostics. generalize diagnostics_fields. intros l. revert w. induction l as [|f l IH]; intros w; cbn [se_iter map].
  - rewrite app_nil_r. by destruct w.
  - unfold mbind, se_bind, se_modify. rewrite IH. cbn [w_log w_root w_settings w_stderr w_print]. by rewrite <- app_assoc.
Qed.

(** The first call, with an empty cache. *)
Lemma get_settings_first load environ w : w_settings w = None ->
  let lines p := map (fun f => dumps_compact (PDict (diagnostics_line environ p f))) diagnostics_fields in
  get_settings load environ w =
  match load (length (w_log w)) with
  | Ok s => (mkWorld (w_log w ++ [(LoadSettings, true)]) (w_root w) (Some s) (w_stderr w ++ lines None ++ lines (Some s)), Ok s)
  | Err e => (mkWorld (w_log w ++ [(LoadSettings, false)]) (w_root w) None (w_stderr w ++ lines None), Err e)
  end.
Proof.
  intros C lines. unfold get_settings, mbind, se_bind, se_get. rewrite C, emit_diagnostics_prints. unfold load_settings. cbn [w_log].
  destruct (load _) as [s|e]; [|by unfold w_add; cbn; rewrite C]. rewrite emit_diagnostics_prints. unfold w_add, se_modify, w_cache, mret, se_ret.
  cbn [w_log w_root w_settings w_stderr]. by rewrite <- app_assoc.
Qed.

(** Settings are read once: after a call that returned, every call returns the
    same settings and prints nothing. *)
Lemma get_settings_once load environ w w1 s :
  get_settings load environ w = (w1, Ok s) -> get_settings load environ w1 = (w1, Ok s).
Proof.
  intros E. assert (C : w_settings w1 = Some s).
  { destruct (w_settings w) as [s'|] eqn:Ew; [|rewrite get_settings_first in E by done; destruct (load _); [by injection E as <- <-|done]].
    revert E. unfold get_settings, mbind, se_bind, se_get. rewrite Ew. by intros [= <- <-]. }
  unfold get_settings, mbind, se_bind, se_get. by rewrite C.
Qed.

(** Every diagnostic line is JSON that names its field and the raw value. *)
Lemma diagnostics_line_json environ settings field :
  loads (dumps_compact (PDict (diagnostics_line environ settings field))) = Ok (PDict (diagnostics_line environ settings field)).
Proof.
  apply (loads_dumps "" "" eq_refl eq_refl). unfold diagnostics_line.
  assert (F : forall l, forallb json_exact (map PStr l) = true) by (intros l; induction l; [done|by cbn]).
  destruct (environ field), settings as [st|]; cbn; try reflexivity; destruct (od_get field (sv_market_data st)); cbn; try reflexivity;
    by rewrite F.
Qed.

(** Every level the settings accept is one the logging library knows, except
    TRACE, with which no service starts. *)
Lemma accepted_level_configures value level r : validate_log_level value = Ok level ->
  if String.eqb level "TRACE" then (configure_root level r).2 = raise ValueError "Unknown level: 'TRACE'"
  else exists z, configure_root level r = (mkRoot ["JsonFormatter on stdout"] z, Ok tt) /\ (10 <= z <= 50)%Z.
Proof.
  unfold validate_log_level. case_bool_decide as M; [|done]. intros [= <-]. revert M. generalize (str_upper value). intros l M.
  unfold log_levels in M. do 7 (apply elem_of_cons in M as [->|M]; [first [reflexivity|eexists; split; [reflexivity|lia]]|]).
  by apply not_elem_of_nil in M.
Qed.

(** ** Closing clients, and the engine command *)

(** Every client is closed, whichever of them fail, and nothing is raised. *)
Lemma close_many_attempts_all answer clients w :
  exists l, close_many answer clients w = (mkWorld (w_log w ++ l) (w_root w) (w_settings w) (w_stderr w), Ok tt) /\ l.*1 = map CloseClient clients.
Proof.
  revert w. induction clients as [|n rest IH]; intros w.
  - exists []. rewrite app_nil_r. by destruct w.
  - cbn [close_many]. unfold mbind, se_bind, se_catch, call.
    destruct (answer _ (CloseClient n)) as [e|]; match goal with |- context [w_add ?x w] => destruct (IH (w_add x w)) as (l & E & F); exists (x :: l) end.
    all: cbn; rewrite E; cbn; rewrite F, <- app_assoc; done.
Qed.

(** The health command prints only a healthy snapshot of the named component's
    file, and opens nothing. *)
Lemma health_prints_healthy load environ home files fromiso now daemon a w w' s :
  engine_main load environ home files fromiso now daemon a w = (w', Ok (Printed s)) ->
  w' = w /\ eh_status s = "healthy" /\ exists dir component, files dir (component +:+ ".health.json") = Some s.
Proof.
  unfold engine_main, mbind, se_bind, se_lift. destruct (py_float _) as [i|]; [|done]. destruct (py_float _) as [m|]; [|done].
  destruct (parse_engine_args _ _ _ _ _) as [args|]; [|done]. destruct (String.eqb (ea_command args) "run").
  { destruct (get_settings load environ w) as [w1 [st|]]; [|done]. destruct (daemon _ _ _ _ _) as [? []]; done. }
  destruct (files _ _) as [x|] eqn:F; cbn; [|done]. unfold mbind, result_bind. destruct (fromiso _); [|done].
  destruct (String.eqb (eh_status x) "healthy") eqn:S; cbn; [|done]. destruct (fgt _ _); [done|].
  intros [= <- <-]. split_and!; [done|by apply String.eqb_eq|by eexists _, _].
Qed.
